(* ===== verification/_CoqProject ===== *)
-Q . S2P
Prelude.v
RustStd.v
Text.v
Minicbor.v
Protocol.v
Rfc8949.v
ProtocolProofs.v
Framing.v
Externals.v
Base64.v
K8s.v
KubeStore.v
K8sProofs.v
Registry.v
RegistryProofs.v
Gateway.v
HttpApi.v
GatewaySteps.v
GatewayProofs.v
EnrollmentProofs.v
EnrollmentRace.v
HeartbeatProofs.v
HttpApiProofs.v
Tls.v
TlsProofs.v
GatewayStart.v
GatewayModules.v
EdgeClient.v
EdgeClientProofs.v
EdgeClientRun.v
EdgeClientExec.v
Certificates.v
CertificatesProofs.v
WasmRuntime.v
WasmRuntimeProofs.v
RuntimeDevice.v
RuntimeProbe.v
Decimal.v
RuntimeHost.v
RuntimeHostProofs.v
Security.v
ControllerApi.v
DeviceController.v
DeviceControllerProofs.v
DeviceControllerSpec.v
AppController.v
AppControllerProofs.v
GatewayController.v
GatewayControllerProofs.v
AppDeployment.v
ControllersTogether.v
HttpRoutes.v
Infrastructure.v
Config.v
Renode.v
RenodeProofs.v
FirmwareWamr.v
FirmwareWamrProofs.v
Firmware.v
FirmwareProofs.v
FirmwareLab.v
FirmwareWire.v
FirmwareGateway.v
FirmwareDeploy.v
FirmwareLimits.v
FirmwareTiming.v
FirmwareBoot.v
RenodeManager.v
RenodeManagerProofs.v
RenodeCli.v
Dashboard.v
DashboardCompile.v
DashboardApi.v
DashboardProofs.v
DashboardPages.v
GatewayViews.v
ServiceStart.v
TcpBridge.v
ProtocolTool.v
ResourceTool.v
