(* ===== verification/Prelude.v ===== *)
(** * wasmbed: a verification library for the Kubernetes-native WASM edge platform

    ** The program

    A gateway accepts TLS connections of edge devices, enrolls them with a
    proof of possession of their key, keeps a registry of their connections,
    reflects their state into Kubernetes Device and Application objects and
    sends them WebAssembly modules. An edge client is the device side. Both
    speak length-prefixed frames of hand-written CBOR. A runtime library loads
    and meters modules on a device; the boards run a firmware in C for the
    Zephyr system with a WebAssembly interpreter of its own. Three controllers reconcile Devices,
    Applications and Gateways; an emulator manager runs devices under Renode;
    an infrastructure service keeps certificates, secrets and logs; a dashboard
    server drives them all through kubectl and HTTP. All paths below are under
    [src/crates/], those of the firmware under [src/zephyr-app/src/].

    ** Files and what they model

    - [Prelude], [RustStd], [Text], [Decimal]: results, machine integers,
      bytes, loops and the parts of the Rust standard library that the sources
      use (UTF-8, BTreeMap, string search, hexadecimal formatting, lines and
      trimming, decimal text).
    - [Minicbor], [Rfc8949]: the encoder and decoder primitives of the minicbor
      crate as a class with laws, and the RFC 8949 codec as an instance.
    - [Protocol], [ProtocolProofs]: [wasmbed-protocol/src/lib.rs] and [cbor.rs]:
      [ClientMessage], [ServerMessage], [encode_client], [decode_client],
      [encode_server], [decode_server] are the four trait implementations.
    - [Framing]: the frames of [wasmbed-edge-client/src/protocol.rs]
      ([read_frame], [send_message]) and of the reader and writer tasks in
      [wasmbed-tls-utils/src/lib.rs] ([gateway_read_loop], [gateway_write]).
    - [Externals], [Base64]: base64, SHA-256, ECDSA P-256 and UUID parsing as
      classes with laws; base64 is also defined and proved, the other three
      have toy instances used by witnesses only.
    - [K8s], [KubeStore], [K8sProofs]: [wasmbed-k8s-resource] and
      [wasmbed-types]: Device and Application objects, phases, transition
      tables, status updates and their JSON. The Kubernetes API is the class
      [Kube] over an abstract cluster state, [KubeStoreLaws] is what the
      gateway relies on, [mem_kube] an in-memory cluster that satisfies it.
    - [Registry], [RegistryProofs]: the state and the methods of
      [HttpApiServer] in [wasmbed-gateway/src/http_api.rs].
    - [Gateway]: the callbacks and the heartbeat monitor of
      [wasmbed-gateway/src/main.rs]; one definition per callback, one per
      message of [on_message].
    - [HttpApi], [HttpApiProofs]: the deploy and stop requests with the tasks
      they spawn, device creation, and application views of [http_api.rs].
    - [HttpRoutes]: the routes of [http_api.rs] that create, change and delete
      objects (class [CrudKube], laws [CrudLaws]), those that only answer, and
      the routing table.
    - [GatewayViews]: the settings of [http_api.rs] and its routes with fixed or
      invented answers.
    - [GatewayModules]: [deployment.rs], [enrollment.rs], [heartbeat.rs] and
      [local_cache.rs], which the crate does not compile.
    - [GatewaySteps], [GatewayProofs]: the order in which
      [GatewayServer::handle_tls_connection] runs the callbacks, as a step
      relation over interleaved connections, and its reachable states.
    - [EnrollmentProofs], [HeartbeatProofs]: enrollment and heartbeats against
      the stored devices.
    - [EnrollmentRace]: [complete_enrollment] as a task that stops at each of
      its awaits ([advance]), and several of them interleaved ([race]).
    - [Tls], [TlsProofs]: the rest of [wasmbed-tls-utils/src/lib.rs]: keys,
      certificates and CA bundles (the crates pem and x509-parser are the
      classes [Pem] and [X509], [PemLaws] what the bundle theorem relies on),
      the accept loop of [GatewayServer] and the plain-TCP servers.
    - [GatewayStart]: [main] of [wasmbed-gateway/src/main.rs], and the states of
      a started gateway whose connections come from TLS handshakes; rustls is
      the class [TlsPeers], its client verifier the laws [TlsPeersLaws].
    - [EdgeClient], [EdgeClientProofs]: [identity.rs], the enrollment state
      machine and the message loop of [protocol.rs], and [wasm_runner.rs] of
      [wasmbed-edge-client]; the client and the gateway run against each other.
    - [EdgeClientRun]: [run] of [protocol.rs] and [main.rs]: the connection, then
      the event loop, the heartbeat timer and the writer as steps of three tasks
      over a channel of 32 messages.
    - [EdgeClientExec]: [run_wasm_module] and the blocking tasks behind the
      abort handles of [WasmRunner]; wasmtime and tokio are the classes
      [Wasmtime] and [Tokio]. The order of a HashMap's keys is the class
      [HashOrder].
    - [TcpBridge]: [wasmbed-tcp-bridge]: the forwarding threads as steps over two
      sockets.
    - [Certificates], [CertificatesProofs]: [wasmbed-cert] and
      [wasmbed-cert-tool] over a file system; rcgen is the class [Rcgen] with
      [CertLaws].
    - [ProtocolTool], [ResourceTool]: [wasmbed-protocol-tool] with the envelopes
      of the protocol, and [wasmbed-k8s-resource-tool].
    - [WasmRuntime], [WasmRuntimeProofs]: [config.rs], [context.rs],
      [validation.rs] and [runtime.rs] of [wasmbed-wasm-runtime].
    - [RuntimeDevice], [RuntimeHost], [RuntimeHostProofs], [RuntimeProbe]:
      [device.rs], the data of [context.rs], [host_functions], the linking of
      [runtime.rs], and [bin/fuel_load_probe.rs]; guest memory is a class with
      laws.
    - [Security]: [security.rs] of [wasmbed-wasm-runtime].
    - [ControllerApi]: the Gateway resource ([gateway.rs]), the requests and
      the state monad of the controllers.
    - [DeviceController], [DeviceControllerProofs], [DeviceControllerSpec]:
      [wasmbed-device-controller/src/main.rs], and the specification of one
      reconciliation by the stored status and the gateways.
    - [AppController], [AppControllerProofs], [AppDeployment]:
      [wasmbed-application-controller/src/main.rs].
    - [GatewayController], [GatewayControllerProofs]:
      [wasmbed-gateway-controller/src/main.rs], over the class [GwKube] with the
      laws [GwLaws] and [GwReliable]; [gwstore] is an instance.
    - [ControllersTogether]: the gateway controller and the device controller on
      one cluster ([SharedCluster]).
    - [Infrastructure]: [wasmbed-infrastructure].
    - [Config]: [wasmbed-config/src/lib.rs]; the file system and the YAML
      library are parameters of the two file operations.
    - [Renode], [RenodeProofs], [RenodeManager], [RenodeManagerProofs],
      [RenodeCli]: [wasmbed-qemu-manager/src/lib.rs] and [main.rs]: board tables, endpoints, the memory
      blobs read by the Zephyr firmware, start-up scripts, and the device table
      with its operations; the memory of the emulator is the class [Emulator]
      with [EmulatorLaws], what docker, kubectl and the file system answer the
      record [qenv].
    - [FirmwareWamr], [FirmwareWamrProofs]: [wamr_integration.c]: the tables of
      modules and instances around the WebAssembly Micro Runtime (class [Wamr],
      laws [WamrLaws]).
    - [Firmware], [FirmwareProofs]: [network_handler.c], [wasmbed_protocol.c] and
      [main.c]: the static variables are the record [device], a C function is a
      command that ends with a value ([Done]), with an access outside of an
      array ([Fault]) or with its rounds used up ([Spin]); Zephyr and mbedTLS
      are the classes [Zephyr] and [MbedTls]. [FirmwareProofs] has the program
      logic ([wp], [ensures], the tactic [keep]) and the safety theorem.
    - [FirmwareLab], [FirmwareWire]: a world in which the firmware's socket ends
      at the gateway of [Gateway], byte for byte and in arbitrary pieces; the
      packets the firmware builds, decoded by [Protocol]. CBOR is [Rfc8949]
      there, since the firmware spells out its bytes.
    - [FirmwareGateway], [FirmwareDeploy], [FirmwareBoot]: the firmware and the
      gateway together: enrollment, deployment, and the start-up of a board
      whose memory the emulator manager wrote.
    - [FirmwareLimits], [FirmwareTiming]: what does not fit, what is ignored or
      lost, and the timers.
    - [Dashboard], [DashboardApi], [DashboardProofs]: [wasmbed-api-server]: the
      managers that read the cluster through kubectl, views and statistics, the
      handlers over the emulator manager's table and an abstract world
      ([DashWorld]: kubectl, the shell, HTTP), and the routing table.
    - [DashboardCompile], [DashboardPages]: [compile_code] as interleaved
      requests over shared build directories (cargo is a parameter), and the
      tables of [templates.rs].
    - [ServiceStart]: configuration, [new] and the tasks of [run] of the
      dashboard server and the infrastructure service.

    State is passed explicitly: the registry is the record [HttpApiServer], its
    Rust maps are finite maps, Kubernetes is the abstract world [W]. A clock
    reading, a random nonce or a fresh UUID is an argument ([Inputs]). Errors
    are values of [result]; a panic is a value too where one can happen.

    ** What the theorems show

    - Wire: both codecs round-trip and leave the rest of the input; the client
      encoding is prefix-free; malformed headers are reported precisely; frames
      are read back in order and the reader stops at the first bad length.
    - Identity: in every reachable state of the gateway, a bound connection
      has answered a fresh challenge with a valid signature in time, or was
      bound by a deployment request; challenges are single use and expire; a
      signature binds nonce and key; an enrolled device that returns is bound
      to its object and keeps its UUID, whoever else enrolls meanwhile, while it
      is the only holder of its key. In a gateway that requires client certificates the key is the one of a
      certificate that the configured CA vouches for.
    - Concurrency: overlapping enrollments lose no Device object and bind a
      connection only to an object with the key its peer proved, but can create
      two objects for one key.
    - Firmware: started on a board with the injected identity it enrolls at the
      gateway and is bound to its Device object; the gateway's deployments are
      parsed exactly, loaded, instantiated and started as the only module, in
      every runtime that accepts them, and acknowledged; its packets are the
      messages of the protocol. It never leaves a buffer and every loop
      ends, whatever arrives; its tables own exactly the objects of the runtime;
      its heartbeats outpace the monitor, also when the clock wraps. Its limits
      are theorems too: a refused deployment takes over the name of the running
      one, messages other than a deployment are ignored, a frame behind another
      one is lost, long identifiers are cut, frames over 16508 bytes end the
      connection.
    - Provisioning: what the certificate tool issues chains to its authority, and
      a device provisioned with it enrolls; a device from a manifest of the
      resource tool does not, an application from one reaches its devices with
      the bytes of its file.
    - Transport: the bridge delivers every byte once and in order and its threads
      end; messages sent through it are read by the gateway as they were sent.
    - The client at run time: under every interleaving the answers leave in the
      order of the requests; a stop reaches a module that has not begun, and one
      that executes goes on executing.
    - Settings: only administrative requests change pairing mode and timeouts.
    - Start-up: CA bundles are read completely, the loop over them ends for
      every PEM parser, the first certificate is the one trusted; the accept
      loop serves every completed handshake up to the first stalled one.
    - Registry and HTTP routes: a state invariant over all methods, resolution
      of devices by any base64 form of their key, create/read/update/delete of
      applications, a routing table without ambiguity.
    - Kubernetes: what enrollment, heartbeats and the monitor do to the stored
      devices, exactly; order of phases.
    - Deployment: the module on the wire is the one of the Application object,
      with its digest; the client checks the digest and keeps one task per
      application.
    - Runtime: instances stay within the limit, fuel is conserved from the end
      of the start function, a validated
      module meets the profile, nonces of the cipher never repeat; a guest
      imports two functions only, which read and write exactly the memory they
      were given.
    - Controllers: what a reconciliation of a current Device writes, asks and
      returns, for every stored status, so that a new device is led to a running
      gateway; a deployment round sends to the connected targets exactly, counts
      them and concludes the right phase. The gateway controller refines a
      specification of what one reconciliation creates, fails safely, and
      converges unless a foreign Deployment refuses its patch (then the gateway
      stays as it was); with the device controller it leads
      a new gateway and a new device to an enrollment. A Connected device is
      refreshed past the heartbeat monitor.
    - Emulation: the firmware reads back the identity and the endpoint that the
      manager wrote to memory; the table of devices keeps its invariant; a start
      launches a board exactly when it can, with the given effects in order.
    - Dashboard: a batch of devices is accounted for completely and disturbs no
      existing emulation, a deployment asks every target once and reports each
      answer truthfully, the statistics
      stay consistent whatever fails, the terminal runs a fixed list only,
      compilations of different seconds are isolated, and the connect route
      reports no more than it knows.
    - Configuration and infrastructure: both refine histories of their
      operations; logs are kept up to 1000.
    - Behaviours that contradict a comment or defeat the purpose of the code
      are theorems as well: for example [edge_client_always_rejected],
      [late_disconnect_cuts_new_session], [deploy_binds_unproven_connection],
      [stop_reaches_waiting_tasks_only], [manifest_device_unrecognised],
      [overlapping_enrollments_duplicate], [refused_app_reported_running].

    ** Bounds and fuel

    - [gateway_read_fuel] takes one unit per frame; a frame has at least five
      bytes, so the length of the stream is enough ([fuel_enough]).
    - [for_loop] runs exactly the given number of rounds and stops at the first
      error, by recursion on the binary count, so a hostile length of 2^64 is
      still executable.
    - [trim_start_matches] uses the length of the string, [skip_items] of
      [Rfc8949] the length of the input, [parse_blocks] one unit per 25 bytes
      ([parse_certificates_terminates]), [remove_all] of [Renode] the length of
      the string it removes from.
    - [words_fuel], [trim_any_fuel] and [read_cells_fuel] take the length of
      their text ([trim_any_done]); the connection loop of the emulator's
      monitor has the five attempts of the source.
    - The receive loop of the firmware sleeps 50 ms a round until its deadline,
      so [recv_rounds] (the rounds of the timeout, and two) never run out
      ([recv_until_wp]); the loop of its framed receive adds a byte each round,
      so the wanted length is enough ([recv_exactly_lab]). [main_rounds] is the
      endless main loop, cut after any number of rounds.
    - A task of [EnrollmentRace] has at most eight waits
      ([task_alone_is_complete_enrollment]).
    - The polling loops of [deploy_application] have the five and thirty rounds
      of the source; between two rounds the rest of the gateway is an arbitrary
      function of the state.

    ** Idealisations

    The laws of the classes are what the theorems assume of other code; each has
    an instance. The strong ones:
    - [EcdsaLaws]: an honest signature verifies for the signed message and for
      no other ([sign_binds]), as for a hash without collisions.
    - [Wamr]: a call into a guest returns, so guest code is taken to terminate;
      wasmtime calls return an outcome or a trap, and [WasmtimeFuel] says that
      running code never adds fuel.
    - [Tokio]: aborting a blocking task cancels it before it starts and does
      nothing afterwards.
    - [Cargo] builds from [lib.rs] alone: what an earlier build left in the same
      target directory does not matter.
    - [lab_zephyr], the network of [FirmwareLab]: DHCP, connect and the TLS
      handshake succeed. The WebAssembly runtime of the lab theorems is
      arbitrary; [toy_wamr] is only used in witnesses.
    - [f32_to_f64] is the widening of the bit patterns.

    ** What is not modelled

    - The TLS handshake, X.509 and PEM decoding, sockets and signals; they are
      parameters.
    - Interleavings inside one callback: a callback is one step, although its
      awaits let other tasks run; [EnrollmentRace] does it step by step for the
      enrollment, with each method of the registry as one step. The sections of the emulator manager's
      [start_device] between two locks are steps of their own. Locks, and hence
      deadlocks, are not modelled.
    - A full reply channel (32 messages) drops a reply; [exchange] records what
      was handed to the channel.
    - Execution of a module by wasmtime: a call's outcome is an argument.
    - In the firmware: what Zephyr does with memory after it has started (the
      world decides what a read returns), [check_credentials] and other
      logging, and [cbor_skip_one], which nothing calls.
    - The watch loops of kube-rs, HTTP middleware, logging, the fixed HTML of the
      pages, [tls_server.rs] of the gateway (it only sleeps), test code.

    ** Plan

    What is left: the other callbacks as tasks, and a step relation with the
    registry's locks. *)

From stdpp Require Export base gmap strings list fin_maps.
From Stdlib Require Export ZArith Lia.
From Stdlib Require Strings.Byte Strings.String.
From Stdlib Require Export Init.Byte.
#[global] Open Scope Z_scope.
#[global] Open Scope list_scope.

(** ** Results: Rust's [Result<A, E>] and the [?] operator *)

Inductive result (E A : Type) : Type :=
| Ok (a : A)
| Err (e : E).
Arguments Ok {E A} _.
Arguments Err {E A} _.

Definition rbind {E A B} (c : result E A) (k : A -> result E B) : result E B :=
  match c with Ok a => k a | Err e => Err e end.

Definition is_ok {E A} (c : result E A) : bool :=
  match c with Ok _ => true | Err _ => false end.

Declare Scope rust_scope.
Delimit Scope rust_scope with rust.
Notation "'let?' x ':=' c 'in' k" := (rbind c (fun x => k))
  (at level 10, x pattern, c at level 100, k at level 200) : rust_scope.
Notation "'let*' x ':=' c 'in' k" := (match c with Some x => k | None => None end)
  (at level 10, x pattern, c at level 100, k at level 200) : rust_scope.
#[global] Open Scope rust_scope.

Lemma rbind_ok_inv {E A B} (c : result E A) (k : A -> result E B) b :
  rbind c k = Ok b -> exists a, c = Ok a /\ k a = Ok b.
Proof. destruct c; simpl; [eauto | discriminate]. Qed.

(** ** Tactics and hint databases *)

Create HintDb wasmbed.
Create HintDb widths.

(** Open the bind of a [?]-chain that is known to have succeeded. *)
Ltac inv_rbind :=
  repeat match goal with
  | H : rbind _ _ = Ok _ |- _ =>
      let a := fresh "a" in let Ha := fresh "Ha" in let Hk := fresh "Hk" in
      apply rbind_ok_inv in H; destruct H as (a & Ha & Hk)
  end.

(** Split every [if] and [match] of the goal and close the contradictory
    branches; the workhorse for handlers with many early returns. *)
Ltac split_branches :=
  repeat (case_match; simplify_eq/=; try done).

(** ** Machine widths *)

Definition u8_max : Z := 255.
Definition u32_max : Z := 2 ^ 32 - 1.
Definition u64_max : Z := 2 ^ 64 - 1.
Definition usize_max : Z := u64_max.

Definition is_u8 (z : Z) : Prop := 0 <= z <= u8_max.
Definition is_u32 (z : Z) : Prop := 0 <= z <= u32_max.
Definition is_u64 (z : Z) : Prop := 0 <= z <= u64_max.

(** [wrapping_add] at 32 bits. *)
Definition wrap32 (z : Z) : Z := z mod 2 ^ 32.

(** [x as i64] of a [u64]. *)
Definition as_i64 (z : Z) : Z := if z <? 2 ^ 63 then z else z - 2 ^ 64.

(** [saturating_sub] on unsigned integers. *)
Definition saturating_sub (a b : Z) : Z := Z.max 0 (a - b).

Ltac widths := unfold is_u8, is_u32, is_u64, usize_max, u8_max, u32_max, u64_max in *; try lia.
#[export] Hint Extern 1 (is_u8 _) => widths : widths.
#[export] Hint Extern 1 (is_u32 _) => widths : widths.
#[export] Hint Extern 1 (is_u64 _) => widths : widths.
#[export] Hint Extern 2 (is_u32 _) => solve [split; vm_compute; discriminate] : widths.
#[export] Hint Extern 2 (is_u64 _) => solve [split; vm_compute; discriminate] : widths.

(** ** Bytes *)

#[export] Instance byte_eq_dec : EqDecision byte := Byte.byte_eq_dec.

Definition byte_val (b : byte) : Z := Z.of_N (Byte.to_N b).

Definition byte_of (z : Z) : byte :=
  match Byte.of_N (Z.to_N (z mod 256)) with Some b => b | None => Byte.x00 end.

Lemma byte_val_range b : 0 <= byte_val b < 256.
Proof. unfold byte_val. pose proof (Byte.to_N_bounded b). lia. Qed.

Lemma byte_val_of z : byte_val (byte_of z) = z mod 256.
Proof.
  unfold byte_of, byte_val.
  pose proof (Z.mod_pos_bound z 256 ltac:(lia)).
  destruct (Byte.of_N (Z.to_N (z mod 256))) as [b|] eqn:E.
  - apply Byte.to_of_N in E. rewrite E. lia.
  - apply Byte.of_N_None_iff in E. lia.
Qed.

Lemma byte_val_small z : 0 <= z < 256 -> byte_val (byte_of z) = z.
Proof. intros. by rewrite byte_val_of, Z.mod_small. Qed.

Lemma byte_of_val b : byte_of (byte_val b) = b.
Proof.
  unfold byte_of, byte_val. pose proof (Byte.to_N_bounded b).
  rewrite Z.mod_small by lia. rewrite N2Z.id.
  by rewrite Byte.of_to_N.
Qed.

Lemma byte_val_inj b1 b2 : byte_val b1 = byte_val b2 -> b1 = b2.
Proof. intros E. by rewrite <- (byte_of_val b1), E, byte_of_val. Qed.

#[export] Hint Resolve byte_val_range : widths.

(** The bytes of a Rust string, and back. *)
Definition str_bytes (s : string) : list byte := String.list_byte_of_string s.
Definition bytes_str (bs : list byte) : string := String.string_of_list_byte bs.

Lemma bytes_str_bytes s : bytes_str (str_bytes s) = s.
Proof. apply String.string_of_list_byte_of_string. Qed.

Lemma str_bytes_str bs : str_bytes (bytes_str bs) = bs.
Proof. apply String.list_byte_of_string_of_list_byte. Qed.

(** ** Little- and big-endian integers ([to_le_bytes], [to_be_bytes]) *)

Fixpoint le_bytes (n : nat) (z : Z) : list byte :=
  match n with
  | O => []
  | S n => byte_of z :: le_bytes n (z / 256)
  end.

Fixpoint le_value (bs : list byte) : Z :=
  match bs with
  | [] => 0
  | b :: bs => byte_val b + 256 * le_value bs
  end.

Definition be_bytes (n : nat) (z : Z) : list byte := rev (le_bytes n z).
Definition be_value (bs : list byte) : Z := le_value (rev bs).

Lemma length_le_bytes n z : length (le_bytes n z) = n.
Proof. revert z. induction n; intros; simpl; auto. Qed.

Lemma length_be_bytes n z : length (be_bytes n z) = n.
Proof. unfold be_bytes. by rewrite length_rev, length_le_bytes. Qed.

Lemma le_value_bytes n z : 0 <= z < 256 ^ Z.of_nat n -> le_value (le_bytes n z) = z.
Proof.
  revert z. induction n as [|n IH]; intros z Hz; simpl.
  { change (256 ^ Z.of_nat 0) with 1 in Hz. lia. }
  rewrite Nat2Z.inj_succ, Z.pow_succ_r in Hz by lia.
  rewrite byte_val_of, IH.
  - pose proof (Z.div_mod z 256 ltac:(lia)). lia.
  - split; [apply Z.div_pos; lia|]. apply Z.div_lt_upper_bound; lia.
Qed.

Lemma be_value_bytes n z : 0 <= z < 256 ^ Z.of_nat n -> be_value (be_bytes n z) = z.
Proof. intros. unfold be_value, be_bytes. rewrite rev_involutive. by apply le_value_bytes. Qed.

Lemma le_value_nonneg bs : 0 <= le_value bs.
Proof. induction bs; simpl; [lia|]. pose proof (byte_val_range a). lia. Qed.

Lemma le_value_bound bs : le_value bs < 256 ^ Z.of_nat (length bs).
Proof.
  induction bs as [|b bs IH]; simpl length; [simpl; lia|].
  rewrite Nat2Z.inj_succ, Z.pow_succ_r by lia. simpl le_value.
  pose proof (byte_val_range b). lia.
Qed.

Lemma le_bytes_inj n a b :
  0 <= a < 256 ^ Z.of_nat n -> 0 <= b < 256 ^ Z.of_nat n ->
  le_bytes n a = le_bytes n b -> a = b.
Proof.
  intros Ha Hb E. rewrite <- (le_value_bytes n a Ha), <- (le_value_bytes n b Hb).
  by rewrite E.
Qed.

Arguments le_bytes : simpl never.
Arguments be_bytes : simpl never.
Arguments le_value : simpl never.
Arguments be_value : simpl never.

(** ** Counted loops

    [for _ in 0..n] where [n] is a [u64] taken from the input: the body may
    fail and stops the loop. Recursion on the binary representation keeps the
    loop executable for every [n]; a failing body is never run again. *)

Fixpoint pos_loop {E S} (p : positive) (body : S -> result E S) (s : S) : result E S :=
  match p with
  | xH => body s
  | xO p => rbind (pos_loop p body s) (pos_loop p body)
  | xI p => rbind (body s) (fun s => rbind (pos_loop p body s) (pos_loop p body))
  end.

Definition for_loop {E S} (n : Z) (body : S -> result E S) (s : S) : result E S :=
  match n with
  | Zpos p => pos_loop p body s
  | _ => Ok s
  end.

Fixpoint nat_loop {E S} (n : nat) (body : S -> result E S) (s : S) : result E S :=
  match n with
  | O => Ok s
  | S n => rbind (body s) (nat_loop n body)
  end.

Lemma rbind_assoc {E A B C} (c : result E A) (f : A -> result E B) (g : B -> result E C) :
  rbind (rbind c f) g = rbind c (fun a => rbind (f a) g).
Proof. by destruct c. Qed.

Lemma rbind_ext {E A B} (c : result E A) (f g : A -> result E B) :
  (forall a, f a = g a) -> rbind c f = rbind c g.
Proof. intros. by destruct c; simpl. Qed.

Lemma nat_loop_add {E S} n m (body : S -> result E S) s :
  nat_loop (n + m) body s = rbind (nat_loop n body s) (nat_loop m body).
Proof.
  revert s. induction n as [|n IH]; intros; simpl; [done|].
  rewrite rbind_assoc. apply rbind_ext. intros. apply IH.
Qed.

Lemma pos_loop_nat {E S} p (body : S -> result E S) s :
  pos_loop p body s = nat_loop (Pos.to_nat p) body s.
Proof.
  revert s. induction p as [p IH|p IH|]; intros s; cbn [pos_loop].
  - rewrite Pos2Nat.inj_xI. cbn [nat_loop Nat.mul]. apply rbind_ext. intros a.
    rewrite Nat.add_0_r, nat_loop_add, IH. apply rbind_ext. intros. apply IH.
  - rewrite Pos2Nat.inj_xO. cbn [Nat.mul].
    rewrite Nat.add_0_r, nat_loop_add, IH. apply rbind_ext. intros. apply IH.
  - change (Pos.to_nat 1) with 1%nat. simpl. by destruct (body s).
Qed.

Lemma for_loop_nat {E S} n (body : S -> result E S) s :
  for_loop (Z.of_nat n) body s = nat_loop n body s.
Proof.
  destruct n as [|n]; [done|].
  simpl for_loop. rewrite pos_loop_nat. by rewrite SuccNat2Pos.id_succ.
Qed.

(** A handler's three results, from the first one. *)
Lemma triple_eta {A B C} (r : A * B * C) a : r.1.1 = a -> r = (a, r.1.2, r.2).
Proof. by destruct r as [[? ?] ?]; simpl; intros <-. Qed.

Lemma triple_eta_last {A B C} (r : A * B * C) c : r.2 = c -> r = (r.1.1, r.1.2, c).
Proof. by destruct r as [[? ?] ?]; simpl; intros <-. Qed.

(** ** Lists *)

Definition zlen {A} (l : list A) : Z := Z.of_nat (length l).

Lemma zlen_nonneg {A} (l : list A) : 0 <= zlen l.
Proof. unfold zlen. lia. Qed.

Lemma zlen_app {A} (l k : list A) : zlen (l ++ k) = zlen l + zlen k.
Proof. unfold zlen. rewrite length_app. lia. Qed.

#[export] Hint Resolve zlen_nonneg : widths.

Lemma take_drop_exact {A} (l k : list A) :
  take (length l) (l ++ k) = l /\ drop (length l) (l ++ k) = k.
Proof. split; [apply take_app_length | apply drop_app_length]. Qed.
