(* ===== verification/RustStd.v ===== *)
(** * The parts of Rust's standard library the sources use

    UTF-8 validity (the invariant of [String] and [&str]), [BTreeMap] with
    string keys (iteration in key order), the string methods of the gateway
    ([contains], [trim_start_matches], [replace], [{:02x}] formatting). *)

From S2P Require Import Prelude.
From Stdlib Require Import Strings.String Strings.Ascii Sorting.Sorted.
Local Open Scope Z_scope.

(** ** UTF-8 *)

Definition in_range (lo hi : Z) (b : byte) : bool := (lo <=? byte_val b) && (byte_val b <=? hi).
Definition is_cont (b : byte) : bool := in_range 0x80 0xBF b.

(** [core::str::from_utf8]: the well-formed byte sequences of the Unicode
    standard, without overlong forms and without surrogates. *)
Fixpoint utf8_valid (bs : list byte) : bool :=
  match bs with
  | [] => true
  | b0 :: t0 =>
    if byte_val b0 <? 0x80 then utf8_valid t0 else
    match t0 with
    | [] => false
    | b1 :: t1 =>
      if in_range 0xC2 0xDF b0 then is_cont b1 && utf8_valid t1 else
      match t1 with
      | [] => false
      | b2 :: t2 =>
        if byte_val b0 =? 0xE0 then in_range 0xA0 0xBF b1 && is_cont b2 && utf8_valid t2 else
        if in_range 0xE1 0xEC b0 || in_range 0xEE 0xEF b0 then
          is_cont b1 && is_cont b2 && utf8_valid t2 else
        if byte_val b0 =? 0xED then in_range 0x80 0x9F b1 && is_cont b2 && utf8_valid t2 else
        match t2 with
        | [] => false
        | b3 :: t3 =>
          if byte_val b0 =? 0xF0 then
            in_range 0x90 0xBF b1 && is_cont b2 && is_cont b3 && utf8_valid t3 else
          if in_range 0xF1 0xF3 b0 then
            is_cont b1 && is_cont b2 && is_cont b3 && utf8_valid t3 else
          if byte_val b0 =? 0xF4 then
            in_range 0x80 0x8F b1 && is_cont b2 && is_cont b3 && utf8_valid t3 else
          false
        end
      end
    end
  end.

(** What the type [Vec<u8>] guarantees: an allocation has at most
    [isize::MAX] bytes. *)
Definition vec_ok (bs : list byte) : Prop := zlen bs < 2 ^ 63.

(** What the type [String] guarantees. *)
Definition string_ok (s : string) : Prop :=
  utf8_valid (str_bytes s) = true /\ vec_ok (str_bytes s).

(** ** [BTreeMap<String, V>] as its sorted list of entries *)

Section BTreeMap.
Context {V : Type}.
Implicit Types (k : string) (m : list (string * V)).

Definition key_lt (a b : string * V) : Prop := String.compare a.1 b.1 = Lt.
Definition btree_ok m : Prop := StronglySorted key_lt m.

Fixpoint btree_insert k (v : V) m : list (string * V) :=
  match m with
  | [] => [(k, v)]
  | (k', v') :: m' =>
      match String.compare k k' with
      | Lt => (k, v) :: m
      | Eq => (k, v) :: m'
      | Gt => (k', v') :: btree_insert k v m'
      end
  end.

Fixpoint btree_get k m : option V :=
  match m with
  | [] => None
  | (k', v') :: m' => if String.eqb k k' then Some v' else btree_get k m'
  end.

Lemma compare_gt_iff (a b : string) : String.compare a b = Gt <-> String.compare b a = Lt.
Proof.
  rewrite (String.compare_antisym a b).
  destruct (String.compare b a); simpl; split; congruence.
Qed.

Lemma compare_refl (a : string) : String.compare a a = Eq.
Proof. pose proof (String.compare_antisym a a). destruct (String.compare a a); done. Qed.

Lemma btree_insert_last k v m :
  Forall (fun p => String.compare p.1 k = Lt) m -> btree_insert k v m = m ++ [(k, v)].
Proof.
  induction 1 as [|[k' v'] m Hlt _ IH]; simpl; [done|].
  apply compare_gt_iff in Hlt. simpl in Hlt. by rewrite Hlt, IH.
Qed.

Lemma btree_ok_app_inv m k v m' :
  btree_ok (m ++ (k, v) :: m') -> Forall (fun p => String.compare p.1 k = Lt) m.
Proof.
  induction m as [|p m IH]; simpl; intros Hs; [constructor|].
  inversion Hs as [|? ? Hs' Hall]; subst. constructor; [|by apply IH].
  rewrite Forall_forall in Hall. apply (Hall (k, v)).
  apply elem_of_app. right. apply list_elem_of_here.
Qed.

Lemma btree_get_insert_eq k v m : btree_get k (btree_insert k v m) = Some v.
Proof.
  induction m as [|[k' v'] m IH]; simpl; [by rewrite String.eqb_refl|].
  destruct (String.compare k k') eqn:E; simpl; rewrite ?String.eqb_refl; auto.
  destruct (String.eqb_spec k k') as [->|]; [|done].
  by rewrite compare_refl in E.
Qed.

Lemma btree_get_insert_ne k k' v m :
  k <> k' -> btree_get k' (btree_insert k v m) = btree_get k' m.
Proof.
  intros Hne. induction m as [|[k1 v1] m IH]; simpl.
  { by destruct (String.eqb_spec k' k). }
  destruct (String.compare k k1) eqn:E; simpl.
  - apply String.compare_eq_iff in E as ->. by destruct (String.eqb_spec k' k1).
  - by destruct (String.eqb_spec k' k).
  - by rewrite IH.
Qed.
End BTreeMap.

(** ** String methods *)

(** [s.starts_with(p)] with the remainder, as [str::strip_prefix]. *)
Fixpoint strip_prefix (p s : string) : option string :=
  match p, s with
  | EmptyString, _ => Some s
  | String a p', String b s' => if Ascii.eqb a b then strip_prefix p' s' else None
  | String _ _, EmptyString => None
  end.

(** [s.trim_start_matches(p)]: strips [p] as often as it occurs. The fuel
    [length s] is enough: every strip of a non-empty [p] shortens [s]. *)
Fixpoint trim_start_fuel (fuel : nat) (p s : string) : string :=
  match fuel with
  | O => s
  | S fuel => match strip_prefix p s with
              | Some s' => trim_start_fuel fuel p s'
              | None => s
              end
  end.

Definition trim_start_matches (p s : string) : string := trim_start_fuel (String.length s) p s.

(** [s.contains(p)] *)
Fixpoint str_contains (s p : string) : bool :=
  match strip_prefix p s with
  | Some _ => true
  | None => match s with EmptyString => false | String _ s' => str_contains s' p end
  end.

(** [s.replace("-", "")] *)
Fixpoint remove_dashes (s : string) : string :=
  match s with
  | EmptyString => EmptyString
  | String a s' => if Ascii.eqb a "-"%char then remove_dashes s' else String a (remove_dashes s')
  end.

Definition hex_digit (z : Z) : ascii :=
  match z with
  | 0 => "0" | 1 => "1" | 2 => "2" | 3 => "3" | 4 => "4" | 5 => "5" | 6 => "6" | 7 => "7"
  | 8 => "8" | 9 => "9" | 10 => "a" | 11 => "b" | 12 => "c" | 13 => "d" | 14 => "e" | _ => "f"
  end%char.

(** [format!("{:02x}", b)] *)
Definition hex2 (b : byte) : string :=
  String (hex_digit (byte_val b / 16)) (String (hex_digit (byte_val b mod 16)) EmptyString).

Definition hex_bytes (bs : list byte) : string := foldr (fun b s => (hex2 b ++ s)%string) EmptyString bs.

Lemma remove_dashes_app a b :
  remove_dashes (a ++ b)%string = (remove_dashes a ++ remove_dashes b)%string.
Proof.
  induction a as [|c a IH]; simpl; [done|].
  destruct (Ascii.eqb c "-"); simpl; by rewrite IH.
Qed.

Lemma remove_dashes_hex2 b : remove_dashes (hex2 b) = hex2 b.
Proof. by destruct b. Qed.

Lemma string_app_assoc (a b c : string) : (a ++ (b ++ c))%string = ((a ++ b) ++ c)%string.
Proof.
  induction a as [|x a IH]; [done|].
  change (String x (a ++ (b ++ c)) = String x ((a ++ b) ++ c))%string. by rewrite IH.
Qed.

Lemma strip_prefix_app p s : strip_prefix p (p ++ s)%string = Some s.
Proof. induction p as [|a p IH]; simpl; [by destruct s|]. by rewrite Ascii.eqb_refl. Qed.

(** No hexadecimal string starts with the device prefix: [v] is no digit. *)
Lemma hex_not_device bs : strip_prefix "device-" (hex_bytes bs) = None.
Proof.
  destruct bs as [|b bs]; [done|].
  destruct b; try reflexivity. destruct bs as [|b bs]; [done|].
  destruct b; reflexivity.
Qed.

(** Trimming a prefix off a device name leaves its hexadecimal part. *)
Lemma trim_device_hex bs :
  trim_start_matches "device-" ("device-" ++ hex_bytes bs)%string = hex_bytes bs.
Proof.
  unfold trim_start_matches. change (String.length ("device-" ++ hex_bytes bs))
    with (S (6 + String.length (hex_bytes bs))).
  cbn [trim_start_fuel]. rewrite strip_prefix_app.
  cbn [Nat.add trim_start_fuel]. by rewrite hex_not_device.
Qed.

Definition starts_with (p s : string) : bool := bool_decide (is_Some (strip_prefix p s)).

Fixpoint str_rev_acc (s acc : string) : string :=
  match s with EmptyString => acc | String a s => str_rev_acc s (String a acc) end.
Definition str_rev (s : string) : string := str_rev_acc s EmptyString.

Definition ends_with (p s : string) : bool := starts_with (str_rev p) (str_rev s).

(** [s.replacen(p, r, 1)]: the first occurrence only. *)
Fixpoint replace_first (p r s : string) : string :=
  match strip_prefix p s with
  | Some s' => (r ++ s')%string
  | None => match s with EmptyString => EmptyString | String a s => String a (replace_first p r s) end
  end.

(** The UTF-8 encodings of the characters with the Unicode property
    White_Space, which [str::trim] removes. *)
Definition white_space : list string :=
  map (fun bs => bytes_str (map byte_of bs))
    ([[0x09]; [0x0A]; [0x0B]; [0x0C]; [0x0D]; [0x20]; [0xC2; 0x85]; [0xC2; 0xA0]; [0xE1; 0x9A; 0x80]]
     ++ map (fun i => [0xE2; 0x80; 0x80 + Z.of_nat i]) (seq 0 11)
     ++ [[0xE2; 0x80; 0xA8]; [0xE2; 0x80; 0xA9]; [0xE2; 0x80; 0xAF]; [0xE2; 0x81; 0x9F]; [0xE3; 0x80; 0x80]]).

Fixpoint strip_any (ps : list string) (s : string) : option string :=
  match ps with
  | [] => None
  | p :: ps => match strip_prefix p s with Some s' => Some s' | None => strip_any ps s end
  end.

(** Strips as long as one of [ps] is a prefix; every strip shortens the
    string, so its length is enough fuel. *)
Fixpoint trim_any_fuel (fuel : nat) (ps : list string) (s : string) : string :=
  match fuel with
  | O => s
  | S fuel => match strip_any ps s with Some s' => trim_any_fuel fuel ps s' | None => s end
  end.

Definition trim_start (s : string) : string := trim_any_fuel (String.length s) white_space s.
Definition trim_end (s : string) : string :=
  str_rev (trim_any_fuel (String.length s) (map str_rev white_space) (str_rev s)).
Definition trim (s : string) : string := trim_end (trim_start s).

Example trim_both : trim "  a b "%string = "a b"%string.
Proof. reflexivity. Qed.

(** ** Lines and words *)

(** [s.lines()]: the text between newlines, less an empty last piece; a carriage
    return before a newline is dropped. The accumulator is reversed. *)
Definition strip_cr (acc : string) : string :=
  match acc with
  | String a r => if Ascii.eqb a (Ascii.ascii_of_nat 13) then r else acc
  | EmptyString => EmptyString
  end.

Fixpoint lines_acc (acc s : string) : list string :=
  match s with
  | EmptyString => match acc with EmptyString => [] | _ => [str_rev acc] end
  | String a s => if Ascii.eqb a (Ascii.ascii_of_nat 10) then str_rev (strip_cr acc) :: lines_acc EmptyString s
                  else lines_acc (String a acc) s
  end.

Definition lines (s : string) : list string := lines_acc EmptyString s.

(** [split_whitespace]: the pieces between the white space of [str::trim]. *)
Fixpoint words_fuel (fuel : nat) (acc s : string) : list string :=
  let flush rest := match acc with EmptyString => rest | _ => str_rev acc :: rest end in
  match fuel with
  | O => flush []
  | S fuel =>
      match s with
      | EmptyString => flush []
      | String a r =>
          match strip_any white_space s with
          | Some s' => flush (words_fuel fuel EmptyString s')
          | None => words_fuel fuel (String a acc) r
          end
      end
  end.
Definition split_whitespace (s : string) : list string := words_fuel (String.length s) EmptyString s.

(** ** [str::parse] into an unsigned integer with maximum [max]: an optional
    [+], then at least one digit and nothing else, no overflow. *)

Definition digit_value (c : ascii) : option Z :=
  let n := Z.of_N (Ascii.N_of_ascii c) in
  if (48 <=? n) && (n <=? 57) then Some (n - 48) else None.

Fixpoint parse_digits (max acc : Z) (s : string) : option Z :=
  match s with
  | EmptyString => Some acc
  | String c s =>
      let* d := digit_value c in
      let acc := 10 * acc + d in
      if acc >? max then None else parse_digits max acc s
  end.

Definition parse_uint (max : Z) (s : string) : option Z :=
  let digits := match s with
                | String "+"%char s => s
                | _ => s
                end in
  match digits with
  | EmptyString => None
  | _ => parse_digits max 0 digits
  end.

Definition parse_u16 : string -> option Z := parse_uint 65535.

Lemma parse_digits_range max acc s z :
  0 <= acc <= max -> parse_digits max acc s = Some z -> 0 <= z <= max.
Proof.
  revert acc. induction s as [|c s IH]; simpl; intros acc Hacc.
  { intros [= <-]. lia. }
  destruct (digit_value c) as [d|] eqn:Hd; [|done].
  assert (0 <= d) as Hd0.
  { unfold digit_value in Hd. case_match eqn:E; [|done]. injection Hd as <-.
    apply andb_true_iff in E as [E%Z.leb_le _]. lia. }
  rewrite Z.gtb_ltb. destruct (Z.ltb_spec max (10 * acc + d)); [done|].
  apply IH. lia.
Qed.

Lemma parse_uint_range max s z : 0 <= max -> parse_uint max s = Some z -> 0 <= z <= max.
Proof.
  intros Hmax. unfold parse_uint. repeat case_match; try done;
    apply parse_digits_range; lia.
Qed.

Example parse_port : parse_u16 "40000" = Some 40000 /\ parse_u16 "65536" = None /\
  parse_u16 "+7" = Some 7 /\ parse_u16 "+" = None /\ parse_u16 "" = None /\ parse_u16 "1a" = None.
Proof. repeat split. Qed.

(** ** [f32 as f64] on bit patterns *)

(** Every value is kept: a subnormal number is normalised, infinities stay and
    the payload of a NaN moves to the high bits, with the quiet bit set. *)
Definition f32_to_f64 (bits : Z) : Z :=
  let sign := Z.shiftl (Z.shiftr bits 31) 63 in
  let exponent := Z.land (Z.shiftr bits 23) 0xff in
  let fraction := Z.land bits 0x7fffff in
  let magnitude :=
    if exponent =? 0 then
      if fraction =? 0 then 0
      else let k := Z.log2 fraction in
           Z.lor (Z.shiftl (k - 149 + 1023) 52) (Z.shiftl (fraction - 2 ^ k) (52 - k))
    else if exponent =? 0xff then
      Z.lor (Z.shiftl 0x7ff 52)
        (if fraction =? 0 then 0 else Z.lor (Z.shiftl 1 51) (Z.shiftl fraction 29))
    else Z.lor (Z.shiftl (exponent - 127 + 1023) 52) (Z.shiftl fraction 29) in
  Z.lor sign magnitude.

(** 1, -2.5, the smallest positive number, and infinity. *)
Example f32_to_f64_values :
  map f32_to_f64 [0x3f800000; 0xc0200000; 1; 0x7f800000] =
    [0x3ff0000000000000; 0xc004000000000000; 0x36a0000000000000; 0x7ff0000000000000].
Proof. reflexivity. Qed.
