(* ===== verification/Text.v ===== *)
(** * Lines and trimming

    Lemmas on [str::lines], [str::trim] and string reversal: trimmed lines
    that are written one per line are the lines read back. *)

From Stdlib Require Import Strings.Ascii.
From S2P Require Import Prelude.
From S2P Require Import RustStd.

Lemma append_cons a s t : (String a s ++ t)%string = String a (s ++ t)%string.
Proof. done. Qed.

Fixpoint all_chars (P : ascii -> bool) (s : string) : bool :=
  match s with EmptyString => true | String a s => P a && all_chars P s end.

Lemma all_chars_rev_acc P s acc : all_chars P (str_rev_acc s acc) = all_chars P s && all_chars P acc.
Proof.
  revert acc. induction s as [|a s IH]; intros acc; [done|]. simpl. rewrite IH. simpl.
  by destruct (P a), (all_chars P s).
Qed.
Lemma all_chars_rev P s : all_chars P (str_rev s) = all_chars P s.
Proof. unfold str_rev. rewrite all_chars_rev_acc. apply andb_true_r. Qed.

Lemma rev_acc_rev_acc s a b : str_rev_acc (str_rev_acc s a) b = str_rev_acc a (s ++ b)%string.
Proof. revert a. induction s as [|c s IH]; intros a; [done|]. simpl. by rewrite IH. Qed.
Lemma str_rev_involutive s : str_rev (str_rev s) = s.
Proof.
  unfold str_rev. rewrite rev_acc_rev_acc. cbn [str_rev_acc].
  induction s as [|c s IH]; [done|]. by rewrite append_cons, IH.
Qed.

(** ** Prefixes *)

Lemma strip_prefix_split p s s' : strip_prefix p s = Some s' -> s = (p ++ s')%string.
Proof.
  revert s. induction p as [|a p IH]; intros s; simpl; [by intros [= ->]|].
  destruct s as [|b s]; [done|]. destruct (Ascii.eqb_spec a b) as [->|]; [|done].
  intros H%IH. by rewrite append_cons, <- H.
Qed.

Lemma all_chars_app P s t : all_chars P (s ++ t)%string = all_chars P s && all_chars P t.
Proof. induction s as [|a s IH]; [done|]. rewrite append_cons. simpl. rewrite IH. apply andb_assoc. Qed.
Lemma length_append s t : String.length (s ++ t)%string = (String.length s + String.length t)%nat.
Proof. induction s as [|a s IH]; [done|]. rewrite append_cons. simpl. by rewrite IH. Qed.

Lemma strip_any_some ps s s' : strip_any ps s = Some s' -> exists p, p ∈ ps /\ s = (p ++ s')%string.
Proof.
  induction ps as [|p ps IH]; [done|]. simpl. destruct (strip_prefix p s) eqn:E.
  - intros [= ->]. exists p. split; [constructor|by apply strip_prefix_split].
  - intros (q & Hq & Hs)%IH. exists q. split; [by constructor|done].
Qed.
Lemma strip_any_none ps s p : strip_any ps s = None -> p ∈ ps -> strip_prefix p s = None.
Proof.
  induction ps as [|q ps IH]; [by intros _ ?%elem_of_nil|]. simpl. destruct (strip_prefix q s) eqn:E; [done|].
  intros H [->|Hp]%elem_of_cons; auto.
Qed.

Lemma trim_any_chars P fuel ps s : all_chars P s = true -> all_chars P (trim_any_fuel fuel ps s) = true.
Proof.
  revert s. induction fuel as [|fuel IH]; intros s Hs; [done|]. simpl.
  destruct (strip_any ps s) as [s'|] eqn:E; [|done].
  apply strip_any_some in E as (p & _ & ->). apply IH. rewrite all_chars_app in Hs.
  by apply andb_true_iff in Hs as [_ ?].
Qed.

(** With the length of the string as fuel nothing is left to strip. *)
Lemma trim_any_done fuel ps s :
  Forall (fun p => p <> EmptyString) ps -> (String.length s <= fuel)%nat -> strip_any ps (trim_any_fuel fuel ps s) = None.
Proof.
  intros Hps. revert s. induction fuel as [|fuel IH]; intros s Hl; simpl.
  - destruct (strip_any ps s) as [s'|] eqn:E; [|done]. apply strip_any_some in E as (p & Hp & ->).
    rewrite length_append in Hl. rewrite Forall_forall in Hps. specialize (Hps p Hp). destruct p; [done|simpl in Hl; lia].
  - destruct (strip_any ps s) as [s'|] eqn:E; [|done]. apply IH. apply strip_any_some in E as (p & Hp & ->).
    rewrite length_append in Hl. rewrite Forall_forall in Hps. specialize (Hps p Hp). destruct p; [done|simpl in Hl; lia].
Qed.

(** ** Trimming *)

Lemma trim_chars P s : all_chars P s = true -> all_chars P (trim s) = true.
Proof.
  intros Hs. unfold trim, trim_end, trim_start. rewrite all_chars_rev. apply trim_any_chars.
  rewrite all_chars_rev. by apply trim_any_chars.
Qed.

(** A trimmed string, reversed, starts with no reversed white space. *)
Lemma trim_reversed s : strip_any (map str_rev white_space) (str_rev (trim s)) = None.
Proof.
  unfold trim, trim_end. rewrite str_rev_involutive. apply trim_any_done.
  - apply Forall_forall. intros p Hp. apply list_elem_of_In in Hp. cbn in Hp. intuition (by subst).
  - set (t := trim_start s). generalize t. clear t. intros t. unfold str_rev.
    assert (forall acc, String.length (str_rev_acc t acc) = (String.length t + String.length acc)%nat) as ->.
    { induction t as [|a t IH]; intros acc; [done|]. simpl. rewrite IH. simpl. lia. }
    simpl. lia.
Qed.
Lemma trim_no_cr s : strip_cr (str_rev (trim s)) = str_rev (trim s).
Proof.
  pose proof (strip_any_none _ _ (String (ascii_of_nat 13) EmptyString) (trim_reversed s)) as H.
  destruct (str_rev (trim s)) as [|a r]; [done|]. unfold strip_cr. destruct (Ascii.eqb_spec a (ascii_of_nat 13)) as [->|]; [|done].
  exfalso. discriminate H. apply list_elem_of_In. cbn. auto 10.
Qed.

(** ** Lines *)

Definition not_newline (a : ascii) : bool := negb (Ascii.eqb a (ascii_of_nat 10)).
Definition newline_end (l rest : string) : string := (l ++ String (ascii_of_nat 10) rest)%string.

Lemma strip_cr_chars P acc : all_chars P acc = true -> all_chars P (strip_cr acc) = true.
Proof. destruct acc as [|a r]; [done|]. simpl. intros [? ?]%andb_true_iff. case_match; [done|]. simpl. by apply andb_true_iff. Qed.

Lemma lines_no_newline s : Forall (fun l => all_chars not_newline l = true) (lines s).
Proof.
  unfold lines. enough (forall acc, all_chars not_newline acc = true ->
    Forall (fun l => all_chars not_newline l = true) (lines_acc acc s)) by auto.
  induction s as [|a s IH]; intros acc Hacc; simpl.
  - destruct acc; [constructor|]. constructor; [by rewrite all_chars_rev|constructor].
  - destruct (Ascii.eqb a (ascii_of_nat 10)) eqn:E.
    + constructor; [rewrite all_chars_rev; by apply strip_cr_chars|by apply IH].
    + apply IH. simpl. unfold not_newline at 1. by rewrite E.
Qed.

Lemma lines_acc_line l acc rest :
  all_chars not_newline l = true ->
  lines_acc acc (newline_end l rest) = str_rev (strip_cr (str_rev_acc l acc)) :: lines rest.
Proof.
  revert acc. induction l as [|a l IH]; intros acc; [done|].
  change (newline_end (String a l) rest) with (String a (newline_end l rest)). simpl. intros [Ha Hl]%andb_true_iff.
  unfold not_newline in Ha. apply negb_true_iff in Ha. rewrite Ha. by apply IH.
Qed.

(** A trimmed line, written with a newline, is the first line read. *)
Lemma lines_trimmed s rest :
  all_chars not_newline s = true -> lines (newline_end (trim s) rest) = trim s :: lines rest.
Proof.
  intros Hs. unfold lines at 1. rewrite lines_acc_line by (by apply trim_chars).
  change (str_rev_acc (trim s) EmptyString) with (str_rev (trim s)).
  by rewrite trim_no_cr, str_rev_involutive.
Qed.
