(* ===== verification/Minicbor.v ===== *)
(** * The interface of the CBOR library

    [wasmbed-protocol] encodes and decodes through the [minicbor] crate. The
    crate is a parameter of the development: [Minicbor] lists the encoder and
    decoder operations the sources call, [MinicborLaws] the documented facts
    about them the protocol relies on. An [Encoder] over a [Vec<u8>] never
    fails to write, so an encoder operation is the bytes it appends; a
    [Decoder] is the input that is left. *)

From S2P Require Import Prelude.
From S2P Require Import RustStd.

(** [minicbor::data::Type] *)
Inductive cbor_type :=
| TBool | TNull | TUndefined | TU8 | TU16 | TU32 | TU64 | TI8 | TI16 | TI32 | TI64 | TInt
| TF16 | TF32 | TF64 | TSimple | TBytes | TBytesIndef | TString | TStringIndef
| TArray | TArrayIndef | TMap | TMapIndef | TTag | TBreak | TUnknown.

#[export] Instance cbor_type_eq_dec : EqDecision cbor_type.
Proof. solve_decision. Defined.

Class Minicbor := {
  mc_error : Type;
  (* Encoder *)
  e_array : Z -> list byte;
  e_map : Z -> list byte;
  e_u32 : Z -> list byte;
  e_u64 : Z -> list byte;
  e_f32 : Z -> list byte;
  e_bool : bool -> list byte;
  e_str : string -> list byte;
  e_bytes : list byte -> list byte;
  e_null : list byte;
  (* Decoder *)
  d_array : list byte -> result mc_error (option Z * list byte);
  d_map : list byte -> result mc_error (option Z * list byte);
  d_u32 : list byte -> result mc_error (Z * list byte);
  d_u64 : list byte -> result mc_error (Z * list byte);
  d_f32 : list byte -> result mc_error (Z * list byte);
  d_bool : list byte -> result mc_error (bool * list byte);
  d_str : list byte -> result mc_error (string * list byte);
  d_bytes : list byte -> result mc_error (list byte * list byte);
  d_skip : list byte -> result mc_error (unit * list byte);
  (** peeks at the next value, the input stays where it is *)
  d_datatype : list byte -> result mc_error cbor_type;
}.

Section Items.
Context `{Minicbor}.

(** The byte strings that are one CBOR data item, as far as the encoder
    operations above build them: scalars, and a definite-length array or
    map header followed by exactly as many items as it announces. *)
Inductive item : list byte -> Prop :=
| item_u32 n : is_u32 n -> item (e_u32 n)
| item_u64 n : is_u64 n -> item (e_u64 n)
| item_f32 n : is_u32 n -> item (e_f32 n)
| item_bool b : item (e_bool b)
| item_str s : string_ok s -> item (e_str s)
| item_bytes bs : vec_ok bs -> item (e_bytes bs)
| item_null : item e_null
| item_array n bs : is_u64 n -> items n bs -> item (e_array n ++ bs)
| item_map n bs : is_u64 n -> items (2 * n) bs -> item (e_map n ++ bs)
with items : Z -> list byte -> Prop :=
| items_nil : items 0 []
| items_cons n bs bs' : 0 <= n -> item bs -> items n bs' -> items (n + 1) (bs ++ bs').
End Items.

Class MinicborLaws (M : Minicbor) : Prop := {
  d_array_enc n r : is_u64 n -> d_array (e_array n ++ r) = Ok (Some n, r);
  d_map_enc n r : is_u64 n -> d_map (e_map n ++ r) = Ok (Some n, r);
  d_u32_enc n r : is_u32 n -> d_u32 (e_u32 n ++ r) = Ok (n, r);
  d_u64_enc n r : is_u64 n -> d_u64 (e_u64 n ++ r) = Ok (n, r);
  d_f32_enc n r : is_u32 n -> d_f32 (e_f32 n ++ r) = Ok (n, r);
  d_bool_enc b r : d_bool (e_bool b ++ r) = Ok (b, r);
  d_str_enc s r : string_ok s -> d_str (e_str s ++ r) = Ok (s, r);
  d_bytes_enc bs r : vec_ok bs -> d_bytes (e_bytes bs ++ r) = Ok (bs, r);
  d_datatype_null r : d_datatype (e_null ++ r) = Ok TNull;
  d_datatype_str s r : string_ok s -> d_datatype (e_str s ++ r) = Ok TString;
  d_datatype_u64 n r : is_u64 n -> exists t, d_datatype (e_u64 n ++ r) = Ok t /\ t <> TNull;
  d_skip_item bs r : item bs -> d_skip (bs ++ r) = Ok (tt, r);
}.

Create HintDb cbor.
#[export] Hint Constructors item items : cbor.
#[export] Hint Resolve d_array_enc d_map_enc d_u32_enc d_u64_enc d_f32_enc d_bool_enc
  d_str_enc d_bytes_enc : cbor.

Section Facts.
Context `{L : MinicborLaws}.

Lemma e_u64_nonempty n : is_u64 n -> e_u64 n <> [].
Proof.
  intros Hn E. set (m := if decide (n = 0) then 1 else 0).
  assert (is_u64 m) by (subst m; case_decide; auto with widths).
  assert (m <> n) by (subst m; case_decide; lia).
  pose proof (d_u64_enc n (e_u64 m) Hn) as E1. rewrite E in E1. simpl in E1.
  rewrite <- (app_nil_r (e_u64 m)) in E1 at 1. rewrite d_u64_enc in E1 by done. congruence.
Qed.
End Facts.
