(* ===== verification/Protocol.v ===== *)
(** * The device protocol: [crates/wasmbed-protocol]

    The messages of [lib.rs] and their CBOR encoding of [cbor.rs], as
    functions over the [Minicbor] interface. A [u32], [u64] is a [Z] with its
    range as the type's invariant, an [f32] is its bit pattern, a [String] a
    byte string that is valid UTF-8, a [BTreeMap] its sorted entries. *)

From S2P Require Import Prelude.
From S2P Require Import RustStd.
From S2P Require Import Minicbor.

(** ** Messages ([lib.rs]) *)

Definition MessageId_next (id : Z) : Z := wrap32 (id + 1).

Record DeviceUuid := mkDeviceUuid { uuid_bytes : list byte }.

Inductive ApplicationStatus := Deploying | Running | Stopped | Failed | Unknown.

Record ApplicationConfig := mkApplicationConfig {
  memory_limit : Z;
  cpu_time_limit : Z;
  env_vars : list (string * string);
  args : list string;
}.

Record ApplicationMetrics := mkApplicationMetrics {
  memory_usage : Z;
  cpu_usage : Z;
  uptime : Z;
  function_calls : Z;
}.

Inductive ClientMessage :=
| CHeartbeat
| CEnrollmentRequest
| CPublicKey (key : list byte)
| CEnrollmentAcknowledgment
| CChallengeResponse (signature : list byte)
| CApplicationStatus (app_id : string) (status : ApplicationStatus) (error : option string)
    (metrics : option ApplicationMetrics)
| CApplicationDeployAck (app_id : string) (success : bool) (error : option string)
| CApplicationStopAck (app_id : string) (success : bool) (error : option string)
| CDeviceInfo (available_memory : Z) (cpu_arch : string) (wasm_features : list string)
    (max_app_size : Z).

Inductive ServerMessage :=
| SHeartbeatAck
| SEnrollmentAccepted
| SEnrollmentRejected (reason : list byte)
| SDeviceUuid (uuid : DeviceUuid)
| SEnrollmentCompleted
| SChallenge (nonce : list byte)
| SDeployApplication (app_id name : string) (module_hash wasm_bytes : list byte)
    (config : option ApplicationConfig)
| SStopApplication (app_id : string)
| SRequestDeviceInfo
| SRequestApplicationStatus (app_id : option string).

(** [impl Display for DeviceUuid] *)
Definition uuid_nth (u : DeviceUuid) (i : nat) : string := hex2 (nth i (uuid_bytes u) Byte.x00).

Definition DeviceUuid_to_string (u : DeviceUuid) : string :=
  let b := uuid_nth u in
  let s := (b 0%nat ++ b 1%nat ++ b 2%nat ++ b 3%nat)%string in
  let s := (s ++ "-" ++ b 4%nat ++ b 5%nat)%string in
  let s := (s ++ "-" ++ b 6%nat ++ b 7%nat)%string in
  let s := (s ++ "-" ++ b 8%nat ++ b 9%nat)%string in
  (s ++ "-" ++ b 10%nat ++ b 11%nat ++ b 12%nat ++ b 13%nat ++ b 14%nat ++ b 15%nat)%string.

(** ** What the Rust types guarantee about a message *)

Definition opt_ok {A} (P : A -> Prop) (o : option A) : Prop :=
  match o with Some a => P a | None => True end.

Definition config_ok (c : ApplicationConfig) : Prop :=
  is_u64 (memory_limit c) /\ is_u64 (cpu_time_limit c) /\
  btree_ok (env_vars c) /\ Forall (fun p => string_ok p.1 /\ string_ok p.2) (env_vars c) /\
  is_u64 (zlen (env_vars c)) /\ Forall string_ok (args c) /\ is_u64 (zlen (args c)).

Definition metrics_ok (m : ApplicationMetrics) : Prop :=
  is_u64 (memory_usage m) /\ is_u32 (cpu_usage m) /\ is_u64 (uptime m) /\ is_u64 (function_calls m).

Definition client_ok (m : ClientMessage) : Prop :=
  match m with
  | CHeartbeat | CEnrollmentRequest | CEnrollmentAcknowledgment => True
  | CPublicKey key => vec_ok key
  | CChallengeResponse signature => vec_ok signature
  | CApplicationStatus app_id _ error metrics =>
      string_ok app_id /\ opt_ok string_ok error /\ opt_ok metrics_ok metrics
  | CApplicationDeployAck app_id _ error | CApplicationStopAck app_id _ error =>
      string_ok app_id /\ opt_ok string_ok error
  | CDeviceInfo mem arch feats size =>
      is_u64 mem /\ string_ok arch /\ Forall string_ok feats /\ is_u64 (zlen feats) /\ is_u64 size
  end.

Definition server_ok (m : ServerMessage) : Prop :=
  match m with
  | SHeartbeatAck | SEnrollmentAccepted | SEnrollmentCompleted | SRequestDeviceInfo => True
  | SEnrollmentRejected reason => vec_ok reason
  | SDeviceUuid uuid => length (uuid_bytes uuid) = 16%nat
  | SChallenge nonce => vec_ok nonce
  | SDeployApplication app_id name h w config =>
      string_ok app_id /\ string_ok name /\ vec_ok h /\ vec_ok w /\ opt_ok config_ok config
  | SStopApplication app_id => string_ok app_id
  | SRequestApplicationStatus app_id => opt_ok string_ok app_id
  end.

(** ** Tags and errors ([cbor.rs]) *)

Definition CLIENT_HEARTBEAT : Z := 0.
Definition CLIENT_ENROLLMENT_REQUEST : Z := 1.
Definition CLIENT_PUBLIC_KEY : Z := 2.
Definition CLIENT_ENROLLMENT_ACKNOWLEDGMENT : Z := 3.
Definition CLIENT_APPLICATION_STATUS : Z := 4.
Definition CLIENT_APPLICATION_DEPLOY_ACK : Z := 5.
Definition CLIENT_APPLICATION_STOP_ACK : Z := 6.
Definition CLIENT_DEVICE_INFO : Z := 7.
Definition CLIENT_CHALLENGE_RESPONSE : Z := 8.

Definition SERVER_HEARTBEAT_ACK : Z := 0.
Definition SERVER_ENROLLMENT_ACCEPTED : Z := 1.
Definition SERVER_ENROLLMENT_REJECTED : Z := 2.
Definition SERVER_DEVICE_UUID : Z := 3.
Definition SERVER_ENROLLMENT_COMPLETED : Z := 4.
Definition SERVER_DEPLOY_APPLICATION : Z := 5.
Definition SERVER_STOP_APPLICATION : Z := 6.
Definition SERVER_REQUEST_DEVICE_INFO : Z := 7.
Definition SERVER_REQUEST_APPLICATION_STATUS : Z := 8.
Definition SERVER_CHALLENGE : Z := 9.

Inductive MessageDecodeError :=
| UnexpectedArrayLength (expected actual : Z)
| UnknownTag (tag : Z)
| UnexpectedIndefiniteLengthArray
| InvalidUuidLength (actual : Z).

(** [*status as u32] *)
Definition status_index (s : ApplicationStatus) : Z :=
  match s with Deploying => 0 | Running => 1 | Stopped => 2 | Failed => 3 | Unknown => 4 end.

Definition status_of_index (n : Z) : ApplicationStatus :=
  match n with
  | 0 => Deploying | 1 => Running | 2 => Stopped | 3 => Failed | 4 => Unknown
  | _ => Unknown
  end.

Section Codec.
Context `{M : Minicbor}.

(** ** Encoding *)

Definition encode_opt_str (o : option string) : list byte :=
  match o with Some s => e_str s | None => e_null end.

Definition encode_strs (l : list string) : list byte := l ≫= e_str.

Definition encode_metrics (o : option ApplicationMetrics) : list byte :=
  match o with
  | Some m => e_u64 (memory_usage m) ++ e_f32 (cpu_usage m) ++ e_u64 (uptime m)
                ++ e_u64 (function_calls m)
  | None => e_null
  end.

Definition encode_env (l : list (string * string)) : list byte :=
  l ≫= (fun p => e_str p.1 ++ e_str p.2).

Definition encode_config (o : option ApplicationConfig) : list byte :=
  match o with
  | Some cfg =>
      e_u64 (memory_limit cfg) ++ e_u64 (cpu_time_limit cfg)
      ++ e_map (zlen (env_vars cfg)) ++ encode_env (env_vars cfg)
      ++ e_array (zlen (args cfg)) ++ encode_strs (args cfg)
  | None => e_null
  end.

Definition encode_client (m : ClientMessage) : list byte :=
  match m with
  | CHeartbeat => e_array 1 ++ e_u32 CLIENT_HEARTBEAT
  | CEnrollmentRequest => e_array 1 ++ e_u32 CLIENT_ENROLLMENT_REQUEST
  | CPublicKey key => e_array 2 ++ e_u32 CLIENT_PUBLIC_KEY ++ e_bytes key
  | CEnrollmentAcknowledgment => e_array 1 ++ e_u32 CLIENT_ENROLLMENT_ACKNOWLEDGMENT
  | CChallengeResponse signature => e_array 2 ++ e_u32 CLIENT_CHALLENGE_RESPONSE ++ e_bytes signature
  | CApplicationStatus app_id status error metrics =>
      e_array 5 ++ e_u32 CLIENT_APPLICATION_STATUS ++ e_str app_id ++ e_u32 (status_index status)
      ++ encode_opt_str error ++ encode_metrics metrics
  | CApplicationDeployAck app_id success error =>
      e_array 4 ++ e_u32 CLIENT_APPLICATION_DEPLOY_ACK ++ e_str app_id ++ e_bool success
      ++ encode_opt_str error
  | CApplicationStopAck app_id success error =>
      e_array 4 ++ e_u32 CLIENT_APPLICATION_STOP_ACK ++ e_str app_id ++ e_bool success
      ++ encode_opt_str error
  | CDeviceInfo mem arch feats size =>
      e_array 5 ++ e_u32 CLIENT_DEVICE_INFO ++ e_u64 mem ++ e_str arch
      ++ e_array (zlen feats) ++ encode_strs feats ++ e_u64 size
  end.

Definition encode_server (m : ServerMessage) : list byte :=
  match m with
  | SHeartbeatAck => e_array 1 ++ e_u32 SERVER_HEARTBEAT_ACK
  | SEnrollmentAccepted => e_array 1 ++ e_u32 SERVER_ENROLLMENT_ACCEPTED
  | SEnrollmentRejected reason => e_array 2 ++ e_u32 SERVER_ENROLLMENT_REJECTED ++ e_bytes reason
  | SDeviceUuid uuid => e_array 2 ++ e_u32 SERVER_DEVICE_UUID ++ e_bytes (uuid_bytes uuid)
  | SEnrollmentCompleted => e_array 1 ++ e_u32 SERVER_ENROLLMENT_COMPLETED
  | SChallenge nonce => e_array 2 ++ e_u32 SERVER_CHALLENGE ++ e_bytes nonce
  | SDeployApplication app_id name module_hash wasm_bytes config =>
      e_array 6 ++ e_u32 SERVER_DEPLOY_APPLICATION ++ e_str app_id ++ e_str name
      ++ e_bytes module_hash ++ e_bytes wasm_bytes ++ encode_config config
  | SStopApplication app_id => e_array 2 ++ e_u32 SERVER_STOP_APPLICATION ++ e_str app_id
  | SRequestDeviceInfo => e_array 1 ++ e_u32 SERVER_REQUEST_DEVICE_INFO
  | SRequestApplicationStatus app_id =>
      e_array 2 ++ e_u32 SERVER_REQUEST_APPLICATION_STATUS ++ encode_opt_str app_id
  end.

(** ** Decoding: a state monad over the remaining input *)

(** [minicbor::decode::Error]: the library's own, or [Error::custom]. *)
Inductive DecodeError :=
| Cbor (e : mc_error)
| Custom (e : MessageDecodeError).

Definition decoder (A : Type) : Type := list byte -> result DecodeError (A * list byte).

Definition dret {A} (a : A) : decoder A := fun i => Ok (a, i).
Definition dfail {A} (e : MessageDecodeError) : decoder A := fun _ => Err (Custom e).
Definition dbind {A B} (c : decoder A) (k : A -> decoder B) : decoder B :=
  fun i => match c i with Ok (a, i') => k a i' | Err e => Err e end.
Definition lib {A} (d : list byte -> result mc_error (A * list byte)) : decoder A :=
  fun i => match d i with Ok p => Ok p | Err e => Err (Cbor e) end.
End Codec.

Notation "'let!' x ':=' c 'in' k" := (dbind c (fun x => k))
  (at level 10, x pattern, c at level 100, k at level 200) : rust_scope.

Section Decode.
Context `{M : Minicbor}.

(** [d.datatype()? == Type::Null] *)
Definition at_null : decoder bool :=
  fun i => match d_datatype i with
           | Ok t => Ok (bool_decide (t = TNull), i)
           | Err e => Err (Cbor e)
           end.

(** [d.array()?.ok_or_else(|| UnexpectedIndefiniteLengthArray)?] *)
Definition definite (d : list byte -> result mc_error (option Z * list byte)) : decoder Z :=
  let! n := lib d in
  match n with
  | Some n => dret n
  | None => dfail UnexpectedIndefiniteLengthArray
  end.

Definition decode_opt_str : decoder (option string) :=
  let! null := at_null in
  if null then let! _ := lib d_skip in dret None
  else let! s := lib d_str in dret (Some s).

(** [for _ in 0..len { v.push(d.str()?.to_string()) }] *)
Definition decode_strs (len : Z) : decoder (list string) :=
  fun i => for_loop len
    (fun '(acc, i) => match lib d_str i with
                      | Ok (s, i) => Ok (acc ++ [s], i)
                      | Err e => Err e
                      end) ([], i).

(** [for _ in 0..len { env_vars.insert(d.str()?, d.str()?) }] *)
Definition decode_env (len : Z) : decoder (list (string * string)) :=
  fun i => for_loop len
    (fun '(acc, i) => match (let! k := lib d_str in let! v := lib d_str in dret (k, v)) i with
                      | Ok ((k, v), i) => Ok (btree_insert k v acc, i)
                      | Err e => Err e
                      end) ([], i).

Definition decode_metrics : decoder (option ApplicationMetrics) :=
  let! null := at_null in
  if null then let! _ := lib d_skip in dret None
  else
    let! memory_usage := lib d_u64 in
    let! cpu_usage := lib d_f32 in
    let! uptime := lib d_u64 in
    let! function_calls := lib d_u64 in
    dret (Some (mkApplicationMetrics memory_usage cpu_usage uptime function_calls)).

Definition decode_config : decoder (option ApplicationConfig) :=
  let! null := at_null in
  if null then let! _ := lib d_skip in dret None
  else
    let! memory_limit := lib d_u64 in
    let! cpu_time_limit := lib d_u64 in
    let! env_map_len := definite d_map in
    let! env_vars := decode_env env_map_len in
    let! args_len := definite d_array in
    let! args := decode_strs args_len in
    dret (Some (mkApplicationConfig memory_limit cpu_time_limit env_vars args)).

Definition decode_client : decoder ClientMessage :=
  let! array_len := definite d_array in
  let! tag := lib d_u32 in
  let arm t n := (tag =? t) && (array_len =? n) in
  let wrong n := dfail (UnexpectedArrayLength n array_len) in
  if arm CLIENT_HEARTBEAT 1 then dret CHeartbeat else
  if arm CLIENT_ENROLLMENT_REQUEST 1 then dret CEnrollmentRequest else
  if arm CLIENT_PUBLIC_KEY 2 then
    let! key := lib d_bytes in dret (CPublicKey key) else
  if arm CLIENT_ENROLLMENT_ACKNOWLEDGMENT 1 then dret CEnrollmentAcknowledgment else
  if arm CLIENT_CHALLENGE_RESPONSE 2 then
    let! signature := lib d_bytes in dret (CChallengeResponse signature) else
  if arm CLIENT_APPLICATION_STATUS 5 then
    let! app_id := lib d_str in
    let! status_val := lib d_u32 in
    let status := status_of_index status_val in
    let! error := decode_opt_str in
    let! metrics := decode_metrics in
    dret (CApplicationStatus app_id status error metrics) else
  if arm CLIENT_APPLICATION_DEPLOY_ACK 4 then
    let! app_id := lib d_str in
    let! success := lib d_bool in
    let! error := decode_opt_str in
    dret (CApplicationDeployAck app_id success error) else
  if arm CLIENT_APPLICATION_STOP_ACK 4 then
    let! app_id := lib d_str in
    let! success := lib d_bool in
    let! error := decode_opt_str in
    dret (CApplicationStopAck app_id success error) else
  if arm CLIENT_DEVICE_INFO 5 then
    let! available_memory := lib d_u64 in
    let! cpu_arch := lib d_str in
    let! features_len := definite d_array in
    let! wasm_features := decode_strs features_len in
    let! max_app_size := lib d_u64 in
    dret (CDeviceInfo available_memory cpu_arch wasm_features max_app_size) else
  if (tag =? CLIENT_HEARTBEAT) || (tag =? CLIENT_ENROLLMENT_REQUEST)
     || (tag =? CLIENT_ENROLLMENT_ACKNOWLEDGMENT) then wrong 1 else
  if (tag =? CLIENT_PUBLIC_KEY) || (tag =? CLIENT_CHALLENGE_RESPONSE) then wrong 2 else
  if tag =? CLIENT_APPLICATION_STATUS then wrong 5 else
  if (tag =? CLIENT_APPLICATION_DEPLOY_ACK) || (tag =? CLIENT_APPLICATION_STOP_ACK) then wrong 4 else
  if tag =? CLIENT_DEVICE_INFO then wrong 5 else
  dfail (UnknownTag tag).

Definition decode_uuid : decoder DeviceUuid :=
  let! uuid_bytes := lib d_bytes in
  if negb (zlen uuid_bytes =? 16) then dfail (InvalidUuidLength (zlen uuid_bytes))
  else dret (mkDeviceUuid uuid_bytes).

Definition decode_server : decoder ServerMessage :=
  let! array_len := definite d_array in
  let! tag := lib d_u32 in
  let arm t n := (tag =? t) && (array_len =? n) in
  let wrong n := dfail (UnexpectedArrayLength n array_len) in
  if arm SERVER_HEARTBEAT_ACK 1 then dret SHeartbeatAck else
  if arm SERVER_ENROLLMENT_ACCEPTED 1 then dret SEnrollmentAccepted else
  if arm SERVER_ENROLLMENT_REJECTED 2 then
    let! reason := lib d_bytes in dret (SEnrollmentRejected reason) else
  if arm SERVER_DEVICE_UUID 2 then
    let! uuid := decode_uuid in dret (SDeviceUuid uuid) else
  if arm SERVER_ENROLLMENT_COMPLETED 1 then dret SEnrollmentCompleted else
  if arm SERVER_CHALLENGE 2 then
    let! nonce := lib d_bytes in dret (SChallenge nonce) else
  if arm SERVER_DEPLOY_APPLICATION 6 then
    let! app_id := lib d_str in
    let! name := lib d_str in
    let! module_hash := lib d_bytes in
    let! wasm_bytes := lib d_bytes in
    let! config := decode_config in
    dret (SDeployApplication app_id name module_hash wasm_bytes config) else
  if arm SERVER_STOP_APPLICATION 2 then
    let! app_id := lib d_str in dret (SStopApplication app_id) else
  if arm SERVER_REQUEST_DEVICE_INFO 1 then dret SRequestDeviceInfo else
  if arm SERVER_REQUEST_APPLICATION_STATUS 2 then
    let! app_id := decode_opt_str in dret (SRequestApplicationStatus app_id) else
  if (tag =? SERVER_HEARTBEAT_ACK) || (tag =? SERVER_ENROLLMENT_ACCEPTED)
     || (tag =? SERVER_ENROLLMENT_COMPLETED) then wrong 1 else
  if (tag =? SERVER_ENROLLMENT_REJECTED) || (tag =? SERVER_DEVICE_UUID)
     || (tag =? SERVER_CHALLENGE) then wrong 2 else
  if tag =? SERVER_DEPLOY_APPLICATION then wrong 6 else
  if tag =? SERVER_STOP_APPLICATION then wrong 2 else
  if tag =? SERVER_REQUEST_DEVICE_INFO then wrong 1 else
  if tag =? SERVER_REQUEST_APPLICATION_STATUS then wrong 2 else
  dfail (UnknownTag tag).

(** [minicbor::decode(payload)]: reads one value from the front of the
    payload; what follows it is not looked at. *)
Definition from_payload {A} (d : decoder A) (payload : list byte) : result DecodeError A :=
  match d payload with Ok (a, _) => Ok a | Err e => Err e end.
End Decode.
