(* ===== verification/Rfc8949.v ===== *)
(** * A concrete CBOR codec

    An instance of the [Minicbor] interface that follows RFC 8949 (shortest
    integer heads, definite lengths), with the proof of [MinicborLaws]. It
    shows that the laws the protocol relies on can hold together, and it is
    what the evaluated examples of the development run on. *)

From S2P Require Import Prelude.
From S2P Require Import RustStd.
From S2P Require Import Minicbor.

Inductive cbor_err := EndOfInput | TypeMismatch | Overflow | InvalidUtf8 | Unsupported.

(** ** Heads: major type and argument *)

Definition head (major n : Z) : list byte :=
  if n <? 24 then [byte_of (major * 32 + n)] else
  if n <? 2 ^ 8 then byte_of (major * 32 + 24) :: be_bytes 1 n else
  if n <? 2 ^ 16 then byte_of (major * 32 + 25) :: be_bytes 2 n else
  if n <? 2 ^ 32 then byte_of (major * 32 + 26) :: be_bytes 4 n else
  byte_of (major * 32 + 27) :: be_bytes 8 n.

Definition head_info (n : Z) : Z :=
  if n <? 24 then n else if n <? 2 ^ 8 then 24 else if n <? 2 ^ 16 then 25 else
  if n <? 2 ^ 32 then 26 else 27.

Definition read_exact (k : nat) (i : list byte) : result cbor_err (list byte * list byte) :=
  if (length i <? k)%nat then Err EndOfInput else Ok (take k i, drop k i).

Record chead := mkHead { h_major : Z; h_info : Z; h_arg : Z }.

Definition read_head (i : list byte) : result cbor_err (chead * list byte) :=
  match i with
  | [] => Err EndOfInput
  | b :: t =>
      let major := byte_val b / 32 in
      let info := byte_val b mod 32 in
      let arg k := let? (bs, t) := read_exact k t in Ok (mkHead major info (be_value bs), t) in
      if info <? 24 then Ok (mkHead major info info, t) else
      if info =? 24 then arg 1%nat else
      if info =? 25 then arg 2%nat else
      if info =? 26 then arg 4%nat else
      if info =? 27 then arg 8%nat else
      if info =? 31 then Ok (mkHead major 31 0, t) else
      Err TypeMismatch
  end.

(** The value of a definite-length item of the given major type. *)
Definition read_major (major : Z) (i : list byte) : result cbor_err (Z * list byte) :=
  let? (h, t) := read_head i in
  if (h_major h =? major) && (h_info h <=? 27) then Ok (h_arg h, t) else Err TypeMismatch.

Definition read_len (major : Z) (i : list byte) : result cbor_err (option Z * list byte) :=
  let? (h, t) := read_head i in
  if h_major h =? major then Ok (if h_info h =? 31 then None else Some (h_arg h), t)
  else Err TypeMismatch.

Definition read_block (major : Z) (i : list byte) : result cbor_err (list byte * list byte) :=
  let? (n, t) := read_major major i in
  if zlen t <? n then Err EndOfInput else read_exact (Z.to_nat n) t.

Definition rfc_u32 (i : list byte) : result cbor_err (Z * list byte) :=
  let? (n, t) := read_major 0 i in if n <=? u32_max then Ok (n, t) else Err Overflow.

Definition rfc_f32 (i : list byte) : result cbor_err (Z * list byte) :=
  let? (h, t) := read_head i in
  if (h_major h =? 7) && (h_info h =? 26) then Ok (h_arg h, t) else Err TypeMismatch.

Definition rfc_bool (i : list byte) : result cbor_err (bool * list byte) :=
  let? (h, t) := read_head i in
  if (h_major h =? 7) && (h_info h =? 20) then Ok (false, t) else
  if (h_major h =? 7) && (h_info h =? 21) then Ok (true, t) else Err TypeMismatch.

Definition rfc_str (i : list byte) : result cbor_err (string * list byte) :=
  let? (bs, t) := read_block 3 i in
  if utf8_valid bs then Ok (bytes_str bs, t) else Err InvalidUtf8.

Definition rfc_type (h : chead) : cbor_type :=
  let indef := h_info h =? 31 in
  match h_major h with
  | 0 => if h_info h <=? 24 then TU8 else if h_info h =? 25 then TU16 else
         if h_info h =? 26 then TU32 else TU64
  | 1 => if h_info h <=? 24 then TI8 else if h_info h =? 25 then TI16 else
         if h_info h =? 26 then TI32 else TI64
  | 2 => if indef then TBytesIndef else TBytes
  | 3 => if indef then TStringIndef else TString
  | 4 => if indef then TArrayIndef else TArray
  | 5 => if indef then TMapIndef else TMap
  | 6 => TTag
  | _ => match h_info h with
         | 20 | 21 => TBool | 22 => TNull | 23 => TUndefined
         | 25 => TF16 | 26 => TF32 | 27 => TF64 | 31 => TBreak | _ => TSimple
         end
  end.

Definition rfc_datatype (i : list byte) : result cbor_err cbor_type :=
  let? (h, _) := read_head i in Ok (rfc_type h).

(** Skips [k] items; every iteration consumes at least one byte, so the
    length of the input is enough fuel. *)
Fixpoint skip_items (fuel : nat) (k : Z) (i : list byte) : result cbor_err (list byte) :=
  if k =? 0 then Ok i else
  match fuel with
  | O => Err EndOfInput
  | S fuel =>
      let? (h, t) := read_head i in
      if h_info h =? 31 then Err Unsupported else
      match h_major h with
      | 2 | 3 => if zlen t <? h_arg h then Err EndOfInput
                 else skip_items fuel (k - 1) (drop (Z.to_nat (h_arg h)) t)
      | 4 => skip_items fuel (k - 1 + h_arg h) t
      | 5 => skip_items fuel (k - 1 + 2 * h_arg h) t
      | 6 => skip_items fuel k t
      | _ => skip_items fuel (k - 1) t
      end
  end.

Definition rfc_skip (i : list byte) : result cbor_err (unit * list byte) :=
  let? t := skip_items (length i) 1 i in Ok (tt, t).

#[export] Instance rfc8949 : Minicbor := {|
  mc_error := cbor_err;
  e_array := head 4;
  e_map := head 5;
  e_u32 := head 0;
  e_u64 := head 0;
  e_f32 n := byte_of (7 * 32 + 26) :: be_bytes 4 n;
  e_bool b := [byte_of (7 * 32 + if b then 21 else 20)];
  e_str s := head 3 (zlen (str_bytes s)) ++ str_bytes s;
  e_bytes bs := head 2 (zlen bs) ++ bs;
  e_null := [byte_of (7 * 32 + 22)];
  d_array := read_len 4;
  d_map := read_len 5;
  d_u32 := rfc_u32;
  d_u64 := read_major 0;
  d_f32 := rfc_f32;
  d_bool := rfc_bool;
  d_str := rfc_str;
  d_bytes := read_block 2;
  d_skip := rfc_skip;
  d_datatype := rfc_datatype;
|}.

(** ** The laws *)

Lemma read_exact_app bs r : read_exact (length bs) (bs ++ r) = Ok (bs, r).
Proof.
  unfold read_exact. destruct (Nat.ltb_spec (length (bs ++ r)) (length bs)) as [Hlt|_].
  { rewrite length_app in Hlt. lia. }
  by rewrite take_app_length, drop_app_length.
Qed.

Lemma read_exact_be k n r :
  0 <= n < 256 ^ Z.of_nat k ->
  exists bs, read_exact k (be_bytes k n ++ r) = Ok (bs, r) /\ be_value bs = n.
Proof.
  intros Hn. exists (be_bytes k n). split; [|by apply be_value_bytes].
  rewrite <- (length_be_bytes k n) at 1. apply read_exact_app.
Qed.

Lemma head_byte major k :
  0 <= major < 8 -> 0 <= k < 32 ->
  byte_val (byte_of (major * 32 + k)) / 32 = major /\
  byte_val (byte_of (major * 32 + k)) mod 32 = k.
Proof.
  intros. rewrite byte_val_small by lia. split.
  - rewrite Z.div_add_l, Z.div_small by lia. lia.
  - rewrite Z.add_comm, Z.mod_add, Z.mod_small by lia. lia.
Qed.

Lemma read_head_simple major k r :
  0 <= major < 8 -> 0 <= k < 24 ->
  read_head (byte_of (major * 32 + k) :: r) = Ok (mkHead major k k, r).
Proof.
  intros. unfold read_head. destruct (head_byte major k) as [-> ->]; [lia..|].
  by destruct (Z.ltb_spec k 24); [|lia].
Qed.

Lemma read_head_arg major info k n r :
  0 <= major < 8 ->
  info = 24 /\ k = 1%nat \/ info = 25 /\ k = 2%nat \/ info = 26 /\ k = 4%nat \/
    info = 27 /\ k = 8%nat ->
  0 <= n < 256 ^ Z.of_nat k ->
  read_head (byte_of (major * 32 + info) :: be_bytes k n ++ r) = Ok (mkHead major info n, r).
Proof.
  intros Hm Hk Hn. unfold read_head.
  destruct (read_exact_be k n r Hn) as (bs & Hbs & Hv).
  destruct (head_byte major info) as [-> ->]; [lia..|].
  destruct Hk as [[-> ->]|[[-> ->]|[[-> ->]|[-> ->]]]];
    cbn [Z.ltb Z.eqb Z.compare Pos.compare Pos.compare_cont Pos.eqb];
    by rewrite Hbs, <- Hv.
Qed.

Lemma read_head_enc major n r :
  0 <= major < 8 -> is_u64 n ->
  read_head (head major n ++ r) = Ok (mkHead major (head_info n) n, r).
Proof.
  intros Hm Hn. unfold head, head_info. widths.
  destruct (Z.ltb_spec n 24). { apply read_head_simple; lia. }
  destruct (Z.ltb_spec n (2 ^ 8)). { apply read_head_arg; lia. }
  destruct (Z.ltb_spec n (2 ^ 16)). { apply read_head_arg; lia. }
  destruct (Z.ltb_spec n (2 ^ 32)). { apply read_head_arg; lia. }
  apply read_head_arg; lia.
Qed.

Lemma head_info_range n : 0 <= n -> 0 <= head_info n <= 27.
Proof. intros. unfold head_info. repeat case_match; lia. Qed.

Lemma head_info_not31 n : 0 <= n -> (head_info n =? 31) = false.
Proof. intros. apply Z.eqb_neq. pose proof (head_info_range n). lia. Qed.

Lemma read_major_enc major n r :
  0 <= major < 8 -> is_u64 n -> read_major major (head major n ++ r) = Ok (n, r).
Proof.
  intros. unfold read_major. rewrite read_head_enc by done. simpl.
  rewrite Z.eqb_refl. destruct (Z.leb_spec (head_info n) 27) as [|Hgt]; [done|].
  pose proof (head_info_range n). widths.
Qed.

Lemma read_len_enc major n r :
  0 <= major < 8 -> is_u64 n -> read_len major (head major n ++ r) = Ok (Some n, r).
Proof.
  intros ? [? ?]. unfold read_len. rewrite read_head_enc by done. simpl.
  by rewrite Z.eqb_refl, head_info_not31.
Qed.

Lemma vec_len_u64 {A} (bs : list A) : zlen bs < 2 ^ 63 -> is_u64 (zlen bs).
Proof. intros. pose proof (zlen_nonneg bs). widths. Qed.

Lemma read_block_enc major bs r :
  0 <= major < 8 -> vec_ok bs -> read_block major ((head major (zlen bs) ++ bs) ++ r) = Ok (bs, r).
Proof.
  intros Hm Hbs. unfold read_block. rewrite <- app_assoc.
  rewrite read_major_enc by (done || by apply vec_len_u64). simpl.
  destruct (Z.ltb_spec (zlen (bs ++ r)) (zlen bs)) as [Hlt|_].
  { rewrite zlen_app in Hlt. pose proof (zlen_nonneg r). lia. }
  unfold zlen. rewrite Nat2Z.id. apply read_exact_app.
Qed.

Lemma f32_head n r : is_u32 n ->
  read_head ((byte_of (7 * 32 + 26) :: be_bytes 4 n) ++ r) = Ok (mkHead 7 26 n, r).
Proof. intros. change ((?x :: ?l) ++ ?r) with (x :: l ++ r). apply read_head_arg; widths. Qed.

(** ** Skipping *)

Lemma skip_items_zero fuel i : skip_items fuel 0 i = Ok i.
Proof. by destruct fuel. Qed.

(** An item is skipped in some number [s] of iterations, at most its length. *)
Definition skips (bs : list byte) (j : Z) : Prop :=
  exists s, (s <= length bs)%nat /\ forall fuel k r, 0 <= k ->
    skip_items (s + fuel) (k + j) (bs ++ r) = skip_items fuel k r.

Lemma length_head major n : (1 <= length (head major n))%nat.
Proof. unfold head. repeat case_match; simpl; lia. Qed.

Lemma skips_one bs major info n :
  (1 <= length bs)%nat ->
  (forall r, read_head (bs ++ r) = Ok (mkHead major info n, r)) ->
  info <> 31 -> (major = 0 \/ major = 7) -> skips bs 1.
Proof.
  intros Hlen Hh Hi Hm. exists 1%nat. split; [done|]. intros fuel k r Hk. simpl.
  destruct (Z.eqb_spec (k + 1) 0); [lia|]. rewrite Hh. simpl.
  destruct (Z.eqb_spec info 31); [done|]. replace (k + 1 - 1) with k by lia.
  by destruct Hm as [-> | ->].
Qed.

Lemma skips_block major bs :
  (major = 2 \/ major = 3) -> vec_ok bs -> skips (head major (zlen bs) ++ bs) 1.
Proof.
  intros Hm Hbs. exists 1%nat. split.
  { pose proof (length_head major (zlen bs)). rewrite length_app. lia. }
  intros fuel k r Hk. simpl. destruct (Z.eqb_spec (k + 1) 0); [lia|].
  rewrite <- app_assoc. rewrite read_head_enc by (lia || by apply vec_len_u64). simpl.
  rewrite head_info_not31 by apply zlen_nonneg. replace (k + 1 - 1) with k by lia.
  destruct (Z.ltb_spec (zlen (bs ++ r)) (zlen bs)) as [Hlt|_].
  { rewrite zlen_app in Hlt. pose proof (zlen_nonneg r). lia. }
  unfold zlen. rewrite Nat2Z.id, drop_app_length. by destruct Hm as [-> | ->].
Qed.

Lemma skips_container major n bs j :
  (major = 4 /\ j = n \/ major = 5 /\ j = 2 * n) -> is_u64 n -> skips bs j ->
  skips (head major n ++ bs) 1.
Proof.
  intros Hm Hn (s & Hs & Hskip). exists (S s). split.
  { pose proof (length_head major n). rewrite length_app. lia. }
  intros fuel k r Hk. simpl. destruct (Z.eqb_spec (k + 1) 0); [lia|].
  rewrite <- app_assoc, read_head_enc by (lia || done). simpl.
  destruct Hn as [Hn _]. rewrite head_info_not31 by done. replace (k + 1 - 1) with k by lia.
  destruct Hm as [[-> <-]|[-> <-]]; by apply Hskip.
Qed.

Scheme item_mut := Minimality for item Sort Prop
  with items_mut := Minimality for items Sort Prop.

Lemma item_skips bs : item (H := rfc8949) bs -> skips bs 1.
Proof.
  apply (item_mut _ (fun bs => skips bs 1) (fun n bs => 0 <= n /\ skips bs n)); intros.
  - eapply skips_one; [apply length_head| |apply Z.eqb_neq, head_info_not31|by left].
    + intros r. apply read_head_enc; [lia|]. widths.
    + widths.
  - eapply skips_one; [apply length_head| |apply Z.eqb_neq, head_info_not31|by left].
    + intros r. by apply read_head_enc.
    + widths.
  - eapply skips_one; [simpl; lia|intros r; by apply f32_head|lia|by right].
  - eapply (skips_one _ 7 (if b then 21 else 20)); [simpl; lia| |by destruct b|by right].
    intros r. apply read_head_simple; [lia|by destruct b].
  - by apply skips_block; [right|destruct H].
  - by apply skips_block; [left|].
  - eapply (skips_one _ 7 22); [simpl; lia| |lia|by right].
    intros r. apply read_head_simple; lia.
  - destruct H1. by eapply skips_container; [left|..].
  - destruct H1. by eapply skips_container; [right|..].
  - split; [lia|]. exists 0%nat. split; [done|]. intros. simpl. by rewrite Z.add_0_r.
  - destruct H1 as (s & Hs & Hskip). destruct H3 as (_ & s' & Hs' & Hskip').
    split; [lia|]. exists (s + s')%nat. split; [rewrite length_app; lia|].
    intros fuel k r Hk. rewrite <- Nat.add_assoc, <- app_assoc, Z.add_assoc.
    rewrite Hskip by lia. by apply Hskip'.
Qed.

Lemma rfc_skip_item bs r : item (H := rfc8949) bs -> rfc_skip (bs ++ r) = Ok (tt, r).
Proof.
  intros (s & Hs & Hskip)%item_skips. unfold rfc_skip.
  replace (length (bs ++ r)) with (s + (length (bs ++ r) - s))%nat
    by (rewrite length_app in *; lia).
  change 1 with (0 + 1). rewrite Hskip by lia. by rewrite skip_items_zero.
Qed.

Lemma rfc_u32_enc n r : is_u32 n -> rfc_u32 (head 0 n ++ r) = Ok (n, r).
Proof.
  intros. unfold rfc_u32. rewrite read_major_enc; [|lia|widths]. simpl.
  destruct (Z.leb_spec n u32_max); [done|widths].
Qed.

Lemma rfc_f32_enc n r :
  is_u32 n -> rfc_f32 ((byte_of (7 * 32 + 26) :: be_bytes 4 n) ++ r) = Ok (n, r).
Proof. intros. unfold rfc_f32. by rewrite f32_head. Qed.

Lemma rfc_bool_enc (b : bool) r : rfc_bool ([byte_of (7 * 32 + if b then 21 else 20)] ++ r) = Ok (b, r).
Proof. by destruct b. Qed.

Lemma rfc_str_enc s r :
  string_ok s -> rfc_str ((head 3 (zlen (str_bytes s)) ++ str_bytes s) ++ r) = Ok (s, r).
Proof.
  intros [Hu Hv]. unfold rfc_str. rewrite read_block_enc by done. simpl.
  by rewrite Hu, bytes_str_bytes.
Qed.

Lemma rfc_datatype_str s r :
  string_ok s -> rfc_datatype ((head 3 (zlen (str_bytes s)) ++ str_bytes s) ++ r) = Ok TString.
Proof.
  intros [_ Hv]. unfold rfc_datatype. rewrite <- app_assoc.
  rewrite read_head_enc; [|lia|by apply vec_len_u64]. simpl.
  unfold rfc_type. simpl. by rewrite head_info_not31 by apply zlen_nonneg.
Qed.

Lemma rfc_datatype_u64 n r :
  is_u64 n -> exists t, rfc_datatype (head 0 n ++ r) = Ok t /\ t <> TNull.
Proof.
  intros. unfold rfc_datatype. rewrite read_head_enc by done. simpl. eexists. split; [done|].
  unfold rfc_type. simpl. repeat case_match; done.
Qed.

#[export] Instance rfc8949_laws : MinicborLaws rfc8949.
Proof.
  split; intros.
  - by apply read_len_enc.
  - by apply read_len_enc.
  - by apply rfc_u32_enc.
  - by apply read_major_enc.
  - by apply rfc_f32_enc.
  - apply rfc_bool_enc.
  - by apply rfc_str_enc.
  - by apply read_block_enc.
  - done.
  - by apply rfc_datatype_str.
  - by apply rfc_datatype_u64.
  - by apply rfc_skip_item.
Qed.
