(* ===== verification/ProtocolProofs.v ===== *)
(** * Correctness of the message codec

    Round trips for every client and server message, the errors of the
    decoder on every malformed header, and the well-formedness of the encoded
    messages as CBOR data items. *)

From S2P Require Import Prelude.
From S2P Require Import RustStd.
From S2P Require Import Minicbor.
From S2P Require Import Protocol.
From S2P Require Import Rfc8949.

Section Steps.
Context `{L : MinicborLaws}.

Lemma dbind_ok {A B} (c : decoder A) (k : A -> decoder B) i a i' :
  c i = Ok (a, i') -> dbind c k i = k a i'.
Proof. unfold dbind. by intros ->. Qed.

Lemma lib_ok {A} (d : list byte -> result mc_error (A * list byte)) i p :
  d i = Ok p -> lib d i = Ok p.
Proof. unfold lib. by intros ->. Qed.

Lemma definite_array n r : is_u64 n -> definite d_array (e_array n ++ r) = Ok (n, r).
Proof. intros. unfold definite, dbind, lib. by rewrite d_array_enc. Qed.

Lemma definite_map n r : is_u64 n -> definite d_map (e_map n ++ r) = Ok (n, r).
Proof. intros. unfold definite, dbind, lib. by rewrite d_map_enc. Qed.

Lemma at_null_null r : at_null (e_null ++ r) = Ok (true, e_null ++ r).
Proof. unfold at_null. by rewrite d_datatype_null. Qed.

Lemma at_null_str s r : string_ok s -> at_null (e_str s ++ r) = Ok (false, e_str s ++ r).
Proof. intros. unfold at_null. by rewrite d_datatype_str. Qed.

Lemma at_null_u64 n r : is_u64 n -> at_null (e_u64 n ++ r) = Ok (false, e_u64 n ++ r).
Proof.
  intros. unfold at_null. destruct (d_datatype_u64 n r) as (t & -> & Ht); [done|].
  by rewrite bool_decide_eq_false_2.
Qed.

Lemma skip_null r : d_skip (e_null ++ r) = Ok (tt, r).
Proof. apply d_skip_item. constructor. Qed.
End Steps.

#[export] Hint Resolve lib_ok definite_array definite_map at_null_null at_null_str at_null_u64
  skip_null : cbor.

(** One [?] of the decoder against one operation of the encoder. *)
Ltac dstep := erewrite dbind_ok by (eauto with cbor widths); cbv beta iota.
Ltac flat := rewrite <- ?(app_assoc (A := byte)).

Section RoundTrip.
Context `{L : MinicborLaws}.

Lemma decode_opt_str_enc o r :
  opt_ok string_ok o -> decode_opt_str (encode_opt_str o ++ r) = Ok (o, r).
Proof. intros Ho. unfold decode_opt_str. destruct o; simpl in *; by repeat dstep. Qed.

Lemma decode_strs_loop l acc r :
  Forall string_ok l ->
  nat_loop (length l)
    (fun '(acc, i) => match lib d_str i with
                      | Ok (s, i) => Ok (acc ++ [s], i)
                      | Err e => Err e
                      end) (acc, encode_strs l ++ r) = Ok (acc ++ l, r).
Proof.
  intros Hl. revert acc. induction Hl as [|s l Hs _ IH]; intros acc; simpl.
  { by rewrite app_nil_r. }
  flat. erewrite lib_ok by eauto with cbor. simpl. rewrite IH. by rewrite <- app_assoc.
Qed.

Lemma decode_strs_enc l r :
  Forall string_ok l -> decode_strs (zlen l) (encode_strs l ++ r) = Ok (l, r).
Proof. intros. unfold decode_strs, zlen. by rewrite for_loop_nat, decode_strs_loop. Qed.

Lemma decode_env_loop l acc r :
  Forall (fun p => string_ok p.1 /\ string_ok p.2) l -> btree_ok (acc ++ l) ->
  nat_loop (length l)
    (fun '(acc, i) => match (let! k := lib d_str in let! v := lib d_str in dret (k, v)) i with
                      | Ok ((k, v), i) => Ok (btree_insert k v acc, i)
                      | Err e => Err e
                      end) (acc, encode_env l ++ r) = Ok (acc ++ l, r).
Proof.
  intros Hl. revert acc. induction Hl as [|[k v] l [Hk Hv] _ IH]; intros acc Hacc; simpl.
  { by rewrite app_nil_r. }
  flat. repeat dstep. unfold dret. simpl.
  rewrite btree_insert_last by by eapply btree_ok_app_inv.
  rewrite IH; by rewrite <- app_assoc.
Qed.

Lemma decode_env_enc l r :
  Forall (fun p => string_ok p.1 /\ string_ok p.2) l -> btree_ok l ->
  decode_env (zlen l) (encode_env l ++ r) = Ok (l, r).
Proof. intros. unfold decode_env, zlen. by rewrite for_loop_nat, decode_env_loop. Qed.

Hint Resolve decode_opt_str_enc decode_strs_enc decode_env_enc : cbor.

Lemma decode_metrics_enc o r :
  opt_ok metrics_ok o -> decode_metrics (encode_metrics o ++ r) = Ok (o, r).
Proof.
  intros Ho. unfold decode_metrics.
  destruct o as [[m c u f]|]; simpl in *; [destruct Ho as (?&?&?&?); simpl in *|];
    flat; by repeat dstep.
Qed.

Lemma decode_config_enc o r :
  opt_ok config_ok o -> decode_config (encode_config o ++ r) = Ok (o, r).
Proof.
  intros Ho. unfold decode_config.
  destruct o as [[m c e a]|]; simpl in *; [destruct Ho as (?&?&?&?&?&?&?); simpl in *|];
    flat; by repeat dstep.
Qed.

Hint Resolve decode_metrics_enc decode_config_enc : cbor.

Lemma status_index_u32 s : is_u32 (status_index s).
Proof. destruct s; simpl; auto with widths. Qed.
Hint Resolve status_index_u32 : cbor.

Lemma status_of_index_enc s : status_of_index (status_index s) = s.
Proof. by destruct s. Qed.

Lemma decode_uuid_enc u r :
  length (uuid_bytes u) = 16%nat -> decode_uuid (e_bytes (uuid_bytes u) ++ r) = Ok (u, r).
Proof.
  destruct u as [bs]. simpl. intros Hlen. unfold decode_uuid.
  assert (zlen bs = 16) as E by (unfold zlen; lia).
  assert (vec_ok bs) by (unfold vec_ok; lia).
  dstep. by rewrite E.
Qed.
Hint Resolve decode_uuid_enc : cbor.

Lemma client_roundtrip m r :
  client_ok m -> decode_client (encode_client m ++ r) = Ok (m, r).
Proof.
  intros Hm. unfold decode_client.
  destruct m; simpl in Hm; destruct_and?; simpl encode_client; flat;
    do 2 dstep; simpl; repeat dstep; unfold dret; by rewrite ?status_of_index_enc.
Qed.

Lemma server_roundtrip m r :
  server_ok m -> decode_server (encode_server m ++ r) = Ok (m, r).
Proof.
  intros Hm. unfold decode_server.
  destruct m; simpl in Hm; destruct_and?; simpl encode_server; flat;
    do 2 dstep; simpl; by repeat dstep.
Qed.
End RoundTrip.

(** ** Messages as CBOR data items *)

Section WellFormed.
Context `{L : MinicborLaws}.

Lemma items_push n a b : 1 <= n -> item a -> items (n - 1) b -> items n (a ++ b).
Proof. intros. replace n with (n - 1 + 1) by lia. constructor; [lia|done..]. Qed.

Lemma items_last n a : n = 1 -> item a -> items n a.
Proof. intros -> Ha. rewrite <- (app_nil_r a). apply items_push; [lia|done|constructor]. Qed.

Lemma items_strs l : Forall string_ok l -> items (zlen l) (encode_strs l).
Proof.
  induction 1 as [|s l Hs _ IH]; simpl; [constructor|].
  apply items_push; [unfold zlen; simpl; lia|by constructor|].
  by replace (zlen (s :: l) - 1) with (zlen l) by (unfold zlen; simpl; lia).
Qed.

Lemma item_strs l : is_u64 (zlen l) -> Forall string_ok l -> item (e_array (zlen l) ++ encode_strs l).
Proof. intros. constructor; [done|]. by apply items_strs. Qed.

Lemma item_opt_str o : opt_ok string_ok o -> item (encode_opt_str o).
Proof. destruct o; simpl; by constructor. Qed.

Lemma item_status s : item (e_u32 (status_index s)).
Proof. constructor. apply status_index_u32. Qed.

Lemma uuid_item u : length (uuid_bytes u) = 16%nat -> item (e_bytes (uuid_bytes u)).
Proof. intros. constructor. unfold vec_ok, zlen. lia. Qed.

(** [n] items followed by something else are skipped up to that something. *)
Lemma skip_array_prefix n bs r : is_u64 n -> items n bs -> d_skip (e_array n ++ bs ++ r) = Ok (tt, r).
Proof. intros. rewrite app_assoc. apply d_skip_item. by constructor. Qed.

Lemma skip_whole bs : item bs -> d_skip bs = Ok (tt, []).
Proof. intros. rewrite <- (app_nil_r bs) at 1. by apply d_skip_item. Qed.
End WellFormed.

#[export] Hint Resolve item_strs item_opt_str item_status uuid_item : cbor.

(** The items of a message, one after the other. *)
Ltac solve_items :=
  lazymatch goal with
  | |- items _ (?a ++ ?b) =>
      apply items_push; [lia|solve [eauto with cbor widths | constructor; eauto with cbor widths]|]; solve_items
  | |- items _ _ => apply items_last; [lia|solve [eauto with cbor widths | constructor; eauto with cbor widths]]
  end.

Section Items.
Context `{L : MinicborLaws}.

Definition has_metrics (m : ClientMessage) : bool :=
  match m with CApplicationStatus _ _ _ (Some _) => true | _ => false end.

Definition has_config (m : ServerMessage) : bool :=
  match m with SDeployApplication _ _ _ _ (Some _) => true | _ => false end.

Lemma client_item m : client_ok m -> has_metrics m = false -> item (encode_client m).
Proof.
  intros Hm Hno. destruct m; simpl in *; destruct_and?;
    try (destruct metrics; [done|]); simpl; (apply item_array; [by auto with widths|]).
  all: try solve_items.
  (* DeviceInfo: the feature array is one of the five items *)
  do 3 (apply items_push; [lia|by eauto with cbor widths|]).
  rewrite app_assoc. solve_items.
Qed.

Lemma server_item m : server_ok m -> has_config m = false -> item (encode_server m).
Proof.
  intros Hm Hno. destruct m; simpl in *; destruct_and?;
    try (destruct config; [done|]); simpl; (apply item_array; [by auto with widths|]); solve_items.
Qed.

Lemma nonempty_app_l (a b : list byte) : a <> [] -> a ++ b <> [].
Proof. by destruct a. Qed.

Lemma nonempty_app_r (a b : list byte) : b <> [] -> a ++ b <> [].
Proof. by destruct a. Qed.

Lemma metrics_trailing app_id status error mt :
  client_ok (CApplicationStatus app_id status error (Some mt)) ->
  exists r, r <> [] /\
    d_skip (encode_client (CApplicationStatus app_id status error (Some mt))) = Ok (tt, r).
Proof.
  intros (Hid & Herr & Hmu & Hcpu & Hup & Hfc). simpl.
  exists (e_f32 (cpu_usage mt) ++ e_u64 (uptime mt) ++ e_u64 (function_calls mt)). split.
  { apply nonempty_app_r, nonempty_app_l. by apply e_u64_nonempty. }
  set (r := e_f32 _ ++ _).
  replace (e_u32 CLIENT_APPLICATION_STATUS ++ _) with
    ((e_u32 CLIENT_APPLICATION_STATUS ++ e_str app_id ++ e_u32 (status_index status)
      ++ encode_opt_str error ++ e_u64 (memory_usage mt)) ++ r) by by flat.
  apply skip_array_prefix; [by auto with widths|]. solve_items.
Qed.

Lemma config_trailing app_id name h w cfg :
  server_ok (SDeployApplication app_id name h w (Some cfg)) ->
  exists r, r <> [] /\
    d_skip (encode_server (SDeployApplication app_id name h w (Some cfg))) = Ok (tt, r).
Proof.
  intros (Hid & Hn & Hh & Hw & Hml & Hct & _). simpl.
  set (r := e_u64 (cpu_time_limit cfg) ++ _). exists r. split.
  { apply nonempty_app_l. by apply e_u64_nonempty. }
  replace (e_u32 SERVER_DEPLOY_APPLICATION ++ _) with
    ((e_u32 SERVER_DEPLOY_APPLICATION ++ e_str app_id ++ e_str name ++ e_bytes h ++ e_bytes w
      ++ e_u64 (memory_limit cfg)) ++ r) by by flat.
  apply skip_array_prefix; [by auto with widths|]. solve_items.
Qed.
End Items.

(** ** The properties of the codec *)

Section Claims.
Context `{L : MinicborLaws}.

(** C2: a client message survives the wire. Decoding the CBOR payload of any
    well-typed [ClientMessage] gives the message back, also when other
    bytes follow it in the buffer (which are then left unread). *)
Theorem client_message_roundtrip m r :
  client_ok m ->
  from_payload decode_client (encode_client m) = Ok m /\
  decode_client (encode_client m ++ r) = Ok (m, r).
Proof.
  intros Hm. split; [|by apply client_roundtrip].
  unfold from_payload. rewrite <- (app_nil_r (encode_client m)). by rewrite client_roundtrip.
Qed.

(** C3: a server message survives the wire, deployments with their whole
    configuration (environment map and argument list) included. *)
Theorem server_message_roundtrip m r :
  server_ok m ->
  from_payload decode_server (encode_server m) = Ok m /\
  decode_server (encode_server m ++ r) = Ok (m, r).
Proof.
  intros Hm. split; [|by apply server_roundtrip].
  unfold from_payload. rewrite <- (app_nil_r (encode_server m)). by rewrite server_roundtrip.
Qed.

(** The client encoding is injective and prefix-free, so a byte stream
    splits into client messages in at most one way. *)
Theorem client_encoding_prefix_free m1 m2 r1 r2 :
  client_ok m1 -> client_ok m2 ->
  encode_client m1 ++ r1 = encode_client m2 ++ r2 -> m1 = m2 /\ r1 = r2.
Proof.
  intros H1 H2 E. pose proof (client_roundtrip m1 r1 H1) as E1.
  rewrite E, client_roundtrip in E1 by done. by simplify_eq.
Qed.

(** The number of array elements each client tag requires. *)
Definition client_arity (tag : Z) : option Z :=
  match tag with
  | 0 | 1 | 3 => Some 1 | 2 | 8 => Some 2 | 4 | 7 => Some 5 | 5 | 6 => Some 4 | _ => None
  end.

(** The number of array elements each server tag requires. *)
Definition server_arity (tag : Z) : option Z :=
  match tag with
  | 0 | 1 | 4 | 7 => Some 1 | 2 | 3 | 6 | 8 | 9 => Some 2 | 5 => Some 6 | _ => None
  end.

(** A tag below the bound is one of the listed constants. *)
Ltac known_tag Hin :=
  repeat (apply elem_of_cons in Hin as [->|Hin]); [..|by apply elem_of_nil in Hin];
  (split; [done|]); intros n [= <-] Hne; apply Z.eqb_neq in Hne; simpl; rewrite ?Hne; done.

Ltac unknown_tag tag :=
  split;
  [ intros _; repeat (match goal with |- context [tag =? ?k] =>
      rewrite (proj2 (Z.eqb_neq tag k)) by (unfold k; lia) end); done
  | intros n E; destruct tag as [|p|p]; [done| |done];
    do 4 (destruct p as [p|p|]; try done; try lia) ].

(** Every malformed client header is reported precisely. A tag the
    protocol does not have gives [UnknownTag]; a known tag under an array of
    the wrong length gives [UnexpectedArrayLength] with the arity of the tag
    and the length that was found. *)
Theorem decode_client_header tag len r :
  is_u32 tag -> is_u64 len ->
  (client_arity tag = None ->
     decode_client (e_array len ++ e_u32 tag ++ r) = Err (Custom (UnknownTag tag))) /\
  (forall n, client_arity tag = Some n -> len <> n ->
     decode_client (e_array len ++ e_u32 tag ++ r) =
       Err (Custom (UnexpectedArrayLength n len))).
Proof.
  intros Ht Hl. unfold decode_client. do 2 dstep.
  assert (0 <= tag <= 8 \/ 8 < tag) as [Hs|Hb] by widths; [|unknown_tag tag].
  assert (tag ∈ [0;1;2;3;4;5;6;7;8]) as Hin by (repeat (rewrite elem_of_cons); lia).
  known_tag Hin.
Qed.

(** Every malformed server header is reported precisely, as for client
    messages. *)
Theorem decode_server_header tag len r :
  is_u32 tag -> is_u64 len ->
  (server_arity tag = None ->
     decode_server (e_array len ++ e_u32 tag ++ r) = Err (Custom (UnknownTag tag))) /\
  (forall n, server_arity tag = Some n -> len <> n ->
     decode_server (e_array len ++ e_u32 tag ++ r) =
       Err (Custom (UnexpectedArrayLength n len))).
Proof.
  intros Ht Hl. unfold decode_server. do 2 dstep.
  assert (0 <= tag <= 9 \/ 9 < tag) as [Hs|Hb] by widths; [|unknown_tag tag].
  assert (tag ∈ [0;1;2;3;4;5;6;7;8;9]) as Hin by (repeat (rewrite elem_of_cons); lia).
  known_tag Hin.
Qed.

(** A client message is one CBOR data item exactly when it carries no
    metrics. With metrics the encoder announces five array elements and
    writes eight, so a reader that skips the value stops in the middle. *)
Theorem client_message_one_item m :
  client_ok m -> d_skip (encode_client m) = Ok (tt, []) <-> has_metrics m = false.
Proof.
  intros Hm. split.
  - intros Hs. destruct (has_metrics m) eqn:E; [|done]. destruct m; try done.
    destruct metrics; [|done]. destruct (metrics_trailing _ _ _ _ Hm) as (r & Hr & E').
    rewrite E' in Hs. by simplify_eq.
  - intros. by apply skip_whole, client_item.
Qed.

(** A server message is one CBOR data item exactly when it carries no
    application configuration; with one, [DeployApplication] announces six
    elements and writes nine. *)
Theorem server_message_one_item m :
  server_ok m -> d_skip (encode_server m) = Ok (tt, []) <-> has_config m = false.
Proof.
  intros Hm. split.
  - intros Hs. destruct (has_config m) eqn:E; [|done]. destruct m; try done.
    destruct config; [|done]. destruct (config_trailing _ _ _ _ _ Hm) as (r & Hr & E').
    rewrite E' in Hs. by simplify_eq.
  - intros. by apply skip_whole, server_item.
Qed.
End Claims.

(** ** Witnesses: the properties at concrete messages, with the RFC 8949 codec *)

Definition sample_status : ClientMessage :=
  CApplicationStatus "app-1" Running (Some "oom"%string)
    (Some (mkApplicationMetrics 65536 1065353216 12 3)).

Definition sample_deploy : ServerMessage :=
  SDeployApplication "app-1" "demo" [byte_of 0xab] [Byte.x00; byte_of 0x61]
    (Some (mkApplicationConfig 1048576 1000 [("A", "1"); ("B", "2")]%string ["x"; "y"]%string)).

Ltac concrete_ok :=
  repeat match goal with
  | |- _ /\ _ => split
  | |- Forall _ _ => constructor
  | |- string_ok _ => split; [reflexivity|vm_compute; reflexivity]
  | |- vec_ok _ => vm_compute; reflexivity
  | |- is_u32 _ => by auto with widths
  | |- is_u64 _ => by auto with widths
  | |- btree_ok _ => repeat constructor
  | |- True => done
  end.

Lemma sample_status_ok : client_ok sample_status.
Proof. simpl. unfold metrics_ok. simpl. concrete_ok. Qed.

Lemma sample_deploy_ok : server_ok sample_deploy.
Proof. simpl. unfold config_ok. simpl. concrete_ok. Qed.

Lemma client_message_roundtrip_witness :
  from_payload decode_client (encode_client sample_status) = Ok sample_status /\
  decode_client (encode_client sample_status ++ [Byte.x00]) = Ok (sample_status, [Byte.x00]).
Proof. apply (client_message_roundtrip (L := rfc8949_laws)). apply sample_status_ok. Defined.

Lemma server_message_roundtrip_witness :
  from_payload decode_server (encode_server sample_deploy) = Ok sample_deploy /\
  decode_server (encode_server sample_deploy ++ [Byte.x00]) = Ok (sample_deploy, [Byte.x00]).
Proof. apply (server_message_roundtrip (L := rfc8949_laws)). apply sample_deploy_ok. Defined.

Lemma client_encoding_prefix_free_witness :
  encode_client sample_status ++ [Byte.x00] = encode_client sample_status ++ [Byte.x00] /\
  sample_status = sample_status /\ [Byte.x00] = [Byte.x00].
Proof.
  split; [reflexivity|].
  apply (client_encoding_prefix_free (L := rfc8949_laws)); [apply sample_status_ok..|reflexivity].
Defined.

Lemma decode_client_header_witness :
  decode_client (e_array 1 ++ e_u32 9 ++ []) = Err (Custom (UnknownTag 9)) /\
  decode_client (e_array 3 ++ e_u32 2 ++ []) = Err (Custom (UnexpectedArrayLength 2 3)).
Proof.
  split.
  - apply (proj1 (decode_client_header (L := rfc8949_laws) 9 1 [] ltac:(widths) ltac:(widths))).
    reflexivity.
  - apply (proj2 (decode_client_header (L := rfc8949_laws) 2 3 [] ltac:(widths) ltac:(widths)));
      [reflexivity|lia].
Defined.

Lemma decode_server_header_witness :
  decode_server (e_array 1 ++ e_u32 10 ++ []) = Err (Custom (UnknownTag 10)) /\
  decode_server (e_array 5 ++ e_u32 5 ++ []) = Err (Custom (UnexpectedArrayLength 6 5)).
Proof.
  split.
  - apply (proj1 (decode_server_header (L := rfc8949_laws) 10 1 [] ltac:(widths) ltac:(widths))).
    reflexivity.
  - apply (proj2 (decode_server_header (L := rfc8949_laws) 5 5 [] ltac:(widths) ltac:(widths)));
      [reflexivity|lia].
Defined.

Lemma client_message_one_item_witness :
  d_skip (encode_client CHeartbeat) = Ok (tt, []) /\
  ~ d_skip (encode_client sample_status) = Ok (tt, []).
Proof.
  split.
  - by apply (client_message_one_item (L := rfc8949_laws)).
  - intros H. apply (client_message_one_item (L := rfc8949_laws)) in H; [done|].
    apply sample_status_ok.
Defined.

Lemma server_message_one_item_witness :
  d_skip (encode_server SHeartbeatAck) = Ok (tt, []) /\
  ~ d_skip (encode_server sample_deploy) = Ok (tt, []).
Proof.
  split.
  - by apply (server_message_one_item (L := rfc8949_laws)).
  - intros H. apply (server_message_one_item (L := rfc8949_laws)) in H; [done|].
    apply sample_deploy_ok.
Defined.
