(* ===== verification/Framing.v ===== *)
(** * Frames on the TLS stream

    Both sides send [u32 big-endian length][CBOR]: the writer task and reader
    loop of [GatewayServer::handle_tls_connection] (wasmbed-tls-utils) and
    [send_message]/[read_frame] of the edge client. A stream that has been
    received up to its end is the list of its bytes; [read_exact] fails when
    the stream ends before the buffer is full. *)

From S2P Require Import Prelude.
From S2P Require Import RustStd.
From S2P Require Import Minicbor.
From S2P Require Import Protocol.
From S2P Require Import Rfc8949.
From S2P Require Import ProtocolProofs.

Definition MAX_FRAME : Z := 65536.

Inductive frame_error := EndOfStream | InvalidFrameLength (n : Z) | MessageTooLarge.

(** [reader.read_exact(&mut buf)] *)
Definition take_exact (k : Z) (i : list byte) : option (list byte * list byte) :=
  if zlen i <? k then None else Some (take (Z.to_nat k) i, drop (Z.to_nat k) i).

Arguments take_exact : simpl never.

(** [read_frame] of the edge client. *)
Definition read_frame (i : list byte) : result frame_error (list byte * list byte) :=
  match take_exact 4 i with
  | None => Err EndOfStream
  | Some (len_buf, i) =>
      let msg_len := be_value len_buf in
      if (msg_len =? 0) || (msg_len >? MAX_FRAME) then Err (InvalidFrameLength msg_len) else
      match take_exact msg_len i with
      | None => Err EndOfStream
      | Some (payload, i) => Ok (payload, i)
      end
  end.

Section Framing.
Context `{M : Minicbor}.

(** The writer task of the gateway: [cbor.len() as u32] truncates. *)
Definition gateway_write (msg : ServerMessage) : list byte :=
  let cbor := encode_server msg in
  let len := zlen cbor mod 2 ^ 32 in
  be_bytes 4 len ++ cbor.

(** [send_message] of the edge client: [u32::try_from] checks. *)
Definition send_message (msg : ClientMessage) : result frame_error (list byte) :=
  let cbor := encode_client msg in
  if zlen cbor >? u32_max then Err MessageTooLarge else Ok (be_bytes 4 (zlen cbor) ++ cbor).

(** The reader loop of the gateway: the contexts it hands to
    [on_client_message], in order; a payload that does not decode is handed
    over without a message. The loop ends at the first bad length and at the
    end of the stream; each round consumes the prefix, so the stream length
    is enough fuel. *)
Fixpoint gateway_read_fuel (fuel : nat) (i : list byte) : list (option ClientMessage) :=
  match fuel with
  | O => []
  | S fuel =>
      match take_exact 4 i with
      | None => []
      | Some (len_buf, i) =>
          let msg_len := be_value len_buf in
          if (msg_len =? 0) || (msg_len >? MAX_FRAME) then [] else
          match take_exact msg_len i with
          | None => []
          | Some (payload, i) =>
              match from_payload decode_client payload with
              | Ok client_message => Some client_message
              | Err _ => None
              end :: gateway_read_fuel fuel i
          end
      end
  end.

Definition gateway_read_loop (i : list byte) : list (option ClientMessage) :=
  gateway_read_fuel (length i) i.

(** [read_frame] followed by [decode_server], as in [enroll] and
    [event_loop] of the edge client. *)
Definition client_receive (i : list byte) : result frame_error (option ServerMessage * list byte) :=
  let? (payload, i) := read_frame i in
  Ok (match from_payload decode_server payload with Ok m => Some m | Err _ => None end, i).

(** ** Proofs *)

Lemma take_exact_app k (a b : list byte) : zlen a = k -> take_exact k (a ++ b) = Some (a, b).
Proof.
  intros <-. unfold take_exact. destruct (Z.ltb_spec (zlen (a ++ b)) (zlen a)) as [Hlt|_].
  { rewrite zlen_app in Hlt. pose proof (zlen_nonneg b). lia. }
  unfold zlen. rewrite Nat2Z.id. by rewrite take_app_length, drop_app_length.
Qed.

Lemma take_exact_length k i a b :
  take_exact k i = Some (a, b) -> 0 <= k -> (length b <= length i - Z.to_nat k)%nat.
Proof.
  unfold take_exact. case_match; [done|]. intros [= <- <-] Hk.
  rewrite length_drop. lia.
Qed.

Lemma take_prefix n r :
  0 <= n < 2 ^ 32 -> take_exact 4 (be_bytes 4 n ++ r) = Some (be_bytes 4 n, r) /\
                     be_value (be_bytes 4 n) = n.
Proof.
  intros. split; [|by apply be_value_bytes].
  apply take_exact_app. unfold zlen. by rewrite length_be_bytes.
Qed.

Lemma frame_len_ok n : 1 <= n <= MAX_FRAME -> ((n =? 0) || (n >? MAX_FRAME)) = false.
Proof.
  intros. apply orb_false_iff. rewrite Z.eqb_neq, Z.gtb_ltb, Z.ltb_ge. lia.
Qed.

Lemma read_frame_frame payload r :
  1 <= zlen payload <= MAX_FRAME ->
  read_frame (be_bytes 4 (zlen payload) ++ payload ++ r) = Ok (payload, r).
Proof.
  intros Hlen. unfold read_frame.
  destruct (take_prefix (zlen payload) (payload ++ r)) as [-> ->]; [unfold MAX_FRAME in *; lia|].
  rewrite frame_len_ok by done. by rewrite take_exact_app.
Qed.

Lemma fuel_enough i f1 f2 :
  (length i <= f1)%nat -> (length i <= f2)%nat -> gateway_read_fuel f1 i = gateway_read_fuel f2 i.
Proof.
  revert i f2. induction f1 as [|f1 IH]; intros i f2 H1 H2.
  { destruct i; [|simpl in H1; lia]. by destruct f2. }
  destruct f2 as [|f2]. { destruct i; [|simpl in H2; lia]. done. }
  simpl. destruct (take_exact 4 i) as [[lb i']|] eqn:E; [|done].
  assert (i <> []) as Hne by (by intros ->).
  apply take_exact_length in E; [|lia].
  case_match; [done|]. destruct (take_exact (be_value lb) i') as [[p i'']|] eqn:E'; [|done].
  apply take_exact_length in E'; [|apply le_value_nonneg].
  f_equal. apply IH; lia.
Qed.

Lemma gateway_read_cons m r :
  client_ok m -> 1 <= zlen (encode_client m) <= MAX_FRAME -> forall `{!MinicborLaws M},
  gateway_read_loop (be_bytes 4 (zlen (encode_client m)) ++ encode_client m ++ r) =
    Some m :: gateway_read_loop r.
Proof.
  intros Hm Hlen L. unfold gateway_read_loop. set (p := encode_client m) in *.
  destruct (length (be_bytes 4 (zlen p) ++ p ++ r)) as [|f] eqn:Ef.
  { rewrite length_app, length_be_bytes in Ef. lia. }
  cbn [gateway_read_fuel]. destruct (take_prefix (zlen p) (p ++ r)) as [-> ->]; [unfold MAX_FRAME in *; lia|].
  rewrite frame_len_ok, take_exact_app by done. f_equal.
  - unfold from_payload, p. rewrite <- (app_nil_r (encode_client m)).
    by rewrite client_roundtrip.
  - apply fuel_enough; [|lia]. rewrite !length_app, length_be_bytes in Ef. lia.
Qed.

(** The bytes [send_message] writes for a list of messages. *)
Definition client_stream (ms : list ClientMessage) : list byte :=
  ms ≫= (fun m => match send_message m with Ok bs => bs | Err _ => [] end).

Lemma client_stream_cons m ms :
  client_stream (m :: ms) =
    match send_message m with Ok bs => bs | Err _ => [] end ++ client_stream ms.
Proof. done. Qed.

Definition frame_fits (payload : list byte) : Prop := 1 <= zlen payload <= MAX_FRAME.

Lemma send_message_ok m :
  frame_fits (encode_client m) ->
  send_message m = Ok (be_bytes 4 (zlen (encode_client m)) ++ encode_client m).
Proof.
  intros [_ Hmax]. unfold send_message. rewrite Z.gtb_ltb.
  destruct (Z.ltb_spec u32_max (zlen (encode_client m))) as [Hlt|]; [|done].
  unfold MAX_FRAME, u32_max in *. lia.
Qed.
End Framing.

(** A bad length prefix ends the loop. *)
Lemma gateway_read_bad `{M : Minicbor} n r :
  0 <= n < 2 ^ 32 -> n = 0 \/ MAX_FRAME < n -> gateway_read_loop (be_bytes 4 n ++ r) = [].
Proof.
  intros Hn Hbad. unfold gateway_read_loop. destruct (length _) as [|fuel]; [done|]. cbn [gateway_read_fuel].
  destruct (take_prefix n r Hn) as [-> ->].
  destruct (Z.eqb_spec n 0) as [->|]; [done|]. simpl.
  rewrite Z.gtb_ltb. destruct (Z.ltb_spec MAX_FRAME n); [done|lia].
Qed.

Section Claims.
Context `{L : MinicborLaws}.

Lemma gateway_read_stream ms r :
  Forall (fun m => client_ok m /\ frame_fits (encode_client m)) ms ->
  gateway_read_loop (client_stream ms ++ r) = map Some ms ++ gateway_read_loop r.
Proof.
  induction 1 as [|m ms [Hok Hfit] _ IH]; [done|].
  rewrite client_stream_cons, send_message_ok by done.
  rewrite <- !app_assoc, gateway_read_cons by done. by rewrite IH.
Qed.

(** C8: the gateway reads exactly what the edge client sent: over a stream
    of framed client messages, none longer than 64 KiB, the reader loop
    hands the same messages to the handler in the same order, and whatever
    follows them in the stream is read next. *)
Theorem gateway_reads_client_stream ms r :
  Forall (fun m => client_ok m /\ frame_fits (encode_client m)) ms ->
  gateway_read_loop (client_stream ms ++ r) = map Some ms ++ gateway_read_loop r.
Proof. apply gateway_read_stream. Qed.

(** A frame the gateway writes for a server message of at most 64 KiB is
    read back by the edge client as that message. *)
Theorem client_receives_gateway_frame m r :
  server_ok m -> frame_fits (encode_server m) ->
  client_receive (gateway_write m ++ r) = Ok (Some m, r).
Proof.
  intros Hm Hfit. unfold client_receive, gateway_write.
  rewrite Z.mod_small by (unfold frame_fits, MAX_FRAME in Hfit; lia).
  rewrite <- app_assoc, read_frame_frame by done. simpl. unfold from_payload.
  rewrite <- (app_nil_r (encode_server m)). by rewrite server_roundtrip.
Qed.

(** The reader loop terminates and stops at the first invalid length: of
    a stream of valid frames followed by a zero or oversized length prefix and
    anything else it delivers exactly the messages of the valid frames,
    with every bound on the number of rounds that is at least the number of
    bytes it was given. *)
Theorem gateway_read_stops ms n r fuel :
  Forall (fun m => client_ok m /\ frame_fits (encode_client m)) ms ->
  0 <= n < 2 ^ 32 -> n = 0 \/ MAX_FRAME < n ->
  let i := client_stream ms ++ be_bytes 4 n ++ r in
  (length i <= fuel)%nat -> gateway_read_fuel fuel i = map Some ms.
Proof.
  intros Hms Hn Hbad i Hf. rewrite (fuel_enough i fuel (length i)) by lia.
  change (gateway_read_loop i = map Some ms). unfold i.
  by rewrite gateway_read_stream, gateway_read_bad, app_nil_r.
Qed.
End Claims.

(** The gateway does not enforce the limit of the receiver. It frames a
    server message of any size, and the edge client refuses every frame whose
    payload is longer than 64 KiB (below 4 GiB, where the prefix is exact)
    and drops the connection, so a module larger than that is never deployed. *)
Theorem oversized_deploy_refused `{M : Minicbor} m r :
  MAX_FRAME < zlen (encode_server m) < 2 ^ 32 ->
  read_frame (gateway_write m ++ r) = Err (InvalidFrameLength (zlen (encode_server m))).
Proof.
  intros Hlen. unfold read_frame, gateway_write.
  rewrite Z.mod_small by (unfold MAX_FRAME in Hlen; lia). rewrite <- app_assoc.
  destruct (take_prefix (zlen (encode_server m)) (encode_server m ++ r)) as [-> ->].
  { unfold MAX_FRAME in Hlen. lia. }
  rewrite Z.gtb_ltb. destruct (Z.ltb_spec MAX_FRAME (zlen (encode_server m))); [|lia].
  by rewrite orb_true_r.
Qed.

(** ** Witnesses *)

Lemma gateway_reads_client_stream_witness :
  gateway_read_loop (client_stream [CHeartbeat; sample_status] ++ [Byte.x00]) =
    [Some CHeartbeat; Some sample_status].
Proof.
  rewrite (gateway_reads_client_stream (L := rfc8949_laws)); [reflexivity|].
  repeat constructor; vm_compute; congruence.
Defined.

Lemma client_receives_gateway_frame_witness :
  client_receive (gateway_write sample_deploy ++ [Byte.x00]) = Ok (Some sample_deploy, [Byte.x00]).
Proof.
  apply (client_receives_gateway_frame (L := rfc8949_laws)); [apply sample_deploy_ok|].
  split; vm_compute; congruence.
Defined.

Lemma gateway_read_stops_witness :
  gateway_read_fuel 100 (client_stream [CHeartbeat] ++ be_bytes 4 65537 ++ client_stream [CHeartbeat]) =
    [Some CHeartbeat].
Proof.
  apply (gateway_read_stops (L := rfc8949_laws) [CHeartbeat]).
  - repeat constructor; vm_compute; congruence.
  - lia.
  - right. unfold MAX_FRAME. lia.
  - vm_compute. lia.
Defined.

Definition big_module : ServerMessage :=
  SDeployApplication "a" "a" [] (repeat Byte.x00 (Z.to_nat 70000)) None.

Lemma oversized_deploy_refused_witness :
  read_frame (gateway_write big_module ++ []) =
    Err (InvalidFrameLength (zlen (encode_server big_module))).
Proof. apply (oversized_deploy_refused (M := rfc8949)). vm_compute. split; reflexivity. Defined.
