(* ===== verification/Externals.v ===== *)
(** * Interfaces of the other external code

    The [base64] engines, SHA-256, ECDSA signatures, X.509 key unwrapping and
    UUID parsing are third-party crates: parameters of the model, with the
    documented facts the sources rely on as separate classes of laws. *)

From S2P Require Import Prelude.
From S2P Require Import RustStd.

(** [base64::engine::general_purpose::{STANDARD, URL_SAFE_NO_PAD}] *)
Class Base64 := {
  std_encode : list byte -> string;
  std_decode : string -> option (list byte);
  url_encode : list byte -> string;
  url_decode : string -> option (list byte);
}.

Class Base64Laws (B : Base64) : Prop := {
  std_decode_encode bs : std_decode (std_encode bs) = Some bs;
  url_decode_encode bs : url_decode (url_encode bs) = Some bs;
  (** the alphabets differ in two characters only: a text both engines accept
      means the same bytes to both *)
  std_url_agree t a b : std_decode t = Some a -> url_decode t = Some b -> a = b;
  (** [STANDARD] pads to a multiple of four characters with [=], and
      [URL_SAFE_NO_PAD] writes no padding: unless the input is a whole number
      of three-byte groups the texts differ. *)
  std_url_padding bs : Z.modulo (zlen bs) 3 <> 0 -> std_encode bs <> url_encode bs;
}.

(** [sha2::Sha256::digest] *)
Class Sha256 := sha256 : list byte -> list byte.
Class Sha256Laws (H : Sha256) : Prop := {
  sha256_length bs : length (sha256 bs) = 32%nat;
}.

(** ECDSA P-256 with SHA-256 as [ring] provides it, and the unwrapping of a
    SubjectPublicKeyInfo by [x509_parser]. The signing and verifying functions
    take the message and hash it themselves. A private key is a PKCS#8
    document that [EcdsaKeyPair::from_pkcs8] accepted. *)
Class Ecdsa := {
  private_key : Type;
  from_pkcs8 : list byte -> option private_key;
  public_point : private_key -> list byte;
  ecdsa_sign : private_key -> list byte -> option (list byte);
  ecdsa_verify : list byte -> list byte -> list byte -> bool;
  spki_point : list byte -> option (list byte);
}.

(** What a signature scheme promises: an honest signature verifies, and it
    verifies for no other message than the one that was signed. *)
Class EcdsaLaws (E : Ecdsa) : Prop := {
  sign_verify sk m s : ecdsa_sign sk m = Some s -> ecdsa_verify (public_point sk) m s = true;
  sign_binds sk m m' s :
    ecdsa_sign sk m = Some s -> ecdsa_verify (public_point sk) m' s = true -> m' = m;
}.

(** [uuid::Uuid::parse_str], on the 16 bytes of the result. *)
Class UuidParse := parse_uuid : string -> option (list byte).
Class UuidParseLaws (U : UuidParse) : Prop := {
  (** the simple form: 32 hexadecimal digits *)
  parse_uuid_simple bs : length bs = 16%nat -> parse_uuid (hex_bytes bs) = Some bs;
}.
