(* ===== verification/Base64.v ===== *)
(** * Concrete base64 engines and other instances of the external interfaces

    The two alphabets of RFC 4648 with and without padding, and small
    executable instances of the remaining interfaces. They show that the laws
    of [Externals] can hold, and the evaluated examples run on them. *)

From S2P Require Import Prelude.
From S2P Require Import RustStd.
From S2P Require Import Externals.
From Stdlib Require Import Strings.String Strings.Ascii.
Local Open Scope Z_scope.
#[local] Ltac Zify.zify_post_hook ::= Z.to_euclidean_division_equations.

(** ** Digits *)

Definition std_alphabet : string := "ABCDEFGHIJKLMNOPQRSTUVWXYZabcdefghijklmnopqrstuvwxyz0123456789+/".
Definition url_alphabet : string := "ABCDEFGHIJKLMNOPQRSTUVWXYZabcdefghijklmnopqrstuvwxyz0123456789-_".

Definition digit (alpha : string) (d : Z) : ascii :=
  match String.get (Z.to_nat d) alpha with Some c => c | None => "="%char end.

Fixpoint index_of (c : ascii) (alpha : string) (i : Z) : option Z :=
  match alpha with
  | EmptyString => None
  | String c' alpha' => if Ascii.eqb c c' then Some i else index_of c alpha' (i + 1)
  end.

Definition undigit (alpha : string) (c : ascii) : option Z := index_of c alpha 0.

Definition alphabet_ok (alpha : string) : Prop :=
  (forall d, 0 <= d < 64 -> undigit alpha (digit alpha d) = Some d) /\
  undigit alpha "="%char = None.

Lemma digits_ok alpha :
  forallb (fun d => bool_decide (undigit alpha (digit alpha d) = Some d))
    (map Z.of_nat (seq 0 64)) = true ->
  undigit alpha "="%char = None -> alphabet_ok alpha.
Proof.
  intros H He. split; [|done]. intros d Hd. rewrite forallb_forall in H.
  specialize (H d). apply bool_decide_eq_true in H; [done|].
  apply in_map_iff. exists (Z.to_nat d). split; [lia|]. apply in_seq. lia.
Qed.

Lemma std_alphabet_ok : alphabet_ok std_alphabet.
Proof. apply digits_ok; by vm_compute. Qed.

Lemma url_alphabet_ok : alphabet_ok url_alphabet.
Proof. apply digits_ok; by vm_compute. Qed.

(** ** Encoding three bytes at a time *)

Lemma list_ind3 {A} (P : list A -> Prop) :
  P [] -> (forall a, P [a]) -> (forall a b, P [a; b]) ->
  (forall a b c l, P l -> P (a :: b :: c :: l)) -> forall l, P l.
Proof. intros H0 H1 H2 H3. fix IH 1. intros [|a [|b [|c l]]]; [done..|]. apply H3, IH. Qed.

Section Engine.
Context (alpha : string) (pad : bool) (Halpha : alphabet_ok alpha).

Definition pads (n : nat) : string :=
  if pad then match n with 1%nat => "=" | 2%nat => "==" | _ => "" end else "".

Fixpoint b64_encode (bs : list byte) : string :=
  match bs with
  | [] => ""
  | [a] =>
      let n := byte_val a * 16 in
      String (digit alpha (n / 64)) (String (digit alpha (n mod 64)) (pads 2))
  | [a; b] =>
      let n := (byte_val a * 256 + byte_val b) * 4 in
      String (digit alpha (n / 4096)) (String (digit alpha (n / 64 mod 64))
        (String (digit alpha (n mod 64)) (pads 1)))
  | a :: b :: c :: bs =>
      let n := byte_val a * 65536 + byte_val b * 256 + byte_val c in
      String (digit alpha (n / 262144)) (String (digit alpha (n / 4096 mod 64))
        (String (digit alpha (n / 64 mod 64)) (String (digit alpha (n mod 64)) (b64_encode bs))))
  end%string.

(** The last group: two or three digits followed by exactly the padding of
    the engine, with no stray bits. *)
Definition decode_tail (s : string) : option (list byte) :=
  match s with
  | String a (String b rest) =>
      let* x := undigit alpha a in
      let* y := undigit alpha b in
      if String.eqb rest (pads 2) then
        if (y mod 16 =? 0) then Some [byte_of ((x * 64 + y) / 16)] else None
      else match rest with
      | String c rest =>
          let* z := undigit alpha c in
          if String.eqb rest (pads 1) && (z mod 4 =? 0) then
            let n := (x * 4096 + y * 64 + z) / 4 in
            Some [byte_of (n / 256); byte_of n]
          else None
      | EmptyString => None
      end
  | _ => None
  end.

Fixpoint b64_decode (s : string) : option (list byte) :=
  match s with
  | EmptyString => Some []
  | String a (String b (String c (String d rest))) =>
      match undigit alpha a, undigit alpha b, undigit alpha c, undigit alpha d with
      | Some x, Some y, Some z, Some w =>
          let n := x * 262144 + y * 4096 + z * 64 + w in
          let* bs := b64_decode rest in
          Some (byte_of (n / 65536) :: byte_of (n / 256) :: byte_of n :: bs)
      | _, _, _, _ => decode_tail s
      end
  | _ => decode_tail s
  end.

Lemma undigit_digit d : 0 <= d < 64 -> undigit alpha (digit alpha d) = Some d.
Proof. intros. by apply Halpha. Qed.

Lemma byte_of_eq z b : z mod 256 = byte_val b -> byte_of z = b.
Proof. intros E. apply byte_val_inj. by rewrite byte_val_of. Qed.

(** The byte-level arithmetic of one group. *)
Ltac group :=
  repeat match goal with b : byte |- _ =>
    lazymatch goal with H : 0 <= byte_val b < 256 |- _ => fail | _ => pose proof (byte_val_range b) end
  end;
  repeat (rewrite undigit_digit by lia).

Lemma decode_tail_one a : decode_tail (b64_encode [a]) = Some [a].
Proof.
  unfold b64_encode, decode_tail. group. rewrite String.eqb_refl.
  rewrite (proj2 (Z.eqb_eq _ _)) by lia.
  do 2 f_equal. apply byte_of_eq. lia.
Qed.

Lemma decode_tail_two a b : decode_tail (b64_encode [a; b]) = Some [a; b].
Proof.
  unfold b64_encode, decode_tail. group.
  destruct (String.eqb_spec (String (digit alpha (((byte_val a * 256 + byte_val b) * 4) mod 64))
    (pads 1)) (pads 2)) as [E|_].
  { unfold pads in E. destruct pad; [|done]. injection E as E.
    pose proof (undigit_digit (((byte_val a * 256 + byte_val b) * 4) mod 64) ltac:(lia)) as Hd.
    rewrite E in Hd. by rewrite (proj2 Halpha) in Hd. }
  group. rewrite String.eqb_refl. simpl andb. rewrite (proj2 (Z.eqb_eq _ _)) by lia.
  f_equal. f_equal; [|f_equal]; apply byte_of_eq; lia.
Qed.

Lemma b64_roundtrip bs : b64_decode (b64_encode bs) = Some bs.
Proof.
  induction bs as [|a|a b|a b c bs IH] using list_ind3.
  - done.
  - rewrite <- decode_tail_one. unfold b64_encode, pads. destruct pad; [|done].
    cbn [b64_decode]. rewrite (proj2 Halpha). by repeat case_match.
  - rewrite <- decode_tail_two. unfold b64_encode, pads. destruct pad; [|done].
    cbn [b64_decode]. rewrite (proj2 Halpha). by repeat case_match.
  - cbn [b64_encode b64_decode]. group. rewrite IH.
    f_equal. f_equal; [|f_equal; [|f_equal]]; apply byte_of_eq; lia.
Qed.

Lemma b64_length bs :
  Z.of_nat (String.length (b64_encode bs)) mod 4 =
    if pad then 0 else if zlen bs mod 3 =? 0 then 0 else zlen bs mod 3 + 1.
Proof.
  induction bs as [|a|a b|a b c bs IH] using list_ind3;
    [unfold b64_encode, pads; by destruct pad..|].
  cbn [b64_encode String.length].
  replace (zlen (a :: b :: c :: bs)) with (zlen bs + 3) by (unfold zlen; simpl; lia).
  replace ((zlen bs + 3) mod 3) with (zlen bs mod 3) by lia.
  rewrite <- IH. lia.
Qed.
End Engine.

(** ** The instances *)

#[export] Instance base64 : Base64 := {|
  std_encode := b64_encode std_alphabet true;
  std_decode := b64_decode std_alphabet true;
  url_encode := b64_encode url_alphabet false;
  url_decode := b64_decode url_alphabet false;
|}.

(** A digit of both alphabets has the same value in both. *)
Lemma undigit_agree c x y :
  undigit std_alphabet c = Some x -> undigit url_alphabet c = Some y -> x = y.
Proof. destruct c as [[] [] [] [] [] [] [] []]; vm_compute; congruence. Qed.

(** A tail of four or more characters is never accepted without padding, and
    a tail of fewer than four never with padding. *)
Lemma url_tail_short a b c d rest alpha :
  decode_tail alpha false (String a (String b (String c (String d rest)))) = None.
Proof. simpl. by repeat case_match. Qed.

Lemma std_tail_pads alpha a b c d rest bs :
  undigit alpha "="%char = None ->
  decode_tail alpha true (String a (String b (String c (String d rest)))) = Some bs ->
  c = "="%char \/ d = "="%char.
Proof.
  intros _. cbn [decode_tail pads].
  destruct (undigit alpha a), (undigit alpha b); try done.
  destruct (String.eqb_spec (String c (String d rest)) "==") as [E|_]; [by injection E; left|].
  destruct (undigit alpha c); [|done].
  destruct (String.eqb_spec (String d rest) "=") as [E|_]; [by injection E; right|]. by simpl.
Qed.

Lemma std_tail_long alpha s bs :
  decode_tail alpha true s = Some bs -> exists a b c d rest, s = String a (String b (String c (String d rest))).
Proof.
  destruct s as [|a [|b [|c [|d rest]]]]; simpl; try done; [| |by eauto 6].
  - by repeat case_match.
  - by repeat case_match.
Qed.

Lemma b64_agree s a b :
  b64_decode std_alphabet true s = Some a -> b64_decode url_alphabet false s = Some b -> a = b.
Proof.
  revert a b. induction s as [s IH] using (well_founded_induction
    (Wf_nat.well_founded_ltof _ String.length)). intros a b Ha Hb.
  destruct s as [|c1 [|c2 [|c3 [|c4 rest]]]];
    [simpl in *; congruence
    |by destruct (std_tail_long std_alphabet _ a Ha) as (? & ? & ? & ? & ? & ?)..|].
  cbn [b64_decode] in Ha, Hb.
  destruct (undigit url_alphabet c1) eqn:U1, (undigit url_alphabet c2) eqn:U2,
    (undigit url_alphabet c3) eqn:U3, (undigit url_alphabet c4) eqn:U4;
    try by rewrite url_tail_short in Hb.
  destruct (undigit std_alphabet c1) eqn:S1, (undigit std_alphabet c2) eqn:S2,
    (undigit std_alphabet c3) eqn:S3, (undigit std_alphabet c4) eqn:S4;
    try (apply std_tail_pads in Ha as [-> | ->]; [done..|done]).
  destruct (b64_decode std_alphabet true rest) as [ra|] eqn:Ra; [|done].
  destruct (b64_decode url_alphabet false rest) as [rb|] eqn:Rb; [|done].
  rewrite (IH rest) with (a := ra) (b := rb) in Ha; [|unfold Wf_nat.ltof; simpl; lia|done..].
  rewrite (undigit_agree _ _ _ S1 U1), (undigit_agree _ _ _ S2 U2), (undigit_agree _ _ _ S3 U3),
    (undigit_agree _ _ _ S4 U4) in Ha. congruence.
Qed.

#[export] Instance base64_laws : Base64Laws base64.
Proof.
  split.
  - intros. apply b64_roundtrip, std_alphabet_ok.
  - intros. apply b64_roundtrip, url_alphabet_ok.
  - intros t a b. apply b64_agree.
  - simpl. intros bs Hne E. pose proof (b64_length std_alphabet true bs) as H1.
    rewrite E, b64_length in H1. destruct (Z.eqb_spec (zlen bs mod 3) 0); lia.
Qed.

Example base64_public_key : url_encode (map byte_of [1; 2; 3; 4]) = "AQIDBA"%string.
Proof. reflexivity. Qed.

(** ** Toy cryptography

    A digest that is the input cut and padded to 32 bytes, and a signature
    that is the key followed by the message: enough to run the handlers, and
    honest about which message was signed. *)

#[export] Instance toy_sha256 : Sha256 := fun bs => take 32 (bs ++ repeat Byte.x00 32).

#[export] Instance toy_sha256_laws : Sha256Laws toy_sha256.
Proof.
  split. intros bs. unfold sha256, toy_sha256. rewrite length_take, length_app, repeat_length. lia.
Qed.

#[export] Instance toy_ecdsa : Ecdsa := {|
  private_key := list byte;
  from_pkcs8 bs := if (List.length bs =? 65)%nat then Some bs else None;
  public_point sk := sk;
  ecdsa_sign sk m := Some (sk ++ m);
  ecdsa_verify pk m s := bool_decide (s = pk ++ m);
  spki_point spki := if (List.length spki =? 91)%nat then Some (drop 26 spki) else None;
|}.

#[export] Instance toy_ecdsa_laws : EcdsaLaws toy_ecdsa.
Proof.
  split; simpl.
  - intros sk m s [= <-]. by apply bool_decide_eq_true.
  - intros sk m m' s [= <-] H%bool_decide_eq_true. by apply app_inv_head in H.
Qed.

(** ** Hexadecimal UUIDs *)

Definition unhex (c : ascii) : option Z := index_of c "0123456789abcdef" 0.

Fixpoint hex_decode (s : string) : option (list byte) :=
  match s with
  | EmptyString => Some []
  | String a (String b s) =>
      let* x := unhex a in
      let* y := unhex b in
      let* bs := hex_decode s in
      Some (byte_of (x * 16 + y) :: bs)
  | _ => None
  end.

Lemma hex_decode_bytes bs : hex_decode (hex_bytes bs) = Some bs.
Proof.
  assert (forall b s, hex_decode (hex2 b ++ s)%string =
    let* bs := hex_decode s in Some (b :: bs)) as Hcons by (intros []; reflexivity).
  induction bs as [|b bs IH]; [done|].
  change (hex_bytes (b :: bs)) with (hex2 b ++ hex_bytes bs)%string. by rewrite Hcons, IH.
Qed.

#[export] Instance hex_uuid : UuidParse := fun s =>
  let* bs := hex_decode s in if (List.length bs =? 16)%nat then Some bs else None.

#[export] Instance hex_uuid_laws : UuidParseLaws hex_uuid.
Proof. split. intros bs H. unfold parse_uuid, hex_uuid. by rewrite hex_decode_bytes, H. Qed.
