(* ===== verification/K8s.v ===== *)
(** * Custom resources: [crates/wasmbed-k8s-resource] and [crates/wasmbed-types]

    The Device and Application resources, their phase machines, the status
    updates the gateway writes, and the interface of the Kubernetes API. *)

From S2P Require Import Prelude.
From S2P Require Import RustStd.
From S2P Require Import Externals.

(** ** wasmbed-types *)

(** [PublicKey] is its SubjectPublicKeyInfo bytes. *)
Definition PublicKey_to_base64 `{Base64} (key : list byte) : string := url_encode key.
Definition PublicKey_from_base64 `{Base64} (s : string) : option (list byte) := url_decode s.
(** [Display]: a debugging form, not the stored one. *)
Definition PublicKey_display `{Base64} (key : list byte) : string :=
  ("PublicKey(" ++ PublicKey_to_base64 key ++ ")")%string.

Record GatewayReference := mkGatewayReference {
  gr_name : string;
  gr_endpoint : string;
  gr_connected_at : option string;
}.

Definition GatewayReference_new (_namespace name : string) : GatewayReference :=
  mkGatewayReference name "" None.

(** ** Device ([device.rs]) *)

Inductive DeviceClass := McuConstrained | MpuRich.

Inductive DevicePhase := Pending | Enrolling | Enrolled | Connected | Disconnected | Unreachable.

#[export] Instance device_phase_eq_dec : EqDecision DevicePhase.
Proof. solve_decision. Defined.

Record DeviceSpec := mkDeviceSpec {
  public_key : string;
  mcu_type : option string;
  preferred_gateway : option string;
  device_class : option DeviceClass;
  runtime_target : option string;
}.

(** Timestamps are nanoseconds since the epoch. *)
Record DeviceStatus := mkDeviceStatus {
  ds_phase : DevicePhase;
  ds_gateway : option GatewayReference;
  ds_connected_since : option Z;
  ds_last_heartbeat : option Z;
  ds_pairing_mode : bool;
}.

Record Device := mkDevice {
  d_name : option string;
  d_namespace : option string;
  d_spec : DeviceSpec;
  d_status : option DeviceStatus;
}.

(** [ResourceExt::name_any] for objects without [generateName]. *)
Definition name_any (d : Device) : string := default "" (d_name d).

(** [DevicePhase::default] through [unwrap_or_default] on a missing status. *)
Definition current_phase (d : Device) : DevicePhase :=
  match d_status d with Some s => ds_phase s | None => Pending end.

(** [DevicePhase::validate_transition] *)
Definition DevicePhase_validate_transition (from to : DevicePhase) : bool :=
  match from, to with
  | Pending, Enrolling => true
  | Enrolling, Enrolled => true
  | Enrolling, Pending => true
  | Enrolled, Connected => true
  | Connected, Disconnected => true
  | Disconnected, Connected => true
  | Connected, Unreachable => true
  | Disconnected, Unreachable => true
  | Unreachable, Connected => true
  | Unreachable, Disconnected => true
  | _, _ => false
  end.

(** ** [DeviceStatusUpdate] ([device_client.rs]) *)

(** [None]: do not update; [Some None]: set to null. *)
Record DeviceStatusUpdate := mkDeviceStatusUpdate {
  su_phase : option DevicePhase;
  su_gateway : option (option GatewayReference);
  su_connected_since : option (option Z);
  su_last_heartbeat : option (option Z);
}.

Definition update_default : DeviceStatusUpdate := mkDeviceStatusUpdate None None None None.

Definition set_phase (p : DevicePhase) (u : DeviceStatusUpdate) : DeviceStatusUpdate :=
  mkDeviceStatusUpdate (Some p) (su_gateway u) (su_connected_since u) (su_last_heartbeat u).
Definition set_gateway (g : option GatewayReference) (u : DeviceStatusUpdate) : DeviceStatusUpdate :=
  mkDeviceStatusUpdate (su_phase u) (Some g) (su_connected_since u) (su_last_heartbeat u).
Definition set_connected_since (t : option Z) (u : DeviceStatusUpdate) : DeviceStatusUpdate :=
  mkDeviceStatusUpdate (su_phase u) (su_gateway u) (Some t) (su_last_heartbeat u).
Definition set_last_heartbeat (t : option Z) (u : DeviceStatusUpdate) : DeviceStatusUpdate :=
  mkDeviceStatusUpdate (su_phase u) (su_gateway u) (su_connected_since u) (Some t).

Definition mark_connected (now : Z) (g : GatewayReference) (u : DeviceStatusUpdate) :=
  set_connected_since (Some now) (set_gateway (Some g) (set_phase Connected u)).
Definition mark_enrolling (u : DeviceStatusUpdate) := set_phase Enrolling u.
Definition mark_enrolled (u : DeviceStatusUpdate) := set_phase Enrolled u.
Definition mark_disconnected (u : DeviceStatusUpdate) :=
  set_connected_since None (set_gateway None (set_phase Disconnected u)).
Definition mark_unreachable (u : DeviceStatusUpdate) := set_gateway None (set_phase Unreachable u).
Definition update_heartbeat_status (now : Z) (u : DeviceStatusUpdate) :=
  set_last_heartbeat (Some now) u.

(** [DeviceStatusUpdate::validate_transition] *)
Definition DeviceStatusUpdate_validate_transition (cur new : DevicePhase) : bool :=
  match cur, new with
  | Pending, Enrolling => true
  | Enrolling, Enrolled => true
  | Enrolled, Connected => true
  | Connected, Disconnected => true
  | Connected, Unreachable => true
  | Disconnected, Connected => true
  | Unreachable, Connected => true
  | Unreachable, Disconnected => true
  | a, b => bool_decide (a = b)
  end.

(** ** Application ([application.rs]) *)

Inductive TargetRuntime := WamrRaw | OcreZephyr | OcreLinux.
Definition TargetRuntime_default : TargetRuntime := WamrRaw.

Inductive ApplicationPhase :=
| ApCreating | ApDeploying | ApRunning | ApPartiallyRunning | ApFailed | ApStopping | ApStopped
| ApDeleting.

#[export] Instance application_phase_eq_dec : EqDecision ApplicationPhase.
Proof. solve_decision. Defined.

(** [ApplicationPhase::validate_transition] *)
Definition ApplicationPhase_validate_transition (cur new : ApplicationPhase) : bool :=
  match cur, new with
  | ApCreating, ApDeploying => true
  | ApDeploying, ApRunning => true
  | ApDeploying, ApPartiallyRunning => true
  | ApDeploying, ApFailed => true
  | ApPartiallyRunning, ApRunning => true
  | ApPartiallyRunning, ApFailed => true
  | ApRunning, ApStopping => true
  | ApRunning, ApPartiallyRunning => true
  | ApRunning, ApFailed => true
  | ApStopping, ApStopped => true
  | ApStopping, ApFailed => true
  | ApStopped, ApDeploying => true
  | ApFailed, ApDeploying => true
  | ApFailed, ApDeleting => true
  | ApStopped, ApDeleting => true
  | ApRunning, ApDeleting => true
  | ApPartiallyRunning, ApDeleting => true
  | a, b => bool_decide (a = b)
  end.

Inductive DeviceApplicationPhase := DaDeploying | DaRunning | DaFailed | DaStopped.

#[export] Instance device_application_phase_eq_dec : EqDecision DeviceApplicationPhase.
Proof. solve_decision. Defined.

(** [DeviceApplicationPhase::validate_transition] *)
Definition DeviceApplicationPhase_validate_transition (cur new : DeviceApplicationPhase) : bool :=
  match cur, new with
  | DaDeploying, DaRunning => true
  | DaDeploying, DaFailed => true
  | DaRunning, DaStopped => true
  | DaRunning, DaFailed => true
  | DaStopped, DaDeploying => true
  | DaFailed, DaDeploying => true
  | a, b => bool_decide (a = b)
  end.

Record DeviceSelectorRequirement := mkDeviceSelectorRequirement {
  sel_key : string;
  sel_operator : string;
  sel_values : option (list string);
}.

Record DeviceSelectors := mkDeviceSelectors {
  match_labels : option (list (string * string));
  match_expressions : option (list DeviceSelectorRequirement);
}.

Record TargetDevices := mkTargetDevices {
  device_names : option (list string);
  selectors : option DeviceSelectors;
  all_devices : option bool;
}.

Record ApplicationMetadata := mkApplicationMetadata {
  md_version : option string;
  md_author : option string;
  md_license : option string;
  md_tags : option (list string);
}.

Record ApplicationStatistics := mkApplicationStatistics {
  total_devices : Z;
  deployed_devices : Z;
  running_devices : Z;
  failed_devices : Z;
  stopped_devices : Z;
}.

Record CrdConfig := mkCrdConfig {
  crd_memory_limit : Z;
  crd_cpu_time_limit : Z;
  crd_env_vars : option (list (string * string));
  crd_args : option (list string);
  crd_auto_restart : bool;
  crd_max_restarts : Z;
}.

Definition default_memory_limit : Z := 1024 * 1024.
Definition default_cpu_time_limit : Z := 1000.
Definition default_auto_restart : bool := true.
Definition default_max_restarts : Z := 3.

(** [cm_cpu_usage] is an [f64], by its bit pattern. *)
Record CrdMetrics := mkCrdMetrics {
  cm_memory_usage : option Z;
  cm_cpu_usage : option Z;
  cm_uptime : option Z;
  cm_function_calls : option Z;
}.

Record DeviceApplicationStatus := mkDeviceApplicationStatus {
  das_status : DeviceApplicationPhase;
  das_last_heartbeat : option string;
  das_metrics : option CrdMetrics;
  das_error : option string;
  das_restart_count : Z;
}.

Record CrdAppStatus := mkCrdAppStatus {
  as_phase : ApplicationPhase;
  as_device_statuses : option (gmap string DeviceApplicationStatus);
  as_statistics : option ApplicationStatistics;
  as_last_updated : option string;
  as_error : option string;
}.

Record ApplicationSpec := mkApplicationSpec {
  a_spec_name : string;
  a_description : option string;
  a_wasm_bytes : string;
  a_target_devices : TargetDevices;
  a_config : option CrdConfig;
  a_metadata : option ApplicationMetadata;
  a_target_runtime : option TargetRuntime;
}.

Record Application := mkApplication {
  a_name : option string;
  a_spec : ApplicationSpec;
  a_status : option CrdAppStatus;
}.

(** [Application::status]: the inherent method hides the [status] field from
    callers that use the accessor. *)
Definition Application_status (_ : Application) : option CrdAppStatus := None.

(** [Application::targets_device] *)
Definition targets_device (a : Application) (device_name : string) : bool :=
  match device_names (a_target_devices (a_spec a)) with
  | Some names => bool_decide (device_name ∈ names)
  | None => if default false (all_devices (a_target_devices (a_spec a))) then true else false
  end.

(** ** The status JSON of one device ([application_client.rs]) *)

Inductive json := JNull | JNum (n : Z) | JStr (s : string) | JObj (fields : list (string * json)).

Definition device_phase_str (p : DeviceApplicationPhase) : string :=
  match p with DaDeploying => "Deploying" | DaRunning => "Running" | DaFailed => "Failed"
             | DaStopped => "Stopped" end.

Definition opt_json {A} (f : A -> json) (o : option A) : json :=
  match o with Some a => f a | None => JNull end.

Definition metrics_json (m : CrdMetrics) : json :=
  JObj [("memory_usage", opt_json JNum (cm_memory_usage m));
        ("cpu_usage", opt_json JNum (cm_cpu_usage m));
        ("uptime", opt_json JNum (cm_uptime m));
        ("function_calls", opt_json JNum (cm_function_calls m))]%string.

Definition opt_field {A} (k : string) (f : A -> json) (o : option A) : list (string * json) :=
  match o with Some a => [(k, f a)] | None => [] end.

(** [ApplicationStatusUpdate::device_status_to_json] *)
Definition device_status_to_json (s : DeviceApplicationStatus) : json :=
  JObj ([("status"%string, JStr (device_phase_str (das_status s)))]
        ++ opt_field "lastHeartbeat" JStr (das_last_heartbeat s)
        ++ opt_field "metrics" metrics_json (das_metrics s)
        ++ opt_field "error" JStr (das_error s)
        ++ [("restartCount"%string, JNum (das_restart_count s))]).

(** ** Reading a status back: the derived [Deserialize] of
    [DeviceApplicationStatus] and [ApplicationMetrics]. Unknown keys are
    ignored, a missing [Option] field is [None], a field with
    [serde(default)] takes its default. *)

Fixpoint field (k : string) (fs : list (string * json)) : option json :=
  match fs with
  | [] => None
  | (k', v) :: fs => if String.eqb k' k then Some v else field k fs
  end.

Definition device_phase_of_str (s : string) : option DeviceApplicationPhase :=
  if String.eqb s "Deploying" then Some DaDeploying
  else if String.eqb s "Running" then Some DaRunning
  else if String.eqb s "Failed" then Some DaFailed
  else if String.eqb s "Stopped" then Some DaStopped
  else None.

Definition opt_num (j : option json) : option (option Z) :=
  match j with
  | None | Some JNull => Some None
  | Some (JNum n) => Some (Some n)
  | _ => None
  end.

Definition opt_str (j : option json) : option (option string) :=
  match j with
  | None | Some JNull => Some None
  | Some (JStr s) => Some (Some s)
  | _ => None
  end.

Definition metrics_of_json (j : json) : option CrdMetrics :=
  match j with
  | JObj fs =>
      let* m := opt_num (field "memory_usage" fs) in
      let* c := opt_num (field "cpu_usage" fs) in
      let* u := opt_num (field "uptime" fs) in
      let* f := opt_num (field "function_calls" fs) in
      Some (mkCrdMetrics m c u f)
  | _ => None
  end.

Definition device_status_of_json (j : json) : option DeviceApplicationStatus :=
  match j with
  | JObj fs =>
      let* st := match field "status" fs with Some (JStr s) => device_phase_of_str s | _ => None end in
      let* h := opt_str (field "last_heartbeat" fs) in
      let* m := match field "metrics" fs with
                | None | Some JNull => Some None
                | Some j => let* m := metrics_of_json j in Some (Some m)
                end in
      let* e := opt_str (field "error" fs) in
      let* r := match field "restart_count" fs with
                | None => Some 0 | Some (JNum n) => Some n | _ => None end in
      Some (mkDeviceApplicationStatus st h m e r)
  | _ => None
  end.

Record ApplicationStatusUpdate := mkApplicationStatusUpdate {
  au_phase : option ApplicationPhase;
  au_error : option (option string);
  au_device_status : option (string * DeviceApplicationStatus);
}.

Definition app_update_default : ApplicationStatusUpdate := mkApplicationStatusUpdate None None None.
Definition app_set_phase (p : ApplicationPhase) (u : ApplicationStatusUpdate) :=
  mkApplicationStatusUpdate (Some p) (au_error u) (au_device_status u).
Definition app_set_error (e : option string) (u : ApplicationStatusUpdate) :=
  mkApplicationStatusUpdate (au_phase u) (Some e) (au_device_status u).
Definition app_set_device_status (id : string) (s : DeviceApplicationStatus)
    (u : ApplicationStatusUpdate) :=
  mkApplicationStatusUpdate (au_phase u) (au_error u) (Some (id, s)).

(** The merge patch of the Application status. *)
Record AppPatch := mkAppPatch {
  pt_phase : ApplicationPhase;
  pt_device_statuses : gmap string json;
  pt_last_updated : string;
  pt_error : option string;
}.

(** The computation of [ApplicationStatusUpdate::apply] before the request:
    the update laid over the status the application was read with. *)
Definition app_status_patch (u : ApplicationStatusUpdate) (app : Application) (now : string) : AppPatch :=
  let current := a_status app in
  let phase := match current with Some s => as_phase s | None => ApCreating end in
  let device_statuses := match current with
                         | Some s => default ∅ (as_device_statuses s) | None => ∅ end in
  let error := match current with Some s => as_error s | None => None end in
  let phase := default phase (au_phase u) in
  let error := default error (au_error u) in
  let device_statuses := match au_device_status u with
                         | Some (id, s) => <[id := s]> device_statuses
                         | None => device_statuses end in
  mkAppPatch phase (device_status_to_json <$> device_statuses) now error.

(** ** The Kubernetes API *)

Inductive kube_error :=
| KApi (code : Z) (message : string)
| KNoName (public_key : string)
| KOther (message : string).

(** [kube::Api<Device>] and [kube::Api<Application>] over a cluster state
    [W]. Every request may fail. *)
Class Kube (W : Type) := {
  kerr_display : kube_error -> string;
  dev_list : W -> result kube_error (list Device);
  dev_get : W -> string -> result kube_error Device;
  dev_create : W -> Device -> result kube_error Device * W;
  dev_patch_status : W -> string -> DeviceStatusUpdate -> result kube_error Device * W;
  app_list : W -> result kube_error (list Application);
  app_get : W -> string -> result kube_error Application;
  app_patch_status : W -> string -> AppPatch -> result kube_error Application * W;
  app_patch_phase : W -> string -> ApplicationPhase -> string -> option string ->
                    result kube_error Application * W;
}.

Section Client.
Context {W : Type} `{K : Kube W} `{B : Base64}.

(** [Device::find]: the first listed device with the key. *)
Fixpoint find_device (key : string) (ds : list Device) : option Device :=
  match ds with
  | [] => None
  | d :: ds => if String.eqb (public_key (d_spec d)) key then Some d else find_device key ds
  end.

Definition Device_find (w : W) (key : list byte) : result kube_error (option Device) :=
  let? devices := dev_list w in Ok (find_device (PublicKey_to_base64 key) devices).

(** [DeviceStatusUpdate::apply] *)
Definition update_apply (u : DeviceStatusUpdate) (w : W) (device : Device) :
    result kube_error Device * W :=
  match d_name device with
  | None => (Err (KNoName (public_key (d_spec device))), w)
  | Some name => dev_patch_status w name u
  end.

(** [ApplicationStatusUpdate::apply] *)
Definition app_update_apply (u : ApplicationStatusUpdate) (w : W) (app : Application) (now : string) :
    result kube_error Application * W :=
  match a_name app with
  | None => (Err (KOther "Application has no name"), w)
  | Some name => app_patch_status w name (app_status_patch u app now)
  end.

(** [Application::find_by_device] *)
Definition find_by_device (w : W) (device_name : string) : result kube_error (list Application) :=
  let? apps := app_list w in Ok (List.filter (fun a => targets_device a device_name) apps).
End Client.
