(* ===== verification/KubeStore.v ===== *)
(** * What the Kubernetes API promises about Device objects

    [KubeStoreLaws] relates the requests to the set of stored devices: a list
    returns every device once, a status merge patch (RFC 7386) changes the
    named device only, a rejected request changes nothing. An in-memory
    cluster shows that the laws can hold and runs the examples. *)

From S2P Require Import Prelude.
From S2P Require Import RustStd.
From S2P Require Import K8s.

(** Merging one [GatewayReference] object into another: [connected_at] is not
    serialized when it is [None], so the stored value survives. *)
Definition merge_gateway (old : option GatewayReference) (new : GatewayReference) : GatewayReference :=
  match gr_connected_at new, old with
  | None, Some o => mkGatewayReference (gr_name new) (gr_endpoint new) (gr_connected_at o)
  | _, _ => new
  end.

(** The merge patch a [DeviceStatusUpdate] describes: absent keys keep their
    value, null removes it, objects are merged. A missing status object is
    created with the defaults of its fields. *)
Definition merge_device_status (u : DeviceStatusUpdate) (s : option DeviceStatus) : DeviceStatus :=
  let s := default (mkDeviceStatus Pending None None None false) s in
  mkDeviceStatus
    (default (ds_phase s) (su_phase u))
    (match su_gateway u with
     | None => ds_gateway s
     | Some None => None
     | Some (Some g) => Some (merge_gateway (ds_gateway s) g)
     end)
    (default (ds_connected_since s) (su_connected_since u))
    (default (ds_last_heartbeat s) (su_last_heartbeat u))
    (ds_pairing_mode s).

Definition merge_device (u : DeviceStatusUpdate) (d : Device) : Device :=
  mkDevice (d_name d) (d_namespace d) (d_spec d) (Some (merge_device_status u (d_status d))).

Class KubeStoreLaws {W} (K : Kube W) (view : W -> gmap string Device) : Prop := {
  view_named w n d : view w !! n = Some d -> d_name d = Some n;
  dev_list_view w l : dev_list w = Ok l ->
    (forall d, d ∈ l -> exists n, d_name d = Some n /\ view w !! n = Some d) /\
    (forall n d, view w !! n = Some d -> d ∈ l) /\
    NoDup (d_name <$> l);
  dev_get_view w n d : dev_get w n = Ok d -> view w !! n = Some d;
  dev_create_view w d d' w' : dev_create w d = (Ok d', w') -> exists n,
    d_name d = Some n /\ view w !! n = None /\ d_name d' = Some n /\ d_spec d' = d_spec d /\
    view w' = <[n := d']> (view w);
  dev_create_err w d e w' : dev_create w d = (Err e, w') -> view w' = view w;
  dev_patch_view w n u d' w' : dev_patch_status w n u = (Ok d', w') -> exists d,
    view w !! n = Some d /\ d' = merge_device u d /\ view w' = <[n := d']> (view w);
  dev_patch_err w n u e w' : dev_patch_status w n u = (Err e, w') -> view w' = view w;
}.

(** ** An in-memory cluster *)

Record cluster := mkCluster {
  c_devices : gmap string Device;
  c_apps : gmap string Application;
}.

(** The objects of a store carry their key as their name. *)
Definition named (d : Device) (n : string) : Device :=
  mkDevice (Some n) (d_namespace d) (d_spec d) (d_status d).

Definition store_view (w : cluster) : gmap string Device := map_imap (fun n d => Some (named d n)) (c_devices w).

Definition set_devices (m : gmap string Device) (w : cluster) : cluster := mkCluster m (c_apps w).

Definition mem_dev_create (w : cluster) (d : Device) : result kube_error Device * cluster :=
  match d_name d with
  | None => (Err (KApi 422 "name is required"), w)
  | Some n =>
      match c_devices w !! n with
      | Some _ => (Err (KApi 409 "already exists"), w)
      | None =>
          (* the status subresource is ignored on create *)
          let d' := mkDevice (Some n) (d_namespace d) (d_spec d) None in
          (Ok d', set_devices (<[n := d']> (c_devices w)) w)
      end
  end.

Definition mem_dev_patch (w : cluster) (n : string) (u : DeviceStatusUpdate) :
    result kube_error Device * cluster :=
  match store_view w !! n with
  | None => (Err (KApi 404 "not found"), w)
  | Some d => let d' := merge_device u d in (Ok d', set_devices (<[n := d']> (c_devices w)) w)
  end.

Definition mem_dev_get (w : cluster) (n : string) : result kube_error Device :=
  match store_view w !! n with Some d => Ok d | None => Err (KApi 404 "not found") end.

Definition mem_app_get (w : cluster) (n : string) : result kube_error Application :=
  match c_apps w !! n with Some a => Ok a | None => Err (KApi 404 "not found") end.

(** The phase and error of the Application; per-device entries are kept as
    they were (the examples do not read them back). *)
Definition mem_app_set (w : cluster) (n : string) (p : ApplicationPhase) (t : string)
    (e : option string) : result kube_error Application * cluster :=
  match c_apps w !! n with
  | None => (Err (KApi 404 "not found"), w)
  | Some a =>
      let ds := match a_status a with Some s => as_device_statuses s | None => None end in
      let a' := mkApplication (a_name a) (a_spec a) (Some (mkCrdAppStatus p ds None (Some t) e)) in
      (Ok a', mkCluster (c_devices w) (<[n := a']> (c_apps w)))
  end.

#[export] Instance mem_kube : Kube cluster := {|
  kerr_display e := match e with KApi _ m => m | KNoName _ => "no name" | KOther m => m end;
  dev_list w := Ok (snd <$> map_to_list (store_view w));
  dev_get := mem_dev_get;
  dev_create := mem_dev_create;
  dev_patch_status := mem_dev_patch;
  app_list w := Ok (snd <$> map_to_list (c_apps w));
  app_get := mem_app_get;
  app_patch_status w n p := mem_app_set w n (pt_phase p) (pt_last_updated p) (pt_error p);
  app_patch_phase w n p t e := mem_app_set w n p t e;
|}.

Lemma store_view_lookup w n : store_view w !! n = (fun d => named d n) <$> c_devices w !! n.
Proof. unfold store_view. rewrite map_lookup_imap. by destruct (c_devices w !! n). Qed.

Lemma store_view_insert w n d :
  d_name d = Some n -> store_view (set_devices (<[n := d]> (c_devices w)) w) = <[n := d]> (store_view w).
Proof.
  intros Hn. apply map_eq. intros i. rewrite store_view_lookup. simpl.
  destruct (decide (i = n)) as [->|].
  - rewrite !lookup_insert_eq. simpl. f_equal. destruct d. simpl in *. unfold named. simpl. congruence.
  - by rewrite !lookup_insert_ne, store_view_lookup.
Qed.

Lemma store_names w : map_Forall (fun n d => d_name d = Some n) (store_view w).
Proof. intros n d. rewrite store_view_lookup. destruct (c_devices w !! n); by intros [= <-]. Qed.

Lemma names_nodup (m : gmap string Device) :
  map_Forall (fun n d => d_name d = Some n) m -> NoDup (d_name <$> (snd <$> map_to_list m)).
Proof.
  intros Hn. rewrite <- list_fmap_compose.
  rewrite (list_fmap_ext _ (Some ∘ fst)).
  - rewrite list_fmap_compose. apply NoDup_fmap_2; [apply _|]. apply NoDup_fst_map_to_list.
  - intros i [n d] Hi. simpl. apply Hn. apply elem_of_map_to_list.
    by eapply list_elem_of_lookup_2.
Qed.

#[export] Instance mem_kube_laws : KubeStoreLaws mem_kube store_view.
Proof.
  split; simpl.
  - intros w n d. apply store_names.
  - intros w l [= <-]. split; [|split].
    + intros d ([n d'] & -> & Hin)%list_elem_of_fmap. simpl. apply elem_of_map_to_list in Hin.
      exists n. split; [|done]. by apply (store_names w) in Hin.
    + intros n d Hd. apply list_elem_of_fmap. exists (n, d). by rewrite elem_of_map_to_list.
    + apply names_nodup, store_names.
  - intros w n d. unfold mem_dev_get. by destruct (store_view w !! n); intros [= ->].
  - intros w d d' w'. unfold mem_dev_create. destruct (d_name d) as [n|] eqn:En; [|done].
    destruct (c_devices w !! n) eqn:E; [done|]. intros [= <- <-]. exists n.
    rewrite store_view_lookup, E. repeat split. by apply store_view_insert.
  - intros w d e w'. unfold mem_dev_create.
    repeat case_match; intros [= <- <-]; done.
  - intros w n u d' w'. unfold mem_dev_patch. destruct (store_view w !! n) as [d|] eqn:E; [|done].
    intros [= <- <-]. exists d. repeat split. apply store_view_insert.
    simpl. by apply (store_names w) in E.
  - intros w n u e w'. unfold mem_dev_patch. case_match; intros [= <- <-]; done.
Qed.
