(* ===== verification/K8sProofs.v ===== *)
(** * Properties of the custom resources

    The phase machines, looking a device up by key, and what a status update
    means for the stored object. *)

From S2P Require Import Prelude.
From S2P Require Import RustStd.
From S2P Require Import Externals.
From S2P Require Import Base64.
From S2P Require Import K8s.
From S2P Require Import KubeStore.

(** ** Phase machines *)

Section Paths.
Context {P : Type} (ok : P -> P -> bool).

(** The phases visited after [p], each step accepted by the table. *)
Fixpoint valid_path (p : P) (l : list P) : bool :=
  match l with [] => true | q :: l => ok p q && valid_path q l end.

(** A set of phases closed under the table is never left. *)
Lemma valid_path_closed (S : P -> Prop) p l :
  (forall a b, S a -> ok a b = true -> S b) -> S p -> valid_path p l = true -> Forall S l.
Proof.
  intros HS. revert p. induction l as [|q l IH]; intros p Hp; [constructor|].
  cbn [valid_path]. intros [H1 H2]%andb_true_iff. constructor; eauto.
Qed.
End Paths.

(** The two tables the repository keeps for devices. *)
Definition device_table (ok : DevicePhase -> DevicePhase -> bool) : Prop :=
  ok = DevicePhase_validate_transition \/ ok = DeviceStatusUpdate_validate_transition.

Definition not_enrolled (p : DevicePhase) : Prop := p = Pending \/ p = Enrolling.

Lemma not_enrolled_step ok p q :
  device_table ok -> not_enrolled p -> ok p q = true -> q <> Enrolled -> not_enrolled q.
Proof.
  unfold not_enrolled. intros [-> | ->] [-> | ->]; destruct q; vm_compute; auto; congruence.
Qed.

Lemma enrolled_only_from_enrolling ok p :
  device_table ok -> not_enrolled p -> ok p Enrolled = true -> p = Enrolling.
Proof. intros [-> | ->] [-> | ->]; vm_compute; congruence. Qed.

(** From a phase before enrollment the path to Connected starts with phases
    before enrollment, the last of them Enrolling, followed by Enrolled. *)
Lemma enrollment_prefix ok l p :
  device_table ok -> not_enrolled p -> valid_path ok p l = true -> Connected ∈ l ->
  exists l1 l2, l = l1 ++ Enrolled :: l2 /\ Forall not_enrolled l1 /\ Enrolling ∈ p :: l1.
Proof.
  intros Hok. revert p. induction l as [|q l IH]; intros p Hs Hp Hin; [by apply not_elem_of_nil in Hin|].
  cbn [valid_path] in Hp. apply andb_true_iff in Hp as [Hq Hl].
  destruct (decide (q = Enrolled)) as [->|Hne].
  { exists [], l. split_and!; [done|constructor|].
    rewrite (enrolled_only_from_enrolling ok p) by done. set_solver. }
  pose proof (not_enrolled_step ok p q Hok Hs Hq Hne) as Hq'.
  destruct (IH q Hq' Hl) as (l1 & l2 & -> & Hall & He).
  { apply elem_of_cons in Hin as [<-|]; [|done]. by destruct Hq'. }
  exists (q :: l1), l2. split_and!; [done|by constructor|set_solver].
Qed.

(** Whichever of the two transition tables is consulted, a device that
    starts Pending and is Connected at some point has first been Enrolling and
    then Enrolled, without being Connected before. *)
Theorem connected_only_through_enrollment ok l :
  device_table ok -> valid_path ok Pending l = true -> Connected ∈ l ->
  exists l1 l2, l = l1 ++ Enrolled :: l2 /\ Enrolling ∈ l1 /\ Connected ∉ l1.
Proof.
  intros Hok Hp Hin.
  destruct (enrollment_prefix ok l Pending Hok (or_introl eq_refl) Hp Hin) as (l1 & l2 & -> & Hall & He).
  exists l1, l2. split_and!; [done| |].
  - apply elem_of_cons in He as [He|He]; [congruence|done].
  - intros Hc. rewrite Forall_forall in Hall. by destruct (Hall _ Hc).
Qed.

Lemma connected_only_through_enrollment_witness :
  exists l1 l2, [Enrolling; Pending; Enrolling; Enrolled; Connected; Disconnected] = l1 ++ Enrolled :: l2 /\
    Enrolling ∈ l1 /\ Connected ∉ l1.
Proof.
  apply (connected_only_through_enrollment DevicePhase_validate_transition);
    [by left | reflexivity | repeat constructor].
Defined.

(** The two transition tables for devices disagree exactly on staying in a
    phase, on falling back from Enrolling to Pending and on giving up a
    Disconnected device as Unreachable. *)
Theorem device_tables_differ a b :
  DevicePhase_validate_transition a b <> DeviceStatusUpdate_validate_transition a b <->
  a = b \/ (a = Enrolling /\ b = Pending) \/ (a = Disconnected /\ b = Unreachable).
Proof. destruct a, b; vm_compute; intuition congruence. Qed.

(** Deleting an application is final, no application returns to Creating,
    and one that was never deployed does not run: in every sequence of accepted
    phases from Creating, the phases before the first Deploying are Creating. *)
Theorem application_phases_ordered l :
  (valid_path ApplicationPhase_validate_transition ApDeleting l = true -> Forall (eq ApDeleting) l) /\
  (forall p, p <> ApCreating -> valid_path ApplicationPhase_validate_transition p l = true -> ApCreating ∉ l) /\
  (valid_path ApplicationPhase_validate_transition ApCreating l = true ->
     Forall (eq ApCreating) l \/
     exists n l2, l = replicate n ApCreating ++ ApDeploying :: l2).
Proof.
  split_and!.
  - apply (valid_path_closed _ (eq ApDeleting)); [|done]. intros a [] <-; by vm_compute.
  - intros p Hp H Hin. eapply (valid_path_closed _ (fun q => q <> ApCreating)) in H; [|  |exact Hp].
    + rewrite Forall_forall in H. by apply H in Hin.
    + intros [] []; by vm_compute.
  - induction l as [|q l IH]; [by left|]. cbn [valid_path]. intros [Hq Hl]%andb_true_iff.
    assert (q = ApCreating \/ q = ApDeploying) as [-> | ->] by (destruct q; vm_compute in Hq; auto; congruence).
    + destruct (IH Hl) as [?|(n & l2 & ->)]; [left; by constructor|right; by exists (S n), l2].
    + right. by exists 0%nat, l.
Qed.

(** ** Reading a per-device status back *)

Lemma metrics_json_roundtrip m : metrics_of_json (metrics_json m) = Some m.
Proof. by destruct m as [[] [] [] []]. Qed.

(** What a gateway writes for one device and reads back later keeps the
    phase, the metrics and the error, and always loses the heartbeat time and
    the restart count: they are written under camel-case keys and read under
    snake-case ones. *)
Theorem device_status_readback s :
  device_status_of_json (device_status_to_json s) =
  Some (mkDeviceApplicationStatus (das_status s) None (das_metrics s) (das_error s) 0).
Proof. destruct s as [[] [] [m|] [] r]; simpl; try done; by destruct m as [[] [] [] []]. Qed.

(** ** Finding a device by its key *)

Section Find.
Context {W} `{K : Kube W} {view : W -> gmap string Device} `{L : !KubeStoreLaws K view}.
Context `{B : Base64}.

Lemma find_device_some key ds d :
  find_device key ds = Some d -> d ∈ ds /\ public_key (d_spec d) = key.
Proof.
  induction ds as [|d' ds IH]; [done|]. cbn [find_device].
  destruct (String.eqb_spec (public_key (d_spec d')) key).
  - intros [= <-]. split; [set_solver|done].
  - intros [? ?]%IH. split; [set_solver|done].
Qed.

Lemma find_device_none key ds :
  find_device key ds = None -> forall d, d ∈ ds -> public_key (d_spec d) <> key.
Proof.
  induction ds as [|d' ds IH]; [intros _ d []%not_elem_of_nil|]. cbn [find_device].
  destruct (String.eqb_spec (public_key (d_spec d')) key); [done|].
  intros H d [->|Hin]%elem_of_cons; [done|by apply IH].
Qed.

Lemma Device_find_some w key d :
  Device_find w key = Ok (Some d) ->
  (exists n, d_name d = Some n /\ view w !! n = Some d) /\ public_key (d_spec d) = PublicKey_to_base64 key.
Proof.
  unfold Device_find. intros H. inv_rbind. injection Hk as Hk.
  apply find_device_some in Hk as [Hin Hkey]. split; [|done].
  destruct (dev_list_view w a Ha) as (H1 & _). by apply H1.
Qed.

Lemma Device_find_none w key :
  Device_find w key = Ok None ->
  forall n d, view w !! n = Some d -> public_key (d_spec d) <> PublicKey_to_base64 key.
Proof.
  unfold Device_find. intros H n d Hd. inv_rbind. injection Hk as Hk.
  eapply find_device_none; [exact Hk|]. destruct (dev_list_view w a Ha) as (_ & H2 & _). by eapply H2.
Qed.

(** [Device::find] is correct: a device it returns is stored under its
    own name with the searched key, and when it finds none no stored device
    has that key. *)
Theorem Device_find_correct w key r :
  Device_find w key = Ok r ->
  match r with
  | Some d => (exists n, d_name d = Some n /\ view w !! n = Some d) /\
              public_key (d_spec d) = PublicKey_to_base64 key
  | None => forall n d, view w !! n = Some d -> public_key (d_spec d) <> PublicKey_to_base64 key
  end.
Proof. destruct r; [apply Device_find_some | apply Device_find_none]. Qed.

(** A fleet whose Device objects store the padded STANDARD base64 text of
    their keys (as [create_device] of the HTTP API writes it) is invisible to
    [Device::find], which compares the unpadded URL-safe text: for a 44-byte
    Ed25519 key no stored device is ever found. *)
Theorem std_encoded_keys_never_found `{!Base64Laws B} w key :
  (forall n d, view w !! n = Some d ->
     exists k, zlen k = 44 /\ public_key (d_spec d) = std_encode k) ->
  zlen key = 44 -> is_ok (Device_find w key) = true -> Device_find w key = Ok None.
Proof.
  intros Hstd Hlen Hok. destruct (Device_find w key) as [[d|]|] eqn:E; [exfalso|done..].
  apply Device_find_some in E as [(n & _ & Hn) Hk].
  destruct (Hstd n d Hn) as (k & Hl & Hpk). rewrite Hk in Hpk. unfold PublicKey_to_base64 in Hpk.
  assert (k = key) as ->.
  { eapply std_url_agree; [apply std_decode_encode|]. rewrite <- Hpk. apply url_decode_encode. }
  apply (std_url_padding key); [by rewrite Hlen|done].
Qed.
End Find.

Definition sample_spec (key : string) : DeviceSpec := mkDeviceSpec key (Some "Stm32F746gDisco"%string) None None None.
Definition sample_device (name key : string) (st : option DeviceStatus) : Device :=
  mkDevice (Some name) (Some "wasmbed"%string) (sample_spec key) st.
Definition ed25519_key : list byte := replicate 44 Byte.x2a.
Definition std_fleet : cluster :=
  mkCluster (<["device-a"%string := sample_device "device-a" (std_encode ed25519_key) None]> ∅) ∅.

Lemma Device_find_correct_witness :
  Device_find (B := base64) std_fleet ed25519_key = Ok None /\
  forall n d, store_view std_fleet !! n = Some d ->
    public_key (d_spec d) <> PublicKey_to_base64 (H := base64) ed25519_key.
Proof.
  split; [vm_compute; reflexivity|].
  apply (Device_find_correct (view := store_view) std_fleet ed25519_key None). vm_compute. reflexivity.
Defined.

Lemma std_encoded_keys_never_found_witness :
  Device_find (B := base64) std_fleet ed25519_key = Ok None.
Proof.
  apply (std_encoded_keys_never_found (view := store_view) std_fleet ed25519_key);
    [|reflexivity|vm_compute; reflexivity].
  intros n d. rewrite store_view_lookup. unfold std_fleet. cbn [c_devices].
  destruct (decide (n = "device-a"%string)) as [->|Hne].
  - rewrite lookup_insert_eq. intros [= <-]. exists ed25519_key. by split.
  - rewrite lookup_insert_ne by done. by rewrite lookup_empty.
Defined.

(** ** What the builders mean for the stored status *)

(** Applying the update a builder describes to a stored device: connecting
    records phase, gateway and start of the session and keeps the last
    heartbeat; disconnecting clears gateway and start; marking unreachable
    clears the gateway only; a heartbeat changes nothing but its time. *)
Lemma builder_effects now g d :
  let after u := merge_device_status u (d_status d) in
  let old := default (mkDeviceStatus Pending None None None false) (d_status d) in
  after (mark_connected now g update_default) =
    mkDeviceStatus Connected (Some (merge_gateway (ds_gateway old) g)) (Some now) (ds_last_heartbeat old) (ds_pairing_mode old) /\
  after (mark_disconnected update_default) =
    mkDeviceStatus Disconnected None None (ds_last_heartbeat old) (ds_pairing_mode old) /\
  after (mark_unreachable update_default) =
    mkDeviceStatus Unreachable None (ds_connected_since old) (ds_last_heartbeat old) (ds_pairing_mode old) /\
  after (update_heartbeat_status now update_default) =
    mkDeviceStatus (ds_phase old) (ds_gateway old) (ds_connected_since old) (Some now) (ds_pairing_mode old).
Proof. done. Qed.
