(* ===== verification/Registry.v ===== *)
(** * The gateway's runtime registry: [HttpApiServer] of [crates/wasmbed-gateway/src/http_api.rs]

    The maps the gateway keeps in memory about devices, connections, pending
    challenges, deployed applications and boards, and the methods that change
    them. A map behind [Arc<RwLock<HashMap>>] is a [gmap] of the state record;
    a method is a function from the state to the state. The clock, the random
    nonce and the state of the channels are arguments. *)

From S2P Require Import Prelude.
From S2P Require Import RustStd.
From S2P Require Import Externals.
From S2P Require Import Protocol.
From S2P Require Import K8s.

(** ** Data *)

(** An [mpsc::Sender<ServerMessage>], by the number of its channel. *)
Definition sender := Z.

Record PendingChallenge := mkPendingChallenge {
  nonce : list byte;
  announced_key : list byte;
  issued_at : Z;
}.

(** Times are nanoseconds; 30 seconds. *)
Definition CHALLENGE_TTL : Z := 30 * 10 ^ 9.

Record DeviceCapabilities := mkDeviceCapabilities {
  available_memory : Z;
  cpu_arch : string;
  wasm_features : list string;
  max_app_size : Z;
}.

Record DeviceConnection := mkDeviceConnection {
  dc_device_id : string;
  dc_device_uuid : DeviceUuid;
  dc_public_key : list byte;
  dc_connected_since : Z;
  dc_last_heartbeat : Z;
  dc_capabilities : DeviceCapabilities;
  dc_tls_sender : option sender;
  dc_is_enrolled : bool;
  dc_tls_connected : bool;
}.

Record DeployedApplication := mkDeployedApplication {
  da_app_id : string;
  da_device_id : string;
  da_name : string;
  da_wasm_bytes : list byte;
  da_config : option CrdConfig;
  da_deployed_at : Z;
  da_status : DeviceApplicationPhase;
  da_error : option string;
}.

Record BoardCapabilities := mkBoardCapabilities {
  has_ethernet : bool;
  has_wifi : bool;
  has_network : bool;
}.

Record BoardRegistration := mkBoardRegistration {
  br_device_id : string;
  br_endpoint : string;
  br_mcu_type : string;
  br_capabilities : option BoardCapabilities;
  br_registered_at : Z;
}.

Record HttpApiServer := mkHttpApiServer {
  device_connections : gmap string DeviceConnection;
  public_key_to_device : gmap string string;
  pending_senders : gmap string sender;
  connection_to_device : gmap string string;
  pending_challenges : gmap string PendingChallenge;
  applications : gmap string DeployedApplication;
  board_registry : gmap string BoardRegistration;
  pairing_mode : bool;
  pairing_timeout_seconds : Z;
  heartbeat_timeout_seconds : Z;
}.

(** [HttpApiServer::new] *)
Definition HttpApiServer_new : HttpApiServer :=
  mkHttpApiServer ∅ ∅ ∅ ∅ ∅ ∅ ∅ false 300 90.

(** Assignments to one map of the record. *)
Definition with_connections (f : gmap string DeviceConnection -> gmap string DeviceConnection) s :=
  mkHttpApiServer (f (device_connections s)) (public_key_to_device s) (pending_senders s)
    (connection_to_device s) (pending_challenges s) (applications s) (board_registry s)
    (pairing_mode s) (pairing_timeout_seconds s) (heartbeat_timeout_seconds s).
Definition with_keys (f : gmap string string -> gmap string string) s :=
  mkHttpApiServer (device_connections s) (f (public_key_to_device s)) (pending_senders s)
    (connection_to_device s) (pending_challenges s) (applications s) (board_registry s)
    (pairing_mode s) (pairing_timeout_seconds s) (heartbeat_timeout_seconds s).
Definition with_pending (f : gmap string sender -> gmap string sender) s :=
  mkHttpApiServer (device_connections s) (public_key_to_device s) (f (pending_senders s))
    (connection_to_device s) (pending_challenges s) (applications s) (board_registry s)
    (pairing_mode s) (pairing_timeout_seconds s) (heartbeat_timeout_seconds s).
Definition with_bindings (f : gmap string string -> gmap string string) s :=
  mkHttpApiServer (device_connections s) (public_key_to_device s) (pending_senders s)
    (f (connection_to_device s)) (pending_challenges s) (applications s) (board_registry s)
    (pairing_mode s) (pairing_timeout_seconds s) (heartbeat_timeout_seconds s).
Definition with_challenges (f : gmap string PendingChallenge -> gmap string PendingChallenge) s :=
  mkHttpApiServer (device_connections s) (public_key_to_device s) (pending_senders s)
    (connection_to_device s) (f (pending_challenges s)) (applications s) (board_registry s)
    (pairing_mode s) (pairing_timeout_seconds s) (heartbeat_timeout_seconds s).
Definition with_applications (f : gmap string DeployedApplication -> gmap string DeployedApplication) s :=
  mkHttpApiServer (device_connections s) (public_key_to_device s) (pending_senders s)
    (connection_to_device s) (pending_challenges s) (f (applications s)) (board_registry s)
    (pairing_mode s) (pairing_timeout_seconds s) (heartbeat_timeout_seconds s).
Definition with_boards (f : gmap string BoardRegistration -> gmap string BoardRegistration) s :=
  mkHttpApiServer (device_connections s) (public_key_to_device s) (pending_senders s)
    (connection_to_device s) (pending_challenges s) (applications s) (f (board_registry s))
    (pairing_mode s) (pairing_timeout_seconds s) (heartbeat_timeout_seconds s).

(** Assignments through [get_mut]. *)
Definition conn_set_sender (snd : option sender) (up : bool) (c : DeviceConnection) :=
  mkDeviceConnection (dc_device_id c) (dc_device_uuid c) (dc_public_key c) (dc_connected_since c)
    (dc_last_heartbeat c) (dc_capabilities c) snd (dc_is_enrolled c) up.
Definition conn_set_since (t : Z) (c : DeviceConnection) :=
  mkDeviceConnection (dc_device_id c) (dc_device_uuid c) (dc_public_key c) t
    (dc_last_heartbeat c) (dc_capabilities c) (dc_tls_sender c) (dc_is_enrolled c) (dc_tls_connected c).
Definition conn_set_heartbeat (t : Z) (c : DeviceConnection) :=
  mkDeviceConnection (dc_device_id c) (dc_device_uuid c) (dc_public_key c) (dc_connected_since c)
    t (dc_capabilities c) (dc_tls_sender c) (dc_is_enrolled c) (dc_tls_connected c).
Definition conn_set_capabilities (caps : DeviceCapabilities) (c : DeviceConnection) :=
  mkDeviceConnection (dc_device_id c) (dc_device_uuid c) (dc_public_key c) (dc_connected_since c)
    (dc_last_heartbeat c) caps (dc_tls_sender c) (dc_is_enrolled c) (dc_tls_connected c).

Section Registry.
Context `{B : Base64}.

(** ** Public keys: a key is known under both base64 alphabets *)

(** [if !variants.contains(&v) { variants.push(v) }] *)
Definition push_new (v : string) (variants : list string) : list string :=
  if bool_decide (v ∈ variants) then variants else variants ++ [v].

Definition push_decoded (decoded : option (list byte)) (variants : list string) : list string :=
  match decoded with
  | Some bytes => push_new (url_encode bytes) (push_new (std_encode bytes) variants)
  | None => variants
  end.

Definition public_key_variants_from_b64 (public_key_b64 : string) : list string :=
  push_decoded (url_decode public_key_b64)
    (push_decoded (std_decode public_key_b64) [public_key_b64]).

Definition public_key_variants_from_bytes (key : list byte) : list string :=
  [std_encode key; url_encode key].

(** [for key_variant in variants { map.insert(key_variant, device_id.clone()) }] *)
Definition insert_keys (variants : list string) (device_id : string) (m : gmap string string) :=
  foldl (fun m k => <[k := device_id]> m) m variants.

(** [find_map(|key| map.get(key))] *)
Fixpoint find_key (variants : list string) (m : gmap string string) : option string :=
  match variants with
  | [] => None
  | k :: ks => match m !! k with Some id => Some id | None => find_key ks m end
  end.

(** ** Devices and connections *)

Definition register_device (now : Z) (device_id public_key : string) (caps : DeviceCapabilities)
    (s : HttpApiServer) : HttpApiServer :=
  let s := with_keys (insert_keys (public_key_variants_from_b64 public_key) device_id) s in
  match device_connections s !! device_id with
  | Some existing =>
      let refreshed :=
        mkDeviceConnection (dc_device_id existing) (dc_device_uuid existing) (str_bytes public_key)
          (dc_connected_since existing) now caps (dc_tls_sender existing) (dc_is_enrolled existing)
          (match dc_tls_sender existing with Some _ => true | None => dc_tls_connected existing end) in
      with_connections <[device_id := refreshed]> s
  | None =>
      let connection :=
        mkDeviceConnection device_id (mkDeviceUuid (replicate 16 Byte.x00)) (str_bytes public_key)
          now now caps None false false in
      with_connections <[device_id := connection]> s
  end.

(** What both sender methods write into the entry of the device. *)
Definition attach_sender (now : Z) (snd : sender) (c : DeviceConnection) : DeviceConnection :=
  conn_set_since now (conn_set_sender (Some snd) true c).

Definition set_device_tls_sender (now : Z) (key : list byte) (snd : sender) (s : HttpApiServer) :=
  match find_key (public_key_variants_from_bytes key) (public_key_to_device s) with
  | Some device_id => with_connections (alter (attach_sender now snd) device_id) s
  | None => s
  end.

Definition mark_device_tls_connected (device_id : string) (s : HttpApiServer) :=
  with_connections (alter (fun c => conn_set_sender (dc_tls_sender c) true c) device_id) s.

Definition update_heartbeat (now : Z) (device_id : string) (s : HttpApiServer) :=
  with_connections (alter (conn_set_heartbeat now) device_id) s.

Definition store_pending_sender (connection_id : string) (snd : sender) (s : HttpApiServer) :=
  with_pending <[connection_id := snd]> s.

Definition activate_device_sender (now : Z) (connection_id device_id public_key_b64 : string)
    (s : HttpApiServer) : HttpApiServer :=
  let pending := pending_senders s !! connection_id in
  let s := with_pending (delete connection_id) s in
  let s := with_bindings <[connection_id := device_id]> s in
  let s := with_keys (insert_keys (public_key_variants_from_b64 public_key_b64) device_id) s in
  match pending with
  | Some snd => with_connections (alter (attach_sender now snd) device_id) s
  | None => s
  end.

Definition issue_challenge (now : Z) (fresh : list byte) (connection_id : string) (key : list byte)
    (s : HttpApiServer) : list byte * HttpApiServer :=
  (fresh, with_challenges <[connection_id := mkPendingChallenge fresh key now]> s).

(** [SystemTime::elapsed]: an error when the clock stands before the start. *)
Definition elapsed (now start : Z) : option Z :=
  if start <=? now then Some (now - start) else None.

Definition take_challenge (now : Z) (connection_id : string) (s : HttpApiServer) :
    option PendingChallenge * HttpApiServer :=
  match pending_challenges s !! connection_id with
  | None => (None, s)
  | Some challenge =>
      let s := with_challenges (delete connection_id) s in
      match elapsed now (issued_at challenge) with
      | Some age => if CHALLENGE_TTL <? age then (None, s) else (Some challenge, s)
      | None => (Some challenge, s)
      end
  end.

Definition resolve_device_id (connection_id public_key_b64 : string) (s : HttpApiServer) : option string :=
  match connection_to_device s !! connection_id with
  | Some id => Some id
  | None =>
      if String.eqb public_key_b64 "" then None
      else find_key (public_key_variants_from_b64 public_key_b64) (public_key_to_device s)
  end.

Definition remove_connection (connection_id : string) (s : HttpApiServer) : HttpApiServer :=
  let s := with_pending (delete connection_id) s in
  let s := with_challenges (delete connection_id) s in
  let device_id := connection_to_device s !! connection_id in
  let s := with_bindings (delete connection_id) s in
  match device_id with
  | Some device_id => with_connections (alter (conn_set_sender None false) device_id) s
  | None => s
  end.

Definition update_device_capabilities (device_id : string) (caps : DeviceCapabilities) (s : HttpApiServer) :=
  with_connections (alter (conn_set_capabilities caps) device_id) s.

(** ** Applications *)

Definition register_application (now : Z) (app_id device_id name : string) (wasm_bytes : list byte)
    (config : option CrdConfig) (s : HttpApiServer) : HttpApiServer :=
  with_applications
    <[app_id := mkDeployedApplication app_id device_id name wasm_bytes config now DaDeploying None]> s.

Definition update_application_status (app_id : string) (status : DeviceApplicationPhase)
    (error : option string) (s : HttpApiServer) : HttpApiServer :=
  with_applications (alter (fun a =>
    mkDeployedApplication (da_app_id a) (da_device_id a) (da_name a) (da_wasm_bytes a) (da_config a)
      (da_deployed_at a) status error) app_id) s.

(** [map_k8s_config_to_protocol]: the restart policy stays in the gateway. *)
Definition map_k8s_config_to_protocol (crd : CrdConfig) : ApplicationConfig :=
  mkApplicationConfig (crd_memory_limit crd) (crd_cpu_time_limit crd)
    (default [] (crd_env_vars crd)) (default [] (crd_args crd)).

Definition device_app_status (phase : DeviceApplicationPhase) (error : option string) :
    DeviceApplicationStatus := mkDeviceApplicationStatus phase None None error 0.

(** ** Sending: [open c] tells whether the receiver of channel [c] is alive,
    and [closed] is what a [SendError] displays. *)

Definition send_message_to_device (open : sender -> bool) (closed : string) (device_id : string)
    (message : ServerMessage) (s : HttpApiServer) : result string (sender * ServerMessage) :=
  match device_connections s !! device_id with
  | Some connection =>
      match dc_tls_sender connection with
      | Some snd =>
          if open snd then Ok (snd, message)
          else Err ("TLS send to device " ++ device_id ++ ": " ++ closed)%string
      | None => Err ("No TLS connection for device " ++ device_id)%string
      end
  | None => Err ("Device " ++ device_id ++ " not found")%string
  end.

Definition deploy_application_to_device `{H : Sha256} open closed (device_id app_id : string)
    (wasm_bytes : list byte) (config : option ApplicationConfig) (s : HttpApiServer) :
    result string (sender * ServerMessage) :=
  match device_connections s !! device_id with
  | Some _ =>
      send_message_to_device open closed device_id
        (SDeployApplication app_id app_id (sha256 wasm_bytes) wasm_bytes config) s
  | None => Err ("Device " ++ device_id ++ " not connected")%string
  end.

Definition stop_application_on_device open closed (device_id app_id : string) (s : HttpApiServer) :
    result string (sender * ServerMessage) :=
  match device_connections s !! device_id with
  | Some _ => send_message_to_device open closed device_id (SStopApplication app_id) s
  | None => Err ("Device " ++ device_id ++ " not connected")%string
  end.

(** ** Boards and the admin API *)

(** [now] is [SystemTime::now()] in nanoseconds since the epoch, possibly before it. *)
Definition board_register (now : Z) (device_id endpoint mcu_type : string)
    (caps : option BoardCapabilities) (s : HttpApiServer) : BoardRegistration * HttpApiServer :=
  let registered_at := if 0 <=? now then now / 10 ^ 9 else 0 in
  let registration := mkBoardRegistration device_id endpoint mcu_type caps registered_at in
  (registration, with_boards <[device_id := registration]> s).

Definition board_list (s : HttpApiServer) : list BoardRegistration :=
  snd <$> map_to_list (board_registry s).

(** The HTTP status code and the new state. *)
Definition board_unregister (device_id : string) (s : HttpApiServer) : Z * HttpApiServer :=
  match board_registry s !! device_id with
  | Some _ => (204, with_boards (delete device_id) s)
  | None => (404, s)
  end.

Definition set_pairing_mode (enabled : bool) (s : HttpApiServer) : HttpApiServer :=
  mkHttpApiServer (device_connections s) (public_key_to_device s) (pending_senders s)
    (connection_to_device s) (pending_challenges s) (applications s) (board_registry s)
    enabled (pairing_timeout_seconds s) (heartbeat_timeout_seconds s).
Definition set_pairing_timeout (t : Z) (s : HttpApiServer) : HttpApiServer :=
  mkHttpApiServer (device_connections s) (public_key_to_device s) (pending_senders s)
    (connection_to_device s) (pending_challenges s) (applications s) (board_registry s)
    (pairing_mode s) t (heartbeat_timeout_seconds s).
Definition set_heartbeat_timeout (t : Z) (s : HttpApiServer) : HttpApiServer :=
  mkHttpApiServer (device_connections s) (public_key_to_device s) (pending_senders s)
    (connection_to_device s) (pending_challenges s) (applications s) (board_registry s)
    (pairing_mode s) (pairing_timeout_seconds s) t.

(** ** Read-only handlers *)

Record DeviceInfo := mkDeviceInfo {
  di_device_id : string;
  di_connected : bool;
  di_connected_since : option Z;
  di_last_heartbeat : option Z;
  di_capabilities : option DeviceCapabilities;
}.

Definition get_devices (s : HttpApiServer) : list DeviceInfo :=
  (fun p : string * DeviceConnection =>
     let conn := snd p in
     mkDeviceInfo (dc_device_id conn) true (Some (dc_connected_since conn))
       (Some (dc_last_heartbeat conn)) (Some (dc_capabilities conn)))
  <$> map_to_list (device_connections s).

Record ApplicationStatusResponse := mkApplicationStatusResponse {
  asr_app_id : string;
  asr_device_id : string;
  asr_status : DeviceApplicationPhase;
  asr_deployed_at : Z;
  asr_error : option string;
}.

Definition status_response (a : DeployedApplication) : ApplicationStatusResponse :=
  mkApplicationStatusResponse (da_app_id a) (da_device_id a) (da_status a) (da_deployed_at a) (da_error a).

Definition get_application_status (_device_id app_id : string) (s : HttpApiServer) :
    result Z ApplicationStatusResponse :=
  match applications s !! app_id with Some a => Ok (status_response a) | None => Err 404 end.

Definition get_device_applications (device_id : string) (s : HttpApiServer) : list ApplicationStatusResponse :=
  status_response <$> List.filter (fun a => String.eqb (da_device_id a) device_id)
                        (snd <$> map_to_list (applications s)).

(** The counts of [get_k8s_applications]. *)
Definition count_status (p : DeviceApplicationPhase) (s : HttpApiServer) : Z :=
  zlen (List.filter (fun a => bool_decide (da_status a = p)) (snd <$> map_to_list (applications s))).
Definition get_k8s_applications (s : HttpApiServer) : Z * Z * Z * Z :=
  (zlen (map_to_list (applications s)), count_status DaRunning s, count_status DaFailed s,
   count_status DaDeploying s).
End Registry.
