(* ===== verification/RegistryProofs.v ===== *)
(** * Properties of the runtime registry

    The invariant every method keeps, the lookup of devices by either base64
    form of their key, the single use and the expiry of challenges, and what a
    late disconnect does to a newer session. *)

From S2P Require Import Prelude.
From S2P Require Import RustStd.
From S2P Require Import Externals.
From S2P Require Import Base64.
From S2P Require Import Protocol.
From S2P Require Import K8s.
From S2P Require Import Registry.

(** ** The methods as one sequence of operations *)

Inductive registry_op :=
| RegisterDevice (now : Z) (device_id public_key : string) (caps : DeviceCapabilities)
| SetDeviceTlsSender (now : Z) (key : list byte) (snd : sender)
| UpdateHeartbeat (now : Z) (device_id : string)
| StorePendingSender (connection_id : string) (snd : sender)
| ActivateDeviceSender (now : Z) (connection_id device_id public_key_b64 : string)
| IssueChallenge (now : Z) (fresh : list byte) (connection_id : string) (key : list byte)
| TakeChallenge (now : Z) (connection_id : string)
| RemoveConnection (connection_id : string)
| UpdateDeviceCapabilities (device_id : string) (caps : DeviceCapabilities)
| RegisterApplication (now : Z) (app_id device_id name : string) (wasm : list byte) (config : option CrdConfig)
| UpdateApplicationStatus (app_id : string) (status : DeviceApplicationPhase) (error : option string)
| BoardRegister (now : Z) (device_id endpoint mcu_type : string) (caps : option BoardCapabilities)
| BoardUnregister (device_id : string)
| SetPairingMode (enabled : bool)
| SetPairingTimeout (seconds : Z)
| SetHeartbeatTimeout (seconds : Z).

Section Proofs.
Context `{B : Base64}.

Definition apply_op (op : registry_op) (s : HttpApiServer) : HttpApiServer :=
  match op with
  | RegisterDevice now id pk caps => register_device now id pk caps s
  | SetDeviceTlsSender now key snd => set_device_tls_sender now key snd s
  | UpdateHeartbeat now id => update_heartbeat now id s
  | StorePendingSender c snd => store_pending_sender c snd s
  | ActivateDeviceSender now c id pk => activate_device_sender now c id pk s
  | IssueChallenge now fresh c key => (issue_challenge now fresh c key s).2
  | TakeChallenge now c => (take_challenge now c s).2
  | RemoveConnection c => remove_connection c s
  | UpdateDeviceCapabilities id caps => update_device_capabilities id caps s
  | RegisterApplication now app id name wasm config => register_application now app id name wasm config s
  | UpdateApplicationStatus app status error => update_application_status app status error s
  | BoardRegister now id ep mcu caps => (board_register now id ep mcu caps s).2
  | BoardUnregister id => (board_unregister id s).2
  | SetPairingMode enabled => set_pairing_mode enabled s
  | SetPairingTimeout t => set_pairing_timeout t s
  | SetHeartbeatTimeout t => set_heartbeat_timeout t s
  end.

Definition run (ops : list registry_op) (s : HttpApiServer) : HttpApiServer :=
  foldl (fun s op => apply_op op s) s ops.

(** ** The invariant: entries carry their key, and a device is marked
    connected exactly while it has a sender. *)

Definition conn_ok (id : string) (c : DeviceConnection) : Prop :=
  dc_device_id c = id /\ (dc_tls_connected c = true <-> is_Some (dc_tls_sender c)).

Definition registry_ok (s : HttpApiServer) : Prop :=
  map_Forall conn_ok (device_connections s) /\
  map_Forall (fun id a => da_app_id a = id) (applications s) /\
  map_Forall (fun id b => br_device_id b = id) (board_registry s).

Lemma map_Forall_alter_stable {A} (P : string -> A -> Prop) (f : A -> A) k (m : gmap string A) :
  map_Forall P m -> (forall a, P k a -> P k (f a)) -> map_Forall P (alter f k m).
Proof.
  intros H Hf i x. destruct (decide (i = k)) as [->|].
  - rewrite lookup_alter_eq. intros (a & Ha & ->)%fmap_Some. eauto.
  - rewrite lookup_alter_ne by done. eauto.
Qed.

Lemma map_Forall_insert_stable {A} (P : string -> A -> Prop) k a (m : gmap string A) :
  map_Forall P m -> P k a -> map_Forall P (<[k := a]> m).
Proof. intros. by apply map_Forall_insert_2. Qed.

Lemma map_Forall_delete_stable {A} (P : string -> A -> Prop) k (m : gmap string A) :
  map_Forall P m -> map_Forall P (delete k m).
Proof. apply map_Forall_delete. Qed.

#[local] Hint Resolve map_Forall_alter_stable map_Forall_insert_stable map_Forall_delete_stable : wasmbed.

Lemma conn_ok_attach id now snd c : conn_ok id c -> conn_ok id (attach_sender now snd c).
Proof. intros [? _]. split; [done|]. split; simpl; [by eexists | done]. Qed.

Lemma conn_ok_detach id c : conn_ok id c -> conn_ok id (conn_set_sender None false c).
Proof. intros [? _]. split; [done|]. split; simpl; [done | by intros []]. Qed.

#[local] Hint Resolve conn_ok_attach conn_ok_detach : wasmbed.

Lemma register_device_ok now id pk caps s : registry_ok s -> registry_ok (register_device now id pk caps s).
Proof.
  intros (Hc & Ha & Hb). unfold register_device. simpl.
  destruct (device_connections s !! id) as [c|] eqn:E; simpl; split_and!; try done;
    apply map_Forall_insert_stable; try done; simpl.
  - pose proof (Hc _ _ E) as [Hid Hs]. split; [done|]. simpl.
    destruct (dc_tls_sender c); [split; [by eexists|done]|done].
  - split; [done|]. simpl. split; [done|by intros []].
Qed.

Lemma apply_op_ok op s : registry_ok s -> registry_ok (apply_op op s).
Proof.
  intros Hok. destruct op; simpl; try by apply register_device_ok.
  all: destruct Hok as (Hc & Ha & Hb).
  all: unfold set_device_tls_sender, activate_device_sender, remove_connection, take_challenge,
    board_unregister; simpl; repeat case_match; simpl; split_and!; simpl; auto with wasmbed.
Qed.

Lemma run_ok ops s : registry_ok s -> registry_ok (run ops s).
Proof. revert s. induction ops; simpl; auto using apply_op_ok. Qed.

Lemma registry_new_ok : registry_ok HttpApiServer_new.
Proof. split_and!; apply map_Forall_empty. Qed.

(** C10: starting from the empty registry, after any sequence of its methods
    every device entry is stored under its own id and is marked TLS-connected
    exactly when it holds a sender, and applications and boards are stored
    under their own id. (The unused [mark_device_tls_connected] is the one
    method outside the list: it sets the flag without a sender.) *)
Theorem registry_invariant (ops : list registry_op) : registry_ok (run ops HttpApiServer_new).
Proof. apply run_ok, registry_new_ok. Qed.

(** ** Lookup by key *)

Lemma insert_keys_lookup vs id m k :
  insert_keys vs id m !! k = if bool_decide (k ∈ vs) then Some id else m !! k.
Proof.
  unfold insert_keys. revert m. induction vs as [|v vs IH]; intros m; cbn [foldl].
  { by rewrite bool_decide_false by (by intros []%not_elem_of_nil). }
  rewrite IH. destruct (decide (k ∈ vs)).
  { by rewrite !bool_decide_true by (try done; set_solver). }
  rewrite bool_decide_false by done. destruct (decide (k = v)) as [->|].
  - by rewrite lookup_insert_eq, bool_decide_true by set_solver.
  - rewrite lookup_insert_ne by done. by rewrite bool_decide_false by set_solver.
Qed.

Lemma elem_of_push_new v k vs : k ∈ push_new v vs <-> k = v \/ k ∈ vs.
Proof. unfold push_new. case_bool_decide; set_solver. Qed.

Definition key_forms (key : list byte) : list string := [std_encode key; url_encode key].

(** Every base64 form of a key expands to exactly its two forms. *)
Lemma variants_of_key `{!Base64Laws B} key form :
  form ∈ key_forms key -> forall k, k ∈ public_key_variants_from_b64 form <-> k ∈ key_forms key.
Proof.
  intros Hform k. unfold public_key_variants_from_b64, key_forms in *.
  assert (forall t, std_decode form = Some t -> t = key) as Hs.
  { intros t Ht. rewrite !elem_of_cons in Hform. destruct Hform as [->|[->|[]%not_elem_of_nil]].
    - rewrite std_decode_encode in Ht. congruence.
    - eapply std_url_agree; [done|]. apply url_decode_encode. }
  assert (forall t, url_decode form = Some t -> t = key) as Hu.
  { intros t Ht. rewrite !elem_of_cons in Hform. destruct Hform as [->|[->|[]%not_elem_of_nil]].
    - symmetry. eapply std_url_agree; [|done]. apply std_decode_encode.
    - rewrite url_decode_encode in Ht. congruence. }
  assert (std_decode form = Some key \/ url_decode form = Some key) as Hdec.
  { rewrite !elem_of_cons in Hform. destruct Hform as [->|[->|[]%not_elem_of_nil]].
    - left. apply std_decode_encode.
    - right. apply url_decode_encode. }
  destruct (std_decode form) as [a|] eqn:Ea; [rewrite (Hs a eq_refl) in *|];
  (destruct (url_decode form) as [b|] eqn:Eb; [rewrite (Hu b eq_refl) in *|]);
  cbn [push_decoded]; rewrite ?elem_of_push_new; set_solver.
Qed.

(** Two keys share no form. *)
Lemma key_forms_disjoint `{!Base64Laws B} key key' t :
  t ∈ key_forms key -> t ∈ key_forms key' -> key = key'.
Proof.
  unfold key_forms. rewrite !elem_of_cons.
  intros [-> |[-> |[]%not_elem_of_nil]] [E|[E|[]%not_elem_of_nil]].
  - apply (f_equal std_decode) in E. rewrite !std_decode_encode in E. congruence.
  - eapply std_url_agree; [apply std_decode_encode|]. rewrite E. apply url_decode_encode.
  - symmetry. eapply std_url_agree; [|apply url_decode_encode]. rewrite E. apply std_decode_encode.
  - apply (f_equal url_decode) in E. rewrite !url_decode_encode in E. congruence.
Qed.

Lemma find_key_all vs id m : vs <> [] -> (forall k, k ∈ vs -> m !! k = Some id) -> find_key vs m = Some id.
Proof. destruct vs as [|v vs]; [done|]. intros _ H. simpl. by rewrite H by set_solver. Qed.

Lemma find_key_ext vs m m' : (forall k, k ∈ vs -> m !! k = m' !! k) -> find_key vs m = find_key vs m'.
Proof.
  induction vs as [|v vs IH]; intros H; simpl; [done|].
  rewrite H, IH by set_solver. done.
Qed.

Lemma variants_nonempty t : public_key_variants_from_b64 t <> [].
Proof.
  intros E. assert (t ∈ public_key_variants_from_b64 t) as H; [|rewrite E in H; by apply not_elem_of_nil in H].
  unfold public_key_variants_from_b64, push_decoded.
  repeat case_match; rewrite ?elem_of_push_new; set_solver.
Qed.

Lemma register_device_keys now id pk caps s :
  public_key_to_device (register_device now id pk caps s) =
    insert_keys (public_key_variants_from_b64 pk) id (public_key_to_device s).
Proof. unfold register_device. by case_match. Qed.

Lemma register_device_bindings now id pk caps s :
  connection_to_device (register_device now id pk caps s) = connection_to_device s.
Proof. unfold register_device. by case_match. Qed.

(** A device registered under either base64 form of its public key is
    resolved from any unbound connection that presents any form of that key,
    and registering it changes nothing for connections that present another
    key. *)
Theorem register_device_resolves `{!Base64Laws B} now id key form caps s conn key' form' :
  form ∈ key_forms key -> form' ∈ key_forms key' -> form' <> ""%string ->
  connection_to_device s !! conn = None ->
  resolve_device_id conn form' (register_device now id form caps s) =
    if bool_decide (key' = key) then Some id else resolve_device_id conn form' s.
Proof.
  intros Hf Hf' Hne Hconn. unfold resolve_device_id.
  rewrite register_device_bindings, Hconn, register_device_keys.
  rewrite (proj2 (String.eqb_neq _ _) Hne).
  case_bool_decide as Hk; [subst key'|].
  - apply find_key_all; [apply variants_nonempty|]. intros k Hin.
    rewrite insert_keys_lookup, bool_decide_true; [done|].
    apply (variants_of_key key form Hf). by apply (variants_of_key key form' Hf').
  - apply find_key_ext. intros k Hin. rewrite insert_keys_lookup, bool_decide_false; [done|].
    intros Hin'. apply (variants_of_key key' form' Hf') in Hin.
    apply (variants_of_key key form Hf) in Hin'. by eapply Hk, key_forms_disjoint.
Qed.
End Proofs.

Definition no_caps : DeviceCapabilities := mkDeviceCapabilities 0 "unknown" [] 0.

(** Two devices with different keys, looked up under the other alphabet. *)
Lemma register_device_resolves_witness :
  let k1 := [Byte.x01; Byte.xfb; Byte.xff] in
  let k2 := [Byte.x02] in
  let s := register_device 5 "device-b" (std_encode k2) no_caps HttpApiServer_new in
  resolve_device_id "10.0.0.7:4000" (url_encode k1)
    (register_device 7 "device-a" (std_encode k1) no_caps s) = Some "device-a"%string /\
  resolve_device_id "10.0.0.7:4000" (url_encode k2)
    (register_device 7 "device-a" (std_encode k1) no_caps s) = Some "device-b"%string.
Proof.
  intros k1 k2 s. split.
  - rewrite (register_device_resolves 7 "device-a" k1 (std_encode k1) no_caps s "10.0.0.7:4000" k1 (url_encode k1));
      [reflexivity | vm_compute; by repeat constructor | vm_compute; by repeat constructor | done | reflexivity].
  - rewrite (register_device_resolves 7 "device-a" k1 (std_encode k1) no_caps s "10.0.0.7:4000" k2 (url_encode k2));
      [reflexivity | vm_compute; by repeat constructor | vm_compute; by repeat constructor | done | reflexivity].
Defined.

(** ** Challenges *)

Section Challenges.
Context `{B : Base64}.

(** Does the operation answer or replace the challenge of [c]? *)
Definition touches_challenge (c : string) (op : registry_op) : bool :=
  match op with
  | IssueChallenge _ _ c' _ | TakeChallenge _ c' | RemoveConnection c' => bool_decide (c' = c)
  | _ => false
  end.

Definition issues_challenge (c : string) (op : registry_op) : bool :=
  match op with IssueChallenge _ _ c' _ => bool_decide (c' = c) | _ => false end.

(** Does [op] hand out the challenge of [c]? *)
Definition redeems (c : string) (op : registry_op) (s : HttpApiServer) : bool :=
  match op with
  | TakeChallenge now c' => bool_decide (c' = c) && bool_decide (is_Some (take_challenge now c' s).1)
  | _ => false
  end.

Fixpoint redeem_count (c : string) (ops : list registry_op) (s : HttpApiServer) : nat :=
  match ops with
  | [] => 0
  | op :: ops => (if redeems c op s then 1 else 0) + redeem_count c ops (apply_op op s)
  end.

Lemma take_challenge_drops now c s : pending_challenges (take_challenge now c s).2 = delete c (pending_challenges s).
Proof.
  unfold take_challenge. destruct (pending_challenges s !! c) eqn:E.
  - by repeat case_match.
  - by rewrite delete_id.
Qed.

Lemma challenge_frame c op s :
  touches_challenge c op = false ->
  pending_challenges (apply_op op s) !! c = pending_challenges s !! c.
Proof.
  destruct op; cbn [touches_challenge apply_op]; try done.
  all: try (rewrite bool_decide_eq_false; intros Hne).
  - unfold register_device. by case_match.
  - unfold set_device_tls_sender. by case_match.
  - unfold activate_device_sender. by case_match.
  - simpl. by rewrite lookup_insert_ne.
  - rewrite take_challenge_drops. by rewrite lookup_delete_ne.
  - unfold remove_connection. simpl. case_match; simpl; by rewrite lookup_delete_ne.
  - unfold board_unregister. by case_match.
Qed.

Lemma challenge_frame_run c ops s :
  Forall (fun op => touches_challenge c op = false) ops ->
  pending_challenges (run ops s) !! c = pending_challenges s !! c.
Proof.
  intros H. revert s. induction H as [|op ops Hop _ IH]; intros s; [done|].
  change (run (op :: ops) s) with (run ops (apply_op op s)).
  by rewrite IH, challenge_frame.
Qed.

Lemma take_challenge_of now c s ch :
  pending_challenges s !! c = Some ch ->
  (take_challenge now c s).1 = if CHALLENGE_TTL <? now - issued_at ch then None else Some ch.
Proof.
  intros E. unfold take_challenge, elapsed. rewrite E.
  destruct (Z.leb_spec (issued_at ch) now).
  - by destruct (CHALLENGE_TTL <? now - issued_at ch).
  - destruct (Z.ltb_spec CHALLENGE_TTL (now - issued_at ch)); [|done].
    unfold CHALLENGE_TTL in *. lia.
Qed.

(** Once nothing is outstanding, nothing is handed out before a new issue. *)
Lemma no_challenge_no_redeem c ops s :
  Forall (fun op => issues_challenge c op = false) ops ->
  pending_challenges s !! c = None -> redeem_count c ops s = 0%nat.
Proof.
  intros H. revert s. induction H as [|op ops Hop _ IH]; intros s E; [done|].
  cbn [redeem_count].
  assert (pending_challenges (apply_op op s) !! c = None) as E'.
  { destruct (touches_challenge c op) eqn:T; [|by rewrite challenge_frame].
    destruct op; cbn [touches_challenge issues_challenge] in *; try done;
      cbn [apply_op]; [congruence| |].
    - apply bool_decide_eq_true in T as ->. by rewrite take_challenge_drops, lookup_delete_eq.
    - apply bool_decide_eq_true in T as ->.
      unfold remove_connection. simpl. case_match; simpl; by rewrite lookup_delete_eq. }
  rewrite (IH _ E'). destruct (redeems c op s) eqn:R; [exfalso|done].
  destruct op; try done. cbn [redeems] in R. apply andb_true_iff in R as [Rc Rs].
  apply bool_decide_eq_true in Rc as ->. apply bool_decide_eq_true in Rs as [ch Hch].
  unfold take_challenge in Hch. by rewrite E in Hch.
Qed.

(** C4: a challenge is single use: in any sequence of registry operations
    that issues no new challenge on a connection, at most one response on
    that connection is given a challenge to verify against. *)
Theorem challenge_single_use c ops s :
  Forall (fun op => issues_challenge c op = false) ops -> (redeem_count c ops s <= 1)%nat.
Proof.
  intros H. revert s. induction H as [|op ops Hop Hops IH]; intros s; [simpl; lia|].
  cbn [redeem_count]. destruct (redeems c op s) eqn:R; [|apply IH].
  rewrite no_challenge_no_redeem; [lia|done|].
  destruct op; try done. cbn [redeems] in R. apply andb_true_iff in R as [Rc _].
  apply bool_decide_eq_true in Rc as ->. cbn [apply_op].
  by rewrite take_challenge_drops, lookup_delete_eq.
Qed.

(** Whatever happens to other connections in between, a response gets
    exactly the challenge issued last on its own connection while it is at
    most 30 seconds old, and nothing afterwards. *)
Theorem challenge_ttl issued fresh c key s ops now :
  Forall (fun op => touches_challenge c op = false) ops ->
  (take_challenge now c (run ops (issue_challenge issued fresh c key s).2)).1 =
    if CHALLENGE_TTL <? now - issued then None else Some (mkPendingChallenge fresh key issued).
Proof.
  intros H. rewrite (take_challenge_of now c _ (mkPendingChallenge fresh key issued)); [done|].
  rewrite challenge_frame_run by done. simpl. by rewrite lookup_insert_eq.
Qed.
End Challenges.

Lemma challenge_single_use_witness :
  let s := (issue_challenge 100 [Byte.x07] "c1" [Byte.x01] HttpApiServer_new).2 in
  let ops := [TakeChallenge 200 "c2"; TakeChallenge 300 "c1"; TakeChallenge 301 "c1"] in
  redeem_count "c1" ops s = 1%nat /\ (redeem_count "c1" ops s <= 1)%nat.
Proof.
  split; [vm_compute; reflexivity|]. apply challenge_single_use. repeat constructor.
Defined.

Lemma challenge_ttl_witness :
  (take_challenge (30 * 10 ^ 9 + 100) "c1"
    (run [SetPairingMode true] (issue_challenge 100 [Byte.x07] "c1" [Byte.x01] HttpApiServer_new).2)).1
    = Some (mkPendingChallenge [Byte.x07] [Byte.x01] 100) /\
  (take_challenge (30 * 10 ^ 9 + 101) "c1"
    (run [SetPairingMode true] (issue_challenge 100 [Byte.x07] "c1" [Byte.x01] HttpApiServer_new).2)).1 = None.
Proof. split; (etransitivity; [apply challenge_ttl; repeat constructor | reflexivity]). Defined.

(** ** Sessions and applications *)

Section Sessions.
Context `{B : Base64}.

Lemma activate_lookup now c d pk s conn snd :
  device_connections s !! d = Some conn -> pending_senders s !! c = Some snd ->
  device_connections (activate_device_sender now c d pk s) !! d = Some (attach_sender now snd conn).
Proof.
  intros Hd Hs. unfold activate_device_sender. rewrite Hs. simpl.
  by rewrite lookup_alter_eq, Hd.
Qed.

Lemma activate_bindings now c d pk s :
  connection_to_device (activate_device_sender now c d pk s) = <[c := d]> (connection_to_device s).
Proof. unfold activate_device_sender. by case_match. Qed.

Lemma remove_connection_lookup c d s conn :
  connection_to_device s !! c = Some d -> device_connections s !! d = Some conn ->
  device_connections (remove_connection c s) !! d = Some (conn_set_sender None false conn).
Proof.
  intros Hc Hd. unfold remove_connection. simpl. rewrite Hc. simpl.
  by rewrite lookup_alter_eq, Hd.
Qed.

(** A device that reconnects is reached through its new connection as
    soon as the new connection is activated; when the previous connection of
    the same device is cleaned up only afterwards, the clean-up takes the
    sender of the new session away and the device cannot be reached any
    more, although its new connection is still bound and open. *)
Theorem late_disconnect_cuts_new_session now old new d pk s conn snd open closed m :
  old <> new -> connection_to_device s !! old = Some d ->
  device_connections s !! d = Some conn -> pending_senders s !! new = Some snd -> open snd = true ->
  let s1 := activate_device_sender now new d pk s in
  let s2 := remove_connection old s1 in
  send_message_to_device open closed d m s1 = Ok (snd, m) /\
  connection_to_device s2 !! new = Some d /\
  send_message_to_device open closed d m s2 = Err ("No TLS connection for device " ++ d)%string.
Proof.
  intros Hne Hold Hd Hs Hopen s1 s2.
  pose proof (activate_lookup now new d pk s conn snd Hd Hs) as H1. fold s1 in H1.
  assert (connection_to_device s1 !! old = Some d) as Hb.
  { unfold s1. rewrite activate_bindings. by rewrite lookup_insert_ne. }
  split_and!.
  - unfold send_message_to_device. rewrite H1. simpl. by rewrite Hopen.
  - unfold s2, remove_connection. simpl. rewrite Hb. simpl.
    rewrite lookup_delete_ne by done. unfold s1. by rewrite activate_bindings, lookup_insert_eq.
  - unfold s2, send_message_to_device. by rewrite (remove_connection_lookup old d s1 _ Hb H1).
Qed.

(** A deployment is sent on the channel of the device it names, with the
    SHA-256 digest of exactly the module bytes it carries; it is refused when
    the device is unknown, has no sender or the channel is closed, and then
    nothing is sent. *)
Theorem deploy_message_sent `{H : Sha256} open closed d app wasm config s snd msg :
  deploy_application_to_device open closed d app wasm config s = Ok (snd, msg) <->
  (exists conn, device_connections s !! d = Some conn /\ dc_tls_sender conn = Some snd) /\
  open snd = true /\ msg = SDeployApplication app app (sha256 wasm) wasm config.
Proof.
  unfold deploy_application_to_device, send_message_to_device.
  destruct (device_connections s !! d) as [conn|] eqn:E.
  - destruct (dc_tls_sender conn) as [snd'|] eqn:Es.
    + destruct (open snd') eqn:Eo; split.
      * intros [= <- <-]. eauto.
      * intros ((c & [= <-] & Hc) & _ & ->). congruence.
      * done.
      * intros ((c & [= <-] & Hc) & ? & _). congruence.
    + split; [done|]. intros ((c & [= <-] & Hc) & _). congruence.
  - split; [done|]. by intros ((c & ? & _) & _).
Qed.

(** The gateway remembers one device per application: registering an
    application for a second device makes it disappear from the first
    device's list. *)
Theorem application_registry_keeps_last_device t1 t2 app d1 d2 name1 name2 w1 w2 c1 c2 s :
  d1 <> d2 -> (forall id a, applications s !! id = Some a -> da_app_id a = id) ->
  forall r, r ∈ get_device_applications d1
                  (register_application t2 app d2 name2 w2 c2 (register_application t1 app d1 name1 w1 c1 s)) ->
  asr_app_id r <> app.
Proof.
  intros Hd Hkeys r Hr Happ. unfold get_device_applications in Hr.
  apply list_elem_of_fmap in Hr as (a & -> & Ha).
  rewrite list_elem_of_In, filter_In in Ha. destruct Ha as [Ha Hdev].
  rewrite <- list_elem_of_In in Ha. apply list_elem_of_fmap in Ha as ([k a'] & Ea & Hin). simpl in Ea. subst a'.
  apply elem_of_map_to_list in Hin. simpl in Hin. rewrite insert_insert_eq in Hin.
  apply String.eqb_eq in Hdev. cbn [status_response asr_app_id] in Happ.
  destruct (decide (k = app)) as [->|Hk].
  - rewrite lookup_insert_eq in Hin. injection Hin as <-. by simpl in Hdev.
  - rewrite lookup_insert_ne in Hin by done. apply Hkeys in Hin. congruence.
Qed.
End Sessions.

Definition reconnecting : HttpApiServer :=
  let s := register_device 1 "device-a" "AQ" no_caps HttpApiServer_new in
  let s := activate_device_sender 2 "old" "device-a" "AQ" (store_pending_sender "old" 1 s) in
  store_pending_sender "new" 2 s.

Lemma late_disconnect_cuts_new_session_witness :
  let s1 := activate_device_sender 3 "new" "device-a" "AQ" reconnecting in
  send_message_to_device (fun _ => true) "channel closed" "device-a" SRequestDeviceInfo s1
    = Ok (2, SRequestDeviceInfo) /\
  send_message_to_device (fun _ => true) "channel closed" "device-a" SRequestDeviceInfo
    (remove_connection "old" s1) = Err "No TLS connection for device device-a"%string.
Proof.
  destruct (late_disconnect_cuts_new_session 3 "old" "new" "device-a" "AQ" reconnecting
    (attach_sender 2 1 (mkDeviceConnection "device-a" (mkDeviceUuid (replicate 16 Byte.x00))
       (str_bytes "AQ") 1 1 no_caps None false false)) 2 (fun _ => true) "channel closed" SRequestDeviceInfo)
    as (H1 & _ & H2); [done | vm_compute; reflexivity.. | by split].
Defined.

Lemma application_registry_keeps_last_device_witness :
  let s := register_application 2 "app" "device-b" "app" [] None
             (register_application 1 "app" "device-a" "app" [] None HttpApiServer_new) in
  "device-a"%string <> "device-b"%string /\
  forall r, r ∈ get_device_applications "device-a" s -> asr_app_id r <> "app"%string.
Proof.
  split; [done|]. apply application_registry_keeps_last_device; [done|]. intros id a. vm_compute. done.
Defined.
