(* ===== verification/Gateway.v ===== *)
(** * The gateway: [crates/wasmbed-gateway/src/main.rs]

    The TLS callbacks ([Callbacks::on_connect], [on_disconnect],
    [on_connection_ready], [on_message]), enrollment with proof of possession,
    and the heartbeat monitor, over the registry of [Registry] and the
    Kubernetes interface of [K8s]. A callback is a function of the two states;
    its answers to the device are a list of messages. Logging is left out. *)

From S2P Require Import Prelude.
From S2P Require Import RustStd.
From S2P Require Import Externals.
From S2P Require Import Protocol.
From S2P Require Import K8s.
From S2P Require Import Registry.

(** ** Proof of possession *)

Definition POP_CONTEXT : list byte := str_bytes "wasmbed-pop-v1".

Definition pop_transcript (nonce spki : list byte) : list byte := POP_CONTEXT ++ nonce ++ spki.

Inductive pop_error := NotSpki | BadSignature.

Section Pop.
Context `{E : Ecdsa}.

Definition ec_point_from_spki (spki : list byte) : result pop_error (list byte) :=
  match spki_point spki with Some point => Ok point | None => Err NotSpki end.

Definition verify_pop_signature (spki nonce signature : list byte) : result pop_error unit :=
  let? point := ec_point_from_spki spki in
  if ecdsa_verify point (pop_transcript nonce spki) signature then Ok tt else Err BadSignature.
End Pop.

(** ** Configuration and inputs *)

Inductive AuthorizationResult := Authorized | Unauthorized.

Record Callbacks := mkCallbacks {
  require_client_auth : bool;
  gateway_reference : GatewayReference;
}.

(** What a callback reads from the clock and the random generators: the time
    (as a number and as RFC 3339 text), a 32-byte nonce and a v4 UUID. *)
Record Inputs := mkInputs {
  in_now : Z;
  in_rfc3339 : string;
  in_nonce : list byte;
  in_uuid : list byte;
}.

Definition default_capabilities : DeviceCapabilities :=
  mkDeviceCapabilities (1024 * 1024 * 1024) "riscv32" ["core"%string] (1024 * 1024).
Definition unknown_capabilities : DeviceCapabilities := mkDeviceCapabilities 0 "unknown" [] 0.

Section Gateway.
Context {W : Type} `{K : Kube W} `{B : Base64} `{E : Ecdsa} `{U : UuidParse}.
Implicit Types (s : HttpApiServer) (w : W) (inp : Inputs).

(** [Callbacks::on_connect]. Both branches of the transition check apply the
    same update; they differ in what they log. *)
Definition on_connect (cb : Callbacks) inp (key : list byte) s w : AuthorizationResult * HttpApiServer * W :=
  match Device_find w key with
  | Ok (Some device) =>
      if String.eqb (public_key (d_spec device)) (PublicKey_to_base64 key) then
        let connected := mark_connected (in_now inp) (gateway_reference cb) update_default in
        let applied :=
          if DeviceStatusUpdate_validate_transition (current_phase device) Connected
          then update_apply connected w device
          else update_apply connected w device in
        match applied with
        | (Err _, w) => (Unauthorized, s, w)
        | (Ok _, w) =>
            let s := register_device (in_now inp) (name_any device) (PublicKey_to_base64 key)
                       default_capabilities s in
            (Authorized, s, w)
        end
      else (Unauthorized, s, w)
  | Ok None =>
      match key with
      | [] => if require_client_auth cb then (Unauthorized, s, w) else (Authorized, s, w)
      | _ :: _ => if pairing_mode s then (Authorized, s, w) else (Unauthorized, s, w)
      end
  | Err _ => (Unauthorized, s, w)
  end.

(** [Callbacks::on_disconnect] *)
Definition on_disconnect (key : list byte) (connection_id : string) s w : HttpApiServer * W :=
  let s := remove_connection connection_id s in
  match key with
  | [] => (s, w)
  | _ :: _ =>
      match Device_find w key with
      | Ok (Some device) => (s, (update_apply (mark_disconnected update_default) w device).2)
      | Ok None | Err _ => (s, w)
      end
  end.

(** [Callbacks::on_connection_ready] *)
Definition on_connection_ready inp (key : list byte) (connection_id : string) (snd : sender) s : HttpApiServer :=
  let s := store_pending_sender connection_id snd s in
  match key with
  | [] => s
  | _ :: _ => set_device_tls_sender (in_now inp) key snd s
  end.

(** [create_device_crd]: the name of the Device object, or the text of the
    error. *)
Definition create_device_crd (key : list byte) (uuid : DeviceUuid) (gw : GatewayReference) w :
    result string string * W :=
  let device_name := ("device-" ++ remove_dashes (DeviceUuid_to_string uuid))%string in
  let spec := mkDeviceSpec (url_encode key) (Some "Stm32F746gDisco"%string) None None None in
  let status := mkDeviceStatus Pending (Some gw) None None false in
  let device := mkDevice (Some device_name) (Some "wasmbed"%string) spec (Some status) in
  match dev_create w device with
  | (Ok d, w) => (Ok (name_any d), w)
  | (Err (KApi code msg), w) =>
      if code =? 409 then
        match Device_find w key with
        | Ok (Some d) => (Ok (name_any d), w)
        | Ok None => (Err "Device 409 but could not find existing CRD"%string, w)
        | Err e => (Err (kerr_display e), w)
        end
      else (Err (kerr_display (KApi code msg)), w)
  | (Err e, w) => (Err (kerr_display e), w)
  end.

(** The UUID a device name stands for, or a fresh one. *)
Definition uuid_of_name (device_id : string) (fresh : list byte) : DeviceUuid :=
  match parse_uuid (trim_start_matches "device-" device_id) with
  | Some bytes => mkDeviceUuid bytes
  | None => mkDeviceUuid fresh
  end.

Definition rejected (reason : string) : ServerMessage := SEnrollmentRejected (str_bytes reason).

(** [complete_enrollment] *)
Definition complete_enrollment (cb : Callbacks) inp (key : list byte) (connection_id : string) s w :
    list ServerMessage * HttpApiServer * W :=
  let key_b64 := std_encode key in
  match Device_find w key with
  | Ok (Some existing_device) =>
      let device_id := name_any existing_device in
      let existing_uuid := uuid_of_name device_id (in_uuid inp) in
      let s := register_device (in_now inp) device_id key_b64 unknown_capabilities s in
      let s := activate_device_sender (in_now inp) connection_id device_id key_b64 s in
      let w := (update_apply (mark_connected (in_now inp) (gateway_reference cb) update_default)
                  w existing_device).2 in
      ([SDeviceUuid existing_uuid], s, w)
  | Ok None =>
      if pairing_mode s then
        let device_uuid := mkDeviceUuid (in_uuid inp) in
        match create_device_crd key device_uuid (gateway_reference cb) w with
        | (Ok device_name, w) =>
            let s := register_device (in_now inp) device_name key_b64 unknown_capabilities s in
            let s := activate_device_sender (in_now inp) connection_id device_name key_b64 s in
            let w := match Device_find w key with
                     | Ok (Some device) => (update_apply (mark_enrolled update_default) w device).2
                     | _ => w
                     end in
            ([SDeviceUuid device_uuid], s, w)
        | (Err e, w) => ([rejected ("Failed to create device: " ++ e)], s, w)
        end
      else ([rejected "Pairing mode disabled"], s, w)
  | Err _ => ([rejected "Internal error"], s, w)
  end.

Inductive status_update_result := UpdateOk | UpdateErr (e : kube_error) | UpdatePanic.

(** [update_application_status] of [main.rs]: the first listed application
    whose specification name or object name contains [app_id]. An object
    without a name makes [unwrap] panic where its name is needed. *)
Fixpoint patch_matching (app_id : string) (phase : ApplicationPhase) (error : option string)
    (now : string) (apps : list Application) w : status_update_result * W :=
  match apps with
  | [] => (UpdateOk, w)
  | app :: apps =>
      match a_name app with
      | None => (UpdatePanic, w)
      | Some name =>
          if str_contains (a_spec_name (a_spec app)) app_id || str_contains name app_id then
            match app_patch_phase w name phase now error with
            | (Err e, w) => (UpdateErr e, w)
            | (Ok _, w) => (UpdateOk, w)
            end
          else patch_matching app_id phase error now apps w
      end
  end.

Definition update_application_status inp (app_id : string) (phase : ApplicationPhase)
    (error : option string) w : status_update_result * W :=
  match app_list w with
  | Err e => (UpdateErr e, w)
  | Ok apps => patch_matching app_id phase error (in_rfc3339 inp) apps w
  end.

(** ** The branches of [on_message] *)

Definition handle_heartbeat (cb : Callbacks) inp (resolved : option string) s w :
    list ServerMessage * HttpApiServer * W :=
  match resolved with
  | Some device_id =>
      let s := update_heartbeat (in_now inp) device_id s in
      match dev_get w device_id with
      | Ok device =>
          let update :=
            match d_status device with
            | Some st =>
                if bool_decide (ds_phase st = Unreachable)
                then set_last_heartbeat (Some (in_now inp))
                       (mark_connected (in_now inp) (gateway_reference cb) update_default)
                else update_heartbeat_status (in_now inp) update_default
            | None => update_heartbeat_status (in_now inp) update_default
            end in
          ([SHeartbeatAck], s, (update_apply update w device).2)
      | Err _ => ([SHeartbeatAck], s, w)
      end
  | None => ([SHeartbeatAck], s, w)
  end.

Definition handle_public_key (cb : Callbacks) inp (tls_key : list byte) (connection_id : string)
    (key : list byte) s w : list ServerMessage * HttpApiServer * W :=
  let anonymous := match tls_key with [] => true | _ :: _ => false end in
  if require_client_auth cb && anonymous then ([rejected "Client certificate required"], s, w)
  else if negb anonymous && negb (bool_decide (tls_key = key)) then
    ([rejected "Public key mismatch with TLS certificate"], s, w)
  else
    let '(fresh, s) := issue_challenge (in_now inp) (in_nonce inp) connection_id key s in
    ([SChallenge fresh], s, w).

Definition handle_challenge_response (cb : Callbacks) inp (connection_id : string)
    (signature : list byte) s w : list ServerMessage * HttpApiServer * W :=
  match take_challenge (in_now inp) connection_id s with
  | (None, s) => ([rejected "No challenge outstanding"], s, w)
  | (Some challenge, s) =>
      match verify_pop_signature (announced_key challenge) (nonce challenge) signature with
      | Err _ => ([rejected "Proof of possession failed"], s, w)
      | Ok _ => complete_enrollment cb inp (announced_key challenge) connection_id s w
      end
  end.

Definition handle_application_status inp (device_id : option string) (app_id : string)
    (error : option string) (metrics : option ApplicationMetrics) w : W :=
  match device_id with
  | None => w
  | Some device_id =>
      match app_get w app_id with
      | Err _ => w
      | Ok app =>
          let dev_phase := match error with Some _ => DaFailed | None => DaRunning end in
          let metrics_opt :=
            match metrics with
            | Some m => Some (mkCrdMetrics (Some (memory_usage m)) (Some (f32_to_f64 (cpu_usage m)))
                                (Some (uptime m)) (Some (function_calls m)))
            | None => None
            end in
          let dev_status :=
            mkDeviceApplicationStatus dev_phase (Some (in_rfc3339 inp)) metrics_opt error 0 in
          (app_update_apply (app_set_device_status device_id dev_status app_update_default) w app
             (in_rfc3339 inp)).2
      end
  end.

(** [ApplicationDeployAck] and [ApplicationStopAck] differ in the phases of
    success only. *)
Definition handle_ack inp (device_id : option string) (app_id : string) (success : bool)
    (error : option string) (phase_ok : ApplicationPhase) (dev_phase_ok : DeviceApplicationPhase) w : W :=
  let '(phase, dev_phase, err_msg) :=
    if success then (phase_ok, dev_phase_ok, None) else (ApFailed, DaFailed, error) in
  match app_get w app_id with
  | Ok app =>
      let update := app_set_error err_msg (app_set_phase phase app_update_default) in
      let update :=
        match device_id with
        | Some did =>
            app_set_device_status did
              (mkDeviceApplicationStatus dev_phase (Some (in_rfc3339 inp)) None err_msg 0) update
        | None => update
        end in
      (app_update_apply update w app (in_rfc3339 inp)).2
  | Err _ => (update_application_status inp app_id phase error w).2
  end.

Definition handle_device_info (device_id : option string) (mem : Z) (arch : string)
    (feats : list string) (size : Z) s : HttpApiServer :=
  match device_id with
  | Some id => update_device_capabilities id (mkDeviceCapabilities mem arch feats size) s
  | None => s
  end.

(** [Callbacks::on_message]; [None] is a frame that did not decode. *)
Definition on_message (cb : Callbacks) inp (tls_key : list byte) (connection_id : string)
    (message : option ClientMessage) s w : list ServerMessage * HttpApiServer * W :=
  let resolved := resolve_device_id connection_id (std_encode tls_key) s in
  match message with
  | Some CHeartbeat => handle_heartbeat cb inp resolved s w
  | Some CEnrollmentRequest => ([SEnrollmentAccepted], s, w)
  | Some (CPublicKey key) => handle_public_key cb inp tls_key connection_id key s w
  | Some (CChallengeResponse signature) => handle_challenge_response cb inp connection_id signature s w
  | Some CEnrollmentAcknowledgment => ([SEnrollmentCompleted], s, w)
  | Some (CApplicationStatus app_id _ error metrics) =>
      ([], s, handle_application_status inp resolved app_id error metrics w)
  | Some (CApplicationDeployAck app_id success error) =>
      ([], s, handle_ack inp resolved app_id success error ApRunning DaRunning w)
  | Some (CApplicationStopAck app_id success error) =>
      ([], s, handle_ack inp resolved app_id success error ApStopped DaStopped w)
  | Some (CDeviceInfo mem arch feats size) =>
      ([], handle_device_info resolved mem arch feats size s, w)
  | None => ([], s, w)
  end.

(** ** The heartbeat monitor *)

(** [num_seconds] of a chrono duration rounds towards zero. *)
Definition heartbeat_expired (now timeout_secs : Z) (device : Device) : bool :=
  match d_status device with
  | Some st =>
      match ds_last_heartbeat st with
      | Some t => as_i64 timeout_secs <? Z.quot (now - t) (10 ^ 9)
      | None => false
      end
  | None => false
  end.

Fixpoint expire_devices (now timeout_secs : Z) (devices : list Device) w : W :=
  match devices with
  | [] => w
  | device :: devices =>
      let w :=
        if heartbeat_expired now timeout_secs device && bool_decide (current_phase device = Connected)
        then (update_apply (mark_unreachable update_default) w device).2
        else w in
      expire_devices now timeout_secs devices w
  end.

Definition check_heartbeat_timeouts (now timeout_secs : Z) w : result kube_error unit * W :=
  match dev_list w with
  | Err e => (Err e, w)
  | Ok devices => (Ok tt, expire_devices now timeout_secs devices w)
  end.
End Gateway.
