(* ===== verification/HttpApi.v ===== *)
(** * The HTTP handlers of the gateway: [crates/wasmbed-gateway/src/http_api.rs]

    Deployment and stop requests with the task they spawn, device connection
    and creation, and the application views. A handler that polls lets the rest
    of the gateway run in between: [env i] is whatever other tasks do to the
    two states during the [i]-th pause. *)

From S2P Require Import Prelude.
From S2P Require Import RustStd.
From S2P Require Import Externals.
From S2P Require Import Protocol.
From S2P Require Import K8s.
From S2P Require Import Registry.
From S2P Require Import Gateway.

Record DeploymentResponse := mkDeploymentResponse {
  dr_success : bool;
  dr_message : string;
  dr_error : option string;
}.

(** Clock readings of one request. *)
Record DeployClock := mkDeployClock {
  t_register : Z;
  t_application : Z;
  t_bind : Z;
  t_deploying : string;
  t_done : string;
}.

(** What [tokio::spawn] captures for the delivery of a module. *)
Record DeployTask := mkDeployTask {
  dt_device_id : string;
  dt_app_id : string;
  dt_wasm_bytes : list byte;
  dt_config : option ApplicationConfig;
}.

Section HttpApi.
Context {W : Type} `{K : Kube W} `{B : Base64} `{H : Sha256}.
(** the rest of the gateway during a pause *)
Variable env : nat -> HttpApiServer * W -> HttpApiServer * W.
(** what a [SendError] and a base64 [DecodeError] display *)
Variable closed : string.
Variable decode_error : string -> string.
Implicit Types (st : HttpApiServer * W).

(** ** Waiting for the registration of the device *)

Definition device_not_registered : DeploymentResponse :=
  mkDeploymentResponse false "Device not registered" (Some "Device not found or not registered"%string).

(** The iterations after the first: [waited = 5 - more]. *)
Fixpoint await_registered (device_id : string) (more : nat) st : result (DeploymentResponse * (HttpApiServer * W)) (HttpApiServer * W) :=
  match device_connections st.1 !! device_id with
  | Some _ => Ok st
  | None =>
      match more with
      | O => Err (device_not_registered, st)
      | S more => await_registered device_id more (env (4 - more) st)
      end
  end.

(** The first iteration registers a Device that Kubernetes calls Connected. *)
Definition auto_register (now : Z) (device_id : string) st : HttpApiServer * W :=
  match dev_get st.2 device_id with
  | Ok device =>
      match d_status device with
      | Some status =>
          if bool_decide (ds_phase status = Connected)
          then (register_device now device_id (public_key (d_spec device)) default_capabilities st.1, st.2)
          else st
      | None => st
      end
  | Err _ => st
  end.

Definition wait_registered (now : Z) (device_id : string) st : result (DeploymentResponse * (HttpApiServer * W)) (HttpApiServer * W) :=
  match device_connections st.1 !! device_id with
  | Some _ => Ok st
  | None => await_registered device_id 4 (env 0 (auto_register now device_id st))
  end.

(** ** Waiting for the TLS connection *)

Definition has_tls (device_id : string) (s : HttpApiServer) : bool :=
  match device_connections s !! device_id with
  | Some c => dc_tls_connected c || bool_decide (is_Some (dc_tls_sender c))
  | None => false
  end.

(** Binding the only pending connection to the device. *)
Definition bind_pending (now : Z) (device_id : string) st : HttpApiServer * W :=
  if has_tls device_id st.1 then st
  else
    match map_to_list (pending_senders st.1) with
    | [(connection_id, _)] =>
        match dev_get st.2 device_id with
        | Ok device =>
            if String.eqb (public_key (d_spec device)) "" then st
            else (activate_device_sender now connection_id device_id (public_key (d_spec device)) st.1, st.2)
        | Err _ => st
        end
    | _ => st
    end.

(** [waited = 30 - more]; the pauses are numbered after those of the
    registration loop. *)
Fixpoint wait_tls (device_id : string) (more : nat) st : result (DeploymentResponse * (HttpApiServer * W)) (HttpApiServer * W) :=
  if has_tls device_id st.1 then Ok st
  else
    match more with
    | O => Err (mkDeploymentResponse false ("Timeout waiting for TLS connection for device " ++ device_id)
                  (Some "Device TLS connection not established within timeout"%string), st)
    | S more => wait_tls device_id more (env (34 - more) st)
    end.

(** [deploy_application]: the response, the states, and the delivery task
    that was spawned. *)
Definition deploy_application (clk : DeployClock) (device_id app_id : string) st :
    DeploymentResponse * (HttpApiServer * W) * option DeployTask :=
  match app_get st.2 app_id with
  | Err e =>
      (mkDeploymentResponse false ("Application " ++ app_id ++ " not found in Kubernetes")
         (Some (kerr_display e)), st, None)
  | Ok application =>
      match wait_registered (t_register clk) device_id st with
      | Err (resp, st) => (resp, st, None)
      | Ok st =>
          match std_decode (a_wasm_bytes (a_spec application)) with
          | None =>
              (mkDeploymentResponse false "Invalid WASM bytes in Application spec"
                 (Some ("Failed to decode base64: " ++ decode_error (a_wasm_bytes (a_spec application)))%string),
               st, None)
          | Some wasm_bytes =>
              let app_config := a_config (a_spec application) in
              let st := (register_application (t_application clk) app_id device_id
                           (a_spec_name (a_spec application)) wasm_bytes app_config st.1, st.2) in
              let st := bind_pending (t_bind clk) device_id st in
              match wait_tls device_id 30 st with
              | Err (resp, st) => (resp, st, None)
              | Ok st =>
                  let update := app_set_device_status device_id (device_app_status DaDeploying None)
                                  (app_set_phase ApDeploying app_update_default) in
                  let w := (app_update_apply update st.2 application (t_deploying clk)).2 in
                  (mkDeploymentResponse true ("Application " ++ app_id ++ " deployment initiated") None,
                   (st.1, w),
                   Some (mkDeployTask device_id app_id wasm_bytes (map_k8s_config_to_protocol <$> app_config)))
              end
          end
      end
  end.

(** Reflecting an outcome into the Application object and the registry. *)
Definition report (now : string) (device_id app_id : string) (phase : ApplicationPhase)
    (dev_phase : DeviceApplicationPhase) (error : option string) st : HttpApiServer * W :=
  let update := app_set_phase phase app_update_default in
  let update := match error with Some e => app_set_error (Some e) update | None => update end in
  let update := app_set_device_status device_id (device_app_status dev_phase error) update in
  let w := match app_get st.2 app_id with
           | Ok app => (app_update_apply update st.2 app now).2
           | Err _ => st.2
           end in
  (Registry.update_application_status app_id dev_phase error st.1, w).

(** The spawned delivery: what was put on a channel, and the states. *)
Definition deploy_task (open : sender -> bool) (now : string) (t : DeployTask) st :
    option (sender * ServerMessage) * (HttpApiServer * W) :=
  match deploy_application_to_device open closed (dt_device_id t) (dt_app_id t) (dt_wasm_bytes t)
          (dt_config t) st.1 with
  | Ok sent => (Some sent, report now (dt_device_id t) (dt_app_id t) ApRunning DaRunning None st)
  | Err e => (None, report now (dt_device_id t) (dt_app_id t) ApFailed DaFailed (Some e) st)
  end.

(** [stop_application] up to the spawn *)
Definition stop_application (now : string) (device_id app_id : string) st :
    DeploymentResponse * (HttpApiServer * W) * bool :=
  match device_connections st.1 !! device_id with
  | None =>
      (mkDeploymentResponse false "Device not connected" (Some "Device not found or not connected"%string),
       st, false)
  | Some _ =>
      let w := match app_get st.2 app_id with
               | Ok app => (app_update_apply (app_set_phase ApStopping app_update_default) st.2 app now).2
               | Err _ => st.2
               end in
      let s := Registry.update_application_status app_id DaStopped None st.1 in
      (mkDeploymentResponse true ("Application " ++ app_id ++ " stop initiated") None, (s, w), true)
  end.

Definition stop_task (open : sender -> bool) (now : string) (device_id app_id : string) st :
    option (sender * ServerMessage) * (HttpApiServer * W) :=
  match stop_application_on_device open closed device_id app_id st.1 with
  | Ok sent => (Some sent, report now device_id app_id ApStopped DaStopped None st)
  | Err e => (None, report now device_id app_id ApFailed DaFailed (Some e) st)
  end.

(** ** Devices *)

(** [connect_device]: HTTP status 404 when Kubernetes does not know it. *)
Definition connect_device (now : Z) (device_id : string) st : result Z unit * HttpApiServer :=
  match dev_get st.2 device_id with
  | Ok device =>
      (Ok tt, register_device now device_id (public_key (d_spec device)) default_capabilities st.1)
  | Err _ => (Err 404, st.1)
  end.

(** The fields of the JSON body that are strings. *)
Record DevicePayload := mkDevicePayload {
  dp_name : option string;
  dp_mcu_type : option string;
  dp_gateway : option string;
}.

(** [create_device]; [generated] is the SubjectPublicKeyInfo of a fresh
    Ed25519 key, or nothing when generation fails, and [uuid8] the first
    eight characters of a v4 UUID. Labels are not modelled. *)
Definition create_device (generated : option (list byte)) (uuid8 : string) (payload : DevicePayload) (w : W) :
    result Z Device * W :=
  let name := default "unknown"%string (dp_name payload) in
  let gateway := default "gateway-1"%string (dp_gateway payload) in
  let key := match generated with
             | Some spki => std_encode spki
             | None => ("device-" ++ name ++ "-" ++ uuid8)%string
             end in
  let spec := mkDeviceSpec key (Some (default "Stm32F746gDisco"%string (dp_mcu_type payload)))
                (if String.eqb gateway "" then None else Some gateway) None None in
  let device := mkDevice (Some name) (Some "wasmbed"%string) spec
                  (Some (mkDeviceStatus Pending None None None false)) in
  match dev_create w device with
  | (Ok d, w) => (Ok d, w)
  | (Err _, w) => (Err 500, w)
  end.

(** ** Application views *)

Definition application_phase_str (p : ApplicationPhase) : string :=
  match p with
  | ApCreating => "Creating" | ApDeploying => "Deploying" | ApRunning => "Running"
  | ApPartiallyRunning => "PartiallyRunning" | ApFailed => "Failed" | ApStopping => "Stopping"
  | ApStopped => "Stopped" | ApDeleting => "Deleting"
  end.

Record AppView := mkAppView {
  av_id : string;
  av_description : string;
  av_status : string;
  av_target_devices : list string;
  av_wasm_bytes_size : Z;
}.

Definition app_view (app : Application) : AppView :=
  mkAppView (default "unknown"%string (a_name app)) (default ""%string (a_description (a_spec app)))
    (match Application_status app with
     | Some s => application_phase_str (as_phase s) | None => "Creating" end)
    (default [] (device_names (a_target_devices (a_spec app))))
    (zlen (str_bytes (a_wasm_bytes (a_spec app)))).

Definition get_application (app_id : string) (w : W) : result Z AppView :=
  match app_get w app_id with Ok app => Ok (app_view app) | Err _ => Err 404 end.

Definition get_applications (w : W) : result Z (list AppView) :=
  match app_list w with Ok apps => Ok (app_view <$> apps) | Err _ => Err 500 end.

(** ** The acknowledged drone commands *)
Definition drone_command_known (command : string) : bool :=
  existsb (String.eqb command) ["arm"; "disarm"; "takeoff"; "land"; "hover"; "emergency"; "setAltitude"]%string.
End HttpApi.
