(* ===== verification/GatewaySteps.v ===== *)
(** * The gateway as a transition system

    [handle_tls_connection] of [crates/wasmbed-tls-utils/src/lib.rs] runs the
    callbacks of one connection in order: connect, then messages one at a time,
    then disconnect; the ready callback runs beside the message loop, at any
    later time, even after the disconnect. Connections interleave, the
    heartbeat monitor and the HTTP API run in between, and Kubernetes may
    change under the gateway at any time. Each callback is one step; a request
    of the HTTP API is several, one for each change it makes to the registry
    between two of its pauses.

    The state keeps, beside the two states of the gateway, the sessions that
    are open with everything that was exchanged on them, so that theorems can
    speak about the past of a connection. *)

From S2P Require Import Prelude.
From S2P Require Import RustStd.
From S2P Require Import Externals.
From S2P Require Import Protocol.
From S2P Require Import K8s.
From S2P Require Import Registry.
From S2P Require Import RegistryProofs.
From S2P Require Import Gateway.
From S2P Require Import HttpApi.

(** One exchange: when, what was received, and the replies handed to the
    channel of the connection (a full channel drops a reply). *)
Record exchange := mkExchange {
  x_time : Z;
  x_message : option ClientMessage;
  x_replies : list ServerMessage;
}.

(** An open connection: the key of its TLS certificate (empty when anonymous)
    and its exchanges, oldest first. *)
Record session := mkSession {
  ss_key : list byte;
  ss_log : list exchange;
}.

(** [g_unready] holds the ready callbacks still to run, [g_forced] the
    connections that a deployment request bound to its device. *)
Record gstate (W : Type) := mkGstate {
  g_srv : HttpApiServer;
  g_kube : W;
  g_live : gmap string session;
  g_unready : list (string * list byte * sender);
  g_forced : gset string;
}.
Arguments mkGstate {W}.
Arguments g_srv {W}.
Arguments g_kube {W}.
Arguments g_live {W}.
Arguments g_unready {W}.
Arguments g_forced {W}.

(** The requests of the HTTP API that bind no connection. *)
Definition admin_op (op : registry_op) : bool :=
  match op with
  | RegisterDevice _ _ _ _ | RegisterApplication _ _ _ _ _ _ | UpdateApplicationStatus _ _ _
  | BoardRegister _ _ _ _ _ | BoardUnregister _ | SetPairingMode _ | SetPairingTimeout _
  | SetHeartbeatTimeout _ => true
  | _ => false
  end.

(** The connections whose binding differs between two states. *)
Definition newly_bound (s s' : HttpApiServer) : gset string :=
  filter (fun c => connection_to_device s' !! c <> connection_to_device s !! c)
    (dom (connection_to_device s')).

Section Steps.
Context {W : Type} `{K : Kube W} `{B : Base64} `{E : Ecdsa} `{U : UuidParse}.
Variable cb : Callbacks.

Inductive step : gstate W -> gstate W -> Prop :=
| step_accept inp c key snd s w live rdy fc s' w' :
    live !! c = None ->
    on_connect cb inp key s w = (Authorized, s', w') ->
    step (mkGstate s w live rdy fc)
         (mkGstate s' w' (<[c := mkSession key []]> live) ((c, key, snd) :: rdy) fc)
| step_refuse inp key s w live rdy fc s' w' :
    on_connect cb inp key s w = (Unauthorized, s', w') ->
    step (mkGstate s w live rdy fc) (mkGstate s' w' live rdy fc)
| step_ready inp c key snd rdy1 rdy2 s w live fc :
    step (mkGstate s w live (rdy1 ++ (c, key, snd) :: rdy2) fc)
         (mkGstate (on_connection_ready inp key c snd s) w live (rdy1 ++ rdy2) fc)
| step_message inp c ss m s w live rdy fc rs s' w' :
    live !! c = Some ss ->
    on_message cb inp (ss_key ss) c m s w = (rs, s', w') ->
    step (mkGstate s w live rdy fc)
         (mkGstate s' w'
            (<[c := mkSession (ss_key ss) (ss_log ss ++ [mkExchange (in_now inp) m rs])]> live) rdy fc)
| step_disconnect c ss s w live rdy fc s' w' :
    live !! c = Some ss ->
    on_disconnect (ss_key ss) c s w = (s', w') ->
    step (mkGstate s w live rdy fc) (mkGstate s' w' (delete c live) rdy (fc ∖ {[c]}))
| step_monitor now timeout s w live rdy fc :
    step (mkGstate s w live rdy fc)
         (mkGstate s (check_heartbeat_timeouts now timeout w).2 live rdy fc)
| step_admin op s w live rdy fc :
    admin_op op = true ->
    step (mkGstate s w live rdy fc) (mkGstate (apply_op op s) w live rdy fc)
| step_deploy now id s w live rdy fc s' w' :
    bind_pending now id (s, w) = (s', w') ->
    step (mkGstate s w live rdy fc) (mkGstate s' w' live rdy (fc ∪ newly_bound s s'))
| step_kubernetes s w w' live rdy fc :
    step (mkGstate s w live rdy fc) (mkGstate s w' live rdy fc).

Inductive reachable (w0 : W) : gstate W -> Prop :=
| reach_init : reachable w0 (mkGstate HttpApiServer_new w0 ∅ [] ∅)
| reach_step g g' : reachable w0 g -> step g g' -> reachable w0 g'.

(** ** What one message does to the two maps that carry identity *)

(** The TLS layer vouches for the announced key, or client authentication is
    off and the connection is anonymous. *)
Definition key_bound (tls_key key : list byte) : Prop :=
  match tls_key with [] => require_client_auth cb = false | _ :: _ => tls_key = key end.

(** An exchange that neither issues nor consumes a challenge. *)
Definition quiet (x : exchange) : Prop :=
  (forall n, SChallenge n ∉ x_replies x) /\ (forall sig, x_message x <> Some (CChallengeResponse sig)).

Lemma register_device_challenges now id pk caps s :
  pending_challenges (register_device now id pk caps s) = pending_challenges s.
Proof. unfold register_device. by case_match. Qed.

Lemma activate_challenges now c d pk s :
  pending_challenges (activate_device_sender now c d pk s) = pending_challenges s.
Proof. unfold activate_device_sender. by case_match. Qed.

Lemma take_challenge_bindings now c s :
  connection_to_device (take_challenge now c s).2 = connection_to_device s.
Proof. unfold take_challenge. by repeat case_match. Qed.

(** Enrollment either binds the connection it was asked on and answers with
    the UUID, or rejects and leaves both maps alone. *)
Lemma complete_enrollment_cases inp key c s w rs s' w' :
  complete_enrollment cb inp key c s w = (rs, s', w') ->
  pending_challenges s' = pending_challenges s /\
  ((exists d u, connection_to_device s' = <[c := d]> (connection_to_device s) /\ rs = [SDeviceUuid u]) \/
   (connection_to_device s' = connection_to_device s /\ exists reason, rs = [rejected reason])).
Proof.
  unfold complete_enrollment. intros H. split_branches.
  all: rewrite ?activate_challenges, ?register_device_challenges; split; [done|].
  all: rewrite ?activate_bindings, ?register_device_bindings; eauto 8.
Qed.

Lemma on_message_frame inp key c m s w rs s' w' c' :
  on_message cb inp key c m s w = (rs, s', w') -> c' <> c ->
  pending_challenges s' !! c' = pending_challenges s !! c' /\
  connection_to_device s' !! c' = connection_to_device s !! c'.
Proof.
  intros H Hne. destruct m as [[]|]; simpl in H;
    try (unfold handle_heartbeat, handle_public_key in H; simplify_eq/=; split_branches;
         rewrite ?lookup_insert_ne by done; done).
  - unfold handle_challenge_response in H.
    pose proof (take_challenge_drops (in_now inp) c s) as Hp.
    pose proof (take_challenge_bindings (in_now inp) c s) as Hb.
    destruct (take_challenge (in_now inp) c s) as [[ch|] s1]; simpl in Hp, Hb; simplify_eq.
    + case_match; simplify_eq; [|rewrite Hp, Hb; by rewrite lookup_delete_ne].
      apply complete_enrollment_cases in H as [-> [(d & u & -> & _)|(-> & _)]];
        rewrite Hp, ?Hb, lookup_delete_ne, ?lookup_insert_ne by done; done.
    + rewrite Hp, Hb. by rewrite lookup_delete_ne.
  - unfold handle_device_info in H. simplify_eq. by case_match.
Qed.

Lemma on_message_challenge inp key c m s w rs s' w' ch :
  on_message cb inp key c m s w = (rs, s', w') ->
  pending_challenges s' !! c = Some ch ->
  (exists k, m = Some (CPublicKey k) /\ rs = [SChallenge (nonce ch)] /\ announced_key ch = k /\
             issued_at ch = in_now inp /\ key_bound key k) \/
  (pending_challenges s !! c = Some ch /\ quiet (mkExchange (in_now inp) m rs)).
Proof.
  intros H Hch. destruct m as [[]|]; simpl in H.
  all: try (right; unfold handle_heartbeat, handle_device_info in H; simplify_eq/=; split_branches;
    (split; [done|]; split; simpl; [set_solver|done])).
  - (* CPublicKey *)
    unfold handle_public_key in H.
    destruct (require_client_auth cb && _) eqn:H1; [right|destruct (negb _ && _) eqn:H2; [right|left]];
      simplify_eq/=; try (split; [done|]; split; simpl; [set_solver|done]).
    rewrite lookup_insert_eq in Hch. injection Hch as <-. simpl. eexists; split_and!; try done.
    unfold key_bound. destruct key as [|b key]; simpl in *; [by destruct (require_client_auth cb)|].
    by case_bool_decide.
  - (* CChallengeResponse *)
    exfalso. unfold handle_challenge_response in H.
    pose proof (take_challenge_drops (in_now inp) c s) as Hp.
    destruct (take_challenge (in_now inp) c s) as [[ch'|] s1]; simpl in Hp; simplify_eq.
    + assert (pending_challenges s' = pending_challenges s1) as Hs.
      { case_match; simplify_eq; [|done]. by apply complete_enrollment_cases in H as [-> _]. }
      by rewrite Hs, Hp, lookup_delete_eq in Hch.
    + by rewrite Hp, lookup_delete_eq in Hch.
Qed.

Lemma on_message_binding inp key c m s w rs s' w' d :
  on_message cb inp key c m s w = (rs, s', w') ->
  connection_to_device s' !! c = Some d ->
  connection_to_device s !! c = Some d \/
  exists sig ch u, m = Some (CChallengeResponse sig) /\ pending_challenges s !! c = Some ch /\
    in_now inp - issued_at ch <= CHALLENGE_TTL /\
    verify_pop_signature (announced_key ch) (nonce ch) sig = Ok tt /\ rs = [SDeviceUuid u].
Proof.
  intros H Hd. destruct m as [[]|]; simpl in H;
    try (left; unfold handle_heartbeat, handle_public_key, handle_device_info in H;
         simplify_eq/=; split_branches; done).
  unfold handle_challenge_response in H.
  pose proof (take_challenge_bindings (in_now inp) c s) as Hb.
  destruct (pending_challenges s !! c) as [ch|] eqn:Ech.
  - pose proof (take_challenge_of (in_now inp) c s ch Ech) as Ht.
    destruct (take_challenge (in_now inp) c s) as [r s1]. simpl in Hb, Ht.
    destruct (Z.ltb_spec CHALLENGE_TTL (in_now inp - issued_at ch)); subst r; simplify_eq.
    + left. by rewrite <- Hb.
    + destruct (verify_pop_signature _ _ _) as [[]|] eqn:V; simplify_eq; [|left; by rewrite <- Hb].
      apply complete_enrollment_cases in H as [_ [(d' & u & Hs & ->)|(Hs & _)]].
      * right. by exists signature, ch, u.
      * left. by rewrite <- Hb, <- Hs.
  - left. unfold take_challenge in H. rewrite Ech in H. by simplify_eq.
Qed.
End Steps.
