(* ===== verification/GatewayProofs.v ===== *)
(** * Properties of the gateway

    Identity: a connection is bound to a device only after its peer answered a
    fresh challenge with a signature of the announced key. Enrollment,
    reconnection and the heartbeat monitor do to the stored devices what they
    promise. *)

From S2P Require Import Prelude.
From S2P Require Import RustStd.
From S2P Require Import Externals.
From S2P Require Import Base64.
From S2P Require Import Protocol.
From S2P Require Import K8s.
From S2P Require Import KubeStore.
From S2P Require Import K8sProofs.
From S2P Require Import Registry.
From S2P Require Import RegistryProofs.
From S2P Require Import Gateway.
From S2P Require Import HttpApi.
From S2P Require Import GatewaySteps.

(** ** Proof of possession on every reachable state *)

Section Identity.
Context {W : Type} `{K : Kube W} `{B : Base64} `{E : Ecdsa} `{U : UuidParse}.
Variable cb : Callbacks.

Definition challenge_exchange (ch : PendingChallenge) : exchange :=
  mkExchange (issued_at ch) (Some (CPublicKey (announced_key ch))) [SChallenge (nonce ch)].

(** The challenge [ch] was issued on this session and not touched since. *)
Definition outstanding (ss : session) (ch : PendingChallenge) : Prop :=
  exists l1 l2, ss_log ss = l1 ++ challenge_exchange ch :: l2 /\ Forall quiet l2 /\
    key_bound cb (ss_key ss) (announced_key ch).

(** The session contains a challenge, untouched until it was answered in time
    with a signature that verifies under the announced key. *)
Definition proved (ss : session) : Prop :=
  exists l1 l2 l3 ch sig t u,
    ss_log ss = l1 ++ challenge_exchange ch :: l2 ++
                mkExchange t (Some (CChallengeResponse sig)) [SDeviceUuid u] :: l3 /\
    Forall quiet l2 /\ key_bound cb (ss_key ss) (announced_key ch) /\
    t - issued_at ch <= CHALLENGE_TTL /\
    verify_pop_signature (announced_key ch) (nonce ch) sig = Ok tt.

Definition identity_inv (g : gstate W) : Prop :=
  (forall c ch, pending_challenges (g_srv g) !! c = Some ch ->
     exists ss, g_live g !! c = Some ss /\ outstanding ss ch) /\
  (forall c d, connection_to_device (g_srv g) !! c = Some d ->
     (exists ss, g_live g !! c = Some ss /\ proved ss) \/ c ∈ g_forced g).

Lemma outstanding_extend ss ch x :
  outstanding ss ch -> quiet x -> outstanding (mkSession (ss_key ss) (ss_log ss ++ [x])) ch.
Proof.
  intros (l1 & l2 & Hl & Hq & Hk) Hx. exists l1, (l2 ++ [x]). simpl. split_and!; [|by apply Forall_app_2; [|constructor]|done].
  by rewrite Hl, <- app_assoc.
Qed.

Lemma proved_extend ss x : proved ss -> proved (mkSession (ss_key ss) (ss_log ss ++ [x])).
Proof.
  intros (l1 & l2 & l3 & ch & sig & t & u & Hl & H). exists l1, l2, (l3 ++ [x]), ch, sig, t, u.
  split; [|done]. simpl. rewrite Hl. by rewrite <- !app_assoc, app_comm_cons, <- app_assoc.
Qed.

(** The maps that carry identity are untouched by everything but messages
    and disconnects. *)
Definition same_identity (s s' : HttpApiServer) : Prop :=
  pending_challenges s' = pending_challenges s /\ connection_to_device s' = connection_to_device s.

Lemma on_connect_identity inp key s w r s' w' :
  on_connect cb inp key s w = (r, s', w') -> same_identity s s'.
Proof.
  unfold on_connect, same_identity. intros H. split_branches;
    rewrite ?register_device_challenges, ?register_device_bindings; done.
Qed.

Lemma on_ready_identity inp key c snd s : same_identity s (on_connection_ready inp key c snd s).
Proof. unfold on_connection_ready, set_device_tls_sender. by repeat case_match. Qed.

Lemma identity_frame s s' w w' live rdy rdy' fc :
  same_identity s s' -> identity_inv (mkGstate s w live rdy fc) -> identity_inv (mkGstate s' w' live rdy' fc).
Proof. intros [H1 H2] [Hc Hb]. split; simpl in *; [rewrite H1|rewrite H2]; done. Qed.

Lemma admin_identity op s : admin_op op = true -> same_identity s (apply_op op s).
Proof.
  intros Ha. unfold same_identity. destruct op; try done; simpl.
  - by rewrite register_device_challenges, register_device_bindings.
  - unfold board_unregister. by case_match.
Qed.

Lemma identity_accept s w live rdy fc c key :
  identity_inv (mkGstate s w live rdy fc) -> live !! c = None ->
  identity_inv (mkGstate s w (<[c := mkSession key []]> live) rdy fc).
Proof.
  intros [Hc Hb] Hn. split; simpl in *.
  - intros c' ch (ss & Hss & Ho)%Hc. exists ss. split; [|done]. by rewrite lookup_insert_ne by congruence.
  - intros c' d [(ss & Hss & Ho)|?]%Hb; [left|by right]. exists ss. split; [|done].
    by rewrite lookup_insert_ne by congruence.
Qed.

Lemma identity_message inp c ss m s w live rdy fc rs s' w' :
  identity_inv (mkGstate s w live rdy fc) -> live !! c = Some ss ->
  on_message cb inp (ss_key ss) c m s w = (rs, s', w') ->
  identity_inv (mkGstate s' w'
    (<[c := mkSession (ss_key ss) (ss_log ss ++ [mkExchange (in_now inp) m rs])]> live) rdy fc).
Proof.
  intros [Hc Hb] Hss Hm. split; simpl in *; intros c' r Hr;
    (destruct (decide (c' = c)) as [->|Hne];
     [rewrite lookup_insert_eq|destruct (on_message_frame cb _ _ _ _ _ _ _ _ _ c' Hm Hne) as [F1 F2];
                               rewrite lookup_insert_ne by done]).
  - eexists. split; [done|].
    destruct (on_message_challenge cb _ _ _ _ _ _ _ _ _ _ Hm Hr) as [(k & -> & -> & <- & Ht & Hk)|[Hold Hq]].
    + exists (ss_log ss), []. simpl. split_and!; [|constructor|done]. unfold challenge_exchange. by rewrite Ht.
    + apply Hc in Hold as (ss' & Hss' & Ho). simplify_eq. by apply outstanding_extend.
  - rewrite F1 in Hr. eauto.
  - destruct (on_message_binding cb _ _ _ _ _ _ _ _ _ _ Hm Hr) as [Hold|(sig & ch & u & -> & Hch & Ht & Hv & ->)].
    + apply Hb in Hold as [(ss' & Hss' & Ho)|?]; [left|by right]. simplify_eq.
      eexists. split; [done|]. by apply proved_extend.
    + left. eexists. split; [done|].
      apply Hc in Hch as (ss' & Hss' & l1 & l2 & Hl & Hq & Hk). simplify_eq.
      exists l1, l2, [], ch, sig, (in_now inp), u. split_and!; try done.
      simpl. by rewrite Hl, <- app_assoc.
  - rewrite F2 in Hr. eauto.
Qed.

Lemma identity_disconnect c ss s w live rdy fc s' w' :
  identity_inv (mkGstate s w live rdy fc) -> live !! c = Some ss ->
  on_disconnect (ss_key ss) c s w = (s', w') ->
  identity_inv (mkGstate s' w' (delete c live) rdy (fc ∖ {[c]})).
Proof.
  intros [Hc Hb] Hss Hd.
  assert (s' = remove_connection c s) as ->.
  { unfold on_disconnect in Hd. split_branches. }
  assert (pending_challenges (remove_connection c s) = delete c (pending_challenges s) /\
          connection_to_device (remove_connection c s) = delete c (connection_to_device s)) as [H1 H2].
  { unfold remove_connection. simpl. by case_match. }
  split; simpl in *; intros c' r; rewrite ?H1, ?H2; (destruct (decide (c' = c)) as [->|Hne];
    [by rewrite lookup_delete_eq|rewrite !lookup_delete_ne by done]); [by eauto|].
  intros [?|?]%Hb; [by left|right; set_solver].
Qed.

Lemma bind_pending_challenges now id s w s' w' :
  bind_pending now id (s, w) = (s', w') -> pending_challenges s' = pending_challenges s.
Proof. unfold bind_pending. intros H. split_branches; simpl; by rewrite ?activate_challenges. Qed.

Lemma identity_deploy now id s w live rdy fc s' w' :
  identity_inv (mkGstate s w live rdy fc) -> bind_pending now id (s, w) = (s', w') ->
  identity_inv (mkGstate s' w' live rdy (fc ∪ newly_bound s s')).
Proof.
  intros [Hc Hb] Hd. split; simpl in *.
  - rewrite (bind_pending_challenges _ _ _ _ _ _ Hd). exact Hc.
  - intros c d Hcd. destruct (decide (connection_to_device s' !! c = connection_to_device s !! c)) as [He|Hne].
    + rewrite He in Hcd. apply Hb in Hcd as [?|?]; [by left|right; set_solver].
    + right. apply elem_of_union_r, elem_of_filter. split; [done|]. by apply elem_of_dom_2 in Hcd.
Qed.

Lemma identity_step g g' : step cb g g' -> identity_inv g -> identity_inv g'.
Proof.
  destruct 1; intros HI; eauto using identity_message, identity_disconnect, identity_deploy.
  - eapply identity_accept; [|done]. eapply identity_frame; [by eapply on_connect_identity|done].
  - eapply identity_frame; [by eapply on_connect_identity|done].
  - eapply identity_frame; [apply on_ready_identity|done].
  - eapply identity_frame; [by apply admin_identity|exact HI].
Qed.

Lemma identity_reachable w0 g : reachable cb w0 g -> identity_inv g.
Proof.
  induction 1; [|by eapply identity_step].
  split; simpl; intros ? ?; by rewrite lookup_empty.
Qed.

(** C1: in every state the gateway can reach, a connection that is bound to a
    device and was not bound by a deployment request is open, and on it a
    challenge was issued for some announced key and then, before anything else
    touched the challenge and within its 30 seconds, answered with a signature
    over that nonce and key that verifies under the key; the key is the one of
    the TLS certificate, or the connection is anonymous and client
    certificates are not required. *)
Theorem binding_needs_possession w0 g c d :
  reachable cb w0 g -> connection_to_device (g_srv g) !! c = Some d -> c ∉ g_forced g ->
  exists ss, g_live g !! c = Some ss /\ proved ss.
Proof. intros Hr Hd Hf. apply identity_reachable in Hr as [_ Hb]. by destruct (Hb _ _ Hd). Qed.

(** The ready callback runs beside the message loop, so a connection that
    closes early leaves its sender behind: from every reachable state in
    which a peer would be accepted on an unused connection, the gateway can
    reach a state where that connection is closed, has no callback left to
    run, and yet has an entry among the pending senders. *)
Theorem late_ready_leaves_sender w0 inp key c snd s w live rdy fc s' w' :
  reachable cb w0 (mkGstate s w live rdy fc) -> live !! c = None ->
  on_connect cb inp key s w = (Authorized, s', w') ->
  exists g, reachable cb w0 g /\ g_live g !! c = None /\ g_unready g = rdy /\
    pending_senders (g_srv g) !! c = Some snd.
Proof.
  intros Hr Hc Ha.
  pose proof (reach_step _ _ _ _ Hr (step_accept cb inp c key snd s w live rdy fc s' w' Hc Ha)) as H1.
  destruct (on_disconnect key c s' w') as [s2 w2] eqn:Ed.
  pose proof (reach_step _ _ _ _ H1 (step_disconnect cb c (mkSession key []) s' w'
    (<[c := mkSession key []]> live) ((c, key, snd) :: rdy) fc s2 w2 (lookup_insert_eq _ _ _) Ed)) as H2.
  pose proof (reach_step _ _ _ _ H2 (step_ready cb inp c key snd [] rdy s2 w2 _ _)) as H3.
  eexists. split; [exact H3|]. simpl. split_and!; [apply lookup_delete_eq|done|].
  unfold on_connection_ready, set_device_tls_sender.
  repeat case_match; simpl; apply lookup_insert_eq.
Qed.
End Identity.

(** A device with a certificate proves possession and is bound. *)
Definition demo_key : list byte := replicate 26 Byte.x30 ++ replicate 65 Byte.x04.
Definition demo_cb : Callbacks := mkCallbacks true (GatewayReference_new "wasmbed" "gateway-1").
Definition demo_uuid : list byte := replicate 16 Byte.x0a.
Definition demo_name : string := "device-0a0a0a0a0a0a0a0a0a0a0a0a0a0a0a0a".
Definition demo_cluster : cluster :=
  mkCluster (<[demo_name := sample_device demo_name (url_encode demo_key) None]> ∅) ∅.
Definition demo_inputs (now : Z) : Inputs := mkInputs now "now" (replicate 32 Byte.x55) demo_uuid.
Definition demo_signature : list byte :=
  replicate 65 Byte.x04 ++ pop_transcript (replicate 32 Byte.x55) demo_key.

Lemma binding_needs_possession_witness :
  exists g ss, reachable (K := mem_kube) (B := base64) (E := toy_ecdsa) (U := hex_uuid) demo_cb demo_cluster g /\
    connection_to_device (g_srv g) !! "10.0.0.7:4000"%string = Some demo_name /\
    g_live g !! "10.0.0.7:4000"%string = Some ss /\ proved demo_cb ss.
Proof.
  assert (exists g, reachable (K := mem_kube) (B := base64) (E := toy_ecdsa) (U := hex_uuid) demo_cb demo_cluster g /\
    connection_to_device (g_srv g) !! "10.0.0.7:4000"%string = Some demo_name /\ g_forced g = ∅) as (g & Hg & Hc & Hf).
  { eexists. split.
    - eapply reach_step; [eapply reach_step; [eapply reach_step; [eapply reach_step; [apply reach_init|]|]|]|].
      + apply (step_accept demo_cb (demo_inputs 0) "10.0.0.7:4000" demo_key 7); [done|vm_compute; reflexivity].
      + apply (step_ready demo_cb (demo_inputs 1) "10.0.0.7:4000" demo_key 7 []).
      + eapply (step_message demo_cb (demo_inputs 2) "10.0.0.7:4000" _ (Some (CPublicKey demo_key)));
          [vm_compute; reflexivity|vm_compute; reflexivity].
      + eapply (step_message demo_cb (demo_inputs 3) "10.0.0.7:4000" _ (Some (CChallengeResponse demo_signature)));
          [vm_compute; reflexivity|vm_compute; reflexivity].
    - split; vm_compute; reflexivity. }
  destruct (binding_needs_possession demo_cb demo_cluster g "10.0.0.7:4000" demo_name Hg Hc) as (ss & H1 & H2);
    [rewrite Hf; apply not_elem_of_empty|].
  by exists g, ss.
Defined.

Lemma late_ready_leaves_sender_witness :
  exists g, reachable (K := mem_kube) (B := base64) (E := toy_ecdsa) (U := hex_uuid) demo_cb demo_cluster g /\
    g_live g !! "10.0.0.7:4000"%string = None /\ g_unready g = [] /\
    pending_senders (g_srv g) !! "10.0.0.7:4000"%string = Some 7.
Proof.
  eapply (late_ready_leaves_sender (K := mem_kube) (B := base64) (E := toy_ecdsa) (U := hex_uuid) demo_cb
    demo_cluster (demo_inputs 0) demo_key "10.0.0.7:4000" 7 HttpApiServer_new demo_cluster ∅ [] ∅);
    [apply reach_init | reflexivity | vm_compute; reflexivity].
Defined.
