(* ===== verification/EnrollmentProofs.v ===== *)
(** * Enrollment and proof of possession

    A signature proves possession for one nonce and one key only; a new device
    is enrolled exactly while pairing is on and is stored under a name that
    encodes its UUID, so that a reconnect returns the UUID of the enrollment. *)

From S2P Require Import Prelude.
From S2P Require Import RustStd.
From S2P Require Import Externals.
From S2P Require Import Base64.
From S2P Require Import Protocol.
From S2P Require Import K8s.
From S2P Require Import KubeStore.
From S2P Require Import K8sProofs.
From S2P Require Import Registry.
From S2P Require Import RegistryProofs.
From S2P Require Import Gateway.
From S2P Require Import GatewaySteps.

(** ** The transcript *)

Lemma pop_transcript_inj n n' k k' :
  length n = length n' -> pop_transcript n k = pop_transcript n' k' -> n = n' /\ k = k'.
Proof.
  unfold pop_transcript. intros Hl H%app_inv_head. by apply app_inj_1 in H.
Qed.

Section Pop.
Context `{E : Ecdsa} `{L : !EcdsaLaws E}.

(** Proof of possession is sound and complete for honest keys: a
    signature a device makes over the transcript of its challenge verifies
    for its own key and nonce, and it verifies for no other nonce of the same
    length and no other announced key that carries the same point. *)
Theorem pop_signature_binds sk n k sig :
  ecdsa_sign sk (pop_transcript n k) = Some sig -> spki_point k = Some (public_point sk) ->
  verify_pop_signature k n sig = Ok tt /\
  forall n' k', length n' = length n -> spki_point k' = Some (public_point sk) ->
    verify_pop_signature k' n' sig = Ok tt -> n' = n /\ k' = k.
Proof.
  intros Hs Hk. unfold verify_pop_signature, ec_point_from_spki. split.
  - rewrite Hk. simpl. by rewrite (sign_verify _ _ _ Hs).
  - intros n' k' Hl Hk' Hv. rewrite Hk' in Hv. simpl in Hv.
    destruct (ecdsa_verify _ _ _) eqn:V; [|done].
    apply (sign_binds _ _ _ _ Hs) in V. by apply pop_transcript_inj in V.
Qed.
End Pop.

Lemma pop_signature_binds_witness :
  let k := replicate 91 Byte.x04 in
  let n := replicate 32 Byte.x11 in
  verify_pop_signature k n (replicate 65 Byte.x04 ++ pop_transcript n k) = Ok tt.
Proof.
  intros k n. apply (pop_signature_binds (E := toy_ecdsa) (replicate 65 Byte.x04) n k);
    vm_compute; reflexivity.
Defined.

(** ** Names and UUIDs *)

Definition device_name (u : DeviceUuid) : string :=
  ("device-" ++ remove_dashes (DeviceUuid_to_string u))%string.

Lemma remove_dashes_uuid bs :
  length bs = 16%nat -> remove_dashes (DeviceUuid_to_string (mkDeviceUuid bs)) = hex_bytes bs.
Proof.
  intros Hl. do 16 (destruct bs as [|? bs]; [done|]). destruct bs; [|done].
  unfold DeviceUuid_to_string, uuid_nth. cbn [uuid_bytes nth].
  rewrite !remove_dashes_app, !remove_dashes_hex2. change (remove_dashes "-") with ""%string.
  reflexivity.
Qed.

Lemma uuid_of_device_name `{U : UuidParse} `{!UuidParseLaws U} bs fresh :
  length bs = 16%nat -> uuid_of_name (device_name (mkDeviceUuid bs)) fresh = mkDeviceUuid bs.
Proof.
  intros Hl. unfold uuid_of_name, device_name.
  by rewrite remove_dashes_uuid, trim_device_hex, parse_uuid_simple by done.
Qed.

(** ** Enrollment *)

Section Enrollment.
Context {W : Type} `{K : Kube W} {view : W -> gmap string Device} `{L : !KubeStoreLaws K view}.
Context `{B : Base64} `{E : Ecdsa} `{U : UuidParse}.
Implicit Types (w : W) (s : HttpApiServer).

(** No stored device has this key. *)
Definition key_unknown (key : list byte) w : Prop :=
  forall n d, view w !! n = Some d -> public_key (d_spec d) <> PublicKey_to_base64 key.

(** A device enrolled under [name] with [key]. *)
Definition is_device (name : string) (key : list byte) (d : Device) : Prop :=
  d_name d = Some name /\ public_key (d_spec d) = PublicKey_to_base64 key.

Lemma update_apply_view u w d r w' n :
  update_apply u w d = (r, w') -> d_name d = Some n ->
  view w' = view w \/ exists d0, view w !! n = Some d0 /\ view w' = <[n := merge_device u d0]> (view w).
Proof.
  unfold update_apply. intros H Hn. rewrite Hn in H. destruct r as [d'|e].
  - apply dev_patch_view in H as (d0 & H1 & -> & H2). right. by exists d0.
  - apply dev_patch_err in H. by left.
Qed.

Lemma create_device_crd_fresh key u gw w name w' :
  key_unknown key w -> create_device_crd key u gw w = (Ok name, w') ->
  name = device_name u /\ view w !! name = None /\
  exists d, is_device name key d /\ view w' = <[name := d]> (view w).
Proof.
  intros Hun. unfold create_device_crd. fold (device_name u).
  destruct (dev_create w _) as [[d|[code msg| |]] w1] eqn:Ec; try done.
  - intros [= <- <-]. apply dev_create_view in Ec as (n & Hn & Hnone & Hd & Hspec & Hv).
    injection Hn as <-. unfold name_any. rewrite Hd. simpl. split_and!; try done.
    exists d. split; [|done]. split; [done|]. by rewrite Hspec.
  - destruct (code =? 409); [|done]. apply dev_create_err in Ec.
    destruct (Device_find w1 key) as [[d|]|] eqn:Ef; try done. intros [= <- <-]. exfalso.
    apply Device_find_some in Ef as [(n & _ & Hn) Hk]. rewrite Ec in Hn. by apply (Hun n d).
Qed.

Lemma create_device_crd_err key u gw w e w' :
  create_device_crd key u gw w = (Err e, w') -> view w' = view w.
Proof.
  unfold create_device_crd. intros H.
  destruct (dev_create w _) as [[d|err] w1] eqn:Ec; [done|]. apply dev_create_err in Ec.
  rewrite <- Ec. split_branches.
Qed.

(** The patch to Enrolled keeps name and key of the device just created. *)
Lemma mark_enrolled_view key name w w' d :
  is_device name key d -> view w !! name = Some d ->
  (forall n d, view w !! n = Some d -> public_key (d_spec d) = PublicKey_to_base64 key -> n = name) ->
  w' = match Device_find w key with
       | Ok (Some device) => (update_apply (mark_enrolled update_default) w device).2
       | _ => w
       end ->
  exists d', is_device name key d' /\ view w' = <[name := d']> (view w).
Proof.
  intros Hd Hv Huniq ->.
  assert (view w = <[name := d]> (view w)) as Hsame by (by rewrite insert_id).
  destruct (Device_find w key) as [[d0|]|] eqn:Ef; [|by exists d..].
  apply Device_find_some in Ef as [(n & Hn0 & Hn) Hk].
  pose proof (Huniq n d0 Hn Hk) as ->. simplify_eq.
  destruct (update_apply _ w d) as [r w1] eqn:Eu. simpl.
  destruct (update_apply_view _ _ _ _ _ name Eu Hn0) as [->|(d1 & H1 & ->)]; [by exists d|].
  simplify_eq. exists (merge_device (mark_enrolled update_default) d). by split.
Qed.

(** What enrolling an unknown key does. *)
Lemma new_enrollment cb inp key c s w rs s' w' :
  Device_find w key = Ok None ->
  complete_enrollment cb inp key c s w = (rs, s', w') ->
  let name := device_name (mkDeviceUuid (in_uuid inp)) in
  (exists reason, rs = [rejected reason] /\ view w' = view w /\ s' = s) \/
  (pairing_mode s = true /\ rs = [SDeviceUuid (mkDeviceUuid (in_uuid inp))] /\
   connection_to_device s' = <[c := name]> (connection_to_device s) /\
   exists d, is_device name key d /\ view w !! name = None /\ view w' = <[name := d]> (view w)).
Proof.
  intros Hf H name. pose proof (Device_find_none w key Hf) as Hun.
  unfold complete_enrollment in H. rewrite Hf in H.
  destruct (pairing_mode s) eqn:Hp; [|left; simplify_eq; eauto].
  destruct (create_device_crd key _ _ w) as [[nm|e] w1] eqn:Ec.
  - right. apply create_device_crd_fresh in Ec as (-> & Hnone & d & Hd & Hv); [|done].
    injection H as <- <- <-. fold name in Hnone, Hd, Hv |- *.
    split_and!; [done..| |].
    { by rewrite activate_bindings, register_device_bindings. }
    edestruct (mark_enrolled_view key name w1) as (d' & Hd' & Hv'); [exact Hd| | |reflexivity|].
    { by rewrite Hv, lookup_insert_eq. }
    { intros n d0. rewrite Hv. destruct (decide (n = name)); [done|].
      rewrite lookup_insert_ne by done. intros Hn Hk. by destruct (Hun n d0 Hn). }
    exists d'. split_and!; [done..|]. rewrite Hv', Hv. apply insert_insert_eq.
  - left. injection H as <- <- <-. eexists. split_and!; [done| |done]. by eapply create_device_crd_err.
Qed.

(** C6: when a peer has proved possession of a key no Device has, it is
    enrolled only while pairing mode is on: then exactly one Device object is
    added, named after the fresh UUID and storing that key, the connection is
    bound to it and the UUID is the answer. In every other case (pairing off,
    API failure) the peer is rejected and neither the registry nor the set of
    devices changes. *)
Theorem new_device_enrollment cb inp key c s w rs s' w' :
  Device_find w key = Ok None ->
  complete_enrollment cb inp key c s w = (rs, s', w') ->
  let name := device_name (mkDeviceUuid (in_uuid inp)) in
  (exists reason, rs = [rejected reason] /\ view w' = view w /\ s' = s) \/
  (pairing_mode s = true /\ rs = [SDeviceUuid (mkDeviceUuid (in_uuid inp))] /\
   connection_to_device s' = <[c := name]> (connection_to_device s) /\
   exists d, is_device name key d /\ view w !! name = None /\ view w' = <[name := d]> (view w)).
Proof. apply new_enrollment. Qed.

(** [name] is the Device that holds [key], and the only one. *)
Definition sole_holder (key : list byte) (name : string) w : Prop :=
  (exists d, view w !! name = Some d /\ public_key (d_spec d) = PublicKey_to_base64 key) /\
  forall n d, view w !! n = Some d -> public_key (d_spec d) = PublicKey_to_base64 key -> n = name.

(** What may happen to the cluster while a device is away: gateways complete
    enrollments, of any key, one after the other; and others create, edit and
    delete Device objects at will, as long as the device's own object keeps
    its specification and no other object is given its key. *)
Inductive later (key : list byte) (name : string) (w : W) : W -> Prop :=
| later_now : later key name w w
| later_enrollment cb inp k c s w' :
    later key name w w' -> later key name w (complete_enrollment cb inp k c s w').2
| later_edit w' w'' :
    later key name w w' ->
    (forall d, view w' !! name = Some d -> exists d', view w'' !! name = Some d' /\ d_spec d' = d_spec d) ->
    (forall n d, view w'' !! n = Some d -> public_key (d_spec d) = PublicKey_to_base64 key -> n = name) ->
    later key name w w''.

Lemma sole_holder_insert_other key name w w' n d :
  sole_holder key name w -> view w !! n = None ->
  public_key (d_spec d) <> PublicKey_to_base64 key -> view w' = <[n := d]> (view w) -> sole_holder key name w'.
Proof.
  intros [(d0 & Hd0 & Hk) Hun] Hn Hne Hv. unfold sole_holder. rewrite Hv. split.
  - exists d0. by rewrite lookup_insert_ne by congruence.
  - intros n' d'. destruct (decide (n = n')) as [<-|]; [rewrite lookup_insert_eq|rewrite lookup_insert_ne by done].
    + intros [= <-] Hk'. done.
    + apply Hun.
Qed.

Lemma sole_holder_insert_same key name w w' n d d' :
  sole_holder key name w -> view w !! n = Some d -> d_spec d' = d_spec d ->
  view w' = <[n := d']> (view w) -> sole_holder key name w'.
Proof.
  intros [(d0 & Hd0 & Hk) Hun] Hn Hs Hv. unfold sole_holder. rewrite Hv. split.
  - destruct (decide (n = name)) as [->|].
    + exists d'. rewrite lookup_insert_eq, Hs. split; [done|]. by simplify_eq.
    + exists d0. by rewrite lookup_insert_ne by done.
  - intros n' d1. destruct (decide (n = n')) as [<-|]; [rewrite lookup_insert_eq|rewrite lookup_insert_ne by done].
    + intros [= <-]. rewrite Hs. by apply Hun.
    + apply Hun.
Qed.

Lemma sole_holder_view key name w w' : view w' = view w -> sole_holder key name w -> sole_holder key name w'.
Proof. unfold sole_holder. by intros ->. Qed.

Lemma update_apply_holder key name u w d :
  sole_holder key name w -> (exists n, d_name d = Some n) -> sole_holder key name (update_apply u w d).2.
Proof.
  intros Hh [n Hn]. destruct (update_apply u w d) as [r w'] eqn:Eu. simpl.
  destruct (update_apply_view _ _ _ _ _ n Eu Hn) as [Hv|(d0 & H0 & Hv)].
  - by eapply sole_holder_view.
  - eapply sole_holder_insert_same; [done|exact H0| |exact Hv]. done.
Qed.

Lemma enrollment_holder cb inp k c s key name w :
  sole_holder key name w -> sole_holder key name (complete_enrollment cb inp k c s w).2.
Proof.
  intros Hh. destruct (Device_find w k) as [[d|]|e] eqn:Ef.
  - unfold complete_enrollment. rewrite Ef. simpl. apply update_apply_holder; [done|].
    apply Device_find_some in Ef as [(n & Hn & _) _]. by exists n.
  - destruct (complete_enrollment cb inp k c s w) as [[rs s'] w'] eqn:Ee.
    pose proof (Device_find_none w k Ef) as Hun. destruct Hh as [(d0 & Hd0 & Hk) Hu]. simpl.
    destruct (new_enrollment _ _ _ _ _ _ _ _ _ Ef Ee) as [(r & _ & Hv & _)|(_ & _ & _ & d1 & [_ Hd1] & Hn & Hv)].
    + eapply sole_holder_view; [exact Hv|]. split; eauto.
    + eapply sole_holder_insert_other; [by split; eauto|exact Hn| |exact Hv].
      rewrite Hd1. intros Heq. apply (Hun _ _ Hd0). congruence.
  - unfold complete_enrollment. by rewrite Ef.
Qed.

Lemma later_holder key name w w' : sole_holder key name w -> later key name w w' -> sole_holder key name w'.
Proof.
  intros Hh. induction 1 as [|cb inp k c s w' _ IH|w' w'' _ IH Hkeep Hun].
  - done.
  - by apply enrollment_holder.
  - split; [|done]. destruct IH as [(d & Hd & Hk) _]. destruct (Hkeep d Hd) as (d' & Hd' & Hs).
    exists d'. by rewrite Hs.
Qed.

(** Enrolling an unknown key makes its new object the sole holder. *)
Lemma new_enrollment_holder cb inp key c s w u s' w' :
  Device_find w key = Ok None -> complete_enrollment cb inp key c s w = ([SDeviceUuid u], s', w') ->
  u = mkDeviceUuid (in_uuid inp) /\ sole_holder key (device_name u) w'.
Proof.
  intros Hf He. pose proof (Device_find_none w key Hf) as Hun.
  destruct (new_enrollment _ _ _ _ _ _ _ _ _ Hf He) as [(r & Hr & _)|(_ & Hu & _ & d1 & [_ Hk] & _ & Hv)]; [done|].
  injection Hu as ->. split; [done|]. unfold sole_holder. rewrite Hv. split.
  - exists d1. by rewrite lookup_insert_eq.
  - intros n d. destruct (decide (n = device_name (mkDeviceUuid (in_uuid inp)))); [done|].
    rewrite lookup_insert_ne by done. intros Hn Hkn. by destruct (Hun n d Hn).
Qed.

Lemma find_sole_holder key name w res :
  sole_holder key name w -> Device_find w key = Ok res -> exists d, res = Some d /\ d_name d = Some name.
Proof.
  intros [(d0 & Hd0 & Hk) Hun] Hf. destruct res as [d|].
  - exists d. split; [done|]. apply Device_find_some in Hf as [(n & Hn & Hv) Hd]. by rewrite Hn, (Hun n d Hv Hd).
  - by destruct (Device_find_none w key Hf name d0).
Qed.

(** C5: a device keeps its identity across connections: the UUID it receives
    when its unknown key is enrolled is the UUID it receives, on any
    connection, whenever it later proves possession of that key and the API
    answers the lookup, and that connection is bound to the Device created at
    the enrollment. In between, any number of enrollments of this key and of
    other keys may have completed one after the other, with pairing mode on
    or off, and Device objects may have been created, edited and deleted by
    others, as long as the device's own object kept its specification and no
    other object was given its key. (Enrollments that overlap in time can
    store a key twice and are the subject of a separate property.) *)
Theorem enroll_then_reconnect `{!UuidParseLaws U} cb inp key c s w u s1 w1 w2 cb2 inp2 c2 s2 res :
  length (in_uuid inp) = 16%nat ->
  Device_find w key = Ok None -> complete_enrollment cb inp key c s w = ([SDeviceUuid u], s1, w1) ->
  later key (device_name u) w1 w2 -> Device_find w2 key = Ok res ->
  let r := complete_enrollment cb2 inp2 key c2 s2 w2 in
  r.1.1 = [SDeviceUuid u] /\ connection_to_device r.1.2 !! c2 = Some (device_name u).
Proof.
  intros Hl Hf He Hlater Hf2. apply new_enrollment_holder in He as [-> Hh]; [|done].
  pose proof (later_holder _ _ _ _ Hh Hlater) as Hh2.
  destruct (find_sole_holder _ _ _ _ Hh2 Hf2) as (d & -> & Hn).
  unfold complete_enrollment. rewrite Hf2. unfold name_any. rewrite Hn. simpl.
  rewrite uuid_of_device_name by done. split; [done|].
  by rewrite activate_bindings, lookup_insert_eq.
Qed.
End Enrollment.

Definition pairing_server : HttpApiServer := set_pairing_mode true HttpApiServer_new.
Definition enroll_key : list byte := replicate 91 Byte.x04.
Definition enroll_inputs (now : Z) : Inputs := mkInputs now "now" (replicate 32 Byte.x55) (replicate 16 Byte.x0a).
Definition enroll_cb : Callbacks := mkCallbacks true (GatewayReference_new "wasmbed" "gateway-1").
Definition empty_cluster : cluster := mkCluster ∅ ∅.
Definition enrolled_cluster : cluster :=
  (complete_enrollment (K := mem_kube) (B := base64) (U := hex_uuid) enroll_cb (enroll_inputs 1) enroll_key "c1"
     pairing_server empty_cluster).2.

Lemma new_device_enrollment_witness :
  let r := complete_enrollment (K := mem_kube) (B := base64) (U := hex_uuid) enroll_cb (enroll_inputs 1)
             enroll_key "c1" pairing_server empty_cluster in
  r.1.1 = [SDeviceUuid (mkDeviceUuid (replicate 16 Byte.x0a))] /\
  exists d, store_view r.2 = <[device_name (mkDeviceUuid (replicate 16 Byte.x0a)) := d]> (store_view empty_cluster).
Proof.
  intros r. split; [vm_compute; reflexivity|].
  destruct (new_device_enrollment (view := store_view) enroll_cb (enroll_inputs 1) enroll_key "c1"
    pairing_server empty_cluster r.1.1 r.1.2 r.2) as [(reason & Hr & _)|(_ & _ & _ & d & _ & _ & Hd)].
  - vm_compute. reflexivity.
  - by apply triple_eta.
  - vm_compute in Hr. discriminate.
  - by exists d.
Defined.

(** Another device enrolls in between. *)
Definition other_key : list byte := replicate 91 Byte.x05.
Definition other_inputs : Inputs := mkInputs 5 "now" (replicate 32 Byte.x55) (replicate 16 Byte.x0b).
Definition two_device_cluster : cluster :=
  (complete_enrollment (K := mem_kube) (B := base64) (U := hex_uuid) enroll_cb other_inputs other_key "c3"
     pairing_server enrolled_cluster).2.

Lemma enroll_then_reconnect_witness :
  size (store_view two_device_cluster) = 2%nat /\
  let r := complete_enrollment (K := mem_kube) (B := base64) (U := hex_uuid) enroll_cb (enroll_inputs 9) enroll_key
             "c2" HttpApiServer_new two_device_cluster in
  r.1.1 = [SDeviceUuid (mkDeviceUuid (replicate 16 Byte.x0a))].
Proof.
  split; [vm_compute; reflexivity|].
  eapply (enroll_then_reconnect (view := store_view) enroll_cb (enroll_inputs 1) enroll_key "c1" pairing_server
    empty_cluster (mkDeviceUuid (replicate 16 Byte.x0a)) _ enrolled_cluster two_device_cluster enroll_cb
    (enroll_inputs 9) "c2" HttpApiServer_new).
  - reflexivity.
  - vm_compute. reflexivity.
  - apply triple_eta. vm_compute. reflexivity.
  - apply later_enrollment, later_now.
  - vm_compute. reflexivity.
Defined.
