(* ===== verification/EnrollmentRace.v ===== *)
(** * Enrollments that overlap

    [complete_enrollment] of [crates/wasmbed-gateway/src/main.rs] waits at
    every request to Kubernetes and at every lock of the registry, and the
    connections of a gateway run concurrently. Here it is the task it really
    is: each step goes up to the next wait, and the steps of several
    connections interleave. A task that runs alone computes
    [Gateway.complete_enrollment]; tasks that overlap keep what the bindings
    promise, but not that a key has one Device object. *)

From S2P Require Import Prelude.
From S2P Require Import RustStd.
From S2P Require Import Externals.
From S2P Require Import Base64.
From S2P Require Import Protocol.
From S2P Require Import K8s.
From S2P Require Import KubeStore.
From S2P Require Import K8sProofs.
From S2P Require Import Registry.
From S2P Require Import RegistryProofs.
From S2P Require Import Gateway.
From S2P Require Import EnrollmentProofs.

(** ** The task *)

(** What the task waits for. *)
Inductive wait :=
| AtFind
| AtReconnectRegister (device : Device)
| AtReconnectActivate (device : Device)
| AtReconnectStatus (device : Device)
| AtPairing
| AtCreate
| AtConflict
| AtRegister (name : string)
| AtActivate (name : string)
| AtLookup
| AtMark (device : Device)
| AtEnd (replies : list ServerMessage).

(** The arguments of the call, and where it is. *)
Record enrollment := mkEnrollment {
  e_inputs : Inputs;
  e_key : list byte;
  e_connection : string;
  e_wait : wait;
}.

Definition e_args (e : enrollment) : Inputs * list byte * string := (e_inputs e, e_key e, e_connection e).

Definition at_wait (e : enrollment) (p : wait) : enrollment :=
  mkEnrollment (e_inputs e) (e_key e) (e_connection e) p.

Definition begin_enrollment (inp : Inputs) (key : list byte) (c : string) : enrollment :=
  mkEnrollment inp key c AtFind.

Section Race.
Context {W : Type} `{K : Kube W} `{B : Base64} `{U : UuidParse}.
Variable cb : Callbacks.
Implicit Types (e : enrollment) (s : HttpApiServer) (w : W).

Definition enrolled_uuid e : DeviceUuid := mkDeviceUuid (in_uuid (e_inputs e)).

Definition create_failed (text : string) : wait := AtEnd [rejected ("Failed to create device: " ++ text)].

(** The object [create_device_crd] sends. *)
Definition new_device e : Device :=
  mkDevice (Some ("device-" ++ remove_dashes (DeviceUuid_to_string (enrolled_uuid e)))%string) (Some "wasmbed"%string)
    (mkDeviceSpec (url_encode (e_key e)) (Some "Stm32F746gDisco"%string) None None None)
    (Some (mkDeviceStatus Pending (Some (gateway_reference cb)) None None false)).

#[local] Arguments new_device : simpl never.

(** From one wait of [complete_enrollment] (with [create_device_crd] inlined)
    to the next. *)
Definition advance e s w : enrollment * HttpApiServer * W :=
  let inp := e_inputs e in
  let key_b64 := std_encode (e_key e) in
  match e_wait e with
  | AtFind =>
      let p := match Device_find w (e_key e) with
               | Ok (Some device) => AtReconnectRegister device
               | Ok None => AtPairing
               | Err _ => AtEnd [rejected "Internal error"]
               end in
      (at_wait e p, s, w)
  | AtReconnectRegister device =>
      (at_wait e (AtReconnectActivate device),
       register_device (in_now inp) (name_any device) key_b64 unknown_capabilities s, w)
  | AtReconnectActivate device =>
      (at_wait e (AtReconnectStatus device),
       activate_device_sender (in_now inp) (e_connection e) (name_any device) key_b64 s, w)
  | AtReconnectStatus device =>
      (at_wait e (AtEnd [SDeviceUuid (uuid_of_name (name_any device) (in_uuid inp))]), s,
       (update_apply (mark_connected (in_now inp) (gateway_reference cb) update_default) w device).2)
  | AtPairing =>
      (at_wait e (if pairing_mode s then AtCreate else AtEnd [rejected "Pairing mode disabled"]), s, w)
  | AtCreate =>
      match dev_create w (new_device e) with
      | (Ok d, w) => (at_wait e (AtRegister (name_any d)), s, w)
      | (Err (KApi code msg), w) =>
          (at_wait e (if code =? 409 then AtConflict else create_failed (kerr_display (KApi code msg))), s, w)
      | (Err err, w) => (at_wait e (create_failed (kerr_display err)), s, w)
      end
  | AtConflict =>
      let p := match Device_find w (e_key e) with
               | Ok (Some d) => AtRegister (name_any d)
               | Ok None => create_failed "Device 409 but could not find existing CRD"
               | Err err => create_failed (kerr_display err)
               end in
      (at_wait e p, s, w)
  | AtRegister name =>
      (at_wait e (AtActivate name), register_device (in_now inp) name key_b64 unknown_capabilities s, w)
  | AtActivate name =>
      (at_wait e AtLookup, activate_device_sender (in_now inp) (e_connection e) name key_b64 s, w)
  | AtLookup =>
      let p := match Device_find w (e_key e) with
               | Ok (Some device) => AtMark device
               | _ => AtEnd [SDeviceUuid (enrolled_uuid e)]
               end in
      (at_wait e p, s, w)
  | AtMark device =>
      (at_wait e (AtEnd [SDeviceUuid (enrolled_uuid e)]), s,
       (update_apply (mark_enrolled update_default) w device).2)
  | AtEnd _ => (e, s, w)
  end.

Fixpoint run_alone (n : nat) e s w : enrollment * HttpApiServer * W :=
  match n with
  | O => (e, s, w)
  | S n => let '(e, s, w) := advance e s w in run_alone n e s w
  end.

(** One of the tasks takes its next step. *)
Definition race_step (r : list enrollment * HttpApiServer * W) (i : nat) : list enrollment * HttpApiServer * W :=
  let '(es, s, w) := r in
  match es !! i with
  | Some e => let '(e, s, w) := advance e s w in (<[i := e]> es, s, w)
  | None => (es, s, w)
  end.

Definition race (schedule : list nat) (es : list enrollment) s w : list enrollment * HttpApiServer * W :=
  foldl race_step (es, s, w) schedule.

(** ** Alone *)

(** The enrollment as a task is the enrollment as a function: a task that
    no other overlaps ends after at most eight waits with the replies, the
    registry and the cluster of [complete_enrollment]. *)
Theorem task_alone_is_complete_enrollment inp key c s w rs s' w' :
  complete_enrollment cb inp key c s w = (rs, s', w') ->
  run_alone 8 (begin_enrollment inp key c) s w = (mkEnrollment inp key c (AtEnd rs), s', w').
Proof.
  unfold complete_enrollment. intros H. simpl. destruct (Device_find w key) as [[d|]|] eqn:Ef; simpl.
  - by injection H as <- <- <-.
  - destruct (pairing_mode s); simpl; [|by injection H as <- <- <-].
    unfold create_device_crd in H. cbv zeta in H. unfold advance at 1. cbn [e_wait at_wait].
    set (nd := new_device (at_wait _ _)).
    change (mkDevice (Some _) _ _ _) with nd in H. clearbody nd.
    destruct (dev_create w nd) as [[d|[code msg|nm|msg]] w1]; simpl; [|destruct (code =? 409); simpl|..].
    1,3,4,5: try (destruct (Device_find w1 key) as [[d1|]|]; simpl); by injection H as <- <- <-.
    destruct (Device_find w1 key) as [[d1|]|e1] eqn:E1; simpl; [|by injection H as <- <- <-..].
    rewrite E1 in *. simpl. by injection H as <- <- <-.
  - by injection H as <- <- <-.
Qed.
End Race.

(** ** Overlapping *)

Section Overlap.
Context {W : Type} `{K : Kube W} {view : W -> gmap string Device} `{L : !KubeStoreLaws K view}.
Context `{B : Base64} `{U : UuidParse}.
Variable cb : Callbacks.
Implicit Types (e : enrollment) (s : HttpApiServer) (w : W) (es : list enrollment).

(** Every stored device is still there under its name and with its
    specification. *)
Definition grows w w' : Prop :=
  forall n d, view w !! n = Some d -> exists d', view w' !! n = Some d' /\ d_name d' = d_name d /\ d_spec d' = d_spec d.

(** A Device object of this name holds the key. *)
Definition stored_with (key : list byte) (n : string) w : Prop := exists d, view w !! n = Some d /\ is_device n key d.

#[local] Instance grows_preorder : PreOrder grows.
Proof.
  split; [by intros w n d H; exists d|]. intros w1 w2 w3 H1 H2 n d Hd.
  destruct (H1 n d Hd) as (d2 & Hd2 & Hn2 & Hs2). destruct (H2 n d2 Hd2) as (d3 & Hd3 & Hn3 & Hs3).
  exists d3. split_and!; congruence.
Qed.

Lemma grows_insert w w' n d :
  view w' = <[n := d]> (view w) ->
  (forall d0, view w !! n = Some d0 -> d_name d = d_name d0 /\ d_spec d = d_spec d0) -> grows w w'.
Proof.
  intros Hv Hd m d0 Hm. rewrite Hv. destruct (decide (m = n)) as [->|].
  - rewrite lookup_insert_eq. exists d. by destruct (Hd d0 Hm).
  - rewrite lookup_insert_ne by done. by exists d0.
Qed.

Lemma update_grows u w d : grows w (update_apply u w d).2.
Proof.
  destruct (update_apply u w d) as [r w1] eqn:Eu. simpl. destruct (d_name d) as [n|] eqn:En.
  - destruct (update_apply_view _ _ _ _ _ n Eu En) as [Hv|(d0 & H0 & Hv)].
    + intros m d1. rewrite Hv. by exists d1.
    + eapply grows_insert; [done|]. intros d1 H1. by simplify_eq.
  - unfold update_apply in Eu. rewrite En in Eu. by injection Eu as _ <-.
Qed.

Lemma stored_grows key n w w' : grows w w' -> stored_with key n w -> stored_with key n w'.
Proof.
  intros Hg (d & Hd & Hn & Hk). destruct (Hg n d Hd) as (d' & Hd' & Hn' & Hs'). exists d'.
  split; [done|]. split; [congruence|]. by rewrite Hs'.
Qed.

Lemma found_stored w key d : Device_find w key = Ok (Some d) -> stored_with key (name_any d) w.
Proof.
  intros [(n & Hn & Hd) Hk]%Device_find_some. exists d. unfold name_any. rewrite Hn. simpl. split; [done|]. by split.
Qed.

Lemma created_stored e w d w' :
  dev_create w (new_device cb e) = (Ok d, w') ->
  name_any d = device_name (enrolled_uuid e) /\ stored_with (e_key e) (name_any d) w' /\ grows w w'.
Proof.
  intros (n & Hn & Hnone & Hd & Hspec & Hv)%dev_create_view. change (Some (device_name (enrolled_uuid e)) = Some n) in Hn.
  apply (inj Some) in Hn. subst n. unfold name_any. rewrite Hd. cbn [default]. split; [done|]. split.
  - exists d. rewrite Hv, lookup_insert_eq. split; [done|]. split; [done|]. by rewrite Hspec.
  - eapply grows_insert; [done|]. intros d0 H0. congruence.
Qed.

(** What a task has learnt stays true. *)
Definition task_ok e w : Prop :=
  match e_wait e with
  | AtReconnectRegister d | AtReconnectActivate d => stored_with (e_key e) (name_any d) w
  | AtRegister n | AtActivate n => stored_with (e_key e) n w
  | _ => True
  end.

Lemma task_grows e w w' : grows w w' -> task_ok e w -> task_ok e w'.
Proof. intros Hg. unfold task_ok. destruct (e_wait e); try done; by apply stored_grows. Qed.

(** A step binds the connection to a device that holds the key, or nothing. *)
Lemma advance_ok e s w e' s' w' :
  task_ok e w -> advance cb e s w = (e', s', w') ->
  task_ok e' w' /\ e_args e' = e_args e /\ grows w w' /\
  (connection_to_device s' = connection_to_device s \/
   exists n, stored_with (e_key e) n w' /\
     connection_to_device s' = <[e_connection e := n]> (connection_to_device s)).
Proof.
  unfold task_ok, advance. intros Ho H. destruct (e_wait e) eqn:Ew.
  6: { destruct (dev_create w (new_device cb e)) as [[d|err] w1] eqn:Ec.
       - injection H as <- <- <-. apply created_stored in Ec as (_ & Hs & Hg). simpl. by split_and!; auto.
       - assert (Hg : grows w w1) by (apply dev_create_err in Ec; intros n d Hd; exists d; by rewrite Ec).
         destruct err as [code msg| |]; injection H as <- <- <-; simpl; [destruct (code =? 409)|..]; simpl; by split_and!; auto. }
  1,6,9: destruct (Device_find w (e_key e)) as [[d|]|] eqn:Ef; injection H as <- <- <-; simpl;
    split_and!; auto; try reflexivity; by apply found_stored.
  all: injection H as <- <- <-; simpl.
  - rewrite register_device_bindings. by split_and!; auto.
  - rewrite activate_bindings. split_and!; auto; [reflexivity|]. right. by eexists.
  - split_and!; auto. apply update_grows.
  - destruct (pairing_mode s); simpl; by split_and!; auto.
  - rewrite register_device_bindings. by split_and!; auto.
  - rewrite activate_bindings. split_and!; auto; [reflexivity|]. right. by eexists.
  - split_and!; auto. apply update_grows.
  - rewrite Ew. by split_and!; auto.
Qed.

(** Bindings that are new since [s0] are of devices that hold the key of the
    task that made them. *)
Definition race_ok s0 es s w : Prop :=
  Forall (fun e => task_ok e w) es /\
  forall c n, connection_to_device s !! c = Some n ->
    connection_to_device s0 !! c = Some n \/
    exists e, e ∈ es /\ e_connection e = c /\ stored_with (e_key e) n w.

Lemma race_step_ok s0 es s w i es' s' w' :
  race_ok s0 es s w -> race_step cb (es, s, w) i = (es', s', w') ->
  race_ok s0 es' s' w' /\ grows w w' /\ e_args <$> es' = e_args <$> es.
Proof.
  intros [Hall Hb] H. unfold race_step in H. destruct (es !! i) as [e|] eqn:Ei; [|by injection H as <- <- <-].
  destruct (advance cb e s w) as [[e1 s1] w1] eqn:Ea. injection H as <- <- <-.
  pose proof (Forall_lookup_1 _ _ _ _ Hall Ei) as He.
  destruct (advance_ok e s w e1 s1 w1 He Ea) as (He1 & Ha & Hg & Hbind).
  assert (e_key e1 = e_key e /\ e_connection e1 = e_connection e) as [Hk Hc] by (by injection Ha).
  pose proof (lookup_lt_Some _ _ _ Ei) as Hlt. split_and!; [|done|].
  - split.
    + apply Forall_insert; [|done]. eapply Forall_impl; [exact Hall|]. intros e0. by apply task_grows.
    + assert (Hold : forall c n, connection_to_device s !! c = Some n ->
        connection_to_device s0 !! c = Some n \/ exists e0, e0 ∈ <[i := e1]> es /\ e_connection e0 = c /\ stored_with (e_key e0) n w1).
      { intros c n [?|(e0 & He0 & Hc0 & Hs0)]%Hb; [by left|right]. apply list_elem_of_lookup in He0 as [j Hj].
        destruct (decide (j = i)) as [->|].
        - simplify_eq. exists e1. rewrite Hc, Hk. split_and!; [|done|by eapply stored_grows].
          apply list_elem_of_lookup. exists i. by rewrite list_lookup_insert_eq.
        - exists e0. split_and!; [|done|by eapply stored_grows].
          apply list_elem_of_lookup. exists j. by rewrite list_lookup_insert_ne. }
      intros c n. destruct Hbind as [->|(n1 & Hn1 & ->)]; [apply Hold|].
      destruct (decide (c = e_connection e)) as [->|]; [|rewrite lookup_insert_ne by done; apply Hold].
      rewrite lookup_insert_eq. intros [= <-]. right. exists e1. rewrite Hc, Hk. split_and!; [|done|done].
      apply list_elem_of_lookup. exists i. by rewrite list_lookup_insert_eq.
  - rewrite list_fmap_insert, Ha. apply list_insert_id. by rewrite list_lookup_fmap, Ei.
Qed.

Lemma race_keeps s0 schedule es s w :
  race_ok s0 es s w ->
  let '(es', s', w') := race cb schedule es s w in
  race_ok s0 es' s' w' /\ grows w w' /\ e_args <$> es' = e_args <$> es.
Proof.
  unfold race. revert es s w. induction schedule as [|i schedule IH]; intros es s w Ho; cbn [foldl].
  { by split_and!. }
  destruct (race_step cb (es, s, w) i) as [[es1 s1] w1] eqn:E1.
  destruct (race_step_ok _ _ _ _ _ _ _ _ Ho E1) as (Ho1 & Hg1 & Hk1). specialize (IH es1 s1 w1 Ho1).
  destruct (foldl (race_step cb) (es1, s1, w1) schedule) as [[es2 s2] w2].
  destruct IH as (? & ? & Hk2). split_and!; [done|by etrans|by rewrite Hk2].
Qed.

(** C17: however the enrollments of several connections overlap, every Device
    object that was there is still there under its name and with its
    specification, its key included; and a connection that becomes bound is
    bound to a Device object that holds the very key whose possession the peer
    of that connection proved: the key one of the connection's own enrollments
    was started with. (The tasks start where the proof of possession has
    succeeded; a connection may start more than one.) *)
Theorem overlapping_enrollments_bind_own_key schedule starts s w es' s' w' :
  race cb schedule ((fun '(inp, key, c) => begin_enrollment inp key c) <$> starts) s w = (es', s', w') ->
  grows w w' /\
  forall c n, connection_to_device s' !! c = Some n ->
    connection_to_device s !! c = Some n \/
    exists inp key, (inp, key, c) ∈ starts /\ stored_with key n w'.
Proof.
  set (es := _ <$> starts). intros H. assert (Ho : race_ok s es s w).
  { split; [|auto]. apply Forall_fmap, Forall_true. by intros [[? ?] ?]. }
  pose proof (race_keeps s schedule es s w Ho) as Hr. rewrite H in Hr. destruct Hr as ([_ Hb] & Hg & Hk).
  split; [done|]. intros c n Hn. destruct (Hb c n Hn) as [?|(e & He & <- & Hs)]; [by left|right].
  exists (e_inputs e), (e_key e). split; [|done].
  assert (e_args <$> es = starts) as Hst.
  { unfold es. rewrite <- list_fmap_compose. rewrite <- (list_fmap_id starts) at 2.
    apply list_fmap_ext. by intros ? [[? ?] ?]. }
  rewrite <- Hst, <- Hk. by apply (list_elem_of_fmap_2 e_args).
Qed.

(** ** Two enrollments of one key *)

Lemma race_repeat n i es e s w :
  es !! i = Some e ->
  race cb (replicate n i) es s w = let '(e', s', w') := run_alone cb n e s w in (<[i := e']> es, s', w').
Proof.
  unfold race. revert es e s w. induction n as [|n IH]; intros es e s w He; cbn [replicate foldl run_alone].
  { by rewrite list_insert_id. }
  unfold race_step at 2. rewrite He. destruct (advance cb e s w) as [[e1 s1] w1].
  pose proof (lookup_lt_Some _ _ _ He). rewrite (IH _ e1) by (by apply list_lookup_insert_eq).
  destruct (run_alone cb n e1 s1 w1) as [[e2 s2] w2]. by rewrite list_insert_insert_eq.
Qed.

Lemma race_app l1 l2 es s w :
  race cb (l1 ++ l2) es s w = let '(es, s, w) := race cb l1 es s w in race cb l2 es s w.
Proof. unfold race. rewrite foldl_app. by destruct (foldl _ _ l1) as [[? ?] ?]. Qed.

(** From the creation of the object to the end of the task. *)
Lemma finish_task e n s w :
  exists w', grows w w' /\
    run_alone cb 4 (at_wait e (AtRegister n)) s w =
      (at_wait e (AtEnd [SDeviceUuid (enrolled_uuid e)]),
       activate_device_sender (in_now (e_inputs e)) (e_connection e) n (std_encode (e_key e))
         (register_device (in_now (e_inputs e)) n (std_encode (e_key e)) unknown_capabilities s), w').
Proof.
  cbn [run_alone advance e_wait at_wait e_inputs e_key e_connection].
  destruct (Device_find w (e_key e)) as [[d|]|]; [|by exists w..].
  eexists. split; [apply (update_grows (mark_enrolled update_default) w d)|]. reflexivity.
Qed.

(** Kubernetes creates an object whose name is free. *)
Definition creates_succeed : Prop :=
  forall w d n, d_name d = Some n -> view w !! n = None -> exists d' w', dev_create w d = (Ok d', w').

(** A task whose creation comes when its name is free. *)
Lemma create_step e s w :
  creates_succeed -> view w !! device_name (enrolled_uuid e) = None ->
  exists w', advance cb (at_wait e AtCreate) s w = (at_wait e (AtRegister (device_name (enrolled_uuid e))), s, w') /\
    stored_with (e_key e) (device_name (enrolled_uuid e)) w' /\ grows w w' /\
    (forall n, n <> device_name (enrolled_uuid e) -> view w' !! n = view w !! n).
Proof.
  intros Hcr Hfree. change (new_device cb (at_wait e AtCreate)) with (new_device cb e) in *.
  destruct (Hcr w (new_device cb e) (device_name (enrolled_uuid e)) eq_refl Hfree) as (d & w' & Ec).
  exists w'. pose proof (created_stored e w d w' Ec) as (Hn & Hs & Hg). split_and!; [|by rewrite <- Hn|done|].
  - unfold advance. cbn [e_wait at_wait]. change (new_device cb (at_wait e AtCreate)) with (new_device cb e).
    by rewrite Ec, Hn.
  - apply dev_create_view in Ec as (n & Hd & _ & _ & _ & Hv). change (Some (device_name (enrolled_uuid e)) = Some n) in Hd.
    apply (inj Some) in Hd. subst n. intros m Hm. by rewrite Hv, lookup_insert_ne.
Qed.

Lemma look_up e s w :
  Device_find w (e_key e) = Ok None -> advance cb (at_wait e AtFind) s w = (at_wait e AtPairing, s, w).
Proof. intros Hf. unfold advance. cbn [e_wait at_wait e_key]. by rewrite Hf. Qed.

Lemma pairing_on e s w :
  pairing_mode s = true -> advance cb (at_wait e AtPairing) s w = (at_wait e AtCreate, s, w).
Proof. intros Hp. unfold advance. cbn [e_wait at_wait]. by rewrite Hp. Qed.

Lemma first_steps a b s w a' s' w' :
  advance cb a s w = (a', s', w') -> race_step cb ([a; b], s, w) 0 = ([a'; b], s', w').
Proof. intros H. unfold race_step. simpl. by rewrite H. Qed.

Lemma second_steps a b s w b' s' w' :
  advance cb b s w = (b', s', w') -> race_step cb ([a; b], s, w) 1 = ([a; b'], s', w').
Proof. intros H. unfold race_step. simpl. by rewrite H. Qed.

(** Both look the key up, find pairing mode on and create before either has
    registered; then one runs to its end, and the other. *)
Definition overlap : list nat := [0; 1; 0; 1; 0; 1]%nat ++ replicate 4 0%nat ++ replicate 4 1%nat.

(** C16: the lookup and the creation of a Device object are not one action: two
    connections that enroll with the same new key at the same time (a device
    that reconnects while its first enrollment is still waiting for
    Kubernetes) are both answered with a UUID of their own, two Device objects
    hold the one key, and each connection is bound to its own object. *)
Theorem overlapping_enrollments_duplicate inp1 inp2 key c1 c2 s w :
  let u1 := mkDeviceUuid (in_uuid inp1) in
  let u2 := mkDeviceUuid (in_uuid inp2) in
  creates_succeed -> pairing_mode s = true -> Device_find w key = Ok None -> c1 <> c2 ->
  device_name u1 <> device_name u2 -> view w !! device_name u1 = None -> view w !! device_name u2 = None ->
  exists es' s' w',
    race cb overlap [begin_enrollment inp1 key c1; begin_enrollment inp2 key c2] s w = (es', s', w') /\
    e_wait <$> es' = [AtEnd [SDeviceUuid u1]; AtEnd [SDeviceUuid u2]] /\
    connection_to_device s' !! c1 = Some (device_name u1) /\ connection_to_device s' !! c2 = Some (device_name u2) /\
    stored_with key (device_name u1) w' /\ stored_with key (device_name u2) w'.
Proof.
  intros u1 u2 Hcr Hp Hf Hc Hu Hn1 Hn2. unfold overlap.
  set (e1 := begin_enrollment inp1 key c1). set (e2 := begin_enrollment inp2 key c2).
  destruct (create_step e1 s w Hcr Hn1) as (w1 & A1 & S1 & G1 & O1).
  destruct (create_step e2 s w1 Hcr) as (w2 & A2 & S2 & G2 & _).
  { rewrite O1; [exact Hn2|]. intros Heq. by apply Hu. }
  destruct (finish_task e1 (device_name u1) s w2) as (w3 & G3 & F1).
  destruct (finish_task e2 (device_name u2)
    (activate_device_sender (in_now (e_inputs e1)) (e_connection e1) (device_name u1) (std_encode (e_key e1))
       (register_device (in_now (e_inputs e1)) (device_name u1) (std_encode (e_key e1)) unknown_capabilities s)) w3) as (w4 & G4 & F2).
  rewrite race_app.
  assert (race cb [0; 1; 0; 1; 0; 1]%nat [e1; e2] s w =
    ([at_wait e1 (AtRegister (device_name u1)); at_wait e2 (AtRegister (device_name u2))], s, w2)) as ->.
  { unfold race. cbn [foldl].
    rewrite (first_steps e1 _ _ _ _ _ _ (look_up e1 s w Hf)), (second_steps _ e2 _ _ _ _ _ (look_up e2 s w Hf)).
    rewrite (first_steps _ _ _ _ _ _ _ (pairing_on e1 s w Hp)), (second_steps _ _ _ _ _ _ _ (pairing_on e2 s w Hp)).
    by rewrite (first_steps _ _ _ _ _ _ _ A1), (second_steps _ _ _ _ _ _ _ A2). }
  rewrite race_app, (race_repeat 4 0 _ (at_wait e1 (AtRegister (device_name u1)))), F1 by done. cbn [insert list_insert].
  rewrite (race_repeat 4 1 _ (at_wait e2 (AtRegister (device_name u2)))), F2 by done.
  do 3 eexists. split; [reflexivity|]. split; [reflexivity|].
  rewrite !activate_bindings, register_device_bindings, activate_bindings, register_device_bindings.
  cbn [e_connection e1 e2 begin_enrollment]. rewrite lookup_insert_ne, !lookup_insert_eq by done. split_and!; try done.
  - apply (stored_grows _ _ w1); [by do 3 (etrans; [eassumption|])|exact S1].
  - apply (stored_grows _ _ w2); [by etrans|exact S2].
Qed.
End Overlap.

(** ** Two enrollments in a cluster *)

Definition second_inputs : Inputs := mkInputs 2 "now" (replicate 32 Byte.x55) (replicate 16 Byte.x0b).

Lemma mem_creates_succeed : creates_succeed (K := mem_kube) (view := store_view).
Proof.
  intros w d n Hn Hv. simpl. unfold mem_dev_create. rewrite Hn. rewrite store_view_lookup in Hv.
  destruct (c_devices w !! n); [done|]. by do 2 eexists.
Qed.

Lemma task_alone_is_complete_enrollment_witness :
  run_alone (K := mem_kube) (B := base64) (U := hex_uuid) enroll_cb 8 (begin_enrollment (enroll_inputs 1) enroll_key "c1")
    pairing_server empty_cluster =
    (mkEnrollment (enroll_inputs 1) enroll_key "c1" (AtEnd [SDeviceUuid (mkDeviceUuid (replicate 16 Byte.x0a))]),
     (complete_enrollment (K := mem_kube) (B := base64) (U := hex_uuid) enroll_cb (enroll_inputs 1) enroll_key "c1"
        pairing_server empty_cluster).1.2, enrolled_cluster).
Proof.
  apply (task_alone_is_complete_enrollment (K := mem_kube) (B := base64) (U := hex_uuid) enroll_cb).
  apply triple_eta. vm_compute. reflexivity.
Defined.

Lemma overlapping_enrollments_duplicate_witness :
  exists es' s' w',
    race (K := mem_kube) (B := base64) (U := hex_uuid) enroll_cb overlap
      [begin_enrollment (enroll_inputs 1) enroll_key "c1"; begin_enrollment second_inputs enroll_key "c2"]
      pairing_server empty_cluster = (es', s', w') /\
    stored_with (view := store_view) (B := base64) enroll_key (device_name (mkDeviceUuid (replicate 16 Byte.x0a))) w' /\
    stored_with (view := store_view) (B := base64) enroll_key (device_name (mkDeviceUuid (replicate 16 Byte.x0b))) w'.
Proof.
  destruct (overlapping_enrollments_duplicate (view := store_view) (B := base64) (U := hex_uuid) enroll_cb
    (enroll_inputs 1) second_inputs enroll_key "c1" "c2" pairing_server empty_cluster)
    as (es' & s' & w' & H1 & _ & _ & _ & H2 & H3);
    [apply mem_creates_succeed|reflexivity|vm_compute; reflexivity|by vm_compute|by vm_compute|reflexivity|reflexivity|].
  exists es', s', w'. split; [exact H1|]. split; [exact H2|exact H3].
Defined.

Lemma overlapping_enrollments_bind_own_key_witness :
  let r := race (K := mem_kube) (B := base64) (U := hex_uuid) enroll_cb overlap
             [begin_enrollment (enroll_inputs 1) enroll_key "c1"; begin_enrollment second_inputs other_key "c2"]
             pairing_server empty_cluster in
  connection_to_device r.1.2 !! "c2"%string = Some (device_name (mkDeviceUuid (replicate 16 Byte.x0b))) /\
  stored_with (view := store_view) (B := base64) other_key (device_name (mkDeviceUuid (replicate 16 Byte.x0b))) r.2.
Proof.
  intros r. split; [vm_compute; reflexivity|].
  destruct (overlapping_enrollments_bind_own_key (view := store_view) (B := base64) (U := hex_uuid) enroll_cb overlap
    [(enroll_inputs 1, enroll_key, "c1"%string); (second_inputs, other_key, "c2"%string)]
    pairing_server empty_cluster r.1.1 r.1.2 r.2) as [_ Hb]; [by apply triple_eta|].
  destruct (Hb "c2"%string (device_name (mkDeviceUuid (replicate 16 Byte.x0b)))) as [H|(inp & key & He & Hs)];
    [vm_compute; reflexivity|vm_compute in H; discriminate|].
  apply list_elem_of_In in He. destruct He as [He|[He|[]]]; [by injection He|]. injection He as <- <-. exact Hs.
Defined.
