(* ===== verification/HeartbeatProofs.v ===== *)
(** * Heartbeats and the heartbeat monitor

    The monitor marks exactly the Connected devices whose last heartbeat is too
    old; a heartbeat keeps a device out of its reach and brings an Unreachable
    device back. *)

From S2P Require Import Prelude.
From S2P Require Import RustStd.
From S2P Require Import Externals.
From S2P Require Import Base64.
From S2P Require Import Protocol.
From S2P Require Import K8s.
From S2P Require Import KubeStore.
From S2P Require Import K8sProofs.
From S2P Require Import Registry.
From S2P Require Import Gateway.
From S2P Require Import GatewaySteps.
From S2P Require Import EnrollmentProofs.

Section Monitor.
Context {W : Type} `{K : Kube W} {view : W -> gmap string Device} `{L : !KubeStoreLaws K view}.
Implicit Types (w : W) (d : Device).

(** The API accepts every patch of a stored device. *)
Definition patches_succeed : Prop :=
  forall w n u d, view w !! n = Some d -> is_ok (dev_patch_status w n u).1 = true.

Definition overdue (now timeout : Z) (d : Device) : bool :=
  heartbeat_expired now timeout d && bool_decide (current_phase d = Connected).

Definition unreachable (d : Device) : Device := merge_device (mark_unreachable update_default) d.

(** One device: unchanged, or overdue and marked; marked for sure when the
    API accepts patches. *)
Definition judged (now timeout : Z) (d : Device) (after : option Device) : Prop :=
  (after = Some d /\ (patches_succeed -> overdue now timeout d = false)) \/
  (after = Some (unreachable d) /\ overdue now timeout d = true).

Lemma mark_one now timeout w d n :
  d_name d = Some n -> view w !! n = Some d ->
  let w' := if overdue now timeout d
            then (update_apply (mark_unreachable update_default) w d).2 else w in
  judged now timeout d (view w' !! n) /\ forall n', n' <> n -> view w' !! n' = view w !! n'.
Proof.
  intros Hn Hd w'. unfold w'. destruct (overdue now timeout d) eqn:Ho; [|by split; [left|]].
  unfold update_apply. rewrite Hn. destruct (dev_patch_status w n _) as [[d'|e] w1] eqn:Ep; simpl.
  - apply dev_patch_view in Ep as (d0 & Hd0 & -> & ->). simplify_eq. split.
    + right. by rewrite lookup_insert_eq.
    + intros n' Hne. by rewrite lookup_insert_ne.
  - pose proof (dev_patch_err _ _ _ _ _ Ep) as ->. split; [left|done]. split; [done|].
    intros Hps. specialize (Hps w n (mark_unreachable update_default) d Hd). by rewrite Ep in Hps.
Qed.

Lemma expire_devices_spec now timeout l w :
  NoDup (d_name <$> l) -> (forall d, d ∈ l -> exists n, d_name d = Some n /\ view w !! n = Some d) ->
  (forall d n, d ∈ l -> d_name d = Some n -> judged now timeout d (view (expire_devices now timeout l w) !! n)) /\
  (forall n, (forall d, d ∈ l -> d_name d <> Some n) ->
     view (expire_devices now timeout l w) !! n = view w !! n).
Proof.
  revert w. induction l as [|d0 l IH]; intros w Hnd Hl.
  { split; [intros ? ? []%not_elem_of_nil|done]. }
  rewrite fmap_cons, NoDup_cons in Hnd. destruct Hnd as [Hfresh Hnd].
  assert (forall d, d ∈ l -> d_name d <> d_name d0) as Hne.
  { intros d Hd Heq. apply Hfresh. rewrite <- Heq. by apply list_elem_of_fmap_2. }
  destruct (Hl d0) as (n0 & Hn0 & Hd0); [set_solver|].
  destruct (mark_one now timeout w d0 n0 Hn0 Hd0) as [Hj Hframe].
  cbn [expire_devices]. fold (overdue now timeout d0).
  set (w1 := if overdue now timeout d0 then _ else w) in *.
  destruct (IH w1 Hnd) as [IH1 IH2].
  { intros d Hd. destruct (Hl d) as (n & Hn & Hv); [set_solver|]. exists n. split; [done|].
    rewrite Hframe; [done|]. intros ->. apply (Hne d Hd). congruence. }
  split.
  - intros d n [->|Hd]%elem_of_cons Hn; [|by apply IH1].
    simplify_eq. rewrite IH2; [done|]. intros d Hd. rewrite <- Hn0. by apply Hne.
  - intros n Hn. rewrite IH2 by (intros; apply Hn; set_solver).
    apply Hframe. intros ->. apply (Hn d0); [set_solver|done].
Qed.

Lemma monitor_spec now timeout w w' :
  check_heartbeat_timeouts now timeout w = (Ok tt, w') ->
  (forall n d, view w !! n = Some d -> judged now timeout d (view w' !! n)) /\
  (forall n, view w !! n = None -> view w' !! n = None).
Proof.
  unfold check_heartbeat_timeouts. destruct (dev_list w) as [l|] eqn:El; [|done]. intros [= <-].
  destruct (dev_list_view w l El) as (H1 & H2 & H3).
  destruct (expire_devices_spec now timeout l w H3 H1) as [Hin Hout]. split.
  - intros n d Hd. apply Hin; [by eapply H2|]. by apply (view_named w).
  - intros n Hn. rewrite Hout; [done|]. intros d Hd Hdn.
    destruct (H1 d Hd) as (n' & Hn' & Hv). congruence.
Qed.


Lemma fresh_not_expired now now' timeout d st t :
  d_status d = Some st -> ds_last_heartbeat st = Some t -> t = now ->
  0 <= timeout < 2 ^ 63 -> now' - now < (timeout + 1) * 10 ^ 9 -> heartbeat_expired now' timeout d = false.
Proof.
  intros Hs Ht -> Hr Hlt. unfold heartbeat_expired. rewrite Hs, Ht. apply Z.ltb_ge.
  unfold as_i64. rewrite (proj2 (Z.ltb_lt _ _)) by lia.
  destruct (Z.le_gt_cases 0 (now' - now)).
  - rewrite Z.quot_div_nonneg by lia. apply Zlt_succ_le, Z.div_lt_upper_bound; lia.
  - pose proof (Z.quot_le_mono (now' - now) 0 (10 ^ 9) ltac:(lia) ltac:(lia)) as Hq.
    change (0 ÷ 10 ^ 9) with 0 in Hq. lia.
Qed.

Section Beat.
Context `{B : Base64} `{E : Ecdsa} `{U : UuidParse}.

(** The stored device after a heartbeat at [now]. *)
Definition beaten (cb : Callbacks) (now : Z) (d : Device) : Device :=
  merge_device
    (if bool_decide (current_phase d = Unreachable)
     then set_last_heartbeat (Some now) (mark_connected now (gateway_reference cb) update_default)
     else update_heartbeat_status now update_default) d.

Lemma heartbeat_view cb inp tls_key c s w rs s' w' id d :
  patches_succeed -> resolve_device_id c (std_encode tls_key) s = Some id -> dev_get w id = Ok d ->
  on_message cb inp tls_key c (Some CHeartbeat) s w = (rs, s', w') ->
  rs = [SHeartbeatAck] /\ view w' = <[id := beaten cb (in_now inp) d]> (view w).
Proof.
  intros Hps Hr Hg H. simpl in H. unfold handle_heartbeat in H. rewrite Hr, Hg in H.
  injection H as <- _ <-. split; [done|].
  pose proof (dev_get_view _ _ _ Hg) as Hd. pose proof (view_named _ _ _ Hd) as Hn.
  unfold update_apply. rewrite Hn.
  assert (forall u, view (dev_patch_status w id u).2 = <[id := merge_device u d]> (view w)) as Hp.
  { intros u. specialize (Hps w id u d Hd). destruct (dev_patch_status w id u) as [[d'|] w1] eqn:Ep; [|done].
    apply dev_patch_view in Ep as (d0 & Hd0 & -> & Hv). simplify_eq. exact Hv. }
  rewrite Hp. unfold beaten, current_phase. destruct (d_status d); [|done].
  by case_bool_decide.
Qed.

(** A heartbeat of an identified device is acknowledged and recorded:
    the stored heartbeat time is the time of the message, an Unreachable
    device becomes Connected through this gateway, every other phase stays
    as it was, and a pass of the monitor that runs before the timeout has
    elapsed leaves the device alone. *)
Theorem heartbeat_keeps_device cb inp tls_key c s w rs s' w' id d now' timeout w'' :
  patches_succeed -> resolve_device_id c (std_encode tls_key) s = Some id -> dev_get w id = Ok d ->
  on_message cb inp tls_key c (Some CHeartbeat) s w = (rs, s', w') ->
  0 <= timeout < 2 ^ 63 -> now' - in_now inp < (timeout + 1) * 10 ^ 9 ->
  check_heartbeat_timeouts now' timeout w' = (Ok tt, w'') ->
  rs = [SHeartbeatAck] /\
  exists d' st, view w'' !! id = Some d' /\ d_status d' = Some st /\
    ds_last_heartbeat st = Some (in_now inp) /\
    ds_phase st = (if bool_decide (current_phase d = Unreachable) then Connected else current_phase d).
Proof.
  intros Hps Hr Hg Hm Ht Hlt Hc.
  destruct (heartbeat_view _ _ _ _ _ _ _ _ _ _ _ Hps Hr Hg Hm) as [-> Hv]. split; [done|].
  apply monitor_spec in Hc as [Hin _].
  assert (exists st, d_status (beaten cb (in_now inp) d) = Some st /\
    ds_last_heartbeat st = Some (in_now inp) /\
    ds_phase st = (if bool_decide (current_phase d = Unreachable) then Connected else current_phase d))
    as (st & Hst & Hb & Hp).
  { eexists. split; [done|]. unfold beaten, current_phase. case_bool_decide; simpl; [done|].
    by destruct (d_status d). }
  exists (beaten cb (in_now inp) d), st. split_and!; [|done..].
  destruct (Hin id (beaten cb (in_now inp) d)) as [[H1 _]|[_ H2]]; [by rewrite Hv, lookup_insert_eq|done|].
  unfold overdue in H2. by erewrite (fresh_not_expired (in_now inp)) in H2.
Qed.
End Beat.
End Monitor.

Lemma mem_patches_succeed : patches_succeed (K := mem_kube) (view := store_view).
Proof. intros w n u d H. simpl. unfold mem_dev_patch. by rewrite H. Qed.

Definition beat_status (p : DevicePhase) (t : Z) : DeviceStatus := mkDeviceStatus p None (Some 0) (Some t) false.
Definition beat_cluster : cluster :=
  mkCluster (<["a"%string := sample_device "a" "AQ" (Some (beat_status Connected 0))]>
            (<["b"%string := sample_device "b" "Ag" (Some (beat_status Unreachable 0))]> ∅)) ∅.
Definition beat_server : HttpApiServer := with_bindings <["c"%string := "b"%string]> HttpApiServer_new.
Definition beat_cb : Callbacks := mkCallbacks true (GatewayReference_new "wasmbed" "gateway-1").
Definition beat_inputs : Inputs := mkInputs (100 * 10 ^ 9) "now" [] [].


(** The Unreachable device [b] sends a heartbeat and survives the next pass. *)
Lemma heartbeat_keeps_device_witness :
  let r := on_message (K := mem_kube) (B := base64) (E := toy_ecdsa) (U := hex_uuid) beat_cb beat_inputs [] "c"
             (Some CHeartbeat) beat_server beat_cluster in
  exists d st, store_view (check_heartbeat_timeouts (190 * 10 ^ 9) 90 r.2).2 !! "b"%string = Some d /\
    d_status d = Some st /\ ds_phase st = Connected.
Proof.
  intros r.
  edestruct (heartbeat_keeps_device (view := store_view) (B := base64) (E := toy_ecdsa) (U := hex_uuid)
    beat_cb beat_inputs [] "c" beat_server beat_cluster r.1.1 r.1.2 r.2 "b"
    (sample_device "b" "Ag" (Some (beat_status Unreachable 0))) (190 * 10 ^ 9) 90
    (check_heartbeat_timeouts (190 * 10 ^ 9) 90 r.2).2) as (_ & d & st & H1 & H2 & _ & H3).
  - exact mem_patches_succeed.
  - vm_compute. reflexivity.
  - vm_compute. reflexivity.
  - by apply triple_eta.
  - lia.
  - simpl. lia.
  - vm_compute. reflexivity.
  - by exists d, st.
Defined.
