(* ===== verification/HttpApiProofs.v ===== *)
(** * Properties of the HTTP handlers

    What a deployment request delivers and records, and how it can bind a
    connection whose peer has proved nothing. *)

From S2P Require Import Prelude.
From S2P Require Import RustStd.
From S2P Require Import Externals.
From S2P Require Import Base64.
From S2P Require Import Protocol.
From S2P Require Import K8s.
From S2P Require Import KubeStore.
From S2P Require Import K8sProofs.
From S2P Require Import Registry.
From S2P Require Import RegistryProofs.
From S2P Require Import Gateway.
From S2P Require Import GatewaySteps.
From S2P Require Import HttpApi.

Section Deploy.
Context {W : Type} `{K : Kube W} `{B : Base64} `{H : Sha256}.
Variable env : nat -> HttpApiServer * W -> HttpApiServer * W.
Variable closed : string.
Variable decode_error : string -> string.
Implicit Types (st : HttpApiServer * W).

Lemma wait_tls_ok d n st st' : wait_tls env d n st = Ok st' -> has_tls d st'.1 = true.
Proof.
  revert st. induction n as [|n IH]; intros st; cbn [wait_tls];
    (destruct (has_tls d st.1) eqn:E; [by intros [= <-]|]); [done|apply IH].
Qed.

Lemma wait_tls_err d n st resp st' : wait_tls env d n st = Err (resp, st') -> dr_success resp = false.
Proof.
  revert st. induction n as [|n IH]; intros st; cbn [wait_tls];
    (destruct (has_tls d st.1); [done|]); [by intros [= <- _]|apply IH].
Qed.

Lemma await_registered_err d n st resp st' :
  await_registered env d n st = Err (resp, st') -> dr_success resp = false.
Proof.
  revert st. induction n as [|n IH]; intros st; cbn [await_registered]; (case_match; [done|]);
    [by intros [= <- _]|apply IH].
Qed.

Lemma wait_registered_err now d st resp st' :
  wait_registered env now d st = Err (resp, st') -> dr_success resp = false.
Proof. unfold wait_registered. case_match; [done|]. apply await_registered_err. Qed.

(** What a deployment request does with the module of an Application. *)
Lemma deploy_delivers clk d a st resp st' task open now st2 :
  deploy_application env decode_error clk d a st = (resp, st', task) ->
  match task with
  | None => dr_success resp = false
  | Some t =>
      dr_success resp = true /\ has_tls d st'.1 = true /\
      exists app wasm, app_get st.2 a = Ok app /\ std_decode (a_wasm_bytes (a_spec app)) = Some wasm /\
        forall snd msg, (deploy_task closed open now t st2).1 = Some (snd, msg) ->
          msg = SDeployApplication a a (sha256 wasm) wasm (map_k8s_config_to_protocol <$> a_config (a_spec app)) /\
          exists conn, device_connections st2.1 !! d = Some conn /\ dc_tls_sender conn = Some snd
  end.
Proof.
  unfold deploy_application. intros Hd.
  destruct (app_get st.2 a) as [app|] eqn:Ea; [|by simplify_eq].
  destruct (wait_registered _ _ _ _) as [st1|[r1 st1]] eqn:Er; [|injection Hd as <- _ <-; exact (wait_registered_err _ _ _ _ _ Er)].
  destruct (std_decode _) as [wasm|] eqn:Ew; [|by simplify_eq].
  destruct (wait_tls _ _ _ _) as [st3|[r3 st3]] eqn:Et; [|injection Hd as <- _ <-; exact (wait_tls_err _ _ _ _ _ Et)].
  injection Hd as <- <- <-. split; [done|]. split; [exact (wait_tls_ok _ _ _ _ Et)|].
  exists app, wasm. split_and!; [done..|]. intros snd msg. unfold deploy_task. simpl.
  destruct (deploy_application_to_device _ _ _ _ _ _ _) as [[snd' msg']|] eqn:Es; [|done].
  intros [= <- <-]. unfold deploy_application_to_device, send_message_to_device in Es.
  destruct (device_connections st2.1 !! d) as [conn|]; [|done].
  destruct (dc_tls_sender conn) as [snd0|] eqn:Ec; [|done].
  destruct (open snd0); [|done]. simplify_eq. eauto.
Qed.

(** C9: a deployment request either fails and starts nothing, or succeeds
    with the device holding a TLS connection, and the module its task puts on
    the wire (at any later time, whatever the state has become) is exactly
    the module of the Application object as it was read, with its SHA-256
    digest and its configuration, on the channel of that device. *)
Theorem deploy_delivers_crd_module clk d a st resp st' task open now st2 :
  deploy_application env decode_error clk d a st = (resp, st', task) ->
  match task with
  | None => dr_success resp = false
  | Some t =>
      dr_success resp = true /\ has_tls d st'.1 = true /\
      exists app wasm, app_get st.2 a = Ok app /\ std_decode (a_wasm_bytes (a_spec app)) = Some wasm /\
        forall snd msg, (deploy_task closed open now t st2).1 = Some (snd, msg) ->
          msg = SDeployApplication a a (sha256 wasm) wasm (map_k8s_config_to_protocol <$> a_config (a_spec app)) /\
          exists conn, device_connections st2.1 !! d = Some conn /\ dc_tls_sender conn = Some snd
  end.
Proof. apply deploy_delivers. Qed.

(** The outcome of a delivery is what the registry shows afterwards: the
    application is Running without an error when the message was put on the
    channel, and Failed with the reason when it was not. *)
Theorem delivery_recorded open now t st app :
  applications st.1 !! dt_app_id t = Some app ->
  exists app', applications (deploy_task closed open now t st).2.1 !! dt_app_id t = Some app' /\
    da_device_id app' = da_device_id app /\
    match (deploy_task closed open now t st).1 with
    | Some _ => da_status app' = DaRunning /\ da_error app' = None
    | None => da_status app' = DaFailed /\
        exists e, da_error app' = Some e /\
          deploy_application_to_device open closed (dt_device_id t) (dt_app_id t) (dt_wasm_bytes t)
            (dt_config t) st.1 = Err e
    end.
Proof.
  intros Ha. unfold deploy_task.
  destruct (deploy_application_to_device _ _ _ _ _ _ _) as [sent|e]; simpl;
    rewrite lookup_alter_eq, Ha; simpl; eexists; (split; [done|]); eauto 6.
Qed.

(** A deployment request binds a connection without any proof of
    possession: when the target device has no TLS connection and exactly one
    connection is pending, that connection is bound to the device (the bind
    is not guarded by a challenge), and the module is sent to its peer. *)
Theorem deploy_binds_unproven_connection clk d a st app dev conn c snd wasm open now :
  app_get st.2 a = Ok app -> std_decode (a_wasm_bytes (a_spec app)) = Some wasm ->
  device_connections st.1 !! d = Some conn -> dc_tls_connected conn = false -> dc_tls_sender conn = None ->
  pending_senders st.1 = {[c := snd]} -> open snd = true ->
  dev_get st.2 d = Ok dev -> public_key (d_spec dev) <> ""%string ->
  exists resp st' t, deploy_application env decode_error clk d a st = (resp, st', Some t) /\
    connection_to_device st'.1 !! c = Some d /\
    exists msg, (deploy_task closed open now t st').1 = Some (snd, msg).
Proof.
  intros Ha Hw Hc Hf Hs Hp Ho Hg Hk. unfold deploy_application, wait_registered. rewrite Ha, Hc, Hw.
  set (s1 := register_application _ _ _ _ _ _ st.1).
  assert (bind_pending (t_bind clk) d (s1, st.2) =
    (activate_device_sender (t_bind clk) c d (public_key (d_spec dev)) s1, st.2)) as Hb.
  { unfold bind_pending, has_tls. simpl. rewrite Hc, Hf, Hs. simpl.
    rewrite Hp, map_to_list_singleton, Hg. by rewrite (proj2 (String.eqb_neq _ _) Hk). }
  rewrite Hb.
  assert (device_connections (activate_device_sender (t_bind clk) c d (public_key (d_spec dev)) s1) !! d =
    Some (attach_sender (t_bind clk) snd conn)) as Hd.
  { apply activate_lookup; [done|]. simpl. by rewrite Hp, lookup_singleton_eq. }
  cbn [wait_tls]. unfold has_tls. simpl fst. rewrite Hd. simpl.
  do 3 eexists. split; [reflexivity|]. simpl. split.
  - by rewrite activate_bindings, lookup_insert_eq.
  - unfold deploy_task, deploy_application_to_device, send_message_to_device. simpl. rewrite Hd. simpl.
    rewrite Ho. by eexists.
Qed.

(** The application views of the gateway's HTTP API show every
    application as Creating, whatever phase its status holds. *)
Theorem application_view_always_creating w :
  (forall id v, get_application id w = Ok v -> av_status v = "Creating"%string) /\
  (forall vs, get_applications w = Ok vs -> Forall (fun v => av_status v = "Creating"%string) vs).
Proof.
  split.
  - intros id v. unfold get_application. case_match; [|done]. by intros [= <-].
  - intros vs. unfold get_applications. case_match; [|done]. intros [= <-].
    apply Forall_fmap, Forall_true. done.
Qed.
End Deploy.

(** ** A cluster with one running application and one device *)

Definition http_app : Application :=
  mkApplication (Some "app"%string)
    (mkApplicationSpec "app" None "AGFzbQ==" (mkTargetDevices (Some ["device-a"%string]) None None) None None None)
    (Some (mkCrdAppStatus ApRunning None None None None)).
Definition http_cluster : cluster :=
  mkCluster (<["device-a"%string := sample_device "device-a" "AQ" None]> ∅) (<["app"%string := http_app]> ∅).
Definition http_clock : DeployClock := mkDeployClock 1 2 3 "t1" "t2".
(** The device is known, one anonymous connection is pending on channel 9. *)
Definition http_server : HttpApiServer :=
  store_pending_sender "evil" 9 (register_device 0 "device-a" "AQ" no_caps HttpApiServer_new).
Definition no_env : nat -> HttpApiServer * cluster -> HttpApiServer * cluster := fun _ st => st.

Lemma deploy_binds_unproven_connection_witness :
  exists resp st' t,
    deploy_application no_env (fun _ => ""%string) http_clock "device-a" "app" (http_server, http_cluster) =
      (resp, st', Some t) /\
    connection_to_device st'.1 !! "evil"%string = Some "device-a"%string.
Proof.
  destruct (deploy_binds_unproven_connection no_env "closed" (fun _ => ""%string) http_clock "device-a" "app"
    (http_server, http_cluster) http_app (sample_device "device-a" "AQ" None)
    (mkDeviceConnection "device-a" (mkDeviceUuid (replicate 16 Byte.x00)) (str_bytes "AQ") 0 0 no_caps None false false)
    "evil" 9 (map byte_of [0; 97; 115; 109]) (fun _ => true) "t3")
    as (resp & st' & t & H1 & H2 & _); try reflexivity; [done|].
  exists resp, st', t. split; [exact H1 | exact H2].
Defined.

Lemma deploy_delivers_crd_module_witness :
  let r := deploy_application no_env (fun _ => ""%string) http_clock "device-a" "app" (http_server, http_cluster) in
  dr_success r.1.1 = true /\ has_tls "device-a" r.1.2.1 = true.
Proof.
  intros r.
  pose proof (deploy_delivers_crd_module no_env "closed" (fun _ => ""%string) http_clock "device-a" "app"
    (http_server, http_cluster) r.1.1 r.1.2 (Some (mkDeployTask "device-a" "app" (map byte_of [0; 97; 115; 109]) None))
    (fun _ => true) "t3" r.1.2) as Hd.
  destruct Hd as (H1 & H2 & _); [|split; [exact H1|exact H2]].
  apply triple_eta_last. vm_compute. reflexivity.
Defined.

Lemma delivery_recorded_witness :
  let s := register_application 1 "app" "device-a" "app" [] None HttpApiServer_new in
  let r := deploy_task "closed" (fun _ => true) "t" (mkDeployTask "device-a" "app" [] None) (s, http_cluster) in
  r.1 = None /\ exists a, applications r.2.1 !! "app"%string = Some a /\ da_status a = DaFailed.
Proof.
  intros s r. split; [reflexivity|].
  destruct (delivery_recorded "closed" (fun _ => true) "t" (mkDeployTask "device-a" "app" [] None) (s, http_cluster)
    (mkDeployedApplication "app" "device-a" "app" [] None 1 DaDeploying None)) as (a & H1 & _ & H2); [reflexivity|].
  exists a. split; [exact H1|]. apply H2.
Defined.
