(* ===== verification/Tls.v ===== *)
(** * Keys, certificates and server loops: [crates/wasmbed-tls-utils/src/lib.rs]

    Parsing of keys, certificates and CA bundles, the certificate queries, the
    accept loop of [GatewayServer], and the plain-TCP servers and connections
    that the crate keeps beside it. The crates [pem] and [x509-parser] and the
    TLS handshake of rustls are parameters. Errors carry the text of the
    source where it matters and are otherwise one constructor. *)

From S2P Require Import Prelude.
From S2P Require Import RustStd.
From S2P Require Import Minicbor.
From S2P Require Import Protocol.
From S2P Require Import K8s.
From S2P Require Import Registry.
From S2P Require Import Gateway.

(** ** Parameters *)

(** [pem::parse]: the tag and the contents of the first block of the input. *)
Class Pem := pem_parse : list byte -> option (string * list byte).

(** The fields that the crate reads of a parsed certificate; times are seconds
    since 1970 and may be negative. *)
Record X509Certificate := mkX509 {
  x_subject : string;
  x_issuer : string;
  x_not_before : Z;
  x_not_after : Z;
  x_serial : string;
  x_spki : list byte;
}.

(** [parse_x509_certificate] *)
Class X509 := parse_x509 : list byte -> option X509Certificate.

(** ** Keys and certificates *)

Inductive PrivateKeyDer := Pkcs1 (der : list byte) | Sec1 (der : list byte) | Pkcs8 (der : list byte).

Inductive key_error :=
| EmptyKey | TooShort | NotSequence | UnsupportedTag (tag : string) | EmptyData | NotPemOrDer.

Inductive cert_error :=
| ExpectedCertificate (tag : string) | EmptyCertificate | NotDer | EmptyCertData | CertNotPemOrDer
| NoCertificates | CertParse | NotImplemented | ClockBeforeEpoch.

Definition SEQUENCE : byte := Byte.x30.

Section Parsing.
Context `{P : Pem} `{X : X509}.

Definition parse_private_key (pem_data : list byte) : result key_error PrivateKeyDer :=
  match pem_parse pem_data with
  | Some (tag, der_data) =>
      if bool_decide (tag = "PRIVATE KEY") then
        match der_data with
        | [] => Err EmptyKey
        | [_] => Err TooShort
        | b :: _ => if negb (bool_decide (b = SEQUENCE)) then Err NotSequence else Ok (Pkcs8 der_data)
        end
      else if bool_decide (tag = "RSA PRIVATE KEY") then
        match der_data with
        | [] => Err EmptyKey
        | [_] => Err NotSequence
        | b :: _ => if negb (bool_decide (b = SEQUENCE)) then Err NotSequence else Ok (Pkcs8 der_data)
        end
      else Err (UnsupportedTag tag)
  | None =>
      match pem_data with
      | [] => Err EmptyData
      | b :: _ => if bool_decide (b = SEQUENCE) then Ok (Pkcs8 pem_data) else Err NotPemOrDer
      end
  end.

Definition parse_certificate (pem_data : list byte) : result cert_error (list byte) :=
  match pem_parse pem_data with
  | Some (tag, der_data) =>
      if negb (bool_decide (tag = "CERTIFICATE")) then Err (ExpectedCertificate tag) else
      match der_data with
      | [] => Err EmptyCertificate
      | [_] => Err NotDer
      | b :: _ =>
          if negb (bool_decide (b = SEQUENCE)) then Err NotDer else
          match parse_x509 der_data with
          | Some _ => Ok der_data
          | None => Ok der_data (* logs a warning and continues *)
          end
      end
  | None =>
      match pem_data with
      | [] => Err EmptyCertData
      | b :: _ => if bool_decide (b = SEQUENCE) then Ok pem_data else Err CertNotPemOrDer
      end
  end.

(** [pem.contents().len() + pem.tag().len() + 25] *)
Definition pem_end (tag : string) (contents : list byte) : nat :=
  (length contents + length (str_bytes tag) + 25)%nat.

(** The loop of [parse_certificates]; [None] is out of fuel. *)
Fixpoint parse_blocks (fuel : nat) (remaining : list byte) : option (list (list byte)) :=
  match fuel with
  | O => None
  | S fuel =>
      match remaining with
      | [] => Some []
      | _ =>
          match pem_parse remaining with
          | None => Some []
          | Some (tag, contents) =>
              let found := if bool_decide (tag = "CERTIFICATE") then [contents] else [] in
              if (length remaining <=? pem_end tag contents)%nat then Some found else
              let* rest := parse_blocks fuel (drop (pem_end tag contents) remaining) in
              Some (found ++ rest)
          end
      end
  end.

Definition parse_certificates (pem_data : list byte) : result cert_error (list (list byte)) :=
  match parse_blocks (S (length pem_data)) pem_data with
  | Some ((_ :: _) as certificates) => Ok certificates
  | _ => Err NoCertificates
  end.

Definition parsed (cert : list byte) : result cert_error X509Certificate :=
  match parse_x509 cert with Some c => Ok c | None => Err CertParse end.

Definition extract_public_key (cert : list byte) : result cert_error (list byte) :=
  let? c := parsed cert in Ok (x_spki c).

Definition verify_key_cert_match (_private_key : PrivateKeyDer) (_certificate : list byte) :
    result cert_error bool := Ok true.

Definition generate_ed25519_keypair : result cert_error (PrivateKeyDer * list byte) := Err NotImplemented.

Definition create_self_signed_certificate (_common_name : string) (_private_key : PrivateKeyDer)
    (_validity_days : Z) : result cert_error (list byte) := Err NotImplemented.

Definition validate_certificate_chain (cert : list byte) (_ca_certs : list (list byte)) :
    result cert_error bool :=
  let? _ := parsed cert in Ok true.

Definition get_certificate_info (cert : list byte) : result cert_error X509Certificate :=
  let? c := parsed cert in
  Ok (mkX509 (x_subject c) (x_issuer c) (x_not_before c) (x_not_after c) (x_serial c) (x_spki c)).

(** [now > validity.not_after.timestamp() as u64]: the cast wraps. *)
Definition is_certificate_expired (now : Z) (cert : list byte) : result cert_error bool :=
  let? c := parsed cert in
  if now <? 0 then Err ClockBeforeEpoch else Ok (x_not_after c mod 2 ^ 64 <? now).

Definition is_certificate_valid_for_hostname (cert : list byte) (hostname : string) : result cert_error bool :=
  let? c := parsed cert in Ok (str_contains (x_subject c) hostname).
End Parsing.

(** ** Message contexts *)

Record ServerIdentity := mkServerIdentity { private_key : list byte; certificate : list byte }.

(** [R] is the sender that the reply closure captures. *)
Record MessageContext (R : Type) := mkMessageContext {
  mc_public_key : list byte;
  mc_connection_id : string;
  mc_message : option ClientMessage;
  mc_reply_fn : option R;
}.
Arguments mkMessageContext {R}.
Arguments mc_public_key {R}.
Arguments mc_connection_id {R}.
Arguments mc_message {R}.
Arguments mc_reply_fn {R}.

Definition MessageContext_new {R} (public_key : list byte) (connection_id : string) : MessageContext R :=
  mkMessageContext public_key connection_id None None.

Definition set_message {R} (message : ClientMessage) (c : MessageContext R) : MessageContext R :=
  mkMessageContext (mc_public_key c) (mc_connection_id c) (Some message) (mc_reply_fn c).

Definition set_reply_fn {R} (reply_fn : R) (c : MessageContext R) : MessageContext R :=
  mkMessageContext (mc_public_key c) (mc_connection_id c) (mc_message c) (Some reply_fn).

(** [reply]: the closure is applied when there is one; otherwise nothing is
    sent and the answer is [Ok]. [send] is what applying the closure does. *)
Definition reply {R E S} (send : R -> ServerMessage -> S -> result E unit * S) (message : ServerMessage)
    (c : MessageContext R) (s : S) : result E unit * S :=
  match mc_reply_fn c with
  | Some f => send f message s
  | None => (Ok tt, s)
  end.

(** [tx_reply.try_send(msg)] on a channel of 32 messages whose receiver lives. *)
Definition CHANNEL_CAPACITY : Z := 32.

Definition try_send (msg : ServerMessage) (queue : list ServerMessage) : result string unit * list ServerMessage :=
  if zlen queue <? CHANNEL_CAPACITY then (Ok tt, queue ++ [msg]) else (Err "Reply send failed", queue).

(** ** The plain-TCP servers *)

Inductive TlsState := Handshake | Connected | Closed.

#[export] Instance TlsState_eq_dec : EqDecision TlsState.
Proof. solve_decision. Defined.

(** What [read] of a socket answers; [Ok(n)] holds the [n] bytes. *)
Inductive read_result := ReadOk (data : list byte) | ReadErr.

(** A connection: the socket's further reads, and whether each write works. *)
Record TlsConnection := mkTlsConnection {
  c_reads : list read_result;
  c_writes : list bool;
  c_state : TlsState;
  c_sent : list (list byte);
}.

Definition TlsConnection_new (reads : list read_result) (writes : list bool) : TlsConnection :=
  mkTlsConnection reads writes Handshake [].

Definition perform_handshake (c : TlsConnection) : result string unit * TlsConnection :=
  (Ok tt, mkTlsConnection (c_reads c) (c_writes c) Connected (c_sent c)).

Definition conn_read (c : TlsConnection) : result string (list byte) * TlsConnection :=
  match c_state c with
  | Connected =>
      match c_reads c with
      | ReadOk data :: reads => (Ok data, mkTlsConnection reads (c_writes c) (c_state c) (c_sent c))
      | ReadErr :: reads => (Err "Read error", mkTlsConnection reads (c_writes c) (c_state c) (c_sent c))
      | [] => (Ok [], c)
      end
  | _ => (Err "Connection not ready for reading", c)
  end.

Definition conn_write (data : list byte) (c : TlsConnection) : result string unit * TlsConnection :=
  match c_state c with
  | Connected =>
      match c_writes c with
      | false :: writes => (Err "Write error", mkTlsConnection (c_reads c) writes (c_state c) (c_sent c))
      | _ => (Ok tt, mkTlsConnection (c_reads c) (tail (c_writes c)) (c_state c) (c_sent c ++ [data]))
      end
  | _ => (Err "Connection not ready for writing", c)
  end.

Definition conn_close (shutdown_ok : bool) (c : TlsConnection) : result string unit * TlsConnection :=
  (if shutdown_ok then Ok tt else Err "Shutdown error", mkTlsConnection (c_reads c) (c_writes c) Closed (c_sent c)).

(** What a server does on one connection, in order. *)
Inductive server_event :=
| CbConnect (key : list byte)
| CbMessage (key : list byte) (connection : string) (message : option ClientMessage)
| Echoed (data : list byte)
| CbDisconnect (key : list byte) (connection : string).

(** The read loops of the three [handle_connection]: every chunk is handed to
    [on_chunk] and echoed; a failed write returns at once, before the
    disconnect callback. A read that the list does not hold is the end of the
    stream. *)
Fixpoint echo_loop (on_chunk : list byte -> list server_event) (reads : list read_result) (writes : list bool) :
    result string unit * list server_event :=
  match reads with
  | [] | ReadErr :: _ | ReadOk [] :: _ => (Ok tt, [])
  | ReadOk data :: reads =>
      match writes with
      | false :: _ => (Err "write", on_chunk data)
      | _ =>
          let '(r, evs) := echo_loop on_chunk reads (tail writes) in
          (r, on_chunk data ++ Echoed data :: evs)
      end
  end.

(** [TlsStream::new] leaves the key unset and nothing sets it. *)
Definition peer_public_key_of_stream : option (list byte) := None.

Definition served (key : list byte) (connection : string) (connect : server_event)
    (r : result string unit * list server_event) : result string unit * list server_event :=
  match r with
  | (Ok _, evs) => (Ok tt, connect :: evs ++ [CbDisconnect key connection])
  | (Err e, evs) => (Err e, connect :: evs)
  end.

(** [Server::handle_connection]: [on_client_connect] gets no key, the
    disconnect callback no connection. *)
Definition Server_handle_connection (auth : AuthorizationResult) (reads : list read_result) (writes : list bool) :
    result string unit * list server_event :=
  let key := default [] peer_public_key_of_stream in
  match auth with
  | Unauthorized => (Ok tt, [CbConnect []])
  | Authorized =>
      served key "" (CbConnect [])
        (echo_loop (fun _ => [CbMessage key "test-connection" None]) reads writes)
  end.

(** [TlsServer::handle_connection] *)
Definition TlsServer_handle_connection (c : TlsConnection) : result string unit * list server_event :=
  match perform_handshake c with
  | (Err e, _) => (Err e, [])
  | (Ok _, c) => echo_loop (fun _ => []) (c_reads c) (c_writes c)
  end.

(** [GatewayServer::handle_connection], which [run] does not call. *)
Definition legacy_handle_connection `{Minicbor} (auth : list byte -> AuthorizationResult)
    (reads : list read_result) (writes : list bool) : result string unit * list server_event :=
  let key := default [] peer_public_key_of_stream in
  match auth key with
  | Unauthorized => (Ok tt, [CbConnect key])
  | Authorized =>
      served key "legacy-connection" (CbConnect key)
        (echo_loop (fun data =>
           [CbMessage key "gateway-connection"
              (match decode_client data with Ok (m, _) => Some m | Err _ => None end)]) reads writes)
  end.

(** The loops of [Server::run] and [TlsServer::start] over what [accept]
    answers: a failed accept is logged, a failed connection ends the server
    ([Err]), and [Ok] is a server that is still accepting. *)
Fixpoint accept_loop {C} (handle : C -> result string unit * list server_event) (accepts : list (option C)) :
    result string unit * list server_event :=
  match accepts with
  | [] => (Ok tt, [])
  | None :: accepts => accept_loop handle accepts
  | Some c :: accepts =>
      match handle c with
      | (Err e, evs) => (Err e, evs)
      | (Ok _, evs) => let '(r, evs') := accept_loop handle accepts in (r, evs ++ evs')
      end
  end.

(** [TlsClient::connect] *)
Definition TlsClient_connect (tcp : option TlsConnection) : result string TlsConnection :=
  match tcp with
  | None => Err "connect"
  | Some c => match perform_handshake c with (Ok _, c) => Ok c | (Err e, _) => Err e end
  end.

(** ** The TLS server of the gateway *)

Record GatewayServerConfig := mkGatewayServerConfig {
  gsc_identity : ServerIdentity;
  gsc_client_ca : list byte;
  gsc_require_client_auth : bool;
}.

(** What rustls and the operating system decide before the first connection. *)
Class TlsSetup := {
  add_root : list byte -> bool;            (* RootCertStore::add *)
  build_verifier : GatewayServerConfig -> bool;
  single_cert : list byte -> list byte -> bool;   (* with_single_cert *)
}.

Inductive run_error := InvalidClientCa | BadVerifier | BadServerCert | BindFailed.

(** One answer of [listener.accept()], with the outcome of the TLS handshake on
    it: the certificates of the peer, a failure, or no end at all. *)
Inductive handshake := HsOk (peer_certificates : option (list (list byte))) | HsFailed | HsStalled.
Inductive accepted := AcceptErr | Accept (addr : string) (hs : handshake).

Section GatewayServer.
Context `{X : X509}.

(** The key that [handle_tls_connection] hands to every callback. *)
Definition peer_public_key (peer_certs : option (list (list byte))) : list byte :=
  match peer_certs with
  | Some (cert :: _) => match extract_public_key cert with Ok key => key | Err _ => [] end
  | _ => []
  end.

Definition configure `{TlsSetup} (cfg : GatewayServerConfig) : result run_error unit :=
  if negb (add_root (gsc_client_ca cfg)) then Err InvalidClientCa else
  if negb (build_verifier cfg) then Err BadVerifier else
  if negb (single_cert (certificate (gsc_identity cfg)) (private_key (gsc_identity cfg))) then Err BadServerCert
  else Ok tt.

(** The accept loop of [run]: the connections handed to
    [handle_tls_connection], with their keys. That function never fails, so
    the loop goes on; the handshake is awaited inside the loop, so one that
    never ends is the last thing the loop does. *)
Fixpoint tls_accept_loop (accepts : list accepted) : list (string * list byte) :=
  match accepts with
  | [] => []
  | AcceptErr :: accepts => tls_accept_loop accepts
  | Accept _ HsFailed :: accepts => tls_accept_loop accepts
  | Accept _ HsStalled :: _ => []
  | Accept addr (HsOk certs) :: accepts => (addr, peer_public_key certs) :: tls_accept_loop accepts
  end.

Definition run `{TlsSetup} (bind_ok : bool) (cfg : GatewayServerConfig) (accepts : list accepted) :
    result run_error (list (string * list byte)) :=
  let? _ := configure cfg in
  if negb bind_ok then Err BindFailed else Ok (tls_accept_loop accepts).
End GatewayServer.
