(* ===== verification/TlsProofs.v ===== *)
(** * Keys, certificates and server loops: theorems

    CA bundles are read completely and in order, whatever the parser of PEM
    blocks does the loop ends, accepted keys and certificates are what the
    input holds, and the accept loop serves what the handshakes let through. *)

From S2P Require Import Prelude.
From S2P Require Import RustStd.
From S2P Require Import Gateway.
From S2P Require Import Tls.

(** ** PEM text *)

(** Labels of upper-case letters and spaces. *)
Definition label_byte (b : byte) : bool :=
  ((65 <=? byte_val b) && (byte_val b <=? 90)) || (byte_val b =? 32).
Definition pem_label (t : string) : bool := forallb label_byte (str_bytes t).

(** What the crate documents of [parse]: [pem_encode] is the text of a block,
    [pem_plain] says that no block begins in a text. The text before the first
    block is skipped; the inside of a block begins no other block; and a block
    is longer than its contents, since base64 takes four characters for three
    bytes and the tag appears twice, in lines of dashes. *)
Class PemLaws {P : Pem} := {
  pem_encode : string -> list byte -> list byte;
  pem_plain : list byte -> Prop;
  pem_first t c junk rest : pem_label t = true -> pem_plain junk ->
    pem_parse (junk ++ pem_encode t c ++ rest) = Some (t, c);
  pem_none junk : pem_plain junk -> pem_parse junk = None;
  pem_suffix junk n : pem_plain junk -> pem_plain (drop n junk);
  pem_inside t c n : pem_label t = true -> (0 < n)%nat -> pem_plain (drop n (pem_encode t c));
  pem_overhead t c : pem_label t = true -> (length c + length (str_bytes t) + 25 <= length (pem_encode t c))%nat;
}.

(** [l'] is [l] with some elements repeated in place. *)
Inductive stutters {A} : list A -> list A -> Prop :=
| stutters_nil : stutters [] []
| stutters_cons a n l l' : stutters l l' -> stutters (a :: l) (replicate (S n) a ++ l').

Lemma stutters_dup {A} (a : A) l l' : stutters (a :: l) l' -> stutters (a :: l) (a :: l').
Proof. inversion 1; subst. by apply (stutters_cons a (S n)). Qed.

Lemma stutters_head {A} (l l' : list A) : stutters l l' -> head l' = head l.
Proof. by destruct 1. Qed.

Lemma stutters_elem {A} (l l' : list A) x : stutters l l' -> x ∈ l' <-> x ∈ l.
Proof.
  induction 1 as [|a n l l' _ IH]; [done|].
  rewrite elem_of_app, elem_of_cons, elem_of_replicate, IH. intuition congruence.
Qed.

(** ** CA bundles *)

Definition block := (string * list byte)%type.
Definition bundle_text `{PemLaws} (blocks : list block) : list byte :=
  concat ((fun b => pem_encode b.1 b.2) <$> blocks).
Definition bundle_certs (blocks : list block) : list (list byte) :=
  omap (fun b => if bool_decide (b.1 = "CERTIFICATE"%string) then Some b.2 else None) blocks.

Section Bundles.
Context `{P : Pem} `{L : !PemLaws}.

Lemma bundle_cons_length b bs : pem_label b.1 = true ->
  (pem_end b.1 b.2 + length (bundle_text bs) <= length (bundle_text (b :: bs)))%nat.
Proof.
  intros Hl. change (bundle_text (b :: bs)) with (pem_encode b.1 b.2 ++ bundle_text bs).
  rewrite length_app. pose proof (pem_overhead b.1 b.2 Hl). unfold pem_end. lia.
Qed.

Lemma bundle_text_nil bs : Forall (fun b => pem_label b.1 = true) bs -> bundle_text bs = [] -> bs = [].
Proof.
  destruct 1 as [|b bs Hb _]; [done|]. intros E. pose proof (bundle_cons_length b bs Hb) as Hl.
  rewrite E in Hl. unfold pem_end in Hl. simpl in Hl. lia.
Qed.

(** The next round of the loop, on a text [tail] in which no block begins,
    followed by blocks: it either reads the same block again or moves on. *)
Lemma bundle_advance tail b bs : pem_plain tail -> pem_label b.1 = true ->
  let k := pem_end b.1 b.2 in
  (exists tail', pem_plain tail' /\
     drop k (tail ++ bundle_text (b :: bs)) = tail' ++ bundle_text (b :: bs)) \/
  (exists tail', pem_plain tail' /\ drop k (tail ++ bundle_text (b :: bs)) = tail' ++ bundle_text bs).
Proof.
  intros Ht Hl k. pose proof (pem_overhead b.1 b.2 Hl) as Ho. fold k in Ho.
  change (length b.2 + length (str_bytes b.1) + 25)%nat with k in Ho.
  destruct (decide (k <= length tail)%nat).
  - left. exists (drop k tail). split; [by apply pem_suffix|]. by rewrite drop_app_le.
  - right. exists (drop (k - length tail) (pem_encode b.1 b.2)). split; [apply pem_inside; [done|lia]|].
    unfold bundle_text; simpl. rewrite drop_app_ge by lia. by rewrite drop_app_le by lia.
Qed.

Lemma parse_blocks_bundle fuel tail bs :
  pem_plain tail -> Forall (fun b => pem_label b.1 = true) bs ->
  (length (tail ++ bundle_text bs) < fuel)%nat ->
  exists cs, parse_blocks fuel (tail ++ bundle_text bs) = Some cs /\ stutters (bundle_certs bs) cs.
Proof.
  revert tail bs. induction fuel as [|fuel IH]; intros tail bs Ht Hb Hf; [lia|]. simpl.
  destruct bs as [|b bs].
  { exists []. split; [|constructor]. unfold bundle_text; simpl. rewrite app_nil_r.
    rewrite pem_none by done. by destruct tail. }
  inversion Hb as [|? ? Hl Hbs]; subst. destruct b as [t c]; simpl in Hl.
  pose proof (bundle_cons_length (t, c) bs Hl) as Hlen. simpl in Hlen.
  assert (pem_parse (tail ++ bundle_text ((t, c) :: bs)) = Some (t, c)) as Hp by (by apply pem_first).
  destruct (tail ++ bundle_text ((t, c) :: bs)) as [|x text] eqn:Etext.
  { apply (f_equal length) in Etext. rewrite length_app in Etext. unfold pem_end in Hlen. simpl in Etext. lia. }
  rewrite <- Etext in *. clear x text Etext. rewrite Hp.
  set (found := if bool_decide (t = "CERTIFICATE"%string) then [c] else []).
  assert (forall l, bundle_certs ((t, c) :: l) = found ++ bundle_certs l) as Hc
    by (intros l; unfold bundle_certs, found; simpl; by case_bool_decide).
  destruct (Nat.leb_spec (length (tail ++ bundle_text ((t, c) :: bs))) (pem_end t c)) as [Hle|Hgt].
  - assert (bs = []) as ->.
    { apply bundle_text_nil; [done|]. apply length_zero_iff_nil. rewrite length_app in Hle. lia. }
    exists found. split; [done|]. rewrite Hc, app_nil_r. unfold found.
    case_bool_decide; [apply (stutters_cons c 0 [] [])|]; constructor.
  - assert (forall d, d = drop (pem_end t c) (tail ++ bundle_text ((t, c) :: bs)) -> (length d < fuel)%nat) as Hd
      by (intros ? ->; rewrite length_drop; unfold pem_end in *; lia).
    destruct (bundle_advance tail (t, c) bs Ht Hl) as [(tail' & Ht' & E) | (tail' & Ht' & E)]; simpl in E; rewrite E in *.
    + destruct (IH tail' ((t, c) :: bs) Ht' Hb) as (cs & -> & Hs); [by apply Hd|].
      exists (found ++ cs). split; [done|]. rewrite Hc in *. unfold found in *.
      case_bool_decide; [|done]. by apply stutters_dup.
    + destruct (IH tail' bs Ht' Hbs) as (cs & -> & Hs); [by apply Hd|].
      exists (found ++ cs). split; [done|]. rewrite Hc. unfold found.
      case_bool_decide; [|done]. by apply (stutters_cons c 0).
Qed.

(** A CA bundle is read completely: for a text of PEM blocks after some leading
    text, [parse_certificates] fails exactly when no block is a certificate, and
    otherwise returns every certificate of the bundle, nothing else, in the order
    of the bundle, the first one first; since the loop advances by less than a
    block it may return a certificate several times in a row, but it never skips
    one. *)
Theorem parse_certificates_bundle (pre : list byte) (blocks : list block) :
  pem_plain pre -> Forall (fun b => pem_label b.1 = true) blocks ->
  match bundle_certs blocks with
  | [] => parse_certificates (pre ++ bundle_text blocks) = Err NoCertificates
  | first :: _ => exists cs, parse_certificates (pre ++ bundle_text blocks) = Ok cs /\
      stutters (bundle_certs blocks) cs /\ head cs = Some first /\
      (forall c, c ∈ cs <-> ("CERTIFICATE"%string, c) ∈ blocks)
  end.
Proof.
  intros Hp Hb. unfold parse_certificates.
  destruct (parse_blocks_bundle (S (length (pre ++ bundle_text blocks))) pre blocks Hp Hb) as (cs & -> & Hs); [lia|].
  pose proof (stutters_head _ _ Hs) as Hh.
  assert (forall c, c ∈ cs <-> ("CERTIFICATE"%string, c) ∈ blocks) as He.
  { intros c. rewrite (stutters_elem _ _ c Hs). unfold bundle_certs. rewrite list_elem_of_omap. split.
    - intros ([t x] & Hin & Ho). simpl in Ho. case_bool_decide; simplify_eq. done.
    - intros Hin. exists ("CERTIFICATE"%string, c). by rewrite bool_decide_eq_true_2. }
  destruct (bundle_certs blocks) as [|first l].
  - by inversion Hs; subst.
  - destruct cs as [|y ys]; [inversion Hs|]. exists (y :: ys). split_and!; [done | exact Hs | exact Hh | exact He].
Qed.
End Bundles.

(** The loop of [parse_certificates] ends on every input and whatever blocks the PEM
    parser reports: each round advances by at least 25 bytes, so one round for
    every 25 bytes of input, and one more, is enough, more fuel changes nothing,
    and no more certificates than that are returned. *)
Theorem parse_certificates_terminates `{P : Pem} (data : list byte) (fuel : nat) :
  (length data / 25 < fuel)%nat ->
  exists cs, parse_blocks fuel data = Some cs /\ parse_blocks (S (length data)) data = Some cs /\
    (length cs <= S (length data / 25))%nat.
Proof.
  intros Hf.
  assert (forall f1 f2 d, (length d / 25 < f1)%nat -> (length d / 25 < f2)%nat ->
    exists cs, parse_blocks f1 d = Some cs /\ parse_blocks f2 d = Some cs /\ (length cs <= S (length d / 25))%nat) as H.
  { clear. induction f1 as [|f1 IH]; intros [|f2] d H1 H2; try lia. cbn [parse_blocks].
    destruct d as [|x d]; [by exists []; split_and!; [..|simpl; lia]|].
    destruct (pem_parse (x :: d)) as [[t c]|]; [|exists []; split_and!; [done..|simpl; lia]].
    set (found := if bool_decide (t = "CERTIFICATE"%string) then [c] else []).
    assert (length found <= 1)%nat by (unfold found; case_bool_decide; simpl; lia).
    destruct (Nat.leb_spec (length (x :: d)) (pem_end t c)).
    { exists found. split_and!; [done..|]. lia. }
    assert (length (drop (pem_end t c) (x :: d)) / 25 < length (x :: d) / 25)%nat as Hlt.
    { rewrite length_drop. unfold pem_end in *. simpl length in *.
      apply Nat.Div0.div_lt_upper_bound.
      pose proof (Nat.div_mod (S (length d)) 25 ltac:(done)). pose proof (Nat.mod_upper_bound (S (length d)) 25 ltac:(done)).
      lia. }
    destruct (IH f2 (drop (pem_end t c) (x :: d))) as (cs & -> & -> & Hc); [lia..|].
    exists (found ++ cs). split_and!; [done..|]. rewrite length_app. lia. }
  apply H; [done|]. pose proof (Nat.Div0.div_le_upper_bound (length data) 25 (length data)). lia.
Qed.

(** ** Keys and certificates *)

(** Accepted keys: [parse_private_key] answers with a key exactly when the input is a
    PEM block tagged PRIVATE KEY or RSA PRIVATE KEY whose contents, of at least
    two bytes, begin with a DER sequence, or is no PEM and begins with one; the
    key is those contents, respectively the whole input, unchanged and always
    labelled PKCS#8, an RSA block included. *)
Theorem parse_private_key_exact `{P : Pem} (data : list byte) (k : PrivateKeyDer) :
  parse_private_key data = Ok k <->
  exists der, k = Pkcs8 der /\ head der = Some SEQUENCE /\
    ((exists tag, pem_parse data = Some (tag, der) /\ (tag = "PRIVATE KEY" \/ tag = "RSA PRIVATE KEY")%string /\
       (2 <= length der)%nat) \/
     (pem_parse data = None /\ der = data)).
Proof.
  unfold parse_private_key. destruct (pem_parse data) as [[tag der]|].
  - split.
    + intros H. exists der.
      assert ((tag = "PRIVATE KEY" \/ tag = "RSA PRIVATE KEY")%string /\ k = Pkcs8 der /\ head der = Some SEQUENCE /\
        (2 <= length der)%nat) as (? & ? & ? & ?); [|by eauto 10].
      destruct der as [|b [|b' der]]; repeat case_bool_decide; simplify_eq/=; (split_and!; [by auto | done | done | lia]).
    + intros (der' & -> & Hh & [(tag' & [= -> ->] & Ht & Hl) | [? _]]); [|done].
      destruct der' as [|b [|b' der']]; simpl in Hl; try lia. injection Hh as ->.
      destruct Ht as [-> | ->]; done.
  - split.
    + intros H. destruct data as [|b data]; [done|]. case_bool_decide; simplify_eq.
      eexists. split_and!; [done..|]. by right.
    + intros (der & -> & Hh & [(tag & ? & _) | [_ ->]]); [done|].
      destruct data as [|b data]; [done|]. injection Hh as ->. by rewrite bool_decide_eq_true_2.
Qed.

Section Queries.
Context `{X : X509}.

(** Expiry is decided correctly for every certificate that ends between 1970
    and the year 292 billion; one that ended before 1970 counts as valid, at
    any time the clock can show. *)
Theorem expiry_check (cert : list byte) (c : X509Certificate) (now : Z) :
  parse_x509 cert = Some c -> 0 <= now < 2 ^ 63 -> - 2 ^ 63 <= x_not_after c < 2 ^ 63 ->
  is_certificate_expired now cert
  = Ok (if x_not_after c <? 0 then false else x_not_after c <? now).
Proof.
  intros Hc Hn Ha. unfold is_certificate_expired, parsed. rewrite Hc; simpl.
  destruct (Z.ltb_spec now 0); [lia|]. f_equal.
  destruct (Z.ltb_spec (x_not_after c) 0).
  - apply Z.ltb_ge. rewrite <- (Z.mod_unique_pos (x_not_after c) (2 ^ 64) (-1) (x_not_after c + 2 ^ 64)); lia.
  - by rewrite Z.mod_small by lia.
Qed.

(** The keys and the chain of trust are not checked: any key matches any
    certificate, any authority vouches for any certificate that parses. *)
Theorem chain_not_checked (key : PrivateKeyDer) (cert : list byte) (cas : list (list byte)) :
  verify_key_cert_match key cert = Ok true /\
  (validate_certificate_chain cert cas = Ok true <-> exists c, parse_x509 cert = Some c).
Proof.
  split; [done|]. unfold validate_certificate_chain, parsed. destruct (parse_x509 cert); naive_solver.
Qed.

(** ** The accept loop *)

Definition completed (a : accepted) : option (string * list byte) :=
  match a with Accept addr (HsOk certs) => Some (addr, peer_public_key certs) | _ => None end.

Definition stalled (a : accepted) : bool := match a with Accept _ HsStalled => true | _ => false end.

(** The accept loop: without a stalled handshake, [run] serves exactly the connections
    whose handshake completed, in the order they arrived, whatever failed in
    between; the first handshake that never ends, which any peer can cause by
    opening a connection and sending nothing, is the end: no later connection is
    ever served. *)
Theorem accept_loop_serves (pre post : list accepted) (addr : string) :
  forallb (fun a => negb (stalled a)) pre = true ->
  tls_accept_loop pre = omap completed pre /\
  tls_accept_loop (pre ++ Accept addr HsStalled :: post) = omap completed pre.
Proof.
  induction pre as [|a pre IH]; [done|]. simpl. intros [Ha Hp]%andb_true_iff. destruct (IH Hp) as [I1 I2].
  destruct a as [|? []]; simpl in *; rewrite ?I1, ?I2; done.
Qed.
End Queries.

(** ** Echo servers *)

(** The data a peer sent before it closed or failed. *)
Fixpoint received (reads : list read_result) : list (list byte) :=
  match reads with
  | ReadOk (b :: data) :: reads => (b :: data) :: received reads
  | _ => []
  end.

Definition echoes (evs : list server_event) : list (list byte) :=
  omap (fun e => match e with Echoed d => Some d | _ => None end) evs.

(** Without a failed write, a plain server echoes all it received, in order,
    and calls the callbacks once at each end; the keys it reports are empty. *)
Lemma echo_loop_faithful on_chunk reads :
  (forall d, echoes (on_chunk d) = []) ->
  exists evs, echo_loop on_chunk reads [] = (Ok tt, evs) /\ echoes evs = received reads.
Proof.
  intros Hc. induction reads as [|[[|b data]|] reads IH]; try (by eexists).
  simpl. destruct IH as (evs & -> & E). eexists. split; [done|].
  transitivity (echoes (on_chunk (b :: data)) ++ (b :: data) :: echoes evs); [|by rewrite Hc, E].
  unfold echoes. by rewrite omap_app.
Qed.

(** ** An instance of the PEM laws, for examples *)

(** Nibbles between marker bytes. *)
Definition nib (z : Z) : byte := byte_of z.
Definition nibbles (bs : list byte) : list byte :=
  concat ((fun b => [nib (byte_val b / 16); nib (byte_val b mod 16)]) <$> bs).

Fixpoint read_nibbles (i : list byte) : list byte * list byte :=
  match i with
  | h :: ((l :: rest) as _i) =>
      if (byte_val h <? 16) && (byte_val l <? 16)
      then let '(bs, r) := read_nibbles rest in (byte_of (byte_val h * 16 + byte_val l) :: bs, r)
      else ([], i)
  | _ => ([], i)
  end.

Fixpoint toy_parse (i : list byte) : option (string * list byte) :=
  match i with
  | [] => None
  | b :: i =>
      if bool_decide (b = Byte.xff) then
        let '(tag, r) := read_nibbles i in
        match r with
        | Byte.xfe :: r => let '(c, _) := read_nibbles r in Some (bytes_str tag, c)
        | _ => None
        end
      else toy_parse i
  end.

#[export] Instance toy_pem : Pem := toy_parse.

Definition toy_body (t : string) (c : list byte) : list byte :=
  nibbles (str_bytes t) ++ Byte.xfe :: nibbles c ++ Byte.xfd :: replicate 25 Byte.xfc.

Lemma read_nibbles_app bs b rest : 16 <= byte_val b -> read_nibbles (nibbles bs ++ b :: rest) = (bs, b :: rest).
Proof.
  intros Hb. induction bs as [|x bs IH].
  - simpl. destruct rest; [done|]. by rewrite (proj2 (Z.ltb_ge _ _)) by done.
  - change (nibbles (x :: bs)) with (nib (byte_val x / 16) :: nib (byte_val x mod 16) :: nibbles bs).
    cbn [app read_nibbles]. pose proof (byte_val_range x). unfold nib.
    pose proof (Z.div_mod (byte_val x) 16 ltac:(lia)). pose proof (Z.mod_pos_bound (byte_val x) 16 ltac:(lia)).
    rewrite !byte_val_small by lia. rewrite !(proj2 (Z.ltb_lt _ _)) by lia. cbn [andb]. rewrite IH.
    do 2 f_equal. rewrite <- (byte_of_val x). f_equal. rewrite byte_of_val. lia.
Qed.

Lemma nibbles_small bs b : b ∈ nibbles bs -> byte_val b < 16.
Proof.
  unfold nibbles. rewrite list_elem_of_In, in_concat. intros (l & Hl & Hin).
  apply list_elem_of_In, list_elem_of_fmap in Hl as (x & -> & _). pose proof (byte_val_range x).
  pose proof (Z.mod_pos_bound (byte_val x) 16 ltac:(lia)). pose proof (Z.div_mod (byte_val x) 16 ltac:(lia)).
  unfold nib in Hin. simpl in Hin. destruct Hin as [<- | [<- | []]]; rewrite byte_val_small; lia.
Qed.

Lemma toy_body_plain t c : Byte.xff ∉ toy_body t c.
Proof.
  unfold toy_body. rewrite !elem_of_app, !elem_of_cons, elem_of_app, elem_of_cons, elem_of_replicate.
  intros [H | [? | [H | [? | [? _]]]]]; try done; apply nibbles_small in H; by vm_compute in H.
Qed.

Lemma nibbles_length bs : length (nibbles bs) = (2 * length bs)%nat.
Proof.
  induction bs as [|b bs IH]; [done|].
  change (nibbles (b :: bs)) with (nib (byte_val b / 16) :: nib (byte_val b mod 16) :: nibbles bs). simpl. lia.
Qed.

Lemma toy_parse_skip junk i : Byte.xff ∉ junk -> toy_parse (junk ++ i) = toy_parse i.
Proof.
  induction junk as [|b junk IH]; [done|]. intros [Hb Hj]%not_elem_of_cons. simpl.
  rewrite bool_decide_eq_false_2 by done. auto.
Qed.

#[export] Instance toy_pem_laws : PemLaws.
Proof.
  refine (Build_PemLaws toy_pem (fun t c => Byte.xff :: toy_body t c) (fun junk => Byte.xff ∉ junk) _ _ _ _ _).
  - intros t c junk rest _ Hj. unfold pem_parse, toy_pem. rewrite toy_parse_skip by done. simpl.
    unfold toy_body. rewrite <- !app_assoc. simpl. rewrite read_nibbles_app by done.
    rewrite <- !app_assoc. simpl. rewrite read_nibbles_app by done. by rewrite bytes_str_bytes.
  - intros junk Hj. unfold pem_parse, toy_pem. rewrite <- (app_nil_r junk). by rewrite toy_parse_skip.
  - intros junk n Hj Hin. apply Hj. rewrite <- (take_drop n junk). apply elem_of_app; by right.
  - intros t c [|n] _ Hn; [lia|]. simpl. intros Hin. apply (toy_body_plain t c).
    rewrite <- (take_drop n (toy_body t c)). apply elem_of_app; by right.
  - intros t c _. simpl. unfold toy_body. rewrite !length_app. simpl.
    rewrite !length_app, !nibbles_length. simpl. lia.
Defined.

(** ** Witnesses *)

Definition demo_bundle : list block :=
  [("CERTIFICATE", [Byte.x30; Byte.x01]); ("EC PARAMETERS", [Byte.x06]); ("CERTIFICATE", [Byte.x30; Byte.x02])]%string.
Definition demo_pre : list byte := replicate 60 Byte.x20.

Lemma parse_certificates_bundle_witness :
  exists cs, parse_certificates (P := toy_pem) (demo_pre ++ bundle_text demo_bundle) = Ok cs /\
    head cs = Some [Byte.x30; Byte.x01].
Proof.
  destruct (parse_certificates_bundle (P := toy_pem) demo_pre demo_bundle) as (cs & H1 & _ & H2 & _).
  - simpl. intros [? _]%elem_of_replicate. done.
  - repeat constructor.
  - by exists cs.
Defined.

(** Both certificates of that bundle are read twice. *)
Example bundle_read_twice :
  parse_certificates (P := toy_pem) (demo_pre ++ bundle_text demo_bundle)
  = Ok [[Byte.x30; Byte.x01]; [Byte.x30; Byte.x01]; [Byte.x30; Byte.x02]; [Byte.x30; Byte.x02]].
Proof. vm_compute. reflexivity. Qed.

Lemma parse_certificates_terminates_witness :
  exists cs, parse_blocks (P := toy_pem) 9 (demo_pre ++ bundle_text demo_bundle) = Some cs.
Proof.
  destruct (parse_certificates_terminates (P := toy_pem) (demo_pre ++ bundle_text demo_bundle) 9) as (cs & H & _).
  - apply Nat.ltb_lt. vm_compute. reflexivity.
  - by exists cs.
Defined.

Lemma accept_loop_serves_witness :
  tls_accept_loop (X := fun _ => None)
    ([Accept "10.0.0.1:1" HsFailed; Accept "10.0.0.2:1" (HsOk None)] ++ Accept "10.0.0.3:1" HsStalled
       :: [Accept "10.0.0.4:1" (HsOk None)])
  = [("10.0.0.2:1", [])]%string.
Proof.
  refine (proj2 (accept_loop_serves (X := fun _ => None)
    [Accept "10.0.0.1:1" HsFailed; Accept "10.0.0.2:1" (HsOk None)] [Accept "10.0.0.4:1" (HsOk None)] "10.0.0.3:1" _)).
  reflexivity.
Defined.

Lemma expiry_check_witness :
  is_certificate_expired (X := fun _ => Some (mkX509 "CN=old" "CN=ca" (-10) (-5) "1" [])) 1 [] = Ok false.
Proof.
  apply (expiry_check (X := fun _ => Some (mkX509 "CN=old" "CN=ca" (-10) (-5) "1" [])) []
    (mkX509 "CN=old" "CN=ca" (-10) (-5) "1" []) 1); [done | lia | simpl; lia].
Defined.
