(* ===== verification/GatewayStart.v ===== *)
(** * Start-up of the gateway and the identity of its peers

    [main] of [crates/wasmbed-gateway/src/main.rs]: reading and parsing the key
    material, the initial registry, the server configuration and the heartbeat
    monitor; and what the configuration means for the connections that
    [GatewayServer::run] hands to the callbacks. *)

From S2P Require Import Prelude.
From S2P Require Import RustStd.
From S2P Require Import Externals.
From S2P Require Import Base64.
From S2P Require Import Protocol.
From S2P Require Import K8s.
From S2P Require Import KubeStore.
From S2P Require Import Registry.
From S2P Require Import RegistryProofs.
From S2P Require Import Gateway.
From S2P Require Import HttpApi.
From S2P Require Import GatewaySteps.
From S2P Require Import GatewayProofs.
From S2P Require Import Tls.
From S2P Require Import TlsProofs.

(** ** Start-up *)

Record Args := mkArgs {
  bind_addr : string;
  http_addr : string;
  arg_private_key : string;
  arg_certificate : string;
  arg_client_ca : string;
  arg_namespace : string;
  pod_namespace : string;
  pod_name : string;
  arg_require_client_auth : bool;
  arg_pairing_mode : bool;
  arg_pairing_timeout_seconds : Z;
  arg_heartbeat_timeout_seconds : Z;
}.

Inductive start_error :=
| ReadPrivateKey | ReadCertificate | ReadClientCa
| ParsePrivateKey (e : key_error) | ParseCertificate (e : cert_error) | ParseClientCa (e : cert_error)
| OnlyPkcs8 | NoCa | NoKubernetes.

(** A failure with its context. *)
Definition context {E A F} (f : E -> F) (r : result E A) : result F A :=
  match r with Ok a => Ok a | Err e => Err (f e) end.

Definition ok_or {A E} (e : E) (o : option A) : result E A := match o with Some a => Ok a | None => Err e end.

(** What the cluster answers while the client is created: the default client,
    then an inferred configuration and a client from it. *)
Record KubeBoot := mkKubeBoot { try_default : bool; infer_config : bool; try_from_config : bool }.

Definition create_client (k : KubeBoot) : bool := try_default k || (infer_config k && try_from_config k).

Record started := mkStarted {
  s_config : GatewayServerConfig;
  s_callbacks : Callbacks;
  s_http_server : HttpApiServer;
  s_heartbeat_timeout : Z;
}.

Section Start.
Context `{P : Pem} `{X : X509}.

Definition load_identity (fs : string -> option (list byte)) (args : Args) :
    result start_error (ServerIdentity * list byte) :=
  let? private_key_bytes := ok_or ReadPrivateKey (fs (arg_private_key args)) in
  let? certificate_bytes := ok_or ReadCertificate (fs (arg_certificate args)) in
  let? client_ca_bytes := ok_or ReadClientCa (fs (arg_client_ca args)) in
  let? key := context ParsePrivateKey (parse_private_key private_key_bytes) in
  let? cert := context ParseCertificate (parse_certificate certificate_bytes) in
  let? client_ca_certs := context ParseClientCa (parse_certificates client_ca_bytes) in
  let? server_key := match key with Pkcs8 der => Ok der | _ => Err OnlyPkcs8 end in
  let? client_ca := ok_or NoCa (head client_ca_certs) in
  Ok (mkServerIdentity server_key cert, client_ca).

(** The registry with the three values of the command line. *)
Definition initial_server (args : Args) : HttpApiServer :=
  set_heartbeat_timeout (arg_heartbeat_timeout_seconds args)
    (set_pairing_timeout (arg_pairing_timeout_seconds args)
      (set_pairing_mode (arg_pairing_mode args) HttpApiServer_new)).

(** [main] up to [server.run()]; a failed test request to the cluster is only
    logged. *)
Definition gateway_main (fs : string -> option (list byte)) (kb : KubeBoot) (args : Args) :
    result start_error started :=
  let? ids := load_identity fs args in
  let '(identity, client_ca) := ids in
  let gateway_ref := GatewayReference_new (pod_namespace args) (pod_name args) in
  if negb (create_client kb) then Err NoKubernetes else
  Ok (mkStarted (mkGatewayServerConfig identity client_ca (arg_require_client_auth args))
        (mkCallbacks (arg_require_client_auth args) gateway_ref)
        (initial_server args) (arg_heartbeat_timeout_seconds args)).

(** The end of [main]: an error of the server is logged and the process ends
    as if all were well. *)
Definition main_result (r : result run_error (list (string * list byte))) : result start_error unit := Ok tt.
End Start.

(** The heartbeat monitor: one check for every tick of 30 seconds, at the times
    given, with the timeout of the command line; a failed check is logged. *)
Definition heartbeat_monitor {W} `{Kube W} (timeout : Z) (ticks : list Z) (w : W) : W :=
  foldl (fun w now => (check_heartbeat_timeouts now timeout w).2) w ticks.

(** ** Peers *)

(** The TLS layer: what a peer's handshake comes to under a configuration. The
    law is the documented behaviour of rustls' [WebPkiClientVerifier]: a peer
    certificate is accepted only if the root vouches for it, and unless
    unauthenticated clients are allowed there is one. *)
Class TlsPeers (Peer : Type) := {
  handshake_of : GatewayServerConfig -> Peer -> handshake;
  vouches : list byte -> list byte -> Prop;
}.

Class TlsPeersLaws (Peer : Type) `{TlsPeers Peer} := {
  offered_verified cfg p leaf rest :
    handshake_of cfg p = HsOk (Some (leaf :: rest)) -> vouches (gsc_client_ca cfg) leaf;
  required_offered cfg p certs :
    handshake_of cfg p = HsOk certs -> gsc_require_client_auth cfg = true ->
    exists leaf rest, certs = Some (leaf :: rest);
}.

Section Peers.
Context {Peer : Type} `{T : TlsPeers Peer} `{P : Pem} `{X : X509}.
Context {W : Type} `{K : Kube W} `{B : Base64} `{E : Ecdsa} `{U : UuidParse}.
Variable st : started.

(** Every connection that this step opens is one that [run] accepted: its key
    is the one [handle_tls_connection] read from a completed handshake. *)
Definition opened_by_tls (g g' : gstate W) : Prop :=
  forall c ss, g_live g' !! c = Some ss -> g_live g !! c = None ->
  exists p certs, handshake_of (s_config st) p = HsOk certs /\ ss_key ss = peer_public_key certs.

(** The states of a started gateway. *)
Inductive serving (w0 : W) : gstate W -> Prop :=
| serving_init : serving w0 (mkGstate (s_http_server st) w0 ∅ [] ∅)
| serving_step g g' : serving w0 g -> step (s_callbacks st) g g' -> opened_by_tls g g' -> serving w0 g'.
End Peers.

(** ** What a started gateway knows of its peers *)

Lemma step_key_stable {W} `{K : Kube W} `{B : Base64} `{E : Ecdsa} `{U : UuidParse} cb (g g' : gstate W) c ss ss' :
  step cb g g' -> g_live g !! c = Some ss -> g_live g' !! c = Some ss' -> ss_key ss' = ss_key ss.
Proof.
  destruct 1; simpl; intros Hl Hl'; simplify_eq; try done.
  - apply lookup_insert_Some in Hl' as [[<- _] | [_ ?]]; congruence.
  - apply lookup_insert_Some in Hl' as [[<- <-] | [_ ?]]; [simpl|]; congruence.
  - apply lookup_delete_Some in Hl' as [_ ?]. congruence.
Qed.

Section Served.
Context {Peer : Type} `{T : TlsPeers Peer} `{L : !TlsPeersLaws Peer} `{P : Pem} `{X : X509}.
Context {W : Type} `{K : Kube W} `{B : Base64} `{E : Ecdsa} `{U : UuidParse}.

Lemma main_started fs kb args st : gateway_main fs kb args = Ok st ->
  exists identity ca, load_identity fs args = Ok (identity, ca) /\
    st = mkStarted (mkGatewayServerConfig identity ca (arg_require_client_auth args))
           (mkCallbacks (arg_require_client_auth args) (GatewayReference_new (pod_namespace args) (pod_name args)))
           (initial_server args) (arg_heartbeat_timeout_seconds args).
Proof.
  unfold gateway_main. intros H. inv_rbind. destruct a as [identity ca]. case_match; simplify_eq. eauto.
Qed.

(** The initial registry is what three admin requests make of an empty one. *)
Lemma serving_reachable fs kb args st w0 (g : gstate W) :
  gateway_main fs kb args = Ok st -> serving (Peer := Peer) st w0 g -> reachable (s_callbacks st) w0 g.
Proof.
  intros (identity & ca & _ & ->)%main_started. induction 1; [|by eapply reach_step]. simpl.
  eapply reach_step; [eapply reach_step; [eapply reach_step; [apply reach_init|]|]|].
  - by apply (step_admin _ (SetPairingMode (arg_pairing_mode args))).
  - by apply (step_admin _ (SetPairingTimeout (arg_pairing_timeout_seconds args))).
  - by apply (step_admin _ (SetHeartbeatTimeout (arg_heartbeat_timeout_seconds args))).
Qed.

Lemma serving_keys st w0 (g : gstate W) c ss :
  serving (Peer := Peer) st w0 g -> g_live g !! c = Some ss ->
  exists p certs, handshake_of (s_config st) p = HsOk certs /\ ss_key ss = peer_public_key certs.
Proof.
  intros H. revert c ss. induction H as [|g g' _ IH Hs Ho]; intros c ss Hl; [simpl in Hl; by rewrite lookup_empty in Hl|].
  destruct (g_live g !! c) as [ss0|] eqn:E0; [|by eapply Ho].
  destruct (IH _ _ E0) as (p & certs & Hh & Hk). exists p, certs. split; [done|].
  rewrite <- Hk. by eapply step_key_stable.
Qed.

(** C22: End-to-end identity: in a gateway that [main] started with client certificates
    required, a connection bound to a device other than by a deployment request
    completed a TLS handshake with a certificate that the configured CA vouches
    for, and on it a challenge of the gateway was answered with a signature that
    verifies under the very key of that certificate. *)
Theorem authenticated_binding fs kb args st w0 (g : gstate W) c d :
  gateway_main fs kb args = Ok st -> arg_require_client_auth args = true ->
  serving (Peer := Peer) st w0 g ->
  connection_to_device (g_srv g) !! c = Some d -> c ∉ g_forced g ->
  exists ss leaf n sig, g_live g !! c = Some ss /\
    vouches (gsc_client_ca (s_config st)) leaf /\ extract_public_key leaf = Ok (ss_key ss) /\
    (exists x, x ∈ ss_log ss /\ SChallenge n ∈ x_replies x) /\
    (exists x, x ∈ ss_log ss /\ x_message x = Some (CChallengeResponse sig)) /\
    verify_pop_signature (ss_key ss) n sig = Ok tt.
Proof.
  intros Hm Hr Hs Hd Hf.
  destruct (identity_reachable _ _ _ (serving_reachable _ _ _ _ _ _ Hm Hs)) as [_ Hb].
  destruct (Hb _ _ Hd) as [(ss & Hl & Hp) | ?]; [|done].
  destruct Hp as (l1 & l2 & l3 & ch & sig & t & u & Hlog & _ & Hk & _ & Hv).
  destruct (serving_keys _ _ _ _ _ Hs Hl) as (p & certs & Hh & Hkey).
  apply main_started in Hm as (identity & ca & _ & ->). simpl in *.
  unfold key_bound in Hk. simpl in Hk. rewrite Hr in Hk.
  destruct (required_offered _ _ _ Hh Hr) as (leaf & rest & ->).
  pose proof (offered_verified _ _ _ _ Hh) as Ht. simpl in Ht, Hkey.
  destruct (extract_public_key leaf) as [key|e] eqn:Ek; [|by rewrite Hkey in Hk].
  exists ss, leaf, (nonce ch), sig. rewrite Hlog. destruct (ss_key ss) as [|b key'] eqn:Eb; [done|]. split_and!; try done.
  - by rewrite Ek, <- Hkey.
  - exists (challenge_exchange ch). split; [|by left]. apply elem_of_app. right. by left.
  - exists (mkExchange t (Some (CChallengeResponse sig)) [SDeviceUuid u]). split; [|done].
    apply elem_of_app. right. right. apply elem_of_app. right. by left.
  - by rewrite Hk.
Qed.
End Served.

(** Start-up: with a readable PKCS#8 key, a certificate, and a CA file that is a bundle
    of PEM blocks with at least one certificate, the gateway starts whenever a
    client for the cluster can be made; it then trusts the first certificate of
    the bundle and no other, demands client certificates in the TLS layer exactly
    when the callbacks do, keeps key and certificate as parsed, and its registry
    is empty with the timeouts of the command line. *)
Theorem gateway_main_starts `{P : Pem} `{L : !PemLaws} `{X : X509} (fs : string -> option (list byte)) (kb : KubeBoot)
    (args : Args) (kbytes cbytes key cert pre : list byte) (blocks : list block) (ca : list byte) (others : list (list byte)) :
  fs (arg_private_key args) = Some kbytes -> parse_private_key kbytes = Ok (Pkcs8 key) ->
  fs (arg_certificate args) = Some cbytes -> parse_certificate cbytes = Ok cert ->
  fs (arg_client_ca args) = Some (pre ++ bundle_text blocks) ->
  pem_plain pre -> Forall (fun b => pem_label b.1 = true) blocks -> bundle_certs blocks = ca :: others ->
  create_client kb = true ->
  exists st, gateway_main fs kb args = Ok st /\
    s_config st = mkGatewayServerConfig (mkServerIdentity key cert) ca (arg_require_client_auth args) /\
    require_client_auth (s_callbacks st) = gsc_require_client_auth (s_config st) /\
    registry_ok (s_http_server st) /\ connection_to_device (s_http_server st) = ∅ /\
    s_heartbeat_timeout st = heartbeat_timeout_seconds (s_http_server st).
Proof.
  intros Hk Pk Hc Pc Ha Hp Hb Hca Hkb.
  destruct (parse_blocks_bundle (S (length (pre ++ bundle_text blocks))) pre blocks Hp Hb) as (cs & Hcs & Hst); [lia|].
  rewrite Hca in Hst. pose proof (stutters_head _ _ Hst) as Hh. destruct cs as [|c cs]; [done|]. injection Hh as ->.
  unfold gateway_main, load_identity. rewrite Hk, Hc, Ha; simpl. rewrite Pk, Pc; simpl.
  unfold parse_certificates. rewrite Hcs; simpl. rewrite Hkb; simpl.
  eexists. split; [done|]. split_and!; done.
Qed.

(** ** Witnesses *)

(** Peers that offer the demo device's certificate, and certificates that carry
    their key as their bytes. *)
#[local] Instance key_x509 : X509 := fun der => Some (mkX509 "CN=device" "CN=ca" 0 0 "1" der).

#[local] Instance demo_peers : TlsPeers () := {
  handshake_of _ _ := HsOk (Some [demo_key]);
  vouches _ leaf := leaf = demo_key;
}.

#[local] Instance demo_peers_laws : TlsPeersLaws ().
Proof.
  split.
  - by intros ? ? leaf rest [= <- <-].
  - intros ? ? certs [= <-] _. by exists demo_key, [].
Defined.

Definition demo_args : Args :=
  mkArgs "0.0.0.0:4423" "0.0.0.0:8080" "key" "cert" "ca" "wasmbed" "wasmbed" "gateway-1" true false 300 90.

Definition demo_files (path : string) : option (list byte) :=
  if bool_decide (path = "key"%string) then Some (pem_encode "PRIVATE KEY" [Byte.x30; Byte.x2e]) else
  if bool_decide (path = "cert"%string) then Some (pem_encode "CERTIFICATE" [Byte.x30; Byte.x31]) else
  Some (demo_pre ++ bundle_text demo_bundle).

Definition demo_started : started :=
  mkStarted (mkGatewayServerConfig (mkServerIdentity [Byte.x30; Byte.x2e] [Byte.x30; Byte.x31]) [Byte.x30; Byte.x01] true)
    demo_cb (initial_server demo_args) 90.

Lemma demo_main : gateway_main demo_files (mkKubeBoot true false false) demo_args = Ok demo_started.
Proof. vm_compute. reflexivity. Qed.

Lemma gateway_main_starts_witness :
  exists st, gateway_main demo_files (mkKubeBoot true false false) demo_args = Ok st.
Proof.
  edestruct (gateway_main_starts demo_files (mkKubeBoot true false false) demo_args
    (pem_encode "PRIVATE KEY" [Byte.x30; Byte.x2e]) (pem_encode "CERTIFICATE" [Byte.x30; Byte.x31])
    [Byte.x30; Byte.x2e] [Byte.x30; Byte.x31] demo_pre demo_bundle [Byte.x30; Byte.x01] [[Byte.x30; Byte.x02]])
    as (st & H & _).
  1-5: vm_compute; reflexivity.
  - simpl. by intros [? _]%elem_of_replicate.
  - repeat constructor.
  - reflexivity.
  - reflexivity.
  - by exists st.
Defined.

Definition demo_conn : string := "10.0.0.7:4000".

(** A step of the demo gateway that opens no connection but the device's. *)
Lemma serving_demo (g g' : gstate cluster) :
  serving (Peer := ()) (K := mem_kube) (B := base64) (E := toy_ecdsa) (U := hex_uuid) demo_started demo_cluster g ->
  step (K := mem_kube) (B := base64) (E := toy_ecdsa) (U := hex_uuid) demo_cb g g' ->
  map_Forall (fun _ ss => ss_key ss = demo_key) (g_live g') ->
  serving (Peer := ()) (K := mem_kube) (B := base64) (E := toy_ecdsa) (U := hex_uuid) demo_started demo_cluster g'.
Proof.
  intros Hs Hst Hn. eapply serving_step; [done..|]. intros c ss H1 _. exists tt, (Some [demo_key]). split; [done|].
  by rewrite (Hn _ _ H1).
Qed.

Lemma authenticated_binding_witness :
  exists g ss leaf, serving (Peer := ()) (K := mem_kube) (B := base64) (E := toy_ecdsa) (U := hex_uuid)
      demo_started demo_cluster g /\
    g_live g !! demo_conn = Some ss /\ vouches (Peer := ()) [Byte.x30; Byte.x01] leaf /\
    extract_public_key leaf = Ok (ss_key ss).
Proof.
  assert (exists g, serving (Peer := ()) (K := mem_kube) (B := base64) (E := toy_ecdsa) (U := hex_uuid)
      demo_started demo_cluster g /\
    connection_to_device (g_srv g) !! demo_conn = Some demo_name /\ g_forced g = ∅) as (g & Hg & Hc & Hf).
  { eexists. split.
    - eapply serving_demo; [eapply serving_demo; [eapply serving_demo; [eapply serving_demo; [apply serving_init|..]|..]|..]|..].
      + apply (step_accept demo_cb (demo_inputs 0) demo_conn demo_key 7); [done|vm_compute; reflexivity].
      + apply map_Forall_insert_2; [done|apply map_Forall_empty].
      + apply (step_ready demo_cb (demo_inputs 1) demo_conn demo_key 7 []).
      + apply map_Forall_insert_2; [done|apply map_Forall_empty].
      + eapply (step_message demo_cb (demo_inputs 2) demo_conn _ (Some (CPublicKey demo_key)));
          [vm_compute; reflexivity|vm_compute; reflexivity].
      + do 2 (apply map_Forall_insert_2; [done|]). apply map_Forall_empty.
      + eapply (step_message demo_cb (demo_inputs 3) demo_conn _ (Some (CChallengeResponse demo_signature)));
          [vm_compute; reflexivity|vm_compute; reflexivity].
      + do 3 (apply map_Forall_insert_2; [done|]). apply map_Forall_empty.
    - split; vm_compute; reflexivity. }
  destruct (authenticated_binding (Peer := ()) demo_files (mkKubeBoot true false false) demo_args demo_started
    demo_cluster g demo_conn demo_name) as (ss & leaf & n & sig & H1 & H2 & H3 & _);
    [apply demo_main | reflexivity | exact Hg | exact Hc | rewrite Hf; apply not_elem_of_empty |].
  by exists g, ss, leaf.
Defined.
