(* ===== verification/GatewayModules.v ===== *)
(** * The gateway modules outside the build: [deployment.rs], [enrollment.rs],
    [heartbeat.rs] and [local_cache.rs] of [crates/wasmbed-gateway/src]

    [main.rs] declares none of them; they are small trackers on their own. The
    tracker of deployments is compared with a table keyed by application and
    device, which it implements as long as no application identifier has a
    dash. *)

From Stdlib Require Import Strings.Ascii.
From S2P Require Import Prelude.
From S2P Require Import RustStd.
Local Open Scope Z_scope.

(** ** Deployments *)

Inductive DeploymentStatus := DsPending | DsDeploying | DsRunning | DsFailed | DsStopped.

Record DeploymentInfo := mkDeploymentInfo {
  din_app_id : string;
  din_device_id : string;
  din_status : DeploymentStatus;
  din_deployed_at : Z;
  din_error : option string;
}.

Definition deployment_key (app_id device_id : string) : string := (app_id ++ String "-"%char device_id)%string.

(** [DeploymentService], its table. *)
Definition record_deploy_started (now : Z) (app_id device_id : string) (t : gmap string DeploymentInfo) :
    gmap string DeploymentInfo :=
  <[deployment_key app_id device_id := mkDeploymentInfo app_id device_id DsDeploying now None]> t.

(** The error is kept only for a deployment that is known. *)
Definition record_deploy_outcome (now : Z) (app_id device_id : string) (status : DeploymentStatus)
    (error : option string) (t : gmap string DeploymentInfo) : gmap string DeploymentInfo :=
  let key := deployment_key app_id device_id in
  match t !! key with
  | Some d => <[key := mkDeploymentInfo (din_app_id d) (din_device_id d) status (din_deployed_at d) error]> t
  | None => <[key := mkDeploymentInfo app_id device_id status now None]> t
  end.

Definition get_deployment_status (app_id device_id : string) (t : gmap string DeploymentInfo) : option DeploymentStatus :=
  din_status <$> t !! deployment_key app_id device_id.

Inductive deployment_event :=
| DeployStarted (now : Z) (app_id device_id : string)
| DeployOutcome (now : Z) (app_id device_id : string) (status : DeploymentStatus) (error : option string).

Definition track (e : deployment_event) (t : gmap string DeploymentInfo) : gmap string DeploymentInfo :=
  match e with
  | DeployStarted now a d => record_deploy_started now a d t
  | DeployOutcome now a d st err => record_deploy_outcome now a d st err t
  end.
Definition tracked (es : list deployment_event) : gmap string DeploymentInfo := foldl (fun t e => track e t) ∅ es.

(** *** The table it stands for *)

Definition event_target (e : deployment_event) : string * string :=
  match e with DeployStarted _ a d | DeployOutcome _ a d _ _ => (a, d) end.
Definition event_status (e : deployment_event) : DeploymentStatus :=
  match e with DeployStarted _ _ _ => DsDeploying | DeployOutcome _ _ _ st _ => st end.
Definition last_statuses (es : list deployment_event) : gmap (string * string) DeploymentStatus :=
  foldl (fun m e => <[event_target e := event_status e]> m) ∅ es.

Fixpoint no_dash (s : string) : bool :=
  match s with EmptyString => true | String a s => negb (Ascii.eqb a "-"%char) && no_dash s end.

Lemma deployment_key_inj a d a' d' :
  no_dash a = true -> no_dash a' = true -> deployment_key a d = deployment_key a' d' -> a = a' /\ d = d'.
Proof.
  unfold deployment_key. revert a'. induction a as [|c a IH]; intros [|c' a']; simpl.
  - by intros _ _ [= ->].
  - intros _ [H _]%andb_true_iff. intros [= <- _]. done.
  - intros [H _]%andb_true_iff _. intros [= -> _]. done.
  - intros [_ Ha]%andb_true_iff [_ Ha']%andb_true_iff. intros [= -> E].
    destruct (IH a' Ha Ha' E) as [-> ->]. done.
Qed.

Lemma track_status e t a d :
  no_dash a = true -> no_dash (event_target e).1 = true ->
  get_deployment_status a d (track e t) =
    if decide (event_target e = (a, d)) then Some (event_status e) else get_deployment_status a d t.
Proof.
  intros Ha He. unfold get_deployment_status.
  assert (forall a' d' i, no_dash a' = true ->
    din_status <$> (<[deployment_key a' d' := i]> t) !! deployment_key a d =
      if decide ((a', d') = (a, d)) then Some (din_status i) else din_status <$> t !! deployment_key a d) as Hins.
  { intros a' d' i Ha'. destruct (decide ((a', d') = (a, d))) as [[= -> ->]|Hne]; [by rewrite lookup_insert_eq|].
    rewrite lookup_insert_ne; [done|]. intros E. by destruct (deployment_key_inj _ _ _ _ Ha' Ha E) as [-> ->]. }
  destruct e as [now a' d'|now a' d' st err]; simpl in *; [by apply Hins|].
  unfold record_deploy_outcome. destruct (t !! deployment_key a' d'); by rewrite Hins.
Qed.

(** The tracker is the table of the last recorded status of every pair of
    application and device, for identifiers of applications without a dash. *)
Theorem tracker_refines_table es a d :
  Forall (fun e => no_dash (event_target e).1 = true) es -> no_dash a = true ->
  get_deployment_status a d (tracked es) = last_statuses es !! (a, d).
Proof.
  intros Hes Ha. unfold tracked, last_statuses.
  assert (forall t (m : gmap (string * string) DeploymentStatus), get_deployment_status a d t = m !! (a, d) ->
    get_deployment_status a d (foldl (fun t e => track e t) t es) =
      foldl (fun m e => <[event_target e := event_status e]> m) m es !! (a, d)) as H; [|by apply H].
  induction Hes as [|e es He _ IH]; intros t m Htm; simpl; [done|]. apply IH.
  rewrite track_status by done. destruct (decide (event_target e = (a, d))) as [->|Hne].
  - by rewrite lookup_insert_eq.
  - by rewrite lookup_insert_ne.
Qed.

(** With dashes two pairs share an entry, and the error of an outcome that
    was not announced is lost. *)
Theorem tracker_confuses now app device :
  get_deployment_status "a" ("b-" ++ device) (tracked [DeployStarted now "a-b" device]) = Some DsDeploying /\
  din_error <$> tracked [DeployOutcome now app device DsFailed (Some "boom"%string)] !! deployment_key app device = Some None.
Proof.
  split.
  - unfold get_deployment_status, tracked. simpl. unfold record_deploy_started.
    change (deployment_key "a" ("b-" ++ device)) with (deployment_key "a-b" device). by rewrite lookup_insert_eq.
  - unfold tracked. simpl. unfold record_deploy_outcome. rewrite lookup_empty. by rewrite lookup_insert_eq.
Qed.

(** ** Enrollment, heartbeats and the cache *)

Definition enroll_device (pairing_enabled : bool) (device_id _public_key : string) : result string string :=
  if pairing_enabled then Ok ("device-uuid-" ++ device_id)%string else Err "Pairing mode is disabled"%string.

(** The devices one round of [HeartbeatManager::run] warns about, in the
    order of the table; a clock that went back counts as exactly one timeout. *)
Definition HEARTBEAT_TIMEOUT : Z := 60 * 10 ^ 9.
Definition overdue (now : Z) (last : Z) : bool :=
  let elapsed := if last <=? now then now - last else HEARTBEAT_TIMEOUT in HEARTBEAT_TIMEOUT <? elapsed.
Definition heartbeat_round (now : Z) (last_heartbeats : gmap string Z) : list string :=
  fst <$> List.filter (fun p => overdue now p.2) (map_to_list last_heartbeats).
Definition manager_update_heartbeat (now : Z) (device_id : string) (m : gmap string Z) : gmap string Z := <[device_id := now]> m.

(** A round warns about exactly the devices silent for more than a minute. *)
Theorem heartbeat_round_exact now m d :
  d ∈ heartbeat_round now m <-> exists t, m !! d = Some t /\ HEARTBEAT_TIMEOUT < now - t.
Proof.
  unfold heartbeat_round. rewrite list_elem_of_fmap. split.
  - intros ([d' t] & -> & Hin). apply list_elem_of_In, filter_In in Hin as [Hin Ho].
    apply list_elem_of_In, elem_of_map_to_list in Hin. exists t. split; [done|]. simpl in Ho. unfold overdue in Ho.
    apply Z.ltb_lt in Ho. destruct (Z.leb_spec t now); [done|lia].
  - intros (t & Hm & Ht). exists (d, t). split; [done|]. apply list_elem_of_In, filter_In. split.
    + by apply list_elem_of_In, elem_of_map_to_list.
    + unfold overdue, HEARTBEAT_TIMEOUT in *. simpl. apply Z.ltb_lt. destruct (Z.leb_spec t now); lia.
Qed.

Definition cache_set (k v : string) (m : gmap string string) : gmap string string := <[k := v]> m.
Definition cache_get (k : string) (m : gmap string string) : option string := m !! k.
Definition cache_remove (k : string) (m : gmap string string) : option string * gmap string string := (m !! k, delete k m).

Definition demo_history : list deployment_event :=
  [DeployStarted 1 "app" "dev-1"; DeployStarted 2 "app" "dev-2"; DeployOutcome 3 "app" "dev-1" DsRunning None].

Lemma tracker_refines_table_witness :
  get_deployment_status "app" "dev-1" (tracked demo_history) = Some DsRunning /\
  get_deployment_status "app" "dev-2" (tracked demo_history) = Some DsDeploying.
Proof.
  split; (rewrite (tracker_refines_table demo_history); [reflexivity|by repeat constructor|reflexivity]).
Defined.
