(* ===== verification/EdgeClient.v ===== *)
(** * The Linux edge client: [crates/wasmbed-edge-client]

    The device identity, the enrollment handshake as the states between its
    awaits, the application runner and the message loop. The runtime that
    executes a module and the amount of free memory are outside the model: a
    started module is a task number. *)

From S2P Require Import Prelude.
From S2P Require Import RustStd.
From S2P Require Import Externals.
From S2P Require Import Protocol.

(** ** Identity ([identity.rs]) *)

Definition CLIENT_POP_CONTEXT : list byte := str_bytes "wasmbed-pop-v1".

Definition P256_SPKI_PREFIX : list byte :=
  map byte_of [0x30; 0x59; 0x30; 0x13; 0x06; 0x07; 0x2a; 0x86; 0x48; 0xce; 0x3d; 0x02; 0x01; 0x06; 0x08;
               0x2a; 0x86; 0x48; 0xce; 0x3d; 0x03; 0x01; 0x07; 0x03; 0x42; 0x00].

Section Identity.
Context `{E : Ecdsa} `{H : Sha256}.

Record DeviceIdentity := mkDeviceIdentity {
  id_key_pair : private_key;
  id_spki : list byte;
}.

Inductive identity_error := NotPkcs8P256 | NotUncompressed (len : Z) | SigningFailed.

Definition DeviceIdentity_from_pkcs8 (pkcs8 : list byte) : result identity_error DeviceIdentity :=
  match from_pkcs8 pkcs8 with
  | None => Err NotPkcs8P256
  | Some key_pair =>
      let point := public_point key_pair in
      if (zlen point =? 65) && bool_decide (point !! 0%nat = Some (byte_of 0x04))
      then Ok (mkDeviceIdentity key_pair (P256_SPKI_PREFIX ++ point))
      else Err (NotUncompressed (zlen point))
  end.

(** The transcript is hashed here, and again by the signing function. *)
Definition sign_challenge (id : DeviceIdentity) (nonce : list byte) : result identity_error (list byte) :=
  let transcript := sha256 (CLIENT_POP_CONTEXT ++ nonce ++ id_spki id) in
  match ecdsa_sign (id_key_pair id) transcript with
  | Some sig => Ok sig
  | None => Err SigningFailed
  end.
End Identity.

(** ** Enrollment ([protocol.rs]) *)

Inductive enroll_error :=
| Rejected (reason : list byte)
| PopRejected (reason : list byte)
| Unexpected (m : ServerMessage)
| CannotSign
| BadFrame.

(** The points at which [enroll] waits for a frame, and its two outcomes. *)
Inductive enroll_state :=
| WaitAccepted
| WaitChallenge
| WaitUuid
| WaitCompleted
| EnrollOk
| EnrollErr (e : enroll_error).

Section Enroll.
(** the announced key and the signer of the identity *)
Context (spki : list byte) (sign : list byte -> option (list byte)).

(** What is sent before the first wait. *)
Definition enroll_start : list ClientMessage * enroll_state := ([CEnrollmentRequest], WaitAccepted).

(** One received frame ([None] when it did not decode): what is sent next. *)
Definition enroll_recv (st : enroll_state) (frame : option ServerMessage) : list ClientMessage * enroll_state :=
  match st with
  | EnrollOk | EnrollErr _ => ([], st)
  | _ =>
      match frame with
      | None => ([], EnrollErr BadFrame)
      | Some m =>
          match st, m with
          | WaitAccepted, SEnrollmentAccepted => ([CPublicKey spki], WaitChallenge)
          | WaitAccepted, SEnrollmentRejected reason => ([], EnrollErr (Rejected reason))
          | WaitAccepted, other => ([], EnrollErr (Unexpected other))
          | WaitChallenge, SChallenge nonce =>
              match sign nonce with
              | Some signature => ([CChallengeResponse signature], WaitUuid)
              | None => ([], EnrollErr CannotSign)
              end
          | WaitChallenge, SDeviceUuid _ => ([CEnrollmentAcknowledgment], WaitCompleted)
          | WaitChallenge, other => ([], EnrollErr (Unexpected other))
          | WaitUuid, SDeviceUuid _ => ([CEnrollmentAcknowledgment], WaitCompleted)
          | WaitUuid, SEnrollmentRejected reason => ([], EnrollErr (PopRejected reason))
          | WaitUuid, other => ([], EnrollErr (Unexpected other))
          | WaitCompleted, _ => ([], EnrollOk)
          | _, _ => ([], st)
          end
      end
  end.
End Enroll.

(** ** The application runner ([wasm_runner.rs]) *)

(** A spawned blocking task. *)
Definition task := Z.

Record WasmRunner := mkWasmRunner { handles : gmap string task }.

Definition WasmRunner_new : WasmRunner := mkWasmRunner ∅.

Definition WASM_MAGIC : list byte := map byte_of [0x00; 0x61; 0x73; 0x6d].

(** [bytes.get(0..4) == Some(magic)] *)
Definition validate_wasm_magic (bytes : list byte) : bool :=
  if zlen bytes <? 4 then false else bool_decide (take 4 bytes = WASM_MAGIC).

(** The error text, the runner, and the tasks that were aborted. *)
Definition runner_stop (app_id : string) (r : WasmRunner) : result string unit * WasmRunner * list task :=
  match handles r !! app_id with
  | Some handle => (Ok tt, mkWasmRunner (delete app_id (handles r)), [handle])
  | None => (Err ("Application '" ++ app_id ++ "' not found")%string, r, [])
  end.

(** [fresh] is the task [spawn_blocking] creates. *)
Definition runner_deploy (fresh : task) (app_id : string) (wasm_bytes : list byte)
    (config : option ApplicationConfig) (r : WasmRunner) : result string unit * WasmRunner * list task :=
  let '(_, r, aborted) := runner_stop app_id r in
  if validate_wasm_magic wasm_bytes
  then (Ok tt, mkWasmRunner (<[app_id := fresh]> (handles r)), aborted)
  else (Err "Not a valid WASM module (missing magic bytes)"%string, r, aborted).

Definition is_running (app_id : string) (r : WasmRunner) : bool := bool_decide (is_Some (handles r !! app_id)).

(** The order in which a [HashMap] hands out its keys is arbitrary: each key
    once. *)
Class HashOrder := {
  hash_keys : gmap string task -> list string;
  hash_keys_all m : hash_keys m ≡ₚ fst <$> map_to_list m;
}.

Definition running_app_ids `{O : HashOrder} (r : WasmRunner) : list string := hash_keys (handles r).

(** One such order, for examples. *)
Definition map_order : HashOrder.
Proof. refine {| hash_keys m := fst <$> map_to_list m |}. done. Defined.

(** ** The message loop ([event_loop]) *)

Section Loop.
Context `{H : Sha256} {O : HashOrder}.
(** [available_memory_bytes()] and [std::env::consts::ARCH] *)
Variables (memory : Z) (arch : string).

Definition status_message (r : WasmRunner) (id : string) : ClientMessage :=
  CApplicationStatus id (if is_running id r then Running else Stopped) None None.

Definition ack_fields (res : result string unit) : bool * option string :=
  match res with Ok _ => (true, None) | Err e => (false, Some e) end.

(** One decoded message: what is queued for the gateway, the runner, and the
    tasks that were aborted. *)
Definition handle_server_message (fresh : task) (msg : ServerMessage) (r : WasmRunner) :
    list ClientMessage * WasmRunner * list task :=
  match msg with
  | SHeartbeatAck | SChallenge _ => ([], r, [])
  | SDeployApplication app_id name module_hash wasm_bytes config =>
      if bool_decide (sha256 wasm_bytes = module_hash) then
        let '(res, r, aborted) := runner_deploy fresh app_id wasm_bytes config r in
        let '(success, error) := ack_fields res in
        ([CApplicationDeployAck app_id success error], r, aborted)
      else ([CApplicationDeployAck app_id false (Some "module hash mismatch"%string)], r, [])
  | SStopApplication app_id =>
      let '(res, r, aborted) := runner_stop app_id r in
      let '(success, error) := ack_fields res in
      ([CApplicationStopAck app_id success error], r, aborted)
  | SRequestDeviceInfo =>
      ([CDeviceInfo memory arch ["wasi_preview1"; "wasmtime"]%string (16 * 1024 * 1024)], r, [])
  | SRequestApplicationStatus app_id =>
      let ids := match app_id with Some id => [id] | None => running_app_ids r end in
      (status_message r <$> ids, r, [])
  | SEnrollmentAccepted | SEnrollmentRejected _ | SDeviceUuid _ | SEnrollmentCompleted => ([], r, [])
  end.
End Loop.
