(* ===== verification/EdgeClientProofs.v ===== *)
(** * The edge client against the gateway

    The enrollment dialogue of a client with the gateway of [Gateway], and the
    applications a client runs. *)

From S2P Require Import Prelude.
From S2P Require Import RustStd.
From S2P Require Import Externals.
From S2P Require Import Base64.
From S2P Require Import Protocol.
From S2P Require Import K8s.
From S2P Require Import KubeStore.
From S2P Require Import K8sProofs.
From S2P Require Import Registry.
From S2P Require Import RegistryProofs.
From S2P Require Import Gateway.
From S2P Require Import GatewaySteps.
From S2P Require Import EnrollmentProofs.
From S2P Require Import EdgeClient.

(** ** The dialogue *)

Section Dialogue.
Context {W : Type} `{K : Kube W} `{B : Base64} `{E : Ecdsa} `{U : UuidParse}.
Implicit Types (w : W) (s : HttpApiServer).
Variables (cb : Callbacks) (tls_key : list byte) (c : string).
Variables (spki : list byte) (sign : list byte -> option (list byte)).

Fixpoint feed (st : enroll_state) (frames : list ServerMessage) : list ClientMessage * enroll_state :=
  match frames with
  | [] => ([], st)
  | f :: frames =>
      let '(out, st) := enroll_recv spki sign st (Some f) in
      let '(out', st) := feed st frames in (out ++ out', st)
  end.

(** The gateway answers the queued messages one at a time, reading the clock
    and the generators from the next inputs; the client reads the answers. *)
Fixpoint dialogue (inputs : list Inputs) (queue : list ClientMessage) (est : enroll_state)
    (s : HttpApiServer) (w : W) : enroll_state * HttpApiServer * W :=
  match inputs, queue with
  | inp :: inputs, m :: queue =>
      let '(rs, s, w) := on_message cb inp tls_key c (Some m) s w in
      let '(out, est) := feed est rs in
      dialogue inputs (queue ++ out) est s w
  | _, _ => (est, s, w)
  end.

Definition run_enroll (inputs : list Inputs) (s : HttpApiServer) (w : W) :=
  let '(queue, est) := enroll_start in dialogue inputs queue est s w.

(** The state after the challenge has been issued. *)
Definition challenged (i2 : Inputs) (s : HttpApiServer) : HttpApiServer :=
  with_challenges <[c := mkPendingChallenge (in_nonce i2) spki (in_now i2)]> s.

Lemma public_key_challenged i2 s w :
  key_bound cb tls_key spki ->
  handle_public_key cb i2 tls_key c spki s w = ([SChallenge (in_nonce i2)], challenged i2 s, w).
Proof.
  unfold key_bound, handle_public_key. destruct tls_key as [|b k].
  - by intros ->.
  - intros Hk. rewrite andb_false_r, (bool_decide_true _ Hk). done.
Qed.

Lemma take_challenged i2 i3 s :
  in_now i3 - in_now i2 <= CHALLENGE_TTL ->
  exists s3, take_challenge (in_now i3) c (challenged i2 s) =
               (Some (mkPendingChallenge (in_nonce i2) spki (in_now i2)), s3) /\
             connection_to_device s3 = connection_to_device s.
Proof.
  intros Ht. pose proof (take_challenge_of (in_now i3) c (challenged i2 s)
    (mkPendingChallenge (in_nonce i2) spki (in_now i2))) as H.
  pose proof (take_challenge_bindings (in_now i3) c (challenged i2 s)) as Hb.
  destruct (take_challenge (in_now i3) c (challenged i2 s)) as [r s3]. simpl in *.
  rewrite lookup_insert_eq in H. specialize (H eq_refl).
  rewrite (proj2 (Z.ltb_ge _ _)) in H by lia. exists s3. by rewrite H.
Qed.

(** The dialogue up to the answer to the challenge. *)
Lemma dialogue_to_response i1 i2 rest s w sig :
  key_bound cb tls_key spki -> sign (in_nonce i2) = Some sig ->
  run_enroll (i1 :: i2 :: rest) s w =
    dialogue rest [CChallengeResponse sig] WaitUuid (challenged i2 s) w.
Proof.
  intros Hk Hs. unfold run_enroll, enroll_start. cbn [dialogue on_message feed enroll_recv app].
  rewrite (public_key_challenged i2 s w Hk). cbn [feed enroll_recv]. by rewrite Hs.
Qed.

Lemma reconnect_binds i3 s w d :
  Device_find w spki = Ok (Some d) ->
  exists u s' w', complete_enrollment cb i3 spki c s w = ([SDeviceUuid u], s', w') /\
    connection_to_device s' !! c = Some (name_any d).
Proof.
  intros Hf. unfold complete_enrollment. rewrite Hf. do 3 eexists. split; [done|].
  by rewrite activate_bindings, lookup_insert_eq.
Qed.
End Dialogue.

Section Outcome.
Context {W : Type} `{K : Kube W} `{B : Base64} `{E : Ecdsa} `{U : UuidParse}.
Context `{LE : !EcdsaLaws E}.
Implicit Types (w : W) (s : HttpApiServer).

(** A device that signs the transcript of the challenge with its key enrolls. *)
Lemma signer_enrolls cb tls_key c sk spki i1 i2 i3 i4 s w d sig :
  spki_point spki = Some (public_point sk) -> key_bound cb tls_key spki ->
  ecdsa_sign sk (pop_transcript (in_nonce i2) spki) = Some sig ->
  Device_find w spki = Ok (Some d) -> in_now i3 - in_now i2 <= CHALLENGE_TTL ->
  exists s' w',
    run_enroll cb tls_key c spki (fun n => ecdsa_sign sk (pop_transcript n spki)) [i1; i2; i3; i4] s w =
      (EnrollOk, s', w') /\
    connection_to_device s' !! c = Some (name_any d).
Proof.
  intros Hp Hk Hs Hf Ht. rewrite (dialogue_to_response _ _ _ _ _ _ _ _ _ _ sig Hk Hs).
  cbn [dialogue on_message]. unfold handle_challenge_response.
  destruct (take_challenged c spki i2 i3 s Ht) as (s3 & -> & Hb). cbn [announced_key nonce].
  unfold verify_pop_signature, ec_point_from_spki. rewrite Hp. cbn [rbind].
  rewrite (sign_verify _ _ _ Hs).
  destruct (reconnect_binds cb c spki i3 s3 w d Hf) as (u & s' & w' & -> & Hbind).
  cbn [feed enroll_recv app dialogue on_message]. by exists s', w'.
Qed.

(** A provisioned device that signs the transcript of the challenge (its
    context, the nonce, its key) completes the handshake with the gateway in
    four messages and is bound to its Device object, provided it answers
    within the time to live and its transport identity fits. *)
Theorem conforming_client_enrolls cb tls_key c sk spki i1 i2 i3 i4 s w d sig :
  spki_point spki = Some (public_point sk) -> key_bound cb tls_key spki ->
  ecdsa_sign sk (pop_transcript (in_nonce i2) spki) = Some sig ->
  Device_find w spki = Ok (Some d) -> in_now i3 - in_now i2 <= CHALLENGE_TTL ->
  exists s' w',
    run_enroll cb tls_key c spki (fun n => ecdsa_sign sk (pop_transcript n spki)) [i1; i2; i3; i4] s w =
      (EnrollOk, s', w') /\
    connection_to_device s' !! c = Some (name_any d).
Proof. apply signer_enrolls. Qed.

Lemma client_transcript_length (spki nonce : list byte) :
  length nonce = 32%nat -> length (pop_transcript nonce spki) <> 32%nat.
Proof.
  intros Hn. unfold pop_transcript. rewrite !length_app, Hn.
  change (length POP_CONTEXT) with 14%nat. lia.
Qed.

(** C36: the edge client hashes the transcript before it hands it to a signing
    function that hashes again, so the gateway's check of its answer fails:
    a genuine, provisioned edge client is always rejected, its connection is
    not bound and nothing changes in Kubernetes. For a gateway that does not
    require client certificates, a nonce of 32 bytes and an answer in time,
    where a signature verifies for no message but the one that was signed. *)
Theorem edge_client_always_rejected `{Hash : Sha256} `{LH : !Sha256Laws Hash}
    cb c pkcs8 id i1 i2 i3 i4 s w :
  DeviceIdentity_from_pkcs8 pkcs8 = Ok id ->
  spki_point (id_spki id) = Some (public_point (id_key_pair id)) ->
  require_client_auth cb = false -> length (in_nonce i2) = 32%nat ->
  in_now i3 - in_now i2 <= CHALLENGE_TTL ->
  exists e s', 
    run_enroll cb [] c (id_spki id)
      (fun n => match sign_challenge id n with Ok sig => Some sig | Err _ => None end)
      [i1; i2; i3; i4] s w = (EnrollErr e, s', w) /\
    connection_to_device s' = connection_to_device s.
Proof.
  intros _ Hp Hauth Hn Ht.
  set (sign := fun n => match sign_challenge id n with Ok sig => Some sig | Err _ => None end).
  destruct (sign (in_nonce i2)) as [sig|] eqn:Hs.
  - rewrite (dialogue_to_response _ [] _ _ _ _ _ _ _ _ sig Hauth Hs).
    cbn [dialogue on_message]. unfold handle_challenge_response.
    destruct (take_challenged c (id_spki id) i2 i3 s Ht) as (s3 & -> & Hb). cbn [announced_key nonce].
    unfold verify_pop_signature, ec_point_from_spki. rewrite Hp. cbn [rbind].
    destruct (ecdsa_verify _ _ _) eqn:V.
    + exfalso. unfold sign, sign_challenge in Hs.
      destruct (ecdsa_sign _ _) as [sig'|] eqn:Es; [|done]. injection Hs as ->.
      apply (sign_binds _ _ _ _ Es) in V. apply (f_equal length) in V. rewrite sha256_length in V.
      exact (client_transcript_length _ _ Hn V).
    + cbn [feed enroll_recv app dialogue]. eexists _, s3. split; [reflexivity|done].
  - unfold run_enroll, enroll_start. cbn [dialogue on_message feed enroll_recv app].
    rewrite (public_key_challenged cb [] c (id_spki id) i2 s w Hauth). cbn [feed enroll_recv].
    rewrite Hs. cbn [app dialogue]. eexists _, _. by split.
Qed.
End Outcome.

(** A provisioned identity of the toy scheme, known to Kubernetes. *)
Definition client_point : list byte := byte_of 0x04 :: replicate 64 Byte.x07.
Definition client_spki : list byte := P256_SPKI_PREFIX ++ client_point.
Definition client_identity : DeviceIdentity (E := toy_ecdsa) := mkDeviceIdentity (E := toy_ecdsa) client_point client_spki.
Definition client_cluster : cluster :=
  mkCluster (<["device-a"%string := sample_device "device-a" (url_encode client_spki) None]> ∅) ∅.
Definition open_gateway : Callbacks := mkCallbacks false (GatewayReference_new "wasmbed" "gateway-1").
Definition client_inputs (now : Z) : Inputs := mkInputs now "now" (replicate 32 Byte.x55) (replicate 16 Byte.x0a).

Lemma conforming_client_enrolls_witness :
  exists s' w',
    run_enroll (K := mem_kube) (B := base64) (E := toy_ecdsa) (U := hex_uuid) open_gateway [] "c" client_spki
      (fun n => ecdsa_sign (Ecdsa := toy_ecdsa) client_point (pop_transcript n client_spki))
      [client_inputs 1; client_inputs 2; client_inputs 3; client_inputs 4] HttpApiServer_new client_cluster =
      (EnrollOk, s', w') /\
    connection_to_device s' !! "c"%string = Some "device-a"%string.
Proof.
  apply (conforming_client_enrolls (E := toy_ecdsa) open_gateway [] "c" client_point client_spki
    (client_inputs 1) (client_inputs 2) (client_inputs 3) (client_inputs 4) HttpApiServer_new client_cluster
    (sample_device "device-a" (url_encode client_spki) None)
    (client_point ++ pop_transcript (replicate 32 Byte.x55) client_spki)); try reflexivity.
  simpl. unfold CHALLENGE_TTL. lia.
Defined.

Lemma edge_client_always_rejected_witness :
  exists e s',
    run_enroll (K := mem_kube) (B := base64) (E := toy_ecdsa) (U := hex_uuid) open_gateway [] "c" client_spki
      (fun n => match sign_challenge (E := toy_ecdsa) (H := toy_sha256) client_identity n with
                | Ok sig => Some sig | Err _ => None end)
      [client_inputs 1; client_inputs 2; client_inputs 3; client_inputs 4] HttpApiServer_new client_cluster =
      (EnrollErr e, s', client_cluster) /\
    connection_to_device s' = connection_to_device HttpApiServer_new.
Proof.
  apply (edge_client_always_rejected (E := toy_ecdsa) (Hash := toy_sha256) open_gateway "c" client_point
    client_identity (client_inputs 1) (client_inputs 2) (client_inputs 3) (client_inputs 4)
    HttpApiServer_new client_cluster); try reflexivity.
  simpl. unfold CHALLENGE_TTL. lia.
Defined.

(** ** Applications on the device *)

Section Applications.
Context `{Hash : Sha256} {O : HashOrder}.
Variables (memory : Z) (arch : string).
Implicit Types (r : WasmRunner).

(** What a client reports as running after a message. *)
Definition runs (app : string) (t : task) (r : WasmRunner) : Prop := handles r !! app = Some t.

(** A deployment is acknowledged as successful exactly when the module
    has the announced SHA-256 digest and the WASM magic number, and then the
    new task replaces the previous one of the same application, which is
    aborted; with a wrong digest nothing is started, stopped or aborted.
    Other applications are never touched. *)
Theorem deploy_checked fresh app name hash wasm config r out r' aborted :
  handle_server_message memory arch fresh (SDeployApplication app name hash wasm config) r = (out, r', aborted) ->
  (exists ok err, out = [CApplicationDeployAck app ok err] /\
     (ok = true <-> sha256 wasm = hash /\ validate_wasm_magic wasm = true) /\
     (ok = true -> err = None /\ runs app fresh r') /\
     (sha256 wasm <> hash -> r' = r /\ aborted = [])) /\
  (forall t, t ∈ aborted <-> sha256 wasm = hash /\ runs app t r) /\
  (forall app', app' <> app -> handles r' !! app' = handles r !! app').
Proof.
  unfold runs. cbn [handle_server_message]. case_bool_decide as Hh.
  - unfold runner_deploy, runner_stop. destruct (handles r !! app) as [t0|] eqn:E0;
      destruct (validate_wasm_magic wasm) eqn:Ev; simpl; intros [= <- <- <-]; simpl; split_and!;
      try (intros; rewrite ?lookup_insert_ne, ?lookup_delete_ne by done; done).
    all: try (eexists _, _; split_and!; [reflexivity|naive_solver|rewrite ?lookup_insert_eq; naive_solver|naive_solver]).
    all: intros t; rewrite ?list_elem_of_singleton, ?elem_of_nil; naive_solver.
  - intros [= <- <- <-]. split_and!; [|set_solver|done].
    eexists _, _. split_and!; naive_solver.
Qed.

(** Every module the gateway sends passes the digest check of the client:
    the acknowledgement of a delivered deployment depends on the magic number
    alone. *)
Theorem gateway_module_passes_digest open closed d app wasm config s snd msg fresh r :
  deploy_application_to_device open closed d app wasm config s = Ok (snd, msg) ->
  exists err, (handle_server_message memory arch fresh msg r).1.1 =
    [CApplicationDeployAck app (validate_wasm_magic wasm) err].
Proof.
  unfold deploy_application_to_device, send_message_to_device. intros H.
  assert (msg = SDeployApplication app app (sha256 wasm) wasm config) as ->.
  { destruct (device_connections s !! d) as [conn|]; [|done].
    destruct (dc_tls_sender conn) as [t|]; [|done]. destruct (open t); [|done]. congruence. }
  cbn [handle_server_message]. rewrite bool_decide_true by done.
  unfold runner_deploy, runner_stop.
  destruct (handles r !! app); destruct (validate_wasm_magic wasm); simpl; eauto.
Qed.

Lemma status_running r app t : runs app t r -> status_message r app = CApplicationStatus app Running None None.
Proof. unfold runs, status_message, is_running. intros H. rewrite bool_decide_true; [done|]. by exists t. Qed.

Lemma status_stopped r app :
  handles r !! app = None -> status_message r app = CApplicationStatus app Stopped None None.
Proof.
  unfold status_message, is_running. intros H. rewrite bool_decide_false; [done|]. rewrite H. by intros [].
Qed.

Lemma deploy_handles fresh app wasm config r :
  validate_wasm_magic wasm = true -> runs app fresh (runner_deploy fresh app wasm config r).1.2.
Proof.
  intros Hv. unfold runs, runner_deploy, runner_stop.
  destruct (handles r !! app); rewrite Hv; apply lookup_insert_eq.
Qed.

(** Stopping an application aborts its task and forgets it, succeeds
    exactly when the application was known, and the status reported next says
    Stopped; deploying it again is reported as Running. *)
Theorem stop_then_status fresh app r out r' aborted :
  handle_server_message memory arch fresh (SStopApplication app) r = (out, r', aborted) ->
  (exists err, out = [CApplicationStopAck app (is_running app r) err]) /\
  (forall t, t ∈ aborted <-> runs app t r) /\
  (handle_server_message memory arch fresh (SRequestApplicationStatus (Some app)) r').1.1 =
    [CApplicationStatus app Stopped None None] /\
  (forall wasm config, validate_wasm_magic wasm = true ->
     let r'' := (runner_deploy fresh app wasm config r').1.2 in
     (handle_server_message memory arch fresh (SRequestApplicationStatus (Some app)) r'').1.1 =
       [CApplicationStatus app Running None None]).
Proof.
  cbn [handle_server_message]. unfold runs, is_running, runner_stop.
  destruct (handles r !! app) as [t0|] eqn:E0; simpl; intros [= <- <- <-]; split_and!.
  all: try (eexists; reflexivity).
  all: try (intros t; rewrite ?list_elem_of_singleton, ?elem_of_nil; naive_solver).
  - cbn [fmap list_fmap]. by rewrite status_stopped by (simpl; apply lookup_delete_eq).
  - intros wasm config Hv. cbn [fmap list_fmap].
    by rewrite (status_running _ _ fresh) by (by apply deploy_handles).
  - cbn [fmap list_fmap]. by rewrite status_stopped.
  - intros wasm config Hv. cbn [fmap list_fmap].
    by rewrite (status_running _ _ fresh) by (by apply deploy_handles).
Qed.
End Applications.

#[local] Existing Instance map_order.

Definition tiny_wasm : list byte := WASM_MAGIC ++ map byte_of [1; 0; 0; 0].

Lemma deploy_checked_witness :
  let r0 := mkWasmRunner (<["app"%string := 1]> ∅) in
  let msg := SDeployApplication "app" "app" (sha256 tiny_wasm) tiny_wasm None in
  let res := handle_server_message 0 "x86_64" 2 msg r0 in
  res.1.1 = [CApplicationDeployAck "app" true None] /\ 1 ∈ res.2.
Proof.
  intros r0 msg res. split; [vm_compute; reflexivity|].
  destruct (deploy_checked 0 "x86_64" 2 "app" "app" (sha256 tiny_wasm) tiny_wasm None r0 res.1.1 res.1.2 res.2)
    as (_ & Ha & _); [by apply triple_eta|]. apply Ha. split; [reflexivity|vm_compute; reflexivity].
Defined.

Lemma gateway_module_passes_digest_witness :
  let s := activate_device_sender 2 "c" "device-a" "AQ"
             (store_pending_sender "c" 5 (register_device 1 "device-a" "AQ" no_caps HttpApiServer_new)) in
  exists snd msg err, deploy_application_to_device (fun _ => true) "closed" "device-a" "app" tiny_wasm None s = Ok (snd, msg) /\
    (handle_server_message 0 "x86_64" 2 msg WasmRunner_new).1.1 = [CApplicationDeployAck "app" true err].
Proof.
  intros s. exists 5, (SDeployApplication "app" "app" (sha256 tiny_wasm) tiny_wasm None).
  destruct (gateway_module_passes_digest 0 "x86_64" (fun _ => true) "closed" "device-a" "app" tiny_wasm None s 5
    (SDeployApplication "app" "app" (sha256 tiny_wasm) tiny_wasm None) 2 WasmRunner_new) as [err Herr];
    [vm_compute; reflexivity|].
  exists err. split; [vm_compute; reflexivity|exact Herr].
Defined.

Lemma stop_then_status_witness :
  let r0 := mkWasmRunner (<["app"%string := 1]> ∅) in
  let res := handle_server_message 0 "x86_64" 2 (SStopApplication "app") r0 in
  1 ∈ res.2 /\
  (handle_server_message 0 "x86_64" 2 (SRequestApplicationStatus (Some "app"%string)) res.1.2).1.1 =
    [CApplicationStatus "app" Stopped None None].
Proof.
  intros r0 res.
  destruct (stop_then_status 0 "x86_64" 2 "app" r0 res.1.1 res.1.2 res.2) as (_ & Ha & Hs & _);
    [by apply triple_eta|].
  split; [apply Ha; reflexivity|exact Hs].
Defined.
