(* ===== verification/EdgeClientRun.v ===== *)
(** * The edge client at run time: [run] of [protocol.rs] and [main.rs]

    After the handshake three tasks share the connection: the event loop
    reads frames and queues answers, a timer queues heartbeats, and a writer
    takes messages from the queue (a channel of 32) and sends them.
    [client_step] is one step of one task. The network and the TLS library
    are parameters. *)

From Stdlib Require Import Strings.Ascii.
From S2P Require Import Prelude.
From S2P Require Import RustStd.
From S2P Require Import Externals.
From S2P Require Import Base64.
From S2P Require Import Protocol.
From S2P Require Import EdgeClient.

(** ** Start-up *)

(** [available_memory_bytes]: [meminfo] is the text of [/proc/meminfo], if it
    can be read. *)
Fixpoint mem_available (ls : list string) : Z :=
  match ls with
  | [] => 0
  | line :: ls =>
      if starts_with "MemAvailable:" line then
        match split_whitespace line !! 1%nat with
        | Some kb_str => match parse_uint u64_max kb_str with
                         | Some kb => Z.min (kb * 1024) u64_max
                         | None => mem_available ls
                         end
        | None => mem_available ls
        end
      else mem_available ls
  end.

Definition available_memory_bytes (meminfo : option string) : Z :=
  match meminfo with None => 0 | Some contents => mem_available (lines contents) end.

(** [gateway_addr.split(':').next()], which is always there. *)
Fixpoint host_part (addr : string) : string :=
  match addr with
  | EmptyString => EmptyString
  | String a addr => if Ascii.eqb a ":"%char then EmptyString else String a (host_part addr)
  end.

(** How the server's certificate is checked; neither connector has a client
    certificate. *)
Inductive connector := NoVerify | WithRoots (roots : list (list byte)).

(** The PEM reader, the root store and the network. *)
Class EdgeNet := {
  pem_certs : list byte -> option (list (list byte));
  root_acceptable : list byte -> bool;
  tcp_connects : string -> bool;
  server_name_ok : string -> bool;
  handshake_ok : connector -> string -> bool;
}.

Inductive run_error :=
| ReadingCa (path : string) | ParsingCa | AddingCa | TcpConnect (addr : string) | InvalidSni (host : string)
| TlsHandshake (addr : string) | ReadingKey (path : string) | BadIdentity (e : identity_error).

Section Start.
Context `{N : EdgeNet} `{E : Ecdsa}.
Variable fs : string -> option (list byte).

Definition connector_with_ca (path : string) : result run_error connector :=
  match fs path with
  | None => Err (ReadingCa path)
  | Some pem_data =>
      match pem_certs pem_data with
      | None => Err ParsingCa
      | Some certs => if forallb root_acceptable certs then Ok (WithRoots certs) else Err AddingCa
      end
  end.

(** [run] up to the enrollment. *)
Definition edge_connect (addr : string) (ca_cert : option string) : result run_error connector :=
  let? connector := match ca_cert with Some path => connector_with_ca path | None => Ok NoVerify end in
  if negb (tcp_connects addr) then Err (TcpConnect addr)
  else if negb (server_name_ok (host_part addr)) then Err (InvalidSni (host_part addr))
  else if negb (handshake_ok connector (host_part addr)) then Err (TlsHandshake addr)
  else Ok connector.

Definition DeviceIdentity_load (path : string) : result run_error DeviceIdentity :=
  match fs path with
  | None => Err (ReadingKey path)
  | Some pkcs8 => match DeviceIdentity_from_pkcs8 pkcs8 with Ok id => Ok id | Err e => Err (BadIdentity e) end
  end.

(** [main] up to the enrollment: the identity is loaded before anything is
    connected. *)
Definition edge_main (gateway identity_key : string) (ca_cert : option string) :
    result run_error (DeviceIdentity * connector) :=
  let? id := DeviceIdentity_load identity_key in
  let? c := edge_connect gateway ca_cert in Ok (id, c).
End Start.

(** ** The three tasks *)

Definition CHANNEL : nat := 32.
Definition HEARTBEAT_SECS : Z := 25.

(** [LSending]: in [tx.send] with answers still to queue. *)
Inductive loop_state := LReceiving | LSending (m : ClientMessage) (ms : list ClientMessage) | LFinished.
Inductive writer := WIdle | WWriting (m : ClientMessage) | WFailed | WDrained.

(** [cl_accepted] and [cl_frames] record what the channel has accepted and
    which messages the loop has handled. *)
Record client := mkClient {
  cl_loop : loop_state;
  cl_runner : WasmRunner;
  cl_queue : list ClientMessage;
  cl_heartbeat : bool;
  cl_writer : writer;
  cl_wire : list ClientMessage;
  cl_accepted : list ClientMessage;
  cl_frames : list (Z * task * ServerMessage);
}.

Definition client_start : client := mkClient LReceiving WasmRunner_new [] true WIdle [] [] [].

Definition writer_stopped (c : client) : bool := match cl_writer c with WFailed | WDrained => true | _ => false end.

Inductive client_event :=
| FrameRead (memory : Z) (fresh : task) (m : option ServerMessage)   (* [None]: it does not decode *)
| ReadFails
| LoopSends
| HeartbeatTick
| WriterTakes
| WriterWrites
| WriterFails
| WriterDrained.

Definition sending (ms : list ClientMessage) : loop_state :=
  match ms with [] => LReceiving | m :: ms => LSending m ms end.

Definition set_loop (l : loop_state) (c : client) : client :=
  mkClient l (cl_runner c) (cl_queue c) (cl_heartbeat c) (cl_writer c) (cl_wire c) (cl_accepted c) (cl_frames c).
Definition enqueue (m : ClientMessage) (c : client) : client :=
  mkClient (cl_loop c) (cl_runner c) (cl_queue c ++ [m]) (cl_heartbeat c) (cl_writer c) (cl_wire c)
    (cl_accepted c ++ [m]) (cl_frames c).

Section Tasks.
Context `{H : Sha256} {O : HashOrder}.
Variable arch : string.

Definition client_step (e : client_event) (c : client) : option client :=
  match e with
  | FrameRead memory fresh m =>
      match cl_loop c, m with
      | LReceiving, None => Some c
      | LReceiving, Some m =>
          let '(out, r, _) := handle_server_message memory arch fresh m (cl_runner c) in
          Some (mkClient (sending out) r (cl_queue c) (cl_heartbeat c) (cl_writer c) (cl_wire c) (cl_accepted c)
                  (cl_frames c ++ [(memory, fresh, m)]))
      | _, _ => None
      end
  | ReadFails => match cl_loop c with LReceiving => Some (set_loop LFinished c) | _ => None end
  | LoopSends =>
      match cl_loop c with
      | LSending m ms =>
          if writer_stopped c then Some (set_loop LFinished c)
          else if (length (cl_queue c) <? CHANNEL)%nat then Some (set_loop (sending ms) (enqueue m c))
          else None
      | _ => None
      end
  | HeartbeatTick =>
      if cl_heartbeat c then
        if writer_stopped c then
          Some (mkClient (cl_loop c) (cl_runner c) (cl_queue c) false (cl_writer c) (cl_wire c) (cl_accepted c)
                  (cl_frames c))
        else if (length (cl_queue c) <? CHANNEL)%nat then Some (enqueue CHeartbeat c) else None
      else None
  | WriterTakes =>
      match cl_writer c, cl_queue c with
      | WIdle, m :: q =>
          Some (mkClient (cl_loop c) (cl_runner c) q (cl_heartbeat c) (WWriting m) (cl_wire c) (cl_accepted c)
                  (cl_frames c))
      | _, _ => None
      end
  | WriterWrites =>
      match cl_writer c with
      | WWriting m =>
          Some (mkClient (cl_loop c) (cl_runner c) (cl_queue c) (cl_heartbeat c) WIdle (cl_wire c ++ [m])
                  (cl_accepted c) (cl_frames c))
      | _ => None
      end
  | WriterFails =>
      match cl_writer c with
      | WWriting m =>
          Some (mkClient (cl_loop c) (cl_runner c) [] (cl_heartbeat c) WFailed (cl_wire c) (cl_accepted c) (cl_frames c))
      | _ => None
      end
  | WriterDrained =>
      (* [rx.recv()] is [None] when the queue is empty and every sender is gone *)
      match cl_writer c, cl_queue c, cl_loop c, cl_heartbeat c with
      | WIdle, [], LFinished, false =>
          Some (mkClient (cl_loop c) (cl_runner c) [] false WDrained (cl_wire c) (cl_accepted c) (cl_frames c))
      | _, _, _, _ => None
      end
  end.

Fixpoint client_run (es : list client_event) (c : client) : option client :=
  match es with
  | [] => Some c
  | e :: es => let* c := client_step e c in client_run es c
  end.

(** [run] has returned: the event loop is over and the writer was joined. *)
Definition returned (c : client) : bool :=
  match cl_loop c with LFinished => writer_stopped c | _ => false end.

(** ** What a client does, sequentially *)

(** The answers to a sequence of messages, and the applications after them. *)
Fixpoint answers (fs : list (Z * task * ServerMessage)) (r : WasmRunner) : list ClientMessage * WasmRunner :=
  match fs with
  | [] => ([], r)
  | (memory, fresh, m) :: fs =>
      let '(out, r, _) := handle_server_message memory arch fresh m r in
      let '(out', r) := answers fs r in (out ++ out', r)
  end.

Definition is_answer (m : ClientMessage) : bool := match m with CHeartbeat => false | _ => true end.

Lemma answers_snoc fs f r :
  answers (fs ++ [f]) r =
    let '(out, r) := answers fs r in
    let '(out', r', _) := handle_server_message f.1.1 arch f.1.2 f.2 r in (out ++ out', r').
Proof.
  revert r. induction fs as [|[[memory fresh] m] fs IH]; intros r; simpl.
  { destruct f as [[memory fresh] m]. simpl. destruct (handle_server_message _ _ _ _ _) as [[out r'] ab].
    by rewrite app_nil_r. }
  destruct (handle_server_message memory arch fresh m r) as [[out r1] ab]. rewrite IH.
  destruct (answers fs r1) as [out1 r2]. destruct (handle_server_message _ _ _ _ r2) as [[out2 r3] ab'].
  by rewrite app_assoc.
Qed.

Lemma handled_are_answers memory fresh m r :
  List.filter is_answer (handle_server_message memory arch fresh m r).1.1 = (handle_server_message memory arch fresh m r).1.1.
Proof.
  destruct m; simpl; try done.
  - case_bool_decide; [|done]. unfold runner_deploy, runner_stop.
    destruct (handles r !! app_id); destruct (validate_wasm_magic wasm_bytes); done.
  - unfold runner_stop. by destruct (handles r !! app_id).
  - induction (match app_id with Some id => [id] | None => running_app_ids r end) as [|x l IH]; [done|].
    cbn. by rewrite IH.
Qed.

(** ** Invariants of the tasks *)

Definition pending (l : loop_state) : list ClientMessage := match l with LSending m ms => m :: ms | _ => [] end.

(** What the channel accepted is on the wire, being written, or queued. *)
Definition writer_ok (c : client) : Prop :=
  match cl_writer c with
  | WIdle => cl_accepted c = cl_wire c ++ cl_queue c
  | WWriting m => cl_accepted c = cl_wire c ++ m :: cl_queue c
  | WFailed => cl_wire c `prefix_of` cl_accepted c /\ cl_queue c = []
  | WDrained => False
  end.

(** The answers so far are those accepted and those still to queue. *)
Definition loop_ok (c : client) : Prop :=
  (answers (cl_frames c) WasmRunner_new).2 = cl_runner c /\
  exists lost, (answers (cl_frames c) WasmRunner_new).1 =
                 List.filter is_answer (cl_accepted c) ++ pending (cl_loop c) ++ lost /\
    (cl_loop c <> LFinished -> lost = []).

Definition tasks_ok (c : client) : Prop :=
  (length (cl_queue c) <= CHANNEL)%nat /\ writer_ok c /\ loop_ok c /\
  (cl_heartbeat c = false -> cl_writer c = WFailed).

Lemma start_tasks_ok : tasks_ok client_start.
Proof. split_and!; [simpl; lia|done|split; [done|by exists []]|done]. Qed.

Lemma sending_pending ms : pending (sending ms) = ms /\ sending ms <> LFinished.
Proof. by destruct ms. Qed.

(** The channel takes a message: shared by the loop and the timer. *)
Lemma enqueue_writer_ok m c :
  writer_stopped c = false -> writer_ok c -> writer_ok (enqueue m c).
Proof.
  unfold writer_stopped, writer_ok. simpl.
  destruct (cl_writer c); intros Hw H'; try done; rewrite H'; by rewrite <- app_assoc.
Qed.

Lemma loop_enqueue m ms c :
  cl_loop c = LSending m ms -> is_answer m = true -> loop_ok c -> loop_ok (set_loop (sending ms) (enqueue m c)).
Proof.
  intros Hl Hm (Hr & lost & Ha & Hlost). destruct (sending_pending ms) as [Hp Hne]. split; [done|].
  exists lost. simpl. rewrite Hp, List.filter_app. simpl. rewrite Hm, Ha, Hl. simpl. rewrite <- app_assoc.
  split; [done|]. intros _. apply Hlost. by rewrite Hl.
Qed.

(** Answers waiting to be queued are answers. *)
Lemma pending_answer m ms c :
  cl_loop c = LSending m ms -> loop_ok c ->
  List.filter is_answer (answers (cl_frames c) WasmRunner_new).1 = (answers (cl_frames c) WasmRunner_new).1 ->
  is_answer m = true.
Proof.
  intros Hl (_ & lost & Ha & _) Hf. rewrite Ha, Hl in Hf. simpl in Hf.
  destruct (is_answer m) eqn:Hm; [done|exfalso].
  assert (In m (List.filter is_answer (List.filter is_answer (cl_accepted c) ++ m :: ms ++ lost))) as Hin.
  { rewrite Hf. apply in_or_app. right. by left. }
  apply filter_In in Hin as [_ ?]. congruence.
Qed.

Lemma answers_filter fs r : List.filter is_answer (answers fs r).1 = (answers fs r).1.
Proof.
  revert r. induction fs as [|[[memory fresh] m] fs IH]; intros r; [done|]. simpl.
  pose proof (handled_are_answers memory fresh m r) as Hm.
  destruct (handle_server_message memory arch fresh m r) as [[out r1] ab]. specialize (IH r1).
  destruct (answers fs r1) as [out1 r2]. simpl in *. by rewrite List.filter_app, Hm, IH.
Qed.

Lemma frame_loop_ok memory fresh m c out r ab :
  cl_loop c = LReceiving -> loop_ok c -> handle_server_message memory arch fresh m (cl_runner c) = (out, r, ab) ->
  loop_ok (mkClient (sending out) r (cl_queue c) (cl_heartbeat c) (cl_writer c) (cl_wire c) (cl_accepted c)
             (cl_frames c ++ [(memory, fresh, m)])).
Proof.
  intros Hl (Hr & lost & Ha & Hlost) Hm. destruct (sending_pending out) as [Hp Hne].
  unfold loop_ok. simpl. rewrite answers_snoc. destruct (answers (cl_frames c) WasmRunner_new) as [o1 r1].
  simpl in *. subst r1. rewrite Hm. split; [done|]. exists []. rewrite Hp, app_nil_r, Ha, Hl.
  rewrite (Hlost ltac:(by rewrite Hl)). simpl. by rewrite app_nil_r.
Qed.

Lemma client_step_ok e c c' : client_step e c = Some c' -> tasks_ok c -> tasks_ok c'.
Proof.
  intros Hs (Hq & Hw & Hl & Hh). unfold tasks_ok. destruct e; simpl in Hs.
  - destruct (cl_loop c) eqn:El; [|done|done]. destruct m as [m|]; [|by injection Hs as <-].
    destruct (handle_server_message memory arch fresh m (cl_runner c)) as [[out r] ab] eqn:Em. injection Hs as <-.
    split_and!; [done|done| |done]. by eapply frame_loop_ok.
  - destruct (cl_loop c) eqn:El; try done. injection Hs as <-. split_and!; [done|done| |done].
    destruct Hl as (Hr & lost & Ha & _). split; [done|]. exists lost. split; [|done]. simpl. by rewrite Ha, El.
  - destruct (cl_loop c) as [|m ms|] eqn:El; try done. destruct (writer_stopped c) eqn:Ew.
    + injection Hs as <-. split_and!; [done|done| |done]. destruct Hl as (Hr & lost & Ha & _). split; [done|].
      exists (m :: ms ++ lost). split; [|done]. simpl. by rewrite Ha, El.
    + destruct (Nat.ltb_spec (length (cl_queue c)) CHANNEL); [|done]. injection Hs as <-. split_and!.
      * simpl. rewrite length_app. simpl. lia.
      * by apply (enqueue_writer_ok m) in Hw.
      * apply loop_enqueue; [done| |done]. eapply pending_answer; [done..|]. apply answers_filter.
      * done.
  - destruct (cl_heartbeat c) eqn:Eh; [|done]. destruct (writer_stopped c) eqn:Ew.
    + injection Hs as <-. split_and!; [done|done|done|]. intros _. simpl. unfold writer_stopped, writer_ok in *.
      by destruct (cl_writer c).
    + destruct (Nat.ltb_spec (length (cl_queue c)) CHANNEL); [|done]. injection Hs as <-. split_and!.
      * simpl. rewrite length_app. simpl. lia.
      * by apply enqueue_writer_ok.
      * destruct Hl as (Hr & lost & Ha & Hlost). split; [done|]. exists lost. simpl.
        by rewrite List.filter_app, app_nil_r.
      * simpl. by rewrite Eh.
  - destruct (cl_writer c) eqn:Ew; try done. destruct (cl_queue c) as [|m q] eqn:Eq; [done|].
    injection Hs as <-. unfold writer_ok in Hw. rewrite Ew, Eq in Hw.
    split_and!; [simpl in *; lia|done|done|]. intros Hb. discriminate (Hh Hb).
  - destruct (cl_writer c) as [|m| |] eqn:Ew; try done. injection Hs as <-. unfold writer_ok in Hw. rewrite Ew in Hw.
    split_and!; [done| |done|]. { unfold writer_ok. simpl. by rewrite Hw, <- app_assoc. }
    intros Hb. discriminate (Hh Hb).
  - destruct (cl_writer c) as [|m| |] eqn:Ew; try done. injection Hs as <-. unfold writer_ok in Hw. rewrite Ew in Hw.
    split_and!; [simpl; lia| |done|done]. split; [|done]. simpl. rewrite Hw. by apply prefix_app_r.
  - destruct (cl_writer c) eqn:Ew; try done. destruct (cl_queue c); [|done]. destruct (cl_loop c); try done.
    destruct (cl_heartbeat c); [done|]. discriminate (Hh eq_refl).
Qed.

Lemma client_run_ok es c c' : client_run es c = Some c' -> tasks_ok c -> tasks_ok c'.
Proof.
  revert c. induction es as [|e es IH]; simpl; intros c Hr Hok; [by injection Hr as <-|].
  destruct (client_step e c) as [c1|] eqn:E; [|done]. eauto using client_step_ok.
Qed.

Lemma filter_prefix (a b : list ClientMessage) :
  a `prefix_of` b -> List.filter is_answer a `prefix_of` List.filter is_answer b.
Proof. intros [x ->]. rewrite List.filter_app. by apply prefix_app_r. Qed.

Lemma wire_prefix c : writer_ok c -> cl_wire c `prefix_of` cl_accepted c.
Proof. unfold writer_ok. destruct (cl_writer c); [intros ->|intros ->|tauto|done]; by apply prefix_app_r. Qed.

(** Nothing is left to do but read: no task can move without a frame, a
    timer or a failure. *)
Definition settled (c : client) : Prop :=
  cl_loop c = LReceiving /\ cl_writer c = WIdle /\ cl_queue c = [].

(** C31: the client answers in order. However its tasks interleave and
    whatever fails, the answers on the wire are the first of those a client
    that handles the gateway's messages one after the other would give, in the
    same order, with only heartbeats between them; the applications are the
    ones that sequence leaves; at most 32 messages wait; and where the tasks
    have settled, every message has been answered. *)
Theorem client_answers_in_order es c :
  client_run es client_start = Some c ->
  let '(out, r) := answers (cl_frames c) WasmRunner_new in
  List.filter is_answer (cl_wire c) `prefix_of` out /\ cl_runner c = r /\
  (length (cl_queue c) <= CHANNEL)%nat /\
  (settled c -> List.filter is_answer (cl_wire c) = out).
Proof.
  intros Hr. destruct (client_run_ok _ _ _ Hr start_tasks_ok) as (Hq & Hw & (Hrun & lost & Ha & Hlost) & _).
  destruct (answers (cl_frames c) WasmRunner_new) as [out r]. simpl in *. split_and!; [| |done|].
  - rewrite Ha. trans (List.filter is_answer (cl_accepted c)); [|by apply prefix_app_r].
    by apply filter_prefix, wire_prefix.
  - done.
  - intros (El & Ew & Eq). rewrite Ha, El, (Hlost ltac:(by rewrite El)). simpl. rewrite app_nil_r.
    unfold writer_ok in Hw. rewrite Ew, Eq, app_nil_r in Hw. by rewrite Hw.
Qed.

Lemma writer_failed_event es c c' :
  client_run es c = Some c' -> cl_writer c <> WFailed -> cl_writer c' = WFailed -> WriterFails ∈ es.
Proof.
  revert c. induction es as [|e es IH]; simpl; intros c Hr Hn Hf; [by injection Hr as <-|].
  destruct (client_step e c) as [c1|] eqn:E; [|done].
  destruct (cl_writer c1) eqn:Ew.
  4: { destruct e; simpl in E; unfold enqueue, set_loop in E; repeat case_match; simplify_eq/=; try done;
       apply list_elem_of_further; apply (IH _ Hr); simpl; congruence. }
  3: { destruct e; [..|apply list_elem_of_here|]; exfalso; apply Hn;
       simpl in E; unfold enqueue, set_loop in E; repeat case_match; simplify_eq/=; congruence. }
  all: apply list_elem_of_further, (IH _ Hr); congruence.
Qed.

(** [run] returns only after a write has failed. The timer keeps a
    sender of the channel, so the end of the gateway's stream, or of the event
    loop, does not end the writer that [run] waits for: in every run in which
    it has returned, a write to the gateway failed. *)
Theorem run_returns_after_write_error es c :
  client_run es client_start = Some c -> returned c = true -> WriterFails ∈ es.
Proof.
  intros Hr Hret. destruct (client_run_ok _ _ _ Hr start_tasks_ok) as (_ & Hw & _).
  eapply writer_failed_event; [exact Hr|done|]. unfold returned, writer_stopped, writer_ok in *.
  by destruct (cl_loop c), (cl_writer c).
Qed.
End Tasks.

#[local] Existing Instance map_order.

(** ** Witnesses *)

Definition demo_module : list byte := WASM_MAGIC ++ [x01; x00; x00; x00].
Definition demo_deploy : ServerMessage :=
  SDeployApplication "app" "app" (sha256 (Sha256 := toy_sha256) demo_module) demo_module None.

(** A deployment is answered between two heartbeats. *)
Definition demo_events : list client_event :=
  [HeartbeatTick; FrameRead 0 7 (Some demo_deploy); WriterTakes; LoopSends; HeartbeatTick; WriterWrites;
   WriterTakes; WriterWrites; WriterTakes; WriterWrites].
Definition demo_client : client :=
  mkClient LReceiving (mkWasmRunner {["app"%string := 7]}) [] true WIdle
    [CHeartbeat; CApplicationDeployAck "app" true None; CHeartbeat]
    [CHeartbeat; CApplicationDeployAck "app" true None; CHeartbeat] [(0, 7, demo_deploy)].

Lemma client_answers_in_order_witness :
  client_run (H := toy_sha256) "x86_64" demo_events client_start = Some demo_client /\
  List.filter is_answer (cl_wire demo_client) = (answers (H := toy_sha256) "x86_64" [(0, 7, demo_deploy)] WasmRunner_new).1.
Proof.
  assert (client_run (H := toy_sha256) "x86_64" demo_events client_start = Some demo_client) as E
    by (vm_compute; reflexivity).
  split; [exact E|]. pose proof (client_answers_in_order (H := toy_sha256) "x86_64" demo_events demo_client E) as Hc.
  change (cl_frames demo_client) with [(0, 7, demo_deploy)] in Hc.
  destruct (answers "x86_64" [(0, 7, demo_deploy)] WasmRunner_new) as [out r]. by apply Hc.
Defined.

Definition demo_end : list client_event :=
  [HeartbeatTick; ReadFails; WriterTakes; WriterWrites; HeartbeatTick; WriterTakes; WriterFails].

Lemma run_returns_after_write_error_witness :
  exists c, client_run (H := toy_sha256) "x86_64" demo_end client_start = Some c /\ WriterFails ∈ demo_end.
Proof.
  eexists. split; [reflexivity|].
  eapply (run_returns_after_write_error (H := toy_sha256) "x86_64" demo_end); reflexivity.
Defined.

Example meminfo_read :
  available_memory_bytes (Some (String.append "MemTotal: 10 kB" (String (Ascii.ascii_of_nat 10) "MemAvailable:   4 kB")))
    = 4096.
Proof. reflexivity. Qed.

Example host_of_ipv6 : host_part "[::1]:8081" = "["%string.
Proof. reflexivity. Qed.
