(* ===== verification/EdgeClientExec.v ===== *)
(** * Modules at work on the edge client: [run_wasm_module] and the blocking
    tasks of [crates/wasmbed-edge-client/src/wasm_runner.rs]

    A deployed module is run by a blocking task of tokio. [WasmRunner] knows
    the tasks by their abort handles only; [pool] is what the tasks really do.
    wasmtime and tokio are parameters with their documented behaviour. *)

From S2P Require Import Prelude.
From S2P Require Import RustStd.
From S2P Require Import Externals.
From S2P Require Import Base64.
From S2P Require Import Protocol.
From S2P Require Import EdgeClient.
Local Open Scope Z_scope.

(** ** One module *)

(** What the WASI context is built from, beside the inherited streams. *)
Record wasi_ctx := mkWasiCtx { wasi_env : list (string * string); wasi_args : list string }.

(** wasmtime: [Module::new], instantiation with the WASI functions linked,
    the lookup of an exported function, its type and the call. *)
Class Wasmtime := {
  wt_module : Type;
  wt_instance : Type;
  wt_compile : list byte -> option wt_module;
  wt_link : bool;
  wt_instantiate : wt_module -> wasi_ctx -> option wt_instance;
  wt_get_func : wt_instance -> string -> bool;
  wt_unit_type : wt_instance -> string -> bool;
  wt_call : wt_instance -> string -> bool;
}.

Inductive module_error := CompileFailed | LinkFailed | InstantiateFailed | WrongType (export : string) | Trapped (export : string)
| NoEntryPoint.

Section Module.
Context `{T : Wasmtime}.

Definition build_wasi (config : option ApplicationConfig) : wasi_ctx :=
  match config with Some cfg => mkWasiCtx (env_vars cfg) (args cfg) | None => mkWasiCtx [] [] end.

Definition call_export (i : wt_instance) (export : string) : result module_error unit :=
  if negb (wt_unit_type i export) then Err (WrongType export)
  else if wt_call i export then Ok tt else Err (Trapped export).

Definition run_wasm_module (wasm_bytes : list byte) (config : option ApplicationConfig) : result module_error unit :=
  match wt_compile wasm_bytes with
  | None => Err CompileFailed
  | Some m =>
      let state := build_wasi config in
      if negb wt_link then Err LinkFailed
      else
        match wt_instantiate m state with
        | None => Err InstantiateFailed
        | Some i =>
            if wt_get_func i "_start" then call_export i "_start"
            else if wt_get_func i "main" then call_export i "main"
            else Err NoEntryPoint
        end
  end.

(** The limits of a configuration have no effect: two configurations with the
    same environment and arguments run alike. *)
Theorem limits_ignored wasm m1 c1 m2 c2 env l :
  run_wasm_module wasm (Some (mkApplicationConfig m1 c1 env l)) = run_wasm_module wasm (Some (mkApplicationConfig m2 c2 env l)).
Proof. reflexivity. Qed.

(** A module succeeds exactly when its entry point, [_start] before [main],
    has the unit type and returns. *)
Theorem module_success wasm config :
  run_wasm_module wasm config = Ok tt <->
  exists m i export, wt_compile wasm = Some m /\ wt_link = true /\ wt_instantiate m (build_wasi config) = Some i /\
    wt_get_func i export = true /\ wt_unit_type i export = true /\ wt_call i export = true /\
    (export = "_start"%string \/ (export = "main"%string /\ wt_get_func i "_start" = false)).
Proof.
  unfold run_wasm_module, call_export. split.
  - destruct (wt_compile wasm) as [m|]; [|done]. destruct wt_link; simpl; [|done].
    destruct (wt_instantiate m _) as [i|] eqn:Ei; [|done].
    destruct (wt_get_func i "_start") eqn:Es; [|destruct (wt_get_func i "main") eqn:Em; [|done]].
    + destruct (wt_unit_type i "_start") eqn:Et; [|done]. simpl. destruct (wt_call i "_start") eqn:Ec; [|done].
      intros _. exists m, i, "_start"%string. split_and!; auto.
    + destruct (wt_unit_type i "main") eqn:Et; [|done]. simpl. destruct (wt_call i "main") eqn:Ec; [|done].
      intros _. exists m, i, "main"%string. split_and!; auto.
  - intros (m & i & export & -> & -> & -> & Hg & Ht & Hc & [->|[-> Hs]]); simpl.
    + by rewrite Hg, Ht, Hc.
    + by rewrite Hs, Hg, Ht, Hc.
Qed.
End Module.

(** ** Tasks *)

Inductive job := Queued | Executing | Finished | Cancelled.

(** [AbortHandle::abort] on a task of [spawn_blocking]: one that has not
    started is cancelled, one that has started is not affected. *)
Class Tokio := abort_job : job -> job.
Class TokioLaws (T : Tokio) : Prop := {
  abort_executing : abort_job Executing = Executing;
  abort_queued : abort_job Queued = Cancelled;
  abort_done j : j = Finished \/ j = Cancelled -> abort_job j = j;
}.

Record pool := mkPool { p_runner : WasmRunner; p_jobs : gmap task job }.

Inductive pool_event :=
| Deploys (fresh : task) (app_id : string) (wasm : list byte) (config : option ApplicationConfig)
| Stops (app_id : string)
| JobStarts (t : task)
| JobEnds (t : task).

Section Pool.
Context `{T : Tokio}.

Definition abort_all (ts : list task) (jobs : gmap task job) : gmap task job :=
  foldr (fun t jobs => alter abort_job t jobs) jobs ts.

Definition pool_step (e : pool_event) (p : pool) : option pool :=
  match e with
  | Deploys fresh app_id wasm config =>
      let '(r, runner, aborted) := runner_deploy fresh app_id wasm config (p_runner p) in
      let jobs := abort_all aborted (p_jobs p) in
      Some (mkPool runner (match r with Ok _ => <[fresh := Queued]> jobs | Err _ => jobs end))
  | Stops app_id =>
      let '(_, runner, aborted) := runner_stop app_id (p_runner p) in
      Some (mkPool runner (abort_all aborted (p_jobs p)))
  | JobStarts t =>
      match p_jobs p !! t with Some Queued => Some (mkPool (p_runner p) (<[t := Executing]> (p_jobs p))) | _ => None end
  | JobEnds t =>
      match p_jobs p !! t with Some Executing => Some (mkPool (p_runner p) (<[t := Finished]> (p_jobs p))) | _ => None end
  end.

(** The histories of an edge client: every deployment gets a task of its own. *)
Inductive pool_reach : pool -> Prop :=
| reach_start : pool_reach (mkPool WasmRunner_new ∅)
| reach_step e p p' :
    pool_reach p -> (forall fresh app wasm config, e = Deploys fresh app wasm config -> p_jobs p !! fresh = None) ->
    pool_step e p = Some p' -> pool_reach p'.

(** The handles are those of different tasks, none of them cancelled; and a
    task that waits for a thread is one of them. *)
Record pool_inv (p : pool) : Prop := {
  inv_handle app t : handles (p_runner p) !! app = Some t -> exists j, p_jobs p !! t = Some j /\ j <> Cancelled;
  inv_inj app app' t : handles (p_runner p) !! app = Some t -> handles (p_runner p) !! app' = Some t -> app = app';
  inv_queued t : p_jobs p !! t = Some Queued -> exists app, handles (p_runner p) !! app = Some t;
}.

Context `{L : !TokioLaws T}.

(** Nothing but an abort of the tasks given up. *)
Lemma stop_inv app p r runner aborted :
  pool_inv p -> runner_stop app (p_runner p) = (r, runner, aborted) ->
  pool_inv (mkPool runner (abort_all aborted (p_jobs p))) /\ handles runner !! app = None /\
  (forall t, abort_all aborted (p_jobs p) !! t = None <-> p_jobs p !! t = None).
Proof.
  intros [H1 H2 H3]. unfold runner_stop. destruct (handles (p_runner p) !! app) as [t|] eqn:Ht; intros [= <- <- <-].
  - split_and!; [split; simpl| |].
    + intros a t' Ha. rewrite lookup_delete_Some in Ha. destruct Ha as [Hne Ha].
      destruct (decide (t = t')) as [<-|]; [by destruct (H2 app a t Ht Ha)|]. rewrite lookup_alter_ne by done. eauto.
    + intros a a' t' [_ Ha]%lookup_delete_Some [_ Ha']%lookup_delete_Some. eauto.
    + intros t' Hq. destruct (decide (t = t')) as [<-|Hne].
      * exfalso. rewrite lookup_alter_eq in Hq. destruct (p_jobs p !! t) as [[]|]; simpl in Hq; try done.
        -- by rewrite abort_queued in Hq.
        -- by rewrite abort_executing in Hq.
        -- by rewrite abort_done in Hq by auto.
        -- by rewrite abort_done in Hq by auto.
      * rewrite lookup_alter_ne in Hq by done. destruct (H3 t' Hq) as [a Ha]. exists a. rewrite lookup_delete_ne; [done|].
        intros ->. congruence.
    + simpl. by rewrite lookup_delete_eq.
    + intros t'. simpl. rewrite lookup_alter_None. done.
  - split_and!; [|done|done]. by split.
Qed.

(** A task that starts or ends. *)
Lemma job_moves_inv t j p :
  pool_inv p -> is_Some (p_jobs p !! t) -> p_jobs p !! t <> Some Cancelled -> j <> Queued -> j <> Cancelled ->
  pool_inv (mkPool (p_runner p) (<[t := j]> (p_jobs p))).
Proof.
  intros [H1 H2 H3] Hs Hc Hq Hj. split; simpl; [|done|].
  - intros a t' Ha. destruct (decide (t = t')) as [<-|]; [exists j; by rewrite lookup_insert_eq|].
    rewrite lookup_insert_ne by done. eauto.
  - intros t' [[_ Heq]|[_ Ht]]%lookup_insert_Some; [done|eauto].
Qed.

Lemma pool_step_inv e p p' :
  pool_inv p -> (forall fresh app wasm config, e = Deploys fresh app wasm config -> p_jobs p !! fresh = None) ->
  pool_step e p = Some p' -> pool_inv p'.
Proof.
  intros Hp Hf. destruct e as [fresh app wasm config|app|t|t]; simpl.
  - specialize (Hf _ _ _ _ eq_refl). unfold runner_deploy.
    destruct (runner_stop app (p_runner p)) as [[r runner] aborted] eqn:Es.
    destruct (stop_inv app p r runner aborted Hp Es) as (Hi & Hn & Hj). apply Hj in Hf.
    destruct (validate_wasm_magic wasm); intros [= <-]; [|exact Hi]. destruct Hi as [H1 H2 H3]; simpl in *.
    assert (forall a t, handles runner !! a = Some t -> t <> fresh) as Hold
      by (intros a t Ha ->; destruct (H1 a fresh Ha) as (j & Hjo & _); congruence).
    split; simpl.
    + intros a t [[<- <-]|[Hne Ha]]%lookup_insert_Some; [exists Queued; by rewrite lookup_insert_eq|].
      rewrite lookup_insert_ne; [eauto|]. intros ->. by apply (Hold a t).
    + intros a a' t [[<- <-]|[Hne Ha]]%lookup_insert_Some [[<- Heq]|[Hne' Ha']]%lookup_insert_Some; try done.
      * by destruct (Hold a' fresh Ha').
      * subst. by destruct (Hold a t Ha).
      * eauto.
    + intros t [[<- _]|[Hne Ht]]%lookup_insert_Some; [exists app; by rewrite lookup_insert_eq|].
      destruct (H3 t Ht) as [a Ha]. exists a. rewrite lookup_insert_ne; [done|]. intros ->. congruence.
  - destruct (runner_stop app (p_runner p)) as [[r runner] aborted] eqn:Es. intros [= <-]. by eapply stop_inv.
  - destruct (p_jobs p !! t) as [[]|] eqn:Et; try done. intros [= <-]. apply (job_moves_inv t Executing); rewrite ?Et; done || by eexists.
  - destruct (p_jobs p !! t) as [[]|] eqn:Et; try done. intros [= <-]. apply (job_moves_inv t Finished); rewrite ?Et; done || by eexists.
Qed.

Lemma pool_reach_inv p : pool_reach p -> pool_inv p.
Proof.
  induction 1 as [|e p p' _ IH Hf Hs]; [|by eapply pool_step_inv].
  by split; simpl; intros; simplify_map_eq.
Qed.

(** C32: the tasks of the edge client. In every history of deployments, stops
    and task steps, the applications listed as running have tasks of their
    own, none of them cancelled; a task that waits for a thread is the task of
    exactly one listed application, so a module whose application was stopped
    or deployed anew before the module began never runs; and a stop of a listed
    application always succeeds and takes it off the list, but reaches the
    module only in that case: a task that waits is cancelled, a task that
    executes goes on executing, and after a redeployment the old and the new
    module both execute. (tokio: aborting a blocking task cancels it before it
    has started and does nothing afterwards.) *)
Theorem stop_reaches_waiting_tasks_only p app t :
  pool_reach p ->
  (forall a t', handles (p_runner p) !! a = Some t' -> exists j, p_jobs p !! t' = Some j /\ j <> Cancelled) /\
  (forall t', p_jobs p !! t' = Some Queued ->
     exists a, handles (p_runner p) !! a = Some t' /\ forall a', handles (p_runner p) !! a' = Some t' -> a' = a) /\
  (handles (p_runner p) !! app = Some t ->
   exists p1, pool_step (Stops app) p = Some p1 /\ (runner_stop app (p_runner p)).1.1 = Ok tt /\
     is_running app (p_runner p1) = false /\
     (p_jobs p !! t = Some Queued -> p_jobs p1 !! t = Some Cancelled) /\
     (p_jobs p !! t = Some Executing ->
      p_jobs p1 !! t = Some Executing /\
      forall fresh wasm config, p_jobs p !! fresh = None -> validate_wasm_magic wasm = true ->
        exists p2 p3, pool_step (Deploys fresh app wasm config) p = Some p2 /\
          pool_step (JobStarts fresh) p2 = Some p3 /\
          p_jobs p3 !! t = Some Executing /\ p_jobs p3 !! fresh = Some Executing)).
Proof.
  intros Hp%pool_reach_inv. destruct Hp as [H1 H2 H3]. split; [done|]. split.
  { intros t' Ht'. destruct (H3 t' Ht') as [a Ha]. exists a. eauto. }
  intros Ht. unfold pool_step, runner_deploy, runner_stop. rewrite Ht. eexists. split; [done|].
  simpl. split_and!; [done| | |].
  - unfold is_running. simpl. rewrite lookup_delete_eq. by apply bool_decide_eq_false, is_Some_None.
  - intros Hj. rewrite lookup_alter_eq, Hj. simpl. by rewrite abort_queued.
  - intros Hj. rewrite lookup_alter_eq, Hj. simpl. rewrite abort_executing. split; [done|].
    intros fresh wasm config Hf ->. assert (fresh <> t) by congruence. eexists _, _. split; [done|]. simpl.
    rewrite lookup_insert_eq. split; [done|]. simpl. rewrite lookup_insert_ne, lookup_insert_ne, lookup_alter_eq, Hj by done.
    simpl. rewrite abort_executing. by rewrite lookup_insert_eq.
Qed.
End Pool.

(** ** A run *)

Definition tokio_model : Tokio := fun j => match j with Queued => Cancelled | j => j end.
Lemma tokio_model_laws : TokioLaws tokio_model.
Proof. split; [done|done|]. by intros j [->| ->]. Qed.

Definition endless : list byte := WASM_MAGIC.
Definition waiting_pool : pool := mkPool (mkWasmRunner (<["app"%string := 1]> ∅)) (<[1 := Queued]> ∅).
Definition busy_pool : pool := mkPool (p_runner waiting_pool) (<[1 := Executing]> (p_jobs waiting_pool)).

Lemma busy_pool_reached : pool_reach (T := tokio_model) busy_pool.
Proof.
  apply (reach_step (T := tokio_model) (JobStarts 1) waiting_pool); [|done|reflexivity].
  apply (reach_step (T := tokio_model) (Deploys 1 "app" endless None) (mkPool WasmRunner_new ∅));
    [apply reach_start| |reflexivity].
  intros fresh app wasm config [= <- <- <- <-]. reflexivity.
Qed.

Lemma stop_reaches_waiting_tasks_only_witness :
  exists p2 p3, pool_step (T := tokio_model) (Deploys 2 "app" endless None) busy_pool = Some p2 /\
    pool_step (T := tokio_model) (JobStarts 2) p2 = Some p3 /\
    p_jobs p3 !! 1 = Some Executing /\ p_jobs p3 !! 2 = Some Executing.
Proof.
  destruct (stop_reaches_waiting_tasks_only (T := tokio_model) (L := tokio_model_laws) busy_pool "app" 1)
    as (_ & _ & Hs); [apply busy_pool_reached|].
  destruct Hs as (p1 & _ & _ & _ & _ & He); [reflexivity|]. destruct He as [_ He]; [reflexivity|].
  apply (He 2 endless None); reflexivity.
Defined.
