(* ===== verification/Certificates.v ===== *)
(** * Certificates and their command-line tool: [crates/wasmbed-cert] and
    [crates/wasmbed-cert-tool]

    Certificate authorities, the identities they issue, and the tool that
    keeps both in files and issues the identity of a device. rcgen, which
    generates keys and signs certificates, is a parameter; [CertLaws] is what
    its documentation says of the certificates it makes. A distinguished name
    is the sequence of its [push]es; a file system is a map from paths to
    contents, with what may be written as a parameter. *)

From S2P Require Import Prelude.
From S2P Require Import RustStd.
From S2P Require Import Externals.
From S2P Require Import K8s.
Local Open Scope Z_scope.

(** ** Parameters *)

Inductive KeyUsagePurpose := DigitalSignature | KeyEncipherment | KeyCertSign | CrlSign.
Inductive ExtendedKeyUsagePurpose := ServerAuth | ClientAuth.
Inductive DnType :=
| CommonName | OrganizationName | OrganizationalUnitName | CountryName | StateOrProvinceName | LocalityName.
Inductive SignatureAlgorithm := PKCS_ED25519 | PKCS_ECDSA_P256_SHA256.

Definition DistinguishedName : Type := list (DnType * string).

(** The fields of rcgen's [CertificateParams] the sources set. *)
Record CertificateParams := mkCertificateParams {
  distinguished_name : DistinguishedName;
  is_ca : bool;
  key_usages : list KeyUsagePurpose;
  extended_key_usages : list ExtendedKeyUsagePurpose;
}.

Definition rcgen_error : Type := string.

(** rcgen; a key is generated from the randomness given. *)
Class Rcgen := {
  key_pair : Type;
  generate_for : SignatureAlgorithm -> Z -> result rcgen_error key_pair;
  serialize_der : key_pair -> list byte;
  public_key_der : key_pair -> list byte;
  from_pkcs8_der : list byte -> SignatureAlgorithm -> result rcgen_error key_pair;
  key_from_pem : string -> result rcgen_error key_pair;
  self_signed : CertificateParams -> key_pair -> result rcgen_error (list byte);
  from_ca_cert_der : list byte -> result rcgen_error CertificateParams;
  from_ca_cert_pem : string -> result rcgen_error CertificateParams;
  (** parameters, key of the subject, certificate and key of the issuer *)
  signed_by : CertificateParams -> key_pair -> list byte -> key_pair -> result rcgen_error (list byte);
}.

(** What a reader of X.509 finds in a certificate, and whether its signature
    verifies under a public key. *)
Record certificate_content := mkContent {
  cc_subject : DistinguishedName;
  cc_issuer : DistinguishedName;
  cc_is_ca : bool;
  cc_key_usages : list KeyUsagePurpose;
  cc_extended_key_usages : list ExtendedKeyUsagePurpose;
  cc_spki : list byte;
}.

Class CertReader := {
  read_certificate : list byte -> option certificate_content;
  verifies : list byte -> list byte -> bool;
}.

Definition content_of (p : CertificateParams) (issuer : DistinguishedName) (spki : list byte) : certificate_content :=
  mkContent (distinguished_name p) issuer (is_ca p) (key_usages p) (extended_key_usages p) spki.

Class CertLaws (R : Rcgen) (C : CertReader) : Prop := {
  key_round_trip a seed k : generate_for a seed = Ok k -> from_pkcs8_der (serialize_der k) a = Ok k;
  self_signed_content p k d :
    self_signed p k = Ok d ->
    read_certificate d = Some (content_of p (distinguished_name p) (public_key_der k)) /\
    verifies (public_key_der k) d = true;
  signed_by_content p k issuer ik c d :
    signed_by p k issuer ik = Ok d -> read_certificate issuer = Some c ->
    read_certificate d = Some (content_of p (cc_subject c) (public_key_der k)) /\
    verifies (public_key_der ik) d = true;
  ca_cert_params d c p :
    read_certificate d = Some c -> from_ca_cert_der d = Ok p -> distinguished_name p = cc_subject c;
}.

(** ** The library ([wasmbed-cert/src/lib.rs]) *)

Record Credential := mkCredential { cred_private_key : list byte; cred_certificate : list byte }.

Section Library.
Context `{R : Rcgen}.

Definition Credential_self_signed (seed : Z) (params : CertificateParams) : result rcgen_error Credential :=
  let? k := generate_for PKCS_ED25519 seed in
  let? certificate := self_signed params k in
  Ok (mkCredential (serialize_der k) certificate).

Definition Credential_signed (seed : Z) (authority : Credential) (params : CertificateParams) :
    result rcgen_error Credential :=
  let? k := generate_for PKCS_ED25519 seed in
  let? authority_key := from_pkcs8_der (cred_private_key authority) PKCS_ED25519 in
  let? authority_params := from_ca_cert_der (cred_certificate authority) in
  let? authority_cert := self_signed authority_params authority_key in
  let? certificate := signed_by params k authority_cert authority_key in
  Ok (mkCredential (serialize_der k) certificate).

Definition Credential_public_key (c : Credential) : result rcgen_error (list byte) :=
  let? k := from_pkcs8_der (cred_private_key c) PKCS_ED25519 in Ok (public_key_der k).

(** [from_parts] of every type of the crate: the key is not compared with the
    certificate. *)
Definition from_parts (private_key certificate : list byte) : Credential := mkCredential private_key certificate.

(** [Authority::new], behind [ServerAuthority::new] and [ClientAuthority::new] *)
Definition Authority_new (seed : Z) (dn : DistinguishedName) : result rcgen_error Credential :=
  Credential_self_signed seed (mkCertificateParams dn true [DigitalSignature; KeyCertSign; CrlSign] []).

Definition Authority_issue_certificate (seed : Z) (a : Credential) (dn : DistinguishedName)
    (usages : list KeyUsagePurpose) (extended : list ExtendedKeyUsagePurpose) : result rcgen_error Credential :=
  Credential_signed seed a (mkCertificateParams dn false usages extended).

Inductive CertKind := Server | Client.

Definition usages_of (kind : CertKind) : list KeyUsagePurpose :=
  match kind with Server => [DigitalSignature; KeyEncipherment] | Client => [DigitalSignature] end.
Definition extended_of (kind : CertKind) : list ExtendedKeyUsagePurpose :=
  match kind with Server => [ServerAuth] | Client => [ClientAuth] end.

(** [ServerAuthority::issue_certificate] and [ClientAuthority::issue_certificate] *)
Definition issue_certificate (kind : CertKind) (seed : Z) (a : Credential) (dn : DistinguishedName) :
    result rcgen_error Credential :=
  Authority_issue_certificate seed a dn (usages_of kind) (extended_of kind).

(** ** The tool ([wasmbed-cert-tool/src/main.rs]) *)

Record DnArgs := mkDnArgs {
  common_name : string;
  organization : option string;
  organizational_unit : option string;
  country : option string;
  state : option string;
  locality : option string;
}.

Inductive Command :=
| GenerateCa (kind : CertKind) (dn : DnArgs) (out_key out_cert : string)
| IssueCert (kind : CertKind) (ca_key ca_cert : string) (dn : DnArgs) (out_key out_cert : string)
| IssueDevice (ca_key ca_cert device_id out_dir : string).

Definition push_opt (t : DnType) (v : option string) (dn : DistinguishedName) : DistinguishedName :=
  match v with Some v => dn ++ [(t, v)] | None => dn end.

Definition build_distinguished_name (c : Command) : DistinguishedName :=
  match c with
  | GenerateCa _ a _ _ | IssueCert _ _ _ a _ _ =>
      push_opt LocalityName (locality a)
        (push_opt StateOrProvinceName (state a)
           (push_opt CountryName (country a)
              (push_opt OrganizationalUnitName (organizational_unit a)
                 (push_opt OrganizationName (organization a) [(CommonName, common_name a)]))))
  | IssueDevice _ _ device_id _ => [(CommonName, device_id)]
  end.

Inductive tool_error :=
| RcgenFailed (e : rcgen_error)
| FailedToRead (path : string)
| FailedToWrite (path : string)
| FailedToCreate (dir : string)
| FailedToParseKey (path : string)
| FailedToParseCert (path : string)
| FailedToReconstruct
| FailedToGenerate
| FailedToSign.

(** What [std::fs] can do, apart from the contents. *)
Class FileAccess := { writable : string -> bool; creatable : string -> bool }.
Context `{F : FileAccess} `{B : Base64}.

(** A command that may fail on the way and leaves the files it has written. *)
Notation files := (gmap string (list byte)).
Definition tool (A : Type) : Type := files -> result tool_error A * files.

Definition tret {A} (a : A) : tool A := fun fs => (Ok a, fs).
Definition tbind {A C} (m : tool A) (k : A -> tool C) : tool C :=
  fun fs => match m fs with (Ok a, fs) => k a fs | (Err e, fs) => (Err e, fs) end.

(** A step outside the file system, with the error it is reported as. *)
Definition lift {A} (r : result rcgen_error A) (err : rcgen_error -> tool_error) : tool A :=
  fun fs => (match r with Ok a => Ok a | Err e => Err (err e) end, fs).

Definition fs_read (path : string) : tool (list byte) :=
  fun fs => (match fs !! path with Some bs => Ok bs | None => Err (FailedToRead path) end, fs).
Definition fs_write (path : string) (bs : list byte) : tool unit :=
  fun fs => if writable path then (Ok tt, <[path := bs]> fs) else (Err (FailedToWrite path), fs).
Definition create_dir_all (dir : string) : tool unit :=
  fun fs => (if creatable dir then Ok tt else Err (FailedToCreate dir), fs).

Definition read_to_string (path : string) : tool string :=
  tbind (fs_read path) (fun bs fs =>
    (if utf8_valid bs then Ok (bytes_str bs) else Err (FailedToRead path), fs)).

(** [Path::join] *)
Definition path_join (dir file : string) : string :=
  if starts_with "/" file then file
  else if String.eqb dir "" || ends_with "/" dir then (dir ++ file)%string
  else (dir ++ "/" ++ file)%string.

Definition write_credential (c : Credential) (out_key out_cert : string) : tool unit :=
  tbind (fs_write out_key (cred_private_key c)) (fun _ => fs_write out_cert (cred_certificate c)).

(** [issue_device_identity]; the result is the line printed. *)
Definition issue_device_identity (seed : Z) (ca_key ca_cert device_id out_dir : string) : tool string :=
  tbind (read_to_string ca_key) (fun ca_key_pem =>
  tbind (read_to_string ca_cert) (fun ca_cert_pem =>
  tbind (lift (key_from_pem ca_key_pem) (fun _ => FailedToParseKey ca_key)) (fun ca_key_pair =>
  tbind (lift (from_ca_cert_pem ca_cert_pem) (fun _ => FailedToParseCert ca_cert)) (fun ca_params =>
  tbind (lift (self_signed ca_params ca_key_pair) (fun _ => FailedToReconstruct)) (fun ca_certificate =>
  tbind (lift (generate_for PKCS_ECDSA_P256_SHA256 seed) (fun _ => FailedToGenerate)) (fun device_key =>
  let params := mkCertificateParams [(CommonName, device_id)] false [DigitalSignature] [ClientAuth] in
  tbind (lift (signed_by params device_key ca_certificate ca_key_pair) (fun _ => FailedToSign)) (fun certificate =>
  tbind (create_dir_all out_dir) (fun _ =>
  let spki := public_key_der device_key in
  tbind (fs_write (path_join out_dir (device_id ++ ".key")) (serialize_der device_key)) (fun _ =>
  tbind (fs_write (path_join out_dir (device_id ++ ".crt")) certificate) (fun _ =>
  tbind (fs_write (path_join out_dir (device_id ++ ".spki")) spki) (fun _ =>
  tret (url_encode spki)))))))))))).

(** [main]: the lines printed. *)
Definition cert_tool_main (seed : Z) (c : Command) : tool (list string) :=
  match c with
  | GenerateCa kind _ out_key out_cert =>
      tbind (lift (Authority_new seed (build_distinguished_name c)) RcgenFailed) (fun cred =>
      tbind (write_credential cred out_key out_cert) (fun _ => tret []))
  | IssueCert kind ca_key ca_cert _ out_key out_cert =>
      tbind (fs_read ca_cert) (fun ca_der =>
      tbind (fs_read ca_key) (fun key_der =>
      tbind (lift (issue_certificate kind seed (from_parts key_der ca_der) (build_distinguished_name c)) RcgenFailed)
        (fun issued => tbind (write_credential issued out_key out_cert) (fun _ => tret []))))
  | IssueDevice ca_key ca_cert device_id out_dir =>
      tbind (issue_device_identity seed ca_key ca_cert device_id out_dir) (fun line => tret [line])
  end.
End Library.

(** ** Public keys ([wasmbed-types/src/cert.rs]) *)

(** [PublicKey::try_from(&CertificateDer)] *)
Definition PublicKey_try_from `{CertReader} (cert : list byte) : option (list byte) :=
  let* c := read_certificate cert in Some (cc_spki c).

(** The serde form: a JSON string. *)
Definition PublicKey_serialize `{Base64} (key : list byte) : string := PublicKey_to_base64 key.
Definition PublicKey_deserialize `{Base64} (s : string) : option (list byte) := PublicKey_from_base64 s.
