(* ===== verification/CertificatesProofs.v ===== *)
(** * What the certificate tool provisions

    Identities chain to the authority that issued them, also when the
    authority went through files, and a device provisioned with
    [issue-device] enrolls at the gateway once its printed key is in its
    Device object. *)

From Stdlib Require Import Strings.Ascii.
From S2P Require Import Prelude.
From S2P Require Import RustStd.
From S2P Require Import Externals.
From S2P Require Import Base64.
From S2P Require Import Protocol.
From S2P Require Import K8s.
From S2P Require Import KubeStore.
From S2P Require Import K8sProofs.
From S2P Require Import Registry.
From S2P Require Import Gateway.
From S2P Require Import GatewaySteps.
From S2P Require Import EnrollmentProofs.
From S2P Require Import Tls.
From S2P Require Import EdgeClient.
From S2P Require Import EdgeClientProofs.
From S2P Require Import Certificates.
Local Open Scope Z_scope.

(** ** Paths *)

Lemma string_app_inj (a b c : string) : (a ++ b)%string = (a ++ c)%string -> b = c.
Proof. induction a as [|x a IH]; [done|]. intros [= ?]. auto. Qed.

(** Files of one stem differ when their extensions do. *)
Lemma path_join_inj dir stem a b :
  path_join dir (stem ++ String "."%char a) = path_join dir (stem ++ String "."%char b) -> a = b.
Proof.
  assert (starts_with "/" (stem ++ String "."%char a) = starts_with "/" (stem ++ String "."%char b)) as Hs.
  { unfold starts_with. destruct stem as [|c stem]; [done|]. apply bool_decide_ext.
    change (String c stem ++ String "."%char a)%string with (String c (stem ++ String "."%char a)).
    change (String c stem ++ String "."%char b)%string with (String c (stem ++ String "."%char b)).
    cbn [strip_prefix]. destruct (Ascii.eqb "/" c); [split; intros _; by eexists|done]. }
  unfold path_join. rewrite Hs. destruct (starts_with "/" (stem ++ String "."%char b)%string).
  { intros H%string_app_inj. by injection H. }
  destruct (_ || _); intros H; repeat apply string_app_inj in H; by injection H.
Qed.

(** ** Commands that succeed *)

Section Tool.
Context `{R : Rcgen} `{F : FileAccess} `{B : Base64}.

Lemma tbind_ok {A C} (m : tool A) (k : A -> tool C) fs c fs' :
  tbind m k fs = (Ok c, fs') -> exists a fs1, m fs = (Ok a, fs1) /\ k a fs1 = (Ok c, fs').
Proof. unfold tbind. destruct (m fs) as [[a|e] fs1]; [eauto|done]. Qed.

Lemma lift_ok {A} (r : result rcgen_error A) err fs a fs' :
  lift r err fs = (Ok a, fs') -> r = Ok a /\ fs' = fs.
Proof. unfold lift. destruct r; [|done]. by intros [= -> ->]. Qed.

Lemma fs_write_ok path bs fs u fs' : fs_write path bs fs = (Ok u, fs') -> fs' = <[path := bs]> fs.
Proof. unfold fs_write. destruct (writable path); [|done]. by intros [= _ <-]. Qed.

Lemma fs_read_ok path fs bs fs' : fs_read path fs = (Ok bs, fs') -> fs !! path = Some bs /\ fs' = fs.
Proof. unfold fs_read. destruct (fs !! path); [|done]. by intros [= -> ->]. Qed.

Lemma read_to_string_ok path fs t fs' :
  read_to_string path fs = (Ok t, fs') -> fs' = fs /\ fs !! path = Some (str_bytes t).
Proof.
  intros (bs & fs1 & [Hr ->]%fs_read_ok & H)%tbind_ok. destruct (utf8_valid bs); [|done].
  injection H as <- <-. by rewrite str_bytes_str.
Qed.

Lemma write_credential_ok c k d fs u fs' :
  write_credential c k d fs = (Ok u, fs') -> k <> d ->
  fs' !! k = Some (cred_private_key c) /\ fs' !! d = Some (cred_certificate c).
Proof.
  intros (u1 & fs1 & ->%fs_write_ok & ->%fs_write_ok)%tbind_ok Hne.
  split; [rewrite lookup_insert_ne by done|]; by rewrite lookup_insert_eq.
Qed.
End Tool.

(** Take a command that succeeded apart, step by step. *)
Ltac inv_tool :=
  repeat match goal with
  | H : tbind _ _ _ = (Ok _, _) |- _ => apply tbind_ok in H as (? & ? & ? & H)
  | H : lift _ _ _ = (Ok _, _) |- _ => apply lift_ok in H as [? ->]
  | H : fs_write _ _ _ = (Ok _, _) |- _ => apply fs_write_ok in H as ->
  | H : fs_read _ _ = (Ok _, _) |- _ => apply fs_read_ok in H as [? ->]
  | H : read_to_string _ _ = (Ok _, _) |- _ => apply read_to_string_ok in H as [-> ?]
  | H : tret _ _ = (Ok _, _) |- _ => injection H as <- <-
  | H : create_dir_all _ _ = (Ok _, _) |- _ => unfold create_dir_all in H; case_match; [injection H as _ <-|done]
  end.

Section Chain.
Context `{R : Rcgen} `{C : CertReader} {L : CertLaws R C} `{F : FileAccess} `{B : Base64}.

Definition ca_usages : list KeyUsagePurpose := [DigitalSignature; KeyCertSign; CrlSign].

Lemma authority_content seed dn a :
  Authority_new seed dn = Ok a ->
  exists k, from_pkcs8_der (cred_private_key a) PKCS_ED25519 = Ok k /\
    read_certificate (cred_certificate a) = Some (mkContent dn dn true ca_usages [] (public_key_der k)) /\
    verifies (public_key_der k) (cred_certificate a) = true.
Proof.
  unfold Authority_new, Credential_self_signed. intros H. inv_rbind. simplify_eq/=.
  destruct (self_signed_content _ _ _ Ha0) as [Hv Hs]. eauto using key_round_trip.
Qed.

Lemma signed_content seed a p ka c i :
  from_pkcs8_der (cred_private_key a) PKCS_ED25519 = Ok ka ->
  read_certificate (cred_certificate a) = Some c -> Credential_signed seed a p = Ok i ->
  exists k, from_pkcs8_der (cred_private_key i) PKCS_ED25519 = Ok k /\
    read_certificate (cred_certificate i) = Some (content_of p (cc_subject c) (public_key_der k)) /\
    verifies (public_key_der ka) (cred_certificate i) = true.
Proof.
  intros Hka Hc. unfold Credential_signed. rewrite Hka. intros H. inv_rbind. simplify_eq/=.
  destruct (self_signed_content _ _ _ Ha2) as [Hv _].
  destruct (signed_by_content _ _ _ _ _ _ Ha3 Hv) as [Hi Hs].
  exists a0. split; [eauto using key_round_trip|]. split; [|done]. rewrite Hi. f_equal.
  unfold content_of. simpl. by rewrite (ca_cert_params _ _ _ Hc Ha1).
Qed.

(** Certificates chain through the files of the tool. When a CA written
    by [generate-ca] is read back by [issue-cert], the certificate issued has
    the requested subject, the CA's subject as issuer, exactly the usages of
    its kind, is no CA itself, carries the public key of the private key
    written beside it, and its signature verifies under the public key of the
    CA's own certificate, which is self-signed and may sign certificates. The
    kind the CA was generated with plays no part. *)
Theorem tool_chain s1 k1 a1 ck cc fs l1 fs1 s2 k2 a2 ok oc l2 fs2 :
  let generate := GenerateCa k1 a1 ck cc in
  let issue := IssueCert k2 ck cc a2 ok oc in
  cert_tool_main s1 generate fs = (Ok l1, fs1) -> ck <> cc ->
  cert_tool_main s2 issue fs1 = (Ok l2, fs2) -> ok <> oc ->
  exists ca_cert cert key pk_ca pk,
    fs1 !! cc = Some ca_cert /\ fs2 !! oc = Some cert /\ fs2 !! ok = Some key /\
    read_certificate ca_cert = Some (mkContent (build_distinguished_name generate) (build_distinguished_name generate)
                                       true ca_usages [] pk_ca) /\
    read_certificate cert = Some (mkContent (build_distinguished_name issue) (build_distinguished_name generate)
                                    false (usages_of k2) (extended_of k2) pk) /\
    Credential_public_key (from_parts key cert) = Ok pk /\
    verifies pk_ca ca_cert = true /\ verifies pk_ca cert = true.
Proof.
  intros generate issue H1 Hne1 H2 Hne2. unfold cert_tool_main in H1, H2. simpl in H1, H2. inv_tool.
  match goal with H : write_credential ?a _ _ fs = _, H' : write_credential ?i _ _ _ = _ |- _ =>
    destruct (write_credential_ok _ _ _ _ _ _ H Hne1) as [Hk Hc];
    destruct (write_credential_ok _ _ _ _ _ _ H' Hne2) as [Hk' Hc'] end.
  simplify_eq/=.
  match goal with H : Authority_new _ _ = Ok _ |- _ => destruct (authority_content _ _ _ H) as (ka & Hka & Hra & Hva) end.
  match goal with H : issue_certificate _ _ _ _ = Ok _ |- _ =>
    destruct (signed_content _ _ _ ka _ _ Hka Hra H) as (k & Hki & Hri & Hvi) end.
  do 5 eexists. split_and!; [eassumption|exact Hc'|exact Hk'|exact Hra|exact Hri| |exact Hva|exact Hvi].
  unfold Credential_public_key, from_parts. simpl. by rewrite Hki.
Qed.

(** *** A device identity *)

Definition device_file (out_dir device_id ext : string) : string := path_join out_dir (device_id ++ String "."%char ext).

Lemma issue_device_artefacts seed ca_key ca_cert device_id out_dir fs line fs' :
  issue_device_identity seed ca_key ca_cert device_id out_dir fs = (Ok line, fs') ->
  exists ck cp k cert,
    generate_for PKCS_ECDSA_P256_SHA256 seed = Ok k /\
    fs' !! device_file out_dir device_id "key" = Some (serialize_der k) /\
    fs' !! device_file out_dir device_id "crt" = Some cert /\
    fs' !! device_file out_dir device_id "spki" = Some (public_key_der k) /\
    line = PublicKey_to_base64 (public_key_der k) /\
    read_certificate cert =
      Some (mkContent [(CommonName, device_id)] (distinguished_name cp) false [DigitalSignature] [ClientAuth]
              (public_key_der k)) /\
    (exists t, fs !! ca_key = Some (str_bytes t) /\ key_from_pem t = Ok ck) /\
    verifies (public_key_der ck) cert = true.
Proof.
  intros H. unfold issue_device_identity in H. inv_tool. cbv zeta in *. inv_tool.
  match goal with H : self_signed _ _ = Ok _, H' : signed_by _ _ _ _ = Ok _ |- _ =>
    destruct (self_signed_content _ _ _ H) as [Hv _];
    destruct (signed_by_content _ _ _ _ _ _ H' Hv) as [Hr Hs] end.
  do 4 eexists. split_and!; [eassumption| | | |reflexivity|exact Hr|eauto|exact Hs]; unfold device_file;
    repeat (rewrite lookup_insert_ne by (by intros ?%path_join_inj)); apply lookup_insert_eq.
Qed.
End Chain.

(** ** Provisioning, from the tool to the enrollment *)

(** What the other libraries make of rcgen's output: ring reads the PKCS#8
    document of a P-256 key, whose SubjectPublicKeyInfo (91 bytes) holds its
    public point, and x509-parser reads the certificate. *)
Class DeviceKeyLaws (R : Rcgen) (C : CertReader) (E : Ecdsa) (X : X509) : Prop := {
  ring_reads_key seed k : generate_for PKCS_ECDSA_P256_SHA256 seed = Ok k ->
    exists sk, from_pkcs8 (serialize_der k) = Some sk /\ spki_point (public_key_der k) = Some (public_point sk) /\
      length (public_key_der k) = 91%nat;
  x509_reads_certificate d c : read_certificate d = Some c ->
    exists x, parse_x509 d = Some x /\ x_spki x = cc_spki c;
}.

Section Provisioning.
Context `{R : Rcgen} `{C : CertReader} {L : CertLaws R C} `{F : FileAccess} `{B : Base64}.
Context `{E : Ecdsa} {LE : EcdsaLaws E} `{X : X509} {LD : DeviceKeyLaws R C E X}.
Context {W : Type} `{K : Kube W} {view : W -> gmap string Device} {LK : KubeStoreLaws K view} `{U : UuidParse}.

(** C29: a provisioned device enrolls. After [issue-device] the key that the
    gateway reads from the device's certificate in the TLS handshake is the
    one printed; and if the printed text is the public key of some Device
    object and the API server answers, a device that uses the key file to sign
    the gateway's challenge completes the enrollment in four messages, with
    client certificates required or not, and its connection is bound to a
    Device object with that public key. *)
Theorem provisioned_device_enrolls seed ca_key ca_cert device_id out_dir fs line fs' cb c i1 i2 i3 i4 s w n d0 :
  issue_device_identity seed ca_key ca_cert device_id out_dir fs = (Ok line, fs') ->
  view w !! n = Some d0 -> public_key (d_spec d0) = line ->
  (forall key, is_ok (Device_find w key) = true) -> in_now i3 - in_now i2 <= CHALLENGE_TTL ->
  exists key crt sk spki,
    fs' !! device_file out_dir device_id "key" = Some key /\ from_pkcs8 key = Some sk /\
    fs' !! device_file out_dir device_id "crt" = Some crt /\ extract_public_key crt = Ok spki /\
    (ecdsa_sign sk (pop_transcript (in_nonce i2) spki) <> None ->
     exists s' w' d,
       run_enroll cb spki c spki (fun n => ecdsa_sign sk (pop_transcript n spki)) [i1; i2; i3; i4] s w =
         (EnrollOk, s', w') /\
       connection_to_device s' !! c = Some (name_any d) /\ public_key (d_spec d) = line).
Proof.
  intros Hissue Hview Hpk Hfind Ht.
  destruct (issue_device_artefacts _ _ _ _ _ _ _ _ Hissue)
    as (ck & cp & k & crt & Hgen & Hkey & Hcrt & _ & -> & Hread & _).
  destruct (ring_reads_key _ _ Hgen) as (sk & Hsk & Hpoint & Hlen).
  destruct (x509_reads_certificate _ _ Hread) as (x & Hx & Hspki). simpl in Hspki.
  exists (serialize_der k), crt, sk, (public_key_der k). split_and!; try done.
  { unfold extract_public_key, parsed. rewrite Hx. simpl. by rewrite Hspki. }
  intros Hsign. destruct (ecdsa_sign sk _) as [sig|] eqn:Hsig; [|done].
  specialize (Hfind (public_key_der k)).
  destruct (Device_find w (public_key_der k)) as [[d|]|] eqn:Hd; [| |done].
  - assert (key_bound cb (public_key_der k) (public_key_der k)) as Hb.
    { unfold key_bound. by destruct (public_key_der k). }
    destruct (signer_enrolls cb (public_key_der k) c sk (public_key_der k) i1 i2 i3 i4 s w d sig Hpoint Hb Hsig Hd Ht)
      as (s' & w' & Hrun & Hbound).
    exists s', w', d. split_and!; [done|done|]. by apply (Device_find_some (view := view)) in Hd as [_ ?].
  - by destruct (Device_find_none (view := view) _ _ Hd _ _ Hview).
Qed.
End Provisioning.

(** ** Witnesses

    A certificate library for one authority, one server and one device: a key
    is a number, a certificate a tag. *)

#[local] Instance usage_eq_dec : EqDecision KeyUsagePurpose.
Proof. solve_decision. Defined.
#[local] Instance extended_eq_dec : EqDecision ExtendedKeyUsagePurpose.
Proof. solve_decision. Defined.
#[local] Instance dn_type_eq_dec : EqDecision DnType.
Proof. solve_decision. Defined.
#[local] Instance params_eq_dec : EqDecision CertificateParams.
Proof. solve_decision. Defined.

Definition toy_point (k : Z) : list byte := byte_of 0x04 :: replicate 64 (byte_of k).
Definition toy_spki (k : Z) : list byte := P256_SPKI_PREFIX ++ toy_point k.

Definition only_cn (s : string) : DnArgs := mkDnArgs s None None None None None.
Definition ca_params : CertificateParams := mkCertificateParams [(CommonName, "ca"%string)] true ca_usages [].
Definition server_params : CertificateParams :=
  mkCertificateParams [(CommonName, "gw"%string)] false (usages_of Server) (extended_of Server).
Definition device_params : CertificateParams :=
  mkCertificateParams [(CommonName, "dev"%string)] false [DigitalSignature] [ClientAuth].
Definition ca_der : list byte := [x30; x01].
Definition server_der : list byte := [x30; x02].
Definition device_der : list byte := [x30; x03].

Definition toy_rcgen : Rcgen := {|
  key_pair := Z;
  generate_for _ seed := if bool_decide (0 <= seed < 256) then Ok seed else Err "seed"%string;
  serialize_der := toy_point;
  public_key_der := toy_spki;
  from_pkcs8_der bs _ := match bs with _ :: b :: _ => Ok (byte_val b) | _ => Err "pkcs8"%string end;
  key_from_pem t := if String.eqb t "KEY" then Ok 1 else Err "pem"%string;
  self_signed p k := if bool_decide (p = ca_params /\ k = 1) then Ok ca_der else Err "params"%string;
  from_ca_cert_der d := if bool_decide (d = ca_der) then Ok ca_params else Err "der"%string;
  from_ca_cert_pem t := if String.eqb t "CERT" then Ok ca_params else Err "pem"%string;
  signed_by p k issuer ik :=
    if bool_decide (issuer = ca_der /\ ik = 1) then
      if bool_decide (p = server_params /\ k = 2) then Ok server_der
      else if bool_decide (p = device_params /\ k = 3) then Ok device_der else Err "params"%string
    else Err "issuer"%string;
|}.

Definition toy_content (d : list byte) : option certificate_content :=
  if bool_decide (d = ca_der) then Some (content_of ca_params (distinguished_name ca_params) (toy_spki 1))
  else if bool_decide (d = server_der) then Some (content_of server_params (distinguished_name ca_params) (toy_spki 2))
  else if bool_decide (d = device_der) then Some (content_of device_params (distinguished_name ca_params) (toy_spki 3))
  else None.

Definition toy_reader : CertReader := {|
  read_certificate := toy_content;
  verifies pk d := bool_decide (pk = toy_spki 1);
|}.

Arguments toy_point : simpl never.
Arguments toy_spki : simpl never.
Arguments toy_content : simpl never.
Arguments byte_of : simpl never.

Lemma toy_key_bytes k : 0 <= k < 256 ->
  from_pkcs8_der (Rcgen := toy_rcgen) (toy_point k) PKCS_ED25519 = Ok k.
Proof. intros Hk. unfold toy_point. cbn. f_equal. by apply byte_val_small. Qed.

Lemma toy_cert_laws : CertLaws toy_rcgen toy_reader.
Proof.
  split; cbn [generate_for serialize_der public_key_der self_signed from_ca_cert_der signed_by read_certificate
              verifies toy_rcgen toy_reader].
  - intros a seed k. case_bool_decide; [|done]. intros [= <-]. by apply toy_key_bytes.
  - intros p k d. case_bool_decide as H; [|done]. destruct H as [-> ->]. intros [= <-]. split; vm_compute; reflexivity.
  - intros p k issuer ik c d. case_bool_decide as H; [|done]. destruct H as [-> ->]. intros Hs [= <-].
    split; [|vm_compute; reflexivity]. case_bool_decide as H1.
    + destruct H1 as [-> ->]. injection Hs as <-. vm_compute. reflexivity.
    + case_bool_decide as H2; [|done]. destruct H2 as [-> ->]. injection Hs as <-. vm_compute. reflexivity.
  - intros d c p Hc. case_bool_decide as H; [|done]. subst. vm_compute in Hc. injection Hc as <-.
    intros [= <-]. reflexivity.
Qed.

#[local] Instance open_disk : FileAccess := {| writable _ := true; creatable _ := true |}.

Definition demo_ca : Command := GenerateCa Client (only_cn "ca") "ca.key" "ca.der".
Definition demo_server : Command := IssueCert Server "ca.key" "ca.der" (only_cn "gw") "gw.key" "gw.der".

Lemma pair_from_fst {A C} (p : A * C) a : p.1 = a -> p = (a, p.2).
Proof. by destruct p; simpl; intros ->. Qed.

Definition demo_disk1 : gmap string (list byte) := (cert_tool_main (R := toy_rcgen) 1 demo_ca ∅).2.
Definition demo_disk2 : gmap string (list byte) := (cert_tool_main (R := toy_rcgen) 2 demo_server demo_disk1).2.

Lemma tool_chain_witness :
  cert_tool_main (R := toy_rcgen) 1 demo_ca ∅ = (Ok [], demo_disk1) /\
  cert_tool_main (R := toy_rcgen) 2 demo_server demo_disk1 = (Ok [], demo_disk2) /\
  exists cert pk, demo_disk2 !! "gw.der"%string = Some cert /\
    read_certificate (CertReader := toy_reader) cert =
      Some (mkContent [(CommonName, "gw"%string)] [(CommonName, "ca"%string)] false
              [DigitalSignature; KeyEncipherment] [ServerAuth] pk).
Proof.
  assert (cert_tool_main (R := toy_rcgen) 1 demo_ca ∅ = (Ok [], demo_disk1)) as E1
    by (apply pair_from_fst; vm_compute; reflexivity).
  assert (cert_tool_main (R := toy_rcgen) 2 demo_server demo_disk1 = (Ok [], demo_disk2)) as E2
    by (apply pair_from_fst; vm_compute; reflexivity).
  destruct (tool_chain (L := toy_cert_laws) 1 Client (only_cn "ca") "ca.key" "ca.der" ∅ [] demo_disk1
              2 Server (only_cn "gw") "gw.key" "gw.der" [] demo_disk2 E1 ltac:(done) E2 ltac:(done))
    as (ca & cert & key & pk_ca & pk & _ & Hcert & _ & _ & Hread & _).
  split; [exact E1|]. split; [exact E2|]. exists cert, pk. split; [exact Hcert|exact Hread].
Defined.

#[local] Instance toy_x509 : X509 := fun d =>
  match toy_content d with Some c => Some (mkX509 "" "" 0 0 "" (cc_spki c)) | None => None end.

Lemma toy_device_key_laws : DeviceKeyLaws toy_rcgen toy_reader toy_ecdsa toy_x509.
Proof.
  split; simpl.
  - intros seed k _. exists (toy_point k). done.
  - intros d c Hc. unfold parse_x509, toy_x509. rewrite Hc. eauto.
Qed.

(** The Device object that the printed line was pasted into. *)
Definition fleet_disk : gmap string (list byte) :=
  {["ca.key"%string := str_bytes "KEY"; "ca.pem"%string := str_bytes "CERT"]}.
Definition fleet : cluster :=
  mkCluster (<["dev"%string := sample_device "dev" (url_encode (Base64 := base64) (toy_spki 3)) None]> ∅) ∅.
Definition strict_gateway : Callbacks := mkCallbacks true (GatewayReference_new "wasmbed" "gateway-1").

Definition demo_line : string := url_encode (Base64 := base64) (toy_spki 3).
Definition demo_disk3 : gmap string (list byte) :=
  (issue_device_identity (R := toy_rcgen) (B := base64) 3 "ca.key" "ca.pem" "dev" "out" fleet_disk).2.

Lemma provisioned_device_enrolls_witness :
  issue_device_identity (R := toy_rcgen) (B := base64) 3 "ca.key" "ca.pem" "dev" "out" fleet_disk =
    (Ok demo_line, demo_disk3) /\
  exists sk spki s' w' d,
    run_enroll (K := mem_kube) (B := base64) (E := toy_ecdsa) (U := hex_uuid) strict_gateway spki "c" spki
      (fun n => ecdsa_sign (Ecdsa := toy_ecdsa) sk (pop_transcript n spki))
      [client_inputs 1; client_inputs 2; client_inputs 3; client_inputs 4] HttpApiServer_new fleet = (EnrollOk, s', w') /\
    connection_to_device s' !! "c"%string = Some (name_any d).
Proof.
  assert (issue_device_identity (R := toy_rcgen) (B := base64) 3 "ca.key" "ca.pem" "dev" "out" fleet_disk =
    (Ok demo_line, demo_disk3)) as E by (apply pair_from_fst; vm_compute; reflexivity).
  split; [exact E|].
  destruct (provisioned_device_enrolls (L := toy_cert_laws) (LE := toy_ecdsa_laws) (LD := toy_device_key_laws)
    (view := store_view) (U := hex_uuid) 3 "ca.key" "ca.pem" "dev" "out" fleet_disk
    demo_line demo_disk3 strict_gateway "c" (client_inputs 1) (client_inputs 2)
    (client_inputs 3) (client_inputs 4) HttpApiServer_new fleet "dev" (sample_device "dev" demo_line None) E)
    as (key & crt & sk & spki & _ & _ & _ & _ & Henroll).
  - vm_compute. reflexivity.
  - reflexivity.
  - done.
  - unfold CHALLENGE_TTL, client_inputs. cbn [in_now]. lia.
  - destruct Henroll as (s' & w' & d & Hrun & Hb & _); [by cbn [ecdsa_sign toy_ecdsa]|].
    exists sk, spki, s', w', d. split; [exact Hrun|exact Hb].
Defined.
