(* ===== verification/WasmRuntime.v ===== *)
(** * The WASM runtime: [crates/wasmbed-wasm-runtime]

    Configuration profiles ([config.rs]), resource limits ([context.rs]),
    module validation ([validation.rs]) and the runtime that loads modules,
    creates instances and calls functions ([runtime.rs]). Parsing, compiling
    and executing WASM is the business of wasmparser and wasmtime: parameters
    of the model. A [Duration] is its number of nanoseconds. *)

From stdpp Require Import pretty.
From S2P Require Import Prelude.
From S2P Require Import RustStd.
From S2P Require Import Externals.

(** [usize] arithmetic of a release build. *)
Definition wrap64 (z : Z) : Z := z mod 2 ^ 64.

(** ** Errors ([error.rs]) *)

Inductive WasmRuntimeError :=
| CompilationError (m : string)
| InstantiationError (m : string)
| ExecutionError (m : string)
| MemoryLimitExceeded (current limit : Z)
| CpuTimeLimitExceeded (elapsed limit : Z)
| FuelExhausted (consumed budget : Z)
| StackOverflow (current limit : Z)
| InstanceLimitExceeded (current limit : Z)
| FunctionLimitExceeded (current limit : Z)
| ModuleValidationFailed (m : string)
| HostFunctionError (m : string)
| DeviceError (m : string)
| SensorError (m : string)
| SecurityError (m : string)
| ConfigError (m : string)
| SerializationError (m : string)
| IoError (m : string)
| WasmtimeError (m : string)
| AnyhowError (out_of_fuel : bool) (m : string)   (* whether it wraps [Trap::OutOfFuel] *)
| WasmParserError (m : string)
| ApplicationNotFound (m : string).

Definition WasmResult (A : Type) : Type := result WasmRuntimeError A.

(** ** Configuration ([config.rs]) *)

Inductive DeviceArchitecture := Mpu | Mcu | RiscV.

Record WasmRuntimeConfig := mkWasmRuntimeConfig {
  max_memory : Z;
  max_stack_size : Z;
  max_execution_time : Z;
  enable_simd : bool;
  enable_threads : bool;
  enable_bulk_memory : bool;
  enable_reference_types : bool;
  enable_tail_calls : bool;
  enable_function_references : bool;
  max_instances : Z;
  max_functions_per_instance : Z;
  enable_debug : bool;
  enable_profiling : bool;
  fuel_budget : option Z;
}.

Definition millis (n : Z) : Z := n * 10 ^ 6.
Definition secs (n : Z) : Z := n * 10 ^ 9.

Definition for_mpu : WasmRuntimeConfig :=
  mkWasmRuntimeConfig (8 * 1024 * 1024 * 1024) (8 * 1024 * 1024) (secs 60)
    true true true true true true 100 1000 true true None.
Definition for_mcu : WasmRuntimeConfig :=
  mkWasmRuntimeConfig (64 * 1024) (8 * 1024) (millis 100)
    false false false false false false 5 50 false false (Some 5000000).
Definition for_riscv : WasmRuntimeConfig :=
  mkWasmRuntimeConfig (512 * 1024) (32 * 1024) (millis 500)
    false false true true true false 20 200 true false (Some 20000000).

Definition for_architecture (arch : DeviceArchitecture) : WasmRuntimeConfig :=
  match arch with Mpu => for_mpu | Mcu => for_mcu | RiscV => for_riscv end.

(** [WasmRuntimeConfig::validate] *)
Definition wasm_config_validate (c : WasmRuntimeConfig) : result string unit :=
  if max_memory c =? 0 then Err "max_memory must be greater than 0"%string
  else if max_stack_size c =? 0 then Err "max_stack_size must be greater than 0"%string
  else if max_stack_size c >? max_memory c then Err "max_stack_size cannot exceed max_memory"%string
  else if max_execution_time c =? 0 then Err "max_execution_time must be greater than 0"%string
  else if max_instances c =? 0 then Err "max_instances must be greater than 0"%string
  else if max_functions_per_instance c =? 0 then Err "max_functions_per_instance must be greater than 0"%string
  else Ok tt.

Record HostFunctionConfig := mkHostFunctionConfig {
  enable_device : bool;
  enable_sensors : bool;
  enable_secure : bool;
  enable_filesystem : bool;
  enable_network : bool;
  enable_gpio : bool;
  enable_i2c_spi : bool;
}.

Definition host_for_architecture (arch : DeviceArchitecture) : HostFunctionConfig :=
  match arch with
  | Mpu => mkHostFunctionConfig true true true true true true true
  | Mcu => mkHostFunctionConfig true false false false false true true
  | RiscV => mkHostFunctionConfig true true true false true true true
  end.

Record RuntimeConfig := mkRuntimeConfig {
  architecture : DeviceArchitecture;
  wasm_config : WasmRuntimeConfig;
  host_config : HostFunctionConfig;
  device_id : string;
  gateway_endpoint : option string;
}.

Definition RuntimeConfig_for_architecture (arch : DeviceArchitecture) (id : string) : RuntimeConfig :=
  mkRuntimeConfig arch (for_architecture arch) (host_for_architecture arch) id None.

Definition RuntimeConfig_validate (c : RuntimeConfig) : result string unit :=
  let? _ := wasm_config_validate (wasm_config c) in
  if String.eqb (device_id c) "" then Err "device_id cannot be empty"%string else Ok tt.

(** ** Limits ([context.rs]); host functions, device state and keys are not
    read by the operations below. *)

Record WasmContext := mkWasmContext {
  memory_usage : Z;
  memory_limit : Z;
  stack_usage : Z;
  stack_limit : Z;
  cpu_time_used : Z;
  cpu_time_limit : Z;
  active_instances : Z;
  ctx_max_instances : Z;
}.

Definition WasmContext_new (c : WasmRuntimeConfig) : WasmContext :=
  mkWasmContext 0 (max_memory c) 0 (max_stack_size c) 0 (max_execution_time c) 0 (max_instances c).

Definition check_memory_limit (additional : Z) (x : WasmContext) : WasmResult unit :=
  let new_usage := wrap64 (memory_usage x + additional) in
  if new_usage >? memory_limit x then Err (MemoryLimitExceeded new_usage (memory_limit x)) else Ok tt.

Definition check_stack_limit (additional : Z) (x : WasmContext) : WasmResult unit :=
  let new_usage := wrap64 (stack_usage x + additional) in
  if new_usage >? stack_limit x then Err (StackOverflow new_usage (stack_limit x)) else Ok tt.

Definition check_cpu_time_limit (additional : Z) (x : WasmContext) : WasmResult unit :=
  let new_time := cpu_time_used x + additional in
  if new_time >? cpu_time_limit x then Err (CpuTimeLimitExceeded new_time (cpu_time_limit x)) else Ok tt.

Definition check_instance_limit (x : WasmContext) : WasmResult unit :=
  if active_instances x >=? ctx_max_instances x
  then Err (InstanceLimitExceeded (active_instances x) (ctx_max_instances x)) else Ok tt.

Definition update_memory_usage (bytes : Z) (x : WasmContext) : WasmResult WasmContext :=
  let? _ := check_memory_limit bytes x in
  Ok (mkWasmContext (wrap64 (memory_usage x + bytes)) (memory_limit x) (stack_usage x) (stack_limit x)
        (cpu_time_used x) (cpu_time_limit x) (active_instances x) (ctx_max_instances x)).

Definition update_stack_usage (bytes : Z) (x : WasmContext) : WasmResult WasmContext :=
  let? _ := check_stack_limit bytes x in
  Ok (mkWasmContext (memory_usage x) (memory_limit x) (wrap64 (stack_usage x + bytes)) (stack_limit x)
        (cpu_time_used x) (cpu_time_limit x) (active_instances x) (ctx_max_instances x)).

Definition update_cpu_time (time : Z) (x : WasmContext) : WasmResult WasmContext :=
  let? _ := check_cpu_time_limit time x in
  Ok (mkWasmContext (memory_usage x) (memory_limit x) (stack_usage x) (stack_limit x)
        (cpu_time_used x + time) (cpu_time_limit x) (active_instances x) (ctx_max_instances x)).

Definition reset_session (x : WasmContext) : WasmContext :=
  mkWasmContext (memory_usage x) (memory_limit x) (stack_usage x) (stack_limit x)
    0 (cpu_time_limit x) (active_instances x) (ctx_max_instances x).

Definition set_active_instances (n : Z) (x : WasmContext) : WasmContext :=
  mkWasmContext (memory_usage x) (memory_limit x) (stack_usage x) (stack_limit x)
    (cpu_time_used x) (cpu_time_limit x) n (ctx_max_instances x).

(** ** Module validation ([validation.rs]) *)

(** A memory of a module, in pages of 64 KiB. *)
Record memory_type := mkMemoryType { mem_initial : Z; mem_maximum : option Z }.

(** The payloads wasmparser yields; a reader of a section may fail midway. *)
Inductive payload :=
| PMemorySection (memories : list (result string memory_type))
| PFunctionSection (count : Z)
| PImportSection (imports : list (result string string))   (* the module names *)
| PEnd
| POther.

(** [Parser::new(0).parse_all(bytes)] *)
Class WasmParser := parse_all : list byte -> list (result string payload).

Section Validation.
Context `{P : WasmParser}.
Variable config : WasmRuntimeConfig.

Definition invalid {A} (m : string) : WasmResult A := Err (ModuleValidationFailed m).

(** The loops over the payloads, up to [Payload::End]. *)
Fixpoint payload_loop {S} (body : payload -> S -> WasmResult S) (ps : list (result string payload)) (s : S) :
    WasmResult S :=
  match ps with
  | [] => Ok s
  | Err e :: _ => Err (WasmParserError e)
  | Ok PEnd :: _ => Ok s
  | Ok p :: ps => let? s := body p s in payload_loop body ps s
  end.

(** The loop over the entries of a section. *)
Fixpoint section_loop {A S} (body : A -> S -> WasmResult S) (es : list (result string A)) (s : S) : WasmResult S :=
  match es with
  | [] => Ok s
  | Err e :: _ => Err (WasmParserError e)
  | Ok a :: es => let? s := body a s in section_loop body es s
  end.

Definition validate_wasm_format (wasm : list byte) : WasmResult unit :=
  if zlen wasm <? 8 then invalid "WASM module too small"
  else if negb (bool_decide (take 4 wasm = map byte_of [0x00; 0x61; 0x73; 0x6d]))
  then invalid "Invalid WASM magic number"
  else
    let version := le_value (take 4 (drop 4 wasm)) in
    if negb (version =? 1) then invalid ("Unsupported WASM version: " ++ pretty version) else Ok tt.

Definition validate_size_constraints (wasm : list byte) : WasmResult unit :=
  if zlen wasm >? max_memory config / 4 then
    invalid ("Module size " ++ pretty (zlen wasm) ++ " bytes exceeds limit " ++
             pretty (max_memory config / 4) ++ " bytes")
  else Ok tt.

Definition validate_features (wasm : list byte) : WasmResult unit :=
  payload_loop (fun _ s => Ok s) (parse_all wasm) tt.

Definition memory_body (m : memory_type) (max_pages : Z) : WasmResult Z :=
  Ok (match mem_maximum m with Some max => Z.max max_pages max | None => max_pages end).

Definition validate_memory_constraints (wasm : list byte) : WasmResult unit :=
  let? max_memory_pages :=
    payload_loop (fun p pages => match p with
                                 | PMemorySection reader => section_loop memory_body reader pages
                                 | _ => Ok pages
                                 end) (parse_all wasm) 0 in
  let max_memory_bytes := wrap64 (max_memory_pages * 64 * 1024) in
  if max_memory_bytes >? max_memory config then
    invalid ("Module memory requirement " ++ pretty max_memory_bytes ++ " bytes exceeds device limit " ++
             pretty (max_memory config) ++ " bytes")
  else Ok tt.

Definition validate_function_constraints (wasm : list byte) : WasmResult unit :=
  let? function_count :=
    payload_loop (fun p n => match p with PFunctionSection count => Ok count | _ => Ok n end)
      (parse_all wasm) 0 in
  if function_count >? max_functions_per_instance config mod 2 ^ 32 then
    invalid ("Module has " ++ pretty function_count ++ " functions, exceeds limit of " ++
             pretty (max_functions_per_instance config))
  else Ok tt.

Definition is_allowed_import_module (module_name : string) : bool :=
  existsb (String.eqb module_name)
    ["wasi_snapshot_preview1"; "wasi_unstable"; "wasmbed_device"; "wasmbed_sensors"; "wasmbed_security";
     "wasmbed_gpio"; "wasmbed_i2c_spi"; "env"]%string.

Definition import_body (module_name : string) (n : Z) : WasmResult Z :=
  if is_allowed_import_module module_name then Ok (n + 1)
  else invalid ("Disallowed import module: " ++ module_name).

Definition max_imports : Z :=
  if max_memory config <? 128 * 1024 then 10
  else if max_memory config <? 1024 * 1024 then 50 else 100.

Definition validate_import_constraints (wasm : list byte) : WasmResult unit :=
  let? import_count :=
    payload_loop (fun p n => match p with
                             | PImportSection reader => section_loop import_body reader n
                             | _ => Ok n
                             end) (parse_all wasm) 0 in
  if import_count >? max_imports then
    invalid ("Module has " ++ pretty import_count ++ " imports, exceeds limit of " ++ pretty max_imports)
  else Ok tt.

Definition validate_module (wasm : list byte) : WasmResult unit :=
  let? _ := validate_wasm_format wasm in
  let? _ := validate_size_constraints wasm in
  let? _ := validate_features wasm in
  let? _ := validate_memory_constraints wasm in
  let? _ := validate_function_constraints wasm in
  validate_import_constraints wasm.
End Validation.

(** ** The runtime ([runtime.rs]) *)

(** wasmtime: compiling a module, and instantiating it with its imports.
    [Instance::new] runs the module's start function, at the given time, on
    the fuel of the store (none when it is not metered): its result is the
    fuel left. *)
Class Wasmtime := {
  wt_module : Type;
  wt_compile : WasmRuntimeConfig -> list byte -> WasmResult wt_module;
  wt_instantiate : wt_module -> Z -> option Z -> WasmResult (option Z);
}.

(** As documented: running code only takes fuel, and a store without fuel
    metering stays without. *)
Class WasmtimeFuel `{T : Wasmtime} :=
  instantiate_fuel m now fuel left : wt_instantiate m now fuel = Ok left ->
    match fuel with
    | None => left = None
    | Some f => exists f', left = Some f' /\ 0 <= f' <= f
    end.

(** [wi_fuel] is the fuel left in the store, when it is metered. *)
Record WasmInstance := mkWasmInstance {
  wi_id : string;
  wi_module_id : string;
  wi_created : Z;
  wi_last_execution : option Z;
  wi_execution_count : Z;
  wi_total_execution_time : Z;
  wi_fuel_consumed : Z;
  wi_fuel : option Z;
}.

Record RuntimeStats := mkRuntimeStats {
  modules_loaded : Z;
  instances_created : Z;
  function_calls : Z;
  total_execution_time : Z;
  peak_memory_usage : Z;
  error_count : Z;
  last_error_time : option Z;
  total_fuel_consumed : Z;
}.

Record ModuleMetadata := mkModuleMetadata {
  mm_id : string;
  mm_name : string;
  mm_version : string;
  mm_size : Z;
  mm_hash : string;
}.

Section Runtime.
Context `{P : WasmParser} `{T : Wasmtime} `{H : Sha256}.

Record WasmRuntime := mkWasmRuntime {
  rt_config : RuntimeConfig;
  rt_context : WasmContext;
  rt_modules : gmap string wt_module;
  rt_instances : gmap string WasmInstance;
  rt_stats : RuntimeStats;
}.

Definition WasmRuntime_new (config : RuntimeConfig) : WasmResult WasmRuntime :=
  match RuntimeConfig_validate config with
  | Err e => Err (ConfigError e)
  | Ok _ =>
      Ok (mkWasmRuntime config (WasmContext_new (wasm_config config)) ∅ ∅
            (mkRuntimeStats 0 0 0 0 0 0 None 0))
  end.

Definition with_context (x : WasmContext) (r : WasmRuntime) : WasmRuntime :=
  mkWasmRuntime (rt_config r) x (rt_modules r) (rt_instances r) (rt_stats r).
Definition with_modules (m : gmap string wt_module) (r : WasmRuntime) : WasmRuntime :=
  mkWasmRuntime (rt_config r) (rt_context r) m (rt_instances r) (rt_stats r).
Definition with_instances (m : gmap string WasmInstance) (r : WasmRuntime) : WasmRuntime :=
  mkWasmRuntime (rt_config r) (rt_context r) (rt_modules r) m (rt_stats r).
Definition with_stats (f : RuntimeStats -> RuntimeStats) (r : WasmRuntime) : WasmRuntime :=
  mkWasmRuntime (rt_config r) (rt_context r) (rt_modules r) (rt_instances r) (f (rt_stats r)).

Definition extract_module_metadata (module_id : string) (wasm : list byte) : ModuleMetadata :=
  mkModuleMetadata module_id ("module_" ++ module_id) "1.0.0" (zlen wasm) (hex_bytes (sha256 wasm)).

Definition load_module (module_id : string) (wasm : list byte) (r : WasmRuntime) :
    WasmResult ModuleMetadata * WasmRuntime :=
  let c := wasm_config (rt_config r) in
  if zlen wasm >? max_memory c / 4 then
    (Err (ModuleValidationFailed "Module too large for device memory constraints"), r)
  else
    match validate_module c wasm with
    | Err e => (Err e, r)
    | Ok _ =>
        match wt_compile c wasm with
        | Err e => (Err e, r)
        | Ok m =>
            let r := with_modules (<[module_id := m]> (rt_modules r)) r in
            let r := with_stats (fun s => mkRuntimeStats (modules_loaded s + 1) (instances_created s)
              (function_calls s) (total_execution_time s) (peak_memory_usage s) (error_count s)
              (last_error_time s) (total_fuel_consumed s)) r in
            (Ok (extract_module_metadata module_id wasm), r)
        end
    end.

(** [uuid] is the text of a fresh v4 UUID, [now] the Unix time in seconds.
    The budget is put into the store before [Instance::new], so what the
    start function burns is gone while [fuel_consumed] starts at zero. *)
Definition create_instance (now : Z) (uuid : string) (module_id : string) (instance_id : option string)
    (r : WasmRuntime) : WasmResult string * WasmRuntime :=
  match check_instance_limit (rt_context r) with
  | Err e => (Err e, r)
  | Ok _ =>
      match rt_modules r !! module_id with
      | None => (Err (ModuleValidationFailed ("Module " ++ module_id ++ " not found")), r)
      | Some m =>
          let id := default uuid instance_id in
          match wt_instantiate m now (fuel_budget (wasm_config (rt_config r))) with
          | Err e => (Err e, r)
          | Ok fuel =>
              let inst := mkWasmInstance id module_id now None 0 0 0 fuel in
              let r := with_instances (<[id := inst]> (rt_instances r)) r in
              let r := with_context (set_active_instances (active_instances (rt_context r) + 1)
                                       (rt_context r)) r in
              let r := with_stats (fun s => mkRuntimeStats (modules_loaded s) (instances_created s + 1)
                (function_calls s) (total_execution_time s) (peak_memory_usage s) (error_count s)
                (last_error_time s) (total_fuel_consumed s)) r in
              (Ok id, r)
          end
      end
  end.

(** What wasmtime did with a call: its result, the fuel left in the store,
    and the Unix times before and after. *)
Record CallOutcome := mkCallOutcome {
  co_result : WasmResult unit;
  co_fuel_after : Z;
  co_start : Z;
  co_end : Z;
}.

Definition is_out_of_fuel (e : WasmRuntimeError) : bool :=
  match e with AnyhowError out _ => out | _ => false end.

(** Accounting for the fuel of a call that ended with [after] left. *)
Definition charge_fuel (o : CallOutcome) (inst : WasmInstance) : WasmInstance :=
  match wi_fuel inst with
  | None => inst
  | Some before =>
      mkWasmInstance (wi_id inst) (wi_module_id inst) (wi_created inst) (wi_last_execution inst)
        (wi_execution_count inst) (wi_total_execution_time inst)
        (wi_fuel_consumed inst + saturating_sub before (co_fuel_after o)) (Some (co_fuel_after o))
  end.

Definition add_fuel (n : Z) (s : RuntimeStats) : RuntimeStats :=
  mkRuntimeStats (modules_loaded s) (instances_created s) (function_calls s) (total_execution_time s)
    (peak_memory_usage s) (error_count s) (last_error_time s) (total_fuel_consumed s + n).

Definition record_call (o : CallOutcome) (inst : WasmInstance) : WasmInstance :=
  mkWasmInstance (wi_id inst) (wi_module_id inst) (wi_created inst) (Some (co_start o))
    (wi_execution_count inst + 1) (wi_total_execution_time inst + (co_end o - co_start o))
    (wi_fuel_consumed inst) (wi_fuel inst).

Definition call_function (o : CallOutcome) (instance_id : string) (r : WasmRuntime) :
    WasmResult unit * WasmRuntime :=
  match rt_instances r !! instance_id with
  | None => (Err (ExecutionError ("Instance " ++ instance_id ++ " not found")), r)
  | Some inst =>
      match check_cpu_time_limit (millis 10) (rt_context r) with
      | Err e => (Err e, r)
      | Ok _ =>
          let charged := charge_fuel o inst in
          let r := with_instances (<[instance_id := charged]> (rt_instances r)) r in
          let r := with_stats (add_fuel (wi_fuel_consumed charged - wi_fuel_consumed inst)) r in
          match co_result o with
          | Err e =>
              match wi_fuel inst with
              | Some _ =>
                  if is_out_of_fuel e
                  then (Err (FuelExhausted (wi_fuel_consumed charged)
                               (default 0 (fuel_budget (wasm_config (rt_config r))))), r)
                  else (Err e, r)
              | None => (Err e, r)
              end
          | Ok _ =>
              let execution_time := co_end o - co_start o in
              let r := with_instances (<[instance_id := record_call o charged]> (rt_instances r)) r in
              match update_cpu_time (secs execution_time) (rt_context r) with
              | Err e => (Err e, r)
              | Ok x =>
                  let r := with_context x r in
                  let r := with_stats (fun s => mkRuntimeStats (modules_loaded s) (instances_created s)
                    (function_calls s + 1) (total_execution_time s + execution_time) (peak_memory_usage s)
                    (error_count s) (last_error_time s) (total_fuel_consumed s)) r in
                  (Ok tt, r)
              end
          end
      end
  end.

Definition remove_instance (instance_id : string) (r : WasmRuntime) : WasmResult unit * WasmRuntime :=
  match rt_instances r !! instance_id with
  | None => (Err (ExecutionError ("Instance " ++ instance_id ++ " not found")), r)
  | Some _ =>
      let r := with_instances (delete instance_id (rt_instances r)) r in
      (Ok tt, with_context (set_active_instances (saturating_sub (active_instances (rt_context r)) 1)
                              (rt_context r)) r)
  end.

Definition remove_module (module_id : string) (r : WasmRuntime) : WasmResult unit * WasmRuntime :=
  match rt_modules r !! module_id with
  | None => (Err (ModuleValidationFailed ("Module " ++ module_id ++ " not found")), r)
  | Some _ => (Ok tt, with_modules (delete module_id (rt_modules r)) r)
  end.

Definition shutdown_instance (instance_id : string) (r : WasmRuntime) : WasmResult unit * WasmRuntime :=
  match rt_instances r !! instance_id with
  | Some _ => (Ok tt, with_instances (delete instance_id (rt_instances r)) r)
  | None => (Err (ExecutionError ("Instance " ++ instance_id ++ " not found")), r)
  end.

Definition unload_application (module_id : string) (r : WasmRuntime) : WasmResult unit * WasmRuntime :=
  let r := with_instances (filter (fun p => wi_module_id p.2 <> module_id) (rt_instances r)) r in
  match rt_modules r !! module_id with
  | Some _ => (Ok tt, with_modules (delete module_id (rt_modules r)) r)
  | None => (Err (ApplicationNotFound module_id), r)
  end.

Definition shutdown (r : WasmRuntime) : WasmResult unit * WasmRuntime :=
  (Ok tt, mkWasmRuntime (rt_config r) (set_active_instances 0 (rt_context r)) ∅ ∅ (rt_stats r)).

(** [execute_function]: checks that module and instance exist, runs nothing. *)
Definition execute_function (module_id : string) (r : WasmRuntime) : WasmResult unit :=
  match rt_modules r !! module_id with
  | None => Err (ApplicationNotFound module_id)
  | Some _ =>
      match rt_instances r !! (module_id ++ "-instance")%string with
      | None => Err (ApplicationNotFound ("Instance for module " ++ module_id ++ " not found"))
      | Some _ => Ok tt
      end
  end.
End Runtime.
