(* ===== verification/WasmRuntimeProofs.v ===== *)
(** * Properties of the WASM runtime

    What module validation guarantees, and the accounting of instances and
    fuel over every history of the runtime. *)

From S2P Require Import Prelude.
From S2P Require Import RustStd.
From S2P Require Import Externals.
From S2P Require Import Base64.
From S2P Require Import WasmRuntime.

(** ** Configuration *)

Lemma profiles_valid arch id : id <> ""%string -> RuntimeConfig_validate (RuntimeConfig_for_architecture arch id) = Ok tt.
Proof.
  intros Hid. unfold RuntimeConfig_validate. simpl.
  rewrite (proj2 (String.eqb_neq _ _) Hid). by destruct arch.
Qed.

Section Runtime.
Context `{P : WasmParser} `{T : Wasmtime} `{H : Sha256}.

(** ** Histories: the operations of the public interface; wasmtime never
    leaves more fuel in a store than it found. *)

Definition fuel_sound (o : CallOutcome) (i : string) (r : WasmRuntime) : Prop :=
  forall inst f, rt_instances r !! i = Some inst -> wi_fuel inst = Some f -> 0 <= co_fuel_after o <= f.

Inductive rt_reach (config : RuntimeConfig) : WasmRuntime -> Prop :=
| reach_new r : WasmRuntime_new config = Ok r -> rt_reach config r
| reach_load id wasm r : rt_reach config r -> rt_reach config (load_module id wasm r).2
| reach_create now uuid m i r : rt_reach config r -> rt_reach config (create_instance now uuid m i r).2
| reach_call o i r : rt_reach config r -> fuel_sound o i r -> rt_reach config (call_function o i r).2
| reach_remove i r : rt_reach config r -> rt_reach config (remove_instance i r).2
| reach_remove_module m r : rt_reach config r -> rt_reach config (remove_module m r).2
| reach_shutdown_instance i r : rt_reach config r -> rt_reach config (shutdown_instance i r).2
| reach_unload m r : rt_reach config r -> rt_reach config (unload_application m r).2
| reach_shutdown r : rt_reach config r -> rt_reach config (shutdown r).2.

(** ** Instances *)

Definition live_count (r : WasmRuntime) : Z := Z.of_nat (size (rt_instances r)).

Definition instances_inv (config : RuntimeConfig) (r : WasmRuntime) : Prop :=
  rt_config r = config /\ ctx_max_instances (rt_context r) = max_instances (wasm_config config) /\
  live_count r <= active_instances (rt_context r) <= ctx_max_instances (rt_context r).

Lemma size_insert_le {A} (m : gmap string A) k a : (size (<[k := a]> m) <= S (size m))%nat.
Proof. rewrite map_size_insert. destruct (m !! k); simpl; unfold id; lia. Qed.

Lemma size_overwrite {A} (m : gmap string A) k a b : m !! k = Some a -> size (<[k := b]> m) = size m.
Proof. intros Hk. rewrite map_size_insert. by rewrite Hk. Qed.

Lemma size_delete_pred {A} (m : gmap string A) k a : m !! k = Some a -> size (delete k m) = pred (size m).
Proof. intros Hk. rewrite map_size_delete. by rewrite Hk. Qed.

Lemma size_pos {A} (m : gmap string A) k a : m !! k = Some a -> (0 < size m)%nat.
Proof.
  intros Hk. destruct (size m) eqn:E; [|lia].
  apply map_size_empty_iff in E. subst. by rewrite lookup_empty in Hk.
Qed.

Lemma update_cpu_time_active t x x' :
  update_cpu_time t x = Ok x' ->
  active_instances x' = active_instances x /\ ctx_max_instances x' = ctx_max_instances x.
Proof. unfold update_cpu_time, check_cpu_time_limit. simpl. case_match; [done|]. by intros [= <-]. Qed.

Lemma call_function_frame o i r :
  rt_config (call_function o i r).2 = rt_config r /\
  size (rt_instances (call_function o i r).2) = size (rt_instances r) /\
  active_instances (rt_context (call_function o i r).2) = active_instances (rt_context r) /\
  ctx_max_instances (rt_context (call_function o i r).2) = ctx_max_instances (rt_context r).
Proof.
  unfold call_function. destruct (rt_instances r !! i) as [inst|] eqn:Ei; [|done].
  assert (forall a b, size (<[i := a]> (<[i := b]> (rt_instances r))) = size (rt_instances r)) as Hs.
  { intros a b. rewrite insert_insert_eq. by eapply size_overwrite. }
  assert (forall a, size (<[i := a]> (rt_instances r)) = size (rt_instances r)) as Hs1.
  { intros a. by eapply size_overwrite. }
  destruct (check_cpu_time_limit _ _); [|done].
  destruct (co_result o) as [[]|e].
  - destruct (update_cpu_time _ _) as [x|e] eqn:Eu; cbn; rewrite Hs.
    + apply update_cpu_time_active in Eu as [-> ->]. done.
    + done.
  - destruct (wi_fuel inst); [destruct (is_out_of_fuel e)|]; cbn; by rewrite Hs1.
Qed.

Lemma instances_inv_reach config r :
  0 <= max_instances (wasm_config config) -> rt_reach config r -> instances_inv config r.
Proof.
  intros Hmax. unfold instances_inv, live_count. induction 1 as
    [r Hn|id wasm r _ IH|now uuid m i r _ IH|o i r _ IH _|i r _ IH|m r _ IH|i r _ IH|m r _ IH|r _ IH].
  - unfold WasmRuntime_new in Hn. case_match; [|done]. injection Hn as <-. simpl.
    rewrite map_size_empty. split_and!; [done|done|lia|lia].
  - unfold load_module. repeat case_match; done.
  - unfold create_instance, check_instance_limit.
    destruct (Z.geb_spec (active_instances (rt_context r)) (ctx_max_instances (rt_context r))); [done|].
    destruct (rt_modules r !! m) as [mo|]; [|done]. destruct (wt_instantiate mo _ _) as [fuel|]; [|done]. simpl.
    destruct IH as (E1 & E2 & IH). rewrite E1. split_and!; [done|done| |lia].
    pose proof (size_insert_le (rt_instances r) (default uuid i)
      (mkWasmInstance (default uuid i) m now None 0 0 0 fuel)). lia.
  - destruct (call_function_frame o i r) as (-> & -> & -> & ->). done.
  - unfold remove_instance. destruct (rt_instances r !! i) as [inst|] eqn:E; [|done]. simpl.
    pose proof (size_pos _ _ _ E). rewrite (size_delete_pred _ _ _ E).
    destruct IH as (E1 & E2 & IH). unfold saturating_sub. split_and!; [done|done|lia|lia].
  - unfold remove_module. by case_match.
  - unfold shutdown_instance. destruct (rt_instances r !! i) as [inst|] eqn:E; [|done]. simpl.
    rewrite (size_delete_pred _ _ _ E). destruct IH as (E1 & E2 & IH). split_and!; [done|done|lia|lia].
  - unfold unload_application.
    assert (size (filter (fun p : string * WasmInstance => wi_module_id p.2 <> m) (rt_instances r)) <=
      size (rt_instances r))%nat as Hf by (apply map_size_filter).
    simpl. case_match; simpl; (destruct IH as (E1 & E2 & IH)); split_and!; [done|done|lia|lia|done|done|lia|lia].
  - simpl. rewrite map_size_empty. destruct IH as (E1 & E2 & IH). split_and!; [done|done|lia|lia].
Qed.

(** However the runtime is used, the number of instances that exist is
    at most the instance counter, and the counter never exceeds the limit of
    the configuration. *)
Theorem instances_bounded config r :
  0 <= max_instances (wasm_config config) -> rt_reach config r ->
  live_count r <= active_instances (rt_context r) <= max_instances (wasm_config config).
Proof.
  intros Hm Hr. destruct (instances_inv_reach config r Hm Hr) as (_ & <- & ?). done.
Qed.

(** ** The counter leak *)

(** Creating an instance and shutting it down again. *)
Definition cycle (m i : string) (r : WasmRuntime) : WasmRuntime :=
  (shutdown_instance i (create_instance 0 "" m (Some i) r).2).2.

Lemma cycle_once m i mo left r :
  rt_modules r !! m = Some mo ->
  wt_instantiate mo 0 (fuel_budget (wasm_config (rt_config r))) = Ok left -> rt_instances r = ∅ ->
  active_instances (rt_context r) < ctx_max_instances (rt_context r) ->
  rt_config (cycle m i r) = rt_config r /\ rt_modules (cycle m i r) = rt_modules r /\ rt_instances (cycle m i r) = ∅ /\
  active_instances (rt_context (cycle m i r)) = active_instances (rt_context r) + 1 /\
  ctx_max_instances (rt_context (cycle m i r)) = ctx_max_instances (rt_context r).
Proof.
  intros Hm Hi He Hlt. unfold cycle, create_instance, check_instance_limit.
  destruct (Z.geb_spec (active_instances (rt_context r)) (ctx_max_instances (rt_context r))); [lia|].
  rewrite Hm, Hi. simpl. unfold shutdown_instance. simpl. rewrite lookup_insert_eq. simpl.
  split_and!; try done. by rewrite He, delete_insert_eq, delete_empty.
Qed.

(** [shutdown_instance] does not give the instance back: once a module
    has been started and shut down as often as the limit allows, no instance
    exists, and creating one is refused for ever with the limit exceeded. *)
Theorem shutdown_instance_leaks m i mo left r n :
  rt_modules r !! m = Some mo ->
  wt_instantiate mo 0 (fuel_budget (wasm_config (rt_config r))) = Ok left -> rt_instances r = ∅ ->
  active_instances (rt_context r) = 0 -> ctx_max_instances (rt_context r) = Z.of_nat n ->
  let r' := Nat.iter n (cycle m i) r in
  rt_instances r' = ∅ /\
  forall now uuid j, (create_instance now uuid m j r').1 = Err (InstanceLimitExceeded (Z.of_nat n) (Z.of_nat n)).
Proof.
  intros Hm Hi He Ha Hx r'.
  assert (forall k, (k <= n)%nat -> let r1 := Nat.iter k (cycle m i) r in
    rt_config r1 = rt_config r /\ rt_modules r1 = rt_modules r /\ rt_instances r1 = ∅ /\
    active_instances (rt_context r1) = Z.of_nat k /\ ctx_max_instances (rt_context r1) = Z.of_nat n) as Hk.
  { induction k as [|k IH]; intros Hk; [done|]. destruct (IH ltac:(lia)) as (E0 & E1 & E2 & E3 & E4).
    simpl. destruct (cycle_once m i mo left (Nat.iter k (cycle m i) r)) as (F0 & F1 & F2 & F3 & F4);
      [by rewrite E1|by rewrite E0|done|lia|].
    split_and!; [by rewrite F0|by rewrite F1|done|lia|by rewrite F4]. }
  destruct (Hk n ltac:(lia)) as (_ & _ & E2 & E3 & E4). split; [done|]. intros now uuid j.
  unfold create_instance, check_instance_limit. fold r' in E3, E4. rewrite E3, E4.
  destruct (Z.geb_spec (Z.of_nat n) (Z.of_nat n)); [done|lia].
Qed.

(** ** Fuel *)

(** What the store of an instance held once its start function had run, and
    how it is split since. *)
Definition instance_fuel_ok (config : RuntimeConfig) (inst : WasmInstance) : Prop :=
  exists m left, wt_instantiate m (wi_created inst) (fuel_budget (wasm_config config)) = Ok left /\
    match left with
    | None => wi_fuel inst = None /\ wi_fuel_consumed inst = 0
    | Some f => wi_fuel inst = Some (f - wi_fuel_consumed inst) /\ 0 <= wi_fuel_consumed inst <= f
    end.

Definition fuel_inv (config : RuntimeConfig) (r : WasmRuntime) : Prop :=
  rt_config r = config /\ map_Forall (fun _ inst => instance_fuel_ok config inst) (rt_instances r).

Lemma charge_fuel_ok config o i r inst :
  fuel_inv config r -> fuel_sound o i r -> rt_instances r !! i = Some inst ->
  instance_fuel_ok config (charge_fuel o inst) /\ instance_fuel_ok config (record_call o (charge_fuel o inst)).
Proof.
  intros [_ Hall] Hs Hi. pose proof (Hall i inst Hi) as Hok. specialize (Hs inst).
  assert (instance_fuel_ok config (charge_fuel o inst)) as Hc; [|split; [exact Hc|exact Hc]].
  destruct Hok as (m & left & Hl & Hok). unfold charge_fuel. exists m, left.
  destruct left as [b|].
  - destruct Hok as [Hf Hb]. rewrite Hf in *. specialize (Hs _ Hi eq_refl). simpl.
    unfold saturating_sub. split_and!; [done|f_equal; lia|lia|lia].
  - destruct Hok as [Hf Hz]. by rewrite Hf.
Qed.

Lemma call_function_fuel config o i r :
  fuel_inv config r -> fuel_sound o i r -> fuel_inv config (call_function o i r).2.
Proof.
  intros Hinv Hs. unfold call_function. destruct (rt_instances r !! i) as [inst|] eqn:Ei; [|done].
  destruct (check_cpu_time_limit _ _); [|done].
  destruct (charge_fuel_ok config o i r inst Hinv Hs Ei) as [H1 H2]. destruct Hinv as [Hc Hall].
  destruct (co_result o) as [[]|e].
  - destruct (update_cpu_time _ _); cbn; (split; [done|]); cbn; rewrite insert_insert_eq;
      by apply map_Forall_insert_2.
  - destruct (wi_fuel inst); [destruct (is_out_of_fuel e)|]; cbn; (split; [done|]); cbn;
      by apply map_Forall_insert_2.
Qed.

Lemma create_instance_fuel `{!WasmtimeFuel} config now uuid m i r :
  fuel_inv config r -> fuel_inv config (create_instance now uuid m i r).2.
Proof.
  intros [Hc Hall]. unfold create_instance. destruct (check_instance_limit _); [|done].
  destruct (rt_modules r !! m) as [mo|]; [|done].
  destruct (wt_instantiate mo now _) as [left|] eqn:Hl; [|done]. rewrite Hc in Hl.
  split; [done|]. apply map_Forall_insert_2; [|done]. exists mo, left. split; [done|].
  pose proof (instantiate_fuel _ _ _ _ Hl) as Hf. destruct (fuel_budget _).
  - destruct Hf as (f & -> & Hf). cbn. split; [f_equal|]; lia.
  - by subst left.
Qed.

Lemma fuel_inv_reach `{!WasmtimeFuel} config r : rt_reach config r -> fuel_inv config r.
Proof.
  induction 1 as
    [r Hn|id wasm r _ IH|now uuid m i r _ IH|o i r _ IH Hs|i r _ IH|m r _ IH|i r _ IH|m r _ IH|r _ IH].
  - unfold WasmRuntime_new in Hn. case_match; [|done]. injection Hn as <-. split; [done|apply map_Forall_empty].
  - unfold load_module. repeat case_match; done.
  - by apply create_instance_fuel.
  - by apply call_function_fuel.
  - unfold remove_instance. case_match; [|done]. destruct IH as [Hc Hall]. split; [done|]. by apply map_Forall_delete.
  - unfold remove_module. by case_match.
  - unfold shutdown_instance. case_match; [|done]. destruct IH as [Hc Hall]. split; [done|]. by apply map_Forall_delete.
  - unfold unload_application. destruct IH as [Hc Hall]. case_match; (split; [done|]); cbn;
      intros k x [Hk _]%map_lookup_filter_Some; by apply (Hall k).
  - destruct IH as [Hc Hall]. split; [done|]. apply map_Forall_empty.
Qed.

(** C38: the fuel budget of a profile bounds an instance for its whole life,
    its start function included, and not one call: in every history the
    instance began with what [Instance::new] left of the budget at the time
    it was created, and what it has consumed over all its calls plus what is
    in its store now is exactly that. What the start function burnt is in
    neither, so the consumption reported may stay below the budget when the
    store is empty. Without a budget nothing is metered. Assumes of wasmtime
    that running code never adds fuel to a store. *)
Theorem fuel_budget_covers_instance_lifetime `{!WasmtimeFuel} config r i inst :
  rt_reach config r -> rt_instances r !! i = Some inst ->
  match fuel_budget (wasm_config config) with
  | None => wi_fuel inst = None /\ wi_fuel_consumed inst = 0
  | Some b => exists m started left,
      wt_instantiate m (wi_created inst) (Some b) = Ok (Some started) /\ started <= b /\
      wi_fuel inst = Some left /\ 0 <= left /\ 0 <= wi_fuel_consumed inst /\
      wi_fuel_consumed inst + left = started
  end.
Proof.
  intros Hr Hi. destruct (fuel_inv_reach config r Hr) as [_ Hall].
  destruct (Hall i inst Hi) as (m & left & Hl & Hok).
  pose proof (instantiate_fuel _ _ _ _ Hl) as Hf. destruct (fuel_budget _) as [b|].
  - destruct Hf as (f & -> & Hf), Hok as [Hw Hc]. exists m, f, (f - wi_fuel_consumed inst).
    split_and!; [done|lia|done|lia|lia|lia].
  - by subst left.
Qed.
End Runtime.

(** ** Module validation *)

Section Validation.
Context `{P : WasmParser}.
Variable config : WasmRuntimeConfig.

Definition is_end (p : payload) : bool := match p with PEnd => true | _ => false end.

(** The payloads a validation loop looks at: those before the end marker, if
    none of them is an error. *)
Fixpoint before_end (ps : list (result string payload)) : option (list payload) :=
  match ps with
  | [] => Some []
  | Err _ :: _ => None
  | Ok p :: ps => if is_end p then Some [] else let* l := before_end ps in Some (p :: l)
  end.

Definition import_section (p : payload) : list (result string string) :=
  match p with PImportSection es => es | _ => [] end.
Definition memory_section (p : payload) : list (result string memory_type) :=
  match p with PMemorySection es => es | _ => [] end.

Lemma payload_loop_cons {S} (body : payload -> S -> WasmResult S) p ps s :
  payload_loop body (Ok p :: ps) s =
    if is_end p then Ok s else rbind (body p s) (payload_loop body ps).
Proof. by destruct p. Qed.

Lemma section_loop_app {A S} (body : A -> S -> WasmResult S) es es' s :
  section_loop body (es ++ es') s = rbind (section_loop body es s) (section_loop body es').
Proof.
  revert s. induction es as [|[a|e] es IH]; intros s; simpl; [done| |done].
  rewrite rbind_assoc. apply rbind_ext. intros. apply IH.
Qed.

(** A loop that reads one kind of section is one loop over the entries of all
    sections of that kind. *)
Lemma payload_loop_sections {A S} (pick : payload -> list (result string A)) (body : A -> S -> WasmResult S)
    (pbody : payload -> S -> WasmResult S) :
  (forall p s, pbody p s = section_loop body (pick p) s) -> forall ps s s',
  payload_loop pbody ps s = Ok s' <->
  exists l, before_end ps = Some l /\ section_loop body (concat (map pick l)) s = Ok s'.
Proof.
  intros Hb. induction ps as [|[p|e] ps IH]; intros s s'.
  - split; [by exists []|by intros (l & [= <-] & ?)].
  - rewrite payload_loop_cons. cbn [before_end]. destruct (is_end p).
    { split; [intros [= <-]; by exists []|by intros (l & [= <-] & ?)]. }
    split.
    + intros (s1 & H1 & (l & Hl & H2)%IH)%rbind_ok_inv. exists (p :: l). rewrite Hl. split; [done|].
      cbn [map concat]. rewrite section_loop_app, <- Hb, H1. exact H2.
    + intros (l & Hl & Hs). destruct (before_end ps) as [l'|]; [|done]. injection Hl as <-.
      cbn [map concat] in Hs. rewrite section_loop_app, <- Hb in Hs.
      apply rbind_ok_inv in Hs as (s1 & H1 & H2). rewrite H1. simpl. apply IH. eauto.
  - split; [done|by intros (l & ? & _)].
Qed.

Lemma import_loop_ok es n n' :
  section_loop import_body es n = Ok n' ->
  n' = n + zlen es /\ Forall (fun e => exists m, e = Ok m /\ is_allowed_import_module m = true) es.
Proof.
  revert n. induction es as [|[m|e] es IH]; intros n; cbn [section_loop].
  - intros [= <-]. split; [unfold zlen; simpl; lia|constructor].
  - unfold import_body at 1. destruct (is_allowed_import_module m) eqn:Em; [|done]. cbn [rbind].
    intros (-> & Hall)%IH. split; [unfold zlen; simpl; lia|]. constructor; eauto.
  - done.
Qed.

Lemma memory_loop_ok es n n' :
  section_loop memory_body es n = Ok n' ->
  n <= n' /\ (forall m max, Ok m ∈ es -> mem_maximum m = Some max -> max <= n') /\
  (forall bound, n <= bound -> (forall m max, Ok m ∈ es -> mem_maximum m = Some max -> max <= bound) -> n' <= bound).
Proof.
  revert n. induction es as [|[m|e] es IH]; intros n; cbn [section_loop].
  - intros [= <-]. split_and!; [lia|intros ? ? []%not_elem_of_nil|auto].
  - unfold memory_body at 1. cbn [rbind]. intros (H1 & H2 & H3)%IH. split_and!.
    + destruct (mem_maximum m); lia.
    + intros m' max [[= <-]|Hin]%elem_of_cons Hm; [|by eapply H2]. rewrite Hm in H1. lia.
    + intros bound Hn Hall. apply H3; [|intros m' max Hin; apply Hall; set_solver].
      destruct (mem_maximum m) as [max|] eqn:Em; [|done].
      specialize (Hall m max ltac:(set_solver) Em). lia.
  - done.
Qed.

(** A module that passes validation is at least a WASM header of
    version 1, takes at most a quarter of the memory limit, imports only from
    the listed modules and not more often than the profile allows, and every
    maximum its memories declare fits the memory limit (for the 32-bit
    memories the engine accepts). *)
Theorem validate_module_sound wasm :
  validate_module config wasm = Ok tt ->
  8 <= zlen wasm <= max_memory config / 4 /\
  take 4 wasm = map byte_of [0x00; 0x61; 0x73; 0x6d] /\ le_value (take 4 (drop 4 wasm)) = 1 /\
  exists l, before_end (parse_all wasm) = Some l /\
    (let imports := concat (map import_section l) in
     zlen imports <= max_imports config /\
     Forall (fun e => exists m, e = Ok m /\ is_allowed_import_module m = true) imports) /\
    (let memories := concat (map memory_section l) in
     (forall m max, Ok m ∈ memories -> mem_maximum m = Some max -> 0 <= max <= 65536) ->
     forall m max, Ok m ∈ memories -> mem_maximum m = Some max -> max * 65536 <= max_memory config).
Proof.
  unfold validate_module. intros H. inv_rbind.
  rename Ha into Hfmt, Ha0 into Hsize, Ha2 into Hmem, Hk into Himp.
  unfold validate_wasm_format, invalid in Hfmt.
  destruct (Z.ltb_spec (zlen wasm) 8); [done|].
  destruct (bool_decide (take 4 wasm = _)) eqn:Hmagic; [|done]. apply bool_decide_eq_true in Hmagic.
  destruct (Z.eqb_spec (le_value (take 4 (drop 4 wasm))) 1) as [Hver|]; [|done].
  unfold validate_size_constraints, invalid in Hsize.
  destruct (Z.gtb_spec (zlen wasm) (max_memory config / 4)); [done|].
  unfold validate_import_constraints in Himp. apply rbind_ok_inv in Himp as (n & Hn & Hmax).
  destruct (Z.gtb_spec n (max_imports config)); [done|].
  apply (payload_loop_sections import_section import_body) in Hn as (l & Hl & Hi); [|by intros []].
  apply import_loop_ok in Hi as [-> Hall].
  unfold validate_memory_constraints in Hmem. apply rbind_ok_inv in Hmem as (pages & Hp & Hlim).
  apply (payload_loop_sections memory_section memory_body) in Hp as (l' & Hl' & Hm); [|by intros []].
  rewrite Hl in Hl'. injection Hl' as <-. apply memory_loop_ok in Hm as (Hp0 & Hge & Hle).
  split_and!; [lia..|done|done|]. exists l. split_and!; [done|lia|done|].
  intros Hb m max Hin Hm. specialize (Hge m max Hin Hm).
  assert (pages <= 65536) as Hpb by (apply Hle; [lia|]; intros m' max' Hin' Hm'; apply (Hb m' max' Hin' Hm')).
  unfold wrap64 in Hlim. rewrite Z.mod_small in Hlim by lia.
  destruct (Z.gtb_spec (pages * 64 * 1024) (max_memory config)); [done|lia].
Qed.

(** A memory that declares no maximum escapes the memory check: whatever
    number of pages it starts with, a module whose memories all have no
    maximum passes, on every profile. *)
Theorem unbounded_memory_accepted wasm l :
  before_end (parse_all wasm) = Some l -> 0 <= max_memory config ->
  Forall (fun e => exists initial, e = Ok (mkMemoryType initial None)) (concat (map memory_section l)) ->
  validate_memory_constraints config wasm = Ok tt.
Proof.
  intros Hl Hm Hall. unfold validate_memory_constraints.
  assert (section_loop memory_body (concat (map memory_section l)) 0 = Ok 0) as Hs.
  { induction Hall as [|e es (i & ->) _ IH]; [done|]. exact IH. }
  match goal with |- context [payload_loop ?b _ _] => set (body := b) end.
  assert (payload_loop body (parse_all wasm) 0 = Ok 0) as ->.
  { apply (payload_loop_sections memory_section memory_body); [by intros []|eauto]. }
  cbn [rbind]. change (wrap64 (0 * 64 * 1024)) with 0.
  destruct (Z.gtb_spec 0 (max_memory config)); [lia|done].
Qed.
End Validation.

(** ** Examples: a parser that reports a fixed list of payloads *)

Definition demo_payloads : list payload :=
  [PImportSection [Ok "wasmbed_gpio"%string; Ok "env"%string]; PMemorySection [Ok (mkMemoryType 1 (Some 1))];
   PFunctionSection 3].
Definition fixed_parser (l : list payload) : WasmParser := fun _ => (Ok <$> l) ++ [Ok PEnd].
Definition demo_module : list byte := map byte_of [0; 97; 115; 109; 1; 0; 0; 0].

(** An engine whose modules burn 1000 units of fuel in their start function. *)
#[local] Instance unit_engine : Wasmtime := {|
  wt_module := unit; wt_compile _ _ := Ok tt;
  wt_instantiate _ _ fuel := match fuel with
    | None => Ok None
    | Some f => if f <? 1000 then Err (AnyhowError true "all fuel consumed by WebAssembly") else Ok (Some (f - 1000))
    end |}.
#[local] Instance unit_engine_fuel : WasmtimeFuel.
Proof.
  intros m now [f|] left; simpl; [|by intros [= <-]].
  destruct (Z.ltb_spec f 1000); [done|]. intros [= <-]. exists (f - 1000). split; [done|lia].
Qed.
Definition mcu_config : RuntimeConfig := RuntimeConfig_for_architecture Mcu "mcu-1".
Definition mcu_runtime : WasmRuntime :=
  mkWasmRuntime mcu_config (WasmContext_new for_mcu) ∅ ∅ (mkRuntimeStats 0 0 0 0 0 0 None 0).
Definition mcu_loaded : WasmRuntime :=
  (load_module (P := fixed_parser demo_payloads) (H := toy_sha256) "m" demo_module mcu_runtime).2.

Lemma validate_module_sound_witness :
  validate_module (P := fixed_parser demo_payloads) for_mcu demo_module = Ok tt /\
  8 <= zlen demo_module <= max_memory for_mcu / 4.
Proof.
  split; [vm_compute; reflexivity|].
  apply (validate_module_sound (P := fixed_parser demo_payloads) for_mcu demo_module). vm_compute. reflexivity.
Defined.

(** A 4 GiB initial memory on the profile with 64 KiB. *)
Lemma unbounded_memory_accepted_witness :
  validate_memory_constraints (P := fixed_parser [PMemorySection [Ok (mkMemoryType 65536 None)]]) for_mcu demo_module
    = Ok tt.
Proof.
  eapply (unbounded_memory_accepted (P := fixed_parser [PMemorySection [Ok (mkMemoryType 65536 None)]]) for_mcu);
    [vm_compute; reflexivity|vm_compute; discriminate|]. constructor; [eauto|constructor].
Defined.

Lemma instances_bounded_witness :
  let r := (create_instance 0 "u" "m" None mcu_loaded).2 in
  live_count r = 1 /\ live_count r <= active_instances (rt_context r) <= 5.
Proof.
  intros r. split; [vm_compute; reflexivity|].
  apply (instances_bounded (P := fixed_parser demo_payloads) (H := toy_sha256) mcu_config r); [vm_compute; discriminate|].
  apply reach_create, reach_load, reach_new. vm_compute. reflexivity.
Defined.

Lemma shutdown_instance_leaks_witness :
  (create_instance 0 "u" "m" None (Nat.iter 5 (cycle "m" "i") mcu_loaded)).1 = Err (InstanceLimitExceeded 5 5).
Proof.
  apply (shutdown_instance_leaks (T := unit_engine) "m" "i" tt (Some 4999000) mcu_loaded 5); vm_compute; reflexivity.
Defined.

(** Two calls of one instance on the MCU profile share the budget with its
    start function: the second call runs out of fuel, and the error reports
    4999000 of 5000000 consumed. *)
Lemma fuel_budget_covers_instance_lifetime_witness :
  let created := (create_instance 0 "u" "m" (Some "i"%string) mcu_loaded).2 in
  let r1 := (call_function (mkCallOutcome (Ok tt) 3000000 0 0) "i" created).2 in
  let out := mkCallOutcome (Err (AnyhowError true "all fuel consumed by WebAssembly")) 0 0 0 in
  let r2 := (call_function out "i" r1).2 in
  (call_function out "i" r1).1 = Err (FuelExhausted 4999000 5000000) /\
  exists inst m started, rt_instances r2 !! "i"%string = Some inst /\ wi_fuel inst = Some 0 /\
    wi_fuel_consumed inst = 4999000 /\ wt_instantiate m 0 (Some 5000000) = Ok (Some started) /\
    wi_fuel_consumed inst + 0 = started.
Proof.
  intros created r1 out r2. split; [vm_compute; reflexivity|].
  destruct (rt_instances r2 !! "i"%string) as [inst|] eqn:Hi; [|by vm_compute in Hi].
  pose proof (fuel_budget_covers_instance_lifetime (P := fixed_parser demo_payloads) (H := toy_sha256)
    mcu_config r2 "i" inst) as Hb.
  destruct Hb as (m & started & left & Hm & _ & Hl & _ & _ & Hsum); [|done|].
  { apply reach_call; [apply reach_call; [apply reach_create, reach_load, reach_new; vm_compute; reflexivity|]|].
    - intros inst1 f H1 H2. vm_compute in H1. injection H1 as <-. vm_compute in H2. injection H2 as <-. simpl. lia.
    - intros inst1 f H1 H2. vm_compute in H1. injection H1 as <-. vm_compute in H2. injection H2 as <-. simpl. lia. }
  vm_compute in Hi. injection Hi as <-. injection Hl as <-.
  eexists _, m, started. split_and!; [reflexivity|reflexivity|reflexivity|exact Hm|exact Hsum].
Defined.
