(* ===== verification/RuntimeDevice.v ===== *)
(** * The device model of the WASM runtime
    ([crates/wasmbed-wasm-runtime/src/device.rs])

    [DeviceManager]: what is known of a board by its architecture, and the
    counters and readings that change while it runs. An [f32] is its 32 bits
    (IEEE 754 binary32); the code only stores and copies them. Counters are
    kept at their width, with the wrap-around of a release build. *)

From S2P Require Import Prelude.
From S2P Require Import RustStd.
From S2P Require Import Externals.
From S2P Require Import WasmRuntime.

Record DeviceCapabilities := mkDeviceCapabilities {
  simd : bool;
  threading : bool;
  floating_point : bool;
  crypto : bool;
  dma : bool;
  interrupts : bool;
  timers : bool;
  watchdog : bool;
  power_management : bool;
  sleep_modes : bool;
  gpio_pins : Z;
  i2c_buses : Z;
  spi_buses : Z;
  uart_ports : Z;
  adc_channels : Z;
  pwm_channels : Z;
}.

Record DeviceInfo := mkDeviceInfo {
  di_architecture : DeviceArchitecture;
  di_device_id : string;
  di_name : string;
  di_manufacturer : string;
  di_model : string;
  di_version : string;
  cpu_arch : string;
  memory_size : Z;
  flash_size : Z;
  cpu_cores : Z;
  cpu_frequency : Z;
  features : list string;
  capabilities : DeviceCapabilities;
}.

Inductive PowerState := Active | Sleep | DeepSleep | Hibernate | Off.

Record DeviceState := mkDeviceState {
  power_state : PowerState;
  temperature : Z;
  voltage : Z;
  current : Z;
  uptime : Z;
  boot_count : Z;
  ds_error_count : Z;
  last_error : option string;
}.

Record DeviceManager := mkDeviceManager { device_info : DeviceInfo; device_state : DeviceState }.

(** [25.0], [3.3], [0.1] and [0.25] as [f32]. *)
Definition f32_25 : Z := 0x41C80000.
Definition f32_3_3 : Z := 0x40533333.
Definition f32_0_1 : Z := 0x3DCCCCCD.
Definition f32_0_25 : Z := 0x3E800000.

Definition DeviceState_new : DeviceState := mkDeviceState Active f32_25 f32_3_3 f32_0_1 0 1 0 None.

Definition mpu_capabilities : DeviceCapabilities :=
  mkDeviceCapabilities true true true true true true true true true true 40 2 2 4 8 8.
Definition mcu_capabilities : DeviceCapabilities :=
  mkDeviceCapabilities false false true false true true true true true true 82 3 3 6 16 12.
Definition riscv_capabilities : DeviceCapabilities :=
  mkDeviceCapabilities false false true false true true true true true true 19 1 1 1 0 0.

Definition device_features : list string := ["wasm"; "tls"; "dds"; "mavlink"]%string.

Definition create_device_info (arch : DeviceArchitecture) (id : string) : WasmResult DeviceInfo :=
  Ok (match arch with
      | Mpu => mkDeviceInfo arch id "Gateway MPU" "Generic" "x86_64" "1.0" "x86_64"
                 (8 * 1024 * 1024 * 1024) (256 * 1024 * 1024) 4 2400000000 device_features mpu_capabilities
      | Mcu => mkDeviceInfo arch id "Edge MCU" "STMicroelectronics" "STM32F4" "1.0" "ARM Cortex-M4"
                 (256 * 1024) (1 * 1024 * 1024) 1 168000000 device_features mcu_capabilities
      | RiscV => mkDeviceInfo arch id "Edge RISC-V" "SiFive" "HiFive1" "1.0" "RISC-V"
                   (16 * 1024 * 1024) (32 * 1024 * 1024) 1 320000000 device_features riscv_capabilities
      end).

Definition DeviceManager_new (arch : DeviceArchitecture) (id : string) : WasmResult DeviceManager :=
  let? info := create_device_info arch id in Ok (mkDeviceManager info DeviceState_new).

Definition update_device_state (t v c : Z) (d : DeviceManager) : DeviceManager :=
  let s := device_state d in
  mkDeviceManager (device_info d)
    (mkDeviceState (power_state s) t v c (wrap64 (uptime s + 1)) (boot_count s) (ds_error_count s) (last_error s)).

Definition set_power_state (p : PowerState) (d : DeviceManager) : DeviceManager :=
  let s := device_state d in
  mkDeviceManager (device_info d)
    (mkDeviceState p (temperature s) (voltage s) (current s) (uptime s) (boot_count s) (ds_error_count s)
       (last_error s)).

Definition increment_boot_count (d : DeviceManager) : DeviceManager :=
  let s := device_state d in
  mkDeviceManager (device_info d)
    (mkDeviceState (power_state s) (temperature s) (voltage s) (current s) (uptime s) (wrap32 (boot_count s + 1))
       (ds_error_count s) (last_error s)).

Definition record_error (e : string) (d : DeviceManager) : DeviceManager :=
  let s := device_state d in
  mkDeviceManager (device_info d)
    (mkDeviceState (power_state s) (temperature s) (voltage s) (current s) (uptime s) (boot_count s)
       (wrap32 (ds_error_count s + 1)) (Some e)).

Definition supports_feature (f : string) (d : DeviceManager) : bool :=
  existsb (String.eqb f) (features (device_info d)).

Definition has_capability (capability : string) (d : DeviceManager) : bool :=
  let c := capabilities (device_info d) in
  if String.eqb capability "simd" then simd c
  else if String.eqb capability "threading" then threading c
  else if String.eqb capability "floating_point" then floating_point c
  else if String.eqb capability "crypto" then crypto c
  else if String.eqb capability "dma" then dma c
  else if String.eqb capability "interrupts" then interrupts c
  else if String.eqb capability "timers" then timers c
  else if String.eqb capability "watchdog" then watchdog c
  else if String.eqb capability "power_management" then power_management c
  else if String.eqb capability "sleep_modes" then sleep_modes c
  else false.

Record ResourceUsage := mkResourceUsage {
  memory_used : Z;
  memory_total : Z;
  flash_used : Z;
  flash_total : Z;
  cpu_usage : Z;
  ru_temperature : Z;
  ru_voltage : Z;
  ru_current : Z;
}.

Definition get_resource_usage (d : DeviceManager) : ResourceUsage :=
  let i := device_info d in
  let s := device_state d in
  mkResourceUsage (wrap64 (memory_size i * 3) / 10) (memory_size i) (flash_size i / 2) (flash_size i)
    f32_0_25 (temperature s) (voltage s) (current s).

(** ** What a manager remembers of the calls made on it *)

Inductive device_call :=
| Update (t v c : Z)
| SetPower (p : PowerState)
| Boot
| RecordError (e : string).

Definition device_apply (d : DeviceManager) (c : device_call) : DeviceManager :=
  match c with
  | Update t v c => update_device_state t v c d
  | SetPower p => set_power_state p d
  | Boot => increment_boot_count d
  | RecordError e => record_error e d
  end.

(** The abstract reading of a history: how often, and what last. *)
Definition count_of (f : device_call -> bool) (cs : list device_call) : Z := zlen (List.filter f cs).
Definition is_update (c : device_call) : bool := match c with Update _ _ _ => true | _ => false end.
Definition is_boot (c : device_call) : bool := match c with Boot => true | _ => false end.
Definition is_error (c : device_call) : bool := match c with RecordError _ => true | _ => false end.

Definition last_of {A} (f : device_call -> option A) (cs : list device_call) : option A :=
  foldl (fun a c => match f c with Some x => Some x | None => a end) None cs.
Definition error_of (c : device_call) : option string := match c with RecordError e => Some e | _ => None end.
Definition power_of (c : device_call) : option PowerState := match c with SetPower p => Some p | _ => None end.
Definition reading_of (c : device_call) : option (Z * Z * Z) := match c with Update t v c => Some (t, v, c) | _ => None end.

Definition history_state (cs : list device_call) : DeviceState :=
  let '(t, v, c) := default (f32_25, f32_3_3, f32_0_1) (last_of reading_of cs) in
  mkDeviceState (default Active (last_of power_of cs)) t v c (wrap64 (count_of is_update cs))
    (wrap32 (1 + count_of is_boot cs)) (wrap32 (count_of is_error cs)) (last_of error_of cs).

Lemma count_of_snoc f cs c : count_of f (cs ++ [c]) = count_of f cs + (if f c then 1 else 0).
Proof. unfold count_of. rewrite List.filter_app, zlen_app. simpl. by destruct (f c). Qed.

Lemma last_of_snoc {A} (f : device_call -> option A) cs c :
  last_of f (cs ++ [c]) = match f c with Some x => Some x | None => last_of f cs end.
Proof. unfold last_of. by rewrite foldl_app. Qed.

Lemma wrap_step w a b : (a mod w + b) mod w = (a + b) mod w.
Proof. apply Zplus_mod_idemp_l. Qed.

Lemma history_step cs c d :
  device_state d = history_state cs -> device_state (device_apply d c) = history_state (cs ++ [c]).
Proof.
  intros H. destruct d as [info s]. simpl in *. subst s.
  unfold history_state. rewrite !count_of_snoc, !last_of_snoc.
  destruct (default _ (last_of reading_of cs)) as [[t0 v0] c0] eqn:E.
  destruct c; simpl; rewrite ?Z.add_0_r, ?Z.add_assoc, ?E;
    unfold wrap64, wrap32; rewrite ?wrap_step; done.
Qed.

Lemma device_apply_info d c : device_info (device_apply d c) = device_info d.
Proof. by destruct c. Qed.

(** The device manager is its history. After any sequence of calls the
    state is the one the sequence determines: the last readings and power
    state, the numbers of updates, boots (one at creation) and errors at their
    widths, and the last error; the information of the board never changes. *)
Theorem device_history arch id cs d :
  DeviceManager_new arch id = Ok d ->
  device_state (foldl device_apply d cs) = history_state cs /\
  create_device_info arch id = Ok (device_info (foldl device_apply d cs)).
Proof.
  intros [= <-]. induction cs as [|c cs [IH1 IH2]] using rev_ind; [done|].
  rewrite foldl_app. split; [by apply history_step|]. simpl. by rewrite device_apply_info.
Qed.

Lemma device_history_witness :
  exists d, DeviceManager_new Mcu "d" = Ok d /\
    device_state (foldl device_apply d [Boot; Update 1 2 3; RecordError "e"; SetPower Sleep]) =
      mkDeviceState Sleep 1 2 3 1 2 1 (Some "e"%string).
Proof.
  eexists. split; [reflexivity|].
  apply (device_history Mcu "d" [Boot; Update 1 2 3; RecordError "e"; SetPower Sleep]). reflexivity.
Defined.

(** ** The profiles of [config.rs] fit the boards of [device.rs] *)

(** The memory limit of a profile is at most the memory of its board, the
    features it asks of the engine need no capability the board lacks, and
    the usage reported stays below the totals. *)
Theorem profile_fits_device arch id d :
  DeviceManager_new arch id = Ok d ->
  let c := for_architecture arch in
  max_memory c <= memory_size (device_info d) /\
  (enable_simd c = true -> has_capability "simd" d = true) /\
  (enable_threads c = true -> has_capability "threading" d = true) /\
  memory_used (get_resource_usage d) < memory_total (get_resource_usage d) /\
  flash_used (get_resource_usage d) < flash_total (get_resource_usage d).
Proof. intros [= <-]. by destruct arch; vm_compute. Qed.

Lemma profile_fits_device_witness :
  exists d, DeviceManager_new RiscV "d" = Ok d /\ max_memory (for_architecture RiscV) <= memory_size (device_info d).
Proof. eexists. split; [reflexivity|]. apply (profile_fits_device RiscV "d"). reflexivity. Defined.
