(* ===== verification/RuntimeProbe.v ===== *)
(** * The energy probe and the read-only operations it uses
    ([bin/fuel_load_probe.rs], [get_instance_info] and [get_stats] of
    [runtime.rs])

    The probe creates, calls and removes an instance of one module as often
    as it can in a load phase, and adds up calls, fuel and errors. An
    iteration is what the system supplies to it: the time, a fresh UUID and
    the outcome of the call. *)

From S2P Require Import Prelude.
From S2P Require Import RustStd.
From S2P Require Import Externals.
From S2P Require Import WasmRuntime.
Local Open Scope Z_scope.

Record InstanceInfo := mkInstanceInfo {
  ii_id : string;
  ii_module_id : string;
  ii_created : Z;
  ii_last_execution : option Z;
  ii_execution_count : Z;
  ii_total_execution_time : Z;
  ii_fuel_consumed : Z;
}.

(** [RuntimeStats] as [get_stats] copies it, with the memory usage of the
    context. *)
Record StatsReport := mkStatsReport { sr_stats : RuntimeStats; current_memory_usage : Z }.

(** [env_u64] on the value of the variable, if set. *)
Definition env_u64 (v : option string) (default : Z) : Z :=
  match v with
  | Some s => match parse_uint u64_max s with Some n => n | None => default end
  | None => default
  end.

(** The configuration of the probe, from the variable [FUEL_BUDGET]. *)
Definition probe_config (fuel_budget_var : option string) : RuntimeConfig :=
  let config := RuntimeConfig_for_architecture Mcu "energy-probe" in
  match fuel_budget_var with
  | Some raw =>
      match parse_uint u64_max raw with
      | Some budget =>
          let w := wasm_config config in
          mkRuntimeConfig (architecture config)
            (mkWasmRuntimeConfig (max_memory w) (max_stack_size w) (max_execution_time w) (enable_simd w)
               (enable_threads w) (enable_bulk_memory w) (enable_reference_types w) (enable_tail_calls w)
               (enable_function_references w) (max_instances w) (max_functions_per_instance w) (enable_debug w)
               (enable_profiling w) (if budget =? 0 then None else Some budget))
            (host_config config) (device_id config) (gateway_endpoint config)
      | None => config
      end
  | None => config
  end.

Record tally := mkTally { total_fuel : Z; total_calls : Z; errors : Z }.
Definition tally_zero : tally := mkTally 0 0 0.

Record iteration := mkIteration { it_now : Z; it_uuid : string; it_call : CallOutcome }.

Definition burn_module : string := "burn-module".

Section Probe.
Context `{P : WasmParser} `{T : Wasmtime} `{H : Sha256}.

Definition get_instance_info (instance_id : string) (r : WasmRuntime) : WasmResult InstanceInfo :=
  match rt_instances r !! instance_id with
  | None => Err (ExecutionError ("Instance " ++ instance_id ++ " not found"))
  | Some i => Ok (mkInstanceInfo (wi_id i) (wi_module_id i) (wi_created i) (wi_last_execution i)
                    (wi_execution_count i) (wi_total_execution_time i) (wi_fuel_consumed i))
  end.

Definition get_stats (r : WasmRuntime) : StatsReport := mkStatsReport (rt_stats r) (memory_usage (rt_context r)).

(** The body of the load loop. *)
Definition burn_once (it : iteration) (s : tally * WasmRuntime) : tally * WasmRuntime :=
  let (t, r) := s in
  match create_instance (it_now it) (it_uuid it) burn_module None r with
  | (Err _, r) => (mkTally (total_fuel t) (total_calls t) (wrap64 (errors t + 1)), r)
  | (Ok id, r) =>
      let (called, r) := call_function (it_call it) id r in
      let t :=
        if is_ok called then
          match get_instance_info id r with
          | Ok info => mkTally (wrap64 (total_fuel t + ii_fuel_consumed info)) (wrap64 (total_calls t + 1)) (errors t)
          | Err _ => t
          end
        else mkTally (total_fuel t) (total_calls t) (wrap64 (errors t + 1)) in
      (t, (remove_instance id r).2)
  end.

(** One load phase, and the phases one after the other: the tallies are
    printed and start anew, the runtime stays. *)
Definition load_phase (its : list iteration) (r : WasmRuntime) : tally * WasmRuntime :=
  foldl (fun s it => burn_once it s) (tally_zero, r) its.

Fixpoint probe_phases (phases : list (list iteration)) (r : WasmRuntime) : list tally * WasmRuntime :=
  match phases with
  | [] => ([], r)
  | its :: phases =>
      let (t, r) := load_phase its r in
      let (ts, r) := probe_phases phases r in (t :: ts, r)
  end.

(** [main] up to the first phase. *)
Definition probe_start (fuel_budget_var : option string) (wasm : list byte) : WasmResult WasmRuntime :=
  let? r := WasmRuntime_new (probe_config fuel_budget_var) in
  match load_module burn_module wasm r with
  | (Ok _, r) => Ok r
  | (Err e, _) => Err e
  end.

(** ** The probe runs for ever *)

(** Between two iterations: nothing left over. *)
Definition probe_ready (config : RuntimeConfig) (m : wt_module) (r : WasmRuntime) : Prop :=
  rt_config r = config /\ rt_modules r !! burn_module = Some m /\ rt_instances r = ∅ /\
  active_instances (rt_context r) = 0 /\ ctx_max_instances (rt_context r) = max_instances (wasm_config config) /\
  cpu_time_used (rt_context r) = 0 /\ cpu_time_limit (rt_context r) = max_execution_time (wasm_config config).

(** A call that the probe counts: it returned, within one second of the
    clock. *)
Definition counted (o : CallOutcome) : bool := is_ok (co_result o) && (co_start o =? co_end o).

(** The fuel of a call on a store that held [started] once instantiated. *)
Definition fuel_of (started : option Z) (o : CallOutcome) : Z :=
  match started with Some b => saturating_sub b (co_fuel_after o) | None => 0 end.

(** What an iteration adds, as the probe's report should read; [started]
    gives what instantiation leaves in the store, by the time. *)
Definition tally_add (started : Z -> option Z) (t : tally) (it : iteration) : tally :=
  if counted (it_call it)
  then mkTally (wrap64 (total_fuel t + fuel_of (started (it_now it)) (it_call it))) (wrap64 (total_calls t + 1)) (errors t)
  else mkTally (total_fuel t) (total_calls t) (wrap64 (errors t + 1)).

(** The probe's configurations differ from the MCU profile in the fuel
    budget only. *)
Lemma probe_config_limits v :
  max_instances (wasm_config (probe_config v)) = 5 /\
  max_execution_time (wasm_config (probe_config v)) = millis 100 /\
  RuntimeConfig_validate (probe_config v) = Ok tt.
Proof.
  unfold probe_config. destruct v as [s|]; [|by vm_compute].
  destruct (parse_uint u64_max s) as [b|]; [|by vm_compute].
  destruct (b =? 0); by vm_compute.
Qed.

Lemma probe_cpu_limit time x :
  0 <= time -> cpu_time_used x = 0 -> cpu_time_limit x = millis 100 ->
  update_cpu_time (secs time) x = if time =? 0 then Ok x else
    Err (CpuTimeLimitExceeded (secs time) (millis 100)).
Proof.
  intros Ht Hu Hl. unfold update_cpu_time, check_cpu_time_limit. rewrite Hu, Hl. cbn [rbind].
  unfold secs, millis. destruct (Z.eqb_spec time 0) as [->|].
  - simpl. destruct x; simpl in *. by subst.
  - replace (0 + time * 10 ^ 9) with (time * 10 ^ 9) by lia.
    rewrite Z.gtb_ltb. destruct (Z.ltb_spec (100 * 10 ^ 6) (time * 10 ^ 9)); [done|lia].
Qed.

Lemma set_active_id x : set_active_instances (active_instances x) x = x.
Proof. by destruct x. Qed.

(** The call of an iteration, on an instance just created. *)
Lemma probe_call v o id inst r :
  let config := probe_config v in
  co_start o <= co_end o -> rt_config r = config -> rt_instances r = {[ id := inst ]} ->
  wi_fuel_consumed inst = 0 ->
  cpu_time_used (rt_context r) = 0 -> cpu_time_limit (rt_context r) = millis 100 ->
  let (res, r') := call_function o id r in
  is_ok res = counted o /\ rt_config r' = config /\ rt_modules r' = rt_modules r /\
  rt_context r' = rt_context r /\
  exists inst', rt_instances r' = {[ id := inst' ]} /\ wi_fuel_consumed inst' = fuel_of (wi_fuel inst) o.
Proof.
  intros config Ht Hc Hi Hf0 Hu Hl. unfold call_function, counted, fuel_of. rewrite Hi, lookup_singleton_eq.
  assert (check_cpu_time_limit (millis 10) (rt_context r) = Ok tt) as ->.
  { unfold check_cpu_time_limit. by rewrite Hu, Hl. }
  assert (wi_fuel_consumed (charge_fuel o inst) =
    match wi_fuel inst with Some b => saturating_sub b (co_fuel_after o) | None => 0 end) as Hch.
  { unfold charge_fuel. destruct (wi_fuel inst); simpl; [by rewrite Hf0|done]. }
  destruct (co_result o) as [[]|e]; simpl.
  - rewrite probe_cpu_limit by (done || lia).
    replace (co_end o - co_start o =? 0) with (co_start o =? co_end o)
      by (destruct (Z.eqb_spec (co_start o) (co_end o)), (Z.eqb_spec (co_end o - co_start o) 0); lia || done).
    destruct (co_start o =? co_end o); simpl; (split_and!; [done..|]);
      exists (record_call o (charge_fuel o inst)); by rewrite !insert_singleton_eq.
  - destruct (wi_fuel inst); [destruct (is_out_of_fuel e)|]; simpl; (split_and!; [done..|]);
      exists (charge_fuel o inst); by rewrite insert_singleton_eq.
Qed.

(** How a module starts under a configuration. *)
Definition starts_with (config : RuntimeConfig) (m : wt_module) (started : Z -> option Z) : Prop :=
  forall now, wt_instantiate m now (fuel_budget (wasm_config config)) = Ok (started now).

Lemma burn_once_ready v m started it t r :
  let config := probe_config v in
  starts_with config m started -> co_start (it_call it) <= co_end (it_call it) -> probe_ready config m r ->
  let (t', r') := burn_once it (t, r) in t' = tally_add started t it /\ probe_ready config m r'.
Proof.
  intros config Hm Ht (Hc & Hmod & Hi & Ha & Hx & Hu & Hl).
  destruct (probe_config_limits v) as (Hx5 & Hl100 & _). fold config in Hx5, Hl100.
  unfold burn_once, create_instance, check_instance_limit.
  rewrite Ha, Hx, Hx5. cbn [Z.geb Z.compare]. rewrite Hmod, Hc, Hm. cbn [default from_option].
  match goal with |- context [call_function ?o ?id ?r1] =>
    pose proof (probe_call v o id
      (mkWasmInstance id burn_module (it_now it) None 0 0 0 (started (it_now it))) r1) as Hcall end.
  cbv zeta in Hcall. rewrite Hl100 in Hl.
  specialize (Hcall Ht Hc). simpl in Hcall. rewrite Hi in Hcall. specialize (Hcall eq_refl).
  specialize (Hcall eq_refl Hu Hl). simpl. rewrite Hi.
  destruct (call_function _ _ _) as [res r'].
  destruct Hcall as (-> & Hc' & Hm' & Hx' & inst' & Hi' & Hf').
  unfold get_instance_info, remove_instance, tally_add. rewrite Hi', lookup_singleton_eq. simpl.
  rewrite Hf'. split; [by destruct (counted _)|].
  unfold probe_ready; simpl. rewrite Hc', Hm', Hx'. simpl. rewrite Ha. unfold saturating_sub. simpl.
  rewrite delete_singleton_eq. fold config. by rewrite Hl, Hl100.
Qed.

Definition clock_ok (it : iteration) : Prop := co_start (it_call it) <= co_end (it_call it).

Lemma load_loop_ready v m started its t r :
  let config := probe_config v in
  starts_with config m started -> Forall clock_ok its -> probe_ready config m r ->
  let s := foldl (fun s it => burn_once it s) (t, r) its in
  s.1 = foldl (tally_add started) t its /\ probe_ready config m s.2.
Proof.
  intros config Hm Hits. revert t r. induction Hits as [|it its Hit _ IH]; intros t r Hr; [done|].
  cbn [foldl]. pose proof (burn_once_ready v m started it t r Hm Hit Hr) as Hb.
  destruct (burn_once it (t, r)) as [t' r']. destruct Hb as [-> Hr']. by apply IH.
Qed.

Lemma load_module_stores id wasm r meta r' :
  load_module id wasm r = (Ok meta, r') ->
  (exists m, rt_modules r' !! id = Some m) /\ rt_config r' = rt_config r /\ rt_context r' = rt_context r /\
  rt_instances r' = rt_instances r.
Proof.
  unfold load_module. repeat case_match; try done. intros [= <- <-]. split; [|done].
  eexists. apply lookup_insert_eq.
Qed.

Lemma probe_start_ready v wasm r :
  probe_start v wasm = Ok r -> exists m, probe_ready (probe_config v) m r.
Proof.
  unfold probe_start. destruct (WasmRuntime_new (probe_config v)) as [r0|] eqn:E0; [|done]. simpl.
  destruct (load_module burn_module wasm r0) as [[meta|] r1] eqn:E1; [|done]. intros [= <-].
  apply load_module_stores in E1 as ([m Hm] & Hc & Hx & Hi). exists m.
  unfold WasmRuntime_new in E0. destruct (RuntimeConfig_validate (probe_config v)); [|done]. injection E0 as <-.
  unfold probe_ready. rewrite Hc, Hx, Hi. done.
Qed.

(** The probe runs for ever and reports what happened. Started with any
    fuel budget, whatever its calls do (return, trap, run out of fuel) and
    however long it runs, no iteration is refused for the limit of five
    instances: after every phase no instance is left and the counter is back
    at zero; and the report of each phase is the sum over its iterations,
    where a call counts when it returned within one second of the clock and
    everything else is an error, provided the module can be instantiated. *)
Theorem probe_sustained v wasm r started phases :
  probe_start v wasm = Ok r ->
  (forall m, rt_modules r !! burn_module = Some m -> starts_with (probe_config v) m started) ->
  Forall (Forall clock_ok) phases ->
  let (ts, r') := probe_phases phases r in
  ts = map (foldl (tally_add started) tally_zero) phases /\
  rt_instances r' = ∅ /\ active_instances (rt_context r') = 0.
Proof.
  intros Hstart Hinst Hp. destruct (probe_start_ready _ _ _ Hstart) as [m Hr].
  specialize (Hinst m ltac:(apply Hr)). clear Hstart. revert r Hr.
  induction Hp as [|its phases Hits _ IH]; intros r Hr; [by destruct Hr as (_ & _ & ? & ? & _)|].
  cbn [probe_phases]. unfold load_phase.
  pose proof (load_loop_ready v m started its tally_zero r Hinst Hits Hr) as [Ht Hr'].
  destruct (foldl _ (tally_zero, r) its) as [t r1]. simpl in Ht, Hr'. specialize (IH r1 Hr').
  destruct (probe_phases phases r1) as [ts r']. destruct IH as (-> & IH). by rewrite Ht.
Qed.
End Probe.

(** ** Witness *)

#[local] Instance one_function : WasmParser := fun _ => [Ok (PFunctionSection 1); Ok PEnd].
#[local] Instance trusting_engine : Wasmtime := {|
  wt_module := unit; wt_compile _ _ := Ok tt; wt_instantiate _ _ fuel := Ok fuel |}.
#[local] Instance no_digest : Sha256 := fun _ => [].

Definition probe_wasm : list byte := map byte_of [0x00; 0x61; 0x73; 0x6d; 1; 0; 0; 0].

(** A call that uses 1200 units of fuel, one that runs out, and one that
    crosses a second boundary, nine times over. *)
Definition probe_iterations : list iteration :=
  let call o := mkIteration 100 "u" o in
  concat (repeat [call (mkCallOutcome (Ok tt) 4998800 100 100);
                  call (mkCallOutcome (Err (AnyhowError true "all fuel consumed")) 0 100 100);
                  call (mkCallOutcome (Ok tt) 4998800 100 101)] 9).

Lemma probe_sustained_witness :
  exists r, probe_start None probe_wasm = Ok r /\
    (probe_phases [probe_iterations; probe_iterations] r).1 = repeat (mkTally 10800 9 18) 2.
Proof.
  destruct (probe_start None probe_wasm) as [r|] eqn:E; [|by vm_compute in E]. exists r. split; [done|].
  pose proof (probe_sustained None probe_wasm r (fun _ => Some 5000000) [probe_iterations; probe_iterations] E) as Hs.
  destruct (probe_phases _ r) as [ts r']. destruct Hs as [-> _]; [done| |by vm_compute].
  repeat constructor; unfold clock_ok; simpl; lia.
Defined.
