(* ===== verification/Decimal.v ===== *)
(** * Decimal text of unsigned integers

    [to_string] of an unsigned integer ([pretty]) is ASCII digits, hence
    valid UTF-8, and [str::parse] reads it back. *)

From stdpp Require Import pretty.
From S2P Require Import Prelude.
From S2P Require Import RustStd.
From Stdlib Require Import Strings.String Strings.Ascii.
Local Open Scope Z_scope.

Definition is_digit (c : ascii) : bool := match digit_value c with Some _ => true | None => false end.

Fixpoint all_digits (s : string) : bool :=
  match s with EmptyString => true | String c s => is_digit c && all_digits s end.

(** The ten digits of [pretty] are the digits [parse] knows. *)
Lemma digit_value_char (n : N) : (n < 10)%N -> digit_value (pretty_N_char n) = Some (Z.of_N n).
Proof.
  intros Hn. destruct n as [|p]; [done|].
  do 4 (destruct p as [p|p|]; try (exfalso; lia); try reflexivity).
Qed.

Lemma pretty_go_digits x s : all_digits s = true -> all_digits (pretty_N_go x s) = true.
Proof.
  revert s. induction (N.lt_wf_0 x) as [x _ IH]; intros s Hs.
  destruct (decide (x = 0)%N) as [->|Hx]; [by rewrite pretty_N_go_0|].
  rewrite pretty_N_go_step by lia. apply IH.
  - apply N.div_lt; lia.
  - simpl. unfold is_digit. rewrite digit_value_char by (apply N.mod_lt; lia). done.
Qed.

Lemma parse_pretty_go max x s :
  Z.of_N x <= max -> parse_digits max 0 (pretty_N_go x s) = parse_digits max (Z.of_N x) s.
Proof.
  revert s. induction (N.lt_wf_0 x) as [x _ IH]; intros s Hs.
  destruct (decide (x = 0)%N) as [->|Hx]; [by rewrite pretty_N_go_0|].
  rewrite pretty_N_go_step by lia.
  assert (x / 10 < x)%N by (apply N.div_lt; lia).
  rewrite IH by lia. cbn [parse_digits]. rewrite digit_value_char by (apply N.mod_lt; lia).
  replace (10 * Z.of_N (x / 10) + Z.of_N (x mod 10)) with (Z.of_N x)
    by (pose proof (N.div_mod x 10 ltac:(lia)); lia).
  rewrite Z.gtb_ltb. destruct (Z.ltb_spec max (Z.of_N x)); [lia|done].
Qed.

Lemma pretty_nonneg z : 0 <= z -> pretty z = pretty (Z.to_N z).
Proof. by destruct z as [|p|p]. Qed.

Lemma pretty_N_digits (n : N) : all_digits (pretty n) = true /\ pretty n <> EmptyString.
Proof.
  unfold pretty, pretty_N. destruct (decide (n = 0)%N); [done|]. split; [by apply pretty_go_digits|].
  intros E. pose proof (parse_pretty_go (Z.of_N n) n EmptyString ltac:(lia)) as H.
  rewrite E in H. cbn in H. injection H as H. lia.
Qed.

(** A string that starts with a digit has no sign to skip. *)
Lemma parse_uint_digits max s :
  all_digits s = true -> s <> EmptyString -> parse_uint max s = parse_digits max 0 s.
Proof.
  destruct s as [|c s]; [done|]. simpl. intros [Hc _]%andb_true_iff _.
  unfold parse_uint. destruct c as [[] [] [] [] [] [] [] []]; try discriminate Hc; reflexivity.
Qed.

(** [s.parse()] of [z.to_string()] is [z]. *)
Lemma parse_pretty max z : 0 <= z <= max -> parse_uint max (pretty z) = Some z.
Proof.
  intros Hz. rewrite pretty_nonneg by lia. destruct (pretty_N_digits (Z.to_N z)) as [Hd Hne].
  rewrite parse_uint_digits by done. unfold pretty, pretty_N.
  destruct (decide (Z.to_N z = 0)%N) as [E|].
  - replace z with 0 by lia. cbn. destruct max; [done|done|lia].
  - rewrite parse_pretty_go by lia. cbn. f_equal. lia.
Qed.

Lemma ascii_utf8 s : all_digits s = true -> utf8_valid (str_bytes s) = true.
Proof.
  unfold str_bytes. induction s as [|c s IH]; [done|]. intros [Hc Hs]%andb_true_iff.
  change (String.list_byte_of_string (String c s)) with (byte_of_ascii c :: String.list_byte_of_string s).
  cbn [utf8_valid]. replace (byte_val (byte_of_ascii c) <? 0x80) with true; [by apply IH|].
  destruct c as [[] [] [] [] [] [] [] []]; try discriminate Hc; reflexivity.
Qed.

Lemma pretty_utf8 z : 0 <= z -> utf8_valid (str_bytes (pretty z)) = true.
Proof. intros Hz. rewrite pretty_nonneg by done. apply ascii_utf8, pretty_N_digits. Qed.
