(* ===== verification/RuntimeHost.v ===== *)
(** * Host functions and execution context of the WASM runtime
    ([context.rs], [host_functions/mod.rs], [host_functions/hello_world.rs]
    and the engine set-up and linking of [runtime.rs])

    What a guest module can make the host do: the two imported functions
    [print_message] and [get_timestamp] with the memory accesses they make,
    the imports handed to a module, and the state created with a context.
    wasmtime's linear memory and linking are parameters with their documented
    laws. A line written to standard error is a [diagnostic]. *)

From stdpp Require Import pretty.
From S2P Require Import Prelude.
From S2P Require Import RustStd.
From S2P Require Import Externals.
From S2P Require Import WasmRuntime.
Local Open Scope Z_scope.

(** ** The execution context ([context.rs]) *)

Inductive GpioMode := Input | Output | Alternate | Analog.
Inductive GpioPull := PullNone | PullUp | PullDown.
Record GpioPinState := mkGpioPinState { pin : Z; gpio_mode : GpioMode; gpio_value : bool; pull : GpioPull }.

Record I2cDevice := mkI2cDevice { i2c_address : Z; i2c_bus : Z; i2c_speed : Z; i2c_connected : bool }.

Inductive SpiMode := Mode0 | Mode1 | Mode2 | Mode3.
Record SpiDevice := mkSpiDevice {
  cs_pin : Z; spi_bus : Z; spi_speed : Z; spi_mode : SpiMode; spi_connected : bool }.

Inductive SensorType :=
| Accelerometer | Gyroscope | Magnetometer | Barometer | Temperature | Humidity | Pressure | Light
| Proximity | Camera | Gps | Lidar | Ultrasonic | Infrared.
Inductive SensorQuality := Excellent | Good | Fair | Poor | UnknownQuality.

(** [value] is the 64 bits of an [f64]. *)
Record SensorReading := mkSensorReading {
  sensor_id : string; sensor_type : SensorType; sensor_value : Z; sensor_unit : string;
  sensor_timestamp : Z; quality : SensorQuality }.

Inductive NetworkProtocol := Tcp | Udp | WebSocket | Mqtt | Coap.
Record NetworkConnection := mkNetworkConnection {
  connection_id : string; protocol : NetworkProtocol; remote_address : string;
  local_port : Z; remote_port : Z; connected : bool; bytes_sent : Z; bytes_received : Z }.

Record FileEntry := mkFileEntry {
  file_path : string; file_size : Z; file_created : Z; file_modified : Z; file_permissions : Z;
  content : list byte }.
Record DirectoryEntry := mkDirectoryEntry {
  dir_path : string; dir_created : Z; dir_modified : Z; dir_permissions : Z; entries : list string }.
Record FilesystemState := mkFilesystemState {
  files : gmap string FileEntry; directories : gmap string DirectoryEntry;
  total_space : Z; used_space : Z }.

Record DeviceState := mkDeviceState {
  gpio_pins : gmap Z GpioPinState;
  i2c_devices : gmap Z I2cDevice;
  spi_devices : gmap Z SpiDevice;
  sensor_readings : gmap string SensorReading;
  network_connections : gmap string NetworkConnection;
  filesystem_state : FilesystemState }.

Inductive EncryptionAlgorithm := Aes128Gcm | Aes256Gcm | ChaCha20Poly1305.
Record SessionKey := mkSessionKey {
  key_id : string; key : list byte; key_created : Z; expires : option Z; algorithm : EncryptionAlgorithm }.

Record SecurityContext := mkSecurityContext {
  encryption_keys : gmap string (list byte);
  mac_keys : gmap string (list byte);
  session_keys : gmap string SessionKey;
  certificates : gmap string (list byte);
  nonce_counters : gmap string Z }.

(** [Box<dyn Fn(&[u8]) -> WasmResult<Vec<u8>>>] *)
Definition HostFunction : Type := list byte -> WasmResult (list byte).

Record HostFunctionRegistry := mkHostFunctionRegistry {
  device_functions : gmap string HostFunction;
  sensor_functions : gmap string HostFunction;
  security_functions : gmap string HostFunction;
  gpio_functions : gmap string HostFunction;
  i2c_spi_functions : gmap string HostFunction }.

Definition HostFunctionRegistry_new (_ : HostFunctionConfig) : HostFunctionRegistry :=
  mkHostFunctionRegistry ∅ ∅ ∅ ∅ ∅.
Definition FilesystemState_new : FilesystemState := mkFilesystemState ∅ ∅ (1024 * 1024 * 1024) 0.
Definition DeviceState_new : DeviceState := mkDeviceState ∅ ∅ ∅ ∅ ∅ FilesystemState_new.
Definition SecurityContext_new : SecurityContext := mkSecurityContext ∅ ∅ ∅ ∅ ∅.

(** [WasmContext] with all its fields; [limits] are those of [WasmRuntime]. *)
Record FullContext := mkFullContext {
  ctx_architecture : DeviceArchitecture;
  ctx_device_id : string;
  limits : WasmContext;
  session_start : Z;
  host_functions : HostFunctionRegistry;
  device_state : DeviceState;
  security_context : SecurityContext }.

Definition FullContext_new (arch : DeviceArchitecture) (id : string) (w : WasmRuntimeConfig)
    (h : HostFunctionConfig) (now : Z) : FullContext :=
  mkFullContext arch id (WasmContext_new w) now (HostFunctionRegistry_new h) DeviceState_new SecurityContext_new.

(** [session_duration]: [Instant::elapsed] saturates at zero. *)
Definition session_duration (now : Z) (x : FullContext) : Z := saturating_sub now (session_start x).

(** ** Guest memory *)

(** wasmtime's [Memory]: its bytes, [read] and [write]. *)
Class LinearMemory := {
  memory : Type;
  mem_bytes : memory -> list byte;
  mem_read : memory -> Z -> Z -> option (list byte);
  mem_write : memory -> Z -> list byte -> option memory;
}.

(** As documented: an access that does not fit fails and changes nothing. *)
Class LinearMemoryLaws `{LM : LinearMemory} := {
  mem_read_spec m off len : 0 <= off -> 0 <= len ->
    mem_read m off len =
      if off + len <=? zlen (mem_bytes m)
      then Some (take (Z.to_nat len) (drop (Z.to_nat off) (mem_bytes m))) else None;
  mem_write_fits m off data : 0 <= off -> off + zlen data <= zlen (mem_bytes m) ->
    exists m', mem_write m off data = Some m' /\
      mem_bytes m' = take (Z.to_nat off) (mem_bytes m) ++ data ++
                       drop (Z.to_nat off + length data) (mem_bytes m);
  mem_write_out m off data : 0 <= off -> zlen (mem_bytes m) < off + zlen data ->
    mem_write m off data = None;
}.

(** A memory that is its bytes. *)
#[export] Instance byte_memory : LinearMemory := {|
  memory := list byte;
  mem_bytes m := m;
  mem_read m off len :=
    if off + len <=? zlen m then Some (take (Z.to_nat len) (drop (Z.to_nat off) m)) else None;
  mem_write m off data :=
    if off + zlen data <=? zlen m
    then Some (take (Z.to_nat off) m ++ data ++ drop (Z.to_nat off + length data) m) else None;
|}.

Lemma byte_memory_laws : @LinearMemoryLaws byte_memory.
Proof.
  split; simpl; intros m off; [done| |].
  - intros data _ H. destruct (Z.leb_spec (off + zlen data) (zlen m)); [eauto|lia].
  - intros data _ H. destruct (Z.leb_spec (off + zlen data) (zlen m)); [lia|done].
Qed.

(** Whether the allocator can serve a request. *)
Class Allocator := can_allocate : Z -> bool.

(** [wasmtime::Val]; the other kinds are not told apart. *)
Inductive val := I32 (z : Z) | I64 (z : Z) | F32 (bits : Z) | F64 (bits : Z) | OtherVal.

Definition is_i32 (z : Z) : Prop := - 2 ^ 31 <= z < 2 ^ 31.

(** [x as usize] of an [i32]: sign extension. *)
Definition as_usize (z : Z) : Z := z mod 2 ^ 64.
Definition isize_max : Z := 2 ^ 63 - 1.

Section Host.
Context `{LM : LinearMemory} `{A : Allocator}.

(** What [caller.get_export("memory")] finds. *)
Inductive export := NoExport | OtherExport | MemoryExport (m : memory).

Inductive diagnostic :=
| WrongArgumentCount | FirstNotI32 | SecondNotI32 | MemoryNotFound | ReadOutOfBounds | WriteOutOfBounds
| InvalidUtf8 | HostFunctionFailed (e : WasmRuntimeError).

(** The process as a host function sees it. *)
Record caller := mkCaller { exported : export; stdout : list string; stderr : list diagnostic }.

(** A call returns, panics, or the process is aborted by the allocator. *)
Inductive outcome (R : Type) := Returns (r : R) | HostPanic (why : string) | OutOfMemory.
Arguments Returns {R} _.
Arguments HostPanic {R} _.
Arguments OutOfMemory {R}.

Definition warn (d : diagnostic) (c : caller) : caller := mkCaller (exported c) (stdout c) (stderr c ++ [d]).
Definition say (s : string) (c : caller) : caller := mkCaller (exported c) (stdout c ++ [s]) (stderr c).
Definition set_memory (m : memory) (c : caller) : caller := mkCaller (MemoryExport m) (stdout c) (stderr c).

(** [vec![0u8; len]] and then [k] *)
Definition vec_zeroed {R} (len : Z) (k : outcome R) : outcome R :=
  if len >? isize_max then HostPanic "capacity overflow"
  else if can_allocate len then k else OutOfMemory.

(** The closure of [print_message] in [create_imports]: it always returns
    [Ok(())] to the guest. *)
Definition print_message_import (args : list val) (c : caller) : outcome caller :=
  match args with
  | [a0; a1] =>
      match a0 with
      | I32 p =>
          match a1 with
          | I32 l =>
              match exported c with
              | NoExport => Returns (warn MemoryNotFound c)
              | OtherExport => HostPanic "called Option::unwrap() on a None value"
              | MemoryExport m =>
                  vec_zeroed (as_usize l)
                    match mem_read m (as_usize p) (as_usize l) with
                    | None => Returns (warn ReadOutOfBounds c)
                    | Some data =>
                        if utf8_valid data then Returns (say ("Hello from WASM: " ++ bytes_str data) c)
                        else Returns (warn InvalidUtf8 c)
                    end
              end
          | _ => Returns (warn SecondNotI32 c)
          end
      | _ => Returns (warn FirstNotI32 c)
      end
  | _ => Returns (warn WrongArgumentCount c)
  end.

(** The closure of [get_timestamp]; [now] is the Unix time in seconds,
    negative for a clock before the epoch. *)
Definition get_timestamp_import (now : Z) (args : list val) (c : caller) : outcome caller :=
  match args with
  | [I32 a] =>
      if now <? 0 then HostPanic "called Result::unwrap() on an Err value"
      else
        match exported c with
        | NoExport => Returns (warn MemoryNotFound c)
        | OtherExport => HostPanic "called Option::unwrap() on a None value"
        | MemoryExport m =>
            match mem_write m (as_usize a) (str_bytes (pretty now)) with
            | None => Returns (warn WriteOutOfBounds c)
            | Some m => Returns (set_memory m c)
            end
        end
  | [_] => Returns (warn FirstNotI32 c)
  | _ => Returns (warn WrongArgumentCount c)
  end.

Definition host_error {R} (m : string) : WasmResult R := Err (HostFunctionError m).

(** [caller.get_export("memory").ok_or_else(..)?.into_memory().ok_or_else(..)?] *)
Definition exported_memory (c : caller) : WasmResult memory :=
  match exported c with
  | NoExport => host_error "Memory not found"
  | OtherExport => host_error "Export is not memory"
  | MemoryExport m => Ok m
  end.

(** The text of wasmtime's error is not modelled. *)
Definition extract_string_from_memory (ptr len : Z) (c : caller) : outcome (WasmResult string) :=
  match exported_memory c with
  | Err e => Returns (Err e)
  | Ok m =>
      vec_zeroed (as_usize len)
        match mem_read m (as_usize ptr) (as_usize len) with
        | None => Returns (host_error "Failed to read memory")
        | Some data => if utf8_valid data then Returns (Ok (bytes_str data)) else Returns (host_error "Invalid UTF-8")
        end
  end.

Definition write_string_to_memory (ptr : Z) (data : list byte) (c : caller) : WasmResult caller :=
  let? m := exported_memory c in
  match mem_write m (as_usize ptr) data with
  | None => host_error "Failed to write memory"
  | Some m => Ok (set_memory m c)
  end.

(** The methods of [HelloWorldHostFunctions], which report errors as values. *)
Definition print_message (args : list val) (c : caller) : outcome (WasmResult caller) :=
  match args with
  | a0 :: a1 :: _ =>
      match a0, a1 with
      | I32 p, I32 l =>
          match extract_string_from_memory p l c with
          | Returns (Ok message) => Returns (Ok (say ("Hello from WASM: " ++ message) c))
          | Returns (Err e) => Returns (Err e)
          | HostPanic why => HostPanic why
          | OutOfMemory => OutOfMemory
          end
      | I32 _, _ => Returns (Err (ExecutionError "len must be i32"))
      | _, _ => Returns (Err (ExecutionError "ptr must be i32"))
      end
  | _ => Returns (Err (ExecutionError "print_message requires 2 parameters (ptr, len)"))
  end.

Definition get_timestamp (now : Z) (args : list val) (c : caller) : outcome (WasmResult caller) :=
  match args with
  | I32 a :: _ =>
      if now <? 0 then HostPanic "called Result::unwrap() on an Err value"
      else Returns (write_string_to_memory a (str_bytes (pretty now)) c)
  | _ :: _ => Returns (Err (ExecutionError "memory address must be i32"))
  | [] => Returns (Err (ExecutionError "get_timestamp requires 1 parameter (memory address)"))
  end.

(** [create_wasm_function_void]: an error of the function is logged, the
    guest goes on. *)
Definition wasm_function_void (f : list val -> caller -> outcome (WasmResult caller)) (args : list val) (c : caller) :
    outcome caller :=
  match f args c with
  | Returns (Ok c) => Returns c
  | Returns (Err e) => Returns (warn (HostFunctionFailed e) c)
  | HostPanic why => HostPanic why
  | OutOfMemory => OutOfMemory
  end.
End Host.
Arguments Returns {R} _.
Arguments HostPanic {R} _.
Arguments OutOfMemory {R}.

(** ** Linking *)

Inductive ValType := TyI32 | TyI64 | TyF32 | TyF64 | TyOther.
Inductive host_function := PrintMessage | GetTimestamp.

(** A host function as an import: its parameter and result types. *)
Record extern := mkExtern { ex_params : list ValType; ex_results : list ValType; ex_function : host_function }.

Definition hello_world_imports : list extern :=
  [mkExtern [TyI32; TyI32] [] PrintMessage; mkExtern [TyI32] [] GetTimestamp].

(** [HostFunctionManager]: the context it delegates to, and whether the
    hello world functions are there. *)
Record HostFunctionManager := mkHostFunctionManager {
  hfm_context : FullContext;
  hello_world_functions : option (list extern) }.

(** The configuration is not read. *)
Definition HostFunctionManager_new (_ : HostFunctionConfig) (x : FullContext) : WasmResult HostFunctionManager :=
  Ok (mkHostFunctionManager x (Some hello_world_imports)).

Definition create_imports (h : HostFunctionManager) : WasmResult (list extern) :=
  Ok (match hello_world_functions h with Some fs => fs | None => [] end).

(** The kind of an import a module declares: a function type, or not a
    function. *)
Definition import_type : Type := option (list ValType * list ValType).
Definition extern_type (e : extern) : import_type := Some (ex_params e, ex_results e).

(** wasmtime below [runtime.rs]: compiling, the imports a module declares,
    [Instance::new], which runs the start function at a time, on the fuel of
    the store. *)
Class Linking := {
  lk_module : Type;
  lk_compile : WasmRuntimeConfig -> list byte -> WasmResult lk_module;
  lk_imports : lk_module -> list import_type;
  instance_new : lk_module -> list extern -> Z -> option Z -> WasmResult (option Z);
}.

(** As documented: the imports given must be as many as the module declares,
    in the same order and of the declared types. *)
Class LinkingLaws `{LK : Linking} :=
  instance_new_matches m es now fuel left : instance_new m es now fuel = Ok left -> map extern_type es = lk_imports m.

(** The instantiation part of [create_instance]. *)
Definition instantiate `{LK : Linking} (h : HostFunctionManager) (m : lk_module) (now : Z) (fuel : option Z) :
    WasmResult (option Z) :=
  let? imports := (if zlen (lk_imports m) >? 0 then create_imports h else Ok []) in
  instance_new m imports now fuel.

(** The runtime over this: [Wasmtime] as [WasmRuntime] takes it. *)
Definition linked_wasmtime `{LK : Linking} (h : HostFunctionManager) : Wasmtime := {|
  wt_module := lk_module;
  wt_compile := lk_compile;
  wt_instantiate := instantiate h;
|}.

(** ** The engine's options ([configure_engine]) *)

(** The calls on wasmtime's [Config], in order. *)
Inductive setting :=
| wasm_component_model (b : bool) | wasm_multi_memory (b : bool) | wasm_memory64 (b : bool)
| consume_fuel (b : bool) | max_wasm_stack (n : Z) | wasm_simd (b : bool) | wasm_bulk_memory (b : bool)
| wasm_reference_types (b : bool) | wasm_tail_call (b : bool) | wasm_function_references (b : bool)
| debug_info (b : bool) | strategy_cranelift.

Definition when (b : bool) (s : setting) : list setting := if b then [s] else [].

Definition configure_engine (c : WasmRuntimeConfig) : list setting :=
  [wasm_component_model true; wasm_multi_memory true; wasm_memory64 false;
   consume_fuel (match fuel_budget c with Some _ => true | None => false end);
   max_wasm_stack (max_stack_size c)]
  ++ when (enable_simd c) (wasm_simd true)
  ++ when (enable_bulk_memory c) (wasm_bulk_memory true)
  ++ when (enable_reference_types c) (wasm_reference_types true)
  ++ when (enable_tail_calls c) (wasm_tail_call true)
  ++ when (enable_function_references c) (wasm_function_references true)
  ++ when (enable_debug c) (debug_info true)
  ++ [strategy_cranelift].

(** The value an option ends with: the last call that sets it, or wasmtime's
    own default. *)
Definition effective (get : setting -> option bool) (default : bool) (l : list setting) : bool :=
  foldl (fun b s => match get s with Some b => b | None => b end) default l.

Definition get_simd (s : setting) : option bool := match s with wasm_simd b => Some b | _ => None end.
Definition get_consume_fuel (s : setting) : option bool := match s with consume_fuel b => Some b | _ => None end.
