(* ===== verification/RuntimeHostProofs.v ===== *)
(** * What a guest module can make the host do: theorems about [RuntimeHost] *)

From stdpp Require Import pretty.
From S2P Require Import Prelude.
From S2P Require Import RustStd.
From S2P Require Import Externals.
From S2P Require Import WasmRuntime.
From S2P Require Import Decimal.
From S2P Require Import RuntimeHost.
Local Open Scope Z_scope.

(** ** Sign extension *)

Lemma as_usize_nonneg z : 0 <= z < 2 ^ 31 -> as_usize z = z.
Proof. intros. unfold as_usize. apply Z.mod_small. lia. Qed.

Lemma as_usize_neg z : - 2 ^ 31 <= z < 0 -> as_usize z = 2 ^ 64 + z.
Proof.
  intros. unfold as_usize. replace z with (2 ^ 64 + z + (-1) * 2 ^ 64) at 1 by lia.
  rewrite Z_mod_plus_full. apply Z.mod_small. lia.
Qed.

Section Host.
Context `{LM : LinearMemory} {LL : LinearMemoryLaws} `{A : Allocator}.

(** The memory of a 32-bit guest. *)
Definition guest_memory (m : memory) : Prop := zlen (mem_bytes m) <= 2 ^ 32.

Definition slice (p l : Z) (m : memory) : list byte := take (Z.to_nat l) (drop (Z.to_nat p) (mem_bytes m)).
Definition in_bounds (p l : Z) (m : memory) : bool := (0 <=? p) && (p + l <=? zlen (mem_bytes m)).

(** A read with guest pointers: the sign extension sends a negative pointer
    out of bounds. *)
Lemma guest_read m p l :
  guest_memory m -> is_i32 p -> 0 <= l < 2 ^ 31 ->
  mem_read m (as_usize p) (as_usize l) = if in_bounds p l m then Some (slice p l m) else None.
Proof.
  intros Hm Hp Hl. unfold is_i32, in_bounds, slice, guest_memory in *.
  rewrite (as_usize_nonneg l) by lia. destruct (Z.leb_spec 0 p); simpl.
  - rewrite as_usize_nonneg, mem_read_spec by lia. done.
  - rewrite as_usize_neg, mem_read_spec by lia.
    destruct (Z.leb_spec (2 ^ 64 + p + l) (zlen (mem_bytes m))); [lia|done].
Qed.

(** The same for a write, with what it leaves behind. *)
Definition overwritten (p : Z) (data : list byte) (m m' : memory) : Prop :=
  mem_bytes m' = take (Z.to_nat p) (mem_bytes m) ++ data ++ drop (Z.to_nat p + length data) (mem_bytes m).

Lemma guest_write m p data :
  guest_memory m -> is_i32 p -> zlen data < 2 ^ 32 ->
  if in_bounds p (zlen data) m
  then exists m', mem_write m (as_usize p) data = Some m' /\ overwritten p data m m'
  else mem_write m (as_usize p) data = None.
Proof.
  intros Hm Hp Hl. unfold is_i32, in_bounds, guest_memory in *. pose proof (zlen_nonneg data).
  destruct (Z.leb_spec 0 p); simpl.
  - rewrite as_usize_nonneg by lia. destruct (Z.leb_spec (p + zlen data) (zlen (mem_bytes m))).
    + by apply mem_write_fits.
    + by apply mem_write_out.
  - rewrite as_usize_neg by lia. apply mem_write_out; lia.
Qed.

Lemma in_bounds_spec p l m : in_bounds p l m = true <-> 0 <= p /\ p + l <= zlen (mem_bytes m).
Proof. unfold in_bounds. rewrite andb_true_iff, !Z.leb_le. done. Qed.

Lemma overwritten_size p data m m' :
  overwritten p data m m' -> in_bounds p (zlen data) m = true -> zlen (mem_bytes m') = zlen (mem_bytes m).
Proof.
  intros -> [Hp Hb]%in_bounds_spec. unfold zlen in *.
  rewrite !length_app, length_take, length_drop. lia.
Qed.

Lemma overwritten_slice p data m m' :
  overwritten p data m m' -> in_bounds p (zlen data) m = true -> slice p (zlen data) m' = data.
Proof.
  intros E [Hp Hb]%in_bounds_spec. unfold slice. rewrite E. unfold zlen in *.
  rewrite drop_app_length' by (rewrite length_take; lia).
  rewrite take_app_length' by lia. done.
Qed.

Lemma overwritten_outside p data m m' i :
  overwritten p data m m' -> in_bounds p (zlen data) m = true ->
  (Z.of_nat i < p \/ p + zlen data <= Z.of_nat i) -> mem_bytes m' !! i = mem_bytes m !! i.
Proof.
  intros E [Hp Hb]%in_bounds_spec Hi. rewrite E. unfold zlen in *.
  assert (length (take (Z.to_nat p) (mem_bytes m)) = Z.to_nat p) as Ht by (rewrite length_take; lia).
  destruct (decide (i < Z.to_nat p)%nat) as [|Hge].
  - rewrite lookup_app_l by lia. by rewrite lookup_take_lt.
  - rewrite lookup_app_r, lookup_app_r by lia. rewrite lookup_drop, Ht. f_equal. lia.
Qed.

(** Text that was written is read back from where it was written. *)
Lemma read_back p text m m' c :
  guest_memory m -> is_i32 p -> overwritten p (str_bytes text) m m' ->
  in_bounds p (zlen (str_bytes text)) m = true -> utf8_valid (str_bytes text) = true ->
  zlen (str_bytes text) < 2 ^ 31 -> can_allocate (zlen (str_bytes text)) = true -> exported c = MemoryExport m' ->
  extract_string_from_memory p (zlen (str_bytes text)) c = Returns (Ok text).
Proof.
  intros Hm Hp Ho Hb Hu Hn Hal Hc. unfold extract_string_from_memory, exported_memory, vec_zeroed. rewrite Hc.
  pose proof (zlen_nonneg (str_bytes text)). pose proof (overwritten_size _ _ _ _ Ho Hb) as Hsize.
  assert (in_bounds p (zlen (str_bytes text)) m' = true) as Hb' by (unfold in_bounds in *; by rewrite Hsize).
  rewrite guest_read, Hb' by (unfold guest_memory in *; rewrite ?Hsize; done || lia).
  rewrite as_usize_nonneg, Hal, Z.gtb_ltb by lia.
  destruct (Z.ltb_spec isize_max (zlen (str_bytes text))); [unfold isize_max in *; lia|].
  by rewrite (overwritten_slice _ _ _ _ Ho Hb), Hu, bytes_str_bytes.
Qed.

(** ** [print_message] *)

(** What [print_message] does, completely, for a guest that passes two
    [i32] to it: a negative length panics the host; a range that is not
    inside the memory, or starts at a negative pointer, or is not UTF-8, is
    reported and ignored; otherwise exactly the bytes of the range are
    printed. The guest's memory never changes and no error reaches it. *)
Theorem print_message_exact p l m c :
  is_i32 p -> is_i32 l -> exported c = MemoryExport m -> guest_memory m ->
  (0 <= l -> can_allocate l = true) ->
  print_message_import [I32 p; I32 l] c =
    if l <? 0 then HostPanic "capacity overflow"
    else if in_bounds p l m then
      if utf8_valid (slice p l m)
      then Returns (mkCaller (MemoryExport m) (stdout c ++ ["Hello from WASM: " ++ bytes_str (slice p l m)]%string)
                      (stderr c))
      else Returns (mkCaller (MemoryExport m) (stdout c) (stderr c ++ [InvalidUtf8]))
    else Returns (mkCaller (MemoryExport m) (stdout c) (stderr c ++ [ReadOutOfBounds])).
Proof.
  intros Hp Hl Hc Hm Ha. unfold print_message_import, vec_zeroed, say, warn. rewrite Hc.
  unfold is_i32 in Hl. destruct (Z.ltb_spec l 0).
  - rewrite as_usize_neg, Z.gtb_ltb by lia. unfold isize_max.
    destruct (Z.ltb_spec (2 ^ 63 - 1) (2 ^ 64 + l)); [done|lia].
  - rewrite guest_read by (done || lia). rewrite as_usize_nonneg, Ha, Z.gtb_ltb by lia. unfold isize_max.
    destruct (Z.ltb_spec (2 ^ 63 - 1) l); [lia|]. by destruct (in_bounds p l m).
Qed.

(** ** [get_timestamp] *)

(** A timestamp the guest asks for arrives. When the text of the time
    fits at the address, the call writes exactly that range (every other byte
    and the size of the memory stay), nothing is printed or reported, and the
    bytes read back at the address as a string are the time in decimal;
    when it does not fit, or the address is negative, the memory is
    untouched. *)
Theorem timestamp_roundtrip now a m c :
  is_i32 a -> 0 <= now -> exported c = MemoryExport m -> guest_memory m ->
  let text := pretty now in
  let n := zlen (str_bytes text) in
  n < 2 ^ 31 -> can_allocate n = true ->
  if in_bounds a n m then
    exists m', get_timestamp_import now [I32 a] c = Returns (mkCaller (MemoryExport m') (stdout c) (stderr c)) /\
      zlen (mem_bytes m') = zlen (mem_bytes m) /\
      (forall i, Z.of_nat i < a \/ a + n <= Z.of_nat i -> mem_bytes m' !! i = mem_bytes m !! i) /\
      forall c', exported c' = MemoryExport m' -> extract_string_from_memory a n c' = Returns (Ok text)
  else get_timestamp_import now [I32 a] c =
         Returns (mkCaller (MemoryExport m) (stdout c) (stderr c ++ [WriteOutOfBounds])).
Proof.
  intros Ha Hnow Hc Hm text n Hn Hal. unfold get_timestamp_import. rewrite Hc.
  destruct (Z.ltb_spec now 0); [lia|]. fold text.
  pose proof (guest_write m a (str_bytes text) Hm Ha ltac:(fold n; lia)) as Hw. fold n in Hw.
  destruct (in_bounds a n m) eqn:Hb.
  - destruct Hw as (m' & -> & Ho). exists m'. split; [done|].
    pose proof (overwritten_size _ _ _ _ Ho Hb) as Hsize. split; [done|].
    split; [intros i; by apply overwritten_outside|].
    intros c' Hc'. apply (read_back _ _ m _ _ Hm Ha Ho Hb); auto. by apply pretty_utf8.
  - rewrite Hw. unfold warn. by rewrite Hc.
Qed.

(** A string the host writes is the string it reads back. *)
Theorem string_roundtrip ptr s m c c' :
  is_i32 ptr -> string_ok s -> exported c = MemoryExport m -> guest_memory m ->
  zlen (str_bytes s) < 2 ^ 31 -> can_allocate (zlen (str_bytes s)) = true ->
  write_string_to_memory ptr (str_bytes s) c = Ok c' ->
  extract_string_from_memory ptr (zlen (str_bytes s)) c' = Returns (Ok s).
Proof.
  intros Hp [Hu _] Hc Hm Hn Hal. unfold write_string_to_memory, exported_memory. rewrite Hc. simpl.
  pose proof (guest_write m ptr (str_bytes s) Hm Hp ltac:(lia)) as Hw.
  destruct (in_bounds ptr (zlen (str_bytes s)) m) eqn:Hb; [|by rewrite Hw].
  destruct Hw as (m' & -> & Ho). intros [= <-].
  by apply (read_back _ _ m _ _ Hm Hp Ho Hb).
Qed.
End Host.

(** ** Linking *)

Section Linking.
Context `{LK : Linking} {LL : LinkingLaws}.

Lemma instantiate_matches h m now fuel left :
  hello_world_functions h = Some hello_world_imports -> instantiate h m now fuel = Ok left ->
  lk_imports m = [] \/ lk_imports m = map extern_type hello_world_imports.
Proof.
  intros Hh. unfold instantiate, create_imports. rewrite Hh. intros Hi. inv_rbind.
  apply instance_new_matches in Hk. rewrite Z.gtb_ltb in Ha.
  destruct (Z.ltb_spec 0 (zlen (lk_imports m))); injection Ha as <-; auto.
Qed.

(** Which modules can be instantiated. When [create_instance] succeeds
    the module declares no import at all, or exactly two function imports
    whose types are those of [print_message] and [get_timestamp], in this
    order: one import too few or too many, another order or another type is
    refused, whatever the host function configuration of the device says. *)
Theorem instance_imports_fixed hconf x h now uuid mid iid r id r' :
  HostFunctionManager_new hconf x = Ok h ->
  @create_instance (linked_wasmtime h) now uuid mid iid r = (Ok id, r') ->
  exists m, @rt_modules (linked_wasmtime h) r !! mid = Some m /\
    (lk_imports m = [] \/
     lk_imports m = [Some ([TyI32; TyI32], []); Some ([TyI32], [])]).
Proof.
  intros [= <-]. unfold create_instance.
  destruct (check_instance_limit _) as [|]; [|done].
  destruct (rt_modules r !! mid) as [m|] eqn:Hm; [|done].
  destruct (wt_instantiate m _ _) as [left|] eqn:Hi; [|done]. intros _. exists m. split; [done|].
  by apply (instantiate_matches (mkHostFunctionManager x (Some hello_world_imports)) m now
    (fuel_budget (wasm_config (rt_config r))) left).
Qed.
End Linking.

(** The engine options are only ever switched on: with wasmtime's default
    for SIMD, a profile that disables it has the default. *)
Theorem simd_never_disabled c default :
  effective get_simd default (configure_engine c) = default || enable_simd c.
Proof.
  unfold configure_engine, effective.
  destruct (enable_simd c), (enable_bulk_memory c), (enable_reference_types c), (enable_tail_calls c),
    (enable_function_references c), (enable_debug c), default; reflexivity.
Qed.

(** Fuel is metered exactly when the profile has a budget. *)
Theorem fuel_metered_iff_budget c default :
  effective get_consume_fuel default (configure_engine c) = bool_decide (fuel_budget c <> None).
Proof.
  unfold configure_engine, effective.
  destruct (enable_simd c), (enable_bulk_memory c), (enable_reference_types c), (enable_tail_calls c),
    (enable_function_references c), (enable_debug c), (fuel_budget c); reflexivity.
Qed.

(** ** Witnesses *)

#[local] Instance plenty : Allocator := fun _ => true.

(** A page of memory with a greeting at address 8. *)
Definition sample_page : list byte := repeat x00 8 ++ str_bytes "hi" ++ repeat x00 90.
Definition sample_caller : caller := mkCaller (LM := byte_memory) (MemoryExport sample_page) [] [].

Lemma sample_page_guest : guest_memory (LM := byte_memory) sample_page.
Proof. by vm_compute. Qed.

Lemma print_message_exact_witness :
  print_message_import [I32 8; I32 2] sample_caller =
    Returns (mkCaller (MemoryExport sample_page) ["Hello from WASM: hi"%string] []) /\
  print_message_import [I32 8; I32 (-1)] sample_caller = HostPanic "capacity overflow".
Proof.
  split.
  - rewrite (print_message_exact (LL := byte_memory_laws) 8 2 sample_page sample_caller);
      [reflexivity|split; lia|split; lia|reflexivity|apply sample_page_guest|done].
  - rewrite (print_message_exact (LL := byte_memory_laws) 8 (-1) sample_page sample_caller);
      [reflexivity|split; lia|split; lia|reflexivity|apply sample_page_guest|done].
Defined.

Lemma timestamp_roundtrip_witness :
  exists m', get_timestamp_import 1735689600 [I32 20] sample_caller =
    Returns (mkCaller (LM := byte_memory) (MemoryExport m') [] []).
Proof.
  destruct (timestamp_roundtrip (LL := byte_memory_laws) 1735689600 20 sample_page sample_caller)
    as (m' & Hm' & _); [split; lia|lia|reflexivity|apply sample_page_guest|by vm_compute|reflexivity|].
  exists m'. exact Hm'.
Defined.

Lemma string_roundtrip_witness :
  exists c', write_string_to_memory 20 (str_bytes "hello") sample_caller = Ok c' /\
    extract_string_from_memory 20 5 c' = Returns (Ok "hello"%string).
Proof.
  eexists. split; [reflexivity|].
  apply (string_roundtrip (LL := byte_memory_laws) 20 "hello" sample_page sample_caller);
    [split; lia|by split; vm_compute|reflexivity|apply sample_page_guest|by vm_compute|reflexivity|reflexivity].
Defined.

#[local] Instance valtype_eq_dec : EqDecision ValType.
Proof. solve_decision. Defined.

(** A linker that checks exactly what is documented. *)
Definition list_linking : Linking := {|
  lk_module := list import_type;
  lk_compile _ _ := Ok [];
  lk_imports m := m;
  instance_new m es _ fuel := if decide (map extern_type es = m) then Ok fuel else Err (InstantiationError "imports");
|}.

Lemma list_linking_laws : @LinkingLaws list_linking.
Proof. intros m es now fuel left. simpl. by case_decide. Qed.

Definition sample_context : FullContext :=
  FullContext_new Mcu "d" (for_architecture Mcu) (host_for_architecture Mcu) 0.
Definition sample_manager : HostFunctionManager := mkHostFunctionManager sample_context (Some hello_world_imports).

Definition sample_runtime : @WasmRuntime (linked_wasmtime (LK := list_linking) sample_manager) :=
  mkWasmRuntime (RuntimeConfig_for_architecture Mcu "d") (WasmContext_new (for_architecture Mcu))
    {["printer"%string := map extern_type hello_world_imports; "plain"%string := []]} ∅
    (mkRuntimeStats 2 0 0 0 0 0 None 0).

Lemma instance_imports_fixed_witness :
  exists r', create_instance 0 "u" "printer" None sample_runtime = (Ok "u"%string, r') /\
  exists m, rt_modules sample_runtime !! "printer"%string = Some m /\
    (@lk_imports list_linking m = [] \/
     @lk_imports list_linking m = [Some ([TyI32; TyI32], []); Some ([TyI32], [])]).
Proof.
  eexists. split; [reflexivity|].
  eapply (instance_imports_fixed (LL := list_linking_laws) (host_for_architecture Mcu) sample_context sample_manager
           0 "u" "printer" None sample_runtime "u"); reflexivity.
Defined.
