(* ===== verification/Security.v ===== *)
(** * Keys, nonces and certificates: [crates/wasmbed-wasm-runtime/src/security.rs]

    The [SecurityManager]: key stores, the counter nonces of AES-256-GCM,
    encryption, message authentication and certificates. The primitives are
    third-party crates, so parameters of the model. Building a cipher from a
    key that is not 32 bytes long panics. *)

From S2P Require Import Prelude.
From S2P Require Import RustStd.
From S2P Require Import WasmRuntime.

(** AES-256-GCM and HMAC-SHA256; the failure of a primitive carries its text. *)
Class SecurityPrimitives := {
  aead_encrypt : list byte -> list byte -> list byte -> result string (list byte);
  aead_decrypt : list byte -> list byte -> list byte -> result string (list byte);
  hmac_sha256 : list byte -> list byte -> list byte;
}.

Class SecurityLaws (S : SecurityPrimitives) : Prop := {
  aead_roundtrip key nonce data c :
    aead_encrypt key nonce data = Ok c -> aead_decrypt key nonce c = Ok data;
}.

Inductive EncryptionAlgorithm := Aes128Gcm | Aes256Gcm | ChaCha20Poly1305.

Record SessionKey := mkSessionKey {
  sk_key_id : string;
  sk_key : list byte;
  sk_created : Z;
  sk_expires : option Z;
  sk_algorithm : EncryptionAlgorithm;
}.

Record Certificate := mkCertificate {
  cert_id : string;
  certificate : list byte;
  cert_private_key : list byte;
  cert_public_key : list byte;
  cert_created : Z;
  cert_expires : Z;
  cert_issuer : string;
  cert_subject : string;
}.

Record SecurityResult := mkSecurityResult {
  sr_success : bool;
  sr_data : option (list byte);
  sr_error_message : option string;
}.

Record SecurityManager := mkSecurityManager {
  encryption_keys : gmap string (list byte);
  mac_keys : gmap string (list byte);
  session_keys : gmap string SessionKey;
  certificates : gmap string Certificate;
  nonce_counters : gmap string Z;
}.

Definition SecurityManager_new : SecurityManager := mkSecurityManager ∅ ∅ ∅ ∅ ∅.

(** The end of a call: it returned, or it unwound. *)
Inductive outcome (A : Type) := Returned (r : WasmResult A) | Panicked.
Arguments Returned {A}.
Arguments Panicked {A}.

Definition failure (m : string) : SecurityResult := mkSecurityResult false None (Some m).
Definition success (d : option (list byte)) : SecurityResult := mkSecurityResult true d None.

Section Security.
Context `{S : SecurityPrimitives}.

(** [random] is the output of the generator, [key_size] bytes. *)
Definition generate_encryption_key (random : list byte) (key_id : string) (m : SecurityManager) :
    list byte * SecurityManager :=
  (random, mkSecurityManager (<[key_id := random]> (encryption_keys m)) (mac_keys m) (session_keys m)
             (certificates m) (nonce_counters m)).

Definition generate_mac_key (random : list byte) (key_id : string) (m : SecurityManager) :
    list byte * SecurityManager :=
  (random, mkSecurityManager (encryption_keys m) (<[key_id := random]> (mac_keys m)) (session_keys m)
             (certificates m) (nonce_counters m)).

Definition key_size (a : EncryptionAlgorithm) : nat :=
  match a with Aes128Gcm => 16 | Aes256Gcm => 32 | ChaCha20Poly1305 => 32 end.

Definition generate_session_key (now : Z) (random : list byte) (key_id : string) (a : EncryptionAlgorithm)
    (m : SecurityManager) : SessionKey * SecurityManager :=
  let k := mkSessionKey key_id (take (key_size a) random) now (Some (now + 3600)) a in
  (k, mkSecurityManager (encryption_keys m) (mac_keys m) (<[key_id := k]> (session_keys m))
        (certificates m) (nonce_counters m)).

(** [*counter += 1] on a [u64], then the counter in the first eight of twelve
    bytes. *)
Definition generate_nonce (key_id : string) (m : SecurityManager) : list byte * SecurityManager :=
  let counter := wrap64 (default 0 (nonce_counters m !! key_id) + 1) in
  (le_bytes 8 counter ++ replicate 4 Byte.x00,
   mkSecurityManager (encryption_keys m) (mac_keys m) (session_keys m) (certificates m)
     (<[key_id := counter]> (nonce_counters m))).

Definition encrypt_data (key_id : string) (data : list byte) (m : SecurityManager) :
    outcome SecurityResult * SecurityManager :=
  match encryption_keys m !! key_id with
  | None => (Returned (Err (SecurityError ("Encryption key " ++ key_id ++ " not found"))), m)
  | Some key =>
      if negb (zlen key =? 32) then (Panicked, m)
      else
        let '(nonce, m) := generate_nonce key_id m in
        match aead_encrypt key nonce data with
        | Ok ciphertext => (Returned (Ok (success (Some (nonce ++ ciphertext)))), m)
        | Err e => (Returned (Ok (failure ("Encryption failed: " ++ e))), m)
        end
  end.

Definition decrypt_data (key_id : string) (encrypted : list byte) (m : SecurityManager) : outcome SecurityResult :=
  if zlen encrypted <? 12 then Returned (Ok (failure "Encrypted data too short"))
  else
    match encryption_keys m !! key_id with
    | None => Returned (Err (SecurityError ("Decryption key " ++ key_id ++ " not found")))
    | Some key =>
        if negb (zlen key =? 32) then Panicked
        else
          match aead_decrypt key (take 12 encrypted) (drop 12 encrypted) with
          | Ok plaintext => Returned (Ok (success (Some plaintext)))
          | Err e => Returned (Ok (failure ("Decryption failed: " ++ e)))
          end
    end.

(** HMAC accepts keys of every length. *)
Definition generate_mac (key_id : string) (data : list byte) (m : SecurityManager) : WasmResult SecurityResult :=
  match mac_keys m !! key_id with
  | None => Err (SecurityError ("MAC key " ++ key_id ++ " not found"))
  | Some key => Ok (success (Some (hmac_sha256 key data)))
  end.

Definition verify_mac (key_id : string) (data mac : list byte) (m : SecurityManager) : WasmResult SecurityResult :=
  match mac_keys m !! key_id with
  | None => Err (SecurityError ("MAC key " ++ key_id ++ " not found"))
  | Some key =>
      if bool_decide (mac = hmac_sha256 key data) then Ok (success None)
      else Ok (failure "MAC verification failed")
  end.

Definition load_certificate (now : Z) (id : string) (cert private_key : list byte) (m : SecurityManager) :
    SecurityManager :=
  let c := mkCertificate id cert private_key cert now (now + 365 * 24 * 3600) "Wasmbed CA" id in
  mkSecurityManager (encryption_keys m) (mac_keys m) (session_keys m) (<[id := c]> (certificates m))
    (nonce_counters m).

Definition verify_certificate (now : Z) (id : string) (m : SecurityManager) : WasmResult SecurityResult :=
  match certificates m !! id with
  | None => Err (SecurityError ("Certificate " ++ id ++ " not found"))
  | Some c => if now >? cert_expires c then Ok (failure "Certificate expired") else Ok (success None)
  end.

Definition list_keys (m : SecurityManager) : list string :=
  (fst <$> map_to_list (encryption_keys m)) ++ (fst <$> map_to_list (mac_keys m)) ++
  (fst <$> map_to_list (session_keys m)).

Definition remove_key (key_id : string) (m : SecurityManager) : bool * SecurityManager :=
  (bool_decide (is_Some (encryption_keys m !! key_id)) || bool_decide (is_Some (mac_keys m !! key_id)) ||
   bool_decide (is_Some (session_keys m !! key_id)),
   mkSecurityManager (delete key_id (encryption_keys m)) (delete key_id (mac_keys m))
     (delete key_id (session_keys m)) (certificates m) (nonce_counters m)).

Definition remove_certificate (id : string) (m : SecurityManager) : bool * SecurityManager :=
  (bool_decide (is_Some (certificates m !! id)),
   mkSecurityManager (encryption_keys m) (mac_keys m) (session_keys m) (delete id (certificates m))
     (nonce_counters m)).

Definition clear_all (m : SecurityManager) : SecurityManager := mkSecurityManager ∅ ∅ ∅ ∅ ∅.

(** ** Histories that keep the counters *)

Inductive sec_op :=
| GenerateEncryptionKey (random : list byte) (key_id : string)
| GenerateMacKey (random : list byte) (key_id : string)
| GenerateSessionKey (now : Z) (random : list byte) (key_id : string) (a : EncryptionAlgorithm)
| EncryptData (key_id : string) (data : list byte)
| LoadCertificate (now : Z) (id : string) (cert private_key : list byte)
| RemoveKey (key_id : string)
| RemoveCertificate (id : string).

Definition apply_sec (op : sec_op) (m : SecurityManager) : SecurityManager :=
  match op with
  | GenerateEncryptionKey random k => (generate_encryption_key random k m).2
  | GenerateMacKey random k => (generate_mac_key random k m).2
  | GenerateSessionKey now random k a => (generate_session_key now random k a m).2
  | EncryptData k data => (encrypt_data k data m).2
  | LoadCertificate now id cert pk => load_certificate now id cert pk m
  | RemoveKey k => (remove_key k m).2
  | RemoveCertificate id => (remove_certificate id m).2
  end.

(** The nonce an operation uses under [key_id]. *)
Definition nonce_of (key_id : string) (op : sec_op) (m : SecurityManager) : list (list byte) :=
  match op with
  | EncryptData k data =>
      if bool_decide (k = key_id) then
        match (encrypt_data k data m).1 with
        | Returned (Ok r) => match sr_data r with Some c => [take 12 c] | None => [] end
        | _ => []
        end
      else []
  | _ => []
  end.

Fixpoint nonces (key_id : string) (ops : list sec_op) (m : SecurityManager) : list (list byte) :=
  match ops with
  | [] => []
  | op :: ops => nonce_of key_id op m ++ nonces key_id ops (apply_sec op m)
  end.

(** ** Proofs *)

Definition counter (key_id : string) (m : SecurityManager) : Z := default 0 (nonce_counters m !! key_id).
Definition nonce_bytes (n : Z) : list byte := le_bytes 8 n ++ replicate 4 Byte.x00.

Lemma nonce_bytes_inj a b : 0 <= a < 2 ^ 64 -> 0 <= b < 2 ^ 64 -> nonce_bytes a = nonce_bytes b -> a = b.
Proof.
  intros Ha Hb E. apply app_inj_1 in E as [E _]; [|by rewrite !length_le_bytes].
  by apply (le_bytes_inj 8) in E.
Qed.

Lemma nonce_bytes_length n : length (nonce_bytes n) = 12%nat.
Proof. unfold nonce_bytes. by rewrite length_app, length_le_bytes, length_replicate. Qed.

(** One operation: its nonce, if any, is the new value of the counter, which
    grows by one; otherwise the counter does not shrink. *)
Lemma nonce_of_step key_id op m :
  0 <= counter key_id m < 2 ^ 64 - 1 ->
  (nonce_of key_id op m = [] /\ counter key_id m <= counter key_id (apply_sec op m) <= counter key_id m + 1) \/
  (nonce_of key_id op m = [nonce_bytes (counter key_id m + 1)] /\
   counter key_id (apply_sec op m) = counter key_id m + 1).
Proof.
  intros Hc. destruct op as [| | |k data| | |]; try (left; split; [done|]; unfold counter; simpl; lia).
  cbn [nonce_of apply_sec]. unfold encrypt_data.
  destruct (encryption_keys m !! k) as [key|]; [|left; case_match; (split; [done|]); simpl; lia].
  destruct (negb (zlen key =? 32)); [left; case_match; (split; [done|]); simpl; lia|].
  cbn [generate_nonce]. case_bool_decide as Hk; [subst k|].
  - assert (counter key_id (generate_nonce key_id m).2 = counter key_id m + 1) as Hn.
    { unfold counter at 1. simpl. rewrite lookup_insert_eq. simpl. unfold wrap64. fold (counter key_id m).
      by rewrite Z.mod_small by lia. }
    assert (wrap64 (counter key_id m + 1) = counter key_id m + 1) as Hw by (apply Z.mod_small; lia).
    fold (counter key_id m) in *. rewrite Hw. destruct (aead_encrypt _ _ _) as [c|e]; simpl in *.
    + right. split; [|unfold counter in *; simpl in *; by rewrite Hw in Hn].
      reflexivity.
    + left. split; [done|]. unfold counter in *. simpl in *. rewrite Hw in Hn. lia.
  - left. split; [done|]. destruct (aead_encrypt _ _ _); unfold counter; simpl;
      rewrite lookup_insert_ne by done; lia.
Qed.

Lemma nonces_bounds key_id ops m :
  0 <= counter key_id m -> counter key_id m + zlen ops < 2 ^ 64 ->
  NoDup (nonces key_id ops m) /\
  Forall (fun n => exists c, counter key_id m < c < 2 ^ 64 /\ n = nonce_bytes c) (nonces key_id ops m).
Proof.
  revert m. induction ops as [|op ops IH]; intros m H0 Hlt; cbn [nonces].
  { split; constructor. }
  assert (zlen (op :: ops) = zlen ops + 1) as Hz by (unfold zlen; simpl; lia).
  pose proof (zlen_nonneg ops).
  destruct (nonce_of_step key_id op m ltac:(lia)) as [[-> Hc]|[-> Hc]];
    (destruct (IH (apply_sec op m)) as [Hnd Hall]; [lia|lia|]); simpl.
  - split; [done|]. eapply Forall_impl; [exact Hall|]. intros n (c & Hr & ->). exists c. split; [lia|done].
  - split.
    + constructor; [|done]. intros Hin. rewrite Forall_forall in Hall.
      destruct (Hall _ Hin) as (c & Hr & E). apply nonce_bytes_inj in E; lia.
    + constructor; [exists (counter key_id m + 1); split; [lia|done]|].
      eapply Forall_impl; [exact Hall|]. intros n (c & Hr & ->). exists c. split; [lia|done].
Qed.

(** AES-GCM nonces never repeat under one key id: in every history of
    fewer than 2^64 operations after the manager is created (keys may be
    regenerated or removed in between; only [clear_all] restarts the
    counters), the nonces of all ciphertexts produced under that id are
    pairwise different. *)
Theorem nonces_never_repeat key_id ops :
  zlen ops < 2 ^ 64 -> NoDup (nonces key_id ops SecurityManager_new).
Proof.
  intros H. apply nonces_bounds; unfold counter; simpl; rewrite lookup_empty; simpl; lia.
Qed.

(** What is encrypted under a key id is decrypted again under it: a
    successful encryption yields a ciphertext of at least 12 bytes whose
    decryption returns the data, as long as the key has not been replaced. *)
Theorem encrypt_decrypt_roundtrip `{!SecurityLaws S} key_id data m m' r c m2 :
  encrypt_data key_id data m = (Returned (Ok r), m') -> sr_data r = Some c ->
  encryption_keys m2 !! key_id = encryption_keys m !! key_id ->
  decrypt_data key_id c m2 = Returned (Ok (success (Some data))).
Proof.
  unfold encrypt_data. destruct (encryption_keys m !! key_id) as [key|] eqn:Ek; [|done].
  destruct (negb (zlen key =? 32)) eqn:Hl; [done|].
  destruct (generate_nonce key_id m) as [nonce m1] eqn:En.
  assert (length nonce = 12%nat) as Hn.
  { change nonce with (nonce, m1).1. rewrite <- En. reflexivity. }
  destruct (aead_encrypt key nonce data) as [ct|e] eqn:Ee; [|intros [= <- <-]; done].
  intros [= <- <-] [= <-] Hk2. unfold decrypt_data.
  destruct (Z.ltb_spec (zlen (nonce ++ ct)) 12) as [Hlt|_].
  { unfold zlen in Hlt. rewrite length_app in Hlt. lia. }
  rewrite Hk2, Hl. rewrite <- Hn at 1 2. rewrite take_app_length, drop_app_length.
  by rewrite (aead_roundtrip _ _ _ _ Ee).
Qed.

(** A message authentication code verifies for exactly the code that was
    generated for the same data under the same key. *)
Theorem mac_verifies_exactly key_id data mac m r :
  generate_mac key_id data m = Ok r ->
  verify_mac key_id data mac m =
    Ok (if bool_decide (Some mac = sr_data r) then success None else failure "MAC verification failed").
Proof.
  unfold generate_mac, verify_mac. destruct (mac_keys m !! key_id) as [key|]; [|done].
  intros [= <-]. simpl. by repeat case_bool_decide; simplify_eq.
Qed.
End Security.

(** ** A concrete manager: the cipher appends the data to the key *)

#[local] Instance toy_primitives : SecurityPrimitives := {|
  aead_encrypt key nonce data := Ok (key ++ data);
  aead_decrypt key nonce c := Ok (drop (length key) c);
  hmac_sha256 key data := key ++ data;
|}.

#[local] Instance toy_primitives_laws : SecurityLaws toy_primitives.
Proof. split. simpl. intros key nonce data c [= <-]. f_equal. apply drop_app_length. Qed.

Definition keyed_manager : SecurityManager :=
  (generate_mac_key [Byte.x01] "k" (generate_encryption_key (replicate 32 Byte.x2a) "k" SecurityManager_new).2).2.

Lemma nonces_never_repeat_witness :
  let ops := [GenerateEncryptionKey (replicate 32 Byte.x2a) "k"; EncryptData "k" []; EncryptData "k" []; RemoveKey "k";
              GenerateEncryptionKey (replicate 32 Byte.x2b) "k"; EncryptData "k" []] in
  length (nonces "k" ops SecurityManager_new) = 3%nat /\ NoDup (nonces "k" ops SecurityManager_new).
Proof. split; [vm_compute; reflexivity|]. apply nonces_never_repeat. vm_compute. reflexivity. Defined.

Lemma encrypt_decrypt_roundtrip_witness :
  exists c, decrypt_data "k" c keyed_manager = Returned (Ok (success (Some [Byte.x07]))).
Proof.
  eexists. eapply (encrypt_decrypt_roundtrip "k" [Byte.x07] keyed_manager); [reflexivity|reflexivity|reflexivity].
Defined.

Lemma mac_verifies_exactly_witness :
  verify_mac "k" [Byte.x07] [Byte.x01; Byte.x07] keyed_manager = Ok (success None) /\
  verify_mac "k" [Byte.x07] [Byte.x01] keyed_manager = Ok (failure "MAC verification failed").
Proof. split; (etransitivity; [eapply mac_verifies_exactly; reflexivity|reflexivity]). Defined.
