(* ===== verification/ControllerApi.v ===== *)
(** * What the controllers see of Kubernetes

    The Gateway resource ([crates/wasmbed-k8s-resource/src/gateway.rs]), the
    status patches the controllers send, and the requests they use beyond those
    of the gateway. A controller sends the whole status it has in hand as a
    merge patch to the status subresource and, when that fails, to the object
    itself, where Kubernetes ignores the status. *)

From S2P Require Import Prelude.
From S2P Require Import RustStd.
From S2P Require Import K8s.
From S2P Require Import KubeStore.

(** ** The Gateway resource *)

Record GatewayConfig := mkGatewayConfig {
  gc_connection_timeout : option string;
  gc_enrollment_timeout : option string;
  gc_heartbeat_interval : option string;
}.

Record GatewaySpec := mkGatewaySpec {
  gs_endpoint : string;
  gs_capabilities : option (list string);
  gs_config : option GatewayConfig;
}.

Inductive GatewayPhase := GwPending | GwRunning | GwFailed | GwStopped.

#[export] Instance gateway_phase_eq_dec : EqDecision GatewayPhase.
Proof. solve_decision. Defined.

Record GatewayCondition := mkGatewayCondition {
  gk_type : string;
  gk_status : string;
  gk_reason : option string;
  gk_message : option string;
  gk_last_transition_time : option string;
}.

Record GatewayStatus := mkGatewayStatus {
  gt_phase : GatewayPhase;
  gt_connected_devices : option Z;
  gt_enrolled_devices : option Z;
  gt_last_heartbeat : option string;
  gt_conditions : option (list GatewayCondition);
}.

Record GatewayResource := mkGatewayResource {
  gw_name : option string;
  gw_spec : GatewaySpec;
  gw_status : option GatewayStatus;
}.

Definition gw_name_any (g : GatewayResource) : string := default "" (gw_name g).

Definition gateway_running (g : GatewayResource) : bool :=
  match gw_status g with Some s => bool_decide (gt_phase s = GwRunning) | None => false end.

(** ** A whole [DeviceStatus] as a merge patch *)

(** What [Serialize] writes: the phase and the pairing flag always, the
    optional fields only when they are [Some] ([skip_serializing_if]), so a
    [None] leaves what is stored. *)
Record DevicePatch := mkDevicePatch {
  pa_update : DeviceStatusUpdate;
  pa_pairing_mode : bool;
}.

Definition status_patch (s : DeviceStatus) : DevicePatch :=
  mkDevicePatch
    (mkDeviceStatusUpdate (Some (ds_phase s)) (Some <$> ds_gateway s) (Some <$> ds_connected_since s)
       (Some <$> ds_last_heartbeat s))
    (ds_pairing_mode s).

Definition merge_patch (p : DevicePatch) (d : Device) : Device :=
  let s := merge_device_status (pa_update p) (d_status d) in
  mkDevice (d_name d) (d_namespace d) (d_spec d)
    (Some (mkDeviceStatus (ds_phase s) (ds_gateway s) (ds_connected_since s) (ds_last_heartbeat s)
             (pa_pairing_mode p))).

(** ** Requests *)

Class CtlKube (W : Type) := {
  gw_list : W -> result kube_error (list GatewayResource);
  gw_get : W -> string -> result kube_error GatewayResource;
  (** [patch_status] and [patch] of [Api<Device>] with a status patch *)
  ctl_patch_status : W -> string -> DevicePatch -> result kube_error unit * W;
  ctl_patch : W -> string -> DevicePatch -> result kube_error unit * W;
}.

Class CtlLaws {W} (K : Kube W) (C : CtlKube W) (view : W -> gmap string Device) : Prop := {
  ctl_patch_status_view w n p w' : ctl_patch_status w n p = (Ok tt, w') -> exists d,
    view w !! n = Some d /\ view w' = <[n := merge_patch p d]> (view w);
  ctl_patch_status_err w n p e w' : ctl_patch_status w n p = (Err e, w') -> view w' = view w;
  (** the object itself: its status is not writable there *)
  ctl_patch_view w n p : view (ctl_patch w n p).2 = view w;
  (** patching a device leaves the gateways alone *)
  ctl_patch_gateways w n p g : gw_get (ctl_patch_status w n p).2 g = gw_get w g;
  ctl_patch_gw_list w n p : gw_list (ctl_patch_status w n p).2 = gw_list w;
  dev_patch_gateways w n u g : gw_get (dev_patch_status w n u).2 g = gw_get w g;
}.

(** The API accepts every status patch of a stored device. *)
Definition ctl_accepts {W} `{CtlKube W} (view : W -> gmap string Device) : Prop :=
  forall w n p d, view w !! n = Some d -> is_ok (ctl_patch_status w n p).1 = true.

(** ** A cluster with gateways *)

(** The requests of the gateway on a cluster that also holds gateways. *)
#[export] Instance kube_prod {W} (K : Kube W) (G : Type) : Kube (W * G) := {|
  kerr_display := kerr_display;
  dev_list w := dev_list w.1;
  dev_get w := dev_get w.1;
  dev_create w d := let '(r, w1) := dev_create w.1 d in (r, (w1, w.2));
  dev_patch_status w n u := let '(r, w1) := dev_patch_status w.1 n u in (r, (w1, w.2));
  app_list w := app_list w.1;
  app_get w := app_get w.1;
  app_patch_status w n p := let '(r, w1) := app_patch_status w.1 n p in (r, (w1, w.2));
  app_patch_phase w n p t e := let '(r, w1) := app_patch_phase w.1 n p t e in (r, (w1, w.2));
|}.

#[export] Instance kube_prod_laws {W} (K : Kube W) G view :
  KubeStoreLaws K view -> KubeStoreLaws (kube_prod K G) (view ∘ fst).
Proof.
  intros L. split; simpl; intros [w g].
  - intros n d. apply view_named.
  - intros l. apply dev_list_view.
  - intros n d. apply dev_get_view.
  - intros d d' w'. simpl. destruct (dev_create w d) as [r w1] eqn:E. intros [= -> <-].
    by apply dev_create_view in E.
  - intros d e w'. simpl. destruct (dev_create w d) as [r w1] eqn:E. intros [= -> <-].
    by apply dev_create_err in E.
  - intros n u d' w'. simpl. destruct (dev_patch_status w n u) as [r w1] eqn:E. intros [= -> <-].
    by apply dev_patch_view in E.
  - intros n u e w'. simpl. destruct (dev_patch_status w n u) as [r w1] eqn:E. intros [= -> <-].
    by apply dev_patch_err in E.
Qed.

Definition fleet : Type := cluster * gmap string GatewayResource.

Definition fleet_view (w : fleet) : gmap string Device := store_view w.1.

Definition fleet_patch (w : fleet) (n : string) (p : DevicePatch) : result kube_error unit * fleet :=
  match store_view w.1 !! n with
  | None => (Err (KApi 404 "not found"), w)
  | Some d => (Ok tt, (set_devices (<[n := merge_patch p d]> (c_devices w.1)) w.1, w.2))
  end.

#[export] Instance fleet_ctl : CtlKube fleet := {|
  gw_list w := Ok (snd <$> map_to_list w.2);
  gw_get w n := match w.2 !! n with Some g => Ok g | None => Err (KApi 404 "not found") end;
  ctl_patch_status := fleet_patch;
  ctl_patch w n p := match store_view w.1 !! n with
                     | None => (Err (KApi 404 "not found"), w) | Some _ => (Ok tt, w) end;
|}.

#[export] Instance fleet_kube : Kube fleet := kube_prod mem_kube _.

#[export] Instance fleet_kube_laws : KubeStoreLaws fleet_kube fleet_view := kube_prod_laws mem_kube _ _ _.

#[export] Instance fleet_ctl_laws : CtlLaws fleet_kube fleet_ctl fleet_view.
Proof.
  split; simpl; intros w n p; unfold fleet_patch, mem_dev_patch, fleet_view.
  - intros w'. destruct (store_view w.1 !! n) as [d|] eqn:E; [|done]. intros [= <-].
    exists d. split; [done|]. apply store_view_insert. simpl. by apply (store_names w.1) in E.
  - intros e w'. by destruct (store_view w.1 !! n); intros [= <- <-].
  - by destruct (store_view w.1 !! n).
  - intros g. by destruct (store_view w.1 !! n).
  - by destruct (store_view w.1 !! n).
  - intros g. by destruct (store_view w.1 !! n).
Qed.

Lemma fleet_accepts : ctl_accepts fleet_view.
Proof. intros w n p d H. simpl. unfold fleet_patch, fleet_view in *. by rewrite H. Qed.

(** ** Reconciliation as a state monad with errors and a trace

    A handler reads and changes the cluster, may return early with an error
    ([?]) and sends HTTP requests, which are recorded in order. *)

Inductive request := Get (url : string) | Post (url : string).

Inductive controller_error :=
| KubeError (e : kube_error)
| CtlError (message : string).

Section Monad.
Context {W : Type}.

Definition ctl (A : Type) : Type := W -> result controller_error A * W * list request.

Definition cret {A} (a : A) : ctl A := fun w => (Ok a, w, []).

Definition cbind {A B} (c : ctl A) (k : A -> ctl B) : ctl B := fun w =>
  let '(r, w, out) := c w in
  match r with
  | Ok a => let '(r', w', out') := k a w in (r', w', out ++ out')
  | Err e => (Err e, w, out)
  end.

(** A read whose failure the handler looks at, and one it propagates. *)
Definition ask {A} (f : W -> result kube_error A) : ctl (result kube_error A) := fun w => (Ok (f w), w, []).
Definition ask_or_fail {A} (f : W -> result kube_error A) : ctl A := fun w =>
  (match f w with Ok a => Ok a | Err e => Err (KubeError e) end, w, []).

(** [if let Err(_) = c {..}]: go on whatever the outcome. *)
Definition ignore_errors {A} (c : ctl A) : ctl unit := fun w => let '(_, w, out) := c w in (Ok tt, w, out).

(** An HTTP request and its outcome. *)
Definition send {A} (r : request) (outcome : result string A) : ctl A := fun w =>
  (match outcome with Ok a => Ok a | Err m => Err (CtlError m) end, w, [r]).

Definition sleep (pause : W -> W) : ctl unit := fun w => (Ok tt, pause w, []).

(** A final [Ok(..)] changes nothing. *)
Lemma cbind_ret {A B} (c : ctl A) (b : B) w :
  (cbind c (fun _ => cret b) w).1.2 = (c w).1.2 /\ (cbind c (fun _ => cret b) w).2 = (c w).2.
Proof. unfold cbind. destruct (c w) as [[[a|e] w1] o]; simpl; by rewrite ?app_nil_r. Qed.

(** Running the first part of a bind. *)
Lemma cbind_ok {A B} (c : ctl A) (k : A -> ctl B) w a w1 o :
  c w = (Ok a, w1, o) -> (cbind c k w).1 = (k a w1).1 /\ (cbind c k w).2 = o ++ (k a w1).2.
Proof. intros H. unfold cbind. rewrite H. by destruct (k a w1) as [[]]. Qed.

(** ** Assertions on the cluster that a computation keeps, whatever its
    outcome *)
Definition keeps {A} (P : W -> Prop) (c : ctl A) : Prop := forall w, P w -> P (c w).1.2.

Lemma keeps_ret {A} P (a : A) : keeps P (cret a).
Proof. by intros w. Qed.
Lemma keeps_bind {A B} P (c : ctl A) (k : A -> ctl B) :
  keeps P c -> (forall a, keeps P (k a)) -> keeps P (cbind c k).
Proof.
  intros Hc Hk w Hw. specialize (Hc w Hw). unfold cbind. destruct (c w) as [[[a|e] w1] o1]; simpl in *; [|done].
  specialize (Hk a w1 Hc). by destruct (k a w1) as [[r w2] o2].
Qed.
Lemma keeps_ask {A} P (f : W -> result kube_error A) : keeps P (ask f).
Proof. by intros w. Qed.
Lemma keeps_ask_or_fail {A} P (f : W -> result kube_error A) : keeps P (ask_or_fail f).
Proof. by intros w. Qed.
Lemma keeps_ignore {A} P (c : ctl A) : keeps P c -> keeps P (ignore_errors c).
Proof. intros Hc w Hw. specialize (Hc w Hw). unfold ignore_errors. by destruct (c w) as [[]]. Qed.
Lemma keeps_send {A} P r (o : result string A) : keeps P (send r o).
Proof. by intros w. Qed.
Lemma keeps_sleep P (pause : W -> W) : (forall w, P w -> P (pause w)) -> keeps P (sleep pause).
Proof. by intros H w ?%H. Qed.
End Monad.
Arguments ctl : clear implicits.

#[export] Hint Resolve keeps_ret keeps_ask keeps_ask_or_fail keeps_send : wasmbed.

(** Walk through a handler; what is left are its updates. *)
Ltac keeps_steps :=
  repeat (simpl; match goal with
  | |- keeps _ (cbind _ _) => apply keeps_bind; [|intros ?]
  | |- keeps _ (ignore_errors _) => apply keeps_ignore
  | |- keeps _ (sleep _) => apply keeps_sleep
  | |- keeps _ (match ?x with _ => _ end) => destruct x eqn:?
  | |- keeps _ _ => solve [auto with wasmbed]
  end).

Notation "'let@' x ':=' c 'in' k" := (cbind c (fun x => k))
  (at level 10, x pattern, c at level 100, k at level 200) : rust_scope.
