(* ===== verification/DeviceController.v ===== *)
(** * The device controller: [crates/wasmbed-device-controller/src/main.rs]

    One definition per handler. A handler works on the object the watch
    delivered, which may be older than what is stored, and writes the whole
    status it derives from it. *)

From S2P Require Import Prelude.
From S2P Require Import RustStd.
From S2P Require Import K8s.
From S2P Require Import KubeStore.
From S2P Require Import ControllerApi.

Definition default_endpoint : string := "http://gateway-1-service.wasmbed.svc.cluster.local:8080".

(** [Action::requeue(Duration::from_secs(30))] *)
Definition requeue_secs : Z := 30.

(** [device.status.clone().unwrap_or_else(..)] *)
Definition base_status (phase : DevicePhase) (device : Device) : DeviceStatus :=
  default (mkDeviceStatus phase None None None false) (d_status device).

Definition st_phase (p : DevicePhase) (s : DeviceStatus) : DeviceStatus :=
  mkDeviceStatus p (ds_gateway s) (ds_connected_since s) (ds_last_heartbeat s) (ds_pairing_mode s).
Definition st_gateway (g : option GatewayReference) (s : DeviceStatus) : DeviceStatus :=
  mkDeviceStatus (ds_phase s) g (ds_connected_since s) (ds_last_heartbeat s) (ds_pairing_mode s).
Definition st_heartbeat (t : option Z) (s : DeviceStatus) : DeviceStatus :=
  mkDeviceStatus (ds_phase s) (ds_gateway s) (ds_connected_since s) t (ds_pairing_mode s).
Definition st_pairing (b : bool) (s : DeviceStatus) : DeviceStatus :=
  mkDeviceStatus (ds_phase s) (ds_gateway s) (ds_connected_since s) (ds_last_heartbeat s) b.

(** [device.status.as_ref().and_then(|s| s.gateway.as_ref())] *)
Definition gateway_of (device : Device) : option GatewayReference :=
  match d_status device with Some s => ds_gateway s | None => None end.

Section DeviceController.
Context {W : Type} `{K : Kube W} `{C : CtlKube W}.
(** [DefaultHasher] over a name, whose algorithm is not specified *)
Variable default_hash : string -> Z.
(** what others do to the cluster while [handle_enrollment] sleeps *)
Variable pause : W -> W.
(** the API server that starts emulators, and its answers *)
Variable api_server_url : string.
Variable renode : string -> result string unit.

Definition update_device_status (device : Device) (status : DeviceStatus) : ctl W unit := fun w =>
  match ctl_patch_status w (name_any device) (status_patch status) with
  | (Ok _, w) => (Ok tt, w, [])
  | (Err _, w) =>
      match ctl_patch w (name_any device) (status_patch status) with
      | (Ok _, w) => (Ok tt, w, [])
      | (Err e, w) => (Err (KubeError e), w, [])
      end
  end.

Definition handle_pending (device : Device) : ctl W unit :=
  update_device_status device (st_phase Enrolling (base_status Pending device)).

Definition initialize_device (device : Device) : ctl W unit :=
  update_device_status device (mkDeviceStatus Pending None None None false).

(** The preferred gateway when it runs, else one chosen by the hash of the
    device name; [g0] is the head of the non-empty list [active]. *)
Definition by_hash (device : Device) (g0 : GatewayResource) (active : list GatewayResource) : GatewayResource :=
  nth (Z.to_nat (default_hash (name_any device) mod zlen active)) active g0.

Definition select_gateway (device : Device) (g0 : GatewayResource) (active : list GatewayResource) :
    GatewayResource :=
  match preferred_gateway (d_spec device) with
  | Some name =>
      match List.find (fun g => String.eqb (gw_name_any g) name) active with
      | Some preferred => preferred
      | None => by_hash device g0 active
      end
  | None => by_hash device g0 active
  end.

Definition assign (g : GatewayResource) (s : DeviceStatus) : DeviceStatus :=
  st_pairing true
    (st_gateway (Some (mkGatewayReference (gw_name_any g) (gs_endpoint (gw_spec g)) None)) s).

Definition handle_enrollment (device : Device) : ctl W unit :=
  let@ gateways := ask_or_fail gw_list in
  let active := List.filter gateway_running gateways in
  match active with
  | [] => cret tt
  | g0 :: _ =>
      let gateway := select_gateway device g0 active in
      let@ _ := sleep pause in
      update_device_status device (assign gateway (st_phase Enrolled (base_status Enrolling device)))
  end.

Definition start_renode_device (device : Device) : ctl W unit :=
  let device_id := name_any device in
  send (Post (api_server_url ++ "/api/v1/devices/" ++ device_id ++ "/renode/start")) (renode device_id).

Definition needs_gateway (device : Device) (status : DeviceStatus) : bool :=
  let endpoint_empty := match ds_gateway status with Some g => String.eqb (gr_endpoint g) "" | None => true end in
  let preferred_mismatch :=
    match preferred_gateway (d_spec device) with
    | Some p => negb (bool_decide (gr_name <$> ds_gateway status = Some p))
    | None => false
    end in
  bool_decide (ds_gateway status = None) || endpoint_empty || preferred_mismatch.

Definition handle_enrolled (device : Device) : ctl W unit :=
  let status := base_status Enrolled device in
  let@ _ :=
    if needs_gateway device status then
      let@ gateways := ask_or_fail gw_list in
      let active := List.filter gateway_running gateways in
      match active with
      | [] => cret tt
      | g0 :: _ => update_device_status device (assign (select_gateway device g0 active) status)
      end
    else cret tt in
  start_renode_device device.

(** A connected device always has a status: [reconcile] dispatched on it. *)
Definition disconnect (device : Device) (status : DeviceStatus) : ctl W unit :=
  update_device_status device (st_gateway None (st_phase Disconnected status)).

(** The end of [handle_connected]. *)
Definition refresh_connected (now : Z) (device : Device) (status : DeviceStatus) : ctl W unit :=
  let@ _ := ignore_errors (start_renode_device device) in
  update_device_status device (st_heartbeat (Some now) status).

(** The endpoint that is asked for the device list; an empty one is replaced
    and the replacement stored. *)
Definition check_endpoint (device : Device) (status : DeviceStatus) (g : GatewayReference) : ctl W string :=
  if String.eqb (gr_endpoint g) "" then
    let@ _ := ignore_errors (update_device_status device
                (st_gateway (Some (mkGatewayReference (gr_name g) default_endpoint (gr_connected_at g))) status)) in
    cret default_endpoint
  else if starts_with "http://" (gr_endpoint g) || starts_with "https://" (gr_endpoint g)
  then cret (gr_endpoint g)
  else cret ("http://" ++ gr_endpoint g)%string.

(** The answer to the question whether the TLS connection is up is only
    logged, so it does not appear here. *)
Definition handle_connected (now : Z) (device : Device) (status : DeviceStatus) : ctl W unit :=
  match ds_gateway status with
  | None => refresh_connected now device status
  | Some g =>
      let@ found := ask (fun w => gw_get w (gr_name g)) in
      match found with
      | Ok gateway =>
          if match gw_status gateway with Some s => negb (bool_decide (gt_phase s = GwRunning)) | None => false end
          then disconnect device status
          else
            let@ endpoint := check_endpoint device status g in
            let@ _ := ignore_errors (send (A := unit) (Get (endpoint ++ "/api/v1/devices")) (Ok tt)) in
            refresh_connected now device status
      | Err (KApi code _) => if code =? 404 then disconnect device status else refresh_connected now device status
      | Err _ => refresh_connected now device status
      end
  end.

(** The endpoint [handle_disconnected] and [handle_unreachable] register with. *)
Definition reconnect_endpoint (device : Device) (w : W) : string :=
  match gateway_of device with
  | Some g => if String.eqb (gr_endpoint g) "" then default_endpoint else gr_endpoint g
  | None =>
      match gw_list w with
      | Ok gateways =>
          match List.find gateway_running gateways with
          | Some g => if String.eqb (gs_endpoint (gw_spec g)) "" then default_endpoint else gs_endpoint (gw_spec g)
          | None => default_endpoint
          end
      | Err _ => default_endpoint
      end
  end.

Definition request_reconnect (device : Device) : ctl W unit := fun w =>
  ignore_errors
    (send (A := unit)
       (Post (reconnect_endpoint device w ++ "/api/v1/devices/" ++ name_any device ++ "/connect")) (Ok tt)) w.

Definition handle_disconnected (device : Device) : ctl W unit := request_reconnect device.
Definition handle_unreachable (device : Device) : ctl W unit := request_reconnect device.

Definition reconcile (now : Z) (device : Device) : ctl W Z :=
  let@ _ :=
    match d_status device with
    | None => initialize_device device
    | Some status =>
        match ds_phase status with
        | Pending => handle_pending device
        | Enrolling => handle_enrollment device
        | Enrolled => handle_enrolled device
        | Connected => handle_connected now device status
        | Disconnected => handle_disconnected device
        | Unreachable => handle_unreachable device
        end
    end in
  cret requeue_secs.
End DeviceController.
