(* ===== verification/DeviceControllerProofs.v ===== *)
(** * Properties of the device controller

    A reconciliation of the current object moves the device along the
    transition tables and leads a new device to a gateway; what it writes from
    an old object, or leaves out of a patch, undoes what others wrote. *)

From S2P Require Import Prelude.
From S2P Require Import RustStd.
From S2P Require Import Externals.
From S2P Require Import K8s.
From S2P Require Import KubeStore.
From S2P Require Import K8sProofs.
From S2P Require Import Gateway.
From S2P Require Import HeartbeatProofs.
From S2P Require Import ControllerApi.
From S2P Require Import DeviceController.

Section Proofs.
Context {W : Type} `{K : Kube W} `{C : CtlKube W} {view : W -> gmap string Device}.
Context `{L : !KubeStoreLaws K view} `{LC : !CtlLaws K C view}.
Context (default_hash : string -> Z) (pause : W -> W) (api_server_url : string) (renode : string -> result string unit).
Implicit Types (w : W) (d : Device) (n : string).

(** ** What one status update does *)

Definition wrote (s : DeviceStatus) (d : Device) : Device := merge_patch (status_patch s) d.

Lemma update_view device s w r w' out n d :
  update_device_status device s w = (r, w', out) -> name_any device = n -> view w !! n = Some d ->
  out = [] /\ (view w' = view w \/ view w' = <[n := wrote s d]> (view w)).
Proof.
  unfold update_device_status. intros H <- Hd.
  destruct (ctl_patch_status w _ _) as [[[]|e] w1] eqn:E1.
  - simplify_eq. split; [done|]. right. apply ctl_patch_status_view in E1 as (d0 & ? & ->). by simplify_eq.
  - apply ctl_patch_status_err in E1. pose proof (ctl_patch_view w1 (name_any device) (status_patch s)) as E2.
    destruct (ctl_patch w1 _ _) as [[]]; simplify_eq; simpl in *; split; try done; left; congruence.
Qed.

Lemma update_accepted device s w n d :
  ctl_accepts view -> name_any device = n -> view w !! n = Some d ->
  exists w', update_device_status device s w = (Ok tt, w', []) /\
    view w' = <[n := wrote s d]> (view w) /\
    (forall g, gw_get w' g = gw_get w g) /\ gw_list w' = gw_list w.
Proof.
  intros Hacc <- Hd. unfold update_device_status. specialize (Hacc w (name_any device) (status_patch s) d Hd).
  pose proof (ctl_patch_gateways w (name_any device) (status_patch s)) as Hg.
  pose proof (ctl_patch_gw_list w (name_any device) (status_patch s)) as Hl.
  destruct (ctl_patch_status w _ _) as [[[]|e] w1] eqn:E1; [|done].
  exists w1. split_and!; try done. apply ctl_patch_status_view in E1 as (d0 & ? & ->). by simplify_eq.
Qed.

Lemma wrote_phase s d : current_phase (wrote s d) = ds_phase s.
Proof. done. Qed.

(** The stored status after writing [s] over [s0]: a [None] keeps what was
    there. *)
Lemma wrote_status s d s0 :
  d_status d = Some s0 -> exists s1, d_status (wrote s d) = Some s1 /\ ds_phase s1 = ds_phase s /\
    ds_pairing_mode s1 = ds_pairing_mode s /\
    ds_last_heartbeat s1 = match ds_last_heartbeat s with Some t => Some t | None => ds_last_heartbeat s0 end /\
    ds_gateway s1 = match ds_gateway s with Some g => Some (merge_gateway (ds_gateway s0) g) | None => ds_gateway s0 end.
Proof.
  intros Hs. unfold wrote, merge_patch, merge_device_status. rewrite Hs. eexists. split; [done|]. simpl.
  destruct (ds_gateway s), (ds_last_heartbeat s); done.
Qed.

(** ** Every write follows the tables *)

(** [w'] differs from [w] at most in device [n], whose phase is unchanged or
    is [p]. *)
Definition moved (n : string) (d : Device) (p : DevicePhase) w w' : Prop :=
  (forall n', n' <> n -> view w' !! n' = view w !! n') /\
  exists d', view w' !! n = Some d' /\ d_spec d' = d_spec d /\
    (current_phase d' = current_phase d \/ current_phase d' = p).

Lemma moved_refl n d p w : view w !! n = Some d -> moved n d p w w.
Proof. intros. split; [done|]. exists d. auto. Qed.

Lemma keeps_update n d p w0 device s :
  name_any device = n -> ds_phase s = p \/ ds_phase s = current_phase d ->
  keeps (moved n d p w0) (update_device_status device s).
Proof.
  intros Hn Hph w [Hf (d1 & Hd1 & Hs & Hp)].
  destruct (update_device_status device s w) as [[r w'] out] eqn:H. simpl.
  destruct (update_view _ _ _ _ _ _ _ _ H Hn Hd1) as [_ [Hv|Hv]]; [by split; rewrite Hv; eauto|].
  split.
  - intros n' Hne. rewrite Hv, lookup_insert_ne by done. auto.
  - exists (wrote s d1). rewrite Hv, lookup_insert_eq. split_and!; [done|done|]. rewrite wrote_phase. tauto.
Qed.

(** The phase a reconciliation may move a device to. *)
Definition next_phase (p : DevicePhase) : DevicePhase :=
  match p with
  | Pending => Enrolling | Enrolling => Enrolled | Enrolled => Enrolled
  | Connected => Disconnected | Disconnected => Disconnected | Unreachable => Unreachable
  end.

Lemma reconcile_keeps now d n w0 :
  name_any d = n -> (forall w, view (pause w) = view w) ->
  keeps (moved n d (next_phase (current_phase d)) w0)
    (reconcile default_hash pause api_server_url renode now d).
Proof.
  intros Hn Hpause. unfold reconcile. apply keeps_bind; [|auto with wasmbed].
  assert (forall s, d_status d = Some s -> current_phase d = ds_phase s) as Hcur.
  { intros s Hs. unfold current_phase. by rewrite Hs. }
  destruct (d_status d) as [s|] eqn:Es.
  2:{ apply keeps_update; [done|]. right. unfold current_phase. by rewrite Es. }
  rewrite (Hcur s eq_refl). specialize (Hcur s eq_refl).
  destruct (ds_phase s) eqn:Ep; simpl.
  - apply keeps_update; auto.
  - unfold handle_enrollment. keeps_steps.
    + intros w [Hf Hd]. split; intros; rewrite Hpause; auto.
    + apply keeps_update; auto.
  - unfold handle_enrolled, start_renode_device. keeps_steps.
    apply keeps_update; [done|]. left. simpl. unfold base_status. by rewrite Es.
  - unfold handle_connected, check_endpoint, refresh_connected, disconnect, start_renode_device. keeps_steps.
    all: apply keeps_update; simpl; auto; right; congruence.
  - unfold handle_disconnected, request_reconnect. by intros w.
  - unfold handle_unreachable, request_reconnect. by intros w.
Qed.

(** Reconciling a Device object that is current changes nothing but that
    device's status, and moves its phase along both transition tables or not
    at all, whatever Kubernetes, the gateways and the emulator service answer:
    a new device is initialised, Pending goes to Enrolling, Enrolling to
    Enrolled, Connected to Disconnected, and no other phase is left. *)
Theorem reconcile_follows_tables now n d w :
  (forall w, view (pause w) = view w) -> view w !! n = Some d ->
  let w' := (reconcile default_hash pause api_server_url renode now d w).1.2 in
  (forall n', n' <> n -> view w' !! n' = view w !! n') /\
  exists d', view w' !! n = Some d' /\ d_spec d' = d_spec d /\
    let p := current_phase d in let p' := current_phase d' in
    p' = p \/ (DevicePhase_validate_transition p p' = true /\ DeviceStatusUpdate_validate_transition p p' = true).
Proof.
  intros Hpause Hd. pose proof (view_named _ _ _ Hd) as Hn.
  assert (name_any d = n) as Hname by (unfold name_any; by rewrite Hn).
  destruct (reconcile_keeps now d n w Hname Hpause w (moved_refl _ _ _ _ Hd)) as [Hf (d' & Hd' & Hs & Hp)].
  split; [done|]. exists d'. split_and!; [done|done|]. simpl.
  destruct Hp as [Hp|Hp]; [by left|]. rewrite Hp. by destruct (current_phase d); auto.
Qed.

(** ** Progress of a new device *)

Lemma by_hash_in device g0 active : by_hash default_hash device g0 (g0 :: active) ∈ g0 :: active.
Proof.
  unfold by_hash. apply list_elem_of_In, nth_In. unfold zlen.
  pose proof (Z.mod_pos_bound (default_hash (name_any device)) (Z.of_nat (length (g0 :: active)))).
  simpl in *. lia.
Qed.

Lemma select_gateway_spec device g0 active :
  let g := select_gateway default_hash device g0 (g0 :: active) in
  g ∈ g0 :: active /\
  forall p, preferred_gateway (d_spec device) = Some p ->
    (exists g', g' ∈ g0 :: active /\ gw_name_any g' = p) -> gw_name_any g = p.
Proof.
  unfold select_gateway. destruct (preferred_gateway (d_spec device)) as [p|];
    [|split; [apply by_hash_in|done]].
  destruct (List.find _ _) as [g|] eqn:Ef.
  - apply List.find_some in Ef as [Hin Heq%String.eqb_eq]. split; [by apply list_elem_of_In|].
    intros ? [= <-] _. done.
  - split; [apply by_hash_in|]. intros ? [= <-] (g' & Hin%list_elem_of_In & Heq).
    apply (List.find_none _ _ Ef) in Hin. apply String.eqb_neq in Hin. congruence.
Qed.

(** A reconciliation of the object as it is stored. *)
Definition reconcile_stored (now : Z) (n : string) w : W :=
  match view w !! n with
  | Some d => (reconcile default_hash pause api_server_url renode now d w).1.2
  | None => w
  end.

Lemma stored_name w n d : view w !! n = Some d -> name_any d = n.
Proof. intros Hd%view_named. unfold name_any. by rewrite Hd. Qed.

Lemma reconcile_new now n d w :
  ctl_accepts view -> view w !! n = Some d -> d_status d = None ->
  let w' := reconcile_stored now n w in
  view w' !! n = Some (wrote (mkDeviceStatus Pending None None None false) d) /\ gw_list w' = gw_list w.
Proof.
  intros Ha Hd Hs. unfold reconcile_stored, reconcile. rewrite Hd, Hs. unfold cbind, initialize_device.
  destruct (update_accepted d (mkDeviceStatus Pending None None None false) w n d Ha) as (w' & -> & Hv & _ & Hl);
    [by eapply stored_name|done|]. simpl. by rewrite Hv, lookup_insert_eq.
Qed.

Lemma reconcile_pending now n d s w :
  ctl_accepts view -> view w !! n = Some d -> d_status d = Some s -> ds_phase s = Pending ->
  let w' := reconcile_stored now n w in
  view w' !! n = Some (wrote (st_phase Enrolling s) d) /\ gw_list w' = gw_list w.
Proof.
  intros Ha Hd Hs Hp. unfold reconcile_stored, reconcile. rewrite Hd, Hs, Hp. unfold cbind, handle_pending, base_status.
  rewrite Hs. simpl.
  destruct (update_accepted d (st_phase Enrolling s) w n d Ha) as (w' & -> & Hv & _ & Hl);
    [by eapply stored_name|done|]. simpl. by rewrite Hv, lookup_insert_eq.
Qed.

(** The object may be older than what is stored when the pause ends. *)
Lemma enrollment_writes device s d1 n w gws g0 active :
  ctl_accepts view -> name_any device = n -> d_status device = Some s ->
  view (pause w) !! n = Some d1 -> gw_list w = Ok gws -> List.filter gateway_running gws = g0 :: active ->
  let g := select_gateway default_hash device g0 (g0 :: active) in
  view (handle_enrollment default_hash pause device w).1.2 !! n = Some (wrote (assign g (st_phase Enrolled s)) d1).
Proof.
  intros Ha Hn Hs Hd Hl Hf. unfold handle_enrollment, cbind, ask_or_fail, sleep, base_status.
  rewrite Hl, Hf, Hs. simpl.
  destruct (update_accepted device (assign (select_gateway default_hash device g0 (g0 :: active)) (st_phase Enrolled s))
              (pause w) n d1 Ha Hn Hd) as (w' & -> & Hv & _). simpl. by rewrite Hv, lookup_insert_eq.
Qed.

Lemma reconcile_enrolling now n d s w gws g0 active :
  ctl_accepts view -> (forall w, pause w = w) -> view w !! n = Some d -> d_status d = Some s ->
  ds_phase s = Enrolling -> gw_list w = Ok gws -> List.filter gateway_running gws = g0 :: active ->
  view (reconcile_stored now n w) !! n =
    Some (wrote (assign (select_gateway default_hash d g0 (g0 :: active)) (st_phase Enrolled s)) d).
Proof.
  intros Ha Hpause Hd Hs Hp Hl Hf. unfold reconcile_stored, reconcile. rewrite Hd, Hs, Hp. unfold cbind at 1.
  pose proof (enrollment_writes d s d n w gws g0 active Ha (stored_name _ _ _ Hd) Hs) as Hw.
  rewrite Hpause in Hw. specialize (Hw Hd Hl Hf). simpl in Hw.
  destruct (handle_enrollment default_hash pause d w) as [[[] w3] out]; exact Hw.
Qed.

Lemma running_filter gws g :
  g ∈ List.filter gateway_running gws <-> g ∈ gws /\ gateway_running g = true.
Proof. rewrite !list_elem_of_In. apply List.filter_In. Qed.

(** A new device gets a gateway: when a gateway runs and the API accepts
    the patches, three reconciliations of a Device without status leave it
    Enrolled in pairing mode with a reference to a running gateway and its
    endpoint, which is the preferred gateway whenever that one runs. *)
Theorem new_device_gets_gateway t1 t2 t3 n d w gws :
  ctl_accepts view -> (forall w, pause w = w) -> view w !! n = Some d -> d_status d = None ->
  gw_list w = Ok gws -> (exists g, g ∈ gws /\ gateway_running g = true) ->
  let w' := reconcile_stored t3 n (reconcile_stored t2 n (reconcile_stored t1 n w)) in
  exists d' s gr g, view w' !! n = Some d' /\ d_status d' = Some s /\ ds_phase s = Enrolled /\
    ds_pairing_mode s = true /\ ds_gateway s = Some gr /\
    g ∈ gws /\ gateway_running g = true /\ gr_name gr = gw_name_any g /\ gr_endpoint gr = gs_endpoint (gw_spec g) /\
    forall p, preferred_gateway (d_spec d) = Some p ->
      (exists g', g' ∈ gws /\ gateway_running g' = true /\ gw_name_any g' = p) -> gr_name gr = p.
Proof.
  intros Ha Hpause Hd Hs Hl (g1 & Hg1 & Hrun) w'.
  destruct (reconcile_new t1 n d w Ha Hd Hs) as [Hd1 Hl1].
  set (w1 := reconcile_stored t1 n w) in *. set (d1 := wrote _ d) in *.
  destruct (reconcile_pending t2 n d1 (mkDeviceStatus Pending None None None false) w1 Ha Hd1) as [Hd2 Hl2];
    [by unfold d1, wrote, merge_patch, merge_device_status; rewrite Hs|done|].
  set (w2 := reconcile_stored t2 n w1) in *. set (d2 := wrote _ d1) in *.
  assert (d_status d2 = Some (mkDeviceStatus Enrolling None None None false)) as Hs2.
  { unfold d2, d1, wrote, merge_patch, merge_device_status. by rewrite Hs. }
  destruct (List.filter gateway_running gws) as [|g0 active] eqn:Ef.
  { exfalso. assert (g1 ∈ List.filter gateway_running gws) as Hin by (by apply running_filter).
    rewrite Ef in Hin. by apply not_elem_of_nil in Hin. }
  pose proof (reconcile_enrolling t3 n d2 _ w2 gws g0 active Ha Hpause Hd2 Hs2 eq_refl
    ltac:(congruence) Ef) as Hd3.
  destruct (select_gateway_spec d2 g0 active) as [Hin Hpref].
  rewrite <- Ef in Hin, Hpref. apply running_filter in Hin as [Hin Hr]. rewrite Ef in Hin, Hr, Hpref.
  set (g := select_gateway default_hash d2 g0 (g0 :: active)) in *.
  unfold wrote, merge_patch, merge_device_status in Hd3. rewrite Hs2 in Hd3. simpl in Hd3.
  do 3 eexists. exists g. split; [exact Hd3|]. split_and!; try done.
  intros p Hp (g' & Hg' & Hr' & Hn'). apply Hpref; [exact Hp|].
  exists g'. rewrite <- Ef. by rewrite running_filter.
Qed.

(** ** The controller and the heartbeat monitor *)

(** Device [n] is stored as Connected through the gateway [g], which runs. *)
Definition held (n g : string) w : Prop :=
  exists d s gr gw, view w !! n = Some d /\ d_status d = Some s /\ ds_phase s = Connected /\
    ds_gateway s = Some gr /\ gr_name gr = g /\ gw_get w g = Ok gw /\ gateway_running gw = true.

(** The same, with a heartbeat at [t]. *)
Definition refreshed (n g : string) (t : Z) w : Prop :=
  held n g w /\ exists d s, view w !! n = Some d /\ d_status d = Some s /\ ds_last_heartbeat s = Some t.

Lemma merge_gateway_name old g : gr_name (merge_gateway old g) = gr_name g.
Proof. unfold merge_gateway. by destruct (gr_connected_at g), old. Qed.

(** Writing a Connected status with a reference to [g] holds the device. *)
Lemma held_update n g w device s gr :
  ctl_accepts view -> name_any device = n -> ds_phase s = Connected -> ds_gateway s = Some gr -> gr_name gr = g ->
  held n g w -> exists w', update_device_status device s w = (Ok tt, w', []) /\ held n g w' /\
    forall t, ds_last_heartbeat s = Some t -> refreshed n g t w'.
Proof.
  intros Ha Hn Hp Hgr Hg (d0 & s0 & gr0 & gw & Hd0 & Hs0 & _ & _ & _ & Hgw & Hr).
  destruct (update_accepted device s w n d0 Ha Hn Hd0) as (w' & Hu & Hv & Hget & _).
  destruct (wrote_status s d0 s0 Hs0) as (s1 & Hs1 & Hp1 & _ & Hb1 & Hg1). rewrite Hgr in Hg1.
  assert (held n g w') as Hheld.
  { exists (wrote s d0), s1. do 2 eexists. rewrite Hv, lookup_insert_eq.
    split_and!; [done|done|congruence|exact Hg1|by rewrite merge_gateway_name|by rewrite Hget|done]. }
  exists w'. split_and!; [done|done|]. intros t Ht. split; [done|]. exists (wrote s d0), s1.
  rewrite Hv, lookup_insert_eq, Hb1, Ht. done.
Qed.

Lemma connected_refreshes t n g w :
  ctl_accepts view -> held n g w -> refreshed n g t (reconcile_stored t n w).
Proof.
  intros Ha Hh. pose proof Hh as (d & s & gr & gw & Hd & Hs & Hp & Hgr & Hn & Hgw & Hr).
  pose proof (stored_name _ _ _ Hd) as Hname.
  assert (exists e w1, check_endpoint d s gr w = (Ok e, w1, []) /\ held n g w1) as (e & w1 & Hc & Hh1).
  { unfold check_endpoint. destruct (String.eqb (gr_endpoint gr) ""); [|case_match; by eauto].
    unfold cbind, ignore_errors.
    destruct (held_update n g w d (st_gateway (Some (mkGatewayReference (gr_name gr) default_endpoint
      (gr_connected_at gr))) s) _ Ha Hname Hp eq_refl Hn Hh) as (w1 & -> & Hh1 & _). simpl. eauto. }
  destruct (held_update n g w1 d (st_heartbeat (Some t) s) gr Ha Hname Hp Hgr Hn Hh1) as (w2 & Hu & _ & Hf).
  assert ((handle_connected api_server_url renode t d s w).1.2 = w2) as Hw.
  { unfold handle_connected. rewrite Hgr, (proj1 (cbind_ok (ask _) _ w _ w [] eq_refl)), Hn, Hgw.
    assert (match gw_status gw with Some s => negb (bool_decide (gt_phase s = GwRunning)) | None => false end = false)
      as ->. { unfold gateway_running in Hr. destruct (gw_status gw); [by rewrite Hr|done]. }
    rewrite (proj1 (cbind_ok _ _ _ _ _ _ Hc)).
    rewrite (proj1 (cbind_ok (ignore_errors (send _ _)) _ w1 _ w1 _ eq_refl)). unfold refresh_connected.
    rewrite (proj1 (cbind_ok (ignore_errors (start_renode_device _ _ _)) _ w1 _ w1 _ eq_refl)). by rewrite Hu. }
  unfold reconcile_stored, reconcile. rewrite Hd, Hs, Hp, (proj1 (cbind_ret _ _ _)), Hw. by apply Hf.
Qed.

Lemma monitor_gateways now timeout w g :
  gw_get (check_heartbeat_timeouts now timeout w).2 g = gw_get w g.
Proof.
  unfold check_heartbeat_timeouts. destruct (dev_list w) as [l|]; [|done]. simpl.
  revert w. induction l as [|d l IH]; intros w; [done|]. simpl. rewrite IH.
  case_match; [|done]. unfold update_apply. destruct (d_name d); [|done]. apply dev_patch_gateways.
Qed.

Lemma refreshed_survives t t' timeout n g w :
  0 <= timeout < 2 ^ 63 -> t' - t < (timeout + 1) * 10 ^ 9 -> refreshed n g t w ->
  held n g (check_heartbeat_timeouts t' timeout w).2.
Proof.
  intros Hr Hlt [(d & s & gr & gw & Hd & Hs & Hp & Hgr & Hn & Hgw & Hrun) (d' & s' & Hd' & Hs' & Hb)].
  rewrite Hd in Hd'. injection Hd' as <-. rewrite Hs in Hs'. injection Hs' as <-.
  assert (view (check_heartbeat_timeouts t' timeout w).2 !! n = Some d) as Hv.
  { destruct (check_heartbeat_timeouts t' timeout w) as [[[]|e] w'] eqn:Ec.
    - destruct (monitor_spec (view := view) t' timeout w w' Ec) as [Hin _].
      destruct (Hin n d Hd) as [[H1 _]|[_ H2]]; [exact H1|].
      unfold overdue in H2. by rewrite (fresh_not_expired t t' timeout d s t Hs Hb eq_refl Hr Hlt) in H2.
    - unfold check_heartbeat_timeouts in Ec. destruct (dev_list w); simplify_eq. exact Hd. }
  exists d, s, gr, gw. rewrite monitor_gateways. done.
Qed.

(** Rounds of one reconciliation at [t] and one monitor pass at [t']. *)
Fixpoint rounds (timeout : Z) (n : string) (ts : list (Z * Z)) w : W :=
  match ts with
  | [] => w
  | (t, t') :: ts => rounds timeout n ts (check_heartbeat_timeouts t' timeout (reconcile_stored t n w)).2
  end.

(** C11: the controller hides dead devices from the heartbeat monitor: a device
    that is stored as Connected through a running gateway stays Connected
    through any number of monitor passes without a single heartbeat of its
    own, as long as each pass follows a reconciliation within the timeout
    (reconciliations are requeued every 30 seconds), because every
    reconciliation of a Connected device stores a fresh heartbeat, whatever
    the gateway answers about its connection. Assumes that the API accepts the
    controller's status patches. *)
Theorem controller_masks_timeout timeout n g ts w :
  ctl_accepts view -> 0 <= timeout < 2 ^ 63 -> held n g w ->
  Forall (fun p => p.2 - p.1 < (timeout + 1) * 10 ^ 9) ts ->
  exists d, view (rounds timeout n ts w) !! n = Some d /\ current_phase d = Connected.
Proof.
  intros Ha Hr Hh Hts. assert (held n g (rounds timeout n ts w)) as (d & s & _ & _ & Hd & Hs & Hp & _).
  { revert w Hh. induction Hts as [|[t t'] ts Hlt _ IH]; intros w Hh; [done|]. simpl. apply IH.
    eapply refreshed_survives; [done|exact Hlt|]. by apply connected_refreshes. }
  exists d. split; [done|]. unfold current_phase. by rewrite Hs.
Qed.

(** A device whose gateway is gone is marked Disconnected, but keeps the
    reference to that gateway: the update carries [None], which is not
    serialised, so the merge patch leaves the stored reference in place, and
    the next reconciliation asks the endpoint of the vanished gateway to
    connect the device. *)
Theorem disconnect_keeps_gateway now now' n d s g m w :
  ctl_accepts view -> view w !! n = Some d -> d_status d = Some s -> ds_phase s = Connected ->
  ds_gateway s = Some g -> gr_endpoint g <> ""%string -> gw_get w (gr_name g) = Err (KApi 404 m) ->
  exists d' s' w', reconcile_stored now n w = w' /\ view w' !! n = Some d' /\ d_status d' = Some s' /\
    ds_phase s' = Disconnected /\ ds_gateway s' = Some g /\
    (reconcile default_hash pause api_server_url renode now' d' w').2 =
      [Post (gr_endpoint g ++ "/api/v1/devices/" ++ n ++ "/connect")].
Proof.
  intros Ha Hd Hs Hp Hg Hne Hgone. pose proof (stored_name _ _ _ Hd) as Hname.
  destruct (update_accepted d (st_gateway None (st_phase Disconnected s)) w n d Ha Hname Hd) as (w' & Hu & Hv & _).
  destruct (wrote_status (st_gateway None (st_phase Disconnected s)) d s Hs) as (s' & Hs' & Hp' & _ & _ & Hg').
  simpl in Hp', Hg'. exists (wrote (st_gateway None (st_phase Disconnected s)) d), s', w'.
  split; [|split; [by rewrite Hv, lookup_insert_eq|]].
  - unfold reconcile_stored, reconcile. rewrite Hd, Hs, Hp, (proj1 (cbind_ret _ _ _)). unfold handle_connected.
    rewrite Hg, (proj1 (cbind_ok (ask _) _ w _ w [] eq_refl)), Hgone. simpl. unfold disconnect. by rewrite Hu.
  - split_and!; [done|done|congruence|]. unfold reconcile. rewrite Hs', Hp'.
    unfold handle_disconnected, request_reconnect, cbind, ignore_errors, send, reconnect_endpoint, gateway_of.
    rewrite Hs', Hg', Hg. rewrite (proj2 (String.eqb_neq _ _) Hne). simpl.
    unfold wrote, merge_patch, name_any in *. simpl. by rewrite Hname.
Qed.

(** The controller writes from the object the watch delivered: a device
    that connects through the gateway while [handle_enrollment] sleeps is
    thrown back to Enrolled when the sleep ends. *)
Theorem stale_enrollment_demotes device s d1 n w gws now :
  ctl_accepts view -> name_any device = n -> d_status device = Some s -> ds_phase s = Enrolling ->
  view (pause w) !! n = Some d1 -> current_phase d1 = Connected ->
  gw_list w = Ok gws -> (exists g, g ∈ gws /\ gateway_running g = true) ->
  exists d', view (reconcile default_hash pause api_server_url renode now device w).1.2 !! n = Some d' /\
    current_phase d' = Enrolled.
Proof.
  intros Ha Hn Hs Hp Hd1 _ Hl (g & Hg & Hr).
  destruct (List.filter gateway_running gws) as [|g0 active] eqn:Ef.
  { exfalso. assert (g ∈ List.filter gateway_running gws) as Hin by (by apply running_filter).
    rewrite Ef in Hin. by apply not_elem_of_nil in Hin. }
  pose proof (enrollment_writes device s d1 n w gws g0 active Ha Hn Hs Hd1 Hl Ef) as Hw.
  unfold reconcile. rewrite Hs, Hp. unfold cbind.
  destruct (handle_enrollment default_hash pause device w) as [[[] w'] out]; simpl in *; eexists; split; try exact Hw; done.
Qed.
End Proofs.

(** ** Witnesses *)

Definition ctl_gateway : GatewayResource :=
  mkGatewayResource (Some "gw-1"%string) (mkGatewaySpec "gw-1-service:8080" None None)
    (Some (mkGatewayStatus GwRunning None None None None)).
Definition ctl_status (p : DevicePhase) : DeviceStatus :=
  mkDeviceStatus p (Some (mkGatewayReference "gw-1" "gw-1-service:8080" None)) None (Some 0) true.
Definition ctl_fleet (s : option DeviceStatus) (gs : gmap string GatewayResource) : fleet :=
  (mkCluster (<["a"%string := sample_device "a" "AQ" s]> ∅) ∅, gs).
Definition ctl_gateways : gmap string GatewayResource := {[ "gw-1"%string := ctl_gateway ]}.
Definition ctl_renode (_ : string) : result string unit := Err "no emulator"%string.
Definition ctl_hash (_ : string) : Z := 12345.

Lemma reconcile_follows_tables_witness :
  let w := ctl_fleet (Some (ctl_status Pending)) ctl_gateways in
  let w' := (reconcile ctl_hash id "http://api" ctl_renode 5 (sample_device "a" "AQ" (Some (ctl_status Pending))) w).1.2 in
  (forall n', n' <> "a"%string -> fleet_view w' !! n' = fleet_view w !! n') /\
  exists d', fleet_view w' !! "a"%string = Some d' /\ current_phase d' = Enrolling.
Proof.
  intros w w'.
  destruct (reconcile_follows_tables (K := fleet_kube) (C := fleet_ctl) (view := fleet_view) ctl_hash id "http://api"
    ctl_renode 5 "a" (sample_device "a" "AQ" (Some (ctl_status Pending))) w) as [Hf _]; [reflexivity|reflexivity|].
  split; [exact Hf|]. eexists. split; vm_compute; reflexivity.
Defined.

Lemma new_device_gets_gateway_witness :
  let w := ctl_fleet None ctl_gateways in
  let step t := reconcile_stored (view := fleet_view) ctl_hash id "http://api" ctl_renode t "a" in
  exists d' s, fleet_view (step 3 (step 2 (step 1 w))) !! "a"%string = Some d' /\ d_status d' = Some s /\
    ds_phase s = Enrolled.
Proof.
  intros w step.
  destruct (new_device_gets_gateway (K := fleet_kube) (C := fleet_ctl) (view := fleet_view) ctl_hash id "http://api"
    ctl_renode 1 2 3 "a" (sample_device "a" "AQ" None) w [ctl_gateway]) as (d' & s & _ & _ & H1 & H2 & H3 & _).
  - apply fleet_accepts.
  - reflexivity.
  - reflexivity.
  - reflexivity.
  - vm_compute. reflexivity.
  - exists ctl_gateway. split; [set_solver|reflexivity].
  - exists d', s. split_and!; [exact H1|exact H2|exact H3].
Defined.

Lemma controller_masks_timeout_witness :
  let w := ctl_fleet (Some (ctl_status Connected)) ctl_gateways in
  let ts := [(10 * 10 ^ 9, 90 * 10 ^ 9); (100 * 10 ^ 9, 180 * 10 ^ 9); (190 * 10 ^ 9, 270 * 10 ^ 9)] in
  exists d, fleet_view (rounds (view := fleet_view) ctl_hash id "http://api" ctl_renode 90 "a" ts w) !! "a"%string = Some d /\
    current_phase d = Connected.
Proof.
  intros w ts.
  apply (controller_masks_timeout (K := fleet_kube) (C := fleet_ctl) (view := fleet_view) ctl_hash id "http://api"
    ctl_renode 90 "a" "gw-1" ts w).
  - apply fleet_accepts.
  - lia.
  - exists (sample_device "a" "AQ" (Some (ctl_status Connected))), (ctl_status Connected). do 2 eexists.
    split_and!; try reflexivity; vm_compute; reflexivity.
  - unfold ts. repeat constructor; simpl; lia.
Defined.

Lemma disconnect_keeps_gateway_witness :
  let w := ctl_fleet (Some (ctl_status Connected)) ∅ in
  exists d' s' w', reconcile_stored (view := fleet_view) ctl_hash id "http://api" ctl_renode 5 "a" w = w' /\
    fleet_view w' !! "a"%string = Some d' /\ d_status d' = Some s' /\ ds_phase s' = Disconnected /\
    ds_gateway s' = Some (mkGatewayReference "gw-1" "gw-1-service:8080" None) /\
    (reconcile ctl_hash id "http://api" ctl_renode 6 d' w').2 =
      [Post ("gw-1-service:8080" ++ "/api/v1/devices/" ++ "a" ++ "/connect")].
Proof.
  intros w.
  apply (disconnect_keeps_gateway (K := fleet_kube) (C := fleet_ctl) (view := fleet_view) ctl_hash id "http://api"
    ctl_renode 5 6 "a" (sample_device "a" "AQ" (Some (ctl_status Connected))) (ctl_status Connected)
    (mkGatewayReference "gw-1" "gw-1-service:8080" None) "not found" w).
  - apply fleet_accepts.
  - reflexivity.
  - reflexivity.
  - reflexivity.
  - reflexivity.
  - discriminate.
  - reflexivity.
Defined.

Lemma stale_enrollment_demotes_witness :
  let w := ctl_fleet (Some (ctl_status Enrolling)) ctl_gateways in
  let pause (_ : fleet) := ctl_fleet (Some (ctl_status Connected)) ctl_gateways in
  exists d', fleet_view (reconcile ctl_hash pause "http://api" ctl_renode 5
      (sample_device "a" "AQ" (Some (ctl_status Enrolling))) w).1.2 !! "a"%string = Some d' /\
    current_phase d' = Enrolled.
Proof.
  intros w pause.
  apply (stale_enrollment_demotes (K := fleet_kube) (C := fleet_ctl) (view := fleet_view) ctl_hash pause "http://api"
    ctl_renode (sample_device "a" "AQ" (Some (ctl_status Enrolling))) (ctl_status Enrolling)
    (sample_device "a" "AQ" (Some (ctl_status Connected))) "a" w [ctl_gateway] 5).
  - apply fleet_accepts.
  - reflexivity.
  - reflexivity.
  - reflexivity.
  - reflexivity.
  - reflexivity.
  - vm_compute. reflexivity.
  - exists ctl_gateway. split; [set_solver|reflexivity].
Defined.
