(* ===== verification/DeviceControllerSpec.v ===== *)
(** * The device controller's specification

    What one reconciliation leaves behind, for every stored status and every
    answer about the gateways: the status of the device, the requests sent and
    the result. The specification is written with the fields of the stored
    status and shares no definition with the handlers; [reconcile_outcome] shows
    that [reconcile] implements it. *)

From S2P Require Import Prelude.
From S2P Require Import RustStd.
From S2P Require Import Externals.
From S2P Require Import K8s.
From S2P Require Import KubeStore.
From S2P Require Import K8sProofs.
From S2P Require Import ControllerApi.
From S2P Require Import DeviceController.
From S2P Require Import DeviceControllerProofs.

Section Spec.
Context {W : Type} `{K : Kube W} `{C : CtlKube W} {view : W -> gmap string Device}.
Context `{L : !KubeStoreLaws K view} `{LC : !CtlLaws K C view}.
Context (default_hash : string -> Z) (pause : W -> W) (api_server_url : string) (renode : string -> result string unit).
Implicit Types (w : W) (d : Device) (n : string) (s : DeviceStatus) (g : GatewayResource).

(** ** The gateways *)

Definition in_phase (p : GatewayPhase) g : Prop := exists st, gw_status g = Some st /\ gt_phase st = p.

Definition runs w g : Prop := exists gws, gw_list w = Ok gws /\ g ∈ gws /\ in_phase GwRunning g.

(** A running gateway, the preferred one whenever that one runs. *)
Definition eligible w d g : Prop :=
  runs w g /\ forall p, preferred_gateway (d_spec d) = Some p ->
    (exists g', runs w g' /\ gw_name_any g' = p) -> gw_name_any g = p.

(** The reference to [g] after the patch: the time the device connected stays. *)
Definition reference_to g s : option GatewayReference :=
  Some (mkGatewayReference (gw_name_any g) (gs_endpoint (gw_spec g))
          (match ds_gateway s with Some old => gr_connected_at old | None => None end)).

(** The device has a gateway with an endpoint, the preferred one if it prefers one. *)
Definition attached d s : Prop :=
  exists gr, ds_gateway s = Some gr /\ gr_endpoint gr <> ""%string /\
    forall p, preferred_gateway (d_spec d) = Some p -> gr_name gr = p.

(** The gateway was deleted, or is stored in another phase than Running. *)
Definition gateway_gone w (name : string) : Prop :=
  (exists m, gw_get w name = Err (KApi 404 m)) \/
  exists g p, gw_get w name = Ok g /\ in_phase p g /\ p <> GwRunning.

Definition fallback_endpoint : string := "http://gateway-1-service.wasmbed.svc.cluster.local:8080".
Definition endpoint_or_fallback (e : string) : string := if bool_decide (e = ""%string) then fallback_endpoint else e.

(** Where a lost device is registered again: at the endpoint it is stored
    with, else at the first running gateway, else at the fallback. *)
Inductive reconnects_at w s : string -> Prop :=
| at_stored gr : ds_gateway s = Some gr -> reconnects_at w s (endpoint_or_fallback (gr_endpoint gr))
| at_first gws before g after :
    ds_gateway s = None -> gw_list w = Ok gws -> gws = before ++ g :: after ->
    Forall (fun g' => ~ in_phase GwRunning g') before -> in_phase GwRunning g ->
    reconnects_at w s (endpoint_or_fallback (gs_endpoint (gw_spec g)))
| at_fallback : ds_gateway s = None -> (forall g, ~ runs w g) -> reconnects_at w s fallback_endpoint.

(** The URL asked for the connections of a gateway. *)
Definition listing_url (e : string) : string :=
  if bool_decide (e = ""%string) then fallback_endpoint ++ "/api/v1/devices"
  else if starts_with "http://" e || starts_with "https://" e then e ++ "/api/v1/devices"
  else "http://" ++ e ++ "/api/v1/devices".

(** ** One reconciliation *)

Definition emulator_start n : request := Post (api_server_url ++ "/api/v1/devices/" ++ n ++ "/renode/start").

Definition emulator_answer n : result controller_error Z :=
  match renode n with Ok _ => Ok 30 | Err m => Err (CtlError m) end.

Inductive reconciled (now : Z) n w d : option DeviceStatus -> list request -> result controller_error Z -> Prop :=
| initialised : d_status d = None ->
    reconciled now n w d (Some (mkDeviceStatus Pending None None None false)) [] (Ok 30)
| starts_enrolling s : d_status d = Some s -> ds_phase s = Pending ->
    reconciled now n w d
      (Some (mkDeviceStatus Enrolling (ds_gateway s) (ds_connected_since s) (ds_last_heartbeat s) (ds_pairing_mode s))) [] (Ok 30)
| enrolls s g : d_status d = Some s -> ds_phase s = Enrolling -> eligible w d g ->
    reconciled now n w d
      (Some (mkDeviceStatus Enrolled (reference_to g s) (ds_connected_since s) (ds_last_heartbeat s) true)) [] (Ok 30)
| waits s gws : d_status d = Some s -> ds_phase s = Enrolling -> gw_list w = Ok gws -> (forall g, ~ runs w g) ->
    reconciled now n w d (Some s) [] (Ok 30)
| cannot_list s e : d_status d = Some s ->
    ds_phase s = Enrolling \/ ds_phase s = Enrolled /\ ~ attached d s -> gw_list w = Err e ->
    reconciled now n w d (Some s) [] (Err (KubeError e))
| starts_emulator s : d_status d = Some s -> ds_phase s = Enrolled -> attached d s ->
    reconciled now n w d (Some s) [emulator_start n] (emulator_answer n)
| attaches s g : d_status d = Some s -> ds_phase s = Enrolled -> ~ attached d s -> eligible w d g ->
    reconciled now n w d
      (Some (mkDeviceStatus Enrolled (reference_to g s) (ds_connected_since s) (ds_last_heartbeat s) true))
      [emulator_start n] (emulator_answer n)
| unattached s gws : d_status d = Some s -> ds_phase s = Enrolled -> ~ attached d s ->
    gw_list w = Ok gws -> (forall g, ~ runs w g) ->
    reconciled now n w d (Some s) [emulator_start n] (emulator_answer n)
| disconnects s gr : d_status d = Some s -> ds_phase s = Connected -> ds_gateway s = Some gr ->
    gateway_gone w (gr_name gr) ->
    reconciled now n w d
      (Some (mkDeviceStatus Disconnected (ds_gateway s) (ds_connected_since s) (ds_last_heartbeat s) (ds_pairing_mode s))) [] (Ok 30)
| refreshes s out : d_status d = Some s -> ds_phase s = Connected ->
    match ds_gateway s with
    | None => out = []
    | Some gr => ~ gateway_gone w (gr_name gr) /\
        out = (if is_ok (gw_get w (gr_name gr)) then [Get (listing_url (gr_endpoint gr))] else [])
    end ->
    reconciled now n w d
      (Some (mkDeviceStatus Connected (ds_gateway s) (ds_connected_since s) (Some now) (ds_pairing_mode s)))
      (out ++ [emulator_start n]) (Ok 30)
| reconnects s e : d_status d = Some s -> ds_phase s = Disconnected \/ ds_phase s = Unreachable -> reconnects_at w s e ->
    reconciled now n w d (Some s) [Post (e ++ "/api/v1/devices/" ++ n ++ "/connect")] (Ok 30).

(** [c], run in [w] where [d] is stored as [n], stores the status [st] for it
    and nothing else. *)
Definition leaves {A} n d w (c : ctl W A) (st : option DeviceStatus) (out : list request) (r : result controller_error A) : Prop :=
  exists w' d', c w = (r, w', out) /\ view w' = <[n := d']> (view w) /\ d_status d' = st /\
    d_name d' = d_name d /\ d_namespace d' = d_namespace d /\ d_spec d' = d_spec d.

(** ** Sequencing *)

Lemma leaves_same {A} n d w (c : ctl W A) out r :
  view w !! n = Some d -> c w = (r, w, out) -> leaves n d w c (d_status d) out r.
Proof. intros Hd Hc. exists w, d. split_and!; try done. by rewrite insert_id. Qed.

Lemma leaves_then {A B} n d w (c : ctl W A) (k : A -> ctl W B) a st out st' out' r :
  leaves n d w c st out (Ok a) ->
  (forall w' d', view w' !! n = Some d' -> d_name d' = d_name d -> d_status d' = st -> leaves n d' w' (k a) st' out' r) ->
  leaves n d w (cbind c k) st' (out ++ out') r.
Proof.
  intros (w1 & d1 & Hc & Hv & Hs & Hn & Hns & Hsp) Hk.
  destruct (Hk w1 d1) as (w2 & d2 & Hc2 & Hv2 & Hs2 & Hn2 & Hns2 & Hsp2); [by rewrite Hv, lookup_insert_eq|done|done|].
  exists w2, d2. split_and!; try congruence.
  - unfold cbind. by rewrite Hc, Hc2.
  - by rewrite Hv2, Hv, insert_insert_eq.
Qed.

Lemma leaves_finish {A} n d w (c : ctl W A) st out r :
  leaves n d w c st out r ->
  leaves n d w (cbind c (fun _ => cret 30)) st out (match r with Ok _ => Ok 30 | Err e => Err e end).
Proof.
  intros (w1 & d1 & Hc & H). exists w1, d1. split; [|done]. unfold cbind. rewrite Hc. destruct r; simpl; by rewrite ?app_nil_r.
Qed.

Lemma leaves_ignoring {A} n d w (c : ctl W A) st out r :
  leaves n d w c st out r -> leaves n d w (ignore_errors c) st out (Ok tt).
Proof. intros (w1 & d1 & Hc & H). exists w1, d1. split; [|done]. unfold ignore_errors. by rewrite Hc. Qed.

(** ** Updates *)

Definition or_else {A} (new old : option A) : option A := match new with Some _ => new | None => old end.

(** An accepted patch made from the object [device], which need not be the
    one that is stored. *)
Lemma leaves_update n device d x w :
  ctl_accepts view -> view w !! n = Some d -> d_name device = d_name d ->
  let s := default (mkDeviceStatus Pending None None None false) (d_status d) in
  leaves n d w (update_device_status device x)
    (Some (mkDeviceStatus (ds_phase x)
             (match ds_gateway x with Some g => Some (merge_gateway (ds_gateway s) g) | None => ds_gateway s end)
             (or_else (ds_connected_since x) (ds_connected_since s))
             (or_else (ds_last_heartbeat x) (ds_last_heartbeat s)) (ds_pairing_mode x))) [] (Ok tt).
Proof.
  intros Ha Hd Hn s. pose proof (stored_name (K := K) (view := view) _ _ _ Hd) as Hname.
  destruct (update_accepted (K := K) device x w n d Ha) as (w' & Hu & Hv & _); [by unfold name_any in *; rewrite Hn|done|].
  exists w', (wrote x d). split_and!; try done.
  unfold wrote, merge_patch, merge_device_status. simpl. fold s. do 2 f_equal.
  - by destruct (ds_gateway x).
  - by destruct (ds_connected_since x).
  - by destruct (ds_last_heartbeat x).
Qed.

Lemma merge_gateway_same gr : merge_gateway (Some gr) gr = gr.
Proof. destruct gr as [? ? []]; done. Qed.

Lemma or_else_same {A} (o : option A) : or_else o o = o.
Proof. by destruct o. Qed.

(** ** The choice of a gateway *)

Lemma running_in_phase g : gateway_running g = true <-> in_phase GwRunning g.
Proof.
  unfold gateway_running, in_phase. destruct (gw_status g) as [st|]; [|split; [done|by intros (? & ? & _)]].
  rewrite bool_decide_eq_true. split; [eauto|]. by intros (st' & [= <-] & ?).
Qed.

Lemma runs_filter w gws g : gw_list w = Ok gws -> runs w g <-> g ∈ List.filter gateway_running gws.
Proof.
  intros Hl. rewrite running_filter, running_in_phase. split; [|intros []; by exists gws].
  by intros (gws' & Hl' & Hin & Hp); rewrite Hl in Hl'; injection Hl' as <-.
Qed.

Lemma no_runs w gws : gw_list w = Ok gws -> List.filter gateway_running gws = [] -> forall g, ~ runs w g.
Proof. intros Hl Hf g. rewrite (runs_filter w gws g Hl), Hf. apply not_elem_of_nil. Qed.

Lemma select_eligible w gws d g0 active :
  gw_list w = Ok gws -> List.filter gateway_running gws = g0 :: active ->
  eligible w d (select_gateway default_hash d g0 (g0 :: active)).
Proof.
  intros Hl Hf. destruct (select_gateway_spec default_hash d g0 active) as [Hin Hpref]. split.
  - by rewrite (runs_filter w gws _ Hl), Hf.
  - intros p Hp (g' & Hr & Hn). apply Hpref; [done|]. exists g'. by rewrite <- Hf, <- (runs_filter w gws g' Hl).
Qed.

Lemma needs_gateway_attached d s : needs_gateway d s = false <-> attached d s.
Proof.
  unfold needs_gateway, attached. rewrite !orb_false_iff. destruct (ds_gateway s) as [gr|]; simpl.
  2:{ split; [by intros [[? _] _]|by intros (? & ? & _)]. }
  rewrite String.eqb_neq. split.
  - intros [[_ He] Hp]. exists gr. split_and!; [done|done|]. intros p Heq. rewrite Heq in Hp.
    apply negb_false_iff, bool_decide_eq_true in Hp. congruence.
  - intros (gr' & [= <-] & He & Hp). split_and!; [done|done|].
    destruct (preferred_gateway (d_spec d)) as [p|]; [|done]. rewrite (Hp p eq_refl).
    by rewrite bool_decide_eq_true_2.
Qed.

(** Storing the chosen gateway. *)
Lemma leaves_assign n d s g p w :
  ctl_accepts view -> view w !! n = Some d -> d_status d = Some s ->
  leaves n d w (update_device_status d (assign g (st_phase p s)))
    (Some (mkDeviceStatus p (reference_to g s) (ds_connected_since s) (ds_last_heartbeat s) true)) [] (Ok tt).
Proof.
  intros Ha Hd Hs. pose proof (leaves_update n d d (assign g (st_phase p s)) w Ha Hd eq_refl) as H.
  rewrite Hs in H. simpl in H. rewrite !or_else_same in H. unfold reference_to, merge_gateway in *. simpl in H.
  by destruct (ds_gateway s).
Qed.

(** ** The handlers *)

Section Handlers.
Context (now : Z) n d s w (Ha : ctl_accepts view) (Hd : view w !! n = Some d) (Hs : d_status d = Some s).
Context (Hpause : forall w, view (pause w) = view w).

(** What the handler of a phase is shown to do. *)
Definition handled (c : ctl W unit) : Prop :=
  exists st out r, leaves n d w c st out r /\
    reconciled now n w d st out (match r with Ok _ => Ok 30 | Err e => Err e end).

Lemma handled_ok c st out : leaves n d w c st out (Ok tt) -> reconciled now n w d st out (Ok 30) -> handled c.
Proof. by intros; exists st, out, (Ok tt). Qed.

Lemma handled_err c st out e : leaves n d w c st out (Err e) -> reconciled now n w d st out (Err e) -> handled c.
Proof. by intros; exists st, out, (Err e). Qed.

Lemma handled_pending : ds_phase s = Pending -> handled (handle_pending d).
Proof.
  intros Hp. eapply handled_ok; [|eapply starts_enrolling; eauto]. unfold handle_pending, base_status. rewrite Hs.
  pose proof (leaves_update n d d (st_phase Enrolling s) w Ha Hd eq_refl) as H.
  rewrite Hs in H. simpl in H. rewrite !or_else_same in H. simpl.
  destruct (ds_gateway s) as [gr|]; [by rewrite merge_gateway_same in H|done].
Qed.

Lemma handled_enrollment : ds_phase s = Enrolling -> handled (handle_enrollment default_hash pause d).
Proof.
  intros Hp. unfold handle_enrollment, base_status. rewrite Hs.
  destruct (gw_list w) as [gws|e] eqn:Hl.
  2:{ eapply handled_err; [eapply leaves_same; [done|]|rewrite Hs; eapply cannot_list; eauto].
      unfold cbind, ask_or_fail. by rewrite Hl. }
  destruct (List.filter gateway_running gws) as [|g0 active] eqn:Hf.
  { eapply handled_ok; [eapply leaves_same; [done|]|rewrite Hs; eapply (waits _ _ _ _ s gws); eauto using no_runs].
    unfold cbind, ask_or_fail. by rewrite Hl, Hf. }
  eapply handled_ok; [|eapply (enrolls _ _ _ _ s); eauto using select_eligible].
  destruct (leaves_assign n d s (select_gateway default_hash d g0 (g0 :: active)) Enrolled (pause w) Ha)
    as (w' & d' & Hc & Hv & H); [by rewrite Hpause|done|].
  exists w', d'. split; [|by rewrite Hv, Hpause]. unfold cbind, ask_or_fail, sleep. rewrite Hl, Hf. simpl. by rewrite Hc.
Qed.

Lemma leaves_emulator d' w' : view w' !! n = Some d' -> name_any d = n ->
  leaves n d' w' (start_renode_device api_server_url renode d) (d_status d') [emulator_start n]
    (match renode n with Ok _ => Ok tt | Err m => Err (CtlError m) end).
Proof.
  intros Hd' Hn. apply leaves_same; [done|]. unfold start_renode_device, send, emulator_start. rewrite Hn.
  by destruct (renode n) as [[]|].
Qed.

Lemma handled_enrolled : ds_phase s = Enrolled -> handled (handle_enrolled default_hash api_server_url renode d).
Proof.
  intros Hp. pose proof (stored_name (K := K) (view := view) _ _ _ Hd) as Hname.
  assert (forall st c, leaves n d w c st [] (Ok tt) ->
    reconciled now n w d st [emulator_start n] (emulator_answer n) ->
    handled (cbind c (fun _ => start_renode_device api_server_url renode d))) as Hthen.
  { intros st c Hc Hr. exists st, [emulator_start n]. eexists. split.
    - apply (leaves_then n d w _ _ tt st []); [exact Hc|]. intros w' d' Hd' _ <-. by apply leaves_emulator.
    - unfold emulator_answer in Hr. by destruct (renode n). }
  unfold handle_enrolled, base_status. rewrite Hs. simpl.
  destruct (needs_gateway d s) eqn:Hneed.
  2:{ apply (Hthen (d_status d)); [by apply leaves_same|]. rewrite Hs. apply needs_gateway_attached in Hneed.
      by apply starts_emulator. }
  assert (~ attached d s) as Hna by (by rewrite <- needs_gateway_attached, Hneed).
  destruct (gw_list w) as [gws|e] eqn:Hl.
  2:{ eapply handled_err; [apply leaves_same; [done|]|rewrite Hs; eapply cannot_list; eauto].
      unfold cbind, ask_or_fail. by rewrite Hl. }
  destruct (List.filter gateway_running gws) as [|g0 active] eqn:Hf.
  - apply (Hthen (d_status d)); [|rewrite Hs; eapply (unattached _ _ _ _ s gws); eauto using no_runs].
    apply leaves_same; [done|]. unfold cbind, ask_or_fail. by rewrite Hl, Hf.
  - eapply Hthen; [|eapply (attaches _ _ _ _ s); eauto using select_eligible].
    pose proof (leaves_assign n d s (select_gateway default_hash d g0 (g0 :: active)) Enrolled w Ha Hd Hs)
      as (w' & d' & Hc & H). exists w', d'. split; [|done]. unfold cbind, ask_or_fail. rewrite Hl, Hf. simpl.
    unfold st_phase in Hc. rewrite <- Hp in Hc. destruct s. simpl in *. by rewrite Hc.
Qed.

(** Marking the device Disconnected: the reference to the gateway is not part
    of the patch. *)
Lemma handled_disconnect gr : ds_phase s = Connected -> ds_gateway s = Some gr -> gateway_gone w (gr_name gr) ->
  handled (disconnect d s).
Proof.
  intros Hp Hg Hgone. eapply handled_ok; [|by eapply disconnects].
  pose proof (leaves_update n d d (st_gateway None (st_phase Disconnected s)) w Ha Hd eq_refl) as H.
  rewrite Hs in H. simpl in H. by rewrite !or_else_same in H.
Qed.

(** The end of [handle_connected], when the stored reference still agrees
    with the watched one up to its endpoint. *)
Lemma leaves_refresh w' d' s' :
  view w' !! n = Some d' -> d_name d' = d_name d -> d_status d' = Some s' ->
  ds_connected_since s' = ds_connected_since s -> ds_phase s = Connected ->
  match ds_gateway s with
  | None => ds_gateway s' = None
  | Some gr => exists e, ds_gateway s' = Some (mkGatewayReference (gr_name gr) e (gr_connected_at gr))
  end ->
  leaves n d' w' (refresh_connected api_server_url renode now d s)
    (Some (mkDeviceStatus Connected (ds_gateway s) (ds_connected_since s) (Some now) (ds_pairing_mode s)))
    [emulator_start n] (Ok tt).
Proof.
  intros Hd' Hn' Hs' Hc Hp Hg. pose proof (stored_name (K := K) (view := view) _ _ _ Hd) as Hname.
  apply (leaves_then n d' w' _ _ tt (d_status d') [emulator_start n] _ []).
  { eapply leaves_ignoring. by apply leaves_emulator. }
  intros w2 d2 Hd2 Hn2 Hs2.
  pose proof (leaves_update n d d2 (st_heartbeat (Some now) s) w2 Ha Hd2 ltac:(congruence)) as H.
  rewrite Hs2, Hs' in H. simpl in H. rewrite Hc, or_else_same, Hp in H.
  destruct (ds_gateway s) as [[nm ep at_]|]; [destruct Hg as [e Hg]|]; rewrite Hg in H; [|done].
  by destruct at_.
Qed.

Lemma leaves_check_endpoint gr : ds_phase s = Connected -> ds_gateway s = Some gr ->
  exists (url e : string), (url ++ "/api/v1/devices")%string = listing_url (gr_endpoint gr) /\
    leaves n d w (check_endpoint d s gr)
      (Some (mkDeviceStatus Connected (Some (mkGatewayReference (gr_name gr) e (gr_connected_at gr)))
               (ds_connected_since s) (ds_last_heartbeat s) (ds_pairing_mode s))) [] (Ok url).
Proof.
  intros Hp Hg. unfold check_endpoint, listing_url.
  destruct (String.eqb_spec (gr_endpoint gr) "") as [He|He].
  - rewrite bool_decide_eq_true_2 by done. exists fallback_endpoint, fallback_endpoint. split; [done|].
    apply (leaves_then n d w _ _ tt (Some (mkDeviceStatus Connected
      (Some (mkGatewayReference (gr_name gr) fallback_endpoint (gr_connected_at gr)))
      (ds_connected_since s) (ds_last_heartbeat s) (ds_pairing_mode s))) [] _ []).
    2:{ intros w' d' Hd' _ <-. by apply leaves_same. }
    eapply leaves_ignoring.
    pose proof (leaves_update n d d (st_gateway (Some (mkGatewayReference (gr_name gr) default_endpoint
      (gr_connected_at gr))) s) w Ha Hd eq_refl) as H.
    rewrite Hs in H. simpl in H. rewrite !or_else_same, Hp, Hg in H. unfold merge_gateway in H. simpl in H.
    by destruct (gr_connected_at gr).
  - rewrite bool_decide_eq_false_2 by done.
    assert (d_status d = Some (mkDeviceStatus Connected (Some (mkGatewayReference (gr_name gr) (gr_endpoint gr) (gr_connected_at gr)))
      (ds_connected_since s) (ds_last_heartbeat s) (ds_pairing_mode s))) as Hs'.
    { rewrite Hs. f_equal. destruct s, gr. simpl in *. congruence. }
    destruct (_ || _); eexists _, _; (split; [|rewrite <- Hs'; by apply leaves_same]); [done|].
    by rewrite <- string_app_assoc.
Qed.

Lemma handled_refresh : ds_phase s = Connected ->
  match ds_gateway s with
  | None => True
  | Some gr => ~ gateway_gone w (gr_name gr) /\ is_ok (gw_get w (gr_name gr)) = false
  end -> handled (refresh_connected api_server_url renode now d s).
Proof.
  intros Hp Hg. eapply (handled_ok _ _ ([] ++ [_])); [|eapply (refreshes _ _ _ _ s []); try done].
  - apply (leaves_refresh w d s); try done. destruct (ds_gateway s) as [[]|]; eauto.
  - destruct (ds_gateway s); [|done]. destruct Hg as [? ->]. done.
Qed.

Lemma handled_connected : ds_phase s = Connected -> handled (handle_connected api_server_url renode now d s).
Proof.
  intros Hp. unfold handle_connected. destruct (ds_gateway s) as [gr|] eqn:Hg.
  2:{ apply handled_refresh; [done|]. by rewrite Hg. }
  assert (forall k, handled (k (gw_get w (gr_name gr))) ->
    handled (cbind (ask (fun w => gw_get w (gr_name gr))) k)) as Hask.
  { intros k (st & out & r & (w' & d' & Hc & H) & Hr). exists st, out, r. split; [|done]. exists w', d'.
    split; [|done]. unfold cbind, ask. by rewrite Hc. }
  apply Hask. destruct (gw_get w (gr_name gr)) as [gw|e] eqn:Hgw.
  - destruct (match gw_status gw with Some _ => _ | None => _ end) eqn:Hph.
    + apply (handled_disconnect gr); [done|done|]. right. destruct (gw_status gw) as [st|] eqn:Hst; [|done].
      exists gw, (gt_phase st). split_and!; [done|by exists st|]. by apply negb_true_iff, bool_decide_eq_false in Hph.
    + destruct (leaves_check_endpoint gr Hp Hg) as (url & e & Hurl & Hc).
      eapply (handled_ok _ _ ([_] ++ [_])); [|eapply (refreshes _ _ _ _ s [_]); try done].
      * apply (leaves_then n d w _ _ url _ [] _ _ _ Hc). intros w1 d1 Hd1 Hn1 Hs1.
        apply (leaves_then n d1 w1 _ _ tt (d_status d1) [Get (url ++ "/api/v1/devices")%string]).
        { by apply leaves_same. }
        intros w2 d2 Hd2 Hn2 Hs2. eapply leaves_refresh; [done|congruence|by rewrite Hs2|done|done|].
        rewrite Hg. by exists e.
      * rewrite Hg, Hgw, Hurl. split; [|done]. intros [[m Hm]|(g' & p & Hg' & (st & Hst & <-) & Hne)]; [congruence|].
        assert (g' = gw) as -> by congruence. rewrite Hst in Hph. by rewrite bool_decide_eq_false_2 in Hph.
  - assert (~ (exists m, e = KApi 404 m) -> handled (refresh_connected api_server_url renode now d s)) as Href.
    { intros He. apply handled_refresh; [done|]. rewrite Hg, Hgw. split; [|done].
      intros [[m Hm]|(g' & p & Hg' & _)]; [|congruence]. apply He. exists m. congruence. }
    destruct e as [code m| |]; [|apply Href; by intros [? ?]..].
    destruct (Z.eqb_spec code 404) as [->|Hne].
    + apply (handled_disconnect gr); [done|done|]. left. by exists m.
    + apply Href. intros [m' [= Heq]]. done.
Qed.

Lemma find_first (gws : list GatewayResource) g : List.find gateway_running gws = Some g ->
  exists before after, gws = before ++ g :: after /\ Forall (fun g' => ~ in_phase GwRunning g') before /\ in_phase GwRunning g.
Proof.
  induction gws as [|g' gws IH]; [done|]. simpl. destruct (gateway_running g') eqn:E.
  - intros [= <-]. exists [], gws. split_and!; [done|constructor|by apply running_in_phase].
  - intros Hf. destruct (IH Hf) as (before & after & -> & Hb & Hg). exists (g' :: before), after.
    split_and!; [done|constructor; [by rewrite <- running_in_phase, E|done]|done].
Qed.

Lemma reconnect_endpoint_spec : reconnects_at w s (reconnect_endpoint d w).
Proof.
  assert (forall e, (if String.eqb e "" then default_endpoint else e) = endpoint_or_fallback e) as Hor.
  { intros e. unfold endpoint_or_fallback. destruct (String.eqb_spec e ""); [by rewrite bool_decide_eq_true_2|by rewrite bool_decide_eq_false_2]. }
  unfold reconnect_endpoint, gateway_of. rewrite Hs. destruct (ds_gateway s) as [gr|] eqn:Hg.
  { rewrite Hor. by apply at_stored. }
  destruct (gw_list w) as [gws|e] eqn:Hl.
  2:{ apply at_fallback; [done|]. intros g (gws & Hl' & _). congruence. }
  destruct (List.find gateway_running gws) as [g|] eqn:Hf.
  - rewrite Hor. destruct (find_first gws g Hf) as (before & after & Heq & Hb & Hrun). by eapply at_first.
  - apply at_fallback; [done|]. intros g Hr. rewrite (runs_filter w gws g Hl), running_filter in Hr.
    destruct Hr as [Hin%list_elem_of_In Hr]. by rewrite (List.find_none _ _ Hf g Hin) in Hr.
Qed.

Lemma handled_lost : ds_phase s = Disconnected \/ ds_phase s = Unreachable -> handled (request_reconnect d).
Proof.
  intros Hp. pose proof (stored_name (K := K) (view := view) _ _ _ Hd) as Hname.
  eapply handled_ok; [eapply leaves_same; [done|]|rewrite Hs; eapply reconnects; eauto using reconnect_endpoint_spec].
  unfold request_reconnect, ignore_errors, send. by rewrite Hname.
Qed.
End Handlers.

(** C35: One reconciliation of the stored object, when the API accepts the status
    patches and nobody writes the Device while the controller sleeps: the only
    Device that changes is this one, only in its status, and its new status,
    the requests sent, in order, and the result are the ones the specification
    gives for the stored status and the gateways. A new device becomes Pending;
    Pending becomes Enrolling; Enrolling becomes Enrolled with a reference to a
    running gateway, the preferred one if it runs, or waits; Enrolled gets such
    a gateway if it has none (or not the preferred one) and its emulator is
    started; Connected becomes Disconnected, the reference kept, exactly when
    its gateway was deleted or is not Running, and otherwise gets a fresh
    heartbeat whatever the gateway says of it; Disconnected and Unreachable are
    registered again at their gateway. *)
Theorem reconcile_outcome (now : Z) n d w :
  ctl_accepts view -> (forall w, view (pause w) = view w) -> view w !! n = Some d ->
  exists r w' out d', reconcile default_hash pause api_server_url renode now d w = (r, w', out) /\
    view w' = <[n := d']> (view w) /\ d_name d' = d_name d /\ d_namespace d' = d_namespace d /\ d_spec d' = d_spec d /\
    reconciled now n w d (d_status d') out r.
Proof.
  intros Ha Hpause Hd.
  assert (forall c, handled now n d w c -> exists r w' out d', cbind c (fun _ => cret requeue_secs) w = (r, w', out) /\
    view w' = <[n := d']> (view w) /\ d_name d' = d_name d /\ d_namespace d' = d_namespace d /\ d_spec d' = d_spec d /\
    reconciled now n w d (d_status d') out r) as Hdone.
  { intros c (st & out & r & (w' & d' & Hc & Hv & Hst & H)%leaves_finish & Hr). eexists _, w', out, d'.
    destruct H as (? & ? & ?). split_and!; try done. by rewrite Hst. }
  unfold reconcile. apply Hdone. destruct (d_status d) as [s|] eqn:Hs.
  2:{ eapply handled_ok; [|by apply initialised].
      pose proof (leaves_update n d d (mkDeviceStatus Pending None None None false) w Ha Hd eq_refl) as H. by rewrite Hs in H. }
  destruct (ds_phase s) eqn:Hp;
    eauto using handled_pending, handled_enrollment, handled_enrolled, handled_connected, handled_lost.
Qed.

End Spec.

(** ** Witness *)

(** Evaluate the reconciliation and read the stored device. *)
Ltac stored_outcome Hr Hv H :=
  vm_compute in Hr; injection Hr as <- <- <-; apply (f_equal (lookup "a"%string)) in Hv;
  rewrite lookup_insert_eq in Hv; vm_compute in Hv; injection Hv as <-; exact H.

(** A device stored as Connected through a running gateway, then through a
    gateway that was deleted. *)
Lemma reconcile_outcome_witness :
  let d := sample_device "a" "AQ" (Some (ctl_status Connected)) in
  reconciled "http://api" ctl_renode 5 "a" (ctl_fleet (Some (ctl_status Connected)) ctl_gateways) d
    (Some (st_heartbeat (Some 5) (ctl_status Connected)))
    [Get "http://gw-1-service:8080/api/v1/devices"; Post "http://api/api/v1/devices/a/renode/start"] (Ok 30) /\
  reconciled "http://api" ctl_renode 5 "a" (ctl_fleet (Some (ctl_status Connected)) ∅) d
    (Some (ctl_status Disconnected)) [] (Ok 30).
Proof.
  intros d. split.
  - destruct (reconcile_outcome (K := fleet_kube) (C := fleet_ctl) (view := fleet_view) ctl_hash id "http://api" ctl_renode 5
      "a" d (ctl_fleet (Some (ctl_status Connected)) ctl_gateways)) as (r & w' & out & d' & Hr & Hv & _ & _ & _ & H);
      [apply fleet_accepts|done|reflexivity|by stored_outcome Hr Hv H].
  - destruct (reconcile_outcome (K := fleet_kube) (C := fleet_ctl) (view := fleet_view) ctl_hash id "http://api" ctl_renode 5
      "a" d (ctl_fleet (Some (ctl_status Connected)) ∅)) as (r & w' & out & d' & Hr & Hv & _ & _ & _ & H);
      [apply fleet_accepts|done|reflexivity|by stored_outcome Hr Hv H].
Defined.
