(* ===== verification/AppController.v ===== *)
(** * The application controller: [crates/wasmbed-application-controller/src/main.rs]

    One definition per handler, over the cluster and the controller's own map
    of phases. [Application::status] always answers [None], so the phase a
    reconciliation acts on is the one in that map. *)

From S2P Require Import Prelude.
From S2P Require Import RustStd.
From S2P Require Import K8s.
From S2P Require Import KubeStore.
From S2P Require Import ControllerApi.
From S2P Require Import DeviceController.

(** ** Requests *)

(** [patch_status] and [patch] of [Api<Application>] with a whole status. *)
Class AppKube (W : Type) := {
  app_put_status : W -> string -> CrdAppStatus -> result kube_error unit * W;
  app_put : W -> string -> CrdAppStatus -> result kube_error unit * W;
}.

(** Absent optional fields of the status are serialised as null, so the phase,
    the error and the statistics are what the patch says; the entries of
    single devices are merged. *)
Definition patched (s : CrdAppStatus) (a a' : Application) : Prop :=
  a_name a' = a_name a /\ a_spec a' = a_spec a /\
  exists s', a_status a' = Some s' /\ as_phase s' = as_phase s /\ as_error s' = as_error s /\
    as_statistics s' = as_statistics s.

Class AppLaws {W} (K : Kube W) (A : AppKube W) : Prop := {
  app_put_status_ok w n s w' : app_put_status w n s = (Ok tt, w') -> exists a a',
    app_get w n = Ok a /\ patched s a a' /\ app_get w' n = Ok a' /\ dev_list w' = dev_list w;
}.

(** The API accepts every status patch of a stored Application. *)
Definition app_accepts {W} `{Kube W} `{AppKube W} : Prop :=
  forall w n s a, app_get w n = Ok a -> is_ok (app_put_status w n s).1 = true.

(** The answer of a gateway to a deployment request. *)
Inductive http_outcome :=
| SendFailed (e : string)
| BadStatus (status body : string)
| BadJson (e : string)
| Answer (success : option bool) (error : option string).

Definition app_name_any (a : Application) : string := default "" (a_name a).

(** ** Where a deployment is sent *)

Definition service_endpoint (gateway_name : string) : string :=
  (gateway_name ++ "-service.wasmbed.svc.cluster.local:8080")%string.

(** The endpoint of a device's gateway; [fallback] is the controller's own
    [gateway_endpoint]. *)
Definition device_endpoint (fallback : string) (device : Device) : string :=
  match gateway_of device with
  | Some g =>
      let endpoint := trim (gr_endpoint g) in
      if String.eqb endpoint "" then service_endpoint (gr_name g)
      else if starts_with "127.0.0.1:" endpoint || starts_with "localhost:" endpoint
      then service_endpoint (gr_name g)
      else endpoint
  | None => fallback
  end.

(** Without a scheme and with the HTTP port. *)
Definition http_endpoint (gateway_endpoint : string) : string :=
  let e := trim_start_matches "https://" (trim_start_matches "http://" (trim gateway_endpoint)) in
  if String.eqb (trim e) "" then "gateway-1-service.wasmbed.svc.cluster.local:8080"
  else if ends_with ":8443" e then replace_first ":8443" ":8080" e
  else if str_contains e ":" then e
  else (e ++ ":8080")%string.

Definition deploy_url (fallback : string) (device : Device) : string :=
  ("http://" ++ http_endpoint (device_endpoint fallback device) ++ "/api/v1/devices/" ++ name_any device
     ++ "/deploy")%string.

(** [response.status().is_success()] and the [success] field decide. *)
Definition deploy_result (o : http_outcome) : result string unit :=
  match o with
  | SendFailed e => Err ("Failed to call gateway endpoint: " ++ e)%string
  | BadStatus status body => Err ("Gateway returned error " ++ status ++ ": " ++ body)%string
  | BadJson e => Err ("Failed to parse deployment response: " ++ e)%string
  | Answer success error =>
      if default false success then Ok tt
      else Err ("Deployment failed: " ++ default "Unknown error" error)%string
  end.

(** ** The controller *)

Section AppController.
Context {W : Type} `{K : Kube W} `{A : AppKube W}.
(** what gateways answer, [GATEWAY_ENDPOINT], the clock, decimal numerals *)
Variable post : string -> http_outcome.
Variable gateway_endpoint : string.
Variable now : string.
Variable show : Z -> string.

(** The cluster and [app_phases]. *)
Definition app_state : Type := W * gmap string ApplicationPhase.

Definition remember (name : string) (p : ApplicationPhase) : ctl app_state unit :=
  fun st => (Ok tt, (st.1, <[name := p]> st.2), []).

Definition forget (name : string) : ctl app_state unit :=
  fun st => (Ok tt, (st.1, delete name st.2), []).

(** The phase is remembered unless both patches fail. *)
Definition update_application_status (application : Application) (status : CrdAppStatus) : ctl app_state unit :=
  fun st =>
  let name := app_name_any application in
  match app_put_status st.1 name status with
  | (Ok _, w) => (Ok tt, (w, <[name := as_phase status]> st.2), [])
  | (Err _, w) =>
      match app_put w name status with
      | (Ok _, w) => (Ok tt, (w, <[name := as_phase status]> st.2), [])
      | (Err e, w) => (Err (KubeError e), (w, st.2), [])
      end
  end.

Definition find_target_devices (t : TargetDevices) : ctl app_state (list Device) :=
  let@ devices := ask_or_fail (fun st => dev_list st.1) in
  if default false (all_devices t) then cret devices
  else
    cret (match device_names t with
          | Some names => List.filter (fun d => bool_decide (name_any d ∈ names)) devices
          | None => []
          end).

Definition fresh_statistics (targets : list Device) : ApplicationStatistics :=
  mkApplicationStatistics (wrap32 (zlen targets)) 0 0 0 0.

Definition deploying_status (targets : list Device) : CrdAppStatus :=
  mkCrdAppStatus ApDeploying None (Some (fresh_statistics targets)) (Some now) None.

Definition handle_creating (application : Application) : ctl app_state unit :=
  let name := app_name_any application in
  let@ known := ask (fun st => Ok (st.2 !! name)) in
  if match known with Ok (Some p) => negb (bool_decide (p = ApCreating)) | _ => false end then cret tt
  else
    let@ targets := find_target_devices (a_target_devices (a_spec application)) in
    match targets with
    | [] => cret tt
    | _ :: _ =>
        let@ _ := remember name ApDeploying in
        update_application_status application (deploying_status targets)
    end.

(** One round of the deployment loop: the entry of the device. *)
Definition device_entry (phase : DeviceApplicationPhase) (error : option string) : DeviceApplicationStatus :=
  mkDeviceApplicationStatus phase (Some now) None error 0.

Definition deploy_one (device : Device) : ctl app_state DeviceApplicationStatus := fun st =>
  if negb (bool_decide (current_phase device = Connected))
  then (Ok (device_entry DaFailed (Some "Device not connected"%string)), st, [])
  else
    let url := deploy_url gateway_endpoint device in
    match deploy_result (post url) with
    | Ok _ => (Ok (device_entry DaRunning None), st, [Post url])
    | Err e => (Ok (device_entry DaFailed (Some ("Application error: " ++ e)%string)), st, [Post url])
    end.

Fixpoint deploy_loop (targets : list Device) (statuses : gmap string DeviceApplicationStatus)
    (running failed : nat) : ctl app_state (gmap string DeviceApplicationStatus * nat * nat) :=
  match targets with
  | [] => cret (statuses, running, failed)
  | device :: targets =>
      let@ entry := deploy_one device in
      let statuses := <[name_any device := entry]> statuses in
      if bool_decide (das_status entry = DaRunning) then deploy_loop targets statuses (S running) failed
      else deploy_loop targets statuses running (S failed)
  end.

Definition summary_phase (running failed total : nat) : ApplicationPhase :=
  if (running =? total)%nat then ApRunning
  else if (0 <? running)%nat then ApPartiallyRunning
  else if (0 <? failed)%nat then ApFailed
  else ApDeploying.

Definition handle_deploying (application : Application) : ctl app_state unit :=
  let@ targets := find_target_devices (a_target_devices (a_spec application)) in
  match targets with
  | [] => cret tt
  | _ :: _ =>
      let@ (statuses, running, failed) := deploy_loop targets ∅ 0 0 in
      let count k := wrap32 (Z.of_nat k) in
      update_application_status application
        (mkCrdAppStatus (summary_phase running failed (length targets)) (Some statuses)
           (Some (mkApplicationStatistics (wrap32 (zlen targets)) (count running) (count running) (count failed) 0))
           (Some now)
           (if (0 <? failed)%nat
            then Some ("Failed to deploy to " ++ show (Z.of_nat failed) ++ " device(s)")%string else None))
  end.

Definition handle_running (application : Application) : ctl app_state unit :=
  let current := match Application_status application with Some s => as_phase s | None => ApCreating end in
  if negb (bool_decide (current = ApRunning)) then
    update_application_status application
      (mkCrdAppStatus ApRunning
         (match Application_status application with Some s => as_device_statuses s | None => None end)
         (match Application_status application with Some s => as_statistics s | None => None end)
         (Some now) None)
  else remember (app_name_any application) ApRunning.

Definition handle_partially_running (_ : Application) : ctl app_state unit := cret tt.

Definition handle_failed (application : Application) : ctl app_state unit :=
  let@ targets := find_target_devices (a_target_devices (a_spec application)) in
  if existsb (fun d => bool_decide (current_phase d = Connected)) targets
  then update_application_status application (deploying_status targets)
  else cret tt.

Definition handle_stopping (application : Application) : ctl app_state unit :=
  let@ _ := remember (app_name_any application) ApStopping in
  update_application_status application (mkCrdAppStatus ApStopped None None (Some now) None).

Definition handle_stopped (application : Application) : ctl app_state unit :=
  remember (app_name_any application) ApStopped.

Definition handle_deleting (application : Application) : ctl app_state unit :=
  forget (app_name_any application).

(** The phase [reconcile] dispatches on. *)
Definition effective_phase (application : Application) (known : option ApplicationPhase) : ApplicationPhase :=
  let k8s_phase := match Application_status application with Some s => as_phase s | None => ApCreating end in
  match known with
  | Some p => if bool_decide (p = ApCreating) then k8s_phase else p
  | None => k8s_phase
  end.

Definition dispatch (phase : ApplicationPhase) (application : Application) : ctl app_state unit :=
  match phase with
  | ApCreating => handle_creating application
  | ApDeploying => handle_deploying application
  | ApRunning => handle_running application
  | ApPartiallyRunning => handle_partially_running application
  | ApFailed => handle_failed application
  | ApStopping => handle_stopping application
  | ApStopped => handle_stopped application
  | ApDeleting => handle_deleting application
  end.

(** [reconcile] on the object called [name]. *)
Definition reconcile (name : string) : ctl app_state Z :=
  let@ application := ask_or_fail (fun st => app_get st.1 name) in
  let@ phase := ask_or_fail (fun st => Ok (effective_phase application (st.2 !! name))) in
  let@ _ := dispatch phase application in
  cret requeue_secs.
End AppController.
