(* ===== verification/AppControllerProofs.v ===== *)
(** * Properties of the application controller

    What a deployment round sends, records and concludes; and what follows
    from the fact that the stored phase is never read: the controller redeploys
    after a restart, never notices a stop, and overwrites what the gateway
    reported. *)

From S2P Require Import Prelude.
From S2P Require Import RustStd.
From S2P Require Import K8s.
From S2P Require Import KubeStore.
From S2P Require Import K8sProofs.
From S2P Require Import ControllerApi.
From S2P Require Import DeviceController.
From S2P Require Import DeviceControllerProofs.
From S2P Require Import AppController.

Section Proofs.
Context {W : Type} `{K : Kube W} `{A : AppKube W} `{L : !AppLaws K A}.
Context (post : string -> http_outcome) (gateway_endpoint : string) (show : Z -> string).
Implicit Types (w : W) (ph : gmap string ApplicationPhase) (d : Device).

(** ** The deployment loop *)

Definition connected (d : Device) : bool := bool_decide (current_phase d = Connected).

(** The device is connected and its gateway accepts the deployment. *)
Definition deployed (d : Device) : bool :=
  connected d && is_ok (deploy_result (post (deploy_url gateway_endpoint d))).

Definition requests (l : list Device) : list request :=
  map (fun d => Post (deploy_url gateway_endpoint d)) (List.filter connected l).

Definition count_deployed (l : list Device) : nat := length (List.filter deployed l).

Lemma deploy_one_spec now d (st : app_state (W := W)) : exists e,
  deploy_one post gateway_endpoint now d st = (Ok e, st, requests [d]) /\
  bool_decide (das_status e = DaRunning) = deployed d.
Proof.
  unfold deploy_one, deployed, requests, connected. simpl.
  destruct (bool_decide (current_phase d = Connected)); simpl; [|by eexists].
  destruct (deploy_result _); by eexists.
Qed.

Lemma deploy_loop_spec now l m r f (st : app_state (W := W)) : exists m',
  deploy_loop post gateway_endpoint now l m r f st =
    (Ok (m', r + count_deployed l, f + (length l - count_deployed l))%nat, st, requests l).
Proof.
  revert m r f. induction l as [|d l IH]; intros m r f.
  { exists m. unfold count_deployed. simpl. by rewrite !Nat.add_0_r. }
  cbn [deploy_loop]. destruct (deploy_one_spec now d st) as (e & He & Hr). unfold cbind. rewrite He, Hr.
  assert (count_deployed l <= length l)%nat as Hle by apply List.filter_length_le.
  assert (requests (d :: l) = requests [d] ++ requests l) as ->
    by (unfold requests; simpl; by destruct (connected d)).
  unfold count_deployed in *. simpl.
  destruct (deployed d).
  - destruct (IH (<[name_any d := e]> m) (S r) f) as (m' & Hm'). exists m'. rewrite Hm'.
    cbn [length]. by rewrite Nat.add_succ_r.
  - destruct (IH (<[name_any d := e]> m) r (S f)) as (m' & Hm'). exists m'. rewrite Hm'.
    replace (f + (S (length l) - length (List.filter deployed l)))%nat
      with (S f + (length l - length (List.filter deployed l)))%nat by lia. done.
Qed.

Lemma count_split l :
  (count_deployed l + length (List.filter (fun d => negb (deployed d)) l) = length l)%nat.
Proof.
  unfold count_deployed. induction l as [|d l IH]; simpl; [done|]. destruct (deployed d); simpl; lia.
Qed.

Lemma count_all l : count_deployed l = length l <-> Forall (fun d => deployed d = true) l.
Proof.
  unfold count_deployed. induction l as [|d l IH]; simpl; [by split|].
  pose proof (List.filter_length_le deployed l). rewrite Forall_cons.
  destruct (deployed d); simpl; rewrite <- IH; split; intros; lia || intuition lia || intuition discriminate.
Qed.

Lemma count_none l : count_deployed l = 0%nat <-> Forall (fun d => deployed d = false) l.
Proof.
  unfold count_deployed. induction l as [|d l IH]; simpl; [by split|]. rewrite Forall_cons.
  destruct (deployed d); simpl; rewrite <- IH; split; intros; lia || intuition lia || intuition discriminate.
Qed.

(** The four branches of the summary are three: a non-empty round never stays
    in Deploying. *)
Lemma summary_cases l :
  l <> [] ->
  let p := summary_phase (count_deployed l) (length l - count_deployed l) (length l) in
  (p = ApRunning <-> Forall (fun d => deployed d = true) l) /\
  (p = ApFailed <-> Forall (fun d => deployed d = false) l) /\
  (p = ApRunning \/ p = ApPartiallyRunning \/ p = ApFailed).
Proof.
  intros Hne p. rewrite <- count_all, <- count_none. subst p.
  assert (count_deployed l <= length l)%nat as Hle by apply List.filter_length_le.
  assert (0 < length l)%nat by (destruct l; simpl; [done|lia]). unfold summary_phase.
  destruct (Nat.eqb_spec (count_deployed l) (length l));
    [|destruct (Nat.ltb_spec 0 (count_deployed l)); [|destruct (Nat.ltb_spec 0 (length l - count_deployed l))]];
    simpl; split_and!; auto; try (split; intros; first [done|lia]); lia.
Qed.

(** ** Updates *)

Definition targets_of (t : TargetDevices) (ds : list Device) : list Device :=
  if default false (all_devices t) then ds
  else match device_names t with
       | Some names => List.filter (fun d => bool_decide (name_any d ∈ names)) ds
       | None => []
       end.

Lemma find_targets_spec t st ds :
  dev_list st.1 = Ok ds -> find_target_devices (W := W) t st = (Ok (targets_of t ds), st, []).
Proof.
  intros H. unfold find_target_devices, cbind, ask_or_fail, targets_of. rewrite H.
  by destruct (default false (all_devices t)).
Qed.

Lemma update_spec app s w ph a :
  app_accepts -> app_get w (app_name_any app) = Ok a ->
  exists w' a', update_application_status app s (w, ph) = (Ok tt, (w', <[app_name_any app := as_phase s]> ph), []) /\
    patched s a a' /\ app_get w' (app_name_any app) = Ok a' /\ dev_list w' = dev_list w.
Proof.
  intros Ha Hg. unfold update_application_status. specialize (Ha w (app_name_any app) s a Hg). simpl.
  destruct (app_put_status w _ s) as [[[]|e] w'] eqn:E; [|done].
  apply app_put_status_ok in E as (a0 & a' & Hg0 & Hp & Hg' & Hl). rewrite Hg in Hg0. injection Hg0 as <-.
  by exists w', a'.
Qed.

(** A reconciliation is the handler of the remembered phase. *)
Lemma reconcile_dispatch now name w ph app r :
  app_get w name = Ok app ->
  dispatch post gateway_endpoint now show (default ApCreating (ph !! name)) app (w, ph) = r ->
  reconcile post gateway_endpoint now show name (w, ph) =
    (match r.1.1 with Ok _ => Ok requeue_secs | Err e => Err e end, r.1.2, r.2).
Proof.
  intros Hg <-. unfold reconcile, cbind, ask_or_fail. simpl. rewrite Hg. simpl.
  assert (effective_phase app (ph !! name) = default ApCreating (ph !! name)) as ->.
  { unfold effective_phase, Application_status. destruct (ph !! name) as [p|]; [|done]. simpl. by case_bool_decide. }
  destruct (dispatch _ _ _ _ _ _ _) as [[[[]|e] st'] out]; simpl; by rewrite ?app_nil_r.
Qed.

(** ** One deployment round *)

Lemma deploying_spec now app w ph ds l a :
  app_accepts -> app_get w (app_name_any app) = Ok a -> dev_list w = Ok ds ->
  targets_of (a_target_devices (a_spec app)) ds = l -> l <> [] ->
  let p := summary_phase (count_deployed l) (length l - count_deployed l) (length l) in
  exists w' a' s, handle_deploying post gateway_endpoint now show app (w, ph) =
      (Ok tt, (w', <[app_name_any app := p]> ph), requests l) /\
    app_get w' (app_name_any app) = Ok a' /\ a_status a' = Some s /\ as_phase s = p /\
    as_statistics s = Some (mkApplicationStatistics (wrap32 (zlen l)) (wrap32 (Z.of_nat (count_deployed l)))
      (wrap32 (Z.of_nat (count_deployed l))) (wrap32 (Z.of_nat (length l - count_deployed l))) 0) /\
    as_error s = (if (0 <? length l - count_deployed l)%nat
      then Some ("Failed to deploy to " ++ show (Z.of_nat (length l - count_deployed l)) ++ " device(s)")%string
      else None).
Proof.
  intros Ha Hg Hds Hl Hne. cbv zeta. unfold handle_deploying.
  unfold cbind at 1. rewrite (find_targets_spec _ (w, ph) ds Hds), Hl.
  destruct l as [|d0 l0] eqn:El; [done|]. rewrite <- El in *.
  destruct (deploy_loop_spec now l ∅ 0 0 (w, ph)) as (m & Hm). rewrite !Nat.add_0_l in Hm.
  unfold cbind. rewrite Hm. cbn beta iota.
  match goal with |- context [update_application_status app ?s (w, ph)] =>
    destruct (update_spec app s w ph a Ha Hg) as (w' & a' & -> & (_ & _ & s' & Hs & Hp & He & Hst) & Hg' & _) end.
  exists w', a', s'. simpl in *. rewrite app_nil_r. split_and!; try done.
Qed.

(** C12: a deployment round is exact. When the remembered phase is Deploying
    and the application has target devices, a reconciliation asks the gateway
    of every connected target exactly once, in order, and no other device; the
    application is then Running when every target was connected and accepted,
    Failed when none did, PartiallyRunning otherwise, in the controller's map
    and in the stored status. The stored statistics are the true counts: the
    total is the number of targets, the deployed and the running devices are
    the number of targets that were connected and accepted, the failed devices
    are the rest; and the stored error is empty when nothing failed and names
    the number of failures otherwise. Assumes that the API accepts the status
    patch. *)
Theorem deployment_round now name app w ph ds l :
  app_accepts -> app_get w name = Ok app -> a_name app = Some name -> ph !! name = Some ApDeploying ->
  dev_list w = Ok ds -> targets_of (a_target_devices (a_spec app)) ds = l -> l <> [] -> zlen l < 2 ^ 32 ->
  exists p w' a' s st,
    reconcile post gateway_endpoint now show name (w, ph) = (Ok requeue_secs, (w', <[name := p]> ph), requests l) /\
    app_get w' name = Ok a' /\ a_status a' = Some s /\ as_phase s = p /\ as_statistics s = Some st /\
    total_devices st = zlen l /\
    running_devices st = zlen (List.filter deployed l) /\
    deployed_devices st = zlen (List.filter deployed l) /\
    failed_devices st = zlen (List.filter (fun d => negb (deployed d)) l) /\
    as_error s = (if failed_devices st =? 0 then None
                  else Some ("Failed to deploy to " ++ show (failed_devices st) ++ " device(s)")%string) /\
    (p = ApRunning <-> Forall (fun d => deployed d = true) l) /\
    (p = ApFailed <-> Forall (fun d => deployed d = false) l) /\
    (p = ApRunning \/ p = ApPartiallyRunning \/ p = ApFailed).
Proof.
  intros Ha Hg Hn Hph Hds Hl Hne Hlen.
  assert (app_name_any app = name) as Hname by (unfold app_name_any; by rewrite Hn).
  destruct (deploying_spec now app w ph ds l app Ha ltac:(by rewrite Hname) Hds Hl Hne)
    as (w' & a' & s & Hh & Hg' & Hs & Hp & Hst & He). rewrite Hname in Hh, Hg'.
  pose proof (count_split l) as Hsplit. unfold zlen in Hlen.
  exists (summary_phase (count_deployed l) (length l - count_deployed l) (length l)), w', a', s. eexists.
  split; [|split_and!; [exact Hg'|exact Hs|exact Hp|exact Hst|..]].
  - rewrite (reconcile_dispatch now name w ph app _ Hg eq_refl), Hph. simpl. by rewrite Hh.
  - simpl. unfold wrap32, zlen. rewrite Z.mod_small by lia. done.
  - simpl. unfold wrap32, zlen. rewrite Z.mod_small by lia. done.
  - simpl. unfold wrap32, zlen. rewrite Z.mod_small by lia. done.
  - simpl. unfold wrap32, zlen. rewrite Z.mod_small by lia. lia.
  - rewrite He. simpl. unfold wrap32. rewrite Z.mod_small by lia.
    destruct (Nat.ltb_spec 0 (length l - count_deployed l)), (Z.eqb_spec (Z.of_nat (length l - count_deployed l)) 0);
      lia || done.
  - by apply summary_cases.
  - by apply summary_cases.
  - by apply summary_cases.
Qed.

(** ** The stored phase is not read *)

Lemma creating_spec now app w ph ds l a :
  app_accepts -> app_get w (app_name_any app) = Ok a -> dev_list w = Ok ds ->
  ph !! app_name_any app = None -> targets_of (a_target_devices (a_spec app)) ds = l -> l <> [] ->
  exists w' a', handle_creating now app (w, ph) = (Ok tt, (w', <[app_name_any app := ApDeploying]> ph), []) /\
    patched (deploying_status now l) a a' /\ app_get w' (app_name_any app) = Ok a' /\ dev_list w' = dev_list w.
Proof.
  intros Ha Hg Hds Hph Hl Hne. unfold handle_creating, cbind, ask. cbn beta iota. simpl. rewrite Hph.
  rewrite (find_targets_spec _ (w, ph) ds Hds), Hl. destruct l as [|d0 l0] eqn:El; [done|]. rewrite <- El in *.
  unfold remember. simpl.
  destruct (update_spec app (deploying_status now l) w (<[app_name_any app := ApDeploying]> ph) a Ha Hg)
    as (w' & a' & -> & Hp & Hg' & Hl').
  exists w', a'. simpl. by rewrite insert_insert_eq.
Qed.

(** A restart of the controller redeploys everything: with an empty map of
    phases, whatever phase is stored (Stopped, Stopping and Deleting
    included), two reconciliations of an application with target devices send
    it again to every connected target. *)
Theorem restart_redeploys t1 t2 name app w ds l :
  app_accepts -> app_get w name = Ok app -> a_name app = Some name ->
  dev_list w = Ok ds -> targets_of (a_target_devices (a_spec app)) ds = l -> l <> [] ->
  let st1 := (reconcile post gateway_endpoint t1 show name (w, ∅)).1.2 in
  (reconcile post gateway_endpoint t2 show name st1).2 = requests l.
Proof.
  intros Ha Hg Hn Hds Hl Hne.
  assert (app_name_any app = name) as Hname by (unfold app_name_any; by rewrite Hn).
  destruct (creating_spec t1 app w ∅ ds l app Ha ltac:(by rewrite Hname) Hds (lookup_empty _) Hl Hne)
    as (w1 & a1 & Hc & (Hn1 & Hs1 & _) & Hg1 & Hl1). rewrite Hname in Hc, Hg1.
  rewrite (reconcile_dispatch t1 name w ∅ app _ Hg eq_refl), lookup_empty. simpl. rewrite Hc. simpl.
  rewrite (reconcile_dispatch t2 name w1 _ a1 _ Hg1 eq_refl), lookup_insert_eq. simpl.
  assert (app_name_any a1 = name) as Hname1 by (unfold app_name_any; by rewrite Hn1, Hn).
  destruct (deploying_spec t2 a1 w1 (<[name := ApDeploying]> ∅) ds l a1 Ha ltac:(by rewrite Hname1)
    ltac:(congruence) ltac:(by rewrite Hs1) Hne) as (w2 & a2 & s & Hh & _). by rewrite Hh.
Qed.

(** The controller overwrites what the gateway reported: an application it
    remembers as Running is written back as Running without an error at every
    reconciliation, whatever phase and error are stored (a failure reported by
    a device, a requested stop), and no gateway is asked. *)
Theorem running_overwrites_status now name app w ph :
  app_accepts -> app_get w name = Ok app -> a_name app = Some name -> ph !! name = Some ApRunning ->
  exists w' a' s,
    reconcile post gateway_endpoint now show name (w, ph) = (Ok requeue_secs, (w', ph), []) /\
    app_get w' name = Ok a' /\ a_status a' = Some s /\ as_phase s = ApRunning /\ as_error s = None.
Proof.
  intros Ha Hg Hn Hph.
  assert (app_name_any app = name) as Hname by (unfold app_name_any; by rewrite Hn).
  destruct (update_spec app (mkCrdAppStatus ApRunning None None (Some now) None) w ph app Ha)
    as (w' & a' & Hu & (_ & _ & s & Hs & Hp & He & _) & Hg' & _); [by rewrite Hname|].
  rewrite Hname in Hu, Hg'. exists w', a', s.
  rewrite (reconcile_dispatch now name w ph app _ Hg eq_refl), Hph. simpl. unfold handle_running. simpl. rewrite Hu. simpl.
  rewrite insert_id by done. done.
Qed.

(** ** Phases the controller can be in *)

Definition remembered_ok (st : app_state (W := W)) : Prop :=
  map_Forall (fun _ p => p = ApDeploying \/ p = ApRunning \/ p = ApPartiallyRunning \/ p = ApFailed) st.2.

Lemma remembered_insert n p w ph w' :
  remembered_ok (w, ph) -> p = ApDeploying \/ p = ApRunning \/ p = ApPartiallyRunning \/ p = ApFailed ->
  remembered_ok (w', <[n := p]> ph).
Proof. intros H Hp. by apply map_Forall_insert_2. Qed.

Lemma keeps_update_app app s :
  as_phase s = ApDeploying \/ as_phase s = ApRunning \/ as_phase s = ApPartiallyRunning \/ as_phase s = ApFailed ->
  keeps remembered_ok (update_application_status app s).
Proof.
  intros Hp [w ph] H. unfold update_application_status. simpl.
  destruct (app_put_status w _ s) as [[[]|e] w1]; [by eapply remembered_insert|].
  destruct (app_put w1 _ s) as [[[]|e'] w2]; [by eapply remembered_insert|exact H].
Qed.

Lemma keeps_remember n p :
  p = ApDeploying \/ p = ApRunning \/ p = ApPartiallyRunning \/ p = ApFailed -> keeps remembered_ok (remember (W := W) n p).
Proof. intros Hp [w ph] H. by eapply remembered_insert. Qed.

Lemma keeps_targets P t : keeps P (find_target_devices (W := W) t).
Proof. unfold find_target_devices. keeps_steps. Qed.

Lemma keeps_loop P now l m r f : keeps P (deploy_loop (W := W) post gateway_endpoint now l m r f).
Proof.
  revert m r f. induction l as [|d l IH]; intros m r f; cbn [deploy_loop]; [apply keeps_ret|].
  apply keeps_bind; [|intros; by case_match].
  intros st Hst. destruct (deploy_one_spec now d st) as (e & -> & _). exact Hst.
Qed.

Lemma summary_phase_ok r f n :
  let p := summary_phase r f n in p = ApDeploying \/ p = ApRunning \/ p = ApPartiallyRunning \/ p = ApFailed.
Proof. unfold summary_phase. simpl. repeat case_match; auto. Qed.

Lemma dispatch_keeps now p app :
  p <> ApStopping -> p <> ApStopped -> p <> ApDeleting ->
  keeps remembered_ok (dispatch post gateway_endpoint now show p app).
Proof.
  intros H1 H2 H3. destruct p; try done; simpl.
  - unfold handle_creating. keeps_steps;
      first [apply keeps_targets|apply keeps_remember; auto|apply keeps_update_app; simpl; auto].
  - apply keeps_bind; [apply keeps_targets|intros [|d0 l]; [apply keeps_ret|]].
    apply keeps_bind; [apply keeps_loop|intros [[m r] f]]. apply keeps_update_app, summary_phase_ok.
  - unfold handle_running. simpl. apply keeps_update_app. simpl. auto.
  - unfold handle_partially_running. keeps_steps.
  - unfold handle_failed. keeps_steps; first [apply keeps_targets|apply keeps_update_app; simpl; auto].
Qed.

Lemma reconcile_keeps_phases now name : keeps remembered_ok (reconcile post gateway_endpoint now show name).
Proof.
  intros [w ph] H. destruct (app_get w name) as [app|e] eqn:Hg.
  2:{ unfold reconcile, cbind, ask_or_fail. simpl. by rewrite Hg. }
  rewrite (reconcile_dispatch now name w ph app _ Hg eq_refl). simpl.
  destruct (ph !! name) as [p|] eqn:Ep; simpl.
  - apply H in Ep. apply dispatch_keeps; [..|exact H]; naive_solver.
  - by apply (dispatch_keeps now ApCreating).
Qed.

(** Reconciliations of a controller started with an empty map, with
    arbitrary changes of the cluster in between. *)
Inductive ac_reach : app_state (W := W) -> Prop :=
| ac_start w : ac_reach (w, ∅)
| ac_reconcile now name st :
    ac_reach st -> ac_reach (reconcile post gateway_endpoint now show name st).1.2
| ac_cluster w w' ph : ac_reach (w, ph) -> ac_reach (w', ph).

(** The controller never stops or deletes an application: in no history of
    reconciliations and changes of the cluster does its phase for any
    application become Stopping, Stopped or Deleting, so the handlers of these
    phases never run, whatever phase is stored. *)
Theorem stop_never_handled st name p :
  ac_reach st -> st.2 !! name = Some p -> p <> ApStopping /\ p <> ApStopped /\ p <> ApDeleting.
Proof.
  intros Hr. assert (remembered_ok st) as Hok.
  { induction Hr; [apply map_Forall_empty|by apply reconcile_keeps_phases|done]. }
  intros Hp. apply Hok in Hp. naive_solver.
Qed.
End Proofs.

(** ** Witnesses *)

Definition fleet_put (w : fleet) (n : string) (s : CrdAppStatus) : result kube_error unit * fleet :=
  match c_apps w.1 !! n with
  | None => (Err (KApi 404 "not found"), w)
  | Some a =>
      (Ok tt, (mkCluster (c_devices w.1) (<[n := mkApplication (a_name a) (a_spec a) (Some s)]> (c_apps w.1)), w.2))
  end.

#[local] Instance fleet_app : AppKube fleet := {| app_put_status := fleet_put; app_put := fleet_put |}.

#[local] Instance fleet_app_laws : AppLaws fleet_kube fleet_app.
Proof.
  split. intros w n s w'. simpl. unfold fleet_put, mem_app_get.
  destruct (c_apps w.1 !! n) as [a|] eqn:E; [|done]. intros [= <-].
  exists a, (mkApplication (a_name a) (a_spec a) (Some s)). simpl. rewrite lookup_insert_eq.
  repeat split. exists s. done.
Qed.

Lemma fleet_app_accepts : app_accepts (H := fleet_kube) (H0 := fleet_app).
Proof. intros w n s a. simpl. unfold mem_app_get, fleet_put. by destruct (c_apps w.1 !! n). Qed.

Definition ac_app (p : ApplicationPhase) : Application :=
  mkApplication (Some "app"%string)
    (mkApplicationSpec "app" None "AGFzbQ==" (mkTargetDevices (Some ["a"; "b"]%string) None None) None None None)
    (Some (mkCrdAppStatus p None None None (Some "gone"%string))).
Definition ac_device (n : string) (p : DevicePhase) : Device := sample_device n "AQ" (Some (ctl_status p)).
Definition ac_fleet (p : ApplicationPhase) : fleet :=
  (mkCluster (<["a"%string := ac_device "a" Connected]> (<["b"%string := ac_device "b" Disconnected]> ∅))
     (<["app"%string := ac_app p]> ∅), ∅).
Definition ac_post (_ : string) : http_outcome := Answer (Some true) None.
Definition ac_show (_ : Z) : string := "n".

Lemma deployment_round_witness :
  exists w' a' s,
    reconcile ac_post "gw:8080" "now" ac_show "app" (ac_fleet ApDeploying, {[ "app"%string := ApDeploying ]}) =
      (Ok requeue_secs, (w', <["app"%string := ApPartiallyRunning]> {[ "app"%string := ApDeploying ]}),
       [Post "http://gw-1-service:8080/api/v1/devices/a/deploy"]) /\
    app_get w' "app" = Ok a' /\ a_status a' = Some s /\ as_phase s = ApPartiallyRunning /\
    as_error s = Some "Failed to deploy to n device(s)"%string.
Proof.
  destruct (deployment_round (K := fleet_kube) (A := fleet_app) ac_post "gw:8080" ac_show "now" "app"
    (ac_app ApDeploying) (ac_fleet ApDeploying) {[ "app"%string := ApDeploying ]}
    [ac_device "a" Connected; ac_device "b" Disconnected] [ac_device "a" Connected; ac_device "b" Disconnected])
    as (p & w' & a' & s & st & Hr & Hg & Hs & Hp & _ & _ & _ & _ & Hf & He & H1 & H2 & H3).
  - apply fleet_app_accepts.
  - reflexivity.
  - reflexivity.
  - reflexivity.
  - vm_compute. reflexivity.
  - vm_compute. reflexivity.
  - discriminate.
  - reflexivity.
  - assert (p = ApPartiallyRunning) as ->.
    { destruct H3 as [H3|[H3|H3]]; [|exact H3|].
      - apply H1 in H3. do 2 apply Forall_cons in H3 as [? H3]. discriminate.
      - apply H2 in H3. apply Forall_cons in H3 as [? _]. discriminate. }
    exists w', a', s. split_and!; [exact Hr|exact Hg|exact Hs|exact Hp|].
    rewrite He, Hf. reflexivity.
Defined.

Lemma restart_redeploys_witness :
  let st1 := (reconcile ac_post "gw:8080" "t1" ac_show "app" (ac_fleet ApStopped, ∅)).1.2 in
  (reconcile ac_post "gw:8080" "t2" ac_show "app" st1).2 = [Post "http://gw-1-service:8080/api/v1/devices/a/deploy"].
Proof.
  apply (restart_redeploys (K := fleet_kube) (A := fleet_app) ac_post "gw:8080" ac_show "t1" "t2" "app"
    (ac_app ApStopped) (ac_fleet ApStopped) [ac_device "a" Connected; ac_device "b" Disconnected]
    [ac_device "a" Connected; ac_device "b" Disconnected]).
  - apply fleet_app_accepts.
  - reflexivity.
  - reflexivity.
  - vm_compute. reflexivity.
  - vm_compute. reflexivity.
  - discriminate.
Defined.

Lemma running_overwrites_status_witness :
  exists w' a' s,
    reconcile ac_post "gw:8080" "now" ac_show "app" (ac_fleet ApStopping, {[ "app"%string := ApRunning ]}) =
      (Ok requeue_secs, (w', {[ "app"%string := ApRunning ]}), []) /\
    app_get w' "app" = Ok a' /\ a_status a' = Some s /\ as_phase s = ApRunning /\ as_error s = None.
Proof.
  apply (running_overwrites_status (K := fleet_kube) (A := fleet_app) ac_post "gw:8080" ac_show "now" "app"
    (ac_app ApStopping) (ac_fleet ApStopping) {[ "app"%string := ApRunning ]});
    [apply fleet_app_accepts|reflexivity|reflexivity|reflexivity].
Defined.

Lemma stop_never_handled_witness :
  let st := (reconcile ac_post "gw:8080" "now" ac_show "app" (ac_fleet ApStopping, ∅)).1.2 in
  st.2 !! "app"%string = Some ApDeploying /\ ApDeploying <> ApStopping /\ ApDeploying <> ApStopped /\
  ApDeploying <> ApDeleting.
Proof.
  intros st. split; [vm_compute; reflexivity|].
  apply (stop_never_handled (K := fleet_kube) (A := fleet_app) ac_post "gw:8080" ac_show st "app").
  - apply ac_reconcile, ac_start.
  - vm_compute. reflexivity.
Defined.
