(* ===== verification/GatewayController.v ===== *)
(** * The gateway controller: [crates/wasmbed-gateway-controller/src/main.rs]

    The controller turns a Gateway resource into a Secret, a Deployment and a
    Service, keeps the resource's endpoint on the DNS name of that Service and
    writes the device counts into its status. The Kubernetes objects are records
    with the fields the controller sets or reads. *)

From S2P Require Import Prelude.
From S2P Require Import RustStd.
From S2P Require Import K8s.
From S2P Require Import KubeStore.
From S2P Require Import ControllerApi.
From stdpp Require Import pretty.
Local Open Scope Z_scope.

(** ** Kubernetes objects *)

Definition labels : Type := gmap string string.

Record ObjectMeta := mkObjectMeta {
  om_name : option string;
  om_namespace : option string;
  om_labels : option labels;
}.

Record ContainerPort := mkContainerPort { cp_container_port : Z; cp_name : option string }.
Record EnvVar := mkEnvVar { ev_name : string; ev_value : option string }.
Record VolumeMount := mkVolumeMount { vm_name : string; vm_mount_path : string; vm_read_only : option bool }.

Record Container := mkContainer {
  ct_name : string;
  ct_image : option string;
  ct_image_pull_policy : option string;
  ct_command : option (list string);
  ct_ports : option (list ContainerPort);
  ct_env : option (list EnvVar);
  ct_volume_mounts : option (list VolumeMount);
}.

(** A volume backed by a secret. *)
Record Volume := mkVolume { vo_name : string; vo_secret_name : option string }.

Record PodSpec := mkPodSpec {
  ps_service_account_name : option string;
  ps_containers : list Container;
  ps_volumes : option (list Volume);
}.

Record PodTemplateSpec := mkPodTemplateSpec {
  pt_labels : option labels;
  pt_spec : option PodSpec;
}.

Record DeploymentSpec := mkDeploymentSpec {
  dp_replicas : option Z;
  dp_match_labels : option labels;
  dp_template : PodTemplateSpec;
}.

Record Deployment := mkDeployment {
  de_metadata : ObjectMeta;
  de_spec : option DeploymentSpec;
}.

Record ServicePort := mkServicePort { sp_name : option string; sp_port : Z; sp_target_port : option Z }.

Record ServiceSpec := mkServiceSpec {
  sv_selector : option labels;
  sv_ports : option (list ServicePort);
  sv_type : option string;
}.

Record Service := mkService { se_metadata : ObjectMeta; se_spec : option ServiceSpec }.

Record Secret := mkSecret { sc_metadata : ObjectMeta; sc_data : option (gmap string (list byte)) }.

(** ** The objects the controller creates *)

Definition gateway_labels (g : GatewayResource) : labels :=
  {["app" := "wasmbed-gateway"; "gateway" := gw_name_any g]}.

Definition deployment_name (g : GatewayResource) : string := gw_name_any g ++ "-deployment".
Definition service_name (g : GatewayResource) : string := gw_name_any g ++ "-service".
Definition secret_name : string := "gateway-certificates".

Definition gateway_container (g : GatewayResource) : Container :=
  mkContainer "gateway" (Some "localhost:5000/wasmbed/gateway:latest") (Some "Never")
    (Some ["/usr/local/bin/wasmbed-gateway";
           "--bind-addr"; "0.0.0.0:8443";
           "--http-addr"; "0.0.0.0:8080";
           "--private-key"; "/certs/server-key.pem";
           "--certificate"; "/certs/server-cert.pem";
           "--client-ca"; "/certs/ca-cert.pem";
           "--namespace"; "wasmbed";
           "--pod-namespace"; "wasmbed";
           "--pod-name"; gw_name_any g])
    (Some [mkContainerPort 8080 (Some "http"); mkContainerPort 8443 (Some "https")])
    (Some [mkEnvVar "GATEWAY_NAME" (Some (gw_name_any g));
           mkEnvVar "GATEWAY_ENDPOINT" (Some (gs_endpoint (gw_spec g)))])
    (Some [mkVolumeMount "certificates" "/certs" (Some true)]).

Definition gateway_deployment (g : GatewayResource) : Deployment :=
  mkDeployment
    (mkObjectMeta (Some (deployment_name g)) (Some "wasmbed") (Some (gateway_labels g)))
    (Some (mkDeploymentSpec (Some 1) (Some (gateway_labels g))
       (mkPodTemplateSpec (Some (gateway_labels g))
          (Some (mkPodSpec (Some "wasmbed-gateway") [gateway_container g]
                   (Some [mkVolume "certificates" (Some secret_name)])))))).

Definition gateway_service (g : GatewayResource) : Service :=
  mkService
    (mkObjectMeta (Some (service_name g)) (Some "wasmbed") (Some (gateway_labels g)))
    (Some (mkServiceSpec (Some (gateway_labels g))
       (Some [mkServicePort (Some "http") 8080 (Some 8080); mkServicePort (Some "https") 8443 (Some 8443)])
       (Some "ClusterIP"))).

Definition empty_secret : Secret :=
  mkSecret (mkObjectMeta (Some secret_name) (Some "wasmbed") None) (Some ∅).

(** ** The patch of an existing Deployment

    [Patch::Merge] is a JSON merge patch (RFC 7386): objects are merged field by
    field, a list replaces the list that is stored. *)

Record PodPatch := mkPodPatch { pp_service_account_name : string; pp_containers : list Container }.

Definition pull_policy_patch : PodPatch :=
  mkPodPatch "wasmbed-gateway" [mkContainer "gateway" None (Some "Never") None None None None].

Definition merge_pod (p : PodPatch) (s : option PodSpec) : PodSpec :=
  mkPodSpec (Some (pp_service_account_name p)) (pp_containers p)
    (match s with Some s => ps_volumes s | None => None end).

Definition merge_deployment (p : PodPatch) (d : Deployment) : Deployment :=
  match de_spec d with
  | Some s =>
      mkDeployment (de_metadata d)
        (Some (mkDeploymentSpec (dp_replicas s) (dp_match_labels s)
           (mkPodTemplateSpec (pt_labels (dp_template s)) (Some (merge_pod p (pt_spec (dp_template s)))))))
  | None =>
      mkDeployment (de_metadata d)
        (Some (mkDeploymentSpec None None (mkPodTemplateSpec None (Some (merge_pod p None)))))
  end.

(** The first container of a Deployment, and whether its pull policy is not
    the one the controller wants. *)
Definition first_container (d : Deployment) : option Container :=
  let* s := de_spec d in
  let* pod := pt_spec (dp_template s) in
  head (ps_containers pod).

Definition needs_pull_policy (d : Deployment) : bool :=
  match first_container d with
  | Some c => match ct_image_pull_policy c with
              | Some policy => negb (String.eqb policy "Never")
              | None => true
              end
  | None => false
  end.

(** ** Requests *)

Class GwKube (W : Type) := {
  (** [patch] of [Api<Gateway>] with a new [spec.endpoint] *)
  gwk_patch_endpoint : W -> string -> string -> result kube_error unit * W;
  (** [patch_status] and [patch] with a whole status *)
  gwk_patch_status : W -> string -> GatewayStatus -> result kube_error unit * W;
  gwk_patch : W -> string -> GatewayStatus -> result kube_error unit * W;
  dep_get : W -> string -> result kube_error Deployment;
  dep_patch : W -> string -> PodPatch -> result kube_error unit * W;
  dep_create : W -> Deployment -> result kube_error unit * W;
  svc_get : W -> string -> result kube_error Service;
  svc_create : W -> Service -> result kube_error unit * W;
  sec_get : W -> string -> result kube_error Secret;
  sec_create : W -> Secret -> result kube_error unit * W;
}.

(** A request that changes the cluster, with its failure propagated or kept. *)
Definition act {W A} (f : W -> result kube_error A * W) : ctl W (result kube_error A) := fun w =>
  let '(r, w) := f w in (Ok r, w, []).
Definition act_or_fail {W A} (f : W -> result kube_error A * W) : ctl W A := fun w =>
  let '(r, w) := f w in (match r with Ok a => Ok a | Err e => Err (KubeError e) end, w, []).
Definition cfail {W A} (e : controller_error) : ctl W A := fun w => (Err e, w, []).

Section GatewayController.
Context {W : Type} `{K : Kube W} `{G : GwKube W}.
(** [chrono::Utc::now().to_rfc3339()] *)
Variable now : string.

Definition ensure_certificates_secret : ctl W unit :=
  let@ found := ask (fun w => sec_get w secret_name) in
  match found with
  | Ok _ => cret tt
  | Err (KApi 404 _) => act_or_fail (fun w => sec_create w empty_secret)
  | Err e => cfail (KubeError e)
  end.

Definition create_gateway_deployment (g : GatewayResource) : ctl W unit :=
  let@ found := ask (fun w => dep_get w (deployment_name g)) in
  match found with
  | Ok existing =>
      if needs_pull_policy existing
      then act_or_fail (fun w => dep_patch w (deployment_name g) pull_policy_patch)
      else cret tt
  | Err (KApi 404 _) => act_or_fail (fun w => dep_create w (gateway_deployment g))
  | Err e => cfail (KubeError e)
  end.

Definition create_gateway_service (g : GatewayResource) : ctl W unit :=
  let@ found := ask (fun w => svc_get w (service_name g)) in
  match found with
  | Ok _ => cret tt
  | Err (KApi 404 _) => act_or_fail (fun w => svc_create w (gateway_service g))
  | Err e => cfail (KubeError e)
  end.

(** Only a missing status subresource is tried again, and only that second
    failure is reported. *)
Definition update_gateway_status (g : GatewayResource) (status : GatewayStatus) : ctl W unit :=
  let@ r := act (fun w => gwk_patch_status w (gw_name_any g) status) in
  match r with
  | Ok _ => cret tt
  | Err (KApi 404 _) => act_or_fail (fun w => gwk_patch w (gw_name_any g) status)
  | Err _ => cret tt
  end.

Definition cluster_endpoint (service : string) : string := service ++ ".wasmbed.svc.cluster.local:8080".

Definition pending_needs_update (g : GatewayResource) : bool :=
  let endpoint := gs_endpoint (gw_spec g) in
  negb (String.eqb endpoint (cluster_endpoint (service_name g))) &&
  (starts_with "127.0.0.1" endpoint || starts_with "localhost" endpoint ||
   negb (str_contains endpoint "svc.cluster.local")).

Definition device_in (phases : list DevicePhase) (d : Device) : bool :=
  match d_status d with Some s => bool_decide (ds_phase s ∈ phases) | None => false end.

Definition count_in (phases : list DevicePhase) (ds : list Device) : Z :=
  zlen (List.filter (device_in phases) ds).

(** [n as i32] of a [usize] *)
Definition as_i32 (n : Z) : Z := if n mod 2 ^ 32 <? 2 ^ 31 then n mod 2 ^ 32 else n mod 2 ^ 32 - 2 ^ 32.

Definition running_status (connected enrolled : Z) (reason message : string) : GatewayStatus :=
  mkGatewayStatus GwRunning (Some (as_i32 connected)) (Some (as_i32 enrolled)) (Some now)
    (Some [mkGatewayCondition "Ready" "True" (Some reason) (Some message) (Some now)]).

(** The counts of [handle_pending]: every listed device is enrolled. *)
Definition pending_counts (r : result kube_error (list Device)) : Z * Z :=
  match r with
  | Ok devices => (count_in [Connected] devices, zlen devices)
  | Err _ => (0, 0)
  end.

Definition started_status (r : result kube_error (list Device)) : GatewayStatus :=
  running_status (pending_counts r).1 (pending_counts r).2 "GatewayStarted"
    "Gateway is running and accepting connections".

Definition handle_pending (g : GatewayResource) : ctl W unit :=
  let@ _ := ensure_certificates_secret in
  let@ _ := create_gateway_deployment g in
  let@ _ := create_gateway_service g in
  let@ _ :=
    if pending_needs_update g
    then ignore_errors (act (fun w => gwk_patch_endpoint w (gw_name_any g) (cluster_endpoint (service_name g))))
    else cret tt in
  let@ devices := ask dev_list in
  ignore_errors (update_gateway_status g (started_status devices)).

(** The service that exists: [<name>-service], else [<name>]. *)
Definition existing_service (g : GatewayResource) (w : W) : string :=
  match svc_get w (service_name g), svc_get w (gw_name_any g) with
  | Ok _, _ => service_name g
  | _, Ok _ => gw_name_any g
  | _, _ => service_name g
  end.

Definition counted_status (devices : list Device) : GatewayStatus :=
  let connected := count_in [Connected] devices in
  running_status connected (count_in [Enrolled; Connected] devices) "GatewayRunning"
    ("Gateway is running with " ++ pretty connected ++ " connected devices").

Definition handle_running (g : GatewayResource) : ctl W unit := fun w =>
  (let correct_endpoint := cluster_endpoint (existing_service g w) in
   let@ _ :=
     if String.eqb (gs_endpoint (gw_spec g)) correct_endpoint then cret tt
     else ignore_errors (act (fun w => gwk_patch_endpoint w (gw_name_any g) correct_endpoint)) in
   let@ devices := ask dev_list in
   match devices with
   | Ok devices => ignore_errors (update_gateway_status g (counted_status devices))
   | Err _ => cret tt
   end) w.

Definition handle_failed (g : GatewayResource) : ctl W unit := cret tt.
Definition handle_stopped (g : GatewayResource) : ctl W unit := cret tt.

Definition get_gateway_status (g : GatewayResource) : GatewayStatus :=
  match gw_status g with
  | Some status => status
  | None => mkGatewayStatus GwPending (Some 0) (Some 0) (Some now) None
  end.

(** The answer is the number of seconds until the next reconciliation. *)
Definition reconcile_gateway (g : GatewayResource) : ctl W Z :=
  let@ _ :=
    match gt_phase (get_gateway_status g) with
    | GwPending => handle_pending g
    | GwRunning => handle_running g
    | GwFailed => handle_failed g
    | GwStopped => handle_stopped g
    end in
  cret 30.
End GatewayController.
