(* ===== verification/GatewayControllerProofs.v ===== *)
(** * The gateway controller against an abstract cluster

    The cluster is abstracted to four maps and a list of devices
    ([gwstore]). [spec_reconcile] says what a reconciliation does to it when the
    API answers; the controller refines it. Against an API that may fail at any
    request, a failed reconciliation leaves the Gateway resources alone and a
    Running status is only written when the provisioned objects exist. *)

From S2P Require Import Prelude.
From S2P Require Import RustStd.
From S2P Require Import K8s.
From S2P Require Import KubeStore.
From S2P Require Import ControllerApi.
From S2P Require Import GatewayController.
From stdpp Require Import pretty.
Local Open Scope Z_scope.

(** ** The abstract cluster *)

Record gwstore := mkGwstore {
  gv_gateways : gmap string GatewayResource;
  gv_deployments : gmap string Deployment;
  gv_services : gmap string Service;
  gv_secrets : gmap string Secret;
  gv_devices : list Device;
}.

Definition on_gateways f (s : gwstore) : gwstore :=
  mkGwstore (f (gv_gateways s)) (gv_deployments s) (gv_services s) (gv_secrets s) (gv_devices s).
Definition on_deployments f (s : gwstore) : gwstore :=
  mkGwstore (gv_gateways s) (f (gv_deployments s)) (gv_services s) (gv_secrets s) (gv_devices s).
Definition on_services f (s : gwstore) : gwstore :=
  mkGwstore (gv_gateways s) (gv_deployments s) (f (gv_services s)) (gv_secrets s) (gv_devices s).
Definition on_secrets f (s : gwstore) : gwstore :=
  mkGwstore (gv_gateways s) (gv_deployments s) (gv_services s) (f (gv_secrets s)) (gv_devices s).

Definition meta_name (m : ObjectMeta) : string := default "" (om_name m).

Definition with_endpoint (e : string) (g : GatewayResource) : GatewayResource :=
  mkGatewayResource (gw_name g) (mkGatewaySpec e (gs_capabilities (gw_spec g)) (gs_config (gw_spec g))) (gw_status g).
Definition with_status (t : GatewayStatus) (g : GatewayResource) : GatewayResource :=
  mkGatewayResource (gw_name g) (gw_spec g) (Some t).

(** ** What the API promises *)

Section Laws.
Context {W : Type} (gview : W -> gwstore).

(** A read returns what is stored, or 404 when nothing is. *)
Definition reads {A} (get : W -> string -> result kube_error A) (m : gwstore -> gmap string A) : Prop :=
  forall w n, match get w n with
  | Ok a => m (gview w) !! n = Some a
  | Err (KApi 404 _) => m (gview w) !! n = None
  | Err _ => True
  end.

(** A request takes effect exactly when it succeeds. *)
Definition effect_of {A} (r : result kube_error A * W) (w : W) (upd : gwstore -> gwstore) : Prop :=
  gview r.2 = if is_ok r.1 then upd (gview w) else gview w.

Class GwLaws (K : Kube W) (G : GwKube W) : Prop := {
  sec_reads : reads sec_get gv_secrets;
  dep_reads : reads dep_get gv_deployments;
  svc_reads : reads svc_get gv_services;
  dev_lists w l : dev_list w = Ok l -> l = gv_devices (gview w);
  sec_creates w s : effect_of (sec_create w s) w (on_secrets <[meta_name (sc_metadata s) := s]>);
  dep_creates w d : effect_of (dep_create w d) w (on_deployments <[meta_name (de_metadata d) := d]>);
  svc_creates w s : effect_of (svc_create w s) w (on_services <[meta_name (se_metadata s) := s]>);
  dep_patches w n p : effect_of (dep_patch w n p) w (on_deployments (alter (merge_deployment p) n));
  gw_patches_endpoint w n e : effect_of (gwk_patch_endpoint w n e) w (on_gateways (alter (with_endpoint e) n));
  gw_patches_status w n t : effect_of (gwk_patch_status w n t) w (on_gateways (alter (with_status t) n));
  (** the object itself: its status is not writable there *)
  gw_patches w n t : gview (gwk_patch w n t).2 = gview w;
}.

(** An API that does not fail without a reason. *)
Definition sound_read {A} (get : W -> string -> result kube_error A) (m : gwstore -> gmap string A) : Prop :=
  forall w n, match m (gview w) !! n with
  | Some a => get w n = Ok a
  | None => exists msg, get w n = Err (KApi 404 msg)
  end.

Class GwReliable (K : Kube W) (G : GwKube W) : Prop := {
  rel_sec : sound_read sec_get gv_secrets;
  rel_dep : sound_read dep_get gv_deployments;
  rel_svc : sound_read svc_get gv_services;
  rel_dev w : dev_list w = Ok (gv_devices (gview w));
  rel_sec_create w s : gv_secrets (gview w) !! meta_name (sc_metadata s) = None -> is_ok (sec_create w s).1 = true;
  rel_dep_create w d : gv_deployments (gview w) !! meta_name (de_metadata d) = None -> is_ok (dep_create w d).1 = true;
  rel_svc_create w s : gv_services (gview w) !! meta_name (se_metadata s) = None -> is_ok (svc_create w s).1 = true;
  rel_endpoint w n e : is_Some (gv_gateways (gview w) !! n) -> is_ok (gwk_patch_endpoint w n e).1 = true;
  rel_status w n t : is_Some (gv_gateways (gview w) !! n) -> is_ok (gwk_patch_status w n t).1 = true;
}.
End Laws.
Arguments sec_reads {W gview K G _}.
Arguments dep_reads {W gview K G _}.
Arguments svc_reads {W gview K G _}.
Arguments dev_lists {W gview K G _}.
Arguments sec_creates {W gview K G _}.
Arguments dep_creates {W gview K G _}.
Arguments svc_creates {W gview K G _}.
Arguments dep_patches {W gview K G _}.
Arguments gw_patches_endpoint {W gview K G _}.
Arguments gw_patches_status {W gview K G _}.
Arguments gw_patches {W gview K G _}.
Arguments rel_sec {W gview K G _}.
Arguments rel_dep {W gview K G _}.
Arguments rel_svc {W gview K G _}.
Arguments rel_dev {W gview K G _}.
Arguments rel_sec_create {W gview K G _}.
Arguments rel_dep_create {W gview K G _}.
Arguments rel_svc_create {W gview K G _}.
Arguments rel_endpoint {W gview K G _}.
Arguments rel_status {W gview K G _}.

(** ** The abstract reconciliation *)

Section Spec.
Variable now : string.

(** Create an object that is missing, keep one that is there. *)
Definition ensure {A} (n : string) (new : A) (m : gmap string A) : gmap string A :=
  match m !! n with Some _ => m | None => <[n := new]> m end.

Definition provision (g : GatewayResource) (s : gwstore) : gwstore :=
  on_services (ensure (service_name g) (gateway_service g))
    (on_deployments (ensure (deployment_name g) (gateway_deployment g))
       (on_secrets (ensure secret_name empty_secret) s)).

Definition spec_pending (g : GatewayResource) (s : gwstore) : gwstore :=
  on_gateways (alter (fun g' =>
      with_status (started_status now (Ok (gv_devices s)))
        (if pending_needs_update g then with_endpoint (cluster_endpoint (service_name g)) g' else g'))
    (gw_name_any g)) (provision g s).

Definition spec_service (g : GatewayResource) (s : gwstore) : string :=
  match gv_services s !! service_name g, gv_services s !! gw_name_any g with
  | None, Some _ => gw_name_any g
  | _, _ => service_name g
  end.

Definition spec_running (g : GatewayResource) (s : gwstore) : gwstore :=
  on_gateways (alter (fun g' =>
      with_status (counted_status now (gv_devices s))
        (if String.eqb (gs_endpoint (gw_spec g)) (cluster_endpoint (spec_service g s))
         then g' else with_endpoint (cluster_endpoint (spec_service g s)) g'))
    (gw_name_any g)) s.

Definition spec_reconcile (g : GatewayResource) (s : gwstore) : gwstore :=
  match gw_status g with
  | None => spec_pending g s
  | Some t => match gt_phase t with
              | GwPending => spec_pending g s
              | GwRunning => spec_running g s
              | GwFailed | GwStopped => s
              end
  end.
End Spec.

(** *** The specification

    What a reconciliation does to the cluster, in the terms of the cluster:
    [answer] is what Kubernetes says to the patch of a Deployment whose first
    container has another pull policy than Never, if one has to be sent. *)

Section Abstract.
Variables (now : string) (g : GatewayResource).
#[local] Abbreviation name := (gw_name_any g).

Definition abs_phase : GatewayPhase := match gw_status g with Some t => gt_phase t | None => GwPending end.

(** The DNS name and HTTP port of a Service of the namespace. *)
Definition abs_address (service : string) : string := (service ++ ".wasmbed.svc.cluster.local:8080")%string.

Definition abs_count (p : DevicePhase) (ds : list Device) : Z :=
  zlen (List.filter (fun d => bool_decide ((ds_phase <$> d_status d) = Some p)) ds).

Definition abs_status (connected enrolled : Z) (reason message : string) : GatewayStatus :=
  mkGatewayStatus GwRunning (Some (as_i32 connected)) (Some (as_i32 enrolled)) (Some now)
    (Some [mkGatewayCondition "Ready" "True" (Some reason) (Some message) (Some now)]).

(** A Deployment that is left alone: one whose first container, if there is
    one, is never pulled. *)
Definition abs_settled (d : Deployment) : bool :=
  match de_spec d with
  | Some (mkDeploymentSpec _ _ (mkPodTemplateSpec _ (Some (mkPodSpec _ (c :: _) _)))) =>
      bool_decide (ct_image_pull_policy c = Some "Never"%string)
  | _ => true
  end.

(** What the accepted patch leaves of a Deployment: a container without image,
    command, ports, environment and mounts. *)
Definition abs_stripped (d : Deployment) : Deployment :=
  match de_spec d with
  | Some (mkDeploymentSpec replicas sel (mkPodTemplateSpec ls (Some pod))) =>
      mkDeployment (de_metadata d) (Some (mkDeploymentSpec replicas sel (mkPodTemplateSpec ls (Some
        (mkPodSpec (Some "wasmbed-gateway"%string)
           [mkContainer "gateway" None (Some "Never"%string) None None None None] (ps_volumes pod))))))
  | _ => d
  end.

(** The endpoint a gateway is given when it starts: none, that is it keeps its
    own, when that is an address inside the cluster; otherwise the address of
    its Service. *)
Definition abs_started_endpoint (endpoint : string) : option string :=
  let inside := str_contains endpoint "svc.cluster.local" &&
                negb (starts_with "127.0.0.1" endpoint) && negb (starts_with "localhost" endpoint) in
  if inside || bool_decide (endpoint = abs_address (name ++ "-service")) then None
  else Some (abs_address (name ++ "-service")).

Definition abs_update (endpoint : option string) (t : GatewayStatus) : gwstore -> gwstore :=
  on_gateways (alter (fun g' => mkGatewayResource (gw_name g')
    (mkGatewaySpec (default (gs_endpoint (gw_spec g')) endpoint) (gs_capabilities (gw_spec g')) (gs_config (gw_spec g')))
    (Some t)) name).

(** The Service and then the resource itself, every device counted as enrolled. *)
Definition abs_start (s : gwstore) : gwstore :=
  abs_update (abs_started_endpoint (gs_endpoint (gw_spec g)))
    (abs_status (abs_count Connected (gv_devices s)) (zlen (gv_devices s)) "GatewayStarted"
       "Gateway is running and accepting connections")
    (on_services (ensure (name ++ "-service") (gateway_service g)) s).

Definition abs_pending (s : gwstore) (answer : result kube_error unit) : result controller_error Z * gwstore :=
  let s1 := on_secrets (ensure "gateway-certificates" empty_secret) s in
  let deployed f := (Ok 30, abs_start (on_deployments f s1)) in
  match gv_deployments s !! (name ++ "-deployment")%string with
  | None => deployed <[(name ++ "-deployment")%string := gateway_deployment g]>
  | Some d =>
      if abs_settled d then deployed id
      else match answer with
           | Ok _ => deployed <[(name ++ "-deployment")%string := abs_stripped d]>
           | Err e => (Err (KubeError e), s1)
           end
  end.

Definition abs_running (s : gwstore) : gwstore :=
  let connected := abs_count Connected (gv_devices s) in
  let service :=
    if decide (gv_services s !! (name ++ "-service")%string = None /\ is_Some (gv_services s !! name))
    then name else (name ++ "-service")%string in
  abs_update (if decide (gs_endpoint (gw_spec g) = abs_address service) then None else Some (abs_address service))
    (abs_status connected (connected + abs_count Enrolled (gv_devices s)) "GatewayRunning"
       ("Gateway is running with " ++ pretty connected ++ " connected devices")) s.

Definition abs_reconcile (s : gwstore) (answer : result kube_error unit) : result controller_error Z * gwstore :=
  match abs_phase with
  | GwPending => abs_pending s answer
  | GwRunning => (Ok 30, abs_running s)
  | GwFailed | GwStopped => (Ok 30, s)
  end.

(** *** The specification and the controller's own terms *)

Lemma count_one p ds : count_in [p] ds = abs_count p ds.
Proof.
  unfold count_in, abs_count. f_equal. induction ds as [|d ds IH]; [done|]. simpl. rewrite IH.
  assert (device_in [p] d = bool_decide ((ds_phase <$> d_status d) = Some p)) as ->; [|done].
  unfold device_in. destruct (d_status d); simpl; [|done]. apply bool_decide_ext. set_solver.
Qed.

Lemma count_two p q ds : p <> q -> count_in [p; q] ds = abs_count q ds + abs_count p ds.
Proof.
  intros Hpq. unfold count_in, abs_count, zlen. induction ds as [|d ds IH]; [done|]. simpl.
  assert (device_in [p; q] d = bool_decide ((ds_phase <$> d_status d) = Some q) || bool_decide ((ds_phase <$> d_status d) = Some p)) as ->.
  { unfold device_in. destruct (d_status d) as [s|]; simpl; [|done].
    destruct (decide (ds_phase s = q)), (decide (ds_phase s = p)); repeat case_bool_decide; set_solver. }
  destruct (bool_decide (_ = Some q)) eqn:Eq, (bool_decide (_ = Some p)) eqn:Ep; simpl; try lia.
  apply bool_decide_eq_true in Eq, Ep. congruence.
Qed.

Lemma started_status_abs ds :
  started_status now (Ok ds) = abs_status (abs_count Connected ds) (zlen ds) "GatewayStarted"
    "Gateway is running and accepting connections".
Proof. unfold started_status, running_status, pending_counts. simpl. by rewrite count_one. Qed.

Lemma counted_status_abs ds :
  counted_status now ds = abs_status (abs_count Connected ds) (abs_count Connected ds + abs_count Enrolled ds)
    "GatewayRunning" ("Gateway is running with " ++ pretty (abs_count Connected ds) ++ " connected devices").
Proof. unfold counted_status. by rewrite (count_two Enrolled Connected), count_one. Qed.

Lemma settled_abs d : needs_pull_policy d = negb (abs_settled d).
Proof.
  unfold needs_pull_policy, abs_settled, first_container. destruct (de_spec d) as [[? ? [? [[? [|c ?] ?]|]]]|]; try done.
  simpl. destruct (ct_image_pull_policy c) as [p|]; [|by case_bool_decide].
  destruct (String.eqb_spec p "Never"); case_bool_decide; simplify_eq; done.
Qed.

Lemma stripped_abs d : needs_pull_policy d = true -> merge_deployment pull_policy_patch d = abs_stripped d.
Proof.
  unfold needs_pull_policy, first_container, merge_deployment, abs_stripped.
  by destruct (de_spec d) as [[? ? [? [[? [|c ?] ?]|]]]|].
Qed.

Lemma started_endpoint_abs :
  (if pending_needs_update g then Some (cluster_endpoint (service_name g)) else None) =
  abs_started_endpoint (gs_endpoint (gw_spec g)).
Proof.
  unfold pending_needs_update, abs_started_endpoint, cluster_endpoint, service_name, abs_address.
  set (e := gs_endpoint (gw_spec g)). set (a := ((name ++ "-service") ++ _)%string).
  destruct (String.eqb_spec e a), (starts_with "127.0.0.1" e), (starts_with "localhost" e),
    (str_contains e "svc.cluster.local"), (bool_decide_reflect (e = a)); done.
Qed.

Lemma update_abs endpoint t s :
  abs_update endpoint t s =
  on_gateways (alter (fun g' => with_status t (match endpoint with Some e => with_endpoint e g' | None => g' end)) name) s.
Proof.
  unfold abs_update, on_gateways. f_equal. apply alter_ext. intros g' _.
  destruct endpoint; [done|]. by destruct g' as [? []].
Qed.
End Abstract.

(** The Deployment of the gateway, if there is one, needs no patch. *)
Definition deployment_current (g : GatewayResource) (s : gwstore) : Prop :=
  forall d, gv_deployments s !! deployment_name g = Some d -> needs_pull_policy d = false.

(** ** Running the monad *)

Section Run.
Context {W : Type}.

Lemma run_bind {A B} (c : ctl W A) (k : A -> ctl W B) w a w1 :
  c w = (Ok a, w1, []) -> cbind c k w = k a w1.
Proof. intros H. unfold cbind. rewrite H. by destruct (k a w1) as [[] ]. Qed.

Lemma run_bind_err {A B} (c : ctl W A) (k : A -> ctl W B) w e w1 :
  c w = (Err e, w1, []) -> cbind c k w = (Err e, w1, []).
Proof. intros H. unfold cbind. by rewrite H. Qed.

Lemma run_ask {A B} (f : W -> result kube_error A) (k : result kube_error A -> ctl W B) w :
  cbind (ask f) k w = k (f w) w.
Proof. by apply run_bind. Qed.
End Run.

Section Refinement.
Context {W : Type} {K : Kube W} {G : GwKube W} {gview : W -> gwstore}.
Context {L : GwLaws gview K G} {R : GwReliable gview K G}.
Variable now : string.

(** A request of the reliable API that succeeds. *)
Lemma act_run {A} (f : W -> result kube_error A * W) w upd :
  effect_of gview (f w) w upd -> is_ok (f w).1 = true ->
  exists a w', act_or_fail f w = (Ok a, w', []) /\ gview w' = upd (gview w).
Proof.
  unfold effect_of, act_or_fail. destruct (f w) as [[a|e] w']; simpl; [|done]. eauto.
Qed.

Lemma ignore_act_run {A} (f : W -> result kube_error A * W) w upd :
  effect_of gview (f w) w upd -> is_ok (f w).1 = true ->
  exists w', ignore_errors (act f) w = (Ok tt, w', []) /\ gview w' = upd (gview w).
Proof. unfold effect_of, ignore_errors, act. destruct (f w) as [[a|e] w']; simpl; [|done]. eauto. Qed.

Definition runs_to (c : ctl W unit) (upd : gwstore -> gwstore) (w : W) : Prop :=
  exists w', c w = (Ok tt, w', []) /\ gview w' = upd (gview w).

Lemma alter_insert_lookup {A} (f : A -> A) (m : gmap string A) n a : m !! n = Some a -> alter f n m = <[n := f a]> m.
Proof.
  intros Hn. apply map_eq. intros k. destruct (decide (k = n)) as [->|].
  - by rewrite lookup_alter_eq, lookup_insert_eq, Hn.
  - by rewrite lookup_alter_ne, lookup_insert_ne.
Qed.

Lemma secret_run w : runs_to ensure_certificates_secret (on_secrets (ensure secret_name empty_secret)) w.
Proof.
  unfold runs_to, ensure_certificates_secret. rewrite run_ask. pose proof (rel_sec w secret_name) as E.
  unfold on_secrets, ensure. destruct (gv_secrets (gview w) !! secret_name) as [s|] eqn:Hs.
  - rewrite E. exists w. split; [done|]. by destruct (gview w).
  - destruct E as [m ->].
    destruct (act_run (fun w => sec_create w empty_secret) w _ (sec_creates w _)) as ([] & w' & -> & Hv); [by apply rel_sec_create|].
    by exists w'.
Qed.

Lemma deployment_run g w : deployment_current g (gview w) ->
  runs_to (create_gateway_deployment g) (on_deployments (ensure (deployment_name g) (gateway_deployment g))) w.
Proof.
  intros Hc. unfold runs_to, create_gateway_deployment. rewrite run_ask.
  pose proof (rel_dep w (deployment_name g)) as E.
  unfold on_deployments, ensure. destruct (gv_deployments (gview w) !! deployment_name g) as [d|] eqn:Hs.
  - rewrite E, (Hc d Hs). exists w. split; [done|]. by destruct (gview w).
  - destruct E as [m ->].
    destruct (act_run (fun w => dep_create w (gateway_deployment g)) w _ (dep_creates w _)) as ([] & w' & -> & Hv); [by apply rel_dep_create|].
    by exists w'.
Qed.

Lemma service_run g w :
  runs_to (create_gateway_service g) (on_services (ensure (service_name g) (gateway_service g))) w.
Proof.
  unfold runs_to, create_gateway_service. rewrite run_ask. pose proof (rel_svc w (service_name g)) as E.
  unfold on_services, ensure. destruct (gv_services (gview w) !! service_name g) as [s|] eqn:Hs.
  - rewrite E. exists w. split; [done|]. by destruct (gview w).
  - destruct E as [m ->].
    destruct (act_run (fun w => svc_create w (gateway_service g)) w _ (svc_creates w _)) as ([] & w' & -> & Hv); [by apply rel_svc_create|].
    by exists w'.
Qed.

Lemma status_run g t w : is_Some (gv_gateways (gview w) !! gw_name_any g) ->
  runs_to (ignore_errors (update_gateway_status g t)) (on_gateways (alter (with_status t) (gw_name_any g))) w.
Proof.
  intros Hg. pose proof (rel_status w _ t Hg) as Ok1. pose proof (gw_patches_status w (gw_name_any g) t) as E.
  unfold runs_to, ignore_errors, update_gateway_status, cbind, act, effect_of in *.
  destruct (gwk_patch_status w (gw_name_any g) t) as [[]]; simpl in *; [|done]. eauto.
Qed.

Lemma endpoint_run g e (b : bool) w : is_Some (gv_gateways (gview w) !! gw_name_any g) ->
  runs_to (if b then ignore_errors (act (fun w => gwk_patch_endpoint w (gw_name_any g) e)) else cret tt)
    (on_gateways (alter (fun g' => if b then with_endpoint e g' else g') (gw_name_any g))) w.
Proof.
  intros Hg. destruct b.
  - apply ignore_act_run; [apply gw_patches_endpoint | by apply rel_endpoint].
  - exists w. split; [done|]. unfold on_gateways. destruct (gview w); simpl. f_equal.
    symmetry. by apply alter_id.
Qed.

Lemma seq_run (c k : ctl W unit) u v w :
  runs_to c u w -> (forall w1, gview w1 = u (gview w) -> runs_to k v w1) ->
  runs_to (cbind c (fun _ => k)) (fun s => v (u s)) w.
Proof.
  intros (w1 & E & V1) Hk. destruct (Hk w1 V1) as (w2 & E2 & V2).
  exists w2. rewrite (run_bind _ _ _ _ _ E). split; [done|]. by rewrite V2, V1.
Qed.

(** Listing the devices and writing the status that follows from them. *)
Lemma report_run g (t : result kube_error (list Device) -> GatewayStatus) w :
  is_Some (gv_gateways (gview w) !! gw_name_any g) ->
  runs_to (let@ devices := ask dev_list in ignore_errors (update_gateway_status g (t devices)))
    (fun s => on_gateways (alter (with_status (t (Ok (gv_devices s)))) (gw_name_any g)) s) w.
Proof. intros Hg. unfold runs_to. rewrite run_ask, rel_dev. by apply status_run. Qed.

Lemma runs_to_eq c u v w : runs_to c u w -> u (gview w) = v (gview w) -> runs_to c v w.
Proof. intros (w' & E & V) H. exists w'. by rewrite V. Qed.

(** The part of [handle_pending] after the Deployment. *)
Definition pending_tail (g : GatewayResource) : ctl W unit :=
  let@ _ := create_gateway_service g in
  let@ _ :=
    if pending_needs_update g
    then ignore_errors (act (fun w => gwk_patch_endpoint w (gw_name_any g) (cluster_endpoint (service_name g))))
    else cret tt in
  let@ devices := ask dev_list in
  ignore_errors (update_gateway_status g (started_status now devices)).

Lemma tail_run g w :
  is_Some (gv_gateways (gview w) !! gw_name_any g) -> runs_to (pending_tail g) (abs_start now g) w.
Proof.
  intros Hg. eapply runs_to_eq.
  { unfold pending_tail. eapply seq_run; [apply service_run|]. intros w1 V1.
    eapply seq_run; [apply (endpoint_run g); by rewrite V1|]. intros w2 V2.
    apply report_run. rewrite V2, V1. simpl. rewrite lookup_alter, decide_True by done. by apply fmap_is_Some. }
  unfold abs_start. rewrite <- started_endpoint_abs, <- started_status_abs, update_abs. unfold on_gateways. simpl.
  f_equal. rewrite alter_alter_eq. apply alter_ext. intros g' _. by destruct (pending_needs_update g).
Qed.

Lemma pending_split g w w1 r w2 :
  ensure_certificates_secret w = (Ok tt, w1, []) -> create_gateway_deployment g w1 = (r, w2, []) ->
  handle_pending now g w = match r with Ok _ => pending_tail g w2 | Err e => (Err e, w2, []) end.
Proof.
  intros E1 E2. unfold handle_pending. rewrite (run_bind _ _ _ _ _ E1). destruct r as [[]|e].
  - by rewrite (run_bind _ _ _ _ _ E2).
  - by rewrite (run_bind_err _ _ _ _ _ E2).
Qed.

(** The Deployment step: what is stored decides, and for another pull policy
    the answer of the API. *)
Lemma deployment_any g w :
  let answer := (dep_patch w (deployment_name g) pull_policy_patch).1 in
  exists w', create_gateway_deployment g w =
      (match gv_deployments (gview w) !! deployment_name g with
       | Some d => if abs_settled d then Ok tt else match answer with Ok _ => Ok tt | Err e => Err (KubeError e) end
       | None => Ok tt
       end, w', []) /\
    gview w' = on_deployments (fun m =>
      match m !! deployment_name g with
      | Some d => if abs_settled d then m
                  else match answer with Ok _ => <[deployment_name g := abs_stripped d]> m | Err _ => m end
      | None => <[deployment_name g := gateway_deployment g]> m
      end) (gview w).
Proof.
  intros answer. unfold create_gateway_deployment, on_deployments. pose proof (rel_dep w (deployment_name g)) as Er.
  destruct (gv_deployments (gview w) !! deployment_name g) as [d|] eqn:Hd.
  - pose proof (settled_abs d) as Hs. destruct (needs_pull_policy d) eqn:Hn.
    + pose proof (dep_patches w (deployment_name g) pull_policy_patch) as Hp. unfold effect_of in Hp.
      destruct (dep_patch w (deployment_name g) pull_policy_patch) as [a w2] eqn:Ep. exists w2.
      change answer with a. clear answer.
      rewrite run_ask, Er, Hn. unfold act_or_fail. rewrite Ep. destruct (abs_settled d); [done|].
      destruct a as [[]|e]; simpl in Hp |- *; (split; [done|]); rewrite Hp; [|by destruct (gview w)].
      unfold on_deployments. f_equal. rewrite (alter_insert_lookup _ _ _ _ Hd). by rewrite stripped_abs.
    + exists w. rewrite run_ask, Er, Hn. destruct (abs_settled d); [|done]. split; [done|]. by destruct (gview w).
  - destruct Er as [m Er].
    destruct (act_run (fun w => dep_create w (gateway_deployment g)) w _ (dep_creates w _)) as ([] & w' & Ha & Hv);
      [by apply rel_dep_create|]. exists w'. rewrite run_ask, Er, Ha. by rewrite Hv.
Qed.

(** What the API answers to the patch, when the Secret is there. *)
Definition patch_answer (g : GatewayResource) (w : W) (answer : result kube_error unit) : Prop :=
  exists w1, gview w1 = on_secrets (ensure secret_name empty_secret) (gview w) /\
    answer = (dep_patch w1 (deployment_name g) pull_policy_patch).1.

Lemma pending_any g w :
  is_Some (gv_gateways (gview w) !! gw_name_any g) ->
  exists answer r w', patch_answer g w answer /\ handle_pending now g w = (r, w', []) /\
    (match r with Ok _ => Ok 30 | Err e => Err e end, gview w') = abs_pending now g (gview w) answer.
Proof.
  intros Hg. destruct (secret_run w) as (w1 & E1 & V1). pose proof (deployment_any g w1) as (w2 & E2 & V2).
  set (answer := (dep_patch w1 _ _).1) in *. exists answer.
  assert (patch_answer g w answer) as Ha by (by exists w1). clearbody answer.
  rewrite (pending_split g w w1 _ w2 E1 E2). unfold abs_pending.
  change (gw_name_any g ++ "-deployment")%string with (deployment_name g). rewrite V1 in E2, V2 |- *.
  change (gv_deployments (on_secrets _ (gview w))) with (gv_deployments (gview w)) in *.
  assert (is_Some (gv_gateways (gview w2) !! gw_name_any g)) as Hg2 by (by rewrite V2).
  destruct (tail_run g w2 Hg2) as (w3 & E3 & V3). unfold on_deployments at 1 in V2. cbn [gv_deployments on_secrets] in V2.
  destruct (gv_deployments (gview w) !! deployment_name g) as [d|]; [destruct (abs_settled d); [|destruct answer as [[]|e]]|];
    cbv iota; try (exists (Ok tt), w3; split; [done|]; split; [done|]; by rewrite V3, V2).
  exists (Err (KubeError e)), w2. split; [done|]. split; [done|]. by rewrite V2.
Qed.

Lemma pending_run g w :
  is_Some (gv_gateways (gview w) !! gw_name_any g) -> deployment_current g (gview w) ->
  runs_to (handle_pending now g) (spec_pending now g) w.
Proof.
  intros Hg Hd. eapply runs_to_eq.
  { unfold handle_pending. eapply seq_run; [apply secret_run|]. intros w1 V1.
    eapply seq_run; [apply deployment_run; by rewrite V1|]. intros w2 V2.
    eapply seq_run; [apply service_run|]. intros w3 V3.
    eapply seq_run; [apply (endpoint_run g); by rewrite V3, V2, V1|]. intros w4 V4.
    apply report_run. rewrite V4, V3, V2, V1. simpl. rewrite lookup_alter, decide_True by done. by apply fmap_is_Some. }
  unfold spec_pending, provision, on_gateways. simpl. f_equal. by rewrite alter_alter_eq.
Qed.

Lemma existing_service_spec g w : existing_service g w = spec_service g (gview w).
Proof.
  unfold existing_service, spec_service. pose proof (rel_svc w (service_name g)) as E1.
  pose proof (rel_svc w (gw_name_any g)) as E2.
  destruct (gv_services (gview w) !! service_name g); [by rewrite E1|]. destruct E1 as [m1 ->].
  destruct (gv_services (gview w) !! gw_name_any g); [by rewrite E2|]. by destruct E2 as [m2 ->].
Qed.

Lemma running_run g w :
  is_Some (gv_gateways (gview w) !! gw_name_any g) -> runs_to (handle_running now g) (spec_running now g) w.
Proof.
  intros Hg. unfold runs_to, handle_running. rewrite existing_service_spec.
  set (e := cluster_endpoint (spec_service g (gview w))).
  set (b := negb (String.eqb (gs_endpoint (gw_spec g)) e)).
  destruct (endpoint_run g e b w Hg) as (w1 & E1 & V1).
  replace (if String.eqb (gs_endpoint (gw_spec g)) e then cret tt else _)
    with (if b then ignore_errors (act (fun w => gwk_patch_endpoint w (gw_name_any g) e)) else cret tt)
    by (by unfold b; destruct (String.eqb _ _)).
  rewrite (run_bind _ _ _ _ _ E1), run_ask, rel_dev.
  destruct (status_run g (counted_status now (gv_devices (gview w1))) w1) as (w2 & E2 & V2).
  { rewrite V1. simpl. rewrite lookup_alter, decide_True by done. by apply fmap_is_Some. }
  exists w2. split; [done|]. rewrite V2, V1. unfold spec_running, on_gateways; simpl. f_equal.
  rewrite alter_alter_eq. unfold b. by destruct (String.eqb _ _).
Qed.

Lemma running_abs g s : spec_running now g s = abs_running now g s.
Proof.
  unfold spec_running, abs_running. rewrite update_abs, counted_status_abs. unfold on_gateways. f_equal.
  apply alter_ext. intros g' _. f_equal.
  assert (spec_service g s = if decide (gv_services s !! (gw_name_any g ++ "-service")%string = None /\
    is_Some (gv_services s !! gw_name_any g)) then gw_name_any g else (gw_name_any g ++ "-service")%string) as <-.
  { unfold spec_service, service_name. destruct (gv_services s !! (gw_name_any g ++ "-service")%string),
      (gv_services s !! gw_name_any g); case_decide as Hd; try done; exfalso;
      [by destruct Hd..|apply Hd; by eauto|by destruct Hd as [_ [? ?]]]. }
  unfold cluster_endpoint, abs_address.
  by destruct (String.eqb_spec (gs_endpoint (gw_spec g)) (spec_service g s ++ ".wasmbed.svc.cluster.local:8080")%string);
    case_decide.
Qed.

Lemma pending_reconciled g w r w' :
  abs_phase g = GwPending -> handle_pending now g w = (r, w', []) ->
  reconcile_gateway now g w = (match r with Ok _ => Ok 30 | Err e => Err e end, w', []).
Proof.
  intros Hp E. unfold reconcile_gateway.
  replace (gt_phase (get_gateway_status now g)) with GwPending
    by (unfold abs_phase, get_gateway_status in *; by destruct (gw_status g)).
  destruct r as [[]|e]; [by rewrite (run_bind _ _ _ _ _ E)|by rewrite (run_bind_err _ _ _ _ _ E)].
Qed.

Lemma reconcile_running g w :
  abs_phase g = GwRunning -> is_Some (gv_gateways (gview w) !! gw_name_any g) ->
  exists w', reconcile_gateway now g w = (Ok 30, w', []) /\ gview w' = abs_running now g (gview w).
Proof.
  intros Hp Hg. destruct (running_run g w Hg) as (w' & E & V). exists w'. rewrite <- running_abs. split; [|done].
  unfold reconcile_gateway.
  replace (gt_phase (get_gateway_status now g)) with GwRunning
    by (unfold abs_phase, get_gateway_status in *; by destruct (gw_status g)).
  by rewrite (run_bind _ _ _ _ _ E).
Qed.

Lemma reconcile_run g w :
  is_Some (gv_gateways (gview w) !! gw_name_any g) -> deployment_current g (gview w) ->
  exists w', reconcile_gateway now g w = (Ok 30, w', []) /\ gview w' = spec_reconcile now g (gview w).
Proof.
  intros Hg Hd.
  assert (forall c u, runs_to c u w ->
    exists w', cbind c (fun _ => cret 30) w = (Ok 30, w', []) /\ gview w' = u (gview w)) as Step.
  { intros c u (w' & E & V). exists w'. by rewrite (run_bind _ _ _ _ _ E). }
  unfold reconcile_gateway, get_gateway_status, spec_reconcile.
  destruct (gw_status g) as [t|]; simpl; [destruct (gt_phase t)|].
  - by apply Step, pending_run.
  - by apply Step, running_run.
  - apply (Step _ id). by exists w.
  - apply (Step _ id). by exists w.
  - by apply Step, pending_run.
Qed.

(** C23: A reconciliation refines the abstract one, in every phase and whatever
    objects are there, against an API that answers and creates what is
    missing. A Pending gateway (or one without a status): the Secret and the
    Service are created when missing and otherwise kept; the Deployment is
    created when missing, kept when its first container is never pulled, and
    otherwise patched: when Kubernetes refuses that patch the reconciliation
    ends with its error and has changed nothing but the Secret, when it accepts
    it the container has lost its image, command, ports and mounts; then the
    resource gets a Running status with the connected and all devices counted,
    and the address of its Service unless its endpoint is inside the cluster. A
    Running gateway gets the address of the Service that exists and a new
    count; a failed or stopped one is left alone. The next reconciliation is
    due after 30 seconds, and nothing else in the cluster changes. *)
Theorem reconcile_refines_spec (g : GatewayResource) (w : W) :
  is_Some (gv_gateways (gview w) !! gw_name_any g) ->
  exists answer r w', patch_answer g w answer /\ reconcile_gateway now g w = (r, w', []) /\
    (r, gview w') = abs_reconcile now g (gview w) answer.
Proof.
  intros Hg. destruct (pending_any g w Hg) as (answer & r & w' & Ha & E & V). exists answer.
  unfold abs_reconcile. destruct (abs_phase g) eqn:Hp.
  - eexists _, w'. split; [done|]. split; [by apply pending_reconciled|done].
  - destruct (reconcile_running g w Hp Hg) as (w2 & E2 & V2). exists (Ok 30), w2. by rewrite V2.
  - exists (Ok 30), w. split; [done|]. split; [|done]. unfold reconcile_gateway, get_gateway_status.
    unfold abs_phase in Hp. destruct (gw_status g); [by rewrite Hp|done].
  - exists (Ok 30), w. split; [done|]. split; [|done]. unfold reconcile_gateway, get_gateway_status.
    unfold abs_phase in Hp. destruct (gw_status g); [by rewrite Hp|done].
Qed.
End Refinement.

(** ** An API that may fail *)

Section Failures.
Context {W : Type} {K : Kube W} {G : GwKube W} {gview : W -> gwstore} {L : GwLaws gview K G}.
Variable now : string.

(** No object disappears and no Gateway changes. *)
Definition grows (s s' : gwstore) : Prop :=
  gv_gateways s' = gv_gateways s /\ dom (gv_secrets s) ⊆ dom (gv_secrets s') /\
  dom (gv_deployments s) ⊆ dom (gv_deployments s') /\ dom (gv_services s) ⊆ dom (gv_services s').

#[local] Instance grows_preorder : PreOrder grows.
Proof. split; [by intros s | intros s1 s2 s3 (E1&?&?&?) (E2&?&?&?)].
  split_and!; [congruence|set_solver..]. Qed.

Lemma act_outcome {A} (f : W -> result kube_error A * W) w upd :
  effect_of gview (f w) w upd ->
  gview (act_or_fail f w).1.2 = if is_ok (act_or_fail f w).1.1 then upd (gview w) else gview w.
Proof. unfold effect_of, act_or_fail. by destruct (f w) as [[] w']. Qed.

(** What a provisioning step guarantees: it only adds, and when it succeeds
    the object it is about exists. *)
Definition provides (c : ctl W unit) (has : gwstore -> Prop) : Prop := forall w,
  grows (gview w) (gview (c w).1.2) /\ (is_ok (c w).1.1 = true -> has (gview (c w).1.2)).

Lemma provides_act (f : W -> result kube_error unit * W) upd (has : gwstore -> Prop) :
  (forall w, effect_of gview (f w) w upd) -> (forall s, grows s (upd s)) -> (forall s, has (upd s)) ->
  provides (act_or_fail f) has.
Proof.
  intros E Hg Hh w. rewrite (act_outcome f w upd (E w)). destruct (is_ok _); split; done.
Qed.

Definition has_secret (s : gwstore) : Prop := secret_name ∈ dom (gv_secrets s).
Definition has_deployment (g : GatewayResource) (s : gwstore) : Prop := deployment_name g ∈ dom (gv_deployments s).
Definition has_service (g : GatewayResource) (s : gwstore) : Prop := service_name g ∈ dom (gv_services s).

(** Look at what a read found: the object, a 404, or another failure, which
    ends the step. *)
Ltac after_read law :=
  let H := fresh "H" in pose proof law as H; unfold reads in H;
  repeat case_match; simplify_eq/=; try done.

Lemma secret_provides : provides ensure_certificates_secret has_secret.
Proof.
  intros w. unfold ensure_certificates_secret. rewrite run_ask. after_read (sec_reads w secret_name).
  - split; [done|]. intros _. unfold has_secret. by eapply elem_of_dom_2.
  - apply (provides_act (fun w => sec_create w empty_secret) (on_secrets <[secret_name := empty_secret]>)).
    + intros w'. apply (sec_creates w').
    + intros s. split_and!; set_solver.
    + intros s. unfold has_secret. set_solver.
Qed.

Lemma deployment_provides g : provides (create_gateway_deployment g) (has_deployment g).
Proof.
  intros w. unfold create_gateway_deployment. rewrite run_ask. after_read (dep_reads w (deployment_name g)).
  - rewrite (act_outcome _ w _ (dep_patches w (deployment_name g) pull_policy_patch)).
    apply elem_of_dom_2 in H. destruct (is_ok _); split; try done; unfold has_deployment, grows; simpl;
      rewrite dom_alter; split_and?; try done; set_solver.
  - split; [done|]. intros _. unfold has_deployment. by eapply elem_of_dom_2.
  - apply (provides_act (fun w => dep_create w (gateway_deployment g))
             (on_deployments <[deployment_name g := gateway_deployment g]>)).
    + intros w'. apply (dep_creates w').
    + intros s. split_and!; set_solver.
    + intros s. unfold has_deployment. set_solver.
Qed.

Lemma service_provides g : provides (create_gateway_service g) (has_service g).
Proof.
  intros w. unfold create_gateway_service. rewrite run_ask. after_read (svc_reads w (service_name g)).
  - split; [done|]. intros _. unfold has_service. by eapply elem_of_dom_2.
  - apply (provides_act (fun w => svc_create w (gateway_service g))
             (on_services <[service_name g := gateway_service g]>)).
    + intros w'. apply (svc_creates w').
    + intros s. split_and!; set_solver.
    + intros s. unfold has_service. set_solver.
Qed.

Lemma provides_seq (c k : ctl W unit) has w (Q : result controller_error unit -> gwstore -> Prop) :
  provides c has ->
  (forall e s, grows (gview w) s -> Q (Err e) s) ->
  (forall w1, grows (gview w) (gview w1) -> has (gview w1) -> Q (k w1).1.1 (gview (k w1).1.2)) ->
  Q (cbind c (fun _ => k) w).1.1 (gview (cbind c (fun _ => k) w).1.2).
Proof.
  intros Hc He Hk. destruct (Hc w) as [Hg Hh]. unfold cbind.
  destruct (c w) as [[[[]|e] w1] o]; simpl in *; [|by apply He].
  specialize (Hk w1 Hg (Hh eq_refl)). by destruct (k w1) as [[r w2] o2].
Qed.

(** The end of a handler never fails and changes only the Gateways. *)
Definition touches_gateways (c : ctl W unit) : Prop := forall w,
  is_ok (c w).1.1 = true /\ exists m, gview (c w).1.2 = on_gateways (fun _ => m) (gview w).

Lemma touches_ret : touches_gateways (cret tt).
Proof. intros w. split; [done|]. exists (gv_gateways (gview w)). by destruct (gview w) eqn:E; simpl; rewrite E. Qed.

Lemma touches_seq (c k : ctl W unit) :
  touches_gateways c -> touches_gateways k -> touches_gateways (cbind c (fun _ => k)).
Proof.
  intros Hc Hk w. destruct (Hc w) as [Ho [m Hm]]. unfold cbind.
  destruct (c w) as [[[u|] w1] o]; simpl in *; [|done].
  destruct (Hk w1) as [Ho' [m' Hm']]. destruct (k w1) as [[r w2] o2]; simpl in *.
  split; [done|]. exists m'. by rewrite Hm', Hm.
Qed.

Lemma touches_endpoint n e : touches_gateways (ignore_errors (act (fun w => gwk_patch_endpoint w n e))).
Proof.
  intros w. pose proof (gw_patches_endpoint w n e) as E. unfold effect_of, ignore_errors, act in *.
  destruct (gwk_patch_endpoint w n e) as [[u|er] w']; simpl in *; (split; [done|]); rewrite E; [by eexists|].
  exists (gv_gateways (gview w)). by destruct (gview w).
Qed.

Lemma touches_report g t : touches_gateways (ignore_errors (update_gateway_status g t)).
Proof.
  intros w. pose proof (gw_patches_status w (gw_name_any g) t) as E.
  unfold effect_of, ignore_errors, update_gateway_status, act, act_or_fail, cbind, cret in *.
  destruct (gwk_patch_status w (gw_name_any g) t) as [[u|er] w']; simpl in *; [split; [done|]; rewrite E; by eexists|].
  assert (exists m, gview w = on_gateways (fun _ => m) (gview w)) as Hid
    by (exists (gv_gateways (gview w)); by destruct (gview w)).
  pose proof (gw_patches w' (gw_name_any g) t) as E2.
  destruct (gwk_patch w' (gw_name_any g) t) as [r2 w2] eqn:E3; simpl in *.
  repeat case_match; simplify_eq/=; (split; [done|]); try rewrite E2; by rewrite E.
Qed.

Definition provisioned (g : GatewayResource) (s : gwstore) : Prop :=
  has_secret s /\ has_deployment g s /\ has_service g s.

Lemma grows_has g s s' : grows s s' ->
  (has_secret s -> has_secret s') /\ (has_deployment g s -> has_deployment g s').
Proof. intros (_ & Hs & Hd & _). split; [apply Hs | apply Hd]. Qed.

(** Either the objects are all there in the end, or the handler failed and
    has only added objects. *)
Lemma pending_outcome g w :
  if is_ok (handle_pending now g w).1.1 then provisioned g (gview (handle_pending now g w).1.2)
  else grows (gview w) (gview (handle_pending now g w).1.2).
Proof.
  set (Q := fun r s => if is_ok (E := controller_error) (A := unit) r then provisioned g s else grows (gview w) s).
  change (Q (handle_pending now g w).1.1 (gview (handle_pending now g w).1.2)).
  unfold handle_pending.
  apply (provides_seq _ _ has_secret); [apply secret_provides|done|]. intros w1 G1 H1.
  apply (provides_seq _ _ (has_deployment g)); [apply deployment_provides|intros e s Hs; change (grows (gview w) s); by etrans|]. intros w2 G2 H2.
  apply (provides_seq _ _ (has_service g)); 
    [apply service_provides|intros e s Hs; change (grows (gview w) s); etrans; [apply G1|by etrans]|]. intros w3 G3 H3.
  assert (touches_gateways (let@ _ :=
    if pending_needs_update g
    then ignore_errors (act (fun w => gwk_patch_endpoint w (gw_name_any g) (cluster_endpoint (service_name g))))
    else cret tt in
    let@ devices := ask dev_list in
    ignore_errors (update_gateway_status g (started_status now devices)))) as T.
  { apply touches_seq.
    - destruct (pending_needs_update g); [apply touches_endpoint | apply touches_ret].
    - intros w'. rewrite run_ask. apply touches_report. }
  unfold Q. destruct (T w3) as [-> [m ->]].
  pose proof (grows_has g _ _ G2) as [? _]. pose proof (grows_has g _ _ G3) as [? ?].
  unfold provisioned; simpl. unfold has_secret, has_deployment, has_service in *; simpl. auto.
Qed.

Lemma running_touches g : touches_gateways (handle_running now g).
Proof.
  intros w. unfold handle_running. apply touches_seq.
  - destruct (String.eqb _ _); [apply touches_ret | apply touches_endpoint].
  - intros w1. rewrite run_ask. destruct (dev_list w1); [apply touches_report | apply touches_ret].
Qed.

(** A reconciliation that fails is one of a Pending gateway, reports the error of a
    Kubernetes request, changes no Gateway resource and deletes nothing; running,
    failed and stopped gateways never fail to reconcile, whatever the API answers. *)
Theorem reconcile_failure (g : GatewayResource) (w : W) (e : controller_error) (w' : W) (o : list request) :
  reconcile_gateway now g w = (Err e, w', o) ->
  gt_phase (get_gateway_status now g) = GwPending /\ grows (gview w) (gview w').
Proof.
  unfold reconcile_gateway. pose proof (pending_outcome g w) as P. destruct (gt_phase _) eqn:Hp.
  - unfold cbind. destruct (handle_pending now g w) as [[[u|e'] w1] o1]; simpl in *; [done|].
    by intros [= -> <- <-].
  - destruct (running_touches g w) as [Ho _]. unfold cbind. by destruct (handle_running now g w) as [[[u|?] ?] ?].
  - done.
  - done.
Qed.

(** A Pending gateway whose reconciliation succeeds has its certificate Secret, its
    Deployment and its Service in the cluster, whichever requests failed on the
    way: no status or endpoint is written before the objects exist. *)
Theorem reconcile_provisions (g : GatewayResource) (w : W) (n : Z) (w' : W) (o : list request) :
  gt_phase (get_gateway_status now g) = GwPending ->
  reconcile_gateway now g w = (Ok n, w', o) -> provisioned g (gview w').
Proof.
  unfold reconcile_gateway. intros ->. pose proof (pending_outcome g w) as P. unfold cbind.
  destruct (handle_pending now g w) as [[[u|e'] w1] o1]; simpl in *; [|done]. by intros [= <- <- <-].
Qed.

(** The patch of an existing Deployment is a merge patch whose container list
    replaces the stored one: when the pull policy is not [Never], either the
    request fails, and with it the reconciliation, or the stored container has
    lost its image, command, ports, environment and certificate mount. *)
Theorem pull_policy_patch_strips (g : GatewayResource) (w : W) (d : Deployment) (w' : W) :
  dep_get w (deployment_name g) = Ok d -> needs_pull_policy d = true ->
  create_gateway_deployment g w = (Ok tt, w', []) ->
  exists d', gv_deployments (gview w') !! deployment_name g = Some d' /\
    first_container d' = Some (mkContainer "gateway" None (Some "Never") None None None None).
Proof.
  intros Hd Hn. unfold create_gateway_deployment. rewrite run_ask, Hd, Hn.
  pose proof (dep_reads w (deployment_name g)) as Hr. rewrite Hd in Hr.
  pose proof (dep_patches w (deployment_name g) pull_policy_patch) as E. unfold effect_of, act_or_fail in *.
  destruct (dep_patch w (deployment_name g) pull_policy_patch) as [[[]|e] w1]; simpl in *; intros [= <-].
  exists (merge_deployment pull_policy_patch d). rewrite E. simpl. rewrite lookup_alter, decide_True, Hr by done.
  split; [done|]. unfold first_container, merge_deployment. by destruct (de_spec d).
Qed.
End Failures.

(** ** A cluster in memory *)

(** What a site has besides the devices, applications and gateways. *)
Record provisions := mkProvisions {
  si_deployments : gmap string Deployment;
  si_services : gmap string Service;
  si_secrets : gmap string Secret;
}.

Definition site : Type := fleet * provisions.

Definition site_view (w : site) : gwstore :=
  mkGwstore w.1.2 (si_deployments w.2) (si_services w.2) (si_secrets w.2)
    (match dev_list w.1 with Ok l => l | Err _ => [] end).

Definition set_gateways (f : gmap string GatewayResource -> gmap string GatewayResource) (w : site) : site :=
  ((w.1.1, f w.1.2), w.2).

Definition not_found : kube_error := KApi 404 "not found".

Definition find_in {A} (m : gmap string A) (n : string) : result kube_error A :=
  match m !! n with Some a => Ok a | None => Err not_found end.

(** A change of the object [n] of [m], or a 404. *)
Definition if_found {A} (m : gmap string A) (n : string) (w w' : site) : result kube_error unit * site :=
  match m !! n with Some _ => (Ok tt, w') | None => (Err not_found, w) end.

(** A creation of [n], or a conflict. *)
Definition if_absent {A} (m : gmap string A) (n : string) (w w' : site) : result kube_error unit * site :=
  match m !! n with Some _ => (Err (KApi 409 "already exists"), w) | None => (Ok tt, w') end.

#[export] Instance site_kube : Kube site := kube_prod fleet_kube provisions.

#[export] Instance site_gw : GwKube site := {|
  gwk_patch_endpoint w n e := if_found w.1.2 n w (set_gateways (alter (with_endpoint e) n) w);
  gwk_patch_status w n t := if_found w.1.2 n w (set_gateways (alter (with_status t) n) w);
  gwk_patch w n t := if_found w.1.2 n w w;
  dep_get w := find_in (si_deployments w.2);
  dep_patch w n p := if_found (si_deployments w.2) n w
    (w.1, mkProvisions (alter (merge_deployment p) n (si_deployments w.2)) (si_services w.2) (si_secrets w.2));
  dep_create w d := let n := meta_name (de_metadata d) in if_absent (si_deployments w.2) n w
    (w.1, mkProvisions (<[n := d]> (si_deployments w.2)) (si_services w.2) (si_secrets w.2));
  svc_get w := find_in (si_services w.2);
  svc_create w d := let n := meta_name (se_metadata d) in if_absent (si_services w.2) n w
    (w.1, mkProvisions (si_deployments w.2) (<[n := d]> (si_services w.2)) (si_secrets w.2));
  sec_get w := find_in (si_secrets w.2);
  sec_create w d := let n := meta_name (sc_metadata d) in if_absent (si_secrets w.2) n w
    (w.1, mkProvisions (si_deployments w.2) (si_services w.2) (<[n := d]> (si_secrets w.2)));
|}.

(** The same site with an API that cannot read Services. *)
Definition outage_gw : GwKube site := {|
  gwk_patch_endpoint := gwk_patch_endpoint; gwk_patch_status := gwk_patch_status; gwk_patch := gwk_patch;
  dep_get := dep_get; dep_patch := dep_patch; dep_create := dep_create;
  svc_get _ _ := Err (KOther "connection refused"); svc_create := svc_create;
  sec_get := sec_get; sec_create := sec_create;
|}.

Lemma outage_laws : GwLaws site_view site_kube outage_gw.
Proof.
  split; simpl; unfold reads, effect_of; intros w; intros; simpl; unfold find_in, if_found, if_absent;
    try (by repeat case_match; simplify_eq/=).
Qed.

#[export] Instance site_laws : GwLaws site_view site_kube site_gw.
Proof.
  split; simpl; unfold reads, effect_of; intros w; intros; simpl; unfold find_in, if_found, if_absent;
    try (by repeat case_match; simplify_eq/=).
Qed.

#[export] Instance site_reliable : GwReliable site_view site_kube site_gw.
Proof.
  split; simpl; unfold sound_read; intros [[c gs] [deps svcs secs]]; intros; simpl in *;
    unfold find_in, if_found, if_absent; repeat case_match; simplify_eq/=; try done; eauto; by destruct H.
Qed.

(** ** Device counts *)

Lemma as_i32_small n : 0 <= n < 2 ^ 31 -> as_i32 n = n.
Proof. intros H. unfold as_i32. rewrite Z.mod_small by lia. destruct (Z.ltb_spec n (2 ^ 31)); lia. Qed.

Lemma count_le ps qs ds : (forall p, p ∈ ps -> p ∈ qs) -> 0 <= count_in ps ds <= count_in qs ds.
Proof.
  intros Hpq. unfold count_in, zlen. induction ds as [|d ds IH]; simpl; [lia|].
  assert (device_in ps d = true -> device_in qs d = true) as Hd.
  { unfold device_in. destruct (d_status d); [|done]. rewrite !bool_decide_eq_true. auto. }
  destruct (device_in ps d), (device_in qs d); simpl; try lia.
Qed.

Lemma count_le_length ps ds : count_in ps ds <= zlen ds.
Proof. unfold count_in, zlen. induction ds as [|d ds IH]; simpl; [lia|]. destruct (device_in ps d); simpl; lia. Qed.

(** In both statuses the controller writes, with fewer than 2^31 devices, the counts
    are non-negative and no more devices are connected than enrolled; the first
    status counts every device as enrolled, so it never reports fewer enrolled
    devices than the statuses that follow. *)
Theorem device_counts_bounded (now : string) (ds : list Device) :
  zlen ds < 2 ^ 31 ->
  exists c e0 e1,
    gt_connected_devices (started_status now (Ok ds)) = Some c /\
    gt_enrolled_devices (started_status now (Ok ds)) = Some e0 /\
    gt_connected_devices (counted_status now ds) = Some c /\
    gt_enrolled_devices (counted_status now ds) = Some e1 /\
    0 <= c <= e1 /\ e1 <= e0 /\ e0 = zlen ds.
Proof.
  intros Hlen. pose proof (count_le [Connected] [Enrolled; Connected] ds ltac:(set_solver)).
  pose proof (count_le_length [Enrolled; Connected] ds). pose proof (zlen_nonneg ds).
  exists (count_in [Connected] ds), (zlen ds), (count_in [Enrolled; Connected] ds). simpl.
  rewrite !as_i32_small by lia. split_and!; try done; lia.
Qed.

(** ** Convergence of the abstract reconciliation *)

(** What is stored under the gateway's name is what the watch delivers. *)
Definition stored (n : string) (s : gwstore) (g : GatewayResource) : Prop :=
  gv_gateways s !! n = Some g /\ gw_name_any g = n.

Lemma pending_stored now n s g :
  stored n s g -> exists e,
  stored n (spec_pending now g s)
    (with_status (started_status now (Ok (gv_devices s))) (with_endpoint e g)).
Proof.
  intros [Hg Hn]. exists (if pending_needs_update g then cluster_endpoint (service_name g) else gs_endpoint (gw_spec g)).
  split; [|done]. unfold spec_pending. simpl. rewrite Hn, lookup_alter, decide_True, Hg by done. simpl. f_equal.
  destruct (pending_needs_update g); [done|]. by destruct g as [? []].
Qed.

(** The resource after an update. *)
Definition updated (endpoint : option string) (t : GatewayStatus) (g : GatewayResource) : GatewayResource :=
  mkGatewayResource (gw_name g)
    (mkGatewaySpec (default (gs_endpoint (gw_spec g)) endpoint) (gs_capabilities (gw_spec g)) (gs_config (gw_spec g)))
    (Some t).

Lemma update_stored n s g endpoint t : stored n s g -> stored n (abs_update g endpoint t s) (updated endpoint t g).
Proof.
  intros [Hg Hn]. split; [|done]. unfold abs_update. simpl. by rewrite Hn, lookup_alter_eq, Hg.
Qed.

Lemma update_fix n s g endpoint t :
  stored n s g -> updated endpoint t g = g -> abs_update g endpoint t s = s.
Proof.
  intros [Hg Hn] Hu. unfold abs_update, on_gateways. rewrite Hn, alter_id; [by destruct s|].
  intros g' Hg'. rewrite Hg in Hg'. injection Hg' as <-. exact Hu.
Qed.

(** With the Service there, a Running gateway gets its address. *)
Lemma running_address now g s :
  is_Some (gv_services s !! (gw_name_any g ++ "-service")%string) ->
  exists t, abs_running now g s =
    abs_update g (if decide (gs_endpoint (gw_spec g) = abs_address (gw_name_any g ++ "-service")) then None
                  else Some (abs_address (gw_name_any g ++ "-service"))) t s /\
    gt_phase t = GwRunning /\
    (forall s', gv_devices s' = gv_devices s -> is_Some (gv_services s' !! (gw_name_any g ++ "-service")%string) ->
       forall g', gw_name_any g' = gw_name_any g -> gs_endpoint (gw_spec g') = abs_address (gw_name_any g ++ "-service") ->
       abs_running now g' s' = abs_update g' None t s').
Proof.
  intros [sv Hs]. eexists. split; [|split].
  - unfold abs_running. rewrite (decide_False (P := _ /\ _)) by (intros [? _]; congruence). reflexivity.
  - done.
  - intros s' Hd [sv' Hs'] g' Hn He. unfold abs_running. rewrite Hd, Hn, He.
    rewrite (decide_False (P := _ /\ _)) by (intros [? _]; congruence). by rewrite decide_True.
Qed.

Lemma start_service now g s : is_Some (gv_services (abs_start now g s) !! (gw_name_any g ++ "-service")%string).
Proof.
  unfold abs_start, ensure. simpl.
  destruct (gv_services s !! (gw_name_any g ++ "-service")%string) eqn:E; [by rewrite E|]. by rewrite lookup_insert_eq.
Qed.

(** A started gateway is stored as Running. *)
Lemma start_stored now n s g :
  stored n s g -> exists g1, stored n (abs_start now g s) g1 /\ gateway_running g1 = true /\ abs_phase g1 = GwRunning /\
    gw_name_any g1 = n.
Proof.
  intros Hs. eexists. split; [unfold abs_start; apply update_stored; exact Hs|]. by destruct Hs as [_ <-].
Qed.

Section Convergence.
Context {W : Type} {K : Kube W} {G : GwKube W} {gview : W -> gwstore}.
Context {L : GwLaws gview K G} {R : GwReliable gview K G}.
Variable now : string.

(** Reconcile what is stored under a name. *)
Lemma stored_run n w g :
  stored n (gview w) g -> deployment_current g (gview w) ->
  exists w', reconcile_gateway now g w = (Ok 30, w', []) /\ gview w' = spec_reconcile now g (gview w).
Proof. intros [Hg <-] Hd. apply reconcile_run; [by rewrite Hg | done]. Qed.

(** Two reconciliations of a Running gateway whose Service is there. *)
Lemma running_twice n g1 w1 :
  stored n (gview w1) g1 -> abs_phase g1 = GwRunning -> is_Some (gv_services (gview w1) !! (n ++ "-service")%string) ->
  exists w2 g2 w3, reconcile_gateway now g1 w1 = (Ok 30, w2, []) /\ stored n (gview w2) g2 /\
    gs_endpoint (gw_spec g2) = abs_address (n ++ "-service") /\
    reconcile_gateway now g2 w2 = (Ok 30, w3, []) /\ gview w3 = gview w2.
Proof.
  intros S1 P1 Sv. pose proof S1 as [G1 N1]. rewrite <- N1 in Sv.
  destruct (reconcile_running now g1 w1 P1 ltac:(by rewrite N1, G1)) as (w2 & E2 & V2).
  destruct (running_address now g1 (gview w1) Sv) as (t & Ht & Hp & Hfix). rewrite Ht in V2.
  pose proof (update_stored n _ g1 (if decide (gs_endpoint (gw_spec g1) = abs_address (gw_name_any g1 ++ "-service"))
    then None else Some (abs_address (gw_name_any g1 ++ "-service"))) t S1) as S2. rewrite <- V2 in S2.
  match type of S2 with stored _ _ ?g => set (g2 := g) in S2 end. pose proof S2 as [G2 N2].
  assert (gs_endpoint (gw_spec g2) = abs_address (gw_name_any g1 ++ "-service")) as He
    by (unfold g2, updated; by case_decide).
  destruct (reconcile_running now g2 w2) as (w3 & E3 & V3); [done|by rewrite N2, G2|].
  exists w2, g2, w3. rewrite <- N1. split_and!; [done|by rewrite N1|done|done|].
  rewrite V3, (Hfix (gview w2)); [|by rewrite V2|by rewrite V2|done|done].
  by apply (update_fix n).
Qed.

(** C24: Reconciliation converges or reports why not: from a stored gateway
    without a status, or a Pending one, whatever its endpoint, the first
    reconciliation makes it Running and the second puts its endpoint on the
    address of its Service, and a third with the same devices and clock changes
    nothing. The one exception, against an API that answers and creates what is
    missing: a Deployment of its name exists whose first container has another
    pull policy than Never, and Kubernetes refuses the patch of it; then the
    reconciliation fails with that error and the gateway stays as it was. *)
Theorem reconcile_converges (n : string) (g : GatewayResource) (w : W) :
  stored n (gview w) g -> abs_phase g = GwPending ->
  (exists w1 g1 w2 g2 w3,
    reconcile_gateway now g w = (Ok 30, w1, []) /\ stored n (gview w1) g1 /\ gateway_running g1 = true /\
    reconcile_gateway now g1 w1 = (Ok 30, w2, []) /\ stored n (gview w2) g2 /\
    gs_endpoint (gw_spec g2) = (n ++ "-service.wasmbed.svc.cluster.local:8080")%string /\
    reconcile_gateway now g2 w2 = (Ok 30, w3, []) /\ gview w3 = gview w2) \/
  (exists d e w1,
    gv_deployments (gview w) !! (n ++ "-deployment")%string = Some d /\ abs_settled d = false /\
    patch_answer (gview := gview) g w (Err e) /\
    reconcile_gateway now g w = (Err (KubeError e), w1, []) /\ stored n (gview w1) g).
Proof.
  intros Hs Hp. pose proof Hs as [Hg Hn].
  destruct (pending_any (gview := gview) now g w) as (answer & r & w1 & Ha & E & V); [by rewrite Hn, Hg|].
  pose proof (pending_reconciled now g w r w1 Hp E) as E1. unfold abs_pending in V. rewrite Hn in V.
  assert (forall s, gv_gateways s = gv_gateways (gview w) -> match r with Ok _ => Ok 30 | Err e => Err e end = Ok 30 ->
    gview w1 = abs_start now g s -> exists w1' g1 w2 g2 w3,
    reconcile_gateway now g w = (Ok 30, w1', []) /\ stored n (gview w1') g1 /\ gateway_running g1 = true /\
    reconcile_gateway now g1 w1' = (Ok 30, w2, []) /\ stored n (gview w2) g2 /\
    gs_endpoint (gw_spec g2) = (n ++ "-service.wasmbed.svc.cluster.local:8080")%string /\
    reconcile_gateway now g2 w2 = (Ok 30, w3, []) /\ gview w3 = gview w2) as Started.
  { intros s Hgs Hr V1. rewrite Hr in E1.
    destruct (start_stored now n s g) as (g1 & S1 & R1 & P1 & N1); [split; [by rewrite Hgs|done]|].
    pose proof (start_service now g s) as Sv. rewrite <- V1 in S1, Sv. rewrite Hn in Sv.
    destruct (running_twice n g1 w1 S1 P1 Sv) as (w2 & g2 & w3 & E2 & S2 & He & E3 & V3).
    exists w1, g1, w2, g2, w3. split_and!; try done. rewrite He. unfold abs_address. by rewrite <- string_app_assoc. }
  destruct (gv_deployments (gview w) !! (n ++ "-deployment")%string) as [d|] eqn:Hd;
    [destruct (abs_settled d) eqn:Hset; [|destruct answer as [[]|e]]|].
  1,2,4: injection V as Hr V; left; by eapply Started; [| |exact V].
  right. injection V as Hr V. exists d, e, w1. split_and!; try done; [by rewrite Hr in E1|]. split; [|done]. by rewrite V.
Qed.
End Convergence.

(** ** Witnesses *)

Definition new_gateway : GatewayResource :=
  mkGatewayResource (Some "gw-1") (mkGatewaySpec "127.0.0.1:8443" None None) None.

Definition site_of (g : GatewayResource) (deps : gmap string Deployment) : site :=
  ((mkCluster ∅ ∅, {[ "gw-1" := g ]}), mkProvisions deps ∅ ∅).

Lemma new_gateway_current : deployment_current new_gateway (site_view (site_of new_gateway ∅)).
Proof. done. Qed.

Lemma reconcile_failure_witness :
  exists e w' o,
    reconcile_gateway (G := outage_gw) "t" new_gateway (site_of new_gateway ∅) = (Err e, w', o) /\
    gt_phase (get_gateway_status "t" new_gateway) = GwPending /\
    grows (site_view (site_of new_gateway ∅)) (site_view w').
Proof.
  set (w' := (reconcile_gateway (G := outage_gw) "t" new_gateway (site_of new_gateway ∅)).1.2).
  exists (KubeError (KOther "connection refused")), w', []. split; [reflexivity|].
  by apply (reconcile_failure (L := outage_laws) "t" new_gateway (site_of new_gateway ∅)
    (KubeError (KOther "connection refused")) w' []).
Defined.

Lemma reconcile_provisions_witness :
  exists n w' o,
    reconcile_gateway "t" new_gateway (site_of new_gateway ∅) = (Ok n, w', o) /\ provisioned new_gateway (site_view w').
Proof.
  set (w' := (reconcile_gateway "t" new_gateway (site_of new_gateway ∅)).1.2).
  exists 30, w', []. split; [reflexivity|].
  by apply (reconcile_provisions (gview := site_view) "t" new_gateway (site_of new_gateway ∅) 30 w' []).
Defined.

(** A Deployment as another tool may have created it. *)
Definition pulled_deployment : Deployment :=
  mkDeployment (mkObjectMeta (Some "gw-1-deployment") (Some "wasmbed") None)
    (Some (mkDeploymentSpec (Some 1) None (mkPodTemplateSpec None
       (Some (mkPodSpec None [mkContainer "gateway" (Some "gateway:latest") (Some "Always") None None None None] None))))).

Definition pulled_site : site := site_of new_gateway {[ "gw-1-deployment" := pulled_deployment ]}.

(** The patch of the foreign Deployment is accepted: the gateway runs. *)
Lemma reconcile_refines_spec_witness :
  exists answer r w', patch_answer (gview := site_view) new_gateway pulled_site answer /\
    reconcile_gateway "t" new_gateway pulled_site = (r, w', []) /\
    (r, site_view w') = abs_reconcile "t" new_gateway (site_view pulled_site) answer.
Proof. apply (reconcile_refines_spec (gview := site_view) "t" new_gateway pulled_site). by eexists. Defined.

Lemma reconcile_converges_witness :
  exists w1 g1 w2 g2 w3,
    reconcile_gateway "t" new_gateway (site_of new_gateway ∅) = (Ok 30, w1, []) /\
    stored "gw-1" (site_view w1) g1 /\ gateway_running g1 = true /\
    reconcile_gateway "t" g1 w1 = (Ok 30, w2, []) /\ stored "gw-1" (site_view w2) g2 /\
    gs_endpoint (gw_spec g2) = "gw-1-service.wasmbed.svc.cluster.local:8080" /\
    reconcile_gateway "t" g2 w2 = (Ok 30, w3, []) /\ site_view w3 = site_view w2.
Proof.
  destruct (reconcile_converges (gview := site_view) "t" "gw-1" new_gateway (site_of new_gateway ∅))
    as [H|(d & e & w1 & Hd & _)]; [done|done|exact H|by vm_compute in Hd].
Defined.

Lemma pull_policy_patch_strips_witness :
  exists w' d',
    create_gateway_deployment new_gateway (site_of new_gateway {[ "gw-1-deployment" := pulled_deployment ]})
      = (Ok tt, w', []) /\
    gv_deployments (site_view w') !! "gw-1-deployment" = Some d' /\ (ct_image <$> first_container d') = Some None.
Proof.
  set (w := site_of new_gateway {[ "gw-1-deployment" := pulled_deployment ]}).
  destruct (pull_policy_patch_strips (gview := site_view) new_gateway w pulled_deployment
    (create_gateway_deployment new_gateway w).1.2) as (d' & Hd & Hc); [by vm_compute..|].
  eexists _, d'. split; [reflexivity|]. split; [exact Hd|]. by rewrite Hc.
Defined.

Lemma device_counts_bounded_witness :
  exists c e0 e1,
    gt_connected_devices (started_status "t" (Ok [])) = Some c /\
    gt_enrolled_devices (started_status "t" (Ok [])) = Some e0 /\
    gt_connected_devices (counted_status "t" []) = Some c /\
    gt_enrolled_devices (counted_status "t" []) = Some e1 /\
    0 <= c <= e1 /\ e1 <= e0 /\ e0 = zlen (A := Device) [].
Proof. apply (device_counts_bounded "t" []). done. Defined.
