(* ===== verification/AppDeployment.v ===== *)
(** * The rest of the application controller:
    [crates/wasmbed-application-controller/src/main.rs]

    The configuration of the controller and the methods its handlers do not
    call: the status with its fallback, the deployment through the configured
    gateway and the Kubernetes Deployment of an application, which has the
    objects and the API of the gateway controller. *)

From S2P Require Import Prelude.
From S2P Require Import RustStd.
From S2P Require Import K8s.
From S2P Require Import KubeStore.
From S2P Require Import ControllerApi.
From S2P Require Import DeviceController.
From S2P Require Import AppController.
From S2P Require Import GatewayController.
From S2P Require Import GatewayControllerProofs.

(** [ApplicationController::new]: [GATEWAY_ENDPOINT], if it says anything. *)
Definition configured_endpoint (var : option string) : string :=
  match var with
  | Some v => if String.eqb (trim v) "" then "http://localhost:8080"%string else trim v
  | None => "http://localhost:8080"%string
  end.

Section Methods.
Context {W : Type} `{K : Kube W}.
Variable now : string.

Definition default_creating : CrdAppStatus := mkCrdAppStatus ApCreating None None (Some now) None.

(** Both looks at the object, then at a fresh copy of it. *)
Definition get_application_status_with_fallback (name : string) (application : Application) (w : W) : CrdAppStatus :=
  let settled a := match Application_status a with
                   | Some s => if bool_decide (as_phase s = ApCreating) then None else Some s
                   | None => None
                   end in
  match settled application with
  | Some s => s
  | None =>
      match settled application with
      | Some s => s
      | None =>
          match app_get w name with
          | Ok fresh => match Application_status fresh with Some s => s | None => default_creating end
          | Err _ => default_creating
          end
      end
  end.

(** Whatever is stored, the answer is Creating: the accessor never has a
    status. *)
Theorem fallback_is_creating name application w :
  get_application_status_with_fallback name application w = default_creating.
Proof. unfold get_application_status_with_fallback. simpl. by destruct (app_get w name). Qed.

(** [deploy_application_to_device]: the URL that is called and the outcome. *)
Definition deploy_application_to_device (post : string -> http_outcome) (gateway_endpoint device_id : string) :
    string * result string unit :=
  let url := ("http://" ++ http_endpoint gateway_endpoint ++ "/api/v1/devices/" ++ device_id ++ "/deploy")%string in
  (url, deploy_result (post url)).

(** For a device that names no gateway it is the deployment of the loop. *)
Theorem default_deployment_agrees post gateway_endpoint device :
  gateway_of device = None ->
  (deploy_application_to_device post gateway_endpoint (name_any device)).1 = deploy_url gateway_endpoint device.
Proof. intros H. unfold deploy_application_to_device, deploy_url, device_endpoint. by rewrite H. Qed.
End Methods.

(** ** Deployments of applications *)

Definition application_labels (a : Application) : labels :=
  {["app" := "wasmbed-application"; "application" := app_name_any a]}.
Definition application_deployment_name (a : Application) : string := (app_name_any a ++ "-deployment")%string.

Definition application_deployment (a : Application) : Deployment :=
  mkDeployment
    (mkObjectMeta (Some (application_deployment_name a)) (Some "wasmbed"%string) (Some (application_labels a)))
    (Some (mkDeploymentSpec (Some 1%Z) (Some (application_labels a))
       (mkPodTemplateSpec (Some (application_labels a))
          (Some (mkPodSpec None
                   [mkContainer "application" (Some "wasmbed/application:latest"%string) None None None
                      (Some [mkEnvVar "APPLICATION_NAME" (Some (app_name_any a));
                             mkEnvVar "WASM_BYTES" (Some (a_wasm_bytes (a_spec a)))]) None]
                   None))))).

Section Deployments.
Context {W : Type} `{K : Kube W} `{G : GwKube W}.

Definition create_application_deployment (a : Application) : ctl W unit :=
  let@ found := ask (fun w => dep_get w (application_deployment_name a)) in
  match found with
  | Ok _ => cret tt
  | Err (KApi 404 _) => act_or_fail (fun w => dep_create w (application_deployment a))
  | Err e => cfail (KubeError e)
  end.

Context {gview : W -> gwstore} `{L : !GwLaws gview K G}.

(** An existing Deployment of that name is kept, whoever made it; otherwise
    one is added, and a failure changes nothing. *)
Theorem application_deployment_ensured a w r w' out :
  create_application_deployment a w = (r, w', out) ->
  gview w' = if is_ok r
             then on_deployments (ensure (application_deployment_name a) (application_deployment a)) (gview w)
             else gview w.
Proof.
  unfold create_application_deployment, ask, cbind. simpl.
  pose proof (dep_reads w (application_deployment_name a)) as Hr.
  destruct (dep_get w (application_deployment_name a)) as [d|[code msg|pk|msg]] eqn:Eg; simpl.
  - intros [= <- <- <-]. simpl. unfold on_deployments, ensure. rewrite Hr. by destruct (gview w).
  - destruct (decide (code = 404%Z)) as [->|Hne].
    + unfold act_or_fail. pose proof (dep_creates w (application_deployment a)) as Hc. unfold effect_of in Hc.
      destruct (dep_create w (application_deployment a)) as [r0 w0]. simpl in *. intros [= <- <- <-].
      rewrite Hc. destruct r0; simpl; [|done]. unfold on_deployments, ensure. by rewrite Hr.
    + assert (match code with 404%Z => act_or_fail (fun w => dep_create w (application_deployment a))
              | _ => cfail (KubeError (KApi code msg)) end = cfail (W := W) (KubeError (KApi code msg))) as E
        by (repeat case_match; congruence).
      rewrite E. unfold cfail. by intros [= <- <- <-].
  - unfold cfail. by intros [= <- <- <-].
  - unfold cfail. by intros [= <- <- <-].
Qed.

(** The names do not tell applications and gateways apart: with the
    Deployment of a gateway of the same name in place, the application gets
    none, and success is reported. *)
Theorem gateway_name_taken `{R : !GwReliable gview K G} a g d w :
  gw_name_any g = app_name_any a -> gv_deployments (gview w) !! deployment_name g = Some d ->
  create_application_deployment a w = (Ok tt, w, []).
Proof.
  intros Hn Hd. unfold create_application_deployment, ask, cbind. simpl.
  pose proof (rel_dep w (application_deployment_name a)) as Hr.
  unfold application_deployment_name in *. unfold deployment_name in Hd. rewrite Hn in Hd.
  rewrite Hd in Hr. by rewrite Hr.
Qed.
End Deployments.
