(* ===== verification/ControllersTogether.v ===== *)
(** * The gateway controller and the device controller on one cluster

    The two controllers meet in the Gateway resources: one writes their status,
    the other assigns devices to those that run. [SharedCluster] says that they
    see the same ones. *)

From S2P Require Import Prelude.
From S2P Require Import RustStd.
From S2P Require Import Externals.
From S2P Require Import K8s.
From S2P Require Import KubeStore.
From S2P Require Import K8sProofs.
From S2P Require Import ControllerApi.
From S2P Require Import DeviceController.
From S2P Require Import DeviceControllerProofs.
From S2P Require Import GatewayController.
From S2P Require Import GatewayControllerProofs.

(** The list the device controller reads holds the Gateways of the cluster. *)
Class SharedCluster {W} (gview : W -> gwstore) (C : CtlKube W) : Prop := {
  shared_answers w : is_ok (gw_list w) = true;
  shared_list w l : gw_list w = Ok l -> forall g, g ∈ l <-> exists n, gv_gateways (gview w) !! n = Some g;
}.

Section Together.
Context {W : Type} {K : Kube W} {G : GwKube W} {C : CtlKube W}.
Context {gview : W -> gwstore} {view : W -> gmap string Device}.
Context {L : GwLaws gview K G} {R : GwReliable gview K G} {S : SharedCluster gview C}.
Context {KL : KubeStoreLaws K view} {CL : CtlLaws K C view}.
Context (default_hash : string -> Z) (api_server_url : string) (renode : string -> result string unit).

(** Two states with the same device list have the same devices. *)
Lemma same_devices w w' n d :
  gv_devices (gview w') = gv_devices (gview w) -> view w !! n = Some d -> view w' !! n = Some d.
Proof.
  intros E Hd. pose proof (view_named _ _ _ Hd) as Hn.
  destruct (dev_list_view w _ (rel_dev w)) as (_ & Hin & _). apply Hin in Hd. rewrite <- E in Hd.
  destruct (dev_list_view w' _ (rel_dev w')) as (Hout & _ & _). apply Hout in Hd as (n' & Hn' & Hv).
  rewrite Hn in Hn'. by injection Hn' as <-.
Qed.

Lemma spec_reconcile_devices now g s : gv_devices (spec_reconcile now g s) = gv_devices s.
Proof. unfold spec_reconcile. by repeat case_match. Qed.

Lemma listed w n g : gv_gateways (gview w) !! n = Some g -> exists l, gw_list w = Ok l /\ g ∈ l.
Proof.
  intros Hg. pose proof (shared_answers w) as Ha. destruct (gw_list w) as [l|e] eqn:E; [|done].
  exists l. split; [done|]. apply (shared_list w l E). eauto.
Qed.

Notation reconcile_device := (reconcile_stored (view := view) default_hash id api_server_url renode).

Lemma enrolling_waits t n d s w :
  view w !! n = Some d -> d_status d = Some s -> ds_phase s = Enrolling ->
  (forall m g, gv_gateways (gview w) !! m = Some g -> gateway_running g = false) ->
  reconcile_device t n w = w.
Proof.
  intros Hd Hs Hp Hnone. unfold reconcile_stored, reconcile. rewrite Hd, Hs, Hp.
  unfold handle_enrollment, cbind, ask_or_fail. pose proof (shared_answers w) as Ha.
  destruct (gw_list w) as [l|e] eqn:E; [|done]. simpl.
  replace (List.filter gateway_running l) with (@nil GatewayResource); [done|].
  symmetry. destruct (List.filter gateway_running l) as [|g0 l0] eqn:Ef; [done|].
  assert (g0 ∈ List.filter gateway_running l) as Hin by (rewrite Ef; left).
  apply running_filter in Hin as [Hin Hr]. apply (shared_list w l E) in Hin as [m Hm].
  apply Hnone in Hm. congruence.
Qed.

(** C25: The two controllers together: a device in enrollment that prefers a gateway
    waits, unchanged, as long as no gateway runs; once the gateway controller has
    reconciled the Pending resource, the next reconciliation of the device leaves
    it Enrolled with a reference to that gateway. Assumes that the API accepts
    the writes and that a Deployment of the gateway's name, if there is one,
    already has what the controller would patch. *)
Theorem gateway_start_enrolls_device (now gn dn : string) (t1 t2 : Z) (g : GatewayResource) (d : Device)
    (s : DeviceStatus) (w : W) :
  ctl_accepts view ->
  stored gn (gview w) g -> deployment_current g (gview w) -> gt_phase (get_gateway_status now g) = GwPending ->
  view w !! dn = Some d -> d_status d = Some s -> ds_phase s = Enrolling ->
  preferred_gateway (d_spec d) = Some gn ->
  ((forall m g, gv_gateways (gview w) !! m = Some g -> gateway_running g = false) -> reconcile_device t1 dn w = w) /\
  exists w1 d' s' gr,
    reconcile_gateway now g w = (Ok 30, w1, []) /\
    view (reconcile_device t2 dn w1) !! dn = Some d' /\ d_status d' = Some s' /\ ds_phase s' = Enrolled /\
    ds_gateway s' = Some gr /\ gr_name gr = gn.
Proof.
  intros Ha Hst Hdc Hp Hd Hs Hph Hpref. split; [by eapply enrolling_waits|].
  destruct (stored_run now gn w g Hst Hdc) as (w1 & E1 & V1). exists w1.
  assert (view w1 !! dn = Some d) as Hd1 by (apply (same_devices w); [by rewrite V1, spec_reconcile_devices|done]).
  replace (spec_reconcile now g (gview w)) with (spec_pending now g (gview w)) in V1
    by (unfold spec_reconcile, get_gateway_status in *; destruct (gw_status g); [by rewrite Hp | done]).
  destruct (pending_stored now gn _ g Hst) as [e [S1 N1]]. rewrite <- V1 in S1.
  destruct (listed w1 gn _ S1) as (l & Hl & Hin). destruct (List.filter gateway_running l) as [|g0 act] eqn:Ef.
  { exfalso. eapply not_elem_of_nil. rewrite <- Ef. by apply running_filter. }
  pose proof (reconcile_enrolling default_hash id api_server_url renode t2 dn d s w1 l g0 act Ha
    (fun _ => eq_refl) Hd1 Hs Hph Hl Ef) as Hr.
  destruct (select_gateway_spec default_hash d g0 act) as [_ Hsel].
  do 3 eexists. split; [done|]. split; [exact Hr|]. unfold wrote, merge_patch, merge_device_status; simpl.
  rewrite Hs. simpl. split_and!; try done. rewrite merge_gateway_name. apply Hsel; [done|].
  eexists. split; [|exact N1]. rewrite <- Ef. by apply running_filter.
Qed.
End Together.

(** ** A site for both controllers *)

#[export] Instance site_ctl : CtlKube site := {|
  gw_list w := gw_list w.1;
  gw_get w := gw_get w.1;
  ctl_patch_status w n p := let '(r, f) := ctl_patch_status w.1 n p in (r, (f, w.2));
  ctl_patch w n p := let '(r, f) := ctl_patch w.1 n p in (r, (f, w.2));
|}.

Definition site_devices (w : site) : gmap string Device := fleet_view w.1.

#[export] Instance site_kube_laws : KubeStoreLaws site_kube site_devices := kube_prod_laws fleet_kube _ _ _.

#[export] Instance site_ctl_laws : CtlLaws site_kube site_ctl site_devices.
Proof.
  split; simpl; intros [[c gs] pr]; simpl; unfold fleet_patch, mem_dev_patch, site_devices, fleet_view; simpl;
    intros n p; try intros w'; destruct (store_view c !! n) as [d|] eqn:E; simpl; try done.
  - intros [= <-]. exists d. split; [done|]. apply store_view_insert. simpl. by apply (store_names c) in E.
  - by intros w'' [= _ <-].
Qed.

#[export] Instance site_shared : SharedCluster site_view site_ctl.
Proof.
  split; [done|]. intros [[c gs] pr] l [= <-] g. simpl. rewrite list_elem_of_fmap. split.
  - intros ([n g'] & -> & Hin%elem_of_map_to_list). by exists n.
  - intros [n Hn]. exists (n, g). split; [done|]. by apply elem_of_map_to_list.
Qed.

Lemma site_accepts : ctl_accepts site_devices.
Proof.
  intros [[c gs] pr] n p d H. simpl in *. unfold fleet_patch, site_devices, fleet_view in *. simpl in *. by rewrite H.
Qed.

(** ** Witness *)

Definition enrolling_device : Device :=
  mkDevice (Some "dev-1") (Some "wasmbed") (mkDeviceSpec "AQ" None (Some "gw-1") None None)
    (Some (mkDeviceStatus Enrolling None None None false)).

Definition both_site : site :=
  ((mkCluster {[ "dev-1" := enrolling_device ]} ∅, {[ "gw-1" := new_gateway ]}), mkProvisions ∅ ∅ ∅).

Lemma gateway_start_enrolls_device_witness :
  exists w1 d' s' gr,
    reconcile_gateway "t" new_gateway both_site = (Ok 30, w1, []) /\
    site_devices (reconcile_stored (view := site_devices) ctl_hash id "http://api" ctl_renode 2 "dev-1" w1) !! "dev-1"
      = Some d' /\
    d_status d' = Some s' /\ ds_phase s' = Enrolled /\ ds_gateway s' = Some gr /\ gr_name gr = "gw-1".
Proof.
  apply (gateway_start_enrolls_device (gview := site_view) (view := site_devices) ctl_hash "http://api" ctl_renode
    "t" "gw-1" "dev-1" 1 2 new_gateway enrolling_device (mkDeviceStatus Enrolling None None None false) both_site
    site_accepts); try done.
Defined.
