(* ===== verification/HttpRoutes.v ===== *)
(** * The remaining routes of the gateway's HTTP API: [crates/wasmbed-gateway/src/http_api.rs]

    The routes that create, change and delete objects in Kubernetes, the
    routes that only answer, and the routing table itself. *)

From S2P Require Import Prelude.
From S2P Require Import RustStd.
From S2P Require Import Externals.
From S2P Require Import K8s.
From S2P Require Import KubeStore.
From S2P Require Import Registry.
From S2P Require Import HttpApi.
From S2P Require Import ControllerApi.
From stdpp Require Import pretty.
Local Open Scope Z_scope.

(** ** Requests and answers *)

(** The fields of a JSON payload that a route looks at; a field of another
    type reads as absent. *)
Record AppPayload := mkAppPayload {
  apl_name : option string;
  apl_description : option string;
  apl_target_devices : option (list (option string));
  apl_wasm_bytes : option string;
}.

Record GatewayPayload := mkGatewayPayload {
  gpl_name : option string;
  gpl_endpoint : option string;
  gpl_tls_port : option Z;
  gpl_http_port : option Z;
  gpl_max_devices : option Z;
  gpl_region : option string;
  gpl_enabled : option bool;
}.

Record Answered := mkAnswered { an_success : bool; an_message : string }.

(** [filter_map(|v| v.as_str())] *)
Definition strings_of (l : list (option string)) : list string := omap id l.

(** What the routes use of Kubernetes beyond [Kube]. *)
Class CrudKube (W : Type) := {
  app_create : W -> Application -> result kube_error unit * W;
  app_replace : W -> string -> Application -> result kube_error unit * W;
  app_delete : W -> string -> result kube_error unit * W;
  dev_replace : W -> string -> Device -> result kube_error unit * W;
  dev_delete : W -> string -> result kube_error unit * W;
  gwr_create : W -> GatewayResource -> result kube_error unit * W;
}.

Definition named_message (kind name what : string) : string := kind ++ " '" ++ name ++ "' " ++ what.

Section Routes.
Context {W : Type} `{K : Kube W} `{C : CrudKube W}.

(** A request whose failure is a 500. *)
Definition or_500 (r : result kube_error unit * W) (message : string) : result Z Answered * W :=
  match r with
  | (Ok _, w) => (Ok (mkAnswered true message), w)
  | (Err _, w) => (Err 500, w)
  end.

(** *** Applications *)

Definition new_application (p : AppPayload) : Application :=
  let name := default "unknown" (apl_name p) in
  mkApplication (Some name)
    (mkApplicationSpec name (Some (default "" (apl_description p))) (default "" (apl_wasm_bytes p))
       (mkTargetDevices (Some (strings_of (default [] (apl_target_devices p)))) None None) None None None)
    None.

Definition create_application (p : AppPayload) (w : W) : result Z Answered * W :=
  or_500 (app_create w (new_application p))
    (named_message "Application" (default "unknown" (apl_name p)) "created successfully").

(** The fields of the payload over those of the application. *)
Definition changed_application (p : AppPayload) (app : Application) : Application :=
  let s := a_spec app in
  mkApplication (a_name app)
    (mkApplicationSpec (a_spec_name s)
       (match apl_description p with Some d => Some d | None => a_description s end)
       (match apl_wasm_bytes p with Some b => b | None => a_wasm_bytes s end)
       (match apl_target_devices p with
        | Some l => mkTargetDevices (Some (strings_of l)) None None
        | None => a_target_devices s
        end)
       (a_config s) (a_metadata s) (a_target_runtime s))
    (a_status app).

Definition update_application (app_id : string) (p : AppPayload) (w : W) : result Z Answered * W :=
  match app_get w app_id with
  | Err _ => (Err 404, w)
  | Ok app => or_500 (app_replace w app_id (changed_application p app))
                (named_message "Application" app_id "updated successfully")
  end.

Definition delete_application (app_id : string) (w : W) : result Z Answered * W :=
  or_500 (app_delete w app_id) (named_message "Application" app_id "deleted successfully").

(** *** Devices *)

Record DeviceView := mkDeviceView {
  dw_id : string;
  dw_status : string;
  dw_connected : bool;
}.

(** Every field but the name is a constant. *)
Definition get_device (device_id : string) (w : W) : result Z DeviceView :=
  match dev_get w device_id with
  | Ok d => Ok (mkDeviceView (default "unknown" (d_name d)) "Connected" true)
  | Err _ => Err 404
  end.

(** The payload is not looked at: the object is written back as it was read. *)
Definition update_device (device_id : string) (w : W) : result Z Answered * W :=
  match dev_get w device_id with
  | Err _ => (Err 404, w)
  | Ok d => or_500 (dev_replace w device_id d) (named_message "Device" device_id "updated successfully")
  end.

Definition delete_device (device_id : string) (w : W) : result Z Answered * W :=
  or_500 (dev_delete w device_id) (named_message "Device" device_id "deleted successfully").

Definition enroll_device (device_id : string) : Answered :=
  mkAnswered true (named_message "Device" device_id "enrolled successfully").

(** *** Gateways *)

Record GatewayView := mkGatewayView {
  gvw_id : string;
  gvw_status : string;
  gvw_endpoint : string;
  gvw_connected_devices : Z;
  gvw_enrolled_devices : Z;
  gvw_enabled : bool;
}.

Definition get_gateways : list GatewayView :=
  [mkGatewayView "gateway-1" "Active" "127.0.0.1:30452" 2 6 true;
   mkGatewayView "gateway-2" "Active" "127.0.0.1:30454" 2 6 true;
   mkGatewayView "gateway-3" "Inactive" "127.0.0.1:30456" 0 0 false].

Definition get_gateway (gateway_id : string) : GatewayView :=
  mkGatewayView gateway_id "Active" "127.0.0.1:30452" 2 6 true.

Definition update_gateway (gateway_id : string) : Answered :=
  mkAnswered true (named_message "Gateway" gateway_id "updated successfully").
Definition delete_gateway (gateway_id : string) : Answered :=
  mkAnswered true (named_message "Gateway" gateway_id "deleted successfully").
Definition toggle_gateway (gateway_id : string) : Answered :=
  mkAnswered true (named_message "Gateway" gateway_id "toggled successfully").

(** [as u16] and [as u32] of a [u64] *)
Definition as_u16 (z : Z) : Z := z mod 2 ^ 16.
Definition as_u32 (z : Z) : Z := z mod 2 ^ 32.

Definition new_gateway_resource (p : GatewayPayload) : GatewayResource :=
  mkGatewayResource (Some (default "unknown" (gpl_name p)))
    (mkGatewaySpec (default "127.0.0.1:30452" (gpl_endpoint p)) (Some ["tls"; "enrollment"; "deployment"])
       (Some (mkGatewayConfig (Some "10m") (Some "5m") (Some "30s"))))
    (Some (mkGatewayStatus GwPending (Some 0) (Some 0) None None)).

Definition gateway_tls_port (p : GatewayPayload) : Z := as_u16 (default 30452 (gpl_tls_port p)).
Definition gateway_http_port (p : GatewayPayload) : Z := as_u16 (default 30453 (gpl_http_port p)).

(** The process a created gateway is started as. *)
Definition gateway_command (p : GatewayPayload) : list string :=
  ["./target/release/wasmbed-gateway";
   "--bind-addr"; ("127.0.0.1:" ++ pretty (gateway_tls_port p))%string;
   "--http-addr"; ("127.0.0.1:" ++ pretty (gateway_http_port p))%string;
   "--private-key"; "certs/server-key.pem";
   "--certificate"; "certs/server-cert.pem";
   "--client-ca"; "certs/ca-cert.pem";
   "--namespace"; "wasmbed";
   "--pod-namespace"; "wasmbed";
   "--pod-name"; default "unknown" (gpl_name p)].

Record CreatedGateway := mkCreatedGateway {
  cg_answer : Answered;
  cg_endpoint : string;
  cg_tls_port : Z;
  cg_http_port : Z;
  cg_max_devices : Z;
  cg_region : string;
  cg_enabled : bool;
}.

(** The answer, and the command of the spawned task. *)
Definition create_gateway (p : GatewayPayload) (w : W) : result Z CreatedGateway * W * list (list string) :=
  let name := default "unknown" (gpl_name p) in
  match gwr_create w (new_gateway_resource p) with
  | (Ok _, w) =>
      (Ok (mkCreatedGateway (mkAnswered true (named_message "Gateway" name "created and started successfully"))
             (default "127.0.0.1:30452" (gpl_endpoint p)) (gateway_tls_port p) (gateway_http_port p)
             (as_u32 (default 50 (gpl_max_devices p))) (default "us-west-1" (gpl_region p))
             (default true (gpl_enabled p))), w, [gateway_command p])
  | (Err _, w) => (Err 500, w, [])
  end.
End Routes.

(** ** The routing table *)

Inductive http_method := GET | POST | PUT | DELETE.

#[export] Instance method_eq_dec : EqDecision http_method.
Proof. solve_decision. Defined.

Inductive segment := Lit (s : string) | Param.

Inductive handler :=
| H_get_devices | H_create_device | H_get_device | H_update_device | H_delete_device | H_enroll_device
| H_connect_device | H_deploy_application | H_stop_application | H_get_application_status
| H_get_device_applications | H_get_applications | H_create_application | H_get_application
| H_update_application | H_delete_application | H_get_gateways | H_create_gateway | H_get_gateway
| H_update_gateway | H_delete_gateway | H_toggle_gateway | H_get_infrastructure_status
| H_get_pairing_mode | H_set_pairing_mode | H_get_pairing_timeout | H_set_pairing_timeout
| H_get_heartbeat_timeout | H_set_heartbeat_timeout | H_get_k8s_pods | H_get_k8s_applications
| H_get_system_metrics | H_get_alerts | H_send_drone_command | H_board_register | H_board_list
| H_board_unregister | H_health_check | H_readiness_check.

#[export] Instance handler_eq_dec : EqDecision handler.
Proof. solve_decision. Defined.

Definition v1 (l : list segment) : list segment := Lit "api" :: Lit "v1" :: l.

Definition router : list (list segment * http_method * handler) :=
  [(v1 [Lit "devices"], GET, H_get_devices);
   (v1 [Lit "devices"], POST, H_create_device);
   (v1 [Lit "devices"; Param], GET, H_get_device);
   (v1 [Lit "devices"; Param], PUT, H_update_device);
   (v1 [Lit "devices"; Param], DELETE, H_delete_device);
   (v1 [Lit "devices"; Param; Lit "enroll"], POST, H_enroll_device);
   (v1 [Lit "devices"; Param; Lit "connect"], POST, H_connect_device);
   (v1 [Lit "devices"; Param; Lit "deploy"], POST, H_deploy_application);
   (v1 [Lit "devices"; Param; Lit "stop"; Param], POST, H_stop_application);
   (v1 [Lit "devices"; Param; Lit "status"; Param], GET, H_get_application_status);
   (v1 [Lit "devices"; Param; Lit "applications"], GET, H_get_device_applications);
   (v1 [Lit "applications"], GET, H_get_applications);
   (v1 [Lit "applications"], POST, H_create_application);
   (v1 [Lit "applications"; Param], GET, H_get_application);
   (v1 [Lit "applications"; Param], PUT, H_update_application);
   (v1 [Lit "applications"; Param], DELETE, H_delete_application);
   (v1 [Lit "gateways"], GET, H_get_gateways);
   (v1 [Lit "gateways"], POST, H_create_gateway);
   (v1 [Lit "gateways"; Param], GET, H_get_gateway);
   (v1 [Lit "gateways"; Param], PUT, H_update_gateway);
   (v1 [Lit "gateways"; Param], DELETE, H_delete_gateway);
   (v1 [Lit "gateways"; Param; Lit "toggle"], POST, H_toggle_gateway);
   (v1 [Lit "infrastructure"; Lit "status"], GET, H_get_infrastructure_status);
   (v1 [Lit "admin"; Lit "pairing-mode"], GET, H_get_pairing_mode);
   (v1 [Lit "admin"; Lit "pairing-mode"], POST, H_set_pairing_mode);
   (v1 [Lit "admin"; Lit "pairing-timeout"], GET, H_get_pairing_timeout);
   (v1 [Lit "admin"; Lit "pairing-timeout"], POST, H_set_pairing_timeout);
   (v1 [Lit "admin"; Lit "heartbeat-timeout"], GET, H_get_heartbeat_timeout);
   (v1 [Lit "admin"; Lit "heartbeat-timeout"], POST, H_set_heartbeat_timeout);
   (v1 [Lit "k8s"; Lit "pods"], GET, H_get_k8s_pods);
   (v1 [Lit "k8s"; Lit "applications"], GET, H_get_k8s_applications);
   (v1 [Lit "metrics"; Lit "system"], GET, H_get_system_metrics);
   (v1 [Lit "alerts"], GET, H_get_alerts);
   (v1 [Lit "drone"; Lit "command"], POST, H_send_drone_command);
   (v1 [Lit "board"; Lit "register"], POST, H_board_register);
   (v1 [Lit "board"], GET, H_board_list);
   (v1 [Lit "board"; Param], DELETE, H_board_unregister);
   ([Lit "health"], GET, H_health_check);
   ([Lit "ready"], GET, H_readiness_check)].

Fixpoint matches (pat : list segment) (path : list string) : bool :=
  match pat, path with
  | [], [] => true
  | Lit s :: pat, p :: path => String.eqb s p && matches pat path
  | Param :: pat, _ :: path => matches pat path
  | _, _ => false
  end.

(** Two patterns that some path matches. *)
Fixpoint overlap (p q : list segment) : bool :=
  match p, q with
  | [], [] => true
  | Lit s :: p, Lit t :: q => String.eqb s t && overlap p q
  | Param :: p, _ :: q | _ :: p, Param :: q => overlap p q
  | _, _ => false
  end.

Lemma matches_overlap p q path : matches p path = true -> matches q path = true -> overlap p q = true.
Proof.
  revert q path. induction p as [|[s|] p IH]; intros [|[t|] q] [|x path]; simpl; try done.
  - intros [->%String.eqb_eq Hp]%andb_true_iff [->%String.eqb_eq Hq]%andb_true_iff.
    rewrite String.eqb_refl. by eapply IH.
  - intros [_ Hp]%andb_true_iff Hq. by eapply IH.
  - intros Hp [_ Hq]%andb_true_iff. by eapply IH.
  - apply IH.
Qed.

(** The test that decides it for a table. *)
Definition table_test {H} `{EqDecision H} (table : list (list segment * http_method * H)) : bool :=
  forallb (fun a => forallb (fun b => negb (bool_decide (a.1.2 = b.1.2) && overlap a.1.1 b.1.1)
    || bool_decide (a.2 = b.2)) table) table.

Lemma table_unambiguous {H} `{EqDecision H} (table : list (list segment * http_method * H)) m path p q h k :
  table_test table = true -> (p, m, h) ∈ table -> (q, m, k) ∈ table ->
  matches p path = true -> matches q path = true -> h = k.
Proof.
  intros T Hp Hq Mp Mq. pose proof (matches_overlap p q path Mp Mq) as O. unfold table_test in T.
  rewrite forallb_forall in T. specialize (T (p, m, h) ltac:(by apply list_elem_of_In)).
  rewrite forallb_forall in T. specialize (T (q, m, k) ltac:(by apply list_elem_of_In)). simpl in T.
  rewrite bool_decide_true, O in T by done. simpl in T. by apply bool_decide_eq_true in T.
Qed.

(** Routing is unambiguous: whatever the method and the path of a request, all
    routes that match it lead to the same handler, so the order in which routes are
    registered does not matter and no parameter hides a fixed path. *)
Theorem routes_unambiguous (m : http_method) (path : list string) (p q : list segment) (h k : handler) :
  (p, m, h) ∈ router -> (q, m, k) ∈ router -> matches p path = true -> matches q path = true -> h = k.
Proof. apply table_unambiguous. vm_compute. reflexivity. Qed.

(** ** What Kubernetes promises *)

Class CrudLaws {W} (K : Kube W) (C : CrudKube W) (apps : W -> gmap string Application) : Prop := {
  crud_get w n : match apps w !! n with
                 | Some a => app_get w n = Ok a
                 | None => exists e, app_get w n = Err e
                 end;
  (** a new object has no status, a replaced one keeps the stored status *)
  crud_create w a w' : app_create w a = (Ok tt, w') -> exists n, a_name a = Some n /\
    apps w !! n = None /\ apps w' = <[n := mkApplication (a_name a) (a_spec a) None]> (apps w);
  crud_replace w n a w' : app_replace w n a = (Ok tt, w') -> exists a0, apps w !! n = Some a0 /\
    apps w' = <[n := mkApplication (Some n) (a_spec a) (a_status a0)]> (apps w);
  crud_delete w n w' : app_delete w n = (Ok tt, w') -> is_Some (apps w !! n) /\ apps w' = delete n (apps w);
  crud_create_err w a e w' : app_create w a = (Err e, w') -> apps w' = apps w;
  crud_replace_err w n a e w' : app_replace w n a = (Err e, w') -> apps w' = apps w;
  crud_delete_err w n e w' : app_delete w n = (Err e, w') -> apps w' = apps w;
}.

Section Crud.
Context {W : Type} {K : Kube W} {C : CrudKube W} {apps : W -> gmap string Application} {L : CrudLaws K C apps}.

Lemma get_stored w n a : apps w !! n = Some a -> get_application n w = Ok (app_view a).
Proof. intros H. pose proof (crud_get w n) as G. rewrite H in G. unfold get_application. by rewrite G. Qed.

(** What a route does to the store: the change it announces, or nothing. *)
Lemma create_application_effect p w :
  match create_application p w with
  | (Ok _, w') => apps w !! default "unknown" (apl_name p) = None /\
      apps w' = <[default "unknown" (apl_name p) := new_application p]> (apps w)
  | (Err c, w') => c = 500 /\ apps w' = apps w
  end.
Proof.
  unfold create_application, or_500. destruct (app_create w (new_application p)) as [[[]|e] w'] eqn:E.
  - apply crud_create in E as (n & [= <-] & Hn & ->). done.
  - apply crud_create_err in E. done.
Qed.

Lemma update_application_effect n p w :
  match update_application n p w with
  | (Ok _, w') => exists a, apps w !! n = Some a /\
      apps w' = <[n := mkApplication (Some n) (a_spec (changed_application p a)) (a_status a)]> (apps w)
  | (Err c, w') => (c = 404 -> apps w !! n = None) /\ apps w' = apps w
  end.
Proof.
  unfold update_application, or_500. pose proof (crud_get w n) as G.
  destruct (apps w !! n) as [a|] eqn:Ea.
  - rewrite G. destruct (app_replace w n (changed_application p a)) as [[[]|e] w'] eqn:E.
    + apply crud_replace in E as (a0 & Ha0 & ->). exists a. rewrite Ea in Ha0. by injection Ha0 as <-.
    + apply crud_replace_err in E. done.
  - destruct G as [e ->]. done.
Qed.

Lemma delete_application_effect n w :
  match delete_application n w with
  | (Ok _, w') => apps w' = delete n (apps w)
  | (Err c, w') => c = 500 /\ apps w' = apps w
  end.
Proof.
  unfold delete_application, or_500. destruct (app_delete w n) as [[[]|e] w'] eqn:E.
  - by apply crud_delete in E as [_ ->].
  - apply crud_delete_err in E. done.
Qed.

(** An application through the HTTP API: what [create_application] accepts is read back
    by [get_application] with the description, targets and module size of the
    request; [update_application] then changes exactly the fields its payload
    names; after [delete_application] the application is gone (404); and a route
    that answers with an error has changed nothing. *)
Theorem application_crud (p q : AppPayload) (w w1 w2 w3 : W) (r1 r2 r3 : Answered) :
  let n := default "unknown" (apl_name p) in
  create_application p w = (Ok r1, w1) -> update_application n q w1 = (Ok r2, w2) ->
  delete_application n w2 = (Ok r3, w3) ->
  get_application n w1 = Ok (mkAppView n (default "" (apl_description p)) "Creating"
    (strings_of (default [] (apl_target_devices p))) (zlen (str_bytes (default "" (apl_wasm_bytes p))))) /\
  get_application n w2 = Ok (mkAppView n
    (default (default "" (apl_description p)) (apl_description q)) "Creating"
    (strings_of (default (default [] (apl_target_devices p)) (apl_target_devices q)))
    (zlen (str_bytes (default (default "" (apl_wasm_bytes p)) (apl_wasm_bytes q))))) /\
  get_application n w3 = Err 404 /\
  (forall c w', create_application p w3 = (Err c, w') -> apps w' = apps w3).
Proof.
  intros n Hc Hu Hd.
  pose proof (create_application_effect p w) as E1. rewrite Hc in E1. destruct E1 as [_ E1]. fold n in E1.
  pose proof (update_application_effect n q w1) as E2. rewrite Hu in E2. destruct E2 as (a & Ha & E2).
  rewrite E1, lookup_insert_eq in Ha. injection Ha as <-.
  pose proof (delete_application_effect n w2) as E3. rewrite Hd in E3.
  split_and!.
  - by rewrite (get_stored w1 n (new_application p)) by (by rewrite E1, lookup_insert_eq).
  - erewrite (get_stored w2 n) by (by rewrite E2, lookup_insert_eq). unfold app_view, changed_application; simpl.
    by destruct (apl_description q), (apl_target_devices q), (apl_wasm_bytes q).
  - unfold get_application. pose proof (crud_get w3 n) as G. rewrite E3, lookup_delete_eq in G. by destruct G as [e ->].
  - intros c w' E. pose proof (create_application_effect p w3) as E4. rewrite E in E4. apply E4.
Qed.

(** Ports of a created gateway are taken modulo 2^16 without a check: the process that
    is started and the answer agree on them and they fit a port number, but a
    request for port 65536 or more is served on another port. *)
Theorem gateway_ports_wrap (p : GatewayPayload) (w w' : W) (g : CreatedGateway) (cmd : list (list string)) :
  create_gateway p w = (Ok g, w', cmd) ->
  cmd = [gateway_command p] /\
  nth 2 (gateway_command p) "" = ("127.0.0.1:" ++ pretty (cg_tls_port g))%string /\
  nth 4 (gateway_command p) "" = ("127.0.0.1:" ++ pretty (cg_http_port g))%string /\
  0 <= cg_tls_port g < 2 ^ 16 /\ 0 <= cg_http_port g < 2 ^ 16 /\ 0 <= cg_max_devices g < 2 ^ 32 /\
  (forall t, gpl_tls_port p = Some t -> 2 ^ 16 <= t -> cg_tls_port g <> t).
Proof.
  unfold create_gateway. destruct (gwr_create w (new_gateway_resource p)) as [[u|e] w1]; [|done].
  intros [= <- <- <-]. cbn [cg_tls_port cg_http_port cg_max_devices].
  assert (forall z, 0 <= as_u16 z < 2 ^ 16) as B16 by (intros z; apply Z.mod_pos_bound; lia).
  split; [done|]. split; [done|]. split; [done|]. split; [apply B16|]. split; [apply B16|].
  split; [apply Z.mod_pos_bound; lia|].
  intros t Ht Hbig. unfold gateway_tls_port. rewrite Ht. simpl. pose proof (B16 t). lia.
Qed.
End Crud.

(** ** The routes on a cluster in memory *)

Definition fleet_apps (w : fleet) : gmap string Application := c_apps w.1.
Definition set_apps (m : gmap string Application) (w : fleet) : fleet := (mkCluster (c_devices w.1) m, w.2).

#[export] Instance fleet_crud : CrudKube fleet := {|
  app_create w a :=
    match a_name a with
    | None => (Err (KApi 422 "name is required"), w)
    | Some n =>
        match c_apps w.1 !! n with
        | Some _ => (Err (KApi 409 "already exists"), w)
        | None => (Ok tt, set_apps (<[n := mkApplication (a_name a) (a_spec a) None]> (c_apps w.1)) w)
        end
    end;
  app_replace w n a :=
    match c_apps w.1 !! n with
    | None => (Err (KApi 404 "not found"), w)
    | Some a0 => (Ok tt, set_apps (<[n := mkApplication (Some n) (a_spec a) (a_status a0)]> (c_apps w.1)) w)
    end;
  app_delete w n :=
    match c_apps w.1 !! n with
    | None => (Err (KApi 404 "not found"), w)
    | Some _ => (Ok tt, set_apps (delete n (c_apps w.1)) w)
    end;
  dev_replace w n d :=
    match c_devices w.1 !! n with
    | None => (Err (KApi 404 "not found"), w)
    | Some d0 => (Ok tt, (set_devices (<[n := mkDevice (Some n) (d_namespace d) (d_spec d) (d_status d0)]> (c_devices w.1)) w.1, w.2))
    end;
  dev_delete w n :=
    match c_devices w.1 !! n with
    | None => (Err (KApi 404 "not found"), w)
    | Some _ => (Ok tt, (set_devices (delete n (c_devices w.1)) w.1, w.2))
    end;
  gwr_create w g :=
    match w.2 !! gw_name_any g with
    | Some _ => (Err (KApi 409 "already exists"), w)
    | None => (Ok tt, (w.1, <[gw_name_any g := mkGatewayResource (gw_name g) (gw_spec g) None]> w.2))
    end;
|}.

#[export] Instance fleet_crud_laws : CrudLaws fleet_kube fleet_crud fleet_apps.
Proof.
  split; unfold fleet_apps; intros [[ds aps] gs]; simpl.
  - intros n. unfold mem_app_get; simpl. destruct (aps !! n); [done|]. by eexists.
  - intros a w'. destruct (a_name a) as [n|]; [|done]. destruct (aps !! n) eqn:E; [done|]. intros [= <-].
    exists n. by rewrite E.
  - intros n a w'. destruct (aps !! n) as [a0|] eqn:E; [|done]. intros [= <-]. by exists a0.
  - intros n w'. destruct (aps !! n) eqn:E; [|done]. intros [= <-]. by split.
  - intros a e w'. destruct (a_name a) as [n|]; [|by intros [= <- <-]]. destruct (aps !! n); by intros [= <- <-].
  - intros n a e w'. destruct (aps !! n); [done|]. by intros [= <- <-].
  - intros n e w'. destruct (aps !! n); [done|]. by intros [= <- <-].
Qed.

(** ** Witnesses *)

Definition empty_fleet : fleet := (mkCluster ∅ ∅, ∅).
Definition sample_payload : AppPayload := mkAppPayload (Some "blink") (Some "LED") (Some [Some "dev-1"; None]) (Some "AGFzbQ==").
Definition sample_change : AppPayload := mkAppPayload None (Some "LED, faster") None None.

Lemma routes_unambiguous_witness : H_board_register = H_board_register.
Proof.
  apply (routes_unambiguous POST ["api"; "v1"; "board"; "register"]%string (v1 [Lit "board"; Lit "register"])
    (v1 [Lit "board"; Lit "register"])); try (vm_compute; reflexivity); apply list_elem_of_In; vm_compute; tauto.
Defined.

Lemma application_crud_witness :
  let w1 := (create_application sample_payload empty_fleet).2 in
  let w2 := (update_application "blink" sample_change w1).2 in
  get_application "blink" w2 = Ok (mkAppView "blink" "LED, faster" "Creating" ["dev-1"%string] 8).
Proof.
  intros w1 w2.
  destruct (application_crud (apps := fleet_apps) sample_payload sample_change empty_fleet w1 w2
    (delete_application "blink" w2).2
    (mkAnswered true (named_message "Application" "blink" "created successfully"))
    (mkAnswered true (named_message "Application" "blink" "updated successfully"))
    (mkAnswered true (named_message "Application" "blink" "deleted successfully"))) as (_ & Hu & _).
  - vm_compute. reflexivity.
  - vm_compute. reflexivity.
  - vm_compute. reflexivity.
  - exact Hu.
Defined.

Definition far_port : GatewayPayload := mkGatewayPayload (Some "gw-9") None (Some 70000) None None None None.

Lemma gateway_ports_wrap_witness :
  exists g, (create_gateway far_port empty_fleet).1.1 = Ok g /\ cg_tls_port g <> 70000 /\ cg_tls_port g = 4464.
Proof.
  destruct (create_gateway far_port empty_fleet) as [[[g|] w'] cmd] eqn:E; [|discriminate E].
  exists g. destruct (gateway_ports_wrap far_port empty_fleet w' g cmd E) as (_ & _ & _ & _ & _ & _ & Hw).
  split; [done|]. split; [by apply Hw|]. injection E as <- _ _. vm_compute. reflexivity.
Defined.
