(* ===== verification/Infrastructure.v ===== *)
(** * The infrastructure service: [crates/wasmbed-infrastructure]

    The log store ([logging.rs]), the metrics ([monitoring.rs]), the stand-ins
    for the certificate authority and the secret store
    ([certificate_authority.rs], [secret_store.rs]), and the REST handlers of
    [main.rs] over the two tables they share. A clock reading is nanoseconds
    since 1970, a fresh UUID is an argument; [None] is a panic of [unwrap]. *)

From S2P Require Import Prelude.
From S2P Require Import HttpRoutes.

(** ** Log store *)

Inductive LogLevel := Debug | Info | Warn | Error.

#[export] Instance LogLevel_eq_dec : EqDecision LogLevel.
Proof. solve_decision. Defined.

Record LogEntry := mkLogEntry {
  le_timestamp : Z;
  le_level : LogLevel;
  le_component : string;
  le_message : string;
  le_metadata : gmap string string;
}.

Definition LoggingService := list LogEntry.

Definition LoggingService_new : LoggingService := [].

Definition log (now : Z) (level : LogLevel) (component message : string) (metadata : gmap string string)
    (logs : LoggingService) : LoggingService :=
  let logs := logs ++ [mkLogEntry now level component message metadata] in
  let len := length logs in
  if (1000 <? len)%nat then drop (len - 1000) logs else logs.

Definition get_logs (limit : option nat) (logs : LoggingService) : list LogEntry :=
  take (default 100%nat limit) (reverse logs).

Definition get_logs_by_level (level : LogLevel) (limit : option nat) (logs : LoggingService) : list LogEntry :=
  take (default 100%nat limit) (filter (fun e => le_level e = level) (reverse logs)).

(** ** Metrics *)

(** The only values the service ever produces are integral. *)
Record MetricValue := mkMetricValue {
  mv_name : string;
  mv_value : Z;
  mv_timestamp : Z;
  mv_labels : gmap string string;
  mv_is_synthetic : bool;
}.

(** Three readings of the clock, one per metric. *)
Definition collect_metrics (t1 t2 t3 : Z) (metrics : gmap string MetricValue) : gmap string MetricValue :=
  let metrics := <["cpu_usage" := mkMetricValue "cpu_usage" 45 t1 ∅ true]> metrics in
  let metrics := <["memory_usage" := mkMetricValue "memory_usage" 60 t2 ∅ true]> metrics in
  <["disk_usage" := mkMetricValue "disk_usage" 30 t3 ∅ true]> metrics.

Definition get_metric (name : string) (metrics : gmap string MetricValue) : option MetricValue := metrics !! name.

(** ** Stand-ins *)

Record SecretStore := mkSecretStore { store_path : string }.

Definition SecretStore_new (path : string) : result string SecretStore := Ok (mkSecretStore path).

Definition store_secret (st : SecretStore) (secret_id value : string) : result string unit * SecretStore :=
  (Ok tt, st).

Definition retrieve_secret (st : SecretStore) (secret_id : string) : result string string :=
  Ok ("secret-value-" ++ secret_id)%string.

Definition delete_secret (st : SecretStore) (secret_id : string) : result string unit * SecretStore :=
  (Ok tt, st).

Definition list_secrets (st : SecretStore) : result string (list string) :=
  Ok ["secret-1"; "secret-2"; "secret-3"].

Record CertificateAuthority := mkCertificateAuthority { ca_cert_path : string; ca_key_path : string }.

Definition CertificateAuthority_new (cert key : string) : result string CertificateAuthority :=
  Ok (mkCertificateAuthority cert key).

Definition ca_generate_certificate (ca : CertificateAuthority) (subject : string) (validity_days : Z) :
    result string (list byte) :=
  Ok (str_bytes ("Certificate for: " ++ subject)%string).

Definition revoke_certificate (ca : CertificateAuthority) (cert_id : string) :
    result string unit * CertificateAuthority := (Ok tt, ca).

Definition ca_validate_certificate (ca : CertificateAuthority) (certificate : list byte) : result string bool :=
  Ok true.

(** ** The service *)

Record InfrastructureConfig := mkInfrastructureConfig {
  cfg_ca_cert_path : string;
  cfg_ca_key_path : string;
  cfg_secret_store_path : string;
  cfg_api_port : Z;
  cfg_monitoring_port : Z;
  cfg_logging_port : Z;
}.

Definition InfrastructureConfig_default : InfrastructureConfig :=
  mkInfrastructureConfig "/etc/wasmbed/ca.crt" "/etc/wasmbed/ca.key" "/var/lib/wasmbed/secrets" 30460 9090 8080.

Inductive CertificateStatus := Active | Revoked | Expired.

#[export] Instance CertificateStatus_eq_dec : EqDecision CertificateStatus.
Proof. solve_decision. Defined.

Record CertificateInfo := mkCertificateInfo {
  ci_cert_id : string;
  ci_subject : string;
  ci_issuer : string;
  ci_not_before : Z;
  ci_not_after : Z;
  ci_public_key : string;
  ci_status : CertificateStatus;
}.

Record SecretInfo := mkSecretInfo {
  si_secret_id : string;
  si_name : string;
  si_namespace : string;
  si_created_at : Z;
  si_last_accessed : option Z;
  si_access_count : Z;
}.

Record InfrastructureState := mkInfrastructureState {
  is_config : InfrastructureConfig;
  is_ca : CertificateAuthority;
  is_secret_store : SecretStore;
  is_monitoring : gmap string MetricValue;
  is_logging : LoggingService;
  is_certificates : gmap string CertificateInfo;
  is_secrets : gmap string SecretInfo;
}.

Definition set_certificates c s := mkInfrastructureState (is_config s) (is_ca s) (is_secret_store s)
  (is_monitoring s) (is_logging s) c (is_secrets s).
Definition set_secrets c s := mkInfrastructureState (is_config s) (is_ca s) (is_secret_store s)
  (is_monitoring s) (is_logging s) (is_certificates s) c.
Definition set_logging l s := mkInfrastructureState (is_config s) (is_ca s) (is_secret_store s)
  (is_monitoring s) l (is_certificates s) (is_secrets s).
Definition set_monitoring m s := mkInfrastructureState (is_config s) (is_ca s) (is_secret_store s)
  m (is_logging s) (is_certificates s) (is_secrets s).

Definition Infrastructure_new (config : InfrastructureConfig) : result string InfrastructureState :=
  let? ca := CertificateAuthority_new (cfg_ca_cert_path config) (cfg_ca_key_path config) in
  let? secret_store := SecretStore_new (cfg_secret_store_path config) in
  Ok (mkInfrastructureState config ca secret_store ∅ LoggingService_new ∅ ∅).

(** [t.duration_since(UNIX_EPOCH)] in whole seconds. *)
Definition unix_secs (t : Z) : option Z := if 0 <=? t then Some (t / 10 ^ 9) else None.

(** *** Handlers that only read *)

Definition health (now : Z) : option (string * Z) :=
  let* t := unix_secs now in Some ("healthy", t).

Definition api_get_logs (now : Z) (s : InfrastructureState) : option (list LogEntry * Z) :=
  let* t := unix_secs now in Some (get_logs (Some 50%nat) (is_logging s), t).

Record StatusAnswer := mkStatusAnswer {
  st_total_certificates : nat;
  st_active_certificates : nat;
  st_total_secrets : nat;
  st_uptime : Z;
}.

(** The order of [values()] and of iteration over a hash map is arbitrary; the
    order of [map_to_list] stands for it, and no theorem depends on it. *)
Definition values {A} (m : gmap string A) : list A := snd <$> map_to_list m.

Definition get_status (now : Z) (s : InfrastructureState) : option StatusAnswer :=
  let* uptime := unix_secs now in
  Some (mkStatusAnswer (size (is_certificates s))
    (length (filter (fun c => ci_status c = Active) (values (is_certificates s))))
    (size (is_secrets s)) uptime).

Record MetricView := mkMetricView {
  vw_name : string; vw_value : Z; vw_timestamp : Z; vw_labels : gmap string string; vw_is_synthetic : bool }.

Definition metric_view (nm : string * MetricValue) : MetricView :=
  let '(name, m) := nm in
  mkMetricView name (mv_value m) (default 0 (unix_secs (mv_timestamp m))) (mv_labels m) (mv_is_synthetic m).

Definition api_get_metrics (s : InfrastructureState) : list MetricView :=
  metric_view <$> map_to_list (is_monitoring s).

Definition get_certificates (s : InfrastructureState) : list CertificateInfo := values (is_certificates s).

Definition or_404 {A} (o : option A) : result Z A := match o with Some a => Ok a | None => Err 404 end.

Definition get_certificate (cert_id : string) (s : InfrastructureState) : result Z CertificateInfo :=
  or_404 (is_certificates s !! cert_id).

Definition get_secrets (s : InfrastructureState) : list SecretInfo := values (is_secrets s).

Definition get_secret (secret_id : string) (s : InfrastructureState) : result Z SecretInfo :=
  or_404 (is_secrets s !! secret_id).

(** *** Handlers that write *)

Record CertificateRequest := mkCertificateRequest { cr_subject : string; cr_validity_days : option Z }.
Record SecretRequest := mkSecretRequest { sr_name : string; sr_namespace : string; sr_value : string }.

(** [Duration::from_secs(365 * 24 * 60 * 60)] *)
Definition one_year : Z := 365 * 24 * 60 * 60 * 10 ^ 9.

Definition issued_certificate (uuid : string) (now : Z) (r : CertificateRequest) : CertificateInfo :=
  mkCertificateInfo uuid (cr_subject r) "Wasmbed CA" now (now + one_year) "generated-public-key" Active.

Definition generate_certificate (uuid : string) (now : Z) (r : CertificateRequest) (s : InfrastructureState) :
    (string * CertificateInfo) * InfrastructureState :=
  let certificate := issued_certificate uuid now r in
  ((uuid, certificate), set_certificates (<[uuid := certificate]> (is_certificates s)) s).

Definition created_secret (uuid : string) (now : Z) (r : SecretRequest) : SecretInfo :=
  mkSecretInfo uuid (sr_name r) (sr_namespace r) now None 0.

Definition create_secret (uuid : string) (now : Z) (r : SecretRequest) (s : InfrastructureState) :
    (string * SecretInfo) * InfrastructureState :=
  let secret := created_secret uuid now r in
  ((uuid, secret), set_secrets (<[uuid := secret]> (is_secrets s)) s).

(** *** Routing *)

Inductive api_handler := A_health | A_logs | A_status | A_metrics | A_certificates | A_certificate | A_generate
  | A_secrets | A_secret | A_create_secret.

#[export] Instance api_handler_eq_dec : EqDecision api_handler.
Proof. solve_decision. Defined.

Definition api_router : list (list segment * http_method * api_handler) :=
  [([Lit "health"], GET, A_health);
   ([Lit "logs"], GET, A_logs);
   (v1 [Lit "status"], GET, A_status);
   (v1 [Lit "metrics"], GET, A_metrics);
   (v1 [Lit "certificates"], GET, A_certificates);
   (v1 [Lit "certificates"; Param], GET, A_certificate);
   (v1 [Lit "certificates"], POST, A_generate);
   (v1 [Lit "secrets"], GET, A_secrets);
   (v1 [Lit "secrets"; Param], GET, A_secret);
   (v1 [Lit "secrets"], POST, A_create_secret)].

(** ** Histories *)

(** Everything that can change the service, in the order in which it takes the
    locks: a component logs, the monitoring task ticks, a client posts. *)
Inductive event :=
| Logged (now : Z) (level : LogLevel) (component message : string) (metadata : gmap string string)
| Collected (t1 t2 t3 : Z)
| Issued (uuid : string) (now : Z) (r : CertificateRequest)
| SecretPosted (uuid : string) (now : Z) (r : SecretRequest).

Definition apply_event (s : InfrastructureState) (e : event) : InfrastructureState :=
  match e with
  | Logged now level component message metadata =>
      set_logging (log now level component message metadata (is_logging s)) s
  | Collected t1 t2 t3 => set_monitoring (collect_metrics t1 t2 t3 (is_monitoring s)) s
  | Issued uuid now r => snd (generate_certificate uuid now r s)
  | SecretPosted uuid now r => snd (create_secret uuid now r s)
  end.

Definition after (s : InfrastructureState) (h : list event) : InfrastructureState := foldl apply_event s h.

(** The abstract service: what was logged, issued and posted, in order. *)
Definition logged (h : list event) : list LogEntry :=
  omap (fun e => match e with
                 | Logged now level component message metadata =>
                     Some (mkLogEntry now level component message metadata)
                 | _ => None
                 end) h.

Definition issued (h : list event) : list CertificateInfo :=
  omap (fun e => match e with Issued uuid now r => Some (issued_certificate uuid now r) | _ => None end) h.

Definition posted (h : list event) : list SecretInfo :=
  omap (fun e => match e with SecretPosted uuid now r => Some (created_secret uuid now r) | _ => None end) h.

(** The last [n] elements. *)
Definition lastn {A} (n : nat) (l : list A) : list A := drop (length l - n) l.

(** ** The log ring *)

Lemma lastn_length {A} n (l : list A) : length (lastn n l) = Nat.min n (length l).
Proof. unfold lastn. rewrite length_drop. lia. Qed.

Lemma lastn_all {A} n (l : list A) : (length l <= n)%nat -> lastn n l = l.
Proof. intros. unfold lastn. by replace (length l - n)%nat with 0%nat by lia. Qed.

Lemma lastn_snoc {A} n (l : list A) x : (0 < n)%nat -> lastn n (lastn n l ++ [x]) = lastn n (l ++ [x]).
Proof.
  intros. unfold lastn at 1 3. rewrite !length_app, lastn_length; simpl. unfold lastn.
  rewrite !drop_app_le by (rewrite ?length_drop; lia). rewrite drop_drop. do 2 f_equal. lia.
Qed.

Lemma log_lastn now level component message metadata logs :
  log now level component message metadata logs
  = lastn 1000 (logs ++ [mkLogEntry now level component message metadata]).
Proof.
  unfold log, lastn. destruct (Nat.ltb_spec 1000 (length (logs ++ [mkLogEntry now level component message metadata]))); [done|].
  match goal with |- _ = drop ?n _ => by replace n with 0%nat by lia end.
Qed.

Lemma take_reverse_lastn {A} n m (l : list A) : (n <= m)%nat -> take n (reverse (lastn m l)) = take n (reverse l).
Proof.
  intros. unfold lastn.
  replace (reverse l) with (reverse (drop (length l - m) l) ++ reverse (take (length l - m) l))
    by (by rewrite <- reverse_app, take_drop).
  destruct (decide (length l <= m)%nat).
  - replace (length l - m)%nat with 0%nat by lia. by rewrite take_0, reverse_nil, app_nil_r.
  - rewrite take_app_le; [done|]. rewrite length_reverse, length_drop. lia.
Qed.

(** ** Tables keyed by fresh identifiers *)

Definition keyed {A} (key : A -> string) (l : list A) : gmap string A := list_to_map ((fun a => (key a, a)) <$> l).

Section Keyed.
Context {A : Type} (key : A -> string).

Lemma keyed_fst l : ((fun a => (key a, a)) <$> l).*1 = key <$> l.
Proof. induction l; f_equal/=; done. Qed.

Lemma keyed_snd (l : list A) : ((fun a => (key a, a)) <$> l).*2 = l.
Proof. induction l; f_equal/=; done. Qed.

Lemma keyed_snoc l a : key a ∉ key <$> l -> keyed key (l ++ [a]) = <[key a := a]> (keyed key l).
Proof.
  intros. unfold keyed. rewrite fmap_app; simpl. apply list_to_map_snoc. by rewrite keyed_fst.
Qed.

Lemma keyed_lookup l k a : NoDup (key <$> l) -> keyed key l !! k = Some a <-> a ∈ l /\ key a = k.
Proof.
  intros Hn. unfold keyed. rewrite <- elem_of_list_to_map by (by rewrite keyed_fst).
  rewrite list_elem_of_fmap. split.
  - by intros (y & [= -> ->] & ?).
  - intros [? <-]. by exists a.
Qed.

Lemma keyed_values l : NoDup (key <$> l) -> values (keyed key l) ≡ₚ l.
Proof.
  intros Hn. unfold values, keyed. rewrite map_to_list_to_map by (by rewrite keyed_fst). by rewrite keyed_snd.
Qed.

Lemma keyed_size l : NoDup (key <$> l) -> size (keyed key l) = length l.
Proof.
  intros Hn. rewrite <- length_map_to_list, <- (length_fmap snd).
  fold (values (keyed key l)). by rewrite keyed_values.
Qed.
End Keyed.

(** ** The service against its history *)

Lemma issued_active h : Forall (fun c => ci_status c = Active) (issued h).
Proof. induction h as [|[]]; simpl; repeat constructor; done. Qed.

Lemma filter_all {A} (P : A -> Prop) `{!forall x, Decision (P x)} (l : list A) : Forall P l -> filter P l = l.
Proof. induction 1; [done|]. rewrite filter_cons_True by done. by f_equal. Qed.

Definition ids_fresh (h : list event) : Prop :=
  NoDup (ci_cert_id <$> issued h) /\ NoDup (si_secret_id <$> posted h).

Record follows (s : InfrastructureState) (h : list event) : Prop := {
  f_logging : is_logging s = lastn 1000 (logged h);
  f_certificates : is_certificates s = keyed ci_cert_id (issued h);
  f_secrets : is_secrets s = keyed si_secret_id (posted h);
  f_monitoring : map_Forall (fun k m => mv_is_synthetic m = true /\ mv_name m = k) (is_monitoring s);
}.

Lemma collect_synthetic t1 t2 t3 m :
  map_Forall (fun k v => mv_is_synthetic v = true /\ mv_name v = k) m ->
  map_Forall (fun k v => mv_is_synthetic v = true /\ mv_name v = k) (collect_metrics t1 t2 t3 m).
Proof. intros. by repeat apply map_Forall_insert_2. Qed.

Lemma ids_fresh_snoc h e : ids_fresh (h ++ [e]) ->
  ids_fresh h /\
  (forall c, omap (fun e => match e with Issued u n r => Some (issued_certificate u n r) | _ => None end) [e] = [c] ->
     ci_cert_id c ∉ ci_cert_id <$> issued h) /\
  (forall c, omap (fun e => match e with SecretPosted u n r => Some (created_secret u n r) | _ => None end) [e] = [c] ->
     si_secret_id c ∉ si_secret_id <$> posted h).
Proof.
  unfold ids_fresh, issued, posted. rewrite !omap_app, !fmap_app, !NoDup_app.
  intros [(? & Hc & _) (? & Hs & _)]. split_and!; [done.. | |]; intros c E Hin.
  - apply Hc in Hin. rewrite E in Hin. apply Hin. by left.
  - apply Hs in Hin. rewrite E in Hin. apply Hin. by left.
Qed.

Lemma after_follows config s h :
  Infrastructure_new config = Ok s -> ids_fresh h -> follows (after s h) h.
Proof.
  intros [= <-]. induction h as [|e h IH] using rev_ind; intros Hf.
  { split; simpl; try done. }
  destruct (ids_fresh_snoc _ _ Hf) as (Hh & Hc & Hs). specialize (IH Hh) as [Hl Hce Hse Hm].
  unfold after in *. rewrite foldl_app; simpl. set (s := foldl _ _ h) in *.
  split; unfold logged, issued, posted; rewrite ?omap_app;
    fold (logged h); fold (issued h); fold (posted h); destruct e; simpl in *; rewrite ?app_nil_r;
    try done; try (by apply collect_synthetic).
  - rewrite log_lastn, Hl. apply lastn_snoc. lia.
  - rewrite Hce, keyed_snoc; [done|]. by apply Hc.
  - rewrite Hse, keyed_snoc; [done|]. by apply Hs.
Qed.

(** The infrastructure service answers from its history. After any sequence of log
    records, metric ticks, certificate requests and secret posts, with fresh
    UUIDs: a certificate (a secret) is found under an identifier exactly when it
    was issued (posted) under it, and 404 otherwise; the listings are what was
    issued and posted; the status counts them all, every certificate being
    active, since no route revokes or expires one; and no metric is ever served
    without its synthetic mark. *)
Theorem service_refines_history (config : InfrastructureConfig) (s : InfrastructureState) (h : list event) :
  Infrastructure_new config = Ok s -> ids_fresh h ->
  (forall id c, get_certificate id (after s h) = Ok c <-> c ∈ issued h /\ ci_cert_id c = id) /\
  (forall id c, get_secret id (after s h) = Ok c <-> c ∈ posted h /\ si_secret_id c = id) /\
  get_certificates (after s h) ≡ₚ issued h /\ get_secrets (after s h) ≡ₚ posted h /\
  (forall now, 0 <= now -> get_status now (after s h)
     = Some (mkStatusAnswer (length (issued h)) (length (issued h)) (length (posted h)) (now / 10 ^ 9))) /\
  Forall (fun v => vw_is_synthetic v = true) (api_get_metrics (after s h)).
Proof.
  intros Hn Hf. destruct (after_follows _ _ _ Hn Hf) as [_ Hc Hs Hm]. destruct Hf as [Fc Fs].
  unfold get_certificate, get_secret, get_certificates, get_secrets, get_status, api_get_metrics.
  rewrite Hc, Hs. split_and!; try (by apply keyed_values).
  - intros id c. rewrite <- keyed_lookup by done. destruct (keyed _ _ !! id); simpl; naive_solver.
  - intros id c. rewrite <- keyed_lookup by done. destruct (keyed _ _ !! id); simpl; naive_solver.
  - intros now ?. unfold unix_secs. rewrite (proj2 (Z.leb_le 0 now)) by done.
    rewrite !keyed_size by done. do 2 f_equal.
    rewrite keyed_values by done. by rewrite (filter_all _ (issued h)) by apply issued_active.
  - apply Forall_fmap, Forall_forall. intros [k m] Hin. apply elem_of_map_to_list in Hin.
    apply (Hm k m) in Hin as [? _]. done.
Qed.

(** Log retention. The service keeps the last 1000 records of its history, in order,
    and never more; [get_logs] answers with the newest records first, and up to
    a limit of 1000 the answer is the one an unbounded log would give; a query
    by level sees the kept records only. *)
Theorem log_retention (config : InfrastructureConfig) (s : InfrastructureState) (h : list event)
    (limit : option nat) (level : LogLevel) :
  Infrastructure_new config = Ok s -> ids_fresh h -> (default 100 limit <= 1000)%nat ->
  is_logging (after s h) = lastn 1000 (logged h) /\
  (length (is_logging (after s h)) <= 1000)%nat /\
  get_logs limit (is_logging (after s h)) = take (default 100%nat limit) (reverse (logged h)) /\
  get_logs_by_level level limit (is_logging (after s h))
  = take (default 100%nat limit) (filter (fun e => le_level e = level) (take 1000 (reverse (logged h)))).
Proof.
  intros Hn Hf Hl. destruct (after_follows _ _ _ Hn Hf) as [-> _ _ _]. split_and!; [done | | |].
  - rewrite lastn_length. lia.
  - unfold get_logs. by apply take_reverse_lastn.
  - unfold get_logs_by_level. do 2 f_equal. rewrite <- (take_reverse_lastn 1000 1000) by done.
    symmetry. apply take_ge. rewrite length_reverse, lastn_length. lia.
Qed.

(** The values of the stand-ins do not depend on what was stored: two
    histories that store different values are answered alike. *)
Theorem secret_store_forgets (st : SecretStore) (id v1 v2 : string) :
  retrieve_secret (snd (store_secret st id v1)) id = retrieve_secret (snd (store_secret st id v2)) id /\
  (forall u now n ns, create_secret u now (mkSecretRequest n ns v1)
                      = create_secret u now (mkSecretRequest n ns v2)).
Proof. done. Qed.

(** The routes of the service do not overlap. *)
Theorem api_routes_unambiguous (m : http_method) (path : list string) (p q : list segment) (h k : api_handler) :
  (p, m, h) ∈ api_router -> (q, m, k) ∈ api_router ->
  matches p path = true -> matches q path = true -> h = k.
Proof. apply table_unambiguous. vm_compute. reflexivity. Qed.

(** ** Witnesses *)

Definition demo_state : InfrastructureState :=
  mkInfrastructureState InfrastructureConfig_default
    (mkCertificateAuthority "/etc/wasmbed/ca.crt" "/etc/wasmbed/ca.key")
    (mkSecretStore "/var/lib/wasmbed/secrets") ∅ [] ∅ ∅.

Definition demo_history : list event :=
  [Logged 5 Info "ca" "up" ∅; Issued "u1" 7 (mkCertificateRequest "device-1" (Some 30)); Collected 8 9 10;
   SecretPosted "u2" 11 (mkSecretRequest "wifi" "edge" "hunter2"); Issued "u3" 12 (mkCertificateRequest "device-2" None);
   Logged 13 Error "ca" "late" ∅].

Lemma demo_fresh : ids_fresh demo_history.
Proof. by split; apply (bool_decide_unpack _); vm_compute. Qed.

Lemma service_refines_history_witness :
  get_certificate "u1" (after demo_state demo_history)
  = Ok (issued_certificate "u1" 7 (mkCertificateRequest "device-1" (Some 30))).
Proof.
  apply (service_refines_history InfrastructureConfig_default demo_state demo_history); [done | apply demo_fresh |].
  split; [|done]. apply list_elem_of_here.
Defined.

Lemma log_retention_witness :
  le_message <$> get_logs (Some 1%nat) (is_logging (after demo_state demo_history)) = ["late"].
Proof.
  destruct (log_retention InfrastructureConfig_default demo_state demo_history (Some 1%nat) Info)
    as (_ & _ & -> & _); [done | apply demo_fresh | simpl; lia | done].
Defined.

Lemma api_routes_unambiguous_witness : A_generate = A_generate.
Proof.
  apply (api_routes_unambiguous POST ["api"; "v1"; "certificates"]
    (v1 [Lit "certificates"]) (v1 [Lit "certificates"]));
    [set_solver.. | done | done].
Defined.
