(* ===== verification/Config.v ===== *)
(** * Platform configuration: [crates/wasmbed-config/src/lib.rs]

    The configuration tree, its defaults and the operations on the three lists
    of instances. The lists are addressed by name but do not keep names unique:
    the refinement below says what they implement instead, a queue of
    definitions for each name. *)

From S2P Require Import Prelude.

Section Config.
(** [serde_json::Value], which the configuration only stores *)
Context {Value : Type}.

(** ** The configuration tree *)

Record PlatformConfig := mkPlatformConfig {
  pl_name : string;
  pl_version : string;
  pl_description : string;
}.

Record GatewayConfig := mkGatewayConfig {
  gcf_name : string;
  gcf_endpoint : string;
  gcf_tls_port : Z;
  gcf_http_port : Z;
  gcf_max_devices : Z;
  gcf_region : string;
  gcf_enabled : bool;
}.

Record GatewayDefaults := mkGatewayDefaults {
  gd_max_devices : Z;
  gd_heartbeat_interval : Z;
  gd_connection_timeout : Z;
  gd_enrollment_timeout : Z;
  gd_tls_port : Z;
  gd_http_port : Z;
  gd_region : string;
}.

Record GatewaySection := mkGatewaySection {
  gsn_defaults : GatewayDefaults;
  gsn_instances : list GatewayConfig;
}.

Record DeviceConfig := mkDeviceConfig {
  dcf_name : string;
  dcf_device_type : string;
  dcf_architecture : string;
  dcf_gateway : string;
  dcf_enabled : bool;
}.

Record DeviceDefaults := mkDeviceDefaults {
  dd_architecture : string;
  dd_capabilities : list string;
  dd_heartbeat_interval : Z;
  dd_connection_retry_interval : Z;
  dd_max_retries : Z;
}.

Record DeviceType := mkDeviceType {
  dt_architecture : string;
  dt_memory : string;
  dt_storage : string;
  dt_capabilities : list string;
}.

Record DeviceSection := mkDeviceSection {
  dsn_defaults : DeviceDefaults;
  dsn_types : gmap string DeviceType;
  dsn_instances : list DeviceConfig;
}.

Record ApplicationConfig := mkApplicationConfig {
  acf_name : string;
  acf_description : string;
  acf_wasm_bytes : string;
  acf_target_devices : list string;
  acf_config : gmap string Value;
  acf_enabled : bool;
}.

Record ValidationConfig := mkValidationConfig {
  vc_enabled : bool;
  vc_strict : bool;
}.

Record ApplicationDefaults := mkApplicationDefaults {
  ad_max_size : string;
  ad_timeout : Z;
  ad_retries : Z;
  ad_validation : ValidationConfig;
}.

Record ApplicationTemplate := mkApplicationTemplate {
  at_name : string;
  at_description : string;
  at_wasm_bytes : string;
  at_target_devices : list string;
  at_config : gmap string Value;
}.

Record ApplicationSection := mkApplicationSection {
  asn_defaults : ApplicationDefaults;
  asn_templates : gmap string ApplicationTemplate;
  asn_instances : list (ApplicationConfig);
}.

Record CertificateAuthorityConfig := mkCertificateAuthorityConfig {
  ca_enabled : bool;
  ca_cert_path : string;
  ca_key_path : string;
  ca_validity_days : Z;
}.

Record SecretStoreConfig := mkSecretStoreConfig {
  ss_enabled : bool;
  ss_store_type : string;
  ss_namespace : string;
}.

Record MetricsConfig := mkMetricsConfig {
  me_enabled : bool;
  me_port : Z;
}.

Record LoggingConfig := mkLoggingConfig {
  lo_enabled : bool;
  lo_level : string;
  lo_format : string;
}.

Record MonitoringConfig := mkMonitoringConfig {
  mo_enabled : bool;
  mo_metrics : MetricsConfig;
  mo_logging : LoggingConfig;
}.

Record DatabaseConfig := mkDatabaseConfig {
  db_enabled : bool;
  db_db_type : string;
  db_endpoints : list string;
  db_namespace : string;
}.

Record InfrastructureConfig := mkInfrastructureConfig {
  inf_ca : CertificateAuthorityConfig;
  inf_secret_store : SecretStoreConfig;
  inf_monitoring : MonitoringConfig;
  inf_database : DatabaseConfig;
}.

Record KubernetesConfig := mkKubernetesConfig {
  kc_namespace : string;
  kc_crds : list string;
  kc_rbac : list string;
}.

Record WebSocketConfig := mkWebSocketConfig {
  ws_enabled : bool;
  ws_port : Z;
}.

Record DashboardConfig := mkDashboardConfig {
  da_enabled : bool;
  da_port : Z;
  da_theme : string;
  da_real_time_updates : bool;
  da_polling_interval : Z;
  da_websocket : WebSocketConfig;
}.

Record TlsConfig := mkTlsConfig {
  tl_enabled : bool;
  tl_min_version : string;
  tl_cipher_suites : list string;
}.

Record AuthenticationConfig := mkAuthenticationConfig {
  au_enabled : bool;
  au_auth_type : string;
  au_required : bool;
}.

Record AuthorizationConfig := mkAuthorizationConfig {
  az_enabled : bool;
  az_rbac : bool;
  az_policies : list string;
}.

Record SecurityConfig := mkSecurityConfig {
  sc_tls : TlsConfig;
  sc_authentication : AuthenticationConfig;
  sc_authorization : AuthorizationConfig;
}.

Record ConnectionPoolConfig := mkConnectionPoolConfig {
  cp_max_connections : Z;
  cp_idle_timeout : Z;
  cp_max_lifetime : Z;
}.

Record CacheConfig := mkCacheConfig {
  cc_enabled : bool;
  cc_ttl : Z;
  cc_max_size : string;
}.

Record RateLimitConfig := mkRateLimitConfig {
  rl_enabled : bool;
  rl_requests_per_minute : Z;
  rl_burst_size : Z;
}.

Record PerformanceConfig := mkPerformanceConfig {
  pf_connection_pool : ConnectionPoolConfig;
  pf_cache : CacheConfig;
  pf_rate_limit : RateLimitConfig;
}.

Record DevelopmentConfig := mkDevelopmentConfig {
  dv_debug : bool;
  dv_verbose : bool;
  dv_mock_data : bool;
  dv_hot_reload : bool;
  dv_profiling : bool;
}.

Record WasmbedConfig := mkWasmbedConfig {
  wc_platform : PlatformConfig;
  wc_gateways : GatewaySection;
  wc_devices : DeviceSection;
  wc_applications : ApplicationSection;
  wc_infrastructure : InfrastructureConfig;
  wc_kubernetes : KubernetesConfig;
  wc_dashboard : DashboardConfig;
  wc_security : SecurityConfig;
  wc_performance : PerformanceConfig;
  wc_development : DevelopmentConfig;
}.

(** [impl Default for WasmbedConfig] *)
Definition default_config : WasmbedConfig :=
  mkWasmbedConfig
    (mkPlatformConfig "Wasmbed" "1.0.0" "WebAssembly runtime platform for edge devices")
    (mkGatewaySection (mkGatewayDefaults 100 30 60 300 30452 30453 "us-west-1") [])
    (mkDeviceSection (mkDeviceDefaults "xtensa" ["wasm"; "tls"; "enrollment"] 30 10 5) ∅ [])
    (mkApplicationSection (mkApplicationDefaults "1MB" 300 3 (mkValidationConfig true true)) ∅ [])
    (mkInfrastructureConfig
       (mkCertificateAuthorityConfig true "certs/ca-cert.pem" "certs/ca-key.pem" 365)
       (mkSecretStoreConfig true "kubernetes" "wasmbed")
       (mkMonitoringConfig true (mkMetricsConfig true 9090) (mkLoggingConfig true "info" "json"))
       (mkDatabaseConfig true "etcd" ["localhost:2379"] "wasmbed"))
    (mkKubernetesConfig
       "wasmbed"
       ["device-crd.yaml"; "application-crd.yaml"; "gateway-crd.yaml"]
       ["device-controller-rbac.yaml"; "application-controller-rbac.yaml"; "gateway-controller-rbac.yaml"])
    (mkDashboardConfig true 3000 "light" true 5000 (mkWebSocketConfig true 3001))
    (mkSecurityConfig
       (mkTlsConfig
          true
          "1.2"
          ["TLS_ECDHE_RSA_WITH_AES_256_GCM_SHA384"; "TLS_ECDHE_RSA_WITH_AES_128_GCM_SHA256"])
       (mkAuthenticationConfig true "certificate" true)
       (mkAuthorizationConfig true true ["admin"; "operator"; "viewer"]))
    (mkPerformanceConfig
       (mkConnectionPoolConfig 100 300 3600)
       (mkCacheConfig true 300 "100MB")
       (mkRateLimitConfig true 1000 100))
    (mkDevelopmentConfig false false false true false).

(** ** Lists of named instances *)

Section Instances.
Context {A : Type} (name : A -> string).

(** [iter().find(|x| x.name == name)] and [iter().position(..)] *)
Definition find_named (n : string) (l : list A) : option A := List.find (fun a => String.eqb (name a) n) l.

Fixpoint position (n : string) (l : list A) : option nat :=
  match l with
  | [] => None
  | a :: l => if String.eqb (name a) n then Some 0%nat else S <$> position n l
  end.

(** [Vec::remove(pos)] and [instances[pos] = x]; the position is in range. *)
Definition remove_named (n : string) (l : list A) : bool * list A :=
  match position n l with Some pos => (true, delete pos l) | None => (false, l) end.

Definition update_named (n : string) (a : A) (l : list A) : bool * list A :=
  match position n l with Some pos => (true, <[pos := a]> l) | None => (false, l) end.
End Instances.

Definition set_gateway_instances (l : list GatewayConfig) (c : WasmbedConfig) : WasmbedConfig :=
  mkWasmbedConfig (wc_platform c) (mkGatewaySection (gsn_defaults (wc_gateways c)) l) (wc_devices c) (wc_applications c)
    (wc_infrastructure c) (wc_kubernetes c) (wc_dashboard c) (wc_security c) (wc_performance c) (wc_development c).
Definition set_device_instances (l : list DeviceConfig) (c : WasmbedConfig) : WasmbedConfig :=
  mkWasmbedConfig (wc_platform c) (wc_gateways c)
    (mkDeviceSection (dsn_defaults (wc_devices c)) (dsn_types (wc_devices c)) l) (wc_applications c)
    (wc_infrastructure c) (wc_kubernetes c) (wc_dashboard c) (wc_security c) (wc_performance c) (wc_development c).
Definition set_application_instances (l : list ApplicationConfig) (c : WasmbedConfig) : WasmbedConfig :=
  mkWasmbedConfig (wc_platform c) (wc_gateways c) (wc_devices c)
    (mkApplicationSection (asn_defaults (wc_applications c)) (asn_templates (wc_applications c)) l)
    (wc_infrastructure c) (wc_kubernetes c) (wc_dashboard c) (wc_security c) (wc_performance c) (wc_development c).

Definition gateway_instances (c : WasmbedConfig) : list GatewayConfig := gsn_instances (wc_gateways c).
Definition device_instances (c : WasmbedConfig) : list DeviceConfig := dsn_instances (wc_devices c).
Definition application_instances (c : WasmbedConfig) : list ApplicationConfig := asn_instances (wc_applications c).

Definition get_gateway (n : string) (c : WasmbedConfig) := find_named gcf_name n (gateway_instances c).
Definition get_device (n : string) (c : WasmbedConfig) := find_named dcf_name n (device_instances c).
Definition get_application (n : string) (c : WasmbedConfig) := find_named acf_name n (application_instances c).

Definition get_enabled_gateways (c : WasmbedConfig) := List.filter gcf_enabled (gateway_instances c).
Definition get_enabled_devices (c : WasmbedConfig) := List.filter dcf_enabled (device_instances c).
Definition get_enabled_applications (c : WasmbedConfig) := List.filter acf_enabled (application_instances c).

Definition add_gateway (g : GatewayConfig) (c : WasmbedConfig) : WasmbedConfig :=
  set_gateway_instances (gateway_instances c ++ [g]) c.
Definition add_device (d : DeviceConfig) (c : WasmbedConfig) : WasmbedConfig :=
  set_device_instances (device_instances c ++ [d]) c.
Definition add_application (a : ApplicationConfig) (c : WasmbedConfig) : WasmbedConfig :=
  set_application_instances (application_instances c ++ [a]) c.

Definition remove_gateway (n : string) (c : WasmbedConfig) : bool * WasmbedConfig :=
  let '(b, l) := remove_named gcf_name n (gateway_instances c) in (b, set_gateway_instances l c).
Definition remove_device (n : string) (c : WasmbedConfig) : bool * WasmbedConfig :=
  let '(b, l) := remove_named dcf_name n (device_instances c) in (b, set_device_instances l c).
Definition remove_application (n : string) (c : WasmbedConfig) : bool * WasmbedConfig :=
  let '(b, l) := remove_named acf_name n (application_instances c) in (b, set_application_instances l c).

Definition update_gateway (n : string) (g : GatewayConfig) (c : WasmbedConfig) : bool * WasmbedConfig :=
  let '(b, l) := update_named gcf_name n g (gateway_instances c) in (b, set_gateway_instances l c).
Definition update_device (n : string) (d : DeviceConfig) (c : WasmbedConfig) : bool * WasmbedConfig :=
  let '(b, l) := update_named dcf_name n d (device_instances c) in (b, set_device_instances l c).
Definition update_application (n : string) (a : ApplicationConfig) (c : WasmbedConfig) : bool * WasmbedConfig :=
  let '(b, l) := update_named acf_name n a (application_instances c) in (b, set_application_instances l c).

(** ** Files *)

Inductive config_error := ReadError (path : string) | ParseError | SerializeError | WriteError (path : string).

Section Files.
(** The file system and [serde_yaml] *)
Context {F : Type} (fs_read : F -> string -> option string) (fs_write : F -> string -> string -> option F).
Context (to_yaml : WasmbedConfig -> option string) (of_yaml : string -> option WasmbedConfig).

Definition from_file (path : string) (f : F) : result config_error WasmbedConfig :=
  match fs_read f path with
  | None => Err (ReadError path)
  | Some content => match of_yaml content with None => Err ParseError | Some config => Ok config end
  end.

Definition to_file (path : string) (c : WasmbedConfig) (f : F) : result config_error F :=
  match to_yaml c with
  | None => Err SerializeError
  | Some content => match fs_write f path content with None => Err (WriteError path) | Some f => Ok f end
  end.
End Files.

(** ** What the lists implement *)

Section Refinement.
Context {A : Type} (name : A -> string).

Inductive inst_op := OpGet (n : string) | OpAdd (a : A) | OpRemove (n : string) | OpUpdate (n : string) (a : A).
Inductive inst_obs := Found (o : option A) | Added | Answer (b : bool).

Definition run_inst (op : inst_op) (l : list A) : inst_obs * list A :=
  match op with
  | OpGet n => (Found (find_named name n l), l)
  | OpAdd a => (Added, l ++ [a])
  | OpRemove n => let '(b, l) := remove_named name n l in (Answer b, l)
  | OpUpdate n a => let '(b, l) := update_named name n a l in (Answer b, l)
  end.

(** The specification: a queue of definitions for each name. The first one
    is seen, replaced and removed; a new one goes to the end. *)
Definition queues : Type := string -> list A.

Definition set_queue (n : string) (l : list A) (q : queues) : queues :=
  fun m => if decide (m = n) then l else q m.

Definition run_spec (op : inst_op) (q : queues) : inst_obs * queues :=
  match op with
  | OpGet n => (Found (head (q n)), q)
  | OpAdd a => (Added, set_queue (name a) (q (name a) ++ [a]) q)
  | OpRemove n => match q n with
                  | [] => (Answer false, q)
                  | _ :: l => (Answer true, set_queue n l q)
                  end
  | OpUpdate n a => match q n with
                    | [] => (Answer false, q)
                    | _ :: l => (Answer true, set_queue n (a :: l) q)
                    end
  end.

(** An update that does not rename. *)
Definition keeps_name (op : inst_op) : Prop :=
  match op with OpUpdate n a => name a = n | _ => True end.

Definition queue_of (l : list A) : queues := fun n => List.filter (fun a => String.eqb (name a) n) l.
#[local] Arguments queue_of : simpl never.

Definition related (l : list A) (q : queues) : Prop := forall n, q n = queue_of l n.

Lemma queue_of_app l k n : queue_of (l ++ k) n = queue_of l n ++ queue_of k n.
Proof. apply List.filter_app. Qed.

Lemma find_head n l : find_named name n l = head (queue_of l n).
Proof.
  unfold find_named, queue_of. induction l as [|a l IH]; simpl; [done|]. by destruct (String.eqb (name a) n).
Qed.

Lemma queue_of_cons_eq a l : queue_of (a :: l) (name a) = a :: queue_of l (name a).
Proof. unfold queue_of. simpl. by rewrite String.eqb_refl. Qed.

Lemma queue_of_cons_ne a l n : n <> name a -> queue_of (a :: l) n = queue_of l n.
Proof. intros H. unfold queue_of. simpl. by destruct (String.eqb_spec (name a) n) as [<-|]. Qed.

(** The list around the first instance with a name. *)
Lemma position_split n l :
  match position name n l with
  | Some i => exists l1 a l2, l = l1 ++ a :: l2 /\ length l1 = i /\ name a = n /\ queue_of l1 n = []
  | None => queue_of l n = []
  end.
Proof.
  induction l as [|a l IH]; simpl; [done|]. destruct (String.eqb_spec (name a) n) as [E|E].
  - by exists [], a, l.
  - destruct (position name n l) as [i|]; simpl; [|by rewrite queue_of_cons_ne by congruence].
    destruct IH as (l1 & b & l2 & -> & <- & Hb & Hq). exists (a :: l1), b, l2.
    split_and!; try done. by rewrite queue_of_cons_ne by congruence.
Qed.

(** One step of the simulation. *)
Lemma inst_step op l q :
  keeps_name op -> related l q ->
  (run_inst op l).1 = (run_spec op q).1 /\ related (run_inst op l).2 (run_spec op q).2.
Proof.
  intros Hk Hr. destruct op as [n|a|n|n a]; simpl.
  - by rewrite find_head, Hr.
  - split; [done|]. intros m. unfold set_queue. rewrite queue_of_app, <- !Hr.
    destruct (decide (m = name a)) as [->|Hne]; [by rewrite queue_of_cons_eq|].
    rewrite queue_of_cons_ne by done. unfold queue_of; simpl. by rewrite app_nil_r.
  - unfold remove_named. pose proof (position_split n l) as P. destruct (position name n l) as [i|]; simpl.
    + destruct P as (l1 & a & l2 & -> & <- & <- & Hq).
      rewrite (Hr (name a)), queue_of_app, Hq, queue_of_cons_eq. simpl. split; [done|].
      rewrite delete_middle. intros m. unfold set_queue. rewrite queue_of_app.
      destruct (decide (m = name a)) as [->|Hne]; [by rewrite Hq|].
      by rewrite (Hr m), queue_of_app, queue_of_cons_ne.
    + by rewrite (Hr n), P.
  - unfold update_named. pose proof (position_split n l) as P. destruct (position name n l) as [i|]; simpl.
    + destruct P as (l1 & b & l2 & -> & <- & <- & Hq). simpl in Hk.
      rewrite (Hr (name b)), queue_of_app, Hq, queue_of_cons_eq. simpl. split; [done|].
      rewrite insert_app_r_alt, Nat.sub_diag by lia. simpl. intros m. unfold set_queue. rewrite queue_of_app.
      destruct (decide (m = name b)) as [->|Hne]; [by rewrite Hq, <- Hk, queue_of_cons_eq|].
      rewrite queue_of_cons_ne by congruence. by rewrite (Hr m), queue_of_app, queue_of_cons_ne.
    + by rewrite (Hr n), P.
Qed.

Lemma related_queue_of l : related l (queue_of l).
Proof. by intros n. Qed.
End Refinement.

(** ** The whole configuration *)

Inductive config_op :=
| OnGateways (op : inst_op (A := GatewayConfig))
| OnDevices (op : inst_op (A := DeviceConfig))
| OnApplications (op : inst_op (A := ApplicationConfig)).

Inductive config_obs :=
| OfGateways (o : inst_obs (A := GatewayConfig))
| OfDevices (o : inst_obs (A := DeviceConfig))
| OfApplications (o : inst_obs (A := ApplicationConfig)).

(** A call of one of the methods. *)
Definition run_gateways (op : inst_op) (c : WasmbedConfig) : inst_obs * WasmbedConfig :=
  match op with
  | OpGet n => (Found (get_gateway n c), c)
  | OpAdd g => (Added, add_gateway g c)
  | OpRemove n => let '(b, c) := remove_gateway n c in (Answer b, c)
  | OpUpdate n g => let '(b, c) := update_gateway n g c in (Answer b, c)
  end.
Definition run_devices (op : inst_op) (c : WasmbedConfig) : inst_obs * WasmbedConfig :=
  match op with
  | OpGet n => (Found (get_device n c), c)
  | OpAdd d => (Added, add_device d c)
  | OpRemove n => let '(b, c) := remove_device n c in (Answer b, c)
  | OpUpdate n d => let '(b, c) := update_device n d c in (Answer b, c)
  end.
Definition run_applications (op : inst_op) (c : WasmbedConfig) : inst_obs * WasmbedConfig :=
  match op with
  | OpGet n => (Found (get_application n c), c)
  | OpAdd a => (Added, add_application a c)
  | OpRemove n => let '(b, c) := remove_application n c in (Answer b, c)
  | OpUpdate n a => let '(b, c) := update_application n a c in (Answer b, c)
  end.

Definition run_config (op : config_op) (c : WasmbedConfig) : config_obs * WasmbedConfig :=
  match op with
  | OnGateways op => let '(o, c) := run_gateways op c in (OfGateways o, c)
  | OnDevices op => let '(o, c) := run_devices op c in (OfDevices o, c)
  | OnApplications op => let '(o, c) := run_applications op c in (OfApplications o, c)
  end.

Record config_spec := mkConfigSpec {
  sp_gateways : queues (A := GatewayConfig);
  sp_devices : queues (A := DeviceConfig);
  sp_applications : queues (A := ApplicationConfig);
}.

Definition run_config_spec (op : config_op) (s : config_spec) : config_obs * config_spec :=
  match op with
  | OnGateways op => let '(o, q) := run_spec gcf_name op (sp_gateways s) in
      (OfGateways o, mkConfigSpec q (sp_devices s) (sp_applications s))
  | OnDevices op => let '(o, q) := run_spec dcf_name op (sp_devices s) in
      (OfDevices o, mkConfigSpec (sp_gateways s) q (sp_applications s))
  | OnApplications op => let '(o, q) := run_spec acf_name op (sp_applications s) in
      (OfApplications o, mkConfigSpec (sp_gateways s) (sp_devices s) q)
  end.

Fixpoint run_all {S} (run : config_op -> S -> config_obs * S) (ops : list config_op) (s : S) : list config_obs * S :=
  match ops with
  | [] => ([], s)
  | op :: ops => let '(o, s1) := run op s in let '(os, s2) := run_all run ops s1 in (o :: os, s2)
  end.

Definition config_keeps_name (op : config_op) : Prop :=
  match op with
  | OnGateways op => keeps_name gcf_name op
  | OnDevices op => keeps_name dcf_name op
  | OnApplications op => keeps_name acf_name op
  end.

Definition config_related (c : WasmbedConfig) (s : config_spec) : Prop :=
  related gcf_name (gateway_instances c) (sp_gateways s) /\
  related dcf_name (device_instances c) (sp_devices s) /\
  related acf_name (application_instances c) (sp_applications s).

(** Every method works on its own list alone. *)
Lemma run_gateways_inst op c : run_gateways op c =
  ((run_inst gcf_name op (gateway_instances c)).1,
   set_gateway_instances (run_inst gcf_name op (gateway_instances c)).2 c).
Proof.
  destruct op; simpl; unfold remove_gateway, update_gateway; repeat case_match; simplify_eq/=; try done.
  by destruct c as [? [] ? ? ? ? ? ? ? ?].
Qed.
Lemma run_devices_inst op c : run_devices op c =
  ((run_inst dcf_name op (device_instances c)).1,
   set_device_instances (run_inst dcf_name op (device_instances c)).2 c).
Proof.
  destruct op; simpl; unfold remove_device, update_device; repeat case_match; simplify_eq/=; try done.
  by destruct c as [? ? [] ? ? ? ? ? ? ?].
Qed.
Lemma run_applications_inst op c : run_applications op c =
  ((run_inst acf_name op (application_instances c)).1,
   set_application_instances (run_inst acf_name op (application_instances c)).2 c).
Proof.
  destruct op; simpl; unfold remove_application, update_application; repeat case_match; simplify_eq/=; try done.
  by destruct c as [? ? ? [] ? ? ? ? ? ?].
Qed.

Lemma config_step op c s :
  config_keeps_name op -> config_related c s ->
  (run_config op c).1 = (run_config_spec op s).1 /\ config_related (run_config op c).2 (run_config_spec op s).2.
Proof.
  intros Hk (Hg & Hd & Ha). destruct op as [op|op|op]; simpl in *.
  - rewrite run_gateways_inst. destruct (inst_step gcf_name op _ _ Hk Hg) as [E R].
    destruct (run_spec _ op _) as [o q]; simpl in *. by rewrite E.
  - rewrite run_devices_inst. destruct (inst_step dcf_name op _ _ Hk Hd) as [E R].
    destruct (run_spec _ op _) as [o q]; simpl in *. by rewrite E.
  - rewrite run_applications_inst. destruct (inst_step acf_name op _ _ Hk Ha) as [E R].
    destruct (run_spec _ op _) as [o q]; simpl in *. by rewrite E.
Qed.

(** C28: The configuration refines its specification: for any sequence of lookups,
    additions, removals and updates of gateways, devices and applications in which
    no update renames its entry, the methods answer exactly as a queue of
    definitions per kind and name - the oldest definition is the one that is found,
    replaced and removed - and no operation on one kind shows in another. *)
Theorem config_refines_queues (ops : list config_op) (c : WasmbedConfig) (s : config_spec) :
  config_related c s -> Forall config_keeps_name ops ->
  (run_all run_config ops c).1 = (run_all run_config_spec ops s).1 /\
  config_related (run_all run_config ops c).2 (run_all run_config_spec ops s).2.
Proof.
  intros Hr Hk. revert c s Hr. induction Hk as [|op ops Hop _ IH]; intros c s Hr; simpl; [done|].
  destruct (config_step op c s Hop Hr) as [E R].
  destruct (run_config op c) as [o c1], (run_config_spec op s) as [o' s1]; simpl in *; subst o'.
  destruct (IH c1 s1 R) as [E2 R2].
  destruct (run_all run_config ops c1), (run_all run_config_spec ops s1); simpl in *. by rewrite E2.
Qed.

End Config.

(** ** Witnesses *)

Definition edge_gateway (endpoint : string) : GatewayConfig :=
  mkGatewayConfig "edge" endpoint 30452 30453 50 "eu" true.

Definition sample_ops : list (config_op (Value := unit)) :=
  [OnGateways (OpAdd (edge_gateway "a")); OnGateways (OpAdd (edge_gateway "b"));
   OnGateways (OpUpdate "edge" (edge_gateway "c")); OnGateways (OpRemove "edge"); OnGateways (OpGet "edge")].

(** A removed name is still found when it was defined twice. *)
Lemma config_refines_queues_witness :
  (run_all run_config sample_ops default_config).1 =
  [OfGateways Added; OfGateways Added; OfGateways (Answer true); OfGateways (Answer true);
   OfGateways (Found (Some (edge_gateway "b")))].
Proof.
  destruct (config_refines_queues sample_ops default_config
    (mkConfigSpec (fun _ => []) (fun _ => []) (fun _ => []))) as [-> _].
  - by split_and!.
  - repeat constructor.
  - reflexivity.
Defined.
