(* ===== verification/Renode.v ===== *)
(** * Emulated devices: [crates/wasmbed-qemu-manager/src/lib.rs]

    What identifies an emulated device (its TAP interface, MAC address and key),
    the Renode script that writes it into the memory of the machine, the board
    tables and the endpoint translations. [kubectl], the file system and the
    environment are parameters. *)

From S2P Require Import Prelude.
From S2P Require Import RustStd.
From S2P Require Import Text.
From S2P Require Import Externals.
From Stdlib Require Import Strings.Ascii.
Local Open Scope Z_scope.

(** ** String methods *)

(** [s.splitn(2, c).next()] and [s.split(c).next()]: the text before the
    first [c]. *)
Fixpoint before (c : ascii) (s : string) : string :=
  match s with
  | EmptyString => EmptyString
  | String a s => if Ascii.eqb a c then EmptyString else String a (before c s)
  end.

(** [s.replace(p, "")] for a non-empty [p]; every round consumes a character,
    so the length is enough fuel. *)
Fixpoint remove_all_fuel (fuel : nat) (p s : string) : string :=
  match fuel with
  | O => s
  | S fuel =>
      match strip_prefix p s with
      | Some s' => remove_all_fuel fuel p s'
      | None => match s with EmptyString => EmptyString | String a s => String a (remove_all_fuel fuel p s) end
      end
  end.
Definition remove_all (p s : string) : string := remove_all_fuel (String.length s) p s.

(** [s.trim_end_matches('/')] *)
Definition trim_end_slashes (s : string) : string := str_rev (trim_start_matches "/" (str_rev s)).

Fixpoint count_char (c : ascii) (s : string) : nat :=
  match s with
  | EmptyString => 0
  | String a s => (if Ascii.eqb a c then 1 else 0) + count_char c s
  end.

Definition is_digit (a : ascii) : bool :=
  (48 <=? Z.of_nat (nat_of_ascii a)) && (Z.of_nat (nat_of_ascii a) <=? 57).

(** [{:08x}]: at least eight hexadecimal digits *)
Fixpoint hexn (n : nat) (z : Z) : string :=
  match n with
  | O => EmptyString
  | S n => (hexn n (z / 16) ++ String (hex_digit (z mod 16)) EmptyString)%string
  end.
Definition fmt_08x (z : Z) : string := hexn (Nat.max 8 (Z.to_nat (Z.log2 z / 4 + 1))) z.

Definition newline : string := String (ascii_of_nat 10) EmptyString.
Definition quote : string := String (ascii_of_nat 34) EmptyString.
Definition quoted (s : string) : string := (quote ++ s ++ quote)%string.

(** ** Endpoints *)

Definition gateway_http_from_tls_endpoint (tls_endpoint : string) : string :=
  let s := trim tls_endpoint in
  if starts_with "http://" s || starts_with "https://" s then
    let after_scheme :=
      match strip_prefix "http://" s with
      | Some r => r
      | None => match strip_prefix "https://" s with Some r => r | None => s end
      end in
    let host := before ":"%char after_scheme in
    ("http://" ++ (if String.eqb host "" then before "/"%char after_scheme else host) ++ ":8080")%string
  else ("http://" ++ before ":"%char s ++ ":8080")%string.

(** The environment variables [RENODE_GATEWAY_HOST] and [RENODE_GATEWAY_PORT] *)
Record renode_env := mkRenodeEnv {
  env_gateway_host : option string;
  env_gateway_port : option string;
}.

Definition nodeport_endpoint (env : renode_env) : string :=
  (default "192.168.1.1" (env_gateway_host env) ++ ":" ++ default "30443" (env_gateway_port env))%string.

Definition is_cluster_ip (s : string) : bool :=
  starts_with "10.43." s ||
  (ends_with ".svc.cluster.local" (before ":"%char s) || ends_with ".wasmbed" (before ":"%char s)).

Definition translate_to_nodeport_endpoint (env : renode_env) (endpoint : string) : string :=
  let s := trim endpoint in
  if is_cluster_ip s then nodeport_endpoint env else s.

(** ** Boards *)

Inductive McuType :=
| Stm32F746gDisco | FrdmK64f
| Esp32DevkitC
| Stm32F4Disco | Nrf52840DK
| RenodeArduinoNano33Ble | RenodeStm32F4Discovery | Mps2An385
| LinuxArm64 | LinuxX86_64 | LinuxRiscV.

#[export] Instance mcu_eq_dec : EqDecision McuType.
Proof. solve_decision. Defined.

Definition is_emulated (m : McuType) : bool :=
  match m with LinuxArm64 | LinuxX86_64 | LinuxRiscV => false | _ => true end.

Definition renode_platform (m : McuType) : string :=
  match m with
  | Stm32F746gDisco => "stm32f7_discovery-bb"
  | FrdmK64f => "frdm_k64f"
  | Esp32DevkitC => "esp32"
  | Stm32F4Disco => "stm32f4_discovery"
  | Nrf52840DK => "nrf52840dk_nrf52840"
  | RenodeArduinoNano33Ble => "arduino_nano_33_ble"
  | RenodeStm32F4Discovery => "stm32f4_discovery"
  | Mps2An385 => "arduino_nano_33_ble"
  | LinuxArm64 | LinuxX86_64 | LinuxRiscV => ""
  end.

Definition cpu_architecture (m : McuType) : string :=
  match m with
  | Stm32F746gDisco => "cortex-m7"
  | FrdmK64f | Stm32F4Disco | Nrf52840DK | RenodeArduinoNano33Ble | RenodeStm32F4Discovery => "cortex-m4"
  | Esp32DevkitC => "xtensa-lx6"
  | Mps2An385 => "cortex-m3"
  | LinuxArm64 => "aarch64"
  | LinuxX86_64 => "x86_64"
  | LinuxRiscV => "riscv64"
  end.

Definition memory_size (m : McuType) : string :=
  match m with
  | Stm32F746gDisco => "320K"
  | FrdmK64f => "256K"
  | Esp32DevkitC => "520K"
  | Nrf52840DK | RenodeArduinoNano33Ble => "256K"
  | Stm32F4Disco | RenodeStm32F4Discovery => "192K"
  | Mps2An385 => "512K"
  | LinuxArm64 | LinuxX86_64 | LinuxRiscV => "unknown"
  end.

Definition display_name (m : McuType) : string :=
  match m with
  | Stm32F746gDisco => "STM32F746G Discovery (Ethernet)"
  | FrdmK64f => "FRDM-K64F (Ethernet)"
  | Esp32DevkitC => "ESP32 DevKitC (WiFi)"
  | Stm32F4Disco => "STM32F4 Discovery"
  | Nrf52840DK => "nRF52840 DK (BLE)"
  | RenodeArduinoNano33Ble => "Arduino Nano 33 BLE (Renode)"
  | RenodeStm32F4Discovery => "STM32F4 Discovery (Renode)"
  | Mps2An385 => "ARM MPS2-AN385 (Legacy)"
  | LinuxArm64 => "Linux ARM64 (native)"
  | LinuxX86_64 => "Linux x86_64 (native)"
  | LinuxRiscV => "Linux RISC-V (native)"
  end.

Definition rust_hal_crate (m : McuType) : option string :=
  match m with
  | Stm32F746gDisco => Some "stm32f7xx-hal"
  | Stm32F4Disco | RenodeStm32F4Discovery => Some "stm32f4xx-hal"
  | FrdmK64f => Some "kinetis-hal"
  | Nrf52840DK | RenodeArduinoNano33Ble => Some "nrf52840-hal"
  | Esp32DevkitC => Some "esp32-hal"
  | Mps2An385 | LinuxArm64 | LinuxX86_64 | LinuxRiscV => None
  end%string.

(** [McuType::get_firmware_path], relative to the workspace *)
Definition mcu_firmware_path (m : McuType) : string :=
  match m with
  | Stm32F746gDisco => "build/stm32f746g_disco/zephyr/zephyr.elf"
  | FrdmK64f => "build/frdm_k64f/zephyr/zephyr.elf"
  | Esp32DevkitC => "build/esp32_devkitc_wroom/zephyr/zephyr.elf"
  | Stm32F4Disco => "build/stm32f4/zephyr/zephyr.elf"
  | Nrf52840DK => "build/nrf52840dk/nrf52840/zephyr/zephyr.elf"
  | RenodeArduinoNano33Ble => "build/arduino_nano_33_ble/zephyr/zephyr.elf"
  | RenodeStm32F4Discovery => "build/stm32f4_discovery/zephyr/zephyr.elf"
  | Mps2An385 => "build/mps2_an385/zephyr/zephyr.elf"
  | LinuxArm64 | LinuxX86_64 | LinuxRiscV => ""
  end.

Definition get_uart_name (m : McuType) : string :=
  match m with
  | Stm32F746gDisco => "usart1"
  | Stm32F4Disco | RenodeStm32F4Discovery => "usart2"
  | FrdmK64f | Nrf52840DK | RenodeArduinoNano33Ble | Esp32DevkitC | Mps2An385 => "uart0"
  | LinuxArm64 | LinuxX86_64 | LinuxRiscV => ""
  end.

Definition all_types : list McuType :=
  [Stm32F746gDisco; FrdmK64f; Esp32DevkitC; Stm32F4Disco; Nrf52840DK; RenodeArduinoNano33Ble;
   RenodeStm32F4Discovery; LinuxArm64; LinuxX86_64; LinuxRiscV].

Definition has_ethernet (m : McuType) : bool :=
  match m with Stm32F746gDisco | FrdmK64f | LinuxArm64 | LinuxX86_64 | LinuxRiscV => true | _ => false end.
Definition has_wifi (m : McuType) : bool := match m with Esp32DevkitC => true | _ => false end.
Definition has_network (m : McuType) : bool := has_ethernet m || has_wifi m.

(** The names of [spec.mcuType] as [start_device] reads them *)
Definition mcu_of_crd (name : option string) : McuType :=
  match default "Stm32F746gDisco" name with
  | "FrdmK64f" => FrdmK64f
  | "Esp32DevkitC" => Esp32DevkitC
  | "Nrf52840DK" => Nrf52840DK
  | "Stm32F4Disco" => Stm32F4Disco
  | "RenodeArduinoNano33Ble" => RenodeArduinoNano33Ble
  | "RenodeStm32F4Discovery" => RenodeStm32F4Discovery
  | "Mps2An385" => Mps2An385
  | "LinuxArm64" | "linux_arm64" => LinuxArm64
  | "LinuxX86_64" | "linux_x86_64" => LinuxX86_64
  | "LinuxRiscV" | "linux_riscv" => LinuxRiscV
  | _ => Stm32F746gDisco
  end%string.

(** The firmware image, when it exists under the workspace. *)
Section Firmware.
Variable exists_file : string -> bool.

Inductive firmware_error := FirmwareNotFound (message : string) | FirmwareUnsupported.

Definition get_firmware_path (workspace : string) (m : McuType) : result firmware_error string :=
  let join p := (workspace ++ "/" ++ p)%string in
  let nrf52840 := join "build/nrf52840dk/nrf52840/zephyr/zephyr.elf" in
  let stm32f4 := join "build/stm32f4/zephyr/zephyr.elf" in
  let check what path := if exists_file path then Ok path
    else Err (FirmwareNotFound ("Zephyr firmware not found for " ++ what ++ ". Expected: " ++ path)) in
  match m with
  | Stm32F746gDisco => check "STM32F746G Discovery" (join (mcu_firmware_path m))
  | FrdmK64f => check "FRDM-K64F" (join (mcu_firmware_path m))
  | Esp32DevkitC => check "ESP32 DevKitC" (join (mcu_firmware_path m))
  | Nrf52840DK | Stm32F4Disco => check (display_name m) (join (mcu_firmware_path m))
  | RenodeArduinoNano33Ble =>
      if exists_file nrf52840 then Ok nrf52840
      else Err (FirmwareNotFound
        ("Zephyr firmware not found for nRF52840. Expected: " ++ nrf52840 ++ " or " ++ nrf52840))
  | RenodeStm32F4Discovery => check "STM32F4" stm32f4
  | Mps2An385 => check "MPS2-AN385" nrf52840
  | LinuxArm64 | LinuxX86_64 | LinuxRiscV => Err FirmwareUnsupported
  end%string.
End Firmware.

(** ** Identity *)

Definition WASMBED_RENODE_CONTAINER_NAME : string := "wasmbed-renode".
Definition WASMBED_FIRMWARE_VOLUME : string := "wasmbed-firmware-store".
Definition RENODE_IMAGE : string := "antmicro/renode:nightly".
Definition DEVICE_ENDPOINT_ADDR : Z := 0x20001000.
Definition DEVICE_KEY_ADDR : Z := 0x20002000.
Definition DEVICE_KEY_LEN : Z := 128.
Definition DEVICE_MAC_ADDR : Z := 0x20002100.
Definition DEVICE_CERT_ADDR : Z := 0x20006000.
Definition DEVICE_PRIVKEY_ADDR : Z := 0x20004000.
Definition DEVICE_CA_ADDR : Z := 0x20005000.

(** The first 16 bytes of the id. In the source, an id whose 16th byte is
    inside a character panics. *)
Definition renode_container_name (device_id : string) : string :=
  (WASMBED_RENODE_CONTAINER_NAME ++ "-" ++ String.substring 0 16 device_id)%string.

Section Identity.
Context {H : Sha256}.

Definition device_digest (device_id : string) : list byte := sha256 (str_bytes device_id).

Definition digest_byte (device_id : string) (i : nat) : byte := nth i (device_digest device_id) Byte.x00.

Definition device_tap_name (device_id : string) : string :=
  let d := digest_byte device_id in
  ("wtap-" ++ hex2 (d 0%nat) ++ hex2 (d 1%nat) ++ hex2 (d 2%nat) ++ hex2 (d 3%nat))%string.

Definition device_mac_address (device_id : string) : string :=
  let d := digest_byte device_id in
  ("02:" ++ hex2 (d 0%nat) ++ ":" ++ hex2 (d 1%nat) ++ ":" ++ hex2 (d 2%nat) ++ ":" ++ hex2 (d 3%nat) ++ ":" ++
   hex2 (d 4%nat))%string.

Definition device_mac_bytes (device_id : string) : list byte :=
  let d := digest_byte device_id in [Byte.x02; d 0%nat; d 1%nat; d 2%nat; d 3%nat; d 4%nat].

Definition ethernet_setup_commands (m : McuType) (device_id : string) : string :=
  if has_ethernet m then
    ("emulation CreateSwitch " ++ quoted "ethernet_switch" ++ newline ++
     "emulation CreateTap " ++ quoted (device_tap_name device_id) ++ " " ++ quoted "ethernet_tap" ++ newline ++
     "sysbus.ethernet MAC " ++ quoted (device_mac_address device_id) ++ newline ++
     "connector Connect sysbus.ethernet ethernet_switch" ++ newline ++
     "connector Connect host.ethernet_tap ethernet_switch" ++ newline ++
     "host.ethernet_tap Start")%string
  else EmptyString.
End Identity.

(** ** Writing a blob into the machine's memory *)

(** [bytes.chunks(4)] *)
Fixpoint chunks4 (bs : list byte) : list (list byte) :=
  match bs with
  | [] => []
  | a :: b :: c :: d :: r => [a; b; c; d] :: chunks4 r
  | r => [r]
  end.

(** [for (j, &byte) in chunk.iter().enumerate() { word |= (byte as u32) << (j * 8) }] *)
Fixpoint chunk_word (j : Z) (word : Z) (chunk : list byte) : Z :=
  match chunk with
  | [] => word
  | b :: chunk => chunk_word (j + 1) (Z.lor word (Z.shiftl (byte_val b) (j * 8))) chunk
  end.

Definition write_line (addr value : Z) : string :=
  ("sysbus WriteDoubleWord 0x" ++ fmt_08x addr ++ " 0x" ++ fmt_08x value)%string.

(** The lines for the chunks from number [i] on. *)
Fixpoint chunk_lines (base i : Z) (cs : list (list byte)) : string :=
  match cs with
  | [] => EmptyString
  | c :: cs => (newline ++ write_line (wrap32 (base + 4 + i * 4)) (chunk_word 0 0 c) ++ chunk_lines base (i + 1) cs)%string
  end.

Definition renode_write_blob (base : Z) (bytes : list byte) : string :=
  (write_line base (zlen bytes) ++ chunk_lines base 0 (chunks4 bytes))%string.

(** ** The start-up script *)

Section Script.
Context {H : Sha256}.
(** [std::fs::read] in the identity directory: a file by its name *)
Variable identity : string -> option (list byte).
(** [kubectl get .. jsonpath={.spec.publicKey}], trimmed; [None] when it fails *)
Variable crd_public_key : string -> option string.
(** The two base64 engines *)
Variable decode_url_safe decode_standard : string -> option (list byte).

Definition device_identity_file (device_id extension : string) : option (list byte) :=
  match identity (device_id ++ "." ++ extension)%string with
  | Some [] => None
  | r => r
  end.

Definition usable_key (bs : list byte) : bool := negb (bool_decide (bs = [])) && (zlen bs <=? DEVICE_KEY_LEN).

(** The decoded key of the CRD, by the first engine that yields a usable one. *)
Definition crd_key_bytes (device_id : string) : option (list byte) :=
  match crd_public_key device_id with
  | None | Some EmptyString => None
  | Some key_b64 =>
      let usable d := match d key_b64 with Some bs => if usable_key bs then Some bs else None | None => None end in
      match usable decode_url_safe with Some bs => Some bs | None => usable decode_standard end
  end.

Definition device_public_key_bytes (device_id : string) : list byte * bool :=
  match crd_key_bytes device_id with
  | Some bs => (bs, true)
  | None => match device_identity_file device_id "spki" with
            | Some spki => (spki, false)
            | None => ([], false)
            end
  end.

Definition blob_block (addr : Z) (o : option (list byte)) : string :=
  match o with Some bs => (newline ++ renode_write_blob addr bs)%string | None => EmptyString end.

Definition fleet_ca : option (list byte) := match identity "ca.der" with Some [] => None | r => r end.

Definition device_credential_writes (device_id : string) : string :=
  (blob_block DEVICE_CERT_ADDR (device_identity_file device_id "crt") ++
   blob_block DEVICE_PRIVKEY_ADDR (device_identity_file device_id "key") ++
   blob_block DEVICE_CA_ADDR fleet_ca)%string.

(** Everything [build_resc_script] writes into memory. *)
Definition memory_writes (device_id gateway_endpoint : string) : string :=
  (renode_write_blob DEVICE_ENDPOINT_ADDR (str_bytes gateway_endpoint) ++ newline ++
   renode_write_blob DEVICE_KEY_ADDR (device_public_key_bytes device_id).1 ++ newline ++
   renode_write_blob DEVICE_MAC_ADDR (device_mac_bytes device_id) ++ newline ++
   device_credential_writes device_id ++ newline)%string.

Definition pc_sp_commands (m : McuType) : string :=
  if bool_decide (m = RenodeArduinoNano33Ble)
  then ("sysbus.cpu PC 0x866b" ++ newline ++ "sysbus.cpu SP 0x20020000" ++ newline)%string
  else EmptyString.

Definition script_head (m : McuType) (device_id elf : string) : string :=
  ("using sysbus" ++ newline ++
   "mach create " ++ quoted device_id ++ newline ++
   "machine LoadPlatformDescription @platforms/boards/" ++ renode_platform m ++ ".repl" ++ newline ++
   "sysbus." ++ get_uart_name m ++ " CreateFileBackend @/tmp/uart-" ++ device_id ++ ".log true" ++ newline ++
   "sysbus LoadELF @" ++ elf ++ newline)%string.

Definition build_resc_script (m : McuType) (device_id gateway_endpoint elf : string) : string :=
  (script_head m device_id elf ++
   (if String.eqb (ethernet_setup_commands m device_id) "" then EmptyString
    else ethernet_setup_commands m device_id ++ newline) ++
   memory_writes device_id gateway_endpoint ++
   pc_sp_commands m ++ "logLevel 3" ++ newline ++ "start" ++ newline)%string.

(** The monitor commands for a Renode that already runs: the machine is
    started before its memory is written. *)
Definition build_renode_commands_string (m : McuType) (id device_id gateway_endpoint elf : string) : string :=
  let ethernet :=
    if has_ethernet m then ethernet_setup_commands m device_id
    else if has_wifi m then "# WiFi configuration for ESP32 (if supported)" else EmptyString in
  let pc_sp := if bool_decide (m = RenodeArduinoNano33Ble)
    then (newline ++ "sysbus.cpu PC 0x866b" ++ newline ++ "sysbus.cpu SP 0x20020000")%string else EmptyString in
  ("mach add " ++ quoted id ++ newline ++
   "include @platforms/boards/" ++ renode_platform m ++ ".repl" ++ newline ++
   "showAnalyzer sysbus." ++ get_uart_name m ++ newline ++
   "sysbus LoadELF " ++ quoted elf ++ newline ++
   "mach set " ++ quoted id ++ newline ++
   (if String.eqb ethernet "" then EmptyString else newline ++ trim ethernet) ++ pc_sp ++ newline ++
   "logLevel -1" ++ newline ++ "start" ++ newline ++
   renode_write_blob DEVICE_ENDPOINT_ADDR (str_bytes gateway_endpoint) ++ newline ++
   renode_write_blob DEVICE_KEY_ADDR (device_public_key_bytes device_id).1 ++ newline ++
   renode_write_blob DEVICE_MAC_ADDR (device_mac_bytes device_id) ++
   device_credential_writes device_id)%string.
End Script.
