(* ===== verification/RenodeProofs.v ===== *)
(** * What an emulated device finds in its memory

    The script of [build_resc_script] writes the endpoint, the key, the MAC
    address and the credentials with the monitor command
    [sysbus WriteDoubleWord]; the firmware ([zephyr-app/src/wasmbed_protocol.c],
    [zephyr-app/src/network_handler.c]) reads them back as length-prefixed blobs.
    The memory of the emulated machine is a parameter with the documented effect
    of that command. *)

From S2P Require Import Prelude.
From S2P Require Import RustStd.
From S2P Require Import Text.
From S2P Require Import Externals.
From S2P Require Import Base64.
From S2P Require Import Renode.
From Stdlib Require Import Strings.Ascii.
Local Open Scope Z_scope.

(** ** The emulator *)

Class Emulator (M : Type) := {
  (** one line of a script *)
  monitor : string -> M -> M;
  ram : M -> Z -> byte;
}.

Class EmulatorLaws {M} (E : Emulator M) : Prop := {
  (** a 32-bit little-endian store *)
  write_ram a v m x : 0 <= a < 2 ^ 32 -> 0 <= v < 2 ^ 32 ->
    ram (monitor (write_line a v) m) x =
      if (a <=? x) && (x <? a + 4) then byte_of (v / 256 ^ (x - a)) else ram m x;
  blank_ram m x : ram (monitor EmptyString m) x = ram m x;
}.

(** A script is executed line by line. *)
Fixpoint split_lines (s : string) : list string :=
  match s with
  | EmptyString => [EmptyString]
  | String c s =>
      if Ascii.eqb c (ascii_of_nat 10) then EmptyString :: split_lines s
      else match split_lines s with l :: ls => String c l :: ls | [] => [String c EmptyString] end
  end.

Definition run_lines {M} `{Emulator M} (ls : list string) (m : M) : M := foldl (fun m l => monitor l m) m ls.
Definition run_script {M} `{Emulator M} (s : string) (m : M) : M := run_lines (split_lines s) m.

(** ** The firmware's side *)

Definition mem_word (mem : Z -> byte) (addr : Z) : Z :=
  le_value [mem addr; mem (addr + 1); mem (addr + 2); mem (addr + 3)].

Definition mem_bytes (mem : Z -> byte) (addr len : Z) : list byte :=
  map (fun i => mem (addr + Z.of_nat i)) (seq 0 (Z.to_nat len)).

Definition read_injected_blob (mem : Z -> byte) (addr out_size : Z) : option (list byte) :=
  let len := mem_word mem addr in
  if (len =? 0) || (out_size <? len) then None else Some (mem_bytes mem (addr + 4) len).

(** [gateway_endpoint] has 64 bytes, one of them for the terminator. *)
Definition read_gateway_endpoint (mem : Z -> byte) : option (list byte) :=
  let len := mem_word mem DEVICE_ENDPOINT_ADDR in
  if (len =? 0) || (64 <=? len) then None else Some (mem_bytes mem (DEVICE_ENDPOINT_ADDR + 4) len).

Definition read_injected_mac (mem : Z -> byte) : option (list byte) :=
  if mem_word mem DEVICE_MAC_ADDR =? 6 then Some (mem_bytes mem (DEVICE_MAC_ADDR + 4) 6) else None.

(** ** Lines *)

Definition plain (s : string) : bool := all_chars (fun c => negb (Ascii.eqb c (ascii_of_nat 10))) s.

Lemma split_lines_ne s : split_lines s <> [].
Proof. destruct s as [|c s]; simpl; [done|]. destruct (Ascii.eqb c _); [done|]. by destruct (split_lines s). Qed.

Lemma split_plain s : plain s = true -> split_lines s = [s].
Proof.
  unfold plain. induction s as [|c s IH]; simpl; [done|]. intros [Hc Hs]%andb_true_iff.
  apply negb_true_iff in Hc. rewrite Hc, (IH Hs). done.
Qed.

Lemma split_lines_app a b : split_lines (a ++ newline ++ b)%string = split_lines a ++ split_lines b.
Proof.
  induction a as [|c a IH]; [done|].
  change (String c a ++ newline ++ b)%string with (String c (a ++ newline ++ b)). cbn [split_lines].
  destruct (Ascii.eqb c (ascii_of_nat 10)); rewrite IH; [done|].
  pose proof (split_lines_ne a) as Hne. by destruct (split_lines a).
Qed.

Lemma hex_digit_plain z : negb (Ascii.eqb (hex_digit z) (ascii_of_nat 10)) = true.
Proof. unfold hex_digit. by repeat case_match. Qed.

Lemma hexn_plain n z : plain (hexn n z) = true.
Proof.
  revert z. induction n as [|n IH]; intros z; [done|]. unfold plain in *. cbn [hexn].
  rewrite all_chars_app, IH. cbn [all_chars]. by rewrite hex_digit_plain.
Qed.

Lemma write_line_plain a v : plain (write_line a v) = true.
Proof.
  unfold write_line, fmt_08x, plain. rewrite !all_chars_app. fold (plain (hexn (Nat.max 8 (Z.to_nat (Z.log2 a / 4 + 1))) a)).
  fold (plain (hexn (Nat.max 8 (Z.to_nat (Z.log2 v / 4 + 1))) v)). by rewrite !hexn_plain.
Qed.

Lemma string_app_nil (s : string) : (s ++ "")%string = s.
Proof. induction s as [|c s IH]; [done|]. change (String c (s ++ "") = String c s). by rewrite IH. Qed.

(** The lines of a blob. *)
Fixpoint chunk_line_list (base i : Z) (cs : list (list byte)) : list string :=
  match cs with
  | [] => []
  | c :: cs => write_line (wrap32 (base + 4 + i * 4)) (chunk_word 0 0 c) :: chunk_line_list base (i + 1) cs
  end.

Lemma split_chunk_lines w base i cs :
  plain w = true -> split_lines (w ++ chunk_lines base i cs)%string = w :: chunk_line_list base i cs.
Proof.
  revert w i. induction cs as [|c cs IH]; intros w i Hw; cbn [chunk_lines chunk_line_list].
  - rewrite string_app_nil. by apply split_plain.
  - rewrite split_lines_app, IH by apply write_line_plain. by rewrite split_plain.
Qed.

Lemma split_blob base bs :
  split_lines (renode_write_blob base bs) = write_line base (zlen bs) :: chunk_line_list base 0 (chunks4 bs).
Proof. apply split_chunk_lines, write_line_plain. Qed.

(** ** Words *)

Lemma chunk_word_acc c j acc :
  0 <= j -> 0 <= acc < 2 ^ (8 * j) -> chunk_word j acc c = acc + 2 ^ (8 * j) * le_value c.
Proof.
  revert j acc. induction c as [|b c IH]; intros j acc Hj Ha; cbn [chunk_word].
  { rewrite (eq_refl : le_value [] = 0). lia. }
  pose proof (byte_val_range b) as Hb.
  assert (0 < 2 ^ (8 * j)) as Hp by (apply Z.pow_pos_nonneg; lia).
  assert (2 ^ (8 * (j + 1)) = 2 ^ (8 * j) * 256) as E8.
  { replace (8 * (j + 1)) with (8 * j + 8) by lia. rewrite Z.pow_add_r by lia. done. }
  assert (Z.land acc (Z.shiftl (byte_val b) (8 * j)) = 0) as Hdisj.
  { apply Z.bits_inj'. intros n Hn. rewrite Z.land_spec, Z.shiftl_spec, Z.bits_0 by lia.
    destruct (Z.ltb_spec n (8 * j)).
    - rewrite (Z.testbit_neg_r (byte_val b)) by lia. apply andb_false_r.
    - rewrite <- (Z.mod_small acc (2 ^ (8 * j))) by lia. rewrite Z.mod_pow2_bits_high by lia. done. }
  assert (Z.lor acc (Z.shiftl (byte_val b) (j * 8)) = acc + 2 ^ (8 * j) * byte_val b) as E.
  { replace (j * 8) with (8 * j) by lia.
    rewrite <- Z.lxor_lor, <- Z.add_nocarry_lxor.
    - rewrite Z.shiftl_mul_pow2 by lia. lia.
    - done.
    - done. }
  rewrite E, IH by nia. rewrite E8. rewrite (eq_refl : le_value (b :: c) = byte_val b + 256 * le_value c). lia.
Qed.

Lemma chunk_word_le c : chunk_word 0 0 c = le_value c.
Proof. rewrite chunk_word_acc by (simpl; lia). change (2 ^ (8 * 0)) with 1. lia. Qed.

(** The bytes of a little-endian value. *)
Lemma le_value_nth c k : (k < length c)%nat -> byte_of (le_value c / 256 ^ Z.of_nat k) = nth k c Byte.x00.
Proof.
  revert k. induction c as [|b c IH]; intros k Hk; simpl in Hk; [lia|].
  rewrite (eq_refl : le_value (b :: c) = byte_val b + 256 * le_value c).
  pose proof (byte_val_range b). destruct k as [|k]; cbn [nth].
  - change (256 ^ Z.of_nat 0) with 1. rewrite Z.div_1_r. apply byte_val_inj. rewrite byte_val_of.
    rewrite (Z.mul_comm 256), Z.mod_add by lia. by rewrite Z.mod_small.
  - rewrite <- (IH k) by lia. f_equal.
    rewrite Nat2Z.inj_succ, Z.pow_succ_r by lia. rewrite <- Z.div_div by lia. f_equal.
    rewrite (Z.mul_comm 256), Z.div_add by lia. rewrite Z.div_small by lia. lia.
Qed.

(** ** Blobs in memory *)

Section Memory.
Context {M : Type} {E : Emulator M} {L : EmulatorLaws E}.

Lemma run_lines_app ls1 ls2 m : run_lines (ls1 ++ ls2) m = run_lines ls2 (run_lines ls1 m).
Proof. apply foldl_app. Qed.

Lemma run_lines_cons l ls m : run_lines (l :: ls) m = run_lines ls (monitor l m).
Proof. done. Qed.

(** One chunk of at most four bytes. *)
Lemma write_chunk a c m :
  0 <= a < 2 ^ 32 -> (length c <= 4)%nat ->
  (forall x, ~ (a <= x < a + 4) -> ram (monitor (write_line a (chunk_word 0 0 c)) m) x = ram m x) /\
  (forall k, (k < length c)%nat ->
    ram (monitor (write_line a (chunk_word 0 0 c)) m) (a + Z.of_nat k) = nth k c Byte.x00).
Proof.
  intros Ha Hc. pose proof (le_value_nonneg c). pose proof (le_value_bound c).
  assert (256 ^ Z.of_nat (length c) <= 256 ^ 4) by (apply Z.pow_le_mono_r; lia).
  assert (0 <= chunk_word 0 0 c < 2 ^ 32) as Hw by (rewrite chunk_word_le; change (2 ^ 32) with (256 ^ 4); lia).
  split; [intros x Hx | intros k Hk]; rewrite write_ram by done.
  - destruct (Z.leb_spec a x), (Z.ltb_spec x (a + 4)); simpl; done || lia.
  - destruct (Z.leb_spec a (a + Z.of_nat k)), (Z.ltb_spec (a + Z.of_nat k) (a + 4)); simpl; try lia.
    rewrite chunk_word_le. replace (a + Z.of_nat k - a) with (Z.of_nat k) by lia. by apply le_value_nth.
Qed.

(** The bytes of [chunks4 bs] from the address [a] on. *)
Lemma run_chunks bs : forall base i m,
  0 <= base -> 0 <= i -> base + 4 + i * 4 + zlen bs + 4 <= 2 ^ 32 ->
  let a := base + 4 + i * 4 in
  let m' := run_lines (chunk_line_list base i (chunks4 bs)) m in
  (forall x, ~ (a <= x < a + zlen bs + 3) -> ram m' x = ram m x) /\
  (forall k, (k < length bs)%nat -> ram m' (a + Z.of_nat k) = nth k bs Byte.x00).
Proof.
  induction bs as [bs IH] using (well_founded_induction (well_founded_ltof _ length)). intros base i m Hb Hi Hlen.
  destruct bs as [|b0 bs]; [split; [done | simpl; lia]|].
  assert (exists c r, chunks4 (b0 :: bs) = c :: chunks4 r /\ b0 :: bs = c ++ r /\ (0 < length c <= 4)%nat /\
    (r <> [] -> length c = 4%nat)) as (c & r & Ec & Es & Hc & Hfull).
  { destruct bs as [|b1 [|b2 [|b3 r]]]; [exists [b0], []|exists [b0; b1], []|exists [b0; b1; b2], []|exists [b0; b1; b2; b3], r];
      simpl; split_and!; try done; lia. }
  rewrite Ec. rewrite Es in *. cbn [chunk_line_list].
  rewrite zlen_app in *. unfold zlen in Hlen |- *.
  assert (wrap32 (base + 4 + i * 4) = base + 4 + i * 4) as Ew by (apply Z.mod_small; lia). rewrite Ew.
  cbn zeta. rewrite run_lines_cons.
  set (m1 := monitor _ m). destruct (write_chunk (base + 4 + i * 4) c m ltac:(lia) ltac:(lia)) as [Hout Hin].
  fold m1 in Hout, Hin.
  destruct r as [|r0 r].
  { simpl length. rewrite app_nil_r. split; [intros x Hx; apply Hout; lia | done]. }
  specialize (Hfull ltac:(done)).
  destruct (IH (r0 :: r) ltac:(unfold ltof; rewrite length_app; simpl; lia) base (i + 1) m1 Hb ltac:(lia)) as [Hout' Hin'].
  { unfold zlen. lia. }
  cbn zeta in *. unfold zlen in Hout'. split.
  - intros x Hx. rewrite Hout' by lia. apply Hout. lia.
  - intros k Hk. rewrite length_app in Hk. destruct (decide (k < 4)%nat).
    + rewrite Hout' by lia. rewrite Hin by lia. by rewrite app_nth1 by lia.
    + rewrite app_nth2 by lia. rewrite <- Hin' by lia. f_equal. lia.
Qed.

(** What the firmware needs to find. *)
Definition holds_blob (mem : Z -> byte) (base : Z) (bs : list byte) : Prop :=
  mem_word mem base = zlen bs /\ forall k, (k < length bs)%nat -> mem (base + 4 + Z.of_nat k) = nth k bs Byte.x00.

(** Blobs whose memory does not meet. *)
Definition apart (base : Z) (n : Z) (base' : Z) (n' : Z) : Prop :=
  base + 4 + n + 3 <= base' \/ base' + 4 + n' + 3 <= base.

Lemma run_blob base bs m :
  0 <= base -> base + 8 + zlen bs <= 2 ^ 32 ->
  let m' := run_script (renode_write_blob base bs) m in
  holds_blob (ram m') base bs /\ (forall x, ~ (base <= x < base + 4 + zlen bs + 3) -> ram m' x = ram m x).
Proof.
  intros Hb Hlen. unfold run_script. rewrite split_blob. cbn zeta.
  pose proof (zlen_nonneg bs).
  rewrite run_lines_cons. set (m1 := monitor (write_line base (zlen bs)) m).
  assert (forall x, ram m1 x = if (base <=? x) && (x <? base + 4) then byte_of (zlen bs / 256 ^ (x - base)) else ram m x)
    as H1 by (intros x; apply write_ram; lia).
  destruct (run_chunks bs base 0 m1 Hb ltac:(lia) ltac:(lia)) as [Hout Hin]. cbn zeta in *.
  replace (base + 4 + 0 * 4) with (base + 4) in * by lia.
  split; [split; [|exact Hin]|].
  - unfold mem_word. rewrite !Hout by lia. rewrite !H1.
    rewrite <- (le_value_bytes 4 (zlen bs)) at 5 by (change (256 ^ Z.of_nat 4) with (2 ^ 32); lia).
    repeat (rewrite (proj2 (Z.leb_le _ _)) by lia). repeat (rewrite (proj2 (Z.ltb_lt _ _)) by lia). cbn [andb].
    rewrite Z.sub_diag. replace (base + 1 - base) with 1 by lia. replace (base + 2 - base) with 2 by lia.
    replace (base + 3 - base) with 3 by lia. change (256 ^ 0) with 1. change (256 ^ 1) with 256.
    unfold le_bytes. rewrite Z.div_1_r, !Z.div_div by lia. done.
  - intros x Hx. rewrite Hout by lia. rewrite H1.
    destruct (Z.leb_spec base x), (Z.ltb_spec x (base + 4)); simpl; done || lia.
Qed.

(** A later blob leaves an earlier one alone when they are apart. *)
Lemma run_blob_frame base bs base' bs' m :
  0 <= base' -> base' + 8 + zlen bs' <= 2 ^ 32 -> apart base (zlen bs) base' (zlen bs') ->
  holds_blob (ram m) base bs -> holds_blob (ram (run_script (renode_write_blob base' bs') m)) base bs.
Proof.
  intros Hb Hlen Ha [Hw Hc]. destruct (run_blob base' bs' m Hb Hlen) as [_ Hout].
  pose proof (zlen_nonneg bs). pose proof (zlen_nonneg bs').
  assert (forall x, base <= x < base + 4 + zlen bs -> ram (run_script (renode_write_blob base' bs') m) x = ram m x) as Hsame.
  { intros x Hx. apply Hout. unfold apart in Ha. lia. }
  split.
  - rewrite <- Hw. unfold mem_word. by rewrite !Hsame by lia.
  - intros k Hk. rewrite Hsame by (unfold zlen; lia). by apply Hc.
Qed.

Lemma mem_bytes_blob mem base bs : holds_blob mem base bs -> mem_bytes mem (base + 4) (zlen bs) = bs.
Proof.
  intros [_ Hc]. unfold mem_bytes, zlen. rewrite Nat2Z.id. apply (nth_ext _ _ Byte.x00 Byte.x00).
  - by rewrite length_map, length_seq.
  - intros k Hk. rewrite length_map, length_seq in Hk.
    rewrite (nth_indep _ _ (mem (base + 4 + Z.of_nat 0))) by (by rewrite length_map, length_seq).
    rewrite (map_nth (fun i => mem (base + 4 + Z.of_nat i))). rewrite seq_nth by done. by apply Hc.
Qed.

Lemma read_blob_holds mem base bs size :
  holds_blob mem base bs -> bs <> [] -> zlen bs <= size -> read_injected_blob mem base size = Some bs.
Proof.
  intros Hh Hne Hs. unfold read_injected_blob. pose proof Hh as [Hw _]. rewrite Hw.
  assert (zlen bs <> 0) by (destruct bs; [done | unfold zlen; simpl; lia]).
  destruct (Z.eqb_spec (zlen bs) 0), (Z.ltb_spec size (zlen bs)); simpl; try lia. by rewrite mem_bytes_blob.
Qed.

Lemma read_endpoint_holds mem bs :
  holds_blob mem DEVICE_ENDPOINT_ADDR bs -> bs <> [] -> zlen bs <= 63 -> read_gateway_endpoint mem = Some bs.
Proof.
  intros Hh Hne Hs. rewrite <- (read_blob_holds mem DEVICE_ENDPOINT_ADDR bs 63) by done.
  unfold read_gateway_endpoint, read_injected_blob. destruct Hh as [-> _].
  destruct (Z.leb_spec 64 (zlen bs)), (Z.ltb_spec 63 (zlen bs)); done || lia.
Qed.

Lemma read_mac_holds mem bs :
  holds_blob mem DEVICE_MAC_ADDR bs -> zlen bs = 6 -> read_injected_mac mem = Some bs.
Proof.
  intros Hh Hs. unfold read_injected_mac. pose proof Hh as [-> _]. rewrite Hs. cbn [Z.eqb Pos.eqb].
  rewrite <- Hs. by rewrite mem_bytes_blob.
Qed.

Lemma holds_blank m base bs : holds_blob (ram m) base bs -> holds_blob (ram (monitor EmptyString m)) base bs.
Proof.
  intros [Hw Hc]. split.
  - rewrite <- Hw. unfold mem_word. by rewrite !blank_ram.
  - intros k Hk. rewrite blank_ram. by apply Hc.
Qed.

(** ** The script *)

Definition run_block (addr : Z) (o : option (list byte)) (m : M) : M :=
  match o with Some bs => run_script (renode_write_blob addr bs) m | None => m end.

Lemma run_script_app a b m : run_script (a ++ newline ++ b)%string m = run_script b (run_script a m).
Proof. unfold run_script. by rewrite split_lines_app, run_lines_app. Qed.

Lemma run_blob_block pre addr o m :
  run_script (pre ++ blob_block addr o)%string m = run_block addr o (run_script pre m).
Proof. destruct o as [bs|]; simpl; [apply run_script_app | by rewrite string_app_nil]. Qed.

(** A blob or its absence, in a region of its own. *)
Definition fits (addr : Z) (o : option (list byte)) (room : Z) : Prop :=
  0 <= addr /\ addr + 8 + room <= 2 ^ 32 /\ match o with Some bs => bs <> [] /\ zlen bs <= room | None => True end.

Lemma run_block_frame addr o room base bs m :
  fits addr o room -> apart base (zlen bs) addr room ->
  holds_blob (ram m) base bs -> holds_blob (ram (run_block addr o m)) base bs.
Proof.
  intros (Ha & Hroom & Ho) Hap Hh. destruct o as [b|]; simpl; [|done]. destruct Ho as [_ Ho].
  pose proof (zlen_nonneg b). apply run_blob_frame; try done; [lia|]. unfold apart in *. lia.
Qed.

Lemma run_block_holds addr bs room m :
  fits addr (Some bs) room -> holds_blob (ram (run_block addr (Some bs) m)) addr bs.
Proof. intros (Ha & Hroom & _ & Ho). apply run_blob; [done | lia]. Qed.

Lemma run_three_blocks a1 o1 a2 o2 a3 o3 m :
  run_script (blob_block a1 o1 ++ blob_block a2 o2 ++ blob_block a3 o3)%string m =
  run_block a3 o3 (run_block a2 o2 (run_block a1 o1 (monitor EmptyString m))).
Proof.
  rewrite string_app_assoc. change (blob_block a1 o1) with ("" ++ blob_block a1 o1)%string at 1.
  by rewrite !run_blob_block.
Qed.

Section Injection.
Context {H : Sha256}.
Context (identity : string -> option (list byte)) (crd_public_key : string -> option string).
Context (decode_url_safe decode_standard : string -> option (list byte)).
Notation public_key id := (device_public_key_bytes identity crd_public_key decode_url_safe decode_standard id).1.
Notation identity_file := (device_identity_file identity).
Notation ca := (fleet_ca identity).

Lemma run_memory_writes id endpoint m :
  run_script (memory_writes identity crd_public_key decode_url_safe decode_standard id endpoint) m =
  monitor EmptyString
    (run_block DEVICE_CA_ADDR ca (run_block DEVICE_PRIVKEY_ADDR (identity_file id "key")
      (run_block DEVICE_CERT_ADDR (identity_file id "crt")
        (monitor EmptyString
          (run_block DEVICE_MAC_ADDR (Some (device_mac_bytes id)) (run_block DEVICE_KEY_ADDR (Some (public_key id))
            (run_block DEVICE_ENDPOINT_ADDR (Some (str_bytes endpoint)) m))))))).
Proof.
  unfold memory_writes. rewrite !run_script_app. change newline with (newline ++ "")%string at 1.
  rewrite run_script_app. unfold device_credential_writes. by rewrite run_three_blocks.
Qed.

(** Sizes the firmware's buffers can take. *)
Definition sizes_ok (id endpoint : string) : Prop :=
  fits DEVICE_ENDPOINT_ADDR (Some (str_bytes endpoint)) 63 /\
  fits DEVICE_KEY_ADDR (Some (public_key id)) 128 /\
  fits DEVICE_CERT_ADDR (identity_file id "crt") 768 /\
  fits DEVICE_PRIVKEY_ADDR (identity_file id "key") 192 /\
  fits DEVICE_CA_ADDR ca 1024.

(** Follow one blob through the writes that come after it. *)
Ltac keep_blob :=
  repeat first [apply holds_blank
               | eapply run_block_frame; [eassumption | unfold apart, DEVICE_ENDPOINT_ADDR, DEVICE_KEY_ADDR,
                   DEVICE_MAC_ADDR, DEVICE_CERT_ADDR, DEVICE_PRIVKEY_ADDR, DEVICE_CA_ADDR; lia |]
               | by eapply run_block_holds].

(** Every blob survives the writes after it. *)
Lemma identity_read_back (id endpoint : string) (m : M) :
  sizes_ok id endpoint ->
  let mem := ram (run_script (memory_writes identity crd_public_key decode_url_safe decode_standard id endpoint) m) in
  read_gateway_endpoint mem = Some (str_bytes endpoint) /\
  read_injected_blob mem DEVICE_KEY_ADDR 128 = Some (public_key id) /\
  read_injected_mac mem = Some (device_mac_bytes id) /\
  (forall bs, identity_file id "crt" = Some bs -> read_injected_blob mem DEVICE_CERT_ADDR 768 = Some bs) /\
  (forall bs, identity_file id "key" = Some bs -> read_injected_blob mem DEVICE_PRIVKEY_ADDR 192 = Some bs) /\
  (forall bs, ca = Some bs -> read_injected_blob mem DEVICE_CA_ADDR 1024 = Some bs).
Proof.
  intros (Fe & Fk & Fc & Fp & Fa) mem. unfold mem. rewrite run_memory_writes. clear mem.
  assert (fits DEVICE_MAC_ADDR (Some (device_mac_bytes id)) 6) as Fm by (unfold DEVICE_MAC_ADDR; split_and!; try done; lia).
  pose proof Fe as (_ & _ & He & He'). pose proof Fk as (_ & _ & Hk & Hk').
  assert (zlen (device_mac_bytes id) = 6) as Hm by done.
  split_and!.
  - eapply read_endpoint_holds; [|done..]. keep_blob.
  - apply read_blob_holds; [|done..]. keep_blob.
  - apply read_mac_holds; [|done]. keep_blob.
  - intros bs Hbs. rewrite Hbs in *. pose proof Fc as (_ & _ & Hc & Hc').
    apply read_blob_holds; [|done..]. keep_blob.
  - intros bs Hbs. rewrite Hbs in *. pose proof Fp as (_ & _ & Hp & Hp').
    apply read_blob_holds; [|done..]. keep_blob.
  - intros bs Hbs. rewrite Hbs in *. pose proof Fa as (_ & _ & Ha & Ha').
    apply read_blob_holds; [|done..]. keep_blob.
Qed.

(** C26: The script and the firmware agree: after the memory writes of
    [build_resc_script], from any memory, the firmware reads back exactly the
    gateway endpoint, the public key, the MAC address and whichever of
    certificate, private key and CA certificate were provisioned, provided each
    fits the firmware's buffer; no blob runs into another. *)
Theorem firmware_reads_identity (id endpoint : string) (m : M) :
  sizes_ok id endpoint ->
  let mem := ram (run_script (memory_writes identity crd_public_key decode_url_safe decode_standard id endpoint) m) in
  read_gateway_endpoint mem = Some (str_bytes endpoint) /\
  read_injected_blob mem DEVICE_KEY_ADDR 128 = Some (public_key id) /\
  read_injected_mac mem = Some (device_mac_bytes id) /\
  (forall bs, identity_file id "crt" = Some bs -> read_injected_blob mem DEVICE_CERT_ADDR 768 = Some bs) /\
  (forall bs, identity_file id "key" = Some bs -> read_injected_blob mem DEVICE_PRIVKEY_ADDR 192 = Some bs) /\
  (forall bs, ca = Some bs -> read_injected_blob mem DEVICE_CA_ADDR 1024 = Some bs).
Proof. apply identity_read_back. Qed.
End Injection.
End Memory.

(** ** A machine that parses the command *)

Definition hex_value (c : ascii) : option Z :=
  let n := Z.of_nat (nat_of_ascii c) in
  if (48 <=? n) && (n <=? 57) then Some (n - 48)
  else if (97 <=? n) && (n <=? 102) then Some (n - 87) else None.

Fixpoint parse_hex (acc : Z) (s : string) : option Z :=
  match s with
  | EmptyString => Some acc
  | String c s => let* d := hex_value c in parse_hex (acc * 16 + d) s
  end.

Definition parse_write (l : string) : option (Z * Z) :=
  let* r := strip_prefix "sysbus WriteDoubleWord 0x" l in
  let a := before " "%char r in
  let* v := strip_prefix (a ++ " 0x")%string r in
  let* a := parse_hex 0 a in
  let* v := parse_hex 0 v in
  Some (a, v).

Definition store (a v : Z) (m : Z -> byte) : Z -> byte := fun x =>
  if (a <=? x) && (x <? a + 4) then byte_of (v / 256 ^ (x - a)) else m x.

#[export] Instance flat_memory : Emulator (Z -> byte) := {|
  monitor l m := match parse_write l with Some (a, v) => store a v m | None => m end;
  ram m := m;
|}.

Lemma parse_hex_app a b acc :
  parse_hex acc (a ++ b)%string = let* x := parse_hex acc a in parse_hex x b.
Proof. revert acc. induction a as [|c a IH]; intros acc; simpl; [done|]. by destruct (hex_value c). Qed.

Lemma hex_value_digit z : 0 <= z < 16 -> hex_value (hex_digit z) = Some z.
Proof.
  intros Hz. assert (z = 0 \/ z = 1 \/ z = 2 \/ z = 3 \/ z = 4 \/ z = 5 \/ z = 6 \/ z = 7 \/ z = 8 \/ z = 9 \/
    z = 10 \/ z = 11 \/ z = 12 \/ z = 13 \/ z = 14 \/ z = 15) as Hc by lia.
  by repeat destruct Hc as [->|Hc]; subst.
Qed.

Lemma parse_hexn n z acc : 0 <= z < 16 ^ Z.of_nat n -> parse_hex acc (hexn n z) = Some (acc * 16 ^ Z.of_nat n + z).
Proof.
  revert z acc. induction n as [|n IH]; intros z acc Hz; cbn [hexn].
  { change (16 ^ Z.of_nat 0) with 1 in *. simpl. f_equal. lia. }
  rewrite Nat2Z.inj_succ, Z.pow_succ_r in * by lia.
  rewrite parse_hex_app, IH by (split; [apply Z.div_pos | apply Z.div_lt_upper_bound]; lia).
  pose proof (Z.mod_pos_bound z 16 ltac:(lia)). pose proof (Z.div_mod z 16 ltac:(lia)).
  cbn [parse_hex]. rewrite hex_value_digit by done. f_equal. lia.
Qed.

Lemma parse_fmt z : 0 <= z -> parse_hex 0 (fmt_08x z) = Some z.
Proof.
  intros Hz. unfold fmt_08x. rewrite parse_hexn; [f_equal; lia|]. split; [done|].
  destruct (Z.eq_dec z 0) as [->|Hnz].
  { apply Z.pow_pos_nonneg; lia. }
  pose proof (Z.log2_nonneg z). pose proof (Z.log2_spec z ltac:(lia)) as [_ Hlog].
  pose proof (Z.div_mod (Z.log2 z) 4 ltac:(lia)). pose proof (Z.mod_pos_bound (Z.log2 z) 4 ltac:(lia)).
  set (k := Nat.max 8 (Z.to_nat (Z.log2 z / 4 + 1))).
  assert (Z.log2 z / 4 + 1 <= Z.of_nat k) by (unfold k; lia).
  change 16 with (2 ^ 4). rewrite <- Z.pow_mul_r by lia.
  eapply Z.lt_le_trans; [exact Hlog|]. apply Z.pow_le_mono_r; lia.
Qed.

Lemma before_app c a b :
  all_chars (fun x => negb (Ascii.eqb x c)) a = true -> before c (a ++ String c b)%string = a.
Proof.
  induction a as [|x a IH]; simpl; [by rewrite Ascii.eqb_refl|]. intros [Hx Ha]%andb_true_iff.
  apply negb_true_iff in Hx. rewrite Hx. f_equal. by apply IH.
Qed.

Lemma hexn_no_space n z : all_chars (fun x => negb (Ascii.eqb x " "%char)) (hexn n z) = true.
Proof.
  revert z. induction n as [|n IH]; intros z; [done|]. cbn [hexn]. rewrite all_chars_app, IH. cbn [all_chars].
  unfold hex_digit. by repeat case_match.
Qed.

Lemma parse_write_line a v : 0 <= a -> 0 <= v -> parse_write (write_line a v) = Some (a, v).
Proof.
  intros Ha Hv. unfold parse_write, write_line. rewrite strip_prefix_app.
  change (" 0x" ++ fmt_08x v)%string with (String " " ("0x" ++ fmt_08x v))%string.
  rewrite before_app by apply hexn_no_space.
  change (fmt_08x a ++ String " " ("0x" ++ fmt_08x v))%string with (fmt_08x a ++ (" 0x" ++ fmt_08x v))%string.
  rewrite string_app_assoc, strip_prefix_app. by rewrite !parse_fmt.
Qed.

#[export] Instance flat_memory_laws : EmulatorLaws flat_memory.
Proof. split; [|done]. intros a v m x Ha Hv. simpl. by rewrite parse_write_line by lia. Qed.

(** ** Network identity *)

Fixpoint join (sep : string) (l : list string) : string :=
  match l with
  | [] => EmptyString
  | [s] => s
  | s :: l => (s ++ sep ++ join sep l)%string
  end.

Lemma hex2_app_inj a b s t : (hex2 a ++ s)%string = (hex2 b ++ t)%string -> a = b /\ s = t.
Proof.
  intros E. assert (hex2 a = hex2 b /\ s = t) as [E2 ->].
  { unfold hex2 in *. simpl in E. injection E as E1 E2 E3. by rewrite E1, E2. }
  split; [|done]. apply byte_val_inj.
  assert (forall x, parse_hex 0 (hex2 x) = Some (byte_val x)) as P by (by intros []).
  pose proof (P a) as Pa. rewrite E2, P in Pa. congruence.
Qed.

Lemma hex2_inj a b : hex2 a = hex2 b -> a = b.
Proof. intros E. apply (hex2_app_inj a b "" ""). by rewrite !string_app_nil. Qed.

Lemma colon_inj s t : (":" ++ s)%string = (":" ++ t)%string -> s = t.
Proof. change (String ":" s = String ":" t -> s = t). congruence. Qed.

Section NetworkIdentity.
Context {H : Sha256} {HL : Sha256Laws H}.

Lemma digest_prefix n a b :
  (n <= 32)%nat -> (forall i, (i < n)%nat -> digest_byte a i = digest_byte b i) ->
  take n (device_digest a) = take n (device_digest b).
Proof.
  intros Hn Hi. assert (forall x, length (device_digest x) = 32%nat) as Hl by (intros; apply sha256_length).
  apply (nth_ext _ _ Byte.x00 Byte.x00); [by rewrite !length_take, !Hl|].
  intros k Hk. rewrite length_take, Hl in Hk. rewrite !nth_firstn.
  destruct (Nat.ltb_spec k n); [|lia]. by apply Hi.
Qed.

Lemma digest_same n a b i :
  take n (device_digest a) = take n (device_digest b) -> (i < n)%nat -> digest_byte a i = digest_byte b i.
Proof.
  intros E Hi. assert (forall x, digest_byte x i = nth i (take n (device_digest x)) Byte.x00) as P.
  { intros x. rewrite nth_firstn. by destruct (Nat.ltb_spec i n); [|lia]. }
  by rewrite !P, E.
Qed.

(** Network identity: the MAC address Renode is given as text is the one the firmware
    is given as bytes; it is a locally administered unicast address; the TAP name
    fits an interface name; and two devices share a TAP interface only when the
    first four bytes of their digests agree, a MAC address only when the first five
    do. *)
Theorem network_identity (a b : string) :
  device_mac_address a = join ":" (map hex2 (device_mac_bytes a)) /\
  Z.land (byte_val (nth 0 (device_mac_bytes a) Byte.x00)) 3 = 2 /\
  (String.length (device_tap_name a) <= 15)%nat /\
  (device_tap_name a = device_tap_name b <-> take 4 (device_digest a) = take 4 (device_digest b)) /\
  (device_mac_address a = device_mac_address b <-> take 5 (device_digest a) = take 5 (device_digest b)).
Proof.
  split; [reflexivity|]. split; [reflexivity|]. split; [vm_compute; lia|]. split; split; intros E.
  - unfold device_tap_name in E. apply (f_equal (strip_prefix "wtap-")) in E. rewrite !strip_prefix_app in E. apply (inj Some) in E.
    apply hex2_app_inj in E as [E0 E]. apply hex2_app_inj in E as [E1 E]. apply hex2_app_inj in E as [E2 E].
    apply hex2_inj in E. apply digest_prefix; [lia|]. intros [|[|[|[|i]]]] Hi; done || lia.
  - unfold device_tap_name. by rewrite !(digest_same 4 a b _ E) by lia.
  - unfold device_mac_address in E. apply (f_equal (strip_prefix "02:")) in E. rewrite !strip_prefix_app in E.
    apply (inj Some) in E. do 4 (apply hex2_app_inj in E as [? E]; apply colon_inj in E).
    apply hex2_inj in E. apply digest_prefix; [lia|]. intros [|[|[|[|[|i]]]]] Hi; done || lia.
  - unfold device_mac_address. by rewrite !(digest_same 5 a b _ E) by lia.
Qed.
End NetworkIdentity.

(** ** Witnesses *)

Definition sample_identity (file : string) : option (list byte) :=
  match file with
  | "dev-1.spki" => Some (str_bytes "public key")
  | "dev-1.crt" => Some (str_bytes "certificate")
  | "ca.der" => Some (str_bytes "fleet authority")
  | _ => None
  end%string.

Definition sample_writes : string :=
  memory_writes sample_identity (fun _ => None) (fun _ => None) (fun _ => None) "dev-1" "10.0.0.1:30443".

Lemma firmware_reads_identity_witness :
  let mem := ram (run_script sample_writes (fun _ => Byte.xff)) in
  read_gateway_endpoint mem = Some (str_bytes "10.0.0.1:30443") /\
  read_injected_blob mem DEVICE_KEY_ADDR 128 = Some (str_bytes "public key") /\
  read_injected_blob mem DEVICE_CA_ADDR 1024 = Some (str_bytes "fleet authority").
Proof.
  destruct (firmware_reads_identity sample_identity (fun _ => None) (fun _ => None) (fun _ => None)
    "dev-1" "10.0.0.1:30443" (fun _ => Byte.xff)) as (He & Hk & _ & _ & _ & Hc).
  - repeat (split; try done); vm_compute; congruence.
  - split; [exact He|]. split; [exact Hk|]. by apply Hc.
Defined.

Lemma network_identity_witness :
  device_mac_address "dev-1" = join ":" (map hex2 (device_mac_bytes "dev-1")) /\
  (device_tap_name "dev-1" = device_tap_name "dev-2" <->
   take 4 (device_digest "dev-1") = take 4 (device_digest "dev-2")).
Proof. destruct (network_identity (H := toy_sha256) "dev-1" "dev-2") as (Hm & _ & _ & Ht & _). by split. Defined.
