(* ===== verification/FirmwareWamr.v ===== *)
(** * The WAMR layer of the firmware: [zephyr-app/src/wamr_integration.c]

    The tables of modules and instances that the Zephyr firmware keeps around
    the WebAssembly Micro Runtime, one definition per function. The runtime
    itself is the class [Wamr] over the device's world [X]: a pointer it hands
    out is a number, NULL is [None]. *)

From S2P Require Import Prelude.
From S2P Require Import RustStd.

(** [wasm_export.h], and the two switches of the build that the file reads:
    [WASM_ENABLE_LIBC_WASI] and [WASM_ENABLE_INSTRUCTION_METERING]. *)
Class Wamr (X : Type) := {
  libc_wasi : bool;
  instruction_metering : bool;
  wasm_runtime_full_init : Z -> X -> bool * X;
  wasm_runtime_destroy : X -> X;
  wasm_runtime_load : list byte -> X -> option Z * X;
  wasm_runtime_unload : Z -> X -> X;
  wasm_runtime_set_wasi_args : Z -> list string -> X -> X;
  wasm_runtime_instantiate : Z -> Z -> Z -> X -> option Z * X;
  wasm_runtime_deinstantiate : Z -> X -> X;
  wasm_runtime_create_exec_env : Z -> Z -> X -> option Z * X;
  wasm_runtime_destroy_exec_env : Z -> X -> X;
  wasm_runtime_set_instruction_count_limit : Z -> Z -> X -> X;
  wasm_runtime_lookup_function : Z -> string -> X -> option Z;
  wasm_runtime_lookup_wasi_start_function : Z -> X -> option Z;
  wasm_runtime_call_wasm : Z -> Z -> list Z -> X -> bool * X;
  wasm_runtime_get_exception : Z -> X -> option string;
  wasm_runtime_get_wasi_exit_code : Z -> X -> Z;
  wasm_runtime_clear_exception : Z -> X -> X;
}.

Definition WAMR_HEAP_SIZE : Z := 128 * 1024.
Definition MAX_MODULES : nat := 16.
Definition MAX_INSTANCES : nat := 16.
Definition WAMR_INSTRUCTION_LIMIT : Z := 5000000.
Definition WAMR_INSTRUCTION_LIMIT_EXCEPTION_SUBSTR : string := "instruction limit".

Record module_entry_t := mkModuleEntry {
  me_id : Z;
  me_module : option Z;
  me_in_use : bool;
}.

Record instance_entry_t := mkInstanceEntry {
  ie_id : Z;
  ie_instance : option Z;
  ie_exec_env : option Z;
  ie_in_use : bool;
  ie_instruction_limit_hit : bool;
}.

(** The statics of the file. *)
Record wamr := mkWamr {
  wamr_initialized : bool;
  modules : list module_entry_t;
  instances : list instance_entry_t;
  next_module_id : Z;
  next_instance_id : Z;
}.

Definition no_module : module_entry_t := mkModuleEntry 0 None false.
Definition no_instance : instance_entry_t := mkInstanceEntry 0 None None false false.

Definition wamr_statics : wamr :=
  mkWamr false (replicate MAX_MODULES no_module) (replicate MAX_INSTANCES no_instance) 1 1.

(** The search loops: the first slot whose entry passes the test. *)
Definition free_module (m : wamr) : option nat := fst <$> list_find (fun e => me_in_use e = false) (modules m).
Definition free_instance (m : wamr) : option nat := fst <$> list_find (fun e => ie_in_use e = false) (instances m).
Definition find_module (id : Z) (m : wamr) : option (nat * module_entry_t) :=
  list_find (fun e => me_in_use e = true /\ me_id e = id) (modules m).
Definition find_instance (id : Z) (m : wamr) : option (nat * instance_entry_t) :=
  list_find (fun e => ie_in_use e = true /\ ie_id e = id) (instances m).

Definition set_limit_hit (slot : nat) (hit : bool) (m : wamr) : wamr :=
  mkWamr (wamr_initialized m) (modules m)
    (alter (fun e => mkInstanceEntry (ie_id e) (ie_instance e) (ie_exec_env e) (ie_in_use e) hit) slot
       (instances m))
    (next_module_id m) (next_instance_id m).

Section Wamr.
Context {X : Type} `{R : Wamr X}.
Implicit Types (m : wamr) (x : X).

(** [wamr_init]; the answers are those of the C functions: 0 or -1. *)
Definition wamr_init m x : Z * wamr * X :=
  if wamr_initialized m then (0, m, x) else
  match wasm_runtime_full_init WAMR_HEAP_SIZE x with
  | (false, x) => (-1, m, x)
  | (true, x) =>
      (0, mkWamr true (replicate MAX_MODULES no_module) (replicate MAX_INSTANCES no_instance)
            (next_module_id m) (next_instance_id m), x)
  end.

(** [wamr_load_module]: the identifier, or [None] for -1. *)
Definition wamr_load_module (wasm_bytes : list byte) m x : option Z * wamr * X :=
  if negb (wamr_initialized m) then (None, m, x) else
  if zlen wasm_bytes =? 0 then (None, m, x) else
  match free_module m with
  | None => (None, m, x)
  | Some slot =>
      match wasm_runtime_load wasm_bytes x with
      | (None, x) => (None, m, x)
      | (Some module, x) =>
          (Some (next_module_id m),
           mkWamr (wamr_initialized m)
             (<[slot := mkModuleEntry (next_module_id m) (Some module) true]> (modules m))
             (instances m) (wrap32 (next_module_id m + 1)) (next_instance_id m), x)
      end
  end.

Definition STACK_SIZE : Z := 16 * 1024.

(** [wamr_instantiate] *)
Definition wamr_instantiate (module_id : Z) m x : option Z * wamr * X :=
  if negb (wamr_initialized m) then (None, m, x) else
  match find_module module_id m with
  | None | Some (_, mkModuleEntry _ None _) => (None, m, x)
  | Some (_, mkModuleEntry _ (Some module) _) =>
      match free_instance m with
      | None => (None, m, x)
      | Some slot =>
          let x := if libc_wasi then wasm_runtime_set_wasi_args module ["app"%string] x else x in
          match wasm_runtime_instantiate module STACK_SIZE 0 x with
          | (None, x) => (None, m, x)
          | (Some instance, x) =>
              match wasm_runtime_create_exec_env instance STACK_SIZE x with
              | (None, x) => (None, m, wasm_runtime_deinstantiate instance x)
              | (Some exec_env, x) =>
                  let id := next_instance_id m in
                  let m := mkWamr (wamr_initialized m) (modules m)
                             (<[slot := mkInstanceEntry id (Some instance) (Some exec_env) true false]>
                                (instances m))
                             (next_module_id m) (wrap32 (id + 1)) in
                  let x := if instruction_metering
                           then wasm_runtime_set_instruction_count_limit exec_env WAMR_INSTRUCTION_LIMIT x
                           else x in
                  (Some id, m, x)
              end
          end
      end
  end.

(** [exception != NULL && strstr(exception, ...) != NULL] *)
Definition limit_hit (exception : option string) : bool :=
  match exception with
  | Some e => str_contains e WAMR_INSTRUCTION_LIMIT_EXCEPTION_SUBSTR
  | None => false
  end.

(** The two pointers of the first instance of this identifier. *)
Definition live_instance (instance_id : Z) m : option (nat * Z * Z) :=
  match find_instance instance_id m with
  | Some (slot, mkInstanceEntry _ (Some instance) (Some exec_env) _ _) => Some (slot, instance, exec_env)
  | _ => None
  end.

(** A call whose failure is classified by its exception text only. *)
Definition call_and_note (slot : nat) (instance exec_env fn : Z) (args : list Z) m x : Z * wamr * X :=
  match wasm_runtime_call_wasm exec_env fn args x with
  | (false, x) => (-1, set_limit_hit slot (limit_hit (wasm_runtime_get_exception instance x)) m, x)
  | (true, x) => (0, set_limit_hit slot false m, x)
  end.

(** [wamr_call_function] *)
Definition wamr_call_function (instance_id : Z) (function_name : string) (args : list Z) m x : Z * wamr * X :=
  if negb (wamr_initialized m) then (-1, m, x) else
  match live_instance instance_id m with
  | None => (-1, m, x)
  | Some (slot, instance, exec_env) =>
      match wasm_runtime_lookup_function instance function_name x with
      | None => (-1, m, x)
      | Some fn => call_and_note slot instance exec_env fn args m x
      end
  end.

(** The call of [_start]: [proc_exit] surfaces as an exception. *)
Definition call_start (slot : nat) (instance exec_env start : Z) m x : Z * wamr * X :=
  match wasm_runtime_call_wasm exec_env start [] x with
  | (false, x) =>
      let ex := wasm_runtime_get_exception instance x in
      if match ex with Some e => str_contains e "wasi proc exit" | None => false end then
        let exit_code := wasm_runtime_get_wasi_exit_code instance x in
        let x := wasm_runtime_clear_exception instance x in
        let m := set_limit_hit slot false m in
        if exit_code =? 0 then (0, m, x) else (-1, m, x)
      else (-1, set_limit_hit slot (limit_hit ex) m, x)
  | (true, x) => (0, set_limit_hit slot false m, x)
  end.

(** [wamr_call_wasi_start] *)
Definition wamr_call_wasi_start (instance_id : Z) m x : Z * wamr * X :=
  if negb (wamr_initialized m) then (-1, m, x) else
  match live_instance instance_id m with
  | None => (-1, m, x)
  | Some (slot, instance, exec_env) =>
      match (if libc_wasi then wasm_runtime_lookup_wasi_start_function instance x else None) with
      | Some start => call_start slot instance exec_env start m x
      | None =>
          match wasm_runtime_lookup_function instance "run" x with
          | Some run_fn => call_and_note slot instance exec_env run_fn [] m x
          | None => (-1, m, x)
          end
      end
  end.

(** [wamr_last_call_hit_instruction_limit] *)
Definition wamr_last_call_hit_instruction_limit (instance_id : Z) m : bool :=
  match find_instance instance_id m with
  | Some (_, e) => ie_instruction_limit_hit e
  | None => false
  end.

Definition opt_call (f : Z -> X -> X) (p : option Z) x : X :=
  match p with Some p => f p x | None => x end.

(** The loop over the instances that [wamr_unload_all] and [wamr_cleanup]
    share; only the former clears the pointers ([clear]). *)
Fixpoint release_instances (clear : bool) (l : list instance_entry_t) x : list instance_entry_t * X :=
  match l with
  | [] => ([], x)
  | e :: l =>
      let '(e, x) :=
        if ie_in_use e then
          let x := opt_call wasm_runtime_destroy_exec_env (ie_exec_env e) x in
          let x := opt_call wasm_runtime_deinstantiate (ie_instance e) x in
          (mkInstanceEntry (ie_id e) (if clear then None else ie_instance e)
             (if clear then None else ie_exec_env e) false (ie_instruction_limit_hit e), x)
        else (e, x) in
      let '(l, x) := release_instances clear l x in (e :: l, x)
  end.

Fixpoint release_modules (clear : bool) (l : list module_entry_t) x : list module_entry_t * X :=
  match l with
  | [] => ([], x)
  | e :: l =>
      let '(e, x) :=
        if me_in_use e then
          (mkModuleEntry (me_id e) (if clear then None else me_module e) false,
           opt_call wasm_runtime_unload (me_module e) x)
        else (e, x) in
      let '(l, x) := release_modules clear l x in (e :: l, x)
  end.

(** [wamr_unload_all] *)
Definition wamr_unload_all m x : wamr * X :=
  if negb (wamr_initialized m) then (m, x) else
  let '(insts, x) := release_instances true (instances m) x in
  let '(ms, x) := release_modules true (modules m) x in
  (mkWamr true ms insts (next_module_id m) (next_instance_id m), x).

(** [wamr_cleanup] *)
Definition wamr_cleanup m x : wamr * X :=
  if negb (wamr_initialized m) then (m, x) else
  let '(insts, x) := release_instances false (instances m) x in
  let '(ms, x) := release_modules false (modules m) x in
  let x := wasm_runtime_destroy x in
  (mkWamr false ms insts (next_module_id m) (next_instance_id m), x).
End Wamr.
