(* ===== verification/FirmwareWamrProofs.v ===== *)
(** * The tables of the WAMR layer

    [WamrLaws] says what the runtime promises about the objects that are
    alive. The theorems show that the tables of [FirmwareWamr] and the runtime
    never disagree, and that a deployment always finds the module it loaded. *)

From S2P Require Import Prelude.
From S2P Require Import RustStd.
From S2P Require Import FirmwareWamr.

(** ** What the runtime promises *)

Record heap := mkHeap { h_modules : gset Z; h_instances : gset Z; h_envs : gset Z }.
Definition empty_heap : heap := mkHeap ∅ ∅ ∅.

(** The objects that are alive. A constructor returns a pointer that was not
    alive; a destructor is specified for a live pointer only, so a proof that
    uses its law shows that nothing is released twice. *)
Class WamrLaws {X : Type} (R : Wamr X) := {
  live : X -> heap;
  live_full_init n x : live (wasm_runtime_full_init n x).2 = live x;
  live_destroy x : live x = empty_heap -> live (wasm_runtime_destroy x) = empty_heap;
  live_load bs x : let r := wasm_runtime_load bs x in
    match r.1 with
    | Some p => (p ∉ h_modules (live x)) /\
                live r.2 = mkHeap ({[p]} ∪ h_modules (live x)) (h_instances (live x)) (h_envs (live x))
    | None => live r.2 = live x
    end;
  live_unload p x : p ∈ h_modules (live x) ->
    live (wasm_runtime_unload p x) =
      mkHeap (h_modules (live x) ∖ {[p]}) (h_instances (live x)) (h_envs (live x));
  live_wasi_args p a x : live (wasm_runtime_set_wasi_args p a x) = live x;
  live_instantiate p a b x : let r := wasm_runtime_instantiate p a b x in
    match r.1 with
    | Some q => (q ∉ h_instances (live x)) /\
                live r.2 = mkHeap (h_modules (live x)) ({[q]} ∪ h_instances (live x)) (h_envs (live x))
    | None => live r.2 = live x
    end;
  live_deinstantiate p x : p ∈ h_instances (live x) ->
    live (wasm_runtime_deinstantiate p x) =
      mkHeap (h_modules (live x)) (h_instances (live x) ∖ {[p]}) (h_envs (live x));
  live_create_env p a x : let r := wasm_runtime_create_exec_env p a x in
    match r.1 with
    | Some q => (q ∉ h_envs (live x)) /\
                live r.2 = mkHeap (h_modules (live x)) (h_instances (live x)) ({[q]} ∪ h_envs (live x))
    | None => live r.2 = live x
    end;
  live_destroy_env p x : p ∈ h_envs (live x) ->
    live (wasm_runtime_destroy_exec_env p x) =
      mkHeap (h_modules (live x)) (h_instances (live x)) (h_envs (live x) ∖ {[p]});
  live_limit p n x : live (wasm_runtime_set_instruction_count_limit p n x) = live x;
  live_call p f a x : live (wasm_runtime_call_wasm p f a x).2 = live x;
  live_clear p x : live (wasm_runtime_clear_exception p x) = live x;
}.

(** ** Tables that are filled from the front

    No operation frees a single slot, so the entries in use are a prefix of
    the table, in the order of their creation. *)

Section Tables.
Context {A V : Type} (view : A -> option V).
Implicit Types (l : list A) (vs : list V).

Definition table (size : nat) l vs : Prop :=
  (length vs <= size)%nat /\ view <$> l = (Some <$> vs) ++ replicate (size - length vs) None.

Lemma table_used size l vs i v :
  table size l vs -> vs !! i = Some v -> exists e, l !! i = Some e /\ view e = Some v.
Proof.
  intros [_ Hv] Hi. assert (E : (view <$> l) !! i = Some (Some v)).
  { rewrite Hv, lookup_app_l by (rewrite length_fmap; by eapply lookup_lt_Some).
    by rewrite list_lookup_fmap, Hi. }
  rewrite list_lookup_fmap, fmap_Some in E. destruct E as (e & -> & E). by exists e.
Qed.

Lemma table_inv size l vs i e :
  table size l vs -> l !! i = Some e ->
  match view e with
  | Some v => vs !! i = Some v
  | None => (length vs <= i < size)%nat
  end.
Proof.
  intros [Hs Hv] Hi. assert (E : (view <$> l) !! i = Some (view e)) by (by rewrite list_lookup_fmap, Hi).
  rewrite Hv in E. apply lookup_app_Some in E as [E|[Hge E]].
  - rewrite list_lookup_fmap, fmap_Some in E. destruct E as (v & Hvi & ->). done.
  - rewrite length_fmap in *. apply lookup_replicate in E as [-> Hlt]. lia.
Qed.

Lemma table_length size l vs : table size l vs -> length l = size.
Proof.
  intros [Hs Hv]. apply (f_equal length) in Hv.
  rewrite length_fmap, length_app, length_fmap, length_replicate in Hv. lia.
Qed.

(** The search for a free slot finds the end of the prefix. *)
Lemma table_free size l vs (P : A -> Prop) `{forall e, Decision (P e)} :
  (forall e, P e <-> view e = None) -> table size l vs ->
  fst <$> list_find P l = if decide (length vs < size)%nat then Some (length vs) else None.
Proof.
  intros HP Ht. pose proof (table_length _ _ _ Ht) as Hl. case_decide as Hlt.
  - destruct (lookup_lt_is_Some_2 l (length vs)) as [e He]; [lia|].
    assert (Hn : view e = None).
    { pose proof (table_inv _ _ _ _ _ Ht He) as Hi. destruct (view e); [|done].
      apply lookup_lt_Some in Hi. lia. }
    erewrite (proj2 (list_find_Some P l (length vs) e)); [done|].
    split; [done|]. split; [by apply HP|]. intros j y Hj Hjlt Hy. apply HP in Hy.
    pose proof (table_inv _ _ _ _ _ Ht Hj) as Hi. rewrite Hy in Hi. lia.
  - rewrite (proj2 (list_find_None P l)); [done|]. apply Forall_lookup. intros i e Hi Hp.
    apply HP in Hp. pose proof (table_inv _ _ _ _ _ Ht Hi) as Hv. rewrite Hp in Hv. lia.
Qed.

Lemma table_push size l vs e v :
  table size l vs -> (length vs < size)%nat -> view e = Some v ->
  table size (<[length vs := e]> l) (vs ++ [v]).
Proof.
  intros [Hs Hv] Hlt He. split; [rewrite length_app; simpl; lia|].
  rewrite list_fmap_insert, Hv, He, insert_app_r_alt by (by rewrite length_fmap).
  rewrite length_fmap, Nat.sub_diag, fmap_app, <- app_assoc. f_equal.
  rewrite length_app. simpl. replace (size - length vs)%nat with (S (size - (length vs + 1)))%nat by lia.
  done.
Qed.

Lemma table_empty size l : length l = size -> Forall (fun e => view e = None) l -> table size l [].
Proof.
  intros <- Hf. split; [simpl; lia|]. simpl. rewrite Nat.sub_0_r.
  induction Hf as [|e l He Hf IH]; [done|]. simpl. by f_equal.
Qed.

Lemma table_update size l vs i f :
  (forall e, view (f e) = view e) -> table size l vs -> table size (alter f i l) vs.
Proof.
  intros Hf [Hs Hv]. split; [done|]. rewrite <- Hv. clear Hv. revert i.
  induction l as [|e l IH]; intros [|i]; simpl; [done..|by rewrite Hf|f_equal; apply IH].
Qed.

(** The search for an identifier finds its entry. *)
Lemma table_find size l vs i v (key : V -> Z) (P : A -> Prop) `{forall e, Decision (P e)} :
  (forall e, P e <-> exists w, view e = Some w /\ key w = key v) ->
  NoDup (key <$> vs) -> table size l vs -> vs !! i = Some v ->
  exists e, list_find P l = Some (i, e) /\ view e = Some v.
Proof.
  intros HP Hnd Ht Hi. destruct (table_used _ _ _ _ _ Ht Hi) as (e & He & Hv).
  exists e. split; [|done]. apply list_find_Some. split; [done|].
  split; [apply HP; by exists v|]. intros j y Hj Hlt (w & Hw & Hk)%HP.
  pose proof (table_inv _ _ _ _ _ Ht Hj) as Hjw. rewrite Hw in Hjw.
  assert (j = i); [|lia]. eapply (NoDup_lookup _ _ _ (key v) Hnd).
  - by rewrite list_lookup_fmap, Hjw; simpl; rewrite Hk.
  - by rewrite list_lookup_fmap, Hi.
Qed.

Lemma omap_view (l : list A) : omap view l = omap id (view <$> l).
Proof. induction l as [|e l IH]; [done|]. simpl. destruct (view e); simpl; [f_equal|]; exact IH. Qed.

Lemma table_omap size l vs : table size l vs -> omap view l = vs.
Proof.
  intros [_ Hv]. rewrite omap_view, Hv, omap_app. clear Hv.
  assert (omap id (replicate (size - length vs) None) = @nil V) as ->.
  { by induction (size - length vs)%nat. }
  rewrite app_nil_r. induction vs as [|v vs IH]; [done|]. simpl. f_equal. exact IH.
Qed.
End Tables.

(** Identifiers are the last values of a wrapping counter. *)
Definition numbered (next : Z) (ids : list Z) : Prop :=
  forall i id, ids !! i = Some id -> id = wrap32 (next - Z.of_nat (length ids - i)).

Lemma numbered_push next ids : is_u32 next -> numbered next ids -> numbered (wrap32 (next + 1)) (ids ++ [next]).
Proof.
  intros Hn H i id. rewrite length_app, lookup_app_Some. simpl.
  intros [Hi|[Hge Hi]].
  - pose proof (lookup_lt_Some _ _ _ Hi). rewrite (H _ _ Hi). unfold wrap32.
    rewrite Zminus_mod_idemp_l. f_equal. lia.
  - apply list_lookup_singleton_Some in Hi as [Hz <-].
    replace (length ids + 1 - i)%nat with 1%nat by lia.
    unfold wrap32. rewrite Zminus_mod_idemp_l. widths. rewrite Z.mod_small; lia.
Qed.

Lemma numbered_nodup next ids : (length ids <= 16)%nat -> numbered next ids -> NoDup ids.
Proof.
  intros Hl H. apply NoDup_alt. intros i j id Hi Hj.
  pose proof (lookup_lt_Some _ _ _ Hi). pose proof (lookup_lt_Some _ _ _ Hj).
  pose proof (H _ _ Hi) as Ei. pose proof (H _ _ Hj) as Ej. rewrite Ei in Ej. unfold wrap32 in Ej.
  pose proof (Z.div_mod (next - Z.of_nat (length ids - i)) (2 ^ 32)).
  pose proof (Z.div_mod (next - Z.of_nat (length ids - j)) (2 ^ 32)). lia.
Qed.

(** ** The invariant *)

Definition module_view (e : module_entry_t) : option (Z * option Z) :=
  if me_in_use e then Some (me_id e, me_module e) else None.
Definition instance_view (e : instance_entry_t) : option (Z * (option Z * option Z)) :=
  if ie_in_use e then Some (ie_id e, (ie_instance e, ie_exec_env e)) else None.

(** A loaded module is its identifier and its pointer, a running instance has
    two pointers; none of them is NULL. *)
Definition loaded (v : Z * Z) : Z * option Z := (v.1, Some v.2).
Definition running (v : Z * (Z * Z)) : Z * (option Z * option Z) := (v.1, (Some v.2.1, Some v.2.2)).

Definition heap_of (ms : list (Z * Z)) (xs : list (Z * (Z * Z))) : heap :=
  mkHeap (list_to_set ms.*2) (list_to_set xs.*2.*1) (list_to_set xs.*2.*2).

(** The tables are the loaded modules [ms] and the running instances [xs], the
    identifiers come from the counters, and the pointers are exactly the live
    objects of the runtime, each once. *)
Record owns {X} {R : Wamr X} {L : WamrLaws R} (m : wamr) (x : X)
    (ms : list (Z * Z)) (xs : list (Z * (Z * Z))) : Prop := mkOwns {
  own_modules : table module_view MAX_MODULES (modules m) (loaded <$> ms);
  own_instances : table instance_view MAX_INSTANCES (instances m) (running <$> xs);
  own_mids : is_u32 (next_module_id m) /\ numbered (next_module_id m) ms.*1;
  own_iids : is_u32 (next_instance_id m) /\ numbered (next_instance_id m) xs.*1;
  own_distinct : NoDup ms.*2 /\ NoDup xs.*2.*1 /\ NoDup xs.*2.*2;
  own_live : live x = heap_of ms xs;
  own_idle : wamr_initialized m = false -> ms = [] /\ xs = [];
}.

Definition wamr_ok {X} {R : Wamr X} {L : WamrLaws R} (m : wamr) (x : X) : Prop :=
  exists ms xs, owns m x ms xs.

Section Proofs.
Context {X : Type} {R : Wamr X} {L : WamrLaws R}.
Implicit Types (m : wamr) (x : X).

(** An instance [q] of the module [md], with its execution environment [v]. *)
Definition with_wasi_args (md : Z) x : X :=
  if libc_wasi then wasm_runtime_set_wasi_args md ["app"%string] x else x.
Definition metered (v : Z) x : X :=
  if instruction_metering then wasm_runtime_set_instruction_count_limit v WAMR_INSTRUCTION_LIMIT x else x.
Definition instantiated (md q v : Z) (x x' : X) : Prop :=
  exists x2 x3, wasm_runtime_instantiate md STACK_SIZE 0 (with_wasi_args md x) = (Some q, x2) /\
    wasm_runtime_create_exec_env q STACK_SIZE x2 = (Some v, x3) /\ x' = metered v x3.

(** The entry point of an instance is called, without arguments: the start
    function of WASI when the build has it and the module exports one,
    otherwise the export [run]. *)
Inductive started (q v : Z) (x : X) : X -> Prop :=
| started_wasi f b y :
    libc_wasi = true -> wasm_runtime_lookup_wasi_start_function q x = Some f ->
    wasm_runtime_call_wasm v f [] x = (b, y) -> started q v x y
| started_wasi_exit f y :
    libc_wasi = true -> wasm_runtime_lookup_wasi_start_function q x = Some f ->
    wasm_runtime_call_wasm v f [] x = (false, y) -> started q v x (wasm_runtime_clear_exception q y)
| started_run f b y :
    (libc_wasi = true -> wasm_runtime_lookup_wasi_start_function q x = None) ->
    wasm_runtime_lookup_function q "run" x = Some f ->
    wasm_runtime_call_wasm v f [] x = (b, y) -> started q v x y
| started_nothing :
    (libc_wasi = true -> wasm_runtime_lookup_wasi_start_function q x = None) ->
    wasm_runtime_lookup_function q "run" x = None -> started q v x x.

Lemma free_module_ok m x ms xs :
  owns m x ms xs ->
  free_module m = if decide (length ms < MAX_MODULES)%nat then Some (length ms) else None.
Proof.
  intros O. unfold free_module. rewrite (table_free module_view MAX_MODULES _ (loaded <$> ms)).
  - by rewrite length_fmap.
  - intros e. unfold module_view. by destruct (me_in_use e).
  - apply (own_modules _ _ _ _ O).
Qed.

Lemma free_instance_ok m x ms xs :
  owns m x ms xs ->
  free_instance m = if decide (length xs < MAX_INSTANCES)%nat then Some (length xs) else None.
Proof.
  intros O. unfold free_instance. rewrite (table_free instance_view MAX_INSTANCES _ (running <$> xs)).
  - by rewrite length_fmap.
  - intros e. unfold instance_view. by destruct (ie_in_use e).
  - apply (own_instances _ _ _ _ O).
Qed.

Lemma fst_loaded ms : (loaded <$> ms).*1 = ms.*1.
Proof. rewrite <- list_fmap_compose. by apply list_fmap_ext. Qed.
Lemma fst_running xs : (running <$> xs).*1 = xs.*1.
Proof. rewrite <- list_fmap_compose. by apply list_fmap_ext. Qed.

Lemma find_module_ok m x ms xs i id p :
  owns m x ms xs -> ms !! i = Some (id, p) ->
  exists e, find_module id m = Some (i, e) /\ me_module e = Some p.
Proof.
  intros O Hi. unfold find_module.
  destruct (table_find module_view MAX_MODULES (modules m) (loaded <$> ms) i (loaded (id, p)) fst
    (fun e => me_in_use e = true /\ me_id e = id)) as (e & He & Hv).
  - intros e. unfold module_view. destruct (me_in_use e).
    + split; [intros [_ ->]; eexists; by split|]. intros (w & [= <-] & Hk). done.
    + split; [by intros []|]. by intros (w & ? & _).
  - rewrite fst_loaded. destruct (own_mids _ _ _ _ O) as [_ Hn].
    eapply numbered_nodup; [|exact Hn]. pose proof (own_modules _ _ _ _ O) as [Hl _].
    rewrite length_fmap in Hl. rewrite length_fmap. exact Hl.
  - apply (own_modules _ _ _ _ O).
  - by rewrite list_lookup_fmap, Hi.
  - exists e. split; [done|]. unfold module_view, loaded in Hv. destruct (me_in_use e); by simplify_eq/=.
Qed.

Lemma find_instance_ok m x ms xs i id p q :
  owns m x ms xs -> xs !! i = Some (id, (p, q)) -> live_instance id m = Some (i, p, q).
Proof.
  intros O Hi. unfold live_instance, find_instance.
  destruct (table_find instance_view MAX_INSTANCES (instances m) (running <$> xs) i (running (id, (p, q))) fst
    (fun e => ie_in_use e = true /\ ie_id e = id)) as (e & He & Hv).
  - intros e. unfold instance_view. destruct (ie_in_use e).
    + split; [intros [_ ->]; eexists; by split|]. intros (w & [= <-] & Hk). done.
    + split; [by intros []|]. by intros (w & ? & _).
  - rewrite fst_running. destruct (own_iids _ _ _ _ O) as [_ Hn].
    eapply numbered_nodup; [|exact Hn]. pose proof (own_instances _ _ _ _ O) as [Hl _].
    rewrite length_fmap in Hl. rewrite length_fmap. exact Hl.
  - apply (own_instances _ _ _ _ O).
  - by rewrite list_lookup_fmap, Hi.
  - rewrite He. destruct e as [i' p' q' u h]. unfold instance_view, running in Hv. simpl in Hv.
    destruct u; by simplify_eq/=.
Qed.

(** *** The operations *)

Lemma numbered_nil n : numbered n [].
Proof. by intros i id. Qed.

Lemma owns_empty b nm ni x :
  is_u32 nm -> is_u32 ni -> live x = empty_heap ->
  owns (mkWamr b (replicate MAX_MODULES no_module) (replicate MAX_INSTANCES no_instance) nm ni) x [] [].
Proof.
  intros Hm Hi Hx. split; simpl; auto using numbered_nil, NoDup_nil_2.
  - apply table_empty; [done|by repeat constructor].
  - apply table_empty; [done|by repeat constructor].
Qed.

Lemma init_owns m x ms xs :
  owns m x ms xs -> owns (wamr_init m x).1.2 (wamr_init m x).2 ms xs.
Proof.
  intros O. unfold wamr_init. destruct (wamr_initialized m) eqn:E; [done|].
  pose proof (live_full_init WAMR_HEAP_SIZE x) as Hl.
  destruct (own_idle _ _ _ _ O E) as [-> ->].
  destruct (wasm_runtime_full_init WAMR_HEAP_SIZE x) as [[|] x']; simpl in *.
  - apply owns_empty; [apply O|apply O|]. rewrite Hl. apply (own_live _ _ _ _ O).
  - destruct O. split; try done. by rewrite Hl.
Qed.

Lemma load_owns bs m x ms xs :
  owns m x ms xs ->
  let '(r, m', x') := wamr_load_module bs m x in
  match r with
  | Some id => wamr_initialized m' = true /\ exists p, wasm_runtime_load bs x = (Some p, x') /\ owns m' x' (ms ++ [(id, p)]) xs
  | None => m' = m /\ owns m' x' ms xs
  end.
Proof.
  intros O. unfold wamr_load_module. rewrite (free_module_ok m x ms xs O).
  destruct (wamr_initialized m) eqn:Ei; simpl; [|done]. destruct (zlen bs =? 0); [done|].
  destruct (decide _) as [Hlt|]; [|done]. pose proof (live_load bs x) as Hl.
  destruct (wasm_runtime_load bs x) as [[p|] x'] eqn:El; simpl in *.
  2: { split; [done|]. destruct O. split; try done. by rewrite Hl. }
  split; [done|]. exists p. split; [done|]. destruct Hl as [Hfresh Hl]. destruct O as [Om Oi [Hmw Hm] Oiid [Hd1 Hd2] Hv _].
  rewrite Hv in Hfresh, Hl. simpl in Hfresh, Hl. split; simpl; try done.
  - rewrite fmap_app. rewrite <- (length_fmap loaded ms). by apply table_push; rewrite ?length_fmap.
  - split; [unfold wrap32; pose proof (Z.mod_pos_bound (next_module_id m + 1) (2 ^ 32)); widths|].
    rewrite fmap_app. by apply numbered_push.
  - split; [|done]. rewrite fmap_app. apply NoDup_app. repeat split; [done| |apply NoDup_singleton].
    intros a Ha. simpl. rewrite list_elem_of_singleton. intros ->. set_solver.
  - rewrite Hl. unfold heap_of. rewrite fmap_app, list_to_set_app_L. f_equal. set_solver.
Qed.

Lemma owns_same m x x' ms xs : owns m x ms xs -> live x' = live x -> owns m x' ms xs.
Proof. intros [] E. split; try done. by rewrite E. Qed.

Lemma instantiate_owns mid m x ms xs :
  owns m x ms xs ->
  let '(r, m', x') := wamr_instantiate mid m x in
  match r with
  | Some id => wamr_initialized m' = true /\ exists k e md p q, find_module mid m = Some (k, e) /\ me_module e = Some md /\
      instantiated md p q x x' /\ owns m' x' ms (xs ++ [(id, (p, q))])
  | None => m' = m /\ owns m' x' ms xs
  end.
Proof.
  intros O. unfold wamr_instantiate. destruct (wamr_initialized m) eqn:Ei; simpl; [|done].
  destruct (find_module mid m) as [[k [? [md|] ?]]|]; [|done..].
  rewrite (free_instance_ok m x ms xs O). destruct (decide _) as [Hlt|]; [|done].
  unfold instantiated, with_wasi_args.
  set (x1 := if libc_wasi then _ else _).
  assert (O1 : owns m x1 ms xs).
  { apply (owns_same m x); [done|]. subst x1. destruct libc_wasi; [apply live_wasi_args|done]. }
  pose proof (live_instantiate md STACK_SIZE 0 x1) as Hl.
  destruct (wasm_runtime_instantiate md STACK_SIZE 0 x1) as [[p|] x2] eqn:Ex; simpl in *.
  2: { split; [done|]. by apply (owns_same m x1). }
  destruct Hl as [Hp Hl]. pose proof (live_create_env p STACK_SIZE x2) as He.
  destruct (wasm_runtime_create_exec_env p STACK_SIZE x2) as [[q|] x3] eqn:Ey; simpl in *.
  - destruct He as [Hq He]. split; [done|]. eexists k, _, md, p, q. split_and!; [done|done|by exists x2, x3|].
    set (x4 := if instruction_metering then _ else _).
    assert (live x4 = live x3) as H4 by (subst x4; destruct instruction_metering; [apply live_limit|done]).
    destruct O1 as [Om Oi Hm [Hiw Hi] (Hd1 & Hd2 & Hd3) Hv _].
    rewrite Hl, Hv in Hq, He. rewrite Hv in Hp. simpl in *. split; simpl; try done.
    + rewrite fmap_app. rewrite <- (length_fmap running xs). by apply table_push; rewrite ?length_fmap.
    + split; [unfold wrap32; pose proof (Z.mod_pos_bound (next_instance_id m + 1) (2 ^ 32)); widths|].
      rewrite fmap_app. by apply numbered_push.
    + rewrite !fmap_app. repeat split; [done|..]; apply NoDup_app;
        (repeat split; [done| |apply NoDup_singleton]);
        intros a Ha; simpl; rewrite list_elem_of_singleton; intros ->; set_solver.
    + rewrite H4, He. unfold heap_of. rewrite !fmap_app, !list_to_set_app_L. f_equal; set_solver.
  - split; [done|]. apply (owns_same m x1); [done|]. rewrite live_deinstantiate, He, Hl.
    + simpl. destruct (live x1) as [a b c]; simpl in *. f_equal. set_solver.
    + rewrite He, Hl. set_solver.
Qed.

Lemma limit_owns slot b m x ms xs : owns m x ms xs -> owns (set_limit_hit slot b m) x ms xs.
Proof. intros []. split; try done. by apply table_update. Qed.

Lemma noted_owns slot p q f a m x ms xs :
  owns m x ms xs ->
  let r := call_and_note slot p q f a m x in owns r.1.2 r.2 ms xs.
Proof.
  intros O. unfold call_and_note. pose proof (live_call q f a x) as Hl.
  destruct (wasm_runtime_call_wasm q f a x) as [[|] x']; simpl in *;
    apply limit_owns; by apply (owns_same m x).
Qed.

Lemma call_owns id f a m x ms xs :
  owns m x ms xs -> let r := wamr_call_function id f a m x in owns r.1.2 r.2 ms xs.
Proof.
  intros O. unfold wamr_call_function. split_branches; by apply noted_owns.
Qed.

Lemma start_owns id m x ms xs :
  owns m x ms xs -> let r := wamr_call_wasi_start id m x in owns r.1.2 r.2 ms xs.
Proof.
  intros O. unfold wamr_call_wasi_start. destruct (wamr_initialized m); [|done]. simpl.
  destruct (live_instance id m) as [[[slot p] q]|]; [|done].
  destruct (if libc_wasi then _ else _) as [f|].
  - unfold call_start. pose proof (live_call q f [] x) as Hl.
    destruct (wasm_runtime_call_wasm q f [] x) as [[|] x']; simpl in *.
    + apply limit_owns. by apply (owns_same m x).
    + split_branches; apply limit_owns; apply (owns_same m x); try done; by rewrite live_clear.
  - destruct (wasm_runtime_lookup_function p "run" x); [|done]. by apply noted_owns.
Qed.

(** Releasing a table releases its pointers and no others. *)
Lemma release_modules_live clear l x ms :
  omap module_view l = loaded <$> ms -> NoDup ms.*2 -> list_to_set ms.*2 ⊆ h_modules (live x) ->
  let r := release_modules clear l x in
  length r.1 = length l /\ Forall (fun e => module_view e = None) r.1 /\
  live r.2 = mkHeap (h_modules (live x) ∖ list_to_set ms.*2) (h_instances (live x)) (h_envs (live x)).
Proof.
  revert x ms. induction l as [|e l IH]; intros x ms Hv Hnd Hsub.
  { destruct ms; [|done]. simpl. split_and!; [done..|]. destruct (live x); simpl. f_equal. set_solver. }
  simpl in Hv. unfold module_view at 1 in Hv. simpl. destruct (me_in_use e) eqn:Eu.
  - destruct ms as [|[i p] ms]; [done|]. injection Hv as Hi Hp Hv. simpl in *. rewrite Hp. simpl.
    apply NoDup_cons in Hnd as [Hni Hnd].
    assert (Hl : p ∈ h_modules (live x)) by set_solver.
    pose proof (live_unload p x Hl) as E. set (x1 := wasm_runtime_unload p x) in *.
    destruct (IH x1 ms Hv Hnd) as (IHl & IHf & IHe).
    { rewrite E. simpl. intros y Hy. apply elem_of_difference. split; [set_solver|].
      rewrite elem_of_singleton. intros ->. set_solver. }
    destruct (release_modules clear l x1) as [l' x2]. simpl in *. split_and!; [by rewrite IHl|by constructor|].
    rewrite IHe, E. simpl. f_equal. set_solver.
  - destruct (IH x ms Hv Hnd Hsub) as (IHl & IHf & IHe).
    destruct (release_modules clear l x) as [l' x2]. simpl in *.
    split_and!; [by rewrite IHl| |done]. constructor; [|done]. unfold module_view. by rewrite Eu.
Qed.

Lemma release_instances_live clear l x xs :
  omap instance_view l = running <$> xs -> NoDup xs.*2.*1 -> NoDup xs.*2.*2 ->
  list_to_set xs.*2.*1 ⊆ h_instances (live x) -> list_to_set xs.*2.*2 ⊆ h_envs (live x) ->
  let r := release_instances clear l x in
  length r.1 = length l /\ Forall (fun e => instance_view e = None) r.1 /\
  live r.2 = mkHeap (h_modules (live x)) (h_instances (live x) ∖ list_to_set xs.*2.*1)
               (h_envs (live x) ∖ list_to_set xs.*2.*2).
Proof.
  revert x xs. induction l as [|e l IH]; intros x xs Hv Hn1 Hn2 Hs1 Hs2.
  { destruct xs; [|done]. simpl. split_and!; [done..|]. destruct (live x); simpl. f_equal; set_solver. }
  simpl in Hv. unfold instance_view at 1 in Hv. simpl. destruct (ie_in_use e) eqn:Eu.
  - destruct xs as [|[i [p q]] xs]; [done|]. injection Hv as Hi Hp Hq Hv. simpl in *. rewrite Hp, Hq. simpl.
    apply NoDup_cons in Hn1 as [Hni1 Hn1]. apply NoDup_cons in Hn2 as [Hni2 Hn2].
    pose proof (live_destroy_env q x ltac:(set_solver)) as E1. set (x1 := wasm_runtime_destroy_exec_env q x) in *.
    assert (Hl : p ∈ h_instances (live x1)) by (rewrite E1; set_solver).
    pose proof (live_deinstantiate p x1 Hl) as E2. set (x2 := wasm_runtime_deinstantiate p x1) in *.
    rewrite E1 in E2. simpl in E2.
    destruct (IH x2 xs Hv Hn1 Hn2) as (IHl & IHf & IHe).
    { rewrite E2. simpl. intros y Hy. apply elem_of_difference. split; [set_solver|].
      rewrite elem_of_singleton. intros ->. set_solver. }
    { rewrite E2. simpl. intros y Hy. apply elem_of_difference. split; [set_solver|].
      rewrite elem_of_singleton. intros ->. set_solver. }
    destruct (release_instances clear l x2) as [l' x3]. simpl in *. split_and!; [by rewrite IHl|by constructor|].
    rewrite IHe, E2. simpl. f_equal; set_solver.
  - destruct (IH x xs Hv Hn1 Hn2 Hs1 Hs2) as (IHl & IHf & IHe).
    destruct (release_instances clear l x) as [l' x2]. simpl in *.
    split_and!; [by rewrite IHl| |done]. constructor; [|done]. unfold instance_view. by rewrite Eu.
Qed.

(** Both loops together leave nothing alive and nothing in use. *)
Lemma release_all clear m x ms xs :
  owns m x ms xs ->
  let r := release_instances clear (instances m) x in
  let q := release_modules clear (modules m) r.2 in
  table instance_view MAX_INSTANCES r.1 [] /\ table module_view MAX_MODULES q.1 [] /\ live q.2 = empty_heap.
Proof.
  intros O. destruct (own_distinct _ _ _ _ O) as (Hd1 & Hd2 & Hd3). pose proof (own_live _ _ _ _ O) as Hv.
  pose proof (own_instances _ _ _ _ O) as Ti. pose proof (own_modules _ _ _ _ O) as Tm.
  destruct (release_instances_live clear (instances m) x xs) as (Hl & Hf & He); rewrite ?Hv; try done.
  { by eapply table_omap. }
  destruct (release_instances clear (instances m) x) as [insts x1]. simpl in *.
  rewrite Hv in He. simpl in He.
  destruct (release_modules_live clear (modules m) x1 ms) as (Hl' & Hf' & He'); rewrite ?He; try done.
  { by eapply table_omap. }
  destruct (release_modules clear (modules m) x1) as [mods x2]. simpl in *.
  split_and!.
  - apply table_empty; [|done]. rewrite Hl. by eapply table_length.
  - apply table_empty; [|done]. rewrite Hl'. by eapply table_length.
  - rewrite He', He. simpl. unfold empty_heap. f_equal; set_solver.
Qed.

Lemma released_owns b mods insts nm ni x :
  table instance_view MAX_INSTANCES insts [] -> table module_view MAX_MODULES mods [] ->
  is_u32 nm -> is_u32 ni -> live x = empty_heap -> owns (mkWamr b mods insts nm ni) x [] [].
Proof. intros. split; simpl; auto using numbered_nil, NoDup_nil_2. Qed.

Lemma unload_all_owns m x ms xs :
  owns m x ms xs -> let r := wamr_unload_all m x in
  if wamr_initialized m then wamr_initialized r.1 = true /\ owns r.1 r.2 [] [] else r = (m, x).
Proof.
  intros O. unfold wamr_unload_all. destruct (wamr_initialized m); [|done]. simpl.
  destruct (release_all true m x ms xs O) as (H1 & H2 & H3).
  destruct (release_instances true (instances m) x) as [insts x1]. simpl in *.
  destruct (release_modules true (modules m) x1) as [mods x2]. simpl in *.
  split; [done|]. apply released_owns; try done; apply O.
Qed.

Lemma cleanup_owns m x ms xs :
  owns m x ms xs -> let r := wamr_cleanup m x in
  wamr_initialized r.1 = false /\ owns r.1 r.2 [] [].
Proof.
  intros O. unfold wamr_cleanup. destruct (wamr_initialized m) eqn:Ei; simpl.
  2: { destruct (own_idle _ _ _ _ O Ei) as [-> ->]. by rewrite Ei. }
  destruct (release_all false m x ms xs O) as (H1 & H2 & H3).
  destruct (release_instances false (instances m) x) as [insts x1]. simpl in *.
  destruct (release_modules false (modules m) x1) as [mods x2]. simpl in *.
  split; [done|]. apply released_owns; try done; [apply O..|]. by apply live_destroy.
Qed.
End Proofs.

(** ** Every sequence of calls *)

Inductive wamr_op :=
| OpInit | OpLoad (wasm : list byte) | OpInstantiate (module_id : Z)
| OpCall (instance_id : Z) (f : string) (args : list Z) | OpStart (instance_id : Z)
| OpUnloadAll | OpCleanup.

Definition wamr_step {X} `{R : Wamr X} (s : wamr * X) (o : wamr_op) : wamr * X :=
  let '(m, x) := s in
  match o with
  | OpInit => ((wamr_init m x).1.2, (wamr_init m x).2)
  | OpLoad bs => ((wamr_load_module bs m x).1.2, (wamr_load_module bs m x).2)
  | OpInstantiate id => ((wamr_instantiate id m x).1.2, (wamr_instantiate id m x).2)
  | OpCall id f a => ((wamr_call_function id f a m x).1.2, (wamr_call_function id f a m x).2)
  | OpStart id => ((wamr_call_wasi_start id m x).1.2, (wamr_call_wasi_start id m x).2)
  | OpUnloadAll => wamr_unload_all m x
  | OpCleanup => wamr_cleanup m x
  end.

Section Reachable.
Context {X : Type} {R : Wamr X} {L : WamrLaws R}.

Lemma step_ok m x o : wamr_ok m x -> wamr_ok (wamr_step (m, x) o).1 (wamr_step (m, x) o).2.
Proof.
  intros (ms & xs & O). destruct o as [|bs|id|id f a|id| |]; simpl.
  - eexists _, _. by apply init_owns.
  - pose proof (load_owns bs m x ms xs O) as H. destruct (wamr_load_module bs m x) as [[[id|] m'] x'].
    + destruct H as (_ & p & _ & H). by eexists _, _.
    + destruct H as [_ H]. by eexists _, _.
  - pose proof (instantiate_owns id m x ms xs O) as H. destruct (wamr_instantiate id m x) as [[[i|] m'] x'].
    + destruct H as (_ & k & e & md & p & q & _ & _ & _ & H). by eexists _, _.
    + destruct H as [_ H]. by eexists _, _.
  - eexists _, _. by apply (call_owns id f a m x ms xs).
  - eexists _, _. by apply (start_owns id m x ms xs).
  - pose proof (unload_all_owns m x ms xs O) as H. destruct (wamr_initialized m).
    + destruct H as [_ H]. by eexists _, _.
    + rewrite H. by eexists _, _.
  - destruct (cleanup_owns m x ms xs O) as [_ H]. by eexists _, _.
Qed.

Lemma statics_owns (x : X) : live x = empty_heap -> owns wamr_statics x [] [].
Proof. intros. by apply owns_empty; [split..|]. Qed.

(** C20: whatever the firmware calls, and however often the identifier counters
    wrap around, the module and instance tables agree with the runtime: the
    pointers they hold are exactly the objects that are alive, no object is
    leaked, released twice or stored twice, and the identifiers in use are
    distinct. *)
Theorem wamr_tables_own_the_runtime (x : X) (ops : list wamr_op) :
  live x = empty_heap ->
  let s := foldl wamr_step (wamr_statics, x) ops in
  exists ms xs, owns s.1 s.2 ms xs /\ live s.2 = heap_of ms xs /\ NoDup ms.*1 /\ NoDup xs.*1.
Proof.
  intros Hx s. assert (H : wamr_ok s.1 s.2).
  { subst s. set (s0 := (wamr_statics, x)). assert (wamr_ok s0.1 s0.2) as H0.
    { eexists _, _. by apply statics_owns. }
    clearbody s0. revert s0 H0. induction ops as [|o ops IH]; intros [m y] H0; [done|].
    apply IH. by apply step_ok. }
  destruct H as (ms & xs & O). exists ms, xs.
  pose proof (own_modules _ _ _ _ O) as [Hm _]. pose proof (own_instances _ _ _ _ O) as [Hi _].
  rewrite length_fmap in Hm. rewrite length_fmap in Hi. split_and!; [done|apply O|..].
  - eapply numbered_nodup; [|apply O]. by rewrite length_fmap.
  - eapply numbered_nodup; [|apply O]. by rewrite length_fmap.
Qed.
End Reachable.

(** ** A fresh deployment

    The runtime is reset, so a slot is always free and the module that was
    loaded is found: a deployment fails only if the runtime refuses it. *)

Section Redeploy.
Context {X : Type} {R : Wamr X} {L : WamrLaws R}.
Implicit Types (m : wamr) (x : X).

(** What the runtime does with a module it accepts. *)
Record accepts (wasm : list byte) : Prop := {
  acc_init x : (wasm_runtime_full_init WAMR_HEAP_SIZE x).1 = true;
  acc_load x : is_Some (wasm_runtime_load wasm x).1;
  acc_instantiate p a b x : is_Some (wasm_runtime_instantiate p a b x).1;
  acc_env p a x : is_Some (wasm_runtime_create_exec_env p a x).1;
}.

Lemma init_fresh wasm m x :
  accepts wasm -> wamr_initialized m = false ->
  exists m' x', wamr_init m x = (0, m', x') /\ wamr_initialized m' = true.
Proof.
  intros A Hi. unfold wamr_init. rewrite Hi. pose proof (acc_init wasm A x) as H.
  destruct (wasm_runtime_full_init WAMR_HEAP_SIZE x) as [b x']. simpl in H. subst b. by do 2 eexists.
Qed.

Lemma load_fresh wasm m x xs :
  accepts wasm -> wasm <> [] -> wamr_initialized m = true -> owns m x [] xs ->
  exists id m' x', wamr_load_module wasm m x = (Some id, m', x').
Proof.
  intros A Hne Hi O. unfold wamr_load_module. rewrite Hi, (free_module_ok m x [] xs O). simpl.
  destruct (zlen wasm =? 0) eqn:E; [destruct wasm; [done|]; unfold zlen in E; simpl in E; lia|].
  pose proof (acc_load wasm A x) as H. destruct (wasm_runtime_load wasm x) as [o x']. simpl in H.
  destruct H as [h ->]. by do 3 eexists.
Qed.

Lemma instantiate_fresh wasm id p m x :
  accepts wasm -> wamr_initialized m = true -> owns m x [(id, p)] [] ->
  exists iid m' x', wamr_instantiate id m x = (Some iid, m', x').
Proof.
  intros A Hi O. unfold wamr_instantiate. rewrite Hi. simpl.
  destruct (find_module_ok m x [(id, p)] [] 0 id p O eq_refl) as (e & -> & He).
  destruct e as [? ? ?]. simpl in He. subst. rewrite (free_instance_ok m x [(id, p)] [] O). simpl.
  set (x1 := if libc_wasi then _ else _). pose proof (acc_instantiate wasm A p STACK_SIZE 0 x1) as H.
  destruct (wasm_runtime_instantiate p STACK_SIZE 0 x1) as [o x2]. simpl in H. destruct H as [q ->].
  pose proof (acc_env wasm A q STACK_SIZE x2) as H.
  destruct (wasm_runtime_create_exec_env q STACK_SIZE x2) as [o x3]. simpl in H. destruct H as [v ->].
  by do 3 eexists.
Qed.

(** An instance that is there is started. *)
Lemma start_started id slot q v m x :
  wamr_initialized m = true -> live_instance id m = Some (slot, q, v) ->
  started q v x (wamr_call_wasi_start id m x).2.
Proof.
  intros Hi Hl. unfold wamr_call_wasi_start. rewrite Hi, Hl. simpl.
  destruct (if libc_wasi then _ else _) as [f|] eqn:Ef.
  - destruct (@libc_wasi X R) eqn:Ew; [|done]. unfold call_start.
    destruct (wasm_runtime_call_wasm v f [] x) as [b y] eqn:Ec. pose proof (started_wasi q v x f b y Ew Ef Ec) as Hy.
    destruct b; simpl; [exact Hy|]. pose proof (started_wasi_exit q v x f y Ew Ef Ec) as Hc.
    repeat (case_match; simpl); assumption.
  - assert (@libc_wasi X R = true -> wasm_runtime_lookup_wasi_start_function q x = None) as Hn
      by (intros Ew; by rewrite Ew in Ef).
    destruct (wasm_runtime_lookup_function q "run" x) as [f|] eqn:Er; [|by apply started_nothing].
    unfold call_and_note. destruct (wasm_runtime_call_wasm v f [] x) as [b y] eqn:Ec.
    pose proof (started_run q v x f b y Hn Er Ec) as Hy. by destruct b.
Qed.

(** What is left after a deployment: the runtime was emptied, [wasm] loaded
    into it, instantiated and started, and the tables hold this module and
    this instance and nothing else. *)
Definition only_running (wasm : list byte) (iid : Z) (m : wamr) (x : X) : Prop :=
  exists x0 mid p x1 q v x2,
    live x0 = empty_heap /\ wasm_runtime_load wasm x0 = (Some p, x1) /\ instantiated p q v x1 x2 /\
    started q v x2 x /\ owns m x [(mid, p)] [(iid, (q, v))].

(** The calls of [handle_deploy_application], in order. *)
Lemma redeploy wasm m x :
  accepts wasm -> wasm <> [] -> wamr_ok m x ->
  exists m1 x1 m2 x2 mid m3 x3 iid m4 x4 r m5 x5,
    wamr_cleanup m x = (m1, x1) /\ wamr_init m1 x1 = (0, m2, x2) /\
    wamr_load_module wasm m2 x2 = (Some mid, m3, x3) /\ wamr_instantiate mid m3 x3 = (Some iid, m4, x4) /\
    wamr_call_wasi_start iid m4 x4 = (r, m5, x5) /\ only_running wasm iid m5 x5.
Proof.
  intros A Hne (ms & xs & O). destruct (cleanup_owns m x ms xs O) as [Hi1 O1].
  destruct (wamr_cleanup m x) as [m1 x1]. simpl in Hi1, O1.
  destruct (init_fresh wasm m1 x1 A Hi1) as (m2 & x2 & E2 & Hi2).
  pose proof (init_owns m1 x1 [] [] O1) as O2. rewrite E2 in O2. simpl in O2.
  destruct (load_fresh wasm m2 x2 [] A Hne Hi2 O2) as (mid & m3 & x3 & E3).
  pose proof (load_owns wasm m2 x2 [] [] O2) as H3. rewrite E3 in H3. destruct H3 as (Hi3 & p & Hp & O3).
  destruct (instantiate_fresh wasm mid p m3 x3 A Hi3 O3) as (iid & m4 & x4 & E4).
  pose proof (instantiate_owns mid m3 x3 _ _ O3) as H4. rewrite E4 in H4.
  destruct H4 as (Hi4 & k & e & md & q & v & Hf & He & Hin & O4).
  destruct (find_module_ok m3 x3 _ _ 0 mid p O3 eq_refl) as (e' & Hf' & He'). simplify_eq.
  pose proof (start_started iid 0 q v m4 x4 Hi4 (find_instance_ok _ _ _ _ 0 iid q v O4 eq_refl)) as Hs.
  pose proof (start_owns iid m4 x4 _ _ O4) as O5.
  destruct (wamr_call_wasi_start iid m4 x4) as [[r m5] x5] eqn:E5. simpl in Hs, O5.
  exists m1, x1, m2, x2, mid, m3, x3, iid, m4, x4, r, m5, x5.
  do 5 (split; [done|]). exists x2, mid, md, x3, q, v, x4. split; [apply (own_live _ _ _ _ O2)|done].
Qed.

(** *** What the runtime cannot touch

    A relation between worlds that every call of the runtime respects. *)
Record confined (T : X -> X -> Prop) : Prop := {
  cf_refl x : T x x;
  cf_trans x y z : T x y -> T y z -> T x z;
  cf_init n x : T x (wasm_runtime_full_init n x).2;
  cf_destroy x : T x (wasm_runtime_destroy x);
  cf_load bs x : T x (wasm_runtime_load bs x).2;
  cf_unload p x : T x (wasm_runtime_unload p x);
  cf_args p a x : T x (wasm_runtime_set_wasi_args p a x);
  cf_instantiate p a b x : T x (wasm_runtime_instantiate p a b x).2;
  cf_deinstantiate p x : T x (wasm_runtime_deinstantiate p x);
  cf_env p a x : T x (wasm_runtime_create_exec_env p a x).2;
  cf_destroy_env p x : T x (wasm_runtime_destroy_exec_env p x);
  cf_limit p n x : T x (wasm_runtime_set_instruction_count_limit p n x);
  cf_call p f a x : T x (wasm_runtime_call_wasm p f a x).2;
  cf_clear p x : T x (wasm_runtime_clear_exception p x);
}.

Variables (T : X -> X -> Prop) (C : confined T).

Lemma cf_opt f p x : (forall q y, T y (f q y)) -> T x (opt_call f p x).
Proof. intros H. destruct p; simpl; [apply H|apply C]. Qed.

Lemma cf_release_instances clear l x : T x (release_instances clear l x).2.
Proof.
  revert x. induction l as [|e l IH]; intros x; simpl; [apply C|].
  destruct (ie_in_use e).
  - set (x1 := opt_call wasm_runtime_deinstantiate _ _). specialize (IH x1).
    destruct (release_instances clear l x1) as [l' x2]. simpl in *. eapply (cf_trans _ C); [|exact IH].
    eapply (cf_trans _ C); [apply (cf_opt wasm_runtime_destroy_exec_env (ie_exec_env e)); apply C|].
    apply cf_opt, C.
  - specialize (IH x). by destruct (release_instances clear l x).
Qed.

Lemma cf_release_modules clear l x : T x (release_modules clear l x).2.
Proof.
  revert x. induction l as [|e l IH]; intros x; simpl; [apply C|]. destruct (me_in_use e).
  - set (x1 := opt_call wasm_runtime_unload _ _). specialize (IH x1).
    destruct (release_modules clear l x1) as [l' x2]. simpl in *. eapply (cf_trans _ C); [|exact IH].
    apply cf_opt, C.
  - specialize (IH x). by destruct (release_modules clear l x).
Qed.

Lemma cf_cleanup m x : T x (wamr_cleanup m x).2.
Proof.
  unfold wamr_cleanup. destruct (negb _); [apply C|].
  pose proof (cf_release_instances false (instances m) x) as H1.
  destruct (release_instances false (instances m) x) as [insts x1]. simpl in H1.
  pose proof (cf_release_modules false (modules m) x1) as H2.
  destruct (release_modules false (modules m) x1) as [mods x2]. simpl in *.
  eapply (cf_trans _ C); [exact H1|]. eapply (cf_trans _ C); [exact H2|]. apply C.
Qed.

Lemma cf_wamr_init m x : T x (wamr_init m x).2.
Proof.
  unfold wamr_init. destruct (wamr_initialized m); [apply C|]. pose proof (cf_init T C WAMR_HEAP_SIZE x) as H.
  by destruct (wasm_runtime_full_init WAMR_HEAP_SIZE x) as [[] x'].
Qed.

Lemma cf_wamr_load bs m x : T x (wamr_load_module bs m x).2.
Proof.
  unfold wamr_load_module. destruct (negb _); [apply C|]. destruct (_ =? 0); [apply C|].
  destruct (free_module m); [|apply C]. pose proof (cf_load T C bs x) as H.
  by destruct (wasm_runtime_load bs x) as [[] x'].
Qed.

Lemma cf_wamr_instantiate id m x : T x (wamr_instantiate id m x).2.
Proof.
  unfold wamr_instantiate. destruct (negb _); [apply C|].
  destruct (find_module id m) as [[k [? [md|] ?]]|]; [|apply C..]. destruct (free_instance m); [|apply C].
  set (x1 := if libc_wasi then _ else _).
  assert (T x x1) as H1 by (subst x1; destruct libc_wasi; apply C).
  pose proof (cf_instantiate T C md STACK_SIZE 0 x1) as H2.
  destruct (wasm_runtime_instantiate md STACK_SIZE 0 x1) as [[q|] x2]; simpl in *; [|by eapply (cf_trans _ C)].
  pose proof (cf_env T C q STACK_SIZE x2) as H3.
  destruct (wasm_runtime_create_exec_env q STACK_SIZE x2) as [[v|] x3]; simpl in *;
    (eapply (cf_trans _ C); [exact H1|]; eapply (cf_trans _ C); [exact H2|]; eapply (cf_trans _ C); [exact H3|]).
  - destruct instruction_metering; apply C.
  - apply C.
Qed.

Lemma cf_wamr_start id m x : T x (wamr_call_wasi_start id m x).2.
Proof.
  unfold wamr_call_wasi_start. destruct (negb _); [apply C|].
  destruct (live_instance id m) as [[[slot q] v]|]; [|apply C].
  destruct (if libc_wasi then _ else _) as [f|].
  - unfold call_start. pose proof (cf_call T C v f [] x) as H.
    destruct (wasm_runtime_call_wasm v f [] x) as [[] x']; simpl in *; [done|].
    repeat (case_match; simpl); try done; (eapply (cf_trans _ C); [exact H|apply C]).
  - destruct (wasm_runtime_lookup_function q "run" x); [|apply C]. unfold call_and_note.
    pose proof (cf_call T C v z [] x) as H. by destruct (wasm_runtime_call_wasm v z [] x) as [[] x'].
Qed.
End Redeploy.

(** ** A runtime

    A world whose runtime is its set of live objects, for examples: it loads
    what begins with the magic number and every call succeeds. *)

Definition wasm_magic : list byte := map byte_of [0; 0x61; 0x73; 0x6d].

Section Toy.
Context {X : Type} (get : X -> heap) (put : heap -> X -> X) (get_put : forall h x, get (put h x) = h).

Definition toy_wamr : Wamr X := {|
  libc_wasi := true;
  instruction_metering := true;
  wasm_runtime_full_init _ x := (true, x);
  wasm_runtime_destroy x := x;
  wasm_runtime_load bs x :=
    if bool_decide (take 4 bs = wasm_magic) then
      let p := fresh (h_modules (get x)) in
      (Some p, put (mkHeap ({[p]} ∪ h_modules (get x)) (h_instances (get x)) (h_envs (get x))) x)
    else (None, x);
  wasm_runtime_unload p x :=
    put (mkHeap (h_modules (get x) ∖ {[p]}) (h_instances (get x)) (h_envs (get x))) x;
  wasm_runtime_set_wasi_args _ _ x := x;
  wasm_runtime_instantiate _ _ _ x :=
    let p := fresh (h_instances (get x)) in
    (Some p, put (mkHeap (h_modules (get x)) ({[p]} ∪ h_instances (get x)) (h_envs (get x))) x);
  wasm_runtime_deinstantiate p x :=
    put (mkHeap (h_modules (get x)) (h_instances (get x) ∖ {[p]}) (h_envs (get x))) x;
  wasm_runtime_create_exec_env _ _ x :=
    let p := fresh (h_envs (get x)) in
    (Some p, put (mkHeap (h_modules (get x)) (h_instances (get x)) ({[p]} ∪ h_envs (get x))) x);
  wasm_runtime_destroy_exec_env p x :=
    put (mkHeap (h_modules (get x)) (h_instances (get x)) (h_envs (get x) ∖ {[p]})) x;
  wasm_runtime_set_instruction_count_limit _ _ x := x;
  wasm_runtime_lookup_function _ _ _ := Some 1;
  wasm_runtime_lookup_wasi_start_function _ _ := None;
  wasm_runtime_call_wasm _ _ _ x := (true, x);
  wasm_runtime_get_exception _ _ := None;
  wasm_runtime_get_wasi_exit_code _ _ := 0;
  wasm_runtime_clear_exception _ x := x;
|}.

Definition toy_wamr_laws : WamrLaws toy_wamr.
Proof.
  refine {| live := get : X -> heap |}; simpl; try done; intros; rewrite ?get_put; try done.
  - case_bool_decide; simpl; [|done]. rewrite get_put. split; [apply is_fresh|done].
  - split; [apply is_fresh|done].
  - split; [apply is_fresh|done].
Defined.
End Toy.

Definition heap_wamr : Wamr heap := toy_wamr id (fun h _ => h).
Definition heap_wamr_laws : WamrLaws heap_wamr := toy_wamr_laws id (fun h _ => h) (fun _ _ => eq_refl).

Lemma wamr_tables_own_the_runtime_witness :
  exists ms xs,
    owns (R := heap_wamr) (L := heap_wamr_laws)
      (foldl (wamr_step (R := heap_wamr)) (wamr_statics, empty_heap)
         [OpInit; OpLoad wasm_magic; OpInstantiate 1; OpStart 1; OpCleanup; OpInit; OpLoad wasm_magic]).1
      (foldl (wamr_step (R := heap_wamr)) (wamr_statics, empty_heap)
         [OpInit; OpLoad wasm_magic; OpInstantiate 1; OpStart 1; OpCleanup; OpInit; OpLoad wasm_magic]).2 ms xs.
Proof.
  destruct (wamr_tables_own_the_runtime (L := heap_wamr_laws) empty_heap
    [OpInit; OpLoad wasm_magic; OpInstantiate 1; OpStart 1; OpCleanup; OpInit; OpLoad wasm_magic] eq_refl)
    as (ms & xs & H & _). exists ms, xs. exact H.
Defined.

Example wamr_runs_twice :
  let s := foldl (wamr_step (R := heap_wamr)) (wamr_statics, empty_heap)
    [OpInit; OpLoad wasm_magic; OpInstantiate 1; OpCleanup; OpInit; OpLoad wasm_magic] in
  (map me_id (modules s.1), map me_in_use (modules s.1), next_instance_id s.1) =
  (2 :: replicate 15 0, true :: replicate 15 false, 2).
Proof. vm_compute. reflexivity. Qed.
