(* ===== verification/Firmware.v ===== *)
(** * The Zephyr firmware: [zephyr-app/src/network_handler.c],
    [wasmbed_protocol.c] and [main.c]

    The device side of the protocol as the emulated boards run it. The static
    variables of the three C files are the record [device]; a C function is a
    command over it. A command ends with a value ([Done]), with an access
    outside of an array ([Fault]), or it is still looping when its rounds are
    used up ([Spin]); the theorems of [FirmwareProofs] exclude the last two.

    Zephyr (clock, memory, sockets, the network interface) is the class
    [Zephyr] over the world [X], mbedTLS the class [MbedTls], the WebAssembly
    runtime the class [Wamr] of [FirmwareWamr]. A function that answers 0 or -1
    answers that number; one that also fills buffers answers them in an
    [option]. *)

From S2P Require Import Prelude.
From S2P Require Import RustStd.
From S2P Require Import Externals.
From S2P Require Import Renode.
From S2P Require Import RenodeProofs.
From S2P Require Import FirmwareWamr.

(** ** Commands *)

Inductive outcome (A : Type) :=
| Done (a : A)
| Fault
| Spin.
Arguments Done {A} _.
Arguments Fault {A}.
Arguments Spin {A}.

Section Commands.
Context {S : Type}.
Definition cmd (A : Type) : Type := S -> outcome (A * S).
Definition creturn {A} (a : A) : cmd A := fun s => Done (a, s).
Definition cbind {A B} (c : cmd A) (k : A -> cmd B) : cmd B :=
  fun s => match c s with Done (a, s) => k a s | Fault => Fault | Spin => Spin end.
Definition cget {A} (f : S -> A) : cmd A := fun s => Done (f s, s).
Definition cput (f : S -> S) : cmd unit := fun s => Done (tt, f s).
Definition fault {A} : cmd A := fun _ => Fault.
Definition spin {A} : cmd A := fun _ => Spin.
End Commands.
Arguments cmd : clear implicits.

Notation "'do:' x '<-' c 'in' k" := (cbind c (fun x => k))
  (at level 10, x pattern, c at level 100, k at level 200) : rust_scope.

(** An element of an array. *)
Definition at_index {S} (buf : list byte) (i : Z) : cmd S Z :=
  if (0 <=? i) && (i <? zlen buf) then
    match buf !! Z.to_nat i with Some b => creturn (byte_val b) | None => fault end
  else fault.

(** [memcpy] out of an array. *)
Definition slice {S} (buf : list byte) (off len : Z) : cmd S (list byte) :=
  if (0 <=? off) && (0 <=? len) && (off + len <=? zlen buf)
  then creturn (take (Z.to_nat len) (drop (Z.to_nat off) buf)) else fault.

(** [buf[off++] = b] and [memcpy(buf + off, ...)] for an array of [cap] bytes
    of which [buf] is filled. *)
Definition emit {S} (cap : Z) (bs buf : list byte) : cmd S (list byte) :=
  if zlen buf + zlen bs <=? cap then creturn (buf ++ bs) else fault.

(** The characters before the terminator; [text] is what was stored and is
    followed by one. *)
Fixpoint c_str (text : list byte) : list byte :=
  match text with
  | [] => []
  | b :: text => if byte_val b =? 0 then [] else b :: c_str text
  end.

(** ** The system *)

Inductive recv_result := RecvBytes (bs : list byte) | RecvAgain | RecvError.
Inductive sock_option :=
| TlsSecTagList | TlsPeerVerify (required : bool) | SoSndTimeo (sec : Z) | SoRcvTimeo (sec : Z)
| TlsHostname (host : list byte).
Inductive credential := CaCertificate | OwnCertificate | OwnPrivateKey.
Inductive transport := IpprotoTcp | IpprotoTls12.

Class Zephyr (X : Type) := {
  k_uptime_get : X -> Z;
  k_sleep : Z -> X -> X;
  memory : X -> Z -> byte;
  zsock_socket : transport -> X -> Z * X;
  zsock_close : Z -> X -> X;
  zsock_setsockopt : Z -> sock_option -> X -> Z * X;
  net_addr_pton : list byte -> option Z;
  zsock_connect : Z -> Z -> Z -> X -> Z * X;
  zsock_send : Z -> list byte -> X -> Z * X;
  zsock_recv : Z -> Z -> X -> recv_result * X;
  zsock_poll : Z -> Z -> X -> Z * X;
  (** 0, [-EEXIST] (-17) or another error *)
  tls_credential_add : credential -> list byte -> X -> Z * X;
  config_net_dhcpv4 : bool;
  net_if_get_default : X -> option Z;
  net_if_down : Z -> X -> X;
  net_if_up : Z -> X -> X;
  net_if_is_up : Z -> X -> bool;
  net_mgmt_set_mac : Z -> list byte -> X -> Z * X;
  net_if_set_link_addr : Z -> list byte -> X -> X;
  net_dhcpv4_start : Z -> X -> X;
  (** some unicast address of the interface is used, preferred and from DHCP *)
  has_dhcp_address : Z -> X -> bool;
  net_if_ipv4_addr_add : Z -> Z -> X -> bool * X;
  net_if_ipv4_set_netmask : Z -> Z -> X -> X;
  net_if_ipv4_set_gw : Z -> Z -> X -> X;
}.

(** [mbedtls_sha256], [mbedtls_pk_parse_key] and [mbedtls_pk_sign] with
    [MBEDTLS_MD_SHA256], which takes a digest and the size of the output. *)
Class MbedTls := {
  mb_key : Type;
  mb_sha256 : list byte -> option (list byte);
  mb_parse_key : list byte -> option mb_key;
  mb_sign : mb_key -> list byte -> Z -> option (list byte);
}.

(** ** The static variables *)

(** [network_handler.c] *)
Record Net := mkNet {
  network_initialized : bool;
  socket_fd : Z;
  net_iface : option Z;
  tls_credentials_ready : bool;
}.

(** [wasmbed_protocol.c]; a buffer with its [_len] is the bytes in use. *)
Record Proto := mkProto {
  protocol_initialized : bool;
  gateway_connected : bool;
  gateway_endpoint : list byte;
  device_public_key : list byte;
  device_client_cert : list byte;
  device_private_key : list byte;
  fleet_ca_cert : list byte;
  wasm_copy_buf : list byte;
  deploy_app_id_buf : list byte;
  current_instance_id : Z;
  app_deployed : bool;
  last_heartbeat_uptime_ms : Z;
  last_app_status_ms : Z;
  last_reconnect_attempt_ms : Z;
}.

Record device (X : Type) := mkDevice { proto : Proto; net : Net; wam : wamr; world : X }.
Arguments mkDevice {X} _ _ _ _.
Arguments proto {X} _.
Arguments net {X} _.
Arguments wam {X} _.
Arguments world {X} _.

Definition net_statics : Net := mkNet false (-1) None false.
Definition proto_statics : Proto := mkProto false false [] [] [] [] [] [] [] 0 false 0 0 0.
Definition powered_on {X} (x : X) : device X := mkDevice proto_statics net_statics wamr_statics x.

Definition set_initialized (p : Proto) : Proto :=
  mkProto true (gateway_connected p) (gateway_endpoint p) (device_public_key p) (device_client_cert p)
    (device_private_key p) (fleet_ca_cert p) (wasm_copy_buf p) (deploy_app_id_buf p)
    (current_instance_id p) (app_deployed p) (last_heartbeat_uptime_ms p) (last_app_status_ms p)
    (last_reconnect_attempt_ms p).
Definition set_connected (b : bool) (p : Proto) : Proto :=
  mkProto (protocol_initialized p) b (gateway_endpoint p) (device_public_key p) (device_client_cert p)
    (device_private_key p) (fleet_ca_cert p) (wasm_copy_buf p) (deploy_app_id_buf p)
    (current_instance_id p) (app_deployed p) (last_heartbeat_uptime_ms p) (last_app_status_ms p)
    (last_reconnect_attempt_ms p).
Definition set_endpoint (e : list byte) (p : Proto) : Proto :=
  mkProto (protocol_initialized p) (gateway_connected p) e (device_public_key p) (device_client_cert p)
    (device_private_key p) (fleet_ca_cert p) (wasm_copy_buf p) (deploy_app_id_buf p)
    (current_instance_id p) (app_deployed p) (last_heartbeat_uptime_ms p) (last_app_status_ms p)
    (last_reconnect_attempt_ms p).
Definition set_identity (key cert priv ca : list byte) (p : Proto) : Proto :=
  mkProto (protocol_initialized p) (gateway_connected p) (gateway_endpoint p) key cert priv ca
    (wasm_copy_buf p) (deploy_app_id_buf p)
    (current_instance_id p) (app_deployed p) (last_heartbeat_uptime_ms p) (last_app_status_ms p)
    (last_reconnect_attempt_ms p).
Definition set_app_id (id : list byte) (p : Proto) : Proto :=
  mkProto (protocol_initialized p) (gateway_connected p) (gateway_endpoint p) (device_public_key p)
    (device_client_cert p) (device_private_key p) (fleet_ca_cert p) (wasm_copy_buf p) id
    (current_instance_id p) (app_deployed p) (last_heartbeat_uptime_ms p) (last_app_status_ms p)
    (last_reconnect_attempt_ms p).
Definition set_wasm_copy (w : list byte) (p : Proto) : Proto :=
  mkProto (protocol_initialized p) (gateway_connected p) (gateway_endpoint p) (device_public_key p)
    (device_client_cert p) (device_private_key p) (fleet_ca_cert p) w (deploy_app_id_buf p)
    (current_instance_id p) (app_deployed p) (last_heartbeat_uptime_ms p) (last_app_status_ms p)
    (last_reconnect_attempt_ms p).
Definition set_app (deployed : bool) (instance : Z) (p : Proto) : Proto :=
  mkProto (protocol_initialized p) (gateway_connected p) (gateway_endpoint p) (device_public_key p)
    (device_client_cert p) (device_private_key p) (fleet_ca_cert p) (wasm_copy_buf p) (deploy_app_id_buf p)
    instance deployed (last_heartbeat_uptime_ms p) (last_app_status_ms p)
    (last_reconnect_attempt_ms p).
Definition set_timers (heartbeat status reconnect : Z) (p : Proto) : Proto :=
  mkProto (protocol_initialized p) (gateway_connected p) (gateway_endpoint p) (device_public_key p)
    (device_client_cert p) (device_private_key p) (fleet_ca_cert p) (wasm_copy_buf p) (deploy_app_id_buf p)
    (current_instance_id p) (app_deployed p) heartbeat status reconnect.
Definition set_heartbeat_timer (t : Z) (p : Proto) : Proto :=
  set_timers t (last_app_status_ms p) (last_reconnect_attempt_ms p) p.
Definition set_status_timer (t : Z) (p : Proto) : Proto :=
  set_timers (last_heartbeat_uptime_ms p) t (last_reconnect_attempt_ms p) p.
Definition set_reconnect_timer (t : Z) (p : Proto) : Proto :=
  set_timers (last_heartbeat_uptime_ms p) (last_app_status_ms p) t p.

Definition set_socket (fd : Z) (n : Net) : Net :=
  mkNet (network_initialized n) fd (net_iface n) (tls_credentials_ready n).
Definition set_iface (i : option Z) (n : Net) : Net :=
  mkNet (network_initialized n) (socket_fd n) i (tls_credentials_ready n).
Definition set_net_ready (n : Net) : Net := mkNet true (socket_fd n) (net_iface n) (tls_credentials_ready n).
Definition set_tls_ready (n : Net) : Net := mkNet (network_initialized n) (socket_fd n) (net_iface n) true.

Section Firmware.
Context {X : Type} `{ZX : Zephyr X} `{RX : Wamr X} `{T : MbedTls}.

#[local] Abbreviation C := (cmd (device X)).

Definition on_proto (f : Proto -> Proto) : C unit :=
  cput (fun d => mkDevice (f (proto d)) (net d) (wam d) (world d)).
Definition on_net (f : Net -> Net) : C unit :=
  cput (fun d => mkDevice (proto d) (f (net d)) (wam d) (world d)).
Definition call {A} (f : X -> A * X) : C A :=
  fun d => let '(a, x) := f (world d) in Done (a, mkDevice (proto d) (net d) (wam d) x).
Definition call_ (f : X -> X) : C unit := call (fun x => (tt, f x)).
Definition call_wamr {A} (f : wamr -> X -> A * wamr * X) : C A :=
  fun d => let '(a, m, x) := f (wam d) (world d) in Done (a, mkDevice (proto d) (net d) m x).
Definition uptime : C Z := cget (fun d => k_uptime_get (world d)).
Definition k_uptime_get_32 : C Z := cget (fun d => wrap32 (k_uptime_get (world d))).
Definition pget {A} (f : Proto -> A) : C A := cget (fun d => f (proto d)).
Definition nget {A} (f : Net -> A) : C A := cget (fun d => f (net d)).

(** ** [network_handler.c] *)

(** [apply_injected_mac] *)
Definition apply_injected_mac (iface : Z) : C unit :=
  do: mac <- cget (fun d => read_injected_mac (memory (world d))) in
  match mac with
  | None => creturn tt
  | Some mac =>
      do: _ <- call_ (net_if_down iface) in
      do: ret <- call (net_mgmt_set_mac iface mac) in
      if negb (ret =? 0) then call_ (net_if_set_link_addr iface mac) else creturn tt
  end.

(** [configure_static_ipv4_fallback] *)
Definition configure_static_ipv4_fallback : C Z :=
  do: iface <- nget net_iface in
  match iface with
  | None => creturn (-1)
  | Some iface =>
      match net_addr_pton (str_bytes "192.168.1.2"), net_addr_pton (str_bytes "255.255.255.0"),
            net_addr_pton (str_bytes "192.168.1.1") with
      | Some addr, Some netmask, Some gateway =>
          do: ok <- call (net_if_ipv4_addr_add iface addr) in
          if negb ok then creturn (-1) else
          do: _ <- call_ (net_if_ipv4_set_netmask iface netmask) in
          do: _ <- call_ (net_if_ipv4_set_gw iface gateway) in
          creturn 0
      | _, _, _ => creturn (-1)
      end
  end.

(** The loop over the default interface: ten attempts, half a second apart. *)
Fixpoint find_iface (retries : nat) : C unit :=
  match retries with
  | O => creturn tt
  | S retries =>
      do: iface <- cget (fun d => net_if_get_default (world d)) in
      do: _ <- on_net (set_iface iface) in
      match iface with
      | Some _ => creturn tt
      | None => do: _ <- call_ (k_sleep 500) in find_iface retries
      end
  end.

(** The wait for an address: one second a round. *)
Fixpoint wait_dhcp (rounds : nat) (iface : Z) : C bool :=
  match rounds with
  | O => creturn false
  | S rounds =>
      do: got_ip <- cget (fun d => has_dhcp_address iface (world d)) in
      if got_ip : bool then creturn true else
      do: _ <- call_ (k_sleep 1000) in wait_dhcp rounds iface
  end.

(** [network_init] *)
Definition network_init : C Z :=
  do: ready <- nget network_initialized in
  if ready : bool then creturn 0 else
  do: _ <- find_iface 10 in
  do: iface <- nget net_iface in
  match iface with
  | None => creturn (-1)
  | Some iface =>
      do: _ <- apply_injected_mac iface in
      do: up <- cget (fun d => net_if_is_up iface (world d)) in
      do: _ <- (if up : bool then creturn tt else call_ (net_if_up iface)) in
      do: _ <- (if config_net_dhcpv4 then
                  do: _ <- call_ (net_dhcpv4_start iface) in
                  do: got_ip <- wait_dhcp 120 iface in
                  if got_ip : bool then creturn tt else
                  do: _ <- configure_static_ipv4_fallback in creturn tt
                else call_ (k_sleep 2000)) in
      do: _ <- on_net set_net_ready in
      creturn 0
  end.

(** Closes the socket of an attempt that failed. *)
Definition drop_socket : C unit :=
  do: fd <- nget socket_fd in
  do: _ <- call_ (zsock_close fd) in on_net (set_socket (-1)).

(** The part that [network_connect] and [network_connect_tls] begin with: the
    old socket is closed and a new one opened. *)
Definition open_socket (t : transport) : C bool :=
  do: old <- nget socket_fd in
  do: _ <- (if 0 <=? old then drop_socket else creturn tt) in
  do: fd <- call (zsock_socket t) in
  do: _ <- on_net (set_socket fd) in
  creturn (0 <=? fd).

Definition setsockopt (o : sock_option) : C Z :=
  do: fd <- nget socket_fd in call (zsock_setsockopt fd o).

(** The part that they end with. *)
Definition connect_to (addr port : Z) : C Z :=
  do: fd <- nget socket_fd in
  do: r <- call (zsock_connect fd addr port) in
  if r <? 0 then do: _ <- drop_socket in creturn (-1) else creturn 0.

(** [network_connect] *)
Definition network_connect (host : list byte) (port : Z) : C Z :=
  do: ready <- nget network_initialized in
  if negb ready then creturn (-1) else
  do: ok <- open_socket IpprotoTcp in
  if negb ok then creturn (-1) else
  match net_addr_pton host with
  | None => do: _ <- drop_socket in creturn (-1)
  | Some addr => connect_to addr port
  end.

(** The result of [tls_credential_add] counts as success when the credential
    is there already. *)
Definition add_credential (k : credential) (der : list byte) : C bool :=
  do: ret <- call (tls_credential_add k der) in creturn ((ret =? 0) || (ret =? -17)).

(** [network_set_tls_credentials] *)
Definition network_set_tls_credentials (ca cert key : list byte) : C Z :=
  if (zlen ca =? 0) || (zlen cert =? 0) || (zlen key =? 0) then creturn (-1) else
  do: ok <- add_credential CaCertificate ca in
  if negb ok then creturn (-1) else
  do: ok <- add_credential OwnCertificate cert in
  if negb ok then creturn (-1) else
  do: ok <- add_credential OwnPrivateKey key in
  if negb ok then creturn (-1) else
  do: _ <- on_net set_tls_ready in creturn 0.

(** [network_connect_tls] *)
Definition network_connect_tls (host : list byte) (port : Z) : C Z :=
  do: ready <- nget network_initialized in
  if negb ready then creturn (-1) else
  do: ok <- open_socket IpprotoTls12 in
  if negb ok then creturn (-1) else
  do: creds <- nget tls_credentials_ready in
  do: tagged <- (if creds : bool then setsockopt TlsSecTagList else creturn 0) in
  if tagged <? 0 then do: _ <- drop_socket in creturn (-1) else
  do: _ <- setsockopt (TlsPeerVerify creds) in
  do: _ <- setsockopt (SoSndTimeo 30) in
  do: _ <- setsockopt (SoRcvTimeo 30) in
  match net_addr_pton host with
  | None => do: _ <- drop_socket in creturn (-1)
  | Some addr =>
      do: _ <- setsockopt (TlsHostname host) in
      connect_to addr port
  end.

(** [network_send]: a partial send is logged and counts as success. *)
Definition network_send (data : list byte) : C Z :=
  do: fd <- nget socket_fd in
  if fd <? 0 then creturn (-1) else
  do: sent <- call (zsock_send fd data) in
  if sent <? 0 then creturn (-1) else creturn 0.

(** [network_receive] into a buffer with room for [len] bytes. *)
Definition network_receive (len : Z) : C (option (list byte)) :=
  do: fd <- nget socket_fd in
  if fd <? 0 then creturn None else
  do: r <- call (zsock_recv fd len) in
  match r with
  | RecvError => creturn None
  | RecvAgain => creturn (Some [])
  | RecvBytes bs => if zlen bs <=? len then creturn (Some bs) else fault
  end.

(** [network_poll_readable] *)
Definition network_poll_readable (timeout_ms : Z) : C Z :=
  do: fd <- nget socket_fd in
  if fd <? 0 then creturn (-1) else call (zsock_poll fd timeout_ms).

(** [network_process] only logs. *)
Definition network_process : C unit := creturn tt.

(** The two loops of [network_receive_framed]: receive until [need] bytes are
    there, into an array of [room] bytes; no deadline, an empty receive fails.
    Every round adds a byte, so [need] rounds are enough. *)
Fixpoint recv_exactly (fuel : nat) (fd need room : Z) (got : list byte) : C (option (list byte)) :=
  if need <=? zlen got then creturn (Some got) else
  match fuel with
  | O => spin
  | S fuel =>
      do: r <- call (zsock_recv fd (need - zlen got)) in
      match r with
      | RecvError | RecvAgain | RecvBytes [] => creturn None
      | RecvBytes bs =>
          if zlen (got ++ bs) <=? room then recv_exactly fuel fd need room (got ++ bs) else fault
      end
  end.

(** [network_receive_framed] *)
Definition network_receive_framed (buffer_len : Z) : C (option (list byte)) :=
  do: fd <- nget socket_fd in
  if fd <? 0 then creturn None else
  do: hdr <- recv_exactly 4 fd 4 buffer_len [] in
  match hdr with
  | None => creturn None
  | Some hdr =>
      let payload_len := be_value hdr in
      if buffer_len <? wrap32 (4 + payload_len) then creturn None else
      do: payload <- recv_exactly (Z.to_nat payload_len) fd payload_len (buffer_len - 4) [] in
      creturn (match payload with Some payload => Some (hdr ++ payload) | None => None end)
  end.

(** ** [wasmbed_protocol.c]: frames *)

Definition heartbeat_packet : list byte := map byte_of [0x00; 0x00; 0x00; 0x02; 0x81; 0x00].
Definition enrollment_request_pkt : list byte := map byte_of [0x00; 0x00; 0x00; 0x02; 0x81; 0x01].
Definition enrollment_ack_pkt : list byte := map byte_of [0x00; 0x00; 0x00; 0x02; 0x81; 0x03].

(** The two loops of [recv_frame]: receive into the rest of the buffer until
    [need] bytes are there, or the deadline has passed. *)
Fixpoint recv_until (fuel : nat) (need buf_len deadline : Z) (got : list byte) : C (option (list byte)) :=
  if need <=? zlen got then creturn (Some got) else
  match fuel with
  | O => spin
  | S fuel =>
      do: chunk <- network_receive (buf_len - zlen got) in
      match chunk with
      | None => creturn None
      | Some chunk =>
          let got := got ++ chunk in
          if zlen got <? need then
            do: now <- uptime in
            if deadline <=? now then creturn None else
            do: _ <- call_ (k_sleep 50) in recv_until fuel need buf_len deadline got
          else creturn (Some got)
      end
  end.

(** The rounds of 50 ms that fit into a timeout, and two more. *)
Definition recv_rounds (timeout_ms : Z) : nat := Z.to_nat (timeout_ms / 50 + 2).

(** [recv_frame]: the bytes now in the buffer, and [*total_len]. *)
Definition recv_frame (buf_len timeout_ms : Z) : C (option (list byte * Z)) :=
  do: start <- uptime in
  let deadline := start + timeout_ms in
  do: got <- recv_until (recv_rounds timeout_ms) 4 buf_len deadline [] in
  match got with
  | None => creturn None
  | Some got =>
      let payload_len := be_value (take 4 got) in
      let frame_len := wrap32 (4 + payload_len) in
      if buf_len <? frame_len then creturn None else
      do: got <- recv_until (recv_rounds timeout_ms) frame_len buf_len deadline got in
      creturn (match got with Some got => Some (got, frame_len) | None => None end)
  end.

(** [buf[4] == a && buf[5] == b] *)
Definition tagged (rx : list byte) (a b : Z) : C bool :=
  do: x <- at_index rx 4 in
  if negb (x =? a) then creturn false else
  do: y <- at_index rx 5 in creturn (y =? b).

(** The packets with one byte string: [82 tag 58 len ...] in an array of [cap]
    bytes. *)
Definition bytes_packet (cap tag : Z) (bs : list byte) : C (list byte) :=
  let cbor_len := 4 + zlen bs in
  emit cap bs (map byte_of [0x00; 0x00; Z.land (Z.shiftr cbor_len 8) 0xFF; Z.land cbor_len 0xFF;
                            0x82; tag; 0x58; zlen bs]).

(** [read_device_public_key] *)
Definition read_device_public_key : C unit :=
  do: key <- cget (fun d => read_injected_blob (memory (world d)) DEVICE_KEY_ADDR 128) in
  on_proto (fun q => set_identity (default [] key) (device_client_cert q) (device_private_key q)
                       (fleet_ca_cert q) q).

(** [read_device_credentials] *)
Definition read_device_credentials : C unit :=
  do: cert <- cget (fun d => read_injected_blob (memory (world d)) DEVICE_CERT_ADDR 768) in
  do: priv <- cget (fun d => read_injected_blob (memory (world d)) DEVICE_PRIVKEY_ADDR 192) in
  do: ca <- cget (fun d => read_injected_blob (memory (world d)) DEVICE_CA_ADDR 1024) in
  on_proto (fun q => set_identity (device_public_key q) (default [] cert) (default [] priv)
                       (default [] ca) q).

Definition POP_CONTEXT : list byte := str_bytes "wasmbed-pop-v1".

(** [pop_transcript]: the digest of the three parts. *)
Definition pop_transcript (nonce : list byte) : C (option (list byte)) :=
  do: key <- pget device_public_key in creturn (mb_sha256 (POP_CONTEXT ++ nonce ++ key)).

(** [sign_challenge] *)
Definition sign_challenge (nonce : list byte) (sig_size : Z) : C (option (list byte)) :=
  do: priv <- pget device_private_key in
  if zlen priv =? 0 then creturn None else
  do: hash <- pop_transcript nonce in
  match hash with
  | None => creturn None
  | Some hash =>
      match mb_parse_key priv with
      | None => creturn None
      | Some pk => creturn (mb_sign pk hash sig_size)
      end
  end.

(** ** Enrollment *)

(** [recv_frame] followed by [ret < 0 || rx_len < 6]. *)
Definition recv_reply : C (option (list byte * Z)) :=
  do: r <- recv_frame 64 5000 in
  creturn (match r with Some (rx, rx_len) => if rx_len <? 6 then None else Some (rx, rx_len) | None => None end).

(** The branch that answers a challenge: the next frame. *)
Definition answer_challenge (rx : list byte) (rx_len : Z) : C (option (list byte)) :=
  if rx_len <? 8 then creturn None else
  do: kind <- at_index rx 6 in
  if negb (kind =? 0x58) then creturn None else
  do: nonce_len <- at_index rx 7 in
  if (nonce_len =? 0) || (rx_len <? 8 + nonce_len) then creturn None else
  do: nonce <- slice rx 8 nonce_len in
  do: sig <- sign_challenge nonce 80 in
  match sig with
  | None => creturn None
  | Some sig =>
      if 255 <? zlen sig then creturn None else
      do: resp_pkt <- bytes_packet (8 + 80) 0x08 sig in
      do: ret <- network_send resp_pkt in
      if ret <? 0 then creturn None else
      do: reply <- recv_reply in
      creturn (fst <$> reply)
  end.

(** The steps after the key has been announced. *)
Definition finish_enrollment (rx : list byte) : C Z :=
  do: uuid <- tagged rx 0x82 0x03 in
  if negb uuid then creturn (-1) else
  do: ret <- network_send enrollment_ack_pkt in
  if ret <? 0 then creturn (-1) else
  do: _ <- recv_frame 64 3000 in
  creturn 0.

Definition announce_key : C Z :=
  do: cached <- pget device_public_key in
  do: _ <- (if zlen cached =? 0 then read_device_public_key else creturn tt) in
  do: key <- pget device_public_key in
  if (zlen key =? 0) || (255 <? zlen key) then creturn (-1) else
  do: pub_key_pkt <- bytes_packet (8 + 128) 0x02 key in
  network_send pub_key_pkt.

(** [do_enrollment]; the last frame is only logged. *)
Definition do_enrollment : C Z :=
  do: ret <- network_send enrollment_request_pkt in
  if ret <? 0 then creturn (-1) else
  do: reply <- recv_reply in
  match reply with
  | None => creturn (-1)
  | Some (rx, _) =>
      do: accepted <- tagged rx 0x81 0x01 in
      if negb accepted then creturn (-1) else
      do: ret <- announce_key in
      if ret <? 0 then creturn (-1) else
      do: reply <- recv_reply in
      match reply with
      | None => creturn (-1)
      | Some (rx, rx_len) =>
          do: challenge <- tagged rx 0x82 0x09 in
          if challenge : bool then
            do: rx <- answer_challenge rx rx_len in
            match rx with None => creturn (-1) | Some rx => finish_enrollment rx end
          else finish_enrollment rx
      end
  end.

(** ** The endpoint *)

(** [strchr(s, ':')]: what is before and after the first colon. *)
Fixpoint split_colon (s : list byte) : option (list byte * list byte) :=
  match s with
  | [] => None
  | b :: s =>
      if byte_val b =? 58 then Some ([], s)
      else match split_colon s with Some (h, t) => Some (b :: h, t) | None => None end
  end.

Definition is_space (b : byte) : bool := (byte_val b =? 32) || in_range 9 13 b.

Fixpoint skip_space (s : list byte) : list byte :=
  match s with b :: t => if is_space b then skip_space t else s | [] => [] end.

Fixpoint digits_value (acc : Z) (s : list byte) : Z :=
  match s with
  | b :: s => if in_range 48 57 b then digits_value (10 * acc + (byte_val b - 48)) s else acc
  | [] => acc
  end.

Definition atoi_value (s : list byte) : Z :=
  match skip_space s with
  | b :: t => if byte_val b =? 45 then - digits_value 0 t
              else if byte_val b =? 43 then digits_value 0 t else digits_value 0 (b :: t)
  | [] => 0
  end.

Definition is_int (v : Z) : bool := (- 2 ^ 31 <=? v) && (v <? 2 ^ 31).

(** [atoi]; a value outside of [int] is undefined behaviour. *)
Definition atoi (s : list byte) : C Z :=
  if is_int (atoi_value s) then creturn (atoi_value s) else fault.

(** [parse_endpoint] into [host[64]]; the port is cast to 16 bits. *)
Definition parse_endpoint (endpoint : list byte) : C (option (list byte * Z)) :=
  match split_colon endpoint with
  | None => creturn None
  | Some (host, rest) =>
      if 64 <=? zlen host then creturn None else
      do: v <- atoi rest in
      let port := v mod 2 ^ 16 in
      if port =? 0 then creturn None else creturn (Some (host, port))
  end.

(** ** Start-up *)

(** [wasmbed_protocol_init]; [check_credentials] only logs. *)
Definition wasmbed_protocol_init : C Z :=
  do: done <- pget protocol_initialized in
  if done : bool then creturn 0 else
  do: endpoint <- cget (fun d => read_gateway_endpoint (memory (world d))) in
  do: _ <- on_proto (set_endpoint (default (str_bytes "127.0.0.1:40029") endpoint)) in
  do: _ <- read_device_public_key in
  do: _ <- read_device_credentials in
  do: q <- pget id in
  do: _ <- network_set_tls_credentials (fleet_ca_cert q) (device_client_cert q) (device_private_key q) in
  do: hp <- parse_endpoint (c_str (gateway_endpoint q)) in
  do: _ <- match hp with
           | None => creturn tt
           | Some (host, port) =>
               do: _ <- call_ (k_sleep 1000) in
               do: r <- network_connect_tls host port in
               if r =? 0 then
                 do: _ <- on_proto (set_connected true) in
                 do: _ <- do_enrollment in creturn tt
               else creturn tt
           end in
  do: _ <- on_proto set_initialized in
  creturn 0.

(** ** Reading CBOR

    A pointer into the frame is an offset. *)

Definition MAX_WASM_SIZE : Z := 16 * 1024.
Definition MAX_APP_ID_LEN : Z := 64.

(** The length and the start of a string whose first byte for length 0 is
    [base] (0x60 for text, 0x40 for bytes). *)
Definition cbor_string_head (base : Z) (frame : list byte) (pp end_ : Z) : C (option (Z * Z)) :=
  do: b <- at_index frame pp in
  if (base <=? b) && (b <=? base + 0x17) then creturn (Some (b - base, pp + 1)) else
  if (b =? base + 0x18) && (pp + 2 <=? end_) then
    do: l <- at_index frame (pp + 1) in creturn (Some (l, pp + 2))
  else if (b =? base + 0x19) && (pp + 3 <=? end_) then
    do: h <- at_index frame (pp + 1) in
    do: l <- at_index frame (pp + 2) in creturn (Some (Z.lor (Z.shiftl h 8) l, pp + 3))
  else creturn None.

(** [cbor_read_text]: the text that fits into [buf_size] bytes with its
    terminator, and the pointer after as many bytes as were copied. *)
Definition cbor_read_text (frame : list byte) (pp end_ buf_size : Z) : C (option (list byte * Z)) :=
  if (end_ <=? pp) || (buf_size =? 0) then creturn None else
  do: hd <- cbor_string_head 0x60 frame pp end_ in
  match hd with
  | None => creturn None
  | Some (len, start) =>
      if end_ <? start + len then creturn None else
      let len := if buf_size <=? len then buf_size - 1 else len in
      do: text <- slice frame start len in
      creturn (Some (text, start + len))
  end.

(** [cbor_skip_text] *)
Definition cbor_skip_text (frame : list byte) (pp end_ : Z) : C (option Z) :=
  if end_ <=? pp then creturn None else
  do: hd <- cbor_string_head 0x60 frame pp end_ in
  match hd with
  | None => creturn None
  | Some (len, start) => if end_ <? start + len then creturn None else creturn (Some (start + len))
  end.

(** [cbor_read_bytes]: pointer, length, and the pointer after. *)
Definition cbor_read_bytes (frame : list byte) (pp end_ : Z) : C (option (Z * Z * Z)) :=
  if end_ <=? pp then creturn None else
  do: hd <- cbor_string_head 0x40 frame pp end_ in
  match hd with
  | None => creturn None
  | Some (len, start) =>
      if end_ <? start + len then creturn None else creturn (Some (start, len, start + len))
  end.

(** ** Sending *)

(** [wasmbed_protocol_send_message] *)
Definition wasmbed_protocol_send_message (data : list byte) : C Z :=
  do: ready <- pget protocol_initialized in
  if negb ready then creturn (-1) else
  do: connected <- pget gateway_connected in
  if negb connected then creturn (-1) else
  if zlen data =? 0 then creturn (-1) else
  do: r <- network_send data in
  if negb (r =? 0) then creturn (-1) else creturn 0.

(** [wasmbed_protocol_send_heartbeat] *)
Definition wasmbed_protocol_send_heartbeat : C Z := wasmbed_protocol_send_message heartbeat_packet.

(** The four bytes [buf[0..3]] left free for the length. *)
Definition length_prefix (buf : list byte) : list byte :=
  let cbor_len := zlen buf - 4 in
  map byte_of [Z.shiftr cbor_len 24; Z.shiftr cbor_len 16; Z.shiftr cbor_len 8; cbor_len] ++ drop 4 buf.

(** A text of less than 256 bytes: [60+len] or [78 len], then its bytes. *)
Definition emit_text (cap : Z) (text buf : list byte) : C (list byte) :=
  do: buf <- (if zlen text <=? 23 then emit cap [byte_of (0x60 + zlen text)] buf
              else do: buf <- emit cap [byte_of 0x78] buf in emit cap [byte_of (zlen text)] buf) in
  emit cap text buf.

(** [send_deploy_ack]; [None] is a NULL message. *)
Definition deploy_ack_packet (app_id : list byte) (success : bool) (error_msg : option (list byte)) : C (list byte) :=
  let cap := 4 + 64 + 96 in
  let app_id := take 63 app_id in
  let error := take 63 (default [] error_msg) in
  do: buf <- emit cap (map byte_of [0x84; 0x05]) (replicate 4 Byte.x00) in
  do: buf <- emit_text cap app_id buf in
  do: buf <- emit cap [byte_of (if success then 0xf5 else 0xf4)] buf in
  do: buf <- (if zlen error =? 0 then emit cap [byte_of 0xf6] buf else emit_text cap error buf) in
  creturn (length_prefix buf).

Definition send_deploy_ack (app_id : list byte) (success : bool) (error_msg : option (list byte)) : C unit :=
  do: pkt <- deploy_ack_packet app_id success error_msg in
  do: _ <- wasmbed_protocol_send_message pkt in creturn tt.

(** [send_application_status] *)
Definition application_status_packet (app_id : list byte) (status : Z) : C (list byte) :=
  let cap := 4 + 2 + 1 + MAX_APP_ID_LEN + 1 + 1 + 1 in
  let app_id := take 63 app_id in
  do: buf <- emit cap (map byte_of [0x85; 0x04]) (replicate 4 Byte.x00) in
  do: buf <- emit_text cap app_id buf in
  do: buf <- emit cap (map byte_of [status; 0xf6; 0xf6]) buf in
  creturn (length_prefix buf).

Definition send_application_status (app_id : list byte) (status : Z) : C unit :=
  do: pkt <- application_status_packet app_id status in
  do: _ <- wasmbed_protocol_send_message pkt in creturn tt.

(** The identifier as a C string. *)
Definition app_id : C (list byte) := cget (fun d => c_str (deploy_app_id_buf (proto d))).

(** ** Deployment *)

(** [handle_deploy_application] *)
Definition handle_deploy_application (frame : list byte) (hash_ptr wasm_ptr wasm_len : Z) : C Z :=
  if (wasm_len =? 0) || (MAX_WASM_SIZE <? wasm_len) then creturn (-1) else
  do: wasm <- slice frame wasm_ptr wasm_len in
  match mb_sha256 wasm with
  | None => creturn (-1)
  | Some actual_hash =>
      do: module_hash <- slice frame hash_ptr 32 in
      if negb (bool_decide (actual_hash = module_hash)) then creturn (-1) else
      do: _ <- call_wamr (fun m x => let '(m, x) := wamr_cleanup m x in (tt, m, x)) in
      do: r <- call_wamr wamr_init in
      if negb (r =? 0) then creturn (-1) else
      do: _ <- on_proto (set_app false 0) in
      do: _ <- on_proto (set_wasm_copy wasm) in
      do: module_id <- call_wamr (wamr_load_module wasm) in
      match module_id with
      | None => creturn (-1)
      | Some module_id =>
          do: instance_id <- call_wamr (wamr_instantiate module_id) in
          match instance_id with
          | None => creturn (-1)
          | Some instance_id =>
              do: _ <- call_wamr (wamr_call_wasi_start instance_id) in
              do: _ <- on_proto (set_app true instance_id) in
              do: now <- k_uptime_get_32 in
              do: _ <- on_proto (set_status_timer now) in
              creturn 0
          end
      end
  end.

Definition refuse (app_id : list byte) (why : string) : C Z :=
  do: _ <- send_deploy_ack app_id false (Some (str_bytes why)) in creturn 0.

(** The branch of [wasmbed_protocol_handle_message] for DeployApplication; the
    payload is [frame] from 4 to [cbor_end]. *)
Definition receive_deploy (frame : list byte) (cbor_end : Z) : C Z :=
  do: id <- cbor_read_text frame 6 cbor_end MAX_APP_ID_LEN in
  match id with
  | None => refuse [] "parse app_id"
  | Some (text, pp) =>
      do: _ <- on_proto (set_app_id text) in
      do: id <- app_id in
      do: name <- cbor_skip_text frame pp cbor_end in
      match name with
      | None => refuse id "parse name"
      | Some pp =>
          do: hash <- cbor_read_bytes frame pp cbor_end in
          match hash with
          | Some (hash_ptr, 32, pp) =>
              do: wasm <- cbor_read_bytes frame pp cbor_end in
              match wasm with
              | None => refuse id "parse wasm_bytes"
              | Some (wasm_ptr, wasm_len, _) =>
                  do: r <- handle_deploy_application frame hash_ptr wasm_ptr wasm_len in
                  if r =? 0 then do: _ <- send_deploy_ack id true None in creturn 0
                  else refuse id "hash or load/instantiate failed"
              end
          | _ => refuse id "parse module_hash"
          end
      end
  end.

(** [wasmbed_protocol_handle_message]; [data] is the buffer, of which
    [data_len] bytes are the message. *)
Definition wasmbed_protocol_handle_message (data : list byte) (data_len : Z) : C Z :=
  do: ready <- pget protocol_initialized in
  if negb ready then creturn (-1) else
  if data_len =? 0 then creturn (-1) else
  if data_len <? 4 then creturn 0 else
  do: head <- slice data 0 4 in
  let payload_len := be_value head in
  if (wrap32 (4 + payload_len) <=? data_len) && (2 <=? payload_len) then
    do: deploy <- tagged data 0x86 0x05 in
    if deploy : bool then receive_deploy data (4 + payload_len) else creturn 0
  else creturn 0.

(** [wasmbed_protocol_recv_and_handle] *)
Definition wasmbed_protocol_recv_and_handle (timeout_ms : Z) : C Z :=
  do: ready <- pget protocol_initialized in
  do: connected <- pget gateway_connected in
  if negb ready || negb connected then creturn (-1) else
  do: readable <- network_poll_readable timeout_ms in
  if readable <? 0 then do: _ <- on_proto (set_connected false) in creturn (-1) else
  if readable =? 0 then creturn 1 else
  do: r <- recv_frame (MAX_WASM_SIZE + 128) 5000 in
  match r with
  | None | Some (_, 0) => do: _ <- on_proto (set_connected false) in creturn (-1)
  | Some (frame, total_len) => wasmbed_protocol_handle_message frame total_len
  end.

(** ** The periodic work *)

Definition HEARTBEAT_INTERVAL_MS : Z := 25000.
Definition APP_STATUS_INTERVAL_MS : Z := 30000.
Definition RECONNECT_INTERVAL_MS : Z := 30000.

(** [try_connect_gateway] *)
Definition try_connect_gateway : C Z :=
  do: endpoint <- cget (fun d => c_str (gateway_endpoint (proto d))) in
  do: hp <- parse_endpoint endpoint in
  match hp with
  | None => creturn (-1)
  | Some (host, port) =>
      do: r <- network_connect_tls host port in
      if negb (r =? 0) then creturn (-1) else
      do: _ <- on_proto (set_connected true) in
      do: _ <- do_enrollment in
      creturn 0
  end.

(** [now - last >= interval] on unsigned 32-bit integers. *)
Definition due (now last interval : Z) : bool := interval <=? wrap32 (now - last).

Definition heartbeat_tick (now : Z) : C unit :=
  do: last <- pget last_heartbeat_uptime_ms in
  if negb (due now last HEARTBEAT_INTERVAL_MS) then creturn tt else
  do: r <- wasmbed_protocol_send_heartbeat in
  if r =? 0 then on_proto (set_heartbeat_timer now) else
  do: _ <- on_proto (set_connected false) in
  on_proto (set_reconnect_timer (wrap32 (now - RECONNECT_INTERVAL_MS))).

Definition status_tick (now : Z) : C unit :=
  do: deployed <- pget app_deployed in
  do: last <- pget last_app_status_ms in
  if negb (deployed && due now last APP_STATUS_INTERVAL_MS) then creturn tt else
  do: id <- app_id in
  do: _ <- send_application_status id 0x01 in
  on_proto (set_status_timer now).

(** [wasmbed_protocol_tick] *)
Definition wasmbed_protocol_tick : C unit :=
  do: now <- k_uptime_get_32 in
  do: connected <- pget gateway_connected in
  if negb connected then
    do: last <- pget last_reconnect_attempt_ms in
    if negb (due now last RECONNECT_INTERVAL_MS) then creturn tt else
    do: _ <- on_proto (set_reconnect_timer now) in
    do: _ <- try_connect_gateway in creturn tt
  else
    do: _ <- heartbeat_tick now in
    status_tick now.

(** ** [main.c] *)

(** One round of the main loop; [wamr_process] does nothing. *)
Definition main_round : C unit :=
  do: _ <- network_process in
  do: _ <- wasmbed_protocol_recv_and_handle 100 in
  do: _ <- wasmbed_protocol_tick in
  call_ (k_sleep 100).

(** [main] up to its loop: whether the loop is entered. *)
Definition main_start : C bool :=
  do: _ <- network_init in
  do: r <- call_wamr wamr_init in
  if negb (r =? 0) then creturn false else
  do: r <- wasmbed_protocol_init in
  creturn (r =? 0).

(** [main] after a number of rounds. *)
Fixpoint main_rounds (k : nat) : C unit :=
  match k with O => creturn tt | S k => do: _ <- main_round in main_rounds k end.

Definition main (k : nat) : C unit :=
  do: ready <- main_start in
  if ready : bool then main_rounds k else creturn tt.
End Firmware.
