(* ===== verification/FirmwareProofs.v ===== *)
(** * The firmware is safe

    No command of [Firmware] reads or writes outside of an array, and every
    loop ends, whatever the gateway and the network deliver. The proofs go
    through a small program logic: [wp c Q d] says that [c] ends in [d] with a
    result that satisfies [Q]. *)

From S2P Require Import Prelude.
From S2P Require Import RustStd.
From S2P Require Import Externals.
From S2P Require Import Renode.
From S2P Require Import RenodeProofs.
From S2P Require Import FirmwareWamr.
From S2P Require Import Firmware.

(** ** What the system promises *)

(** A receive fills no more than the room it was given and time does not run
    backwards; sleeping takes its time. *)
Class ZephyrLaws {X : Type} (ZX : Zephyr X) : Prop := {
  recv_room fd len x bs x' : zsock_recv fd len x = (RecvBytes bs, x') -> zlen bs <= Z.max 0 len;
  recv_clock fd len x : k_uptime_get x <= k_uptime_get (zsock_recv fd len x).2;
  sleep_clock t x : k_uptime_get x + t <= k_uptime_get (k_sleep t x);
}.

(** A signature fits into the size that was passed. *)
Class MbedTlsLaws (T : MbedTls) : Prop := {
  mb_sign_size k h size s : mb_sign k h size = Some s -> zlen s <= size;
}.

(** ** The program logic *)

Section Logic.
Context {S : Type}.

Definition wp {A} (c : cmd S A) (Q : A -> S -> Prop) (d : S) : Prop :=
  match c d with Done (a, d) => Q a d | Fault | Spin => False end.

Lemma wp_bind {A B} (c : cmd S A) (k : A -> cmd S B) Q d :
  wp c (fun a d => wp (k a) Q d) d -> wp (cbind c k) Q d.
Proof. unfold wp, cbind. destruct (c d) as [[a d']| |]; done. Qed.

Lemma wp_mono {A} (c : cmd S A) (Q R : A -> S -> Prop) d :
  (forall a d, Q a d -> R a d) -> wp c Q d -> wp c R d.
Proof. unfold wp. intros H. destruct (c d) as [[a d']| |]; auto. Qed.

Lemma wp_done {A} (c : cmd S A) Q d : wp c Q d -> exists a d', c d = Done (a, d') /\ Q a d'.
Proof. unfold wp. destruct (c d) as [[a d']| |]; [eauto|done..]. Qed.

Variable I : S -> Prop.

(** The command keeps the invariant and its answers satisfy [Q]. *)
Definition ensures {A} (c : cmd S A) (Q : A -> Prop) : Prop :=
  forall d, I d -> wp c (fun a d => I d /\ Q a) d.
Definition keeps {A} (c : cmd S A) : Prop := ensures c (fun _ => True).

Lemma ensures_bind {A B} (c : cmd S A) (k : A -> cmd S B) P Q :
  ensures c P -> (forall a, P a -> ensures (k a) Q) -> ensures (cbind c k) Q.
Proof.
  intros Hc Hk d Hd. apply wp_bind. eapply wp_mono; [|by apply Hc]. simpl.
  intros a d' [Hd' Ha]. by apply Hk.
Qed.

Lemma ensures_return {A} (a : A) (Q : A -> Prop) : Q a -> ensures (creturn a) Q.
Proof. by intros Ha d Hd. Qed.

Lemma ensures_weaken {A} (c : cmd S A) (P Q : A -> Prop) :
  (forall a, P a -> Q a) -> ensures c P -> ensures c Q.
Proof. intros H Hc d Hd. eapply wp_mono; [|by apply Hc]. simpl. intros a d' [? ?]. auto. Qed.

Lemma keeps_then {A B} (c : cmd S A) (k : A -> cmd S B) :
  keeps c -> (forall a, keeps (k a)) -> keeps (cbind c k).
Proof. intros Hc Hk. eapply ensures_bind; [exact Hc|]. intros a _. apply Hk. Qed.

Lemma keeps_return {A} (a : A) : keeps (creturn a).
Proof. by apply ensures_return. Qed.

Lemma keeps_get {A} (f : S -> A) : keeps (cget f).
Proof. by intros d Hd. Qed.

Lemma ensures_get {A} (f : S -> A) (Q : A -> Prop) : (forall d, I d -> Q (f d)) -> ensures (cget f) Q.
Proof. intros H d Hd. split; [done|]. by apply H. Qed.

Lemma keeps_put (f : S -> S) : (forall d, I d -> I (f d)) -> keeps (cput f).
Proof. intros H d Hd. split; [by apply H|done]. Qed.

Lemma ensures_index buf i (Q : Z -> Prop) :
  0 <= i < zlen buf -> (forall b, buf !! Z.to_nat i = Some b -> Q (byte_val b)) -> ensures (at_index buf i) Q.
Proof.
  intros Hi HQ. unfold at_index. rewrite (proj2 (Z.leb_le _ _)), (proj2 (Z.ltb_lt _ _)) by lia. simpl.
  destruct (lookup_lt_is_Some_2 buf (Z.to_nat i)) as [b Hb]; [unfold zlen in Hi; lia|].
  rewrite Hb. apply ensures_return. by apply HQ.
Qed.

Lemma keeps_index buf i : 0 <= i < zlen buf -> ensures (at_index buf i) (fun b => 0 <= b < 256).
Proof. intros Hi. apply ensures_index; [done|]. intros b _. apply byte_val_range. Qed.

Lemma ensures_slice buf off len :
  0 <= off -> 0 <= len -> off + len <= zlen buf ->
  ensures (slice buf off len) (fun bs => bs = take (Z.to_nat len) (drop (Z.to_nat off) buf)).
Proof.
  intros H1 H2 H3. unfold slice. rewrite !(proj2 (Z.leb_le _ _)) by lia. by apply ensures_return.
Qed.

Lemma ensures_emit cap bs buf :
  zlen buf + zlen bs <= cap -> ensures (emit cap bs buf) (fun r => r = buf ++ bs).
Proof. intros H. unfold emit. rewrite (proj2 (Z.leb_le _ _)) by lia. by apply ensures_return. Qed.
End Logic.

Create HintDb firmware.
#[export] Hint Resolve keeps_return keeps_get : firmware.

(** Goes through the binds and the branches of a command. *)
Ltac keep_step :=
  match goal with
  | |- ensures ?I ?c (fun _ => True) => change (keeps I c)
  | |- keeps _ (cbind _ _) => apply keeps_then; [|intros ?]
  | |- keeps _ (match ?x with _ => _ end) => destruct x
  | |- keeps _ (let '(_, _) := ?x in _) => destruct x
  | |- keeps _ _ => solve [eauto 2 with firmware]
  end.
Ltac keep := repeat keep_step.

(** ** The invariant of the device *)

(** The number after the colon is one that [atoi] can represent. *)
Definition port_ok (endpoint : list byte) : Prop :=
  match split_colon endpoint with Some (_, rest) => is_int (atoi_value rest) = true | None => True end.

Definition proto_ok (q : Proto) : Prop :=
  zlen (device_public_key q) <= 128 /\ port_ok (c_str (gateway_endpoint q)).

(** ** Packets

    What the commands that build packets produce, and that it fits into the
    arrays; they leave the device alone, so the invariant is arbitrary. *)

Section Packets.
Context {X : Type} (I : device X -> Prop).

Definition bytes_frame (tag : Z) (bs : list byte) : list byte :=
  map byte_of [0x00; 0x00; Z.land (Z.shiftr (4 + zlen bs) 8) 0xFF; Z.land (4 + zlen bs) 0xFF;
               0x82; tag; 0x58; zlen bs] ++ bs.

Lemma bytes_packet_returns cap tag bs :
  8 + zlen bs <= cap -> ensures I (bytes_packet cap tag bs) (fun r => r = bytes_frame tag bs).
Proof. intros H. unfold bytes_packet. apply ensures_emit. exact H. Qed.

Definition text_item (text : list byte) : list byte :=
  (if zlen text <=? 23 then [byte_of (0x60 + zlen text)] else [byte_of 0x78; byte_of (zlen text)]) ++ text.

Lemma zlen_text_item text : zlen (text_item text) <= 2 + zlen text.
Proof.
  unfold text_item. rewrite zlen_app. destruct (zlen text <=? 23).
  - change (zlen [byte_of (0x60 + zlen text)]) with 1. lia.
  - change (zlen [byte_of 0x78; byte_of (zlen text)]) with 2. lia.
Qed.

Lemma emit_text_returns cap text buf :
  zlen buf + zlen text + 2 <= cap -> ensures I (emit_text cap text buf) (fun r => r = buf ++ text_item text).
Proof.
  intros H. pose proof (zlen_nonneg text). unfold emit_text, text_item.
  destruct (zlen text <=? 23).
  - eapply ensures_bind.
    { apply ensures_emit. change (zlen [byte_of (0x60 + zlen text)]) with 1. lia. }
    intros r ->. eapply ensures_weaken; [|apply ensures_emit].
    + intros r ->. by rewrite <- app_assoc.
    + rewrite zlen_app. change (zlen [byte_of (0x60 + zlen text)]) with 1. lia.
  - eapply ensures_bind.
    { eapply ensures_bind; [apply ensures_emit; change (zlen [byte_of 0x78]) with 1; lia|].
      intros r ->. apply ensures_emit. rewrite zlen_app. change (zlen [byte_of 0x78]) with 1.
      change (zlen [byte_of (zlen text)]) with 1. lia. }
    intros r ->. eapply ensures_weaken; [|apply ensures_emit].
    + intros r ->. by rewrite <- !app_assoc.
    + rewrite !zlen_app. change (zlen [byte_of 0x78]) with 1. change (zlen [byte_of (zlen text)]) with 1. lia.
Qed.

Lemma zlen_take63 (t : list byte) : zlen (take 63 t) <= 63.
Proof. unfold zlen. rewrite length_take. lia. Qed.

(** What the two packets contain after their length prefix. *)
Definition ack_body (id : list byte) (success : bool) (error : list byte) : list byte :=
  map byte_of [0x84; 0x05] ++ text_item id ++ [byte_of (if success then 0xf5 else 0xf4)] ++
  (if zlen error =? 0 then [byte_of 0xf6] else text_item error).

Definition status_body (id : list byte) (status : Z) : list byte :=
  map byte_of [0x85; 0x04] ++ text_item id ++ map byte_of [status; 0xf6; 0xf6].

Definition with_prefix (body : list byte) : list byte :=
  map byte_of [Z.shiftr (zlen body) 24; Z.shiftr (zlen body) 16; Z.shiftr (zlen body) 8; zlen body] ++ body.

Lemma length_prefix_body body : length_prefix (replicate 4 Byte.x00 ++ body) = with_prefix body.
Proof.
  unfold length_prefix, with_prefix. rewrite zlen_app. change (zlen (replicate 4 Byte.x00)) with 4.
  replace (4 + zlen body - 4) with (zlen body) by lia. done.
Qed.

Lemma deploy_ack_returns id success error :
  ensures I (deploy_ack_packet id success error)
    (fun r => r = with_prefix (ack_body (take 63 id) success (take 63 (default [] error)))).
Proof.
  unfold deploy_ack_packet. pose proof (zlen_take63 id) as Hi. pose proof (zlen_take63 (default [] error)) as He.
  set (i := take 63 id) in *. set (e := take 63 (default [] error)) in *.
  pose proof (zlen_text_item i). pose proof (zlen_text_item e).
  eapply ensures_bind; [by apply ensures_emit|]. intros r ->.
  eapply ensures_bind; [apply emit_text_returns; rewrite zlen_app;
    change (zlen (replicate 4 Byte.x00)) with 4; change (zlen (map byte_of [0x84; 0x05])) with 2; lia|].
  intros r ->. eapply ensures_bind; [apply ensures_emit; rewrite !zlen_app;
    change (zlen (replicate 4 Byte.x00)) with 4; change (zlen (map byte_of [0x84; 0x05])) with 2;
    change (zlen [_]) with 1; lia|].
  intros r ->. eapply (ensures_bind _ _ _ (fun r => r = replicate 4 Byte.x00 ++ ack_body i success e)).
  - assert (Hlen : zlen (((replicate 4 Byte.x00 ++ map byte_of [0x84; 0x05]) ++ text_item i) ++
      [byte_of (if success then 0xf5 else 0xf4)]) <= 72).
    { rewrite !zlen_app. change (zlen (replicate 4 Byte.x00)) with 4.
      change (zlen (map byte_of [0x84; 0x05])) with 2. change (zlen [_]) with 1. lia. }
    unfold ack_body. destruct (zlen e =? 0).
    + eapply ensures_weaken; [|apply ensures_emit; change (zlen [byte_of 0xf6]) with 1; lia].
      intros r ->. by rewrite <- !app_assoc.
    + eapply ensures_weaken; [|apply emit_text_returns; lia]. intros r ->. by rewrite <- !app_assoc.
  - intros r ->. apply ensures_return. apply length_prefix_body.
Qed.

Lemma application_status_returns id status :
  ensures I (application_status_packet id status)
    (fun r => r = with_prefix (status_body (take 63 id) status)).
Proof.
  unfold application_status_packet, MAX_APP_ID_LEN. pose proof (zlen_take63 id) as Hi.
  set (i := take 63 id) in *. pose proof (zlen_text_item i).
  eapply ensures_bind; [by apply ensures_emit|]. intros r ->.
  eapply ensures_bind; [apply emit_text_returns; rewrite zlen_app;
    change (zlen (replicate 4 Byte.x00)) with 4; change (zlen (map byte_of [0x85; 0x04])) with 2; lia|].
  intros r ->. eapply ensures_bind; [apply ensures_emit; rewrite !zlen_app;
    change (zlen (replicate 4 Byte.x00)) with 4; change (zlen (map byte_of [0x85; 0x04])) with 2;
    change (zlen (map byte_of [status; 0xf6; 0xf6])) with 3; lia|].
  intros r ->. apply ensures_return. rewrite <- length_prefix_body. unfold status_body. by rewrite <- !app_assoc.
Qed.
End Packets.

Section Safety.
Context {X : Type} `{ZX : Zephyr X} `{RX : Wamr X} `{T : MbedTls}.
Context `{LZ : !ZephyrLaws ZX} `{LT : !MbedTlsLaws T}.

Definition dev_ok (d : device X) : Prop := proto_ok (proto d).
#[local] Abbreviation safe := (keeps dev_ok).
#[local] Abbreviation returns := (ensures dev_ok).

Lemma safe_proto f : (forall q, proto_ok q -> proto_ok (f q)) -> safe (on_proto f).
Proof. intros H. apply keeps_put. intros d. apply H. Qed.
Lemma safe_net f : safe (on_net f).
Proof. by apply keeps_put. Qed.
Lemma safe_call {A} (f : X -> A * X) : safe (call f).
Proof. intros d Hd. unfold wp, call. by destruct (f (world d)) as [a x]. Qed.
Lemma safe_call_ f : safe (call_ f).
Proof. apply safe_call. Qed.
Lemma safe_call_wamr {A} (f : wamr -> X -> A * wamr * X) : safe (call_wamr f).
Proof. intros d Hd. unfold wp, call_wamr. by destruct (f (wam d) (world d)) as [[a m] x]. Qed.
Lemma safe_nget {A} (f : Net -> A) : safe (nget f).
Proof. apply keeps_get. Qed.
Lemma safe_pget {A} (f : Proto -> A) : safe (pget f).
Proof. apply keeps_get. Qed.
Lemma safe_uptime : safe uptime.
Proof. apply keeps_get. Qed.
Lemma safe_uptime32 : safe k_uptime_get_32.
Proof. apply keeps_get. Qed.
Lemma safe_app_id : safe app_id.
Proof. apply keeps_get. Qed.

(** The setters that do not touch the key and the endpoint. *)
Ltac same_identity := apply safe_proto; intros [] []; by split.
Lemma safe_connected b : safe (on_proto (set_connected b)).
Proof. same_identity. Qed.
Lemma safe_initialized : safe (on_proto set_initialized).
Proof. same_identity. Qed.
Lemma safe_set_app_id t : safe (on_proto (set_app_id t)).
Proof. same_identity. Qed.
Lemma safe_wasm_copy t : safe (on_proto (set_wasm_copy t)).
Proof. same_identity. Qed.
Lemma safe_set_app b i : safe (on_proto (set_app b i)).
Proof. same_identity. Qed.
Lemma safe_heartbeat_timer t : safe (on_proto (set_heartbeat_timer t)).
Proof. same_identity. Qed.
Lemma safe_status_timer t : safe (on_proto (set_status_timer t)).
Proof. same_identity. Qed.
Lemma safe_reconnect_timer t : safe (on_proto (set_reconnect_timer t)).
Proof. same_identity. Qed.

Hint Resolve safe_net safe_call safe_call_ safe_call_wamr safe_nget safe_pget safe_uptime
  safe_uptime32 safe_app_id safe_connected safe_initialized safe_set_app_id safe_wasm_copy safe_set_app
  safe_heartbeat_timer safe_status_timer safe_reconnect_timer : firmware.

(** *** The network *)

Lemma safe_find_iface k : safe (find_iface k).
Proof. induction k; simpl; keep. Qed.
Lemma safe_wait_dhcp k i : safe (wait_dhcp k i).
Proof. induction k; simpl; keep. Qed.
Hint Resolve safe_find_iface safe_wait_dhcp : firmware.

Lemma safe_mac i : safe (apply_injected_mac i).
Proof. unfold apply_injected_mac. keep. Qed.
Lemma safe_fallback : safe configure_static_ipv4_fallback.
Proof. unfold configure_static_ipv4_fallback. keep. Qed.
Hint Resolve safe_mac safe_fallback : firmware.

Lemma safe_network_init : safe network_init.
Proof. unfold network_init. keep. Qed.

Lemma safe_drop : safe drop_socket.
Proof. unfold drop_socket. keep. Qed.
Hint Resolve safe_drop : firmware.
Lemma safe_open t : safe (open_socket t).
Proof. unfold open_socket. keep. Qed.
Lemma safe_setsockopt o : safe (setsockopt o).
Proof. unfold setsockopt. keep. Qed.
Lemma safe_connect_to a q : safe (connect_to a q).
Proof. unfold connect_to. keep. Qed.
Lemma safe_add_credential k c : safe (add_credential k c).
Proof. unfold add_credential. keep. Qed.
Hint Resolve safe_network_init safe_open safe_setsockopt safe_connect_to safe_add_credential : firmware.

Lemma safe_connect h q : safe (network_connect h q).
Proof. unfold network_connect. keep. Qed.
Lemma safe_connect_tls h q : safe (network_connect_tls h q).
Proof. unfold network_connect_tls. keep. Qed.
Lemma safe_credentials ca cert key : safe (network_set_tls_credentials ca cert key).
Proof. unfold network_set_tls_credentials. keep. Qed.
Lemma safe_send data : safe (network_send data).
Proof. unfold network_send. keep. Qed.
Lemma safe_poll t : safe (network_poll_readable t).
Proof. unfold network_poll_readable. keep. Qed.
Hint Resolve safe_connect safe_connect_tls safe_credentials safe_send safe_poll : firmware.

(** *** Receiving

    The answer fits into the buffer, and the rounds are enough: a round that
    does not end the loop takes 50 ms of the time to the deadline. *)

Definition now (d : device X) : Z := k_uptime_get (world d).

Lemma receive_wp len d :
  dev_ok d -> 0 <= len ->
  wp (network_receive len) (fun r d' => dev_ok d' /\ now d <= now d' /\
    match r with Some bs => zlen bs <= len | None => True end) d.
Proof.
  intros Hd Hlen. unfold network_receive. apply wp_bind. unfold wp at 1. simpl.
  destruct (socket_fd (net d) <? 0); [done|].
  apply wp_bind. unfold wp at 1, call. pose proof (recv_clock (socket_fd (net d)) len (world d)) as Hc.
  pose proof (recv_room (socket_fd (net d)) len (world d)) as Hr.
  destruct (zsock_recv (socket_fd (net d)) len (world d)) as [[bs| |] x]; simpl in *; [|by split_and!..].
  specialize (Hr bs x eq_refl). destruct (Z.leb_spec (zlen bs) len); [|lia]. by split_and!.
Qed.

Definition received (need buf_len : Z) (got : list byte) (r : option (list byte)) : Prop :=
  match r with
  | Some g => need <= zlen g <= buf_len /\ exists t, g = got ++ t
  | None => True
  end.

Lemma recv_until_wp fuel need buf_len deadline got d :
  dev_ok d -> need <= buf_len -> zlen got <= buf_len ->
  deadline - now d <= 50 * (Z.of_nat fuel - 1) -> 1 <= Z.of_nat fuel ->
  wp (recv_until fuel need buf_len deadline got) (fun r d' =>
    dev_ok d' /\ now d <= now d' /\ received need buf_len got r) d.
Proof.
  revert got d. induction fuel as [|fuel IH]; intros got d Hd Hn Hg Ht Hf; [lia|]. cbn [recv_until].
  destruct (Z.leb_spec need (zlen got)) as [Hdone|Hmore].
  { split_and!; [done|unfold now; lia|]. split; [lia|]. exists []. by rewrite app_nil_r. }
  apply wp_bind. eapply wp_mono; [|apply receive_wp; [done|lia]]. simpl.
  intros [bs|] d1 (Hd1 & Hc1 & Hbs); [|done].
  assert (Hlen : zlen (got ++ bs) <= buf_len) by (rewrite zlen_app; lia).
  destruct (Z.ltb_spec (zlen (got ++ bs)) need) as [Hs|Hs].
  2: { split_and!; [done..|]. split; [lia|]. by exists bs. }
  apply wp_bind. unfold wp at 1, uptime, cget. change (k_uptime_get (world d1)) with (now d1).
  destruct (Z.leb_spec deadline (now d1)); [done|].
  apply wp_bind. unfold wp at 1, call_, call. simpl.
  pose proof (sleep_clock 50 (world d1)) as Hs1. unfold now in *.
  set (d2 := mkDevice _ _ _ _). assert (k_uptime_get (world d2) = k_uptime_get (k_sleep 50 (world d1))) as E by done.
  eapply wp_mono; [|apply (IH (got ++ bs) d2); try done; rewrite ?E; lia].
  intros r d3 (Hd3 & Hc3 & Hr). rewrite E in Hc3. split_and!; [done|lia|].
  destruct r as [g|]; [|done]. destruct Hr as (Hb & t & ->). split; [done|]. exists (bs ++ t). by rewrite app_assoc.
Qed.

(** A frame in a buffer: its length is the one of its prefix, and all of it
    has been received. *)
Definition framed (buf_len : Z) (r : option (list byte * Z)) : Prop :=
  match r with
  | Some (rx, len) => 4 <= zlen rx <= buf_len /\ 0 <= len <= zlen rx /\ len = wrap32 (4 + be_value (take 4 rx))
  | None => True
  end.

Lemma recv_frame_returns buf_len timeout :
  4 <= buf_len -> 0 <= timeout -> returns (recv_frame buf_len timeout) (framed buf_len).
Proof.
  intros Hb Ht d Hd. unfold recv_frame. apply wp_bind. unfold wp at 1, uptime, cget.
  change (k_uptime_get (world d)) with (now d).
  assert (Hfuel : timeout <= 50 * (Z.of_nat (recv_rounds timeout) - 1) /\ 1 <= Z.of_nat (recv_rounds timeout)).
  { unfold recv_rounds. pose proof (Z.div_mod timeout 50). pose proof (Z.mod_pos_bound timeout 50).
    pose proof (Z.div_pos timeout 50). lia. }
  set (fuel := recv_rounds timeout) in *. clearbody fuel.
  apply wp_bind. eapply wp_mono; [|apply recv_until_wp; [done|lia|unfold zlen; simpl; lia|lia|lia]].
  simpl. intros [g|] d1 (Hd1 & Hc1 & Hr); [|done]. destruct Hr as ((Hg1 & Hg2) & _).
  destruct (Z.ltb_spec buf_len (wrap32 (4 + be_value (take 4 g)))); [done|].
  apply wp_bind. eapply wp_mono; [|apply recv_until_wp; [done|lia|done|lia|lia]].
  simpl. intros [g'|] d2 (Hd2 & Hc2 & Hr); [|done]. destruct Hr as ((Hh1 & Hh2) & t & ->).
  split; [done|]. simpl. split_and!; [rewrite zlen_app; pose proof (zlen_nonneg t); lia|lia| |done|].
  - unfold wrap32. apply Z.mod_pos_bound. lia.
  - rewrite take_app_le; [done|]. unfold zlen in Hg1. lia.
Qed.

(** *** Packets *)

Lemma ensures_tagged rx a b : 6 <= zlen rx -> safe (tagged rx a b).
Proof.
  intros H. unfold tagged. eapply ensures_bind; [apply keeps_index; lia|]. intros x _. simpl.
  destruct (negb _); [apply keeps_return|].
  eapply ensures_bind; [apply keeps_index; lia|]. intros y _. apply keeps_return.
Qed.

(** *** Enrollment *)

Lemma mem_bytes_length mem a k : 0 <= k -> zlen (mem_bytes mem a k) = k.
Proof. intros. unfold zlen, mem_bytes. rewrite length_map, length_seq. lia. Qed.

Lemma injected_size mem a size bs : read_injected_blob mem a size = Some bs -> zlen bs <= size.
Proof.
  unfold read_injected_blob. destruct (_ =? 0); [done|]. simpl.
  destruct (Z.ltb_spec size (mem_word mem a)); [done|]. intros [= <-].
  rewrite mem_bytes_length; [done|]. apply le_value_nonneg.
Qed.

Lemma safe_read_key : safe read_device_public_key.
Proof.
  intros d [_ Hp]. unfold read_device_public_key, wp, cbind, cget, on_proto, cput. split; [|done].
  split; [|exact Hp]. simpl. destruct (read_injected_blob _ _ _) as [bs|] eqn:E; simpl; [|done].
  by apply injected_size in E.
Qed.

Lemma safe_read_credentials : safe read_device_credentials.
Proof. unfold read_device_credentials. keep. Qed.
Hint Resolve safe_read_key safe_read_credentials : firmware.

Lemma recv_reply_returns :
  returns recv_reply (fun r => match r with Some (rx, len) => 6 <= len <= zlen rx | None => True end).
Proof.
  unfold recv_reply. eapply ensures_bind; [apply recv_frame_returns; lia|].
  intros [[rx len]|] H; apply ensures_return; [|done]. destruct H as (_ & H & _).
  destruct (Z.ltb_spec len 6); [done|]. lia.
Qed.

Lemma safe_transcript nonce : safe (pop_transcript nonce).
Proof. unfold pop_transcript. keep. Qed.

Lemma sign_challenge_returns nonce size :
  returns (sign_challenge nonce size) (fun r => match r with Some sg => zlen sg <= size | None => True end).
Proof.
  unfold sign_challenge. eapply ensures_bind; [apply safe_pget|]. intros priv _. simpl.
  destruct (zlen priv =? 0); [by apply ensures_return|].
  eapply ensures_bind; [apply safe_transcript|]. intros [h|] _; [|by apply ensures_return].
  destruct (mb_parse_key priv) as [k|]; apply ensures_return; [|done].
  destruct (mb_sign k h size) eqn:E; [|done]. by apply mb_sign_size in E.
Qed.

Lemma answer_challenge_returns rx len :
  len <= zlen rx ->
  returns (answer_challenge rx len) (fun r => match r with Some rx => 6 <= zlen rx | None => True end).
Proof.
  intros Hlen. unfold answer_challenge. destruct (Z.ltb_spec len 8); [by apply ensures_return|].
  eapply ensures_bind; [apply keeps_index; lia|]. intros kind _. simpl.
  destruct (negb _); [by apply ensures_return|].
  eapply ensures_bind; [apply keeps_index; lia|]. intros nl Hnl. simpl in Hnl |- *.
  destruct (nl =? 0); [by apply ensures_return|]. simpl.
  destruct (Z.ltb_spec len (8 + nl)); [by apply ensures_return|].
  eapply ensures_bind; [apply ensures_slice; lia|]. intros nonce _.
  eapply ensures_bind; [apply sign_challenge_returns|]. intros [sg|] Hs; [|by apply ensures_return].
  destruct (255 <? zlen sg); [by apply ensures_return|].
  eapply ensures_bind; [apply bytes_packet_returns; simpl; lia|]. intros pkt _.
  eapply ensures_bind; [apply safe_send|]. intros ret _. simpl.
  destruct (ret <? 0); [by apply ensures_return|].
  eapply ensures_bind; [apply recv_reply_returns|]. intros [[rx' l]|] Hr; apply ensures_return; simpl; [lia|done].
Qed.

Lemma safe_finish rx : 6 <= zlen rx -> safe (finish_enrollment rx).
Proof.
  intros H. unfold finish_enrollment. apply keeps_then; [by apply ensures_tagged|]. intros u. keep.
  apply (ensures_weaken _ _ (framed 64)); [done|]. apply recv_frame_returns; lia.
Qed.

Lemma safe_announce : safe announce_key.
Proof.
  unfold announce_key. keep_step; [auto with firmware|]. keep_step; [keep|].
  eapply ensures_bind; [apply (ensures_get _ _ (fun k => zlen k <= 128)); by intros d [? _]|].
  intros key Hk. simpl in Hk |- *. destruct (_ || _); [apply keeps_return|].
  eapply ensures_bind; [apply bytes_packet_returns; lia|]. intros pkt _. apply safe_send.
Qed.
Hint Resolve safe_announce : firmware.

Lemma safe_enrollment : safe do_enrollment.
Proof.
  unfold do_enrollment. keep_step; [auto with firmware|]. destruct (_ <? 0); [apply keeps_return|].
  eapply ensures_bind; [apply recv_reply_returns|]. intros [[rx len]|] H1; [|apply keeps_return].
  eapply ensures_bind; [apply ensures_tagged; lia|]. intros acc _. simpl.
  destruct (negb acc); [apply keeps_return|]. apply keeps_then; [auto with firmware|]. intros r.
  destruct (r <? 0); [apply keeps_return|].
  eapply ensures_bind; [apply recv_reply_returns|]. intros [[rx' len']|] H2; [|apply keeps_return].
  eapply ensures_bind; [apply ensures_tagged; lia|]. intros [|] _; [|apply safe_finish; lia].
  eapply ensures_bind; [apply answer_challenge_returns; lia|]. intros [rx''|] H3; [|apply keeps_return].
  by apply safe_finish.
Qed.
Hint Resolve safe_enrollment : firmware.

Lemma safe_parse_endpoint e : port_ok e -> safe (parse_endpoint e).
Proof.
  unfold port_ok, parse_endpoint. intros H. destruct (split_colon e) as [[h rest]|]; [|apply keeps_return].
  unfold atoi. rewrite H. keep.
Qed.

(** *** Reading CBOR: never outside of the payload *)

Lemma lor_bytes h l : 0 <= h < 256 -> 0 <= l < 256 -> Z.lor (Z.shiftl h 8) l = 256 * h + l.
Proof.
  intros Hh Hl. rewrite Z.shiftl_mul_pow2 by lia. rewrite <- Z.add_nocarry_lor; [lia|].
  apply Z.bits_inj'. intros i Hi. rewrite Z.land_spec, Z.bits_0.
  destruct (Z.ltb_spec i 8).
  - by rewrite Z.mul_pow2_bits_low by lia.
  - rewrite (Z.bits_above_log2 l i); [apply andb_false_r|lia|].
    destruct (Z.eq_dec l 0) as [->|]; [simpl; lia|]. pose proof (Z.log2_lt_pow2 l 8). lia.
Qed.

Definition item_in (pp end_ : Z) (r : option (Z * Z)) : Prop :=
  match r with Some (len, start) => 0 <= len < 65536 /\ pp < start | None => True end.

Lemma string_head_returns base frame pp end_ :
  0 <= base -> 0 <= pp < end_ -> end_ <= zlen frame ->
  returns (cbor_string_head base frame pp end_) (item_in pp end_).
Proof.
  intros Hb Hp He. unfold cbor_string_head. eapply ensures_bind; [apply keeps_index; lia|].
  intros b Hbr. simpl in Hbr |- *. destruct ((base <=? b) && _) eqn:E1.
  { apply ensures_return. simpl. apply andb_true_iff in E1 as [?%Z.leb_le ?%Z.leb_le]. lia. }
  destruct (_ && (pp + 2 <=? end_)) eqn:E2.
  { apply andb_true_iff in E2 as [_ ?%Z.leb_le]. eapply ensures_bind; [apply keeps_index; lia|].
    intros l Hl. simpl in Hl. apply ensures_return. simpl. lia. }
  destruct (_ && (pp + 3 <=? end_)) eqn:E3; [|by apply ensures_return].
  apply andb_true_iff in E3 as [_ ?%Z.leb_le]. eapply ensures_bind; [apply keeps_index; lia|].
  intros h Hh. eapply ensures_bind; [apply keeps_index; lia|]. intros l Hl. simpl in Hh, Hl.
  apply ensures_return. simpl. rewrite lor_bytes by lia. lia.
Qed.

Lemma read_text_returns frame pp end_ size :
  0 <= pp -> end_ <= zlen frame -> 0 < size ->
  returns (cbor_read_text frame pp end_ size)
    (fun r => match r with Some (t, q) => zlen t < size /\ 0 <= q <= end_ | None => True end).
Proof.
  intros Hp He Hs. unfold cbor_read_text. destruct (Z.leb_spec end_ pp); [by apply ensures_return|]. simpl.
  destruct (size =? 0); [by apply ensures_return|].
  eapply ensures_bind; [apply string_head_returns; lia|]. intros [[len start]|] Hr; [|by apply ensures_return].
  simpl in Hr. destruct (Z.ltb_spec end_ (start + len)); [by apply ensures_return|].
  set (l := if size <=? len then size - 1 else len).
  assert (0 <= l < size /\ l <= len) by (subst l; destruct (Z.leb_spec size len); lia).
  eapply ensures_bind; [apply ensures_slice; lia|]. intros t ->. apply ensures_return.
  split; [|lia]. unfold zlen. rewrite length_take. lia.
Qed.

Lemma skip_text_returns frame pp end_ :
  0 <= pp -> end_ <= zlen frame ->
  returns (cbor_skip_text frame pp end_) (fun r => match r with Some q => 0 <= q <= end_ | None => True end).
Proof.
  intros Hp He. unfold cbor_skip_text. destruct (Z.leb_spec end_ pp); [by apply ensures_return|].
  eapply ensures_bind; [apply string_head_returns; lia|]. intros [[len start]|] Hr; [|by apply ensures_return].
  simpl in Hr. destruct (Z.ltb_spec end_ (start + len)); apply ensures_return; [done|lia].
Qed.

Lemma read_bytes_returns frame pp end_ :
  0 <= pp -> end_ <= zlen frame ->
  returns (cbor_read_bytes frame pp end_)
    (fun r => match r with Some (ptr, len, q) => 0 <= ptr /\ 0 <= len /\ q = ptr + len /\ q <= end_ | None => True end).
Proof.
  intros Hp He. unfold cbor_read_bytes. destruct (Z.leb_spec end_ pp); [by apply ensures_return|].
  eapply ensures_bind; [apply string_head_returns; lia|]. intros [[len start]|] Hr; [|by apply ensures_return].
  simpl in Hr. destruct (Z.ltb_spec end_ (start + len)); apply ensures_return; [done|lia].
Qed.

(** *** Messages *)

Lemma safe_send_message data : safe (wasmbed_protocol_send_message data).
Proof. unfold wasmbed_protocol_send_message. keep. Qed.
Hint Resolve safe_send_message : firmware.

Lemma safe_send_ack id success error : safe (send_deploy_ack id success error).
Proof.
  unfold send_deploy_ack. eapply ensures_bind; [apply deploy_ack_returns|]. intros pkt _.
  apply keeps_then; [apply safe_send_message|]. intros _. apply keeps_return.
Qed.

Lemma safe_send_status id status : safe (send_application_status id status).
Proof.
  unfold send_application_status. eapply ensures_bind; [apply application_status_returns|]. intros pkt _.
  apply keeps_then; [apply safe_send_message|]. intros _. apply keeps_return.
Qed.
Hint Resolve safe_send_ack safe_send_status : firmware.

Lemma safe_refuse id why : safe (refuse id why).
Proof. unfold refuse. keep. Qed.
Hint Resolve safe_refuse : firmware.

Lemma safe_handle_deploy frame hash_ptr wasm_ptr wasm_len :
  0 <= hash_ptr -> hash_ptr + 32 <= zlen frame ->
  0 <= wasm_ptr -> 0 <= wasm_len -> wasm_ptr + wasm_len <= zlen frame ->
  safe (handle_deploy_application frame hash_ptr wasm_ptr wasm_len).
Proof.
  intros. unfold handle_deploy_application. destruct (_ || _); [apply keeps_return|].
  eapply ensures_bind; [apply ensures_slice; lia|]. intros wasm _.
  destruct (mb_sha256 wasm); [|apply keeps_return].
  eapply ensures_bind; [apply ensures_slice; lia|]. intros hash _. keep.
Qed.

Lemma safe_receive_deploy frame cbor_end : cbor_end <= zlen frame -> safe (receive_deploy frame cbor_end).
Proof.
  intros He. unfold receive_deploy.
  eapply ensures_bind; [apply read_text_returns; unfold MAX_APP_ID_LEN; lia|].
  intros [[t q1]|] H1; [|apply safe_refuse]. do 2 (apply keeps_then; [auto with firmware|]; intros ?).
  eapply ensures_bind; [apply skip_text_returns; lia|]. intros [q2|] H2; [|apply safe_refuse].
  eapply ensures_bind; [apply read_bytes_returns; lia|]. intros [[[hp hl] q3]|] H3; [|apply safe_refuse].
  destruct (Z.eq_dec hl 32) as [->|Hne].
  2: { repeat (case_match; try apply safe_refuse). congruence. }
  eapply ensures_bind; [apply read_bytes_returns; lia|]. intros [[[wp wl] q4]|] H4; [|apply safe_refuse].
  apply keeps_then; [apply safe_handle_deploy; lia|]. intros r. keep.
Qed.

Lemma safe_handle_message data len :
  len <= zlen data -> (4 <= len -> len = wrap32 (4 + be_value (take 4 data))) ->
  safe (wasmbed_protocol_handle_message data len).
Proof.
  intros Hl Hw. unfold wasmbed_protocol_handle_message. keep_step; [auto with firmware|].
  destruct (negb _); [apply keeps_return|]. destruct (len =? 0); [apply keeps_return|].
  destruct (Z.ltb_spec len 4); [apply keeps_return|].
  eapply ensures_bind; [apply ensures_slice; lia|]. intros hd ->.
  change (take (Z.to_nat 4) (drop (Z.to_nat 0) data)) with (take 4 data). specialize (Hw ltac:(lia)).
  set (pl := be_value (take 4 data)) in *.
  assert (Hp : 0 <= pl < 2 ^ 32).
  { subst pl. unfold be_value. split; [apply le_value_nonneg|].
    eapply Z.lt_le_trans; [apply le_value_bound|]. rewrite length_rev, length_take.
    change (2 ^ 32) with (256 ^ 4). apply Z.pow_le_mono_r; lia. }
  assert (4 + pl = len).
  { destruct (Z.lt_ge_cases (4 + pl) (2 ^ 32)); [unfold wrap32 in Hw; rewrite Z.mod_small in Hw; lia|].
    unfold wrap32 in Hw. replace (4 + pl) with (4 + pl - 2 ^ 32 + 1 * 2 ^ 32) in Hw by lia.
    rewrite Z.mod_add, Z.mod_small in Hw; lia. }
  destruct (_ && (2 <=? pl)) eqn:E; [|apply keeps_return]. apply andb_true_iff in E as [_ ?%Z.leb_le].
  eapply ensures_bind; [apply ensures_tagged; lia|]. intros [|] _; [|apply keeps_return].
  apply safe_receive_deploy. lia.
Qed.

Lemma safe_recv_and_handle t : safe (wasmbed_protocol_recv_and_handle t).
Proof.
  unfold wasmbed_protocol_recv_and_handle. do 2 (keep_step; [auto with firmware|]).
  destruct (_ || _); [apply keeps_return|]. apply keeps_then; [apply safe_poll|]. intros r.
  destruct (r <? 0); [keep|]. destruct (r =? 0); [keep|].
  eapply ensures_bind; [apply recv_frame_returns; unfold MAX_WASM_SIZE; lia|].
  intros [[rx len]|] H; [|keep]. destruct H as (_ & H & Hw).
  destruct len; [keep|apply safe_handle_message; [lia|done]..].
Qed.

Lemma safe_try_connect : safe try_connect_gateway.
Proof.
  unfold try_connect_gateway.
  eapply ensures_bind; [apply (ensures_get _ _ port_ok); by intros d []|]. intros e He.
  apply keeps_then; [by apply safe_parse_endpoint|]. intros hp. keep.
Qed.

Lemma safe_tick : safe wasmbed_protocol_tick.
Proof.
  pose proof safe_try_connect. unfold wasmbed_protocol_tick, heartbeat_tick, status_tick, wasmbed_protocol_send_heartbeat.
  keep.
Qed.

Lemma safe_rounds k : safe (main_rounds k).
Proof.
  pose proof safe_tick. pose proof safe_recv_and_handle.
  induction k; simpl; unfold main_round, network_process; keep.
Qed.

(** *** Start-up *)

(** The endpoint that the emulator injected, if any, ends in a number. *)
Definition endpoint_ok (mem : Z -> byte) : Prop :=
  match read_gateway_endpoint mem with Some e => port_ok (c_str e) | None => True end.

Lemma init_wp d :
  dev_ok d -> endpoint_ok (memory (world d)) -> wp wasmbed_protocol_init (fun _ d' => dev_ok d') d.
Proof.
  intros [Hk Hp] He. unfold wasmbed_protocol_init. apply wp_bind. unfold wp at 1, pget, cget.
  destruct (protocol_initialized (proto d)); [done|].
  apply wp_bind. unfold wp at 1, cget. apply wp_bind. unfold wp at 1, on_proto, cput.
  set (d1 := mkDevice _ _ _ _). assert (Hd1 : dev_ok d1).
  { split; [exact Hk|]. simpl. unfold endpoint_ok in He.
    destruct (read_gateway_endpoint _); [exact He|]. vm_compute. reflexivity. }
  clearbody d1. match goal with |- wp ?c _ _ => assert (Hs : safe c) end.
  { do 2 (apply keeps_then; [auto with firmware|]; intros ?).
    eapply ensures_bind; [apply (ensures_get _ _ proto_ok); done|]. intros q [_ Hq].
    apply keeps_then; [auto with firmware|]. intros ?. simpl.
    apply keeps_then; [by apply safe_parse_endpoint|]. intros hp. keep. }
  eapply wp_mono; [|by apply Hs]. by intros a d' [? _].
Qed.

(** C18: whatever the gateway, the network and the injected memory deliver, the
    firmware's start-up and any number of rounds of its main loop come to an
    end without an access outside of a buffer: no receive overruns, every
    packet fits its array, the CBOR readers stay inside the payload, and the
    receive loops end at their deadline. The only condition is that the injected
    endpoint's port is a number [atoi] can represent. *)
Theorem firmware_never_faults d k :
  dev_ok d -> endpoint_ok (memory (world d)) ->
  exists d', (do: _ <- wasmbed_protocol_init in main_rounds k) d = Done (tt, d') /\ dev_ok d'.
Proof.
  intros Hd He. destruct (wp_done (do: _ <- wasmbed_protocol_init in main_rounds k) (fun _ d' => dev_ok d') d)
    as ([] & d' & E & H); [|by exists d'].
  apply wp_bind. eapply wp_mono; [|by apply init_wp]. intros a d1 H1.
  eapply wp_mono; [|by apply (safe_rounds k)]. by intros u d2 [? _].
Qed.

(** What comes before the protocol handler in [main] is safe from power-on. *)
Lemma boot_safe (x : X) :
  wp (do: _ <- network_init in call_wamr wamr_init) (fun _ d => dev_ok d) (powered_on x).
Proof.
  assert (H : safe (do: _ <- network_init in call_wamr wamr_init)) by keep.
  eapply wp_mono; [|apply H; by split]. by intros a d [? _].
Qed.
End Safety.
