(* ===== verification/FirmwareLab.v ===== *)
(** * The firmware on a wire with the gateway

    A world for the firmware in which the other end of the TLS socket is the
    gateway of [Gateway], byte for byte: what the firmware sends is read by the
    gateway's reader loop and handled by [on_message], the answers are written
    by the gateway's writer. The network may cut the bytes into pieces of any
    sizes. The WebAssembly runtime has a memory of its own, of any type. CBOR is the RFC 8949
    codec, since the firmware spells out its bytes. *)

From S2P Require Import Prelude.
From S2P Require Import RustStd.
From S2P Require Import Externals.
From S2P Require Import Minicbor.
From S2P Require Import Protocol.
From S2P Require Import Rfc8949.
From S2P Require Import ProtocolProofs.
From S2P Require Import Framing.
From S2P Require Import K8s.
From S2P Require Import Registry.
From S2P Require Import Gateway.
From S2P Require Import Renode.
From S2P Require Import RenodeProofs.
From S2P Require Import FirmwareWamr.
From S2P Require Import FirmwareWamrProofs.
From S2P Require Import Firmware.
From S2P Require Import FirmwareProofs.

(** [lab_inbox] are the bytes on their way to the device; the next receive
    delivers at most the first number of [lab_sched] of them, everything once
    the list is used up. [lab_heap] is the memory of the runtime. *)
Record lab (Rm W : Type) := mkLab {
  lab_clock : Z;
  lab_mem : Z -> byte;
  lab_heap : Rm;
  lab_inbox : list byte;
  lab_sched : list Z;
  lab_inputs : list Inputs;
  lab_server : HttpApiServer;
  lab_kube : W;
}.
Arguments mkLab {Rm W} _ _ _ _ _ _ _ _.
Arguments lab_clock {Rm W} _.
Arguments lab_mem {Rm W} _.
Arguments lab_heap {Rm W} _.
Arguments lab_inbox {Rm W} _.
Arguments lab_sched {Rm W} _.
Arguments lab_inputs {Rm W} _.
Arguments lab_server {Rm W} _.
Arguments lab_kube {Rm W} _.

Section Lab.
Context {Rm W : Type} `{K : Kube W} `{B : Base64} `{E : Ecdsa} `{U : UuidParse}.
Variables (cb : Callbacks) (tls_key : list byte) (conn : string).
Implicit Types x : lab Rm W.

Definition set_rx (clock : Z) (sched : list Z) (inbox : list byte) x : lab Rm W :=
  mkLab clock (lab_mem x) (lab_heap x) inbox sched (lab_inputs x) (lab_server x) (lab_kube x).
Definition set_heap (h : Rm) x : lab Rm W :=
  mkLab (lab_clock x) (lab_mem x) h (lab_inbox x) (lab_sched x) (lab_inputs x) (lab_server x) (lab_kube x).
Definition set_gateway (inputs : list Inputs) (s : HttpApiServer) (w : W) (out : list byte) x : lab Rm W :=
  mkLab (lab_clock x) (lab_mem x) (lab_heap x) (lab_inbox x ++ out) (lab_sched x) inputs s w.

(** The gateway handles one message of the connection. *)
Definition gateway_serves x (message : option ClientMessage) : lab Rm W :=
  match lab_inputs x with
  | [] => x
  | inp :: inputs =>
      let '(rs, s, w) := on_message cb inp tls_key conn message (lab_server x) (lab_kube x) in
      set_gateway inputs s w (rs ≫= gateway_write (M := rfc8949)) x
  end.

(** What the network hands over when [len] bytes are asked for. *)
Definition piece (len : Z) x : nat :=
  match lab_sched x with [] => Z.to_nat len | c :: _ => Z.to_nat (Z.min len (Z.max 1 c)) end.

Definition lab_recv (len : Z) x : recv_result * lab Rm W :=
  match lab_inbox x with
  | [] => (RecvAgain, x)
  | _ :: _ =>
      (RecvBytes (take (piece len x) (lab_inbox x)),
       set_rx (lab_clock x) (tail (lab_sched x)) (drop (piece len x) (lab_inbox x)) x)
  end.

Definition lab_zephyr : Zephyr (lab Rm W) := {|
  k_uptime_get := lab_clock;
  k_sleep t x := set_rx (lab_clock x + t) (lab_sched x) (lab_inbox x) x;
  memory := lab_mem;
  zsock_socket _ x := (3, x);
  zsock_close _ x := x;
  zsock_setsockopt _ _ x := (0, x);
  net_addr_pton host := Some (zlen host);
  zsock_connect _ _ _ x := (0, x);
  zsock_send _ data x := (zlen data, foldl gateway_serves x (gateway_read_loop (M := rfc8949) data));
  zsock_recv _ len x := lab_recv len x;
  zsock_poll _ t x :=
    match lab_inbox x with
    | [] => (0, set_rx (lab_clock x + t) (lab_sched x) [] x)
    | _ :: _ => (1, x)
    end;
  tls_credential_add _ _ x := (0, x);
  config_net_dhcpv4 := true;
  net_if_get_default _ := Some 1;
  net_if_down _ x := x;
  net_if_up _ x := x;
  net_if_is_up _ _ := true;
  net_mgmt_set_mac _ _ x := (0, x);
  net_if_set_link_addr _ _ x := x;
  net_dhcpv4_start _ x := x;
  has_dhcp_address _ _ := true;
  net_if_ipv4_addr_add _ _ x := (true, x);
  net_if_ipv4_set_netmask _ _ x := x;
  net_if_ipv4_set_gw _ _ x := x;
|}.

#[local] Existing Instance lab_zephyr.

Lemma lab_zephyr_laws : ZephyrLaws lab_zephyr.
Proof.
  split; simpl.
  - intros _ len x bs x'. unfold lab_recv, piece. destruct (lab_inbox x); [done|]. intros [= <- _].
    unfold zlen. rewrite length_take. destruct (lab_sched x); lia.
  - intros _ len x. unfold lab_recv. destruct (lab_inbox x); simpl; lia.
  - intros t x. lia.
Qed.

(** ** A frame arrives *)

(** The receives it takes until everything has arrived, at most. *)
Definition rounds_left x : Z := Z.min (zlen (lab_inbox x)) (zlen (lab_sched x) + 1).

Definition rx (clock : Z) (sched : list Z) (inbox : list byte) (d : device (lab Rm W)) : device (lab Rm W) :=
  mkDevice (proto d) (net d) (wam d) (set_rx clock sched inbox (world d)).

Lemma rx_rx a b c a' b' c' d : rx a b c (rx a' b' c' d) = rx a b c d.
Proof. done. Qed.

Lemma receive_piece len d :
  0 <= socket_fd (net d) -> 1 <= len -> lab_inbox (world d) <> [] ->
  exists k, (1 <= k)%nat /\ (k <= length (lab_inbox (world d)))%nat /\ Z.of_nat k <= len /\
    (lab_sched (world d) = [] -> k = Nat.min (Z.to_nat len) (length (lab_inbox (world d)))) /\
    network_receive len d = Done (Some (take k (lab_inbox (world d))),
      rx (lab_clock (world d)) (tail (lab_sched (world d))) (drop k (lab_inbox (world d))) d).
Proof.
  intros Hs Hl Hi. unfold network_receive, cbind, nget, cget, call. simpl.
  rewrite (proj2 (Z.ltb_ge _ _)) by lia. unfold lab_recv.
  set (q := piece len (world d)). assert (Hq : (1 <= q)%nat /\ Z.of_nat q <= len).
  { subst q. unfold piece. destruct (lab_sched (world d)); lia. }
  destruct (lab_inbox (world d)) as [|b i] eqn:Ei; [done|]. rewrite <- Ei.
  assert (Hlen : (1 <= length (lab_inbox (world d)))%nat) by (rewrite Ei; simpl; lia).
  assert (Ht : take q (lab_inbox (world d)) = take (Nat.min q (length (lab_inbox (world d)))) (lab_inbox (world d))).
  { destruct (Nat.min_spec q (length (lab_inbox (world d)))) as [[_ ->]|[? ->]]; [done|]. by rewrite !take_ge by lia. }
  assert (Hd : drop q (lab_inbox (world d)) = drop (Nat.min q (length (lab_inbox (world d)))) (lab_inbox (world d))).
  { destruct (Nat.min_spec q (length (lab_inbox (world d)))) as [[_ ->]|[? ->]]; [done|]. by rewrite !drop_ge by lia. }
  exists (Nat.min q (length (lab_inbox (world d)))). rewrite <- Ht, <- Hd.
  split_and!; [lia|lia|lia| |].
  - intros Hn. subst q. unfold piece. by rewrite Hn.
  - rewrite (proj2 (Z.leb_le _ _)); [done|]. unfold zlen. rewrite length_take. lia.
Qed.

Lemma receive_rounds k d :
  (1 <= k)%nat -> lab_sched (world d) <> [] ->
  rounds_left (world (rx (lab_clock (world d) + 50) (tail (lab_sched (world d)))
    (drop k (lab_inbox (world d))) d)) <= rounds_left (world d) - 1 \/ lab_inbox (world d) = [].
Proof.
  intros Hk Hs. unfold rounds_left, rx, set_rx. simpl. destruct (lab_inbox (world d)) as [|b i] eqn:Ei; [by right|left].
  unfold zlen. rewrite length_drop. destruct (lab_sched (world d)); [done|]. simpl length. lia.
Qed.

Lemma recv_until_lab fuel need buf_len deadline got d :
  0 <= socket_fd (net d) -> need <= zlen got + zlen (lab_inbox (world d)) -> need <= buf_len ->
  rounds_left (world d) <= Z.of_nat fuel -> lab_clock (world d) + 50 * (rounds_left (world d) - 1) < deadline ->
  exists k cl sc, need <= zlen (got ++ take k (lab_inbox (world d))) /\
    recv_until fuel need buf_len deadline got d =
      Done (Some (got ++ take k (lab_inbox (world d))), rx cl sc (drop k (lab_inbox (world d))) d) /\
    lab_clock (world d) <= cl /\
    cl + 50 * rounds_left (set_rx cl sc (drop k (lab_inbox (world d))) (world d)) <=
      lab_clock (world d) + 50 * rounds_left (world d).
Proof.
  revert got d. induction fuel as [|fuel IH]; intros got d Hs Hn Hb Hr Hc;
    cbn [recv_until]; destruct (Z.leb_spec need (zlen got)) as [Hd|Hm].
  1,3: exists 0%nat, (lab_clock (world d)), (lab_sched (world d)); simpl; rewrite app_nil_r;
    split_and!; [lia|by destruct d as [? ? ? []]|lia|apply Z.le_refl].
  { unfold rounds_left in Hr. pose proof (zlen_nonneg (lab_sched (world d))). pose proof (zlen_nonneg (lab_inbox (world d))). lia. }
  assert (Hi : lab_inbox (world d) <> []) by (intros Hi; rewrite Hi in Hn; change (zlen []) with 0 in Hn; lia).
  assert (Hi1 : 1 <= zlen (lab_inbox (world d))) by (destruct (lab_inbox (world d)); [done|unfold zlen; simpl; lia]).
  destruct (receive_piece (buf_len - zlen got) d Hs ltac:(lia) Hi) as (k & Hk1 & Hk2 & Hk3 & Hk4 & E1).
  unfold cbind at 1. rewrite E1. set (i := lab_inbox (world d)) in *.
  destruct (Z.ltb_spec (zlen (got ++ take k i)) need) as [Hless|Henough].
  2: { exists k, (lab_clock (world d)), (tail (lab_sched (world d))). split_and!; [lia|done|lia|].
       unfold rounds_left; simpl. fold i. unfold zlen. rewrite length_drop. destruct (lab_sched (world d)); simpl; lia. }
  assert (Hsc : lab_sched (world d) <> []).
  { intros Hsc. specialize (Hk4 Hsc). rewrite zlen_app in Hless. unfold zlen in *. rewrite length_take in Hless. lia. }
  pose proof (receive_rounds k d Hk1 Hsc) as [Hrr|]; [|done]. fold i in Hrr.
  assert (lab_clock (world d) < deadline).
  { assert (1 <= rounds_left (world d)); [|lia]. unfold rounds_left. fold i. pose proof (zlen_nonneg (lab_sched (world d))). lia. }
  set (d1 := rx _ _ _ _) in Hrr.
  assert (Ed : zlen (got ++ take k i) + zlen (drop k i) = zlen got + zlen i).
  { rewrite zlen_app. unfold zlen. rewrite length_take, length_drop. lia. }
  destruct (IH (got ++ take k i) d1) as (k2 & cl & sc & H1 & H2 & H3 & H4);
    [done|simpl; lia|simpl; lia|lia|simpl lab_clock; lia|].
  exists (k + k2)%nat, cl, sc. simpl in *.
  rewrite <- take_take_drop, app_assoc, <- drop_drop. split_and!; [done| |lia|unfold rounds_left in *; simpl in *; lia].
  unfold cbind, uptime, cget. simpl. rewrite (proj2 (Z.leb_gt _ _)) by lia. exact H2.
Qed.

Definition frame_of (payload : list byte) : list byte := be_bytes 4 (zlen payload) ++ payload.

Lemma zlen_frame payload : zlen (frame_of payload) = 4 + zlen payload.
Proof. unfold frame_of. rewrite zlen_app. unfold zlen at 1. by rewrite length_be_bytes. Qed.

Lemma prefix_value (g t payload more : list byte) :
  0 <= zlen payload < 2 ^ 32 -> 4 <= zlen g -> g ++ t = frame_of payload ++ more ->
  be_value (take 4 g) = zlen payload.
Proof.
  intros Hp Hg Eq. assert (take 4 g = be_bytes 4 (zlen payload)) as ->; [|by apply be_value_bytes].
  apply (f_equal (take 4)) in Eq. rewrite take_app_le in Eq by (unfold zlen in Hg; lia). rewrite Eq.
  unfold frame_of. rewrite <- app_assoc, take_app_le by (rewrite length_be_bytes; lia).
  apply take_ge. by rewrite length_be_bytes.
Qed.

(** A frame that arrives is received whole, in whatever pieces, if the pieces
    are few enough for the timeout; of what follows it an unknown part is in
    the buffer too. *)
Lemma recv_frame_lab buf_len timeout payload more d :
  0 <= socket_fd (net d) -> lab_inbox (world d) = frame_of payload ++ more ->
  4 + zlen payload + zlen more <= buf_len -> buf_len < 2 ^ 32 ->
  50 * rounds_left (world d) <= timeout ->
  exists j cl sc, lab_clock (world d) <= cl /\
    recv_frame buf_len timeout d =
      Done (Some (frame_of payload ++ take j more, 4 + zlen payload), rx cl sc (drop j more) d).
Proof.
  intros Hs Hi Hb Hmax Ht. pose proof (zlen_nonneg payload). pose proof (zlen_nonneg more).
  pose proof (zlen_frame payload) as Hf. unfold recv_frame, cbind, uptime, cget.
  assert (Hfuel : rounds_left (world d) <= Z.of_nat (recv_rounds timeout)).
  { unfold recv_rounds. pose proof (Z.div_le_mono (50 * rounds_left (world d)) timeout 50 ltac:(lia) Ht) as H1.
    rewrite Z.mul_comm, Z.div_mul in H1 by lia. lia. }
  set (fuel := recv_rounds timeout) in *. clearbody fuel.
  assert (Hil : zlen (lab_inbox (world d)) = 4 + zlen payload + zlen more) by (rewrite Hi, zlen_app; lia).
  destruct (recv_until_lab fuel 4 buf_len (lab_clock (world d) + timeout) [] d) as (k & cl & sc & H1 & H2 & H3 & H4);
    try done; try (change (zlen []) with 0; lia).
  change (k_uptime_get (world d)) with (lab_clock (world d)). rewrite H2. set (i := lab_inbox (world d)) in *.
  change ([] ++ take k i) with (take k i) in *. cbv beta iota zeta.
  rewrite (prefix_value (take k i) (drop k i) payload more) by (try lia; by rewrite take_drop).
  unfold wrap32. rewrite Z.mod_small by lia. destruct (Z.ltb_spec buf_len (4 + zlen payload)); [lia|].
  assert (Hsum : zlen (take k i) + zlen (drop k i) = zlen i) by (rewrite <- zlen_app, take_drop; done).
  destruct (recv_until_lab fuel (4 + zlen payload) buf_len (lab_clock (world d) + timeout) (take k i)
    (rx cl sc (drop k i) d)) as (k2 & cl2 & sc2 & G1 & G2 & G3 & G4); [done|simpl; lia|simpl; lia|..].
  { change (rounds_left (set_rx cl sc (drop k i) (world d)) <= Z.of_nat fuel). lia. }
  { change (cl + 50 * (rounds_left (set_rx cl sc (drop k i) (world d)) - 1) < lab_clock (world d) + timeout). lia. }
  rewrite G2. simpl in G1, G3 |- *. rewrite take_take_drop in G1 |- *. rewrite drop_drop. clearbody i. subst i.
  exists (k + k2 - length (frame_of payload))%nat, cl2, sc2. split; [lia|].
  assert (Hlen : (length (frame_of payload) <= k + k2)%nat).
  { unfold zlen in *. rewrite length_take in G1. lia. }
  rewrite take_app, drop_app, take_ge, (drop_ge (frame_of payload)) by lia. done.
Qed.

Lemma recv_frame_exact buf_len timeout payload d :
  0 <= socket_fd (net d) -> lab_inbox (world d) = frame_of payload ->
  4 + zlen payload <= buf_len -> buf_len < 2 ^ 32 -> 50 * rounds_left (world d) <= timeout ->
  exists cl sc, lab_clock (world d) <= cl /\
    recv_frame buf_len timeout d = Done (Some (frame_of payload, 4 + zlen payload), rx cl sc [] d).
Proof.
  intros Hs Hi Hb Hm Ht. destruct (recv_frame_lab buf_len timeout payload [] d) as (j & cl & sc & H1 & H2);
    rewrite ?app_nil_r; try done; [change (zlen []) with 0; lia|].
  exists cl, sc. split; [done|]. rewrite H2. by rewrite take_nil, drop_nil, app_nil_r.
Qed.
End Lab.

(** The runtime of [FirmwareWamrProofs], for examples. *)
Definition lab_wamr {W} : Wamr (lab heap W) := toy_wamr lab_heap set_heap.
