(* ===== verification/FirmwareWire.v ===== *)
(** * The firmware's packets are the protocol's messages

    The firmware writes its frames byte by byte. Each of them is the frame of
    the [ClientMessage] it stands for, and the frames of the gateway are what
    the firmware's readers expect. *)

From S2P Require Import Prelude.
From S2P Require Import RustStd.
From S2P Require Import Minicbor.
From S2P Require Import Protocol.
From S2P Require Import Rfc8949.
From S2P Require Import ProtocolProofs.
From S2P Require Import Framing.
From S2P Require Import FirmwareWamr.
From S2P Require Import Firmware.
From S2P Require Import FirmwareProofs.
From S2P Require Import FirmwareLab.

(** ** Bytes *)

Lemma byte_of_congr a b : a mod 256 = b mod 256 -> byte_of a = byte_of b.
Proof. unfold byte_of. by intros ->. Qed.

Lemma be4 z : be_bytes 4 z = map byte_of [Z.shiftr z 24; Z.shiftr z 16; Z.shiftr z 8; z].
Proof.
  unfold be_bytes.
  change (le_bytes 4 z) with [byte_of z; byte_of (z / 256); byte_of (z / 256 / 256); byte_of (z / 256 / 256 / 256)].
  cbn [rev app map].
  rewrite !Z.shiftr_div_pow2 by lia. rewrite !Z.div_div by lia. done.
Qed.

Lemma be1 z : be_bytes 1 z = [byte_of z].
Proof. done. Qed.

Lemma with_prefix_frame body : with_prefix body = frame_of body.
Proof. unfold with_prefix, frame_of. by rewrite be4. Qed.

Lemma bytes_frame_frame tag bs :
  zlen bs <= 255 -> bytes_frame tag bs = frame_of (map byte_of [0x82; tag; 0x58; zlen bs] ++ bs).
Proof.
  intros H. pose proof (zlen_nonneg bs). unfold bytes_frame, frame_of. rewrite be4, zlen_app.
  change (zlen (map byte_of [0x82; tag; 0x58; zlen bs])) with 4. set (c := 4 + zlen bs).
  rewrite app_assoc. f_equal. cbn [map app]. change 0xFF with (Z.ones 8). rewrite !Z.land_ones by lia.
  assert (Hb : forall a b l m, a mod 256 = b mod 256 -> l = m -> byte_of a :: l = byte_of b :: m).
  { intros a b l m Hab ->. by rewrite (byte_of_congr a b). }
  repeat apply Hb; rewrite ?Z.shiftr_div_pow2 by lia; change (2 ^ 8) with 256;
    rewrite ?Z.mod_mod by lia; try done.
  - rewrite (Z.div_small c (2 ^ 24)); [done|subst c; lia].
  - rewrite (Z.div_small c (2 ^ 16)); [done|subst c; lia].
Qed.

Lemma head_short major n : 0 <= n < 24 -> head major n = [byte_of (major * 32 + n)].
Proof. intros. unfold head. rewrite (proj2 (Z.ltb_lt _ _)) by lia. done. Qed.

Lemma head_byte1 major n : 24 <= n < 256 -> head major n = [byte_of (major * 32 + 24); byte_of n].
Proof.
  intros. unfold head. rewrite (proj2 (Z.ltb_ge n 24)) by lia.
  rewrite (proj2 (Z.ltb_lt n (2 ^ 8))) by lia. done.
Qed.

Lemma head_byte2 major n :
  256 <= n < 65536 -> head major n = [byte_of (major * 32 + 25); byte_of (n / 256); byte_of n].
Proof.
  intros. unfold head. rewrite (proj2 (Z.ltb_ge n 24)), (proj2 (Z.ltb_ge n (2 ^ 8))) by lia.
  rewrite (proj2 (Z.ltb_lt n (2 ^ 16))) by lia. done.
Qed.

Lemma text_item_str t : zlen t < 256 -> text_item t = e_str (Minicbor := rfc8949) (bytes_str t).
Proof.
  intros H. pose proof (zlen_nonneg t). cbn [e_str rfc8949]. rewrite str_bytes_str. unfold text_item. f_equal.
  destruct (Z.leb_spec (zlen t) 23); [by rewrite head_short by lia|by rewrite head_byte1 by lia].
Qed.

(** ** What the gateway reads *)

Abbreviation reads := (gateway_read_loop (M := rfc8949)).
Abbreviation enc := (encode_client (M := rfc8949)).

Lemma reads_frame m : client_ok m -> frame_fits (enc m) -> reads (frame_of (enc m)) = [Some m].
Proof.
  intros Hm Hf. unfold frame_of. rewrite <- (app_nil_r (enc m)) at 2.
  by rewrite (gateway_read_cons (M := rfc8949) m [] Hm Hf).
Qed.

Lemma enc_public_key key :
  24 <= zlen key < 256 -> enc (CPublicKey key) = map byte_of [0x82; 0x02; 0x58; zlen key] ++ key.
Proof. intros H. cbn [encode_client e_bytes rfc8949]. rewrite (head_byte1 2) by lia. done. Qed.

Lemma enc_challenge_response sg :
  24 <= zlen sg < 256 -> enc (CChallengeResponse sg) = map byte_of [0x82; 0x08; 0x58; zlen sg] ++ sg.
Proof. intros H. cbn [encode_client e_bytes rfc8949]. rewrite (head_byte1 2) by lia. done. Qed.

Definition ack_error (error : list byte) : option string :=
  if zlen error =? 0 then None else Some (bytes_str error).

Lemma enc_deploy_ack id success error :
  zlen id < 256 -> zlen error < 256 ->
  ack_body id success error = enc (CApplicationDeployAck (bytes_str id) success (ack_error error)).
Proof.
  intros Hi He. unfold ack_body, ack_error. cbn [encode_client]. rewrite text_item_str by done.
  change (e_array (Minicbor := rfc8949) 4 ++ e_u32 (Minicbor := rfc8949) CLIENT_APPLICATION_DEPLOY_ACK ++ ?x)
    with (map byte_of [0x84; 0x05] ++ x).
  f_equal. f_equal. f_equal; [by destruct success|].
  destruct (zlen error =? 0); [done|]. cbn [encode_opt_str]. by rewrite text_item_str.
Qed.

Lemma enc_status id :
  zlen id < 256 -> status_body id 1 = enc (CApplicationStatus (bytes_str id) Running None None).
Proof. intros Hi. unfold status_body. cbn [encode_client]. by rewrite text_item_str. Qed.

(** ** The packets *)

(** A command that keeps every property of the state leaves it alone. *)
Lemma ensures_pure {X A} (c : cmd (device X) A) (Q : A -> Prop) :
  (forall I, ensures I c Q) -> forall d, exists a, c d = Done (a, d) /\ Q a.
Proof.
  intros H d. specialize (H (eq d) d eq_refl). unfold wp in H.
  destruct (c d) as [[a d']| |]; [|done..]. destruct H as [<- Ha]. by exists a.
Qed.

Lemma key_packet {X} tag cap (bs : list byte) (d : device X) :
  24 <= zlen bs <= 255 -> 8 + zlen bs <= cap ->
  bytes_packet cap tag bs d = Done (frame_of (map byte_of [0x82; tag; 0x58; zlen bs] ++ bs), d).
Proof.
  intros H1 H2. destruct (ensures_pure (X := X) (bytes_packet cap tag bs) (fun r => r = bytes_frame tag bs)) with (d := d)
    as (r & -> & ->); [intros I; by apply bytes_packet_returns|].
  by rewrite bytes_frame_frame by lia.
Qed.

Lemma ack_packet {X} id success error (d : device X) :
  deploy_ack_packet id success error d =
    Done (frame_of (enc (CApplicationDeployAck (bytes_str (take 63 id)) success
                           (ack_error (take 63 (default [] error))))), d).
Proof.
  destruct (ensures_pure _ _ (fun I => deploy_ack_returns I id success error) d) as (r & -> & ->).
  pose proof (zlen_take63 id). pose proof (zlen_take63 (default [] error)).
  by rewrite with_prefix_frame, enc_deploy_ack by lia.
Qed.

Lemma status_packet {X} id (d : device X) :
  application_status_packet id 1 d =
    Done (frame_of (enc (CApplicationStatus (bytes_str (take 63 id)) Running None None)), d).
Proof.
  destruct (ensures_pure _ _ (fun I => application_status_returns I id 1) d) as (r & -> & ->).
  pose proof (zlen_take63 id). by rewrite with_prefix_frame, enc_status by lia.
Qed.

Lemma fits_string t : zlen t <= 63 -> zlen (e_str (Minicbor := rfc8949) (bytes_str t)) <= 65.
Proof. intros. rewrite <- text_item_str by lia. pose proof (zlen_text_item t). lia. Qed.

Lemma ack_fits id success error :
  zlen id <= 63 -> zlen error <= 63 ->
  frame_fits (enc (CApplicationDeployAck (bytes_str id) success (ack_error error))).
Proof.
  intros Hi He. rewrite <- enc_deploy_ack by lia. unfold frame_fits, ack_body, MAX_FRAME.
  pose proof (zlen_text_item id). pose proof (zlen_text_item error).
  pose proof (zlen_nonneg (text_item id)). pose proof (zlen_nonneg (text_item error)).
  rewrite !zlen_app. change (zlen (map byte_of [0x84; 0x05])) with 2. change (zlen [_]) with 1.
  destruct (zlen error =? 0); [change (zlen [byte_of 0xf6]) with 1|]; lia.
Qed.

Lemma status_fits id : zlen id <= 63 -> frame_fits (enc (CApplicationStatus (bytes_str id) Running None None)).
Proof.
  intros Hi. rewrite <- enc_status by lia. unfold frame_fits, status_body, MAX_FRAME.
  pose proof (zlen_text_item id). pose proof (zlen_nonneg (text_item id)).
  rewrite !zlen_app. change (zlen (map byte_of [0x85; 0x04])) with 2.
  change (zlen (map byte_of [1; 0xf6; 0xf6])) with 3. lia.
Qed.

Lemma bytes_string_ok t : zlen t <= 63 -> utf8_valid t = true -> string_ok (bytes_str t).
Proof. intros Hl Hu. split; rewrite str_bytes_str; [done|]. unfold vec_ok. lia. Qed.

Lemma ack_error_ok t : zlen t <= 63 -> utf8_valid t = true -> opt_ok string_ok (ack_error t).
Proof. intros Hl Hu. unfold ack_error. destruct (zlen t =? 0); [done|]. by apply bytes_string_ok. Qed.

Lemma reads_public_key key :
  24 <= zlen key <= 255 -> reads (frame_of (map byte_of [0x82; 0x02; 0x58; zlen key] ++ key)) = [Some (CPublicKey key)].
Proof.
  intros H. rewrite <- enc_public_key by lia. apply reads_frame; [simpl; unfold vec_ok; lia|].
  rewrite enc_public_key by lia. unfold frame_fits, MAX_FRAME. rewrite zlen_app.
  change (zlen (map byte_of [0x82; 0x02; 0x58; zlen key])) with 4. lia.
Qed.

Lemma reads_challenge_response sg :
  24 <= zlen sg <= 255 ->
  reads (frame_of (map byte_of [0x82; 0x08; 0x58; zlen sg] ++ sg)) = [Some (CChallengeResponse sg)].
Proof.
  intros H. rewrite <- enc_challenge_response by lia. apply reads_frame; [simpl; unfold vec_ok; lia|].
  rewrite enc_challenge_response by lia. unfold frame_fits, MAX_FRAME. rewrite zlen_app.
  change (zlen (map byte_of [0x82; 0x08; 0x58; zlen sg])) with 4. lia.
Qed.

Lemma reads_ack id success error :
  utf8_valid (take 63 id) = true -> utf8_valid (take 63 error) = true ->
  reads (frame_of (enc (CApplicationDeployAck (bytes_str (take 63 id)) success (ack_error (take 63 error))))) =
    [Some (CApplicationDeployAck (bytes_str (take 63 id)) success (ack_error (take 63 error)))].
Proof.
  intros Hi He. pose proof (zlen_take63 id). pose proof (zlen_take63 error).
  apply reads_frame; [|by apply ack_fits]. split; [by apply bytes_string_ok|by apply ack_error_ok].
Qed.

Lemma reads_status id :
  utf8_valid (take 63 id) = true ->
  reads (frame_of (enc (CApplicationStatus (bytes_str (take 63 id)) Running None None))) =
    [Some (CApplicationStatus (bytes_str (take 63 id)) Running None None)].
Proof.
  intros Hi. pose proof (zlen_take63 id). apply reads_frame; [|by apply status_fits].
  split; [by apply bytes_string_ok|done].
Qed.

(** C39: Every packet the firmware builds by hand fits its array, leaves the
    device's state alone, and is read by the gateway as exactly the message it
    stands for: the three constant packets, the public key and the signature
    (keys of 24 to 128 and signatures of 24 to 80 bytes, so every P-256 one),
    the acknowledgment of a deployment and the application status, whose
    identifier and error text are cut to 63 bytes (and must then be UTF-8). *)
Theorem firmware_packets_decode {X} (d : device X) key sg id success error :
  24 <= zlen key <= 128 -> 24 <= zlen sg <= 80 ->
  utf8_valid (take 63 id) = true -> utf8_valid (take 63 (default [] error)) = true ->
  reads heartbeat_packet = [Some CHeartbeat] /\
  reads enrollment_request_pkt = [Some CEnrollmentRequest] /\
  reads enrollment_ack_pkt = [Some CEnrollmentAcknowledgment] /\
  (exists pkt, bytes_packet (8 + 128) 0x02 key d = Done (pkt, d) /\ reads pkt = [Some (CPublicKey key)]) /\
  (exists pkt, bytes_packet (8 + 80) 0x08 sg d = Done (pkt, d) /\ reads pkt = [Some (CChallengeResponse sg)]) /\
  (exists pkt, deploy_ack_packet id success error d = Done (pkt, d) /\
     reads pkt = [Some (CApplicationDeployAck (bytes_str (take 63 id)) success
                          (ack_error (take 63 (default [] error))))]) /\
  (exists pkt, application_status_packet id 0x01 d = Done (pkt, d) /\
     reads pkt = [Some (CApplicationStatus (bytes_str (take 63 id)) Running None None)]).
Proof.
  intros Hk Hs Hi He. split_and!; [reflexivity..| | | |].
  - eexists. split; [apply key_packet; lia|apply reads_public_key; lia].
  - eexists. split; [apply key_packet; lia|apply reads_challenge_response; lia].
  - eexists. split; [apply ack_packet|by apply reads_ack].
  - eexists. split; [apply status_packet|by apply reads_status].
Qed.

Lemma firmware_packets_decode_witness :
  exists pkt,
    deploy_ack_packet (str_bytes "app-1") false (Some (str_bytes "parse name")) (powered_on tt) =
      Done (pkt, powered_on tt) /\
    reads pkt = [Some (CApplicationDeployAck "app-1" false (Some "parse name"%string))].
Proof.
  destruct (firmware_packets_decode (powered_on tt) (replicate 91 Byte.x04) (replicate 70 Byte.x30)
    (str_bytes "app-1") false (Some (str_bytes "parse name"))) as (_ & _ & _ & _ & _ & H & _).
  - by vm_compute.
  - by vm_compute.
  - reflexivity.
  - reflexivity.
  - exact H.
Defined.
