(* ===== verification/FirmwareGateway.v ===== *)
(** * The firmware enrolls at the gateway and runs what it is sent

    [do_enrollment] and [wasmbed_protocol_recv_and_handle] of the firmware
    against [on_message] of the gateway, over the wire of [FirmwareLab]. *)

From S2P Require Import Prelude.
From S2P Require Import RustStd.
From S2P Require Import Externals.
From S2P Require Import Base64.
From S2P Require Import Minicbor.
From S2P Require Import Protocol.
From S2P Require Import Rfc8949.
From S2P Require Import ProtocolProofs.
From S2P Require Import Framing.
From S2P Require Import K8s.
From S2P Require Import KubeStore.
From S2P Require Import Registry.
From S2P Require Import RegistryProofs.
From S2P Require Import Gateway.
From S2P Require Import GatewaySteps.
From S2P Require Import K8sProofs.
From S2P Require Import EdgeClientProofs.
From S2P Require Import Renode.
From S2P Require Import RenodeProofs.
From S2P Require Import FirmwareWamr.
From S2P Require Import FirmwareWamrProofs.
From S2P Require Import Firmware.
From S2P Require Import FirmwareProofs.
From S2P Require Import FirmwareLab.
From S2P Require Import FirmwareWire.

(** mbedTLS signs a digest; the verifier of the gateway hashes the message
    itself. A signature of the digest of a message verifies for it. *)
Class MbedTlsEcdsa (T : MbedTls) (E : Ecdsa) := {
  mb_point : mb_key -> list byte;
  mb_sign_verifies k m h size s :
    mb_sha256 m = Some h -> mb_sign k h size = Some s -> ecdsa_verify (mb_point k) m s = true;
}.

(** ** Frames in the buffer *)

Section Buffer.
Context {S : Type}.
Implicit Types d : S.

Lemma cbind_done {A A'} (c : cmd S A) (k : A -> cmd S A') d a d' :
  c d = Done (a, d') -> cbind c k d = k a d'.
Proof. unfold cbind. by intros ->. Qed.

Lemma frame_lookup payload i : frame_of payload !! (4 + i)%nat = payload !! i.
Proof.
  unfold frame_of. rewrite lookup_app_r by (rewrite length_be_bytes; lia). by rewrite length_be_bytes, Nat.add_comm, Nat.add_sub.
Qed.

Lemma frame_at payload (i : nat) j b d :
  payload !! i = Some b -> j = 4 + Z.of_nat i -> at_index (frame_of payload) j d = Done (byte_val b, d).
Proof.
  intros Hb ->. pose proof (lookup_lt_Some _ _ _ Hb). unfold at_index. rewrite zlen_frame.
  rewrite (proj2 (Z.leb_le _ _)), (proj2 (Z.ltb_lt _ _)) by (unfold zlen; lia). cbn [andb].
  replace (Z.to_nat (4 + Z.of_nat i)) with (4 + i)%nat by lia. by rewrite frame_lookup, Hb.
Qed.

Lemma frame_slice payload off len d :
  0 <= off -> 0 <= len -> off + len <= zlen payload ->
  slice (frame_of payload) (4 + off) len d = Done (take (Z.to_nat len) (drop (Z.to_nat off) payload), d).
Proof.
  intros H1 H2 H3. unfold slice. rewrite zlen_frame, !(proj2 (Z.leb_le _ _)) by lia. cbn [andb]. unfold creturn.
  replace (drop (Z.to_nat (4 + off)) (frame_of payload)) with (drop (Z.to_nat off) payload); [done|].
  unfold frame_of. replace (Z.to_nat (4 + off)) with (4 + Z.to_nat off)%nat by lia.
  by rewrite drop_app_ge, length_be_bytes, Nat.add_comm, Nat.add_sub by (rewrite length_be_bytes; lia).
Qed.
End Buffer.

Lemma tagged_frame {X} a b t x y (d : device X) :
  tagged (frame_of (byte_of a :: byte_of b :: t)) x y d = Done ((a mod 256 =? x) && (b mod 256 =? y), d).
Proof.
  unfold tagged, cbind. rewrite (frame_at _ 0 _ (byte_of a)) by done. rewrite byte_val_of.
  destruct (a mod 256 =? x); [|done]. cbn [negb andb].
  rewrite (frame_at _ 1 _ (byte_of b)) by done. by rewrite byte_val_of.
Qed.

(** ** Strings in the buffer *)

Section Strings.
Context {X : Type}.
Implicit Types (d : device X) (pre bs post : list byte).

Lemma frame_at_after pre rest (i : nat) j b d :
  rest !! i = Some b -> j = 4 + zlen pre + Z.of_nat i ->
  at_index (frame_of (pre ++ rest)) j d = Done (byte_val b, d).
Proof.
  intros Hb ->. apply (frame_at _ (length pre + i)).
  - by rewrite lookup_app_r, Nat.add_comm, Nat.add_sub by lia.
  - unfold zlen. lia.
Qed.

(** The head of a string of less than 64 KiB, as the encoder writes it. *)
Lemma string_head_enc major pre bs post d :
  0 <= major < 8 -> zlen bs < 65536 ->
  let payload := pre ++ head major (zlen bs) ++ bs ++ post in
  cbor_string_head (major * 32) (frame_of payload) (4 + zlen pre) (4 + zlen payload) d =
    Done (Some (zlen bs, 4 + zlen pre + zlen (head major (zlen bs))), d).
Proof.
  intros Hm Hn payload. pose proof (zlen_nonneg bs). pose proof (zlen_nonneg post). pose proof (zlen_nonneg pre).
  assert (Hz : zlen payload = zlen pre + zlen (head major (zlen bs)) + zlen bs + zlen post).
  { unfold payload. rewrite !zlen_app. lia. }
  unfold cbor_string_head. destruct (Z.lt_ge_cases (zlen bs) 24) as [H24|H24];
    [|destruct (Z.lt_ge_cases (zlen bs) 256) as [H256|H256]].
  - subst payload. rewrite head_short in * by lia.
    erewrite cbind_done; [|apply (frame_at_after pre _ 0); [reflexivity|lia]].
    rewrite byte_val_small by lia. rewrite !(proj2 (Z.leb_le _ _)) by lia. cbn [andb].
    unfold creturn. repeat f_equal. lia.
  - subst payload. rewrite head_byte1 in * by lia. change (zlen [_; _]) with 2 in *.
    erewrite cbind_done; [|apply (frame_at_after pre _ 0); [reflexivity|lia]].
    rewrite byte_val_small by lia. rewrite (proj2 (Z.leb_le (major * 32) _)) by lia.
    rewrite (proj2 (Z.leb_gt _ (major * 32 + 23))), (proj2 (Z.eqb_eq _ _)), (proj2 (Z.leb_le _ _)) by lia. cbn [andb].
    erewrite cbind_done; [|apply (frame_at_after pre _ 1); [reflexivity|lia]].
    rewrite byte_val_small by lia. unfold creturn. done.
  - subst payload. rewrite head_byte2 in * by lia. change (zlen [_; _; _]) with 3 in *.
    erewrite cbind_done; [|apply (frame_at_after pre _ 0); [reflexivity|lia]].
    rewrite byte_val_small by lia. rewrite (proj2 (Z.leb_le (major * 32) _)) by lia.
    rewrite (proj2 (Z.leb_gt _ (major * 32 + 23))), (proj2 (Z.eqb_neq _ (major * 32 + 24))) by lia.
    rewrite (proj2 (Z.eqb_eq _ _)), (proj2 (Z.leb_le (4 + zlen pre + 3) _)) by lia. cbn [andb].
    erewrite cbind_done; [|apply (frame_at_after pre _ 1); [reflexivity|lia]].
    erewrite cbind_done; [|apply (frame_at_after pre _ 2); [reflexivity|lia]].
    rewrite !byte_val_of. pose proof (Z.div_mod (zlen bs) 256). pose proof (Z.mod_pos_bound (zlen bs) 256).
    rewrite (Z.mod_small (zlen bs / 256)) by lia. rewrite lor_bytes by lia. unfold creturn. repeat f_equal. lia.
Qed.

Lemma zlen_head major n : 0 <= n -> 1 <= zlen (head major n).
Proof. intros _. pose proof (length_head major n). unfold zlen. lia. Qed.

(** The pointer after a string. *)
Definition after (major : Z) pre bs : Z := 4 + zlen (pre ++ head major (zlen bs) ++ bs).

Lemma after_sum major pre bs : after major pre bs = 4 + zlen pre + zlen (head major (zlen bs)) + zlen bs.
Proof. unfold after. rewrite !zlen_app. lia. Qed.

Lemma skip_text_enc pre bs post d :
  zlen bs < 65536 -> let payload := pre ++ head 3 (zlen bs) ++ bs ++ post in
  cbor_skip_text (frame_of payload) (4 + zlen pre) (4 + zlen payload) d = Done (Some (after 3 pre bs), d).
Proof.
  intros H payload. pose proof (zlen_nonneg bs). pose proof (zlen_nonneg post).
  pose proof (zlen_head 3 (zlen bs) ltac:(lia)). rewrite after_sum.
  assert (Hz : zlen payload = zlen pre + zlen (head 3 (zlen bs)) + zlen bs + zlen post).
  { unfold payload. rewrite !zlen_app. lia. }
  unfold cbor_skip_text. rewrite (proj2 (Z.leb_gt _ _)) by lia.
  rewrite (cbind_done _ _ _ _ _ (string_head_enc 3 pre bs post d ltac:(lia) H)). cbv beta iota.
  rewrite (proj2 (Z.ltb_ge _ _)) by (fold payload; lia). done.
Qed.

Lemma read_bytes_enc pre bs post d :
  zlen bs < 65536 -> let payload := pre ++ head 2 (zlen bs) ++ bs ++ post in
  cbor_read_bytes (frame_of payload) (4 + zlen pre) (4 + zlen payload) d =
    Done (Some (after 2 pre bs - zlen bs, zlen bs, after 2 pre bs), d).
Proof.
  intros H payload. pose proof (zlen_nonneg bs). pose proof (zlen_nonneg post).
  pose proof (zlen_head 2 (zlen bs) ltac:(lia)). rewrite after_sum.
  assert (Hz : zlen payload = zlen pre + zlen (head 2 (zlen bs)) + zlen bs + zlen post).
  { unfold payload. rewrite !zlen_app. lia. }
  unfold cbor_read_bytes. rewrite (proj2 (Z.leb_gt _ _)) by lia.
  rewrite (cbind_done _ _ _ _ _ (string_head_enc 2 pre bs post d ltac:(lia) H)). cbv beta iota.
  rewrite (proj2 (Z.ltb_ge _ _)) by (fold payload; lia). unfold creturn. repeat f_equal. lia.
Qed.

Lemma slice_after major pre bs post d :
  slice (frame_of (pre ++ head major (zlen bs) ++ bs ++ post)) (after major pre bs - zlen bs) (zlen bs) d = Done (bs, d).
Proof.
  rewrite after_sum. pose proof (zlen_nonneg bs). pose proof (zlen_nonneg pre). pose proof (zlen_nonneg post).
  pose proof (zlen_nonneg (head major (zlen bs))).
  replace (4 + zlen pre + zlen (head major (zlen bs)) + zlen bs - zlen bs)
    with (4 + zlen (pre ++ head major (zlen bs))) by (rewrite zlen_app; lia).
  rewrite frame_slice; [|apply zlen_nonneg|lia|rewrite !zlen_app; lia].
  rewrite app_assoc. unfold zlen. rewrite !Nat2Z.id. by rewrite drop_app_length, take_app_length.
Qed.

(** The identifier is copied whole if it has less than 64 bytes. *)
Lemma read_text_enc pre bs post d :
  zlen bs < 64 -> let payload := pre ++ head 3 (zlen bs) ++ bs ++ post in
  cbor_read_text (frame_of payload) (4 + zlen pre) (4 + zlen payload) 64 d = Done (Some (bs, after 3 pre bs), d).
Proof.
  intros H payload. pose proof (zlen_nonneg bs). pose proof (zlen_nonneg post).
  pose proof (zlen_head 3 (zlen bs) ltac:(lia)).
  assert (Hz : zlen payload = zlen pre + zlen (head 3 (zlen bs)) + zlen bs + zlen post).
  { unfold payload. rewrite !zlen_app. lia. }
  unfold cbor_read_text. rewrite (proj2 (Z.leb_gt _ _)) by lia. change (64 =? 0) with false. cbn [orb].
  rewrite (cbind_done _ _ _ _ _ (string_head_enc 3 pre bs post d ltac:(lia) ltac:(lia))). cbv beta iota.
  rewrite (proj2 (Z.ltb_ge _ _)) by (fold payload; lia). rewrite (proj2 (Z.leb_gt 64 _)) by lia.
  replace (4 + zlen pre + zlen (head 3 (zlen bs))) with (after 3 pre bs - zlen bs) by (rewrite after_sum; lia).
  rewrite (cbind_done _ _ _ _ _ (slice_after 3 pre bs post d)). unfold creturn. repeat f_equal. lia.
Qed.
End Strings.

(** ** One exchange *)

Section Exchange.
Context {Rm W : Type} `{K : Kube W} `{B : Base64} `{E : Ecdsa} `{U : UuidParse}.
Variables (cb : Callbacks) (tls_key : list byte) (conn : string).
#[local] Existing Instance lab_zephyr.
Context {RX : Wamr (lab Rm W)}.
#[local] Abbreviation Z_lab := (lab_zephyr cb tls_key conn).

(** The device after the gateway has served it and it has received the answer. *)
Definition served (inputs : list Inputs) (s : HttpApiServer) (w : W) (cl : Z) (sc : list Z)
    (d : device (lab Rm W)) : device (lab Rm W) :=
  mkDevice (proto d) (net d) (wam d)
    (mkLab cl (lab_mem (world d)) (lab_heap (world d)) [] sc inputs s w).

Lemma gateway_write_frame m : zlen (encode_server (M := rfc8949) m) < 2 ^ 32 ->
  gateway_write (M := rfc8949) m = frame_of (encode_server (M := rfc8949) m).
Proof.
  intros H. unfold gateway_write, frame_of. rewrite Z.mod_small; [done|].
  pose proof (zlen_nonneg (encode_server (M := rfc8949) m)). lia.
Qed.

(** The device sends a packet, the gateway answers with one message, and the
    device receives its frame, however it is cut into pieces. *)
Lemma exchange_lab data m inp inputs r s w t d :
  0 <= socket_fd (net d) -> lab_inbox (world d) = [] -> lab_inputs (world d) = inp :: inputs ->
  reads data = [Some m] ->
  on_message cb inp tls_key conn (Some m) (lab_server (world d)) (lab_kube (world d)) = ([r], s, w) ->
  let payload := encode_server (M := rfc8949) r in
  zlen payload <= 60 -> 50 * (4 + zlen payload) <= t ->
  exists d1 cl sc,
    network_send (ZX := Z_lab) data d = Done (0, d1) /\ proto d1 = proto d /\
    recv_frame (ZX := Z_lab) 64 t d1 =
      Done (Some (frame_of payload, 4 + zlen payload), served inputs s w cl sc d).
Proof.
  intros Hs Hi Hin Hr Hm payload Hp Ht. pose proof (zlen_nonneg payload).
  set (d1 := mkDevice (proto d) (net d) (wam d) (set_gateway inputs s w (frame_of payload) (world d))).
  destruct (recv_frame_exact cb tls_key conn 64 t payload d1) as (cl & sc & _ & Hrecv); [done|..|lia|lia| |].
  { simpl. by rewrite Hi. }
  { unfold rounds_left. simpl. rewrite Hi. simpl. rewrite zlen_frame. lia. }
  exists d1, cl, sc. split_and!; [|done|exact Hrecv].
  unfold network_send, cbind, nget, cget, call. cbn [zsock_send lab_zephyr].
  rewrite (proj2 (Z.ltb_ge _ _)) by lia. rewrite Hr. cbn [foldl]. unfold gateway_serves. rewrite Hin, Hm.
  cbn [mbind list_bind]. rewrite app_nil_r, gateway_write_frame by (fold payload; lia). fold payload.
  pose proof (zlen_nonneg data). rewrite (proj2 (Z.ltb_ge (zlen data) 0)) by lia. done.
Qed.
End Exchange.

(** ** Enrollment *)

Section Enrollment.
Context {Rm W : Type} `{K : Kube W} `{B : Base64} `{E : Ecdsa} `{U : UuidParse}.
Context `{T : MbedTls} `{LT : !MbedTlsLaws T} `{TE : !MbedTlsEcdsa T E}.
Variables (cb : Callbacks) (tls_key : list byte) (conn : string).
#[local] Existing Instance lab_zephyr.
Context {RX : Wamr (lab Rm W)}.
#[local] Abbreviation Z_lab := (lab_zephyr cb tls_key conn).
#[local] Abbreviation enc_s := (encode_server (M := rfc8949)).
Implicit Types d : device (lab Rm W).

Lemma enc_challenge nonce :
  length nonce = 32%nat -> enc_s (SChallenge nonce) = map byte_of [0x82; 0x09; 0x58; 32] ++ nonce.
Proof.
  intros H. cbn [encode_server e_bytes rfc8949]. rewrite (head_byte1 2); unfold zlen; rewrite H; [done|lia].
Qed.

Lemma enc_uuid u :
  length (uuid_bytes u) = 16%nat -> enc_s (SDeviceUuid u) = map byte_of [0x82; 0x03; 0x50] ++ uuid_bytes u.
Proof.
  intros H. cbn [encode_server e_bytes rfc8949]. rewrite (head_short 2); unfold zlen; rewrite H; [done|lia].
Qed.

Lemma reply_of rxl len d d' :
  recv_frame (ZX := Z_lab) 64 5000 d = Done (Some (rxl, len), d') -> 6 <= len ->
  recv_reply (ZX := Z_lab) d = Done (Some (rxl, len), d').
Proof.
  intros H Hl. unfold recv_reply. rewrite (cbind_done _ _ _ _ _ H).
  rewrite (proj2 (Z.ltb_ge len 6)) by lia. done.
Qed.

(** The device announces its cached key. *)
Lemma announce_sends key d d1 :
  device_public_key (proto d) = key -> 24 <= zlen key <= 128 ->
  network_send (ZX := Z_lab) (frame_of (map byte_of [0x82; 0x02; 0x58; zlen key] ++ key)) d = Done (0, d1) ->
  announce_key (ZX := Z_lab) d = Done (0, d1).
Proof.
  intros Hk Hl Hs. unfold announce_key.
  rewrite (cbind_done _ _ d key d) by (unfold pget, cget; by rewrite Hk).
  rewrite (proj2 (Z.eqb_neq _ 0)) by lia. rewrite (cbind_done _ _ d tt d) by done.
  rewrite (cbind_done _ _ d key d) by (unfold pget, cget; by rewrite Hk).
  rewrite (proj2 (Z.eqb_neq _ 0)), (proj2 (Z.ltb_ge 255 _)) by lia. cbn [orb].
  rewrite (cbind_done _ _ _ _ _ (key_packet 0x02 (8 + 128) key d ltac:(lia) ltac:(lia))). exact Hs.
Qed.

(** It signs the transcript the gateway checks. *)
Lemma signs_transcript nonce priv sk h sg key d :
  device_public_key (proto d) = key -> device_private_key (proto d) = priv -> priv <> [] ->
  mb_parse_key priv = Some sk -> mb_sha256 (Gateway.pop_transcript nonce key) = Some h ->
  mb_sign sk h 80 = Some sg ->
  sign_challenge nonce 80 d = Done (Some sg, d).
Proof.
  intros Hk Hp Hne Hpk Hh Hsg. unfold sign_challenge.
  rewrite (cbind_done _ _ d priv d) by (unfold pget, cget; by rewrite Hp).
  rewrite (proj2 (Z.eqb_neq _ 0)) by (destruct priv; [done|unfold zlen; simpl; lia]).
  rewrite (cbind_done _ _ d (Some h) d).
  - by rewrite Hpk, Hsg.
  - unfold pop_transcript, cbind, pget, cget, creturn. rewrite Hk. by rewrite <- Hh.
Qed.

(** The challenge is answered with that signature. *)
Lemma answers nonce priv sk h sg key d d1 rxl len d2 :
  device_public_key (proto d) = key -> device_private_key (proto d) = priv -> priv <> [] ->
  mb_parse_key priv = Some sk -> mb_sha256 (Gateway.pop_transcript nonce key) = Some h ->
  mb_sign sk h 80 = Some sg -> length nonce = 32%nat -> 24 <= zlen sg ->
  network_send (ZX := Z_lab) (frame_of (map byte_of [0x82; 0x08; 0x58; zlen sg] ++ sg)) d = Done (0, d1) ->
  recv_frame (ZX := Z_lab) 64 5000 d1 = Done (Some (rxl, len), d2) -> 6 <= len ->
  answer_challenge (ZX := Z_lab) (frame_of (enc_s (SChallenge nonce))) (4 + zlen (enc_s (SChallenge nonce))) d =
    Done (Some rxl, d2).
Proof.
  intros Hk Hp Hne Hpk Hh Hsg Hn Hl Hs Hr Hlen. rewrite enc_challenge by done.
  assert (Hz : zlen (map byte_of [0x82; 0x09; 0x58; 32] ++ nonce) = 36).
  { rewrite zlen_app. unfold zlen. rewrite Hn. done. }
  unfold answer_challenge. rewrite Hz. change (4 + 36 <? 8) with false. cbv iota.
  rewrite (cbind_done _ _ d 0x58 d) by (by rewrite (frame_at _ 2 _ (byte_of 0x58))).
  change (negb (0x58 =? 0x58)) with false. cbv iota.
  rewrite (cbind_done _ _ d 32 d) by (by rewrite (frame_at _ 3 _ (byte_of 32))).
  change ((32 =? 0) || (4 + 36 <? 8 + 32)) with false. cbv iota.
  rewrite (cbind_done _ _ d nonce d).
  2: { change 8 with (4 + 4). rewrite frame_slice by lia.
       change (drop (Z.to_nat 4) (map byte_of [0x82; 0x09; 0x58; 32] ++ nonce)) with nonce.
       by rewrite take_ge by (simpl; lia). }
  rewrite (cbind_done _ _ d (Some sg) d) by (by apply (signs_transcript nonce priv sk h sg key)).
  pose proof (mb_sign_size _ _ _ _ Hsg). rewrite (proj2 (Z.ltb_ge 255 _)) by lia.
  rewrite (cbind_done _ _ _ _ _ (key_packet 0x08 (8 + 80) sg d ltac:(lia) ltac:(lia))).
  rewrite (cbind_done _ _ _ _ _ Hs). change (0 <? 0) with false. cbv iota.
  rewrite (cbind_done _ _ _ _ _ (reply_of _ _ _ _ Hr Hlen)). done.
Qed.

Lemma served_served i1 s1 w1 c1 q1 i2 s2 w2 c2 q2 d :
  served i2 s2 w2 c2 q2 (served i1 s1 w1 c1 q1 d) = served i2 s2 w2 c2 q2 d.
Proof. done. Qed.

(** The last two steps. *)
Lemma finishes u i4 rest d :
  0 <= socket_fd (net d) -> lab_inbox (world d) = [] -> lab_inputs (world d) = i4 :: rest ->
  length (uuid_bytes u) = 16%nat ->
  exists cl sc, finish_enrollment (ZX := Z_lab) (frame_of (enc_s (SDeviceUuid u))) d =
    Done (0, served rest (lab_server (world d)) (lab_kube (world d)) cl sc d).
Proof.
  intros Hs Hi Hin Hu. rewrite enc_uuid by done. cbn [map app]. unfold finish_enrollment.
  destruct (exchange_lab cb tls_key conn enrollment_ack_pkt CEnrollmentAcknowledgment i4 rest SEnrollmentCompleted
    (lab_server (world d)) (lab_kube (world d)) 3000 d) as (d1 & cl & sc & H1 & _ & H2); try done.
  exists cl, sc. rewrite (cbind_done _ _ _ _ _ (tagged_frame 0x82 0x03 _ _ _ d)).
  change (negb _) with false. cbv iota. rewrite (cbind_done _ _ _ _ _ H1). change (0 <? 0) with false. cbv iota.
  by rewrite (cbind_done _ _ _ _ _ H2).
Qed.

(** The middle of the dialogue: the gateway challenges the announced key, and
    completes the enrollment when the signature arrives in time. *)
Lemma key_challenged key i2 rest d :
  0 <= socket_fd (net d) -> lab_inbox (world d) = [] -> lab_inputs (world d) = i2 :: rest ->
  device_public_key (proto d) = key -> 24 <= zlen key <= 128 -> key_bound cb tls_key key ->
  length (in_nonce i2) = 32%nat ->
  exists d1 cl sc, let payload := enc_s (SChallenge (in_nonce i2)) in
    announce_key (ZX := Z_lab) d = Done (0, d1) /\
    recv_reply (ZX := Z_lab) d1 = Done (Some (frame_of payload, 4 + zlen payload),
      served rest (challenged conn key i2 (lab_server (world d))) (lab_kube (world d)) cl sc d).
Proof.
  intros Hs Hi Hin Hk Hkl Hb Hn.
  assert (Hz : zlen (enc_s (SChallenge (in_nonce i2))) = 36).
  { rewrite enc_challenge by done. rewrite zlen_app. unfold zlen. by rewrite Hn. }
  destruct (exchange_lab cb tls_key conn (frame_of (map byte_of [0x82; 0x02; 0x58; zlen key] ++ key)) (CPublicKey key)
    i2 rest (SChallenge (in_nonce i2)) (challenged conn key i2 (lab_server (world d))) (lab_kube (world d)) 5000 d)
    as (d1 & cl & sc & H1 & _ & H2); rewrite ?Hz; try done; [apply reads_public_key; lia|by apply public_key_challenged|].
  exists d1, cl, sc. split; [by apply (announce_sends key)|]. apply reply_of; [done|]. lia.
Qed.

Lemma response_accepted key i2 i3 rest priv sk h sg u s0 s3 s' w' d :
  0 <= socket_fd (net d) -> lab_inbox (world d) = [] -> lab_inputs (world d) = i3 :: rest ->
  lab_server (world d) = challenged conn key i2 s0 ->
  device_public_key (proto d) = key -> device_private_key (proto d) = priv -> priv <> [] ->
  mb_parse_key priv = Some sk -> spki_point key = Some (mb_point sk) -> length (in_nonce i2) = 32%nat ->
  mb_sha256 (Gateway.pop_transcript (in_nonce i2) key) = Some h -> mb_sign sk h 80 = Some sg -> 24 <= zlen sg ->
  take_challenge (in_now i3) conn (challenged conn key i2 s0) =
    (Some (mkPendingChallenge (in_nonce i2) key (in_now i2)), s3) ->
  complete_enrollment cb i3 key conn s3 (lab_kube (world d)) = ([SDeviceUuid u], s', w') ->
  length (uuid_bytes u) = 16%nat ->
  exists cl sc, let payload := enc_s (SChallenge (in_nonce i2)) in
    answer_challenge (ZX := Z_lab) (frame_of payload) (4 + zlen payload) d =
      Done (Some (frame_of (enc_s (SDeviceUuid u))), served rest s' w' cl sc d).
Proof.
  intros Hs Hi Hin Hsv Hk Hp Hne Hpk Hpt Hn Hh Hsg Hsl Htake Hce Hu.
  assert (Hz : zlen (enc_s (SDeviceUuid u)) = 19).
  { rewrite enc_uuid by done. rewrite zlen_app. unfold zlen. by rewrite Hu. }
  pose proof (mb_sign_size _ _ _ _ Hsg) as Hsz.
  destruct (exchange_lab cb tls_key conn (frame_of (map byte_of [0x82; 0x08; 0x58; zlen sg] ++ sg)) (CChallengeResponse sg)
    i3 rest (SDeviceUuid u) s' w' 5000 d) as (d1 & cl & sc & H1 & _ & H2); rewrite ?Hz; try done.
  - apply reads_challenge_response. lia.
  - cbn [on_message]. unfold handle_challenge_response.
    rewrite Hsv, Htake. cbn [announced_key nonce]. unfold verify_pop_signature, ec_point_from_spki. rewrite Hpt.
    cbn [rbind]. rewrite (mb_sign_verifies sk _ h 80 sg Hh Hsg). exact Hce.
  - exists cl, sc. apply (answers (in_nonce i2) priv sk h sg key d d1 _ _ _ Hk Hp Hne Hpk Hh Hsg Hn Hsl H1 H2). lia.
Qed.

(** What a device must hold to enroll: a key pair that the signing library
    parses and whose public half is the announced key. *)
Record provisioned (q : Proto) (sk : mb_key) : Prop := {
  pr_key : 24 <= zlen (device_public_key q) <= 128;
  pr_private : device_private_key q <> [];
  pr_parses : mb_parse_key (device_private_key q) = Some sk;
  pr_point : spki_point (device_public_key q) = Some (mb_point sk);
}.

(** The whole dialogue, for a device whose enrollment the gateway completes. *)
Lemma firmware_dialogue d i1 i2 i3 i4 rest sk h sg (Q : HttpApiServer -> Prop) :
  let key := device_public_key (proto d) in
  0 <= socket_fd (net d) -> lab_inbox (world d) = [] -> lab_inputs (world d) = i1 :: i2 :: i3 :: i4 :: rest ->
  provisioned (proto d) sk -> key_bound cb tls_key key -> length (in_nonce i2) = 32%nat ->
  mb_sha256 (Gateway.pop_transcript (in_nonce i2) key) = Some h -> mb_sign sk h 80 = Some sg -> 24 <= zlen sg ->
  in_now i3 - in_now i2 <= CHALLENGE_TTL ->
  (forall s, exists u s' w', complete_enrollment cb i3 key conn s (lab_kube (world d)) = ([SDeviceUuid u], s', w') /\
     length (uuid_bytes u) = 16%nat /\ Q s') ->
  exists s' w' cl sc, do_enrollment (ZX := Z_lab) d = Done (0, served rest s' w' cl sc d) /\ Q s'.
Proof.
  intros key Hs Hi Hin [Hkl Hne Hpk Hpt] Hb Hn Hh Hsg Hsl Ht Hc.
  set (s0 := lab_server (world d)). set (w0 := lab_kube (world d)) in *.
  destruct (exchange_lab cb tls_key conn enrollment_request_pkt CEnrollmentRequest i1 (i2 :: i3 :: i4 :: rest)
    SEnrollmentAccepted s0 w0 5000 d) as (da & c1 & q1 & Ha & _ & Hra); try done.
  set (d1 := served (i2 :: i3 :: i4 :: rest) s0 w0 c1 q1 d) in *.
  destruct (key_challenged key i2 (i3 :: i4 :: rest) d1) as (db & c2 & q2 & Hbs & Hrb); try done.
  set (d2 := served _ _ _ _ _ _) in Hrb. destruct (take_challenged conn key i2 i3 s0 Ht) as (s3 & Htake & _).
  destruct (Hc s3) as (u & s' & w' & Hce & Hu & HQ).
  destruct (response_accepted key i2 i3 (i4 :: rest) (device_private_key (proto d)) sk h sg u s0 s3 s' w' d2) as (c3 & q3 & Hans); try done.
  set (d3 := served _ _ _ _ _ _) in Hans. destruct (finishes u i4 rest d3) as (cl & sc & Hfin); try done.
  exists s', w', cl, sc. split; [|done]. unfold do_enrollment.
  rewrite (cbind_done _ _ _ _ _ Ha). change (0 <? 0) with false. cbv iota.
  rewrite (cbind_done _ _ _ _ _ (reply_of _ _ _ _ Hra ltac:(by vm_compute))). cbv beta iota.
  change (enc_s SEnrollmentAccepted) with [byte_of 0x81; byte_of 0x01].
  rewrite (cbind_done _ _ _ _ _ (tagged_frame 0x81 0x01 [] _ _ d1)). change (negb _) with false. cbv iota.
  rewrite (cbind_done _ _ _ _ _ Hbs). change (0 <? 0) with false. cbv iota.
  rewrite (cbind_done _ _ _ _ _ Hrb). cbv beta iota. rewrite enc_challenge at 1 by done. cbn [map app].
  rewrite (cbind_done _ _ _ _ _ (tagged_frame 0x82 0x09 _ _ _ d2)). change (_ && _) with true. cbv iota.
  rewrite (cbind_done _ _ _ _ _ Hans). exact Hfin.
Qed.

(** A device the cluster knows. *)
Lemma known_device_enrolls d i1 i2 i3 i4 rest sk h sg dev :
  let key := device_public_key (proto d) in
  0 <= socket_fd (net d) -> lab_inbox (world d) = [] -> lab_inputs (world d) = i1 :: i2 :: i3 :: i4 :: rest ->
  provisioned (proto d) sk -> key_bound cb tls_key key -> length (in_nonce i2) = 32%nat ->
  mb_sha256 (Gateway.pop_transcript (in_nonce i2) key) = Some h -> mb_sign sk h 80 = Some sg -> 24 <= zlen sg ->
  in_now i3 - in_now i2 <= CHALLENGE_TTL ->
  Device_find (lab_kube (world d)) key = Ok (Some dev) ->
  length (uuid_bytes (uuid_of_name (name_any dev) (in_uuid i3))) = 16%nat ->
  exists s' w' cl sc, do_enrollment (ZX := Z_lab) d = Done (0, served rest s' w' cl sc d) /\
    connection_to_device s' !! conn = Some (name_any dev).
Proof.
  intros key Hs Hi Hin Hpr Hb Hn Hh Hsg Hsl Ht Hf Hu.
  apply (firmware_dialogue d i1 i2 i3 i4 rest sk h sg
    (fun s' => connection_to_device s' !! conn = Some (name_any dev))); try done.
  intros s. unfold complete_enrollment. fold key. rewrite Hf. do 3 eexists. split; [done|]. split; [done|].
  by rewrite activate_bindings, lookup_insert_eq.
Qed.

(** C14: the firmware and the gateway agree on the wire, byte for byte: a
    device whose injected key pair belongs to a Device object completes its
    enrollment ([do_enrollment] answers 0) and its connection is bound to that
    object, for every way the network cuts the gateway's frames into pieces,
    when it answers within the challenge's time to live and its transport
    identity fits. *)
Theorem firmware_enrolls_at_gateway d i1 i2 i3 i4 rest sk h sg dev :
  let key := device_public_key (proto d) in
  0 <= socket_fd (net d) -> lab_inbox (world d) = [] -> lab_inputs (world d) = i1 :: i2 :: i3 :: i4 :: rest ->
  provisioned (proto d) sk -> key_bound cb tls_key key -> length (in_nonce i2) = 32%nat ->
  mb_sha256 (Gateway.pop_transcript (in_nonce i2) key) = Some h -> mb_sign sk h 80 = Some sg -> 24 <= zlen sg ->
  in_now i3 - in_now i2 <= CHALLENGE_TTL ->
  Device_find (lab_kube (world d)) key = Ok (Some dev) ->
  length (uuid_bytes (uuid_of_name (name_any dev) (in_uuid i3))) = 16%nat ->
  exists s' w' cl sc, do_enrollment (ZX := Z_lab) d = Done (0, served rest s' w' cl sc d) /\
    connection_to_device s' !! conn = Some (name_any dev).
Proof. apply known_device_enrolls. Qed.
End Enrollment.

(** ** A device of the laboratory *)

(** A signature is forty bytes of the key and the digest. *)
Definition fw_ecdsa : Ecdsa := {|
  private_key := list byte;
  from_pkcs8 bs := Some bs;
  public_point sk := sk;
  ecdsa_sign sk m := Some (take 40 sk ++ sha256 (Sha256 := toy_sha256) m);
  ecdsa_verify pk m s := bool_decide (s = take 40 pk ++ sha256 (Sha256 := toy_sha256) m);
  spki_point spki := Some (drop 26 spki);
|}.

Definition fw_mbed : MbedTls := {|
  mb_key := list byte;
  mb_sha256 bs := Some (sha256 (Sha256 := toy_sha256) bs);
  mb_parse_key bs := Some bs;
  mb_sign k h size := if zlen (take 40 k ++ h) <=? size then Some (take 40 k ++ h) else None;
|}.

#[local] Instance fw_mbed_laws : MbedTlsLaws fw_mbed.
Proof. split. simpl. intros k h size s. destruct (Z.leb_spec (zlen (take 40 k ++ h)) size); [|done]. by intros [= <-]. Qed.

#[local] Instance fw_mbed_ecdsa : MbedTlsEcdsa fw_mbed fw_ecdsa.
Proof.
  refine {| mb_point := (fun k => k) : mb_key (MbedTls := fw_mbed) -> list byte |}. simpl.
  intros k m h size s [= <-]. case_match; [|done]. intros [= <-]. by apply bool_decide_eq_true.
Defined.

Definition board_proto : Proto :=
  mkProto true true (str_bytes "10.0.0.1:40029") client_spki [Byte.x30] client_point [Byte.x30] [] [] 0 false 0 0 0.
Definition board_net : Net := mkNet true 3 (Some 1) true.
Definition board_wamr : wamr := (wamr_init (R := heap_wamr) wamr_statics empty_heap).1.2.

(** A board with an open connection to a gateway, on a network that delivers
    the bytes in the pieces [sched]. *)
Definition board (sched : list Z) (inbox : list byte) (w : cluster) : device (lab heap cluster) :=
  mkDevice board_proto board_net board_wamr
    (mkLab 60000 (fun _ => Byte.x00) empty_heap inbox sched
       [client_inputs 1; client_inputs 2; client_inputs 3; client_inputs 4; client_inputs 5] HttpApiServer_new w).

Lemma firmware_enrolls_at_gateway_witness :
  exists s' w' cl sc,
    do_enrollment (ZX := lab_zephyr (K := mem_kube) (B := base64) (E := fw_ecdsa) (U := hex_uuid) open_gateway [] "c")
      (T := fw_mbed) (board [1; 2; 40; 3] [] client_cluster) =
      Done (0, served [client_inputs 5] s' w' cl sc (board [1; 2; 40; 3] [] client_cluster)) /\
    connection_to_device s' !! "c"%string = Some "device-a"%string.
Proof.
  apply (firmware_enrolls_at_gateway (K := mem_kube) (B := base64) (E := fw_ecdsa) (U := hex_uuid) (T := fw_mbed)
    open_gateway [] "c" (board [1; 2; 40; 3] [] client_cluster)
    (client_inputs 1) (client_inputs 2) (client_inputs 3) (client_inputs 4) [client_inputs 5]
    client_point (sha256 (Sha256 := toy_sha256) (Gateway.pop_transcript (replicate 32 Byte.x55) client_spki))
    (take 40 client_point ++ sha256 (Sha256 := toy_sha256) (Gateway.pop_transcript (replicate 32 Byte.x55) client_spki))
    (sample_device "device-a" (url_encode client_spki) None));
    [by vm_compute|reflexivity|reflexivity|constructor; by vm_compute|reflexivity|reflexivity|reflexivity
    |vm_compute; reflexivity|by vm_compute|by vm_compute|vm_compute; reflexivity|vm_compute; reflexivity].
Defined.
