(* ===== verification/FirmwareDeploy.v ===== *)
(** * Deployments on the firmware

    The frame of a DeployApplication message as the gateway writes it, what the
    firmware makes of it, and what the gateway learns. *)

From S2P Require Import Prelude.
From S2P Require Import RustStd.
From S2P Require Import Externals.
From S2P Require Import Base64.
From S2P Require Import Minicbor.
From S2P Require Import Protocol.
From S2P Require Import Rfc8949.
From S2P Require Import ProtocolProofs.
From S2P Require Import Framing.
From S2P Require Import K8s.
From S2P Require Import KubeStore.
From S2P Require Import Registry.
From S2P Require Import Gateway.
From S2P Require Import EdgeClientProofs.
From S2P Require Import FirmwareWamr.
From S2P Require Import FirmwareWamrProofs.
From S2P Require Import Firmware.
From S2P Require Import FirmwareProofs.
From S2P Require Import FirmwareLab.
From S2P Require Import FirmwareWire.
From S2P Require Import FirmwareGateway.

(** ** The payload *)

Definition text_enc (t : list byte) : list byte := head 3 (zlen t) ++ t.
Definition bytes_enc (t : list byte) : list byte := head 2 (zlen t) ++ t.

(** [DeployApplication] up to its configuration. *)
Definition deploy_payload (id name hash wasm config : list byte) : list byte :=
  map byte_of [0x86; 0x05] ++ text_enc id ++ text_enc name ++ bytes_enc hash ++ bytes_enc wasm ++ config.

Lemma enc_deploy id name hash wasm config :
  encode_server (M := rfc8949) (SDeployApplication id name hash wasm config) =
    deploy_payload (str_bytes id) (str_bytes name) hash wasm (encode_config (M := rfc8949) config).
Proof. unfold deploy_payload, text_enc, bytes_enc. cbn [encode_server e_str e_bytes rfc8949]. by rewrite <- !app_assoc. Qed.

Section Handle.
Context {X : Type} `{ZX : Zephyr X} `{RX : Wamr X} `{T : MbedTls}.
Context {L : WamrLaws RX}.
Implicit Types d : device X.

(** The four prefixes the readers stop after. *)
Definition at_id : list byte := map byte_of [0x86; 0x05].
Definition at_name (id : list byte) : list byte := at_id ++ text_enc id.
Definition at_hash (id name : list byte) : list byte := at_name id ++ text_enc name.
Definition at_wasm (id name hash : list byte) : list byte := at_hash id name ++ bytes_enc hash.

(** What [handle_deploy_application] is called with, and what follows it. *)
Definition deploy_and_report (id name hash wasm config : list byte) : cmd (device X) Z :=
  do: r <- handle_deploy_application (frame_of (deploy_payload id name hash wasm config))
             (after 2 (at_hash id name) hash - 32) (after 2 (at_wasm id name hash) wasm - zlen wasm) (zlen wasm) in
  if r =? 0 then do: _ <- send_deploy_ack (c_str id) true None in creturn 0
  else refuse (c_str id) "hash or load/instantiate failed".

Definition with_app_id (id : list byte) d : device X :=
  mkDevice (set_app_id id (proto d)) (net d) (wam d) (world d).

(** The readers find the parts of the message. *)
Lemma receive_deploy_parses id name hash wasm config d :
  zlen id < 64 -> zlen name < 65536 -> zlen hash = 32 -> zlen wasm < 65536 ->
  let payload := deploy_payload id name hash wasm config in
  receive_deploy (frame_of payload) (4 + zlen payload) d =
    deploy_and_report id name hash wasm config (with_app_id id d).
Proof.
  intros Hi Hn Hh Hw payload. unfold receive_deploy.
  assert (E1 : payload = at_id ++ head 3 (zlen id) ++ id ++ (text_enc name ++ bytes_enc hash ++ bytes_enc wasm ++ config))
    by (unfold payload, deploy_payload, text_enc; by rewrite <- !app_assoc).
  assert (E2 : payload = at_name id ++ head 3 (zlen name) ++ name ++ (bytes_enc hash ++ bytes_enc wasm ++ config))
    by (unfold payload, deploy_payload, at_name, text_enc; by rewrite <- !app_assoc).
  assert (E3 : payload = at_hash id name ++ head 2 (zlen hash) ++ hash ++ (bytes_enc wasm ++ config))
    by (unfold payload, deploy_payload, at_hash, at_name, text_enc, bytes_enc; by rewrite <- !app_assoc).
  assert (E4 : payload = at_wasm id name hash ++ head 2 (zlen wasm) ++ wasm ++ config)
    by (unfold payload, deploy_payload, at_wasm, at_hash, at_name, text_enc, bytes_enc; by rewrite <- !app_assoc).
  erewrite cbind_done; [|rewrite E1; apply (read_text_enc at_id id); exact Hi]. cbv beta iota.
  erewrite cbind_done by reflexivity. erewrite cbind_done by reflexivity.
  change (mkDevice _ _ _ _) with (with_app_id id d). cbn [proto with_app_id set_app_id deploy_app_id_buf].
  erewrite cbind_done; [|rewrite E2; apply (skip_text_enc (at_name id) name); exact Hn]. cbv beta iota.
  erewrite cbind_done; [|rewrite E3; apply (read_bytes_enc (at_hash id name) hash); lia].
  cbv beta iota. rewrite Hh. cbv iota.
  erewrite cbind_done; [|rewrite E4; apply (read_bytes_enc (at_wasm id name hash) wasm); exact Hw]. done.
Qed.

Lemma slice_wasm id name hash wasm config d :
  slice (frame_of (deploy_payload id name hash wasm config)) (after 2 (at_wasm id name hash) wasm - zlen wasm)
    (zlen wasm) d = Done (wasm, d).
Proof.
  rewrite <- (slice_after 2 (at_wasm id name hash) wasm config d).
  unfold deploy_payload, at_wasm, at_hash, at_name, at_id, text_enc, bytes_enc. by rewrite <- !app_assoc.
Qed.

Lemma slice_hash id name hash wasm config d :
  zlen hash = 32 ->
  slice (frame_of (deploy_payload id name hash wasm config)) (after 2 (at_hash id name) hash - 32) 32 d = Done (hash, d).
Proof.
  intros Hh. rewrite <- (slice_after 2 (at_hash id name) hash (bytes_enc wasm ++ config) d), Hh.
  unfold deploy_payload, at_hash, at_name, at_id, text_enc, bytes_enc. by rewrite <- !app_assoc, Hh.
Qed.

(** The device after a module has been started: [t] is the clock. *)
Definition running_app (wasm : list byte) (iid t : Z) (q : Proto) : Proto :=
  set_status_timer t (set_app true iid (set_wasm_copy wasm (set_app false 0 q))).

(** A module whose digest is right and that the runtime accepts is started. *)
Lemma deploy_starts id name hash wasm config d (U : X -> X -> Prop) :
  confined U -> accepts wasm -> wamr_ok (wam d) (world d) -> zlen hash = 32 ->
  1 <= zlen wasm <= MAX_WASM_SIZE -> mb_sha256 wasm = Some hash ->
  exists iid m x, 
    handle_deploy_application (frame_of (deploy_payload id name hash wasm config))
      (after 2 (at_hash id name) hash - 32) (after 2 (at_wasm id name hash) wasm - zlen wasm) (zlen wasm) d =
      Done (0, mkDevice (running_app wasm iid (wrap32 (k_uptime_get x)) (proto d)) (net d) m x) /\
    only_running wasm iid m x /\ U (world d) x.
Proof.
  intros HU A Ho Hh Hw Hsha. unfold handle_deploy_application, MAX_WASM_SIZE in *.
  rewrite (proj2 (Z.eqb_neq _ 0)), (proj2 (Z.ltb_ge _ _)) by lia. cbn [orb].
  rewrite (cbind_done _ _ _ _ _ (slice_wasm id name hash wasm config d)). rewrite Hsha.
  rewrite (cbind_done _ _ _ _ _ (slice_hash id name hash wasm config d Hh)).
  rewrite bool_decide_true by done. cbn [negb].
  destruct (redeploy wasm (wam d) (world d) A) as
    (m1 & x1 & m2 & x2 & mid & m3 & x3 & iid & m4 & x4 & r5 & m5 & x5 & R1 & R2 & R3 & R4 & R5 & Hrun);
    [intros ->; unfold zlen in Hw; simpl in Hw; lia|done|].
  pose proof (cf_cleanup U HU (wam d) (world d)) as C1. rewrite R1 in C1.
  pose proof (cf_wamr_init U HU m1 x1) as C2. rewrite R2 in C2.
  pose proof (cf_wamr_load U HU wasm m2 x2) as C3. rewrite R3 in C3.
  pose proof (cf_wamr_instantiate U HU mid m3 x3) as C4. rewrite R4 in C4.
  pose proof (cf_wamr_start U HU iid m4 x4) as C5. rewrite R5 in C5. simpl in *.
  exists iid, m5, x5. split_and!; [|done|by do 4 (eapply (cf_trans U HU); [eassumption|])].
  unfold cbind, call_wamr, on_proto, cput, k_uptime_get_32, cget, creturn. simpl.
  rewrite R1. simpl. rewrite R2. simpl. rewrite R3. simpl. rewrite R4. simpl. rewrite R5. done.
Qed.
End Handle.

(** ** On the wire *)

Section Wire.
Context {Rm W : Type} `{K : Kube W} `{B : Base64} `{E : Ecdsa} `{U : UuidParse} `{T : MbedTls}.
Variables (cb : Callbacks) (tls_key : list byte) (conn : string).
#[local] Existing Instance lab_zephyr.
Context {RX : Wamr (lab Rm W)}.
#[local] Abbreviation Z_lab := (lab_zephyr cb tls_key conn).
Implicit Types (d : device (lab Rm W)) (x : lab Rm W).

Context {RL : WamrLaws RX}.

(** The runtime changes its own memory only, and takes time. *)
Definition runtime_only x y : Prop :=
  exists h cl, lab_clock x <= cl /\ y = set_heap h (set_rx cl (lab_sched x) (lab_inbox x) x).

(** A runtime that stays within its memory, and whose live objects are in it. *)
Record contained : Prop := {
  ct_confined : confined (R := RX) runtime_only;
  ct_live x y : lab_heap x = lab_heap y -> live x = live y;
}.

(** The device hands a message to the gateway, which has no answer. *)
Lemma send_lab data m inp inputs s w d :
  0 <= socket_fd (net d) -> protocol_initialized (proto d) = true -> gateway_connected (proto d) = true ->
  data <> [] -> reads data = [Some m] -> lab_inputs (world d) = inp :: inputs ->
  on_message cb inp tls_key conn (Some m) (lab_server (world d)) (lab_kube (world d)) = ([], s, w) ->
  wasmbed_protocol_send_message (ZX := Z_lab) data d =
    Done (0, mkDevice (proto d) (net d) (wam d) (set_gateway inputs s w [] (world d))).
Proof.
  intros Hs Hi Hc Hne Hr Hin Hm. pose proof (zlen_nonneg data). unfold wasmbed_protocol_send_message.
  erewrite cbind_done by reflexivity. rewrite Hi. cbn [negb].
  erewrite cbind_done by reflexivity. rewrite Hc. cbn [negb].
  rewrite (proj2 (Z.eqb_neq _ 0)) by (destruct data; [done|unfold zlen; simpl; lia]).
  rewrite (cbind_done _ _ d 0 (mkDevice (proto d) (net d) (wam d) (set_gateway inputs s w [] (world d)))); [done|].
  unfold network_send. erewrite cbind_done by reflexivity. rewrite (proj2 (Z.ltb_ge _ _)) by lia.
  rewrite (cbind_done _ _ d (zlen data) (mkDevice (proto d) (net d) (wam d) (set_gateway inputs s w [] (world d)))).
  - by rewrite (proj2 (Z.ltb_ge (zlen data) 0)) by lia.
  - unfold call. cbn [zsock_send lab_zephyr]. rewrite Hr. cbn [foldl]. unfold gateway_serves. by rewrite Hin, Hm.
Qed.

Lemma frame_not_nil payload : frame_of payload <> [].
Proof. intros H. apply (f_equal zlen) in H. rewrite zlen_frame in H. pose proof (zlen_nonneg payload). change (zlen []) with 0 in H. lia. Qed.

(** The gateway's handling of an acknowledgment. *)
Definition acknowledged (inp : Inputs) (id : string) (success : bool) (error : option string) x : W :=
  handle_ack inp (resolve_device_id conn (std_encode tls_key) (lab_server x)) id success error ApRunning DaRunning
    (lab_kube x).

Lemma ack_lab id success error inp inputs d :
  0 <= socket_fd (net d) -> protocol_initialized (proto d) = true -> gateway_connected (proto d) = true ->
  zlen id <= 63 -> utf8_valid id = true -> utf8_valid (take 63 (default [] error)) = true ->
  lab_inputs (world d) = inp :: inputs ->
  send_deploy_ack (ZX := Z_lab) id success error d =
    Done (tt, mkDevice (proto d) (net d) (wam d)
      (set_gateway inputs (lab_server (world d))
         (acknowledged inp (bytes_str id) success (ack_error (take 63 (default [] error))) (world d)) [] (world d))).
Proof.
  intros Hs Hi Hc Hl Hu He Hin. unfold send_deploy_ack.
  assert (Ht : take 63 id = id) by (apply take_ge; unfold zlen in Hl; lia).
  rewrite (cbind_done _ _ _ _ _ (ack_packet id success error d)). rewrite Ht.
  erewrite cbind_done; [done|].
  eapply (send_lab _ (CApplicationDeployAck (bytes_str id) success (ack_error (take 63 (default [] error)))) inp);
    try done. rewrite <- Ht. apply reads_ack; [by rewrite Ht|done].
Qed.

(** Receiving one frame of the gateway. *)
Lemma handle_frame_lab t payload d :
  0 <= socket_fd (net d) -> protocol_initialized (proto d) = true -> gateway_connected (proto d) = true ->
  lab_inbox (world d) = frame_of payload -> zlen payload <= MAX_WASM_SIZE + 124 -> zlen (lab_sched (world d)) <= 99 ->
  exists cl sc, wasmbed_protocol_recv_and_handle (ZX := Z_lab) t d =
    wasmbed_protocol_handle_message (ZX := Z_lab) (frame_of payload) (4 + zlen payload) (rx cl sc [] d).
Proof.
  intros Hs Hi Hc Hin Hl Hsc. unfold MAX_WASM_SIZE in Hl. pose proof (zlen_nonneg payload).
  destruct (recv_frame_exact cb tls_key conn (MAX_WASM_SIZE + 128) 5000 payload d) as (cl & sc & _ & Hr); try done.
  { unfold MAX_WASM_SIZE. lia. }
  { unfold rounds_left. lia. }
  exists cl, sc. unfold wasmbed_protocol_recv_and_handle.
  erewrite cbind_done by reflexivity. erewrite cbind_done by reflexivity. rewrite Hi, Hc. cbn [negb orb].
  rewrite (cbind_done _ _ d 1 d).
  2: { unfold network_poll_readable, cbind, nget, cget, call. rewrite (proj2 (Z.ltb_ge _ _)) by lia.
       cbn [zsock_poll lab_zephyr]. rewrite Hin. destruct (frame_of payload) eqn:Ef; [by apply frame_not_nil in Ef|].
       by destruct d. }
  change (1 <? 0) with false. change (1 =? 0) with false. cbv iota.
  rewrite (cbind_done _ _ _ _ _ Hr). cbv beta iota. destruct (4 + zlen payload) eqn:Ez; [lia|done|lia].
Qed.

(** A DeployApplication frame reaches [receive_deploy]. *)
Lemma handle_deploy_frame {X} {ZX : Zephyr X} {RX' : Wamr X} id name hash wasm config (d : device X) :
  let payload := deploy_payload id name hash wasm config in
  protocol_initialized (proto d) = true -> zlen payload < 2 ^ 32 - 4 ->
  wasmbed_protocol_handle_message (frame_of payload) (4 + zlen payload) d =
    receive_deploy (frame_of payload) (4 + zlen payload) d.
Proof.
  intros payload Hi Hl. pose proof (zlen_nonneg payload). unfold wasmbed_protocol_handle_message.
  erewrite cbind_done by reflexivity. rewrite Hi. cbn [negb].
  rewrite (proj2 (Z.eqb_neq _ 0)), (proj2 (Z.ltb_ge _ 4)) by lia.
  assert (H2 : 2 <= zlen payload).
  { unfold payload, deploy_payload. rewrite zlen_app. change (zlen (map byte_of [0x86; 0x05])) with 2.
    match goal with |- context [2 + zlen ?t] => pose proof (zlen_nonneg t) end. lia. }
  rewrite (cbind_done _ _ d (be_bytes 4 (zlen payload)) d).
  2: { unfold slice. rewrite zlen_frame, !(proj2 (Z.leb_le _ _)) by lia. cbn [andb]. unfold creturn, frame_of.
       change (drop (Z.to_nat 0) ?l) with l. change (Z.to_nat 4) with 4%nat.
       rewrite take_app_le by (by rewrite length_be_bytes). by rewrite take_ge by (by rewrite length_be_bytes). }
  rewrite be_value_bytes by (change (256 ^ Z.of_nat 4) with (2 ^ 32); lia).
  unfold wrap32. rewrite Z.mod_small by lia. rewrite !(proj2 (Z.leb_le _ _)) by lia. cbn [andb].
  unfold payload, deploy_payload. cbn [map app].
  rewrite (cbind_done _ _ _ _ _ (tagged_frame 0x86 0x05 _ _ _ d)). done.
Qed.

Lemma owns_lab m x y : contained -> lab_heap y = lab_heap x -> wamr_ok m x -> wamr_ok m y.
Proof. intros C H (ms & xs & O). exists ms, xs. apply (owns_same m x); [done|]. by apply (ct_live C). Qed.

(** The frame of a module of 16 KiB fits when identifier, name and
    configuration have 81 bytes together. *)
Lemma deploy_fits id name hash wasm config :
  zlen id < 256 -> zlen name < 256 -> zlen hash = 32 -> zlen wasm <= MAX_WASM_SIZE ->
  zlen id + zlen name + zlen config <= 81 ->
  zlen (deploy_payload id name hash wasm config) <= MAX_WASM_SIZE + 124.
Proof.
  intros Hi Hn Hh Hw Hs. unfold MAX_WASM_SIZE in *.
  assert (Hhd : forall major n, 0 <= n < 65536 -> zlen (head major n) <= if n <? 256 then 2 else 3).
  { intros major n Hr. unfold head. destruct (Z.ltb_spec n 24); [destruct (Z.ltb_spec n 256); [done|lia]|].
    destruct (Z.ltb_spec n 256); [rewrite (proj2 (Z.ltb_lt n (2 ^ 8))) by lia; done|].
    rewrite (proj2 (Z.ltb_ge n (2 ^ 8))), (proj2 (Z.ltb_lt n (2 ^ 16))) by lia. done. }
  unfold deploy_payload, text_enc, bytes_enc. rewrite !zlen_app. change (zlen (map byte_of [0x86; 0x05])) with 2.
  pose proof (zlen_nonneg id). pose proof (zlen_nonneg name). pose proof (zlen_nonneg wasm).
  pose proof (Hhd 3 (zlen id)) as G1. rewrite (proj2 (Z.ltb_lt (zlen id) 256)) in G1 by lia.
  pose proof (Hhd 3 (zlen name)) as G2. rewrite (proj2 (Z.ltb_lt (zlen name) 256)) in G2 by lia.
  pose proof (Hhd 2 (zlen hash)) as G3. rewrite (proj2 (Z.ltb_lt (zlen hash) 256)) in G3 by lia.
  pose proof (Hhd 2 (zlen wasm)) as G4. destruct (zlen wasm <? 256); lia.
Qed.

(** C15: an application the gateway deploys runs on the device and is reported:
    when the gateway's DeployApplication frame arrives, in up to a hundred
    pieces, with a module of at most 16 KiB whose digest matches and that the
    runtime accepts, an identifier of at most 63 bytes without a NUL, and at
    most 81 bytes of identifier, name and configuration, then the frame fits
    the firmware's buffer and is parsed exactly; the runtime is emptied, the
    module that the gateway sent is loaded into it, instantiated, given its
    instruction limit and its entry point called, and afterwards this module
    and this instance are the only ones, in the tables and in the runtime; and
    the gateway receives the acknowledgment under the same identifier and
    records it. For every runtime that touches its own memory only; the wire
    neither fails nor closes while the frame is handled. *)
Theorem gateway_deploys_to_firmware t d id name hash wasm config inp rest :
  let msg := SDeployApplication id name hash wasm config in
  contained -> accepts (R := RX) wasm ->
  0 <= socket_fd (net d) -> protocol_initialized (proto d) = true -> gateway_connected (proto d) = true ->
  lab_inbox (world d) = gateway_write (M := rfc8949) msg -> lab_inputs (world d) = inp :: rest ->
  zlen (lab_sched (world d)) <= 99 -> string_ok id -> c_str (str_bytes id) = str_bytes id ->
  zlen (str_bytes id) <= 63 -> zlen hash = 32 -> mb_sha256 wasm = Some hash ->
  1 <= zlen wasm <= MAX_WASM_SIZE ->
  zlen (str_bytes id) + zlen (str_bytes name) + zlen (encode_config (M := rfc8949) config) <= 81 ->
  wamr_ok (wam d) (world d) ->
  exists iid m x,
    wasmbed_protocol_recv_and_handle (ZX := Z_lab) t d =
      Done (0, mkDevice (running_app wasm iid (wrap32 (lab_clock x)) (set_app_id (str_bytes id) (proto d))) (net d) m
                 (set_gateway rest (lab_server (world d)) (acknowledged inp id true None (world d)) [] x)) /\
    only_running wasm iid m x /\ lab_inbox x = [].
Proof.
  intros msg HC HA Hs Hi Hc Hin Hip Hsc [Hu _] Hnul Hid Hh Hsha Hw Hsz Ho.
  pose proof (zlen_nonneg (str_bytes id)). pose proof (zlen_nonneg (encode_config (M := rfc8949) config)).
  assert (Hfit : zlen (deploy_payload (str_bytes id) (str_bytes name) hash wasm (encode_config (M := rfc8949) config)) <=
    MAX_WASM_SIZE + 124) by (apply deploy_fits; lia).
  subst msg. rewrite <- enc_deploy in Hfit. unfold MAX_WASM_SIZE in Hw, Hfit.
  rewrite gateway_write_frame in Hin by lia.
  destruct (handle_frame_lab t _ d Hs Hi Hc Hin Hfit Hsc) as (cl & sc & ->).
  rewrite enc_deploy in *. set (d1 := rx cl sc [] d).
  rewrite handle_deploy_frame by (done || lia). rewrite receive_deploy_parses by lia. unfold deploy_and_report.
  destruct (deploy_starts (ZX := Z_lab) (str_bytes id) (str_bytes name) hash wasm (encode_config (M := rfc8949) config)
    (with_app_id (str_bytes id) d1) runtime_only) as (iid & m & x & Hd & Hrun & hp & cl' & _ & Hx);
    [apply HC|done|by apply (owns_lab _ (world d))|done|done|done|].
  rewrite (cbind_done _ _ _ _ _ Hd). change (0 =? 0) with true. cbv iota. rewrite Hnul.
  erewrite cbind_done; [|apply (ack_lab (str_bytes id) true None inp rest); try done; by rewrite Hx].
  exists iid, m, x. rewrite bytes_str_bytes. subst x. done.
Qed.
End Wire.

(** ** A deployment on the board *)

Definition tiny_module : list byte := wasm_magic ++ map byte_of [1; 0; 0; 0].
Definition tiny_hash : list byte := sha256 (Sha256 := toy_sha256) tiny_module.
Definition deploy_tiny (hash : list byte) : list byte :=
  gateway_write (M := rfc8949) (SDeployApplication "app-1" "app-1" hash tiny_module None).

Definition lab_wamr_laws {W} : WamrLaws (lab_wamr (W := W)) := toy_wamr_laws lab_heap set_heap (fun _ _ => eq_refl).

Lemma lab_contained {W} : contained (W := W) (RX := lab_wamr) (RL := lab_wamr_laws).
Proof.
  assert (Hself : forall x : lab heap W, runtime_only x x).
  { intros x. exists (lab_heap x), (lab_clock x). split; [lia|by destruct x]. }
  assert (Hset : forall h (x : lab heap W), runtime_only x (set_heap h x)).
  { intros h x. exists h, (lab_clock x). split; [lia|by destruct x]. }
  split; [|done]. split; simpl; try (intros; apply Hself); try (intros; apply Hset).
  - intros x y z (h & cl & Hl & ->) (h' & cl' & Hl' & ->). exists h', cl'. simpl in *. split; [lia|done].
  - intros bs x. case_bool_decide; simpl; [apply Hset|apply Hself].
Qed.

Lemma lab_accepts {W} wasm : take 4 wasm = wasm_magic -> accepts (R := lab_wamr (W := W)) wasm.
Proof. intros Hm. split; simpl; try done; intros x. by rewrite bool_decide_true by done. Qed.

Lemma board_wamr_ok sched inbox w :
  wamr_ok (R := lab_wamr) (L := lab_wamr_laws) (wam (board sched inbox w)) (world (board sched inbox w)).
Proof. exists [], []. by apply (owns_empty (R := lab_wamr) (L := lab_wamr_laws)). Qed.

Lemma gateway_deploys_to_firmware_witness :
  let d := board [3; 1; 10] (deploy_tiny tiny_hash) client_cluster in
  exists iid m x,
    wasmbed_protocol_recv_and_handle
      (ZX := lab_zephyr (K := mem_kube) (B := base64) (E := fw_ecdsa) (U := hex_uuid) open_gateway [] "c")
      (RX := lab_wamr) (T := fw_mbed) 100 d =
      Done (0, mkDevice (running_app tiny_module iid (wrap32 (lab_clock x)) (set_app_id (str_bytes "app-1") board_proto))
                 board_net m
                 (set_gateway [client_inputs 2; client_inputs 3; client_inputs 4; client_inputs 5]
                    (lab_server (world d))
                    (acknowledged (K := mem_kube) (B := base64) [] "c" (client_inputs 1) "app-1" true None (world d))
                    [] x)) /\
    only_running (R := lab_wamr) (L := lab_wamr_laws) tiny_module iid m x.
Proof.
  intros d.
  destruct (gateway_deploys_to_firmware (K := mem_kube) (B := base64) (E := fw_ecdsa) (U := hex_uuid) (T := fw_mbed)
    (RX := lab_wamr) (RL := lab_wamr_laws)
    open_gateway [] "c" 100 d "app-1" "app-1" tiny_hash tiny_module
    None (client_inputs 1) [client_inputs 2; client_inputs 3; client_inputs 4; client_inputs 5])
    as (iid & m & x & H1 & H2 & _);
    [apply lab_contained|by apply lab_accepts|by vm_compute|reflexivity|reflexivity|reflexivity|reflexivity
    |by vm_compute|by vm_compute|reflexivity
    |by vm_compute|reflexivity|reflexivity|by vm_compute|by vm_compute|apply board_wamr_ok|].
  exists iid, m, x. split; [exact H1|exact H2].
Defined.
