(* ===== verification/FirmwareLimits.v ===== *)
(** * The limits of the firmware

    What happens to a refused deployment's identifier, to two frames in one
    receive, to a frame that does not fit, to the messages the firmware does
    not handle and to long identifiers; the unused framed receive; and how
    often the firmware sends heartbeats. *)

From S2P Require Import Prelude.
From S2P Require Import RustStd.
From S2P Require Import Externals.
From S2P Require Import Base64.
From S2P Require Import Minicbor.
From S2P Require Import Protocol.
From S2P Require Import Rfc8949.
From S2P Require Import ProtocolProofs.
From S2P Require Import Framing.
From S2P Require Import K8s.
From S2P Require Import KubeStore.
From S2P Require Import K8sProofs.
From S2P Require Import Registry.
From S2P Require Import Gateway.
From S2P Require Import EdgeClientProofs.
From S2P Require Import FirmwareWamr.
From S2P Require Import FirmwareWamrProofs.
From S2P Require Import Firmware.
From S2P Require Import FirmwareProofs.
From S2P Require Import FirmwareLab.
From S2P Require Import FirmwareWire.
From S2P Require Import FirmwareGateway.
From S2P Require Import FirmwareDeploy.

(** A device with an open, initialized connection. *)
Definition online {X} (d : device X) : Prop :=
  0 <= socket_fd (net d) /\ protocol_initialized (proto d) = true /\ gateway_connected (proto d) = true.

(** ** A module with the wrong digest changes nothing in the runtime *)

Lemma deploy_mismatch {X} {ZX : Zephyr X} {RX : Wamr X} {T : MbedTls} id name hash wasm config h (d : device X) :
  zlen hash = 32 -> 1 <= zlen wasm <= MAX_WASM_SIZE -> mb_sha256 wasm = Some h -> h <> hash ->
  handle_deploy_application (frame_of (deploy_payload id name hash wasm config))
    (after 2 (at_hash id name) hash - 32) (after 2 (at_wasm id name hash) wasm - zlen wasm) (zlen wasm) d =
    Done (-1, d).
Proof.
  intros Hh Hw Hsha Hne. unfold handle_deploy_application, MAX_WASM_SIZE in *.
  rewrite (proj2 (Z.eqb_neq _ 0)), (proj2 (Z.ltb_ge _ _)) by lia. cbn [orb].
  rewrite (cbind_done _ _ _ _ _ (slice_wasm id name hash wasm config d)). rewrite Hsha.
  rewrite (cbind_done _ _ _ _ _ (slice_hash id name hash wasm config d Hh)).
  by rewrite bool_decide_false by done.
Qed.

(** A deployment that destroys the runtime and cannot start it again leaves
    [app_deployed] as it was: from then on nothing runs, and the periodic
    report goes on naming an application as running. *)
Theorem failed_restart_stays_deployed {X} {ZX : Zephyr X} {RX : Wamr X} {T : MbedTls}
    id name hash wasm config (d : device X) m x x' :
  zlen hash = 32 -> 1 <= zlen wasm <= MAX_WASM_SIZE -> mb_sha256 wasm = Some hash ->
  wamr_cleanup (wam d) (world d) = (m, x) -> wasm_runtime_full_init WAMR_HEAP_SIZE x = (false, x') ->
  handle_deploy_application (frame_of (deploy_payload id name hash wasm config))
    (after 2 (at_hash id name) hash - 32) (after 2 (at_wasm id name hash) wasm - zlen wasm) (zlen wasm) d =
    Done (-1, mkDevice (proto d) (net d) m x') /\ wamr_initialized m = false.
Proof.
  intros Hh Hw Hsha Hc Hi. unfold handle_deploy_application, MAX_WASM_SIZE in *.
  assert (Hm : wamr_initialized m = false).
  { unfold wamr_cleanup in Hc. destruct (wamr_initialized (wam d)) eqn:E; simpl in Hc; [|by simplify_eq].
    destruct (release_instances _ _ _), (release_modules _ _ _). by simplify_eq. }
  split; [|done].
  rewrite (proj2 (Z.eqb_neq _ 0)), (proj2 (Z.ltb_ge _ _)) by lia. cbn [orb].
  rewrite (cbind_done _ _ _ _ _ (slice_wasm id name hash wasm config d)). rewrite Hsha.
  rewrite (cbind_done _ _ _ _ _ (slice_hash id name hash wasm config d Hh)).
  rewrite bool_decide_true by done. cbn [negb].
  rewrite (cbind_done _ _ _ tt (mkDevice (proto d) (net d) m x)) by (unfold call_wamr; by rewrite Hc).
  rewrite (cbind_done _ _ _ (-1) (mkDevice (proto d) (net d) m x')); [done|].
  unfold call_wamr, wamr_init. simpl. by rewrite Hm, Hi.
Qed.

Section Limits.
Context {Rm W : Type} `{K : Kube W} `{B : Base64} `{E : Ecdsa} `{U : UuidParse} `{T : MbedTls}.
Variables (cb : Callbacks) (tls_key : list byte) (conn : string).
#[local] Existing Instance lab_zephyr.
Context {RX : Wamr (lab Rm W)}.
#[local] Abbreviation Z_lab := (lab_zephyr cb tls_key conn).
Implicit Types (d : device (lab Rm W)) (x : lab Rm W).

Definition hash_refused : string := "hash or load/instantiate failed".

(** The gateway's handling of a status message without an error. *)
Definition reported (inp : Inputs) (id : string) x : W :=
  handle_application_status inp (resolve_device_id conn (std_encode tls_key) (lab_server x)) id None None (lab_kube x).

Lemma reported_running inp id x dev app :
  resolve_device_id conn (std_encode tls_key) (lab_server x) = Some dev -> app_get (lab_kube x) id = Ok app ->
  reported inp id x =
    (app_update_apply (app_set_device_status dev
       (mkDeviceApplicationStatus DaRunning (Some (in_rfc3339 inp)) None None 0) app_update_default)
       (lab_kube x) app (in_rfc3339 inp)).2.
Proof. intros Hr Ha. unfold reported, handle_application_status. by rewrite Hr, Ha. Qed.

Lemma status_lab id inp inputs d :
  online d -> zlen id <= 63 -> utf8_valid id = true -> lab_inputs (world d) = inp :: inputs ->
  send_application_status (ZX := Z_lab) id 1 d =
    Done (tt, mkDevice (proto d) (net d) (wam d)
      (set_gateway inputs (lab_server (world d)) (reported inp (bytes_str id) (world d)) [] (world d))).
Proof.
  intros (Hs & Hi & Hc) Hl Hu Hin. unfold send_application_status.
  assert (Ht : take 63 id = id) by (apply take_ge; unfold zlen in Hl; lia).
  rewrite (cbind_done _ _ _ _ _ (status_packet id d)). rewrite Ht. erewrite cbind_done; [done|].
  eapply (send_lab cb tls_key conn _ (CApplicationStatus (bytes_str id) Running None None) inp); try done.
  rewrite <- Ht. apply reads_status. by rewrite Ht.
Qed.

(** The periodic report of an application that is due. *)
Lemma status_due now inp inputs d :
  online d -> app_deployed (proto d) = true -> due now (last_app_status_ms (proto d)) APP_STATUS_INTERVAL_MS = true ->
  zlen (deploy_app_id_buf (proto d)) <= 63 -> c_str (deploy_app_id_buf (proto d)) = deploy_app_id_buf (proto d) ->
  utf8_valid (deploy_app_id_buf (proto d)) = true -> lab_inputs (world d) = inp :: inputs ->
  status_tick (ZX := Z_lab) now d =
    Done (tt, mkDevice (set_status_timer now (proto d)) (net d) (wam d)
      (set_gateway inputs (lab_server (world d))
         (reported inp (bytes_str (deploy_app_id_buf (proto d))) (world d)) [] (world d))).
Proof.
  intros Ho Ha Hd Hl Hn Hu Hin. unfold status_tick.
  erewrite cbind_done by reflexivity. erewrite cbind_done by reflexivity. rewrite Ha, Hd. cbn [andb negb].
  erewrite cbind_done by reflexivity. rewrite Hn. by erewrite cbind_done; [|apply (status_lab _ inp inputs)].
Qed.

(** C19: a deployment that the device refuses because its digest is wrong takes
    over the name of the application that is running: the device acknowledges
    the failure, the old application goes on, but the identifier buffer already
    holds the refused one, so at the next periodic report the gateway is told,
    and records, that the refused application is running on the device. *)
Theorem refused_app_reported_running t d id name hash wasm config h inp1 inp2 rest now :
  let msg := SDeployApplication id name hash wasm config in
  online d -> app_deployed (proto d) = true ->
  lab_inbox (world d) = gateway_write (M := rfc8949) msg -> lab_inputs (world d) = inp1 :: inp2 :: rest ->
  zlen (lab_sched (world d)) <= 99 -> string_ok id -> c_str (str_bytes id) = str_bytes id ->
  zlen (str_bytes id) <= 63 -> zlen hash = 32 -> mb_sha256 wasm = Some h -> h <> hash ->
  1 <= zlen wasm <= MAX_WASM_SIZE ->
  zlen (str_bytes id) + zlen (str_bytes name) + zlen (encode_config (M := rfc8949) config) <= 81 ->
  due now (last_app_status_ms (proto d)) APP_STATUS_INTERVAL_MS = true ->
  exists d1 d2,
    wasmbed_protocol_recv_and_handle (ZX := Z_lab) t d = Done (0, d1) /\
    wam d1 = wam d /\ current_instance_id (proto d1) = current_instance_id (proto d) /\
    lab_kube (world d1) = acknowledged tls_key conn inp1 id false (Some hash_refused) (world d) /\
    status_tick (ZX := Z_lab) now d1 = Done (tt, d2) /\
    lab_kube (world d2) = reported inp2 id (world d1) /\
    forall dev app, resolve_device_id conn (std_encode tls_key) (lab_server (world d)) = Some dev ->
      app_get (lab_kube (world d1)) id = Ok app ->
      lab_kube (world d2) =
        (app_update_apply (app_set_device_status dev
           (mkDeviceApplicationStatus DaRunning (Some (in_rfc3339 inp2)) None None 0) app_update_default)
           (lab_kube (world d1)) app (in_rfc3339 inp2)).2.
Proof.
  intros msg Ho Ha Hin Hip Hsc [Hu _] Hnul Hid Hh Hsha Hne Hw Hsz Hdue. pose proof Ho as (Hs & Hi & Hc).
  pose proof (zlen_nonneg (str_bytes id)). pose proof (zlen_nonneg (encode_config (M := rfc8949) config)).
  assert (Hfit : zlen (deploy_payload (str_bytes id) (str_bytes name) hash wasm (encode_config (M := rfc8949) config)) <=
    MAX_WASM_SIZE + 124) by (apply deploy_fits; lia).
  subst msg. rewrite <- enc_deploy in Hfit. unfold MAX_WASM_SIZE in Hw, Hfit.
  rewrite gateway_write_frame in Hin by lia.
  destruct (handle_frame_lab cb tls_key conn t _ d Hs Hi Hc Hin Hfit Hsc) as (cl & sc & ->). rewrite enc_deploy in *.
  rewrite handle_deploy_frame by (done || lia). rewrite receive_deploy_parses by lia. unfold deploy_and_report.
  set (d1 := with_app_id (str_bytes id) (rx cl sc [] d)).
  rewrite (cbind_done _ _ _ _ _ (deploy_mismatch _ _ _ _ _ h d1 Hh Hw Hsha Hne)).
  change (-1 =? 0) with false. cbv iota. unfold refuse. rewrite Hnul.
  erewrite cbind_done; [|apply (ack_lab cb tls_key conn (str_bytes id) false (Some (str_bytes hash_refused)) inp1 (inp2 :: rest)); done].
  eexists _, _. split; [reflexivity|]. split_and!; [done..| | | |].
  - cbn [world lab_kube set_gateway]. rewrite bytes_str_bytes. change (ack_error _) with (Some hash_refused). reflexivity.
  - by apply (status_due now inp2 rest).
  - cbn [world lab_kube set_gateway proto]. change (deploy_app_id_buf (proto d1)) with (str_bytes id).
    by rewrite !bytes_str_bytes.
  - intros dev app Hr Happ.
    match type of Happ with app_get (lab_kube ?y) _ = _ => etrans; [|exact (reported_running inp2 id y dev app Hr Happ)] end.
    cbn [world lab_kube set_gateway proto]. change (deploy_app_id_buf (proto d1)) with (str_bytes id).
    by rewrite !bytes_str_bytes.
Qed.
(** ** Messages that are not DeployApplication *)

Lemma at_more {S} l (more : list byte) i (d : S) : 0 <= i < zlen l -> at_index (l ++ more) i d = at_index l i d.
Proof.
  intros Hi. unfold at_index. rewrite zlen_app. pose proof (zlen_nonneg more).
  rewrite (proj2 (Z.leb_le 0 i)), !(proj2 (Z.ltb_lt _ _)) by lia. cbn [andb].
  rewrite lookup_app_l; [done|]. unfold zlen in Hi. lia.
Qed.

Lemma tagged_more {X} a b t more u v (d : device X) :
  tagged (frame_of (byte_of a :: byte_of b :: t) ++ more) u v d = Done ((a mod 256 =? u) && (b mod 256 =? v), d).
Proof.
  rewrite <- (tagged_frame a b t u v d). unfold tagged, cbind.
  assert (Hz : 6 <= zlen (frame_of (byte_of a :: byte_of b :: t))) by (rewrite zlen_frame; unfold zlen; simpl; lia).
  rewrite (at_more _ more 4) by lia. destruct (at_index _ 4 d) as [[x d1]| |]; [|done..].
  destruct (negb (x =? u)); [done|]. by rewrite (at_more _ more 5) by lia.
Qed.

(** Nothing happens, whatever follows in the buffer. *)
Lemma other_message_ignored {X} {ZX : Zephyr X} {RX' : Wamr X} a b t more (d : device X) :
  let payload := byte_of a :: byte_of b :: t in
  a mod 256 <> 0x86 -> protocol_initialized (proto d) = true -> zlen payload < 2 ^ 32 - 4 ->
  wasmbed_protocol_handle_message (frame_of payload ++ more) (4 + zlen payload) d = Done (0, d).
Proof.
  intros payload Ha Hi Hl. pose proof (zlen_nonneg payload). pose proof (zlen_nonneg more).
  assert (H2 : 2 <= zlen payload) by (unfold payload, zlen; simpl; lia).
  unfold wasmbed_protocol_handle_message. erewrite cbind_done by reflexivity. rewrite Hi. cbn [negb].
  rewrite (proj2 (Z.eqb_neq _ 0)), (proj2 (Z.ltb_ge _ 4)) by lia.
  rewrite (cbind_done _ _ d (be_bytes 4 (zlen payload)) d).
  2: { unfold slice. rewrite zlen_app, zlen_frame, !(proj2 (Z.leb_le _ _)) by lia. cbn [andb]. unfold creturn, frame_of.
       change (drop (Z.to_nat 0) ?l) with l. change (Z.to_nat 4) with 4%nat. rewrite <- app_assoc.
       rewrite take_app_le by (by rewrite length_be_bytes). by rewrite take_ge by (by rewrite length_be_bytes). }
  rewrite be_value_bytes by (change (256 ^ Z.of_nat 4) with (2 ^ 32); lia).
  unfold wrap32. rewrite Z.mod_small by lia. rewrite !(proj2 (Z.leb_le _ _)) by lia. cbn [andb].
  unfold payload. rewrite (cbind_done _ _ _ _ _ (tagged_more a b t more _ _ d)).
  by rewrite (proj2 (Z.eqb_neq _ _) Ha).
Qed.

Definition is_deploy (m : ServerMessage) : bool := match m with SDeployApplication _ _ _ _ _ => true | _ => false end.

Lemma other_encoding m :
  is_deploy m = false ->
  exists a b t, encode_server (M := rfc8949) m = byte_of a :: byte_of b :: t /\ a mod 256 <> 0x86.
Proof.
  intros Hm. destruct m; try done; cbn [encode_server]; (eexists _, _, _; split; [reflexivity|by vm_compute]).
Qed.

(** The firmware handles DeployApplication and nothing else: whatever other
    message the gateway sends (StopApplication, RequestDeviceInfo,
    RequestApplicationStatus), the device consumes it without an answer and
    without a change: the application it was told to stop goes on and is
    reported as running. *)
Theorem only_deploy_is_handled t d m :
  online d -> is_deploy m = false -> lab_inbox (world d) = gateway_write (M := rfc8949) m ->
  zlen (encode_server (M := rfc8949) m) <= MAX_WASM_SIZE + 124 -> zlen (lab_sched (world d)) <= 99 ->
  exists cl sc, wasmbed_protocol_recv_and_handle (ZX := Z_lab) t d = Done (0, rx cl sc [] d).
Proof.
  intros (Hs & Hi & Hc) Hm Hin Hl Hsc. rewrite gateway_write_frame in Hin by (unfold MAX_WASM_SIZE in Hl; lia).
  destruct (handle_frame_lab cb tls_key conn t _ d Hs Hi Hc Hin Hl Hsc) as (cl & sc & ->). exists cl, sc.
  destruct (other_encoding m Hm) as (a & b & r & Em & Ha). rewrite Em in *.
  rewrite <- (app_nil_r (frame_of _)). apply other_message_ignored; [done|done|unfold MAX_WASM_SIZE in Hl; lia].
Qed.

Lemma poll_ready t payload more d :
  0 <= socket_fd (net d) -> lab_inbox (world d) = frame_of payload ++ more ->
  network_poll_readable (ZX := Z_lab) t d = Done (1, d).
Proof.
  intros Hs Hin. unfold network_poll_readable, cbind, nget, cget, call. rewrite (proj2 (Z.ltb_ge _ _)) by lia.
  cbn [zsock_poll lab_zephyr]. rewrite Hin. destruct (frame_of payload) eqn:Ef; [by apply frame_not_nil in Ef|].
  by destruct d.
Qed.

(** ** Two frames in one receive *)

Lemma receive_all len d :
  0 <= socket_fd (net d) -> lab_sched (world d) = [] -> lab_inbox (world d) <> [] -> zlen (lab_inbox (world d)) <= len ->
  network_receive (ZX := Z_lab) len d = Done (Some (lab_inbox (world d)), rx (lab_clock (world d)) [] [] d).
Proof.
  intros Hs Hsc Hne Hl.
  assert (1 <= zlen (lab_inbox (world d))) by (destruct (lab_inbox (world d)); [done|unfold zlen; simpl; lia]).
  destruct (receive_piece cb tls_key conn len d Hs ltac:(lia) Hne) as (k & _ & _ & _ & Hk & ->).
  specialize (Hk Hsc). assert (k = length (lab_inbox (world d))) as -> by (unfold zlen in Hl; lia).
  by rewrite take_ge, drop_ge, Hsc by lia.
Qed.

Lemma recv_frame_all buf_len timeout payload more d :
  0 <= socket_fd (net d) -> lab_sched (world d) = [] -> lab_inbox (world d) = frame_of payload ++ more ->
  4 + zlen payload + zlen more <= buf_len -> buf_len < 2 ^ 32 -> 0 <= timeout ->
  recv_frame (ZX := Z_lab) buf_len timeout d =
    Done (Some (frame_of payload ++ more, 4 + zlen payload), rx (lab_clock (world d)) [] [] d).
Proof.
  intros Hs Hsc Hin Hb Hmax Ht. pose proof (zlen_nonneg payload). pose proof (zlen_nonneg more).
  assert (Hz : zlen (frame_of payload ++ more) = 4 + zlen payload + zlen more) by (rewrite zlen_app, zlen_frame; lia).
  assert (Hne : lab_inbox (world d) <> []) by (rewrite Hin; intros [H1 _]%app_nil; by apply frame_not_nil in H1).
  unfold recv_frame. erewrite cbind_done by reflexivity.
  destruct (recv_rounds timeout) as [|fuel] eqn:Ef.
  { unfold recv_rounds in Ef. pose proof (Z.div_pos timeout 50). lia. }
  rewrite (cbind_done _ _ d (Some (frame_of payload ++ more)) (rx (lab_clock (world d)) [] [] d)).
  - rewrite (prefix_value (frame_of payload ++ more) [] payload more) by (rewrite ?app_nil_r; done || lia).
    unfold wrap32. rewrite Z.mod_small by lia. rewrite (proj2 (Z.ltb_ge _ _)) by lia.
    rewrite (cbind_done _ _ _ (Some (frame_of payload ++ more)) (rx (lab_clock (world d)) [] [] d)); [done|].
    cbn [recv_until]. by rewrite (proj2 (Z.leb_le _ _)) by lia.
  - cbn [recv_until]. change (4 <=? zlen []) with false. cbv iota. change (zlen []) with 0. rewrite Z.sub_0_r.
    rewrite (cbind_done _ _ _ _ _ (receive_all buf_len d Hs Hsc Hne ltac:(rewrite Hin; lia))).
    rewrite Hin. cbn [app]. by rewrite (proj2 (Z.ltb_ge _ _)) by lia.
Qed.

(** A frame that arrives together with the one before it is lost: the
    receive fills the whole buffer, only the first frame is handled, and the
    rest of the buffer is forgotten. Here a heartbeat acknowledgment is
    followed by any message of the gateway in the same receive: the device
    takes both off the stream and does nothing with the second, be it a
    deployment; nothing is answered. *)
Theorem frame_behind_another_is_lost t d m :
  online d -> lab_sched (world d) = [] ->
  lab_inbox (world d) = gateway_write (M := rfc8949) SHeartbeatAck ++ gateway_write (M := rfc8949) m ->
  zlen (lab_inbox (world d)) <= MAX_WASM_SIZE + 128 ->
  wasmbed_protocol_recv_and_handle (ZX := Z_lab) t d = Done (0, rx (lab_clock (world d)) [] [] d).
Proof.
  intros (Hs & Hi & Hc) Hsc Hin Hl. set (more := gateway_write m) in *.
  change (gateway_write SHeartbeatAck) with (frame_of [byte_of 0x81; byte_of 0x00]) in Hin.
  unfold wasmbed_protocol_recv_and_handle.
  erewrite cbind_done by reflexivity. erewrite cbind_done by reflexivity. rewrite Hi, Hc. cbn [negb orb].
  rewrite (cbind_done _ _ _ _ _ (poll_ready t _ _ d Hs Hin)).
  change (1 <? 0) with false. change (1 =? 0) with false. cbv iota.
  rewrite Hin, zlen_app, zlen_frame in Hl. change (zlen [byte_of 0x81; byte_of 0x00]) with 2 in Hl. unfold MAX_WASM_SIZE in *.
  erewrite cbind_done; [|apply (recv_frame_all (16 * 1024 + 128) 5000 [byte_of 0x81; byte_of 0x00] more d Hs Hsc Hin);
    [change (zlen [byte_of 0x81; byte_of 0x00]) with 2; lia|lia|lia]].
  apply (other_message_ignored 0x81 0x00 [] more); [done|done|by vm_compute].
Qed.

(** ** A frame that does not fit *)

Lemma recv_frame_oversized buf_len timeout payload d :
  0 <= socket_fd (net d) -> lab_inbox (world d) = frame_of payload ->
  4 <= buf_len < 4 + zlen payload -> 4 + zlen payload < 2 ^ 32 -> 50 * rounds_left (world d) <= timeout ->
  exists cl sc rest, recv_frame (ZX := Z_lab) buf_len timeout d = Done (None, rx cl sc rest d).
Proof.
  intros Hs Hi Hb Hmax Ht. pose proof (zlen_frame payload) as Hf. unfold recv_frame. erewrite cbind_done by reflexivity.
  assert (Hfuel : rounds_left (world d) <= Z.of_nat (recv_rounds timeout)).
  { unfold recv_rounds. pose proof (Z.div_le_mono (50 * rounds_left (world d)) timeout 50 ltac:(lia) Ht) as H1.
    rewrite Z.mul_comm, Z.div_mul in H1 by lia. lia. }
  destruct (recv_until_lab cb tls_key conn (recv_rounds timeout) 4 buf_len (lab_clock (world d) + timeout) [] d)
    as (k & cl & sc & H1 & H2 & _); [done|rewrite Hi, Hf; change (zlen []) with 0; lia|lia|lia|lia|].
  exists cl, sc, (drop k (lab_inbox (world d))).
  change (k_uptime_get (world d)) with (lab_clock (world d)). rewrite (cbind_done _ _ _ _ _ H2). cbv beta iota zeta.
  change ([] ++ ?l) with l in *.
  rewrite (prefix_value (take k (lab_inbox (world d))) (drop k (lab_inbox (world d))) payload [])
    by (rewrite ?app_nil_r, ?take_drop; done || lia).
  unfold wrap32. rewrite Z.mod_small by lia. by rewrite (proj2 (Z.ltb_lt _ _)) by lia.
Qed.

(** The frame buffer has 128 bytes beside the largest module: a message
    whose encoding has more than 16508 bytes, such as a deployment of a module
    of 16 KiB under long names, is never answered. The device drops the
    connection in the middle of the frame and forgets nothing else: no
    acknowledgment, the gateway's objects stay as they are. *)
Theorem oversized_frame_disconnects t d m :
  online d -> lab_inbox (world d) = gateway_write (M := rfc8949) m ->
  MAX_WASM_SIZE + 124 < zlen (encode_server (M := rfc8949) m) < 2 ^ 32 - 4 -> zlen (lab_sched (world d)) <= 99 ->
  exists cl sc rest, let d1 := rx cl sc rest d in
    wasmbed_protocol_recv_and_handle (ZX := Z_lab) t d =
      Done (-1, mkDevice (set_connected false (proto d1)) (net d1) (wam d1) (world d1)).
Proof.
  intros (Hs & Hi & Hc) Hin Hl Hsc. rewrite gateway_write_frame in Hin by lia. unfold MAX_WASM_SIZE in Hl.
  destruct (recv_frame_oversized (MAX_WASM_SIZE + 128) 5000 _ d Hs Hin) as (cl & sc & rest & Hr);
    [unfold MAX_WASM_SIZE; lia|lia|unfold rounds_left; lia|].
  exists cl, sc, rest. unfold wasmbed_protocol_recv_and_handle.
  erewrite cbind_done by reflexivity. erewrite cbind_done by reflexivity. rewrite Hi, Hc. cbn [negb orb].
  rewrite (cbind_done _ _ _ _ _ (poll_ready t (encode_server (M := rfc8949) m) [] d Hs ltac:(by rewrite app_nil_r))).
  change (1 <? 0) with false. change (1 =? 0) with false. cbv iota.
  rewrite (cbind_done _ _ _ _ _ Hr). by erewrite cbind_done by reflexivity.
Qed.

(** ** Long identifiers *)

(** [cbor_read_text] leaves the pointer behind the bytes it copied, not behind
    the text. *)
Lemma read_text_long {X} pre bs post (d : device X) :
  64 <= zlen bs < 65536 -> let payload := pre ++ head 3 (zlen bs) ++ bs ++ post in
  cbor_read_text (frame_of payload) (4 + zlen pre) (4 + zlen payload) 64 d =
    Done (Some (take 63 bs, 4 + zlen pre + zlen (head 3 (zlen bs)) + 63), d).
Proof.
  intros H payload. pose proof (zlen_nonneg pre). pose proof (zlen_nonneg post). pose proof (zlen_head 3 (zlen bs) ltac:(lia)).
  assert (Hz : zlen payload = zlen pre + zlen (head 3 (zlen bs)) + zlen bs + zlen post)
    by (unfold payload; rewrite !zlen_app; lia).
  unfold cbor_read_text. rewrite (proj2 (Z.leb_gt _ _)) by lia. change (64 =? 0) with false. cbn [orb].
  rewrite (cbind_done _ _ _ _ _ (string_head_enc 3 pre bs post d ltac:(lia) ltac:(lia))). cbv beta iota.
  rewrite (proj2 (Z.ltb_ge _ _)) by (fold payload; lia). rewrite (proj2 (Z.leb_le 64 _)) by lia.
  change (64 - 1) with 63. rewrite (cbind_done _ _ _ (take 63 bs) d); [done|].
  replace (4 + zlen pre + zlen (head 3 (zlen bs))) with (4 + zlen (pre ++ head 3 (zlen bs))) by (rewrite zlen_app; lia).
  rewrite frame_slice; [|apply zlen_nonneg|lia|fold payload; rewrite zlen_app; lia].
  unfold payload. rewrite app_assoc. change (Z.to_nat 63) with 63%nat.
  assert (Hn : Z.to_nat (zlen (pre ++ head 3 (zlen bs))) = length (pre ++ head 3 (zlen bs))) by (unfold zlen; lia).
  rewrite Hn, drop_app_length. by rewrite take_app_le by (unfold zlen in H; lia).
Qed.

(** A byte below 0x60 is not the head of a text. *)
Lemma skip_text_refuses {X} pre bs post i b (d : device X) :
  bs !! i = Some b -> byte_val b < 0x60 -> let payload := pre ++ bs ++ post in
  cbor_skip_text (frame_of payload) (4 + zlen pre + Z.of_nat i) (4 + zlen payload) d = Done (None, d).
Proof.
  intros Hb Hv payload. pose proof (lookup_lt_Some _ _ _ Hb). pose proof (zlen_nonneg post).
  unfold cbor_skip_text. rewrite (proj2 (Z.leb_gt _ _)) by (unfold payload; rewrite !zlen_app; unfold zlen in *; lia).
  unfold cbor_string_head. rewrite (cbind_done _ _ _ None d); [done|].
  erewrite cbind_done; [|apply (frame_at_after pre _ i); [by apply lookup_app_l_Some|done]].
  rewrite (proj2 (Z.leb_gt _ _)), !(proj2 (Z.eqb_neq _ _)) by lia. done.
Qed.

Lemma receive_deploy_long {X} {ZX : Zephyr X} {RX' : Wamr X} id name hash wasm config b (d : device X) :
  64 <= zlen id < 65536 -> id !! 63%nat = Some b -> byte_val b < 0x60 ->
  let payload := deploy_payload id name hash wasm config in
  receive_deploy (frame_of payload) (4 + zlen payload) d =
    refuse (c_str (take 63 id)) "parse name" (with_app_id (take 63 id) d).
Proof.
  intros Hi Hb Hv payload. set (rest := text_enc name ++ bytes_enc hash ++ bytes_enc wasm ++ config).
  assert (E1 : payload = at_id ++ head 3 (zlen id) ++ id ++ rest)
    by (unfold payload, deploy_payload, rest, text_enc; by rewrite <- !app_assoc).
  unfold receive_deploy.
  erewrite cbind_done; [|rewrite E1; apply (read_text_long at_id id); exact Hi]. cbv beta iota.
  erewrite cbind_done by reflexivity. erewrite cbind_done by reflexivity.
  change (mkDevice _ _ _ _) with (with_app_id (take 63 id) d).
  rewrite (cbind_done _ _ _ None (with_app_id (take 63 id) d)); [done|].
  pose proof (skip_text_refuses (at_id ++ head 3 (zlen id)) id rest 63 b (with_app_id (take 63 id) d) Hb Hv) as Hs.
  cbv zeta in Hs. rewrite <- app_assoc, <- E1, zlen_app in Hs. rewrite <- Hs. f_equal. lia.
Qed.

(** An application whose identifier has 64 bytes or more cannot be deployed,
    though Kubernetes names may have 253: the firmware keeps 63 bytes, goes on
    parsing in the middle of the identifier and, unless the next byte looks
    like the head of a text, refuses the message under the shortened
    identifier. That is what the gateway is told: the failure is recorded for
    the shortened name. *)
Theorem long_app_id_refused t d id name hash wasm config b inp rest :
  let msg := SDeployApplication id name hash wasm config in
  let short := take 63 (str_bytes id) in
  online d -> lab_inbox (world d) = gateway_write (M := rfc8949) msg -> lab_inputs (world d) = inp :: rest ->
  zlen (encode_server (M := rfc8949) msg) <= MAX_WASM_SIZE + 124 -> zlen (lab_sched (world d)) <= 99 ->
  64 <= zlen (str_bytes id) -> str_bytes id !! 63%nat = Some b -> byte_val b < 0x60 ->
  c_str short = short -> utf8_valid short = true ->
  exists d1, wasmbed_protocol_recv_and_handle (ZX := Z_lab) t d = Done (0, d1) /\
    wam d1 = wam d /\ deploy_app_id_buf (proto d1) = short /\
    lab_kube (world d1) =
      acknowledged tls_key conn inp (bytes_str short) false (Some "parse name"%string) (world d).
Proof.
  intros msg short Ho Hin Hip Hl Hsc Hid Hb Hv Hnul Hu. pose proof Ho as (Hs & Hi & Hc). unfold MAX_WASM_SIZE in Hl.
  rewrite gateway_write_frame in Hin by lia.
  destruct (handle_frame_lab cb tls_key conn t _ d Hs Hi Hc Hin Hl Hsc) as (cl & sc & ->). subst msg. rewrite enc_deploy in *.
  rewrite handle_deploy_frame by (done || lia).
  assert (zlen (str_bytes id) < 65536).
  { unfold deploy_payload, text_enc in Hl. rewrite !zlen_app in Hl. pose proof (zlen_nonneg (str_bytes name)).
    pose proof (zlen_nonneg (head 3 (zlen (str_bytes id)))). pose proof (zlen_nonneg (map byte_of [134; 5])).
    pose proof (zlen_nonneg (head 3 (zlen (str_bytes name)))). pose proof (zlen_nonneg (bytes_enc hash)).
    pose proof (zlen_nonneg (bytes_enc wasm)). pose proof (zlen_nonneg (encode_config (M := rfc8949) config)). lia. }
  rewrite (receive_deploy_long _ _ _ _ _ b) by done. fold short. unfold refuse. rewrite Hnul.
  erewrite cbind_done; [|apply (ack_lab cb tls_key conn short false (Some (str_bytes "parse name")) inp rest);
    try done; apply zlen_take63].
  eexists. split; [reflexivity|]. split_and!; [done..|]. by vm_compute (ack_error _).
Qed.
End Limits.

(** ** The refusal on a board *)

(** The board runs "old-app"; its connection is bound to "device-a" and the
    cluster knows the application "app-1". *)
Definition busy_proto : Proto := set_app_id (str_bytes "old-app") (set_app true 1 board_proto).
Definition bound_server : HttpApiServer := with_bindings <["c"%string := "device-a"%string]> HttpApiServer_new.
Definition known_app : Application :=
  mkApplication (Some "app-1"%string)
    (mkApplicationSpec "app-1" None "AGFzbQ==" (mkTargetDevices (Some ["device-a"%string]) None None) None None None) None.
Definition busy_cluster : cluster :=
  mkCluster (<["device-a"%string := sample_device "device-a" (url_encode client_spki) None]> ∅)
    (<["app-1"%string := known_app]> ∅).
Definition busy_board (inbox : list byte) (w : cluster) : device (lab heap cluster) :=
  mkDevice busy_proto board_net board_wamr
    (mkLab 60000 (fun _ => Byte.x00) empty_heap inbox [] [client_inputs 1; client_inputs 2; client_inputs 3] bound_server w).
#[local] Abbreviation board_zephyr :=
  (lab_zephyr (K := mem_kube) (B := base64) (E := fw_ecdsa) (U := hex_uuid) open_gateway [] "c").

Definition wrong_hash : list byte := replicate 32 Byte.xff.

Lemma refused_app_reported_running_witness :
  exists d1 d2,
    wasmbed_protocol_recv_and_handle (ZX := board_zephyr) (RX := lab_wamr) (T := fw_mbed) 100
      (busy_board (deploy_tiny wrong_hash) busy_cluster) = Done (0, d1) /\
    status_tick (ZX := board_zephyr) 60000 d1 = Done (tt, d2) /\
    lab_kube (world d2) = reported (K := mem_kube) (B := base64) [] "c" (client_inputs 2) "app-1" (world d1).
Proof.
  destruct (refused_app_reported_running (K := mem_kube) (B := base64) (E := fw_ecdsa) (U := hex_uuid) (T := fw_mbed)
    (RX := lab_wamr) open_gateway [] "c" 100 (busy_board (deploy_tiny wrong_hash) busy_cluster) "app-1" "app-1" wrong_hash tiny_module
    None tiny_hash (client_inputs 1) (client_inputs 2) [client_inputs 3] 60000)
    as (d1 & d2 & H1 & _ & _ & _ & H2 & H3 & _);
    [split_and!; by vm_compute|reflexivity|reflexivity|reflexivity|by vm_compute|by vm_compute|reflexivity
    |by vm_compute|reflexivity|reflexivity|by vm_compute|by vm_compute|by vm_compute|reflexivity|].
  exists d1, d2. split; [exact H1|]. split; [exact H2|exact H3].
Defined.

(** ** The other limits on a board *)

Lemma only_deploy_is_handled_witness :
  exists cl sc, wasmbed_protocol_recv_and_handle (ZX := board_zephyr) (RX := lab_wamr) (T := fw_mbed) 100
    (busy_board (gateway_write (M := rfc8949) (SStopApplication "old-app")) busy_cluster) =
    Done (0, rx cl sc [] (busy_board (gateway_write (M := rfc8949) (SStopApplication "old-app")) busy_cluster)).
Proof.
  apply (only_deploy_is_handled (K := mem_kube) (B := base64) (E := fw_ecdsa) (U := hex_uuid) (T := fw_mbed)
    (RX := lab_wamr) open_gateway [] "c" 100 _ (SStopApplication "old-app"));
    [split_and!; by vm_compute|reflexivity|reflexivity|by vm_compute|by vm_compute].
Defined.

Definition behind_ack : list byte := gateway_write (M := rfc8949) SHeartbeatAck ++ deploy_tiny tiny_hash.

Lemma frame_behind_another_is_lost_witness :
  wasmbed_protocol_recv_and_handle (ZX := board_zephyr) (RX := lab_wamr) (T := fw_mbed) 100
    (busy_board behind_ack busy_cluster) = Done (0, rx 60000 [] [] (busy_board behind_ack busy_cluster)).
Proof.
  apply (frame_behind_another_is_lost (K := mem_kube) (B := base64) (E := fw_ecdsa) (U := hex_uuid) (T := fw_mbed)
    (RX := lab_wamr) open_gateway [] "c" 100 (busy_board behind_ack busy_cluster)
    (SDeployApplication "app-1" "app-1" tiny_hash tiny_module None));
    [split_and!; by vm_compute|reflexivity|reflexivity|by vm_compute].
Defined.

(** A module of 16 KiB under a name of 100 bytes. *)
Definition full_module : list byte := replicate (Z.to_nat MAX_WASM_SIZE) Byte.x00.
Definition long_name (n : nat) : string := bytes_str (replicate n Byte.x2d).
Definition oversized : ServerMessage := SDeployApplication "app-1" (long_name 100) wrong_hash full_module None.

Lemma oversized_frame_disconnects_witness :
  zlen full_module = MAX_WASM_SIZE /\
  exists cl sc rest, let d1 := rx cl sc rest (busy_board (gateway_write (M := rfc8949) oversized) busy_cluster) in
    wasmbed_protocol_recv_and_handle (ZX := board_zephyr) (RX := lab_wamr) (T := fw_mbed) 100
      (busy_board (gateway_write (M := rfc8949) oversized) busy_cluster) =
      Done (-1, mkDevice (set_connected false (proto d1)) (net d1) (wam d1) (world d1)).
Proof.
  split; [by vm_compute|].
  apply (oversized_frame_disconnects (K := mem_kube) (B := base64) (E := fw_ecdsa) (U := hex_uuid) (T := fw_mbed)
    (RX := lab_wamr) open_gateway [] "c" 100 (busy_board (gateway_write (M := rfc8949) oversized) busy_cluster) oversized);
    [split_and!; by vm_compute|reflexivity|by vm_compute|by vm_compute].
Defined.

(** Sixty-four hyphens are recorded as sixty-three. *)
Definition long_deploy : ServerMessage := SDeployApplication (long_name 64) "app-1" tiny_hash tiny_module None.

Lemma long_app_id_refused_witness :
  exists d1, wasmbed_protocol_recv_and_handle (ZX := board_zephyr) (RX := lab_wamr) (T := fw_mbed) 100
      (busy_board (gateway_write (M := rfc8949) long_deploy) busy_cluster) = Done (0, d1) /\
    lab_kube (world d1) = acknowledged (K := mem_kube) (B := base64) [] "c" (client_inputs 1) (long_name 63) false
      (Some "parse name"%string) (world (busy_board (gateway_write (M := rfc8949) long_deploy) busy_cluster)).
Proof.
  destruct (long_app_id_refused (K := mem_kube) (B := base64) (E := fw_ecdsa) (U := hex_uuid) (T := fw_mbed)
    (RX := lab_wamr) open_gateway [] "c" 100 (busy_board (gateway_write (M := rfc8949) long_deploy) busy_cluster)
    (long_name 64) "app-1" tiny_hash tiny_module None Byte.x2d (client_inputs 1) [client_inputs 2; client_inputs 3])
    as (d1 & H1 & _ & _ & H2);
    [split_and!; by vm_compute|reflexivity|reflexivity|by vm_compute|by vm_compute|by vm_compute|reflexivity|by vm_compute
    |by vm_compute|by vm_compute|].
  exists d1. split; [exact H1|exact H2].
Defined.
