(* ===== verification/FirmwareTiming.v ===== *)
(** * Time and the unused framed receive of the firmware

    How often the main loop sends heartbeats and what that means for the
    gateway's monitor, what a failed heartbeat leads to, and what
    [network_receive_framed] does, which nothing calls. *)

From S2P Require Import Prelude.
From S2P Require Import RustStd.
From S2P Require Import Externals.
From S2P Require Import Base64.
From S2P Require Import Protocol.
From S2P Require Import Rfc8949.
From S2P Require Import ProtocolProofs.
From S2P Require Import Framing.
From S2P Require Import K8s.
From S2P Require Import KubeStore.
From S2P Require Import K8sProofs.
From S2P Require Import Registry.
From S2P Require Import Gateway.
From S2P Require Import HeartbeatProofs.
From S2P Require Import EdgeClientProofs.
From S2P Require Import Renode.
From S2P Require Import FirmwareWamr.
From S2P Require Import FirmwareWamrProofs.
From S2P Require Import Firmware.
From S2P Require Import FirmwareProofs.
From S2P Require Import FirmwareLab.
From S2P Require Import FirmwareWire.
From S2P Require Import FirmwareGateway.
From S2P Require Import FirmwareDeploy.
From S2P Require Import FirmwareLimits.

(** ** Unsigned differences *)

(** The difference of two 32-bit clock values is the time that has passed, when
    that is less than 2^32 ms, also across the wrap of the clock after 49 days. *)
Lemma due_elapsed now last interval :
  last <= now < last + 2 ^ 32 -> due (wrap32 now) (wrap32 last) interval = (interval <=? now - last).
Proof.
  intros H. unfold due, wrap32. rewrite <- Zminus_mod. by rewrite Z.mod_small by lia.
Qed.

Section Pace.
Context {X : Type} `{ZX : Zephyr X}.
Implicit Types (d : device X).

(** The socket takes what it is given. *)
Definition sends_succeed d : Prop := forall data x, 0 <= (zsock_send (socket_fd (net d)) data x).1.

(** Nothing of the protocol's state changes but what [world] holds. *)
Definition only_world d d' : Prop := proto d' = proto d /\ net d' = net d /\ wam d' = wam d.

Lemma message_sent data d :
  online d -> sends_succeed d -> data <> [] ->
  exists d', wasmbed_protocol_send_message data d = Done (0, d') /\ only_world d d'.
Proof.
  intros (Hs & Hi & Hc) Hok Hne. unfold wasmbed_protocol_send_message, network_send, cbind, pget, nget, cget, call.
  cbv beta iota. rewrite Hi. cbn [negb]. rewrite Hc. cbn [negb].
  rewrite (proj2 (Z.eqb_neq _ _)) by (destruct data; [done|unfold zlen; simpl; lia]).
  rewrite (proj2 (Z.ltb_ge _ _)) by lia. specialize (Hok data (world d)).
  destruct (zsock_send _ _ _) as [sent x] eqn:Es. rewrite (proj2 (Z.ltb_ge _ _)) by (simpl in Hok; lia).
  by eexists.
Qed.

(** The report of the application touches neither the connection nor the
    heartbeat's timer. *)
Lemma status_tick_done now d :
  online d -> sends_succeed d ->
  exists d', status_tick now d = Done (tt, d') /\ net d' = net d /\
    gateway_connected (proto d') = gateway_connected (proto d) /\
    last_heartbeat_uptime_ms (proto d') = last_heartbeat_uptime_ms (proto d).
Proof.
  intros Hr Hok. unfold status_tick. erewrite cbind_done by reflexivity. erewrite cbind_done by reflexivity.
  destruct (negb _); [by exists d|]. erewrite cbind_done by reflexivity. unfold send_application_status.
  set (id := c_str _). pose proof (status_packet id d) as Hp.
  match type of Hp with _ = Done (frame_of ?p, _) => set (q := p) in * end.
  destruct (message_sent (frame_of q) d Hr Hok (frame_not_nil q)) as (d1 & Hsend & E1 & E2 & E3).
  eexists. split; [erewrite cbind_done; [reflexivity|]|].
  - rewrite (cbind_done _ _ _ _ _ Hp). by rewrite (cbind_done _ _ _ _ _ Hsend).
  - simpl. by rewrite E1.
Qed.

(** At the uptime [t] the last heartbeat, sent at [sent], is recent. *)
Definition fresh_at (sent t : Z) d : Prop :=
  last_heartbeat_uptime_ms (proto d) = wrap32 sent /\ sent <= t < sent + HEARTBEAT_INTERVAL_MS.

(** What one pass of the heartbeat's timer does. *)
Lemma heartbeat_tick_pace t prev sent gap d :
  online d -> sends_succeed d -> fresh_at sent prev d -> prev <= t <= prev + gap ->
  HEARTBEAT_INTERVAL_MS + gap <= 2 ^ 32 ->
  exists d' sent', heartbeat_tick (wrap32 t) d = Done (tt, d') /\ net d' = net d /\ online d' /\
    fresh_at sent' t d' /\ (sent' = sent \/ sent' = t) /\ sent <= sent' < sent + HEARTBEAT_INTERVAL_MS + gap.
Proof.
  intros Hr Hok [Hl Hp] Ht Hg. unfold HEARTBEAT_INTERVAL_MS in *. unfold heartbeat_tick, HEARTBEAT_INTERVAL_MS.
  erewrite cbind_done by reflexivity. rewrite Hl, due_elapsed by lia.
  destruct (Z.leb_spec 25000 (t - sent)) as [Hdue|Hnot]; cbn [negb].
  - destruct (message_sent heartbeat_packet d Hr Hok ltac:(done)) as (d1 & Hsend & E1 & E2 & E3).
    unfold wasmbed_protocol_send_heartbeat. rewrite (cbind_done _ _ _ _ _ Hsend). change (0 =? 0) with true. cbv iota.
    eexists _, t. split; [reflexivity|]. unfold online, fresh_at, HEARTBEAT_INTERVAL_MS in *. simpl. rewrite E1, E2.
    split_and!; try done; try lia; try apply Hr; auto.
  - exists d, sent. split; [reflexivity|]. unfold fresh_at, HEARTBEAT_INTERVAL_MS. split_and!; auto; try lia; apply Hr.
Qed.

(** C21: while its sends succeed, a connected device that ticks at least every
    [gap] ms stays connected and sends its heartbeats less than 25000 + [gap] ms
    apart, also when the 32-bit clock wraps: every tick leaves the last
    heartbeat less than 25 s old. So the gateway's monitor does not expire a
    device whose heartbeats it records within [delay] ms of their sending, at
    any moment until the next one is recorded, if 25000 + gap + delay ms are
    at most its timeout (in seconds) plus one second. *)
Theorem heartbeats_outpace_monitor `{T : MbedTls} prev sent gap d :
  let t := k_uptime_get (world d) in
  online d -> sends_succeed d -> fresh_at sent prev d -> prev <= t <= prev + gap ->
  HEARTBEAT_INTERVAL_MS + gap <= 2 ^ 32 ->
  exists d' sent', wasmbed_protocol_tick d = Done (tt, d') /\ gateway_connected (proto d') = true /\
    fresh_at sent' t d' /\ (sent' = sent \/ sent' = t) /\ sent <= sent' < sent + HEARTBEAT_INTERVAL_MS + gap /\
    forall dev st recorded now timeout delay,
      d_status dev = Some st -> ds_last_heartbeat st = Some recorded -> sent * 10 ^ 6 <= recorded ->
      now <= (sent' + delay) * 10 ^ 6 -> HEARTBEAT_INTERVAL_MS + gap + delay <= (timeout + 1) * 1000 ->
      0 <= timeout < 2 ^ 63 -> heartbeat_expired now timeout dev = false.
Proof.
  intros t Hr Hok Hf Ht Hg.
  destruct (heartbeat_tick_pace t prev sent gap d Hr Hok Hf Ht Hg) as (d1 & sent' & H1 & En & Hr1 & Hf1 & Hs & Hb).
  destruct (status_tick_done (wrap32 t) d1 Hr1) as (d2 & H2 & _ & Ec & El).
  { unfold sends_succeed. by rewrite En. }
  exists d2, sent'. split_and!; [|by rewrite Ec; apply Hr1|unfold fresh_at; rewrite El; apply Hf1|done|apply Hb|apply Hb|].
  - unfold wasmbed_protocol_tick. erewrite cbind_done by reflexivity. erewrite cbind_done by reflexivity.
    rewrite (proj2 (proj2 Hr)). cbn [negb]. fold t. by rewrite (cbind_done _ _ _ _ _ H1).
  - intros dev st recorded now timeout delay Hst Hrec Hlow Hnow Hsum Hto.
    apply (fresh_not_expired recorded now timeout dev st recorded Hst Hrec); [done|done|].
    unfold HEARTBEAT_INTERVAL_MS in *. lia.
Qed.

(** A heartbeat that cannot be sent ends the connection and makes the next
    tick, whenever it comes within 49 days, try to connect again at once
    instead of after 30 s. *)
Theorem failed_heartbeat_reconnects `{T : MbedTls} now d d1 :
  online d -> (zsock_send (socket_fd (net d)) heartbeat_packet (world d)).1 < 0 ->
  due (wrap32 now) (last_heartbeat_uptime_ms (proto d)) HEARTBEAT_INTERVAL_MS = true ->
  heartbeat_tick (wrap32 now) d = Done (tt, d1) ->
  gateway_connected (proto d1) = false /\
  forall d2, proto d2 = proto d1 -> now <= k_uptime_get (world d2) < now + 2 ^ 32 - RECONNECT_INTERVAL_MS ->
    wasmbed_protocol_tick d2 =
      (do: _ <- on_proto (set_reconnect_timer (wrap32 (k_uptime_get (world d2)))) in
       do: _ <- try_connect_gateway in creturn tt) d2.
Proof.
  intros (Hs & Hi & Hc) Hfail Hdue H. unfold heartbeat_tick in H. erewrite cbind_done in H by reflexivity.
  rewrite Hdue in H. cbn [negb] in H.
  assert (Hsend : exists d', wasmbed_protocol_send_heartbeat d = Done (-1, d') /\ only_world d d').
  { unfold wasmbed_protocol_send_heartbeat, wasmbed_protocol_send_message, network_send, cbind, pget, nget, cget, call.
    cbv beta iota. rewrite Hi. cbn [negb]. rewrite Hc. cbn [negb].
    change (zlen heartbeat_packet =? 0) with false. cbv beta iota.
    rewrite (proj2 (Z.ltb_ge (socket_fd (net d)) 0)) by lia.
    destruct (zsock_send _ _ _) as [r x]. simpl in Hfail. rewrite (proj2 (Z.ltb_lt _ _)) by lia. by eexists. }
  destruct Hsend as (d' & Hsend & E1 & _). rewrite (cbind_done _ _ _ _ _ Hsend) in H.
  change (-1 =? 0) with false in H. cbv iota in H. erewrite cbind_done in H by reflexivity. injection H as <-.
  split; [done|]. intros d2 Ep Ht. unfold wasmbed_protocol_tick, RECONNECT_INTERVAL_MS in *.
  erewrite cbind_done by reflexivity. erewrite cbind_done by reflexivity. rewrite Ep. cbn [gateway_connected set_connected
    set_reconnect_timer set_timers proto negb]. erewrite cbind_done by reflexivity.
  rewrite Ep. cbn [last_reconnect_attempt_ms set_reconnect_timer set_timers proto].
  replace (wrap32 (wrap32 now - 30000)) with (wrap32 (now - 30000)) by (unfold wrap32; by rewrite Zminus_mod_idemp_l).
  rewrite due_elapsed by lia. by rewrite (proj2 (Z.leb_le _ _)) by lia.
Qed.
End Pace.

(** ** The framed receive *)

Section Framed.
Context {Rm W : Type} `{K : Kube W} `{B : Base64} `{E : Ecdsa} `{U : UuidParse}.
Variables (cb : Callbacks) (tls_key : list byte) (conn : string).
#[local] Existing Instance lab_zephyr.
#[local] Abbreviation Z_lab := (lab_zephyr cb tls_key conn).
Implicit Types (d : device (lab Rm W)).

(** One receive of a positive length hands over a part of what is there. *)
Lemma recv_some fd len d :
  1 <= len -> lab_inbox (world d) <> [] ->
  exists k, (1 <= k)%nat /\ Z.of_nat k <= len /\
    (lab_sched (world d) = [] -> k = Z.to_nat len) /\
    call (zsock_recv (Zephyr := Z_lab) fd len) d =
      Done (RecvBytes (take k (lab_inbox (world d))),
        rx (lab_clock (world d)) (tail (lab_sched (world d))) (drop k (lab_inbox (world d))) d).
Proof.
  intros Hl Hne. exists (piece len (world d)). unfold piece, call. cbn [zsock_recv lab_zephyr]. unfold lab_recv.
  destruct (lab_inbox (world d)) eqn:Ei; [done|].
  split_and!; [destruct (lab_sched (world d)); lia..|by intros ->|done].
Qed.

Lemma recv_exactly_lab fuel fd need room got d :
  need <= room -> need - zlen got <= zlen (lab_inbox (world d)) -> need - zlen got <= Z.of_nat fuel ->
  let k := Z.to_nat (need - zlen got) in
  exists sc, recv_exactly (ZX := Z_lab) fuel fd need room got d =
    Done (Some (got ++ take k (lab_inbox (world d))), rx (lab_clock (world d)) sc (drop k (lab_inbox (world d))) d).
Proof.
  intros Hr. revert got d. induction fuel as [|fuel IH]; intros got d Hi Hf;
    cbn [recv_exactly]; destruct (Z.leb_spec need (zlen got)) as [Hd|Hm].
  1,3: exists (lab_sched (world d)); replace (Z.to_nat (need - zlen got)) with 0%nat by lia;
    simpl; rewrite app_nil_r; by destruct d as [? ? ? []].
  { lia. }
  set (i := lab_inbox (world d)) in *.
  assert (Hne : i <> []) by (intros ->; change (zlen []) with 0 in Hi; lia).
  destruct (recv_some fd (need - zlen got) d ltac:(lia) Hne) as (k & Hk1 & Hk2 & _ & Hc). fold i in Hc.
  assert (Hki : (k <= length i)%nat) by (unfold zlen in Hi, Hk2; lia).
  assert (Ht : zlen (take k i) = Z.of_nat k) by (unfold zlen; rewrite length_take; lia).
  assert (Hdr : zlen (drop k i) = zlen i - Z.of_nat k) by (unfold zlen; rewrite length_drop; lia).
  destruct (IH (got ++ take k i) (rx (lab_clock (world d)) (tail (lab_sched (world d))) (drop k i) d)) as (sc & Hsc);
    [simpl; rewrite zlen_app; lia|rewrite zlen_app; lia|].
  exists sc. rewrite (cbind_done _ _ _ _ _ Hc). destruct (take k i) as [|b t] eqn:Et; [change (zlen []) with 0 in Ht; lia|].
  rewrite <- Et in *. cbv beta iota. rewrite (proj2 (Z.leb_le _ _)) by (rewrite zlen_app; lia). rewrite Hsc.
  cbn [world rx lab_inbox set_rx lab_clock]. rewrite zlen_app, Ht, rx_rx.
  replace (Z.to_nat (need - zlen got)) with (k + Z.to_nat (need - (zlen got + Z.of_nat k)))%nat by lia.
  by rewrite <- take_take_drop, app_assoc, <- drop_drop.
Qed.

(** Unlike the loop that is in use, the framed receive takes exactly one
    frame off the stream, in whatever pieces it comes, and leaves the bytes
    behind it for the next call. *)
Theorem framed_receive_exact buffer_len payload more d :
  0 <= socket_fd (net d) -> lab_inbox (world d) = frame_of payload ++ more ->
  4 + zlen payload <= buffer_len < 2 ^ 32 ->
  exists sc, network_receive_framed (ZX := Z_lab) buffer_len d =
    Done (Some (frame_of payload), rx (lab_clock (world d)) sc more d).
Proof.
  intros Hs Hin Hb. pose proof (zlen_nonneg payload). pose proof (zlen_nonneg more).
  assert (Hlen : length (be_bytes 4 (zlen payload)) = 4%nat) by apply length_be_bytes.
  unfold network_receive_framed. erewrite cbind_done by reflexivity. rewrite (proj2 (Z.ltb_ge _ _)) by lia.
  destruct (recv_exactly_lab 4 (socket_fd (net d)) 4 buffer_len [] d) as (sc & H1);
    [lia|rewrite Hin, zlen_app, zlen_frame; change (zlen []) with 0; lia|change (zlen []) with 0; lia|].
  change (Z.to_nat (4 - zlen [])) with 4%nat in H1. change ([] ++ ?l) with l in H1.
  unfold frame_of in Hin. rewrite <- app_assoc in Hin. rewrite Hin in H1.
  rewrite take_app_length', drop_app_length' in H1 by done. rewrite (cbind_done _ _ _ _ _ H1).
  rewrite be_value_bytes by (change (256 ^ Z.of_nat 4) with (2 ^ 32); lia).
  unfold wrap32. rewrite Z.mod_small by lia. rewrite (proj2 (Z.ltb_ge _ _)) by lia.
  destruct (recv_exactly_lab (Z.to_nat (zlen payload)) (socket_fd (net d)) (zlen payload) (buffer_len - 4) []
    (rx (lab_clock (world d)) sc (payload ++ more) d)) as (sc' & H2);
    [lia|simpl; rewrite zlen_app; change (zlen []) with 0; lia|change (zlen []) with 0; lia|].
  exists sc'. rewrite (cbind_done _ _ _ _ _ H2). cbn [world rx lab_inbox set_rx lab_clock].
  change (zlen []) with 0. rewrite Z.sub_0_r, rx_rx.
  replace (Z.to_nat (zlen payload)) with (length payload) by (unfold zlen; lia).
  by rewrite take_app_length, drop_app_length.
Qed.

(** A receive that is to take more than there is room for overruns the array. *)
Lemma recv_exactly_overruns fuel fd need room got d :
  zlen got <= room < zlen got + zlen (lab_inbox (world d)) -> room < need ->
  zlen (lab_inbox (world d)) <= Z.of_nat fuel ->
  recv_exactly (ZX := Z_lab) fuel fd need room got d = Fault.
Proof.
  revert got d. induction fuel as [|fuel IH]; intros got d Hg Hr Hf; [lia|].
  cbn [recv_exactly]. rewrite (proj2 (Z.leb_gt _ _)) by lia. set (i := lab_inbox (world d)) in *.
  assert (Hne : i <> []) by (intros Hi; rewrite Hi in Hg; change (zlen []) with 0 in Hg; lia).
  destruct (recv_some fd (need - zlen got) d ltac:(lia) Hne) as (k & Hk & _ & _ & Hc). fold i in Hc.
  rewrite (cbind_done _ _ _ _ _ Hc).
  assert (Hi1 : (1 <= length i)%nat) by (destruct i; [done|simpl; lia]).
  destruct (take k i) as [|b t] eqn:Et; [apply (f_equal length) in Et; rewrite length_take in Et; simpl in Et; lia|].
  rewrite <- Et. cbv beta iota. rewrite zlen_app. destruct (Z.leb_spec (zlen got + zlen (take k i)) room); [|done].
  assert (zlen (take k i) + zlen (drop k i) = zlen i) by (rewrite <- zlen_app, take_drop; done).
  assert (1 <= zlen (take k i)) by (unfold zlen; rewrite length_take; lia).
  apply IH; simpl; rewrite ?zlen_app; lia.
Qed.

(** Its size check is computed in 32 bits: a length prefix of 2^32 - 4 or
    more passes it for every buffer, and the receive then writes past the end
    of the buffer as soon as more bytes arrive than it holds. *)
Theorem framed_receive_overflows buffer_len len bs d :
  0 <= socket_fd (net d) -> lab_inbox (world d) = be_bytes 4 len ++ bs ->
  2 ^ 32 - 4 <= len < 2 ^ 32 -> 4 <= buffer_len < 2 ^ 32 -> buffer_len - 4 < zlen bs <= len ->
  network_receive_framed (ZX := Z_lab) buffer_len d = Fault.
Proof.
  intros Hs Hin Hl Hb Hbs. unfold network_receive_framed. erewrite cbind_done by reflexivity.
  rewrite (proj2 (Z.ltb_ge _ _)) by lia.
  destruct (recv_exactly_lab 4 (socket_fd (net d)) 4 buffer_len [] d) as (sc & H1);
    [lia|rewrite Hin, zlen_app; unfold zlen at 2; rewrite length_be_bytes; change (zlen []) with 0; lia
    |change (zlen []) with 0; lia|].
  change (Z.to_nat (4 - zlen [])) with 4%nat in H1. change ([] ++ ?l) with l in H1.
  rewrite Hin, take_app_length', drop_app_length' in H1 by (by rewrite length_be_bytes).
  rewrite (cbind_done _ _ _ _ _ H1). rewrite be_value_bytes by (change (256 ^ Z.of_nat 4) with (2 ^ 32); lia).
  assert (wrap32 (4 + len) <= 3) as Hw.
  { unfold wrap32. replace (4 + len) with (len - (2 ^ 32 - 4) + 1 * 2 ^ 32) by lia.
    rewrite Z.mod_add, Z.mod_small by lia. lia. }
  rewrite (proj2 (Z.ltb_ge _ _)) by lia. unfold cbind at 1.
  rewrite recv_exactly_overruns; [done|change (zlen []) with 0; simpl; lia|lia|simpl; lia].
Qed.
End Framed.

(** ** On a board *)

#[local] Abbreviation board_zephyr :=
  (lab_zephyr (K := mem_kube) (B := base64) (E := fw_ecdsa) (U := hex_uuid) open_gateway [] "c").

(** A board without injected data, just powered on. *)
Definition blank_board : device (lab heap cluster) :=
  powered_on (mkLab 0 (fun _ => Byte.x00) empty_heap [] [] [client_inputs 1; client_inputs 2] HttpApiServer_new client_cluster).

Lemma firmware_never_faults_witness :
  exists d', (do: _ <- wasmbed_protocol_init (ZX := board_zephyr) (T := fw_mbed) in
              main_rounds (ZX := board_zephyr) (RX := lab_wamr) (T := fw_mbed) 3) blank_board = Done (tt, d') /\ dev_ok d'.
Proof.
  apply (firmware_never_faults (ZX := board_zephyr) (RX := lab_wamr) (T := fw_mbed)
    (LZ := lab_zephyr_laws (K := mem_kube) (B := base64) (E := fw_ecdsa) (U := hex_uuid) open_gateway [] "c")
    (LT := fw_mbed_laws));
    [split; [by vm_compute|exact I]|by vm_compute].
Defined.

(** The last heartbeat was 25 s ago. *)
Definition ticking_board : device (lab heap cluster) :=
  mkDevice (set_heartbeat_timer 35000 busy_proto) board_net board_wamr (world (busy_board [] busy_cluster)).

Lemma heartbeats_outpace_monitor_witness :
  exists d' sent', wasmbed_protocol_tick (ZX := board_zephyr) (T := fw_mbed) ticking_board = Done (tt, d') /\
    gateway_connected (proto d') = true /\ fresh_at sent' 60000 d' /\ sent' < 35000 + HEARTBEAT_INTERVAL_MS + 100.
Proof.
  destruct (heartbeats_outpace_monitor (ZX := board_zephyr) (T := fw_mbed) 59900 35000 100 ticking_board)
    as (d' & sent' & H1 & H2 & H3 & _ & H4 & _);
    [split_and!; by vm_compute|intros data x; apply zlen_nonneg|split_and!; by vm_compute|split; by vm_compute|by vm_compute|].
  exists d', sent'. split; [exact H1|]. split; [exact H2|]. split; [exact H3|apply H4].
Defined.

(** A system whose connection is dead; its state is the clock. *)
Definition dead_zephyr : Zephyr Z := {|
  k_uptime_get x := x; k_sleep t x := x + t; memory _ _ := Byte.x00;
  zsock_socket _ x := (-1, x); zsock_close _ x := x; zsock_setsockopt _ _ x := (0, x);
  net_addr_pton host := Some (zlen host); zsock_connect _ _ _ x := (-1, x);
  zsock_send _ _ x := (-1, x); zsock_recv _ _ x := (RecvError, x); zsock_poll _ _ x := (-1, x);
  tls_credential_add _ _ x := (0, x); config_net_dhcpv4 := true; net_if_get_default _ := Some 1;
  net_if_down _ x := x; net_if_up _ x := x; net_if_is_up _ _ := true; net_mgmt_set_mac _ _ x := (0, x);
  net_if_set_link_addr _ _ x := x; net_dhcpv4_start _ x := x; has_dhcp_address _ _ := true;
  net_if_ipv4_addr_add _ _ x := (true, x); net_if_ipv4_set_netmask _ _ x := x; net_if_ipv4_set_gw _ _ x := x;
|}.
Definition cut_off (t : Z) : device Z := mkDevice busy_proto board_net board_wamr t.
Definition cut_off_after (t t' : Z) : device Z :=
  mkDevice (set_reconnect_timer (wrap32 (wrap32 t - 30000)) (set_connected false busy_proto)) board_net board_wamr t'.

Lemma failed_heartbeat_reconnects_witness :
  gateway_connected (proto (cut_off_after 60000 60000)) = false /\
  wasmbed_protocol_tick (ZX := dead_zephyr) (T := fw_mbed) (cut_off_after 60000 60100) =
    (do: _ <- on_proto (set_reconnect_timer (wrap32 60100)) in
     do: _ <- try_connect_gateway (ZX := dead_zephyr) (T := fw_mbed) in creturn tt) (cut_off_after 60000 60100).
Proof.
  destruct (failed_heartbeat_reconnects (ZX := dead_zephyr) (T := fw_mbed) 60000 (cut_off 60000)
    (cut_off_after 60000 60000)) as [H1 H2]; [split_and!; by vm_compute|by vm_compute|reflexivity|reflexivity|].
  split; [exact H1|apply (H2 (cut_off_after 60000 60100)); [reflexivity|by vm_compute]].
Defined.

Lemma framed_receive_exact_witness :
  exists sc, network_receive_framed (ZX := board_zephyr) 64
      (busy_board (frame_of [Byte.x81; Byte.x00] ++ [Byte.x00; Byte.x00]) busy_cluster) =
    Done (Some (frame_of [Byte.x81; Byte.x00]),
      rx 60000 sc [Byte.x00; Byte.x00] (busy_board (frame_of [Byte.x81; Byte.x00] ++ [Byte.x00; Byte.x00]) busy_cluster)).
Proof.
  apply (framed_receive_exact (K := mem_kube) (B := base64) (E := fw_ecdsa) (U := hex_uuid) open_gateway [] "c" 64
    [Byte.x81; Byte.x00] [Byte.x00; Byte.x00]
    (busy_board (frame_of [Byte.x81; Byte.x00] ++ [Byte.x00; Byte.x00]) busy_cluster));
    [by vm_compute|reflexivity|by vm_compute].
Defined.

(** Eight bytes are asked for four gigabytes. *)
Definition evil_frame : list byte := be_bytes 4 (2 ^ 32 - 4) ++ replicate 5 Byte.x00.

Lemma framed_receive_overflows_witness :
  network_receive_framed (ZX := board_zephyr) 8 (busy_board evil_frame busy_cluster) = Fault.
Proof.
  apply (framed_receive_overflows (K := mem_kube) (B := base64) (E := fw_ecdsa) (U := hex_uuid) open_gateway [] "c" 8
    (2 ^ 32 - 4) (replicate 5 Byte.x00)); [by vm_compute|reflexivity|by vm_compute|by vm_compute|by vm_compute].
Defined.
