(* ===== verification/FirmwareBoot.v ===== *)
(** * From the emulator's script to an enrolled board

    The start-up of the firmware on a board whose memory the emulator manager
    has written: it finds its endpoint, its key and its credentials, connects
    and enrolls at the gateway. The endpoint's text is read back as it was
    printed. *)

From stdpp Require Import pretty.
From S2P Require Import Prelude.
From S2P Require Import RustStd.
From S2P Require Import Decimal.
From S2P Require Import Externals.
From S2P Require Import Base64.
From S2P Require Import Protocol.
From S2P Require Import K8s.
From S2P Require Import KubeStore.
From S2P Require Import K8sProofs.
From S2P Require Import Registry.
From S2P Require Import Gateway.
From S2P Require Import GatewaySteps.
From S2P Require Import EdgeClientProofs.
From S2P Require Import Renode.
From S2P Require Import RenodeProofs.
From S2P Require Import FirmwareWamr.
From S2P Require Import FirmwareWamrProofs.
From S2P Require Import Firmware.
From S2P Require Import FirmwareProofs.
From S2P Require Import FirmwareLab.
From S2P Require Import FirmwareWire.
From S2P Require Import FirmwareGateway.
From S2P Require Import FirmwareDeploy.
From S2P Require Import FirmwareLimits.
From Stdlib Require Strings.Ascii.

(** ** The endpoint *)

(** Neither a terminator nor a colon. *)
Definition host_byte (b : byte) : Prop := byte_val b <> 0 /\ byte_val b <> 58.

Lemma split_colon_at host rest : Forall host_byte host -> split_colon (host ++ Byte.x3a :: rest) = Some (host, rest).
Proof.
  induction 1 as [|b host [_ Hb] _ IH]; [done|]. cbn [app split_colon].
  rewrite (proj2 (Z.eqb_neq _ _) Hb), IH. done.
Qed.

Lemma c_str_text text : Forall (fun b => byte_val b <> 0) text -> c_str text = text.
Proof.
  induction 1 as [|b text Hb _ IH]; [done|]. cbn [c_str]. by rewrite (proj2 (Z.eqb_neq _ _) Hb), IH.
Qed.

Lemma str_bytes_cons c s : str_bytes (String c s) = Ascii.byte_of_ascii c :: str_bytes s.
Proof. done. Qed.

Lemma digit_byte (n : N) : (n < 10)%N -> byte_val (Ascii.byte_of_ascii (pretty_N_char n)) = 48 + Z.of_N n.
Proof.
  intros Hn. destruct n as [|p]; [done|].
  do 4 (destruct p as [p|p|]; try (exfalso; lia); try reflexivity).
Qed.

Lemma digit_in_range (n : N) : (n < 10)%N -> in_range 48 57 (Ascii.byte_of_ascii (pretty_N_char n)) = true.
Proof. intros Hn. unfold in_range. rewrite digit_byte by done. apply andb_true_iff. split; apply Z.leb_le; lia. Qed.

Lemma digits_of_pretty x s :
  digits_value 0 (str_bytes (pretty_N_go x s)) = digits_value (Z.of_N x) (str_bytes s).
Proof.
  revert s. induction (N.lt_wf_0 x) as [x _ IH]; intros s.
  destruct (decide (x = 0)%N) as [->|Hx]; [by rewrite pretty_N_go_0|].
  rewrite pretty_N_go_step by lia. rewrite IH by (apply N.div_lt; lia).
  rewrite str_bytes_cons. cbn [digits_value]. rewrite digit_in_range, digit_byte by (apply N.mod_lt; lia).
  f_equal. pose proof (N.div_mod x 10 ltac:(lia)). lia.
Qed.

Lemma digits_bytes s : all_digits s = true -> Forall (fun b => in_range 48 57 b = true) (str_bytes s).
Proof.
  induction s as [|c s IH]; [by constructor|]. intros [Hc Hs]%andb_true_iff. rewrite str_bytes_cons.
  constructor; [|by apply IH]. destruct c as [[] [] [] [] [] [] [] []]; try discriminate Hc; reflexivity.
Qed.

(** [atoi] reads what [to_string] wrote. *)
Lemma atoi_pretty port : 1 <= port -> atoi_value (str_bytes (pretty port)) = port.
Proof.
  intros Hp. rewrite pretty_nonneg by lia. destruct (pretty_N_digits (Z.to_N port)) as [Hd Hne].
  pose proof (digits_bytes _ Hd) as Hb. 
  assert (Hv : digits_value 0 (str_bytes (pretty (Z.to_N port))) = port).
  { unfold pretty, pretty_N. rewrite decide_False by lia. rewrite digits_of_pretty. simpl. lia. }
  unfold atoi_value. destruct (str_bytes (pretty (Z.to_N port))) as [|b t] eqn:Et.
  { simpl in Hv. lia. }
  apply Forall_cons in Hb as [Hb _]. unfold in_range in Hb. apply andb_true_iff in Hb as [H1%Z.leb_le H2%Z.leb_le].
  cbn [skip_space]. unfold is_space, in_range.
  rewrite (proj2 (Z.eqb_neq _ _)), (proj2 (Z.leb_gt (byte_val b) 13)) by lia. rewrite andb_false_r. cbn [orb].
  by rewrite !(proj2 (Z.eqb_neq _ _)) by lia.
Qed.

(** The text "host:port". *)
Definition endpoint_text (host : list byte) (port : Z) : list byte := host ++ Byte.x3a :: str_bytes (pretty port).

Lemma endpoint_is_text host port :
  Forall host_byte host -> 1 <= port -> c_str (endpoint_text host port) = endpoint_text host port.
Proof.
  intros Hh Hp. apply c_str_text, Forall_app. split; [by eapply Forall_impl; [exact Hh|]; intros b []|].
  constructor; [done|]. rewrite pretty_nonneg by lia.
  eapply Forall_impl; [apply digits_bytes, pretty_N_digits|]. intros b Hb.
  unfold in_range in Hb. apply andb_true_iff in Hb as [H1%Z.leb_le _]. lia.
Qed.

(** The endpoint survives its way through memory: the firmware parses the
    text "host:port" into that host and that port, for every host without a
    colon that fits its buffer and every port. *)
Theorem endpoint_roundtrip {X} host port (d : device X) :
  Forall host_byte host -> zlen host < 64 -> 1 <= port < 2 ^ 16 ->
  parse_endpoint (c_str (endpoint_text host port)) d = Done (Some (host, port), d).
Proof.
  intros Hh Hl Hp. rewrite endpoint_is_text by (done || lia). unfold parse_endpoint, endpoint_text.
  rewrite split_colon_at by done. rewrite (proj2 (Z.leb_gt _ _)) by lia.
  rewrite (cbind_done _ _ d port d).
  - rewrite Z.mod_small by lia. by rewrite (proj2 (Z.eqb_neq _ _)) by lia.
  - unfold atoi. rewrite atoi_pretty by lia. unfold is_int.
    by rewrite (proj2 (Z.leb_le _ _)), (proj2 (Z.ltb_lt _ _)) by lia.
Qed.

(** ** Start-up on the wire *)

Section Boot.
Context {Rm W : Type} `{K : Kube W} `{B : Base64} `{E : Ecdsa} `{U : UuidParse} `{T : MbedTls}.
Context {LT : MbedTlsLaws T} {TE : MbedTlsEcdsa T E}.
Variables (cb : Callbacks) (tls_key : list byte) (conn : string).
#[local] Existing Instance lab_zephyr.
Context {RX : Wamr (lab Rm W)}.
#[local] Abbreviation Z_lab := (lab_zephyr cb tls_key conn).
Implicit Types (d : device (lab Rm W)) (x : lab Rm W).

Lemma boot_network x :
  network_init (ZX := Z_lab) (powered_on x) = Done (0, mkDevice proto_statics (mkNet true (-1) (Some 1) false) wamr_statics x).
Proof.
  unfold network_init, apply_injected_mac, cbind, nget, cget, on_net, cput, call_, call. simpl.
  by destruct (read_injected_mac (lab_mem x)).
Qed.

(** The three credentials are registered when they are there; nothing else
    changes. *)
Lemma credentials_lab ca cert key d :
  exists r ready, network_set_tls_credentials (ZX := Z_lab) ca cert key d =
    Done (r, mkDevice (proto d) (mkNet (network_initialized (net d)) (socket_fd (net d)) (net_iface (net d)) ready)
               (wam d) (world d)).
Proof.
  unfold network_set_tls_credentials. destruct (_ || _).
  - exists (-1), (tls_credentials_ready (net d)). by destruct d as [? [] ? ?].
  - exists 0, true. done.
Qed.

(** Connecting opens the socket the wire hands out. *)
Lemma connect_lab host port d :
  network_initialized (net d) = true ->
  network_connect_tls (ZX := Z_lab) host port d = Done (0, mkDevice (proto d) (set_socket 3 (net d)) (wam d) (world d)).
Proof.
  intros Hn. unfold network_connect_tls, open_socket, setsockopt, connect_to, drop_socket, cbind, nget, cget, on_net, cput, call_, call.
  simpl. rewrite Hn. simpl. destruct d as [p n m x]; simpl in *. destruct (0 <=? socket_fd n); simpl;
    by destruct (tls_credentials_ready n).
Qed.

(** What a device reads from its memory. *)
Definition booted (host : list byte) (port : Z) (key cert priv ca : list byte) : Proto :=
  set_identity key cert priv ca (set_endpoint (endpoint_text host port) proto_statics).

Lemma init_connects host port key priv m x :
  Forall host_byte host -> zlen host < 64 -> 1 <= port < 2 ^ 16 ->
  read_gateway_endpoint (lab_mem x) = Some (endpoint_text host port) ->
  read_injected_blob (lab_mem x) DEVICE_KEY_ADDR 128 = Some key ->
  read_injected_blob (lab_mem x) DEVICE_PRIVKEY_ADDR 192 = Some priv ->
  exists cert ca ready,
    wasmbed_protocol_init (ZX := Z_lab) (mkDevice proto_statics (mkNet true (-1) (Some 1) false) m x) =
    (do: _ <- do_enrollment (ZX := Z_lab) in do: _ <- on_proto set_initialized in creturn 0)
      (mkDevice (set_connected true (booted host port key cert priv ca)) (mkNet true 3 (Some 1) ready) m
         (set_rx (lab_clock x + 1000) (lab_sched x) (lab_inbox x) x)).
Proof.
  intros Hh Hl Hp He Hk Hpr.
  set (cert := default [] (read_injected_blob (lab_mem x) DEVICE_CERT_ADDR 768)).
  set (ca := default [] (read_injected_blob (lab_mem x) DEVICE_CA_ADDR 1024)). exists cert, ca.
  unfold wasmbed_protocol_init. erewrite cbind_done by reflexivity. cbn [protocol_initialized proto proto_statics].
  erewrite cbind_done by reflexivity. cbn [memory lab_zephyr world]. rewrite He.
  erewrite cbind_done by reflexivity. cbn [default proto net wam world].
  set (d0 := mkDevice _ _ _ _).
  rewrite (cbind_done read_device_public_key _ d0 tt (mkDevice (set_identity key [] [] [] (proto d0)) (net d0) m x)).
  2: { unfold read_device_public_key, cbind, cget, on_proto, cput. cbn [memory lab_zephyr world d0]. by rewrite Hk. }
  rewrite (cbind_done read_device_credentials _ _ tt (mkDevice (booted host port key cert priv ca) (net d0) m x)).
  2: { unfold read_device_credentials, cbind, cget, on_proto, cput. cbn [memory lab_zephyr world]. by rewrite Hpr. }
  erewrite cbind_done by reflexivity. cbn [id proto].
  destruct (credentials_lab ca cert priv (mkDevice (booted host port key cert priv ca) (net d0) m x)) as (r & ready & Hc).
  exists ready. rewrite (cbind_done _ _ _ _ _ Hc). cbn [proto net wam world d0 network_initialized socket_fd net_iface].
  rewrite (cbind_done _ _ _ _ _ (endpoint_roundtrip host port _ Hh Hl Hp)). cbv beta iota.
  unfold cbind at 1. unfold cbind at 1. cbn [call_ call k_sleep lab_zephyr world proto net wam].
  unfold cbind at 1. rewrite connect_lab by done. change (0 =? 0) with true. cbv iota.
  unfold cbind. cbn [on_proto cput proto net wam world set_socket network_initialized net_iface tls_credentials_ready].
  destruct (do_enrollment _) as [[r1 d1]| |]; reflexivity.
Qed.

(** ** The emulated board *)

Section Emulated.
Context {M : Type} {EM : Emulator M} {LM : EmulatorLaws EM} {H : Sha256}.
Context (identity : string -> option (list byte)) (crd_public_key : string -> option string).
Context (decode_url_safe decode_standard : string -> option (list byte)).
#[local] Abbreviation injected_key id :=
  (device_public_key_bytes identity crd_public_key decode_url_safe decode_standard id).1.

(** C13: the whole way of an emulated device, through four components: after the
    memory writes of the emulator manager's script the firmware starts up,
    finds the endpoint, its key and its private key in memory, connects, proves
    possession of the key to the gateway and is bound to the Device object that
    holds it; it enters its main loop connected and initialized. For every
    WebAssembly runtime that initialises within its own memory; the network is
    one on which DHCP and the TLS connection succeed. *)
Theorem emulated_board_enrolls id host port mach x priv sk h sg dev i1 i2 i3 i4 rest :
  let key := injected_key id in
  (exists mem, wasm_runtime_full_init WAMR_HEAP_SIZE x = (true, set_heap mem x)) ->
  Forall host_byte host -> zlen host < 64 -> 1 <= port < 2 ^ 16 ->
  sizes_ok identity crd_public_key decode_url_safe decode_standard id (bytes_str (endpoint_text host port)) ->
  lab_mem x = ram (run_script (memory_writes identity crd_public_key decode_url_safe decode_standard id
                                 (bytes_str (endpoint_text host port))) mach) ->
  lab_inbox x = [] -> lab_inputs x = i1 :: i2 :: i3 :: i4 :: rest ->
  24 <= zlen key -> device_identity_file identity id "key" = Some priv -> mb_parse_key priv = Some sk ->
  spki_point key = Some (mb_point sk) -> key_bound cb tls_key key -> length (in_nonce i2) = 32%nat ->
  mb_sha256 (Gateway.pop_transcript (in_nonce i2) key) = Some h -> mb_sign sk h 80 = Some sg -> 24 <= zlen sg ->
  in_now i3 - in_now i2 <= CHALLENGE_TTL -> Device_find (lab_kube x) key = Ok (Some dev) ->
  length (uuid_bytes (uuid_of_name (name_any dev) (in_uuid i3))) = 16%nat ->
  exists d', main_start (ZX := Z_lab) (powered_on x) = Done (true, d') /\ online d' /\
    device_public_key (proto d') = key /\ gateway_endpoint (proto d') = endpoint_text host port /\
    connection_to_device (lab_server (world d')) !! conn = Some (name_any dev).
Proof.
  intros key [mem Hinit0] Hh Hl Hp Hsz Hmem Hi Hin Hkey Hpriv Hpk Hpt Hb Hn Hsha Hsg Hsl Ht Hf Hu.
  destruct (identity_read_back identity crd_public_key decode_url_safe decode_standard id
    (bytes_str (endpoint_text host port)) mach Hsz) as (Re & Rk & _ & _ & Rp & _).
  rewrite <- Hmem in Re, Rk, Rp. specialize (Rp priv Hpriv). rewrite str_bytes_str in Re. fold key in Rk.
  destruct Hsz as (_ & (_ & _ & _ & Hk128) & _ & (_ & _ & Hpne) & _). fold key in Hk128. rewrite Hpriv in Hpne.
  unfold main_start. rewrite (cbind_done _ _ _ _ _ (boot_network x)).
  set (m0 := (wamr_init wamr_statics x).1.2). set (x' := set_heap mem x).
  rewrite (cbind_done _ _ _ 0 (mkDevice proto_statics (mkNet true (-1) (Some 1) false) m0 x'))
    by (unfold call_wamr, m0, wamr_init; simpl; by rewrite Hinit0).
  change (negb (0 =? 0)) with false. cbv iota.
  destruct (init_connects host port key priv m0 x' Hh Hl Hp Re Rk Rp) as (cert & ca & ready & Hinit).
  match type of Hinit with _ = _ ?d => set (d1 := d) in Hinit end.
  destruct (known_device_enrolls cb tls_key conn d1 i1 i2 i3 i4 rest sk h sg dev) as (s' & w' & cl & sc & He & Hbound);
    try done.
  { split; [split; [exact Hkey|exact Hk128]|exact (proj1 Hpne)|exact Hpk|exact Hpt]. }
  rewrite (cbind_done _ _ _ _ _ He) in Hinit. erewrite cbind_done in Hinit by reflexivity.
  rewrite (cbind_done _ _ _ _ _ Hinit). eexists. split; [reflexivity|]. by split_and!.
Qed.
End Emulated.
End Boot.

(** ** A board that boots *)

Definition boot_identity (file : string) : option (list byte) :=
  match file with
  | "dev-1.spki" => Some client_spki
  | "dev-1.key" => Some client_point
  | _ => None
  end%string.

Definition boot_host : list byte := str_bytes "10.0.0.1".

Definition boot_world : lab heap cluster :=
  mkLab 0
    (ram (run_script (memory_writes boot_identity (fun _ => None) (fun _ => None) (fun _ => None) "dev-1"
                        (bytes_str (endpoint_text boot_host 40029))) (fun _ => Byte.xff)))
    empty_heap [] [1; 2; 40; 3] [client_inputs 1; client_inputs 2; client_inputs 3; client_inputs 4; client_inputs 5]
    HttpApiServer_new client_cluster.

Lemma endpoint_roundtrip_witness :
  parse_endpoint (c_str (endpoint_text boot_host 40029)) (powered_on tt) = Done (Some (boot_host, 40029), (powered_on tt)).
Proof.
  apply endpoint_roundtrip; [repeat constructor; by vm_compute|by vm_compute|by vm_compute].
Defined.

Lemma emulated_board_enrolls_witness :
  exists d', main_start (ZX := lab_zephyr (K := mem_kube) (B := base64) (E := fw_ecdsa) (U := hex_uuid) open_gateway [] "c")
      (RX := lab_wamr) (T := fw_mbed) (powered_on boot_world) = Done (true, d') /\ online d' /\
    connection_to_device (lab_server (world d')) !! "c"%string = Some "device-a"%string.
Proof.
  destruct (emulated_board_enrolls (K := mem_kube) (B := base64) (E := fw_ecdsa) (U := hex_uuid) (T := fw_mbed)
    (LT := fw_mbed_laws) (TE := fw_mbed_ecdsa) (H := toy_sha256) (RX := lab_wamr)
    open_gateway [] "c" boot_identity (fun _ => None) (fun _ => None) (fun _ => None)
    "dev-1" boot_host 40029 (fun _ => Byte.xff) boot_world client_point client_point
    (sha256 (Sha256 := toy_sha256) (Gateway.pop_transcript (replicate 32 Byte.x55) client_spki))
    (take 40 client_point ++ sha256 (Sha256 := toy_sha256) (Gateway.pop_transcript (replicate 32 Byte.x55) client_spki))
    (sample_device "device-a" (url_encode client_spki) None)
    (client_inputs 1) (client_inputs 2) (client_inputs 3) (client_inputs 4) [client_inputs 5])
    as (d' & H1 & H2 & _ & _ & H3);
    [by exists empty_heap|repeat constructor; by vm_compute|by vm_compute|by vm_compute|by vm_compute|reflexivity|reflexivity|reflexivity
    |by vm_compute|reflexivity|reflexivity|reflexivity|reflexivity|reflexivity|reflexivity|vm_compute; reflexivity
    |by vm_compute|by vm_compute|vm_compute; reflexivity|vm_compute; reflexivity|].
  exists d'. split; [exact H1|]. split; [exact H2|exact H3].
Defined.
