(* ===== verification/RenodeManager.v ===== *)
(** * The emulator manager: [RenodeManager] of [crates/wasmbed-qemu-manager/src/lib.rs]

    The table of emulated devices and the operations that create, start, stop
    and load them. [start_device] is the composition of its critical sections:
    [load_device] and [resolve_gateway] and [launch]. [kubectl], [docker], the
    file system and the environment variables are the record [qenv]; what the
    manager does to the outside is a list of effects. *)

From S2P Require Import Prelude.
From S2P Require Import RustStd.
From S2P Require Import Text.
From S2P Require Import Externals.
From S2P Require Import Renode.
From Stdlib Require Import Strings.Ascii.
From stdpp Require Import pretty.
Local Open Scope Z_scope.

(** ** Devices *)

Inductive QemuDeviceStatus := QStopped | QStarting | QRunning | QStopping | QError (message : string).

Inductive WasmRuntimeStatus := WNotLoaded | WLoading | WRunning | WStopped | WError (message : string).

Record WasmConfig := mkWasmConfig {
  wc_memory_limit : Z;
  wc_execution_timeout : Z;
  wc_host_functions : list string;
}.

Record LoadedWasm := mkLoadedWasm {
  lw_wasm_bytes : list byte;
  lw_config : WasmConfig;
  lw_status : WasmRuntimeStatus;
}.

Record QemuDevice := mkQemuDevice {
  qd_id : string;
  qd_name : string;
  qd_architecture : string;
  qd_device_type : string;
  qd_mcu_type : McuType;
  qd_status : QemuDeviceStatus;
  qd_process_id : option Z;
  qd_endpoint : string;
  qd_gateway_endpoint : option string;
  qd_wasm_runtime : option LoadedWasm;
}.

Definition qd_with_status (s : QemuDeviceStatus) (d : QemuDevice) : QemuDevice :=
  mkQemuDevice (qd_id d) (qd_name d) (qd_architecture d) (qd_device_type d) (qd_mcu_type d) s (qd_process_id d)
    (qd_endpoint d) (qd_gateway_endpoint d) (qd_wasm_runtime d).
Definition qd_with_pid (p : option Z) (d : QemuDevice) : QemuDevice :=
  mkQemuDevice (qd_id d) (qd_name d) (qd_architecture d) (qd_device_type d) (qd_mcu_type d) (qd_status d) p
    (qd_endpoint d) (qd_gateway_endpoint d) (qd_wasm_runtime d).
Definition qd_with_gateway (g : option string) (d : QemuDevice) : QemuDevice :=
  mkQemuDevice (qd_id d) (qd_name d) (qd_architecture d) (qd_device_type d) (qd_mcu_type d) (qd_status d)
    (qd_process_id d) (qd_endpoint d) g (qd_wasm_runtime d).
Definition qd_with_wasm (w : option LoadedWasm) (d : QemuDevice) : QemuDevice :=
  mkQemuDevice (qd_id d) (qd_name d) (qd_architecture d) (qd_device_type d) (qd_mcu_type d) (qd_status d)
    (qd_process_id d) (qd_endpoint d) (qd_gateway_endpoint d) w.

(** ** The outside *)

(** The fields of a Device resource that [start_device] looks at. *)
Record CrdDevice := mkCrdDevice {
  cd_mcu_type : option string;
  cd_name : option string;
  cd_device_type : option string;
  cd_architecture : option string;
}.

Record qenv := mkQenv {
  (** [RENODE_USE_DOCKER], [RENODE_GATEWAY_HOST] and [_PORT], [RENODE_PATH] *)
  q_use_docker : bool;
  q_gateway_env : renode_env;
  q_renode_path : option string;
  q_workspace : string;
  q_temp_dir : string;
  (** [kubectl]: [None] when the command or the parse fails; text is trimmed *)
  q_crd : string -> option CrdDevice;
  q_crd_mcu_type : string -> option string;
  q_crd_gateway_name : string -> option string;
  q_cluster_ip : string -> option string;
  q_gateway_pod_ip : option string;
  (** files, the firmware volume, [docker run] and process creation *)
  q_exists : string -> bool;
  q_copy_firmware : string -> string -> result string unit;
  q_write_script : string -> result string unit;
  q_docker_run : string -> result string bool;
  q_spawn : list string -> result string Z;
  q_kill : string -> Z -> result string unit;
  (** what [build_resc_script] reads *)
  q_identity : string -> option (list byte);
  q_crd_public_key : string -> option string;
  q_decode_url_safe : string -> option (list byte);
  q_decode_standard : string -> option (list byte);
}.

Inductive qeffect :=
| DockerRemove (container : string)
| DockerRun (container script_path : string)
| WriteScript (path content : string)
| Spawn (args : list string)
| Kill (signal : string) (pid : Z)
| RegisterBoard (url device_id endpoint mcu : string) (ethernet wifi network : bool)
| UnregisterBoard (url : string).

Inductive manager_error :=
| DeviceExists (id : string)
| DeviceNotFound (id : string)
| AlreadyRunning
| NotRunning
| NoFirmware (e : firmware_error)
| CommandFailed (message : string).

(** ** Requests to the gateway *)

Definition register_board_with_gateway (gateway_http : string) (d : QemuDevice) (device_id mcu : string) : qeffect :=
  RegisterBoard (trim_end_slashes gateway_http ++ "/api/v1/board/register") device_id (qd_endpoint d) mcu
    (has_ethernet (qd_mcu_type d)) (has_wifi (qd_mcu_type d))
    (has_ethernet (qd_mcu_type d) || has_wifi (qd_mcu_type d)).

Definition unregister_board_from_gateway (gateway_http device_id : string) : qeffect :=
  UnregisterBoard (trim_end_slashes gateway_http ++ "/api/v1/board/" ++ device_id).

(** [format!("{:?}", mcu_type)] *)
Definition mcu_debug (m : McuType) : string :=
  match m with
  | Stm32F746gDisco => "Stm32F746gDisco" | FrdmK64f => "FrdmK64f" | Esp32DevkitC => "Esp32DevkitC"
  | Stm32F4Disco => "Stm32F4Disco" | Nrf52840DK => "Nrf52840DK"
  | RenodeArduinoNano33Ble => "RenodeArduinoNano33Ble" | RenodeStm32F4Discovery => "RenodeStm32F4Discovery"
  | Mps2An385 => "Mps2An385" | LinuxArm64 => "LinuxArm64" | LinuxX86_64 => "LinuxX86_64" | LinuxRiscV => "LinuxRiscV"
  end.

Definition gateway_http (d : QemuDevice) : option string := gateway_http_from_tls_endpoint <$> qd_gateway_endpoint d.

Definition register_effects (d : QemuDevice) (device_id : string) : list qeffect :=
  match gateway_http d with
  | Some gw => [register_board_with_gateway gw d device_id (mcu_debug (qd_mcu_type d))]
  | None => []
  end.

(** ** Operations *)

Section Manager.
Context {H : Sha256}.
Variable base_port : Z.

(** [self.base_port + devices.len() as u16], which wraps in a release build *)
Definition next_port (t : gmap string QemuDevice) : Z := (base_port + Z.of_nat (size t) mod 2 ^ 16) mod 2 ^ 16.

Definition local_endpoint (port : Z) : string := "127.0.0.1:" ++ pretty port.

Definition create_device (id name architecture device_type : string) (mcu : McuType) (endpoint : option string)
    (t : gmap string QemuDevice) : result manager_error QemuDevice * gmap string QemuDevice :=
  match t !! id with
  | Some _ => (Err (DeviceExists id), t)
  | None =>
      let device := mkQemuDevice id name architecture device_type mcu QStopped None
        (default (local_endpoint (next_port t)) endpoint) None None in
      (Ok device, <[id := device]> t)
  end.

Section Env.
Variable env : qenv.

Definition device_from_crd (device_id : string) : option QemuDevice :=
  match q_crd env device_id with
  | None => None
  | Some c => Some (mkQemuDevice device_id (default device_id (cd_name c)) (default "ARM_CORTEX_M" (cd_architecture c))
      (default "MCU" (cd_device_type c)) (mcu_of_crd (cd_mcu_type c)) QStopped None (local_endpoint base_port) None None)
  end.

(** What the device in memory keeps when the resource is loaded over it. *)
Definition keep_runtime_state (old : option QemuDevice) (d : QemuDevice) : QemuDevice :=
  match old with
  | None => d
  | Some o =>
      mkQemuDevice (qd_id d) (qd_name d) (qd_architecture d) (qd_device_type d) (qd_mcu_type d) (qd_status o)
        (match qd_process_id o with Some p => Some p | None => qd_process_id d end)
        (qd_endpoint o) (qd_gateway_endpoint d) (qd_wasm_runtime d)
  end.

(** The first critical section: load the device and refuse one that runs;
    the answer is the gateway endpoint it already has. *)
Definition load_device (device_id : string) (t : gmap string QemuDevice) : result manager_error (option string) * gmap string QemuDevice :=
  let t' := match device_from_crd device_id with
            | Some d => <[device_id := keep_runtime_state (t !! device_id) d]> t
            | None => t
            end in
  match t' !! device_id with
  | None => (Err (DeviceNotFound device_id), t')
  | Some device =>
      match qd_status device with
      | QRunning => (Err AlreadyRunning, t')
      | _ => (Ok (qd_gateway_endpoint device), t')
      end
  end.

Definition non_empty (o : option string) : option string :=
  match o with Some EmptyString => None | _ => o end.

Definition host_of (gateway_ep : string) : string :=
  before ":"%char (remove_all "https://" (remove_all "http://" gateway_ep)).

Definition looks_like_ip (host : string) : bool :=
  all_chars (fun c => is_digit c || Ascii.eqb c "."%char) host && (count_char "."%char host =? 3)%nat.

Definition gateway_name_of (device_id host : string) : string :=
  if String.eqb host "127.0.0.1" || String.eqb host "localhost" then EmptyString
  else if looks_like_ip host then default EmptyString (q_crd_gateway_name env device_id)
  else remove_all "-service" (before "."%char host).

Definition tls_port_of (gateway_ep : string) : string :=
  if str_contains gateway_ep ":8443" then "8443" else if str_contains gateway_ep ":8081" then "8081" else "8443".

Definition service_of (gateway_name host : string) : string :=
  if String.eqb gateway_name "" then
    if ends_with "-service" host then before "."%char host else before "."%char host ++ "-service"
  else gateway_name ++ "-service".

(** The ClusterIP endpoint of a gateway, when its service is found. *)
Definition resolve_gateway (device_id : string) (ep : option string) : option string :=
  match ep with
  | Some gateway_ep =>
      let host := host_of gateway_ep in
      let svc := service_of (gateway_name_of device_id host) host in
      (fun ip => (ip ++ ":" ++ tls_port_of gateway_ep)%string) <$> non_empty (q_cluster_ip env svc)
  | None =>
      match non_empty (q_crd_gateway_name env device_id) with
      | Some name => (fun ip => (ip ++ ":8443")%string) <$> non_empty (q_cluster_ip env (name ++ "-service"))
      | None => None
      end
  end.

Definition store_gateway (device_id : string) (resolved : option string) (t : gmap string QemuDevice) : gmap string QemuDevice :=
  match resolved with
  | Some e => alter (qd_with_gateway (Some e)) device_id t
  | None => t
  end.

(** [file_name()] of a firmware path; all of them end in the same name *)
Definition firmware_filename : string := "zephyr.elf".

Definition script_dir : string := q_workspace env ++ "/renode-scripts".

(** The last section with Docker: one container per device. *)
Definition launch_docker (device_id : string) (device : QemuDevice) (t : gmap string QemuDevice) :
    result manager_error unit * gmap string QemuDevice * list qeffect :=
  let t := <[device_id := qd_with_status QStarting device]> t in
  match get_firmware_path (q_exists env) (q_workspace env) (qd_mcu_type device) with
  | Err e => (Err (NoFirmware e), t, [])
  | Ok firmware_path =>
      let endpoint := translate_to_nodeport_endpoint (q_gateway_env env)
        (default (nodeport_endpoint (q_gateway_env env)) (qd_gateway_endpoint device)) in
      match q_copy_firmware env device_id firmware_path with
      | Err e => (Err (CommandFailed e), t, [])
      | Ok _ =>
          let script := build_resc_script (q_identity env) (q_crd_public_key env) (q_decode_url_safe env)
            (q_decode_standard env) (qd_mcu_type device) device_id endpoint
            ("/firmware/" ++ device_id ++ "/" ++ firmware_filename) in
          let path := (script_dir ++ "/" ++ device_id ++ ".resc")%string in
          match q_write_script env path with
          | Err e => (Err (CommandFailed e), t, [])
          | Ok _ =>
              let container := renode_container_name device_id in
              let written := [WriteScript path script; DockerRemove container] in
              match q_docker_run env container with
              | Err e => (Err (CommandFailed e), t, written)
              | Ok false =>
                  (Err (CommandFailed ("Failed to start Renode container for device " ++ device_id)), t, written)
              | Ok true =>
                  (Ok tt, alter (fun d => qd_with_pid None (qd_with_status QRunning d)) device_id t,
                   written ++ [DockerRun container ("/scripts/" ++ device_id ++ ".resc")] ++
                   register_effects device device_id)
              end
          end
      end
  end.

(** *** Without Docker *)

(** [build_renode_args] reads the board from the resource again, with fewer
    names than [start_device] knows. *)
Definition native_mcu (device_id : string) (device : QemuDevice) : McuType :=
  match q_crd_mcu_type env device_id with
  | Some "Stm32F746gDisco" => Stm32F746gDisco
  | Some "FrdmK64f" => FrdmK64f
  | Some "Esp32DevkitC" => Esp32DevkitC
  | Some "Nrf52840DK" => Nrf52840DK
  | Some "Stm32F4Disco" => Stm32F4Disco
  | Some "LinuxArm64" | Some "linux_arm64" => LinuxArm64
  | Some "LinuxX86_64" | Some "linux_x86_64" => LinuxX86_64
  | Some "LinuxRiscV" | Some "linux_riscv" => LinuxRiscV
  | _ => qd_mcu_type device
  end%string.

Definition native_gateway_endpoint (device : QemuDevice) : string :=
  match qd_gateway_endpoint device with
  | Some e => e
  | None => match non_empty (q_gateway_pod_ip env) with Some ip => ip ++ ":8081" | None => "127.0.0.1:8081" end
  end.

(** [device.endpoint.split(':').nth(1).unwrap_or("3000")] *)
Fixpoint after_colon (s : string) : option string :=
  match s with
  | EmptyString => None
  | String a s => if Ascii.eqb a ":"%char then Some (before ":"%char s) else after_colon s
  end.

Definition native_port (device : QemuDevice) : string := default "3000" (after_colon (qd_endpoint device)).

Definition native_commands (m : McuType) (device : QemuDevice) (device_id firmware : string) : string :=
  let ethernet :=
    if has_ethernet m then ethernet_setup_commands m device_id
    else if has_wifi m then "# WiFi configuration for ESP32 (if supported)" else EmptyString in
  "mach add " ++ quoted (qd_id device) ++ newline ++
  "include @platforms/boards/" ++ renode_platform m ++ ".repl" ++ newline ++
  "showAnalyzer sysbus." ++ get_uart_name m ++ newline ++
  "sysbus LoadELF @" ++ quoted firmware ++ newline ++
  "mach set " ++ quoted (qd_id device) ++ newline ++
  (if String.eqb ethernet "" then EmptyString else newline ++ trim ethernet) ++
  (if bool_decide (m = RenodeArduinoNano33Ble)
   then newline ++ "sysbus.cpu PC 0x866b" ++ newline ++ "sysbus.cpu SP 0x20020000" else EmptyString) ++ newline ++
  "# Enable detailed logging" ++ newline ++ "logLevel -1" ++ newline ++
  "# Start machine" ++ newline ++ "start" ++ newline ++
  "# Keep machine running - Renode will stay active after start command".

(** The injected memory comes after the [start] of the commands. *)
Definition native_memory (device : QemuDevice) (device_id : string) : string :=
  newline ++ renode_write_blob DEVICE_ENDPOINT_ADDR (str_bytes (native_gateway_endpoint device)) ++
  newline ++ renode_write_blob DEVICE_KEY_ADDR
    (device_public_key_bytes (q_identity env) (q_crd_public_key env) (q_decode_url_safe env) (q_decode_standard env)
       device_id).1 ++
  newline ++ renode_write_blob DEVICE_MAC_ADDR (device_mac_bytes device_id) ++
  device_credential_writes (q_identity env) device_id.

Definition python_code : string :=
  newline ++ newline ++
  "# Python script to monitor and keep machine running (optional)" ++ newline ++
  "# Note: Machine should stay running after 'start' command" ++ newline ++
  "# This Python code is commented out to avoid syntax errors" ++ newline ++
  "# python:" ++ newline ++ "# import time" ++ newline ++ "# mach = machines.current" ++ newline ++
  "# while True:" ++ newline ++ "#     try:" ++ newline ++ "#         time.sleep(0.5)" ++ newline ++
  "#         if mach.cpu.IsPaused:" ++ newline ++ "#             mach.cpu.Resume()" ++ newline ++
  "#     except:" ++ newline ++ "#         pass".

(** [build_renode_args] when Docker is off: the arguments and the script. *)
Definition build_renode_args (device : QemuDevice) (device_id : string) :
    result manager_error (list string) * list qeffect :=
  let m := native_mcu device_id device in
  match get_firmware_path (q_exists env) (q_workspace env) m with
  | Err e => (Err (NoFirmware e), [])
  | Ok firmware =>
      let path := (q_temp_dir env ++ "/renode_" ++ device_id ++ ".resc")%string in
      let script := (native_commands m device device_id firmware ++ native_memory device device_id ++ python_code)%string in
      match q_write_script env path with
      | Err e => (Err (CommandFailed e), [])
      | Ok _ =>
          (Ok [default "docker" (q_renode_path env); "--console"; "--plain"; "--port"; native_port device; path],
           [WriteScript path script])
      end
  end.

Definition launch_native (device_id : string) (device : QemuDevice) (t : gmap string QemuDevice) :
    result manager_error unit * gmap string QemuDevice * list qeffect :=
  let t := <[device_id := qd_with_status QStarting device]> t in
  match build_renode_args device device_id with
  | (Err e, out) => (Err e, t, out)
  | (Ok args, out) =>
      match q_spawn env args with
      | Ok pid =>
          (Ok tt, alter (fun d => qd_with_status QRunning (qd_with_pid (Some pid) d)) device_id t,
           out ++ [Spawn args] ++ register_effects device device_id)
      | Err e =>
          (Err (CommandFailed ("Failed to start QEMU: " ++ e)), alter (qd_with_status (QError e)) device_id t, out)
      end
  end.

(** The thread that waits for the process notices that it has ended. *)
Definition process_exited (device_id : string) (t : gmap string QemuDevice) : gmap string QemuDevice :=
  alter (fun d => qd_with_pid None (qd_with_status QStopped d)) device_id t.

Definition launch (device_id : string) (t : gmap string QemuDevice) : result manager_error unit * gmap string QemuDevice * list qeffect :=
  match t !! device_id with
  | None => (Err (DeviceNotFound device_id), t, [])
  | Some device =>
      if q_use_docker env then launch_docker device_id device t else launch_native device_id device t
  end.

Definition start_device (device_id : string) (gateway_endpoint : option string) (t : gmap string QemuDevice) :
    result manager_error unit * gmap string QemuDevice * list qeffect :=
  match load_device device_id t with
  | (Err e, t) => (Err e, t, [])
  | (Ok existing, t) =>
      let ep := match gateway_endpoint with Some e => Some e | None => existing end in
      launch device_id (store_gateway device_id (resolve_gateway device_id ep) t)
  end.

(** [kill -TERM], two seconds, [kill -KILL]: a failure to run the command
    leaves the device in error. *)
Definition stop_process (device_id : string) (pid : Z) (t : gmap string QemuDevice) :
    result manager_error unit * gmap string QemuDevice * list qeffect :=
  match q_kill env "-TERM" pid with
  | Err e => (Err (CommandFailed ("Failed to stop device: " ++ e)), alter (qd_with_status (QError e)) device_id t, [])
  | Ok _ =>
      match q_kill env "-KILL" pid with
      | Err e => (Err (CommandFailed ("Failed to force stop device: " ++ e)),
                  alter (qd_with_status (QError e)) device_id t, [Kill "-TERM" pid])
      | Ok _ => (Ok tt, process_exited device_id t, [Kill "-TERM" pid; Kill "-KILL" pid])
      end
  end.

Definition stop_device (device_id : string) (t : gmap string QemuDevice) : result manager_error unit * gmap string QemuDevice * list qeffect :=
  match t !! device_id with
  | None => (Err (DeviceNotFound device_id), t, [])
  | Some device =>
      let bye := match gateway_http device with
                 | Some gw => [unregister_board_from_gateway gw device_id]
                 | None => []
                 end in
      if q_use_docker env then
        (Ok tt, process_exited device_id t, DockerRemove (renode_container_name device_id) :: bye)
      else
        match qd_process_id device with
        | None => (Ok tt, t, bye)
        | Some pid =>
            match stop_process device_id pid t with
            | (Ok _, t, out) => (Ok tt, t, out ++ bye)
            | r => r
            end
        end
  end.
End Env.

Definition deploy_wasm (device_id : string) (wasm : list byte) (config : WasmConfig) (t : gmap string QemuDevice) :
    result manager_error unit * gmap string QemuDevice :=
  match t !! device_id with
  | None => (Err (DeviceNotFound device_id), t)
  | Some device =>
      match qd_status device with
      | QRunning => (Ok tt, <[device_id := qd_with_wasm (Some (mkLoadedWasm wasm config WLoading)) device]> t)
      | _ => (Err NotRunning, t)
      end
  end.

(** The task [deploy_wasm] spawns, two seconds later. *)
Definition finish_loading (device_id : string) (t : gmap string QemuDevice) : gmap string QemuDevice :=
  alter (fun d => qd_with_wasm
    ((fun r => mkLoadedWasm (lw_wasm_bytes r) (lw_config r) WRunning) <$> qd_wasm_runtime d) d) device_id t.

Definition qemu_get_device (device_id : string) (t : gmap string QemuDevice) : option QemuDevice := t !! device_id.
Definition list_devices (t : gmap string QemuDevice) : list QemuDevice := snd <$> map_to_list t.
End Manager.
