(* ===== verification/RenodeManagerProofs.v ===== *)
(** * Properties of the emulator manager

    Every outcome of a start, the invariant of the device table over all
    operations, and where the table loses track: a start of a running device
    erases its gateway, devices with a common prefix share a container. *)

From S2P Require Import Prelude.
From S2P Require Import RustStd.
From S2P Require Import Externals.
From S2P Require Import Base64.
From S2P Require Import Renode.
From S2P Require Import RenodeManager.
From stdpp Require Import pretty.
Local Open Scope Z_scope.

#[export] Instance qemu_status_eq_dec : EqDecision QemuDeviceStatus.
Proof. solve_decision. Defined.

Section Manager.
Context {H : Sha256}.
Variable base_port : Z.

(** ** One start *)

Definition is_docker_run (e : qeffect) : bool := match e with DockerRun _ _ => true | _ => false end.

(** What a start with Docker needs of the outside: a firmware for the board,
    its copy, the script and the container. *)
Definition can_launch (env : qenv) (id : string) (mcu : McuType) : Prop :=
  exists fp, get_firmware_path (q_exists env) (q_workspace env) mcu = Ok fp /\
    is_ok (q_copy_firmware env id fp) = true /\
    is_ok (q_write_script env (q_workspace env ++ "/renode-scripts/" ++ id ++ ".resc")) = true /\
    q_docker_run env (renode_container_name id) = Ok true.

(** The effects of a launch, in order: the script of the board, which hands the
    gateway's address to the firmware, and the message to the gateway at the
    resolved TLS endpoint. *)
Definition launch_effects (env : qenv) (id : string) (d : QemuDevice) : list qeffect :=
  [WriteScript (q_workspace env ++ "/renode-scripts/" ++ id ++ ".resc")
     (build_resc_script (q_identity env) (q_crd_public_key env) (q_decode_url_safe env) (q_decode_standard env)
        (qd_mcu_type d) id
        (translate_to_nodeport_endpoint (q_gateway_env env)
           (default (nodeport_endpoint (q_gateway_env env)) (qd_gateway_endpoint d)))
        ("/firmware/" ++ id ++ "/zephyr.elf"));
   DockerRemove (renode_container_name id);
   DockerRun (renode_container_name id) ("/scripts/" ++ id ++ ".resc")] ++
  match qd_gateway_endpoint d with
  | Some e =>
      [RegisterBoard (trim_end_slashes (gateway_http_from_tls_endpoint e) ++ "/api/v1/board/register") id (qd_endpoint d)
         (mcu_debug (qd_mcu_type d)) (has_ethernet (qd_mcu_type d)) (has_wifi (qd_mcu_type d))
         (has_ethernet (qd_mcu_type d) || has_wifi (qd_mcu_type d))]
  | None => []
  end.

Lemma load_other env id j t : j <> id -> (load_device base_port env id t).2 !! j = t !! j.
Proof.
  intros Hj. unfold load_device. destruct (device_from_crd base_port env id) as [d|].
  - cbn zeta. rewrite lookup_insert_eq. destruct (qd_status _); simpl; by rewrite lookup_insert_ne.
  - destruct (t !! id) as [d|]; [|done]. by destruct (qd_status d).
Qed.

Lemma store_gateway_other id r t j : j <> id -> store_gateway id r t !! j = t !! j.
Proof. intros Hj. destruct r; simpl; [by rewrite lookup_alter_ne | done]. Qed.

(** The last section: it launches when everything it needs is there, and
    otherwise leaves the device in Starting without a container. *)
Lemma launch_docker_outcome env id d t :
  t !! id = Some d ->
  let '(r, t', out) := launch_docker env id d t in
  (forall j, j <> id -> t' !! j = t !! j) /\ (r = Ok tt <-> can_launch env id (qd_mcu_type d)) /\
  match r with
  | Ok _ => t' !! id = Some (qd_with_pid None (qd_with_status QRunning d)) /\
            out = launch_effects env id d
  | Err e => e <> AlreadyRunning /\ t' !! id = Some (qd_with_status QStarting d) /\ List.existsb is_docker_run out = false
  end.
Proof.
  intros Hd. unfold launch_docker, can_launch, script_dir.
  set (t1 := <[id := qd_with_status QStarting d]> t).
  assert (t1 !! id = Some (qd_with_status QStarting d)) as H1 by apply lookup_insert_eq.
  assert (forall j, j <> id -> t1 !! j = t !! j) as Ho by (intros j Hj; by apply lookup_insert_ne).
  assert (forall (Q : Prop) e out, ~ Q -> e <> AlreadyRunning -> List.existsb is_docker_run out = false ->
    (forall j, j <> id -> t1 !! j = t !! j) /\ (Err e = Ok tt <-> Q) /\
    (e <> AlreadyRunning /\ t1 !! id = Some (qd_with_status QStarting d) /\ List.existsb is_docker_run out = false)) as Fail
    by (intros Q e out HQ He Hout; split; [done|split; [by split|done]]).
  destruct (get_firmware_path _ _ _) as [fp|fe]; [|apply Fail; [by intros (? & ? & _)|done|done]].
  destruct (q_copy_firmware _ _ _) as [u|e] eqn:Ec;
    [|apply Fail; [intros (? & [= <-] & Hc & _); by rewrite Ec in Hc|done|done]].
  replace ((q_workspace env ++ "/renode-scripts") ++ "/" ++ id ++ ".resc")%string
    with (q_workspace env ++ "/renode-scripts/" ++ id ++ ".resc")%string by (by rewrite <- string_app_assoc).
  destruct (q_write_script _ _) as [u'|e] eqn:Ew; [|apply Fail; [by intros (? & _ & _ & Hw & _)|done|done]].
  destruct (q_docker_run _ _) as [[|]|e] eqn:Er; [|apply Fail; [by intros (? & _ & _ & _ & Hr)|done|done]..].
  split; [intros j Hj; rewrite lookup_alter_ne by done; by apply Ho|]. split; [split; [|done]|split].
  - intros _. exists fp. by rewrite Ec.
  - rewrite lookup_alter, decide_True, H1 by done. done.
  - unfold launch_effects, register_effects, gateway_http. by destruct (qd_gateway_endpoint d).
Qed.

(** The device a start works on: the resource decides the board and forgets
    the gateway; without a resource the table decides. *)
Definition board_of (c : option CrdDevice) (known : option QemuDevice) : McuType :=
  match c, known with
  | Some c, _ => mcu_of_crd (cd_mcu_type c)
  | None, Some d => qd_mcu_type d
  | None, None => mcu_of_crd None
  end.
Definition known_gateway (c : option CrdDevice) (known : option QemuDevice) : option string :=
  match c, known with None, Some d => qd_gateway_endpoint d | _, _ => None end.

Lemma load_by_input env id t :
  match q_crd env id, t !! id with
  | None, None => load_device base_port env id t = (Err (DeviceNotFound id), t)
  | c, known =>
      exists d, (load_device base_port env id t).2 !! id = Some d /\
        qd_mcu_type d = board_of c known /\ qd_gateway_endpoint d = known_gateway c known /\
        match known with
        | Some o => qd_status d = qd_status o /\ qd_process_id d = qd_process_id o /\ qd_endpoint d = qd_endpoint o
        | None => qd_status d = QStopped
        end /\
        (load_device base_port env id t).1 =
          if decide (qd_status d = QRunning) then Err AlreadyRunning else Ok (known_gateway c known)
  end.
Proof.
  unfold load_device, device_from_crd. destruct (q_crd env id) as [c|].
  - rewrite lookup_insert_eq. eexists. split.
    { match goal with |- (match ?s with _ => _ end).2 !! id = _ => destruct s end; cbn [snd]; apply lookup_insert_eq. }
    destruct (t !! id) as [o|]; simpl; [|by split_and!].
    split_and!; try done; [by destruct (qd_process_id o)|]. by destruct (qd_status o); case_decide.
  - destruct (t !! id) as [o|] eqn:Eo; [|done]. exists o.
    split; [by destruct (qd_status o); simpl|]. split_and!; try done. simpl. by destruct (qd_status o); case_decide.
Qed.

(** From a loaded device to the end. *)
Lemma started_from env id ep (t t1 : gmap string QemuDevice) d c known :
  q_use_docker env = true -> (forall j, j <> id -> t1 !! j = t !! j) ->
  t1 !! id = Some d -> qd_mcu_type d = board_of c known -> qd_gateway_endpoint d = known_gateway c known ->
  match known with
  | Some o => qd_status d = qd_status o /\ qd_process_id d = qd_process_id o /\ qd_endpoint d = qd_endpoint o
  | None => qd_status d = QStopped
  end ->
  let '(r, t', out) :=
    match (if decide (qd_status d = QRunning) then Err AlreadyRunning else Ok (known_gateway c known)) with
    | Err e => (Err e, t1, [])
    | Ok existing =>
        let ep := match ep with Some e => Some e | None => existing end in
        launch env id (store_gateway id (resolve_gateway env id ep) t1)
    end in
  (forall j, j <> id -> t' !! j = t !! j) /\
  exists d', t' !! id = Some d' /\ qd_mcu_type d' = board_of c known /\
    if decide (qd_status <$> known = Some QRunning) then
      r = Err AlreadyRunning /\ out = [] /\ qd_status d' = QRunning /\
      qd_process_id d' = known ≫= qd_process_id /\ Some (qd_endpoint d') = qd_endpoint <$> known /\
      qd_gateway_endpoint d' = known_gateway c known
    else
      let wanted := match ep with Some e => Some e | None => known_gateway c known end in
      (r = Ok tt <-> can_launch env id (board_of c known)) /\
      qd_gateway_endpoint d' = match resolve_gateway env id wanted with
                               | Some e => Some e | None => known_gateway c known end /\
      match r with
      | Ok _ => qd_status d' = QRunning /\ qd_process_id d' = None /\ out = launch_effects env id d'
      | Err e => e <> AlreadyRunning /\ qd_status d' = QStarting /\ List.existsb is_docker_run out = false
      end.
Proof.
  intros Hdk Ho Hd Hm Hg Hk.
  assert (qd_status <$> known = Some QRunning <-> qd_status d = QRunning) as Hrun.
  { destruct known as [o|]; simpl; [destruct Hk as (-> & _); split; congruence|]. rewrite Hk. by split. }
  destruct (decide (qd_status d = QRunning)) as [Hs|Hs].
  - split; [done|]. exists d. split; [done|]. split; [done|]. rewrite decide_True by (by apply Hrun).
    destruct known as [o|]; [|simpl in Hrun; destruct Hrun as [_ Hrun]; by specialize (Hrun Hs)].
    destruct Hk as (Hk1 & Hk2 & Hk3). split_and!; try done. simpl. by rewrite Hk3.
  - set (wanted := match ep with Some e => Some e | None => _ end).
    destruct (decide (qd_status <$> known = Some QRunning)) as [Hk'|_]; [by apply Hrun in Hk'|].
    cbv beta iota zeta. fold wanted. set (res := resolve_gateway env id wanted).
    assert (exists d2, store_gateway id res t1 !! id = Some d2 /\ qd_mcu_type d2 = board_of c known /\
      qd_gateway_endpoint d2 = match res with Some e => Some e | None => known_gateway c known end) as (d2 & Hd2 & Hm2 & Hg2).
    { destruct res as [e|]; simpl; [|by exists d]. exists (qd_with_gateway (Some e) d). by rewrite lookup_alter_eq, Hd. }
    unfold launch. rewrite Hd2, Hdk. pose proof (launch_docker_outcome env id d2 _ Hd2) as Hout.
    destruct (launch_docker env id d2 (store_gateway id res t1)) as [[r' t'] out]. destruct Hout as (Hj & Hr & Hout).
    rewrite Hm2 in Hr. split; [intros j Hne; rewrite Hj, store_gateway_other by done; by apply Ho|].
    destruct r' as [[]|e].
    + destruct Hout as [Ht' ->]. eexists. split; [exact Ht'|]. split; [done|]. split; [done|]. split; [done|].
      split_and!; done.
    + destruct Hout as (He & Ht' & Hb). eexists. split; [exact Ht'|]. split; [done|]. split; [done|]. by split_and!.
Qed.

(** C27: What [start_device] does with Docker, by its input. A device without a
    resource and not in the table is unknown and nothing happens. A device that
    runs is refused with no effect outside, and it still runs, with its process
    id and endpoint; but when a resource was read the table has forgotten its
    gateway. Every other device is launched on the board of its resource (of
    the table without one) exactly when its firmware is found and copied, its
    script written and its container started: then it is Running without a
    process id, its gateway is the resolved one, the script is written, an old
    container removed, the container started and the board registered with that
    gateway, in this order and nothing else; otherwise an error is returned and
    the device is left in Starting with no container. No other device is
    touched. *)
Theorem start_device_outcomes (env : qenv) (id : string) (ep : option string) (t : gmap string QemuDevice) :
  q_use_docker env = true ->
  let '(r, t', out) := start_device base_port env id ep t in
  (forall j, j <> id -> t' !! j = t !! j) /\
  match q_crd env id, t !! id with
  | None, None => r = Err (DeviceNotFound id) /\ t' = t /\ out = []
  | c, known =>
      exists d, t' !! id = Some d /\ qd_mcu_type d = board_of c known /\
      if decide (qd_status <$> known = Some QRunning) then
        r = Err AlreadyRunning /\ out = [] /\ qd_status d = QRunning /\
        qd_process_id d = known ≫= qd_process_id /\ Some (qd_endpoint d) = qd_endpoint <$> known /\
        qd_gateway_endpoint d = known_gateway c known
      else
        let wanted := match ep with Some e => Some e | None => known_gateway c known end in
        (r = Ok tt <-> can_launch env id (board_of c known)) /\
        qd_gateway_endpoint d = match resolve_gateway env id wanted with
                                | Some e => Some e | None => known_gateway c known end /\
        match r with
        | Ok _ => qd_status d = QRunning /\ qd_process_id d = None /\
                  out = launch_effects env id d
        | Err e => e <> AlreadyRunning /\ qd_status d = QStarting /\ List.existsb is_docker_run out = false
        end
  end.
Proof.
  intros Hdk. unfold start_device. pose proof (load_by_input env id t) as Hl.
  pose proof (fun j => load_other env id j t) as Ho.
  destruct (q_crd env id) as [c|] eqn:Ec, (t !! id) as [o|] eqn:Eo; [| |  |by rewrite Hl].
  all: destruct Hl as (d & Hd & Hm & Hg & Hk & Hr);
    destruct (load_device base_port env id t) as [res t1]; simpl in Hd, Hr, Ho; subst res.
  - exact (started_from env id ep t t1 d (Some c) (Some o) Hdk Ho Hd Hm Hg Hk).
  - exact (started_from env id ep t t1 d (Some c) None Hdk Ho Hd Hm Hg Hk).
  - exact (started_from env id ep t t1 d None (Some o) Hdk Ho Hd Hm Hg Hk).
Qed.

(** Starting a device that already runs is refused, but not before the device was
    loaded anew from its resource: the refused call erases the gateway endpoint and
    the loaded module, and the stop that follows no longer tells the gateway that
    the board is gone. *)
Theorem refused_start_forgets_gateway (env : qenv) (id : string) (ep : option string) (t : gmap string QemuDevice)
    (d : QemuDevice) (c : CrdDevice) :
  q_use_docker env = true -> t !! id = Some d -> qd_status d = QRunning -> q_crd env id = Some c ->
  exists t' d', start_device base_port env id ep t = (Err AlreadyRunning, t', []) /\
    t' !! id = Some d' /\ qd_status d' = QRunning /\ qd_gateway_endpoint d' = None /\ qd_wasm_runtime d' = None /\
    (stop_device env id t').2 = [DockerRemove (renode_container_name id)].
Proof.
  intros Hdk Hd Hs Hc. unfold start_device, load_device, device_from_crd. rewrite Hc, Hd. cbn [keep_runtime_state].
  rewrite lookup_insert_eq. cbn [qd_status]. rewrite Hs. do 2 eexists. split; [done|].
  rewrite lookup_insert_eq. split_and!; try done. unfold stop_device. rewrite lookup_insert_eq, Hdk. done.
Qed.

(** Container names keep only 16 bytes of the device id: when two ids agree on them,
    starting the second device removes the container of the first, which stays
    listed as Running. *)
Theorem containers_shared_by_prefix (env : qenv) (a b : string) (ep : option string) (t t' : gmap string QemuDevice)
    (da : QemuDevice) (out : list qeffect) :
  q_use_docker env = true -> a <> b -> String.substring 0 16 a = String.substring 0 16 b ->
  t !! a = Some da -> qd_status da = QRunning ->
  start_device base_port env b ep t = (Ok tt, t', out) ->
  DockerRemove (renode_container_name a) ∈ out /\ t' !! a = Some da.
Proof.
  intros Hdk Hab Hpre Ha Hs. unfold start_device. pose proof (load_other env b a t Hab) as Ho.
  destruct (load_device base_port env b t) as [[g|e] t1]; simpl in Ho; [|done].
  set (r := resolve_gateway env b _). unfold launch. destruct (store_gateway b r t1 !! b) as [d|] eqn:Ed; [|done].
  rewrite Hdk. pose proof (launch_docker_outcome env b d _ Ed) as Hl.
  destruct (launch_docker env b d (store_gateway b r t1)) as [[r' t2] out'] eqn:El. destruct Hl as [Hj _].
  intros [= -> <- <-]. split; [|by rewrite Hj, store_gateway_other, Ho].
  unfold launch_docker in El. destruct (get_firmware_path _ _ _); [|done].
  destruct (q_copy_firmware _ _ _); [|done]. destruct (q_write_script _ _); [|done].
  destruct (q_docker_run _ _) as [[|]|]; try done. injection El as _ <-.
  unfold renode_container_name. rewrite Hpre. right. left.
Qed.

(** ** The table over all operations *)

Inductive mstep : gmap string QemuDevice -> gmap string QemuDevice -> Prop :=
| m_create id name arch ty mcu ep t : mstep t (create_device base_port id name arch ty mcu ep t).2
| m_start env id ep t : mstep t (start_device base_port env id ep t).1.2
| m_stop env id t : mstep t (stop_device env id t).1.2
| m_deploy id wasm cfg t : mstep t (deploy_wasm id wasm cfg t).2
| m_loaded id t : mstep t (finish_loading id t)
| m_exited id t : mstep t (process_exited id t).

Definition tls_suffix (e : string) : Prop := exists ip, e = (ip ++ ":8443")%string \/ e = (ip ++ ":8081")%string.

Definition device_ok (id : string) (d : QemuDevice) : Prop :=
  qd_id d = id /\ (qd_status d = QStopped -> qd_process_id d = None) /\
  (forall e, qd_gateway_endpoint d = Some e -> tls_suffix e).

Definition table_ok (t : gmap string QemuDevice) : Prop := map_Forall device_ok t.

Lemma table_ok_insert id d t : device_ok id d -> table_ok t -> table_ok (<[id := d]> t).
Proof. intros Hd Ht. by apply map_Forall_insert_2. Qed.

Lemma table_ok_alter f id t :
  (forall d, device_ok id d -> device_ok id (f d)) -> table_ok t -> table_ok (alter f id t).
Proof.
  intros Hf Ht j d. rewrite lookup_alter. case_decide as E; [subst j|apply Ht].
  destruct (t !! id) as [d0|] eqn:Ed; simpl; [|done]. intros [= <-]. by apply Hf, Ht.
Qed.

Lemma table_ok_lookup id t d : table_ok t -> t !! id = Some d -> device_ok id d.
Proof. intros Ht Hd. by apply Ht. Qed.

Lemma resolve_suffix env id ep e : resolve_gateway env id ep = Some e -> tls_suffix e.
Proof.
  unfold resolve_gateway, tls_suffix. intros Hr. destruct ep as [g|].
  - destruct (non_empty _) as [ip|]; [|done]. injection Hr as <-. exists ip. unfold tls_port_of.
    destruct (str_contains g ":8443"); [by left|]. destruct (str_contains g ":8081"); [by right | by left].
  - destruct (non_empty (q_crd_gateway_name env id)); [|done]. destruct (non_empty _) as [ip|]; [|done].
    injection Hr as <-. exists ip. by left.
Qed.

Lemma exited_ok id d : device_ok id d -> device_ok id (qd_with_pid None (qd_with_status QStopped d)).
Proof. by intros (? & ? & ?). Qed.

Lemma status_ok id s d : s <> QStopped -> device_ok id d -> device_ok id (qd_with_status s d).
Proof. by intros Hs (? & ? & ?). Qed.

Lemma load_ok env id t : table_ok t -> table_ok (load_device base_port env id t).2.
Proof.
  intros Ht. unfold load_device, device_from_crd. destruct (q_crd env id) as [c|].
  - rewrite lookup_insert_eq. destruct (qd_status (keep_runtime_state _ _)); simpl;
      (apply table_ok_insert; [|done]); destruct (t !! id) as [o|] eqn:Eo; simpl;
      try (apply (table_ok_lookup id t o Ht) in Eo as (? & Hst & ?));
      split_and!; try done; simpl; intros Es; specialize (Hst Es); by rewrite Hst.
  - destruct (t !! id) as [d|]; [|done]. by destruct (qd_status d).
Qed.

Lemma launch_ok env id t : table_ok t -> table_ok (launch env id t).1.2.
Proof.
  intros Ht. unfold launch. destruct (t !! id) as [d|] eqn:Ed; [|done].
  pose proof (table_ok_lookup _ _ _ Ht Ed) as Hd.
  assert (table_ok (<[id := qd_with_status QStarting d]> t)) as H1 by (apply table_ok_insert; [by apply status_ok | done]).
  destruct (q_use_docker env).
  - unfold launch_docker. repeat case_match; simpl; try done.
    apply table_ok_alter; [|done]. by intros d' (? & ? & ?).
  - unfold launch_native. repeat case_match; simpl; try done;
      (apply table_ok_alter; [|done]); by intros d' (? & ? & ?).
Qed.

Lemma store_ok env id ep t : table_ok t -> table_ok (store_gateway id (resolve_gateway env id ep) t).
Proof.
  intros Ht. destruct (resolve_gateway env id ep) as [e|] eqn:Er; simpl; [|done].
  apply table_ok_alter; [|done]. intros d (? & ? & _). split_and!; try done. intros e' [= <-].
  by eapply resolve_suffix.
Qed.

Lemma mstep_ok t t' : mstep t t' -> table_ok t -> table_ok t'.
Proof.
  intros [id name arch ty mcu ep t0|env id ep t0|env id t0|id wasm cfg t0|id t0|id t0] Ht.
  - unfold create_device. destruct (t0 !! id); [done|]. by apply table_ok_insert.
  - unfold start_device. pose proof (load_ok env id t0 Ht) as Hl.
    destruct (load_device base_port env id t0) as [[g|e] t1]; simpl in *; [|done]. by apply launch_ok, store_ok.
  - unfold stop_device, stop_process. repeat case_match; simplify_eq/=; try done;
      (apply table_ok_alter; [|done]); intros; first [by apply exited_ok | by apply status_ok].
  - unfold deploy_wasm. destruct (t0 !! id) as [d|] eqn:Ed; [|done].
    destruct (qd_status d) eqn:Es; try done. apply table_ok_insert; [|done].
    by apply (table_ok_lookup id t0 d Ht) in Ed as (? & ? & ?).
  - apply table_ok_alter; [|done]. by intros d (? & ? & ?).
  - apply table_ok_alter; [|done]. intros. by apply exited_ok.
Qed.

(** In every table the manager can reach, under any environment at every step, each
    device is stored under its own id, a stopped device has no process, and a
    gateway endpoint is always an address with one of the two TLS ports. *)
Theorem manager_table_invariant (t : gmap string QemuDevice) : rtc mstep ∅ t -> table_ok t.
Proof.
  intros Hr. assert (forall t0 t1, rtc mstep t0 t1 -> table_ok t0 -> table_ok t1) as P.
  { intros t0 t1. induction 1 as [|x y z Hxy _ IH]; [done|]. intros Hx. apply IH. by eapply mstep_ok. }
  eapply P; [exact Hr|]. by apply map_Forall_empty.
Qed.
(** ** Ports *)

Inductive cstep : gmap string QemuDevice -> gmap string QemuDevice -> Prop :=
| c_create id name arch ty mcu t : cstep t (create_device base_port id name arch ty mcu None t).2.

(** Every device has the port of its place in the order of creation. *)
Definition numbered (f : string -> nat) (t : gmap string QemuDevice) : Prop :=
  (forall id d, t !! id = Some d -> (f id < size t)%nat /\ qd_endpoint d = local_endpoint (base_port + Z.of_nat (f id))) /\
  (forall a b, is_Some (t !! a) -> is_Some (t !! b) -> f a = f b -> a = b).

Lemma cstep_size t t' : cstep t t' -> (size t <= size t')%nat.
Proof.
  intros [id name arch ty mcu t0]. unfold create_device. destruct (t0 !! id) eqn:E; simpl; [done|].
  rewrite map_size_insert_None by done. lia.
Qed.

Lemma cstep_numbered f t t' :
  0 <= base_port -> base_port + Z.of_nat (size t') <= 2 ^ 16 -> cstep t t' -> numbered f t -> exists f', numbered f' t'.
Proof.
  intros Hb Hsz Hstep [Hp Hi]. destruct Hstep as [id name arch ty mcu t]. unfold create_device in *.
  destruct (t !! id) as [d|] eqn:E; [by exists f|]. cbn [snd] in *.
  rewrite map_size_insert_None in Hsz by done.
  exists (fun j => if decide (j = id) then size t else f j). split.
  - intros j d. rewrite map_size_insert_None by done. intros [[<- <-]|[Hne Hj]]%lookup_insert_Some.
    + rewrite decide_True by done. split; [lia|]. simpl. unfold next_port.
      rewrite (Z.mod_small (Z.of_nat (size t))) by lia. by rewrite Z.mod_small by lia.
    + rewrite decide_False by done. destruct (Hp j d Hj). split; [lia | done].
  - intros a b Ha Hb'. rewrite !lookup_insert_is_Some in Ha, Hb'.
    assert (forall x, is_Some (t !! x) -> (f x < size t)%nat) as Hlt by (intros x [dx Hx]; by apply (Hp x dx)).
    destruct (decide (a = id)) as [->|Hna], (decide (b = id)) as [->|Hnb]; intros E2; try done.
    + destruct Hb' as [?|[_ Hb']]; [done|]. apply Hlt in Hb'. lia.
    + destruct Ha as [?|[_ Ha]]; [done|]. apply Hlt in Ha. lia.
    + destruct Ha as [?|[_ Ha]], Hb' as [?|[_ Hb']]; try done. by apply Hi.
Qed.

Lemma created_numbered t :
  rtc cstep ∅ t -> 0 <= base_port -> base_port + Z.of_nat (size t) <= 2 ^ 16 -> exists f, numbered f t.
Proof.
  intros Hr Hb. revert t Hr.
  refine (rtc_ind_r (fun t => base_port + Z.of_nat (size t) <= 2 ^ 16 -> exists f, numbered f t) ∅ _ _).
  - exists (fun _ => 0%nat). split; [done|]. intros a b [? Ha]. done.
  - intros y z _ Hyz IH Hsz. pose proof (cstep_size _ _ Hyz). destruct IH as [f Hf]; [lia|].
    by eapply cstep_numbered.
Qed.

(** Devices created without an endpoint get pairwise different ports as long as the
    ports from the base up fit into 16 bits; but every device that [start_device]
    loads from its resource gets the base port itself, so two of them share an
    endpoint. *)
Theorem created_endpoints_distinct (t : gmap string QemuDevice) :
  rtc cstep ∅ t -> 0 <= base_port -> base_port + Z.of_nat (size t) <= 2 ^ 16 ->
  (forall a b da db, a <> b -> t !! a = Some da -> t !! b = Some db -> qd_endpoint da <> qd_endpoint db) /\
  (forall env a b da db, device_from_crd base_port env a = Some da -> device_from_crd base_port env b = Some db ->
    qd_endpoint da = qd_endpoint db).
Proof.
  intros Hr Hb Hsz. split.
  - destruct (created_numbered t Hr Hb Hsz) as (f & Hp & Hi). intros a b da db Hab Ha Hdb E.
    destruct (Hp a da Ha) as [_ Ea], (Hp b db Hdb) as [_ Eb]. rewrite Ea, Eb in E.
    unfold local_endpoint in E. apply (inj (String.append _)) in E. apply (inj pretty) in E.
    apply Hab, Hi; [by rewrite Ha | by rewrite Hdb | lia].
  - intros env a b da db. unfold device_from_crd. destruct (q_crd env a), (q_crd env b); try done.
    by intros [= <-] [= <-].
Qed.
End Manager.

(** ** Witnesses *)

Definition sample_env : qenv :=
  mkQenv true (mkRenodeEnv None None) None "/ws" "/tmp"
    (fun _ => Some (mkCrdDevice (Some "FrdmK64f") None None None)) (fun _ => None) (fun _ => Some "gw-1")
    (fun _ => Some "10.43.0.7") None
    (fun _ => true) (fun _ _ => Ok tt) (fun _ => Ok tt) (fun _ => Ok true) (fun _ => Ok 1) (fun _ _ => Ok tt)
    (fun _ => None) (fun _ => None) (fun _ => None) (fun _ => None).

Definition running_device (id : string) : QemuDevice :=
  mkQemuDevice id id "ARM" "MCU" FrdmK64f QRunning None "127.0.0.1:30000" (Some "10.43.0.7:8443") None.

Definition running_table (id : string) : gmap string QemuDevice := {[ id := running_device id ]}.

Lemma start_device_outcomes_witness :
  let '(r, t', out) := start_device 30000 sample_env "dev-1" None ∅ in
  r = Ok tt /\ exists d, t' !! "dev-1"%string = Some d /\ qd_status d = QRunning /\
    qd_gateway_endpoint d = Some "10.43.0.7:8443"%string /\ out = launch_effects sample_env "dev-1" d.
Proof.
  pose proof (start_device_outcomes 30000 sample_env "dev-1" None ∅ eq_refl) as Hs.
  destruct (start_device 30000 sample_env "dev-1" None ∅) as [[r t'] out]. destruct Hs as [_ Hs].
  destruct Hs as (d & Hd & _ & Hr & Hg & Hout).
  assert (r = Ok tt) as -> by (apply Hr; eexists; split_and!; [by vm_compute|reflexivity..]).
  destruct Hout as (H1 & _ & H2). split; [done|]. exists d. split_and!; [exact Hd|exact H1|exact Hg|exact H2].
Defined.

Lemma refused_start_forgets_gateway_witness :
  exists t' d', start_device 30000 sample_env "dev-1" None (running_table "dev-1") = (Err AlreadyRunning, t', []) /\
    t' !! "dev-1"%string = Some d' /\ qd_status d' = QRunning /\ qd_gateway_endpoint d' = None /\
    qd_wasm_runtime d' = None /\ (stop_device sample_env "dev-1" t').2 = [DockerRemove (renode_container_name "dev-1")].
Proof.
  by apply (refused_start_forgets_gateway 30000 sample_env "dev-1" None (running_table "dev-1") (running_device "dev-1")
    (mkCrdDevice (Some "FrdmK64f") None None None)).
Defined.

Definition first_id : string := "fleet-device-001-a".
Definition second_id : string := "fleet-device-001-b".

Lemma containers_shared_by_prefix_witness :
  let '(r, t', out) := start_device 30000 sample_env second_id None (running_table first_id) in
  r = Ok tt /\ DockerRemove (renode_container_name first_id) ∈ out /\ t' !! first_id = Some (running_device first_id).
Proof.
  destruct (start_device 30000 sample_env second_id None (running_table first_id)) as [[r t'] out] eqn:E.
  assert (r = Ok tt) as -> by (change r with ((r, t', out).1.1); rewrite <- E; vm_compute; reflexivity).
  split; [done|].
  by apply (containers_shared_by_prefix 30000 sample_env first_id second_id None (running_table first_id) t'
    (running_device first_id) out).
Defined.

Lemma manager_table_invariant_witness :
  table_ok (start_device 30000 sample_env "dev-1" None ∅).1.2.
Proof. apply (manager_table_invariant 30000). eapply rtc_once, m_start. Defined.

Lemma created_endpoints_distinct_witness :
  let t1 := (create_device 30000 "a" "a" "ARM" "MCU" FrdmK64f None ∅).2 in
  let t2 := (create_device 30000 "b" "b" "ARM" "MCU" FrdmK64f None t1).2 in
  forall a b da db, a <> b -> t2 !! a = Some da -> t2 !! b = Some db -> qd_endpoint da <> qd_endpoint db.
Proof.
  intros t1 t2. apply (created_endpoints_distinct 30000 t2).
  - eapply rtc_l; [apply c_create|]. eapply rtc_once, c_create.
  - lia.
  - vm_compute. congruence.
Defined.
