(* ===== verification/RenodeCli.v ===== *)
(** * The emulator manager from the command line:
    [crates/wasmbed-qemu-manager/src/main.rs], with the Docker and monitor
    helpers of its [lib.rs]

    Every command but [daemon] makes a manager of its own, with an empty
    table, runs one operation and ends. The helpers that keep one Renode
    container for all devices and talk to its monitor are not called by the
    manager any more; they are modelled as they stand. *)

From stdpp Require Import pretty.
From Stdlib Require Import Strings.Ascii.
From S2P Require Import Prelude.
From S2P Require Import RustStd.
From S2P Require Import Text.
From S2P Require Import Externals.
From S2P Require Import Base64.
From S2P Require Import Renode.
From S2P Require Import RenodeManager.
Local Open Scope Z_scope.

(** ** Commands *)

Inductive Commands :=
| Create (id name architecture device_type mcu_type : string)
| Start (id : string)
| Stop (id : string)
| Deploy (device_id wasm_file : string) (memory_limit execution_timeout : Z)
| ListDevices
| Status (id : string).

(** [default_value] of [--mcu-type], [--memory-limit], [--execution-timeout] *)
Definition default_mcu : string := "Mps2An385".
Definition default_memory_limit : Z := 128.
Definition default_execution_timeout : Z := 30.

Definition parse_mcu (mcu_type : string) : McuType :=
  if String.eqb mcu_type "RenodeArduinoNano33Ble" then RenodeArduinoNano33Ble
  else if String.eqb mcu_type "RenodeStm32F4Discovery" then RenodeStm32F4Discovery
  else RenodeArduinoNano33Ble.

(** [RenodeManager::new] *)
Definition RenodeManager_new : gmap string QemuDevice := ∅.
Definition CLI_BASE_PORT : Z := 30000.

Inductive cli_error := Manager (e : manager_error) | WasmFile (path : string).
Inductive cli_output :=
| Created (d : QemuDevice) | Started (id : string) | StoppedDevice (id : string) | Deployed (id : string)
| Devices (l : list QemuDevice) | DeviceStatus (d : QemuDevice) | NotFound (id : string).

Section Cli.
Context {H : Sha256}.
Variable env : qenv.
Variable files : string -> option (list byte).

(** [main]: what is printed, and what is done outside. *)
Definition cli_main (c : Commands) : result cli_error cli_output * list qeffect :=
  let t := RenodeManager_new in
  match c with
  | Create id name architecture device_type mcu_type =>
      match create_device CLI_BASE_PORT id name architecture device_type (parse_mcu mcu_type) None t with
      | (Ok d, _) => (Ok (Created d), [])
      | (Err e, _) => (Err (Manager e), [])
      end
  | Start id =>
      match start_device CLI_BASE_PORT env id None t with
      | (Ok _, _, out) => (Ok (Started id), out)
      | (Err e, _, out) => (Err (Manager e), out)
      end
  | Stop id =>
      match stop_device env id t with
      | (Ok _, _, out) => (Ok (StoppedDevice id), out)
      | (Err e, _, out) => (Err (Manager e), out)
      end
  | Deploy device_id wasm_file memory_limit execution_timeout =>
      match files wasm_file with
      | None => (Err (WasmFile wasm_file), [])
      | Some wasm =>
          let config := mkWasmConfig memory_limit execution_timeout ["print_message"; "get_timestamp"]%string in
          match deploy_wasm device_id wasm config t with
          | (Ok _, _) => (Ok (Deployed device_id), [])
          | (Err e, _) => (Err (Manager e), [])
          end
      end
  | ListDevices => (Ok (Devices (list_devices t)), [])
  | Status id =>
      match qemu_get_device id t with
      | Some d => (Ok (DeviceStatus d), [])
      | None => (Ok (NotFound id), [])
      end
  end.

(** A terminal session: one process per command. *)
Definition session (cs : list Commands) : list (result cli_error cli_output * list qeffect) := cli_main <$> cs.
End Cli.

(** ** The shared Renode container *)

Definition RENODE_MONITOR_PORT : Z := 9999.

Section Docker.
(** [docker] with arguments: [None] when it cannot be run, else success,
    output and errors. *)
Variable docker : list string -> option (bool * string * string).

(** [Some true] when the interface exists *)
Definition host_tap_exists (tap : string) : option bool :=
  let* r := docker ["run"; "--rm"; "--net=host"; "--entrypoint"; "sh"; RENODE_IMAGE; "-c"; "test -e /sys/class/net/" ++ tap]%string in
  Some r.1.1.

Definition ps_args : list string :=
  ["ps"; "-a"; "--filter"; "name=" ++ WASMBED_RENODE_CONTAINER_NAME; "--format"; "{{.Names}} {{.Status}}"]%string.
Definition run_args : list string :=
  ["run"; "-dt"; "--restart=unless-stopped"; "--net=host"; "--name"; WASMBED_RENODE_CONTAINER_NAME; "-v";
   WASMBED_FIRMWARE_VOLUME ++ ":/firmware:ro"; RENODE_IMAGE; "renode"; "-P"; pretty RENODE_MONITOR_PORT; "--plain"]%string.

Definition reported_running (out : string) : bool :=
  str_contains out WASMBED_RENODE_CONTAINER_NAME && (str_contains out "Up" || str_contains out "running").

(** The commands that are run, and the outcome. *)
Definition ensure_renode_container_running : result string unit * list (list string) :=
  match docker ps_args with
  | None => (Err "docker"%string, [ps_args])
  | Some (_, out, _) =>
      if reported_running out then (Ok tt, [ps_args])
      else
        let ran := [ps_args; ["rm"; "-f"; WASMBED_RENODE_CONTAINER_NAME]; ["volume"; "create"; WASMBED_FIRMWARE_VOLUME];
                    run_args]%string in
        match docker (run_args) with
        | None => (Err "docker"%string, ran)
        | Some (true, _, _) => (Ok tt, ran)
        | Some (false, _, _) => (Err "Failed to start Renode container"%string, ran)
        end
  end.

Definition copy_args (device_id parent firmware_filename : string) : list string :=
  ["run"; "--rm"; "-v"; WASMBED_FIRMWARE_VOLUME ++ ":/firmware"; "-v"; parent ++ ":/source:ro"; "alpine:latest"; "sh"; "-c";
   "mkdir -p /firmware/" ++ device_id ++ " && cp /source/" ++ firmware_filename ++ " /firmware/" ++ device_id ++ "/" ++
   firmware_filename]%string.

(** [parent] is the directory of the firmware file, if it has one. *)
Definition copy_firmware_to_shared_volume (device_id : string) (parent : option string) (firmware_filename : string) :
    result string unit :=
  match docker (copy_args device_id (default "." parent) firmware_filename) with
  | None => Err "docker"%string
  | Some (true, _, _) => Ok tt
  | Some (false, _, stderr) => Err ("Failed to copy firmware to shared volume: " ++ stderr)%string
  end.
End Docker.

(** ** Monitor commands *)

Definition keep_line (l : string) : bool := negb (String.eqb l "") && negb (starts_with "#" l).

(** What is sent: the trimmed lines that are neither empty nor comments. *)
Definition monitor_lines (commands : string) : list string := List.filter keep_line (trim <$> lines commands).
Definition monitor_text (commands : string) : string :=
  foldr (fun l s => (l ++ newline ++ s)%string) EmptyString (monitor_lines commands).

(** One connection attempt: refused, or open with the outcome of the write. *)
Inductive attempt := Refused (e : string) | Open (write : result string unit).

Definition MONITOR_ATTEMPTS : nat := 5.

(** [send_renode_monitor_commands]: the result, what was sent and how many
    connections were tried. *)
Fixpoint monitor_loop (addr commands last : string) (tried : nat) (l : list attempt) : result string (option string) * nat :=
  match l with
  | [] => (Err ("Failed to connect to Renode monitor at " ++ addr ++ ": " ++ last)%string, tried)
  | Open (Ok _) :: _ => (Ok (Some (monitor_text commands)), S tried)
  | Open (Err e) :: _ => (Err e, S tried)
  | Refused e :: l => monitor_loop addr commands e (S tried) l
  end.
Definition send_renode_monitor_commands (addr commands : string) (attempts : nat -> attempt) : result string (option string) * nat :=
  monitor_loop addr commands "connection not attempted" 0 (attempts <$> seq 0 MONITOR_ATTEMPTS).

(** ** Properties *)

(** A session of the command line has no memory. Whatever ran before, the
    list of devices is empty, no device has a status, nothing can be stopped
    or given a module, a device can be created any number of times under one
    identifier, and every device gets the same endpoint and, with the default
    arguments, the Arduino board. *)
Theorem cli_forgets `{Sha256} env files cs i c r :
  cs !! i = Some c -> session env files cs !! i = Some r ->
  match c with
  | ListDevices => r = (Ok (Devices []), [])
  | Status id => r = (Ok (NotFound id), [])
  | Stop id => r = (Err (Manager (DeviceNotFound id)), [])
  | Deploy id file _ _ => r = (Err (WasmFile file), []) \/ r = (Err (Manager (DeviceNotFound id)), [])
  | Create id name architecture device_type mcu =>
      exists d, r = (Ok (Created d), []) /\ qd_id d = id /\ qd_endpoint d = "127.0.0.1:30000"%string /\
        (mcu = default_mcu -> qd_mcu_type d = RenodeArduinoNano33Ble)
  | Start id => q_crd env id = None -> r.1 = Err (Manager (DeviceNotFound id))
  end.
Proof.
  unfold session. rewrite list_lookup_fmap. intros -> [= <-]. destruct c; simpl; try done.
  - eexists. split_and!; [reflexivity|done|done|]. by intros ->.
  - intros Hc. unfold start_device, load_device, device_from_crd. by rewrite Hc.
  - destruct (files wasm_file); simpl; [by right|by left].
Qed.

(** ** The monitor *)

Lemma monitor_lines_read l :
  Forall (fun s => all_chars not_newline s = true) l ->
  let kept := List.filter keep_line (trim <$> l) in
  lines (foldr (fun l s => (l ++ newline ++ s)%string) EmptyString kept) = kept.
Proof.
  induction 1 as [|s l Hs _ IH]; [done|]. cbn [fmap list_fmap List.filter]. destruct (keep_line (trim s)); [|exact IH].
  cbn [foldr]. change (trim s ++ newline ++ ?r)%string with (newline_end (trim s) r).
  rewrite lines_trimmed by done. by f_equal.
Qed.

(** The monitor reads line by line exactly the trimmed commands that are
    neither empty nor comments, in order. *)
Theorem monitor_text_lines commands : lines (monitor_text commands) = monitor_lines commands.
Proof. apply monitor_lines_read, lines_no_newline. Qed.

Lemma monitor_loop_spec addr commands last tried l :
  let '(r, n) := monitor_loop addr commands last tried l in
  (n <= tried + length l)%nat /\
  (r = Ok (Some (monitor_text commands)) <->
   exists refused later, l = (Refused <$> refused) ++ Open (Ok tt) :: later) /\
  (forall o, r = Ok o -> o = Some (monitor_text commands)).
Proof.
  revert last tried. induction l as [|a l IH]; intros last tried; simpl.
  { split_and!; [lia| |done]. split; [done|]. by intros ([|] & later & E). }
  destruct a as [e|[[]|e]].
  - specialize (IH e (S tried)). destruct (monitor_loop addr commands e (S tried) l) as [r n].
    destruct IH as (Hn & Hok & Hsome). split_and!; [lia| |done]. rewrite Hok. split.
    + intros (refused & later & ->). by exists (e :: refused), later.
    + intros ([|e' refused] & later & E); [done|]. injection E as -> ->. eauto.
  - split_and!; [lia| |by intros o [= <-]]. split; [|done]. intros _. by exists [], l.
  - split_and!; [lia| |done]. split; [done|]. by intros ([|] & later & E).
Qed.

Lemma refused_then_open (f : nat -> attempt) k n :
  (exists refused later, f <$> seq k n = (Refused <$> refused) ++ Open (Ok tt) :: later) <->
  exists i, (i < n)%nat /\ f (k + i)%nat = Open (Ok tt) /\ forall j, (j < i)%nat -> exists e, f (k + j)%nat = Refused e.
Proof.
  revert k. induction n as [|n IH]; intros k.
  { split; [by intros ([|] & ? & ?)|intros (i & ? & _); lia]. }
  cbn [seq fmap list_fmap]. split.
  - intros ([|e refused] & later & E); injection E as E1 E2.
    + exists 0%nat. rewrite Nat.add_0_r. split_and!; [lia|done|lia].
    + destruct (proj1 (IH (S k))) as (i & Hi & Ho & Hr); [by exists refused, later|].
      exists (S i). rewrite Nat.add_succ_r. split_and!; [lia|done|].
      intros [|j] Hj; [rewrite Nat.add_0_r; by exists e|]. rewrite Nat.add_succ_r. apply Hr. lia.
  - intros ([|i] & Hi & Ho & Hr).
    + rewrite Nat.add_0_r in Ho. exists [], (f <$> seq (S k) n). by rewrite Ho.
    + destruct (Hr 0%nat) as [e He]; [lia|]. rewrite Nat.add_0_r in He.
      destruct (proj2 (IH (S k))) as (refused & later & E).
      { exists i. rewrite Nat.add_succ_r in Ho. split_and!; [lia|done|]. intros j Hj.
        destruct (Hr (S j)) as [e' He']; [lia|]. rewrite Nat.add_succ_r in He'. by exists e'. }
      exists (e :: refused), later. rewrite He. simpl. f_equal. exact E.
Qed.

(** Commands reach the monitor when one of five connection attempts is
    accepted, all earlier ones are refused and the write succeeds; no sixth
    attempt is made, and what is sent, read line by line, is the trimmed
    commands of the text without empty lines and comments. *)
Theorem monitor_delivers addr commands attempts :
  let '(r, n) := send_renode_monitor_commands addr commands attempts in
  (n <= 5)%nat /\
  (is_ok r = true <-> exists i, (i < 5)%nat /\ attempts i = Open (Ok tt) /\
     forall j, (j < i)%nat -> exists e, attempts j = Refused e) /\
  (forall o, r = Ok o -> exists text, o = Some text /\ lines text = monitor_lines commands).
Proof.
  unfold send_renode_monitor_commands.
  pose proof (monitor_loop_spec addr commands "connection not attempted" 0 (attempts <$> seq 0 MONITOR_ATTEMPTS)) as H.
  destruct (monitor_loop _ _ _ _ _) as [r n]. destruct H as (Hn & Hok & Hsome).
  rewrite length_fmap, length_seq in Hn. split_and!; [exact Hn| |].
  - transitivity (r = Ok (Some (monitor_text commands))).
    { destruct r as [o|]; [|done]. simpl. split; [intros _|done]. f_equal. by apply Hsome. }
    rewrite Hok. apply (refused_then_open attempts 0).
  - intros o Ho. exists (monitor_text commands). split; [by apply Hsome|apply monitor_text_lines].
Qed.

(** The check for the shared container is satisfied by any container of one
    device: its name starts with the name of the shared one, so when only
    that one is listed as up nothing is started. *)
Lemma str_contains_strip p s s' : strip_prefix p s = Some s' -> str_contains s p = true.
Proof. intros H. destruct s; simpl; by rewrite H. Qed.
Lemma str_contains_app_r s t p : str_contains t p = true -> str_contains (s ++ t)%string p = true.
Proof.
  intros H. induction s as [|a s IH]; [done|]. rewrite append_cons. simpl. rewrite IH. by destruct (strip_prefix _ _).
Qed.

Theorem device_container_taken_for_shared docker device_id :
  docker ps_args = Some (true, renode_container_name device_id ++ " Up 2 minutes", "")%string ->
  ensure_renode_container_running docker = (Ok tt, [ps_args]).
Proof.
  intros H. unfold ensure_renode_container_running. rewrite H.
  assert (reported_running (renode_container_name device_id ++ " Up 2 minutes")%string = true) as ->; [|done].
  unfold reported_running. apply andb_true_iff. split.
  - unfold renode_container_name. rewrite <- string_app_assoc. eapply str_contains_strip, strip_prefix_app.
  - apply orb_true_iff. left. by apply str_contains_app_r.
Qed.

(** ** Concrete runs *)

Definition quiet_env : qenv :=
  mkQenv true (mkRenodeEnv None None) None "" "" (fun _ => None) (fun _ => None) (fun _ => None) (fun _ => None) None
    (fun _ => false) (fun _ _ => Ok tt) (fun _ => Ok tt) (fun _ => Ok true) (fun _ => Ok 1) (fun _ _ => Ok tt)
    (fun _ => None) (fun _ => None) (fun _ => None) (fun _ => None).

Definition demo_session : list Commands := [Create "d" "n" "ARM" "MCU" default_mcu; ListDevices; Stop "d"].

Lemma cli_forgets_witness :
  session (H := toy_sha256) quiet_env (fun _ => None) demo_session !! 1%nat = Some (Ok (Devices []), []) /\
  session (H := toy_sha256) quiet_env (fun _ => None) demo_session !! 2%nat =
    Some (Err (Manager (DeviceNotFound "d")), []).
Proof.
  split.
  - destruct (session (H := toy_sha256) quiet_env (fun _ => None) demo_session !! 1%nat) as [r|] eqn:E; [|discriminate E].
    f_equal. exact (cli_forgets quiet_env (fun _ => None) demo_session 1 ListDevices r eq_refl E).
  - destruct (session (H := toy_sha256) quiet_env (fun _ => None) demo_session !! 2%nat) as [r|] eqn:E; [|discriminate E].
    f_equal. exact (cli_forgets quiet_env (fun _ => None) demo_session 2 (Stop "d") r eq_refl E).
Defined.

Example monitor_filters :
  monitor_lines ("  mach create " ++ newline ++ "# comment" ++ newline ++ newline ++ "start") =
    ["mach create"; "start"]%string.
Proof. vm_compute. reflexivity. Qed.
