(* ===== verification/Dashboard.v ===== *)
(** * The dashboard server's view of the cluster: [crates/wasmbed-api-server]

    JSON values, the managers that turn the output of kubectl into devices,
    applications and gateways ([device_management.rs],
    [application_management.rs], [gateway_management.rs], [monitoring.rs]), and
    the views and statistics of [main.rs] over them. Parsing of JSON and of
    RFC 3339 times are parameters; [None] is a panic where a result is an
    [option]. *)

From S2P Require Import Prelude.
From S2P Require Import RustStd.
From Stdlib Require Import QArith.
Local Open Scope Z_scope.

(** ** JSON values *)

(** [serde_json::Value]; an object is a BTreeMap, its keys ascend. Numbers that
    are no integer keep their text. *)
Inductive value :=
| VNull | VBool (b : bool) | VNum (n : Z) | VFloat (text : string) | VStr (s : string)
| VArr (l : list value) | VObj (fields : list (string * value)).

(** [Map::get], and the index operator of [Map] when it does not panic. *)
Fixpoint obj_get (k : string) (fs : list (string * value)) : option value :=
  match fs with
  | [] => None
  | (k', v) :: fs => if String.eqb k k' then Some v else obj_get k fs
  end.

Definition as_object (v : value) : option (list (string * value)) := match v with VObj fs => Some fs | _ => None end.
Definition as_array (v : value) : option (list value) := match v with VArr l => Some l | _ => None end.
Definition as_str (v : value) : option string := match v with VStr s => Some s | _ => None end.
Definition as_bool (v : value) : option bool := match v with VBool b => Some b | _ => None end.
Definition as_u64 (v : value) : option Z :=
  match v with VNum n => if (0 <=? n) && (n <=? u64_max) then Some n else None | _ => None end.
Definition is_null (v : value) : bool := match v with VNull => true | _ => false end.

(** [Value::get] *)
Definition vget (k : string) (v : value) : option value :=
  match v with VObj fs => obj_get k fs | _ => None end.

(** [v["a"]["b"]]: a missing key reads as null. *)
Definition idx (v : value) (path : list string) : value :=
  foldl (fun v k => default VNull (vget k v)) v path.

Definition non_empty (s : string) : bool := negb (String.eqb s "").

(** [filter_map(|v| v.as_str())] *)
Definition strs (l : list value) : list string := omap as_str l.

(** ** Commands *)

(** The outcome of a command: it could not be run, or it ended. *)
Inductive cmd := CmdErr (e : string) | CmdDone (success : bool) (stdout stderr : string).

(** [serde_json::from_str] and [DateTime::parse_from_rfc3339(..).timestamp()]. *)
Class Parsers := { from_str : string -> option value; parse_rfc3339 : string -> option Z }.

Section Managers.
Context `{P : Parsers}.

(** The common start of the three [get_all]: the items of the answer. *)
Definition kubectl_items (output : cmd) : result string (list value) :=
  match output with
  | CmdErr e => Err e
  | CmdDone success stdout stderr =>
      if negb success then
        if str_contains stderr "No resources found" then Ok [] else Err ("kubectl failed: " ++ stderr)%string
      else
        match from_str stdout with
        | None => Err "invalid JSON"
        | Some k8s_response => Ok (default [] (as_array (idx k8s_response ["items"])))
        end
  end.

(** The loop over the items: an item without metadata is skipped, a panic in
    one ends them all. *)
Fixpoint collect_items {A} (f : value -> option (option A)) (items : list value) : option (list A) :=
  match items with
  | [] => Some []
  | item :: items =>
      let* r := f item in
      let* rest := collect_items f items in
      Some (match r with Some a => a :: rest | None => rest end)
  end.

Definition with_metadata {A} (item : value) (f : list (string * value) -> option A) : option (option A) :=
  match as_object (idx item ["metadata"]) with
  | None => Some None
  | Some metadata => let* a := f metadata in Some (Some a)
  end.

(** *** Devices *)

Record DeviceInfo := mkDeviceInfo {
  di_device_id : string;
  di_device_type : string;
  di_architecture : string;
  di_status : string;
  di_last_heartbeat : option Z;
  di_gateway_id : option string;
  di_mcu_type : option string;
  di_public_key : option string;
}.

Definition filter_str (p : string -> bool) (o : option string) : option string :=
  match o with Some s => if p s then Some s else None | None => None end.

Definition gateway_id_of (item : value) : option string :=
  let* status := vget "status" item in
  let* gateway := vget "gateway" status in
  let* name := vget "name" gateway in
  filter_str non_empty (as_str name).

Definition public_key_of (item : value) : option string :=
  let* s := match as_str (idx item ["spec"; "publicKey"]) with
            | Some s => Some s
            | None => as_str (idx item ["spec"; "public_key"])
            end in
  if String.eqb (trim s) "" then None else Some (trim s).

Definition device_of_item (now : Z) (item : value) : option (option DeviceInfo) :=
  with_metadata item (fun metadata =>
    let* name := obj_get "name" metadata in
    Some (mkDeviceInfo (default "unknown" (as_str name))
      (default "MCU" (as_str (idx item ["spec"; "deviceType"])))
      (default "ARM_CORTEX_M" (as_str (idx item ["spec"; "architecture"])))
      (match vget "status" item with
       | Some status_obj => default "Pending" (as_str (idx status_obj ["phase"]))
       | None => "Pending"
       end)
      (Some now) (gateway_id_of item)
      (Some (default "Mps2An385" (as_str (idx item ["spec"; "mcuType"]))))
      (public_key_of item))).

(** [DeviceManager::get_all_devices]: [None] is a panic. *)
Definition get_all_devices (now : Z) (output : cmd) : option (result string (list DeviceInfo)) :=
  match kubectl_items output with
  | Err e => Some (Err e)
  | Ok items => let* devices := collect_items (device_of_item now) items in Some (Ok devices)
  end.

(** [iter().find]: the first match. *)
Definition find_first {A} (p : A -> bool) (l : list A) : option A := List.find p l.

Definition find_in {A} (p : A -> bool) (r : option (result string (list A))) : option (result string (option A)) :=
  match r with
  | None => None
  | Some (Err e) => Some (Err e)
  | Some (Ok l) => Some (Ok (find_first p l))
  end.

Definition get_device (now : Z) (output : cmd) (device_id : string) : option (result string (option DeviceInfo)) :=
  find_in (fun d => String.eqb (di_device_id d) device_id) (get_all_devices now output).

(** [enable_pairing] and [disable_pairing] reach no gateway. *)
Definition dm_enable_pairing : result string bool := Ok true.
Definition dm_disable_pairing : result string bool := Ok true.

(** *** Applications *)

Record ApplicationInfo := mkApplicationInfo {
  ai_app_id : string;
  ai_id : option string;
  ai_name : string;
  ai_image : string;
  ai_status : string;
  ai_deployed_devices : list string;
  ai_failed_devices : Z;
  ai_created_at : Z;
  ai_target_devices : option (list string);
  ai_last_updated : option Z;
}.

Definition real_text (s : string) : bool :=
  non_empty s && negb (String.eqb s "null") && negb (String.eqb s "undefined").

Definition deployed_of (item : value) : list string * Z :=
  match as_object (idx item ["status"; "deviceStatuses"]) with
  | Some device_statuses =>
      (device_statuses.*1,
       zlen (filter (fun v => (vget "status" v ≫= as_str) = Some "Failed"%string) (device_statuses.*2)) mod 2 ^ 32)
  | None =>
      match as_array (idx item ["status"; "deployedDevices"]) with
      | Some arr => (strs arr, 0)
      | None => ([], 0)
      end
  end.

Definition targets_of (item : value) (deployed : list string) : option (list string) :=
  let named :=
    let* spec := vget "spec" item in
    let* target_devices_obj := vget "targetDevices" spec in
    let* device_names := vget "deviceNames" target_devices_obj in
    let* arr := as_array device_names in
    match filter (fun s => real_text s = true) (strs arr) with [] => None | l => Some l end in
  match named with
  | Some l => Some l
  | None => match deployed with [] => None | l => Some l end
  end.

(** [UNIX_EPOCH + Duration::from_secs(t as u64)] overflows for a time before
    1970. *)
Definition system_time (t : Z) : option Z := if 0 <=? t then Some t else None.

Definition application_of_item (now : Z) (item : value) : option (option ApplicationInfo) :=
  with_metadata item (fun metadata =>
    let* name := obj_get "name" metadata in
    let app_id := default "unknown" (as_str name) in
    let status := match vget "status" item with
                  | Some status_obj =>
                      if is_null status_obj then "Pending"
                      else default "Pending" (filter_str real_text (as_str (idx status_obj ["phase"])))
                  | None => "Pending"
                  end in
    let '(deployed_devices, failed) := deployed_of item in
    let* created := obj_get "creationTimestamp" metadata in
    let* created_at := match as_str created ≫= parse_rfc3339 with
                       | Some t => system_time t
                       | None => Some now
                       end in
    let* last_updated := match as_str (idx item ["status"; "lastUpdated"]) ≫= parse_rfc3339 with
                         | Some t => system_time t
                         | None => Some created_at
                         end in
    Some (mkApplicationInfo app_id (Some app_id)
      (default app_id (as_str (idx item ["spec"; "name"])))
      (default "unknown:latest" (as_str (idx item ["spec"; "image"])))
      status deployed_devices failed created_at (targets_of item deployed_devices) (Some last_updated))).

Definition get_all_applications (now : Z) (output : cmd) : option (result string (list ApplicationInfo)) :=
  match kubectl_items output with
  | Err e => Some (Err e)
  | Ok items => let* applications := collect_items (application_of_item now) items in Some (Ok applications)
  end.

Definition am_get_application (now : Z) (output : cmd) (app_id : string) :
    option (result string (option ApplicationInfo)) :=
  find_in (fun a => String.eqb (ai_app_id a) app_id) (get_all_applications now output).

(** *** Gateways *)

Record GatewayInfo := mkGatewayInfo {
  gi_gateway_id : string;
  gi_endpoint : string;
  gi_status : string;
  gi_connected_devices : Z;
  gi_enrolled_devices : Z;
}.

Definition gateway_of_item (item : value) : option (option GatewayInfo) :=
  with_metadata item (fun metadata =>
    let* name := obj_get "name" metadata in
    Some (mkGatewayInfo (default "unknown" (as_str name))
      (default "wasmbed-gateway.wasmbed.svc.cluster.local:8080" (as_str (idx item ["spec"; "endpoint"])))
      (match idx item ["status"] with
       | VObj _ => default "Pending" (as_str (idx item ["status"; "phase"]))
       | _ => "Pending"
       end)
      (default 0 (as_u64 (idx item ["status"; "connectedDevices"])) mod 2 ^ 32)
      (default 0 (as_u64 (idx item ["status"; "enrolledDevices"])) mod 2 ^ 32))).

Definition get_all_gateways (output : cmd) : option (result string (list GatewayInfo)) :=
  match kubectl_items output with
  | Err e => Some (Err e)
  | Ok items => let* gateways := collect_items gateway_of_item items in Some (Ok gateways)
  end.

Definition get_gateway (output : cmd) (gateway_id : string) : option (result string (option GatewayInfo)) :=
  find_in (fun g => String.eqb (gi_gateway_id g) gateway_id) (get_all_gateways output).

Definition get_gateway_status (gateway_id : string) : result string string := Ok "active".
End Managers.

(** ** Metrics *)

Record DashMetric := mkDashMetric { dm_name : string; dm_value : Z; dm_timestamp : Z; dm_is_synthetic : bool }.

Definition get_fallback_metrics (t1 t2 t3 : Z) : list DashMetric :=
  [mkDashMetric "cpu_usage" 45 t1 true; mkDashMetric "memory_usage" 60 t2 true; mkDashMetric "disk_usage" 30 t3 true].

(** What the infrastructure service answers: an error, a status and, when the
    body parses, metrics; a field [is_synthetic] that is absent reads as true. *)
Inductive metrics_answer :=
| NoAnswer
| Answer (success : bool) (body : option (list (string * Z * Z * option bool))).

Definition read_metric (m : string * Z * Z * option bool) : DashMetric :=
  let '(name, value, timestamp, is_synthetic) := m in mkDashMetric name value timestamp (default true is_synthetic).

Definition monitoring_get_metrics (endpoint : string) (a : metrics_answer) (t1 t2 t3 : Z) : list DashMetric :=
  if String.eqb endpoint "" then get_fallback_metrics t1 t2 t3 else
  match a with
  | Answer true (Some metrics) => read_metric <$> metrics
  | Answer true None => []
  | Answer false _ | NoAnswer => get_fallback_metrics t1 t2 t3
  end.

Definition monitoring_get_metric (name : string) (metrics : list DashMetric) : option DashMetric :=
  find_first (fun m => String.eqb (dm_name m) name) metrics.

(** ** Views *)

(** A manager's answer under [tokio::time::timeout]. *)
Inductive fetched (A : Type) := Fetched (a : A) | FetchFailed | FetchTimeout.
Arguments Fetched {A} _.
Arguments FetchFailed {A}.
Arguments FetchTimeout {A}.

(** A failed fetch is a 500, a late one a 408. *)
Definition or_status {A B} (f : fetched A) (k : A -> B) : result Z B :=
  match f with Fetched a => Ok (k a) | FetchFailed => Err 500 | FetchTimeout => Err 408 end.

Record DeviceView := mkDeviceView {
  dv_id : string; dv_name : string; dv_type : string; dv_architecture : string; dv_status : string;
  dv_gateway : option string; dv_mcu_type : string; dv_last_heartbeat : option Z; dv_public_key : option string }.

Definition device_view (d : DeviceInfo) : DeviceView :=
  mkDeviceView (di_device_id d) (di_device_id d) (di_device_type d) (di_architecture d) (di_status d)
    (di_gateway_id d) (default "Mps2An385" (di_mcu_type d)) (di_last_heartbeat d) (di_public_key d).

Definition api_devices (f : fetched (list DeviceInfo)) : result Z (list DeviceView) := or_status f (fmap device_view).

Record AppStatistics := mkAppStatistics {
  as_total_devices : Z; as_running_devices : Z; as_failed_devices : Z; as_deployment_progress : Q }.

(** The percentage is exact here, a rounded [f64] in the source. *)
Definition app_statistics (a : ApplicationInfo) : AppStatistics :=
  let targets := match ai_target_devices a with Some v => zlen v | None => 0 end in
  let deployed := zlen (ai_deployed_devices a) in
  mkAppStatistics targets deployed (ai_failed_devices a)
    (match ai_target_devices a with
     | Some ((_ :: _) as v) => ((deployed * 100) # Pos.of_nat (length v))%Q
     | _ => 0%Q
     end).

Record DashAppView := mkDashAppView {
  av_app_id : string; av_name : string; av_image : string; av_status : string;
  av_deployed : list string; av_targets : option (list string); av_created_at : Z; av_last_updated : Z;
  av_statistics : AppStatistics }.

Definition dash_app_view (a : ApplicationInfo) : DashAppView :=
  mkDashAppView (ai_app_id a) (ai_name a) (ai_image a) (ai_status a) (ai_deployed_devices a) (ai_target_devices a)
    (ai_created_at a) (default 0 (ai_last_updated a)) (app_statistics a).

Definition api_applications (f : fetched (list ApplicationInfo)) : result Z (list DashAppView) :=
  or_status f (fmap dash_app_view).

Record GatewayView := mkGatewayView {
  gv_id : string; gv_status : string; gv_endpoint : string; gv_connected : nat; gv_enrolled : nat }.

(** [d.status == phase && d.gateway_id == gateway] *)
Definition on_gateway (phase gateway : string) (d : DeviceInfo) : bool :=
  String.eqb (di_status d) phase && match di_gateway_id d with Some g => String.eqb g gateway | None => false end.

Definition count_if {A} (p : A -> bool) (l : list A) : nat := length (List.filter p l).

Definition gateway_view (devices : list DeviceInfo) (g : GatewayInfo) : GatewayView :=
  mkGatewayView (gi_gateway_id g) (gi_status g) (gi_endpoint g)
    (count_if (on_gateway "Connected" (gi_gateway_id g)) devices)
    (count_if (on_gateway "Enrolled" (gi_gateway_id g)) devices).

(** Devices that could not be fetched count as none. *)
Definition api_gateways (f : fetched (list GatewayInfo)) (d : fetched (list DeviceInfo)) : result Z (list GatewayView) :=
  or_status f (fmap (gateway_view (match d with Fetched devices => devices | _ => [] end))).

(** ** System status *)

Record DeviceStats := mkDeviceStats { dst_total : Z; dst_connected : Z; dst_enrolled : Z; dst_unreachable : Z }.
Record ApplicationStats := mkApplicationStats { ast_total : Z; ast_running : Z; ast_pending : Z; ast_failed : Z }.
Record GatewayStats := mkGatewayStats { gst_total : Z; gst_active : Z; gst_inactive : Z }.
Record InfrastructureStats := mkInfrastructureStats {
  ist_ca : string; ist_secret_store : string; ist_monitoring : string; ist_logging : string }.

Record SystemStatus := mkSystemStatus {
  ss_devices : DeviceStats;
  ss_applications : ApplicationStats;
  ss_gateways : GatewayStats;
  ss_infrastructure : InfrastructureStats;
  ss_uptime : Z;
  ss_last_update : Z;
}.

(** [Dashboard::new] *)
Definition SystemStatus_new (now : Z) : SystemStatus :=
  mkSystemStatus (mkDeviceStats 0 0 0 0) (mkApplicationStats 0 0 0 0) (mkGatewayStats 0 0 0)
    (mkInfrastructureStats "unknown" "unknown" "unknown" "unknown") 0 now.

(** [.count() as u32] *)
Definition count32 {A} (p : A -> bool) (l : list A) : Z := Z.of_nat (count_if p l) mod 2 ^ 32.

Definition device_stats (devices : list DeviceInfo) : DeviceStats :=
  let by_phase p := count32 (fun d => String.eqb (di_status d) p) devices in
  mkDeviceStats (zlen devices mod 2 ^ 32) (by_phase "Connected") (by_phase "Enrolled") (by_phase "Unreachable").

Definition application_stats (applications : list ApplicationInfo) : ApplicationStats :=
  mkApplicationStats (zlen applications mod 2 ^ 32)
    (count32 (fun a => String.eqb (ai_status a) "Running") applications)
    (count32 (fun a => String.eqb (ai_status a) "Creating" || String.eqb (ai_status a) "Deploying") applications)
    (count32 (fun a => String.eqb (ai_status a) "Failed") applications).

Definition gateway_stats (gateways : list GatewayInfo) : GatewayStats :=
  mkGatewayStats (zlen gateways mod 2 ^ 32)
    (count32 (fun g => String.eqb (gi_status g) "Running") gateways)
    (count32 (fun g => String.eqb (gi_status g) "Stopped" || String.eqb (gi_status g) "Failed") gateways).

Definition refreshed {A B} (f : fetched A) (stats : A -> B) (old : B) : B :=
  match f with Fetched a => stats a | _ => old end.

Definition check_ca_status (output : cmd) : result string string :=
  match output with
  | CmdErr e => Err e
  | CmdDone true out _ => Ok (if str_contains out "ca-" || str_contains out "tls-" then "healthy" else "not_configured")
  | CmdDone false _ _ => Ok "not_available"
  end.

Definition check_secret_store_status (output : cmd) : result string string :=
  match output with
  | CmdErr e => Err e
  | CmdDone true out _ => Ok (if (1 <? length (lines out))%nat then "healthy" else "empty")
  | CmdDone false _ _ => Ok "not_available"
  end.

Definition check_monitoring_status (output : cmd) : result string string :=
  match output with
  | CmdErr e => Err e
  | CmdDone true out _ =>
      Ok (if str_contains out "Running" then "healthy"
          else if str_contains out "Pending" then "starting" else "not_running")
  | CmdDone false _ _ => Ok "not_available"
  end.

(** The request to the logs endpoint: [None] when it could not be made. *)
Definition check_logging_status (answer : option bool) : result string string :=
  Ok (match answer with Some true => "healthy" | Some false => "error" | None => "not_available" end).

Definition or_error (r : result string string) : string := match r with Ok s => s | Err _ => "error" end.

(** What one round of [update_system_status] observes. *)
Record observation := mkObservation {
  ob_devices : fetched (list DeviceInfo);
  ob_applications : fetched (list ApplicationInfo);
  ob_gateways : fetched (list GatewayInfo);
  ob_tls_secrets : cmd;
  ob_secrets : cmd;
  ob_gateway_pods : cmd;
  ob_logs : option bool;
  ob_now : Z;
}.

Definition update_infrastructure_status (o : observation) : InfrastructureStats :=
  mkInfrastructureStats (or_error (check_ca_status (ob_tls_secrets o)))
    (or_error (check_secret_store_status (ob_secrets o)))
    (or_error (check_monitoring_status (ob_gateway_pods o)))
    (or_error (check_logging_status (ob_logs o))).

(** One round; the uptime is the time since 1970. *)
Definition update_system_status (o : observation) (s : SystemStatus) : SystemStatus :=
  mkSystemStatus (refreshed (ob_devices o) device_stats (ss_devices s))
    (refreshed (ob_applications o) application_stats (ss_applications s))
    (refreshed (ob_gateways o) gateway_stats (ss_gateways s))
    (update_infrastructure_status o) (ob_now o) (ob_now o).
