(* ===== verification/DashboardCompile.v ===== *)
(** * The compile service of the dashboard: [compile_code] of
    [wasmbed-api-server/src/main.rs]

    A request is compiled in a directory whose name is the current second.
    The requests are handled concurrently, so the handler is a program of
    seven steps and [compile_step] lets one request make one step on the
    shared directories. cargo is a parameter: what it makes of a source
    file. *)

From S2P Require Import Prelude.
From S2P Require Import RustStd.
From S2P Require Import Externals.
From S2P Require Import Base64.
From S2P Require Import Renode.
From S2P Require Import Dashboard.
Local Open Scope Z_scope.

(** ** The project that is built *)

Definition nl : string := newline.

Definition cargo_toml : string :=
  ("[package]" ++ nl ++ "name = " ++ quoted "wasmbed-app" ++ nl ++ "version = " ++ quoted "0.1.0" ++ nl ++
   "edition = " ++ quoted "2021" ++ nl ++ nl ++ "[lib]" ++ nl ++ "crate-type = [" ++ quoted "cdylib" ++ "]" ++ nl ++
   nl ++ "[dependencies]" ++ nl ++ "wasm-bindgen = " ++ quoted "0.2" ++ nl ++
   "console_error_panic_hook = " ++ quoted "0.1" ++ nl ++ "wee_alloc = " ++ quoted "0.4" ++ nl ++ nl ++
   "[profile.release]" ++ nl ++ "opt-level = " ++ quoted "s" ++ nl ++ "lto = true" ++ nl)%string.

Definition lib_head : string :=
  ("use wasm_bindgen::prelude::*;" ++ nl ++ nl ++
   "// Use `wee_alloc` as the global allocator." ++ nl ++
   "#[global_allocator]" ++ nl ++
   "static ALLOC: wee_alloc::WeeAlloc = wee_alloc::WeeAlloc::INIT;" ++ nl ++ nl ++
   "// Called when the wasm module is instantiated" ++ nl ++
   "#[wasm_bindgen(start)]" ++ nl ++
   "pub fn wasm_main() {" ++ nl ++
   "    // This provides better error messages in debug mode." ++ nl ++
   "    // It's disabled in release mode so it doesn't bloat up the file size." ++ nl ++
   "    console_error_panic_hook::set_once();" ++ nl ++
   "    " ++ nl ++
   "    // Call user main function" ++ nl ++
   "    main();" ++ nl ++
   "}" ++ nl ++ nl ++
   "// User code:" ++ nl)%string.

Definition lib_tail : string :=
  (nl ++ nl ++ "#[wasm_bindgen]" ++ nl ++ "extern {" ++ nl ++ "    fn alert(s: &str);" ++ nl ++ "}" ++ nl ++ nl ++
   "#[wasm_bindgen]" ++ nl ++ "pub fn greet() {" ++ nl ++
   "    alert(" ++ quoted "Hello from Wasmbed!" ++ ");" ++ nl ++ "}" ++ nl)%string.

(** The source file for the code of a request. *)
Definition lib_rs (code : string) : string := (lib_head ++ code ++ lib_tail)%string.

(** ** The handler *)

(** A build directory; the lock file is a constant. *)
Record build_dir := mkBuildDir {
  b_toml : bool;
  b_src : bool;
  b_lib : option string;
  b_lock : bool;
  b_wasm : option (list byte);
}.
Definition empty_dir : build_dir := mkBuildDir false false None false None.

(** [cargo build ... --offline] in a directory with this [lib.rs]. *)
Inductive cargo_result := CargoMissing (e : string) | CargoFailed (stderr : string) | CargoBuilt (wasm : list byte).
Class Cargo := cargo_build : option string -> cargo_result.

Definition failure (e : string) : value := VObj [("error", VStr e); ("success", VBool false)].

(** Where a request is: before each of its system calls, or answered. *)
Inductive pc := MkDir | WriteToml | MkSrc | WriteLib | WriteLock | RunCargo | ReadWasm | Answered (v : value).

(** [rq_secs] is the second read when the directory is named. *)
Record request := mkRequest { rq_code : string; rq_secs : Z; rq_pc : pc }.

Definition request_code (body : value) : string := default EmptyString (vget "code" body ≫= as_str).

(** The handler up to its first system call. *)
Definition accept_request (now : Z) (body : value) : request :=
  let code := request_code body in
  mkRequest code now (if String.eqb code "" then Answered (failure "No code provided") else MkDir).

(** The directories by their second, and the requests. *)
Record service := mkService { s_dirs : gmap Z build_dir; s_requests : list request }.

(** What the file system says to a call. *)
Inductive io := IoOk | IoErr (e : string).

Section Handler.
Context `{C : Cargo} `{B : Base64}.

Definition success (wasm : list byte) : value :=
  VObj [("message", VStr "Code compiled successfully to WASM"); ("size", VNum (zlen wasm));
        ("success", VBool true); ("wasmBytes", VStr (std_encode wasm))].

(** One system call of a request: where it is next and its directory, which
    [remove_dir_all] removes. *)
Definition request_step (r : request) (i : io) (dir : option build_dir) : option (pc * option build_dir) :=
  let d := default empty_dir dir in
  match rq_pc r, i with
  | MkDir, IoOk => Some (WriteToml, Some d)
  | MkDir, IoErr e => Some (Answered (failure ("Failed to create temp directory: " ++ e)), dir)
  | WriteToml, IoOk =>
      match dir with
      | Some d => Some (MkSrc, Some (mkBuildDir true (b_src d) (b_lib d) (b_lock d) (b_wasm d)))
      | None => None
      end
  | WriteToml, IoErr e => Some (Answered (failure ("Failed to write Cargo.toml: " ++ e)), dir)
  | MkSrc, IoOk => Some (WriteLib, Some (mkBuildDir (b_toml d) true (b_lib d) (b_lock d) (b_wasm d)))
  | MkSrc, IoErr e => Some (Answered (failure ("Failed to create src directory: " ++ e)), dir)
  | WriteLib, IoOk =>
      match dir with
      | Some d => Some (WriteLock, Some (mkBuildDir (b_toml d) (b_src d) (Some (lib_rs (rq_code r))) (b_lock d) (b_wasm d)))
      | None => None
      end
  | WriteLib, IoErr e => Some (Answered (failure ("Failed to write lib.rs: " ++ e)), dir)
  | WriteLock, IoOk =>
      match dir with
      | Some d => Some (RunCargo, Some (mkBuildDir (b_toml d) (b_src d) (b_lib d) true (b_wasm d)))
      | None => None
      end
  | WriteLock, IoErr e => Some (Answered (failure ("Failed to write Cargo.lock: " ++ e)), dir)
  | RunCargo, i =>
      match dir with
      | Some d =>
          match cargo_build (b_lib d) with
          | CargoMissing e => Some (Answered (failure ("Failed to run cargo: " ++ e)), dir)
          | CargoFailed stderr => Some (Answered (failure ("Compilation failed: " ++ stderr)), dir)
          | CargoBuilt wasm =>
              Some (ReadWasm, Some (mkBuildDir (b_toml d) (b_src d) (b_lib d) (b_lock d) (Some wasm)))
          end
      | None => match i with
                | IoErr e => Some (Answered (failure ("Failed to run cargo: " ++ e)), dir)
                | IoOk => None
                end
      end
  | ReadWasm, IoOk =>
      match dir ≫= b_wasm with
      | Some wasm => Some (Answered (success wasm), None)
      | None => Some (Answered (failure "Failed to read compiled WASM file"), dir)
      end
  | ReadWasm, IoErr _ => Some (Answered (failure "Failed to read compiled WASM file"), dir)
  | Answered _, _ => None
  end.

Definition set_dir (k : Z) (d : option build_dir) (m : gmap Z build_dir) : gmap Z build_dir :=
  match d with Some d => <[k := d]> m | None => delete k m end.

(** A request arrives, or request [i] makes a call. *)
Inductive compile_event := Arrives (now : Z) (body : value) | Calls (i : nat) (o : io).

Definition compile_step (e : compile_event) (s : service) : option service :=
  match e with
  | Arrives now body => Some (mkService (s_dirs s) (s_requests s ++ [accept_request now body]))
  | Calls i o =>
      let* r := s_requests s !! i in
      let* (p, d) := request_step r o (s_dirs s !! rq_secs r) in
      Some (mkService (set_dir (rq_secs r) d (s_dirs s))
              (<[i := mkRequest (rq_code r) (rq_secs r) p]> (s_requests s)))
  end.

Fixpoint compile_run (es : list compile_event) (s : service) : option service :=
  match es with
  | [] => Some s
  | e :: es => let* s := compile_step e s in compile_run es s
  end.

(** ** Requests of different seconds do not see each other *)

(** What a request relies on in its directory. *)
Definition dir_ok (r : request) (d : option build_dir) : Prop :=
  match rq_pc r with
  | MkDir | WriteToml | MkSrc | WriteLib => True
  | WriteLock | RunCargo => (d ≫= b_lib) = Some (lib_rs (rq_code r))
  | ReadWasm =>
      exists wasm, (d ≫= b_wasm) = Some wasm /\ cargo_build (Some (lib_rs (rq_code r))) = CargoBuilt wasm
  | Answered v =>
      forall wasm, v = success wasm -> cargo_build (Some (lib_rs (rq_code r))) = CargoBuilt wasm
  end.

Definition service_ok (s : service) : Prop :=
  NoDup (map rq_secs (s_requests s)) /\
  forall i r, s_requests s !! i = Some r -> dir_ok r (s_dirs s !! rq_secs r).

(** The seconds at which requests arrive in a run. *)
Definition arrival (e : compile_event) : list Z := match e with Arrives now _ => [now] | Calls _ _ => [] end.

Lemma failure_not_success e wasm : failure e <> success wasm.
Proof. done. Qed.

Lemma success_inj w1 w2 `{!Base64Laws B} : success w1 = success w2 -> w1 = w2.
Proof.
  intros [= _ H]. apply (f_equal std_decode) in H. rewrite !std_decode_encode in H. by injection H.
Qed.

Lemma request_step_ok `{!Base64Laws B} r o d p d' :
  request_step r o d = Some (p, d') -> dir_ok r d -> dir_ok (mkRequest (rq_code r) (rq_secs r) p) d'.
Proof.
  intros Hs Hd. unfold request_step, dir_ok in *. destruct r as [code secs q]; simpl in *.
  destruct q; [..| | |done].
  1-5: destruct o, d; simpl in *; try discriminate Hs; injection Hs as <- <-; simpl; done.
  - destruct d as [d|]; [|done]. simpl in Hd. rewrite Hd in Hs.
    destruct (cargo_build _) eqn:Ec; injection Hs as <- <-; simpl; eauto; done.
  - destruct Hd as (wasm & Hw & Hc). rewrite Hw in Hs.
    destruct o; injection Hs as <- <-; simpl; [|done]. by intros w ->%success_inj.
Qed.

Lemma set_dir_other k k' d m : k <> k' -> set_dir k d m !! k' = m !! k'.
Proof. intros Hne. destruct d; simpl; [by rewrite lookup_insert_ne|by rewrite lookup_delete_ne]. Qed.

Lemma set_dir_same k d m : set_dir k d m !! k = d.
Proof. destruct d; simpl; [by rewrite lookup_insert_eq|by rewrite lookup_delete_eq]. Qed.

Lemma secs_insert (rs : list request) i r p :
  rs !! i = Some r -> map rq_secs (<[i := mkRequest (rq_code r) (rq_secs r) p]> rs) = map rq_secs rs.
Proof.
  intros Hi. rewrite list_fmap_insert. apply list_insert_id. by rewrite list_lookup_fmap, Hi.
Qed.

Lemma compile_step_ok `{!Base64Laws B} e s s' :
  compile_step e s = Some s' -> service_ok s -> NoDup (map rq_secs (s_requests s) ++ arrival e) -> service_ok s'.
Proof.
  intros Hs [Hnd Hok] Hnew. destruct e as [now body|i o]; simpl in Hs.
  - injection Hs as <-. split; simpl; [by rewrite map_app|]. intros j r Hj.
    apply lookup_app_Some in Hj as [Hj|[_ Hj]]; [by eapply Hok|].
    apply list_lookup_singleton_Some in Hj as [_ <-]. unfold dir_ok, accept_request. simpl.
    destruct (String.eqb _ _); [|done]. intros w E. discriminate E.
  - destruct (s_requests s !! i) as [r|] eqn:Hi; [|done].
    destruct (request_step r o (s_dirs s !! rq_secs r)) as [[p d]|] eqn:Hr; [|done]. injection Hs as <-.
    split; simpl; [by rewrite secs_insert|]. intros j r' Hj.
    destruct (decide (i = j)) as [<-|Hne].
    + rewrite list_lookup_insert_eq in Hj by (by eapply lookup_lt_Some). injection Hj as <-. simpl.
      rewrite set_dir_same. eapply request_step_ok; [done|]. by eapply Hok.
    + rewrite list_lookup_insert_ne in Hj by done. rewrite set_dir_other; [by eapply Hok|].
      intros E. apply Hne. eapply (NoDup_lookup _ i j (rq_secs r) Hnd).
      * by rewrite list_lookup_fmap, Hi.
      * by rewrite list_lookup_fmap, Hj, E.
Qed.

Lemma compile_step_secs e s s' :
  compile_step e s = Some s' -> map rq_secs (s_requests s') = map rq_secs (s_requests s) ++ arrival e.
Proof.
  destruct e as [now body|i o]; simpl.
  - intros [= <-]. simpl. by rewrite map_app.
  - destruct (s_requests s !! i) as [r|] eqn:Hi; [|done].
    destruct (request_step _ _ _) as [[p d]|]; [|done]. intros [= <-]. simpl. by rewrite secs_insert, app_nil_r.
Qed.

Lemma compile_run_ok `{!Base64Laws B} es s s' :
  compile_run es s = Some s' -> service_ok s -> NoDup (map rq_secs (s_requests s) ++ (es ≫= arrival)) -> service_ok s'.
Proof.
  revert s. induction es as [|e es IH]; simpl; intros s Hr Hok Hnd; [by injection Hr as <-|].
  destruct (compile_step e s) as [s1|] eqn:E; [|done]. rewrite app_assoc in Hnd.
  apply (IH s1 Hr); [|by rewrite (compile_step_secs _ _ _ E)].
  eapply compile_step_ok; [done..|]. by apply NoDup_app in Hnd as [? _].
Qed.

(** C37: a compiled module is the caller's own. When no two requests read the
    same second, whatever the interleaving of their system calls, whichever
    of them fail and whatever earlier builds left in the directories, a
    request that is answered with success is answered with what cargo makes
    of the code of that request. *)
Theorem compile_isolated `{!Base64Laws B} es dirs s i r wasm :
  compile_run es (mkService dirs []) = Some s -> NoDup (es ≫= arrival) ->
  s_requests s !! i = Some r -> rq_pc r = Answered (success wasm) ->
  cargo_build (Some (lib_rs (rq_code r))) = CargoBuilt wasm.
Proof.
  intros Hr Hnd Hi Hpc.
  assert (service_ok s) as [_ Hok].
  { eapply compile_run_ok; [exact Hr| |exact Hnd]. split; [constructor|]. intros j r' Hj. by destruct j. }
  specialize (Hok i r Hi). unfold dir_ok in Hok. rewrite Hpc in Hok. by apply Hok.
Qed.

(** Evaluate calls on known directories. *)
Ltac run_calls := repeat (rewrite ?lookup_empty, ?lookup_insert_eq, ?insert_insert_eq; simpl).

(** The calls of one request that meets no error. *)
Definition undisturbed (i : nat) : list compile_event := repeat (Calls i IoOk) 7.

(** A request alone is answered in seven calls; its directory is left
    behind unless the build succeeded. *)
Theorem compile_alone now body :
  request_code body <> EmptyString ->
  exists s, compile_run (Arrives now body ::
      match cargo_build (Some (lib_rs (request_code body))) with CargoBuilt _ => undisturbed 0 | _ => take 6 (undisturbed 0) end)
      (mkService ∅ []) = Some s /\
    match cargo_build (Some (lib_rs (request_code body))) with
    | CargoBuilt wasm => s = mkService ∅ [mkRequest (request_code body) now (Answered (success wasm))]
    | CargoFailed stderr =>
        s_requests s = [mkRequest (request_code body) now (Answered (failure ("Compilation failed: " ++ stderr)))] /\
        is_Some (s_dirs s !! now)
    | CargoMissing e =>
        s_requests s = [mkRequest (request_code body) now (Answered (failure ("Failed to run cargo: " ++ e)))] /\
        is_Some (s_dirs s !! now)
    end.
Proof.
  intros Hne. set (code := request_code body) in *.
  assert (accept_request now body = mkRequest code now MkDir) as Hacc.
  { unfold accept_request. fold code. by destruct (String.eqb_spec code ""). }
  destruct (cargo_build (Some (lib_rs code))) as [e|stderr|wasm] eqn:Ec; simpl; rewrite Hacc; simpl;
    run_calls; unfold request_step; simpl; fold code; rewrite Ec; simpl; run_calls;
    eexists; (split; [reflexivity|]).
  - split; [done|]. simpl. rewrite lookup_insert_eq. by eexists.
  - split; [done|]. simpl. rewrite lookup_insert_eq. by eexists.
  - by rewrite delete_insert_eq, delete_empty.
Qed.

(** Two requests that read the same second share a directory: the first is
    answered with the module compiled from the code of the second. *)
Theorem same_second_mixes now a b wasm :
  request_code a <> EmptyString -> request_code b <> EmptyString ->
  cargo_build (Some (lib_rs (request_code b))) = CargoBuilt wasm ->
  exists s r, compile_run ([Arrives now a; Arrives now b] ++ repeat (Calls 0 IoOk) 5 ++ repeat (Calls 1 IoOk) 5 ++
                           repeat (Calls 0 IoOk) 2) (mkService ∅ []) = Some s /\
    s_requests s !! 0%nat = Some r /\ rq_code r = request_code a /\ rq_pc r = Answered (success wasm).
Proof.
  intros Ha Hb Hc. set (ca := request_code a) in *. set (cb := request_code b) in *.
  assert (accept_request now a = mkRequest ca now MkDir) as Hacc.
  { unfold accept_request. fold ca. by destruct (String.eqb_spec ca ""). }
  assert (accept_request now b = mkRequest cb now MkDir) as Hbcc.
  { unfold accept_request. fold cb. by destruct (String.eqb_spec cb ""). }
  simpl. rewrite Hacc, Hbcc. simpl. run_calls. unfold request_step. simpl. fold cb. rewrite Hc. simpl. run_calls.
  eexists _, _. split_and!; reflexivity.
Qed.
End Handler.

(** ** Witnesses *)

(** A compiler that returns the bytes of its source. *)
Definition echo_cargo : Cargo := fun lib => match lib with Some s => CargoBuilt (str_bytes s) | None => CargoFailed "" end.
Definition code_body (code : string) : value := VObj [("code", VStr code)].

Definition two_requests : list compile_event :=
  [Arrives 100 (code_body "a"); Arrives 101 (code_body "b")] ++
  concat (repeat [Calls 0 IoOk; Calls 1 IoOk] 7).

Lemma two_seconds : NoDup (two_requests ≫= arrival).
Proof. change (NoDup [100; 101]). repeat constructor; set_solver. Qed.

Definition answered_a : request := mkRequest "a" 100 (Answered (success (B := base64) (str_bytes (lib_rs "a")))).

Lemma compile_isolated_witness :
  exists s, compile_run (C := echo_cargo) (B := base64) two_requests (mkService ∅ []) = Some s /\
    s_requests s !! 0%nat = Some answered_a /\
    @cargo_build echo_cargo (Some (lib_rs "a")) = CargoBuilt (str_bytes (lib_rs "a")).
Proof.
  assert (compile_run (C := echo_cargo) (B := base64) two_requests (mkService ∅ []) ≫=
            (fun s => s_requests s !! 0%nat) = Some answered_a) as Hr by (vm_compute; reflexivity).
  destruct (compile_run (C := echo_cargo) (B := base64) two_requests (mkService ∅ [])) as [s|] eqn:E;
    [|discriminate Hr].
  change (s_requests s !! 0%nat = Some answered_a) in Hr. exists s. split; [reflexivity|]. split; [exact Hr|].
  apply (compile_isolated (C := echo_cargo) (B := base64) two_requests ∅ s 0 answered_a (str_bytes (lib_rs "a")) E).
  - exact two_seconds.
  - exact Hr.
  - reflexivity.
Defined.

Lemma compile_alone_witness :
  exists s, compile_run (C := echo_cargo) (B := base64) (Arrives 100 (code_body "a") :: undisturbed 0) (mkService ∅ []) = Some s.
Proof.
  destruct (compile_alone (C := echo_cargo) (B := base64) 100 (code_body "a")) as (s & H & _); [done|].
  exists s. exact H.
Defined.

Lemma same_second_mixes_witness :
  exists s r, compile_run (C := echo_cargo) (B := base64)
      ([Arrives 100 (code_body "a"); Arrives 100 (code_body "b")] ++ repeat (Calls 0 IoOk) 5 ++ repeat (Calls 1 IoOk) 5 ++
       repeat (Calls 0 IoOk) 2) (mkService ∅ []) = Some s /\
    s_requests s !! 0%nat = Some r /\ rq_code r = "a"%string /\ rq_pc r = Answered (success (B := base64) (str_bytes (lib_rs "b"))).
Proof. apply (same_second_mixes (C := echo_cargo) (B := base64) 100 (code_body "a") (code_body "b")); done. Defined.
