(* ===== verification/DashboardApi.v ===== *)
(** * The handlers of the dashboard server: [crates/wasmbed-api-server/src/main.rs]

    The server acts on the cluster through kubectl, on devices through the
    gateway's HTTP API and on emulations through the emulator manager. The
    first two, the shell and what the manager does outside its table are
    operations of an abstract world; each handler threads the world and the
    manager's table. *)

From S2P Require Import Prelude.
From S2P Require Import RustStd.
From S2P Require Import Externals.
From S2P Require Import Renode.
From S2P Require Import RenodeManager.
From S2P Require Import HttpRoutes.
From S2P Require Import Dashboard.
From stdpp Require Import pretty.
From Stdlib Require Import Strings.Ascii.
Local Open Scope Z_scope.

(** ** The world *)

(** A request that got no answer, with what reqwest says about the error, or
    a status and a body. *)
Inductive http := HttpErr (timeout connect : bool) (e : string) | HttpResp (status : Z) (body : string).

Class DashWorld (W : Type) := {
  kubectl : list string -> string -> W -> cmd * W;   (* arguments, standard input *)
  shell : string -> W -> cmd * W;                    (* sh -c *)
  http_post : string -> option value -> W -> http * W;
  http_get : string -> W -> http * W;
  env_of : W -> qenv;                                (* what the manager sees *)
  qrun : list qeffect -> W -> W;                     (* what it does *)
}.

(** [serde_json::to_string] *)
Class Printer := to_json : value -> string.

Definition is_success (status : Z) : bool := (200 <=? status) && (status <=? 299).

(** The fixed configuration of the handlers. *)
Record DashConfig := mkDashConfig {
  dc_port : Z;
  dc_gateway_endpoint : string;        (* of the configuration *)
  dc_env_gateway : option string;      (* WASMBED_API_SERVER_GATEWAY_ENDPOINT *)
  dc_infrastructure_endpoint : string;
}.

Definition default_gateway : string := "http://wasmbed-gateway.wasmbed.svc.cluster.local:8080".

Record dash (W : Type) := mkDash { d_world : W; d_renode : gmap string QemuDevice }.
Arguments mkDash {W}.
Arguments d_world {W}.
Arguments d_renode {W}.

(** The answers of the handlers: the fields that say what happened. *)
Record answer := mkAnswer { a_success : bool; a_message : string; a_data : list (string * value) }.

Section Handlers.
Context {W : Type} `{D : DashWorld W} `{P : Parsers} `{Pr : Printer} `{H : Sha256}.
Variable cfg : DashConfig.
Variable hash_name : string -> Z.   (* DefaultHasher *)
Variable now : Z.                   (* the clock, in seconds *)
Variable now_text : string.         (* chrono::Utc::now().to_rfc3339() *)
Variable status_text : Z -> string.  (* Display of StatusCode: code and reason *)
Variable error_text : manager_error -> string.   (* Display of the manager's errors *)

(** Run a command in the world of the state. *)
Definition run_kubectl (args : list string) (stdin : string) (s : dash W) : cmd * dash W :=
  let '(r, w) := kubectl args stdin (d_world s) in (r, mkDash w (d_renode s)).
Definition run_post (url : string) (body : option value) (s : dash W) : http * dash W :=
  let '(r, w) := http_post url body (d_world s) in (r, mkDash w (d_renode s)).

Definition succeeded (c : cmd) : bool := match c with CmdDone ok _ _ => ok | CmdErr _ => false end.

(** A command whose failure is a 500. *)
Definition answer_or_500 (r : cmd * dash W) (a : answer) : result Z answer * dash W :=
  let '(c, s) := r in (if succeeded c then Ok a else Err 500, s).

(** *** Deleting *)

Definition kubectl_delete (resource kind id : string) (s : dash W) : result Z answer * dash W :=
  answer_or_500 (run_kubectl ["delete"; resource; id; "-n"; "wasmbed"] "" s)
    (mkAnswer true (kind ++ " " ++ id ++ " deleted successfully") []).

Definition delete_gateway (id : string) := kubectl_delete "gateways.wasmbed.io" "Gateway" id.
Definition delete_device (id : string) := kubectl_delete "devices.wasmbed.github.io" "Device" id.
Definition delete_application (id : string) := kubectl_delete "applications.wasmbed.github.io" "Application" id.

(** *** Patching *)

Definition patch_status (device_id : string) (patch : value) (s : dash W) : cmd * dash W :=
  run_kubectl ["patch"; "devices.wasmbed.github.io"; device_id; "-n"; "wasmbed"; "--type"; "merge";
               "--subresource"; "status"; "--patch"; to_json patch] "" s.

Definition dquote : string := String (Ascii.ascii_of_nat 34) EmptyString.

Definition phase_patch_text (phase : string) : string :=
  "{" ++ dquote ++ "status" ++ dquote ++ ":{" ++ dquote ++ "phase" ++ dquote ++ ":" ++ dquote ++ phase ++ dquote ++ "}}".

Definition toggled (current_status : string) : string :=
  if String.eqb current_status "Running" || String.eqb current_status "Active" then "Stopped" else "Running".

Definition toggle_gateway (id : string) (s : dash W) : result Z answer * dash W :=
  match run_kubectl ["get"; "gateways.wasmbed.io"; id; "-n"; "wasmbed"; "-o"; "json"] "" s with
  | (CmdErr _, s) => (Err 500, s)
  | (CmdDone false _ _, s) => (Err 404, s)
  | (CmdDone true stdout _, s) =>
      match from_str stdout with
      | None => (Err 500, s)
      | Some gateway_json =>
          let new_status := toggled (default "Pending" (as_str (idx gateway_json ["status"; "phase"]))) in
          answer_or_500
            (run_kubectl ["patch"; "gateways.wasmbed.io"; id; "-n"; "wasmbed"; "--type"; "merge"; "--patch";
                          phase_patch_text new_status] "" s)
            (mkAnswer true ("Gateway " ++ id ++ " status changed to " ++ new_status) [("status", VStr new_status)])
      end
  end.

Definition update_gateway (id : string) (request : value) (s : dash W) : result Z answer * dash W :=
  let endpoint := default "127.0.0.1:30452" (vget "endpoint" request ≫= as_str) in
  let capabilities := match vget "capabilities" request ≫= as_array with
                      | Some arr => strs arr
                      | None => ["tls"; "enrollment"; "deployment"]
                      end in
  let patch := VObj [("spec", VObj [("capabilities", VArr (VStr <$> capabilities)); ("endpoint", VStr endpoint)])] in
  answer_or_500
    (run_kubectl ["patch"; "gateways.wasmbed.io"; id; "-n"; "wasmbed"; "--type"; "merge"; "--patch"; to_json patch] "" s)
    (mkAnswer true ("Gateway " ++ id ++ " configuration updated successfully") []).

Definition enroll_device (device_id : string) (request : value) (s : dash W) : result Z answer * dash W :=
  let gateway_id := default "gateway-1" (vget "gatewayId" request ≫= as_str) in
  answer_or_500
    (patch_status device_id (VObj [("status", VObj [("gatewayId", VStr gateway_id); ("phase", VStr "Enrolled")])]) s)
    (mkAnswer true ("Device " ++ device_id ++ " enrolled to gateway " ++ gateway_id ++ " successfully") []).

Definition disconnect_device (device_id : string) (s : dash W) : result Z answer * dash W :=
  answer_or_500
    (patch_status device_id (VObj [("status", VObj [("gateway", VObj []); ("phase", VStr "Disconnected")])]) s)
    (mkAnswer true ("Device " ++ device_id ++ " disconnected successfully") [("status", VStr "Disconnected")]).

(** *** Creating gateways *)

Definition nl : string := newline.

Definition gateway_yaml (name endpoint : string) : string :=
  "apiVersion: wasmbed.io/v1" ++ nl ++ "kind: Gateway" ++ nl ++ "metadata:" ++ nl ++ "  name: " ++ name ++ nl ++
  "  namespace: wasmbed" ++ nl ++ "spec:" ++ nl ++ "  endpoint: " ++ endpoint ++ nl ++ "  capabilities:" ++ nl ++
  "    - tls" ++ nl ++ "    - enrollment" ++ nl ++ "    - deployment" ++ nl ++ "  config:" ++ nl ++
  "    connectionTimeout: " ++ quoted "10m" ++ nl ++ "    enrollmentTimeout: " ++ quoted "5m" ++ nl ++
  "    heartbeatInterval: " ++ quoted "30s".

(** [request.get("count").and_then(|v| v.as_u64()).unwrap_or(1)] *)
Definition request_count (request : value) : Z := default 1 (vget "count" request ≫= as_u64).

(** The name of the [i]-th of [count] objects. *)
Definition numbered (base : string) (count i : Z) : string :=
  if count =? 1 then base else base ++ "-" ++ pretty i.

Definition cmd_text (c : cmd) : string := match c with CmdErr e => e | CmdDone _ _ stderr => stderr end.

(** A batch: the identifiers created so far, the errors so far. *)
Record batch := mkBatch { b_created : list value; b_errors : list string }.

Definition create_one_gateway (name : string) (b : batch) (s : dash W) : batch * dash W :=
  let endpoint := (name ++ "-service.wasmbed.svc.cluster.local:8080")%string in
  let '(c, s) := run_kubectl ["apply"; "-f"; "-"] (gateway_yaml name endpoint) s in
  if succeeded c then
    (mkBatch (b_created b ++ [VObj [("endpoint", VStr endpoint); ("id", VStr name); ("name", VStr name);
                                    ("status", VStr "Pending")]]) (b_errors b), s)
  else (mkBatch (b_created b) (b_errors b ++ [("Failed to create gateway " ++ name ++ ": " ++ cmd_text c)%string]), s).

(** [for i in 1..=count] *)
Definition for_each (names : list string) (f : string -> batch -> dash W -> batch * dash W) (s : dash W) :
    batch * dash W :=
  foldl (fun bs name => f name bs.1 bs.2) (mkBatch [] [], s) names.

Definition batch_names (base : string) (count : Z) : list string :=
  (fun i => numbered base count (Z.of_nat i)) <$> seq 1 (Z.to_nat count).

Fixpoint join (sep : string) (l : list string) : string :=
  match l with
  | [] => ""
  | [s] => s
  | s :: l => s ++ sep ++ join sep l
  end.

Definition batch_message (what : string) (b : batch) : string :=
  let n := pretty (length (b_created b)) in
  match b_errors b with
  | [] => "Successfully created " ++ n ++ " " ++ what
  | errors => "Created " ++ n ++ " " ++ what ++ ", " ++ pretty (length errors) ++ " errors: " ++ join "; " errors
  end.

Definition create_gateway (request : value) (s : dash W) : result Z answer * dash W :=
  let count := request_count request in
  let gateway_name := default "gateway-1" (vget "name" request ≫= as_str) in
  let '(b, s) := for_each (batch_names gateway_name count) create_one_gateway s in
  match b_created b with
  | [] => (Err 500, s)
  | created => (Ok (mkAnswer true (batch_message "gateways" b)
                      [("gateways", VArr created); ("errors", VArr (VStr <$> b_errors b))]), s)
  end.

(** *** Gateways and ports *)

(** [x as u16] *)
Definition as_u16 (z : Z) : Z := z mod 2 ^ 16.

Definition port_of (port : value) : option Z :=
  let* name := as_str (idx port ["name"]) in
  if String.eqb name "tls" || String.eqb name "https" then
    match as_u64 (idx port ["targetPort"]) with
    | Some n => Some (as_u16 n)
    | None => as_u16 <$> as_u64 (idx port ["port"])
    end
  else None.

Fixpoint first_port (ports : list value) : option Z :=
  match ports with
  | [] => None
  | p :: ports => match port_of p with Some n => Some n | None => first_port ports end
  end.

(** The JSON a command printed, when it succeeded. *)
Definition cmd_json (c : cmd) : option value :=
  match c with CmdDone true stdout _ => from_str stdout | _ => None end.

Definition get_gateway_tls_port (gateway_host : string) (s : dash W) : option Z * dash W :=
  let host_name := before "."%char gateway_host in
  let gateway_name := remove_all "-service" host_name in
  let '(c, s) := run_kubectl ["get"; "gateways.wasmbed.io"; gateway_name; "-n"; "wasmbed"; "-o"; "json"] "" s in
  match cmd_json c ≫= fun j => as_u64 (idx j ["spec"; "tlsPort"]) with
  | Some tls_port => (Some (as_u16 tls_port), s)
  | None =>
      let service_name := if str_contains gateway_host "-service" then host_name
                          else (gateway_name ++ "-service")%string in
      let '(c, s) := run_kubectl ["get"; "svc"; service_name; "-n"; "wasmbed"; "-o"; "json"] "" s in
      (cmd_json c ≫= fun j => as_array (idx j ["spec"; "ports"]) ≫= first_port, s)
  end.

Definition service_host (gateway_name : string) : string := gateway_name ++ "-service.wasmbed.svc.cluster.local".

(** *** Emulation *)

Definition lift_manager {A} (r : result manager_error A * gmap string QemuDevice * list qeffect) (s : dash W) :
    result manager_error A * dash W :=
  let '(a, t, out) := r in (a, mkDash (qrun out (d_world s)) t).

(** [RenodeManager::new("renode", 30450)] *)
Definition renode_base_port : Z := 30450.

Definition manager_start (device_id : string) (endpoint : option string) (s : dash W) :=
  lift_manager (start_device renode_base_port (env_of (d_world s)) device_id endpoint (d_renode s)) s.
Definition manager_stop (device_id : string) (s : dash W) :=
  lift_manager (stop_device (env_of (d_world s)) device_id (d_renode s)) s.

(** [format!("127.0.0.1:{}", 30450 + id.len() as u16)], which wraps. *)
Definition placeholder_endpoint (id : string) : string :=
  local_endpoint (as_u16 (30450 + as_u16 (Z.of_nat (String.length id)))).

Definition manager_create (id name device_type : string) (mcu : McuType) (s : dash W) :
    result manager_error QemuDevice * dash W :=
  let '(r, t) := create_device renode_base_port id name "ARM_CORTEX_M" device_type mcu
                   (Some (placeholder_endpoint id)) (d_renode s) in
  (r, mkDash (d_world s) t).

(** The names of boards in requests; an unknown one is the Ethernet board. *)
Definition mcu_of_request (name : string) : McuType :=
  match name with
  | "FrdmK64f" | "frdm_k64f" => FrdmK64f
  | "Esp32DevkitC" | "esp32_devkitc_wroom" => Esp32DevkitC
  | "Stm32F4Disco" | "stm32f4_discovery" => Stm32F4Disco
  | "Nrf52840DK" | "nrf52840dk_nrf52840" => Nrf52840DK
  | "RenodeArduinoNano33Ble" => RenodeArduinoNano33Ble
  | "RenodeStm32F4Discovery" => RenodeStm32F4Discovery
  | "Mps2An385" | "mps2-an385" => Mps2An385
  | _ => Stm32F746gDisco
  end%string.

Definition env_gateway : string := default default_gateway (dc_env_gateway cfg).

(** The gateway of a device as [start_emulation] finds it. *)
Definition emulation_endpoint (device_id : string) (s : dash W) : option string * dash W :=
  let '(c, s) := run_kubectl ["get"; "devices.wasmbed.github.io"; device_id; "-n"; "wasmbed"; "-o"; "json"] "" s in
  if negb (succeeded c) then (Some env_gateway, s) else
  match cmd_json c with
  | None => (None, s)
  | Some k8s_device =>
      match as_str (idx k8s_device ["status"; "gateway"; "name"]) with
      | Some gw_name =>
          let '(port, s) := get_gateway_tls_port (service_host gw_name) s in
          (Some (service_host gw_name ++ ":" ++ pretty (default 8443 port))%string, s)
      | None => (Some env_gateway, s)
      end
  end.

(** The device is created in the manager when it is not there. *)
Definition ensure_device (device_id name : string) (mcu : McuType) (s : dash W) : result manager_error QemuDevice * dash W :=
  match d_renode s !! device_id with
  | Some d => (Ok d, s)
  | None => manager_create device_id name "MCU" mcu s
  end.

Definition start_emulation (device_id : string) (s : dash W) : result Z answer * dash W :=
  match ensure_device device_id device_id Stm32F746gDisco s with
  | (Err _, s) => (Err 500, s)
  | (Ok _, s) =>
      let '(gateway_endpoint, s) := emulation_endpoint device_id s in
      match manager_start device_id gateway_endpoint s with
      | (Ok _, s) => (Ok (mkAnswer true ("Emulation started for device " ++ device_id) []), s)
      | (Err _, s) => (Err 500, s)
      end
  end.

Definition stop_emulation_handler (device_id : string) (s : dash W) : result Z answer * dash W :=
  match manager_stop device_id s with
  | (Ok _, s) => (Ok (mkAnswer true ("Emulation stopped for device " ++ device_id) []), s)
  | (Err e, s) =>
      (Ok (mkAnswer false ("Failed to stop emulation for device " ++ device_id ++ ": " ++ error_text e) []), s)
  end.

(** [start_qemu_device] and [stop_qemu_device], which no route reaches. *)
Definition preferred_endpoint (k8s_device : value) (s : dash W) : option string * dash W :=
  match (match as_str (idx k8s_device ["status"; "gateway"; "name"]) with
         | Some n => Some n
         | None => as_str (idx k8s_device ["spec"; "preferredGateway"])
         end) with
  | Some gateway_name =>
      let '(port, s) := get_gateway_tls_port (service_host gateway_name) s in
      (Some (service_host gateway_name ++ ":" ++ pretty (default 8081 port))%string, s)
  | None => (None, s)
  end.

Definition get_device_cmd : list string := ["get"; "devices.wasmbed.github.io"; "-n"; "wasmbed"; "-o"; "json"].

(** [state.device_manager.get_device]: [None] is a panic. *)
Definition fetch_device (device_id : string) (s : dash W) : option (result string (option DeviceInfo)) * dash W :=
  let '(c, s) := run_kubectl get_device_cmd "" s in (get_device now c device_id, s).

Definition start_qemu_device (device_id : string) (s : dash W) : option (result Z answer) * dash W :=
  match fetch_device device_id s with
  | (None, s) => (None, s)
  | (Some (Err _), s) => (Some (Err 500), s)
  | (Some (Ok None), s) => (Some (Err 404), s)
  | (Some (Ok (Some info)), s) =>
      match ensure_device device_id (di_device_id info) (mcu_of_request (default "" (di_mcu_type info))) s with
      | (Err e, s) => (Some (Ok (mkAnswer false ("Failed to create Renode device: " ++ error_text e)
                                  [("deviceId", VStr device_id)])), s)
      | (Ok device, s) =>
          let '(c, s) := run_kubectl ["get"; "devices.wasmbed.github.io"; device_id; "-n"; "wasmbed"; "-o"; "json"] "" s in
          let '(endpoint, s) := match cmd_json c with Some j => preferred_endpoint j s | None => (None, s) end in
          match manager_start device_id endpoint s with
          | (Ok _, s) => (Some (Ok (mkAnswer true "Renode emulation started successfully"
                            [("renodeInstance", VStr (qd_endpoint device)); ("deviceId", VStr device_id)])), s)
          | (Err _, s) => (Some (Err 500), s)
          end
      end
  end.

Definition stop_qemu_device (device_id : string) (s : dash W) : result Z answer * dash W :=
  match manager_stop device_id s with
  | (Ok _, s) => (Ok (mkAnswer true "Renode emulation stopped successfully" [("deviceId", VStr device_id)]), s)
  | (Err _, s) => (Err 500, s)
  end.

Definition list_qemu_devices (s : dash W) : list QemuDevice * nat :=
  let devices := list_devices (d_renode s) in (devices, length devices).

(** *** Creating devices *)

Definition with_scheme (endpoint : string) : string :=
  if starts_with "http://" endpoint || starts_with "https://" endpoint then endpoint else "http://" ++ endpoint.

(** The gateway a new device is created through: [None] is a panic. *)
Definition creation_endpoint (gateway_id : string) (s : dash W) : option string * dash W :=
  let '(c, s) := run_kubectl ["get"; "gateways.wasmbed.io"; "-n"; "wasmbed"; "-o"; "json"] "" s in
  (match get_gateway c gateway_id with
   | None => None
   | Some (Ok (Some g)) => Some (with_scheme (trim (gi_endpoint g)))
   | Some (Ok None) | Some (Err _) => Some (dc_gateway_endpoint cfg)
   end, s).

(** The message for a device the gateway did not create. *)
Definition gateway_refused (name : string) (status : Z) (text : string) : string :=
  if str_contains text "database space exceeded" || str_contains text "etcdserver: mvcc" then
    "Failed to create device " ++ name ++ ": Kubernetes etcd database space exceeded. Please clean up unused resources or increase etcd quota."
  else "Failed to create device " ++ name ++ " via gateway: HTTP " ++ status_text status ++ " - " ++ text.

Definition gateway_unreachable (name url : string) (timeout connect : bool) (e : string) : string :=
  let failed := ("Failed to create device " ++ name ++ ": ")%string in
  if timeout then failed ++ "Gateway timeout (gateway may be unreachable or slow)"
  else if connect then failed ++ "Cannot connect to gateway at " ++ url ++ ". Check if gateway is running."
  else if str_contains e "name resolution" || str_contains e "DNS" || str_contains e "Temporary failure"
  then failed ++ "DNS resolution failed for gateway endpoint " ++ url ++ ". Check Kubernetes service DNS."
  else failed ++ "Gateway API error - " ++ e.

Record DeviceRequest := mkDeviceRequest {
  dr_count : Z; dr_type : string; dr_gateway : string; dr_mcu : string; dr_name : string }.

Definition device_request (request : value) : DeviceRequest :=
  let gateway_id := default "gateway-1" (vget "gatewayId" request ≫= as_str) in
  mkDeviceRequest (request_count request) (default "MCU" (vget "type" request ≫= as_str)) gateway_id
    (default "Stm32F746gDisco" (vget "mcuType" request ≫= as_str))
    (default ("device-" ++ gateway_id ++ "-1")%string (vget "name" request ≫= as_str)).

Definition device_payload (r : DeviceRequest) (name : string) : value :=
  VObj [("architecture", VStr "ARM_CORTEX_M"); ("enabled", VBool true); ("gateway", VStr (dr_gateway r));
        ("mcuType", VStr (dr_mcu r)); ("name", VStr name); ("type", VStr (dr_type r))].

Definition failed_item (b : batch) (message : string) : batch := mkBatch (b_created b) (b_errors b ++ [message]).

Definition created_device (r : DeviceRequest) (name endpoint : string) (b : batch) : batch :=
  mkBatch (b_created b ++
    [VObj [("id", VStr name); ("mcuType", VStr (dr_mcu r)); ("name", VStr name); ("qemuEndpoint", VStr endpoint);
           ("qemuStarted", VBool false); ("renodeEndpoint", VStr endpoint); ("renodeStarted", VBool false);
           ("status", VStr "Pending"); ("type", VStr (dr_type r))]]) (b_errors b).

(** The public key of the gateway's answer is only logged. *)
Definition create_one_device (endpoint : string) (r : DeviceRequest) (name : string) (b : batch) (s : dash W) :
    batch * dash W :=
  let url := (endpoint ++ "/api/v1/devices")%string in
  match run_post url (Some (device_payload r name)) s with
  | (HttpErr timeout connect e, s) => (failed_item b (gateway_unreachable name url timeout connect e), s)
  | (HttpResp status text, s) =>
      if negb (is_success status) then (failed_item b (gateway_refused name status text), s) else
      match d_renode s !! name with
      | Some existing => (created_device r name (qd_endpoint existing) b, s)
      | None =>
          match manager_create name name (dr_type r) (mcu_of_request (dr_mcu r)) s with
          | (Ok device, s) => (created_device r name (qd_endpoint device) b, s)
          | (Err e, s) => (failed_item b ("Failed to create Renode device " ++ name ++ ": " ++ error_text e), s)
          end
      end
  end.

Definition errors_of (b : batch) : value := VArr (VStr <$> b_errors b).

Definition dash_create_device (request : value) (s : dash W) : option (result Z answer) * dash W :=
  let r := device_request request in
  match creation_endpoint (dr_gateway r) s with
  | (None, s) => (None, s)
  | (Some endpoint, s) =>
      let '(b, s) := for_each (batch_names (dr_name r) (dr_count r)) (create_one_device endpoint r) s in
      match b_created b, b_errors b with
      | [], (_ :: _) as errors =>
          (Some (Ok (mkAnswer false ("Failed to create devices: " ++ join "; " (b_errors b))
                       [("errors", errors_of b)])), s)
      | _, _ => (Some (Ok (mkAnswer true (batch_message "devices" b)
                       [("devices", VArr (b_created b)); ("errors", errors_of b)])), s)
      end
  end.

(** *** Connecting devices *)

(** [40000 + (hash % 1000) as u16] *)
Definition bridge_endpoint (device_id : string) : string := local_endpoint (40000 + hash_name device_id mod 1000).

(** A failed registration is only logged. *)
Definition register_with_gateway (device_id gateway_endpoint : string) (s : dash W) : dash W :=
  snd (run_post (gateway_endpoint ++ "/api/v1/devices/" ++ device_id ++ "/connect")%string None s).

Definition attach_patch (phase gateway_id endpoint : string) (rest : list (string * value)) : value :=
  VObj [("status", VObj ([("gateway", VObj [("connectedAt", VStr now_text); ("endpoint", VStr endpoint);
                                           ("name", VStr gateway_id)])] ++ rest ++ [("phase", VStr phase)]))].

(** [connect_device_standalone_handler], the handler of the connect route. *)
Definition connect_handler (device_id : string) (s : dash W) : option (result Z answer) * dash W :=
  match fetch_device device_id s with
  | (None, s) => (None, s)
  | (Some (Err _), s) => (Some (Err 500), s)
  | (Some (Ok None), s) => (Some (Err 404), s)
  | (Some (Ok (Some info)), s) =>
      let gateway_id := default "gateway-1" (di_gateway_id info) in
      let s := register_with_gateway device_id env_gateway s in
      match run_post ("http://localhost:3001/api/v1/devices/" ++ device_id ++ "/renode/start")%string
              (Some (VObj [("gatewayEndpoint", VStr env_gateway)])) s with
      | (HttpErr _ _ e, s) =>
          (Some (Ok (mkAnswer false ("Failed to reach the emulation endpoint for device " ++ device_id ++ ": " ++ e)
                       [("status", VStr "Error")])), s)
      | (HttpResp status text, s) =>
          if negb (is_success status) then
            (Some (Ok (mkAnswer false ("Failed to start emulation for device " ++ device_id ++ ": HTTP " ++
                                        status_text status ++ " - " ++ text) [("status", VStr "Error")])), s)
          else
            match patch_status device_id
                    (attach_patch "Enrolling" gateway_id (bridge_endpoint device_id) [("pairingMode", VBool false)]) s with
            | (CmdDone true _ _, s) =>
                (Some (Ok (mkAnswer true ("Emulation started for device " ++ device_id ++
                  "; the gateway will report it connected once the TLS session is established")
                  [("status", VStr "Enrolling")])), s)
            | (CmdDone false _ stderr, s) =>
                (Some (Ok (mkAnswer false ("Emulation started for device " ++ device_id ++
                  " but its Kubernetes status could not be updated: " ++ stderr) [("status", VStr "Error")])), s)
            | (CmdErr e, s) =>
                (Some (Ok (mkAnswer false ("Emulation started for device " ++ device_id ++
                  " but kubectl could not be executed: " ++ e) [("status", VStr "Error")])), s)
            end
      end
  end.

(** A failure to start is only logged, and the outcome of the patch dropped. *)
Definition start_renode_emulation (device_id gateway_endpoint : string) (s : dash W) : dash W :=
  snd (manager_start device_id (Some gateway_endpoint) s).

Definition dash_update_device_status (device_id gateway_id endpoint : string) (s : dash W) : dash W :=
  snd (patch_status device_id
    (VObj [("status", VObj [("connectedSince", VStr now_text);
       ("gateway", VObj [("connectedAt", VStr now_text); ("endpoint", VStr endpoint); ("name", VStr gateway_id)]);
       ("lastHeartbeat", VStr now_text); ("pairingMode", VBool false); ("phase", VStr "Connected")])]) s).

(** [connect_device], which no route reaches: its answer does not depend on what
    happened. *)
Definition legacy_connect_device (device_id : string) (s : dash W) : option (result Z answer) * dash W :=
  match fetch_device device_id s with
  | (None, s) => (None, s)
  | (Some (Err _), s) => (Some (Err 500), s)
  | (Some (Ok info), s) =>
      let gateway_id := default "gateway-1" (info ≫= di_gateway_id) in
      let s := register_with_gateway device_id env_gateway s in
      let s := start_renode_emulation device_id env_gateway s in
      let s := dash_update_device_status device_id gateway_id (bridge_endpoint device_id) s in
      (Some (Ok (mkAnswer true ("Device " ++ device_id ++ " connected and registered with gateway")
                   [("status", VStr "Connected")])), s)
  end.

(** [do_connect_device], likewise unreached. *)
Definition do_connect_device (device_id : string) (s : dash W) : option (result Z answer) * dash W :=
  match fetch_device device_id s with
  | (None, s) => (None, s)
  | (Some (Err _), s) => (Some (Err 500), s)
  | (Some (Ok info), s) =>
      let gateway_id := default "gateway-1" (info ≫= di_gateway_id) in
      let s := register_with_gateway device_id env_gateway s in
      let host := before ":"%char (remove_all "https://" (remove_all "http://" env_gateway)) in
      let '(_, s) := get_gateway_tls_port host s in
      match manager_start device_id (Some (bridge_endpoint device_id)) s with
      | (Err e, s) =>
          (Some (Ok (mkAnswer false ("Failed to start emulation for device " ++ device_id ++ ": " ++ error_text e)
                       [("status", VStr "Error")])), s)
      | (Ok _, s) =>
          let '(_, s) := patch_status device_id
            (attach_patch "Enrolling" gateway_id (placeholder_endpoint device_id) []) s in
          (Some (Ok (mkAnswer true ("Device " ++ device_id ++ " connected and registered")
                       [("status", VStr "Connected")])), s)
      end
  end.

(** *** Applications *)

Definition request_targets (request : value) : list string :=
  match vget "targetDevices" request with
  | None => []
  | Some (VArr l) => strs l
  | Some v => match vget "deviceNames" v ≫= as_array with Some l => strs l | None => [] end
  end.

Definition device_names_yaml (targets : list string) : string :=
  match targets with [] => "[]" | _ => "[" ++ join ", " (quoted <$> targets) ++ "]" end.

Definition application_yaml (name description wasm_bytes : string) (targets : list string) : string :=
  "apiVersion: wasmbed.github.io/v1alpha1" ++ nl ++ "kind: Application" ++ nl ++ "metadata:" ++ nl ++
  "  name: " ++ name ++ nl ++ "  namespace: wasmbed" ++ nl ++ "spec:" ++ nl ++ "  name: " ++ name ++ nl ++
  "  description: " ++ description ++ nl ++ "  wasmBytes: " ++ wasm_bytes ++ nl ++
  "  targetDevices:" ++ nl ++ "    deviceNames: " ++ device_names_yaml targets.

Definition dash_create_application (request : value) (s : dash W) : result Z answer * dash W :=
  let name := default "application-1" (filter_str Dashboard.non_empty (vget "name" request ≫= as_str)) in
  let description := default "" (vget "description" request ≫= as_str) in
  let wasm_bytes := default "dGVzdA==" (vget "wasmBytes" request ≫= as_str) in
  let targets := request_targets request in
  answer_or_500 (run_kubectl ["apply"; "-f"; "-"] (application_yaml name description wasm_bytes targets) s)
    (mkAnswer true ("Successfully created application " ++ name)
       [("application", VObj [("id", VStr name); ("name", VStr name); ("status", VStr "Pending");
                              ("targetDevices", VArr (VStr <$> targets))])]).

(** [state.application_manager.get_application]: [None] is a panic. *)
Definition fetch_application (app_id : string) (s : dash W) : option (result string (option ApplicationInfo)) * dash W :=
  let '(c, s) := run_kubectl ["get"; "applications.wasmbed.github.io"; "-n"; "wasmbed"; "-o"; "json"] "" s in
  (am_get_application now c app_id, s).

(** What a gateway's answer to one device comes to: an error text, or none. *)
Definition device_outcome (device_id : string) (r : http) : option string :=
  match r with
  | HttpErr _ _ e => Some (device_id ++ ": " ++ e)%string
  | HttpResp status text =>
      if is_success status then
        match from_str text with
        | None => None
        | Some json =>
            if default false (vget "success" json ≫= as_bool) then None
            else Some (device_id ++ ": " ++ default "unknown" (vget "message" json ≫= as_str))%string
        end
      else Some (device_id ++ ": " ++ status_text status ++ " " ++ text)%string
  end.

(** The loop over the targets: how many were initiated, and the errors. *)
Fixpoint post_all (request_of : string -> string * option value) (targets : list string)
    (initiated : Z) (errors : list string) (s : dash W) : Z * list string * dash W :=
  match targets with
  | [] => (initiated, errors, s)
  | d :: targets =>
      let '(url, body) := request_of d in
      let '(r, s) := run_post url body s in
      match device_outcome d r with
      | None => post_all request_of targets ((initiated + 1) mod 2 ^ 32) errors s
      | Some e => post_all request_of targets initiated (errors ++ [e]) s
      end
  end.

Definition initiated_message (app_id what : string) (n : Z) (errors : list string) : string :=
  let m := ("Application " ++ app_id ++ " " ++ what ++ " initiated for " ++ pretty n ++ " device(s)")%string in
  match errors with [] => m | _ => m ++ "; errors: " ++ join "; " errors end.

(** The common shape of deploy and stop; [empty_ok] is the answer to no targets. *)
Definition on_targets (what counter : string) (empty_ok : bool) (request_of : ApplicationInfo -> string -> string * option value)
    (app_id : string) (s : dash W) : option (result Z answer) * dash W :=
  match fetch_application app_id s with
  | (None, s) => (None, s)
  | (Some (Err _), s) => (Some (Err 500), s)
  | (Some (Ok None), s) => (Some (Err 404), s)
  | (Some (Ok (Some app)), s) =>
      match default [] (ai_target_devices app) with
      | [] => (Some (Ok (mkAnswer empty_ok ("Application " ++ app_id ++ " has no target devices") [])), s)
      | targets =>
          let '(n, errors, s) := post_all (request_of app) targets 0 [] s in
          (Some (Ok (mkAnswer true (initiated_message app_id what n errors)
                       [(counter, VNum n); ("errors", VArr (VStr <$> errors))])), s)
      end
  end.

Definition gateway_url (path : string) : string := trim_end_slashes (dc_gateway_endpoint cfg) ++ path.

Definition deploy_request (app_id : string) (app : ApplicationInfo) (device_id : string) : string * option value :=
  (gateway_url ("/api/v1/devices/" ++ device_id ++ "/deploy"),
   Some (VObj [("app_id", VStr app_id); ("name", VStr (ai_name app)); ("wasm_bytes", VStr "")])).

Definition stop_request (app_id : string) (app : ApplicationInfo) (device_id : string) : string * option value :=
  (gateway_url ("/api/v1/devices/" ++ device_id ++ "/stop/" ++ app_id), None).

Definition deploy_application_by_id (app_id : string) :=
  on_targets "deployment" "initiated" false (deploy_request app_id) app_id.
Definition stop_application_by_id (app_id : string) :=
  on_targets "stop" "stopped" true (stop_request app_id) app_id.

(** [deploy_application] reaches neither the cluster nor a gateway. *)
Definition dash_deploy_application (uuid : string) (s : dash W) : result Z answer * dash W :=
  (Ok (mkAnswer true "Application deployed successfully" [("application_id", VStr uuid)]), s).

Definition enable_pairing (s : dash W) : result Z answer * dash W :=
  (match dm_enable_pairing with Ok b => Ok (mkAnswer b "Pairing mode enabled" []) | Err _ => Err 500 end, s).
Definition disable_pairing (s : dash W) : result Z answer * dash W :=
  (match dm_disable_pairing with Ok b => Ok (mkAnswer b "Pairing mode disabled" []) | Err _ => Err 500 end, s).

(** *** Terminal *)

Definition allowed_commands : list string :=
  ["kubectl get pods -n wasmbed"; "kubectl get devices -n wasmbed"; "kubectl get applications -n wasmbed";
   "kubectl get gateways.wasmbed.github.io -n wasmbed"; "kubectl get svc -n wasmbed"; "kubectl top pods -n wasmbed";
   "kubectl logs -n wasmbed --tail=50"; "kubectl get nodes"; "kubectl get namespaces"; "kubectl get crd";
   "kubectl get events -n wasmbed"; "kubectl describe pods -n wasmbed"; "kubectl get configmaps -n wasmbed";
   "kubectl get secrets -n wasmbed"; "kubectl get pv"; "kubectl get pvc -n wasmbed"; "kubectl get ingress -n wasmbed";
   "kubectl get networkpolicies -n wasmbed"; "kubectl get serviceaccounts -n wasmbed"; "kubectl get roles -n wasmbed";
   "kubectl get devices -n wasmbed -o wide"; "kubectl get applications -n wasmbed -o wide";
   "kubectl get gateways.wasmbed.github.io -n wasmbed -o wide";
   "kubectl get events -n wasmbed --sort-by=.metadata.creationTimestamp"; "kubectl get certificates -n wasmbed";
   "kubectl get all -n wasmbed"; "kubectl get pods -n wasmbed -l app=wasmbed-application-controller";
   "kubectl logs -n wasmbed -l app=wasmbed-application-controller"; "kubectl logs -n wasmbed -l app=wasmbed-gateway";
   "kubectl describe device -n wasmbed"; "curl -s http://localhost:30461/health"; "curl -s http://localhost:30461/logs";
   "curl -s http://localhost:30453/api/v1/status";
   "./target/release/wasmbed-gateway-controller --kubeconfig ~/.kube/config &";
   "./target/release/wasmbed-device-controller --kubeconfig ~/.kube/config &";
   "./target/release/wasmbed-application-controller --kubeconfig ~/.kube/config &"].

Record TerminalExecuteResponse := mkTerminal { te_success : bool; te_output : string; te_error : option string }.

Definition is_blank (s : string) : bool := String.eqb (trim s) "".

Definition combined_output (stdout stderr : string) : string :=
  if is_blank stdout && negb (is_blank stderr) then stderr
  else if negb (is_blank stdout) && negb (is_blank stderr) then stdout ++ stderr
  else stdout.

Definition execute_terminal_command (command : string) (s : dash W) : TerminalExecuteResponse * dash W :=
  if negb (bool_decide (command ∈ allowed_commands)) then
    (mkTerminal false "" (Some ("Command '" ++ command ++ "' is not allowed")%string), s)
  else
    let '(r, w) := shell command (d_world s) in
    (match r with
     | CmdDone true stdout stderr => mkTerminal true (combined_output stdout stderr) None
     | CmdDone false stdout stderr => mkTerminal false stdout (Some stderr)
     | CmdErr e => mkTerminal false "" (Some ("Failed to execute command: " ++ e)%string)
     end, mkDash w (d_renode s)).

(** *** Cluster listings *)

Definition get_pods (s : dash W) : result Z value * dash W :=
  let '(c, s) := run_kubectl ["get"; "pods"; "-n"; "wasmbed"; "-o"; "json"] "" s in
  (match cmd_json c with Some j => Ok j | None => Err 500 end, s).

(** A kubectl that cannot be run is reported as empty metrics, not services. *)
Definition get_services (s : dash W) : result Z value * dash W :=
  let '(c, s) := run_kubectl ["get"; "svc"; "-n"; "wasmbed"; "-o"; "json"] "" s in
  (match c with
   | CmdErr e => Ok (VObj [("error", VStr ("Failed to execute kubectl: " ++ e)); ("metrics", VArr [])])
   | CmdDone _ _ _ => match cmd_json c with Some j => Ok j | None => Err 500 end
   end, s).

Record PodMetric := mkPodMetric { pm_name : string; pm_cpu : string; pm_memory : string }.

Definition pod_metric (line : string) : option PodMetric :=
  match split_whitespace line with
  | name :: cpu :: memory :: _ => Some (mkPodMetric name cpu memory)
  | _ => None
  end.

Definition get_pod_metrics (s : dash W) : result Z (list PodMetric * option string) * dash W :=
  let '(c, s) := run_kubectl ["top"; "pods"; "-n"; "wasmbed"] "" s in
  (match c with
   | CmdErr _ => Err 500
   | CmdDone true stdout _ => Ok (omap pod_metric (tail (lines stdout)), None)
   | CmdDone false _ stderr =>
       if str_contains stderr "metrics-server" || str_contains stderr "not available" then Ok ([], None)
       else Ok ([], Some stderr)
   end, s).

(** *** Logs *)

Record LogLine := mkLogLine { ll_id : Z; ll_timestamp : Z; ll_level : string; ll_component : string; ll_message : string }.

(** No letter outside ASCII has an upper case that makes one of the words below. *)
Fixpoint to_uppercase (s : string) : string :=
  match s with
  | EmptyString => EmptyString
  | String a s =>
      let n := nat_of_ascii a in
      String (if ((97 <=? n) && (n <=? 122))%nat then ascii_of_nat (n - 32) else a) (to_uppercase s)
  end.

Definition log_level (line : string) : string :=
  let u := to_uppercase line in
  if str_contains u "ERROR" || str_contains u "ERR" then "ERROR"
  else if str_contains u "WARN" || str_contains u "WARNING" then "WARN"
  else if str_contains u "DEBUG" then "DEBUG" else "INFO".

Definition log_component (line : string) : string :=
  if str_contains line "wasmbed-gateway" then "Gateway"
  else if str_contains line "wasmbed-api-server" || str_contains line "api-server" then "API Server"
  else if str_contains line "device-controller" || str_contains line "device" then "Device Controller"
  else if str_contains line "application-controller" || str_contains line "application" then "Application Controller"
  else if str_contains line "gateway-controller" then "Gateway Controller" else "System".

(** The time stamps count back from now, a second for a line. *)
Definition log_lines (component : string -> string) (stdout : string) : list LogLine :=
  let ls := lines stdout in
  imap (fun i line => mkLogLine (Z.of_nat i + 1) (now - (Z.of_nat (length ls) - Z.of_nat i)) (log_level line)
                        (component line) (trim line)) ls.

Definition dash_get_logs (s : dash W) : list LogLine * dash W :=
  let '(c, s) := run_kubectl ["logs"; "-n"; "wasmbed"; "-l"; "app"; "--tail=50"; "--all-containers=true"] "" s in
  (match c with CmdDone true stdout _ => log_lines log_component stdout | _ => [] end, s).

Definition infrastructure_logs (s : dash W) : list LogLine * dash W :=
  let '(c, s) := run_kubectl ["logs"; "-n"; "wasmbed"; "-l"; "app=wasmbed-gateway"; "--tail=50"] "" s in
  (match c with CmdDone true stdout _ => log_lines (fun _ => "Infrastructure"%string) stdout | _ => [] end, s).

(** *** Infrastructure *)

Definition infrastructure_health (s : dash W) : string * dash W :=
  if String.eqb (dc_infrastructure_endpoint cfg) "" then ("not_configured"%string, s) else
  let '(r, w) := http_get (dc_infrastructure_endpoint cfg ++ "/health")%string (d_world s) in
  (match r with HttpResp status _ => if is_success status then "healthy" else "unhealthy" | HttpErr _ _ _ => "unhealthy" end%string,
   mkDash w (d_renode s)).

Definition infrastructure_status : string * list (string * string) :=
  ("running", [("ca", "healthy"); ("logging", "healthy"); ("monitoring", "healthy"); ("secret_store", "healthy")])%string.
End Handlers.

(** ** Routing *)

Inductive dash_handler :=
| R_home | R_devices | R_applications | R_gateways | R_monitoring | R_health | R_logs | R_api_status | R_api_devices
| R_api_applications | R_api_gateways | R_create_application | R_create_gateway | R_toggle_gateway | R_delete_gateway
| R_update_gateway | R_create_device | R_delete_device | R_enroll_device | R_connect | R_disconnect
| R_start_emulation | R_stop_emulation | R_list_devices | R_delete_application | R_deploy_by_id | R_stop_by_id
| R_deploy | R_enable_pairing | R_disable_pairing | R_terminal | R_pods | R_services | R_pod_metrics
| R_system_metrics | R_infra_health | R_infra_status | R_infra_logs | R_compile | R_websocket.

#[export] Instance dash_handler_eq_dec : EqDecision dash_handler.
Proof. solve_decision. Defined.

Definition dash_router : list (list segment * http_method * dash_handler) :=
  [([], GET, R_home); ([Lit "devices"], GET, R_devices); ([Lit "applications"], GET, R_applications);
   ([Lit "gateways"], GET, R_gateways); ([Lit "monitoring"], GET, R_monitoring); ([Lit "health"], GET, R_health);
   ([Lit "logs"], GET, R_logs); ([Lit "api"; Lit "status"], GET, R_api_status);
   ([Lit "api"; Lit "devices"], GET, R_api_devices); ([Lit "api"; Lit "applications"], GET, R_api_applications);
   ([Lit "api"; Lit "gateways"], GET, R_api_gateways); (v1 [Lit "status"], GET, R_api_status);
   (v1 [Lit "devices"], GET, R_api_devices); (v1 [Lit "applications"], GET, R_api_applications);
   (v1 [Lit "applications"], POST, R_create_application); (v1 [Lit "gateways"], GET, R_api_gateways);
   (v1 [Lit "gateways"], POST, R_create_gateway); (v1 [Lit "gateways"; Param; Lit "toggle"], POST, R_toggle_gateway);
   (v1 [Lit "gateways"; Param], DELETE, R_delete_gateway); (v1 [Lit "gateways"; Param], PUT, R_update_gateway);
   (v1 [Lit "devices"], POST, R_create_device); (v1 [Lit "devices"; Param], DELETE, R_delete_device);
   (v1 [Lit "devices"; Param; Lit "enroll"], POST, R_enroll_device);
   (v1 [Lit "devices"; Param; Lit "connect"], POST, R_connect);
   (v1 [Lit "devices"; Param; Lit "disconnect"], POST, R_disconnect);
   (v1 [Lit "devices"; Param; Lit "emulation"; Lit "start"], POST, R_start_emulation);
   (v1 [Lit "devices"; Param; Lit "emulation"; Lit "stop"], POST, R_stop_emulation);
   (v1 [Lit "devices"; Param; Lit "renode"; Lit "start"], POST, R_start_emulation);
   (v1 [Lit "renode"; Lit "devices"], GET, R_list_devices);
   (v1 [Lit "applications"; Param], DELETE, R_delete_application);
   (v1 [Lit "applications"; Param; Lit "deploy"], POST, R_deploy_by_id);
   (v1 [Lit "applications"; Param; Lit "stop"], POST, R_stop_by_id); ([Lit "api"; Lit "deploy"], POST, R_deploy);
   ([Lit "api"; Lit "pairing"; Lit "enable"], POST, R_enable_pairing);
   ([Lit "api"; Lit "pairing"; Lit "disable"], POST, R_disable_pairing);
   (v1 [Lit "terminal"; Lit "execute"], POST, R_terminal); (v1 [Lit "pods"], GET, R_pods);
   (v1 [Lit "services"], GET, R_services); (v1 [Lit "metrics"], GET, R_pod_metrics);
   (v1 [Lit "monitoring"; Lit "metrics"], GET, R_system_metrics); (v1 [Lit "logs"], GET, R_logs);
   (v1 [Lit "infrastructure"; Lit "health"], GET, R_infra_health);
   (v1 [Lit "infrastructure"; Lit "status"], GET, R_infra_status);
   (v1 [Lit "infrastructure"; Lit "logs"], GET, R_infra_logs); (v1 [Lit "compile"], POST, R_compile);
   ([Lit "ws"], GET, R_websocket)].
