(* ===== verification/DashboardProofs.v ===== *)
(** * The dashboard server: theorems *)

From S2P Require Import Prelude.
From S2P Require Import RustStd.
From S2P Require Import Text.
From S2P Require Import Externals.
From S2P Require Import Renode.
From S2P Require Import RenodeManager.
From S2P Require Import HttpRoutes.
From S2P Require Import Dashboard.
From S2P Require Import DashboardApi.
From stdpp Require Import pretty.
From Stdlib Require Import Strings.Ascii.
Local Open Scope Z_scope.

(** ** Statistics *)

Lemma count_if_le {A} (p : A -> bool) (l : list A) : (count_if p l <= length l)%nat.
Proof. unfold count_if. induction l as [|a l IH]; simpl; [lia|]. destruct (p a); simpl; lia. Qed.

(** Disjoint tests count no element twice. *)
Lemma count_if_disjoint {A} (ps : list (A -> bool)) (l : list A) :
  (forall a, (length (List.filter (fun p : A -> bool => p a) ps) <= 1)%nat) ->
  (sum_list_with (fun p => count_if p l) ps <= length l)%nat.
Proof.
  intros Hd. induction l as [|a l IH].
  - clear. induction ps; simpl; [lia | done].
  - assert (sum_list_with (fun p => count_if p (a :: l)) ps
            = length (List.filter (fun p : A -> bool => p a) ps) + sum_list_with (fun p => count_if p l) ps)%nat as ->.
    { clear. induction ps as [|p ps IH]; [done|]. simpl. rewrite IH. unfold count_if. simpl.
      destruct (p a); simpl; lia. }
    specialize (Hd a). simpl. lia.
Qed.

(** The statistics fit the objects they count, whenever the lists have fewer
    than 2^32 elements. *)
Definition stats_ok (s : SystemStatus) : Prop :=
  let d := ss_devices s in let a := ss_applications s in let g := ss_gateways s in
  0 <= dst_connected d /\ 0 <= dst_enrolled d /\ 0 <= dst_unreachable d /\
  dst_connected d + dst_enrolled d + dst_unreachable d <= dst_total d /\
  0 <= ast_running a /\ 0 <= ast_pending a /\ 0 <= ast_failed a /\
  ast_running a + ast_pending a + ast_failed a <= ast_total a /\
  0 <= gst_active g /\ 0 <= gst_inactive g /\ gst_active g + gst_inactive g <= gst_total g.

Definition small_fetch {A} (f : fetched (list A)) : Prop :=
  match f with Fetched l => zlen l < 2 ^ 32 | _ => True end.

Lemma count32_small {A} (p : A -> bool) (l : list A) : zlen l < 2 ^ 32 -> count32 p l = Z.of_nat (count_if p l).
Proof. intros. unfold count32. pose proof (count_if_le p l). unfold zlen in *. rewrite Z.mod_small; lia. Qed.

(** Two different texts never both equal a third. *)
Ltac texts := repeat match goal with |- context [String.eqb ?a ?b] => destruct (String.eqb_spec a b) end;
  simpl; first [lia | exfalso; congruence].

Lemma device_stats_ok (l : list DeviceInfo) : zlen l < 2 ^ 32 ->
  let d := device_stats l in
  0 <= dst_connected d /\ 0 <= dst_enrolled d /\ 0 <= dst_unreachable d /\
  dst_connected d + dst_enrolled d + dst_unreachable d <= dst_total d.
Proof.
  intros Hl. unfold device_stats; simpl. rewrite !count32_small by done. unfold zlen in *.
  rewrite Z.mod_small by lia.
  pose proof (count_if_disjoint ((fun ph d => String.eqb (di_status d) ph) <$> ["Connected"; "Enrolled"; "Unreachable"]%string) l) as H.
  simpl in H. unfold stats_ok. enough (forall d : DeviceInfo, (length (List.filter (fun p : DeviceInfo -> bool => p d)
    [(fun d => String.eqb (di_status d) "Connected"); (fun d => String.eqb (di_status d) "Enrolled");
     (fun d => String.eqb (di_status d) "Unreachable")]) <= 1)%nat) as Hd by (specialize (H Hd); lia).
  intros d. simpl. texts.
Qed.

Lemma application_stats_ok (l : list ApplicationInfo) : zlen l < 2 ^ 32 ->
  let a := application_stats l in
  0 <= ast_running a /\ 0 <= ast_pending a /\ 0 <= ast_failed a /\
  ast_running a + ast_pending a + ast_failed a <= ast_total a.
Proof.
  intros Hl. unfold application_stats; simpl. rewrite !count32_small by done. unfold zlen in *.
  rewrite Z.mod_small by lia.
  pose proof (count_if_disjoint [(fun a => String.eqb (ai_status a) "Running");
    (fun a => String.eqb (ai_status a) "Creating" || String.eqb (ai_status a) "Deploying");
    (fun a => String.eqb (ai_status a) "Failed")] l) as H. simpl in H.
  enough (forall a : ApplicationInfo, _) as Hd by (specialize (H Hd); lia).
  intros a. texts.
Qed.

Lemma gateway_stats_ok (l : list GatewayInfo) : zlen l < 2 ^ 32 ->
  let g := gateway_stats l in 0 <= gst_active g /\ 0 <= gst_inactive g /\ gst_active g + gst_inactive g <= gst_total g.
Proof.
  intros Hl. unfold gateway_stats; simpl. rewrite !count32_small by done. unfold zlen in *.
  rewrite Z.mod_small by lia.
  pose proof (count_if_disjoint [(fun g => String.eqb (gi_status g) "Running");
    (fun g => String.eqb (gi_status g) "Stopped" || String.eqb (gi_status g) "Failed")] l) as H. simpl in H.
  enough (forall g : GatewayInfo, _) as Hd by (specialize (H Hd); lia).
  intros g. texts.
Qed.

(** The system status is consistent after every round of the update task, whatever
    fails in between: no object is counted in two phases, no phase exceeds the
    total, an update that could not be fetched leaves the previous figures of
    that kind, and the four infrastructure fields and the time are always new. *)
Theorem status_stays_consistent (t0 : Z) (rounds : list observation) (o : observation) :
  Forall (fun o => small_fetch (ob_devices o) /\ small_fetch (ob_applications o) /\ small_fetch (ob_gateways o))
    (rounds ++ [o]) ->
  let before := foldl (fun s o => update_system_status o s) (SystemStatus_new t0) rounds in
  let after := update_system_status o before in
  stats_ok before /\ stats_ok after /\
  ((forall l, ob_devices o <> Fetched l) -> ss_devices after = ss_devices before) /\
  ((forall l, ob_applications o <> Fetched l) -> ss_applications after = ss_applications before) /\
  ((forall l, ob_gateways o <> Fetched l) -> ss_gateways after = ss_gateways before) /\
  ss_infrastructure after = update_infrastructure_status o /\ ss_last_update after = ob_now o.
Proof.
  intros Hs. simpl.
  assert (forall o s, small_fetch (ob_devices o) /\ small_fetch (ob_applications o) /\ small_fetch (ob_gateways o) ->
    stats_ok s -> stats_ok (update_system_status o s)) as Hstep.
  { clear. intros o s (Hd & Ha & Hg) (D1 & D2 & D3 & D4 & A1 & A2 & A3 & A4 & G1 & G2 & G3).
    unfold update_system_status, refreshed.
    destruct (ob_devices o) as [ld| |], (ob_applications o) as [la| |], (ob_gateways o) as [lg| |];
      repeat match goal with
      | H : small_fetch (Fetched ?l) |- _ =>
          first [apply device_stats_ok in H | apply application_stats_ok in H | apply gateway_stats_ok in H]
      end; unfold stats_ok; simpl in *; intuition lia. }
  apply Forall_app in Hs as [Hr Ho]. rewrite Forall_singleton in Ho.
  assert (stats_ok (foldl (fun s o => update_system_status o s) (SystemStatus_new t0) rounds)) as Hb.
  { clear Ho. assert (stats_ok (SystemStatus_new t0)) as H0 by (unfold stats_ok; simpl; lia). revert H0.
    generalize (SystemStatus_new t0). induction Hr as [|x l Hx _ IH]; simpl; [done|]. intros s H0. apply IH. by apply Hstep. }
  assert (forall A B (f : fetched A) (g : A -> B) b, (forall l, f <> Fetched l) -> refreshed f g b = b) as Hk
    by (intros A B [a| |] g b Hn; [by destruct (Hn a) | done | done]).
  refine (conj Hb (conj (Hstep _ _ Ho Hb) _)). split_and!; try (intros Hn; by apply Hk); done.
Qed.

(** The two tests of the gateway listing. *)
Definition gateway_tests (g : GatewayInfo) : list (DeviceInfo -> bool) :=
  [on_gateway "Connected" (gi_gateway_id g); on_gateway "Enrolled" (gi_gateway_id g)].

Lemma other_gateway_tests d gid l : di_gateway_id d = Some gid -> gid ∉ gi_gateway_id <$> l ->
  List.filter (fun p : DeviceInfo -> bool => p d) (flat_map gateway_tests l) = [].
Proof.
  intros Hd. induction l as [|g l IH]; [done|]. rewrite fmap_cons. intros [Hne Hl]%not_elem_of_cons.
  apply String.eqb_neq in Hne.
  assert (forall ph, on_gateway ph (gi_gateway_id g) d = false) as Hf
    by (intros ph; unfold on_gateway; by rewrite Hd, Hne, andb_false_r).
  simpl. rewrite !Hf. by apply IH.
Qed.

Lemma on_gateway_id ph gid d : on_gateway ph gid d = true -> di_status d = ph /\ di_gateway_id d = Some gid.
Proof.
  unfold on_gateway. intros [Hs Hg]%andb_true_iff. apply String.eqb_eq in Hs. split; [done|].
  destruct (di_gateway_id d); [|done]. apply String.eqb_eq in Hg. by subst.
Qed.

(** Connected devices are spread over the gateways: the counts of the gateway
    listing never add up to more than the devices there are. *)
Theorem gateway_counts_bounded (gateways : list GatewayInfo) (devices : list DeviceInfo) (views : list GatewayView) :
  NoDup (gi_gateway_id <$> gateways) ->
  api_gateways (Fetched gateways) (Fetched devices) = Ok views ->
  (sum_list_with (fun v => gv_connected v + gv_enrolled v)%nat views <= length devices)%nat.
Proof.
  intros Hn [= <-].
  transitivity (sum_list_with (fun p => count_if p devices) (flat_map gateway_tests gateways)).
  { clear Hn. induction gateways as [|g l IH]; [done|]. rewrite fmap_cons. simpl in *. lia. }
  apply count_if_disjoint. intros d.
  induction gateways as [|g l IH]; [simpl; lia|]. rewrite fmap_cons in Hn. apply NoDup_cons in Hn as [Hg Hn].
  specialize (IH Hn). simpl.
  destruct (on_gateway "Connected" (gi_gateway_id g) d) eqn:Ec, (on_gateway "Enrolled" (gi_gateway_id g) d) eqn:Ee;
    repeat match goal with H : on_gateway _ _ _ = true |- _ => apply on_gateway_id in H as [? ?] end.
  - congruence.
  - erewrite other_gateway_tests by done. simpl. lia.
  - erewrite other_gateway_tests by done. simpl. lia.
  - done.
Qed.

(** ** Requests to the gateway *)

Section Requests.
Context {W : Type} `{D : DashWorld W} `{P : Parsers} `{Pr : Printer}.
Variable st : Z -> string.

(** What a gateway's reply to the request for device [d] means: [None] when the
    deployment is accepted, else the error reported for [d]. A success status
    is believed unless its body is JSON that does not say [success: true]. *)
Inductive verdict (d : string) : http -> option string -> Prop :=
| says_success status text json :
    200 <= status < 300 -> from_str text = Some json -> vget "success" json = Some (VBool true) ->
    verdict d (HttpResp status text) None
| says_nothing status text :
    200 <= status < 300 -> from_str text = None -> verdict d (HttpResp status text) None
| says_why status text json why :
    200 <= status < 300 -> from_str text = Some json -> vget "success" json <> Some (VBool true) ->
    vget "message" json = Some (VStr why) -> verdict d (HttpResp status text) (Some (d ++ ": " ++ why)%string)
| says_no status text json :
    200 <= status < 300 -> from_str text = Some json -> vget "success" json <> Some (VBool true) ->
    (forall why, vget "message" json <> Some (VStr why)) ->
    verdict d (HttpResp status text) (Some (d ++ ": unknown")%string)
| other_status status text :
    status < 200 \/ 300 <= status -> verdict d (HttpResp status text) (Some (d ++ ": " ++ st status ++ " " ++ text)%string)
| no_answer timeout connect e :
    verdict d (HttpErr timeout connect e) (Some (d ++ ": " ++ e)%string).

(** The gateway at [base] is sent the deployment of the application [app_id],
    called [name], once for each of the targets, in their order: the verdict
    on each, and the world after the last. *)
Inductive deployed_to (base app_id name : string) : list string -> W -> list (option string) -> W -> Prop :=
| deployed_to_none w : deployed_to base app_id name [] w [] w
| deployed_to_next d targets w reply w1 o out w2 :
    http_post (base ++ "/api/v1/devices/" ++ d ++ "/deploy")
      (Some (VObj [("app_id", VStr app_id); ("name", VStr name); ("wasm_bytes", VStr "")]))%string w = (reply, w1) ->
    verdict d reply o -> deployed_to base app_id name targets w1 out w2 ->
    deployed_to base app_id name (d :: targets) w (o :: out) w2.

Definition accepted (o : option string) : bool := match o with None => true | Some _ => false end.

Lemma device_outcome_verdict d r : verdict d r (device_outcome st d r).
Proof.
  destruct r as [timeout connect e|status text]; simpl; [constructor|].
  unfold is_success. destruct ((200 <=? status) && (status <=? 299)) eqn:E; [|apply other_status; lia].
  destruct (from_str text) as [json|] eqn:Ej; [|apply says_nothing; [lia|done]].
  destruct (vget "success" json) as [v|] eqn:Es; simpl.
  1: destruct (default false (as_bool v)) eqn:Eb;
    [assert (v = VBool true) as -> by (by destruct v as [| [] | | | | |]); eapply says_success; [lia|done|done]|].
  all: destruct (vget "message" json ≫= as_str) as [why|] eqn:Em; simpl;
    [apply bind_Some in Em as (v' & Em & Ev); destruct v'; simplify_eq/=; eapply says_why
    |eapply says_no]; try (done || lia); try (intros ?; simplify_eq/=; done).
  all: intros why Hw; by rewrite Hw in Em.
Qed.

Lemma deployed_to_length base app_id name targets w out w2 :
  deployed_to base app_id name targets w out w2 -> length out = length targets.
Proof. induction 1; simpl; congruence. Qed.

Lemma accepted_count_errors out : (count_if accepted out + length (omap id out) = length out)%nat.
Proof.
  unfold count_if. induction out as [|[e|] out IH]; [done| |].
  - change (omap id (Some e :: out)) with (e :: omap id out). simpl in *. lia.
  - change (omap id (None :: out)) with (omap id out). simpl in *. lia.
Qed.

Lemma post_all_deploys cfg app_id app targets n errs s : 0 <= n -> n + zlen targets < 2 ^ 32 ->
  exists out w, deployed_to (trim_end_slashes (dc_gateway_endpoint cfg)) app_id (ai_name app) targets (d_world s) out w /\
    post_all st (deploy_request cfg app_id app) targets n errs s
    = (n + Z.of_nat (count_if accepted out), errs ++ omap id out, mkDash w (d_renode s)).
Proof.
  revert n errs s. induction targets as [|d l IH]; intros n errs s Hn Hl.
  { exists [], (d_world s). split; [constructor|]. simpl. rewrite app_nil_r, Z.add_0_r. by destruct s. }
  unfold zlen in *. simpl length in Hl. simpl. unfold run_post, gateway_url.
  destruct (http_post _ _ (d_world s)) as [r w1] eqn:Er.
  pose proof (device_outcome_verdict d r) as Hv. destruct (device_outcome st d r) as [e|].
  - destruct (IH n (errs ++ [e]) (mkDash w1 (d_renode s))) as (out & w & Ho & ->); [lia..|].
    exists (Some e :: out), w. split; [by econstructor|]. unfold count_if. simpl. by rewrite <- app_assoc.
  - rewrite Z.mod_small by lia.
    destruct (IH (n + 1) errs (mkDash w1 (d_renode s))) as (out & w & Ho & ->); [lia..|].
    exists (None :: out), w. split; [by econstructor|]. unfold count_if. simpl length. do 2 f_equal. lia.
Qed.
End Requests.

Section Handlers.
Context {W : Type} `{D : DashWorld W} `{P : Parsers} `{Pr : Printer}.
Variables (cfg : DashConfig) (now : Z) (st : Z -> string).

(** C34: Deploying through the dashboard: for an application with targets (the
    device names of its specification or, when that names none, the devices its
    status lists), the handler posts the application to
    [<gateway>/api/v1/devices/<device>/deploy] once for each target, in their
    order, and goes on after every kind of failure. It reports how many were
    accepted, which is a success status whose body says [success: true] or is
    not JSON, and for every other target one error with the name of the device
    and the gateway's message, status or the transport error; together they are
    all the targets. It answers success even when nothing was accepted. *)
Theorem deploy_reaches_targets (app_id : string) (s s1 : dash W) (app : ApplicationInfo) (targets : list string) :
  fetch_application now app_id s = (Some (Ok (Some app)), s1) ->
  ai_target_devices app = Some targets -> targets <> [] -> zlen targets < 2 ^ 32 ->
  exists out w a,
    deployed_to st (trim_end_slashes (dc_gateway_endpoint cfg)) app_id (ai_name app) targets (d_world s1) out w /\
    deploy_application_by_id cfg now st app_id s = (Some (Ok a), mkDash w (d_renode s1)) /\ a_success a = true /\
    a_data a = [("initiated", VNum (Z.of_nat (count_if accepted out))); ("errors", VArr (VStr <$> omap id out))]%string /\
    Z.of_nat (count_if accepted out) + zlen (omap id out) = zlen targets.
Proof.
  intros Hf Ht Hne Hl. unfold deploy_application_by_id, on_targets. rewrite Hf, Ht.
  change (default [] (Some targets)) with targets.
  destruct (post_all_deploys st cfg app_id app targets 0 [] s1) as (out & w & Ho & Hp); [lia|lia|].
  exists out, w. destruct targets as [|d l]; [done|]. rewrite Hp.
  eexists. split_and!; [done | reflexivity | done | done |].
  pose proof (accepted_count_errors out). apply deployed_to_length in Ho. unfold zlen. lia.
Qed.

(** ** The terminal *)

(** Characters with which a command could run another one or touch a file. *)
Definition shell_special (a : ascii) : bool :=
  existsb (Ascii.eqb a) (ascii_of_nat <$> [10; 34; 36; 39; 40; 41; 59; 60; 62; 92; 96; 124]%nat).

(** The terminal route runs nothing but its fixed list: a command that is not, to the
    letter, one of the 36 is refused without any effect; and no command of the
    list contains a quote, a semicolon, a pipe, a redirection, a substitution or
    a newline. *)
Theorem terminal_allow_list (command : string) (s : dash W) :
  let '(r, s') := execute_terminal_command command s in
  if bool_decide (command ∈ allowed_commands) then
    s' = mkDash (shell command (d_world s)).2 (d_renode s) /\ all_chars (fun a => negb (shell_special a)) command = true
  else s' = s /\ te_success r = false /\ te_output r = ""%string.
Proof.
  unfold execute_terminal_command. case_bool_decide as Hin; simpl; [|done].
  destruct (shell command (d_world s)) as [c w]. split; [done|].
  assert (Forall (fun c => all_chars (fun a => negb (shell_special a)) c = true) allowed_commands) as Hall
    by (apply Forall_forall; intros x Hx; revert x Hx; apply Forall_forall; vm_compute; repeat constructor).
  by apply (proj1 (Forall_forall _ _) Hall).
Qed.
End Handlers.

(** ** Batches *)

Lemma string_app_inj_l (a b c : string) : (a ++ b)%string = (a ++ c)%string -> b = c.
Proof. induction a; simpl; [done|]. intros [= ?]. auto. Qed.

(** The names of a batch are distinct. *)
Lemma batch_names_nodup base count : NoDup (batch_names base count).
Proof.
  unfold batch_names. apply NoDup_fmap_2_strong; [|apply NoDup_seq].
  intros i j Hi Hj. apply elem_of_seq in Hi, Hj. unfold numbered. destruct (Z.eqb_spec count 1); [lia|].
  intros E. apply string_app_inj_l, string_app_inj_l in E. apply (inj pretty) in E. lia.
Qed.

Lemma batch_names_length base count : length (batch_names base count) = Z.to_nat count.
Proof. unfold batch_names. by rewrite length_fmap, length_seq. Qed.

Section Batches.
Context {W : Type}.

(** A step that adds one item or one error keeps the account. *)
Lemma for_each_accounts (names : list string) (f : string -> batch -> dash W -> batch * dash W) (s s' : dash W) (b : batch)
    (R : list string -> batch -> dash W -> Prop) :
  R [] (mkBatch [] []) s ->
  (forall done name b s, name ∈ names -> R done b s -> R (done ++ [name]) (f name b s).1 (f name b s).2) ->
  for_each names f s = (b, s') -> R names b s'.
Proof.
  intros H0 Hs E. unfold for_each in E.
  assert (forall l, l `prefix_of` names ->
    R l (foldl (fun bs name => f name bs.1 bs.2) (mkBatch [] [], s) l).1
        (foldl (fun bs name => f name bs.1 bs.2) (mkBatch [] [], s) l).2) as H.
  { induction l as [|x l IH] using rev_ind; intros Hp; [done|]. rewrite foldl_app. simpl.
    apply Hs; [|apply IH; by eapply prefix_app_l].
    destruct Hp as [k ->]. rewrite !elem_of_app, elem_of_cons. auto. }
  specialize (H names ltac:(done)). rewrite E in H. done.
Qed.
End Batches.

Section CreateDevice.
Context {W : Type} `{D : DashWorld W} `{P : Parsers}.
Variables (cfg : DashConfig) (st : Z -> string) (et : manager_error -> string).

(** The names of the items a batch created. *)
Definition created_ids (b : batch) : list string := omap (fun v => as_str (idx v ["id"%string])) (b_created b).

(** What holds while devices are created: every name so far was created or has
    an error, the created ones are in the manager's table, and no device that
    was there before has changed. *)
Definition accounted (s0 : dash W) (done : list string) (b : batch) (s : dash W) : Prop :=
  (length (b_created b) + length (b_errors b) = length done)%nat /\
  length (created_ids b) = length (b_created b) /\
  Forall (fun n => n ∈ done /\ is_Some (d_renode s !! n)) (created_ids b) /\
  d_renode s0 ⊆ d_renode s.

Lemma created_ids_snoc l errs v n : as_str (idx v ["id"%string]) = Some n ->
  created_ids (mkBatch (l ++ [v]) errs) = created_ids (mkBatch l errs) ++ [n].
Proof. intros E. unfold created_ids; simpl. rewrite omap_app. f_equal. simpl.
  unfold idx in E; simpl in E. by rewrite E.
Qed.

Lemma run_post_renode url body (s : dash W) : d_renode (run_post url body s).2 = d_renode s.
Proof. unfold run_post. by destruct (http_post url body (d_world s)). Qed.

Lemma accounted_failed s0 ns b s name m :
  accounted s0 ns b s -> accounted s0 (ns ++ [name]) (failed_item b m) s.
Proof.
  intros (H1 & H2 & H3 & H4). unfold accounted, failed_item; simpl. rewrite !length_app; simpl. split_and!; [lia|done| |done].
  eapply Forall_impl; [exact H3|]. intros n [? ?]. split; [apply elem_of_app; auto|done].
Qed.

Lemma accounted_created s0 ns b s s' r name ep :
  accounted s0 ns b s -> d_renode s ⊆ d_renode s' -> is_Some (d_renode s' !! name) ->
  accounted s0 (ns ++ [name]) (created_device r name ep b) s'.
Proof.
  intros (H1 & H2 & H3 & H4) Hs Hn. unfold accounted, created_device.
  rewrite (created_ids_snoc _ _ _ name) by done. simpl. rewrite !length_app; simpl. split_and!.
  - lia.
  - unfold created_ids in *. simpl in *. lia.
  - apply Forall_app_2.
    + eapply Forall_impl; [exact H3|]. intros n [? [x Hx]]. split; [apply elem_of_app; auto|].
      exists x. by eapply lookup_weaken.
    + constructor; [|done]. split; [apply elem_of_app; right; by left|done].
  - by transitivity (d_renode s).
Qed.

Lemma accounted_weaken s0 ns b s s' : accounted s0 ns b s -> d_renode s' = d_renode s -> accounted s0 ns b s'.
Proof. unfold accounted. by intros H ->. Qed.

Lemma create_one_accounts s0 endpoint r name ns b s :
  accounted s0 ns b s ->
  let out := create_one_device st et endpoint r name b s in accounted s0 (ns ++ [name]) out.1 out.2.
Proof.
  intros Ha. unfold create_one_device. pose proof (run_post_renode (endpoint ++ "/api/v1/devices") (Some (device_payload r name)) s) as Hr.
  destruct (run_post _ _ s) as [[t c e|status text] s1]; simpl in Hr.
  - simpl. apply accounted_failed. by eapply accounted_weaken.
  - assert (accounted s0 ns b s1) as Ha1 by (by eapply accounted_weaken).
    destruct (is_success status); simpl; [|by apply accounted_failed].
    destruct (d_renode s1 !! name) as [existing|] eqn:En; simpl.
    + apply (accounted_created s0 ns b s1); [done|done|by rewrite En].
    + unfold manager_create, create_device. rewrite En. simpl.
      apply (accounted_created s0 ns b s1); [done| |]; simpl.
      * by apply insert_subseteq.
      * by rewrite lookup_insert_eq.
Qed.

(** Creating devices in a batch: every requested device is accounted for, as created
    or with an error of its own; the names are distinct; a created device is in
    the emulator manager's table and no device that was there before is changed
    or removed, whichever requests fail; and the answer is a failure exactly when
    devices were asked for and none was created. *)
Theorem create_device_accounts (request : value) (s s1 s' : dash W) (endpoint : string) (a : answer) :
  let r := device_request request in
  creation_endpoint cfg (dr_gateway r) s = (Some endpoint, s1) ->
  dash_create_device cfg st et request s = (Some (Ok a), s') ->
  exists b, (length (b_created b) + length (b_errors b) = Z.to_nat (dr_count r))%nat /\
    NoDup (batch_names (dr_name r) (dr_count r)) /\
    Forall (fun n => n ∈ batch_names (dr_name r) (dr_count r) /\ is_Some (d_renode s' !! n)) (created_ids b) /\
    length (created_ids b) = length (b_created b) /\ d_renode s1 ⊆ d_renode s' /\
    (a_success a = false <-> b_created b = [] /\ b_errors b <> []).
Proof.
  intros r He Hc. unfold dash_create_device in Hc. fold r in Hc. rewrite He in Hc.
  destruct (for_each (batch_names (dr_name r) (dr_count r)) (create_one_device st et endpoint r) s1) as [b s2] eqn:Ef.
  assert (accounted s1 (batch_names (dr_name r) (dr_count r)) b s2) as (H1 & H2 & H3 & H4).
  { eapply (for_each_accounts _ _ _ _ _ (accounted s1)); [| |exact Ef].
    - unfold accounted; simpl. split_and!; [done|done|constructor|done].
    - intros ns name b0 s0 _ Ha. by apply create_one_accounts. }
  rewrite batch_names_length in H1. exists b.
  assert (s2 = s' /\ (a_success a = false <-> b_created b = [] /\ b_errors b <> [])) as [-> Ha].
  { destruct (b_created b) as [|v l] eqn:Eb, (b_errors b) as [|e l'] eqn:Ee; injection Hc as <- <-; simpl; naive_solver. }
  split_and!; try done. apply batch_names_nodup.
Qed.
End CreateDevice.

(** ** Connecting *)

Section Connect.
Context {W : Type} `{D : DashWorld W} `{P : Parsers} `{Pr : Printer}.
Variables (cfg : DashConfig) (hash_name : string -> Z) (now : Z) (now_text : string) (st : Z -> string).

Definition start_url (device_id : string) : string :=
  ("http://localhost:3001/api/v1/devices/" ++ device_id ++ "/renode/start")%string.

Definition started_ok (r : http) : bool := match r with HttpResp status _ => is_success status | HttpErr _ _ _ => false end.

(** The connect route never claims more than it knows: once the device was found, it
    asks for the emulation to start; when that fails it writes nothing to the
    cluster and answers failure; when it succeeds it writes one status, whose
    phase is Enrolling and never Connected, and answers success exactly when that
    write succeeded. *)
Theorem connect_reports_truthfully (device_id : string) (s s1 s' : dash W) (info : DeviceInfo) (a : answer) :
  fetch_device now device_id s = (Some (Ok (Some info)), s1) ->
  connect_handler cfg hash_name now now_text st device_id s = (Some (Ok a), s') ->
  let s2 := register_with_gateway device_id (env_gateway cfg) s1 in
  let start := run_post (start_url device_id) (Some (VObj [("gatewayEndpoint"%string, VStr (env_gateway cfg))])) s2 in
  let patch := patch_status device_id (attach_patch now_text "Enrolling" (default "gateway-1"%string (di_gateway_id info))
                 (bridge_endpoint hash_name device_id) [("pairingMode"%string, VBool false)]) start.2 in
  if started_ok start.1 then s' = patch.2 /\ a_success a = succeeded patch.1
  else s' = start.2 /\ a_success a = false.
Proof.
  intros Hf Hc. unfold connect_handler in Hc. rewrite Hf in Hc. simpl.
  unfold start_url. destruct (run_post _ _ (register_with_gateway device_id (env_gateway cfg) s1)) as [[t c e|status text] s3]; simpl in *.
  - by injection Hc as <- <-.
  - destruct (is_success status); simpl in Hc |- *; [|by injection Hc as <- <-].
    destruct (patch_status _ _ s3) as [[e|[|] out err] s4]; by injection Hc as <- <-.
Qed.

(** The unreached [connect_device] answers Connected whatever happened. *)
Theorem legacy_connect_always_succeeds `{Sha256} (device_id : string) (s s1 : dash W) (info : option DeviceInfo) :
  fetch_device now device_id s = (Some (Ok info), s1) ->
  exists a s', legacy_connect_device cfg hash_name now now_text device_id s = (Some (Ok a), s') /\
    a_success a = true /\ a_data a = [("status", VStr "Connected")]%string.
Proof.
  intros Hf. unfold legacy_connect_device. rewrite Hf.
  by eexists _, _.
Qed.
End Connect.

(** ** Toggling a gateway *)

(** The status of a custom resource with a status subresource changes only
    through that subresource: other requests leave it. *)
Class StatusSubresource {W} (D : DashWorld W) (phase : W -> string -> option string) : Prop := {
  get_keeps id w : phase (kubectl ["get"; "gateways.wasmbed.io"; id; "-n"; "wasmbed"; "-o"; "json"]%string "" w).2 = phase w;
  patch_keeps id text w :
    phase (kubectl ["patch"; "gateways.wasmbed.io"; id; "-n"; "wasmbed"; "--type"; "merge"; "--patch"; text]%string "" w).2
    = phase w;
}.

(** The toggle route patches the status without naming the subresource: no
    gateway ever changes its phase, also when the route answers that it did. *)
Theorem toggle_changes_nothing {W} `{D : DashWorld W} `{P : Parsers} (phase : W -> string -> option string)
    `{L : !StatusSubresource D phase} (id : string) (s : dash W) :
  phase (d_world (toggle_gateway id s).2) = phase (d_world s).
Proof.
  unfold toggle_gateway, run_kubectl, answer_or_500. pose proof (get_keeps id (d_world s)) as Hg.
  destruct (kubectl _ "" (d_world s)) as [[e|[|] out err] w]; simpl in *; try done.
  destruct (from_str out) as [j|]; [|done]. simpl.
  match goal with |- context [phase_patch_text ?t] => pose proof (patch_keeps id (phase_patch_text t) w) as Hp end.
  destruct (kubectl _ "" w) as [c w']. simpl in *. by rewrite Hp, Hg.
Qed.

(** ** Manifests *)

(** The fields of a manifest are not quoted: a description can carry a line of
    its own, so different requests give the same manifest. *)
Theorem manifest_not_injective (name d w1 w2 : string) (targets : list string) :
  application_yaml name (d ++ nl ++ "  wasmBytes: " ++ w1) w2 targets
  = application_yaml name d (w1 ++ nl ++ "  wasmBytes: " ++ w2) targets.
Proof. unfold application_yaml. by rewrite <- !string_app_assoc. Qed.

(** ** Views *)

Lemma collect_items_all {A} (f : value -> option (option A)) items l :
  (forall i, i ∈ items -> f i <> Some None) -> collect_items f items = Some l ->
  Forall2 (fun i a => f i = Some (Some a)) items l.
Proof.
  revert l. induction items as [|i items IH]; intros l Hs; simpl; [by intros [= <-]|].
  destruct (f i) as [[a|]|] eqn:Ef; simpl; [|by destruct (Hs i ltac:(by left))|done].
  destruct (collect_items f items) as [rest|]; [|done]. intros [= <-]. constructor; [done|].
  apply IH; [|done]. intros j Hj. apply Hs. by right.
Qed.

Lemma device_texts now i d : device_of_item now i = Some (Some d) ->
  di_gateway_id d <> Some ""%string /\ di_public_key d <> Some ""%string.
Proof.
  unfold device_of_item, with_metadata. destruct (as_object _); [|done]. destruct (obj_get _ _); [|done].
  intros [= <-]; simpl. split.
  - unfold gateway_id_of, filter_str, Dashboard.non_empty. repeat (case_match; try done); intros [= ->]; done.
  - unfold public_key_of. repeat (case_match; try done); intros [= E];
      match goal with H : String.eqb (trim _) "" = false |- _ => by rewrite E in H end.
Qed.

(** The device listing: when the answer of kubectl parses and every item has a name,
    the devices are exactly the items, in order; a device's gateway is reported
    only if the item names a non-empty one, its key is the trimmed key of the
    specification, never empty, and its phase is Pending unless the item has one.
    An item with metadata but no name brings the whole listing down. *)
Theorem device_listing `{P : Parsers} (now : Z) (stdout stderr : string) (j : value) (items : list value) :
  from_str stdout = Some j -> as_array (idx j ["items"%string]) = Some items ->
  Forall (fun i => exists fs, as_object (idx i ["metadata"%string]) = Some fs) items ->
  match get_all_devices now (CmdDone true stdout stderr) with
  | None => exists i fs, i ∈ items /\ as_object (idx i ["metadata"%string]) = Some fs /\ obj_get "name" fs = None
  | Some (Err _) => False
  | Some (Ok ds) => Forall2 (fun i d => device_of_item now i = Some (Some d)) items ds /\
      Forall (fun d => di_gateway_id d <> Some ""%string /\ di_public_key d <> Some ""%string) ds
  end.
Proof.
  intros Hj Hi Hm. unfold get_all_devices, kubectl_items. cbn [negb]. rewrite Hj, Hi.
  change (default [] (Some items)) with items. clear Hj Hi.
  assert (forall i, i ∈ items -> device_of_item now i <> Some None) as Hs.
  { intros i Hin. destruct (proj1 (Forall_forall _ _) Hm i Hin) as [fs Hfs].
    unfold device_of_item, with_metadata. rewrite Hfs. by destruct (obj_get "name" fs). }
  destruct (collect_items (device_of_item now) items) as [ds|] eqn:Ec.
  - apply collect_items_all in Ec; [|done]. split; [done|].
    clear Hm Hs. induction Ec as [|i d its ds Hd _ IH]; constructor; [|done].
    by eapply device_texts.
  - induction items as [|i items IH]; [done|]. apply Forall_cons in Hm as [[fs Hfs] Hm]. simpl in Ec.
    destruct (device_of_item now i) as [o|] eqn:Ei.
    + simpl in Ec. destruct (collect_items (device_of_item now) items) as [rest|]; [done|].
      destruct IH as (i' & fs' & ? & ? & ?); [done|intros; apply Hs; by right|done|]. exists i', fs'. split_and!; [by right|done..].
    + exists i, fs. split_and!; [by left|done|]. unfold device_of_item, with_metadata in Ei. rewrite Hfs in Ei.
      by destruct (obj_get "name" fs).
Qed.

(** The routes do not overlap. *)
Theorem dash_routes_unambiguous (m : http_method) (path : list string) (p q : list segment) (h k : dash_handler) :
  (p, m, h) ∈ dash_router -> (q, m, k) ∈ dash_router -> matches p path = true -> matches q path = true -> h = k.
Proof. apply table_unambiguous. vm_compute. reflexivity. Qed.

(** The lines of a log are numbered from one and stamped a second apart, the
    last one a second ago. *)
Theorem log_lines_stamped (now : Z) (component : string -> string) (stdout : string) (i : nat) (l : LogLine) :
  log_lines now component stdout !! i = Some l ->
  ll_id l = Z.of_nat i + 1 /\ ll_timestamp l = now - (zlen (lines stdout) - Z.of_nat i) /\ ll_timestamp l < now.
Proof.
  unfold log_lines. rewrite list_lookup_imap. destruct (lines stdout !! i) as [x|] eqn:E; [|done].
  intros [= <-]; simpl. apply lookup_lt_Some in E. unfold zlen. lia.
Qed.

(** ** Witnesses *)

(** A world that records what it is asked; the first gateway is down. *)
#[local] Instance demo_world : DashWorld (list string) := {|
  kubectl args stdin w := (CmdDone true (DashboardApi.join " " args) "", w ++ [DashboardApi.join " " args]);
  shell c w := (CmdDone true "done" "", w ++ [c]);
  http_post url _ w := (if str_contains url "dev-1" then HttpErr false true "refused" else HttpResp 200 "accepted", w ++ [url]);
  http_get url w := (HttpResp 200 "", w ++ [url]);
  env_of _ := mkQenv true (mkRenodeEnv None None) None "/ws" "/tmp" (fun _ => None) (fun _ => None) (fun _ => None)
    (fun _ => None) None (fun _ => true) (fun _ _ => Ok tt) (fun _ => Ok tt) (fun _ => Ok true) (fun _ => Ok 1)
    (fun _ _ => Ok tt) (fun _ => None) (fun _ => None) (fun _ => None) (fun _ => None);
  qrun _ w := w;
|}.

Definition named (n : string) (fields : list (string * value)) : value :=
  VObj ([("metadata", VObj [("creationTimestamp", VStr "now"); ("name", VStr n)])]%string ++ fields).

Definition demo_apps : value :=
  VObj [("items", VArr [named "blink" [("spec", VObj [("targetDevices",
    VObj [("deviceNames", VArr [VStr "dev-1"; VStr "dev-2"])])])]])]%string.
Definition demo_devices : value := VObj [("items", VArr [named "dev-2" []])]%string.

#[local] Instance demo_parsers : Parsers := {|
  from_str s := if str_contains s "applications" then Some demo_apps
                else if str_contains s "devices" then Some demo_devices
                else if String.eqb s "accepted" then Some (VObj [("success", VBool true)]%string) else None;
  parse_rfc3339 _ := Some 7;
|}.
#[local] Instance demo_printer : Printer := fun _ => "{}"%string.

Definition demo_config : DashConfig := mkDashConfig 3001 "http://gw:8080/" None "".
Definition demo_state : dash (list string) := mkDash [] ∅.
Definition demo_app : ApplicationInfo :=
  mkApplicationInfo "blink" (Some "blink"%string) "blink" "unknown:latest" "Pending" [] 0 7 (Some ["dev-1"; "dev-2"]%string) (Some 7).

Lemma deploy_reaches_targets_witness :
  exists out w a, deployed_to pretty "http://gw:8080" "blink" "blink" ["dev-1"; "dev-2"]%string
      ["get applications.wasmbed.github.io -n wasmbed -o json"]%string out w /\
    deploy_application_by_id demo_config 9 pretty "blink" demo_state = (Some (Ok a), mkDash w ∅) /\
    a_data a = [("initiated", VNum 1); ("errors", VArr [VStr "dev-1: refused"])]%string.
Proof.
  destruct (deploy_reaches_targets demo_config 9 pretty "blink" demo_state
    (mkDash ["get applications.wasmbed.github.io -n wasmbed -o json"]%string ∅) demo_app ["dev-1"; "dev-2"]%string)
    as (out & w & a & H1 & H2 & _); [vm_compute; reflexivity | reflexivity | discriminate | vm_compute; reflexivity |].
  exists out, w, a. split_and!; [exact H1 | exact H2 |].
  vm_compute in H2. by injection H2 as <- _.
Defined.

Lemma create_device_accounts_witness :
  exists b, (length (b_created b) + length (b_errors b) = 3)%nat.
Proof.
  destruct (create_device_accounts (W := list string) demo_config pretty (fun _ => "error"%string)
    (VObj [("count", VNum 3); ("name", VStr "node")]%string) demo_state
    (mkDash ["get gateways.wasmbed.io -n wasmbed -o json"]%string ∅)
    (dash_create_device demo_config pretty (fun _ => "error"%string)
       (VObj [("count", VNum 3); ("name", VStr "node")]%string) demo_state).2 "http://gw:8080/"
    (match (dash_create_device demo_config pretty (fun _ => "error"%string)
       (VObj [("count", VNum 3); ("name", VStr "node")]%string) demo_state).1 with
     | Some (Ok a) => a | _ => mkAnswer false "" [] end)) as (b & H & _);
    [vm_compute; reflexivity | vm_compute; reflexivity |].
  by exists b.
Defined.

Lemma connect_reports_truthfully_witness :
  exists a s', connect_handler demo_config (fun _ => 5) 9 "t" pretty "dev-2" demo_state = (Some (Ok a), s') /\ a_success a = true.
Proof.
  destruct (connect_handler demo_config (fun _ => 5) 9 "t" pretty "dev-2" demo_state) as [[[a|]|] s'] eqn:E;
    [|vm_compute in E; discriminate..].
  exists a, s'. split; [done|].
  assert (fetch_device 9 "dev-2" demo_state
    = (Some (Ok (Some (mkDeviceInfo "dev-2" "MCU" "ARM_CORTEX_M" "Pending" (Some 9) None (Some "Mps2An385"%string) None))),
       mkDash ["get devices.wasmbed.github.io -n wasmbed -o json"]%string ∅)) as Hf by (vm_compute; reflexivity).
  pose proof (connect_reports_truthfully demo_config (fun _ => 5) 9 "t" pretty "dev-2" demo_state
    (mkDash ["get devices.wasmbed.github.io -n wasmbed -o json"]%string ∅) s'
    (mkDeviceInfo "dev-2" "MCU" "ARM_CORTEX_M" "Pending" (Some 9) None (Some "Mps2An385"%string) None) a
    Hf E) as H.
  vm_compute in H. apply H.
Defined.

Lemma status_stays_consistent_witness :
  stats_ok (update_system_status (mkObservation (Fetched []) FetchFailed FetchTimeout (CmdErr "") (CmdErr "") (CmdErr "") None 5)
    (SystemStatus_new 0)).
Proof.
  refine (proj1 (proj2 (status_stays_consistent 0 []
    (mkObservation (Fetched []) FetchFailed FetchTimeout (CmdErr "") (CmdErr "") (CmdErr "") None 5) _))).
  repeat constructor.
Defined.

Lemma device_listing_witness :
  exists ds, get_all_devices 9 (CmdDone true "devices" "") = Some (Ok ds) /\ length ds = 1%nat.
Proof.
  pose proof (device_listing 9 "devices" "" demo_devices [named "dev-2" []] eq_refl eq_refl) as H.
  destruct (get_all_devices 9 (CmdDone true "devices" "")) as [[ds|e]|] eqn:E; [|vm_compute in E; discriminate..].
  exists ds. split; [done|]. destruct H as [H _]; [|by apply Forall2_length in H].
  constructor; [|done]. eexists. vm_compute. reflexivity.
Defined.
