(* ===== verification/DashboardPages.v ===== *)
(** * The HTML pages of the dashboard: [wasmbed-api-server/src/templates.rs]

    The rows that the pages put into their tables and the values that the
    home page fills in. The fixed text around them is not part of the model:
    a page is its table's rows between two texts. The debug format of a time
    and the decimal format of a metric are parameters. *)

From stdpp Require Import pretty.
From Stdlib Require Import Strings.Ascii.
From S2P Require Import Prelude.
From S2P Require Import RustStd.
From S2P Require Import Text.
From S2P Require Import Renode.
From S2P Require Import Dashboard.
From S2P Require Import DashboardApi.
Local Open Scope Z_scope.

Definition spaces12 : string := "            ".
Definition spaces16 : string := "                ".
Definition spaces20 : string := "                    ".

Definition cell (s : string) : string := (spaces20 ++ "<td>" ++ s ++ "</td>" ++ newline)%string.

Definition str_concat (l : list string) : string := foldr String.append EmptyString l.

(** The text of one [format!] of a row. *)
Definition table_row (cells : list string) : string :=
  (newline ++ spaces16 ++ "<tr>" ++ newline ++ str_concat (map cell cells) ++
   spaces16 ++ "</tr>" ++ newline ++ spaces12)%string.

(** [{:?}] of a time, [{}] of an [f64] *)
Class Formats := { fmt_time : Z -> string; fmt_value : Z -> string }.

Definition synthetic_badge (is_synthetic : bool) : string :=
  if is_synthetic
  then ("<span style=" ++ quoted "color:#b00; font-weight:bold;" ++ ">SYNTHETIC (not measured)</span>")%string
  else "real".

Section Pages.
Context `{F : Formats}.

Definition device_cells (d : DeviceInfo) : list string :=
  [di_device_id d; di_device_type d; di_architecture d; di_status d;
   match di_last_heartbeat d with Some t => fmt_time t | None => "Never"%string end;
   default "None"%string (di_gateway_id d)].

Definition application_cells (a : ApplicationInfo) : list string :=
  [ai_app_id a; ai_name a; ai_image a; ai_status a; join ", " (ai_deployed_devices a); fmt_time (ai_created_at a)].

Definition gateway_cells (g : GatewayInfo) : list string :=
  [gi_gateway_id g; gi_endpoint g; gi_status g; pretty (gi_connected_devices g); pretty (gi_enrolled_devices g)].

Definition metric_cells (m : DashMetric) : list string :=
  [dm_name m; fmt_value (dm_value m); fmt_time (dm_timestamp m); synthetic_badge (dm_is_synthetic m)].

(** The rows of a page: [collect::<Vec<_>>().join("")] *)
Definition rows {A} (cells : A -> list string) (l : list A) : string :=
  str_concat (map (fun a => table_row (cells a)) l).

(** [head] and [tail] are the fixed text of the page. *)
Definition render {A} (head tail : string) (cells : A -> list string) (l : list A) : string :=
  (head ++ rows cells l ++ tail)%string.

Definition render_devices head tail := render head tail device_cells.
Definition render_applications head tail := render head tail application_cells.
Definition render_gateways head tail := render head tail gateway_cells.
Definition render_monitoring head tail := render head tail metric_cells.

(** The values of the home page, in the order of its text. *)
Definition dashboard_values (s : SystemStatus) : list string :=
  let d := ss_devices s in
  let a := ss_applications s in
  let g := ss_gateways s in
  let i := ss_infrastructure s in
  [pretty (dst_total d); pretty (dst_connected d); pretty (dst_enrolled d); pretty (dst_unreachable d);
   pretty (ast_total a); pretty (ast_running a); pretty (ast_pending a); pretty (ast_failed a);
   pretty (gst_total g); pretty (gst_active g); pretty (gst_inactive g);
   ist_ca i; ist_secret_store i; ist_monitoring i; ist_logging i;
   pretty (ss_uptime s); fmt_time (ss_last_update s)].

(** The page handlers: a manager that fails is a 500, one that panics ends the
    request. *)
Definition page {A} (listing : option (result string (list A))) (html : list A -> string) : option (result Z string) :=
  let* r := listing in Some (match r with Ok l => Ok (html l) | Err _ => Err 500 end).

Context `{P : Parsers}.

Definition devices_page (head tail : string) (now : Z) (output : cmd) : option (result Z string) :=
  page (get_all_devices now output) (render_devices head tail).
Definition applications_page (head tail : string) (now : Z) (output : cmd) : option (result Z string) :=
  page (get_all_applications now output) (render_applications head tail).
Definition gateways_page (head tail : string) (output : cmd) : option (result Z string) :=
  page (get_all_gateways output) (render_gateways head tail).
Definition monitoring_page (head tail : string) (endpoint : string) (a : metrics_answer) (t1 t2 t3 : Z) :
    result Z string :=
  Ok (render_monitoring head tail (monitoring_get_metrics endpoint a t1 t2 t3)).
End Pages.

(** ** A reader of the tables *)

(** The text up to the next [<], and the rest from it. *)
Fixpoint until_lt (s : string) : string * string :=
  match s with
  | EmptyString => (EmptyString, EmptyString)
  | String c s' =>
      if Ascii.eqb c "<"%char then (EmptyString, s)
      else let (a, b) := until_lt s' in (String c a, b)
  end.

(** The texts that follow a [<td>], each up to the next tag; a tag that is no
    [<td>] is skipped. *)
Fixpoint read_cells_fuel (fuel : nat) (s : string) : list string :=
  match fuel with
  | O => []
  | S fuel =>
      match strip_prefix "<td>" s with
      | Some s' => let (a, b) := until_lt s' in a :: read_cells_fuel fuel b
      | None => match s with EmptyString => [] | String _ s' => read_cells_fuel fuel s' end
      end
  end.

Definition read_cells (s : string) : list string := read_cells_fuel (S (String.length s)) s.

Fixpoint no_lt (s : string) : bool :=
  match s with EmptyString => true | String c s => negb (Ascii.eqb c "<"%char) && no_lt s end.


Lemma append_nil_r (a : string) : (a ++ "")%string = a.
Proof. induction a as [|c a IH]; [done|]. by rewrite append_cons, IH. Qed.

Lemma until_lt_app a b : no_lt a = true -> until_lt (a ++ String "<"%char b) = (a, String "<"%char b).
Proof.
  induction a as [|c a IH]; intros H; [done|]. simpl in H. apply andb_true_iff in H as [Hc Ha].
  rewrite append_cons. cbn [until_lt]. apply negb_true_iff in Hc. rewrite Hc, (IH Ha). done.
Qed.

(** More fuel than text changes nothing. *)
Lemma until_lt_length s : (String.length (until_lt s).2 <= String.length s)%nat.
Proof.
  induction s as [|c s IH]; simpl; [lia|]. destruct (Ascii.eqb c "<"); [simpl; lia|].
  destruct (until_lt s) as [a b]. simpl in *. lia.
Qed.

Lemma strip_td_length s s' : strip_prefix "<td>" s = Some s' -> String.length s = (4 + String.length s')%nat.
Proof.
  intros H. do 4 (destruct s as [|? s]; cbn [strip_prefix] in H; [done|]; destruct (Ascii.eqb _ _); [|done]).
  injection H as <-. done.
Qed.

Lemma read_fuel_enough s f1 f2 :
  (String.length s < f1)%nat -> (String.length s < f2)%nat -> read_cells_fuel f1 s = read_cells_fuel f2 s.
Proof.
  revert s f2. induction f1 as [|f1 IH]; intros s f2 H1 H2; [lia|]. destruct f2 as [|f2]; [lia|].
  cbn [read_cells_fuel]. destruct (strip_prefix "<td>" s) as [s'|] eqn:E.
  - apply strip_td_length in E. pose proof (until_lt_length s') as Hl.
    destruct (until_lt s') as [a b]. simpl in Hl. f_equal. apply IH; lia.
  - destruct s as [|c s]; [done|]. simpl in *. apply IH; lia.
Qed.

(** One step of the reader on text that starts no cell. *)
Lemma read_skip c s : strip_prefix "<td>" (String c s) = None -> read_cells (String c s) = read_cells s.
Proof. intros E. unfold read_cells. cbn [read_cells_fuel String.length]. by rewrite E. Qed.

Lemma read_step n s s' a b :
  strip_prefix "<td>" s = Some s' -> until_lt s' = (a, b) -> read_cells_fuel (S n) s = a :: read_cells_fuel n b.
Proof. intros E1 E2. cbn [read_cells_fuel]. by rewrite E1, E2. Qed.

Lemma read_cell a s :
  no_lt a = true -> read_cells ("<td>" ++ a ++ String "<"%char s) = a :: read_cells (String "<"%char s).
Proof.
  intros Ha. unfold read_cells.
  rewrite (read_step _ _ _ _ _ (strip_prefix_app "<td>" (a ++ String "<"%char s)) (until_lt_app a s Ha)).
  f_equal. apply read_fuel_enough; rewrite ?length_append; simpl; lia.
Qed.

(** Text without a cell in front of what is read is skipped. *)
Fixpoint inert (p : string) : bool :=
  match p with
  | EmptyString => true
  | String c p' =>
      (negb (Ascii.eqb c "<"%char) ||
       match p' with String d _ => negb (Ascii.eqb d "t"%char) | EmptyString => false end ||
       match p' with String _ (String e _) => negb (Ascii.eqb e "d"%char) | _ => false end) && inert p'
  end.

Lemma inert_no_td c p s : inert (String c p) = true -> strip_prefix "<td>" (String c p ++ s) = None.
Proof.
  cbn [inert]. intros [H _]%andb_true_iff. rewrite append_cons. cbn [strip_prefix].
  destruct (Ascii.eqb_spec "<" c) as [<-|]; [|done]. rewrite Ascii.eqb_refl in H. cbn [negb orb] in H.
  destruct p as [|d p]; [done|]. rewrite append_cons. cbn [strip_prefix].
  destruct (Ascii.eqb_spec "t" d) as [<-|]; [|done]. rewrite Ascii.eqb_refl in H. cbn [negb orb] in H.
  destruct p as [|e p]; [done|]. rewrite append_cons. cbn [strip_prefix].
  destruct (Ascii.eqb_spec "d" e) as [<-|]; [|done]. by rewrite Ascii.eqb_refl in H.
Qed.

Lemma read_inert p s : inert p = true -> read_cells (p ++ s) = read_cells s.
Proof.
  induction p as [|c p IH]; intros H; [done|]. rewrite append_cons, read_skip.
  - apply IH. cbn [inert] in H. by apply andb_true_iff in H as [_ ?].
  - rewrite <- append_cons. by apply inert_no_td.
Qed.

Lemma read_cell_line a s : no_lt a = true -> read_cells (cell a ++ s) = a :: read_cells s.
Proof.
  intros Ha. unfold cell. rewrite <- !string_app_assoc.
  rewrite read_inert by reflexivity.
  change ("</td>" ++ newline ++ s)%string with (String "<"%char ("/td>" ++ newline ++ s)).
  by rewrite read_cell.
Qed.

Lemma read_cell_lines l s :
  forallb no_lt l = true -> read_cells (str_concat (map cell l) ++ s) = l ++ read_cells s.
Proof.
  induction l as [|a l IH]; intros H; [done|]. simpl in H. apply andb_true_iff in H as [Ha Hl].
  change (str_concat (map cell (a :: l))) with (cell a ++ str_concat (map cell l))%string.
  rewrite <- string_app_assoc, read_cell_line, IH by done. done.
Qed.

Lemma read_row l s : forallb no_lt l = true -> read_cells (table_row l ++ s) = l ++ read_cells s.
Proof.
  intros H. unfold table_row. rewrite <- !string_app_assoc.
  rewrite (read_inert newline), (read_inert spaces16), (read_inert "<tr>"), (read_inert newline) by reflexivity.
  by rewrite read_cell_lines.
Qed.

(** A page shows the table it was given: when no field contains an
    opening angle bracket, a reader of the rows finds the fields of every
    entry, in the order of the listing, and nothing else. (A field that does
    contain one is put into the page as it is, see [field_injects_cell].) *)
Theorem table_roundtrip {A} (cells : A -> list string) (l : list A) :
  Forall (fun a => forallb no_lt (cells a) = true) l -> read_cells (rows cells l) = l ≫= cells.
Proof.
  intros Hl. unfold rows. rewrite <- (append_nil_r (str_concat _)).
  induction Hl as [|a l Ha _ IH]; [done|].
  change (str_concat (map (fun a => table_row (cells a)) (a :: l))) with
    (table_row (cells a) ++ str_concat (map (fun a => table_row (cells a)) l))%string.
  by rewrite <- string_app_assoc, read_row, IH.
Qed.

(** A device whose name carries markup writes cells of its own. *)
Definition injecting_device : DeviceInfo :=
  mkDeviceInfo "a</td><td>forged" "MCU" "ARM" "Connected" None None None None.

Lemma field_injects_cell `{F : Formats} :
  read_cells (rows device_cells [injecting_device]) =
    ["a"; "forged"; "MCU"; "ARM"; "Connected"; "Never"; "None"]%string.
Proof. reflexivity. Qed.

(** ** Witness *)

Definition honest_device : DeviceInfo := mkDeviceInfo "dev-1" "MCU" "ARM" "Connected" None (Some "gw"%string) None None.
Definition no_formats : Formats := {| fmt_time _ := "t"%string; fmt_value _ := "0"%string |}.

Lemma table_roundtrip_witness :
  read_cells (rows (device_cells (F := no_formats)) [honest_device; honest_device]) =
    ["dev-1"; "MCU"; "ARM"; "Connected"; "Never"; "gw"; "dev-1"; "MCU"; "ARM"; "Connected"; "Never"; "gw"]%string.
Proof. rewrite table_roundtrip; [reflexivity|]. repeat constructor. Defined.
