(* ===== verification/GatewayViews.v ===== *)
(** * Settings and views of the gateway's HTTP API:
    [crates/wasmbed-gateway/src/http_api.rs]

    The administrative settings with the requests that read and write them,
    and the routes that answer with fixed or invented numbers. A JSON answer
    is a [value]; the clock, the random numbers and the text of floating-point
    numbers are parameters. *)

From stdpp Require Import pretty.
From S2P Require Import Prelude.
From S2P Require Import RustStd.
From S2P Require Import Externals.
From S2P Require Import Base64.
From S2P Require Import Protocol.
From S2P Require Import K8s.
From S2P Require Import KubeStore.
From S2P Require Import Registry.
From S2P Require Import RegistryProofs.
From S2P Require Import Gateway.
From S2P Require Import HttpApi.
From S2P Require Import GatewaySteps.
From S2P Require Import Dashboard.
Local Open Scope Z_scope.

(** ** Settings *)

Definition get_pairing_mode (now : string) (s : HttpApiServer) : value :=
  VObj [("pairing_mode", VBool (pairing_mode s)); ("timestamp", VStr now)]%string.
Definition get_pairing_timeout (now : string) (s : HttpApiServer) : value :=
  VObj [("pairing_timeout_seconds", VNum (pairing_timeout_seconds s)); ("timestamp", VStr now)]%string.
Definition get_heartbeat_timeout (now : string) (s : HttpApiServer) : value :=
  VObj [("heartbeat_timeout_seconds", VNum (heartbeat_timeout_seconds s)); ("timestamp", VStr now)]%string.

Definition enabled_text (b : bool) : string := if b then "enabled" else "disabled".

(** The answers to the requests that change a setting. *)
Definition set_pairing_mode_answer (now : string) (enabled : bool) : value :=
  VObj [("success", VBool true); ("pairing_mode", VBool enabled);
        ("message", VStr ("Pairing mode " ++ enabled_text enabled)); ("timestamp", VStr now)]%string.
Definition set_pairing_timeout_answer (now : string) (seconds : Z) : value :=
  VObj [("success", VBool true); ("pairing_timeout_seconds", VNum seconds);
        ("message", VStr ("Pairing timeout set to " ++ pretty seconds ++ " seconds")); ("timestamp", VStr now)]%string.
Definition set_heartbeat_timeout_answer (now : string) (seconds : Z) : value :=
  VObj [("success", VBool true); ("heartbeat_timeout_seconds", VNum seconds);
        ("message", VStr ("Heartbeat timeout set to " ++ pretty seconds ++ " seconds")); ("timestamp", VStr now)]%string.

Definition settings (s : HttpApiServer) : bool * Z * Z :=
  (pairing_mode s, pairing_timeout_seconds s, heartbeat_timeout_seconds s).

Definition setting_op (op : registry_op) : bool :=
  match op with SetPairingMode _ | SetPairingTimeout _ | SetHeartbeatTimeout _ => true | _ => false end.

(** What an operation makes of the settings. *)
Definition settings_after (op : registry_op) (v : bool * Z * Z) : bool * Z * Z :=
  match op with
  | SetPairingMode b => (b, v.1.2, v.2)
  | SetPairingTimeout t => (v.1.1, t, v.2)
  | SetHeartbeatTimeout t => (v.1, t)
  | _ => v
  end.

Section Settings.
Context `{B : Base64}.

Lemma register_device_settings now id pk caps s : settings (register_device now id pk caps s) = settings s.
Proof. unfold register_device. by case_match. Qed.
Lemma activate_settings now c d pk s : settings (activate_device_sender now c d pk s) = settings s.
Proof. unfold activate_device_sender. by case_match. Qed.

Lemma apply_op_settings op s : settings (apply_op op s) = settings_after op (settings s).
Proof.
  destruct op; simpl; auto using register_device_settings, activate_settings;
    unfold set_device_tls_sender, update_heartbeat, issue_challenge, take_challenge, remove_connection,
      update_device_capabilities, register_application, Registry.update_application_status, board_register,
      board_unregister; by repeat case_match.
Qed.

Lemma run_settings ops s : settings (run ops s) = foldl (fun v op => settings_after op v) (settings s) ops.
Proof.
  revert s. induction ops as [|op ops IH]; intros s; [done|]. unfold run in *. simpl.
  by rewrite IH, apply_op_settings.
Qed.
End Settings.

(** ** What devices can do to them *)

Section Steps.
Context {W : Type} `{K : Kube W} `{B : Base64} `{E : Ecdsa} `{U : UuidParse}.
Variable cb : Callbacks.

Lemma complete_enrollment_settings inp key c s (w : W) :
  settings (complete_enrollment cb inp key c s w).1.2 = settings s.
Proof.
  unfold complete_enrollment. destruct (Device_find w key) as [[d|]|]; simpl; [|case_match; [|done]|done].
  - by rewrite activate_settings, register_device_settings.
  - destruct (create_device_crd _ _ _ w) as [[n|e] w1]; simpl; [|done].
    by rewrite activate_settings, register_device_settings.
Qed.

Lemma on_message_settings inp tls_key c m s (w : W) :
  settings (on_message cb inp tls_key c m s w).1.2 = settings s.
Proof.
  unfold on_message. destruct m as [[]|]; try reflexivity.
  - unfold handle_heartbeat. destruct (resolve_device_id _ _ _) as [d|]; [|done].
    case_match; simpl; apply (apply_op_settings (UpdateHeartbeat (in_now inp) d)).
  - unfold handle_public_key, issue_challenge. by repeat case_match.
  - unfold handle_challenge_response.
    pose proof (apply_op_settings (TakeChallenge (in_now inp) c) s) as H1. simpl in H1.
    destruct (take_challenge _ _ _) as [[ch|] s1]; simpl in *; [|done].
    case_match; simpl; [by rewrite complete_enrollment_settings|done].
  - unfold handle_device_info. destruct (resolve_device_id _ _ _) as [d|]; [|done].
    apply (apply_op_settings (UpdateDeviceCapabilities d _)).
Qed.

Lemma on_connect_settings inp key s (w : W) : settings (on_connect cb inp key s w).1.2 = settings s.
Proof.
  unfold on_connect. repeat case_match; simplify_eq/=; try done; apply register_device_settings.
Qed.

(** Nothing a device sends, no connection, no deployment and no change in
    Kubernetes alters the administrative settings: a step of the gateway
    leaves the pairing mode and both timeouts as they are, or it is an
    administrative request that sets one of them, and then the value asked
    for is the one reported from then on. *)
Theorem settings_only_by_admin (g g' : gstate W) now :
  step cb g g' ->
  (settings (g_srv g') = settings (g_srv g)) \/
  (exists op, setting_op op = true /\ g_srv g' = apply_op op (g_srv g) /\ g_kube g' = g_kube g /\
     match op with
     | SetPairingMode b => vget "pairing_mode" (get_pairing_mode now (g_srv g')) = Some (VBool b)
     | SetPairingTimeout t => vget "pairing_timeout_seconds" (get_pairing_timeout now (g_srv g')) = Some (VNum t)
     | SetHeartbeatTimeout t => vget "heartbeat_timeout_seconds" (get_heartbeat_timeout now (g_srv g')) = Some (VNum t)
     | _ => False
     end).
Proof.
  intros [inp c key snd s w live rdy fc s' w' _ H | inp key s w live rdy fc s' w' H | inp c key snd r1 r2 s w live fc
         | inp c ss m s w live rdy fc rs s' w' _ H | c ss s w live rdy fc s' w' _ H | t timeout s w live rdy fc
         | op s w live rdy fc Hop | t id s w live rdy fc s' w' H | s w w' live rdy fc]; simpl; try (by left).
  - left. pose proof (on_connect_settings inp key s w) as E1. by rewrite H in E1.
  - left. pose proof (on_connect_settings inp key s w) as E1. by rewrite H in E1.
  - left. unfold on_connection_ready. destruct key as [|b key]; [done|].
    exact (apply_op_settings (SetDeviceTlsSender (in_now inp) (b :: key) snd) (store_pending_sender c snd s)).
  - left. pose proof (on_message_settings inp (ss_key ss) c m s w) as E1. by rewrite H in E1.
  - left. unfold on_disconnect in H. repeat case_match; simplify_eq/=; apply (apply_op_settings (RemoveConnection c)).
  - destruct (setting_op op) eqn:Eop.
    + right. exists op. split_and!; try done. by destruct op.
    + left. rewrite apply_op_settings. by destruct op.
  - left. unfold bind_pending in H. repeat case_match; simplify_eq/=; auto using activate_settings.
Qed.
End Steps.

(** ** Answers without a source *)

Definition get_k8s_pods : value :=
  let pod name age := VObj [("name", VStr name); ("status", VStr "Running"); ("ready", VStr "1/1"); ("restarts", VNum 0);
                            ("age", VStr age)]%string in
  VObj [("total", VNum 12); ("running", VNum 10); ("pending", VNum 1); ("failed", VNum 1);
        ("pods", VArr [pod "wasmbed-gateway-1" "2d"; pod "wasmbed-gateway-2" "1d"; pod "wasmbed-controller" "2d"])]%string.

Definition get_alerts : value :=
  let alert id severity title message time source :=
    VObj [("id", VStr id); ("severity", VStr severity); ("title", VStr title); ("message", VStr message);
          ("timestamp", VStr time); ("source", VStr source); ("resolved", VBool false)]%string in
  VObj [("alerts", VArr [alert "alert-1" "warning" "High CPU Usage" "CPU usage on gateway-pod-1 is above 80%"
                           "2025-01-10T10:30:00Z" "kubernetes";
                         alert "alert-2" "error" "Device Disconnected"
                           "Device drone-002 has been disconnected for more than 5 minutes" "2025-01-10T10:25:00Z"
                           "device_monitor"])]%string.

Definition get_infrastructure_status : value :=
  VObj [("status", VStr "healthy");
        ("components", VObj [("kubernetes", VStr "healthy"); ("gateway", VStr "healthy"); ("database", VStr "healthy");
                             ("monitoring", VStr "healthy")]);
        ("uptime", VStr "2d 5h 30m"); ("version", VStr "1.0.0")]%string.

(** The random draws for one hour: two floating-point results as text, two
    bytes. *)
Record draws := mkDraws { dr_cpu : string; dr_memory : string; dr_devices : byte; dr_applications : byte }.

(** The time of the sample [i] of 24, for clocks a day after the epoch or
    later. *)
Definition sample_time (now : Z) (i : nat) : Z := now - (24 - Z.of_nat i) * 3600.

Definition sample (now : Z) (i : nat) (d : draws) : value :=
  let time := sample_time now i in
  VObj [("time", VStr (pretty ((time / 3600) mod 24) ++ ":00")); ("timestamp", VNum time); ("cpu", VFloat (dr_cpu d));
        ("memory", VFloat (dr_memory d)); ("devices", VNum (3 + byte_val (dr_devices d) mod 3));
        ("applications", VNum (5 + byte_val (dr_applications d) mod 5)); ("is_synthetic", VBool true)]%string.

Definition get_system_metrics (now : Z) (random : nat -> draws) : value :=
  VObj [("is_synthetic", VBool true);
        ("metrics", VArr ((fun i => sample now i (random i)) <$> seq 0 24));
        ("current", VObj [("cpu", VFloat "45.2"); ("memory", VFloat "67.8"); ("storage", VFloat "23.1");
                          ("network_in", VNum 1024); ("network_out", VNum 2048); ("is_synthetic", VBool true)])]%string.

Definition num_at (k : string) (v : value) : option Z :=
  match vget k v with Some (VNum n) => Some n | _ => None end.

(** Every sample is marked as invented and stays in its bounds; the samples
    are the last 24 full hours in order. *)
Theorem system_metrics_samples now random i :
  (i < 24)%nat ->
  exists l v, vget "metrics" (get_system_metrics now random) = Some (VArr l) /\ length l = 24%nat /\ l !! i = Some v /\
    vget "is_synthetic" v = Some (VBool true) /\ num_at "timestamp" v = Some (now - (24 - Z.of_nat i) * 3600) /\
    (exists n, num_at "devices" v = Some n /\ 3 <= n <= 5) /\
    (exists n, num_at "applications" v = Some n /\ 5 <= n <= 9).
Proof.
  intros Hi. exists ((fun i => sample now i (random i)) <$> seq 0 24), (sample now i (random i)).
  split_and!; try reflexivity.
  - rewrite list_lookup_fmap, lookup_seq_lt by done. reflexivity.
  - eexists. split; [reflexivity|]. pose proof (Z.mod_pos_bound (byte_val (dr_devices (random i))) 3). lia.
  - eexists. split; [reflexivity|]. pose proof (Z.mod_pos_bound (byte_val (dr_applications (random i))) 5). lia.
Qed.

(** ** Concrete runs *)

Lemma settings_only_by_admin_witness :
  exists op, setting_op op = true /\ apply_op (B := base64) op HttpApiServer_new = set_pairing_mode true HttpApiServer_new.
Proof.
  destruct (settings_only_by_admin (K := mem_kube) (B := base64) (E := toy_ecdsa) (U := hex_uuid)
    (mkCallbacks true (GatewayReference_new "wasmbed" "gateway-1"))
    (mkGstate HttpApiServer_new (mkCluster ∅ ∅) ∅ [] ∅)
    (mkGstate (set_pairing_mode true HttpApiServer_new) (mkCluster ∅ ∅) ∅ [] ∅) "t") as [H|(op & Hop & Hs & _)].
  - apply (step_admin (K := mem_kube) (B := base64) (E := toy_ecdsa) (U := hex_uuid)
      (mkCallbacks true (GatewayReference_new "wasmbed" "gateway-1")) (SetPairingMode true)). reflexivity.
  - discriminate H.
  - exists op. split; [exact Hop|]. simpl in Hs. symmetry. exact Hs.
Defined.

Lemma system_metrics_samples_witness :
  exists l v, vget "metrics" (get_system_metrics 100000 (fun _ => mkDraws "1" "2" Byte.x00 Byte.xff)) = Some (VArr l) /\
    l !! 3%nat = Some v /\ num_at "timestamp" v = Some 24400.
Proof.
  destruct (system_metrics_samples 100000 (fun _ => mkDraws "1" "2" Byte.x00 Byte.xff) 3)
    as (l & v & Hl & _ & Hv & _ & Ht & _); [lia|]. exists l, v. split; [exact Hl|]. split; [exact Hv|exact Ht].
Defined.
