(* ===== verification/ServiceStart.v ===== *)
(** * Starting the two services: [main], [new] and [run] of
    [crates/wasmbed-api-server/src/main.rs] and
    [crates/wasmbed-infrastructure/src/main.rs]

    Both services spawn an endless task (two of them in the infrastructure
    service) and the web server, and wait for all with [try_join!]. The web
    server task logs its error and returns. [service_step] is what can happen
    to one task. *)

From S2P Require Import Prelude.
From S2P Require Import RustStd.
From S2P Require Import Externals.
From S2P Require Import RenodeManager.
From S2P Require Import RenodeCli.
From S2P Require Import Infrastructure.
From S2P Require Import Dashboard.
Local Open Scope Z_scope.

(** ** Configuration *)

Record DashboardConfig := mkDashboardConfig {
  dcfg_port : Z;
  dcfg_gateway_endpoint : string;
  dcfg_infrastructure_endpoint : string;
  dcfg_refresh_interval : Z;
}.

Definition DEFAULT_GATEWAY : string := "http://wasmbed-gateway.wasmbed.svc.cluster.local:8080".
Definition DashboardConfig_default : DashboardConfig := mkDashboardConfig 3001 DEFAULT_GATEWAY "" 5.

(** The command line, with clap's defaults for what is not given. *)
Definition dashboard_config (port : option Z) (gateway infrastructure : option string) : DashboardConfig :=
  mkDashboardConfig (default 3001 port) (default DEFAULT_GATEWAY gateway) (default EmptyString infrastructure) 5.

Definition infrastructure_config (port monitoring_port logging_port : option Z) : InfrastructureConfig :=
  mkInfrastructureConfig "/etc/wasmbed/ca.crt" "/etc/wasmbed/ca.key" "/var/lib/wasmbed/secrets"
    (default 30460 port) (default 9090 monitoring_port) (default 8080 logging_port).

(** The state of the API server, apart from the clients it is built on. *)
Record DashboardState := mkDashboardState {
  dst_config : DashboardConfig;
  dst_system_status : SystemStatus;
  dst_devices : gmap string QemuDevice;
  dst_base_port : Z;
}.

(** [Dashboard::new] *)
Definition Dashboard_new (config : DashboardConfig) (now : Z) : DashboardState :=
  mkDashboardState config (SystemStatus_new now) RenodeManager_new 30450.

(** Without arguments both services have their default configuration. *)
Theorem default_configurations :
  dashboard_config None None None = DashboardConfig_default /\
  infrastructure_config None None None = InfrastructureConfig_default.
Proof. split; reflexivity. Qed.

(** ** Tasks *)

(** A spawned task: an endless loop or the web server. *)
Inductive service_task := Loop | WebServer.
Inductive task_state := TRunning | TReturned | TPanicked.

(** [try_join!] on the handles: [None] while it waits. *)
Definition try_join (ts : list (service_task * task_state)) : option bool :=
  if existsb (fun t => match t.2 with TPanicked => true | _ => false end) ts then Some false
  else if forallb (fun t => match t.2 with TReturned => true | _ => false end) ts then Some true
  else None.

Definition dashboard_tasks : list (service_task * task_state) := [(Loop, TRunning); (WebServer, TRunning)].
Definition infrastructure_tasks : list (service_task * task_state) :=
  [(Loop, TRunning); (Loop, TRunning); (WebServer, TRunning)].

(** The web server returns when the port cannot be bound or [serve] ends, in
    both cases without an error of the task; a loop can only panic. *)
Inductive service_event := BindFails (i : nat) | ServeEnds (i : nat) | Panics (i : nat).

Definition service_step (e : service_event) (ts : list (service_task * task_state)) :
    option (list (service_task * task_state)) :=
  match e with
  | BindFails i | ServeEnds i =>
      match ts !! i with Some (WebServer, TRunning) => Some (<[i := (WebServer, TReturned)]> ts) | _ => None end
  | Panics i =>
      match ts !! i with Some (t, TRunning) => Some (<[i := (t, TPanicked)]> ts) | _ => None end
  end.

Fixpoint service_run (es : list service_event) (ts : list (service_task * task_state)) :
    option (list (service_task * task_state)) :=
  match es with
  | [] => Some ts
  | e :: es => let* ts := service_step e ts in service_run es ts
  end.

Definition is_panic (e : service_event) : bool := match e with Panics _ => true | _ => false end.

(** Every loop is running and nothing has panicked. *)
Definition loops_run (ts : list (service_task * task_state)) : Prop :=
  Forall (fun t => t.2 <> TPanicked /\ (t.1 = Loop -> t.2 = TRunning)) ts /\ (exists i s, ts !! i = Some (Loop, s)).

Lemma service_step_loops e ts ts' :
  loops_run ts -> is_panic e = false -> service_step e ts = Some ts' -> loops_run ts'.
Proof.
  intros [Hall (j & s & Hj)] Hp. unfold service_step.
  assert (forall i, match ts !! i with Some (WebServer, TRunning) => Some (<[i := (WebServer, TReturned)]> ts) | _ => None end
    = Some ts' -> loops_run ts') as Hweb.
  { intros i. destruct (ts !! i) as [[[] []]|] eqn:Ei; try done. intros [= <-]. split.
    - by apply Forall_insert.
    - exists j, s. rewrite list_lookup_insert_ne; [done|]. intros ->. congruence. }
  destruct e; [apply Hweb|apply Hweb|done].
Qed.

Lemma service_run_loops es ts ts' :
  loops_run ts -> Forall (fun e => is_panic e = false) es -> service_run es ts = Some ts' -> loops_run ts'.
Proof.
  intros Hl He. revert ts Hl. induction He as [|e es Hp _ IH]; simpl; intros ts Hl; [by intros [= <-]|].
  destruct (service_step e ts) as [ts1|] eqn:E; [|done]. simpl. by eapply IH, service_step_loops.
Qed.

Lemma loops_run_waits ts : loops_run ts -> try_join ts = None.
Proof.
  intros [Hall (i & s & Hi)]. unfold try_join.
  destruct (existsb _ ts) eqn:Ee.
  { apply existsb_exists in Ee as ([t st] & Hin & Hst). apply list_elem_of_In in Hin.
    rewrite Forall_forall in Hall. destruct (Hall _ Hin) as [Hne _]. by destruct st. }
  destruct (forallb _ ts) eqn:Ef; [|done]. rewrite forallb_forall in Ef.
  assert ((Loop, s) ∈ ts) as Hin by (by eapply list_elem_of_lookup_2).
  rewrite Forall_forall in Hall. destruct (Hall _ Hin) as [_ Hs]. simpl in Hs.
  apply list_elem_of_In in Hin. specialize (Ef _ Hin). by rewrite Hs in Ef.
Qed.

(** Neither service ends before one of its tasks panics, not even when its
    port cannot be bound: the error is logged, [run] goes on waiting for the
    endless tasks, and the process stays up without serving anything. *)
Theorem run_survives_bind_failure es ts ts' :
  ts = dashboard_tasks \/ ts = infrastructure_tasks ->
  Forall (fun e => is_panic e = false) es -> service_run es ts = Some ts' ->
  try_join ts' = None.
Proof.
  intros Hts He Hr. eapply loops_run_waits, service_run_loops; [|done|done].
  destruct Hts as [-> | ->]; (split; [by repeat constructor|by exists 0%nat, TRunning]).
Qed.

Lemma run_survives_bind_failure_witness :
  service_run [BindFails 1] dashboard_tasks = Some [(Loop, TRunning); (WebServer, TReturned)] /\
  try_join [(Loop, TRunning); (WebServer, TReturned)] = None.
Proof.
  split; [reflexivity|].
  apply (run_survives_bind_failure [BindFails 1] dashboard_tasks); [by left|by repeat constructor|reflexivity].
Defined.
