(* ===== verification/TcpBridge.v ===== *)
(** * The TCP bridge between an emulated board and the gateway
    ([crates/wasmbed-tcp-bridge])

    [TcpBridge::start] spawns a listener thread; every firmware connection it
    accepts gets a connection to the gateway and two threads that copy bytes,
    one per direction. The threads, the firmware and the gateway run
    concurrently: [bridge_step] is one step of one of them, and a run is a
    sequence of steps in any order. The sockets are the operating system's:
    a [read] returns between 1 byte and what is queued (at most the buffer),
    0 at the end of the stream, or fails; a [write] accepts between 1 byte
    and what it is given, or fails. *)

From stdpp Require Import pretty.
From S2P Require Import Prelude.
From S2P Require Import RustStd.
From S2P Require Import Minicbor.
From S2P Require Import Protocol.
From S2P Require Import Rfc8949.
From S2P Require Import ProtocolProofs.
From S2P Require Import Framing.
Local Open Scope Z_scope.

(** ** One direction: the source peer, a forwarding thread, the destination *)

(** [let mut buf = [0u8; 4096]] *)
Definition BUF : nat := 4096.

Inductive ending := SawEof | ReadFailed | WriteFailed.

(** Where the loop of a forwarding thread is: before [read], inside
    [write_all] with [rest] of the chunk still to write, or left. *)
Inductive forwarder := Reading | Writing (rest : list byte) | Ended (why : ending).

(** [h_sent] is everything the source has sent, [h_in] the part the thread
    has not read, [h_eof] that the source has closed its side, [h_out] what
    the destination socket has accepted. *)
Record half := mkHalf {
  h_sent : list byte;
  h_in : list byte;
  h_eof : bool;
  h_thread : forwarder;
  h_out : list byte;
}.

Definition half_new : half := mkHalf [] [] false Reading [].

Inductive half_event :=
| PeerSends (bs : list byte)
| PeerCloses
| ReadReturns (n : nat)
| ReadFails
| WriteAccepts (n : nat)
| WriteFails.

Definition set_thread (t : forwarder) (h : half) : half :=
  mkHalf (h_sent h) (h_in h) (h_eof h) t (h_out h).

(** One step of the loop, or of the source peer; [None] is a step that
    cannot happen. *)
Definition half_step (e : half_event) (h : half) : option half :=
  match e, h_thread h with
  | PeerSends bs, t =>
      if h_eof h then None else Some (mkHalf (h_sent h ++ bs) (h_in h ++ bs) false t (h_out h))
  | PeerCloses, t => Some (mkHalf (h_sent h) (h_in h) true t (h_out h))
  | ReadReturns O, Reading =>
      match h_in h with
      | [] => if h_eof h then Some (set_thread (Ended SawEof) h) else None
      | _ => None
      end
  | ReadReturns n, Reading =>
      if bool_decide (n <= BUF /\ n <= length (h_in h))%nat then
        Some (mkHalf (h_sent h) (drop n (h_in h)) (h_eof h) (Writing (take n (h_in h))) (h_out h))
      else None
  | ReadFails, Reading => Some (set_thread (Ended ReadFailed) h)
  | WriteAccepts n, Writing rest =>
      if bool_decide (1 <= n <= length rest)%nat then
        let t := match drop n rest with [] => Reading | rest => Writing rest end in
        Some (mkHalf (h_sent h) (h_in h) (h_eof h) t (h_out h ++ take n rest))
      else None
  | WriteFails, Writing _ => Some (set_thread (Ended WriteFailed) h)
  | _, _ => None
  end.

(** ** The bridge *)

(** The thread spawned by [start]. *)
Inductive listener := NotStarted | Binding | Listening | BindFailed | Panicked.

Record session := mkSession { to_gateway : half; to_firmware : half }.

(** [connection] is the slot of [Arc<Mutex<Option<TcpStream>>>]: the number
    of the session whose gateway socket it holds a clone of. *)
Record bridge := mkBridge {
  gateway_endpoint : string;
  bridge_port : Z;
  connection : option nat;
  listener_thread : listener;
  sessions : list session;
}.

(** [TcpBridge::new] *)
Definition TcpBridge_new (endpoint : string) (port : Z) : bridge := mkBridge endpoint port None NotStarted [].

(** [TcpBridge::start]: the thread is spawned and [Ok] returned at once. *)
Definition start (b : bridge) : bridge * result string unit :=
  (mkBridge (gateway_endpoint b) (bridge_port b) (connection b) Binding (sessions b), Ok tt).

Definition bridge_endpoint (b : bridge) : string := "127.0.0.1:" ++ pretty (bridge_port b).

(** What [TcpStream::connect] and the three [try_clone().unwrap()] after it
    do: [Connected n] is a connection of which [n] clones succeed. *)
Inductive connect_outcome := ConnectFailed | Connected (clones : nat).

Inductive bridge_event :=
| BindDone (ok : bool)
| AcceptFails
| Accepted (c : connect_outcome)
| Upstream (i : nat) (e : half_event)
| Downstream (i : nat) (e : half_event).

Definition set_listener (l : listener) (b : bridge) : bridge :=
  mkBridge (gateway_endpoint b) (bridge_port b) (connection b) l (sessions b).

Definition set_sessions (ss : list session) (b : bridge) : bridge :=
  mkBridge (gateway_endpoint b) (bridge_port b) (connection b) (listener_thread b) ss.

(** The body of the loop over [listener.incoming()]. A panic ends the
    listener thread; the first clone is in the slot by then unless it is the
    one that failed. *)
Definition accept (c : connect_outcome) (b : bridge) : bridge :=
  match c with
  | ConnectFailed => b
  | Connected O => set_listener Panicked b
  | Connected (S n) =>
      let b := mkBridge (gateway_endpoint b) (bridge_port b) (Some (length (sessions b)))
                 (listener_thread b) (sessions b) in
      if (n <? 2)%nat then set_listener Panicked b
      else set_sessions (sessions b ++ [mkSession half_new half_new]) b
  end.

Definition bridge_step (e : bridge_event) (b : bridge) : option bridge :=
  match e, listener_thread b with
  | BindDone ok, Binding => Some (set_listener (if ok then Listening else BindFailed) b)
  | AcceptFails, Listening => Some b
  | Accepted c, Listening => Some (accept c b)
  | Upstream i e, _ =>
      let* s := sessions b !! i in
      let* h := half_step e (to_gateway s) in
      Some (set_sessions (<[i := mkSession h (to_firmware s)]> (sessions b)) b)
  | Downstream i e, _ =>
      let* s := sessions b !! i in
      let* h := half_step e (to_firmware s) in
      Some (set_sessions (<[i := mkSession (to_gateway s) h]> (sessions b)) b)
  | _, _ => None
  end.

Fixpoint bridge_run (es : list bridge_event) (b : bridge) : option bridge :=
  match es with
  | [] => Some b
  | e :: es => let* b := bridge_step e b in bridge_run es b
  end.

(** The handles the process has on the gateway socket of a session: one per
    thread that has not ended, one in the slot. The peer sees the end of the
    stream when there is none. *)
Definition is_ended (h : half) : bool := match h_thread h with Ended _ => true | _ => false end.

Definition gateway_handles (b : bridge) (i : nat) : nat :=
  match sessions b !! i with
  | None => 0
  | Some s => (if is_ended (to_gateway s) then 0 else 1) + (if is_ended (to_firmware s) then 0 else 1)
  end + (if bool_decide (connection b = Some i) then 1 else 0).

(** [main]: the exit code, a panic, or the running bridge and the last line
    it prints. [args] has at least the program name. *)
Inductive main_outcome := ExitCode (n : Z) | PanicExit (m : string) | Serving (b : bridge) (line : string).

Definition bridge_main (args : list string) : main_outcome :=
  match args with
  | _ :: endpoint :: port :: _ =>
      match parse_u16 port with
      | None => PanicExit "Bridge port must be a valid u16"
      | Some port =>
          match start (TcpBridge_new endpoint port) with
          | (_, Err _) => ExitCode 1
          | (b, Ok _) =>
              Serving b ("TCP Bridge started successfully. Listening on 127.0.0.1:" ++ pretty port)
          end
      end
  | _ => ExitCode 1
  end.

(** ** One direction: nothing is lost, reordered or made up *)

Fixpoint half_run (es : list half_event) (h : half) : option half :=
  match es with
  | [] => Some h
  | e :: es => let* h := half_step e h in half_run es h
  end.

(** What the thread holds between its [read] and its [write_all]. *)
Definition in_flight (h : half) : list byte := match h_thread h with Writing rest => rest | _ => [] end.

(** The bytes sent are those delivered, those in flight (at most a buffer)
    and those not yet read, in this order; a thread that ended at the end of
    the stream has delivered all, one that failed to write has lost the rest
    of one chunk, one that failed to read nothing. *)
Definition half_ok (h : half) : Prop :=
  exists lost,
    h_sent h = h_out h ++ lost ++ h_in h /\ (length lost <= BUF)%nat /\
    match h_thread h with
    | Reading | Ended ReadFailed => lost = []
    | Writing rest => lost = rest /\ rest <> []
    | Ended SawEof => lost = [] /\ h_in h = [] /\ h_eof h = true
    | Ended WriteFailed => lost <> []
    end.

Lemma half_new_ok : half_ok half_new.
Proof. exists []. repeat split. simpl. lia. Qed.

(** The steps as rules, for proofs by cases on what happened. *)
Inductive half_rule : half_event -> half -> half -> Prop :=
| rule_sends bs sent q t out :
    half_rule (PeerSends bs) (mkHalf sent q false t out) (mkHalf (sent ++ bs) (q ++ bs) false t out)
| rule_closes sent q eof t out :
    half_rule PeerCloses (mkHalf sent q eof t out) (mkHalf sent q true t out)
| rule_eof sent out :
    half_rule (ReadReturns 0) (mkHalf sent [] true Reading out) (mkHalf sent [] true (Ended SawEof) out)
| rule_read n sent chunk q eof out :
    n = length chunk -> (1 <= n <= BUF)%nat ->
    half_rule (ReadReturns n) (mkHalf sent (chunk ++ q) eof Reading out) (mkHalf sent q eof (Writing chunk) out)
| rule_read_fails sent q eof out :
    half_rule ReadFails (mkHalf sent q eof Reading out) (mkHalf sent q eof (Ended ReadFailed) out)
| rule_write n sent q eof a rest out :
    n = length a -> a <> [] -> rest <> [] ->
    half_rule (WriteAccepts n) (mkHalf sent q eof (Writing (a ++ rest)) out)
      (mkHalf sent q eof (Writing rest) (out ++ a))
| rule_write_all n sent q eof a out :
    n = length a -> a <> [] ->
    half_rule (WriteAccepts n) (mkHalf sent q eof (Writing a) out) (mkHalf sent q eof Reading (out ++ a))
| rule_write_fails sent q eof rest out :
    half_rule WriteFails (mkHalf sent q eof (Writing rest) out) (mkHalf sent q eof (Ended WriteFailed) out).

Lemma half_step_rule e h h' : half_step e h = Some h' -> half_rule e h h'.
Proof.
  destruct h as [sent q eof t out], e as [bs| |n| |n|]; simpl; intros H.
  - destruct eof; [done|]. injection H as <-. constructor.
  - injection H as <-. constructor.
  - destruct n as [|n], t; try done.
    { destruct q, eof; try done. injection H as <-. constructor. }
    case_bool_decide as Hn; [|done]. injection H as <-.
    rewrite <- (take_drop (S n) q) at 1. constructor; rewrite ?length_take; lia.
  - destruct t; try done. injection H as <-. constructor.
  - destruct t as [|rest|]; try done. case_bool_decide as Hn; [|done].
    assert (take n rest <> []) as Ht by (destruct n, rest; simpl in *; try lia; done).
    assert (n = length (take n rest)) as Hl by (rewrite length_take; lia).
    injection H as <-. destruct (drop n rest) as [|b r] eqn:Hd.
    + rewrite <- (take_drop n rest) at 1. rewrite Hd, app_nil_r. by constructor.
    + rewrite <- (take_drop n rest) at 1. rewrite Hd. by constructor.
  - destruct t; try done. injection H as <-. constructor.
Qed.

Lemma half_step_ok e h h' : half_step e h = Some h' -> half_ok h -> half_ok h'.
Proof.
  intros H%half_step_rule (lost & Hs & Hl & Ht). unfold half_ok.
  destruct H as [? ? ? t|? ? ? t| | | | | |]; simpl in *.
  - exists lost. rewrite Hs, <- !app_assoc. destruct t as [| |[]]; naive_solver.
  - exists lost. destruct t as [| |[]]; naive_solver.
  - subst. exists []. split_and!; auto.
  - subst. exists chunk. split_and!; auto; [lia|]. intros ->. simpl in *. lia.
  - subst. exists []. auto.
  - destruct Ht as [-> _]. exists rest. rewrite <- !app_assoc in *. rewrite length_app in Hl.
    split_and!; auto. lia.
  - destruct Ht as [-> _]. exists []. rewrite <- !app_assoc. split_and!; auto. simpl. lia.
  - destruct Ht as [-> Hne]. exists rest. auto.
Qed.

Lemma half_run_ok es h h' : half_run es h = Some h' -> half_ok h -> half_ok h'.
Proof.
  revert h. induction es as [|e es IH]; simpl; intros h H Hok; [by injection H as <-|].
  destruct (half_step e h) as [h1|] eqn:E; [|done]. eauto using half_step_ok.
Qed.

(** What [half_ok] says of the two ends. *)
Definition delivered_in_order (h : half) : Prop :=
  h_out h `prefix_of` h_sent h /\
  (h_thread h = Ended SawEof -> h_out h = h_sent h /\ h_eof h = true) /\
  (length (h_sent h) <= length (h_out h) + BUF + length (h_in h))%nat.

Lemma half_ok_delivered h : half_ok h -> delivered_in_order h.
Proof.
  intros (lost & Hs & Hl & Ht). unfold delivered_in_order. rewrite Hs.
  split_and!.
  - by apply prefix_app_r.
  - intros E. rewrite E in Ht. destruct Ht as (-> & -> & ->). by rewrite !app_nil_r.
  - rewrite !length_app. lia.
Qed.

(** *** Termination and completeness of a direction *)

(** The steps of the forwarding thread that are not failures. *)
Definition copying (e : half_event) : bool :=
  match e with ReadReturns _ | WriteAccepts _ => true | _ => false end.

Definition half_measure (h : half) : nat :=
  2 * length (h_in h) + match h_thread h with Reading => 1 | Writing rest => S (length rest) | Ended _ => 0 end.

Lemma copying_step e h h' :
  copying e = true -> half_step e h = Some h' ->
  (half_measure h' < half_measure h)%nat /\ h_sent h' = h_sent h /\ h_eof h' = h_eof h.
Proof.
  intros He H%half_step_rule. unfold half_measure.
  destruct H as [| | | | | ? ? ? ? a| ? ? ? ? a|]; simpl in *; try done; subst; rewrite ?length_app; repeat split;
    try (destruct a; [done|simpl]); lia.
Qed.

Lemma copying_run es h h' :
  Forall (fun e => copying e = true) es -> half_run es h = Some h' ->
  (length es + half_measure h' <= half_measure h)%nat /\ h_sent h' = h_sent h /\ h_eof h' = h_eof h.
Proof.
  intros Hes. revert h. induction Hes as [|e es He _ IH]; simpl; intros h H.
  { injection H as <-. repeat split; lia. }
  destruct (half_step e h) as [h1|] eqn:E; [|done].
  destruct (copying_step _ _ _ He E) as (? & ? & ?), (IH _ H) as (? & ? & ?).
  repeat split; [lia|congruence|congruence].
Qed.

(** Where the thread can do nothing but wait (or fail). *)
Definition quiescent (h : half) : Prop := forall e, copying e = true -> half_step e h = None.

Lemma quiescent_drained h :
  half_ok h -> quiescent h ->
  match h_thread h with
  | Reading => h_out h = h_sent h /\ h_eof h = false
  | Writing _ => False
  | Ended _ => True
  end.
Proof.
  intros (lost & Hs & Hl & Ht) Hq. destruct h as [sent q eof t out]; simpl in *.
  destruct t as [|rest|]; [| |done].
  - subst lost. destruct q as [|b q].
    + specialize (Hq (ReadReturns 0) eq_refl). simpl in Hq. destruct eof; [done|].
      by rewrite !app_nil_r in Hs.
    + specialize (Hq (ReadReturns 1) eq_refl). cbn [half_step h_thread h_in] in Hq.
      rewrite bool_decide_eq_true_2 in Hq by (unfold BUF; simpl; lia). done.
  - destruct Ht as [-> Hne]. destruct rest as [|b rest]; [done|].
    specialize (Hq (WriteAccepts 1) eq_refl). cbn [half_step h_thread] in Hq.
    rewrite bool_decide_eq_true_2 in Hq by (simpl; lia). done.
Qed.

(** A thread that has not ended is not ended by copying before the end of
    the stream. *)
Lemma copying_not_failed es h h' :
  Forall (fun e => copying e = true) es -> half_run es h = Some h' -> is_ended h = false ->
  is_ended h' = false \/ h_thread h' = Ended SawEof.
Proof.
  intros Hes. revert h. induction Hes as [|e es He Hes' IH]; simpl; intros h H Hr.
  { injection H as <-. auto. }
  destruct (half_step e h) as [h1|] eqn:E; [|done].
  destruct (is_ended h1) eqn:E1; [|eauto].
  right. assert (h_thread h1 = Ended SawEof) as Hend.
  { apply half_step_rule in E. by destruct E. }
  destruct es as [|e' es]; simpl in H; [by injection H as <-|].
  apply Forall_cons in Hes' as [He' _].
  unfold half_step in H. rewrite Hend in H. by destruct e' as [| |[]| | |].
Qed.

(** C40: Forwarding completes. A direction in which neither a read nor a
    write fails makes at most [half_measure] steps after its source stops
    sending, whatever the sizes the system calls return, and where it cannot
    go on the destination has accepted exactly the bytes the source sent; if
    the source has closed, the thread has left its loop at the end of the
    stream. *)
Theorem forwarding_completes es0 h0 es h :
  half_run es0 half_new = Some h0 -> is_ended h0 = false ->
  Forall (fun e => copying e = true) es -> half_run es h0 = Some h ->
  (length es <= half_measure h0)%nat /\
  (quiescent h -> h_out h = h_sent h0 /\ (h_eof h0 = true -> h_thread h = Ended SawEof)).
Proof.
  intros H0 Hrun Hes H. destruct (copying_run _ _ _ Hes H) as (Hm & Hsent & Heof).
  split; [lia|]. intros Hq.
  assert (half_ok h) as Hok by eauto using half_run_ok, half_new_ok.
  pose proof (quiescent_drained _ Hok Hq) as Hd. rewrite <- Hsent, <- Heof.
  destruct (copying_not_failed _ _ _ Hes H Hrun) as [Hn|He].
  - unfold is_ended in Hn. destruct (h_thread h); [|done|done]. destruct Hd as [-> ->]. done.
  - rewrite He. destruct (half_ok_delivered _ Hok) as (_ & Hsaw & _). naive_solver.
Qed.

(** ** The bridge: every session, any interleaving *)

Definition session_ok (s : session) : Prop := half_ok (to_gateway s) /\ half_ok (to_firmware s).

(** Sessions are well-formed; while the listener serves, the slot holds the
    gateway socket of the last session. *)
Definition bridge_ok (b : bridge) : Prop :=
  Forall session_ok (sessions b) /\
  (listener_thread b <> Panicked ->
   connection b = match sessions b with [] => None | _ => Some (pred (length (sessions b))) end).

Lemma accept_ok c b : bridge_ok b -> bridge_ok (accept c b).
Proof.
  intros [Hs Hc]. destruct c as [|[|n]]; [done|by split|]. simpl.
  destruct (n <? 2)%nat; [by split|]. split; simpl.
  - apply Forall_app. split; [done|]. repeat constructor; apply half_new_ok.
  - intros _. rewrite length_app. simpl. replace (pred (length (sessions b) + 1)) with (length (sessions b)) by lia.
    by destruct (sessions b).
Qed.

Lemma set_sessions_ok i s b :
  bridge_ok b -> session_ok s -> bridge_ok (set_sessions (<[i := s]> (sessions b)) b).
Proof.
  intros [Hs Hc] Hn. split; simpl; [by apply Forall_insert|]. rewrite length_insert.
  destruct (sessions b); [done|]. by destruct i.
Qed.

Lemma bridge_step_ok e b b' : bridge_step e b = Some b' -> bridge_ok b -> bridge_ok b'.
Proof.
  intros H Hb. pose proof Hb as [Hs Hc].
  destruct e as [ok| |c|i e|i e]; simpl in H.
  - destruct (listener_thread b); try done. injection H as <-. split; simpl; [done|].
    intros _. by apply Hc.
  - destruct (listener_thread b) eqn:E; try done. by injection H as <-.
  - destruct (listener_thread b) eqn:E; try done. injection H as <-. by apply accept_ok.
  - destruct (sessions b !! i) as [s|] eqn:Es; [|done].
    destruct (half_step e (to_gateway s)) as [h|] eqn:E; [|done]. injection H as <-.
    destruct (Forall_lookup_1 _ _ _ _ Hs Es). apply set_sessions_ok; [done|]. split; eauto using half_step_ok.
  - destruct (sessions b !! i) as [s|] eqn:Es; [|done].
    destruct (half_step e (to_firmware s)) as [h|] eqn:E; [|done]. injection H as <-.
    destruct (Forall_lookup_1 _ _ _ _ Hs Es). apply set_sessions_ok; [done|]. split; eauto using half_step_ok.
Qed.

Lemma bridge_run_ok es b b' : bridge_run es b = Some b' -> bridge_ok b -> bridge_ok b'.
Proof.
  revert b. induction es as [|e es IH]; simpl; intros b H Hok; [by injection H as <-|].
  destruct (bridge_step e b) as [b1|] eqn:E; [|done]. eauto using bridge_step_ok.
Qed.

Definition started (endpoint : string) (port : Z) : bridge := (start (TcpBridge_new endpoint port)).1.

Lemma started_ok endpoint port : bridge_ok (started endpoint port).
Proof. split; [constructor|done]. Qed.

Lemma run_session es endpoint port b i s :
  bridge_run es (started endpoint port) = Some b -> sessions b !! i = Some s -> session_ok s.
Proof.
  intros H Hs. destruct (bridge_run_ok _ _ _ H (started_ok _ _)) as [Hf _].
  by apply (Forall_lookup_1 _ _ _ _ Hf Hs).
Qed.

(** The bridge is transparent. In every reachable state, whatever the
    interleaving of the threads, the firmware and the gateway, and whatever
    fails, each session's gateway has been given a prefix of what that
    session's firmware sent, and the firmware a prefix of what the gateway
    sent; the whole of it when the thread left at the end of the stream; and
    at most one buffer of 4096 bytes is between the two sockets. *)
Theorem bridge_transparent es endpoint port b i s :
  bridge_run es (started endpoint port) = Some b -> sessions b !! i = Some s ->
  delivered_in_order (to_gateway s) /\ delivered_in_order (to_firmware s).
Proof.
  intros H Hs. destruct (run_session _ _ _ _ _ _ H Hs). split; by apply half_ok_delivered.
Qed.

(** The bridge never closes its side of the last session: with the listener
    serving, the slot keeps a handle on the gateway socket of the last session
    even when both its threads have ended, and a thread blocked on the gateway
    keeps one for every session. The gateway does not see the end of the
    stream when the firmware goes away. *)
Theorem gateway_never_sees_eof es endpoint port b i s :
  bridge_run es (started endpoint port) = Some b -> listener_thread b <> Panicked ->
  sessions b !! i = Some s -> S i = length (sessions b) \/ is_ended (to_firmware s) = false ->
  (1 <= gateway_handles b i)%nat.
Proof.
  intros H Hl Hs Hor. destruct (bridge_run_ok _ _ _ H (started_ok _ _)) as [_ Hc].
  specialize (Hc Hl). unfold gateway_handles. rewrite Hs. destruct Hor as [Hi|Hf].
  - rewrite bool_decide_eq_true_2; [lia|]. rewrite Hc.
    destruct (sessions b) as [|s0 ss]; [done|]. rewrite <- Hi. done.
  - rewrite Hf. lia.
Qed.

(** [start] reports success before the port is bound: when binding fails,
    nothing is ever accepted, and the caller has been told [Ok]. *)
Theorem bind_failure_unreported endpoint port es b :
  (start (TcpBridge_new endpoint port)).2 = Ok tt /\
  (bridge_run (BindDone false :: es) (started endpoint port) = Some b -> es = [] /\ sessions b = []).
Proof.
  split; [done|]. simpl. destruct es as [|e es]; simpl; [by intros [= <-]|].
  by destruct e.
Qed.

(** ** The bridge under the protocol *)

Lemma take_exact_app_r k i x a r :
  take_exact k i = Some (a, r) -> take_exact k (i ++ x) = Some (a, r ++ x).
Proof.
  unfold take_exact. destruct (Z.ltb_spec (zlen i) k) as [|Hk]; [done|]. intros [= <- <-].
  rewrite zlen_app. pose proof (zlen_nonneg x).
  destruct (Z.ltb_spec (zlen i + zlen x) k); [lia|].
  unfold zlen in Hk. rewrite take_app_le, drop_app_le by lia. done.
Qed.

Section Protocol.
Context `{M : Minicbor}.

Lemma gateway_read_fuel_app fuel i x :
  gateway_read_fuel fuel i `prefix_of` gateway_read_fuel fuel (i ++ x).
Proof.
  revert i. induction fuel as [|fuel IH]; intros i; [done|]. cbn [gateway_read_fuel].
  destruct (take_exact 4 i) as [[lb r]|] eqn:E; [|apply prefix_nil].
  rewrite (take_exact_app_r _ _ x _ _ E). case_match; [done|].
  destruct (take_exact (be_value lb) r) as [[p r']|] eqn:E'; [|apply prefix_nil].
  rewrite (take_exact_app_r _ _ x _ _ E'). apply prefix_cons, IH.
Qed.

(** What the reader loop has delivered for part of a stream is part of what
    it delivers for the whole. *)
Lemma gateway_read_prefix i j : i `prefix_of` j -> gateway_read_loop i `prefix_of` gateway_read_loop j.
Proof.
  intros [x ->]. unfold gateway_read_loop.
  rewrite (fuel_enough i _ (length (i ++ x))) by (rewrite ?length_app; lia).
  apply gateway_read_fuel_app.
Qed.
End Protocol.

(** A TLS session over the bridge as its receiver sees it: the plaintext of
    the records received so far. TLS delivers in order and retracts nothing:
    more ciphertext only extends the plaintext. *)
Class TlsSession := plaintext : list byte -> list byte.
Class TlsSessionLaws `{TlsSession} := plaintext_mono i j :
  i `prefix_of` j -> plaintext i `prefix_of` plaintext j.

Section EndToEnd.
Context `{L : MinicborLaws} {TS : TlsSession} {TL : TlsSessionLaws}.

(** C30: the protocol runs through the bridge. When the firmware sends (a
    part of) a TLS stream that carries the framed messages [ms], the gateway's
    reader hands on, at any moment, exactly the first messages of [ms], and
    all of them once the thread has seen the end of the stream and everything
    was sent. *)
Theorem messages_cross_bridge es endpoint port b i s ms cipher :
  bridge_run es (started endpoint port) = Some b -> sessions b !! i = Some s ->
  Forall (fun m => client_ok m /\ frame_fits (encode_client m)) ms ->
  plaintext cipher = client_stream ms -> h_sent (to_gateway s) `prefix_of` cipher ->
  let received := gateway_read_loop (plaintext (h_out (to_gateway s))) in
  received `prefix_of` map Some ms /\
  (h_thread (to_gateway s) = Ended SawEof -> h_sent (to_gateway s) = cipher -> received = map Some ms).
Proof.
  intros H Hs Hms Hp Hsent received.
  destruct (half_ok_delivered _ (proj1 (run_session _ _ _ _ _ _ H Hs))) as (Hpre & Hall & _).
  assert (gateway_read_loop (client_stream ms) = map Some ms) as Hread.
  { rewrite <- (app_nil_r (client_stream ms)), gateway_read_stream by done. apply app_nil_r. }
  unfold received. split.
  - rewrite <- Hread, <- Hp. by apply gateway_read_prefix, plaintext_mono; trans (h_sent (to_gateway s)).
  - intros He Hc. destruct (Hall He) as [-> _]. by rewrite Hc, Hp.
Qed.
End EndToEnd.

(** ** Witnesses *)

Definition sample_copy : list half_event := [ReadReturns 2; WriteAccepts 1; WriteAccepts 1; ReadReturns 1; WriteAccepts 1; ReadReturns 0].

Definition sample_waiting : half := mkHalf [x01; x02; x03] [x01; x02; x03] true Reading [].
Definition sample_copied : half := mkHalf [x01; x02; x03] [] true (Ended SawEof) [x01; x02; x03].

Lemma forwarding_completes_witness :
  half_run [PeerSends [x01; x02; x03]; PeerCloses] half_new = Some sample_waiting /\
  half_run sample_copy sample_waiting = Some sample_copied /\ h_out sample_copied = h_sent sample_waiting.
Proof.
  split; [reflexivity|]. split; [reflexivity|].
  apply (forwarding_completes [PeerSends [x01; x02; x03]; PeerCloses] sample_waiting sample_copy sample_copied).
  - reflexivity.
  - reflexivity.
  - repeat constructor.
  - reflexivity.
  - intros e He. by destruct e as [| |[]| | |].
Defined.

(** Two sessions; the first firmware sends two bytes, of which the thread
    has forwarded one, and the gateway has answered the second one. *)
Definition sample_run : list bridge_event :=
  [BindDone true; Accepted (Connected 3); Accepted (Connected 3); Upstream 0 (PeerSends [x01; x02]);
   Downstream 1 (PeerSends [x07]); Upstream 0 (ReadReturns 2); Downstream 1 (ReadReturns 1);
   Upstream 0 (WriteAccepts 1); Downstream 1 (WriteAccepts 1)].

Definition sample_session : session := mkSession (mkHalf [x01; x02] [] false (Writing [x02]) [x01]) half_new.
Definition sample_bridge : bridge :=
  mkBridge "gw:8443" 40000 (Some 1%nat) Listening
    [sample_session; mkSession half_new (mkHalf [x07] [] false Reading [x07])].

Lemma bridge_transparent_witness :
  bridge_run sample_run (started "gw:8443" 40000) = Some sample_bridge /\
  delivered_in_order (to_gateway sample_session) /\ delivered_in_order (to_firmware sample_session).
Proof.
  assert (bridge_run sample_run (started "gw:8443" 40000) = Some sample_bridge) as H by (vm_compute; reflexivity).
  split; [exact H|].
  apply (bridge_transparent sample_run "gw:8443" 40000 sample_bridge 0); [exact H|reflexivity].
Defined.

Definition firmware_gone : list bridge_event :=
  [BindDone true; Accepted (Connected 3); Upstream 0 PeerCloses; Upstream 0 (ReadReturns 0)].

Lemma gateway_never_sees_eof_witness :
  exists b, bridge_run firmware_gone (started "gw:8443" 40000) = Some b /\ (1 <= gateway_handles b 0)%nat.
Proof.
  eexists. split; [reflexivity|].
  eapply (gateway_never_sees_eof firmware_gone "gw:8443" 40000); [reflexivity|done|reflexivity|by left].
Defined.

Lemma bind_failure_unreported_witness :
  exists b, bridge_run [BindDone false] (started "gw:8443" 40000) = Some b /\ sessions b = [].
Proof.
  eexists. split; [reflexivity|].
  eapply (proj2 (bind_failure_unreported "gw:8443" 40000 [] _)). reflexivity.
Defined.

(** A transport that does not transform the bytes, to run the example. *)
Definition clear_text : TlsSession := fun i => i.

Lemma clear_text_laws : @TlsSessionLaws clear_text.
Proof. by intros i j H. Qed.

Definition heartbeat_through : list bridge_event :=
  let n := length (client_stream (M := rfc8949) [CHeartbeat]) in
  [BindDone true; Accepted (Connected 3); Upstream 0 (PeerSends (client_stream (M := rfc8949) [CHeartbeat]));
   Upstream 0 PeerCloses; Upstream 0 (ReadReturns n); Upstream 0 (WriteAccepts n); Upstream 0 (ReadReturns 0)].

Definition heartbeat_bytes : list byte := Eval vm_compute in client_stream (M := rfc8949) [CHeartbeat].
Definition heartbeat_session : session :=
  mkSession (mkHalf heartbeat_bytes [] true (Ended SawEof) heartbeat_bytes) half_new.
Definition heartbeat_bridge : bridge := mkBridge "gw:8443" 40000 (Some 0%nat) Listening [heartbeat_session].

Lemma messages_cross_bridge_witness :
  bridge_run heartbeat_through (started "gw:8443" 40000) = Some heartbeat_bridge /\
  gateway_read_loop (M := rfc8949) (@plaintext clear_text (h_out (to_gateway heartbeat_session))) = map Some [CHeartbeat].
Proof.
  assert (bridge_run heartbeat_through (started "gw:8443" 40000) = Some heartbeat_bridge) as H
    by (vm_compute; reflexivity).
  split; [exact H|].
  apply (messages_cross_bridge (L := rfc8949_laws) (TL := clear_text_laws) heartbeat_through "gw:8443" 40000
           heartbeat_bridge 0 heartbeat_session [CHeartbeat] heartbeat_bytes).
  - exact H.
  - reflexivity.
  - repeat constructor; vm_compute; congruence.
  - vm_compute. reflexivity.
  - reflexivity.
  - reflexivity.
  - reflexivity.
Defined.

Example main_usage : bridge_main ["wasmbed-tcp-bridge"; "localhost:8443"] = ExitCode 1 /\
  bridge_main ["wasmbed-tcp-bridge"; "localhost:8443"; "70000"] = PanicExit "Bridge port must be a valid u16".
Proof. split; reflexivity. Qed.
