(* ===== verification/ProtocolTool.v ===== *)
(** * The decoder on the command line: [crates/wasmbed-protocol-tool], with the
    envelopes of [crates/wasmbed-protocol/src/lib.rs]

    The tool reads one captured envelope from its input, as hexadecimal or
    decimal text or as it is, and prints the message. The codec of an
    envelope is derived by minicbor and the [hex] crate reads hexadecimal
    text; both are parameters with their documented behaviour. *)

From stdpp Require Import pretty.
From S2P Require Import Prelude.
From S2P Require Import RustStd.
From S2P Require Import Minicbor.
From S2P Require Import Protocol.
From S2P Require Import Rfc8949.
From S2P Require Import ProtocolProofs.
From S2P Require Import Base64.
From S2P Require Import Decimal.
Local Open Scope Z_scope.

(** ** Envelopes *)

Inductive Version := V0.

Record Envelope (A : Type) := mkEnvelope { version : Version; message_id : Z; message : A }.
Arguments mkEnvelope {A}.

Definition ClientEnvelope : Type := Envelope ClientMessage.
Definition ServerEnvelope : Type := Envelope ServerMessage.

(** [MessageId::next] *)
Definition MessageId_next (id : Z) : Z := wrap32 (id + 1).

Section Codec.
Context `{M : Minicbor}.

Definition version_index (v : Version) : Z := match v with V0 => 0 end.

(** The derived encoding: an array of the fields in the order of their
    indices; [index_only] and [transparent] are the bare numbers. *)
Definition encode_envelope {A} (encode : A -> list byte) (e : Envelope A) : list byte :=
  e_array 3 ++ e_u32 (version_index (version _ e)) ++ e_u32 (message_id _ e) ++ encode (message _ e).

(** The derived decoding, with the decoder of the message. *)
Class EnvelopeDecode := decode_envelope : forall A, decoder A -> decoder (Envelope A).

(** Encoded envelopes are read back; a field that is missing and a variant
    that does not exist are errors. *)
Class EnvelopeLaws (D : EnvelopeDecode) : Prop := {
  envelope_read A (d : decoder A) id bs m r :
    is_u32 id -> (forall r, d (bs ++ r) = Ok (m, r)) ->
    decode_envelope A d (e_array 3 ++ e_u32 0 ++ e_u32 id ++ bs ++ r) = Ok (mkEnvelope V0 id m, r);
  envelope_missing A (d : decoder A) n r :
    0 <= n < 3 -> is_ok (decode_envelope A d (e_array n ++ r)) = false;
  envelope_variant A (d : decoder A) n v r :
    is_u64 n -> is_u32 v -> v <> 0 -> is_ok (decode_envelope A d (e_array n ++ e_u32 v ++ r)) = false;
}.

(** ** The tool *)

Class Hex := hex_text : string -> option (list byte).
Class HexLaws (X : Hex) : Prop := { hex_text_bytes bs : hex_text (hex_bytes bs) = Some bs }.

Inductive Format := DecimalText | Hexadecimal | Binary.
Inductive MessageType := Client | Server.

Inductive tool_error := StdinUnreadable | HexUnparsable | DecUnparsable (s : string) | ClientUndecodable | ServerUndecodable.
Inductive decoded := ClientDecoded (e : ClientEnvelope) | ServerDecoded (e : ServerEnvelope).

Fixpoint parse_bytes (l : list string) : result tool_error (list byte) :=
  match l with
  | [] => Ok []
  | s :: l =>
      match parse_uint 255 s with
      | None => Err (DecUnparsable s)
      | Some n => let? bs := parse_bytes l in Ok (byte_of n :: bs)
      end
  end.

Context {X : Hex} {D : EnvelopeDecode}.

(** The bytes the input stands for. *)
Definition input_bytes (f : Format) (input : string) : result tool_error (list byte) :=
  match f with
  | Hexadecimal => match hex_text (trim input) with Some bs => Ok bs | None => Err HexUnparsable end
  | DecimalText => parse_bytes (split_whitespace input)
  | Binary => Ok (str_bytes (trim input))
  end.

Definition decode_as (t : MessageType) (bs : list byte) : result tool_error decoded :=
  match t with
  | Client => match from_payload (decode_envelope _ decode_client) bs with
              | Ok e => Ok (ClientDecoded e) | Err _ => Err ClientUndecodable end
  | Server => match from_payload (decode_envelope _ decode_server) bs with
              | Ok e => Ok (ServerDecoded e) | Err _ => Err ServerUndecodable end
  end.

(** [main]: what is printed; [read_to_string] refuses bytes that are not
    UTF-8. *)
Definition protocol_tool (f : Format) (t : MessageType) (stdin : list byte) : result tool_error decoded :=
  if utf8_valid stdin then
    let? bs := input_bytes f (bytes_str stdin) in decode_as t bs
  else Err StdinUnreadable.

(** ** What the text stands for *)

(** The input is [bs] in one of the two textual formats. *)
Definition written_as (f : Format) (input : string) (bs : list byte) : Prop :=
  match f with
  | Hexadecimal => trim input = hex_bytes bs
  | DecimalText => split_whitespace input = (fun b => pretty (byte_val b)) <$> bs
  | Binary => False
  end.

Lemma parse_bytes_pretty bs : parse_bytes ((fun b => pretty (byte_val b)) <$> bs) = Ok bs.
Proof.
  induction bs as [|b bs IH]; [done|]. cbn [fmap list_fmap parse_bytes].
  pose proof (byte_val_range b). rewrite parse_pretty by lia.
  change (list_fmap byte string (fun b => pretty (byte_val b)) bs) with ((fun b => pretty (byte_val b)) <$> bs).
  rewrite IH. simpl. by rewrite byte_of_val.
Qed.
Lemma written_input f input bs `{!HexLaws X} : written_as f input bs -> input_bytes f input = Ok bs.
Proof.
  destruct f; simpl; [| |done].
  - intros ->. apply parse_bytes_pretty.
  - intros ->. by rewrite hex_text_bytes.
Qed.

(** ** What is on the wire *)

(** Every message starts with its array header and its tag, and only the
    heartbeats have tag 0. *)
Definition headed (bs : list byte) : Prop :=
  exists n tag r, bs = e_array n ++ e_u32 tag ++ r /\ is_u64 n /\ is_u32 tag /\ (tag = 0 -> 0 <= n < 3).

Lemma headed_intro n tag r : is_u64 n -> is_u32 tag -> (tag = 0 -> 0 <= n < 3) -> headed (e_array n ++ e_u32 tag ++ r).
Proof. unfold headed. eauto 10. Qed.
Lemma headed_bare n tag : is_u64 n -> is_u32 tag -> (tag = 0 -> 0 <= n < 3) -> headed (e_array n ++ e_u32 tag).
Proof. rewrite <- (app_nil_r (e_u32 tag)). apply headed_intro. Qed.
Lemma client_headed m : headed (encode_client m).
Proof. destruct m; (apply headed_intro || apply headed_bare); by vm_compute. Qed.
Lemma server_headed m : headed (encode_server m).
Proof. destruct m; (apply headed_intro || apply headed_bare); by vm_compute. Qed.

Lemma headed_no_envelope A (d : decoder A) bs `{!EnvelopeLaws D} :
  headed bs -> is_ok (from_payload (decode_envelope A d) bs) = false.
Proof.
  intros (n & tag & r & -> & Hn & Ht & H0). unfold from_payload.
  assert (is_ok (decode_envelope A d (e_array n ++ e_u32 tag ++ r)) = false) as H.
  { destruct (decide (tag = 0)) as [->|]; [apply envelope_missing; auto|by apply envelope_variant]. }
  by destruct (decode_envelope A d _) as [[]|].
Qed.
End Codec.

(** ** Properties *)

Section Claims.
Context `{M : Minicbor} `{!MinicborLaws M} {X : Hex} {D : EnvelopeDecode} `{!HexLaws X} `{!EnvelopeLaws D}.

(** An envelope written out as hexadecimal or decimal text is printed as
    the envelope it was, while no message as it travels between a device and
    the gateway is read at all, in whichever format it is written out: the
    wire carries bare messages. *)
Theorem tool_reads_envelopes f t stdin id cm sm bs :
  utf8_valid stdin = true -> written_as f (bytes_str stdin) bs ->
  is_u32 id -> client_ok cm -> server_ok sm ->
  (bs = encode_envelope encode_client (mkEnvelope V0 id cm) ->
   protocol_tool f Client stdin = Ok (ClientDecoded (mkEnvelope V0 id cm))) /\
  (bs = encode_envelope encode_server (mkEnvelope V0 id sm) ->
   protocol_tool f Server stdin = Ok (ServerDecoded (mkEnvelope V0 id sm))) /\
  ((exists m, bs = encode_client m) \/ (exists m, bs = encode_server m) ->
   is_ok (protocol_tool f t stdin) = false).
Proof.
  intros Hutf Hw Hid Hc Hs. unfold protocol_tool. rewrite Hutf, (written_input _ _ _ Hw). cbn [rbind].
  split_and!.
  - intros ->. unfold decode_as, from_payload, encode_envelope. simpl.
    rewrite <- (app_nil_r (encode_client cm)).
    by rewrite (envelope_read _ _ _ _ cm) by (auto using client_roundtrip).
  - intros ->. unfold decode_as, from_payload, encode_envelope. simpl.
    rewrite <- (app_nil_r (encode_server sm)).
    by rewrite (envelope_read _ _ _ _ sm) by (auto using server_roundtrip).
  - intros Hwire. assert (headed bs) as Hh by (destruct Hwire as [[m ->]|[m ->]]; auto using client_headed, server_headed).
    destruct t; simpl.
    + pose proof (headed_no_envelope _ decode_client _ Hh). by destruct (from_payload _ _).
    + pose proof (headed_no_envelope _ decode_server _ Hh). by destruct (from_payload _ _).
Qed.
End Claims.

(** As raw bytes an envelope is never read: its first byte, the header of an
    array of three, is no first byte of UTF-8 text. *)
Theorem binary_envelope_refused {A} {X : Hex} {D : EnvelopeDecode (M := rfc8949)} (encode : A -> list byte)
    (e : Envelope A) f t r :
  protocol_tool (M := rfc8949) f t (encode_envelope (M := rfc8949) encode e ++ r) = Err StdinUnreadable.
Proof.
  assert (forall rest, utf8_valid (Byte.x83 :: rest) = false) as H by (intros [|? [|? [|? ?]]]; reflexivity).
  unfold protocol_tool, encode_envelope. rewrite <- !app_assoc.
  change (e_array 3) with [Byte.x83]. cbn [app]. by rewrite H.
Qed.

(** ** The derived decoder, for RFC 8949 *)

(** Definite and complete arrays; further elements are skipped. *)
Definition derived_decode `{M : Minicbor} : EnvelopeDecode := fun A d i =>
  match lib d_array i with
  | Ok (Some n, i) =>
      if n <? 3 then Err (Custom (UnexpectedArrayLength 3 n))
      else
        match lib d_u32 i with
        | Ok (v, i) =>
            if negb (v =? 0) then Err (Custom (UnknownTag v))
            else
              match lib d_u32 i with
              | Ok (id, i) => match d i with Ok (m, i) => Ok (mkEnvelope V0 id m, i) | Err e => Err e end
              | Err e => Err e
              end
        | Err e => Err e
        end
  | Ok (None, _) => Err (Custom UnexpectedIndefiniteLengthArray)
  | Err e => Err e
  end.

Lemma derived_laws `{M : Minicbor} `{!MinicborLaws M} : EnvelopeLaws derived_decode.
Proof.
  assert (forall n, 0 <= n < 3 -> is_u64 n) as Hsmall by (intros; widths).
  split; intros A d; intros * ?; intros; unfold decode_envelope, derived_decode, lib.
  - rewrite d_array_enc by widths. simpl. rewrite d_u32_enc by widths. simpl.
    rewrite d_u32_enc by done. by rewrite H0.
  - rewrite d_array_enc by auto. destruct (Z.ltb_spec n 3); [done|lia].
  - rewrite d_array_enc by done. destruct (n <? 3); [done|].
    rewrite d_u32_enc by done. by destruct (Z.eqb_spec v 0).
Qed.

(** ** A concrete run *)

Definition lower_hex : Hex := hex_decode.
Lemma lower_hex_laws : HexLaws lower_hex.
Proof. split. apply hex_decode_bytes. Qed.

(** A heartbeat in an envelope, and bare: as text with a final newline. *)
Definition enveloped : string := ("8300078100" ++ String (Ascii.ascii_of_nat 10) EmptyString)%string.
Definition bare : string := ("129 0" ++ String (Ascii.ascii_of_nat 10) EmptyString)%string.

Example tool_runs :
  protocol_tool (M := rfc8949) (X := lower_hex) (D := derived_decode) Hexadecimal Client (str_bytes enveloped) =
    Ok (ClientDecoded (mkEnvelope V0 7 CHeartbeat)) /\
  protocol_tool (M := rfc8949) (X := lower_hex) (D := derived_decode) DecimalText Client (str_bytes bare) =
    Err ClientUndecodable.
Proof. vm_compute. split; reflexivity. Qed.

Lemma tool_reads_envelopes_witness :
  protocol_tool (M := rfc8949) (X := lower_hex) (D := derived_decode) Hexadecimal Client (str_bytes enveloped) =
    Ok (ClientDecoded (mkEnvelope V0 7 CHeartbeat)) /\
  is_ok (protocol_tool (M := rfc8949) (X := lower_hex) (D := derived_decode) DecimalText Server (str_bytes bare)) = false.
Proof.
  pose proof lower_hex_laws. pose proof (derived_laws (M := rfc8949)).
  split.
  - apply (tool_reads_envelopes (M := rfc8949) (X := lower_hex) (D := derived_decode) Hexadecimal Client (str_bytes enveloped) 7 CHeartbeat SHeartbeatAck
      (encode_envelope (M := rfc8949) encode_client (mkEnvelope V0 7 CHeartbeat)));
      [vm_compute; reflexivity|vm_compute; reflexivity|split; vm_compute; discriminate|exact I|exact I|reflexivity].
  - apply (tool_reads_envelopes (M := rfc8949) (X := lower_hex) (D := derived_decode) DecimalText Server (str_bytes bare) 7 CHeartbeat SHeartbeatAck
      (encode_client (M := rfc8949) CHeartbeat));
      [vm_compute; reflexivity|vm_compute; reflexivity|split; vm_compute; discriminate|exact I|exact I|left; by exists CHeartbeat].
Defined.
