(* ===== verification/ResourceTool.v ===== *)
(** * The manifest generator: [crates/wasmbed-k8s-resource-tool]

    Device and Application manifests from files. What is printed is the YAML
    of the object built here; serde_yaml and the generated definitions of the
    custom resources are parameters. The theorems follow a manifest into the
    cluster: an Application reaches its devices with the bytes of its file, a
    Device is never recognised by the gateway. *)

From Stdlib Require Import Strings.Ascii.
From S2P Require Import Prelude.
From S2P Require Import RustStd.
From S2P Require Import Text.
From S2P Require Import Externals.
From S2P Require Import Base64.
From S2P Require Import Protocol.
From S2P Require Import K8s.
From S2P Require Import KubeStore.
From S2P Require Import K8sProofs.
From S2P Require Import Registry.
From S2P Require Import Gateway.
From S2P Require Import GatewaySteps.
From S2P Require Import EnrollmentProofs.
From S2P Require Import HttpApi.
From S2P Require Import HttpApiProofs.
From S2P Require Import EdgeClient.
From S2P Require Import Certificates.
Local Open Scope Z_scope.

(** ** The tool *)

Inductive Resource := RDevice | RApplication.
Inductive ManifestResource :=
| MDevice (name certificate : string)
| MApplication (name app_name : string) (description : option string) (wasm_file target_devices : string).
Inductive ToolCommand := GenerateCrd (r : Resource) | GenerateManifest (r : ManifestResource).

Inductive manifest_error := CertificateUnreadable (path : string) | CertificateUndecodable | WasmUnreadable (path : string)
| YamlFailed.

(** [str::split(',')]: as many pieces as commas, and one more. *)
Fixpoint split_comma (s : string) : list string :=
  match s with
  | EmptyString => [EmptyString]
  | String a s =>
      if Ascii.eqb a ","%char then EmptyString :: split_comma s
      else match split_comma s with
           | [] => [String a EmptyString]
           | p :: ps => String a p :: ps
           end
  end.

Definition target_names (target_devices : string) : list string :=
  List.filter (fun s => negb (String.eqb s "")) (trim <$> split_comma target_devices).

Section Tool.
Context `{B : Base64} `{C : CertReader}.
Variable fs : string -> option (list byte).

(** [public_key.to_string()] is the [Display] form. *)
Definition device_manifest (name certificate : string) : result manifest_error Device :=
  match fs certificate with
  | None => Err (CertificateUnreadable certificate)
  | Some cert =>
      match PublicKey_try_from cert with
      | None => Err CertificateUndecodable
      | Some key =>
          Ok (mkDevice (Some name) None
                (mkDeviceSpec (PublicKey_display key) (Some "Mps2An385"%string) None None None) None)
      end
  end.

Definition application_manifest (name app_name : string) (description : option string)
    (wasm_file target_devices : string) : result manifest_error Application :=
  match fs wasm_file with
  | None => Err (WasmUnreadable wasm_file)
  | Some wasm =>
      Ok (mkApplication (Some name)
            (mkApplicationSpec app_name description (std_encode wasm)
               (mkTargetDevices (Some (target_names target_devices)) None None) None None None) None)
  end.

(** [main]: what is written to the output. *)
Variable crd_yaml : Resource -> option string.
Variable device_yaml : Device -> option string.
Variable application_yaml : Application -> option string.

Definition yaml_or_fail (y : option string) : result manifest_error string :=
  match y with Some y => Ok y | None => Err YamlFailed end.

Definition resource_tool (c : ToolCommand) : result manifest_error string :=
  match c with
  | GenerateCrd r => yaml_or_fail (crd_yaml r)
  | GenerateManifest (MDevice name certificate) =>
      let? d := device_manifest name certificate in yaml_or_fail (device_yaml d)
  | GenerateManifest (MApplication name app_name description wasm_file target_devices) =>
      let? a := application_manifest name app_name description wasm_file target_devices in
      yaml_or_fail (application_yaml a)
  end.
End Tool.

(** ** Target lists *)

Fixpoint join_comma (l : list string) : string :=
  match l with
  | [] => EmptyString
  | [s] => s
  | s :: l => (s ++ String ","%char (join_comma l))%string
  end.

(** A name that can be given in a list: trimmed, not empty, no comma. *)
Fixpoint no_comma (s : string) : bool :=
  match s with EmptyString => true | String a s => negb (Ascii.eqb a ","%char) && no_comma s end.
Definition listable (s : string) : Prop := trim s = s /\ s <> EmptyString /\ no_comma s = true.

Lemma split_comma_cons s r :
  no_comma s = true -> split_comma (s ++ String ","%char r)%string = s :: split_comma r.
Proof.
  induction s as [|a s IH]; [done|].
  change (String a s ++ String "," r)%string with (String a (s ++ String "," r)).
  simpl. intros [Ha Hs]%andb_true_iff. apply negb_true_iff in Ha. by rewrite Ha, IH.
Qed.
Lemma split_comma_one s : no_comma s = true -> split_comma s = [s].
Proof.
  induction s as [|a s IH]; [done|]. simpl. intros [Ha Hs]%andb_true_iff.
  apply negb_true_iff in Ha. by rewrite Ha, IH.
Qed.

Lemma filter_trim_listable l :
  Forall listable l -> List.filter (fun s => negb (String.eqb s "")) (trim <$> l) = l.
Proof.
  induction 1 as [|s l (Ht & Hne & _) _ IH]; [done|]. cbn [fmap list_fmap List.filter]. rewrite Ht.
  destruct (String.eqb_spec s ""); [done|]. cbn [negb]. by f_equal.
Qed.

Lemma target_names_join l : Forall listable l -> target_names (join_comma l) = l.
Proof.
  intros Hl. unfold target_names. destruct l as [|s0 l0] eqn:E; [done|]. rewrite <- E in *.
  assert (split_comma (join_comma l) = l) as ->; [|by apply filter_trim_listable].
  assert (l <> []) as Hne by (by subst). clear E s0 l0.
  induction Hl as [|s l (_ & _ & Hc) Hl IH]; [done|]. destruct l as [|s' l]; [by apply split_comma_one|].
  change (join_comma (s :: s' :: l)) with (s ++ String "," (join_comma (s' :: l)))%string.
  rewrite split_comma_cons by done. f_equal. by apply IH.
Qed.

(** ** From the file to the device *)

Section Applications.
Context {W : Type} `{K : Kube W} `{B : Base64} `{!Base64Laws B} `{H : Sha256} {O : HashOrder}.
Variable env : nat -> HttpApiServer * W -> HttpApiServer * W.
Variables (closed : string) (decode_error : string -> string).
Implicit Types (st : HttpApiServer * W).

(** An application whose manifest the tool made targets exactly the
    devices that were listed, and a gateway that deploys the object as it is
    stored puts the bytes of the module file on the channel of the device
    with their digest; the edge client that receives them answers for the
    same bytes, with success exactly when they are a WASM module, and then
    runs them under the name of the object. *)
Theorem manifest_reaches_device fs name app_name description file names app
    clk d st resp st' t open now st2 snd msg memory arch fresh r :
  application_manifest fs name app_name description file (join_comma names) = Ok app ->
  Forall listable names ->
  app_get st.2 name = Ok app ->
  deploy_application env decode_error clk d name st = (resp, st', Some t) ->
  (deploy_task closed open now t st2).1 = Some (snd, msg) ->
  exists wasm, fs file = Some wasm /\
    (forall n, targets_device app n = true <-> n ∈ names) /\
    msg = SDeployApplication name name (sha256 wasm) wasm None /\
    exists err, let '(out, r', _) := handle_server_message memory arch fresh msg r in
      out = [CApplicationDeployAck name (validate_wasm_magic wasm) err] /\
      (validate_wasm_magic wasm = true -> handles r' !! name = Some fresh).
Proof.
  unfold application_manifest. intros Hm Hl Hget Hdep Htask.
  destruct (fs file) as [wasm|]; [|done]. injection Hm as <-. exists wasm. split; [done|].
  pose proof (deploy_delivers env closed decode_error _ _ _ _ _ _ _ open now st2 Hdep)
    as (_ & _ & app & wasm' & Happ & Hwasm & Hmsg).
  rewrite Happ in Hget. injection Hget as ->. simpl in Hwasm. rewrite std_decode_encode in Hwasm. simplify_eq.
  destruct (Hmsg _ _ Htask) as [-> _]. split; [|split; [done|]].
  - intros n. unfold targets_device. simpl. rewrite target_names_join by done. by rewrite bool_decide_eq_true.
  - simpl. rewrite bool_decide_true by done. unfold runner_deploy.
    destruct (runner_stop name r) as [[? r1] aborted]. destruct (validate_wasm_magic wasm'); simpl;
      eexists; (split; [reflexivity|]); [intros _; by rewrite lookup_insert_eq|done].
Qed.
End Applications.

(** ** A device from a manifest *)

Lemma display_not_stored `{B : Base64} key : PublicKey_display key <> PublicKey_to_base64 key.
Proof.
  intros E%(f_equal String.length). unfold PublicKey_display in E.
  rewrite length_append, length_append in E. simpl in E. lia.
Qed.

Section Devices.
Context {W : Type} `{K : Kube W} {view : W -> gmap string Device} `{L : !KubeStoreLaws K view}.
Context `{B : Base64} `{C : CertReader} `{U : UuidParse}.

(** C33: the device whose manifest the tool made from its certificate is not
    recognised when it proves possession of its key: unless another object
    stores that key, the peer is either rejected, with the registry as it
    was, or enrolled as a second Device object. *)
Theorem manifest_device_unrecognised fs name cert_file cert key d cb inp c s (w : W) rs s' w' :
  device_manifest fs name cert_file = Ok d -> fs cert_file = Some cert -> PublicKey_try_from cert = Some key ->
  (forall n d', view w !! n = Some d' -> n <> name -> public_key (d_spec d') <> PublicKey_to_base64 key) ->
  view w !! name = Some d ->
  complete_enrollment cb inp key c s w = (rs, s', w') ->
  (exists reason, rs = [rejected reason] /\ s' = s) \/
  (exists other d2, other <> name /\ view w' = <[other := d2]> (view w) /\ public_key (d_spec d2) = PublicKey_to_base64 key /\
     connection_to_device s' !! c = Some other).
Proof.
  unfold device_manifest. intros Hm Hf Hk Hother Hd He. rewrite Hf, Hk in Hm. injection Hm as <-.
  destruct (Device_find w key) as [[d'|]|e] eqn:Hfind.
  - apply Device_find_some in Hfind as [(n & Hn & Hv) Hkey]. destruct (decide (n = name)) as [->|Hne].
    + rewrite Hd in Hv. injection Hv as <-. by apply display_not_stored in Hkey.
    + by destruct (Hother n d' Hv Hne).
  - destruct (new_enrollment _ _ _ _ _ _ _ _ _ Hfind He) as [(r & -> & _ & ->)|(_ & _ & Hc & d2 & Hd2 & Hnone & Hv)];
      [left; by eexists|right].
    eexists _, d2. split_and!; [|exact Hv|by apply Hd2|rewrite Hc; apply lookup_insert_eq].
    intros E. rewrite E, Hd in Hnone. done.
  - unfold complete_enrollment in He. rewrite Hfind in He. injection He as <- <- <-. left. by eexists.
Qed.
End Devices.

#[local] Existing Instance map_order.

(** ** Concrete manifests *)

Definition demo_wasm : list byte := map byte_of [0; 97; 115; 109].
Definition demo_files (path : string) : option (list byte) :=
  if String.eqb path "app.wasm" then Some demo_wasm else if String.eqb path "dev.crt" then Some enroll_key else None.

Definition manifest_app : Application :=
  mkApplication (Some "app"%string)
    (mkApplicationSpec "Demo" None "AGFzbQ==" (mkTargetDevices (Some ["device-a"; "device-b"]%string) None None) None None None)
    None.
Definition manifest_cluster : cluster :=
  mkCluster (<["device-a"%string := sample_device "device-a" "AQ" None]> ∅) (<["app"%string := manifest_app]> ∅).

Lemma manifest_reaches_device_witness :
  exists msg, msg = SDeployApplication "app" "app" (sha256 (Sha256 := toy_sha256) demo_wasm) demo_wasm None /\
    (forall n, targets_device manifest_app n = true <-> n ∈ ["device-a"; "device-b"]%string).
Proof.
  pose (r := deploy_application (K := mem_kube) (B := base64) no_env (fun _ => ""%string) http_clock "device-a" "app"
               (http_server, manifest_cluster)).
  pose (t := mkDeployTask "device-a" "app" demo_wasm None).
  pose (msg := SDeployApplication "app" "app" (sha256 (Sha256 := toy_sha256) demo_wasm) demo_wasm None).
  destruct (manifest_reaches_device (K := mem_kube) (B := base64) (H := toy_sha256) no_env "closed" (fun _ => ""%string)
    demo_files "app" "Demo" None "app.wasm" ["device-a"; "device-b"]%string manifest_app
    http_clock "device-a" (http_server, manifest_cluster) r.1.1 r.1.2 t (fun _ => true) "t3" r.1.2 9 msg 0 "arch" 1
    WasmRunner_new) as (wasm & Hw & Ht & Hm & _).
  - vm_compute. reflexivity.
  - repeat constructor; done.
  - reflexivity.
  - apply triple_eta_last. vm_compute. reflexivity.
  - vm_compute. reflexivity.
  - exists msg. split; [reflexivity|exact Ht].
Defined.

(** The certificate of the device holds the key its peer proves. *)
#[local] Instance bare_reader : CertReader :=
  {| read_certificate d := Some (mkContent [] [] false [] [] d); verifies _ _ := true |}.

Definition manifest_device : Device :=
  mkDevice (Some "dev"%string) None
    (mkDeviceSpec (PublicKey_display (H := base64) enroll_key) (Some "Mps2An385"%string) None None None) None.
Definition device_cluster : cluster := mkCluster (<["dev"%string := manifest_device]> ∅) ∅.

Lemma manifest_device_unrecognised_witness :
  exists reason,
    (complete_enrollment (K := mem_kube) (B := base64) (U := hex_uuid) enroll_cb (enroll_inputs 1) enroll_key "c1"
       HttpApiServer_new device_cluster).1.1 = [rejected reason].
Proof.
  set (r := complete_enrollment (K := mem_kube) (B := base64) (U := hex_uuid) enroll_cb (enroll_inputs 1) enroll_key "c1"
              HttpApiServer_new device_cluster).
  destruct (manifest_device_unrecognised (K := mem_kube) (B := base64) (U := hex_uuid) (view := store_view) demo_files "dev" "dev.crt" enroll_key enroll_key
    manifest_device enroll_cb (enroll_inputs 1) "c1" HttpApiServer_new device_cluster r.1.1 r.1.2 r.2)
    as [(reason & Hr & _)|(other & d2 & _ & _ & _ & Hc)].
  - vm_compute. reflexivity.
  - reflexivity.
  - reflexivity.
  - intros n d'. change (store_view device_cluster) with (<["dev"%string := manifest_device]> (∅ : gmap string Device)).
    intros Hn Hne. by rewrite lookup_insert_ne, lookup_empty in Hn.
  - reflexivity.
  - by apply triple_eta.
  - exists reason. exact Hr.
  - vm_compute in Hc. discriminate.
Defined.
